(* ===== verification/_CoqProject ===== *)
-Q . S2P
Prelude.v
Geometry.v
Image.v
VDrive.v
Bam.v
BamSpec.v
BamAlloc.v
AllocSpec.v
Cbmdos.v
CbmdosSpec.v
Partition.v
PartitionSpec.v
PackSpec.v
SelectSpec.v
Directory.v
DirSpec.v
ScratchSpec.v
Channel.v
ChannelSpec.v
RelFile.v
RelSpec.v
Command.v
Copy.v
Unit.v
ValidateSpec.v
Gcr.v
GcrSpec.v
FluxSpec.v
FormatSpec.v
TracksSpec.v
GcrFile.v
Probe.v
Create.v
Attach.v
ProbeSpec.v
CreateSpec.v
GcrFileSpec.v
Charset.v
CharsetSpec.v
Contents.v
ContentsSpec.v
