(* ===== verification/Prelude.v ===== *)
(** * Meatloaf virtual drive: verification library

    Meatloaf serves disk images to a Commodore computer. The part that behaves like
    a disk drive, [src/lib/vdrive] (C, derived from VICE), keeps the on-disk data
    structures: image files with their geometry and error maps, partitions, the
    block availability map (BAM), directories and files. This library models it and
    proves what it promises, and where it breaks the promise.

    ** The parts and how they interact

    Each part has a file of definitions, translated function by function under the
    names of the C code, and files of specifications.

    - [Geometry] ([diskimage.c], [fsimage-check.c], [diskconstants.h]): the tables
      of the image types and the number of the block of an address.
    - [Image] ([fsimage-dxx.c], [fsimage.c], [diskimage.c], [util.c]): reading and
      writing a sector in the file of a linear image, with its error map.
    - [VDrive] ([vdrive.c], [vdrive.h]): the state [vdrive_t] of a drive, the mapping
      of logical sectors to the image, sector access, the constants of the formats.
    - [Bam], [BamSpec] ([vdrive-bam.c]): loading, writing and changing the BAM;
      the BAM as a finite set of free sectors.
    - [BamAlloc], [AllocSpec] ([vdrive-bam.c]): the searches for a free sector and
      the allocation of a chain. They are proved against the interface [FreeMap] and
      [Allocator], which [Bam] implements.
    - [Cbmdos], [CbmdosSpec] ([cbmdos.c]): file names, wildcards, the two command
      parsers, error texts and codes.
    - [Partition], [PartitionSpec], [SelectSpec], [PackSpec] ([vdrive.c]): the
      partition table of CMD images, the selection and the packing of partitions.
    - [Directory], [DirSpec], [ScratchSpec] ([vdrive-dir.c], [vdrive_rel_scratch] of
      [vdrive-rel.c], [vdrive_iec_switch] of [vdrive-iec.c]): searching, extending
      and listing a directory, removing an entry and its sectors.

    - [Channel], [ChannelSpec] ([vdrive-iec.c], [vdrive.c]): the channels of a drive,
      opening, reading, writing and closing of files and listings.
    - [RelFile], [RelSpec] ([vdrive-rel.c]): relative files: side sectors, records, growing. The
      channels call its operations through the class [Relative].
    - [Gcr], [GcrSpec], [FluxSpec], [FormatSpec], [TracksSpec] ([gcr.c],
      [fsimage_read_dxx_image] of [fsimage-dxx.c]): group coded recording, the search
      for a sector on a raw track, and the tracks made from a disk image.
    - [Command], [ValidateSpec] ([vdrive-command.c]): the commands that work on one drive,
      among them scratching, renaming, paths, partitions and the validation of the BAM.
    - [Copy] ([vdrive_command_copy] of [vdrive-command.c]): the concatenation of files to
      a new one. What it finds in its structures on the stack is the class [Stack].
    - [Unit] ([vdrive-command.c], [vdrive_iec_open] and [vdrive_iec_flush] of
      [vdrive-iec.c]): the drive with its sixteen channels, the commands that reach
      them, the interpreter of commands and the opening of a channel by a name.
    - [GcrFile], [GcrFileSpec] ([fsimage-gcr.c], [util.c]): the files of raw tracks (G64, G71),
      with the static variables that outlive a call.
    - [Probe], [ProbeSpec] ([fsimage-probe.c], [fsimage.c]): opening an image file and
      recognising its type. The files of the host are the class [Host].
    - [Create], [CreateSpec] ([fsimage-create.c]): the files of new images.
    - [Attach] ([vdrive.c], [vdrive-internal.c]): setting up a drive, attaching and detaching
      an image, creating and formatting one.
    - [Charset], [CharsetSpec] ([charset.c], [util.c]): PETSCII, ASCII, screen codes and UTF-8.
    - [Contents], [ContentsSpec] ([diskcontents-block.c], [diskcontents.c], [imagecontents.c]):
      the listing of an image for the host.

    A sector access of a client goes through [VDrive.vdrive_read_sector] to
    [Image.disk_image_read_sector], which numbers the block with [Geometry]; the BAM
    and the partition table are read and written the same way; a directory search
    uses [Cbmdos] for the names and [Bam] and [BamAlloc] to grow the directory. A
    channel of a file reads and writes the sectors of its chain, allocates them with
    [BamAlloc] and keeps its entry of the [Directory]. The raw tracks are made from the
    file of an image with the tables of [Geometry], and accessed without the drive.
    [Attach] opens an image with [Probe] and [Create], makes it the image of a drive of
    [VDrive] with the partition table of [Partition], and formats it with a command of [Unit].
    [Contents] attaches an image this way and reads its directory without a search context.

    ** How C is represented

    - An integer is a [Z]; where the code relies on a width, the wrap-around is
      written out ([u8], [u32], [s32]); the product that gives the offset of a sector has no
      value when it leaves the range of [int] ([int_mul]).
    - A block of memory is a [mem], the list of its cells; an access outside it is
      undefined behaviour and has no value ([getb], [putb], [slice], [splice]). What
      [lib_malloc] returns is filled by a parameter of the model.
    - Stateful code is a computation in [ST], state passing with failure: [None] is
      undefined behaviour (or lack of fuel), never an error code of the program. An
      error code is an ordinary result.
    - Code outside [src/lib/vdrive] is the class [Platform] of file [Image]: the
      contents of fresh memory and the sector access of flux-level images (G64, G71, P64),
      because it depends on static variables; [GcrFile] models it for G64 and G71 with
      these variables in the state. The file of an image is a function from positions to
      bytes with a size.
    - Unbounded loops take fuel. The theorems say how much is enough: more than the
      number of free sectors to follow a chain, nine times the sectors of the partition
      for a validation, more than the number of allocated sectors to scratch a chain, more than the number of entries for a
      directory search, more than the number of sectors that its links lead to for a listing, more than the length of a record to fill it, 32 rounds for packing, more than the bits of a raw track for
      the search of a header, one round for a raw track with its own number in its headers. Where no amount is enough, that is a theorem ([DirSpec.search_circular], [PackSpec.pack_foreign_diverges]).

    ** What is proved

    - Addresses: the block numbers are a bijection ([check_sector_bijective],
      [check_sector_bounds]); logical sectors lie inside their partition, writes to
      one partition do not reach another ([log_to_phy_in_partition],
      [partitions_isolated]), and a selected partition meets the conditions of these
      theorems ([change_part_establishes]).
    - Data: what is written is read back, other sectors keep their contents
      ([write_read_same], [write_read_other], [drive_write_read]), errors are
      reported as documented ([read_sector_code], [write_protected],
      [drive_not_writable]).
    - Allocation: any sequence of allocations and releases behaves as on a set
      ([bam_refines_set], [query_exact], [allocate_release]); the searches are complete and return free sectors
      ([next_free_complete], [first_free_complete], [alloc_worker_first_free]);
      following and releasing chains ends, whatever the links are, as long as the BAM and
      the error map have the sectors that they lead to ([allocate_chain_ends],
      [scratch_exact]); the free block count keeps the error of the counts on the disk
      ([free_block_count_exact]).
    - Names: printed names are parsed back, patterns match what their meaning says,
      the parsers stay inside their strings ([parse_printed_name],
      [wildcard_compare_matches], [command_parse_plus_defined]).
    - Validation: the map that the command [V] makes is the one that the chains of the
      directory and of the files imply, or the old one ([validate_exact]); the signature
      of a GEOS disk is lost ([clear_forgets_geos]).
    - Tables: the partition table survives a write and a read, packing closes the
      gaps, a directory search returns exactly the matching entries
      ([partition_table_roundtrip], [pack_closes_gaps], [search_enumerates]).
    - Channels: the bytes written to a new file are read back through another channel,
      and its sectors are its own ([file_roundtrip]); where that fails
      ([empty_file_not_empty], [write_after_end]).
    - Relative files: opening, positioning, reading, writing and closing behave as on an
      array of records of up to 127 bytes ([rel_refines_array]); longer records are read
      behind the buffer ([long_record_overrun]), and a sector that cannot be read makes the
      filling of a record endless ([fill_never_ends]).
    - Flux: on the raw tracks made from an image any sequence of sector accesses
      behaves as on the map of its sectors ([dxx_tracks_refine]); a block survives
      encoding at any bit position ([block_roundtrip]); the search ends
      ([header_search_ends]), but an error spoils the next one
      ([failed_search_breaks_next]).
    - Image files: a file of the size of a linear image is recognised with its tracks and
      has all its sectors ([recognised_well_formed]), except D71 with error information
      ([d71_errors_refused]); a created image is recognised as what it was created for
      ([created_recognised]). A created G64 file behaves as the map of its sectors
      ([created_g64_refines]), as long as the accessed tracks have one length
      ([created_g64_overrun]); the numbers in its headers can keep the program from
      ending ([follow_never_ends]).
    - The host: the listing of a directory ends, also on a circle of links, and has each file of the
      sectors it meets once ([listing_exact]); text survives the way to PETSCII and back
      ([text_roundtrip]); the conversion to UTF-8 is exact or writes behind its buffer
      ([utf8_conversion_exact]).
    - Defects: undefined behaviour on concrete inputs ([error_map_overrun],
      [bam_overrun_1581], [digit_command_null], [trailing_comma_overrun],
      [options_after_free], [pattern_overrun], [part_type_overrun]), lost data and
      endless loops ([move_copies_nothing], [pack_foreign_diverges],
      [search_circular], [unknown_hard_error_reported_ok]).

    ** Not modelled

    P64 images, whose format is third-party code ([p64_read] and [p64_blank] stand for it);
    compressed files ([zfile.c]); the files of the host ([cbmfile.c], [cbmimage.c]), which are
    calls of its file system; logging, which has no effect on the state; the
    C++ adapters and the rest of the firmware (buses, network, web server, third-party
    code), which is C++ or drives hardware. *)

From stdpp Require Export base list numbers gmap sets.
From Stdlib Require Export ZArith Lia.

#[export] Set Default Goal Selector "!".
#[global] Open Scope Z_scope.

(** ** Machine integers

    A C integer of width [w] is a [Z]; the wrap-around of unsigned arithmetic
    is written out where the code relies on it. *)

Definition u8 (z : Z) : Z := z mod 256.
Definition u16 (z : Z) : Z := z mod 65536.
Definition u32 (z : Z) : Z := z mod 4294967296.
Definition s32 (z : Z) : Z := if u32 z <? 2147483648 then u32 z else u32 z - 4294967296.
Definition UINT32_MAX : Z := 4294967295.
Definition INT32_MAX : Z := 2147483647.
Definition b2z (b : bool) : Z := if b then 1 else 0.

(** A product of type [int]: an overflow is undefined behaviour. *)
Definition int_mul (a b : Z) : option Z :=
  if (-2147483648 <=? a * b) && (a * b <=? INT32_MAX) then Some (a * b) else None.

Lemma int_mul_small a b : -2147483648 <= a * b <= 2147483647 -> int_mul a b = Some (a * b).
Proof.
  intros [H1 H2]. unfold int_mul, INT32_MAX. by rewrite (proj2 (Z.leb_le _ _) H1), (proj2 (Z.leb_le _ _) H2).
Qed.

Lemma u32_small z : 0 <= z < 4294967296 -> u32 z = z.
Proof. intros. unfold u32. by rewrite Z.mod_small. Qed.


Abbreviation bytes_ok l := (Forall (fun z : Z => 0 <= z < 256) l).

(** ** Byte memory

    A block of memory (a C array or a heap block) is the list of its cells.
    Reading or writing outside the block is undefined behaviour in C: the
    accessors return [None] there, and a definition that performs the access
    returns [None] with it. *)

Abbreviation mem := (list Z).

Definition mlen (m : mem) : Z := Z.of_nat (length m).

Definition getb (m : mem) (i : Z) : option Z :=
  if 0 <=? i then m !! Z.to_nat i else None.

Definition putb (m : mem) (i v : Z) : option mem :=
  if (0 <=? i) && (i <? mlen m) then Some (<[Z.to_nat i := v]> m) else None.

(** [n] cells from offset [off] (the source of a [memcpy]) *)
Definition slice (m : mem) (off n : Z) : option mem :=
  if (0 <=? off) && (0 <=? n) && (off + n <=? mlen m)
  then Some (take (Z.to_nat n) (drop (Z.to_nat off) m)) else None.

(** the cells [bs] copied to offset [off] (the target of a [memcpy]) *)
Definition splice (m : mem) (off : Z) (bs : mem) : option mem :=
  if (0 <=? off) && (off + mlen bs <=? mlen m)
  then Some (take (Z.to_nat off) m ++ bs ++ drop (Z.to_nat off + length bs) m)
  else None.

Definition fill (m : mem) (off v n : Z) : option mem :=
  splice m off (replicate (Z.to_nat n) v).

#[global] Arguments mlen : simpl never.
#[global] Arguments getb : simpl never.
#[global] Arguments putb : simpl never.
#[global] Arguments slice : simpl never.
#[global] Arguments splice : simpl never.

(** ** State with undefined behaviour

    [ST S A] is C code over a state [S] that returns an [A]; [None] is
    undefined behaviour (an access outside a block, a null pointer, a division
    by zero) or, for a definition that takes fuel, fuel that ran out. *)

Definition ST (S A : Type) : Type := S -> option (A * S).

Definition bindST {S A B} (m : ST S A) (k : A -> ST S B) : ST S B := fun s =>
  match m s with Some (a, s') => k a s' | None => None end.

#[global] Instance ST_ret S : MRet (ST S) := fun A a s => Some (a, s).
#[global] Instance ST_bind S : MBind (ST S) := fun A B k m => bindST m k.

(** [let! x := m in k] runs [m] and then [k] on its result; [m;; k] ignores the
    result. *)
Declare Scope st_scope.
Delimit Scope st_scope with st.
Notation "'let!' x := m 'in' k" := (bindST m (fun x => k))
  (at level 10, x pattern, m at level 100, k at level 200) : st_scope.
#[global] Open Scope st_scope.

Definition ub {S A} : ST S A := fun _ => None.
Definition gets {S A} (f : S -> A) : ST S A := fun s => Some (f s, s).
Definition modify {S} (f : S -> S) : ST S unit := fun s => Some (tt, f s).
Definition lift {S A} (o : option A) : ST S A :=
  fun s => match o with Some a => Some (a, s) | None => None end.
(** an update that is undefined where [f] is *)
Definition update {S} (f : S -> option S) : ST S unit :=
  fun s => match f s with Some s' => Some (tt, s') | None => None end.

#[global] Arguments mret {_ _ _} _ /.
#[global] Arguments ST_ret _ _ _ _ /.
#[global] Arguments gets {_ _} _ _ /.
#[global] Arguments modify {_} _ _ /.
#[global] Arguments lift {_ _} _ _ /.
#[global] Arguments update {_} _ _ /.

(** the whole state *)
Definition state {S} : ST S S := fun s => Some (s, s).
#[global] Arguments state {_} _ /.

(** [for (i = lo; i < lo + n; i++) body]: the body returns [Some r] to leave
    the loop (a [break] or a [return] of [r]) and [None] to go on. *)
Fixpoint for_ {S R} (n : nat) (lo : Z) (body : Z -> ST S (option R)) : ST S (option R) :=
  match n with
  | O => mret None
  | S n' => let! r := body lo in
            match r with Some _ => mret r | None => for_ n' (lo + 1) body end
  end.

(** The same loop without an exit. *)
Fixpoint for_each {S} (n : nat) (lo : Z) (body : Z -> ST S unit) : ST S unit :=
  match n with
  | O => mret tt
  | S n' => body lo;; for_each n' (lo + 1) body
  end.

(** Total correctness: [m] runs from [s] without undefined behaviour, and its
    result and final state satisfy [Q]. *)
Definition wp {S A} (m : ST S A) (Q : A -> S -> Prop) (s : S) : Prop :=
  match m s with Some (a, s') => Q a s' | None => False end.

Section wp.
Context {S A B : Type}.
Implicit Types (m : ST S A) (Q : A -> S -> Prop) (s : S).

Lemma wp_run m Q s : wp m Q s <-> exists a s', m s = Some (a, s') /\ Q a s'.
Proof. unfold wp. destruct (m s) as [[a s']|]; naive_solver. Qed.

Lemma wp_mono m Q Q' s : wp m Q s -> (forall a s', Q a s' -> Q' a s') -> wp m Q' s.
Proof. unfold wp. destruct (m s) as [[a s']|]; naive_solver. Qed.

Lemma wp_bind m (k : A -> ST S B) (Q : B -> S -> Prop) s :
  wp (m ≫= k) Q s <-> wp m (fun a s' => wp (k a) Q s') s.
Proof. unfold wp, mbind, ST_bind, bindST. destruct (m s) as [[a s']|]; naive_solver. Qed.

Lemma wp_bindST m (k : A -> ST S B) (Q : B -> S -> Prop) s :
  wp (bindST m k) Q s <-> wp m (fun a s' => wp (k a) Q s') s.
Proof. apply (wp_bind m k Q s). Qed.

Lemma wp_ret (a : A) Q s : Q a s -> wp (mret a) Q s.
Proof. done. Qed.

Lemma wp_gets (f : S -> A) Q s : Q (f s) s -> wp (gets f) Q s.
Proof. done. Qed.

Lemma wp_lift (o : option A) Q s : (exists a, o = Some a /\ Q a s) -> wp (lift o) Q s.
Proof. intros (a & -> & ?). done. Qed.

Lemma wp_state (Q : S -> S -> Prop) s : Q s s -> wp state Q s.
Proof. done. Qed.

Lemma wp_modify (f : S -> S) (Q : unit -> S -> Prop) s : Q tt (f s) -> wp (modify f) Q s.
Proof. done. Qed.

Lemma wp_update (f : S -> option S) (Q : unit -> S -> Prop) s :
  (exists s', f s = Some s' /\ Q tt s') -> wp (update f) Q s.
Proof. intros (s' & Hf & HQ). unfold wp, update. by rewrite Hf. Qed.

Lemma bind_run m (k : A -> ST S B) s a s' : m s = Some (a, s') -> bindST m k s = k a s'.
Proof. unfold bindST. by intros ->. Qed.

(** A computed step is replaced by its result. *)
Lemma wp_eq m Q s a s' : m s = Some (a, s') -> Q a s' -> wp m Q s.
Proof. unfold wp. by intros ->. Qed.
End wp.

(** Runs the steps that cannot fail; stops at a [lift], an [update], a case
    distinction or a named operation. *)
Ltac wp_simple m :=
  lazymatch m with
  | mret _ => idtac | state => idtac | modify _ => idtac | gets _ => idtac
  | bindST ?n _ => wp_simple n | mbind _ ?n => wp_simple n
  end.
Ltac wp_step :=
  lazymatch goal with
  | |- wp (bindST ?m _) _ _ => wp_simple m; apply wp_bindST
  | |- wp (mbind _ ?m) _ _ => wp_simple m; apply wp_bind
  | |- wp (mret _) _ _ => apply wp_ret
  | |- wp state _ _ => apply wp_state
  | |- wp (modify _) _ _ => apply wp_modify
  | |- wp (gets _) _ _ => apply wp_gets
  end; cbv beta.
Ltac wp_steps := repeat wp_step.

Lemma wp_for_each {S} n lo (body : Z -> ST S unit) (I : Z -> S -> Prop) s :
  I lo s ->
  (forall i s, lo <= i < lo + Z.of_nat n -> I i s -> wp (body i) (fun _ s' => I (i + 1) s') s) ->
  wp (for_each n lo body) (fun _ s' => I (lo + Z.of_nat n) s') s.
Proof.
  revert lo s. induction n as [|n IH]; intros lo s HI Hb; cbn [for_each].
  { apply wp_ret. by rewrite Z.add_0_r. }
  apply wp_bind. eapply wp_mono; [apply Hb; [lia|done]|]. intros ? s' HI'. cbn.
  replace (lo + Z.of_nat (Datatypes.S n)) with ((lo + 1) + Z.of_nat n) by lia.
  apply IH; [done|]. intros i s0 Hi. apply Hb. lia.
Qed.

Section memory.
Implicit Types (m bs : mem) (i j off n v : Z).

Lemma mlen_nonneg m : 0 <= mlen m.
Proof. unfold mlen. lia. Qed.

Lemma getb_Some m i v : getb m i = Some v <-> 0 <= i /\ m !! Z.to_nat i = Some v.
Proof. unfold getb. destruct (Z.leb_spec 0 i); naive_solver lia. Qed.

Lemma getb_lt m i v : getb m i = Some v -> 0 <= i < mlen m.
Proof.
  intros [? Hl]%getb_Some. apply lookup_lt_Some in Hl. unfold mlen. lia.
Qed.

Lemma getb_is_Some m i : 0 <= i < mlen m -> is_Some (getb m i).
Proof.
  intros [? ?]. unfold getb, mlen in *. rewrite (proj2 (Z.leb_le _ _)) by lia.
  apply lookup_lt_is_Some. lia.
Qed.

Lemma putb_eq m i v : 0 <= i < mlen m -> putb m i v = Some (<[Z.to_nat i := v]> m).
Proof.
  intros [? ?]. unfold putb.
  by rewrite (proj2 (Z.leb_le _ _)), (proj2 (Z.ltb_lt _ _)) by lia.
Qed.

Lemma putb_Some m i v m' :
  putb m i v = Some m' -> 0 <= i < mlen m /\ m' = <[Z.to_nat i := v]> m.
Proof.
  unfold putb. destruct (Z.leb_spec 0 i), (Z.ltb_spec i (mlen m)); naive_solver.
Qed.

Lemma putb_len m i v m' : putb m i v = Some m' -> mlen m' = mlen m.
Proof. intros [_ ->]%putb_Some. unfold mlen. by rewrite length_insert. Qed.

Lemma getb_put_same m i v m' : putb m i v = Some m' -> getb m' i = Some v.
Proof.
  intros [Hi ->]%putb_Some. apply getb_Some. split; [lia|].
  apply list_lookup_insert_eq. unfold mlen in Hi. lia.
Qed.

Lemma getb_put_other m i j v m' : putb m i v = Some m' -> i <> j -> getb m' j = getb m j.
Proof.
  intros [Hi ->]%putb_Some Hne. unfold getb. destruct (Z.leb_spec 0 j); [|done].
  apply list_lookup_insert_ne. lia.
Qed.

Lemma getb_insert m i j v : 0 <= i < mlen m ->
  getb (<[Z.to_nat i := v]> m) j = if j =? i then Some v else getb m j.
Proof.
  intros Hi. pose proof (putb_eq m i v Hi) as Hput. destruct (Z.eqb_spec j i) as [->|Hne].
  - by apply (getb_put_same m i v).
  - apply (getb_put_other m i j v); [done|congruence].
Qed.

Lemma getb_insert_same m i v : 0 <= i < mlen m -> getb (<[Z.to_nat i := v]> m) i = Some v.
Proof. intros Hi. by rewrite getb_insert, Z.eqb_refl. Qed.

Lemma mlen_insert m (n : nat) v : mlen (<[n := v]> m) = mlen m.
Proof. unfold mlen. by rewrite length_insert. Qed.

Lemma mlen_app m bs : mlen (m ++ bs) = mlen m + mlen bs.
Proof. unfold mlen. rewrite length_app. lia. Qed.

Lemma mlen_replicate (n : nat) v : mlen (replicate n v) = Z.of_nat n.
Proof. unfold mlen. by rewrite length_replicate. Qed.

Lemma slice_run m off n : 0 <= off -> 0 <= n -> off + n <= mlen m ->
  exists b, slice m off n = Some b /\ mlen b = n.
Proof.
  intros Hoff Hn Hl. unfold slice.
  rewrite !(proj2 (Z.leb_le _ _)) by lia. eexists. split; [done|].
  unfold mlen in *. rewrite length_take, length_drop. lia.
Qed.

Lemma splice_run m off bs : 0 <= off -> off + mlen bs <= mlen m ->
  exists m', splice m off bs = Some m' /\ mlen m' = mlen m.
Proof.
  intros Hoff Hl. unfold splice.
  rewrite !(proj2 (Z.leb_le _ _)) by lia. eexists. split; [done|].
  unfold mlen in *. rewrite !length_app, length_take, length_drop. lia.
Qed.
End memory.

(** Lengths of memory are computed by [autorewrite with mem]; [eauto with mem] finds
    the cells of a block. *)
Create HintDb mem discriminated.
#[export] Hint Resolve mlen_nonneg putb_len getb_put_same getb_is_Some getb_insert_same : mem.
#[export] Hint Rewrite mlen_insert mlen_app mlen_replicate : mem.

(** ** Finite ranges of integers *)

(** A boolean property of every integer of a concrete range is checked by
    evaluation. *)
Lemma Zrange_forallb (P : Z -> bool) (lo n : Z) :
  forallb P (seqZ lo n) = true -> forall i, lo <= i < lo + n -> P i = true.
Proof.
  intros H i Hi. rewrite forallb_forall in H. apply H.
  apply list_elem_of_In, elem_of_seqZ. lia.
Qed.

(** [by_zrange lo n i] proves a boolean equation [f i = true] where
    [lo <= i < lo + n] by evaluating [f] on the whole range. *)
Ltac by_zrange lo n i :=
  match goal with |- ?f = true =>
    let g := eval pattern i in f in
    match g with ?P i =>
      change (P i = true);
      apply (Zrange_forallb P lo n); [vm_compute; reflexivity | lia]
    end
  end.

(** A stricter test keeps fewer elements. *)
Lemma filter_length_le {A} (P Q : A -> bool) l : (forall y, y ∈ l -> P y = true -> Q y = true) ->
  (length (List.filter P l) <= length (List.filter Q l))%nat.
Proof.
  intros HPQ. induction l as [|y l IH]; cbn [List.filter]; [done|].
  assert (length (List.filter P l) <= length (List.filter Q l))%nat
    by (apply IH; intros z Hz; apply HPQ; by constructor).
  pose proof (HPQ y ltac:(constructor)) as Hy. destruct (P y).
  - rewrite Hy by done. cbn. lia.
  - destruct (Q y); cbn; lia.
Qed.

Lemma filter_length_lt {A} (P Q : A -> bool) l x : (forall y, y ∈ l -> P y = true -> Q y = true) ->
  x ∈ l -> Q x = true -> P x = false ->
  (length (List.filter P l) < length (List.filter Q l))%nat.
Proof.
  intros HPQ (l1 & l2 & ->)%list_elem_of_split HQ HP. rewrite !List.filter_app. cbn [List.filter].
  rewrite HQ, HP, !length_app. cbn [length].
  assert (length (List.filter P l1) <= length (List.filter Q l1))%nat
    by (apply filter_length_le; intros y Hy; apply HPQ; apply elem_of_app; by left).
  assert (length (List.filter P l2) <= length (List.filter Q l2))%nat
    by (apply filter_length_le; intros y Hy; apply HPQ; apply elem_of_app; right; by constructor).
  lia.
Qed.

(** Consecutive numbering of blocks grouped in rows: row [t >= 1] holds [w t]
    blocks and starts where the rows before it end. *)
Section numbering.
Context (w : Z -> Z) (w_nonneg : forall t, 0 <= w t).

Fixpoint row_start (n : nat) : Z :=
  match n with O => 0 | S n' => row_start n' + w (Z.of_nat n) end.

Definition row_base (t : Z) : Z := row_start (Z.to_nat (t - 1)).

Lemma row_base_succ t : 1 <= t -> row_base (t + 1) = row_base t + w t.
Proof.
  intros Ht. unfold row_base. replace (Z.to_nat (t + 1 - 1)) with (S (Z.to_nat (t - 1))) by lia.
  cbn [row_start]. f_equal. f_equal. lia.
Qed.

Lemma row_base_mono t t' : 1 <= t <= t' -> row_base t <= row_base t'.
Proof.
  intros Ht. replace t' with (t + Z.of_nat (Z.to_nat (t' - t))) by lia.
  induction (Z.to_nat (t' - t)) as [|k IH]; [by rewrite Z.add_0_r|].
  replace (t + Z.of_nat (S k)) with ((t + Z.of_nat k) + 1) by lia.
  rewrite (row_base_succ (t + _)) by lia. specialize (w_nonneg (t + Z.of_nat k)). lia.
Qed.

Lemma row_base_bound t s N : 1 <= t <= N -> 0 <= s < w t ->
  0 <= row_base t + s < row_base (N + 1).
Proof.
  intros Ht Hs. assert (row_base 1 <= row_base t) by (apply row_base_mono; lia).
  assert (row_base (t + 1) <= row_base (N + 1)) by (apply row_base_mono; lia).
  rewrite (row_base_succ t) in * by lia. change (row_base 1) with 0 in *. lia.
Qed.

Lemma row_base_inj t s t' s' : 1 <= t -> 1 <= t' -> 0 <= s < w t -> 0 <= s' < w t' ->
  row_base t + s = row_base t' + s' -> t = t' /\ s = s'.
Proof.
  intros Ht Ht' Hs Hs' Heq. destruct (Z.lt_trichotomy t t') as [Hlt|[->|Hlt]]; [|lia|].
  - assert (row_base (t + 1) <= row_base t') by (apply row_base_mono; lia).
    rewrite (row_base_succ t) in * by lia. lia.
  - assert (row_base (t' + 1) <= row_base t) by (apply row_base_mono; lia).
    rewrite (row_base_succ t') in * by lia. lia.
Qed.

Lemma row_base_surj N r : 0 <= N -> 0 <= r < row_base (N + 1) ->
  exists t s, 1 <= t <= N /\ 0 <= s < w t /\ r = row_base t + s.
Proof.
  intros HN. replace N with (Z.of_nat (Z.to_nat N)) by lia.
  induction (Z.to_nat N) as [|k IH]; intros Hr.
  { unfold row_base in Hr. simpl in Hr. lia. }
  destruct (Z.lt_ge_cases r (row_base (Z.of_nat k + 1))) as [Hlt|Hge].
  - destruct IH as (t & s & ? & ? & ?); [lia|]. exists t, s. split_and!; (done || lia).
  - exists (Z.of_nat k + 1), (r - row_base (Z.of_nat k + 1)).
    replace (Z.of_nat (S k) + 1) with ((Z.of_nat k + 1) + 1) in Hr by lia.
    rewrite row_base_succ in Hr by lia. split_and!; lia.
Qed.
End numbering.

Lemma lor_range n a b : 0 <= n -> 0 <= a < 2 ^ n -> 0 <= b < 2 ^ n -> 0 <= Z.lor a b < 2 ^ n.
Proof.
  intros Hn Ha Hb. split; [apply Z.lor_nonneg; lia|].
  destruct (Z.eq_dec a 0) as [->|]; [rewrite Z.lor_0_l; lia|].
  destruct (Z.eq_dec b 0) as [->|]; [rewrite Z.lor_0_r; lia|].
  assert (0 <= Z.lor a b) by (apply Z.lor_nonneg; lia).
  destruct (Z.eq_dec (Z.lor a b) 0); [lia|]. apply Z.log2_lt_pow2; [lia|].
  rewrite Z.log2_lor by lia. apply Z.max_lub_lt; rewrite <- Z.log2_lt_pow2 by lia; lia.
Qed.

Lemma u32_range z : 0 <= u32 z < 2 ^ 32.
Proof. apply Z.mod_pos_bound. lia. Qed.

Lemma lor_bytes a b : 0 <= a < 256 -> 0 <= b < 256 -> Z.lor a (Z.shiftl b 8) = a + 256 * b.
Proof.
  intros Ha Hb. rewrite Z.shiftl_mul_pow2 by lia.
  assert (Z.land a (b * 2 ^ 8) = 0) as Hd.
  { apply Z.bits_inj_iff. intros k. rewrite Z.land_spec, Z.bits_0.
    destruct (Z.ltb_spec k 8) as [Hk|Hk]; [rewrite Z.mul_pow2_bits_low by done; apply andb_false_r|].
    replace a with (a mod 2 ^ 8) by (apply Z.mod_small; lia). by rewrite Z.mod_pow2_bits_high by lia. }
  pose proof (Z.add_lor_land a (b * 2 ^ 8)). lia.
Qed.

Lemma s32_small z : 0 <= z <= INT32_MAX -> s32 z = z.
Proof.
  intros Hz. unfold s32, u32, INT32_MAX in *. rewrite Z.mod_small by lia.
  destruct (Z.ltb_spec z 2147483648); lia.
Qed.

(** Splits on the boolean comparisons of the goal, keeping their meaning. *)
Ltac case_bool :=
  repeat match goal with
  | |- context [?a <? ?b] => destruct (Z.ltb_spec a b)
  | |- context [?a <=? ?b] => destruct (Z.leb_spec a b)
  | |- context [?a =? ?b] => destruct (Z.eqb_spec a b)
  end.

(** Evaluates the integer comparisons of the goal (or of [H]) whose operands
    are closed. *)
Ltac closed_Z a :=
  first [is_const a
        | lazymatch a with Z0 => idtac | Zpos _ => idtac | Zneg _ => idtac end].
Ltac eval_test t k :=
  lazymatch t with ?f ?a ?b => closed_Z a; closed_Z b end;
  let r := eval vm_compute in t in
  match r with true => k r | false => k r end.
Ltac eval_tests :=
  repeat (match goal with
  | |- context [?a =? ?b] => eval_test (a =? b) ltac:(fun r => change (a =? b) with r)
  | |- context [?a <? ?b] => eval_test (a <? b) ltac:(fun r => change (a <? b) with r)
  | |- context [?a <=? ?b] => eval_test (a <=? b) ltac:(fun r => change (a <=? b) with r)
  end; cbn [andb orb negb]).
Ltac eval_tests_in H :=
  repeat (match type of H with
  | context [?a =? ?b] => eval_test (a =? b) ltac:(fun r => change (a =? b) with r in H)
  | context [?a <? ?b] => eval_test (a <? b) ltac:(fun r => change (a <? b) with r in H)
  | context [?a <=? ?b] => eval_test (a <=? b) ltac:(fun r => change (a <=? b) with r in H)
  end; cbn [andb orb negb] in H).

(** Evaluates the result in an equation [f args = Some (result, state)]. *)
Ltac compute_result H :=
  lazymatch type of H with
  | _ = Some (?x, _) =>
      let r := eval vm_compute in x in
      replace x with r in H by (vm_compute; reflexivity)
  end.
