(* ===== verification/Geometry.v ===== *)
(** * Geometry of the disk image formats

    Models the track and sector geometry of [src/lib/vdrive/diskimage.c]
    (speed zones, sectors per track, raw track, gap and sync sizes), the block
    numbering of [src/lib/vdrive/fsimage-check.c] and the [disk_image_s]
    record of [src/lib/vdrive/diskimage.h] with the [fsimage_s] it points to.
    The build defines neither [HAVE_X64_IMAGE] nor [HAVE_REALDEVICE]. *)

From S2P Require Import Prelude.

(** Disk image types (diskimage.h) *)
Definition DISK_IMAGE_DEVICE_FS : Z := 0.
Definition DISK_IMAGE_TYPE_G64 : Z := 100.
Definition DISK_IMAGE_TYPE_G71 : Z := 101.
Definition DISK_IMAGE_TYPE_P64 : Z := 200.
Definition DISK_IMAGE_TYPE_D64 : Z := 1541.
Definition DISK_IMAGE_TYPE_D67 : Z := 2040.
Definition DISK_IMAGE_TYPE_D71 : Z := 1571.
Definition DISK_IMAGE_TYPE_D81 : Z := 1581.
Definition DISK_IMAGE_TYPE_D80 : Z := 8050.
Definition DISK_IMAGE_TYPE_D82 : Z := 8250.
Definition DISK_IMAGE_TYPE_D1M : Z := 1000.
Definition DISK_IMAGE_TYPE_D2M : Z := 2000.
Definition DISK_IMAGE_TYPE_D4M : Z := 4000.
Definition DISK_IMAGE_TYPE_DHD : Z := 4844.
Definition DISK_IMAGE_TYPE_D90 : Z := 9000.

(** Drive constants (diskconstants.h) *)
Definition NUM_TRACKS_1541 : Z := 35.
Definition NUM_BLOCKS_1541 : Z := 683.
Definition EXT_TRACKS_1541 : Z := 40.
Definition MAX_TRACKS_1541 : Z := 42.
Definition MAX_BLOCKS_1541 : Z := 802.
Definition BAM_EXT_BIT_MAP_1541 : Z := 172.
Definition MAX_TRACKS_2040 : Z := 35.
Definition MAX_BLOCKS_2040 : Z := 690.
Definition NUM_TRACKS_1571 : Z := 70.
Definition MAX_TRACKS_1571 : Z := 70.
Definition MAX_BLOCKS_1571 : Z := 1366.
Definition BAM_EXT_BIT_MAP_1571 : Z := 221.
Definition NUM_TRACKS_1581 : Z := 80.
Definition NUM_SECTORS_1581 : Z := 40.
Definition MAX_TRACKS_1581 : Z := 83.
Definition MAX_BLOCKS_1581 : Z := 3320.
Definition NUM_TRACKS_8050 : Z := 77.
Definition NUM_BLOCKS_8050 : Z := 2083.
Definition MAX_TRACKS_8050 : Z := 77.
Definition MAX_BLOCKS_8050 : Z := 2083.
Definition NUM_TRACKS_8250 : Z := 154.
Definition MAX_TRACKS_8250 : Z := 154.
Definition MAX_BLOCKS_8250 : Z := 4166.
Definition NUM_TRACKS_1000 : Z := 13.
Definition NUM_SYS_SECTORS_1000 : Z := 168.
Definition MAX_BLOCKS_1000 : Z := 3240.
Definition NUM_TRACKS_2000 : Z := 26.
Definition NUM_SYS_SECTORS_2000 : Z := 80.
Definition MAX_BLOCKS_2000 : Z := 6480.
Definition NUM_TRACKS_4000 : Z := 51.
Definition NUM_SYS_SECTORS_4000 : Z := 160.
Definition MAX_BLOCKS_4000 : Z := 12960.

(** A file of the host: its size, its bytes, and whether it was opened for
    writing. *)
Record file_t := File {
  f_size : Z;
  f_data : Z -> Z;
  f_writable : bool
}.

(** [struct disk_image_s] with its [fsimage_s] (fields [fd_], [map_],
    [map_len_]: the open file, the error map and its recorded length). *)
Record disk_image_t := DiskImage {
  di_read_only : Z;
  di_device : Z;
  di_type : Z;
  di_tracks : Z;
  di_sectors : Z;
  di_max_half_tracks : Z;
  fd_ : option file_t;
  map_ : option mem;
  map_len_ : Z
}.

Module Geometry.

Definition disk_image_speed_map (format track : Z) : Z :=
  if (format =? DISK_IMAGE_TYPE_D67) || (format =? DISK_IMAGE_TYPE_D64)
     || (format =? DISK_IMAGE_TYPE_G64) || (format =? DISK_IMAGE_TYPE_P64) then
    b2z (track <? 31) + b2z (track <? 25) + b2z (track <? 18)
  else if format =? DISK_IMAGE_TYPE_D80 then
    b2z (track <? 65) + b2z (track <? 54) + b2z (track <? 40)
  else if format =? DISK_IMAGE_TYPE_D82 then
    let track := if 77 <? track then track - 77 else track in
    b2z (track <? 65) + b2z (track <? 54) + b2z (track <? 40)
  else if format =? DISK_IMAGE_TYPE_D71 then
    let track := if 35 <? track then track - 35 else track in
    b2z (track <? 31) + b2z (track <? 25) + b2z (track <? 18)
  else if format =? DISK_IMAGE_TYPE_G71 then
    let track := if 42 <? track then track - 42 else track in
    b2z (track <? 31) + b2z (track <? 25) + b2z (track <? 18)
  else 0.

(** A table of [SPEED_ZONE_COUNT] entries indexed by the speed zone. *)
Definition zone (z3_0 z3_1 z3_2 z3_3 : Z) (z : Z) : Z :=
  if z =? 0 then z3_0 else if z =? 1 then z3_1 else if z =? 2 then z3_2 else z3_3.

Definition sector_map_d64 : Z -> Z := zone 17 18 19 21.
Definition sector_map_d67 : Z -> Z := zone 17 18 20 21.
Definition sector_map_d80 : Z -> Z := zone 23 25 27 29.

Definition is_d64_like (format : Z) : bool :=
  (format =? DISK_IMAGE_TYPE_D64) || (format =? DISK_IMAGE_TYPE_G64)
  || (format =? DISK_IMAGE_TYPE_P64) || (format =? DISK_IMAGE_TYPE_D71)
  || (format =? DISK_IMAGE_TYPE_G71).

Definition disk_image_sector_per_track (format track : Z) : Z :=
  if is_d64_like format then sector_map_d64 (disk_image_speed_map format track)
  else if format =? DISK_IMAGE_TYPE_D67 then
    sector_map_d67 (disk_image_speed_map format track)
  else if (format =? DISK_IMAGE_TYPE_D80) || (format =? DISK_IMAGE_TYPE_D82) then
    sector_map_d80 (disk_image_speed_map format track)
  else 0.

Definition raw_track_size_d64 : Z -> Z := zone 6250 6666 7142 7692.
Definition raw_track_size_d67 : Z -> Z := zone 6250 6666 7142 7692.
Definition raw_track_size_d80 : Z -> Z := zone 9375 10000 10714 11538.

Definition disk_image_raw_track_size (format track : Z) : Z :=
  if is_d64_like format then raw_track_size_d64 (disk_image_speed_map format track)
  else if format =? DISK_IMAGE_TYPE_D67 then
    raw_track_size_d67 (disk_image_speed_map format track)
  else if (format =? DISK_IMAGE_TYPE_D80) || (format =? DISK_IMAGE_TYPE_D82) then
    raw_track_size_d80 (disk_image_speed_map format track)
  else 1.

Definition gap_size_d64 : Z -> Z := zone 9 12 17 8.
Definition gap_size_d67 : Z -> Z := zone 9 12 4 8.

Definition disk_image_gap_size (format track : Z) : Z :=
  if is_d64_like format then gap_size_d64 (disk_image_speed_map format track)
  else if format =? DISK_IMAGE_TYPE_D67 then
    gap_size_d67 (disk_image_speed_map format track)
  else if (format =? DISK_IMAGE_TYPE_D80) || (format =? DISK_IMAGE_TYPE_D82) then 25
  else 1.

Definition disk_image_header_gap_size (format track : Z) : Z :=
  if is_d64_like format then 9
  else if format =? DISK_IMAGE_TYPE_D67 then 4
  else 1.

Definition disk_image_sync_size (format track : Z) : Z :=
  if is_d64_like format then 5
  else if format =? DISK_IMAGE_TYPE_D67 then 5
  else 1.

(** ** Block numbers (fsimage-check.c) *)

Definition FSIMAGE_BAD_TRKNUM : Z := -2.
Definition FSIMAGE_BAD_SECNUM : Z := -3.

(** [for (i = 1; i < track; i++) sectors += disk_image_sector_per_track(format, i)] *)
Definition sectors_before (format track : Z) : Z :=
  row_base (disk_image_sector_per_track format) track.

Definition fsimage_check_sector (image : disk_image_t) (track sector : Z) : Z :=
  let type := di_type image in
  let rows max format :=
    if max <? track then FSIMAGE_BAD_TRKNUM
    else if disk_image_sector_per_track format track <=? sector then FSIMAGE_BAD_SECNUM
    else s32 (sectors_before format track + sector) in
  let two_sided max side format blocks :=
    if max <? track then FSIMAGE_BAD_TRKNUM
    else
      let track' := if side <? track then track - side else track in
      let sectors := if side <? track then blocks else 0 in
      if disk_image_sector_per_track format track' <=? sector then FSIMAGE_BAD_SECNUM
      else s32 (sectors + sectors_before format track' + sector) in
  let cmd_fd tracks sys_sectors :=
    if tracks <? track then FSIMAGE_BAD_TRKNUM
    else if (255 <? sector) || ((track =? tracks) && (sys_sectors <=? sector))
         then FSIMAGE_BAD_SECNUM
         else s32 ((track - 1) * 256 + sector) in
  if negb (type =? DISK_IMAGE_TYPE_D90) && (track <? 1) then FSIMAGE_BAD_TRKNUM
  else if type =? DISK_IMAGE_TYPE_D64 then rows MAX_TRACKS_1541 DISK_IMAGE_TYPE_D64
  else if type =? DISK_IMAGE_TYPE_D67 then rows MAX_TRACKS_2040 DISK_IMAGE_TYPE_D67
  else if type =? DISK_IMAGE_TYPE_D71 then
    two_sided MAX_TRACKS_1571 NUM_TRACKS_1541 DISK_IMAGE_TYPE_D64 NUM_BLOCKS_1541
  else if type =? DISK_IMAGE_TYPE_D81 then
    if MAX_TRACKS_1581 <? track then FSIMAGE_BAD_TRKNUM
    else if NUM_SECTORS_1581 <=? sector then FSIMAGE_BAD_SECNUM
    else s32 ((track - 1) * NUM_SECTORS_1581 + sector)
  else if type =? DISK_IMAGE_TYPE_D80 then rows MAX_TRACKS_8050 DISK_IMAGE_TYPE_D80
  else if type =? DISK_IMAGE_TYPE_D82 then
    two_sided MAX_TRACKS_8250 NUM_TRACKS_8050 DISK_IMAGE_TYPE_D80 NUM_BLOCKS_8050
  else if (type =? DISK_IMAGE_TYPE_G64) || (type =? DISK_IMAGE_TYPE_G71)
          || (type =? DISK_IMAGE_TYPE_P64) then
    if (di_tracks image <? track) || (MAX_TRACKS_1541 <? track) then FSIMAGE_BAD_TRKNUM
    else if disk_image_sector_per_track DISK_IMAGE_TYPE_D64 track <=? sector
         then FSIMAGE_BAD_SECNUM
         else s32 (sectors_before DISK_IMAGE_TYPE_D64 track + sector)
  else if type =? DISK_IMAGE_TYPE_D1M then cmd_fd NUM_TRACKS_1000 NUM_SYS_SECTORS_1000
  else if type =? DISK_IMAGE_TYPE_D2M then cmd_fd NUM_TRACKS_2000 NUM_SYS_SECTORS_2000
  else if type =? DISK_IMAGE_TYPE_D4M then cmd_fd NUM_TRACKS_4000 NUM_SYS_SECTORS_4000
  else if type =? DISK_IMAGE_TYPE_DHD then
    if 65535 <? track then FSIMAGE_BAD_TRKNUM
    else if 65535 <? sector then FSIMAGE_BAD_SECNUM
    else s32 ((track - 1) * 65536 + sector)
  else if type =? DISK_IMAGE_TYPE_D90 then
    if di_tracks image <? track then FSIMAGE_BAD_TRKNUM
    else if di_sectors image <=? sector then FSIMAGE_BAD_SECNUM
    else s32 (track * Z.ldiff (di_sectors image) 31 + sector)
  else -1.

Definition disk_image_check_sector (image : disk_image_t) (track sector : Z) : Z :=
  if di_device image =? DISK_IMAGE_DEVICE_FS then fsimage_check_sector image track sector
  else 0.

(** ** Specification: rows of blocks

    The abstract layout of an image type: the last track, the number of
    sectors of a track and the number of blocks. A block address is a track
    from 1 to the last one and a sector of that track; addresses are numbered
    row by row. *)
Definition layout_of (type : Z) : option (Z * (Z -> Z) * Z) :=
  let side n t := if n <? t then t - n else t in
  let cmd n sys t := if t =? n then sys else 256 in
  if type =? DISK_IMAGE_TYPE_D64 then
    Some (MAX_TRACKS_1541, disk_image_sector_per_track DISK_IMAGE_TYPE_D64, MAX_BLOCKS_1541)
  else if type =? DISK_IMAGE_TYPE_D67 then
    Some (MAX_TRACKS_2040, disk_image_sector_per_track DISK_IMAGE_TYPE_D67, MAX_BLOCKS_2040)
  else if type =? DISK_IMAGE_TYPE_D71 then
    Some (MAX_TRACKS_1571, fun t => disk_image_sector_per_track DISK_IMAGE_TYPE_D64 (side 35 t),
          MAX_BLOCKS_1571)
  else if type =? DISK_IMAGE_TYPE_D81 then
    Some (MAX_TRACKS_1581, fun _ => NUM_SECTORS_1581, MAX_BLOCKS_1581)
  else if type =? DISK_IMAGE_TYPE_D80 then
    Some (MAX_TRACKS_8050, disk_image_sector_per_track DISK_IMAGE_TYPE_D80, MAX_BLOCKS_8050)
  else if type =? DISK_IMAGE_TYPE_D82 then
    Some (MAX_TRACKS_8250, fun t => disk_image_sector_per_track DISK_IMAGE_TYPE_D80 (side 77 t),
          MAX_BLOCKS_8250)
  else if type =? DISK_IMAGE_TYPE_D1M then
    Some (NUM_TRACKS_1000, cmd NUM_TRACKS_1000 NUM_SYS_SECTORS_1000, MAX_BLOCKS_1000)
  else if type =? DISK_IMAGE_TYPE_D2M then
    Some (NUM_TRACKS_2000, cmd NUM_TRACKS_2000 NUM_SYS_SECTORS_2000, MAX_BLOCKS_2000)
  else if type =? DISK_IMAGE_TYPE_D4M then
    Some (NUM_TRACKS_4000, cmd NUM_TRACKS_4000 NUM_SYS_SECTORS_4000, MAX_BLOCKS_4000)
  else None.

Definition valid_address (type t s : Z) : Prop :=
  match layout_of type with
  | Some (n, w, _) => 1 <= t <= n /\ 0 <= s < w t
  | None => False
  end.

#[export] Instance valid_address_dec type t s : Decision (valid_address type t s).
Proof. unfold valid_address. destruct (layout_of type) as [[[??]?]|]; apply _. Defined.

Definition blocks_of (type : Z) : Z :=
  match layout_of type with Some (_, _, b) => b | None => 0 end.

(** ** Lemmas *)

Lemma spt_bounds format t : 0 <= disk_image_sector_per_track format t <= 29.
Proof.
  unfold disk_image_sector_per_track, sector_map_d64, sector_map_d67, sector_map_d80, zone.
  repeat case_match; lia.
Qed.

Lemma layout_ok type n w b : layout_of type = Some (n, w, b) ->
  (forall t, 0 <= w t) /\ row_base w (n + 1) = b /\ 0 < n <= 154 /\ 0 < b <= 12960.
Proof.
  intros H. split; [|split].
  - intros t. unfold layout_of, NUM_SECTORS_1581, NUM_SYS_SECTORS_1000, NUM_SYS_SECTORS_2000,
      NUM_SYS_SECTORS_4000 in H.
    repeat case_match; simplify_eq; try apply spt_bounds; case_bool; lia.
  - unfold layout_of in H. repeat case_match; simplify_eq; vm_compute; reflexivity.
  - unfold layout_of in H. repeat case_match; simplify_eq; split; vm_compute; split; congruence.
Qed.

(** The part of a layout that the loop over one side computes. *)
Lemma two_sided_base format n side blocks t :
  (n, side, format, blocks) ∈ [(70, 35, DISK_IMAGE_TYPE_D64, NUM_BLOCKS_1541);
                               (154, 77, DISK_IMAGE_TYPE_D80, NUM_BLOCKS_8050)] ->
  1 <= t <= n ->
  (if side <? t then blocks else 0) + sectors_before format (if side <? t then t - side else t)
  = row_base (fun u => disk_image_sector_per_track format (if side <? u then u - side else u)) t.
Proof.
  intros Hin Ht. apply Z.eqb_eq.
  repeat (apply elem_of_cons in Hin as [[= -> -> -> ->]|Hin]); [| |by apply not_elem_of_nil in Hin].
  - by_zrange 1 70 t.
  - by_zrange 1 154 t.
Qed.

Lemma cmd_rows_base n sys t : 1 <= t <= n ->
  row_base (fun t => if t =? n then sys else 256) t = (t - 1) * 256.
Proof.
  intros Ht. replace t with (1 + Z.of_nat (Z.to_nat (t - 1))) by lia.
  assert (Z.to_nat (t - 1) <= Z.to_nat (n - 1))%nat as Hle by lia. revert Hle.
  induction (Z.to_nat (t - 1)) as [|k IH]; intros Hle; [reflexivity|].
  replace (1 + Z.of_nat (S k)) with (1 + Z.of_nat k + 1) by lia.
  rewrite row_base_succ, IH by lia. destruct (Z.eqb_spec (1 + Z.of_nat k) n); lia.
Qed.

Lemma const_rows_base c t : 1 <= t -> row_base (fun _ => c) t = (t - 1) * c.
Proof.
  intros Ht. replace t with (1 + Z.of_nat (Z.to_nat (t - 1))) by lia.
  induction (Z.to_nat (t - 1)) as [|k IH]; [reflexivity|].
  replace (1 + Z.of_nat (S k)) with (1 + Z.of_nat k + 1) by lia.
  rewrite row_base_succ, IH by lia. lia.
Qed.

Definition linear_types : list Z :=
  [DISK_IMAGE_TYPE_D64; DISK_IMAGE_TYPE_D67; DISK_IMAGE_TYPE_D71; DISK_IMAGE_TYPE_D81;
   DISK_IMAGE_TYPE_D80; DISK_IMAGE_TYPE_D82; DISK_IMAGE_TYPE_D1M; DISK_IMAGE_TYPE_D2M;
   DISK_IMAGE_TYPE_D4M].

Lemma layout_types type l : layout_of type = Some l -> type ∈ linear_types.
Proof.
  unfold layout_of. intros H.
  repeat (case_match; [match goal with E : (_ =? _) = true |- _ => apply Z.eqb_eq in E; subst end;
    apply (bool_decide_eq_true_1 _); vm_compute; reflexivity|]). discriminate.
Qed.

(** The block number of a valid address, and the rejection of the others, in
    closed form. *)
Lemma check_sector_closed image n w b t s :
  di_device image = DISK_IMAGE_DEVICE_FS ->
  layout_of (di_type image) = Some (n, w, b) -> 0 <= t -> 0 <= s ->
  if decide (1 <= t <= n /\ 0 <= s < w t)
  then disk_image_check_sector image t s = row_base w t + s
  else disk_image_check_sector image t s < 0.
Proof.
  intros Hdev Hlay Ht Hs. unfold disk_image_check_sector. rewrite Hdev. simpl.
  destruct (layout_ok _ _ _ _ Hlay) as (Hw & Hb & Hn & Hbb).
  pose proof (fun H1 H2 => row_base_bound w Hw t s n H1 H2) as Hrange. rewrite Hb in Hrange.
  pose proof (layout_types _ _ Hlay) as Hin. unfold fsimage_check_sector.
  generalize dependent (di_type image). intros type Hlay Hin.
  unfold linear_types in Hin.
  repeat (apply elem_of_cons in Hin as [->|Hin];
    [unfold layout_of in Hlay; eval_tests_in Hlay; simplify_eq; eval_tests;
     unfold FSIMAGE_BAD_TRKNUM, FSIMAGE_BAD_SECNUM|]).
  10: by apply not_elem_of_nil in Hin.
  all: destruct (Z.ltb_spec t 1); [rewrite decide_False by lia; lia|].
  all: match goal with |- context [if ?n <? ?u then -2 else _] => destruct (Z.ltb_spec n u) end;
    [rewrite decide_False by lia; lia|].
  all: unfold INT32_MAX, NUM_TRACKS_1541, NUM_TRACKS_8050, NUM_TRACKS_1000, NUM_TRACKS_2000,
    NUM_TRACKS_4000, NUM_SECTORS_1581, NUM_SYS_SECTORS_1000, NUM_SYS_SECTORS_2000,
    NUM_SYS_SECTORS_4000 in *.
  all: repeat match goal with |- context [row_base (fun _ => 40) ?u] =>
         rewrite (const_rows_base 40 u) in * by lia
       | |- context [row_base (fun t => if t =? ?n then ?k else 256) ?u] =>
         rewrite (cmd_rows_base n k u) in * by lia end.
  all: try (rewrite (two_sided_base DISK_IMAGE_TYPE_D64 70 35 NUM_BLOCKS_1541)
              by (done || (apply (bool_decide_eq_true_1 _); reflexivity))).
  all: try (rewrite (two_sided_base DISK_IMAGE_TYPE_D80 154 77 NUM_BLOCKS_8050)
              by (done || (apply (bool_decide_eq_true_1 _); reflexivity))).
  all: destruct (decide _) as [Hv|Hv]; try specialize (Hrange (proj1 Hv) (proj2 Hv));
    repeat match goal with |- context [if ?c <=? ?u then _ else _] =>
             destruct (Z.leb_spec c u); [lia|] end.
  all: try lia.
  all: try (rewrite s32_small; [reflexivity || lia|unfold INT32_MAX; unfold sectors_before; lia]).
  all: case_bool; cbn [andb orb]; try lia.
  all: try (rewrite s32_small; [reflexivity || lia|unfold INT32_MAX; unfold sectors_before; lia]).
Qed.

Lemma check_sector_valid image t s :
  di_device image = DISK_IMAGE_DEVICE_FS -> valid_address (di_type image) t s ->
  exists n w b, layout_of (di_type image) = Some (n, w, b) /\
    1 <= t <= n /\ 0 <= s < w t /\ disk_image_check_sector image t s = row_base w t + s.
Proof.
  unfold valid_address. intros Hdev Hv. destruct (layout_of _) as [[[n w] b]|] eqn:Hl; [|done].
  exists n, w, b. split; [done|]. split; [tauto|]. split; [tauto|].
  pose proof (check_sector_closed image n w b t s Hdev Hl) as H.
  rewrite decide_True in H by done. apply H; lia.
Qed.

(** The block number of an address is non-negative exactly for the addresses of
    the layout, and below the number of blocks. *)
Lemma check_sector_range image t s :
  di_device image = DISK_IMAGE_DEVICE_FS -> di_type image ∈ linear_types ->
  0 <= t -> 0 <= s ->
  (0 <= disk_image_check_sector image t s <-> valid_address (di_type image) t s) /\
  disk_image_check_sector image t s < blocks_of (di_type image).
Proof.
  intros Hdev Hty Ht Hs.
  assert (exists n w b, layout_of (di_type image) = Some (n, w, b)) as (n & w & b & Hl).
  { unfold linear_types in Hty. repeat (apply elem_of_cons in Hty as [->|Hty]; [eauto|]).
    by apply not_elem_of_nil in Hty. }
  pose proof (check_sector_closed image n w b t s Hdev Hl Ht Hs) as H.
  destruct (layout_ok _ _ _ _ Hl) as (Hw & Hb & Hn & Hbb).
  unfold valid_address, blocks_of. rewrite Hl. case_decide as Hd.
  - pose proof (row_base_bound w Hw t s n). rewrite H. split; [split; intros; [done|]|]; lia.
  - split; [split; intros; [lia|done]|lia].
Qed.

Lemma valid_address_pos type t s : valid_address type t s -> 1 <= t /\ 0 <= s.
Proof. unfold valid_address. destruct (layout_of type) as [[[??]?]|]; [lia|done]. Qed.

Lemma check_sector_nonneg image t s :
  di_device image = DISK_IMAGE_DEVICE_FS -> valid_address (di_type image) t s ->
  0 <= disk_image_check_sector image t s < blocks_of (di_type image).
Proof.
  intros Hdev Hv. destruct (valid_address_pos _ _ _ Hv).
  assert (di_type image ∈ linear_types) as Hty.
  { unfold valid_address in Hv. destruct (layout_of _) eqn:Hl; [|done]. by eapply layout_types. }
  pose proof (check_sector_range image t s Hdev Hty ltac:(lia) ltac:(lia)). naive_solver.
Qed.

Lemma check_sector_inj image t s t' s' :
  di_device image = DISK_IMAGE_DEVICE_FS ->
  valid_address (di_type image) t s -> valid_address (di_type image) t' s' ->
  disk_image_check_sector image t s = disk_image_check_sector image t' s' -> t = t' /\ s = s'.
Proof.
  intros Hdev Hv Hv'.
  destruct (check_sector_valid _ _ _ Hdev Hv) as (n & w & b & Hl & Ht & Hs & ->).
  destruct (check_sector_valid _ _ _ Hdev Hv') as (n' & w' & b' & Hl' & Ht' & Hs' & ->).
  rewrite Hl in Hl'. simplify_eq. apply row_base_inj; [apply (layout_ok _ _ _ _ Hl)|lia..].
Qed.

Lemma check_sector_surj image r :
  di_device image = DISK_IMAGE_DEVICE_FS -> 0 <= r < blocks_of (di_type image) ->
  exists t s, valid_address (di_type image) t s /\ disk_image_check_sector image t s = r.
Proof.
  intros Hdev Hr. unfold blocks_of in Hr. destruct (layout_of _) as [[[n w] b]|] eqn:Hl; [|lia].
  destruct (layout_ok _ _ _ _ Hl) as (Hw & Hb & Hn & _). rewrite <- Hb in Hr.
  destruct (row_base_surj w n r ltac:(lia) Hr) as (t & s & Ht & Hs & ->).
  exists t, s. assert (valid_address (di_type image) t s) as Hv.
  { unfold valid_address. rewrite Hl. lia. }
  split; [done|]. destruct (check_sector_valid _ _ _ Hdev Hv) as (n' & w' & b' & Hl' & _ & _ & ->).
  congruence.
Qed.

(** ** Properties *)

(** C25: on a linear image (D64, D67, D71, D81, D80, D82, D1M, D2M, D4M) the
    block number of an address is non-negative exactly for the addresses of
    the layout, and is then less than the number of blocks of the image type
    (the [MAX_BLOCKS_*] constant): no accepted address lies outside the
    maximal image, and no address of it is refused. *)
Theorem check_sector_bounds image t s :
  di_device image = DISK_IMAGE_DEVICE_FS -> di_type image ∈ linear_types ->
  0 <= t -> 0 <= s ->
  (0 <= disk_image_check_sector image t s <-> valid_address (di_type image) t s) /\
  disk_image_check_sector image t s < blocks_of (di_type image).
Proof. apply check_sector_range. Qed.

(** C21: two different addresses of an image never share a block, and every
    block of the maximal image is the block of some address: the numbering is
    a bijection between the addresses and the blocks. *)
Theorem check_sector_bijective image :
  di_device image = DISK_IMAGE_DEVICE_FS ->
  (forall t s t' s', valid_address (di_type image) t s -> valid_address (di_type image) t' s' ->
     disk_image_check_sector image t s = disk_image_check_sector image t' s' -> t = t' /\ s = s') /\
  (forall r, 0 <= r < blocks_of (di_type image) -> exists t s,
     valid_address (di_type image) t s /\ disk_image_check_sector image t s = r).
Proof. split; [intros *; by apply check_sector_inj|intros r; by apply check_sector_surj]. Qed.

End Geometry.

Definition blank_d64 : disk_image_t :=
  DiskImage 0 DISK_IMAGE_DEVICE_FS DISK_IMAGE_TYPE_D64 35 0 84
    (Some (File 174848 (fun _ => 0) true)) None 0.

Lemma check_sector_bounds_witness :
  (0 <= Geometry.disk_image_check_sector blank_d64 18 0 <->
     Geometry.valid_address DISK_IMAGE_TYPE_D64 18 0) /\
  Geometry.disk_image_check_sector blank_d64 18 0 < 802.
Proof.
  apply (Geometry.check_sector_bounds blank_d64 18 0); [reflexivity| |lia|lia].
  apply (bool_decide_eq_true_1 _); vm_compute; reflexivity.
Defined.

Lemma check_sector_bijective_witness :
  exists t s, Geometry.valid_address DISK_IMAGE_TYPE_D64 t s /\
    Geometry.disk_image_check_sector blank_d64 t s = 357.
Proof.
  apply (Geometry.check_sector_bijective blank_d64); [reflexivity|].
  vm_compute; split; congruence.
Defined.
