(* ===== verification/Image.v ===== *)
(** * Disk images as files of sectors

    Models the sector access of [src/lib/vdrive/fsimage-dxx.c], the dispatch of
    [src/lib/vdrive/fsimage.c] and [src/lib/vdrive/diskimage.c], and
    [util_fpread]/[util_fpwrite] of [src/lib/vdrive/util.c]. The image is opened
    by [VDriveClass.cpp] or [vdrive-internal.c], which set [image->gcr] to
    [NULL]: the branches of fsimage-dxx.c for a decoded GCR copy are not taken
    and not modelled. The sector access of G64/G71/P64 images is a parameter
    ([flux_read], [flux_write]). *)

From S2P Require Import Prelude Geometry.

(** DOS status codes (cbmdos.h) *)
Definition CBMDOS_IPE_OK : Z := 0.
Definition CBMDOS_IPE_READ_ERROR_BNF : Z := 20.
Definition CBMDOS_IPE_READ_ERROR_SYNC : Z := 21.
Definition CBMDOS_IPE_READ_ERROR_DATA : Z := 22.
Definition CBMDOS_IPE_READ_ERROR_CHK : Z := 23.
Definition CBMDOS_IPE_READ_ERROR_GCR : Z := 24.
Definition CBMDOS_IPE_WRITE_ERROR_VER : Z := 25.
Definition CBMDOS_IPE_WRITE_PROTECT_ON : Z := 26.
Definition CBMDOS_IPE_READ_ERROR_BCHK : Z := 27.
Definition CBMDOS_IPE_WRITE_ERROR_BIG : Z := 28.
Definition CBMDOS_IPE_DISK_ID_MISMATCH : Z := 29.
Definition CBMDOS_IPE_SYNTAX : Z := 30.
Definition CBMDOS_IPE_INVAL : Z := 31.
Definition CBMDOS_IPE_NO_NAME : Z := 34.
Definition CBMDOS_IPE_OVERFLOW : Z := 51.
Definition CBMDOS_IPE_NO_BLOCK : Z := 65.
Definition CBMDOS_IPE_ILLEGAL_TRACK_OR_SECTOR : Z := 66.
Definition CBMDOS_IPE_DOS_VERSION : Z := 73.
Definition CBMDOS_IPE_NOT_READY : Z := 74.

(** Disk controller codes ([enum fdc_err_e] of cbmdos.h) *)
Definition CBMDOS_FDC_ERR_OK : Z := 1.
Definition CBMDOS_FDC_ERR_HEADER : Z := 2.
Definition CBMDOS_FDC_ERR_SYNC : Z := 3.
Definition CBMDOS_FDC_ERR_NOBLOCK : Z := 4.
Definition CBMDOS_FDC_ERR_DCHECK : Z := 5.
Definition CBMDOS_FDC_ERR_VERIFY : Z := 7.
Definition CBMDOS_FDC_ERR_WPROT : Z := 8.
Definition CBMDOS_FDC_ERR_HCHECK : Z := 9.
Definition CBMDOS_FDC_ERR_BLENGTH : Z := 10.
Definition CBMDOS_FDC_ERR_ID : Z := 11.
Definition CBMDOS_FDC_ERR_FSPEED : Z := 12.
Definition CBMDOS_FDC_ERR_DRIVE : Z := 15.
Definition CBMDOS_FDC_ERR_DECODE : Z := 16.

(** What the model leaves to its surroundings: the contents of freshly
    allocated memory, and the sector access of flux-level images. A flux
    access gets the image, the buffer and the address and returns the status
    with the buffer (read) or the image (write). *)
Class Platform := {
  malloc_fill : Z -> Z;
  flux_read : disk_image_t -> mem -> Z -> Z -> Z * mem;
  flux_write : disk_image_t -> mem -> Z -> Z -> Z * disk_image_t
}.

(** Memory as [lib_malloc] returns it: [n] cells of unspecified contents. *)
Definition lib_malloc `{Platform} (n : Z) : mem := malloc_fill <$> seqZ 0 n.

Module Image.

(** ** Files *)

Definition f_bytes (f : file_t) (off n : Z) : mem := f_data f <$> seqZ off n.

(** A read that reaches the end of the file has copied the bytes before it. *)
Definition util_fpread (f : file_t) (buf : mem) (num off : Z) : Z * mem :=
  if off <? 0 then (-1, buf)
  else
    let avail := Z.max 0 (Z.min num (f_size f - off)) in
    (if avail <? num then -1 else 0,
     f_bytes f off avail ++ drop (Z.to_nat avail) buf).

Definition util_fpwrite (f : file_t) (buf : mem) (off : Z) : Z * file_t :=
  if (off <? 0) || negb (f_writable f) then (-1, f)
  else (0, File (Z.max (f_size f) (off + mlen buf))
             (fun i => if (off <=? i) && (i <? off + mlen buf)
                       then default 0 (getb buf (i - off))
                       else if (f_size f <=? i) && (i <? off) then 0
                       else f_data f i) true).

Section with_image.
Implicit Types image : disk_image_t.

Definition set_fd (fd : option file_t) image : disk_image_t :=
  DiskImage (di_read_only image) (di_device image) (di_type image) (di_tracks image)
    (di_sectors image) (di_max_half_tracks image) fd (map_ image) (map_len_ image).

Definition set_map (m : option mem) image : disk_image_t :=
  DiskImage (di_read_only image) (di_device image) (di_type image) (di_tracks image)
    (di_sectors image) (di_max_half_tracks image) (fd_ image) m (map_len_ image).

(** The final [switch (rf)] of [fsimage_dxx_read_sector]. *)
Definition dxx_rf_code (rf : Z) : Z :=
  if rf =? CBMDOS_FDC_ERR_OK then CBMDOS_IPE_OK
  else if rf =? CBMDOS_FDC_ERR_HEADER then CBMDOS_IPE_READ_ERROR_BNF
  else if rf =? CBMDOS_FDC_ERR_SYNC then CBMDOS_IPE_READ_ERROR_SYNC
  else if rf =? CBMDOS_FDC_ERR_NOBLOCK then CBMDOS_IPE_READ_ERROR_DATA
  else if rf =? CBMDOS_FDC_ERR_DCHECK then CBMDOS_IPE_READ_ERROR_CHK
  else if rf =? CBMDOS_FDC_ERR_VERIFY then CBMDOS_IPE_WRITE_ERROR_VER
  else if rf =? CBMDOS_FDC_ERR_WPROT then CBMDOS_IPE_WRITE_PROTECT_ON
  else if rf =? CBMDOS_FDC_ERR_HCHECK then CBMDOS_IPE_READ_ERROR_BCHK
  else if rf =? CBMDOS_FDC_ERR_BLENGTH then CBMDOS_IPE_WRITE_ERROR_BIG
  else if rf =? CBMDOS_FDC_ERR_ID then CBMDOS_IPE_DISK_ID_MISMATCH
  else if rf =? CBMDOS_FDC_ERR_DRIVE then CBMDOS_IPE_NOT_READY
  else if rf =? CBMDOS_FDC_ERR_DECODE then CBMDOS_IPE_READ_ERROR_GCR
  else CBMDOS_IPE_OK.

(** The codes let through as soft errors. *)
Definition soft_error (rf : Z) : bool :=
  (rf =? 0) || (rf =? 1) || (rf =? 5) || (rf =? 7) || (rf =? 8).

(** Status and buffer; [None] is an access outside the error map, a null file, or an
    offset beyond the range of [int]. *)
Definition fsimage_dxx_read_sector image (buf : mem) (track sector : Z) : option (Z * mem) :=
  let sectors := Geometry.disk_image_check_sector image track sector in
  if sectors <? 0 then Some (CBMDOS_IPE_ILLEGAL_TRACK_OR_SECTOR, buf)
  else
    offset ← int_mul sectors 256;
    rf ← match map_ image with
         | Some m => getb m sectors
         | None => Some CBMDOS_FDC_ERR_OK
         end;
    let harderror :=
      match map_ image with Some _ => negb (soft_error rf) | None => false end in
    if harderror then Some (dxx_rf_code rf, buf)
    else
      f ← fd_ image;
      let '(rc, buf) := util_fpread f buf 256 offset in
      if rc <? 0 then Some (-1, buf) else Some (dxx_rf_code rf, buf).

Definition fsimage_dxx_write_sector image (buf : mem) (track sector : Z)
    : option (Z * disk_image_t) :=
  let sectors := Geometry.disk_image_check_sector image track sector in
  if sectors <? 0 then Some (-1, image)
  else
    offset ← int_mul sectors 256;
    f ← fd_ image;
    let '(rc, f) := util_fpwrite f buf offset in
    let image := set_fd (Some f) image in
    if rc <? 0 then Some (-1, image)
    else match map_ image with
    | None => Some (0, image)
    | Some m =>
        rf ← getb m sectors;
        if rf =? CBMDOS_FDC_ERR_OK then Some (0, image)
        else
          m ← putb m sectors CBMDOS_FDC_ERR_OK;
          let '(_, f) := util_fpwrite f [CBMDOS_FDC_ERR_OK] (map_len_ image * 256 + sectors) in
          Some (0, set_map (Some m) (set_fd (Some f) image))
    end.

Context `{Platform}.

Definition is_dxx (type : Z) : bool :=
  (type =? DISK_IMAGE_TYPE_D64) || (type =? DISK_IMAGE_TYPE_D67)
  || (type =? DISK_IMAGE_TYPE_D71) || (type =? DISK_IMAGE_TYPE_D81)
  || (type =? DISK_IMAGE_TYPE_D80) || (type =? DISK_IMAGE_TYPE_D82)
  || (type =? DISK_IMAGE_TYPE_D1M) || (type =? DISK_IMAGE_TYPE_D2M)
  || (type =? DISK_IMAGE_TYPE_D4M) || (type =? DISK_IMAGE_TYPE_DHD)
  || (type =? DISK_IMAGE_TYPE_D90).

Definition is_flux (type : Z) : bool :=
  (type =? DISK_IMAGE_TYPE_G64) || (type =? DISK_IMAGE_TYPE_G71)
  || (type =? DISK_IMAGE_TYPE_P64).

Definition fsimage_read_sector image (buf : mem) (track sector : Z) : option (Z * mem) :=
  match fd_ image with
  | None => Some (CBMDOS_IPE_NOT_READY, buf)
  | Some _ =>
      if is_dxx (di_type image) then fsimage_dxx_read_sector image buf track sector
      else if is_flux (di_type image) then Some (flux_read image buf track sector)
      else Some (CBMDOS_IPE_NOT_READY, buf)
  end.

Definition fsimage_write_sector image (buf : mem) (track sector : Z)
    : option (Z * disk_image_t) :=
  match fd_ image with
  | None => Some (-1, image)
  | Some _ =>
      if is_dxx (di_type image) then
        '(rc, image) ← fsimage_dxx_write_sector image buf track sector;
        Some (if rc <? 0 then -1 else 0, image)
      else if is_flux (di_type image) then
        let '(rc, image) := flux_write image buf track sector in
        Some (if rc <? 0 then -1 else 0, image)
      else Some (-1, image)
  end.

Definition disk_image_read_sector image (buf : mem) (track sector : Z) : option (Z * mem) :=
  if di_device image =? DISK_IMAGE_DEVICE_FS then fsimage_read_sector image buf track sector
  else Some (-1, buf).

Definition disk_image_write_sector image (buf : mem) (track sector : Z)
    : option (Z * disk_image_t) :=
  if negb (di_read_only image =? 0) then Some (-1, image)
  else if di_device image =? DISK_IMAGE_DEVICE_FS then
    fsimage_write_sector image buf track sector
  else Some (-1, image).

(** ** Files: reading back what was written *)

Lemma length_f_bytes f off n : length (f_bytes f off n) = Z.to_nat n.
Proof. unfold f_bytes. by rewrite length_fmap, length_seqZ. Qed.

Lemma f_bytes_ext f g off n :
  (forall i, off <= i < off + n -> f_data f i = f_data g i) -> f_bytes f off n = f_bytes g off n.
Proof.
  intros Hext. unfold f_bytes. apply list_fmap_ext. intros k i Hk.
  apply lookup_seqZ in Hk as [-> Hk]. apply Hext. lia.
Qed.

Lemma fpread_full f buf n off :
  0 <= off -> 0 <= n -> off + n <= f_size f -> mlen buf = n ->
  util_fpread f buf n off = (0, f_bytes f off n).
Proof.
  intros Hoff Hn Hsz Hbuf. unfold util_fpread. unfold mlen in Hbuf.
  destruct (Z.ltb_spec off 0); [lia|]. rewrite Z.max_r, Z.min_l by lia. rewrite Z.ltb_irrefl.
  rewrite drop_ge by lia. by rewrite app_nil_r.
Qed.

Lemma fpwrite_ok f bs off :
  0 <= off -> f_writable f = true ->
  exists f', util_fpwrite f bs off = (0, f') /\ f_writable f' = true /\
    f_size f' = Z.max (f_size f) (off + mlen bs) /\
    f_bytes f' off (mlen bs) = bs /\
    (forall i, (i < off \/ off + mlen bs <= i) -> i < f_size f -> f_data f' i = f_data f i).
Proof.
  intros Hoff Hw. unfold util_fpwrite. rewrite Hw. destruct (Z.ltb_spec off 0); [lia|].
  eexists. split; [reflexivity|]. split; [done|]. split; [done|]. split.
  - apply list_eq_same_length with (length bs); [done|by rewrite length_f_bytes; unfold mlen; lia|].
    intros k x y Hk Hx Hy. unfold f_bytes in Hx. apply list_lookup_fmap_Some_1 in Hx as (i & -> & Hi).
    apply lookup_seqZ in Hi as [-> Hi]. cbn [f_data]. unfold mlen in *.
    rewrite (proj2 (Z.leb_le _ _)), (proj2 (Z.ltb_lt _ _)) by lia. cbn [andb].
    replace (off + Z.of_nat k - off) with (Z.of_nat k) by lia.
    unfold getb. rewrite (proj2 (Z.leb_le _ _)), Nat2Z.id, Hy by lia. done.
  - intros i Hi Hsz. cbn [f_data].
    destruct (Z.leb_spec off i), (Z.ltb_spec i (off + mlen bs)); cbn [andb];
      try lia; destruct (Z.leb_spec (f_size f) i); cbn [andb]; (done || lia).
Qed.

(** ** Sectors *)

(** A writable linear image; the error map, when there is one, has its
    recorded length. *)
Record image_wf image : Prop := {
  wf_device : di_device image = DISK_IMAGE_DEVICE_FS;
  wf_type : di_type image ∈ Geometry.linear_types;
  wf_rw : di_read_only image = 0;
  wf_fd : exists f, fd_ image = Some f /\ f_writable f = true;
  wf_map : forall m, map_ image = Some m -> mlen m = map_len_ image
}.

(** The address has a block of the image, inside the error map. *)
Definition covered image (t s : Z) : Prop :=
  Geometry.valid_address (di_type image) t s /\
  forall m, map_ image = Some m -> Geometry.disk_image_check_sector image t s < mlen m.

(** The block lies in the file. *)
Definition present image (t s : Z) : Prop :=
  exists f, fd_ image = Some f /\
    (Geometry.disk_image_check_sector image t s + 1) * 256 <= f_size f.

Definition sector_data image (t s : Z) : mem :=
  match fd_ image with
  | Some f => f_bytes f (Geometry.disk_image_check_sector image t s * 256) 256
  | None => []
  end.

Lemma linear_is_dxx type : type ∈ Geometry.linear_types -> is_dxx type = true.
Proof.
  unfold Geometry.linear_types. intros Hin.
  repeat (apply elem_of_cons in Hin as [->|Hin]; [reflexivity|]).
  by apply not_elem_of_nil in Hin.
Qed.

Lemma check_sector_frame image image' t s :
  di_device image' = di_device image -> di_type image' = di_type image ->
  di_tracks image' = di_tracks image -> di_sectors image' = di_sectors image ->
  Geometry.disk_image_check_sector image' t s = Geometry.disk_image_check_sector image t s.
Proof.
  intros H1 H2 H3 H4. unfold Geometry.disk_image_check_sector, Geometry.fsimage_check_sector.
  by rewrite H1, H2, H3, H4.
Qed.

Lemma covered_block image t s : image_wf image -> covered image t s ->
  0 <= Geometry.disk_image_check_sector image t s.
Proof. intros Hwf [Hv _]. by apply Geometry.check_sector_nonneg; [apply Hwf|]. Qed.

(** The offset of a block of a linear image is in the range of [int]. *)
Lemma block_offset image t s : di_device image = DISK_IMAGE_DEVICE_FS -> Geometry.valid_address (di_type image) t s ->
  int_mul (Geometry.disk_image_check_sector image t s) 256 = Some (Geometry.disk_image_check_sector image t s * 256).
Proof.
  intros Hdev Hv. pose proof (Geometry.check_sector_nonneg image t s Hdev Hv) as Hr.
  assert (Geometry.blocks_of (di_type image) <= 12960) as Hb; [|apply int_mul_small; lia].
  unfold Geometry.valid_address in Hv. destruct (Geometry.layout_of (di_type image)) eqn:Hl; [|done].
  pose proof (Geometry.layout_types _ _ Hl) as Hty. clear Hv Hl Hr. unfold Geometry.linear_types in Hty.
  repeat (apply elem_of_cons in Hty as [->|Hty]; [vm_compute; congruence|]). by apply not_elem_of_nil in Hty.
Qed.

(** What reading a covered sector returns: an image without a map, or whose
    map holds [rf] for it. *)
Definition map_code image (t s : Z) : Z :=
  match map_ image with
  | Some m => default 0 (getb m (Geometry.disk_image_check_sector image t s))
  | None => CBMDOS_FDC_ERR_OK
  end.

Lemma read_sector_eq image buf t s :
  image_wf image -> covered image t s -> present image t s -> mlen buf = 256 ->
  disk_image_read_sector image buf t s =
    Some (dxx_rf_code (map_code image t s),
          if soft_error (map_code image t s) then sector_data image t s else buf).
Proof.
  intros Hwf Hcov (f & Hfd & Hsz) Hbuf. pose proof (covered_block _ _ _ Hwf Hcov) as Hr.
  unfold disk_image_read_sector, fsimage_read_sector, fsimage_dxx_read_sector.
  rewrite (wf_device _ Hwf), Hfd, (linear_is_dxx _ (wf_type _ Hwf)).
  cbn [Z.eqb DISK_IMAGE_DEVICE_FS]. rewrite (block_offset _ _ _ (wf_device _ Hwf) (proj1 Hcov)).
  destruct (Z.ltb_spec (Geometry.disk_image_check_sector image t s) 0); [lia|]. cbn [mbind option_bind].
  unfold map_code, sector_data. rewrite Hfd.
  assert (util_fpread f buf 256 (Geometry.disk_image_check_sector image t s * 256)
    = (0, f_bytes f (Geometry.disk_image_check_sector image t s * 256) 256)) as Hrd
    by (apply fpread_full; lia).
  destruct (map_ image) as [m|] eqn:Hm; cbn [mbind option_bind].
  - destruct (getb_is_Some m (Geometry.disk_image_check_sector image t s)) as [rf Hrf].
    { split; [done|]. by apply Hcov. }
    rewrite Hrf. cbn. destruct (soft_error rf); cbn [negb]; [|done].
    by rewrite Hrd.
  - rewrite Hrd. done.
Qed.

(** Every read of a covered sector returns a status; the buffer has received
    the first [n] bytes of the sector. *)
Lemma read_sector_total image buf t s :
  image_wf image -> covered image t s -> mlen buf = 256 ->
  exists f rc n, fd_ image = Some f /\ 0 <= n <= 256 /\
    disk_image_read_sector image buf t s =
      Some (rc, f_bytes f (Geometry.disk_image_check_sector image t s * 256) n ++ drop (Z.to_nat n) buf).
Proof.
  intros Hwf Hcov Hbuf. pose proof (covered_block _ _ _ Hwf Hcov) as Hr.
  destruct (wf_fd _ Hwf) as (f & Hfd & _).
  unfold disk_image_read_sector, fsimage_read_sector, fsimage_dxx_read_sector.
  rewrite (wf_device _ Hwf), Hfd, (linear_is_dxx _ (wf_type _ Hwf)).
  cbn [Z.eqb DISK_IMAGE_DEVICE_FS]. rewrite (block_offset _ _ _ (wf_device _ Hwf) (proj1 Hcov)).
  destruct (Z.ltb_spec (Geometry.disk_image_check_sector image t s) 0); [lia|]. cbn [mbind option_bind].
  set (off := Geometry.disk_image_check_sector image t s * 256).
  assert (forall k : Z, exists rc n, 0 <= n <= 256 /\
    (let '(rc, buf') := util_fpread f buf 256 off in
     if rc <? 0 then Some (-1, buf') else Some (dxx_rf_code k, buf')) =
    Some (rc, f_bytes f off n ++ drop (Z.to_nat n) buf)) as Hread.
  { intros k. unfold util_fpread. destruct (Z.ltb_spec off 0); [lia|].
    exists (if (if Z.max 0 (Z.min 256 (f_size f - off)) <? 256 then -1 else 0) <? 0 then -1 else dxx_rf_code k),
      (Z.max 0 (Z.min 256 (f_size f - off))). split; [lia|]. by case_match. }
  destruct (map_ image) as [m|] eqn:Hm; cbn [mbind option_bind].
  - destruct (getb_is_Some m (Geometry.disk_image_check_sector image t s)) as [rf ->];
      [split; [done|]; by apply Hcov|]. cbn [mbind option_bind].
    destruct (negb (soft_error rf)).
    + exists f, (dxx_rf_code rf), 0. split; [done|]. split; [lia|]. reflexivity.
    + destruct (Hread rf) as (rc & n & Hn & Heq). by exists f, rc, n.
  - destruct (Hread CBMDOS_FDC_ERR_OK) as (rc & n & Hn & Heq). by exists f, rc, n.
Qed.

(** The image after a successful write of [bs] to [(t, s)]. *)
Definition written image (bs : mem) (t s : Z) image' : Prop :=
  di_device image' = di_device image /\ di_type image' = di_type image /\
  di_tracks image' = di_tracks image /\ di_sectors image' = di_sectors image /\
  di_read_only image' = di_read_only image /\ map_len_ image' = map_len_ image /\
  present image' t s /\ sector_data image' t s = bs /\ map_code image' t s = CBMDOS_FDC_ERR_OK /\
  (forall m', map_ image' = Some m' -> exists m, map_ image = Some m /\ mlen m' = mlen m) /\
  (exists f f', fd_ image = Some f /\ fd_ image' = Some f' /\ f_writable f' = true /\
     f_size f <= f_size f') /\
  (forall t' s', covered image t' s' -> present image t' s' -> (t', s') <> (t, s) ->
     sector_data image' t' s' = sector_data image t' s' /\
     map_code image' t' s' = map_code image t' s').

Lemma written_intro image bs t s f f' m' :
  let r := Geometry.disk_image_check_sector image t s in
  image_wf image -> covered image t s -> fd_ image = Some f -> f_writable f' = true ->
  f_size f <= f_size f' -> (r + 1) * 256 <= f_size f' -> f_bytes f' (r * 256) 256 = bs ->
  match m', map_ image with
  | Some m', Some m => mlen m' = mlen m /\ getb m' r = Some CBMDOS_FDC_ERR_OK /\
      forall r', r' <> r -> getb m' r' = getb m r'
  | None, None => True
  | _, _ => False
  end ->
  (forall r', r' <> r -> 0 <= r' -> (forall m, map_ image = Some m -> r' < mlen m) ->
     (r' + 1) * 256 <= f_size f -> f_bytes f' (r' * 256) 256 = f_bytes f (r' * 256) 256) ->
  written image bs t s (set_map m' (set_fd (Some f') image)).
Proof.
  intros r Hwf Hcov Hfd Hw Hsz Hp Hd Hm Ho. set (image' := set_map m' (set_fd (Some f') image)).
  assert (forall t' s', Geometry.disk_image_check_sector image' t' s'
    = Geometry.disk_image_check_sector image t' s') as Hck by (intros; by apply check_sector_frame).
  unfold written. do 6 (split; [done|]).
  split; [exists f'; split; [done|by rewrite Hck]|].
  split; [unfold sector_data; rewrite Hck; done|].
  split. { unfold map_code. rewrite Hck. cbn. fold r. repeat case_match; try done.
    destruct Hm as (_ & -> & _). done. }
  split. { cbn. intros m1 ->. destruct (map_ image) as [m|]; [|done]. exists m. naive_solver. }
  split; [exists f, f'; done|].
  intros t' s' Hcov' (f0 & Hf0 & Hpres) Hts. simplify_eq.
  pose proof (covered_block _ _ _ Hwf Hcov') as Hr'.
  assert (Geometry.disk_image_check_sector image t' s' <> r) as Hne.
  { intros Heq. apply Hts.
    destruct (Geometry.check_sector_inj image t' s' t s (wf_device _ Hwf)
      (proj1 Hcov') (proj1 Hcov) Heq). congruence. }
  split.
  - unfold sector_data. rewrite Hck, Hfd. cbn. apply Ho; [done..|apply Hcov'|done].
  - unfold map_code. rewrite Hck. cbn. repeat case_match; try done.
    destruct Hm as (_ & _ & Hm). by rewrite Hm.
Qed.

Lemma write_sector_written image bs t s :
  image_wf image -> covered image t s -> mlen bs = 256 ->
  exists image', disk_image_write_sector image bs t s = Some (0, image') /\
    written image bs t s image'.
Proof.
  intros Hwf Hcov Hbs. pose proof (covered_block _ _ _ Hwf Hcov) as Hr.
  destruct (wf_fd _ Hwf) as (f & Hfd & Hwr).
  pose proof (fun f' m' => written_intro image bs t s f f' m' Hwf Hcov Hfd) as Hintro. cbn zeta in Hintro.
  unfold disk_image_write_sector, fsimage_write_sector, fsimage_dxx_write_sector.
  rewrite (wf_rw _ Hwf), (wf_device _ Hwf), Hfd, (linear_is_dxx _ (wf_type _ Hwf)).
  cbn [Z.eqb DISK_IMAGE_DEVICE_FS negb]. rewrite (block_offset _ _ _ (wf_device _ Hwf) (proj1 Hcov)).
  set (r := Geometry.disk_image_check_sector image t s) in *.
  destruct (Z.ltb_spec r 0); [lia|]. cbn [mbind option_bind].
  destruct (fpwrite_ok f bs (r * 256) ltac:(lia) Hwr) as (f1 & -> & Hw1 & Hs1 & Hd1 & Ho1).
  cbn. rewrite Hbs in *.
  assert (forall r', r' <> r -> 0 <= r' -> (r' + 1) * 256 <= f_size f ->
    f_bytes f1 (r' * 256) 256 = f_bytes f (r' * 256) 256) as Ho2.
  { intros r' Hne ? Hsz. apply f_bytes_ext. intros i Hi. apply Ho1; lia. }
  assert (set_fd (Some f1) image = set_map (map_ image) (set_fd (Some f1) image)) as Hset by done.
  destruct (map_ image) as [m|] eqn:Hm.
  - pose proof (proj2 Hcov _ Hm) as Hlt. fold r in Hlt.
    destruct (getb_is_Some m r ltac:(lia)) as [rf Hrf]. rewrite Hrf. cbn.
    destruct (Z.eqb_spec rf CBMDOS_FDC_ERR_OK) as [->|Hrf1]; cbn.
    { eexists. split; [done|]. rewrite Hset. apply Hintro; try done; try lia. naive_solver. }
    rewrite putb_eq by lia. cbn.
    destruct (fpwrite_ok f1 [CBMDOS_FDC_ERR_OK] (map_len_ image * 256 + r)) as (f2 & -> & Hw2 & Hs2 & _ & Ho3);
      [pose proof (wf_map _ Hwf _ Hm); pose proof (mlen_nonneg m); lia|done|]. cbn.
    pose proof (wf_map _ Hwf _ Hm) as Hlen. change (mlen [CBMDOS_FDC_ERR_OK]) with 1 in *.
    eexists. split; [done|].
    change (set_fd (Some f2) (set_fd (Some f1) image)) with (set_fd (Some f2) image).
    assert (putb m r CBMDOS_FDC_ERR_OK = Some (<[Z.to_nat r:=CBMDOS_FDC_ERR_OK]> m)) as Hput
      by (apply putb_eq; lia).
    apply Hintro; try done; try lia.
    + rewrite <- Hd1. apply f_bytes_ext. intros i Hi. apply Ho3; lia.
    + split; [by apply (putb_len m r CBMDOS_FDC_ERR_OK)|]. split; [by eapply getb_put_same|].
      intros r' Hne. eapply getb_put_other; [done|lia].
    + intros r' Hne Hr' Hcov' Hsz. rewrite <- Ho2 by done. apply f_bytes_ext. intros i Hi.
      pose proof (Hcov' m eq_refl). apply Ho3; lia.
  - eexists. split; [done|]. rewrite Hset. apply Hintro; try done; try lia. intros; apply Ho2; lia.
Qed.

Lemma written_wf image bs t s image' :
  image_wf image -> written image bs t s image' -> image_wf image'.
Proof.
  intros Hwf (H1 & H2 & _ & _ & H5 & H6 & _ & _ & _ & Hm & (f & f' & Hf & Hf' & Hw & _) & _).
  split; [by rewrite H1; apply Hwf|by rewrite H2; apply Hwf|by rewrite H5; apply Hwf|eauto|].
  intros m' Hm'. destruct (Hm m' Hm') as (m & Hm1 & ->). rewrite H6. by apply Hwf.
Qed.

Lemma written_covered image bs t s image' t' s' :
  written image bs t s image' -> covered image t' s' -> covered image' t' s'.
Proof.
  intros (H1 & H2 & H3 & H4 & _ & _ & _ & _ & _ & Hm & _) Hcov.
  split; [rewrite H2; apply Hcov|]. intros m' Hm'. destruct (Hm m' Hm') as (m & Hm1 & ->).
  rewrite check_sector_frame with (image := image) by done. by apply Hcov.
Qed.

Lemma written_present image bs t s image' t' s' :
  written image bs t s image' -> present image t' s' -> present image' t' s'.
Proof.
  intros (H1 & H2 & H3 & H4 & _ & _ & _ & _ & _ & _ & (f & f' & Hf & Hf' & _ & Hsz) & _) (f0 & Hf0 & Hle).
  exists f'. split; [done|]. rewrite check_sector_frame with (image := image) by done. simplify_eq. lia.
Qed.

(** The reads after a write: of the sector written, and of the others. *)
Lemma read_written image bs buf t s image' :
  image_wf image -> covered image t s -> mlen buf = 256 -> written image bs t s image' ->
  disk_image_read_sector image' buf t s = Some (CBMDOS_IPE_OK, bs).
Proof.
  intros Hwf Hcov Hbuf Hwr. pose proof (written_wf _ _ _ _ _ Hwf Hwr).
  pose proof (written_covered _ _ _ _ _ _ _ Hwr Hcov).
  destruct Hwr as (_ & _ & _ & _ & _ & _ & Hp & Hd & Hc & _). rewrite read_sector_eq by done.
  by rewrite Hc, Hd.
Qed.

Lemma read_written_other image bs buf t s image' t' s' :
  image_wf image -> covered image t' s' -> present image t' s' -> (t', s') <> (t, s) ->
  mlen buf = 256 -> written image bs t s image' ->
  disk_image_read_sector image' buf t' s' = disk_image_read_sector image buf t' s'.
Proof.
  intros Hwf Hcov Hpres Hne Hbuf Hwr. pose proof (written_wf _ _ _ _ _ Hwf Hwr).
  pose proof (written_covered _ _ _ _ _ _ _ Hwr Hcov).
  pose proof (written_present _ _ _ _ _ _ _ Hwr Hpres).
  rewrite !read_sector_eq by done.
  destruct Hwr as (_ & _ & _ & _ & _ & _ & _ & _ & _ & _ & _ & Ho).
  by destruct (Ho t' s' Hcov Hpres Hne) as [-> ->].
Qed.

(** ** Properties *)

(** C14: a sector written to a writable image is what the next read of it
    returns, with status 0 even if the error map marked the sector as bad
    before, and the image stays writable and well formed. *)
Theorem write_read_same image bs buf t s :
  image_wf image -> covered image t s -> mlen bs = 256 -> mlen buf = 256 ->
  exists image', disk_image_write_sector image bs t s = Some (0, image') /\
    image_wf image' /\
    disk_image_read_sector image' buf t s = Some (CBMDOS_IPE_OK, bs).
Proof.
  intros Hwf Hcov Hbs Hbuf. destruct (write_sector_written _ _ _ _ Hwf Hcov Hbs) as (image' & Hwr & Hx).
  exists image'. split; [done|]. split; [by eapply written_wf|by eapply (read_written image)].
Qed.

(** C31: writing a sector changes no other sector of the image: neither its
    contents nor the status its reads return. *)
Theorem write_read_other image bs buf t s t' s' :
  image_wf image -> covered image t s -> mlen bs = 256 -> mlen buf = 256 ->
  covered image t' s' -> present image t' s' -> (t', s') <> (t, s) ->
  exists image', disk_image_write_sector image bs t s = Some (0, image') /\
    disk_image_read_sector image' buf t' s' = disk_image_read_sector image buf t' s'.
Proof.
  intros Hwf Hcov Hbs Hbuf Hcov' Hpres' Hne.
  destruct (write_sector_written _ _ _ _ Hwf Hcov Hbs) as (image' & Hwr & Hx).
  exists image'. split; [done|]. by eapply read_written_other.
Qed.

(** An image opened read-only (or not opened as a file) is never modified:
    every write is refused with -1 and leaves the image as it was. *)
Theorem write_protected image bs t s :
  di_read_only image <> 0 \/ di_device image <> DISK_IMAGE_DEVICE_FS \/ fd_ image = None ->
  disk_image_write_sector image bs t s = Some (-1, image).
Proof.
  intros Hp. unfold disk_image_write_sector, fsimage_write_sector.
  destruct (Z.eqb_spec (di_read_only image) 0); cbn [negb]; [|done].
  destruct (Z.eqb_spec (di_device image) DISK_IMAGE_DEVICE_FS); [|done].
  destruct Hp as [? | [? | Hnone]]; [done..|by rewrite Hnone].
Qed.

(** Every read of a covered sector that lies in the file gives the DOS
    code that the table assigns to the controller code of the error map (code
    1, "no error", when there is no map); the buffer receives the sector for
    the soft codes and is untouched for the hard ones. *)
Theorem read_sector_code image buf t s :
  image_wf image -> covered image t s -> present image t s -> mlen buf = 256 ->
  exists rc buf', disk_image_read_sector image buf t s = Some (rc, buf') /\
    buf' = (if soft_error (map_code image t s) then sector_data image t s else buf) /\
    ((map_code image t s, rc) ∈
       [(1, 0); (2, 20); (3, 21); (4, 22); (5, 23); (7, 25); (8, 26); (9, 27); (10, 28);
        (11, 29); (15, 74); (16, 24)] \/
     (map_code image t s ∉ [1; 2; 3; 4; 5; 7; 8; 9; 10; 11; 15; 16]) /\ rc = 0).
Proof.
  intros Hwf Hcov Hpres Hbuf. rewrite read_sector_eq by done. do 2 eexists. split; [done|].
  split; [done|]. generalize (map_code image t s). intros rf. unfold dxx_rf_code.
  repeat (match goal with |- context [rf =? ?c] => destruct (Z.eqb_spec rf c) as [-> | ] end;
    [left; apply (bool_decide_eq_true_1 _); reflexivity|]).
  right. split; [|done]. intros Hin. repeat (apply elem_of_cons in Hin as [?|Hin]; [done|]).
  by apply not_elem_of_nil in Hin.
Qed.

(** The error map may hold a code outside the table (6, 12, 13, 14 or 17
    and above): the read then reports success although it never touched the
    buffer, so the caller uses whatever the buffer held before. *)
Theorem unknown_hard_error_reported_ok image buf t s :
  image_wf image -> covered image t s -> present image t s -> mlen buf = 256 ->
  map_code image t s ∈ [6; 12; 13; 14] \/ 16 < map_code image t s ->
  disk_image_read_sector image buf t s = Some (CBMDOS_IPE_OK, buf).
Proof.
  intros Hwf Hcov Hpres Hbuf Hrf. rewrite read_sector_eq by done. revert Hrf.
  generalize (map_code image t s). intros rf [Hin|Hgt].
  - repeat (apply elem_of_cons in Hin as [->|Hin]; [done|]). by apply not_elem_of_nil in Hin.
  - unfold soft_error, dxx_rf_code. cbv [CBMDOS_FDC_ERR_OK CBMDOS_FDC_ERR_HEADER
      CBMDOS_FDC_ERR_SYNC CBMDOS_FDC_ERR_NOBLOCK CBMDOS_FDC_ERR_DCHECK CBMDOS_FDC_ERR_VERIFY
      CBMDOS_FDC_ERR_WPROT CBMDOS_FDC_ERR_HCHECK CBMDOS_FDC_ERR_BLENGTH CBMDOS_FDC_ERR_ID
      CBMDOS_FDC_ERR_DRIVE CBMDOS_FDC_ERR_DECODE].
    case_bool; (lia || done).
Qed.

(** A 35-track D64 with error information has a map of 683 entries, but
    the track check lets tracks 36 to 42 through: reading or writing a sector
    there accesses the map outside its bounds. *)
Theorem error_map_overrun image buf bs m t s :
  image_wf image -> di_type image = DISK_IMAGE_TYPE_D64 -> map_ image = Some m ->
  mlen m = NUM_BLOCKS_1541 -> 36 <= t <= 42 -> 0 <= s < 17 ->
  disk_image_read_sector image buf t s = None /\ disk_image_write_sector image bs t s = None.
Proof.
  intros Hwf Hty Hm Hlen Ht Hs. destruct (wf_fd _ Hwf) as (f & Hfd & Hw).
  assert (Geometry.valid_address (di_type image) t s) as Hv.
  { unfold Geometry.valid_address. rewrite Hty. split; [unfold MAX_TRACKS_1541; lia|].
    enough ((Geometry.disk_image_sector_per_track DISK_IMAGE_TYPE_D64 t =? 17) = true) as ->%Z.eqb_eq by lia.
    by_zrange 36 7 t. }
  destruct (Geometry.check_sector_valid _ _ _ (wf_device _ Hwf) Hv) as (n & w & b & Hl & _ & _ & Heq).
  rewrite Hty in Hl. unfold Geometry.layout_of in Hl. eval_tests_in Hl. simplify_eq.
  assert (NUM_BLOCKS_1541 <= Geometry.disk_image_check_sector image t s) as Hge.
  { rewrite Heq. pose proof (row_base_mono (Geometry.disk_image_sector_per_track DISK_IMAGE_TYPE_D64)
      (fun u => proj1 (Geometry.spt_bounds _ u)) 36 t ltac:(lia)) as Hmono.
    change (row_base _ 36) with NUM_BLOCKS_1541 in Hmono. lia. }
  assert (getb m (Geometry.disk_image_check_sector image t s) = None) as Hnone.
  { destruct (getb m _) eqn:Hg; [|done]. apply getb_lt in Hg. lia. }
  unfold disk_image_read_sector, disk_image_write_sector, fsimage_read_sector, fsimage_write_sector,
    fsimage_dxx_read_sector, fsimage_dxx_write_sector.
  rewrite (wf_device _ Hwf), (wf_rw _ Hwf), Hfd, (linear_is_dxx _ (wf_type _ Hwf)), Hm, (block_offset _ _ _ (wf_device _ Hwf) Hv), Hnone.
  cbn [Z.eqb DISK_IMAGE_DEVICE_FS negb].
  unfold NUM_BLOCKS_1541 in *. destruct (Z.ltb_spec (Geometry.disk_image_check_sector image t s) 0); [lia|].
  cbn [mbind option_bind]. split; [reflexivity|].
  destruct (fpwrite_ok f bs (Geometry.disk_image_check_sector image t s * 256) ltac:(lia) Hw)
    as (f1 & -> & _). cbn. by rewrite Hm, Hnone.
Qed.

End with_image.
End Image.

(** A concrete platform: zeroed memory, no flux-level images. *)
#[export] Instance zero_platform : Platform := {|
  malloc_fill := fun _ => 0;
  flux_read := fun _ buf _ _ => (CBMDOS_IPE_NOT_READY, buf);
  flux_write := fun image _ _ _ => (-1, image)
|}.

Definition zero_block : mem := replicate 256 0.

(** A D64 of 35 tracks with error information, all sectors good except the one
    of block 0, whose code is 6. *)
Definition error_d64 : disk_image_t :=
  DiskImage 0 DISK_IMAGE_DEVICE_FS DISK_IMAGE_TYPE_D64 35 0 84
    (Some (File 175531 (fun _ => 7) true)) (Some (6 :: replicate 682 1)) 683.

Lemma blank_d64_wf : Image.image_wf blank_d64.
Proof.
  split; [reflexivity|apply (bool_decide_eq_true_1 _); vm_compute; reflexivity|reflexivity| |].
  - eexists. split; reflexivity.
  - intros m Hm. discriminate Hm.
Defined.

Lemma error_d64_wf : Image.image_wf error_d64.
Proof.
  split; [reflexivity|apply (bool_decide_eq_true_1 _); vm_compute; reflexivity|reflexivity| |].
  - eexists. split; reflexivity.
  - intros m [= <-]. reflexivity.
Defined.

Ltac solve_covered :=
  split; [vm_compute; repeat split; congruence
         |let E := fresh in intros ? E;
          first [discriminate E | injection E as <-; vm_compute; reflexivity]].

Lemma write_read_same_witness :
  exists image', Image.disk_image_write_sector blank_d64 (replicate 256 5) 18 0 = Some (0, image') /\
    Image.image_wf image' /\
    Image.disk_image_read_sector image' zero_block 18 0 = Some (0, replicate 256 5).
Proof.
  apply (Image.write_read_same blank_d64 (replicate 256 5) zero_block 18 0);
    [apply blank_d64_wf|solve_covered|reflexivity|reflexivity].
Defined.

Lemma write_read_other_witness :
  exists image', Image.disk_image_write_sector blank_d64 (replicate 256 5) 18 0 = Some (0, image') /\
    Image.disk_image_read_sector image' zero_block 18 1 =
    Image.disk_image_read_sector blank_d64 zero_block 18 1.
Proof.
  apply (Image.write_read_other blank_d64 (replicate 256 5) zero_block 18 0 18 1);
    [apply blank_d64_wf|solve_covered|reflexivity|reflexivity|solve_covered| |congruence].
  eexists. split; [reflexivity|]. vm_compute; congruence.
Defined.

Lemma write_protected_witness :
  Image.disk_image_write_sector (Image.set_fd None blank_d64) zero_block 1 0
    = Some (-1, Image.set_fd None blank_d64).
Proof. apply Image.write_protected. right; right; reflexivity. Defined.

Lemma read_sector_code_witness :
  exists rc buf', Image.disk_image_read_sector error_d64 zero_block 18 0 = Some (rc, buf') /\
    buf' = replicate 256 7.
Proof.
  destruct (Image.read_sector_code error_d64 zero_block 18 0 error_d64_wf ltac:(solve_covered)
    ltac:(eexists; split; [reflexivity|vm_compute; congruence]) eq_refl) as (rc & buf' & H & Hb & _).
  exists rc, buf'. split; [exact H|]. rewrite Hb. vm_compute. reflexivity.
Defined.

Lemma unknown_hard_error_witness :
  Image.disk_image_read_sector error_d64 zero_block 1 0 = Some (0, zero_block).
Proof.
  apply (Image.unknown_hard_error_reported_ok error_d64 zero_block 1 0);
    [apply error_d64_wf|solve_covered|eexists; split; [reflexivity|vm_compute; congruence]|reflexivity|].
  left. apply (bool_decide_eq_true_1 _). vm_compute. reflexivity.
Defined.

Lemma error_map_overrun_witness :
  Image.disk_image_read_sector error_d64 zero_block 36 0 = None /\
  Image.disk_image_write_sector error_d64 zero_block 36 0 = None.
Proof.
  apply (Image.error_map_overrun error_d64 zero_block zero_block (6 :: replicate 682 1) 36 0);
    [apply error_d64_wf|reflexivity|reflexivity|vm_compute; reflexivity|lia|lia].
Defined.
