(* ===== verification/VDrive.v ===== *)
(** * The virtual drive: state, logical sectors, geometry

    Models [vdrive_t] of [src/lib/vdrive/vdrive.h] and the sector access of
    [src/lib/vdrive/vdrive.c]: the mapping of logical sectors to the image
    ([vdrive_log_to_phy]), [vdrive_read_sector]/[vdrive_write_sector] and the
    format constants ([vdrive_set_disk_geometry]). The channel buffers of
    [vdrive_t] are not part of the model. *)

From S2P Require Import Prelude Geometry Image.

Definition VDRIVE_IMAGE_FORMAT_1541 : Z := 0.
Definition VDRIVE_IMAGE_FORMAT_1571 : Z := 1.
Definition VDRIVE_IMAGE_FORMAT_1581 : Z := 2.
Definition VDRIVE_IMAGE_FORMAT_8050 : Z := 3.
Definition VDRIVE_IMAGE_FORMAT_8250 : Z := 4.
Definition VDRIVE_IMAGE_FORMAT_2040 : Z := 5.
Definition VDRIVE_IMAGE_FORMAT_NP : Z := 6.
Definition VDRIVE_IMAGE_FORMAT_SYS : Z := 7.
Definition VDRIVE_IMAGE_FORMAT_9000 : Z := 8.
Definition VDRIVE_IMAGE_FORMAT_NONE : Z := 10.
Definition VDRIVE_BAM_MAX_STATES : Z := 33.
Definition DRIVE_RAMSIZE : Z := 2048.
(** The build has a single drive per unit. *)
Definition NUM_DRIVES : Z := 1.

(** diskconstants.h *)
Definition BAM_TRACK_1541 : Z := 18.
Definition BAM_SECTOR_1541 : Z := 0.
Definition BAM_NAME_1541 : Z := 144.
Definition BAM_ID_1541 : Z := 162.
Definition DIR_TRACK_1541 : Z := 18.
Definition DIR_SECTOR_1541 : Z := 1.
Definition BAM_TRACK_2040 : Z := 18.
Definition BAM_SECTOR_2040 : Z := 0.
Definition BAM_NAME_2040 : Z := 144.
Definition BAM_ID_2040 : Z := 162.
Definition DIR_TRACK_2040 : Z := 18.
Definition DIR_SECTOR_2040 : Z := 1.
Definition BAM_TRACK_1571 : Z := 18.
Definition BAM_SECTOR_1571 : Z := 0.
Definition BAM_NAME_1571 : Z := 144.
Definition BAM_ID_1571 : Z := 162.
Definition DIR_TRACK_1571 : Z := 18.
Definition DIR_SECTOR_1571 : Z := 1.
Definition BAM_TRACK_1581 : Z := 40.
Definition BAM_SECTOR_1581 : Z := 0.
Definition BAM_NAME_1581 : Z := 4.
Definition BAM_ID_1581 : Z := 22.
Definition DIR_TRACK_1581 : Z := 40.
Definition DIR_SECTOR_1581 : Z := 3.
Definition BAM_TRACK_8050 : Z := 38.
Definition BAM_SECTOR_8050 : Z := 0.
Definition BAM_NAME_8050 : Z := 6.
Definition BAM_ID_8050 : Z := 24.
Definition DIR_TRACK_8050 : Z := 39.
Definition DIR_SECTOR_8050 : Z := 1.
Definition HDR_TRACK_8050 : Z := DIR_TRACK_8050.
Definition HDR_SECTOR_8050 : Z := 0.
Definition BAM_TRACK_NP : Z := 1.
Definition BAM_SECTOR_NP : Z := 1.
Definition BAM_NAME_NP : Z := 4.
Definition BAM_ID_NP : Z := 22.
Definition DIR_TRACK_NP : Z := 1.
Definition DIR_SECTOR_NP : Z := 34.
Definition BAM_NAME_9000 : Z := 6.
Definition BAM_ID_9000 : Z := 24.

(** The format constants of the mounted disk, as [vdrive_set_disk_geometry] sets them. *)
Record geom_t := Geom {
  image_format : Z;
  Bam_Track : Z;
  Bam_Sector : Z;
  bam_name : Z;
  bam_id : Z;
  Header_Track : Z;
  Header_Sector : Z;
  Dir_Track : Z;
  Dir_Sector : Z;
  num_tracks : Z;
  Part_Start : Z;
  Part_End : Z
}.

Definition set_image_format (x : Z) (r : geom_t) : geom_t :=
    Geom x (Bam_Track r) (Bam_Sector r) (bam_name r) (bam_id r) (Header_Track r)
    (Header_Sector r) (Dir_Track r) (Dir_Sector r) (num_tracks r) (Part_Start r) (Part_End
    r).
Definition set_Bam_Track (x : Z) (r : geom_t) : geom_t :=
    Geom (image_format r) x (Bam_Sector r) (bam_name r) (bam_id r) (Header_Track r)
    (Header_Sector r) (Dir_Track r) (Dir_Sector r) (num_tracks r) (Part_Start r) (Part_End
    r).
Definition set_Bam_Sector (x : Z) (r : geom_t) : geom_t :=
    Geom (image_format r) (Bam_Track r) x (bam_name r) (bam_id r) (Header_Track r)
    (Header_Sector r) (Dir_Track r) (Dir_Sector r) (num_tracks r) (Part_Start r) (Part_End
    r).
Definition set_bam_name (x : Z) (r : geom_t) : geom_t :=
    Geom (image_format r) (Bam_Track r) (Bam_Sector r) x (bam_id r) (Header_Track r)
    (Header_Sector r) (Dir_Track r) (Dir_Sector r) (num_tracks r) (Part_Start r) (Part_End
    r).
Definition set_bam_id (x : Z) (r : geom_t) : geom_t :=
    Geom (image_format r) (Bam_Track r) (Bam_Sector r) (bam_name r) x (Header_Track r)
    (Header_Sector r) (Dir_Track r) (Dir_Sector r) (num_tracks r) (Part_Start r) (Part_End
    r).
Definition set_Header_Track (x : Z) (r : geom_t) : geom_t :=
    Geom (image_format r) (Bam_Track r) (Bam_Sector r) (bam_name r) (bam_id r) x
    (Header_Sector r) (Dir_Track r) (Dir_Sector r) (num_tracks r) (Part_Start r) (Part_End
    r).
Definition set_Header_Sector (x : Z) (r : geom_t) : geom_t :=
    Geom (image_format r) (Bam_Track r) (Bam_Sector r) (bam_name r) (bam_id r)
    (Header_Track r) x (Dir_Track r) (Dir_Sector r) (num_tracks r) (Part_Start r)
    (Part_End r).
Definition set_Dir_Track (x : Z) (r : geom_t) : geom_t :=
    Geom (image_format r) (Bam_Track r) (Bam_Sector r) (bam_name r) (bam_id r)
    (Header_Track r) (Header_Sector r) x (Dir_Sector r) (num_tracks r) (Part_Start r)
    (Part_End r).
Definition set_Dir_Sector (x : Z) (r : geom_t) : geom_t :=
    Geom (image_format r) (Bam_Track r) (Bam_Sector r) (bam_name r) (bam_id r)
    (Header_Track r) (Header_Sector r) (Dir_Track r) x (num_tracks r) (Part_Start r)
    (Part_End r).
Definition set_num_tracks (x : Z) (r : geom_t) : geom_t :=
    Geom (image_format r) (Bam_Track r) (Bam_Sector r) (bam_name r) (bam_id r)
    (Header_Track r) (Header_Sector r) (Dir_Track r) (Dir_Sector r) x (Part_Start r)
    (Part_End r).
Definition set_Part_Start (x : Z) (r : geom_t) : geom_t :=
    Geom (image_format r) (Bam_Track r) (Bam_Sector r) (bam_name r) (bam_id r)
    (Header_Track r) (Header_Sector r) (Dir_Track r) (Dir_Sector r) (num_tracks r) x
    (Part_End r).
Definition set_Part_End (x : Z) (r : geom_t) : geom_t :=
    Geom (image_format r) (Bam_Track r) (Bam_Sector r) (bam_name r) (bam_id r)
    (Header_Track r) (Header_Sector r) (Dir_Track r) (Dir_Sector r) (num_tracks r)
    (Part_Start r) x.

(** The BAM in memory: the heap block [bam] ([None] is the null pointer), and per
    256-byte block its state (-1 not in memory, 0 in memory, 1 dirty) and its
    track and sector on the disk. *)
Record bamc_t := Bamc {
  bam : option mem;
  bam_size : Z;
  bam_state : mem;
  bam_tracks : mem;
  bam_sectors : mem
}.

Definition set_bam (x : option mem) (r : bamc_t) : bamc_t :=
    Bamc x (bam_size r) (bam_state r) (bam_tracks r) (bam_sectors r).
Definition set_bam_size (x : Z) (r : bamc_t) : bamc_t :=
    Bamc (bam r) x (bam_state r) (bam_tracks r) (bam_sectors r).
Definition set_bam_state (x : mem) (r : bamc_t) : bamc_t :=
    Bamc (bam r) (bam_size r) x (bam_tracks r) (bam_sectors r).
Definition set_bam_tracks (x : mem) (r : bamc_t) : bamc_t :=
    Bamc (bam r) (bam_size r) (bam_state r) x (bam_sectors r).
Definition set_bam_sectors (x : mem) (r : bamc_t) : bamc_t :=
    Bamc (bam r) (bam_size r) (bam_state r) (bam_tracks r) x.

(** CMD partitions, and the current directory of each partition. *)
Record part_t := Parts {
  current_offset : Z;
  sys_offset : Z;
  current_part : Z;
  selected_part : Z;
  default_part : Z;
  haspt : bool;
  ptype : mem;
  poffset : mem;
  psize : mem;
  cheadertrack : mem;
  cheadersector : mem;
  cdirtrack : mem;
  cdirsector : mem;
  cpartstart : mem;
  cpartend : mem
}.

Definition set_current_offset (x : Z) (r : part_t) : part_t :=
    Parts x (sys_offset r) (current_part r) (selected_part r) (default_part r) (haspt r)
    (ptype r) (poffset r) (psize r) (cheadertrack r) (cheadersector r) (cdirtrack r)
    (cdirsector r) (cpartstart r) (cpartend r).
Definition set_sys_offset (x : Z) (r : part_t) : part_t :=
    Parts (current_offset r) x (current_part r) (selected_part r) (default_part r) (haspt
    r) (ptype r) (poffset r) (psize r) (cheadertrack r) (cheadersector r) (cdirtrack r)
    (cdirsector r) (cpartstart r) (cpartend r).
Definition set_current_part (x : Z) (r : part_t) : part_t :=
    Parts (current_offset r) (sys_offset r) x (selected_part r) (default_part r) (haspt r)
    (ptype r) (poffset r) (psize r) (cheadertrack r) (cheadersector r) (cdirtrack r)
    (cdirsector r) (cpartstart r) (cpartend r).
Definition set_selected_part (x : Z) (r : part_t) : part_t :=
    Parts (current_offset r) (sys_offset r) (current_part r) x (default_part r) (haspt r)
    (ptype r) (poffset r) (psize r) (cheadertrack r) (cheadersector r) (cdirtrack r)
    (cdirsector r) (cpartstart r) (cpartend r).
Definition set_default_part (x : Z) (r : part_t) : part_t :=
    Parts (current_offset r) (sys_offset r) (current_part r) (selected_part r) x (haspt r)
    (ptype r) (poffset r) (psize r) (cheadertrack r) (cheadersector r) (cdirtrack r)
    (cdirsector r) (cpartstart r) (cpartend r).
Definition set_haspt (x : bool) (r : part_t) : part_t :=
    Parts (current_offset r) (sys_offset r) (current_part r) (selected_part r)
    (default_part r) x (ptype r) (poffset r) (psize r) (cheadertrack r) (cheadersector r)
    (cdirtrack r) (cdirsector r) (cpartstart r) (cpartend r).
Definition set_ptype (x : mem) (r : part_t) : part_t :=
    Parts (current_offset r) (sys_offset r) (current_part r) (selected_part r)
    (default_part r) (haspt r) x (poffset r) (psize r) (cheadertrack r) (cheadersector r)
    (cdirtrack r) (cdirsector r) (cpartstart r) (cpartend r).
Definition set_poffset (x : mem) (r : part_t) : part_t :=
    Parts (current_offset r) (sys_offset r) (current_part r) (selected_part r)
    (default_part r) (haspt r) (ptype r) x (psize r) (cheadertrack r) (cheadersector r)
    (cdirtrack r) (cdirsector r) (cpartstart r) (cpartend r).
Definition set_psize (x : mem) (r : part_t) : part_t :=
    Parts (current_offset r) (sys_offset r) (current_part r) (selected_part r)
    (default_part r) (haspt r) (ptype r) (poffset r) x (cheadertrack r) (cheadersector r)
    (cdirtrack r) (cdirsector r) (cpartstart r) (cpartend r).
Definition set_cheadertrack (x : mem) (r : part_t) : part_t :=
    Parts (current_offset r) (sys_offset r) (current_part r) (selected_part r)
    (default_part r) (haspt r) (ptype r) (poffset r) (psize r) x (cheadersector r)
    (cdirtrack r) (cdirsector r) (cpartstart r) (cpartend r).
Definition set_cheadersector (x : mem) (r : part_t) : part_t :=
    Parts (current_offset r) (sys_offset r) (current_part r) (selected_part r)
    (default_part r) (haspt r) (ptype r) (poffset r) (psize r) (cheadertrack r) x
    (cdirtrack r) (cdirsector r) (cpartstart r) (cpartend r).
Definition set_cdirtrack (x : mem) (r : part_t) : part_t :=
    Parts (current_offset r) (sys_offset r) (current_part r) (selected_part r)
    (default_part r) (haspt r) (ptype r) (poffset r) (psize r) (cheadertrack r)
    (cheadersector r) x (cdirsector r) (cpartstart r) (cpartend r).
Definition set_cdirsector (x : mem) (r : part_t) : part_t :=
    Parts (current_offset r) (sys_offset r) (current_part r) (selected_part r)
    (default_part r) (haspt r) (ptype r) (poffset r) (psize r) (cheadertrack r)
    (cheadersector r) (cdirtrack r) x (cpartstart r) (cpartend r).
Definition set_cpartstart (x : mem) (r : part_t) : part_t :=
    Parts (current_offset r) (sys_offset r) (current_part r) (selected_part r)
    (default_part r) (haspt r) (ptype r) (poffset r) (psize r) (cheadertrack r)
    (cheadersector r) (cdirtrack r) (cdirsector r) x (cpartend r).
Definition set_cpartend (x : mem) (r : part_t) : part_t :=
    Parts (current_offset r) (sys_offset r) (current_part r) (selected_part r)
    (default_part r) (haspt r) (ptype r) (poffset r) (psize r) (cheadertrack r)
    (cheadersector r) (cdirtrack r) (cdirsector r) (cpartstart r) x.

(** [vdrive_t]. [NUM_DRIVES] is 1: [images0] is [images[0]] and [image_set] says
    that the pointer [image] is not null (it then points to [images[0]]). The
    error channel is kept as its arguments: the code, the track and the sector
    of the last [vdrive_command_set_error]. *)
Record vdrive_t := VDrive {
  unit_no : Z;
  images0 : option disk_image_t;
  image_set : bool;
  image_mode : Z;
  geom : geom_t;
  bamc : bamc_t;
  part : part_t;
  d90toggle : Z;
  ram : mem;
  last_code : Z;
  err_track : Z;
  err_sector : Z
}.

Definition set_unit_no (x : Z) (r : vdrive_t) : vdrive_t :=
    VDrive x (images0 r) (image_set r) (image_mode r) (geom r) (bamc r) (part r)
    (d90toggle r) (ram r) (last_code r) (err_track r) (err_sector r).
Definition set_images0 (x : option disk_image_t) (r : vdrive_t) : vdrive_t :=
    VDrive (unit_no r) x (image_set r) (image_mode r) (geom r) (bamc r) (part r)
    (d90toggle r) (ram r) (last_code r) (err_track r) (err_sector r).
Definition set_image_set (x : bool) (r : vdrive_t) : vdrive_t :=
    VDrive (unit_no r) (images0 r) x (image_mode r) (geom r) (bamc r) (part r) (d90toggle
    r) (ram r) (last_code r) (err_track r) (err_sector r).
Definition set_image_mode (x : Z) (r : vdrive_t) : vdrive_t :=
    VDrive (unit_no r) (images0 r) (image_set r) x (geom r) (bamc r) (part r) (d90toggle
    r) (ram r) (last_code r) (err_track r) (err_sector r).
Definition set_geom (x : geom_t) (r : vdrive_t) : vdrive_t :=
    VDrive (unit_no r) (images0 r) (image_set r) (image_mode r) x (bamc r) (part r)
    (d90toggle r) (ram r) (last_code r) (err_track r) (err_sector r).
Definition set_bamc (x : bamc_t) (r : vdrive_t) : vdrive_t :=
    VDrive (unit_no r) (images0 r) (image_set r) (image_mode r) (geom r) x (part r)
    (d90toggle r) (ram r) (last_code r) (err_track r) (err_sector r).
Definition set_part (x : part_t) (r : vdrive_t) : vdrive_t :=
    VDrive (unit_no r) (images0 r) (image_set r) (image_mode r) (geom r) (bamc r) x
    (d90toggle r) (ram r) (last_code r) (err_track r) (err_sector r).
Definition set_d90toggle (x : Z) (r : vdrive_t) : vdrive_t :=
    VDrive (unit_no r) (images0 r) (image_set r) (image_mode r) (geom r) (bamc r) (part r)
    x (ram r) (last_code r) (err_track r) (err_sector r).
Definition set_ram (x : mem) (r : vdrive_t) : vdrive_t :=
    VDrive (unit_no r) (images0 r) (image_set r) (image_mode r) (geom r) (bamc r) (part r)
    (d90toggle r) x (last_code r) (err_track r) (err_sector r).
Definition set_last_code (x : Z) (r : vdrive_t) : vdrive_t :=
    VDrive (unit_no r) (images0 r) (image_set r) (image_mode r) (geom r) (bamc r) (part r)
    (d90toggle r) (ram r) x (err_track r) (err_sector r).
Definition set_err_track (x : Z) (r : vdrive_t) : vdrive_t :=
    VDrive (unit_no r) (images0 r) (image_set r) (image_mode r) (geom r) (bamc r) (part r)
    (d90toggle r) (ram r) (last_code r) x (err_sector r).
Definition set_err_sector (x : Z) (r : vdrive_t) : vdrive_t :=
    VDrive (unit_no r) (images0 r) (image_set r) (image_mode r) (geom r) (bamc r) (part r)
    (d90toggle r) (ram r) (last_code r) (err_track r) x.

Definition upd_geom (f : geom_t -> geom_t) : ST vdrive_t unit :=
  modify (fun v => set_geom (f (geom v)) v).
Definition upd_bamc (f : bamc_t -> bamc_t) : ST vdrive_t unit :=
  modify (fun v => set_bamc (f (bamc v)) v).
Definition upd_part (f : part_t -> part_t) : ST vdrive_t unit :=
  modify (fun v => set_part (f (part v)) v).

(** The access to [vdrive->image]: a null pointer, the attached image, or
    (image detached while the pointer is still set) undefined behaviour. *)
Definition deref_image (v : vdrive_t) : option disk_image_t :=
  if image_set v then images0 v else None.

Module VDrive.

(** [VDRIVE_IS_HD], [VDRIVE_IS_1541] *)
Definition VDRIVE_IS_HD (v : vdrive_t) : option bool :=
  if image_set v then
    image ← images0 v; Some (di_type image =? DISK_IMAGE_TYPE_DHD)
  else Some false.

Definition VDRIVE_IS_1541 (v : vdrive_t) : option bool :=
  if image_set v then
    image ← images0 v;
    Some ((di_type image =? DISK_IMAGE_TYPE_D64) || (di_type image =? DISK_IMAGE_TYPE_G64))
  else Some false.

Definition vdrive_reset_last_track_sector : ST vdrive_t unit :=
  let! v := state in
  let! is1541 := lift (VDRIVE_IS_1541 v) in
  if is1541 then
    update (fun v => r ← putb (ram v) 0x7E 0; r ← putb r 0x26F 0; Some (set_ram r v))
  else mret tt.

(** [vdrive_command_set_error], as far as the modelled state is concerned: the
    code, the track and the sector that the status string shows. *)
Definition vdrive_command_set_error (code track sector : Z) : ST vdrive_t Z :=
  modify (fun v => set_last_code code (set_err_track track (set_err_sector sector v)));;
  mret code.

Definition vdrive_get_max_sectors (v : vdrive_t) (track : Z) : option Z :=
  let f := image_format (geom v) in
  if f =? VDRIVE_IMAGE_FORMAT_1541 then
    Some (Geometry.disk_image_sector_per_track DISK_IMAGE_TYPE_D64 track)
  else if f =? VDRIVE_IMAGE_FORMAT_2040 then
    Some (Geometry.disk_image_sector_per_track DISK_IMAGE_TYPE_D67 track)
  else if f =? VDRIVE_IMAGE_FORMAT_1571 then
    Some (Geometry.disk_image_sector_per_track DISK_IMAGE_TYPE_D71 track)
  else if f =? VDRIVE_IMAGE_FORMAT_8050 then
    Some (Geometry.disk_image_sector_per_track DISK_IMAGE_TYPE_D80 track)
  else if f =? VDRIVE_IMAGE_FORMAT_1581 then Some 40
  else if f =? VDRIVE_IMAGE_FORMAT_8250 then
    if track <=? NUM_TRACKS_8250 / 2 then
      Some (Geometry.disk_image_sector_per_track DISK_IMAGE_TYPE_D80 track)
    else Some (Geometry.disk_image_sector_per_track DISK_IMAGE_TYPE_D80
                 (track - NUM_TRACKS_8250 / 2))
  else if f =? VDRIVE_IMAGE_FORMAT_NP then Some 256
  else if f =? VDRIVE_IMAGE_FORMAT_9000 then
    image ← deref_image v; Some (di_sectors image)
  else Some (-1).

Definition vdrive_get_max_sectors_per_head (v : vdrive_t) (track : Z) : option Z :=
  if image_format (geom v) =? VDRIVE_IMAGE_FORMAT_9000 then Some 32
  else vdrive_get_max_sectors v track.

(** ** Logical to physical addresses *)

Definition tosec4171 : list Z :=
  [-1;
   0; 21; 42; 63; 84; 105; 126; 147; 168; 189;
   210; 231; 252; 273; 294; 315; 336; 357; 376; 395;
   414; 433; 452; 471; 490; 508; 526; 544; 562; 580;
   598; 615; 632; 649; 666;
   683; 704; 725; 746; 767; 788; 809; 830; 851; 872;
   893; 914; 935; 956; 977; 998; 1019; 1040; 1059; 1078;
   1097; 1116; 1135; 1154; 1173; 1191; 1209; 1227; 1245; 1263;
   1281; 1298; 1315; 1332; 1349].

Definition max4171 : list Z :=
  [-1;
   21; 21; 21; 21; 21; 21; 21; 21; 21; 21;
   21; 21; 21; 21; 21; 21; 21; 19; 19; 19;
   19; 19; 19; 19; 18; 18; 18; 18; 18; 18;
   17; 17; 17; 17; 17;
   21; 21; 21; 21; 21; 21; 21; 21; 21; 21;
   21; 21; 21; 21; 21; 21; 21; 19; 19; 19;
   19; 19; 19; 19; 18; 18; 18; 18; 18; 18;
   17; 17; 17; 17; 17].

(** The offset of a logical sector in its partition, in 256-byte blocks: the
    [switch] of [vdrive_log_to_phy] for images with partitions. The outer
    [option] is undefined behaviour, the inner one the [return -1]. *)
Definition log_offset (v : vdrive_t) (track sector : Z) : option (option Z) :=
  let f := image_format (geom v) in
  let cbm last :=
    if last <? track then Some None
    else
      m ← getb max4171 track;
      if m <=? sector then Some None
      else o ← getb tosec4171 track; Some (Some (u32 (o + sector))) in
  if f =? VDRIVE_IMAGE_FORMAT_1541 then cbm 35
  else if f =? VDRIVE_IMAGE_FORMAT_1571 then cbm 70
  else if f =? VDRIVE_IMAGE_FORMAT_1581 then
    if 80 <? track then Some None
    else if 40 <=? sector then Some None
    else Some (Some (u32 ((track - 1) * 40 + sector)))
  else if f =? VDRIVE_IMAGE_FORMAT_NP then
    if num_tracks (geom v) <? track then Some None
    else if 255 <? sector then Some None
    else Some (Some (u32 (Z.shiftl (track - 1) 8 + sector)))
  else if f =? VDRIVE_IMAGE_FORMAT_SYS then
    if 1 <? track then Some None
    else
      image ← deref_image v;
      let fd last :=
        if (track =? 0) && (7 <? sector) then None
        else if last <=? sector then None
        else Some (Z.shiftl track 3 + sector) in
      if di_type image =? DISK_IMAGE_TYPE_DHD then
        if 255 <? sector then Some None else Some (Some (Z.shiftl track 8 + sector))
      else if di_type image =? DISK_IMAGE_TYPE_D1M then Some (fd 32)
      else if di_type image =? DISK_IMAGE_TYPE_D2M then Some (fd 72)
      else if di_type image =? DISK_IMAGE_TYPE_D4M then Some (fd 152)
      else Some None
  else Some None.

(** [inr (track, sector)] is the address in the image, [inl] the [return -1]. *)
Definition vdrive_log_to_phy (v : vdrive_t) (track sector : Z) : option (option (Z * Z)) :=
  let co := current_offset (part v) in
  if (co =? UINT32_MAX) || negb (image_set v) then Some None
  else if haspt (part v) then
    if negb (image_format (geom v) =? VDRIVE_IMAGE_FORMAT_SYS) && (track <? 1) then Some None
    else
      o ← log_offset v track sector;
      match o with
      | None => Some None
      | Some offset =>
          hd ← VDRIVE_IS_HD v;
          if (hd : bool) then
            let t := Z.shiftr co 15 + 1 in
            let s := u32 (Z.land (Z.shiftl co 1) 65535 + offset) in
            if negb (Z.land s 0xffff0000 =? 0)
            then Some (Some (t + 1, Z.land s 65535)) else Some (Some (t, s))
          else
            let offset := u32 (offset + co * 2) in
            Some (Some (Z.shiftr offset 8 + 1, Z.land offset 255))
      end
  else
    image ← deref_image v;
    if di_type image =? DISK_IMAGE_TYPE_G71 then
      if 70 <? track then Some None
      else Some (Some (if 35 <? track then track + 7 else track, sector))
    else Some (Some (track, sector)).

Section sectors.
Context `{Platform}.

(** [if (vdrive->image) vdrive->image_mode = vdrive->image->read_only] *)
Definition update_image_mode : ST vdrive_t unit :=
  update (fun v => if image_set v then image ← images0 v; Some (set_image_mode (di_read_only image) v)
                   else Some v).

(** Status and buffer. *)
Definition vdrive_read_sector (buf : mem) (track sector : Z) : ST vdrive_t (Z * mem) :=
  update_image_mode;;
  let! v := state in
  if image_mode v <? 0 then mret (CBMDOS_IPE_NOT_READY, buf)
  else
    let! d := lift (vdrive_log_to_phy v track sector) in
    match d with
    | None => mret (CBMDOS_IPE_NOT_READY, buf)
    | Some (t, s) =>
        lift (image ← deref_image v; Image.disk_image_read_sector image buf t s)
    end.

(** Writing to the image the drive points to. *)
Definition write_image (buf : mem) (t s : Z) : ST vdrive_t Z := fun v =>
  image ← deref_image v;
  '(rc, image) ← Image.disk_image_write_sector image buf t s;
  Some (rc, set_images0 (Some image) v).

(** The test [bam != NULL && bam_size > 2 && bam[2] != 0x41]. *)
Definition foreign_dos_version (v : vdrive_t) : option bool :=
  match bam (bamc v) with
  | Some b => if 2 <? bam_size (bamc v) then x ← getb b 2; Some (negb (x =? 0x41)) else Some false
  | None => Some false
  end.

Definition vdrive_write_sector (buf : mem) (track sector : Z) : ST vdrive_t Z :=
  update_image_mode;;
  let! v := state in
  if 0 <? image_mode v then mret CBMDOS_IPE_WRITE_PROTECT_ON
  else if image_mode v <? 0 then mret CBMDOS_IPE_NOT_READY
  else
    let! d := lift (vdrive_log_to_phy v track sector) in
    match d with
    | None => mret CBMDOS_IPE_NOT_READY
    | Some (t, s) =>
        let! is1541 := lift (VDRIVE_IS_1541 v) in
        let! foreign := (if is1541 then lift (foreign_dos_version v) else mret false) in
        if foreign then mret CBMDOS_IPE_DOS_VERSION else write_image buf t s
    end.

Definition vdrive_read_sector_physical (buf : mem) (track sector : Z) : ST vdrive_t (Z * mem) :=
  let! v := state in
  lift (image ← deref_image v; Image.disk_image_read_sector image buf track sector).

Definition vdrive_write_sector_physical (buf : mem) (track sector : Z) : ST vdrive_t Z :=
  write_image buf track sector.

(** ** Geometry *)

(** The arrays indexed by [current_part]. *)
Definition put_part (arr : part_t -> mem) (set : mem -> part_t -> part_t) (i x : Z)
    : ST vdrive_t unit :=
  update (fun v => a ← putb (arr (part v)) i x; Some (set_part (set a (part v)) v)).
Definition get_part (arr : part_t -> mem) (i : Z) : ST vdrive_t Z :=
  let! v := state in lift (getb (arr (part v)) i).

Definition format_constants (bt bs ht hs name id dt ds : Z) (g : geom_t) : geom_t :=
  set_Bam_Track bt (set_Bam_Sector bs (set_Header_Track ht
    (set_Header_Sector hs (set_bam_name name (set_bam_id id
    (set_Dir_Track dt (set_Dir_Sector ds g))))))).

(** The D9090/D9060 case reads its constants from track 0, sector 0; the local
    buffer is what the read leaves of its unspecified contents. *)
Definition geometry_9000 : ST vdrive_t unit :=
  let! v := state in
  let i := num_tracks (geom v) / 2 in
  let! (_, tmp) := vdrive_read_sector (lib_malloc 256) 0 0 in
  let at_ k := lift (getb tmp k) in
  let! bt := at_ 8 in let! bs := at_ 9 in let! ht := at_ 6 in
  let! hs := at_ 7 in let! dt := at_ 4 in let! ds := at_ 5 in
  (if negb (dt =? i) || negb (ht =? i) || negb (bt =? 1) || negb (ds =? 10) || negb (hs =? 20)
   then upd_geom (format_constants 1 0 i 20 BAM_NAME_9000 BAM_ID_9000 i 10)
   else upd_geom (format_constants bt bs ht hs BAM_NAME_9000 BAM_ID_9000 dt ds));;
  upd_geom (set_Part_Start 0).

(** The cases of the [switch] with fixed constants. *)
Definition format_geom (f : Z) : option (geom_t -> geom_t) :=
  if f =? VDRIVE_IMAGE_FORMAT_1541 then
    Some (format_constants BAM_TRACK_1541 BAM_SECTOR_1541 BAM_TRACK_1541 BAM_SECTOR_1541
            BAM_NAME_1541 BAM_ID_1541 DIR_TRACK_1541 DIR_SECTOR_1541)
  else if f =? VDRIVE_IMAGE_FORMAT_2040 then
    Some (format_constants BAM_TRACK_2040 BAM_SECTOR_2040 BAM_TRACK_2040 BAM_SECTOR_2040
            BAM_NAME_2040 BAM_ID_2040 DIR_TRACK_2040 DIR_SECTOR_2040)
  else if f =? VDRIVE_IMAGE_FORMAT_1571 then
    Some (format_constants BAM_TRACK_1571 BAM_SECTOR_1571 BAM_TRACK_1571 BAM_SECTOR_1571
            BAM_NAME_1571 BAM_ID_1571 DIR_TRACK_1571 DIR_SECTOR_1571)
  else if f =? VDRIVE_IMAGE_FORMAT_1581 then
    Some (format_constants BAM_TRACK_1581 BAM_SECTOR_1581 BAM_TRACK_1581 BAM_SECTOR_1581
            BAM_NAME_1581 BAM_ID_1581 DIR_TRACK_1581 DIR_SECTOR_1581)
  else if (f =? VDRIVE_IMAGE_FORMAT_8050) || (f =? VDRIVE_IMAGE_FORMAT_8250) then
    Some (format_constants BAM_TRACK_8050 BAM_SECTOR_8050 HDR_TRACK_8050 HDR_SECTOR_8050
            BAM_NAME_8050 BAM_ID_8050 DIR_TRACK_8050 DIR_SECTOR_8050)
  else if f =? VDRIVE_IMAGE_FORMAT_NP then
    Some (format_constants BAM_TRACK_NP BAM_SECTOR_NP BAM_TRACK_NP BAM_SECTOR_NP
            BAM_NAME_NP BAM_ID_NP DIR_TRACK_NP DIR_SECTOR_NP)
  else if f =? VDRIVE_IMAGE_FORMAT_SYS then Some (format_constants 0 0 0 0 0 0 1 0)
  else None.

(** The [switch] on the format. *)
Definition geometry_constants : ST vdrive_t unit :=
  let! v := state in
  let f := image_format (geom v) in
  match format_geom f with
  | Some set => upd_geom set
  | None => if f =? VDRIVE_IMAGE_FORMAT_9000 then geometry_9000 else mret tt
  end.

(** The current directory of the partition: taken from the format constants on
    the first use of the partition, and overriding them afterwards. *)
Definition geometry_current : ST vdrive_t unit :=
  let! v := state in
  let cp := current_part (part v) in
  let g := geom v in
  let! ht := get_part cheadertrack cp in
  if ht =? 0 then
    put_part cheadertrack set_cheadertrack cp (Header_Track g);;
    put_part cheadersector set_cheadersector cp (Header_Sector g);;
    put_part cdirtrack set_cdirtrack cp (Dir_Track g);;
    put_part cdirsector set_cdirsector cp (Dir_Sector g);;
    put_part cpartstart set_cpartstart cp 1;;
    put_part cpartend set_cpartend cp (num_tracks g)
  else
    let! hs := get_part cheadersector cp in
    let! dt := get_part cdirtrack cp in
    let! ds := get_part cdirsector cp in
    let! ps := get_part cpartstart cp in
    let! pe := get_part cpartend cp in
    upd_geom (fun g => set_Header_Track ht (set_Header_Sector hs (set_Dir_Track dt
      (set_Dir_Sector ds (set_Part_Start ps (set_Part_End pe g))))));;
    if image_format g =? VDRIVE_IMAGE_FORMAT_1581 then
      upd_geom (fun g => set_Bam_Track ht (set_Bam_Sector hs g))
    else mret tt.

Definition vdrive_set_disk_geometry : ST vdrive_t unit :=
  upd_geom (set_Part_Start 1);;
  geometry_constants;;
  upd_geom (fun g => set_Part_End (num_tracks g) g);;
  geometry_current.

End sectors.

(** ** The tables of [vdrive_log_to_phy] *)

Definition cbm_base (t : Z) : Z :=
  row_base (Geometry.disk_image_sector_per_track DISK_IMAGE_TYPE_D71) t.

Lemma tables_eq t : 1 <= t <= 70 ->
  getb max4171 t = Some (Geometry.disk_image_sector_per_track DISK_IMAGE_TYPE_D71 t) /\
  getb tosec4171 t = Some (cbm_base t).
Proof.
  intros Ht.
  assert (bool_decide (getb max4171 t = Some (Geometry.disk_image_sector_per_track DISK_IMAGE_TYPE_D71 t))
    && bool_decide (getb tosec4171 t = Some (cbm_base t)) = true) as H by by_zrange 1 70 t.
  apply andb_true_iff in H as [?%bool_decide_eq_true_1 ?%bool_decide_eq_true_1]. done.
Qed.

Definition spt71 : Z -> Z := Geometry.disk_image_sector_per_track DISK_IMAGE_TYPE_D71.

(** ** Specification: a partition is an interval of blocks

    The rows of a partition of the mounted format: the last track and the
    number of sectors of a track. *)
Definition part_layout (v : vdrive_t) : option (Z * (Z -> Z)) :=
  let f := image_format (geom v) in
  if f =? VDRIVE_IMAGE_FORMAT_1541 then Some (35, spt71)
  else if f =? VDRIVE_IMAGE_FORMAT_1571 then Some (70, spt71)
  else if f =? VDRIVE_IMAGE_FORMAT_1581 then Some (80, fun _ => 40)
  else if f =? VDRIVE_IMAGE_FORMAT_NP then Some (num_tracks (geom v), fun _ => 256)
  else None.

Definition in_part (v : vdrive_t) (t s : Z) : Prop :=
  match part_layout v with Some (n, w) => 1 <= t <= n /\ 0 <= s < w t | None => False end.

(** The number of blocks of the partition. *)
Definition part_blocks (v : vdrive_t) : Z :=
  match part_layout v with Some (n, w) => row_base w (n + 1) | None => 0 end.

(** The block of a logical sector, counted from the start of the partition. *)
Definition part_block (v : vdrive_t) (t s : Z) : Z :=
  match part_layout v with Some (_, w) => row_base w t + s | None => 0 end.

Lemma spt71_bounds t : 0 <= spt71 t.
Proof. apply Geometry.spt_bounds. Qed.

(** Tracks are at most 255: the track links on the disk are bytes. *)
Lemma part_layout_bounds v n w : part_layout v = Some (n, w) -> num_tracks (geom v) <= 255 ->
  (forall t, 0 <= w t) /\ n <= 255 /\ row_base w (n + 1) <= 65280.
Proof.
  unfold part_layout. intros H Hn. repeat case_match; simplify_eq;
    [split; [apply spt71_bounds|split; [lia|vm_compute; congruence]]
    |split; [apply spt71_bounds|split; [lia|vm_compute; congruence]]
    |split; [lia|split; [lia|vm_compute; congruence]]|].
  split; [lia|]. split; [lia|]. destruct (Z.lt_ge_cases (num_tracks (geom v)) 0).
  - unfold row_base. replace (Z.to_nat _) with O by lia. simpl. lia.
  - rewrite Geometry.const_rows_base by lia. lia.
Qed.

Lemma part_block_bound v t s : in_part v t s -> num_tracks (geom v) <= 255 ->
  0 <= part_block v t s < part_blocks v /\ part_blocks v <= 65280.
Proof.
  unfold in_part, part_block, part_blocks. destruct (part_layout v) as [[n w]|] eqn:Hl; [|done].
  intros [Ht Hs] Hn. destruct (part_layout_bounds _ _ _ Hl Hn) as (Hw & ? & ?).
  split; [|done]. by apply row_base_bound.
Qed.

Lemma part_block_inj v t s t' s' : in_part v t s -> in_part v t' s' ->
  num_tracks (geom v) <= 255 -> part_block v t s = part_block v t' s' -> t = t' /\ s = s'.
Proof.
  unfold in_part, part_block. destruct (part_layout v) as [[n w]|] eqn:Hl; [|done].
  intros [Ht Hs] [Ht' Hs'] Hn. destruct (part_layout_bounds _ _ _ Hl Hn) as (Hw & ? & ?).
  apply row_base_inj; (done || lia).
Qed.

(** In a partition, [vdrive_log_to_phy] computes the block number. *)
Lemma log_offset_eq v t s : 0 <= t -> 0 <= s -> num_tracks (geom v) <= 255 ->
  in_part v t s -> log_offset v t s = Some (Some (part_block v t s)).
Proof.
  intros Ht0 Hs0 Hn Hin. pose proof (part_block_bound _ _ _ Hin Hn) as [Hb Hb2].
  revert Hin Hb Hb2. unfold in_part, part_block, part_blocks, part_layout, log_offset.
  destruct (image_format (geom v) =? VDRIVE_IMAGE_FORMAT_1541); [|
  destruct (image_format (geom v) =? VDRIVE_IMAGE_FORMAT_1571); [|
  destruct (image_format (geom v) =? VDRIVE_IMAGE_FORMAT_1581); [|
  destruct (image_format (geom v) =? VDRIVE_IMAGE_FORMAT_NP); [|done]]]];
    intros [Ht Hs] Hb Hb2.
  - destruct (Z.ltb_spec 35 t); [lia|]. destruct (tables_eq t ltac:(lia)) as [-> ->].
    cbn [mbind option_bind]. fold (spt71 t). destruct (Z.leb_spec (spt71 t) s); [lia|].
    by rewrite u32_small by (unfold cbm_base; fold spt71; lia).
  - destruct (Z.ltb_spec 70 t); [lia|]. destruct (tables_eq t ltac:(lia)) as [-> ->].
    cbn [mbind option_bind]. fold (spt71 t). destruct (Z.leb_spec (spt71 t) s); [lia|].
    by rewrite u32_small by (unfold cbm_base; fold spt71; lia).
  - rewrite Geometry.const_rows_base in * by lia.
    destruct (Z.ltb_spec 80 t), (Z.leb_spec 40 s); try lia. by rewrite u32_small by lia.
  - rewrite Geometry.const_rows_base in * by lia.
    destruct (Z.ltb_spec (num_tracks (geom v)) t), (Z.ltb_spec 255 s); try lia.
    rewrite Z.shiftl_mul_pow2 by lia. by rewrite u32_small by lia.
Qed.

Lemma land_high s : 0 <= s < 131072 -> (Z.land s 0xffff0000 =? 0) = (s <? 65536).
Proof.
  intros Hs. assert (Z.land s 0xffff0000 = Z.shiftl (Z.land (Z.shiftr s 16) 0xffff) 16) as ->.
  { change 0xffff0000 with (Z.shiftl 0xffff 16). rewrite Z.shiftl_land.
    apply Z.bits_inj'. intros n Hn. rewrite !Z.land_spec.
    destruct (Z.lt_ge_cases n 16).
    - rewrite !(Z.shiftl_spec_low _ 16 n) by lia. by rewrite !andb_false_r.
    - rewrite !Z.shiftl_spec, Z.shiftr_spec by lia. by replace (n - 16 + 16) with n by lia. }
  rewrite Z.shiftr_div_pow2, Z.shiftl_mul_pow2 by lia. change 0xffff with (Z.ones 16).
  rewrite Z.land_ones by lia. change (2 ^ 16) with 65536.
  destruct (Z.ltb_spec s 65536).
  - rewrite Z.div_small by lia. reflexivity.
  - replace (s / 65536) with 1; [reflexivity|]. apply (Z.div_unique _ _ _ (s - 65536)); lia.
Qed.

(** The first block of the partition in the image, and the number of blocks
    an image with partitions can address. *)
Definition first_block (v : vdrive_t) : Z := 2 * current_offset (part v).

Definition image_blocks (type : Z) : Z :=
  if type =? DISK_IMAGE_TYPE_DHD then 2 ^ 31 else Geometry.blocks_of type.

Definition cmd_types : list Z :=
  [DISK_IMAGE_TYPE_D1M; DISK_IMAGE_TYPE_D2M; DISK_IMAGE_TYPE_D4M; DISK_IMAGE_TYPE_DHD].

(** A partition of an attached image, inside the image. *)
Record partition_ok (v : vdrive_t) (image : disk_image_t) : Prop := {
  po_set : image_set v = true;
  po_image : images0 v = Some image;
  po_device : di_device image = DISK_IMAGE_DEVICE_FS;
  po_type : di_type image ∈ cmd_types;
  po_haspt : haspt (part v) = true;
  po_first : 0 <= first_block v;
  po_last : first_block v + part_blocks v <= image_blocks (di_type image);
  po_tracks : num_tracks (geom v) <= 255
}.

(** The two numberings of CMD images: 65536 sectors per track on a hard disk,
    256 on a floppy disk. *)
Definition cmd_track_size (type : Z) : Z := if type =? DISK_IMAGE_TYPE_DHD then 65536 else 256.

Lemma cmd_check_sector image b : di_device image = DISK_IMAGE_DEVICE_FS ->
  di_type image ∈ cmd_types -> 0 <= b < image_blocks (di_type image) ->
  Geometry.disk_image_check_sector image (b / cmd_track_size (di_type image) + 1)
    (b mod cmd_track_size (di_type image)) = b.
Proof.
  intros Hd Hty Hb. unfold Geometry.disk_image_check_sector. rewrite Hd. cbn [Z.eqb DISK_IMAGE_DEVICE_FS].
  unfold Geometry.fsimage_check_sector, image_blocks, cmd_track_size, cmd_types in *.
  repeat (apply elem_of_cons in Hty as [Hty|Hty]; [rewrite Hty in *|]); [..|by apply not_elem_of_nil in Hty].
  all: eval_tests; eval_tests_in Hb;
    try change (Geometry.blocks_of DISK_IMAGE_TYPE_D1M) with 3240 in Hb;
    try change (Geometry.blocks_of DISK_IMAGE_TYPE_D2M) with 6480 in Hb;
    try change (Geometry.blocks_of DISK_IMAGE_TYPE_D4M) with 12960 in Hb;
    unfold NUM_TRACKS_1000, NUM_TRACKS_2000, NUM_TRACKS_4000, NUM_SYS_SECTORS_1000,
      NUM_SYS_SECTORS_2000, NUM_SYS_SECTORS_4000.
  all: match goal with |- context [?x mod ?m] =>
         pose proof (Z.mod_pos_bound x m eq_refl); pose proof (Z.div_mod x m ltac:(lia));
         assert (0 <= x / m) by (apply Z.div_pos; lia);
         set (q := x / m) in *; set (r := x mod m) in *; clearbody q r
       end.
  all: case_bool; cbn [andb orb]; case_bool; cbn [andb orb]; try lia; rewrite s32_small; unfold INT32_MAX; lia.
Qed.

(** The physical address of a logical sector of a partition. *)
Lemma log_to_phy_eq v image t s : partition_ok v image -> 0 <= s -> in_part v t s ->
  vdrive_log_to_phy v t s =
    let b := first_block v + part_block v t s in
    Some (Some (b / cmd_track_size (di_type image) + 1, b mod cmd_track_size (di_type image))).
Proof.
  intros Hok Hs Hin. pose proof (part_block_bound _ _ _ Hin (po_tracks _ _ Hok)) as [Hb Hb2].
  pose proof (po_first _ _ Hok) as Hf. pose proof (po_last _ _ Hok) as Hl.
  unfold first_block in *.
  assert (image_blocks (di_type image) <= 2 ^ 31) as Hbl.
  { pose proof (po_type _ _ Hok) as Hty. unfold cmd_types in Hty.
    repeat (apply elem_of_cons in Hty as [Hty|Hty]; [rewrite Hty in *; vm_compute; congruence|]).
    by apply not_elem_of_nil in Hty. }
  assert (1 <= t).
  { unfold in_part in Hin. destruct (part_layout v) as [[??]|]; [lia|done]. }
  unfold vdrive_log_to_phy. rewrite (po_set _ _ Hok), (po_haspt _ _ Hok).
  destruct (Z.eqb_spec (current_offset (part v)) UINT32_MAX); [unfold UINT32_MAX in *; lia|].
  destruct (Z.ltb_spec t 1); [lia|]. rewrite andb_false_r. cbn [orb negb].
  rewrite log_offset_eq by (done || lia || apply Hok). cbn [mbind option_bind].
  unfold VDRIVE_IS_HD. rewrite (po_set _ _ Hok), (po_image _ _ Hok). cbn [mbind option_bind].
  unfold cmd_track_size. set (o := part_block v t s) in *. set (co := current_offset (part v)) in *.
  destruct (di_type image =? DISK_IMAGE_TYPE_DHD) eqn:Hhd.
  - rewrite Z.shiftr_div_pow2, Z.shiftl_mul_pow2 by lia. change (2 ^ 15) with 32768. change (2 ^ 1) with 2.
    change 65535 with (Z.ones 16). rewrite !Z.land_ones by lia. change (2 ^ 16) with 65536.
    assert (co / 32768 = (2 * co) / 65536) as -> by (rewrite (Z.mul_comm 2), <- Z.div_mul_cancel_r with (c := 2) by lia; done).
    pose proof (Z.mod_pos_bound (co * 2) 65536 eq_refl). rewrite u32_small by lia.
    rewrite land_high by lia. replace (co * 2) with (2 * co) in * by lia.
    pose proof (Z.div_mod (2 * co) 65536 ltac:(lia)).
    set (q := 2 * co / 65536) in *. set (r := (2 * co) mod 65536) in *. clearbody q r.
    destruct (Z.ltb_spec (r + o) 65536); cbn [negb]; do 3 f_equal.
    + rewrite <- (Z.div_unique (2 * co + o) 65536 q (r + o)); lia.
    + apply (Z.mod_unique _ _ q); lia.
    + rewrite <- (Z.div_unique (2 * co + o) 65536 (q + 1) (r + o - 65536)); lia.
    + rewrite <- (Z.mod_unique (2 * co + o) 65536 (q + 1) (r + o - 65536)) by lia.
      symmetry. apply (Z.mod_unique _ _ 1); lia.
  - rewrite u32_small by lia. rewrite Z.shiftr_div_pow2 by lia. change 255 with (Z.ones 8).
    rewrite Z.land_ones by lia. change (2 ^ 8) with 256.
    replace (o + co * 2) with (2 * co + o) by lia. done.
Qed.

(** ** Reading and writing through the drive *)

Section access.
Context `{Platform}.

(** The drive with another partition (or the same one) selected: the fields
    [vdrive_change_part] and [vdrive_set_disk_geometry] set. *)
Definition select (g : geom_t) (p : part_t) (v : vdrive_t) : vdrive_t := set_geom g (set_part p v).

(** A drive whose image is a well-formed writable file; for a D64, the BAM in
    memory has the DOS version ['A']. *)
Record drive_ok (v : vdrive_t) (image : disk_image_t) : Prop := {
  dk_set : image_set v = true;
  dk_image : images0 v = Some image;
  dk_wf : Image.image_wf image;
  dk_version : VDRIVE_IS_1541 v = Some true -> foreign_dos_version v = Some false
}.

Lemma drive_ok_1541 v image : drive_ok v image ->
  exists b, VDRIVE_IS_1541 v = Some b /\ (b = true -> foreign_dos_version v = Some false).
Proof.
  intros Hok. pose proof (dk_version _ _ Hok) as Hv. unfold VDRIVE_IS_1541 in *.
  rewrite (dk_set _ _ Hok), (dk_image _ _ Hok) in *. eexists. split; [reflexivity|].
  intros Hb. apply Hv. cbn. by rewrite Hb.
Qed.

Lemma read_sector_run v image buf t s t' s' : drive_ok v image ->
  vdrive_log_to_phy v t s = Some (Some (t', s')) ->
  vdrive_read_sector buf t s v =
    r ← Image.disk_image_read_sector image buf t' s'; Some (r, set_image_mode 0 v).
Proof.
  intros Hok Hmap. unfold vdrive_read_sector, update_image_mode, bindST, mbind, ST_bind, bindST.
  cbn. rewrite (dk_set _ _ Hok), (dk_image _ _ Hok). cbn.
  rewrite (Image.wf_rw _ (dk_wf _ _ Hok)). cbn.
  change (vdrive_log_to_phy (set_image_mode 0 v) t s) with (vdrive_log_to_phy v t s).
  rewrite Hmap. unfold deref_image. cbn. rewrite (dk_set _ _ Hok), (dk_image _ _ Hok). cbn.
  by destruct (Image.disk_image_read_sector image buf t' s') as [[??]|].
Qed.

Lemma write_sector_run v image bs t s t' s' : drive_ok v image ->
  vdrive_log_to_phy v t s = Some (Some (t', s')) ->
  vdrive_write_sector bs t s v =
    '(rc, image') ← Image.disk_image_write_sector image bs t' s';
    Some (rc, set_images0 (Some image') (set_image_mode 0 v)).
Proof.
  intros Hok Hmap. destruct (drive_ok_1541 _ _ Hok) as (b & H1541 & Hver).
  unfold vdrive_write_sector, update_image_mode, bindST, mbind, ST_bind, bindST.
  cbn. rewrite (dk_set _ _ Hok), (dk_image _ _ Hok). cbn.
  rewrite (Image.wf_rw _ (dk_wf _ _ Hok)). cbn.
  change (vdrive_log_to_phy (set_image_mode 0 v) t s) with (vdrive_log_to_phy v t s).
  rewrite Hmap. change (VDRIVE_IS_1541 (set_image_mode 0 v)) with (VDRIVE_IS_1541 v). rewrite H1541.
  change (foreign_dos_version (set_image_mode 0 v)) with (foreign_dos_version v).
  assert (write_image bs t' s' (set_image_mode 0 v) =
    '(rc, image') ← Image.disk_image_write_sector image bs t' s';
    Some (rc, set_images0 (Some image') (set_image_mode 0 v))) as Hw.
  { unfold write_image, deref_image. cbn. by rewrite (dk_set _ _ Hok), (dk_image _ _ Hok). }
  destruct b; [rewrite Hver by done|]; exact Hw.
Qed.

Lemma drive_ok_written v image image' : drive_ok v image -> Image.image_wf image' ->
  di_type image' = di_type image -> drive_ok (set_images0 (Some image') (set_image_mode 0 v)) image'.
Proof.
  intros Hok Hwf Hty. split; [apply Hok|done|done|]. intros H1541.
  apply (dk_version _ _ Hok). unfold VDRIVE_IS_1541 in *. cbn in *.
  rewrite (dk_set _ _ Hok), (dk_image _ _ Hok) in *. cbn in *. by rewrite <- Hty.
Qed.

(** A write does not change how logical sectors are mapped. *)
Lemma log_to_phy_written v image image' t s r : drive_ok v image -> di_type image' = di_type image ->
  vdrive_log_to_phy v t s = Some r ->
  vdrive_log_to_phy (set_images0 (Some image') (set_image_mode 0 v)) t s = Some r.
Proof.
  intros Hok Hty. unfold vdrive_log_to_phy, log_offset, VDRIVE_IS_HD, deref_image. cbn.
  rewrite (dk_set _ _ Hok), (dk_image _ _ Hok). cbn. by rewrite Hty.
Qed.

(** ** Properties *)

(** The tables of [vdrive_log_to_phy] agree with the geometry of the
    drives: for each of the 70 tracks, [max4171] is the number of sectors of
    the track and [tosec4171] the number of sectors before it. *)
Theorem tables_match_geometry t : 1 <= t <= 70 ->
  getb max4171 t = Some (Geometry.disk_image_sector_per_track DISK_IMAGE_TYPE_D71 t) /\
  getb tosec4171 t = Some (row_base (Geometry.disk_image_sector_per_track DISK_IMAGE_TYPE_D71) t).
Proof. apply tables_eq. Qed.

(** C24: within a partition of a CMD image, the block of the image that a
    logical sector is mapped to is the first block of the partition plus the
    block number of the sector in the partition; in particular it lies inside
    the partition. *)
Theorem log_to_phy_in_partition v image t s :
  partition_ok v image -> 0 <= s -> in_part v t s ->
  exists t' s', vdrive_log_to_phy v t s = Some (Some (t', s')) /\
    Geometry.disk_image_check_sector image t' s' = first_block v + part_block v t s /\
    first_block v <= Geometry.disk_image_check_sector image t' s'
      < first_block v + part_blocks v.
Proof.
  intros Hok Hs Hin. rewrite (log_to_phy_eq _ image) by done.
  pose proof (part_block_bound _ _ _ Hin (po_tracks _ _ Hok)) as [Hb _].
  pose proof (po_first _ _ Hok). pose proof (po_last _ _ Hok).
  do 2 eexists. split; [reflexivity|]. rewrite cmd_check_sector; [lia|apply Hok|apply Hok|lia].
Qed.

(** C11: a sector written through the drive is what the next read of the same
    logical sector returns, for plain images and for partitions; the drive
    stays in order. *)
Theorem drive_write_read v image bs buf t s t' s' :
  drive_ok v image -> vdrive_log_to_phy v t s = Some (Some (t', s')) ->
  Image.covered image t' s' -> mlen bs = 256 -> mlen buf = 256 ->
  exists v' image', vdrive_write_sector bs t s v = Some (0, v') /\ drive_ok v' image' /\
    vdrive_read_sector buf t s v' = Some ((CBMDOS_IPE_OK, bs), v').
Proof.
  intros Hok Hmap Hcov Hbs Hbuf.
  destruct (Image.write_sector_written image bs t' s' (dk_wf _ _ Hok) Hcov Hbs) as (image' & Hw & Hwr).
  pose proof (Image.written_wf _ _ _ _ _ (dk_wf _ _ Hok) Hwr) as Hwf'.
  assert (drive_ok (set_images0 (Some image') (set_image_mode 0 v)) image') as Hok'
    by (eapply drive_ok_written; [done..|apply Hwr]).
  exists (set_images0 (Some image') (set_image_mode 0 v)), image'.
  split; [by rewrite (write_sector_run _ _ _ _ _ _ _ Hok Hmap), Hw|]. split; [done|].
  erewrite read_sector_run; [|done|]; cycle 1.
  - eapply log_to_phy_written; [done|apply Hwr|done].
  - by rewrite (Image.read_written image bs buf t' s' image') by (done || apply Hok).
Qed.

(** A CMD floppy image without error map whose file has all its blocks. *)
Definition whole (image : disk_image_t) : Prop :=
  map_ image = None /\
  exists f, fd_ image = Some f /\ Geometry.blocks_of (di_type image) * 256 <= f_size f.

Lemma whole_covered image t s : Image.image_wf image -> whole image ->
  Geometry.valid_address (di_type image) t s ->
  Image.covered image t s /\ Image.present image t s.
Proof.
  intros Hwf [Hm (f & Hf & Hsz)] Hv. split; [split; [done|by rewrite Hm]|].
  exists f. split; [done|].
  pose proof (Geometry.check_sector_nonneg image t s (Image.wf_device _ Hwf) Hv). lia.
Qed.

(** A mapped sector of a partition is a valid address of the image. *)
Lemma mapped_valid v image t s : drive_ok v image -> partition_ok v image -> in_part v t s -> 0 <= s ->
  exists t' s', vdrive_log_to_phy v t s = Some (Some (t', s')) /\
    Geometry.valid_address (di_type image) t' s' /\
    Geometry.disk_image_check_sector image t' s' = first_block v + part_block v t s.
Proof.
  intros Hok Hpo Hin Hs. rewrite (log_to_phy_eq _ image) by done. do 2 eexists. split; [reflexivity|].
  pose proof (part_block_bound _ _ _ Hin (po_tracks _ _ Hpo)) as [Hb _].
  pose proof (po_first _ _ Hpo). pose proof (po_last _ _ Hpo).
  set (b := first_block v + part_block v t s).
  assert (Geometry.disk_image_check_sector image (b / cmd_track_size (di_type image) + 1)
    (b mod cmd_track_size (di_type image)) = b) as Hb'
    by (apply cmd_check_sector; [apply Hpo|apply Hpo|unfold b; lia]).
  assert (0 < cmd_track_size (di_type image)) by (unfold cmd_track_size; case_match; lia).
  assert (0 <= b / cmd_track_size (di_type image)) by (apply Z.div_pos; lia).
  pose proof (Z.mod_pos_bound b (cmd_track_size (di_type image)) ltac:(lia)).
  split; [|done].
  destruct (Geometry.check_sector_range image (b / cmd_track_size (di_type image) + 1)
    (b mod cmd_track_size (di_type image))) as [Hr _]; [apply Hpo|apply (dk_wf _ _ Hok)|lia|lia|].
  apply Hr. lia.
Qed.

(** C8: partitions are isolated: after a write to a sector of one partition,
    every sector of a partition with a disjoint interval of blocks reads as
    before. *)
Theorem partitions_isolated v image bs buf g p t s t2 s2 :
  whole image -> drive_ok v image -> partition_ok v image -> in_part v t s -> 0 <= s ->
  drive_ok (select g p v) image -> partition_ok (select g p v) image ->
  in_part (select g p v) t2 s2 -> 0 <= s2 ->
  first_block v + part_blocks v <= first_block (select g p v) \/
  first_block (select g p v) + part_blocks (select g p v) <= first_block v ->
  mlen bs = 256 -> mlen buf = 256 ->
  exists v', vdrive_write_sector bs t s v = Some (0, v') /\
    fst <$> vdrive_read_sector buf t2 s2 (select g p v')
      = fst <$> vdrive_read_sector buf t2 s2 (select g p v).
Proof.
  intros Hwh Hok Hpo Hin Hs Hok2 Hpo2 Hin2 Hs2 Hdisj Hbs Hbuf.
  destruct (mapped_valid v image t s) as (t' & s' & Hmap & Hv & Hb); [done..|].
  destruct (mapped_valid (select g p v) image t2 s2) as (t2' & s2' & Hmap2 & Hv2 & Hb2); [done..|].
  destruct (whole_covered image t' s' (dk_wf _ _ Hok) Hwh Hv) as [Hcov _].
  destruct (whole_covered image t2' s2' (dk_wf _ _ Hok) Hwh Hv2) as [Hcov2 Hpres2].
  assert ((t2', s2') <> (t', s')) as Hne.
  { intros [= -> ->]. rewrite Hb in Hb2.
    pose proof (part_block_bound _ _ _ Hin (po_tracks _ _ Hpo)).
    pose proof (part_block_bound _ _ _ Hin2 (po_tracks _ _ Hpo2)). lia. }
  destruct (Image.write_sector_written image bs t' s' (dk_wf _ _ Hok) Hcov Hbs) as (image' & Hw & Hwr).
  exists (set_images0 (Some image') (set_image_mode 0 v)).
  split; [by rewrite (write_sector_run _ _ _ _ _ _ _ Hok Hmap), Hw|].
  pose proof (Image.written_wf _ _ _ _ _ (dk_wf _ _ Hok) Hwr) as Hwf'.
  pose proof (drive_ok_written _ _ image' Hok2 Hwf' ltac:(apply Hwr)) as Hok'.
  assert (vdrive_log_to_phy (set_images0 (Some image') (set_image_mode 0 (select g p v))) t2 s2
    = Some (Some (t2', s2'))) as Hmap2' by (eapply log_to_phy_written; [apply Hok2|apply Hwr|done]).
  change (select g p (set_images0 (Some image') (set_image_mode 0 v)))
    with (set_images0 (Some image') (set_image_mode 0 (select g p v))).
  rewrite (read_sector_run _ _ _ _ _ _ _ Hok' Hmap2'), (read_sector_run _ _ _ _ _ _ _ Hok2 Hmap2).
  rewrite (Image.read_written_other image bs buf t' s' image') by (done || apply Hok).
  by destruct (Image.disk_image_read_sector image buf t2' s2') as [[??]|].
Qed.

(** A drive without disk answers "drive not ready", and an image opened
    read-only answers "write protect on"; neither touches the image or the
    buffer. *)
Theorem drive_not_writable v buf t s :
  (image_set v = false -> image_mode v < 0 ->
     vdrive_read_sector buf t s v = Some ((CBMDOS_IPE_NOT_READY, buf), v) /\
     vdrive_write_sector buf t s v = Some (CBMDOS_IPE_NOT_READY, v)) /\
  (forall image, image_set v = true -> images0 v = Some image -> 0 < di_read_only image ->
     vdrive_write_sector buf t s v
       = Some (CBMDOS_IPE_WRITE_PROTECT_ON, set_image_mode (di_read_only image) v)).
Proof.
  unfold vdrive_read_sector, vdrive_write_sector, update_image_mode, bindST, mbind, ST_bind, bindST.
  split.
  - intros Hset Hmode. cbn. rewrite Hset. destruct (Z.ltb_spec 0 (image_mode v)); [lia|].
    destruct (Z.ltb_spec (image_mode v) 0); [done|lia].
  - intros image Hset Himg Hro. cbn. rewrite Hset, Himg. cbn.
    destruct (Z.ltb_spec 0 (di_read_only image)); [done|lia].
Qed.

(** ** Geometry *)

Record part_arrays (p : part_t) : Prop := {
  pa_part : 0 <= current_part p < 256;
  pa_cheadertrack : mlen (cheadertrack p) = 256;
  pa_cheadersector : mlen (cheadersector p) = 256;
  pa_cdirtrack : mlen (cdirtrack p) = 256;
  pa_cdirsector : mlen (cdirsector p) = 256;
  pa_cpartstart : mlen (cpartstart p) = 256;
  pa_cpartend : mlen (cpartend p) = 256
}.

(** The formats whose constants do not come from the disk. *)
Definition fixed_formats : list Z :=
  [VDRIVE_IMAGE_FORMAT_1541; VDRIVE_IMAGE_FORMAT_2040; VDRIVE_IMAGE_FORMAT_1571;
   VDRIVE_IMAGE_FORMAT_1581; VDRIVE_IMAGE_FORMAT_8050; VDRIVE_IMAGE_FORMAT_8250;
   VDRIVE_IMAGE_FORMAT_NP; VDRIVE_IMAGE_FORMAT_SYS].

(** The geometry of the root directory. *)
Definition root_geom (g : geom_t) : geom_t :=
  match format_geom (image_format g) with
  | Some set => set_Part_End (num_tracks g) (set (set_Part_Start 1 g))
  | None => g
  end.

(** The geometry of the current directory over the root geometry [g]. *)
Definition current_geom (g : geom_t) (ht hs dt ds ps pe : Z) : geom_t :=
  let g' := set_Header_Track ht (set_Header_Sector hs (set_Dir_Track dt
              (set_Dir_Sector ds (set_Part_Start ps (set_Part_End pe g))))) in
  if image_format g =? VDRIVE_IMAGE_FORMAT_1581 then set_Bam_Track ht (set_Bam_Sector hs g') else g'.

Lemma fixed_format_cases (P : Z -> Prop) f : f ∈ fixed_formats ->
  P VDRIVE_IMAGE_FORMAT_1541 -> P VDRIVE_IMAGE_FORMAT_2040 -> P VDRIVE_IMAGE_FORMAT_1571 ->
  P VDRIVE_IMAGE_FORMAT_1581 -> P VDRIVE_IMAGE_FORMAT_8050 -> P VDRIVE_IMAGE_FORMAT_8250 ->
  P VDRIVE_IMAGE_FORMAT_NP -> P VDRIVE_IMAGE_FORMAT_SYS -> P f.
Proof.
  intros Hf. unfold fixed_formats in Hf.
  repeat (apply elem_of_cons in Hf as [->|Hf]; [done|]). by apply not_elem_of_nil in Hf.
Qed.

Lemma set_geometry_run v : image_format (geom v) ∈ fixed_formats ->
  vdrive_set_disk_geometry v = geometry_current (set_geom (root_geom (geom v)) v).
Proof.
  intros Hf. unfold vdrive_set_disk_geometry, mbind, ST_bind, bindST, upd_geom. cbn [modify].
  unfold geometry_constants, bindST, root_geom. cbn [state].
  change (image_format (geom _)) with (image_format (geom v)).
  destruct (format_geom (image_format (geom v))) as [set|] eqn:Hset.
  - cbn. f_equal. unfold set_geom. cbn. f_equal. f_equal.
    enough (forall g, num_tracks (set g) = num_tracks g) as -> by done. intros g.
    unfold format_geom in Hset. repeat case_match; simplify_eq; done.
  - exfalso. revert Hset. pattern (image_format (geom v)). by apply (fixed_format_cases _ _ Hf).
Qed.

Lemma root_geom_ext g g' : image_format g ∈ fixed_formats -> image_format g' = image_format g ->
  num_tracks g' = num_tracks g -> root_geom g' = root_geom g.
Proof.
  destruct g as [f g1 g2 g3 g4 g5 g6 g7 g8 nt g10 g11], g' as [f' h1 h2 h3 h4 h5 h6 h7 h8 nt' h10 h11].
  cbn [image_format num_tracks]. intros Hf -> ->.
  pattern f. by apply (fixed_format_cases _ f Hf).
Qed.

(** The root geometry has the format and the track count it was computed from,
    and a header track unless the format is the system partition's. *)
Lemma root_geom_facts g : image_format g ∈ fixed_formats ->
  image_format (root_geom g) = image_format g /\ num_tracks (root_geom g) = num_tracks g /\
  (Header_Track (root_geom g) = 0 -> image_format g = VDRIVE_IMAGE_FORMAT_SYS) /\
  current_geom (root_geom g) (Header_Track (root_geom g)) (Header_Sector (root_geom g))
    (Dir_Track (root_geom g)) (Dir_Sector (root_geom g)) 1 (num_tracks g) = root_geom g.
Proof.
  destruct g as [f g1 g2 g3 g4 g5 g6 g7 g8 nt g10 g11]. cbn. intros Hf.
  pattern f. apply (fixed_format_cases _ f Hf); vm_compute;
    (split; [reflexivity|split; [reflexivity|split; [|reflexivity]]]); (reflexivity || discriminate).
Qed.

Lemma get_part_run v arr i x : getb (arr (part v)) i = Some x -> get_part arr i v = Some (x, v).
Proof. unfold get_part, bindST. cbn. by intros ->. Qed.

Lemma put_part_run v arr set i x : 0 <= i < mlen (arr (part v)) ->
  put_part arr set i x v =
    Some (tt, set_part (set (<[Z.to_nat i := x]> (arr (part v))) (part v)) v).
Proof. intros Hi. unfold put_part. cbn. by rewrite putb_eq. Qed.

(** The current directory a partition starts with. *)
Definition record_root (g : geom_t) (p : part_t) : part_t :=
  let put l x := <[Z.to_nat (current_part p) := x]> l in
  set_cpartend (put (cpartend p) (num_tracks g)) (set_cpartstart (put (cpartstart p) 1)
  (set_cdirsector (put (cdirsector p) (Dir_Sector g)) (set_cdirtrack (put (cdirtrack p) (Dir_Track g))
  (set_cheadersector (put (cheadersector p) (Header_Sector g))
  (set_cheadertrack (put (cheadertrack p) (Header_Track g)) p))))).

Lemma record_root_idem g p : record_root g (record_root g p) = record_root g p.
Proof.
  destruct p. cbv beta iota zeta delta [record_root set_cheadertrack set_cheadersector set_cdirtrack
    set_cdirsector set_cpartstart set_cpartend current_part cheadertrack cheadersector cdirtrack
    cdirsector cpartstart cpartend current_offset sys_offset selected_part default_part haspt ptype
    poffset psize].
  by rewrite !list_insert_insert_eq.
Qed.

Lemma geometry_current_first v : part_arrays (part v) ->
  getb (cheadertrack (part v)) (current_part (part v)) = Some 0 ->
  geometry_current v = Some (tt, set_part (record_root (geom v) (part v)) v).
Proof.
  intros [Hp H1 H2 H3 H4 H5 H6] Hht. unfold geometry_current, bindST at 1. cbn [state].
  unfold bindST at 1. rewrite (get_part_run _ _ _ _ Hht). cbn [Z.eqb].
  unfold mbind, ST_bind, bindST.
  do 6 (rewrite put_part_run; [|cbn; lia]; cbn -[Z.to_nat]). reflexivity.
Qed.

Lemma geometry_current_next v ht hs dt ds ps pe : let cp := current_part (part v) in
  getb (cheadertrack (part v)) cp = Some ht -> ht <> 0 ->
  getb (cheadersector (part v)) cp = Some hs -> getb (cdirtrack (part v)) cp = Some dt ->
  getb (cdirsector (part v)) cp = Some ds -> getb (cpartstart (part v)) cp = Some ps ->
  getb (cpartend (part v)) cp = Some pe ->
  geometry_current v = Some (tt, set_geom (current_geom (geom v) ht hs dt ds ps pe) v).
Proof.
  intros cp H1 Hnz H2 H3 H4 H5 H6. unfold geometry_current, bindST at 1. cbn [state].
  fold cp. unfold bindST.
  rewrite (get_part_run _ _ _ _ H1). destruct (Z.eqb_spec ht 0); [done|].
  rewrite (get_part_run _ _ _ _ H2), (get_part_run _ _ _ _ H3), (get_part_run _ _ _ _ H4),
    (get_part_run _ _ _ _ H5), (get_part_run _ _ _ _ H6).
  unfold mbind, ST_bind, bindST, upd_geom, current_geom. cbn. by case_match.
Qed.

(** For every format whose constants are fixed, the geometry is always
    set (no array is accessed out of bounds), the first visit of a partition
    selects and records the root directory of the format, and setting the
    geometry again changes nothing: the current directory of a partition is
    stable. *)
Theorem geometry_stable v :
  part_arrays (part v) -> image_format (geom v) ∈ fixed_formats ->
  exists v', vdrive_set_disk_geometry v = Some (tt, v') /\
    vdrive_set_disk_geometry v' = Some (tt, v') /\
    (getb (cheadertrack (part v)) (current_part (part v)) = Some 0 ->
       geom v' = root_geom (geom v) /\ part v' = record_root (root_geom (geom v)) (part v)).
Proof.
  intros Hpa Hf. destruct (root_geom_facts _ Hf) as (Hfmt & Hnt & Hht & Hcur).
  assert (forall arr : mem, mlen arr = 256 -> exists x, getb arr (current_part (part v)) = Some x)
    as Hget by (intros arr Harr; apply getb_is_Some; rewrite Harr; apply Hpa).
  destruct (Hget _ (pa_cheadertrack _ Hpa)) as [ht H1].
  rewrite set_geometry_run by done. destruct (decide (ht = 0)) as [->|Hnz].
  - rewrite geometry_current_first by done. eexists. split; [reflexivity|]. split; [|done].
    cbn [geom part set_part set_geom].
    rewrite set_geometry_run by (cbn; by rewrite Hfmt). cbn [geom set_part set_geom].
    rewrite (root_geom_ext (geom v)) by done. destruct Hpa as [Hp Ha1 Ha2 Ha3 Ha4 Ha5 Ha6].
    destruct (decide (Header_Track (root_geom (geom v)) = 0)) as [H0|H0].
    + rewrite geometry_current_first; cbn.
      * do 2 f_equal. unfold set_part; cbn. by rewrite record_root_idem.
      * split; cbn; unfold mlen; rewrite ?length_insert; done.
      * rewrite getb_insert_same by lia. by rewrite H0.
    + erewrite geometry_current_next; [..|cbn; by rewrite getb_insert_same by lia]; cbn;
        try (by rewrite getb_insert_same by lia); [|done].
      by rewrite Hnt, Hcur.
  - destruct (Hget _ (pa_cheadersector _ Hpa)) as [hs H2], (Hget _ (pa_cdirtrack _ Hpa)) as [dt H3],
      (Hget _ (pa_cdirsector _ Hpa)) as [ds H4], (Hget _ (pa_cpartstart _ Hpa)) as [ps H5],
      (Hget _ (pa_cpartend _ Hpa)) as [pe H6].
    erewrite geometry_current_next by done. eexists. split; [reflexivity|].
    split; [|intros; congruence].
    assert (image_format (current_geom (root_geom (geom v)) ht hs dt ds ps pe) = image_format (geom v)
      /\ num_tracks (current_geom (root_geom (geom v)) ht hs dt ds ps pe) = num_tracks (geom v)) as [Hg1 Hg2]
      by (unfold current_geom; case_match; cbn; done).
    rewrite set_geometry_run by (cbn; by rewrite Hg1). cbn [geom set_geom].
    rewrite (root_geom_ext (geom v)) by done. erewrite geometry_current_next by done. done.
Qed.

End access.
End VDrive.

(** ** Concrete drives *)

(** A D1M image with a 1541 partition at its start; the drive has it selected
    as partition 1. *)
Definition blank_d1m : disk_image_t :=
  DiskImage 0 DISK_IMAGE_DEVICE_FS DISK_IMAGE_TYPE_D1M 81 0 0
    (Some (File 829440 (fun _ => 0) true)) None 0.

Definition zeros (n : nat) : mem := replicate n 0.

Definition part1 (co : Z) (pt : bool) : part_t :=
  Parts co 0x640 1 1 1 pt (zeros 256) (zeros 256) (zeros 256) (zeros 256) (zeros 256)
    (zeros 256) (zeros 256) (zeros 256) (zeros 256).

Definition geom_of (format tracks : Z) : geom_t := Geom format 0 0 0 0 0 0 0 0 tracks 0 0.

Definition no_bam : bamc_t := Bamc None 0 (replicate 33 (-1)) (replicate 33 (-1)) (replicate 33 (-1)).

Definition cmd_drive : vdrive_t :=
  VDrive 8 (Some blank_d1m) true 0 (geom_of VDRIVE_IMAGE_FORMAT_1541 35) no_bam (part1 0 true)
    0 (zeros 2048) 0 0 0.

Definition empty_drive : vdrive_t :=
  VDrive 8 None false (-1) (geom_of VDRIVE_IMAGE_FORMAT_NONE 0) no_bam (part1 UINT32_MAX false)
    0 (zeros 2048) 0 0 0.

Lemma blank_d1m_wf : Image.image_wf blank_d1m.
Proof.
  split; [reflexivity|apply (bool_decide_eq_true_1 _); vm_compute; reflexivity|reflexivity| |].
  - eexists. split; reflexivity.
  - intros m Hm. discriminate Hm.
Defined.

Lemma cmd_drive_ok g co : VDrive.drive_ok (VDrive.select g (part1 co true) cmd_drive) blank_d1m.
Proof. split; [reflexivity|reflexivity|apply blank_d1m_wf|discriminate]. Defined.

Ltac solve_partition :=
  split; [reflexivity|reflexivity|reflexivity|apply (bool_decide_eq_true_1 _); vm_compute; reflexivity
         |reflexivity|vm_compute; congruence|vm_compute; congruence|vm_compute; congruence].

Lemma tables_witness : getb VDrive.max4171 18 = Some 19 /\ getb VDrive.tosec4171 18 = Some 357.
Proof. apply (VDrive.tables_match_geometry 18). lia. Defined.

Lemma log_to_phy_witness :
  exists t' s', VDrive.vdrive_log_to_phy cmd_drive 18 0 = Some (Some (t', s')) /\
    Geometry.disk_image_check_sector blank_d1m t' s' = 357.
Proof.
  destruct (VDrive.log_to_phy_in_partition cmd_drive blank_d1m 18 0 ltac:(solve_partition) ltac:(lia)
    ltac:(vm_compute; repeat split; congruence)) as (t' & s' & H & Hb & _).
  exists t', s'. split; [exact H|]. rewrite Hb. vm_compute. reflexivity.
Defined.

Lemma drive_write_read_witness :
  exists v' image', VDrive.vdrive_write_sector (replicate 256 5) 18 0 cmd_drive = Some (0, v') /\
    VDrive.drive_ok v' image' /\
    VDrive.vdrive_read_sector zero_block 18 0 v' = Some ((0, replicate 256 5), v').
Proof.
  apply (VDrive.drive_write_read cmd_drive blank_d1m (replicate 256 5) zero_block 18 0 2 101);
    [apply (cmd_drive_ok (geom cmd_drive) 0)|vm_compute; reflexivity|solve_covered|reflexivity|reflexivity].
Defined.

Lemma partitions_isolated_witness :
  exists v', VDrive.vdrive_write_sector (replicate 256 5) 18 0 cmd_drive = Some (0, v') /\
    let w v := VDrive.select (geom_of VDRIVE_IMAGE_FORMAT_1541 35) (part1 400 true) v in
    fst <$> VDrive.vdrive_read_sector zero_block 1 0 (w v')
      = fst <$> VDrive.vdrive_read_sector zero_block 1 0 (w cmd_drive).
Proof.
  apply (VDrive.partitions_isolated cmd_drive blank_d1m (replicate 256 5) zero_block
    (geom_of VDRIVE_IMAGE_FORMAT_1541 35) (part1 400 true) 18 0 1 0);
    [|apply (cmd_drive_ok (geom cmd_drive) 0)|solve_partition|vm_compute; repeat split; congruence|lia
     |apply cmd_drive_ok|solve_partition|vm_compute; repeat split; congruence|lia
     |left; vm_compute; congruence|reflexivity|reflexivity].
  split; [reflexivity|]. eexists. split; [reflexivity|vm_compute; congruence].
Defined.

Lemma drive_not_writable_witness :
  VDrive.vdrive_write_sector zero_block 1 0 empty_drive = Some (CBMDOS_IPE_NOT_READY, empty_drive).
Proof. apply (VDrive.drive_not_writable empty_drive zero_block 1 0); reflexivity. Defined.

Lemma geometry_stable_witness :
  exists v', VDrive.vdrive_set_disk_geometry cmd_drive = Some (tt, v') /\
    VDrive.vdrive_set_disk_geometry v' = Some (tt, v').
Proof.
  destruct (VDrive.geometry_stable cmd_drive) as (v' & H1 & H2 & _); [| |by exists v'].
  - split; vm_compute; repeat split; congruence.
  - apply (bool_decide_eq_true_1 _); vm_compute; reflexivity.
Defined.
