(* ===== verification/Bam.v ===== *)
(** * The block availability map

    Models [src/lib/vdrive/vdrive-bam.c] except the search for a free sector
    (file BamAlloc): loading and writing the BAM blocks, the bit of a sector,
    allocation, release, the free count, clearing and creating a BAM.
    [vdrive->bam] is a heap block of [bam_size] bytes; the pointer to a BAM
    entry is its index in the block, [None] the null pointer. *)

From S2P Require Import Prelude Geometry Image VDrive.

Definition BAM_BIT_MAP : Z := 4.
Definition BAM_BIT_MAP_1581 : Z := 16.
Definition BAM_BIT_MAP_8050 : Z := 6.
Definition BAM_BIT_MAP_NP : Z := 32.
Definition BAM_BIT_MAP_9000 : Z := 16.
Definition BAM_VERSION_1541 : Z := 165.
Definition BAM_VERSION_1581 : Z := 25.
Definition BAM_VERSION_8050 : Z := 27.
Definition BAM_VERSION_NP : Z := 25.
Definition BAM_VERSION_9000 : Z := 27.

Module Bam.

(** ** Access to the BAM block and its tables *)

Definition get_bam (i : Z) : ST vdrive_t Z :=
  let! v := state in lift (b ← bam (bamc v); getb b i).
Definition put_bam (i x : Z) : ST vdrive_t unit :=
  update (fun v => b ← bam (bamc v); b ← putb b i (u8 x); Some (set_bamc (set_bam (Some b) (bamc v)) v)).
(** [memset(bam + off, x, n)] *)
Definition fill_bam (off x n : Z) : ST vdrive_t unit :=
  update (fun v => b ← bam (bamc v); b ← fill b off (u8 x) n; Some (set_bamc (set_bam (Some b) (bamc v)) v)).
Definition get_state (i : Z) : ST vdrive_t Z :=
  let! v := state in lift (getb (bam_state (bamc v)) i).
Definition put_state (i x : Z) : ST vdrive_t unit :=
  update (fun v => s ← putb (bam_state (bamc v)) i x; Some (set_bamc (set_bam_state s (bamc v)) v)).
Definition get_track (i : Z) : ST vdrive_t Z :=
  let! v := state in lift (getb (bam_tracks (bamc v)) i).
Definition get_sector (i : Z) : ST vdrive_t Z :=
  let! v := state in lift (getb (bam_sectors (bamc v)) i).
(** [bam_tracks[i] = t; bam_sectors[i] = s] *)
Definition put_link (i t s : Z) : ST vdrive_t unit :=
  update (fun v =>
    ts ← putb (bam_tracks (bamc v)) i t;
    ss ← putb (bam_sectors (bamc v)) i s;
    Some (set_bamc (set_bam_tracks ts (set_bam_sectors ss (bamc v))) v)).
Definition format : ST vdrive_t Z := gets (fun v => image_format (geom v)).

Section bam.
Context {platform : Platform}.

(** [vdrive_read_sector(vdrive, vdrive->bam + (block << 8), t, s)] *)
Definition read_into_bam (block t s : Z) : ST vdrive_t Z :=
  let! v := state in
  let! b := lift (bam (bamc v)) in
  let! buf := lift (slice b (block * 256) 256) in
  let! (err, buf) := VDrive.vdrive_read_sector buf (u32 t) (u32 s) in
  update (fun v => b ← bam (bamc v); b ← splice b (block * 256) buf;
                   Some (set_bamc (set_bam (Some b) (bamc v)) v));;
  mret err.

(** The 1581 takes the place of its BAM from the current partition. *)
Definition bam_links_1581 : ST vdrive_t unit :=
  let! v := state in
  for_each 3 0 (fun i => put_link i (Bam_Track (geom v)) (Bam_Sector (geom v) + i)).

(** [memcpy(vdrive->ram + 0x700, vdrive->bam, 256)] *)
Definition bam_to_ram : ST vdrive_t unit :=
  update (fun v => b ← bam (bamc v); bs ← slice b 0 256; r ← splice (ram v) 0x700 bs;
                   Some (set_ram r v)).

Definition has_bam (f : Z) : bool :=
  (f =? VDRIVE_IMAGE_FORMAT_1581) || (f =? VDRIVE_IMAGE_FORMAT_2040)
  || (f =? VDRIVE_IMAGE_FORMAT_1541) || (f =? VDRIVE_IMAGE_FORMAT_1571)
  || (f =? VDRIVE_IMAGE_FORMAT_8050) || (f =? VDRIVE_IMAGE_FORMAT_8250)
  || (f =? VDRIVE_IMAGE_FORMAT_9000) || (f =? VDRIVE_IMAGE_FORMAT_NP).

(** Each recursive call is for a smaller block: [VDRIVE_BAM_MAX_STATES] is
    enough fuel. *)
Fixpoint read_bam_block (fuel : nat) (block : Z) : ST vdrive_t Z :=
  match fuel with
  | O => ub
  | S fuel =>
      let block := u32 block in
      if VDRIVE_BAM_MAX_STATES <=? block then mret (-1)
      else
        let! st := get_state block in
        if 0 <=? st then mret CBMDOS_IPE_OK
        else
          let! f := format in
          let! early :=
            if f =? VDRIVE_IMAGE_FORMAT_9000 then
              for_ (Z.to_nat (block - 1)) 2 (fun i =>
                let! t := get_track i in
                if t <? 0 then
                  let! err := read_bam_block fuel (i - 1) in
                  if err <? 0 then mret (Some CBMDOS_IPE_NOT_READY)
                  else if 0 <? err then mret (Some err)
                  else
                    let! t := get_bam ((i - 1) * 256) in
                    let! s := get_bam ((i - 1) * 256 + 1) in
                    put_link i t s;; mret None
                else mret None)
            else mret None in
          match early with
          | Some r => mret r
          | None =>
              let! err :=
                (if f =? VDRIVE_IMAGE_FORMAT_1581 then bam_links_1581 else mret tt);;
                if has_bam f then
                  let! t := get_track block in
                  if 0 <=? t then
                    let! s := get_sector block in
                    let! err := read_into_bam block t s in
                    (if f =? VDRIVE_IMAGE_FORMAT_1541 then bam_to_ram else mret tt);;
                    mret err
                  else mret (-1)
                else mret (-1) in
              (if err =? 0 then put_state block 0 else mret tt);;
              mret (if err <? 0 then CBMDOS_IPE_NOT_READY else err)
          end
  end.

Definition vdrive_bam_read_bam_block (block : Z) : ST vdrive_t Z :=
  read_bam_block (Z.to_nat VDRIVE_BAM_MAX_STATES) block.

Definition vdrive_calculate_disk_half (v : vdrive_t) : Z :=
  let f := image_format (geom v) in
  if (f =? VDRIVE_IMAGE_FORMAT_1541) || (f =? VDRIVE_IMAGE_FORMAT_2040) then 17 + 5
  else if f =? VDRIVE_IMAGE_FORMAT_1571 then 17 + 35
  else if f =? VDRIVE_IMAGE_FORMAT_1581 then 40
  else if f =? VDRIVE_IMAGE_FORMAT_8050 then 39
  else if f =? VDRIVE_IMAGE_FORMAT_8250 then 39 + 78
  else if f =? VDRIVE_IMAGE_FORMAT_NP then num_tracks (geom v) - 1
  else if f =? VDRIVE_IMAGE_FORMAT_9000 then num_tracks (geom v) - 1
  else -1.

Definition vdrive_bam_get_interleave (v : vdrive_t) : Z :=
  let f := image_format (geom v) in
  if f =? VDRIVE_IMAGE_FORMAT_1541 then if haspt (part v) then 1 else 10
  else if f =? VDRIVE_IMAGE_FORMAT_1571 then if haspt (part v) then 1 else 6
  else if f =? VDRIVE_IMAGE_FORMAT_2040 then 10
  else if f =? VDRIVE_IMAGE_FORMAT_1581 then 1
  else if f =? VDRIVE_IMAGE_FORMAT_8050 then 6
  else if f =? VDRIVE_IMAGE_FORMAT_8250 then 5
  else if f =? VDRIVE_IMAGE_FORMAT_NP then 1
  else if f =? VDRIVE_IMAGE_FORMAT_9000 then 10
  else 10.

(** ** The bits *)

(** The byte of a sector: [&(bamp[1 + (sector >> 3)])] *)
Definition bit_byte (bamp sector : Z) : Z := bamp + 1 + Z.shiftr sector 3.
Definition bit_mask (sector : Z) : Z := Z.shiftl 1 (Z.land sector 7).

Definition vdrive_bam_set (bamp sector : Z) : ST vdrive_t unit :=
  let t := bit_byte bamp sector in
  let p := Z.shiftr t 8 in
  vdrive_bam_read_bam_block p;;
  let! x := get_bam t in
  put_bam t (Z.lor x (bit_mask sector));;
  put_state p 1.

Definition vdrive_bam_clr (bamp sector : Z) : ST vdrive_t unit :=
  let t := bit_byte bamp sector in
  let p := Z.shiftr t 8 in
  vdrive_bam_read_bam_block p;;
  let! x := get_bam t in
  put_bam t (Z.ldiff x (bit_mask sector));;
  put_state p 1.

Definition vdrive_bam_isset (bamp sector : Z) : ST vdrive_t Z :=
  let t := bit_byte bamp sector in
  let p := Z.shiftr t 8 in
  vdrive_bam_read_bam_block p;;
  let! x := get_bam t in
  mret (Z.land x (bit_mask sector)).

(** The scan of the BAM blocks [1 .. n] of the 8050, 8250 and D9090 for the
    block that covers the track; [entry] gives the index of the entry in it. *)
Definition scan_bam_blocks (n : nat) (skip : Z -> ST vdrive_t bool) (track : Z)
    (entry : Z -> Z -> ST vdrive_t Z) : ST vdrive_t (option Z) :=
  let! r := for_ n 1 (fun i =>
    let! sk := skip i in
    if sk then mret None
    else
      let! err := vdrive_bam_read_bam_block i in
      if negb (err =? 0) then mret (Some None)
      else
        let! lo := get_bam (i * 0x100 + 4) in
        let! hi := get_bam (i * 0x100 + 5) in
        if (lo <=? track) && (track <? hi) then
          let! e := entry i lo in mret (Some (Some e))
        else mret None) in
  mret (default None r).

Definition vdrive_bam_get_track_entry (track sector : Z) : ST vdrive_t (option Z) :=
  let! v := state in
  let f := image_format (geom v) in
  if (track =? 0) && negb (f =? VDRIVE_IMAGE_FORMAT_9000) then mret None
  else if (f =? VDRIVE_IMAGE_FORMAT_1541) || (f =? VDRIVE_IMAGE_FORMAT_2040) then
    mret (Some (if track <=? NUM_TRACKS_1541 then BAM_BIT_MAP + 4 * (track - 1)
                else BAM_EXT_BIT_MAP_1541 + 4 * (track - NUM_TRACKS_1541 - 1)))
  else if f =? VDRIVE_IMAGE_FORMAT_1571 then
    mret (Some (if track <=? NUM_TRACKS_1571 / 2 then BAM_BIT_MAP + 4 * (track - 1)
                else 0x100 + 3 * (track - NUM_TRACKS_1571 / 2 - 1) - 1))
  else if f =? VDRIVE_IMAGE_FORMAT_1581 then
    mret (Some (if track <=? BAM_TRACK_1581 then 0x100 + BAM_BIT_MAP_1581 + 6 * (track - 1)
                else 0x200 + BAM_BIT_MAP_1581 + 6 * (track - BAM_TRACK_1581 - 1)))
  else if (f =? VDRIVE_IMAGE_FORMAT_8050) || (f =? VDRIVE_IMAGE_FORMAT_8250) then
    scan_bam_blocks 4 (fun i => let! t := get_track i in mret (t <=? 0)) track
      (fun i lo => mret (i * 0x100 + BAM_BIT_MAP_8050 + 5 * (track - lo)))
  else if f =? VDRIVE_IMAGE_FORMAT_NP then
    mret (Some (0x100 + BAM_BIT_MAP_NP + 32 * (track - 1) - 1))
  else if f =? VDRIVE_IMAGE_FORMAT_9000 then
    scan_bam_blocks (Z.to_nat (Z.shiftr (bam_size (bamc v)) 8 - 1)) (fun _ => mret false) track
      (fun i lo =>
         let! image := lift (deref_image v) in
         mret (i * 0x100 + BAM_BIT_MAP_9000
               + 5 * ((track - lo) * Z.shiftr (di_sectors image) 5 + Z.shiftr sector 5)))
  else mret None.

(** [*bamp += add] *)
Definition add_bam (i add : Z) : ST vdrive_t unit :=
  let! x := get_bam i in put_bam i (x + add).

Definition vdrive_bam_sector_free (bamp track add : Z) : ST vdrive_t unit :=
  let p := Z.shiftr bamp 8 in
  let! f := format in
  if (f =? VDRIVE_IMAGE_FORMAT_1541) || (f =? VDRIVE_IMAGE_FORMAT_2040)
     || (f =? VDRIVE_IMAGE_FORMAT_1581) || (f =? VDRIVE_IMAGE_FORMAT_8050)
     || (f =? VDRIVE_IMAGE_FORMAT_8250) || (f =? VDRIVE_IMAGE_FORMAT_9000) then
    vdrive_bam_read_bam_block p;;
    add_bam bamp add;;
    put_state p 1
  else if f =? VDRIVE_IMAGE_FORMAT_1571 then
    vdrive_bam_read_bam_block p;;
    put_state p 1;;
    if track <=? NUM_TRACKS_1571 / 2 then add_bam bamp add
    else
      let t := BAM_EXT_BIT_MAP_1571 + track - NUM_TRACKS_1571 / 2 - 1 in
      vdrive_bam_read_bam_block (Z.shiftr t 8);;
      add_bam t add;;
      put_state (Z.shiftr t 8) 1
  else mret tt.

(** The common start of the three operations below: the entry of the track and
    the sector as its bit is numbered; [None] for a track that has no entry. *)
Definition locate (track sector : Z) : ST vdrive_t (option Z * Z) :=
  let! f := format in
  let sector := if f =? VDRIVE_IMAGE_FORMAT_NP then Z.lxor sector 7 else sector in
  let! bamp := vdrive_bam_get_track_entry track sector in
  mret (bamp, if f =? VDRIVE_IMAGE_FORMAT_9000 then Z.land sector 31 else sector).

Definition beyond_1571 (v : vdrive_t) (track : Z) : bool :=
  (NUM_TRACKS_1571 <? track) && (image_format (geom v) =? VDRIVE_IMAGE_FORMAT_1571).

Definition vdrive_bam_allocate_sector (track sector : Z) : ST vdrive_t Z :=
  let! v := state in
  if beyond_1571 v track then mret 0
  else
    let! (bamp, sector) := locate track sector in
    match bamp with
    | None => mret 0
    | Some bamp =>
        let! set := vdrive_bam_isset bamp sector in
        if negb (set =? 0) then
          vdrive_bam_clr bamp sector;;
          vdrive_bam_sector_free bamp track (-1);;
          mret 1
        else mret 0
    end.

Definition vdrive_bam_free_sector (track sector : Z) : ST vdrive_t Z :=
  let! v := state in
  if beyond_1571 v track then mret 0
  else
    let! (bamp, sector) := locate track sector in
    match bamp with
    | None => mret 0
    | Some bamp =>
        let! set := vdrive_bam_isset bamp sector in
        if set =? 0 then
          vdrive_bam_set bamp sector;;
          vdrive_bam_sector_free bamp track 1;;
          mret 1
        else mret 0
    end.

Definition vdrive_bam_is_sector_allocated (track sector : Z) : ST vdrive_t Z :=
  let! v := state in
  if beyond_1571 v track then mret (-1)
  else
    let! (bamp, sector) := locate track sector in
    match bamp with
    | None => mret 0
    | Some bamp =>
        let! set := vdrive_bam_isset bamp sector in
        mret (if set =? 0 then 1 else 0)
    end.

(** ** The whole BAM *)

Definition vdrive_bam_read_bam : ST vdrive_t Z :=
  let! v := state in
  let f := image_format (geom v) in
  let! err :=
    if has_bam f then
      let n := Z.to_nat (Z.shiftr (bam_size (bamc v)) 8) in
      let! r := for_ n 0 (fun i =>
        let! err := vdrive_bam_read_bam_block i in
        mret (if negb (err =? 0) then Some err else None)) in
      mret (match r with Some err => err | None => if (n =? 0)%nat then -1 else 0 end)
    else if f =? VDRIVE_IMAGE_FORMAT_SYS then mret 0
    else mret (-1) in
  mret (if err <? 0 then CBMDOS_IPE_NOT_READY else err).

(** The body of the loop of [vdrive_bam_write_bam]. *)
Definition write_bam_block (i : Z) : ST vdrive_t (option Z) :=
  let! st := get_state i in
  if 0 <? st then
    let! v := state in
    let! b := lift (bam (bamc v)) in
    let! buf := lift (slice b (i * 256) 256) in
    let! t := get_track i in
    let! s := get_sector i in
    let! err := VDrive.vdrive_write_sector buf (u32 t) (u32 s) in
    if negb (err =? 0) then mret (Some err)
    else put_state i 0;; mret None
  else mret None.

Definition vdrive_bam_write_bam : ST vdrive_t Z :=
  let! v := state in
  match bam (bamc v) with
  | None => mret (-1)
  | Some _ =>
      let f := image_format (geom v) in
      (if f =? VDRIVE_IMAGE_FORMAT_1581 then bam_links_1581 else mret tt);;
      if has_bam f then
        let! r := for_ (Z.to_nat (Z.shiftr (bam_size (bamc v)) 8)) 0 write_bam_block in
        mret (default CBMDOS_IPE_OK r)
      else mret CBMDOS_IPE_OK
  end.

Definition vdrive_bam_clear_all : ST vdrive_t unit :=
  vdrive_bam_read_bam;;
  let! v := state in
  let f := image_format (geom v) in
  let clear_8050 :=
    fill_bam (0x100 + BAM_BIT_MAP_8050) 0 (0x100 - BAM_BIT_MAP_8050);; put_state 1 1;;
    fill_bam (0x200 + BAM_BIT_MAP_8050) 0 (0x100 - BAM_BIT_MAP_8050);; put_state 2 1 in
  if (f =? VDRIVE_IMAGE_FORMAT_1541) || (f =? VDRIVE_IMAGE_FORMAT_2040) then
    (if f =? VDRIVE_IMAGE_FORMAT_1541 then fill_bam BAM_EXT_BIT_MAP_1541 0 (4 * 5) else mret tt);;
    fill_bam BAM_BIT_MAP 0 (4 * NUM_TRACKS_1541);; put_state 0 1
  else if f =? VDRIVE_IMAGE_FORMAT_1571 then
    fill_bam BAM_BIT_MAP 0 (4 * NUM_TRACKS_1571 / 2);;
    fill_bam BAM_EXT_BIT_MAP_1571 0 (NUM_TRACKS_1571 / 2);; put_state 0 1;;
    fill_bam 0x100 0 (3 * NUM_TRACKS_1571 / 2);; put_state 1 1
  else if f =? VDRIVE_IMAGE_FORMAT_1581 then
    fill_bam (0x100 + BAM_BIT_MAP_1581) 0 (6 * NUM_TRACKS_1581 / 2);; put_state 1 1;;
    fill_bam (0x200 + BAM_BIT_MAP_1581) 0 (6 * NUM_TRACKS_1581 / 2);; put_state 2 1
  else if f =? VDRIVE_IMAGE_FORMAT_8250 then
    fill_bam (0x300 + BAM_BIT_MAP_8050) 0 (0x100 - BAM_BIT_MAP_8050);; put_state 3 1;;
    fill_bam (0x400 + BAM_BIT_MAP_8050) 0 (0x100 - BAM_BIT_MAP_8050);; put_state 4 1;;
    clear_8050
  else if f =? VDRIVE_IMAGE_FORMAT_8050 then clear_8050
  else if f =? VDRIVE_IMAGE_FORMAT_NP then
    fill_bam (0x100 + BAM_BIT_MAP_NP) 255 (255 * 32);;
    for_each 32 1 (fun i => put_state i 1)
  else if f =? VDRIVE_IMAGE_FORMAT_9000 then
    for_each (Z.to_nat ((bam_size (bamc v) + 255) / 256 - 1)) 1 (fun i =>
      fill_bam (i * 0x100 + BAM_BIT_MAP_9000) 0 (0x100 - BAM_BIT_MAP_9000);; put_state i 1)
  else mret tt.

Definition vdrive_bam_int_get_disk_id : ST vdrive_t mem :=
  let! v := state in
  vdrive_bam_read_bam_block (Z.shiftr (bam_id (geom v)) 8);;
  let! v' := state in
  lift (b ← bam (bamc v'); slice b (bam_id (geom v)) 2).

(** [lib_free]/[lib_malloc] of the BAM and the reset of its tables. *)
Definition reset_bam : ST vdrive_t unit :=
  upd_bamc (fun b =>
    let inv := replicate (Z.to_nat VDRIVE_BAM_MAX_STATES) (-1) in
    Bamc (if bam_size b =? 0 then None else Some (lib_malloc (bam_size b))) (bam_size b) inv inv inv).

(** Where the BAM blocks of the format are. *)
Definition bam_links : ST vdrive_t unit :=
  let! v := state in
  let f := image_format (geom v) in
  let link_8050 :=
    put_link 0 HDR_TRACK_8050 HDR_SECTOR_8050;;
    put_link 1 BAM_TRACK_8050 BAM_SECTOR_8050;;
    put_link 2 BAM_TRACK_8050 (BAM_SECTOR_8050 + 3) in
  if f =? VDRIVE_IMAGE_FORMAT_1571 then
    put_link 1 (BAM_TRACK_1571 + num_tracks (geom v) / 2) BAM_SECTOR_1571;;
    put_link 0 BAM_TRACK_1541 BAM_SECTOR_1541
  else if (f =? VDRIVE_IMAGE_FORMAT_1541) || (f =? VDRIVE_IMAGE_FORMAT_2040) then
    put_link 0 BAM_TRACK_1541 BAM_SECTOR_1541
  else if f =? VDRIVE_IMAGE_FORMAT_1581 then mret tt
  else if f =? VDRIVE_IMAGE_FORMAT_8250 then
    put_link 3 BAM_TRACK_8050 (BAM_SECTOR_8050 + 6);;
    put_link 4 BAM_TRACK_8050 (BAM_SECTOR_8050 + 9);;
    link_8050
  else if f =? VDRIVE_IMAGE_FORMAT_8050 then link_8050
  else if f =? VDRIVE_IMAGE_FORMAT_NP then
    for_each 33 0 (fun i => put_link i BAM_TRACK_NP (BAM_SECTOR_NP + i))
  else if f =? VDRIVE_IMAGE_FORMAT_SYS then mret tt
  else if f =? VDRIVE_IMAGE_FORMAT_9000 then
    put_link 0 (Header_Track (geom v)) (Header_Sector (geom v));;
    put_link 1 (Bam_Track (geom v)) (Bam_Sector (geom v))
  else mret tt.

Definition vdrive_bam_setup_bam : ST vdrive_t unit :=
  reset_bam;;
  bam_links;;
  let! v := state in
  let! is1541 := lift (VDrive.VDRIVE_IS_1541 v) in
  if is1541 then
    let! id := vdrive_bam_int_get_disk_id in
    update (fun v =>
      id0 ← getb id 0; id1 ← getb id 1;
      r ← putb (ram v) 0x16 id0; r ← putb r 0x12 id0;
      r ← putb r 0x17 id1; r ← putb r 0x13 id1;
      Some (set_ram r v))
  else mret tt.

Fixpoint mystrncpy (d : Z) (s : mem) (k : Z) (n : nat) : ST vdrive_t unit :=
  match n with
  | O => mret tt
  | S n =>
      let! c := lift (getb s k) in
      if c =? 0 then mret tt else put_bam d c;; mystrncpy (d + 1) s (k + 1) n
  end.

(** The sequence of stores [bam[i] = x]. *)
Definition store_bam (l : list (Z * Z)) : ST vdrive_t unit :=
  foldr (fun '(i, x) k => put_bam i x;; k) (mret tt) l.

(** Name and id of the disk, padded with shifted spaces. *)
Definition store_name (pad : Z) (name id : mem) : ST vdrive_t unit :=
  let! v := state in
  fill_bam (bam_name (geom v)) 0xa0 pad;;
  mystrncpy (bam_name (geom v)) name 0 16;;
  mystrncpy (bam_id (geom v)) id 0 2.

(** The loop that fills the BAM blocks of a D9090/D9060, for block [i / 0x100]:
    [t] and [tb] are the track of the block and its first track, [tp]/[sp] the
    previous block. *)
Fixpoint fill_9000 (n : nat) (i td t tb tp sp : Z) : ST vdrive_t unit :=
  match n with
  | O => mret tt
  | S n =>
      let! v := state in
      let nt := num_tracks (geom v) in
      let last := bam_size (bamc v) <=? i + 0x100 in
      let tn := if negb last && (nt <? t + td) then nt else t + td in
      store_bam (if last then [(i, 255); (i + 1, 255); (i + 4, tb); (i + 5, nt + 1)]
                 else [(i, tn); (i + 1, 0); (i + 4, tb); (i + 5, tb + td)]);;
      store_bam [(i + 2, tp); (i + 3, sp)];;
      put_link (Z.shiftr i 8) t 0;;
      put_state (Z.shiftr i 8) 1;;
      fill_9000 n (i + 0x100) td tn (tb + td) t 0
  end.

Definition create_empty_9000 (name : mem) (id0 id1 : Z) (id : mem) : ST vdrive_t unit :=
  let! v := state in
  let dt := u8 (num_tracks (geom v) / 2) in
  VDrive.vdrive_write_sector
    ([0; 1; 0; 0xff; dt; 10; dt; 20; 1; 0; id0; id1] ++ replicate 244 0) 0 0;;
  upd_geom (fun g => set_Bam_Track 1 (set_Bam_Sector 0 (set_Header_Track dt (set_Header_Sector 20
    (set_Dir_Track dt (set_Dir_Sector 10 g))))));;
  VDrive.vdrive_write_sector (replicate 256 0xff) 0 1;;
  store_bam [(0, dt); (1, 10)];;
  store_name 27 name id;;
  store_bam [(BAM_VERSION_9000, 51); (BAM_VERSION_9000 + 1, 65)];;
  let! image := lift (deref_image v) in
  let! td := lift (let d := Z.shiftr (di_sectors image) 5 in
                   if d =? 0 then None else Some (240 / d / 5)) in
  fill_9000 (Z.to_nat ((bam_size (bamc v) + 255) / 256 - 1)) 0x100 td 1 0 255 255.

Definition vdrive_bam_create_empty_bam (name id : mem) : ST vdrive_t unit :=
  vdrive_bam_setup_bam;;
  let! v := state in
  fill_bam 0 0 (bam_size (bamc v));;
  put_state 0 1;;
  let f := image_format (geom v) in
  let g := geom v in
  (if negb (f =? VDRIVE_IMAGE_FORMAT_8050) && negb (f =? VDRIVE_IMAGE_FORMAT_8250)
      && negb (f =? VDRIVE_IMAGE_FORMAT_9000) then
     store_bam [(0, Dir_Track g); (1, Dir_Sector g); (2, 65)];;
     (if f =? VDRIVE_IMAGE_FORMAT_1571 then put_bam 3 0x80 else mret tt);;
     store_name (if (f =? VDRIVE_IMAGE_FORMAT_1581) || (f =? VDRIVE_IMAGE_FORMAT_NP) then 25 else 27)
       name id
   else mret tt);;
  if f =? VDRIVE_IMAGE_FORMAT_2040 then store_bam [(2, 1); (0xa4, 0x20); (0xa5, 0x20)]
  else if (f =? VDRIVE_IMAGE_FORMAT_1541) || (f =? VDRIVE_IMAGE_FORMAT_1571) then
    store_bam [(BAM_VERSION_1541, 50); (BAM_VERSION_1541 + 1, 65)]
  else if f =? VDRIVE_IMAGE_FORMAT_1581 then
    let! id0 := lift (getb id 0) in
    let! id1 := lift (getb id 1) in
    store_bam [(2, 68); (0x100, Bam_Track g); (0x101, 2); (0x200, 0); (0x201, 0xff);
      (BAM_VERSION_1581, 51); (BAM_VERSION_1581 + 1, 68);
      (0x102, 68); (0x103, 0xbb); (0x104, id0); (0x105, id1); (0x106, 0xc0);
      (0x202, 68); (0x203, 0xbb); (0x204, id0); (0x205, id1); (0x206, 0xc0)];;
    put_state 1 1;; put_state 2 1
  else if (f =? VDRIVE_IMAGE_FORMAT_8050) || (f =? VDRIVE_IMAGE_FORMAT_8250) then
    store_bam [(0, BAM_TRACK_8050); (1, BAM_SECTOR_8050); (2, 67)];;
    store_name 27 name id;;
    store_bam [(BAM_VERSION_8050, 50); (BAM_VERSION_8050 + 1, 67);
      (0x100, BAM_TRACK_8050); (0x101, 3); (0x102, 67); (0x104, 1); (0x105, 51)];;
    put_state 1 1;; put_state 2 1;;
    if f =? VDRIVE_IMAGE_FORMAT_8050 then
      store_bam [(0x200, DIR_TRACK_8050); (0x201, 1); (0x202, 67); (0x204, 51); (0x205, 78)]
    else
      store_bam [(0x200, BAM_TRACK_8050); (0x201, 6); (0x202, 67); (0x204, 51); (0x205, 101);
        (0x300, BAM_TRACK_8050); (0x301, 9); (0x302, 67); (0x304, 101); (0x305, 151);
        (0x400, DIR_TRACK_8050); (0x401, 1); (0x402, 67); (0x404, 151); (0x405, 155)];;
      put_state 3 1;; put_state 4 1
  else if f =? VDRIVE_IMAGE_FORMAT_NP then
    let! id0 := lift (getb id 0) in
    let! id1 := lift (getb id 1) in
    store_bam [(2, 72); (BAM_VERSION_NP, 49); (BAM_VERSION_NP + 1, 72);
      (0x20, Bam_Track g); (0x21, Bam_Sector g); (0x102, 72); (0x103, Z.lnot 72);
      (0x104, id0); (0x105, id1); (0x106, 0xc0); (0x108, num_tracks g)];;
    put_state 1 1
  else if f =? VDRIVE_IMAGE_FORMAT_9000 then
    let! id0 := lift (getb id 0) in
    let! id1 := lift (getb id 1) in
    create_empty_9000 name id0 id1 id
  else mret tt.

(** ** Free blocks *)

(** The table of the number of set bits of a byte. *)
Definition bitcount (t : Z) : Z :=
  foldr (fun s n => b2z (Z.testbit t s) + n) 0 (seqZ 0 8).

Definition count_entry (track sector : Z) : ST vdrive_t Z :=
  let! bamp := vdrive_bam_get_track_entry track sector in
  match bamp with Some i => get_bam i | None => mret 0 end.

(** [sum_for n lo body]: the sum of the bodies of a loop. *)
Fixpoint sum_for (n : nat) (lo step : Z) (body : Z -> ST vdrive_t Z) : ST vdrive_t Z :=
  match n with
  | O => mret 0
  | S n =>
      let! x := body lo in
      let! y := sum_for n (lo + step) step body in
      mret (u32 (x + y))
  end.

(** The free blocks of track [t]. *)
Definition count_track (t : Z) : ST vdrive_t Z :=
  let! v := state in
  let g := geom v in
  let f := image_format g in
  if (f =? VDRIVE_IMAGE_FORMAT_2040) || (f =? VDRIVE_IMAGE_FORMAT_1541)
     || (f =? VDRIVE_IMAGE_FORMAT_1581) || (f =? VDRIVE_IMAGE_FORMAT_8050)
     || (f =? VDRIVE_IMAGE_FORMAT_8250) then
    if t =? Dir_Track g then mret 0 else count_entry t 0
  else if f =? VDRIVE_IMAGE_FORMAT_1571 then
    if (t =? Dir_Track g) || (t =? Dir_Track g + 35) then mret 0
    else if t <=? NUM_TRACKS_1571 / 2 then count_entry t 0
    else get_bam (BAM_EXT_BIT_MAP_1571 + t - NUM_TRACKS_1571 / 2 - 1)
  else if f =? VDRIVE_IMAGE_FORMAT_NP then
    let a := BAM_BIT_MAP_NP + 256 + 32 * (t - 1) in
    let s0 := if t =? Bam_Track g then 8 else 0 in
    sum_for (Z.to_nat (32 - s0)) s0 1 (fun s =>
      let! x := get_bam (a + s) in mret (bitcount x))
  else if f =? VDRIVE_IMAGE_FORMAT_9000 then
    let! image := lift (deref_image v) in
    sum_for (Z.to_nat ((di_sectors image + 31) / 32)) 0 32 (fun s => count_entry t s)
  else mret 0.

Definition vdrive_bam_free_block_count : ST vdrive_t Z :=
  let! err := vdrive_bam_read_bam in
  if negb (err =? 0) then mret 0
  else
    let! v := state in
    sum_for (Z.to_nat (num_tracks (geom v))) 1 1 count_track.

Definition geosmagic : mem :=
  [0x47; 0x45; 0x4f; 0x53; 0x20; 0x66; 0x6f; 0x72; 0x6d; 0x61; 0x74; 0x20; 0x56; 0x31; 0x2e].

Definition vdrive_bam_isgeos : ST vdrive_t Z :=
  let! f := format in
  if (f =? VDRIVE_IMAGE_FORMAT_1541) || (f =? VDRIVE_IMAGE_FORMAT_1571)
     || (f =? VDRIVE_IMAGE_FORMAT_1581) || (f =? VDRIVE_IMAGE_FORMAT_NP) then
    let! differs := for_ 15 0 (fun i =>
      let! m := lift (getb geosmagic i) in
      let! x := get_bam (0xad + i) in
      mret (if negb (m =? x) then Some tt else None)) in
    mret (match differs with None => 1 | Some _ => 0 end)
  else mret 0.

End bam.

End Bam.
