(* ===== verification/BamSpec.v ===== *)
(** * The block availability map as a set of free sectors

    The specification of [src/lib/vdrive/vdrive-bam.c]: where the bit of a
    sector is for each format, the invariant of a loaded BAM, the abstraction
    to a finite set of free sectors, and the proof that allocation, release and
    the queries of file Bam implement the operations on that set. The D9090,
    whose BAM entries are located by data on the disk, is left out of these
    theorems. *)

From S2P Require Import Prelude Geometry Image VDrive Bam.

Module BamSpec.
Import Bam.

(** ** Specification: where the bits are

    The layout of the BAM per format: its size, the tracks it covers, the
    number of bits of a track, the entry of a track ("sectors available", then
    the bits), and the byte that counts the free sectors of a track. *)

Definition bam_formats : list Z :=
  [VDRIVE_IMAGE_FORMAT_1541; VDRIVE_IMAGE_FORMAT_2040; VDRIVE_IMAGE_FORMAT_1571;
   VDRIVE_IMAGE_FORMAT_1581; VDRIVE_IMAGE_FORMAT_8050; VDRIVE_IMAGE_FORMAT_8250;
   VDRIVE_IMAGE_FORMAT_NP].

Definition bam_bytes (f : Z) : Z :=
  if (f =? VDRIVE_IMAGE_FORMAT_1541) || (f =? VDRIVE_IMAGE_FORMAT_2040) then 0x100
  else if f =? VDRIVE_IMAGE_FORMAT_1571 then 0x200
  else if (f =? VDRIVE_IMAGE_FORMAT_1581) || (f =? VDRIVE_IMAGE_FORMAT_8050) then 0x300
  else if f =? VDRIVE_IMAGE_FORMAT_8250 then 0x500
  else 0x2100.

Definition last_track (f : Z) : Z :=
  if f =? VDRIVE_IMAGE_FORMAT_1541 then 42
  else if f =? VDRIVE_IMAGE_FORMAT_2040 then 35
  else if f =? VDRIVE_IMAGE_FORMAT_1571 then 70
  else if f =? VDRIVE_IMAGE_FORMAT_1581 then 80
  else if f =? VDRIVE_IMAGE_FORMAT_8050 then 77
  else if f =? VDRIVE_IMAGE_FORMAT_8250 then 154
  else 255.

(** The bytes of bits of a track. *)
Definition map_bytes (f : Z) : Z :=
  if (f =? VDRIVE_IMAGE_FORMAT_1541) || (f =? VDRIVE_IMAGE_FORMAT_2040)
     || (f =? VDRIVE_IMAGE_FORMAT_1571) then 3
  else if f =? VDRIVE_IMAGE_FORMAT_1581 then 5
  else if (f =? VDRIVE_IMAGE_FORMAT_8050) || (f =? VDRIVE_IMAGE_FORMAT_8250) then 4
  else 32.

(** The BAM blocks of the 8050 and the 8250: block, first track, track after
    the last one, as [vdrive_bam_create_empty_bam] writes them. *)
Definition bam_ranges (f : Z) : list (Z * Z * Z) :=
  if f =? VDRIVE_IMAGE_FORMAT_8050 then [(1, 1, 51); (2, 51, 78)]
  else if f =? VDRIVE_IMAGE_FORMAT_8250 then
    [(1, 1, 51); (2, 51, 101); (3, 101, 151); (4, 151, 155)]
  else [].

Definition entry_of (f t : Z) : Z :=
  if (f =? VDRIVE_IMAGE_FORMAT_1541) || (f =? VDRIVE_IMAGE_FORMAT_2040) then
    if t <=? 35 then 4 + 4 * (t - 1) else 172 + 4 * (t - 36)
  else if f =? VDRIVE_IMAGE_FORMAT_1571 then
    if t <=? 35 then 4 + 4 * (t - 1) else 0x100 + 3 * (t - 36) - 1
  else if f =? VDRIVE_IMAGE_FORMAT_1581 then
    if t <=? 40 then 0x110 + 6 * (t - 1) else 0x210 + 6 * (t - 41)
  else if (f =? VDRIVE_IMAGE_FORMAT_8050) || (f =? VDRIVE_IMAGE_FORMAT_8250) then
    if t <? 51 then 0x106 + 5 * (t - 1)
    else if t <? 101 then 0x206 + 5 * (t - 51)
    else if t <? 151 then 0x306 + 5 * (t - 101)
    else 0x406 + 5 * (t - 151)
  else 0x120 + 32 * (t - 1) - 1.

Definition count_of (f t : Z) : option Z :=
  if f =? VDRIVE_IMAGE_FORMAT_NP then None
  else if (f =? VDRIVE_IMAGE_FORMAT_1571) && (35 <? t) then Some (221 + t - 36)
  else Some (entry_of f t).

Definition bam_sector (f s : Z) : Z := if f =? VDRIVE_IMAGE_FORMAT_NP then Z.lxor s 7 else s.

(** The byte and the bit of a sector. *)
Definition byte_of (f t s : Z) : Z := bit_byte (entry_of f t) (bam_sector f s).
Definition bit_of (f s : Z) : Z := Z.land (bam_sector f s) 7.

(** The addresses the BAM has a bit for. *)
Definition bam_addr (f t s : Z) : Prop := 1 <= t <= last_track f /\ 0 <= s < 8 * map_bytes f.

#[export] Instance bam_addr_dec f t s : Decision (bam_addr f t s).
Proof. unfold bam_addr. apply _. Defined.

(** A BAM in memory. *)
Record bam_ok (v : vdrive_t) (b : mem) : Prop := {
  bo_format : image_format (geom v) ∈ bam_formats;
  bo_bam : bam (bamc v) = Some b;
  bo_size : bam_size (bamc v) = bam_bytes (image_format (geom v));
  bo_len : mlen b = bam_bytes (image_format (geom v));
  bo_bytes : bytes_ok b;
  bo_ranges : forall i lo hi, (i, lo, hi) ∈ bam_ranges (image_format (geom v)) ->
    getb b (i * 0x100 + 4) = Some lo /\ getb b (i * 0x100 + 5) = Some hi /\
    exists t, getb (bam_tracks (bamc v)) i = Some t /\ 0 < t;
  bo_state : mlen (bam_state (bamc v)) = VDRIVE_BAM_MAX_STATES;
  bo_loaded : forall i, 0 <= i < bam_bytes (image_format (geom v)) / 256 ->
    exists st, getb (bam_state (bamc v)) i = Some st /\ 0 <= st
}.

Definition free_bit (f : Z) (b : mem) (t s : Z) : bool :=
  Z.testbit (default 0 (getb b (byte_of f t s))) (bit_of f s).

(** The drive with another BAM block and other block states. *)
Definition with_bam (b st : mem) (v : vdrive_t) : vdrive_t :=
  set_bamc (set_bam (Some b) (set_bam_state st (bamc v))) v.

(** ** Lemmas on the layout *)

Ltac format_cases H :=
  unfold bam_formats in H;
  repeat (apply elem_of_cons in H as [H|H]; [rewrite H in *|]);
  [..|exfalso; by apply not_elem_of_nil in H].

Lemma land7 s : Z.land s 7 = s mod 8.
Proof. change 7 with (Z.ones 3). by rewrite Z.land_ones. Qed.

Lemma np_sector s : 0 <= s < 256 -> Z.lxor s 7 = 8 * (s / 8) + (7 - s mod 8).
Proof. intros Hs. apply Z.eqb_eq. by_zrange 0 256 s. Qed.

Lemma byte_of_eq f t s : bam_addr f t s -> byte_of f t s = entry_of f t + 1 + s / 8.
Proof.
  intros [_ Hs]. unfold byte_of, bit_byte, bam_sector. rewrite Z.shiftr_div_pow2 by lia. change (2 ^ 3) with 8.
  destruct (f =? VDRIVE_IMAGE_FORMAT_NP) eqn:Hf; [|lia]. apply Z.eqb_eq in Hf. subst f.
  change (8 * map_bytes VDRIVE_IMAGE_FORMAT_NP) with 256 in Hs. rewrite np_sector by lia.
  pose proof (Z.mod_pos_bound s 8 eq_refl).
  rewrite <- (Z.div_unique (8 * (s / 8) + (7 - s mod 8)) 8 (s / 8) (7 - s mod 8)); lia.
Qed.

Lemma bit_of_eq f t s : bam_addr f t s ->
  bit_of f s = if f =? VDRIVE_IMAGE_FORMAT_NP then 7 - s mod 8 else s mod 8.
Proof.
  intros [_ Hs]. unfold bit_of, bam_sector. rewrite land7.
  destruct (f =? VDRIVE_IMAGE_FORMAT_NP) eqn:Hf; [|lia]. apply Z.eqb_eq in Hf. subst f.
  change (8 * map_bytes VDRIVE_IMAGE_FORMAT_NP) with 256 in Hs. rewrite np_sector by lia.
  pose proof (Z.mod_pos_bound s 8 eq_refl).
  rewrite <- (Z.mod_unique (8 * (s / 8) + (7 - s mod 8)) 8 (s / 8) (7 - s mod 8)); lia.
Qed.

Lemma bit_of_range f t s : bam_addr f t s -> 0 <= bit_of f s < 8.
Proof.
  intros Ha. rewrite (bit_of_eq _ t) by done. pose proof (Z.mod_pos_bound s 8 eq_refl).
  case_match; lia.
Qed.

Lemma addr_div f t s : bam_addr f t s -> 0 <= s / 8 < map_bytes f.
Proof. intros [_ Hs]. split; [apply Z.div_pos|apply Z.div_lt_upper_bound]; lia. Qed.

(** The bits of different tracks are in different bytes, all inside the BAM. *)
Lemma entries_apart f t t' : f ∈ bam_formats -> 1 <= t <= last_track f -> 1 <= t' <= last_track f ->
  t < t' -> entry_of f t + map_bytes f < entry_of f t' + 1 /\
            4 <= entry_of f t + 1 /\ entry_of f t' + map_bytes f < bam_bytes f.
Proof.
  intros Hf. format_cases Hf; unfold entry_of, map_bytes, last_track, bam_bytes; eval_tests;
    intros Ht Ht' Hlt; case_bool; lia.
Qed.

Lemma entry_bounds f t : f ∈ bam_formats -> 1 <= t <= last_track f ->
  4 <= entry_of f t + 1 /\ entry_of f t + map_bytes f < bam_bytes f.
Proof.
  intros Hf. format_cases Hf; unfold entry_of, map_bytes, last_track, bam_bytes; eval_tests;
    intros Ht; case_bool; lia.
Qed.

Lemma byte_of_bounds f t s : f ∈ bam_formats -> bam_addr f t s -> 0 <= byte_of f t s < bam_bytes f.
Proof.
  intros Hf Ha. rewrite byte_of_eq by done. pose proof (addr_div _ _ _ Ha).
  pose proof (entry_bounds f t Hf (proj1 Ha)). lia.
Qed.

(** Two sectors never share a bit. *)
Lemma slot_inj f t s t' s' : f ∈ bam_formats -> bam_addr f t s -> bam_addr f t' s' ->
  byte_of f t s = byte_of f t' s' -> bit_of f s = bit_of f s' -> t = t' /\ s = s'.
Proof.
  intros Hf Ha Ha'. rewrite (bit_of_eq f t s), (bit_of_eq f t' s'), !byte_of_eq by done.
  pose proof (addr_div _ _ _ Ha). pose proof (addr_div _ _ _ Ha').
  pose proof (Z.div_mod s 8 ltac:(lia)). pose proof (Z.div_mod s' 8 ltac:(lia)).
  intros Hbyte Hbit. destruct (Z.lt_trichotomy t t') as [Hlt|[->|Hlt]].
  - pose proof (entries_apart f t t' Hf (proj1 Ha) (proj1 Ha') Hlt). lia.
  - split; [done|]. case_match; lia.
  - pose proof (entries_apart f t' t Hf (proj1 Ha') (proj1 Ha) Hlt). lia.
Qed.

(** The counts are apart from the bits and from each other. *)
Lemma count_apart f t c : f ∈ bam_formats -> 1 <= t <= last_track f -> count_of f t = Some c ->
  0 <= c < bam_bytes f /\
  (forall t' s', bam_addr f t' s' -> byte_of f t' s' <> c) /\
  (forall t' c', 1 <= t' <= last_track f -> t' <> t -> count_of f t' = Some c' -> c' <> c).
Proof.
  intros Hf Ht Hc. split; [|split].
  - format_cases Hf; unfold count_of, entry_of, last_track, bam_bytes in *; eval_tests_in Hc; eval_tests;
      eval_tests_in Ht; cbn [andb] in Hc; repeat case_match; simplify_eq; lia.
  - intros t' s' Ha'. rewrite byte_of_eq by done. pose proof (addr_div _ _ _ Ha'). destruct Ha' as [Ht' _].
    format_cases Hf; unfold count_of, entry_of, last_track, map_bytes in *; eval_tests_in Hc; eval_tests;
      eval_tests_in Ht; eval_tests_in Ht'; cbn [andb] in Hc; repeat case_match; simplify_eq; lia.
  - intros t' c' Ht' Hne Hc'.
    format_cases Hf; unfold count_of, entry_of, last_track in *; eval_tests_in Hc; eval_tests_in Hc';
      eval_tests_in Ht; eval_tests_in Ht'; cbn [andb] in Hc, Hc'; repeat case_match; simplify_eq; lia.
Qed.

Section bam_proofs.
Context {platform : Platform}.

(** ** Runs of the primitive steps on a loaded BAM *)

Lemma with_bam_with_bam b st b' st' v : with_bam b' st' (with_bam b st v) = with_bam b' st' v.
Proof. done. Qed.

Lemma get_bam_run v b i x : bam (bamc v) = Some b -> getb b i = Some x -> get_bam i v = Some (x, v).
Proof. intros Hb Hx. unfold get_bam, bindST. cbn. by rewrite Hb; cbn; rewrite Hx. Qed.

Lemma put_bam_run v b i x : bam (bamc v) = Some b -> 0 <= i < mlen b ->
  put_bam i x v = Some (tt, with_bam (<[Z.to_nat i := u8 x]> b) (bam_state (bamc v)) v).
Proof.
  intros Hb Hi. unfold put_bam, with_bam. cbn. rewrite Hb. cbn. by rewrite putb_eq.
Qed.

Lemma put_state_run v b i x : bam (bamc v) = Some b -> 0 <= i < mlen (bam_state (bamc v)) ->
  put_state i x v = Some (tt, with_bam b (<[Z.to_nat i := x]> (bam_state (bamc v))) v).
Proof.
  intros Hb Hi. unfold put_state, with_bam. cbn. rewrite putb_eq by done. cbn.
  unfold set_bam, set_bam_state, set_bamc. cbn. by rewrite Hb.
Qed.

Lemma read_block_loaded v b p : bam_ok v b -> 0 <= p < bam_bytes (image_format (geom v)) / 256 ->
  vdrive_bam_read_bam_block p v = Some (CBMDOS_IPE_OK, v).
Proof.
  intros Hok Hp. destruct (bo_loaded _ _ Hok p Hp) as (st & Hst & Hge).
  assert (p < VDRIVE_BAM_MAX_STATES) as Hlt.
  { apply getb_lt in Hst. rewrite (bo_state _ _ Hok) in Hst. lia. }
  unfold vdrive_bam_read_bam_block. change (Z.to_nat VDRIVE_BAM_MAX_STATES) with 33%nat.
  cbn [read_bam_block]. unfold VDRIVE_BAM_MAX_STATES in Hlt |- *.
  rewrite u32_small by lia. destruct (Z.leb_spec 33 p); [lia|].
  unfold get_state, bindST. cbn. rewrite Hst. cbn. destruct (Z.leb_spec 0 st); [done|lia].
Qed.

(** What a step may do to the BAM: every byte that changes is in a block that
    is marked as changed afterwards, and nothing else of the drive changes; nor
    does the byte of the DOS version. *)
Definition tracked (v : vdrive_t) (b : mem) (v' : vdrive_t) (b' : mem) : Prop :=
  exists st', v' = with_bam b' st' v /\ mlen b' = mlen b /\
    mlen st' = mlen (bam_state (bamc v)) /\
    (forall i, getb st' i = Some 1 \/ getb st' i = getb (bam_state (bamc v)) i) /\
    (forall j, getb b' j = getb b j \/ getb st' (j / 256) = Some 1) /\
    getb b' 2 = getb b 2.

Lemma tracked_refl v b : bam (bamc v) = Some b -> tracked v b v b.
Proof.
  intros Hb. exists (bam_state (bamc v)). split; [|split; [done|split; [done|split; [by intros; right|split; [by intros; left|done]]]]].
  destruct v as [????? [] ??????]. unfold with_bam, set_bamc, set_bam, set_bam_state. cbn in *. by subst.
Qed.

Lemma tracked_trans v b v1 b1 v2 b2 : tracked v b v1 b1 -> tracked v1 b1 v2 b2 -> tracked v b v2 b2.
Proof.
  intros (st1 & -> & Hb1 & Hl1 & Hs1 & Hc1 & Hv1) (st2 & -> & Hb2 & Hl2 & Hs2 & Hc2 & Hv2).
  exists st2. change (bam_state (bamc (with_bam b1 st1 v))) with st1 in *.
  split; [done|]. split; [congruence|]. split; [congruence|]. split; [|split; [|congruence]].
  - intros i. destruct (Hs2 i) as [? | ->]; [by left|apply Hs1].
  - intros j. destruct (Hc2 j) as [-> | ?]; [|by right]. destruct (Hc1 j) as [? | Hj]; [by left|].
    right. destruct (Hs2 (j / 256)) as [? | ->]; done.
Qed.

Lemma bam_ok_tracked v b v' b' : bam_ok v b -> tracked v b v' b' -> bytes_ok b' ->
  (forall i lo hi k, (i, lo, hi) ∈ bam_ranges (image_format (geom v)) -> k ∈ [4; 5] ->
     getb b' (i * 0x100 + k) = getb b (i * 0x100 + k)) ->
  bam_ok v' b'.
Proof.
  intros Hok (st' & -> & Hlb & Hl & Hs & _) Hbytes Hhdr. split; cbn.
  - apply Hok.
  - done.
  - apply Hok.
  - rewrite Hlb. apply Hok.
  - done.
  - intros i lo hi Hin. rewrite !(Hhdr i lo hi) by (done || set_solver). by apply (bo_ranges _ _ Hok).
  - rewrite Hl. apply Hok.
  - intros i Hi. destruct (Hs i) as [-> | ->]; [eexists; split; [done|lia]|]. by apply (bo_loaded _ _ Hok).
Qed.

Lemma bam_bytes_blocks f : f ∈ bam_formats -> bam_bytes f = 256 * (bam_bytes f / 256).
Proof. intros Hf. format_cases Hf; reflexivity. Qed.

Lemma block_of_byte f i : f ∈ bam_formats -> 0 <= i < bam_bytes f ->
  0 <= Z.shiftr i 8 < bam_bytes f / 256 /\ Z.shiftr i 8 = i / 256.
Proof.
  intros Hf Hi. rewrite Z.shiftr_div_pow2 by lia. change (2 ^ 8) with 256. split; [|done].
  pose proof (bam_bytes_blocks f Hf). split; [apply Z.div_pos; lia|].
  apply Z.div_lt_upper_bound; lia.
Qed.

Lemma block_state v b p : bam_ok v b -> 0 <= p < bam_bytes (image_format (geom v)) / 256 ->
  0 <= p < mlen (bam_state (bamc v)).
Proof. intros Hok Hp. destruct (bo_loaded _ _ Hok p Hp) as (st & Hst & _). by eapply getb_lt. Qed.

(** Marking a loaded block as changed. *)
Lemma mark_run v b p : bam_ok v b -> 0 <= p < bam_bytes (image_format (geom v)) / 256 ->
  exists v', put_state p 1 v = Some (tt, v') /\ tracked v b v' b /\ bam_ok v' b.
Proof.
  intros Hok Hp. pose proof (block_state _ _ _ Hok Hp) as Hp'.
  rewrite (put_state_run _ b) by (apply Hok || done). eexists. split; [done|].
  assert (tracked v b (with_bam b (<[Z.to_nat p := 1]> (bam_state (bamc v))) v) b) as Ht.
  { eexists. split; [reflexivity|]. split; [done|]. split; [unfold mlen; by rewrite length_insert|].
    split; [|split; [by intros; left|done]]. intros i. destruct (decide (i = p)) as [-> | Hne].
    - left. by apply getb_insert_same.
    - right. eapply getb_put_other; [by apply putb_eq|done]. }
  split; [done|]. eapply bam_ok_tracked; [done..|apply Hok|done].
Qed.

(** Changing a byte of the BAM that is not part of a block header, nor the DOS
    version, and marking its block. *)
Definition not_header (f i : Z) : Prop :=
  i <> 2 /\ forall j lo hi, (j, lo, hi) ∈ bam_ranges f -> i <> j * 0x100 + 4 /\ i <> j * 0x100 + 5.

Lemma insert_byte_ok (b : mem) i x : bytes_ok b -> bytes_ok (<[i := u8 x]> b).
Proof. intros Hb. apply Forall_insert; [done|]. apply Z.mod_pos_bound. lia. Qed.

Lemma store_run v b i x : bam_ok v b -> 0 <= i < bam_bytes (image_format (geom v)) ->
  not_header (image_format (geom v)) i ->
  exists v', (put_bam i x;; put_state (Z.shiftr i 8) 1) v = Some (tt, v') /\
    tracked v b v' (<[Z.to_nat i := u8 x]> b) /\ bam_ok v' (<[Z.to_nat i := u8 x]> b).
Proof.
  intros Hok Hi Hnh. destruct (block_of_byte _ i (bo_format _ _ Hok) Hi) as [Hp Hpe].
  pose proof (block_state _ _ _ Hok Hp) as Hp'. set (b' := <[Z.to_nat i := u8 x]> b).
  assert (mlen b' = mlen b) as Hlb by (unfold mlen, b'; by rewrite length_insert).
  unfold mbind, ST_bind, bindST. rewrite (put_bam_run _ b) by (apply Hok || rewrite (bo_len _ _ Hok); done).
  fold b'. rewrite (put_state_run _ b') by done. rewrite with_bam_with_bam.
  change (bam_state (bamc (with_bam b' _ v))) with (bam_state (bamc v)).
  eexists. split; [done|].
  assert (tracked v b (with_bam b' (<[Z.to_nat (Z.shiftr i 8) := 1]> (bam_state (bamc v))) v) b') as Ht.
  { eexists. split; [reflexivity|]. split; [done|]. split; [unfold mlen; by rewrite length_insert|].
    split; [|split].
    - intros j. destruct (decide (j = Z.shiftr i 8)) as [-> | Hne].
      + left. by apply getb_insert_same.
      + right. eapply getb_put_other; [by apply putb_eq|done].
    - intros j. destruct (decide (j = i)) as [-> | Hne].
      + right. rewrite Hpe. rewrite <- Hpe. by apply getb_insert_same.
      + left. eapply getb_put_other; [apply putb_eq; rewrite (bo_len _ _ Hok); done|done].
    - eapply getb_put_other; [apply putb_eq; rewrite (bo_len _ _ Hok); done|].
      destruct Hnh as [Hv _]. congruence. }
  split; [done|]. eapply bam_ok_tracked; [done..|by apply insert_byte_ok, Hok|].
  intros j lo hi k Hin Hk. eapply getb_put_other; [apply putb_eq; rewrite (bo_len _ _ Hok); done|].
  destruct Hnh as [_ Hnh]. specialize (Hnh j lo hi Hin). set_solver.
Qed.

(** ** The entry of a track *)

(** One step of the scan of the BAM blocks of the 8050 and the 8250. *)
Lemma scan_step v b i lo hi t : bam_ok v b -> (i, lo, hi) ∈ bam_ranges (image_format (geom v)) ->
  (let! sk := (let! t := get_track i in mret (t <=? 0)) in
   if sk then mret None
   else
     let! err := vdrive_bam_read_bam_block i in
     if negb (err =? 0) then mret (Some None)
     else
       let! lo := get_bam (i * 0x100 + 4) in
       let! hi := get_bam (i * 0x100 + 5) in
       if (lo <=? t) && (t <? hi) then
         let! e := mret (i * 0x100 + BAM_BIT_MAP_8050 + 5 * (t - lo)) in mret (Some (Some e))
       else mret None) v
  = Some (if (lo <=? t) && (t <? hi) then Some (Some (i * 0x100 + 6 + 5 * (t - lo))) else None, v).
Proof.
  intros Hok Hin. destruct (bo_ranges _ _ Hok i lo hi Hin) as (Hlo & Hhi & tr & Htr & Hpos).
  assert (0 <= i < bam_bytes (image_format (geom v)) / 256) as Hi.
  { pose proof (bo_format _ _ Hok) as Hf. revert Hin. format_cases Hf; unfold bam_ranges, bam_bytes;
      eval_tests; intros Hin; set_solver by lia. }
  unfold get_track, bindST at 1 2 3. cbn [state lift]. rewrite Htr. cbn [mret ST_ret].
  destruct (Z.leb_spec tr 0); [lia|]. unfold bindST at 1. rewrite (read_block_loaded _ b) by done.
  cbn [negb Z.eqb CBMDOS_IPE_OK]. unfold bindST at 1 2.
  rewrite (get_bam_run _ b _ lo), (get_bam_run _ b _ hi) by (apply Hok || done).
  by destruct ((lo <=? t) && (t <? hi)).
Qed.

Lemma track_entry_run v b t s : bam_ok v b -> 1 <= t <= last_track (image_format (geom v)) ->
  vdrive_bam_get_track_entry t s v = Some (Some (entry_of (image_format (geom v)) t), v).
Proof.
  intros Hok Ht. unfold vdrive_bam_get_track_entry, bindST at 1. cbn [state].
  destruct (Z.eqb_spec t 0); [lia|]. cbn [andb].
  pose proof (fun i lo hi => scan_step v b i lo hi t Hok) as Hscan.
  pose proof (bo_format _ _ Hok) as Hf. unfold entry_of.
  format_cases Hf; unfold last_track in Ht; eval_tests_in Ht; eval_tests;
    try (cbn [mret ST_ret]; unfold NUM_TRACKS_1541, NUM_TRACKS_1571, BAM_TRACK_1581, BAM_BIT_MAP,
      BAM_BIT_MAP_1581, BAM_BIT_MAP_NP, BAM_EXT_BIT_MAP_1541; change (70 / 2) with 35;
      do 3 f_equal; case_bool; lia);
    unfold scan_bam_blocks; cbn [for_]; unfold bindST at 1 2; unfold bam_ranges in Hscan; eval_tests_in Hscan.
  - (* 8050 *) rewrite (Hscan 1 1 51) by set_solver.
    destruct (Z.leb_spec 1 t); [|lia]. destruct (Z.ltb_spec t 51); cbn [andb]; [cbn; do 3 f_equal; lia|].
    unfold bindST at 1. rewrite (Hscan (1 + 1) 51 78) by set_solver.
    destruct (Z.leb_spec 51 t), (Z.ltb_spec t 78), (Z.ltb_spec t 101); try lia. cbn. do 3 f_equal; lia.
  - (* 8250 *) rewrite (Hscan 1 1 51) by set_solver.
    destruct (Z.leb_spec 1 t); [|lia]. destruct (Z.ltb_spec t 51); cbn [andb]; [cbn; do 3 f_equal; lia|].
    unfold bindST at 1. rewrite (Hscan (1 + 1) 51 101) by set_solver.
    destruct (Z.leb_spec 51 t); [|lia]. destruct (Z.ltb_spec t 101); cbn [andb]; [cbn; do 3 f_equal; lia|].
    unfold bindST at 1. rewrite (Hscan (1 + 1 + 1) 101 151) by set_solver.
    destruct (Z.leb_spec 101 t); [|lia]. destruct (Z.ltb_spec t 151); cbn [andb]; [cbn; do 3 f_equal; lia|].
    unfold bindST at 1. rewrite (Hscan (1 + 1 + 1 + 1) 151 155) by set_solver.
    destruct (Z.leb_spec 151 t), (Z.ltb_spec t 155); try lia. cbn. do 3 f_equal; lia.
Qed.

Lemma locate_run v b t s : bam_ok v b -> bam_addr (image_format (geom v)) t s ->
  locate t s v = Some ((Some (entry_of (image_format (geom v)) t),
                        bam_sector (image_format (geom v)) s), v).
Proof.
  intros Hok [Ht _]. unfold locate, format, bindST. cbn [gets].
  rewrite (track_entry_run _ b) by done. pose proof (bo_format _ _ Hok) as Hf. unfold bam_sector.
  format_cases Hf; reflexivity.
Qed.

(** ** Bits *)

Lemma bit_mask_eq s : bit_mask s = 2 ^ Z.land s 7.
Proof.
  unfold bit_mask. rewrite Z.shiftl_1_l. done.
Qed.

Lemma mask_test x s : (Z.land x (bit_mask s) =? 0) = negb (Z.testbit x (Z.land s 7)).
Proof.
  rewrite bit_mask_eq. assert (0 <= Z.land s 7) by (rewrite land7; apply Z.mod_pos_bound; lia).
  destruct (Z.testbit x (Z.land s 7)) eqn:Hb; cbn.
  - apply Z.eqb_neq. intros Hz. apply (f_equal (fun y => Z.testbit y (Z.land s 7))) in Hz.
    rewrite Z.land_spec, Z.pow2_bits_true, Hb, Z.bits_0 in Hz by done. discriminate.
  - apply Z.eqb_eq, Z.bits_inj'. intros k Hk. rewrite Z.land_spec, Z.bits_0, Z.pow2_bits_eqb by done.
    destruct (Z.eqb_spec (Z.land s 7) k) as [<-|]; [by rewrite Hb|by rewrite andb_false_r].
Qed.

(** The byte with the bit of a sector set to [val]. *)
Definition put_bit (val : bool) (x s : Z) : Z :=
  if val then Z.lor x (bit_mask s) else Z.ldiff x (bit_mask s).

Lemma put_bit_spec val x s k : 0 <= k ->
  Z.testbit (put_bit val x s) k = if k =? Z.land s 7 then val else Z.testbit x k.
Proof.
  intros Hk. assert (0 <= Z.land s 7) by (rewrite land7; apply Z.mod_pos_bound; lia).
  unfold put_bit. rewrite bit_mask_eq.
  destruct val; rewrite ?Z.lor_spec, ?Z.ldiff_spec, Z.pow2_bits_eqb, (Z.eqb_sym (Z.land s 7)) by done;
    destruct (k =? Z.land s 7); by rewrite ?orb_true_r, ?orb_false_r, ?andb_false_r, ?andb_true_r.
Qed.

Lemma byte_bits x : 0 <= x < 256 <-> 0 <= x /\ forall k, 8 <= k -> Z.testbit x k = false.
Proof.
  split.
  - intros Hx. split; [lia|]. intros k Hk. destruct (decide (x = 0)) as [->|]; [apply Z.bits_0|].
    apply Z.bits_above_log2; [lia|]. assert (Z.log2 x < 8) by (apply Z.log2_lt_pow2; lia). lia.
  - intros [Hx0 Hb]. split; [done|]. destruct (Z.lt_ge_cases x 256) as [?|Hge]; [done|].
    assert (8 <= Z.log2 x) by (change 8 with (Z.log2 256); by apply Z.log2_le_mono).
    specialize (Hb (Z.log2 x) ltac:(lia)). rewrite Z.bit_log2 in Hb by lia. discriminate.
Qed.

Lemma put_bit_byte val x s : 0 <= x < 256 -> u8 (put_bit val x s) = put_bit val x s.
Proof.
  intros Hx. apply Z.mod_small, byte_bits. apply byte_bits in Hx as [Hx0 Hb].
  assert (0 <= Z.land s 7 < 8) by (rewrite land7; apply Z.mod_pos_bound; lia).
  split.
  - unfold put_bit. assert (0 <= bit_mask s) by (rewrite bit_mask_eq; apply Z.pow_nonneg; lia).
    destruct val; [by apply Z.lor_nonneg|]. apply Z.ldiff_nonneg. by left.
  - intros k Hk. rewrite put_bit_spec by lia. destruct (Z.eqb_spec k (Z.land s 7)); [lia|by apply Hb].
Qed.

(** ** Allocation and release *)

Lemma slot_not_header f t s : f ∈ bam_formats -> bam_addr f t s -> not_header f (byte_of f t s).
Proof.
  intros Hf Ha. rewrite byte_of_eq by done. pose proof (addr_div _ _ _ Ha) as Hd. destruct Ha as [Ht _].
  split.
  { revert Hd Ht. format_cases Hf; unfold entry_of, map_bytes, last_track; eval_tests; intros Hd Ht;
      repeat case_bool; lia. }
  intros j lo hi Hin. revert Hin Hd Ht.
  format_cases Hf; unfold bam_ranges, entry_of, map_bytes, last_track; eval_tests; intros Hin Hd Ht;
    try (by apply not_elem_of_nil in Hin).
  all: repeat (apply elem_of_cons in Hin as [[= -> -> ->]|Hin]; [case_bool; lia|]);
    by apply not_elem_of_nil in Hin.
Qed.

Lemma count_not_header f t c : f ∈ bam_formats -> 1 <= t <= last_track f -> count_of f t = Some c ->
  not_header f c.
Proof.
  intros Hf Ht Hc. split.
  { revert Ht Hc. format_cases Hf; unfold count_of, entry_of, last_track; eval_tests; intros Ht; cbn;
      try case_bool; intros [= <-]; lia. }
  intros j lo hi Hin. revert Hin Ht Hc.
  format_cases Hf; unfold bam_ranges, count_of, entry_of, last_track; eval_tests; intros Hin Ht Hc;
    try (by apply not_elem_of_nil in Hin).
  all: repeat (apply elem_of_cons in Hin as [[= -> -> ->]|Hin];
         [revert Hc; cbn; case_bool; intros [= <-]; lia|]);
    by apply not_elem_of_nil in Hin.
Qed.

Lemma get_byte v b i : bam_ok v b -> 0 <= i < bam_bytes (image_format (geom v)) ->
  exists x, getb b i = Some x /\ 0 <= x < 256 /\ get_bam i v = Some (x, v).
Proof.
  intros Hok Hi. destruct (getb_is_Some b i) as [x Hx]; [rewrite (bo_len _ _ Hok); done|].
  exists x. split; [done|]. split; [|by apply (get_bam_run _ b); [apply Hok|]].
  apply getb_Some in Hx as [_ Hx]. exact (Forall_lookup_1 _ _ _ _ (bo_bytes _ _ Hok) Hx).
Qed.

(** The format is not changed by a step on the BAM. *)
Lemma tracked_geom v b v' b' : tracked v b v' b' -> geom v' = geom v.
Proof. by intros (st' & -> & _). Qed.

Lemma set_bit_run (val : bool) v b t s x : let f := image_format (geom v) in
  bam_ok v b -> bam_addr f t s -> getb b (byte_of f t s) = Some x ->
  let b' := <[Z.to_nat (byte_of f t s) := put_bit val x (bam_sector f s)]> b in
  exists v', (if val then vdrive_bam_set else vdrive_bam_clr) (entry_of f t) (bam_sector f s) v
      = Some (tt, v') /\ tracked v b v' b' /\ bam_ok v' b'.
Proof.
  intros f Hok Ha Hx b'. pose proof (bo_format _ _ Hok) as Hf.
  pose proof (byte_of_bounds f t s Hf Ha) as Hi.
  destruct (block_of_byte f _ Hf Hi) as [Hp _].
  destruct (get_byte v b (byte_of f t s) Hok Hi) as (y & Hy & Hyr & Hget).
  rewrite Hy in Hx. injection Hx as ->.
  destruct (store_run v b (byte_of f t s) (put_bit val x (bam_sector f s)) Hok Hi
    (slot_not_header f t s Hf Ha)) as (v' & Hrun & Htr & Hok').
  rewrite put_bit_byte in Htr, Hok' by done. exists v'. split; [|done].
  assert (forall g : Z -> ST vdrive_t unit, g x v = Some (tt, v') ->
    (vdrive_bam_read_bam_block (Z.shiftr (byte_of f t s) 8);;
     let! y := get_bam (byte_of f t s) in g y) v = Some (tt, v')) as Hg.
  { intros g Hgx. unfold mbind, ST_bind. unfold bindST at 1. rewrite (read_block_loaded _ b) by done.
    unfold bindST. by rewrite Hget. }
  destruct val; apply Hg; exact Hrun.
Qed.

Lemma count_run v b t c add : bam_ok v b ->
  1 <= t <= last_track (image_format (geom v)) -> count_of (image_format (geom v)) t = Some c ->
  exists v' x, getb b c = Some x /\
    (vdrive_bam_read_bam_block (Z.shiftr c 8);; add_bam c add;; put_state (Z.shiftr c 8) 1) v
      = Some (tt, v') /\
    tracked v b v' (<[Z.to_nat c := u8 (x + add)]> b) /\ bam_ok v' (<[Z.to_nat c := u8 (x + add)]> b).
Proof.
  intros Hok Ht Hc. pose proof (bo_format _ _ Hok) as Hf. destruct (count_apart _ t c Hf Ht Hc) as (Hcb & _ & _).
  destruct (get_byte v b c Hok Hcb) as (x & Hx & _ & Hget).
  destruct (store_run v b c (x + add) Hok Hcb (count_not_header _ t c Hf Ht Hc)) as (v' & Hrun & Htr & Hok').
  exists v', x. split; [done|]. split; [|done]. destruct (block_of_byte _ c Hf Hcb) as [Hp _].
  unfold add_bam. revert Hrun. unfold mbind, ST_bind, bindST. rewrite (read_block_loaded _ b) by done.
  by rewrite Hget.
Qed.

(** The order of the two stores does not matter. *)
Lemma mark_then_add v b c x add : bam_ok v b -> getb b c = Some x ->
  0 <= Z.shiftr c 8 < bam_bytes (image_format (geom v)) / 256 ->
  (put_state (Z.shiftr c 8) 1;; add_bam c add) v = (add_bam c add;; put_state (Z.shiftr c 8) 1) v.
Proof.
  intros Hok Hx Hp. pose proof (block_state _ _ _ Hok Hp) as Hp'. pose proof (getb_lt _ _ _ Hx) as Hlt.
  pose proof (bo_bam _ _ Hok) as Hb. unfold add_bam, mbind, ST_bind, bindST.
  rewrite (put_state_run _ b), (get_bam_run v b c x), (get_bam_run _ b c x), !(put_bam_run _ b) by done.
  by rewrite (put_state_run _ (<[Z.to_nat c := u8 (x + add)]> b)).
Qed.

Lemma sector_free_run v b t add : let f := image_format (geom v) in
  bam_ok v b -> 1 <= t <= last_track f ->
  exists v' b', vdrive_bam_sector_free (entry_of f t) t add v = Some (tt, v') /\
    tracked v b v' b' /\ bam_ok v' b' /\
    match count_of f t with
    | Some c => exists x, getb b c = Some x /\ b' = <[Z.to_nat c := u8 (x + add)]> b
    | None => b' = b
    end.
Proof.
  intros f Hok Ht. pose proof (bo_format _ _ Hok) as Hf.
  unfold vdrive_bam_sector_free, format. unfold bindST at 1. cbn [gets]. fold f.
  destruct (decide (f = VDRIVE_IMAGE_FORMAT_1571)) as [H71|Hn71].
  - pose proof (fun c => count_run v b t c add Hok Ht) as Hcount. fold f in Hcount. unfold count_of in *.
    rewrite H71 in *. unfold last_track in Ht. eval_tests_in Ht. eval_tests.
    assert (0 <= Z.shiftr (entry_of VDRIVE_IMAGE_FORMAT_1571 t) 8 < bam_bytes f / 256) as Hp.
    { rewrite H71. apply (block_of_byte VDRIVE_IMAGE_FORMAT_1571); [set_solver by lia|].
      unfold entry_of, bam_bytes. eval_tests. case_bool; lia. }
    unfold NUM_TRACKS_1571 at 1. change (70 / 2) with 35. unfold mbind, ST_bind. unfold bindST at 1.
    rewrite (read_block_loaded _ b) by done.
    destruct (Z.leb_spec t 35), (Z.ltb_spec 35 t); try lia; cbn [andb].
    + destruct (Hcount _ eq_refl) as (v' & x & Hx & Hrun & Htr & Hok').
      exists v', (<[Z.to_nat (entry_of VDRIVE_IMAGE_FORMAT_1571 t) := u8 (x + add)]> b).
      split; [|split; [done|split; [done|by exists x]]].
      revert Hrun. unfold mbind, ST_bind. unfold bindST at 1. rewrite (read_block_loaded _ b) by done.
      intros <-. exact (mark_then_add v b _ x add Hok Hx Hp).
    + destruct (mark_run v b _ Hok Hp) as (v1 & Hm & Htr1 & Hok1). unfold bindST at 1. rewrite Hm.
      assert (image_format (geom v1) = VDRIVE_IMAGE_FORMAT_1571) as Hf1
        by (rewrite (tracked_geom _ _ _ _ Htr1); exact H71).
      destruct (count_run v1 b t (221 + t - 36) add Hok1) as (v' & x & Hx & Hrun & Htr & Hok').
      { rewrite Hf1. done. }
      { rewrite Hf1. unfold count_of. eval_tests. destruct (Z.ltb_spec 35 t); [done|lia]. }
      exists v', (<[Z.to_nat (221 + t - 36) := u8 (x + add)]> b).
      split; [|split; [by eapply tracked_trans|split; [done|by exists x]]].
      unfold BAM_EXT_BIT_MAP_1571. change (NUM_TRACKS_1571 / 2) with 35.
      replace (221 + t - 35 - 1) with (221 + t - 36) by lia. exact Hrun.
  - destruct (count_of f t) as [c|] eqn:Hc.
    + destruct (count_run v b t c add Hok Ht Hc) as (v' & x & Hx & Hrun & Htr & Hok').
      exists v', (<[Z.to_nat c := u8 (x + add)]> b).
      split; [|split; [done|split; [done|by exists x]]].
      unfold count_of in Hc. fold f in Hf. format_cases Hf; eval_tests_in Hc; cbn [andb] in Hc;
        simplify_eq; eval_tests; try exact Hrun.
    + exists v, b. unfold count_of in Hc. fold f in Hf.
      split; [|split; [apply tracked_refl, Hok|done]].
      format_cases Hf; eval_tests_in Hc; cbn [andb] in Hc; try discriminate; [done|].
      by eval_tests.
Qed.

(** ** Specification: the BAM as the set of free sectors *)

Definition addresses (f : Z) : list (Z * Z) :=
  t ← seqZ 1 (last_track f); s ← seqZ 0 (8 * map_bytes f); [(t, s)].

Definition free_set (f : Z) (b : mem) : gset (Z * Z) :=
  list_to_set (filter (fun a => free_bit f b a.1 a.2 = true) (addresses f)).

Lemma elem_of_addresses f t s : (t, s) ∈ addresses f <-> bam_addr f t s.
Proof.
  unfold addresses, bam_addr. rewrite list_elem_of_bind. split.
  - intros (t' & Hin & Ht). apply list_elem_of_bind in Hin as (s' & Hin & Hs).
    apply elem_of_seqZ in Ht, Hs. set_solver by lia.
  - intros [Ht Hs]. exists t. split; [|apply elem_of_seqZ; lia].
    apply list_elem_of_bind. exists s. split; [set_solver|apply elem_of_seqZ; lia].
Qed.

Lemma elem_of_free_set f b t s :
  (t, s) ∈ free_set f b <-> bam_addr f t s /\ free_bit f b t s = true.
Proof.
  unfold free_set. rewrite elem_of_list_to_set, list_elem_of_filter, elem_of_addresses. cbn. tauto.
Qed.

(** What allocating ([val] false) or releasing ([val] true) a sector does to the
    map: the bit of the sector and the count of its track change, nothing else. *)
Record bit_changed (f : Z) (b : mem) (t s : Z) (val : bool) (add : Z) (b' : mem) : Prop := {
  bc_bit : free_bit f b' t s = val;
  bc_other : forall t' s', bam_addr f t' s' -> (t', s') <> (t, s) ->
    free_bit f b' t' s' = free_bit f b t' s';
  bc_byte : exists x, getb b (byte_of f t s) = Some x /\
    getb b' (byte_of f t s) = Some (put_bit val x (bam_sector f s));
  bc_count : forall c, count_of f t = Some c ->
    exists x, getb b c = Some x /\ getb b' c = Some (u8 (x + add));
  bc_count_other : forall t' c, 1 <= t' <= last_track f -> t' <> t -> count_of f t' = Some c ->
    getb b' c = getb b c;
  bc_rest : forall i, i <> byte_of f t s -> count_of f t <> Some i -> getb b' i = getb b i
}.

Lemma bit_changed_intro f b t s val x add b1 b' :
  f ∈ bam_formats -> mlen b = bam_bytes f -> bam_addr f t s -> getb b (byte_of f t s) = Some x ->
  b1 = <[Z.to_nat (byte_of f t s) := put_bit val x (bam_sector f s)]> b ->
  match count_of f t with
  | Some c => exists x, getb b1 c = Some x /\ b' = <[Z.to_nat c := u8 (x + add)]> b1
  | None => b' = b1
  end -> bit_changed f b t s val add b'.
Proof.
  intros Hf Hlen Ha Hx Hb1 Hb'. pose proof (byte_of_bounds f t s Hf Ha) as Hi.
  pose proof (bit_of_range f t s Ha) as Hbit.
  assert (mlen b1 = mlen b) as Hl1 by (subst b1; unfold mlen; by rewrite length_insert).
  assert (getb b1 (byte_of f t s) = Some (put_bit val x (bam_sector f s))) as Hnew
    by (subst b1; apply getb_insert_same; lia).
  assert (forall i, i <> byte_of f t s -> getb b1 i = getb b i) as Hold.
  { intros i Hne. subst b1. eapply getb_put_other; [apply putb_eq; lia|done]. }
  assert (forall i, count_of f t <> Some i -> getb b' i = getb b1 i) as Hrest.
  { intros i Hne. destruct (count_of f t) as [c|] eqn:Hc; [|by subst].
    destruct Hb' as (y & Hy & ->). eapply getb_put_other; [apply putb_eq; by eapply getb_lt|congruence]. }
  assert (forall t' s', bam_addr f t' s' -> count_of f t <> Some (byte_of f t' s')) as Hncount.
  { intros t' s' Ha' Hc. destruct (count_apart f t _ Hf (proj1 Ha) Hc) as (_ & Hap & _).
    by apply (Hap t' s'). }
  split.
  - unfold free_bit. rewrite Hrest by (by apply Hncount). rewrite Hnew. cbn.
    rewrite put_bit_spec by lia. fold (bit_of f s). by rewrite Z.eqb_refl.
  - intros t' s' Ha' Hne. unfold free_bit. rewrite Hrest by (by apply Hncount).
    destruct (decide (byte_of f t' s' = byte_of f t s)) as [Heq|Hbne]; [|by rewrite Hold].
    rewrite Heq, Hnew, Hx. cbn. pose proof (bit_of_range f t' s' Ha').
    rewrite put_bit_spec by lia. fold (bit_of f s).
    destruct (Z.eqb_spec (bit_of f s') (bit_of f s)) as [Hb|]; [|done].
    exfalso. apply Hne. destruct (slot_inj f t' s' t s Hf Ha' Ha Heq Hb). congruence.
  - exists x. split; [done|]. by rewrite Hrest by (by apply Hncount).
  - intros c Hc. rewrite Hc in Hb'. destruct Hb' as (y & Hy & ->). exists y.
    assert (c <> byte_of f t s) by (intros ->; by apply (Hncount t s)).
    split; [by rewrite <- Hold|]. apply getb_insert_same. by eapply getb_lt.
  - intros t' c Ht' Hne Hc. destruct (count_apart f t' c Hf Ht' Hc) as (_ & Hap & Hapc).
    rewrite Hrest, Hold; [done| |].
    + intros ->. by apply (Hap t s).
    + intros Hc'. apply (Hapc t c) in Hc'; [done|apply Ha|done].
  - intros i Hne Hnc. rewrite Hrest by done. by apply Hold.
Qed.

Lemma bit_changed_alloc f b t s add b' : bam_addr f t s -> bit_changed f b t s false add b' ->
  free_set f b' = free_set f b ∖ {[(t, s)]}.
Proof.
  intros Ha [Hb Ho _ _ _ _]. apply set_eq. intros [t' s'].
  rewrite elem_of_difference, elem_of_singleton, !elem_of_free_set.
  destruct (decide ((t', s') = (t, s))) as [[= -> ->]|Hne]; [naive_solver congruence|].
  split; intros; destruct_and?; rewrite (Ho t' s') in * by done; done.
Qed.

Lemma bit_changed_free f b t s add b' : bam_addr f t s -> bit_changed f b t s true add b' ->
  free_set f b' = free_set f b ∪ {[(t, s)]}.
Proof.
  intros Ha [Hb Ho _ _ _ _]. apply set_eq. intros [t' s'].
  rewrite elem_of_union, elem_of_singleton, !elem_of_free_set.
  destruct (decide ((t', s') = (t, s))) as [[= -> ->]|Hne]; [naive_solver congruence|].
  split.
  - intros [? ?]. left. by rewrite <- (Ho t' s').
  - intros [[? ?]|[= -> ->]]; [by rewrite (Ho t' s')|done].
Qed.

Lemma isset_run v b t s : let f := image_format (geom v) in bam_ok v b -> bam_addr f t s ->
  exists x, getb b (byte_of f t s) = Some x /\
    vdrive_bam_isset (entry_of f t) (bam_sector f s) v = Some (Z.land x (bit_mask (bam_sector f s)), v) /\
    (Z.land x (bit_mask (bam_sector f s)) =? 0) = negb (free_bit f b t s).
Proof.
  intros f Hok Ha. pose proof (bo_format _ _ Hok) as Hf. pose proof (byte_of_bounds f t s Hf Ha) as Hi.
  destruct (get_byte v b _ Hok Hi) as (x & Hx & _ & Hget). destruct (block_of_byte f _ Hf Hi) as [Hp _].
  exists x. split; [done|]. split.
  - unfold vdrive_bam_isset, mbind, ST_bind, bindST.
    change (bit_byte (entry_of f t) (bam_sector f s)) with (byte_of f t s).
    by rewrite (read_block_loaded _ b), Hget by done.
  - rewrite mask_test. unfold free_bit. by rewrite Hx.
Qed.

Lemma beyond_1571_addr v t s : bam_addr (image_format (geom v)) t s -> beyond_1571 v t = false.
Proof.
  intros [Ht _]. unfold beyond_1571. destruct (Z.eqb_spec (image_format (geom v)) VDRIVE_IMAGE_FORMAT_1571)
    as [Hf|]; [|apply andb_false_r]. rewrite Hf in Ht. unfold last_track in Ht. eval_tests_in Ht.
  unfold NUM_TRACKS_1571. destruct (Z.ltb_spec 70 t); [lia|done].
Qed.

(** The part common to allocation and release. *)
Lemma change_run (val : bool) v b t s add : let f := image_format (geom v) in
  bam_ok v b -> bam_addr f t s ->
  exists v' b',
    ((if val then vdrive_bam_set else vdrive_bam_clr) (entry_of f t) (bam_sector f s);;
     vdrive_bam_sector_free (entry_of f t) t add;; mret 1) v = Some (1, v') /\
    bam_ok v' b' /\ tracked v b v' b' /\ bit_changed f b t s val add b'.
Proof.
  intros f Hok Ha. pose proof (bo_format _ _ Hok) as Hf. pose proof (byte_of_bounds f t s Hf Ha) as Hi.
  destruct (get_byte v b _ Hok Hi) as (x & Hx & _ & _).
  destruct (set_bit_run val v b t s x Hok Ha Hx) as (v1 & Hrun1 & Htr1 & Hok1).
  assert (image_format (geom v1) = f) as Hf1 by (by rewrite (tracked_geom _ _ _ _ Htr1)).
  destruct (sector_free_run v1 _ t add Hok1) as (v' & b' & Hrun2 & Htr2 & Hok2 & Hb').
  { rewrite Hf1. apply Ha. }
  rewrite Hf1 in *. exists v', b'. split; [|split; [done|split; [by eapply tracked_trans|]]].
  - unfold mbind, ST_bind, bindST, f. rewrite Hrun1. fold f. by rewrite Hrun2.
  - eapply bit_changed_intro; [done|apply Hok|done..].
Qed.

Lemma allocate_run v b t s : let f := image_format (geom v) in bam_ok v b -> bam_addr f t s ->
  exists v' b', vdrive_bam_allocate_sector t s v = Some (b2z (free_bit f b t s), v') /\
    bam_ok v' b' /\ tracked v b v' b' /\ free_set f b' = free_set f b ∖ {[(t, s)]} /\
    (free_bit f b t s = true -> bit_changed f b t s false (-1) b') /\
    (free_bit f b t s = false -> v' = v /\ b' = b).
Proof.
  intros f Hok Ha. unfold vdrive_bam_allocate_sector. unfold bindST at 1. cbn [state].
  rewrite (beyond_1571_addr v t s) by done. unfold bindST at 1. rewrite (locate_run _ b) by done. fold f.
  destruct (isset_run v b t s Hok Ha) as (x & Hx & Hrun & Htest). fold f in Hrun, Htest, Hx.
  unfold bindST at 1. rewrite Hrun, Htest, negb_involutive. destruct (free_bit f b t s) eqn:Hfree.
  - destruct (change_run false v b t s (-1) Hok Ha) as (v' & b' & Hc & Hok' & Htr & Hch).
    exists v', b'. split; [exact Hc|]. split_and!; try done. by eapply bit_changed_alloc.
  - exists v, b. split; [done|]. split; [done|]. split; [apply tracked_refl, Hok|]. split; [|done].
    apply set_eq. intros [t' s']. rewrite elem_of_difference, elem_of_singleton, elem_of_free_set.
    naive_solver congruence.
Qed.

Lemma free_run v b t s : let f := image_format (geom v) in bam_ok v b -> bam_addr f t s ->
  exists v' b', vdrive_bam_free_sector t s v = Some (b2z (negb (free_bit f b t s)), v') /\
    bam_ok v' b' /\ tracked v b v' b' /\ free_set f b' = free_set f b ∪ {[(t, s)]} /\
    (free_bit f b t s = false -> bit_changed f b t s true 1 b') /\
    (free_bit f b t s = true -> v' = v /\ b' = b).
Proof.
  intros f Hok Ha. unfold vdrive_bam_free_sector. unfold bindST at 1. cbn [state].
  rewrite (beyond_1571_addr v t s) by done. unfold bindST at 1. rewrite (locate_run _ b) by done. fold f.
  destruct (isset_run v b t s Hok Ha) as (x & Hx & Hrun & Htest). fold f in Hrun, Htest, Hx.
  unfold bindST at 1. rewrite Hrun, Htest. destruct (free_bit f b t s) eqn:Hfree; cbn [negb].
  - exists v, b. split; [done|]. split; [done|]. split; [apply tracked_refl, Hok|]. split; [|done].
    apply set_eq. intros [t' s']. rewrite elem_of_union, elem_of_singleton, elem_of_free_set.
    naive_solver congruence.
  - destruct (change_run true v b t s 1 Hok Ha) as (v' & b' & Hc & Hok' & Htr & Hch).
    exists v', b'. split; [exact Hc|]. split_and!; try done. by eapply bit_changed_free.
Qed.

Lemma is_allocated_run v b t s : let f := image_format (geom v) in bam_ok v b -> bam_addr f t s ->
  vdrive_bam_is_sector_allocated t s v = Some (b2z (negb (free_bit f b t s)), v).
Proof.
  intros f Hok Ha. unfold vdrive_bam_is_sector_allocated. unfold bindST at 1. cbn [state].
  rewrite (beyond_1571_addr v t s) by done. unfold bindST at 1. rewrite (locate_run _ b) by done. fold f.
  destruct (isset_run v b t s Hok Ha) as (x & Hx & Hrun & Htest). fold f in Hrun, Htest.
  unfold bindST. rewrite Hrun. cbn. rewrite Htest. by destruct (free_bit f b t s).
Qed.

(** ** Counts *)

(** The number of free sectors of a track. *)
Definition free_in_track (f : Z) (b : mem) (t : Z) : Z :=
  Z.of_nat (length (filter (fun s => free_bit f b t s = true) (seqZ 0 (8 * map_bytes f)))).

(** The count of every track is the number of its free sectors. *)
Definition counts_ok (f : Z) (b : mem) : Prop :=
  forall t c, 1 <= t <= last_track f -> count_of f t = Some c -> getb b c = Some (free_in_track f b t).

Lemma filter_length_ext (P Q : Z -> bool) l : (forall s, s ∈ l -> P s = Q s) ->
  length (filter (fun s => P s = true) l) = length (filter (fun s => Q s = true) l).
Proof.
  induction l as [|x l IH]; intros Hext; [done|]. rewrite !filter_cons.
  pose proof (Hext x ltac:(set_solver)) as ->.
  assert (length (filter (fun s => P s = true) l) = length (filter (fun s => Q s = true) l)) as Hl
    by (apply IH; set_solver).
  case_decide; cbn; lia.
Qed.

Lemma filter_length_change (P Q : Z -> bool) l x : NoDup l -> x ∈ l ->
  P x = true -> Q x = false -> (forall s, s ∈ l -> s <> x -> P s = Q s) ->
  length (filter (fun s => P s = true) l) = S (length (filter (fun s => Q s = true) l)).
Proof.
  intros Hnd. induction Hnd as [|y l Hy Hnd IH]; intros Hx HP HQ Hext; [by apply not_elem_of_nil in Hx|].
  rewrite !filter_cons. destruct (decide (x = y)) as [->|Hne].
  - rewrite HP, HQ, decide_True, decide_False by done. cbn. f_equal.
    apply filter_length_ext. intros s Hs. apply Hext; set_solver.
  - rewrite (Hext y) by set_solver.
    assert (length (filter (fun s => P s = true) l) = S (length (filter (fun s => Q s = true) l))) as Hl
      by (apply IH; set_solver).
    case_decide; cbn; lia.
Qed.

Lemma free_in_track_bounds f b t : f ∈ bam_formats -> 0 <= free_in_track f b t <= 256.
Proof.
  intros Hf. unfold free_in_track.
  pose proof (length_filter (fun s => free_bit f b t s = true) (seqZ 0 (8 * map_bytes f))) as Hle.
  rewrite length_seqZ in Hle. split; [lia|].
  assert (8 * map_bytes f <= 256) by (format_cases Hf; vm_compute; congruence). lia.
Qed.

Lemma count_track_small f t c b : f ∈ bam_formats -> count_of f t = Some c -> free_in_track f b t <= 40.
Proof.
  intros Hf Hc. unfold free_in_track.
  pose proof (length_filter (fun s => free_bit f b t s = true) (seqZ 0 (8 * map_bytes f))) as Hle.
  rewrite length_seqZ in Hle.
  assert (8 * map_bytes f <= 40); [|lia].
  unfold count_of in Hc. format_cases Hf; eval_tests_in Hc; try discriminate; vm_compute; congruence.
Qed.

(** The count of every track differs from the number of its free sectors by the fixed
    number [d t], modulo 256. *)
Definition drift (d : Z -> Z) (f : Z) (b : mem) : Prop :=
  forall t c, 1 <= t <= last_track f -> count_of f t = Some c ->
    getb b c = Some ((free_in_track f b t + d t) mod 256).

Lemma counts_drift f b : f ∈ bam_formats -> counts_ok f b <-> drift (fun _ => 0) f b.
Proof.
  intros Hf. split; intros H t c Ht Hc; rewrite (H t c Ht Hc), Z.add_0_r;
    pose proof (count_track_small f t c b Hf Hc); pose proof (free_in_track_bounds f b t Hf); by rewrite Z.mod_small by lia.
Qed.

Lemma bit_changed_drift d f b t s val add b' : f ∈ bam_formats -> bam_addr f t s ->
  free_bit f b t s = negb val -> add = (if val : bool then 1 else -1) ->
  bit_changed f b t s val add b' -> drift d f b -> drift d f b'.
Proof.
  intros Hf Ha Hold -> [Hb Ho _ Hc Hco _] Hok t' c Ht' Hcount.
  assert (s ∈ seqZ 0 (8 * map_bytes f)) as Hs by (apply elem_of_seqZ; destruct Ha; lia).
  destruct (decide (t' = t)) as [->|Hne].
  - destruct (Hc c Hcount) as (x & Hx & Hx'). rewrite (Hok t c) in Hx by done. injection Hx as <-.
    rewrite Hx'. f_equal. unfold u8. rewrite Zplus_mod_idemp_l. f_equal.
    assert (forall s0, s0 ∈ seqZ 0 (8 * map_bytes f) -> s0 <> s -> free_bit f b' t s0 = free_bit f b t s0) as Hext.
    { intros s0 Hs0%elem_of_seqZ Hne. apply Ho; [split; [apply Ha|lia]|congruence]. }
    unfold free_in_track. destruct val; cbn in Hold.
    + rewrite (filter_length_change (free_bit f b' t) (free_bit f b t) _ s) by (done || apply NoDup_seqZ). lia.
    + rewrite (filter_length_change (free_bit f b t) (free_bit f b' t) _ s)
        by (done || apply NoDup_seqZ || (intros; symmetry; by apply Hext)). lia.
  - rewrite (Hco t' c), (Hok t' c) by done. do 3 f_equal. unfold free_in_track. f_equal.
    apply (filter_length_ext (free_bit f b t') (free_bit f b' t')). intros s0 Hs0%elem_of_seqZ. symmetry.
    apply Ho; [split; [done|lia]|congruence].
Qed.

(** ** The whole BAM *)

Lemma bam_format_has f : f ∈ bam_formats -> has_bam f = true.
Proof. intros Hf. by format_cases Hf. Qed.

Lemma for_none {R} n lo (body : Z -> ST vdrive_t (option R)) v :
  (forall i, lo <= i < lo + Z.of_nat n -> body i v = Some (None, v)) ->
  for_ n lo body v = Some (None, v).
Proof.
  revert lo. induction n as [|n IH]; intros lo Hb; [done|]. cbn [for_]. unfold bindST.
  rewrite Hb by lia. apply IH. intros i Hi. apply Hb. lia.
Qed.

Lemma read_bam_loaded v b : bam_ok v b -> vdrive_bam_read_bam v = Some (CBMDOS_IPE_OK, v).
Proof.
  intros Hok. pose proof (bo_format _ _ Hok) as Hf. unfold vdrive_bam_read_bam.
  unfold bindST at 1. cbn [state]. rewrite (bam_format_has _ Hf). rewrite (bo_size _ _ Hok).
  unfold bindST at 1 2. rewrite for_none.
  - cbn. format_cases Hf; reflexivity.
  - intros i Hi. unfold bindST. rewrite (read_block_loaded _ b); [done|done|].
    rewrite Z.shiftr_div_pow2 in Hi by lia. change (2 ^ 8) with 256 in Hi.
    pose proof (bam_bytes_blocks _ Hf). assert (0 < bam_bytes (image_format (geom v))) by (by format_cases Hf).
    split; lia.
Qed.

Lemma sum_for_run n lo (body : Z -> ST vdrive_t Z) (x : Z -> Z) v :
  (forall i, lo <= i < lo + Z.of_nat n -> body i v = Some (x i, v) /\ 0 <= x i <= 256) ->
  Z.of_nat n <= 255 ->
  sum_for n lo 1 body v = Some (foldr Z.add 0 (x <$> seqZ lo (Z.of_nat n)), v) /\
  0 <= foldr Z.add 0 (x <$> seqZ lo (Z.of_nat n)) <= 256 * Z.of_nat n.
Proof.
  revert lo. induction n as [|n IH]; intros lo Hb Hn; [done|]. cbn [sum_for].
  destruct (Hb lo ltac:(lia)) as [Hlo Hx].
  destruct (IH (lo + 1)) as [Hrun Hs]; [intros i Hi; apply Hb; lia|lia|].
  rewrite (seqZ_cons lo) by lia. rewrite fmap_cons. cbn [foldr].
  replace (Z.succ lo) with (lo + 1) by lia. replace (Z.pred (Z.of_nat (S n))) with (Z.of_nat n) by lia.
  unfold bindST. rewrite Hlo, Hrun. cbn. rewrite u32_small by lia. split; [done|lia].
Qed.

(** The tracks the free count leaves out. *)
Definition reserved_track (g : geom_t) (t : Z) : bool :=
  (t =? Dir_Track g) || ((image_format g =? VDRIVE_IMAGE_FORMAT_1571) && (t =? Dir_Track g + 35)).

(** What is counted for a track. *)
Definition track_total (d : Z -> Z) (g : geom_t) (b : mem) (t : Z) : Z :=
  if reserved_track g t then 0 else (free_in_track (image_format g) b t + d t) mod 256.

Lemma count_track_run d v b t : bam_ok v b -> drift d (image_format (geom v)) b ->
  image_format (geom v) <> VDRIVE_IMAGE_FORMAT_NP -> 1 <= t <= last_track (image_format (geom v)) ->
  count_track t v = Some (track_total d (geom v) b t, v).
Proof.
  intros Hok Hcounts Hnp Ht. pose proof (bo_format _ _ Hok) as Hf.
  assert (exists c, count_of (image_format (geom v)) t = Some c) as [c Hc]
    by (unfold count_of; destruct (Z.eqb_spec (image_format (geom v)) VDRIVE_IMAGE_FORMAT_NP); [done|];
        case_match; eauto).
  pose proof (Hcounts t c Ht Hc) as Hx.
  assert (count_of (image_format (geom v)) t = Some (entry_of (image_format (geom v)) t) ->
    count_entry t 0 v = Some ((free_in_track (image_format (geom v)) b t + d t) mod 256, v)) as Hentry.
  { intros Hce. rewrite Hce in Hc. injection Hc as <-. unfold count_entry, bindST.
    rewrite (track_entry_run _ b) by done. by rewrite (get_bam_run _ b _ _ (bo_bam _ _ Hok) Hx). }
  pose proof (get_bam_run _ b _ _ (bo_bam _ _ Hok) Hx) as Hget.
  unfold count_track, track_total, reserved_track. unfold bindST at 1. cbn [state].
  unfold count_of in Hentry, Hc. revert Hentry Hc Hget Hnp.
  generalize ((free_in_track (image_format (geom v)) b t + d t) mod 256). intros n.
  format_cases Hf; eval_tests; intros Hentry Hc Hget Hnp; rewrite ?orb_false_r;
    try (destruct (t =? Dir_Track (geom v)); [done|exact (Hentry eq_refl)]); [|done].
  destruct ((t =? Dir_Track (geom v)) || (t =? Dir_Track (geom v) + 35)); [done|].
  change (NUM_TRACKS_1571 / 2) with 35. unfold BAM_EXT_BIT_MAP_1571.
  destruct (Z.leb_spec t 35), (Z.ltb_spec 35 t); try lia.
  - exact (Hentry eq_refl).
  - injection Hc as <-. replace (221 + t - 35 - 1) with (221 + t - 36) by lia. exact Hget.
Qed.

Lemma mem_ext (b b' : mem) : mlen b = mlen b' -> (forall i, getb b i = getb b' i) -> b = b'.
Proof.
  intros Hl Hext. apply list_eq. intros i. specialize (Hext (Z.of_nat i)). unfold getb in Hext.
  rewrite (proj2 (Z.leb_le _ _)) in Hext by lia. by rewrite Nat2Z.id in Hext.
Qed.

(** ** Specification: sequences of operations on a set *)

Inductive bam_op :=
  | Allocate (t s : Z)
  | Release (t s : Z).

Definition op_address (op : bam_op) : Z * Z :=
  match op with Allocate t s => (t, s) | Release t s => (t, s) end.

(** The operations of the program. *)
Definition run_op (op : bam_op) : ST vdrive_t Z :=
  match op with
  | Allocate t s => vdrive_bam_allocate_sector t s
  | Release t s => vdrive_bam_free_sector t s
  end.

Fixpoint run_ops (ops : list bam_op) : ST vdrive_t (list Z) :=
  match ops with
  | [] => mret []
  | op :: ops => let! r := run_op op in let! rs := run_ops ops in mret (r :: rs)
  end.

(** The same operations on a set of free sectors. *)
Definition spec_op (op : bam_op) (free : gset (Z * Z)) : Z * gset (Z * Z) :=
  match op with
  | Allocate t s => (b2z (bool_decide ((t, s) ∈ free)), free ∖ {[(t, s)]})
  | Release t s => (b2z (bool_decide ((t, s) ∉ free)), free ∪ {[(t, s)]})
  end.

Fixpoint spec_ops (ops : list bam_op) (free : gset (Z * Z)) : list Z * gset (Z * Z) :=
  match ops with
  | [] => ([], free)
  | op :: ops =>
      let '(r, free) := spec_op op free in
      let '(rs, free) := spec_ops ops free in (r :: rs, free)
  end.

Definition in_bam (v : vdrive_t) (op : bam_op) : Prop :=
  bam_addr (image_format (geom v)) (op_address op).1 (op_address op).2.

Lemma free_bit_set f b t s : bam_addr f t s -> free_bit f b t s = bool_decide ((t, s) ∈ free_set f b).
Proof.
  intros Ha. destruct (free_bit f b t s) eqn:Hfb; symmetry.
  - apply bool_decide_eq_true_2. by apply elem_of_free_set.
  - apply bool_decide_eq_false_2. rewrite elem_of_free_set. naive_solver congruence.
Qed.

Lemma put_bit_restore x s : Z.testbit x (Z.land s 7) = true -> 0 <= x ->
  put_bit true (put_bit false x s) s = x.
Proof.
  intros Hb Hx. apply Z.bits_inj'. intros k Hk. rewrite !put_bit_spec by done.
  by destruct (Z.eqb_spec k (Z.land s 7)) as [->|].
Qed.

(** Allocating and releasing restores every byte. *)
Lemma restored f b b1 b2 t s : f ∈ bam_formats -> mlen b = bam_bytes f -> bytes_ok b -> bam_addr f t s ->
  free_bit f b t s = true -> mlen b2 = bam_bytes f ->
  bit_changed f b t s false (-1) b1 -> bit_changed f b1 t s true 1 b2 -> b2 = b.
Proof.
  intros Hf Hl Hbytes Ha Hfree Hl2 [_ _ (x & Hx & Hx1) Hc1 _ Hr1] [_ _ (x1 & Hx1' & Hx2) Hc2 _ Hr2].
  apply mem_ext; [congruence|]. intros i.
  destruct (decide (i = byte_of f t s)) as [->|Hne].
  - rewrite Hx2, Hx. rewrite Hx1 in Hx1'. injection Hx1' as <-. f_equal.
    apply put_bit_restore.
    + unfold free_bit in Hfree. by rewrite Hx in Hfree.
    + apply getb_Some in Hx as [_ Hx]. apply (Forall_lookup_1 _ _ _ _ Hbytes Hx).
  - destruct (decide (count_of f t = Some i)) as [Hc|Hnc]; [|by rewrite Hr2, Hr1].
    destruct (Hc1 i Hc) as (y & Hy & Hy1), (Hc2 i Hc) as (y1 & Hy1' & ->). rewrite Hy1 in Hy1'.
    injection Hy1' as <-. rewrite Hy. f_equal.
    apply getb_Some in Hy as [_ Hy]. pose proof (Forall_lookup_1 _ _ _ _ Hbytes Hy) as Hyr. cbn in Hyr.
    unfold u8. rewrite Zplus_mod_idemp_l. replace (y + -1 + 1) with y by lia. by rewrite Z.mod_small.
Qed.

(** The invariant of a mounted BAM: loaded, and with correct counts. *)
Definition bam_inv (v : vdrive_t) (b : mem) : Prop :=
  bam_ok v b /\ counts_ok (image_format (geom v)) b.

Lemma op_run v b op : let f := image_format (geom v) in
  bam_ok v b -> in_bam v op ->
  exists v' b', run_op op v = Some ((spec_op op (free_set f b)).1, v') /\
    bam_ok v' b' /\ tracked v b v' b' /\ free_set f b' = (spec_op op (free_set f b)).2 /\
    (forall d, drift d f b -> drift d f b').
Proof.
  intros f Hok Hin. pose proof (bo_format _ _ Hok) as Hf. destruct op as [t s|t s]; cbn in Hin |- *.
  - destruct (allocate_run v b t s Hok Hin) as (v' & b' & Hrun & Hok' & Htr & Hset & Hch & Hno).
    exists v', b'. split; [by rewrite <- free_bit_set|]. split_and!; try done.
    intros d Hc. destruct (free_bit f b t s) eqn:Hfb.
    + eapply (bit_changed_drift d f b t s false); [done|done|done|done|by apply Hch|done].
    + destruct (Hno Hfb) as [_ ->]. done.
  - destruct (free_run v b t s Hok Hin) as (v' & b' & Hrun & Hok' & Htr & Hset & Hch & Hno).
    exists v', b'. split; [rewrite bool_decide_not, <- free_bit_set by done; exact Hrun|].
    split_and!; try done.
    intros d Hc. destruct (free_bit f b t s) eqn:Hfb.
    + destruct (Hno Hfb) as [_ ->]. done.
    + eapply (bit_changed_drift d f b t s true); [done|done|done|done|by apply Hch|done].
Qed.

Lemma ops_run ops v b : let f := image_format (geom v) in
  bam_ok v b -> Forall (in_bam v) ops ->
  exists v' b', run_ops ops v = Some ((spec_ops ops (free_set f b)).1, v') /\
    bam_ok v' b' /\ tracked v b v' b' /\ free_set f b' = (spec_ops ops (free_set f b)).2 /\
    (forall d, drift d f b -> drift d f b').
Proof.
  revert v b. induction ops as [|op ops IH]; intros v b f Hok Hin.
  { exists v, b. split_and!; try done. apply tracked_refl, Hok. }
  apply Forall_cons in Hin as [Hop Hin].
  destruct (op_run v b op Hok Hop) as (v1 & b1 & Hrun1 & Hok1 & Htr1 & Hset1 & Hc1). fold f in Hset1, Hrun1, Hc1.
  assert (image_format (geom v1) = f) as Hf1 by (by rewrite (tracked_geom _ _ _ _ Htr1)).
  destruct (IH v1 b1 Hok1) as (v' & b' & Hrun & Hok' & Htr & Hset & Hc).
  { eapply Forall_impl; [done|]. intros op'. unfold in_bam. by rewrite Hf1. }
  rewrite Hf1 in *. exists v', b'. cbn [run_ops spec_ops]. unfold bindST. rewrite Hrun1, Hrun. rewrite Hset1.
  rewrite Hset1 in Hset. destruct (spec_op op (free_set f b)) as [r F] eqn:Hsp. cbn in *.
  destruct (spec_ops ops F) as [rs F'] eqn:Hsp'. cbn in *. split_and!; try done; [|naive_solver].
  by eapply tracked_trans.
Qed.

(** Correct counts stay correct. *)
Lemma counts_kept f b b' : f ∈ bam_formats -> (forall d, drift d f b -> drift d f b') -> counts_ok f b -> counts_ok f b'.
Proof. intros Hf Hd Hc. apply counts_drift; [done|]. by apply Hd, counts_drift. Qed.

(** ** Properties *)

(** C1: refinement. On a loaded BAM every sequence of allocations and
    releases returns what the same sequence returns on the set of free sectors
    (1 exactly when the sector was free, respectively was allocated), and
    leaves the BAM with the resulting set. All other parts of the drive are
    unchanged, every changed byte is in a block marked as changed, and the
    counts of free sectors per track stay correct. *)
Theorem bam_refines_set v b ops : let f := image_format (geom v) in
  bam_inv v b -> Forall (in_bam v) ops ->
  exists v' b', run_ops ops v = Some ((spec_ops ops (free_set f b)).1, v') /\
    bam_inv v' b' /\ free_set f b' = (spec_ops ops (free_set f b)).2 /\ tracked v b v' b'.
Proof.
  intros f [Hok Hc] Hin. destruct (ops_run ops v b Hok Hin) as (v' & b' & Hrun & Hok' & Htr & Hset & Hc').
  exists v', b'. split; [done|]. split; [|done]. split; [done|].
  rewrite (tracked_geom _ _ _ _ Htr). fold f. pose proof (bo_format _ _ Hok) as Hf.
  by apply (counts_kept f b).
Qed.

(** The query is exact and does not change the drive: it answers 1 for an
    allocated sector and 0 for a free one. *)
Theorem query_exact v b t s : let f := image_format (geom v) in
  bam_ok v b -> bam_addr f t s ->
  vdrive_bam_is_sector_allocated t s v = Some (b2z (bool_decide ((t, s) ∉ free_set f b)), v).
Proof.
  intros f Hok Ha. rewrite bool_decide_not, <- free_bit_set by done. by apply is_allocated_run.
Qed.

(** Releasing a sector right after allocating it restores every byte of
    the BAM: bits and counts. *)
Theorem allocate_release v b t s : let f := image_format (geom v) in
  bam_ok v b -> bam_addr f t s -> (t, s) ∈ free_set f b ->
  exists v1 v2, vdrive_bam_allocate_sector t s v = Some (1, v1) /\
    vdrive_bam_free_sector t s v1 = Some (1, v2) /\ bam (bamc v2) = Some b.
Proof.
  intros f Hok Ha [_ Hfree]%elem_of_free_set. pose proof (bo_format _ _ Hok) as Hf.
  destruct (allocate_run v b t s Hok Ha) as (v1 & b1 & Hrun1 & Hok1 & Htr1 & _ & Hch1 & _).
  fold f in Hrun1, Hch1. rewrite Hfree in Hrun1. specialize (Hch1 Hfree).
  assert (image_format (geom v1) = f) as Hf1 by (by rewrite (tracked_geom _ _ _ _ Htr1)).
  destruct (free_run v1 b1 t s Hok1) as (v2 & b2 & Hrun2 & Hok2 & Htr2 & _ & Hch2 & _); [by rewrite Hf1|].
  rewrite Hf1 in *. rewrite (bc_bit _ _ _ _ _ _ _ Hch1) in *. specialize (Hch2 eq_refl).
  exists v1, v2. split; [done|]. split; [done|]. rewrite (bo_bam _ _ Hok2). f_equal.
  apply (restored f b b1 b2 t s); try done; [apply Hok|apply Hok|].
  rewrite (bo_len _ _ Hok2). by rewrite (tracked_geom _ _ _ _ Htr2), Hf1.
Qed.

(** The error of the count of a track: the count less the number of free sectors. *)
Definition count_error (f : Z) (b : mem) (t : Z) : Z :=
  match count_of f t with Some c => default 0 (getb b c) - free_in_track f b t | None => 0 end.

Lemma error_drift v b : bam_ok v b -> drift (count_error (image_format (geom v)) b) (image_format (geom v)) b.
Proof.
  intros Hok t c Ht Hc. unfold count_error. rewrite Hc. destruct (count_apart _ _ _ (bo_format _ _ Hok) Ht Hc) as (Hr & _).
  destruct (getb_is_Some b c) as [x Hx]; [rewrite (bo_len _ _ Hok); lia|]. rewrite Hx. cbn [default from_option id].
  apply getb_Some in Hx as [_ Hx]. pose proof (Forall_lookup_1 _ _ _ _ (bo_bytes _ _ Hok) Hx) as Hb. cbn in Hb.
  f_equal. rewrite Z.mod_small; lia.
Qed.

(** The sum of the counts *)
Lemma free_count_run d v b : let g := geom v in
  bam_ok v b -> drift d (image_format g) b -> image_format g <> VDRIVE_IMAGE_FORMAT_NP -> num_tracks g <= last_track (image_format g) ->
  vdrive_bam_free_block_count v =
    Some (foldr Z.add 0 (track_total d g b <$> seqZ 1 (num_tracks g)), v).
Proof.
  intros g Hok Hc Hnp Hn. pose proof (bo_format _ _ Hok) as Hf. unfold vdrive_bam_free_block_count.
  unfold bindST at 1. rewrite (read_bam_loaded _ b) by done. cbn [Z.eqb negb CBMDOS_IPE_OK].
  unfold bindST at 1. cbn [state].
  assert (last_track (image_format g) <= 255) by (unfold g; format_cases Hf; vm_compute; congruence).
  destruct (sum_for_run (Z.to_nat (num_tracks g)) 1 count_track (track_total d g b) v) as [Hrun _].
  - intros i Hi. split; [apply count_track_run; [done..|fold g; lia]|].
    unfold track_total. case_match; [lia|]. pose proof (Z.mod_pos_bound (free_in_track (image_format g) b i + d i) 256 eq_refl). lia.
  - lia.
  - fold g. rewrite Hrun. destruct (Z.lt_ge_cases (num_tracks g) 0).
    + rewrite seqZ_nil by lia. rewrite seqZ_nil by lia. done.
    + by rewrite Z2Nat.id by lia.
Qed.


Lemma putb_run_other (l : mem) i j x y : getb l j = Some y -> i <> j -> 0 <= i < mlen l ->
  exists l', putb l i x = Some l' /\ getb l' j = Some y /\ mlen l' = mlen l.
Proof.
  intros Hj Hne Hi. exists (<[Z.to_nat i := x]> l). rewrite putb_eq by done. split; [done|].
  split; [|unfold mlen; by rewrite length_insert]. rewrite <- Hj. eapply getb_put_other; [by apply putb_eq|done].
Qed.

(** The block after the last one of a 1581 BAM is not loaded and has no link. *)
Record no_block_3 (v : vdrive_t) : Prop := {
  nb_state : getb (bam_state (bamc v)) 3 = Some (-1);
  nb_track : getb (bam_tracks (bamc v)) 3 = Some (-1);
  nb_sectors : mlen (bam_sectors (bamc v)) = VDRIVE_BAM_MAX_STATES
}.

Lemma put_link_run v i t s : no_block_3 v -> 0 <= i < 3 ->
  exists v', put_link i t s v = Some (tt, v') /\ no_block_3 v' /\
    bam (bamc v') = bam (bamc v) /\ geom v' = geom v.
Proof.
  intros [H1 H2 H3] Hi. unfold put_link. cbn.
  pose proof (getb_lt _ _ _ H2) as Hl.
  destruct (putb_run_other (bam_tracks (bamc v)) i 3 t (-1) H2 ltac:(lia) ltac:(lia)) as (ts & -> & Hts & _). cbn.
  rewrite putb_eq by (rewrite H3; unfold VDRIVE_BAM_MAX_STATES; lia). cbn. eexists. split; [done|].
  split; [|done]. split; cbn; [done..|]. unfold mlen. rewrite length_insert. exact H3.
Qed.

Lemma read_block_3 v : no_block_3 v -> image_format (geom v) = VDRIVE_IMAGE_FORMAT_1581 ->
  exists v', vdrive_bam_read_bam_block 3 v = Some (CBMDOS_IPE_NOT_READY, v') /\
    bam (bamc v') = bam (bamc v).
Proof.
  intros Hno Hf. unfold vdrive_bam_read_bam_block. change (Z.to_nat VDRIVE_BAM_MAX_STATES) with 33%nat.
  cbn [read_bam_block]. change (VDRIVE_BAM_MAX_STATES <=? u32 3) with false. change (u32 3) with 3. cbn match.
  unfold bindST at 1. unfold get_state, bindST at 1. cbn [state lift]. rewrite (nb_state _ Hno).
  cbn [Z.leb Z.compare]. unfold bindST at 1. unfold format. cbn [gets]. rewrite Hf.
  unfold bindST at 1. cbn [Z.eqb VDRIVE_IMAGE_FORMAT_1581 VDRIVE_IMAGE_FORMAT_9000 Pos.eqb mret ST_ret].
  unfold bam_links_1581, mbind, ST_bind. unfold bindST at 1 2 3. cbn [state for_each].
  set (bt := Bam_Track (geom v)). set (bs := Bam_Sector (geom v)).
  destruct (put_link_run v 0 bt (bs + 0) Hno ltac:(lia)) as (v1 & Hr1 & Hno1 & Hb1 & _).
  destruct (put_link_run v1 (0 + 1) bt (bs + (0 + 1)) Hno1 ltac:(lia)) as (v2 & Hr2 & Hno2 & Hb2 & _).
  destruct (put_link_run v2 (0 + 1 + 1) bt (bs + (0 + 1 + 1)) Hno2 ltac:(lia)) as (v3 & Hr3 & Hno3 & Hb3 & _).
  unfold mbind, ST_bind, bindST. rewrite Hr1, Hr2, Hr3. cbn -[getb].
  rewrite (nb_track _ Hno3). cbn. exists v3. split; [done|congruence].
Qed.

(** The BAM of a 1581 disk has entries for 80 tracks, but the image check
    accepts tracks up to 83: allocating or releasing a sector there accesses
    memory outside the BAM. *)
Theorem bam_overrun_1581 v b t s :
  bam_ok v b -> no_block_3 v -> image_format (geom v) = VDRIVE_IMAGE_FORMAT_1581 ->
  81 <= t <= 83 -> 0 <= s < 40 ->
  vdrive_bam_allocate_sector t s v = None /\ vdrive_bam_free_sector t s v = None.
Proof.
  intros Hok Hno Hf Ht Hs.
  destruct (read_block_3 v Hno Hf) as (v' & Hrb & Hb). rewrite (bo_bam _ _ Hok) in Hb.
  pose proof (bo_len _ _ Hok) as Hlen. rewrite Hf in Hlen. change (bam_bytes _) with 768 in Hlen.
  set (e := 0x210 + 6 * (t - 41)).
  assert (0 <= Z.shiftr s 3 <= 4) as Hq.
  { rewrite Z.shiftr_div_pow2 by lia. change (2 ^ 3) with 8. pose proof (Z.div_mod s 8 ltac:(lia)).
    pose proof (Z.mod_pos_bound s 8 eq_refl). lia. }
  assert (vdrive_bam_isset e s v = None) as Hisset.
  { unfold vdrive_bam_isset, mbind, ST_bind, bindST.
    assert (Z.shiftr (bit_byte e s) 8 = 3) as ->.
    { rewrite Z.shiftr_div_pow2 by lia. change (2 ^ 8) with 256.
      symmetry. apply (Z.div_unique _ _ _ (bit_byte e s - 768)); unfold bit_byte, e; lia. }
    rewrite Hrb. unfold get_bam, bindST. cbn. rewrite Hb. cbn.
    destruct (getb b (bit_byte e s)) eqn:Hg; [|done]. apply getb_lt in Hg. unfold bit_byte, e in Hg. lia. }
  assert (locate t s v = Some ((Some e, s), v)) as Hloc.
  { unfold locate, format, vdrive_bam_get_track_entry, bindST. cbn [gets state]. rewrite Hf. eval_tests.
    destruct (Z.eqb_spec t 0); [lia|]. cbn. unfold BAM_TRACK_1581. destruct (Z.leb_spec t 40); [lia|].
    do 4 f_equal. unfold e, BAM_BIT_MAP_1581. lia. }
  assert (beyond_1571 v t = false) as Hbey by (unfold beyond_1571; rewrite Hf; apply andb_false_r).
  split; unfold vdrive_bam_allocate_sector, vdrive_bam_free_sector; unfold bindST at 1; cbn [state];
    rewrite Hbey; unfold bindST; by rewrite Hloc, Hisset.
Qed.

End bam_proofs.
End BamSpec.

(** ** Concrete drives *)

(** The BAM of a D64 with 21 free sectors on each of the 35 tracks. *)
Definition bam_1541 : mem :=
  [18; 1; 65; 0] ++ concat (replicate 35 [21; 255; 255; 31]) ++ replicate 112 0.

Definition drive_1541 : vdrive_t :=
  VDrive 8 (Some blank_d64) true 0
    (Geom VDRIVE_IMAGE_FORMAT_1541 18 0 144 162 18 0 18 1 35 1 35)
    (Bamc (Some bam_1541) 256 (0 :: replicate 32 (-1)) (18 :: replicate 32 (-1)) (0 :: replicate 32 (-1)))
    (part1 0 false) 0 (zeros 2048) 0 0 0.

(** A 1581 BAM in memory, with no free sector. *)
Definition drive_1581 : vdrive_t :=
  VDrive 8 None false 0
    (Geom VDRIVE_IMAGE_FORMAT_1581 40 0 4 22 40 0 40 3 80 1 80)
    (Bamc (Some (zeros 768)) 768 ([0; 0; 0] ++ replicate 30 (-1)) (replicate 33 (-1)) (replicate 33 (-1)))
    (part1 0 false) 0 (zeros 2048) 0 0 0.

Lemma counts_ok_check f b :
  forallb (fun t => match BamSpec.count_of f t with
                    | Some c => bool_decide (getb b c = Some (BamSpec.free_in_track f b t))
                    | None => true end) (seqZ 1 (BamSpec.last_track f)) = true ->
  BamSpec.counts_ok f b.
Proof.
  intros H t c Ht Hc. pose proof (Zrange_forallb _ _ _ H t ltac:(lia)) as Hb. cbn in Hb.
  rewrite Hc in Hb. by apply bool_decide_eq_true_1 in Hb.
Qed.

Lemma bam_ok_1541 : BamSpec.bam_ok drive_1541 bam_1541.
Proof.
  split; [apply (bool_decide_eq_true_1 _); vm_compute; reflexivity|reflexivity|reflexivity
         |vm_compute; reflexivity|apply (bool_decide_eq_true_1 _); vm_compute; reflexivity| |reflexivity|].
  - intros i lo hi Hin. apply not_elem_of_nil in Hin. destruct Hin.
  - intros i Hi. change (BamSpec.bam_bytes _ / 256) with 1 in Hi.
    exists 0. split; [|lia]. replace i with 0 by lia. reflexivity.
Qed.

Lemma bam_inv_1541 : BamSpec.bam_inv drive_1541 bam_1541.
Proof. split; [apply bam_ok_1541|]. apply counts_ok_check. vm_compute. reflexivity. Qed.

Lemma bam_ok_1581 : BamSpec.bam_ok drive_1581 (zeros 768).
Proof.
  split; [apply (bool_decide_eq_true_1 _); vm_compute; reflexivity|reflexivity|reflexivity
         |vm_compute; reflexivity|apply (bool_decide_eq_true_1 _); vm_compute; reflexivity| |reflexivity|].
  - intros i lo hi Hin. apply not_elem_of_nil in Hin. destruct Hin.
  - intros i Hi. change (BamSpec.bam_bytes _ / 256) with 3 in Hi.
    exists 0. split; [|lia]. assert (i = 0 \/ i = 1 \/ i = 2) as [-> | [-> | ->]] by lia; reflexivity.
Qed.

Ltac solve_addr := vm_compute; repeat split; congruence.

Lemma bam_refines_set_witness :
  exists v' b', BamSpec.run_ops [BamSpec.Allocate 1 0; BamSpec.Allocate 1 0; BamSpec.Release 1 0] drive_1541
      = Some ([1; 0; 1], v') /\ BamSpec.bam_inv v' b'.
Proof.
  destruct (BamSpec.bam_refines_set drive_1541 bam_1541
    [BamSpec.Allocate 1 0; BamSpec.Allocate 1 0; BamSpec.Release 1 0] bam_inv_1541
    ltac:(repeat constructor; solve_addr)) as (v' & b' & Hrun & Hinv & _).
  compute_result Hrun. exists v', b'. split; [exact Hrun|exact Hinv].
Defined.

Lemma query_exact_witness :
  Bam.vdrive_bam_is_sector_allocated 1 20 drive_1541 = Some (0, drive_1541) /\
  Bam.vdrive_bam_is_sector_allocated 1 21 drive_1541 = Some (1, drive_1541).
Proof.
  pose proof (BamSpec.query_exact drive_1541 bam_1541 1 20 bam_ok_1541 ltac:(solve_addr)) as H1.
  pose proof (BamSpec.query_exact drive_1541 bam_1541 1 21 bam_ok_1541 ltac:(solve_addr)) as H2.
  compute_result H1. compute_result H2. split; [exact H1|exact H2].
Defined.

Lemma allocate_release_witness :
  exists v1 v2, Bam.vdrive_bam_allocate_sector 1 0 drive_1541 = Some (1, v1) /\
    Bam.vdrive_bam_free_sector 1 0 v1 = Some (1, v2) /\ bam (bamc v2) = Some bam_1541.
Proof.
  apply (BamSpec.allocate_release drive_1541 bam_1541 1 0); [apply bam_ok_1541|solve_addr|].
  apply (bool_decide_eq_true_1 _). vm_compute. reflexivity.
Defined.

(** The same disk with all counts set to 0 *)
Definition bam_no_counts : mem :=
  [18; 1; 65; 0] ++ concat (replicate 35 [0; 255; 255; 31]) ++ replicate 112 0.

Definition drive_no_counts : vdrive_t := BamSpec.with_bam bam_no_counts (0 :: replicate 32 (-1)) drive_1541.

Lemma bam_ok_no_counts : BamSpec.bam_ok drive_no_counts bam_no_counts.
Proof.
  destruct bam_ok_1541 as [H1 _ H3 _ _ _ H7 H8]. split; [exact H1|reflexivity|exact H3|vm_compute; reflexivity
    |apply (bool_decide_eq_true_1 _); vm_compute; reflexivity| |exact H7|exact H8].
  intros i lo hi Hin. apply not_elem_of_nil in Hin. destruct Hin.
Qed.


Lemma bam_overrun_witness :
  Bam.vdrive_bam_allocate_sector 81 0 drive_1581 = None /\ Bam.vdrive_bam_free_sector 81 0 drive_1581 = None.
Proof.
  apply (BamSpec.bam_overrun_1581 drive_1581 (zeros 768)); [apply bam_ok_1581| |reflexivity|lia|lia].
  split; reflexivity.
Defined.
