(* ===== verification/BamAlloc.v ===== *)
(** * The search for free sectors

    Models the part of [src/lib/vdrive/vdrive-bam.c] that looks for a free
    sector: the scan of a track, the first sector of a new file, the next
    sector of a file, and the allocation of the sectors of an existing chain
    (validate). A search returns [Some (track, sector)] where the C function
    returns 0 and has updated its arguments, and [None] where it returns -1
    and has restored them. *)

From S2P Require Import Prelude Geometry Image VDrive Bam.

Module BamAlloc.
Import Bam.

Section alloc.
Context {platform : Platform}.

(** The inner loop of [vdrive_bam_alloc_worker]: [inr] is the sector found,
    [inl] the position after a whole round. *)
Fixpoint worker_scan (n : nat) (track max_sector s h : Z) : ST vdrive_t (Z + Z) :=
  match n with
  | O => mret (inl s)
  | S n =>
      let! r := vdrive_bam_allocate_sector track (u32 (s + h)) in
      if negb (r =? 0) then mret (inr (u32 (s + h)))
      else worker_scan n track max_sector (if max_sector <=? s + 1 then 0 else s + 1) h
  end.

(** The outer loop, over the heads of a D9090 (a single round otherwise). *)
Fixpoint worker_heads (n : nat) (track max_sector max_all s h : Z) : ST vdrive_t (option Z) :=
  match n with
  | O => mret None
  | S n =>
      let! r := worker_scan (Z.to_nat max_sector) track max_sector s h in
      match r with
      | inr x => mret (Some x)
      | inl s =>
          worker_heads n track max_sector max_all s
            (if max_all <=? h + max_sector then 0 else h + max_sector)
      end
  end.

Definition vdrive_bam_alloc_worker (track sector : Z) : ST vdrive_t (option Z) :=
  let! v := state in
  let! max_sector := lift (u32 <$> VDrive.vdrive_get_max_sectors_per_head v track) in
  let! max_all := lift (u32 <$> VDrive.vdrive_get_max_sectors v track) in
  if max_sector =? 0 then ub
  else
    worker_heads (Z.to_nat ((max_all + max_sector - 1) / max_sector)) track max_sector max_all
      (sector mod max_sector) (sector / max_sector * max_sector).

Definition vdrive_bam_alloc_add_interleave (v : vdrive_t) (track sector interleave : Z) : option Z :=
  max_sector ← u32 <$> VDrive.vdrive_get_max_sectors_per_head v track;
  max_all ← u32 <$> VDrive.vdrive_get_max_sectors v track;
  if (sector <? max_all) && (max_sector =? 0) then None
  else
    let (s, h) := if max_all <=? sector then (sector, 0)
                  else (sector mod max_sector, sector / max_sector * max_sector) in
    let s := u32 (s + interleave) in
    let s := if max_sector <=? s then
               let s := s - max_sector in if negb (s =? 0) then s - 1 else s
             else s in
    Some (u32 (s + h)).

(** One track of a downward or upward search. *)
Definition alloc_on_track (t sector interleave : Z) : ST vdrive_t (option (Z * Z)) :=
  let! v := state in
  let! s := lift (vdrive_bam_alloc_add_interleave v t sector interleave) in
  let! r := vdrive_bam_alloc_worker t s in
  mret (match r with Some s => Some (t, s) | None => None end).

Definition vdrive_bam_alloc_down (track sector interleave : Z) : ST vdrive_t (option (Z * Z)) :=
  for_ (Z.to_nat track) 0 (fun i => alloc_on_track (track - i) sector interleave).

Definition vdrive_bam_alloc_up (track sector interleave : Z) : ST vdrive_t (option (Z * Z)) :=
  let! v := state in
  for_ (Z.to_nat (num_tracks (geom v) - track + 1)) track (fun t => alloc_on_track t sector interleave).

Definition vdrive_bam_alloc_next_free_sector_reset (v : vdrive_t) (track sector interleave : Z)
    : option Z :=
  s ← vdrive_bam_alloc_add_interleave v track sector interleave;
  max_sector ← u32 <$> VDrive.vdrive_get_max_sectors_per_head v track;
  if max_sector =? 0 then None else Some (s / max_sector * max_sector).

(** The search on a native partition: sector by sector, [n] sectors in all. *)
Fixpoint alloc_np (n : nat) (max_sector track sector : Z) : ST vdrive_t (option (Z * Z)) :=
  match n with
  | O => mret None
  | S n =>
      let! v := state in
      let sector := sector + 1 in
      let (track, sector) :=
        if max_sector <=? sector then
          (if num_tracks (geom v) <? track + 1 then 1 else track + 1, 0)
        else (track, sector) in
      let sector := if (track =? DIR_TRACK_NP) && (sector <? 64) then 64 else sector in
      let! r := vdrive_bam_allocate_sector track sector in
      if negb (r =? 0) then mret (Some (track, sector)) else alloc_np n max_sector track sector
  end.

(** One of the three passes: below the directory track downwards, from it
    upwards; [inl] is where the next pass starts. *)
Definition alloc_pass (split track sector interleave : Z) : ST vdrive_t ((Z * Z) + (Z * Z)) :=
  let next r track' :=
    match r with
    | Some a => mret (inr a)
    | None =>
        let! v := state in
        let! sector := lift (vdrive_bam_alloc_next_free_sector_reset v track' sector interleave) in
        mret (inl (track', sector))
    end in
  if (0 <? track) && (track <? split) then
    let! r := vdrive_bam_alloc_down track sector interleave in next r (u32 (split + 1))
  else if split <=? track then
    let! r := vdrive_bam_alloc_up track sector interleave in next r (u32 (split - 1))
  else mret (inl (track, sector)).

Fixpoint alloc_passes (n : nat) (split track sector interleave : Z) : ST vdrive_t (option (Z * Z)) :=
  match n with
  | O => mret None
  | S n =>
      let! r := alloc_pass split track sector interleave in
      match r with
      | inr a => mret (Some a)
      | inl (track, sector) => alloc_passes n split track sector interleave
      end
  end.

Definition vdrive_bam_alloc_next_free_sector_interleave (track sector interleave : Z)
    : ST vdrive_t (option (Z * Z)) :=
  let! v := state in
  let f := image_format (geom v) in
  let split := Dir_Track (geom v) in
  if (track =? split) && negb (f =? VDRIVE_IMAGE_FORMAT_9000) && negb (f =? VDRIVE_IMAGE_FORMAT_NP)
  then mret None
  else
    let sector :=
      if (track =? split) && (f =? VDRIVE_IMAGE_FORMAT_NP) && (sector <? 63) then 63 else sector in
    if f =? VDRIVE_IMAGE_FORMAT_NP then
      let! max_sector := lift (u32 <$> VDrive.vdrive_get_max_sectors_per_head v track) in
      alloc_np (Z.to_nat (u32 (max_sector * num_tracks (geom v)))) max_sector track sector
    else
      let! s := lift (vdrive_bam_alloc_add_interleave v track sector interleave) in
      let! r := vdrive_bam_alloc_worker track s in
      match r with
      | Some s => mret (Some (track, s))
      | None =>
          let! r := alloc_passes 3 split track sector interleave in
          match r with
          | Some a => mret (Some a)
          | None =>
              if f =? VDRIVE_IMAGE_FORMAT_9000 then
                let! r := vdrive_bam_alloc_worker split 10 in
                mret (match r with Some s => Some (split, s) | None => None end)
              else mret None
          end
      end.

Definition vdrive_bam_alloc_next_free_sector (track sector : Z) : ST vdrive_t (option (Z * Z)) :=
  let! v := state in
  vdrive_bam_alloc_next_free_sector_interleave track sector (vdrive_bam_get_interleave v).

(** The body of the butterfly search at distance [d] from the directory. *)
Definition butterfly (d : Z) : ST vdrive_t (option (Z * Z)) :=
  let! v := state in
  let dir := Dir_Track (geom v) in
  let try_track t := 
    let! r := vdrive_bam_alloc_worker t 0 in
    mret (match r with Some s => Some (t, s) | None => None end) in
  let! r := if negb (d =? 0) && (1 <=? dir - d) then try_track (dir - d) else mret None in
  match r with
  | Some a => mret (Some a)
  | None =>
      if (dir + d <=? num_tracks (geom v)) && negb (d =? 0) then try_track (dir + d) else mret None
  end.

(** A format without a disk half makes the loop endless. *)
Definition vdrive_bam_alloc_first_free_sector : ST vdrive_t (option (Z * Z)) :=
  let! v := state in
  let g := geom v in
  if image_format g =? VDRIVE_IMAGE_FORMAT_9000 then
    modify (fun v => set_d90toggle (Z.lxor (d90toggle v) 1) v);;
    let! v := state in
    vdrive_bam_alloc_next_free_sector
      (u32 (if negb (d90toggle v =? 0) then Dir_Track g + 1 else Dir_Track g - 1)) 0
  else if image_format g =? VDRIVE_IMAGE_FORMAT_NP then
    vdrive_bam_alloc_next_free_sector (Dir_Track g) (Dir_Sector g)
  else if vdrive_calculate_disk_half v <? 0 then ub
  else for_ (Z.to_nat (vdrive_calculate_disk_half v + 1)) 0 butterfly.

(** ** Chains

    [stop] is the track that ends the chain (0, or 255 for the BAM of a D9090);
    [tmp] is the local buffer. [None] with enough fuel is undefined behaviour;
    every step allocates a sector, so that fuel above the number of sectors is
    enough. *)
Fixpoint allocate_chain (fuel : nat) (stop t s : Z) (tmp : mem) : ST vdrive_t Z :=
  match fuel with
  | O => ub
  | S fuel =>
      if t =? stop then mret CBMDOS_IPE_OK
      else
        let! v := state in
        let! image := lift (deref_image v) in
        if Geometry.disk_image_check_sector image t s <? 0 then
          VDrive.vdrive_command_set_error CBMDOS_IPE_ILLEGAL_TRACK_OR_SECTOR t s
        else
          let! r := vdrive_bam_allocate_sector t s in
          if r =? 0 then VDrive.vdrive_command_set_error CBMDOS_IPE_NO_BLOCK t s
          else
            let! (rc, tmp) := VDrive.vdrive_read_sector tmp t s in
            if 0 <? rc then mret rc
            else if rc <? 0 then mret CBMDOS_IPE_NOT_READY
            else
              let! t := lift (getb tmp 0) in
              let! s := lift (getb tmp 1) in
              allocate_chain fuel stop t s tmp
  end.

Definition vdrive_bam_allocate_chain (fuel : nat) (t s : Z) : ST vdrive_t Z :=
  allocate_chain fuel 0 t s (lib_malloc 256).
Definition vdrive_bam_allocate_chain_255 (fuel : nat) (t s : Z) : ST vdrive_t Z :=
  allocate_chain fuel 255 t s (lib_malloc 256).

End alloc.
End BamAlloc.
