(* ===== verification/AllocSpec.v ===== *)
(** * Correctness of the search for free sectors

    The searches of file BamAlloc, proved against an interface ([FreeMap],
    [Allocator]) that states what a client may assume of the BAM: its invariant,
    the set of free sectors, and what allocating a sector does to them. The BAM
    of file Bam implements it. *)

From S2P Require Import Prelude Geometry Image VDrive Bam BamSpec BamAlloc.

(** ** The interface *)

(** A state with a set of free sectors; [fm_frame] relates states that differ
    only in what allocation may change. *)
Class FreeMap (S : Type) := {
  fm_inv : S -> Prop;
  fm_valid : S -> Z -> Z -> Prop;
  fm_free : S -> gset (Z * Z);
  fm_frame : relation S;
  fm_frame_equiv :: Equivalence fm_frame;
  fm_valid_frame :: Proper (fm_frame ==> eq ==> eq ==> iff) fm_valid
}.

(** [alloc t s] returns 1 and removes the sector if it is free, and returns 0
    otherwise. *)
Class Allocator (S : Type) `{FreeMap S} (alloc : Z -> Z -> ST S Z) := {
  alloc_law v t s : fm_inv v -> fm_valid v t s ->
    wp (alloc t s) (fun r v' =>
      r = b2z (bool_decide ((t, s) ∈ fm_free v)) /\ fm_inv v' /\ fm_frame v v' /\
      fm_free v' = fm_free v ∖ {[(t, s)]}) v
}.

Module AllocSpec.
Import Bam BamSpec BamAlloc.

Section alloc_proofs.
Context {platform : Platform}.

(** ** The BAM implements the interface *)

(** Everything but the contents and the block states of the BAM (of which only the
    DOS version remains), the image mode that every sector access refreshes, and
    the error channel. *)
Definition erase (v : vdrive_t) : vdrive_t :=
  set_bamc (Bamc ((fun b => [default 0 (getb b 2)]) <$> bam (bamc v)) (bam_size (bamc v)) []
              (bam_tracks (bamc v)) (bam_sectors (bamc v)))
    (set_image_mode 0 (set_last_code 0 (set_err_track 0 (set_err_sector 0 v)))).

Definition frame (v v' : vdrive_t) : Prop := erase v = erase v'.

#[export] Instance frame_equiv : Equivalence frame.
Proof. split; [done|by intros ??|intros ???; unfold frame; congruence]. Qed.

Definition inv (v : vdrive_t) : Prop := exists b, bam_ok v b.

Definition free (v : vdrive_t) : gset (Z * Z) :=
  match bam (bamc v) with Some b => free_set (image_format (geom v)) b | None => ∅ end.

Definition valid (v : vdrive_t) (t s : Z) : Prop := bam_addr (image_format (geom v)) t s.

Lemma frame_geom v v' : frame v v' -> geom v' = geom v.
Proof. intros Hfr. by apply (f_equal geom) in Hfr. Qed.

#[export] Instance valid_frame : Proper (frame ==> eq ==> eq ==> iff) valid.
Proof. intros v v' Hfr t ? <- s ? <-. unfold valid. by rewrite (frame_geom _ _ Hfr). Qed.

#[export] Instance bam_map : FreeMap vdrive_t := {|
  fm_inv := inv; fm_valid := valid; fm_free := free; fm_frame := frame
|}.

Lemma tracked_frame v b v' b' : bam_ok v b -> tracked v b v' b' -> frame v v'.
Proof.
  intros Hok (st' & -> & _ & _ & _ & _ & Hv). unfold frame, erase. cbn.
  by rewrite (bo_bam _ _ Hok), Hv.
Qed.

Lemma free_ok v b : bam_ok v b -> free v = free_set (image_format (geom v)) b.
Proof. intros Hok. unfold free. by rewrite (bo_bam _ _ Hok). Qed.

#[export] Instance bam_allocator : Allocator vdrive_t vdrive_bam_allocate_sector.
Proof.
  split. intros v t s (b & Hok) Ha. cbn in *.
  destruct (allocate_run v b t s Hok Ha) as (v' & b' & Hrun & Hok' & Htr & Hset & _).
  apply wp_run. exists (b2z (free_bit (image_format (geom v)) b t s)), v'. split; [done|].
  rewrite (free_ok _ _ Hok), (free_ok _ _ Hok'), (frame_geom _ _ (tracked_frame _ _ _ _ Hok Htr)).
  split; [by rewrite <- free_bit_set|]. split; [by exists b'|]. split; [by eapply tracked_frame|done].
Qed.

(** ** Sectors per track *)

(** The sectors of a track, as the searches see it. *)
Definition spt (v : vdrive_t) (t : Z) : Z := default 0 (VDrive.vdrive_get_max_sectors v t).

Lemma max_sectors_frame v v' t : frame v v' ->
  VDrive.vdrive_get_max_sectors v' t = VDrive.vdrive_get_max_sectors v t.
Proof.
  intros Hfr. change (VDrive.vdrive_get_max_sectors (erase v') t = VDrive.vdrive_get_max_sectors (erase v) t).
  by rewrite Hfr.
Qed.

#[export] Instance spt_frame : Proper (frame ==> eq ==> eq) spt.
Proof. intros v v' Hfr t ? <-. unfold spt. by rewrite (max_sectors_frame v v'). Qed.

Lemma spt_run v t : inv v ->
  VDrive.vdrive_get_max_sectors v t = Some (spt v t) /\
  VDrive.vdrive_get_max_sectors_per_head v t = Some (spt v t) /\
  17 <= spt v t <= 256 /\ spt v t <= 8 * map_bytes (image_format (geom v)).
Proof.
  intros (b & Hok). pose proof (bo_format _ _ Hok) as Hf.
  unfold spt, VDrive.vdrive_get_max_sectors_per_head, VDrive.vdrive_get_max_sectors.
  assert (forall t, 17 <= Geometry.disk_image_sector_per_track DISK_IMAGE_TYPE_D64 t <= 21) as H64.
  { intros u. change (17 <= Geometry.sector_map_d64 (Geometry.disk_image_speed_map DISK_IMAGE_TYPE_D64 u) <= 21).
    unfold Geometry.sector_map_d64, Geometry.zone. repeat case_match; lia. }
  assert (forall t, 17 <= Geometry.disk_image_sector_per_track DISK_IMAGE_TYPE_D71 t <= 21) as H71.
  { intros u. change (17 <= Geometry.sector_map_d64 (Geometry.disk_image_speed_map DISK_IMAGE_TYPE_D71 u) <= 21).
    unfold Geometry.sector_map_d64, Geometry.zone. repeat case_match; lia. }
  assert (forall t, 17 <= Geometry.disk_image_sector_per_track DISK_IMAGE_TYPE_D67 t <= 21) as H67.
  { intros u. change (17 <= Geometry.sector_map_d67 (Geometry.disk_image_speed_map DISK_IMAGE_TYPE_D67 u) <= 21).
    unfold Geometry.sector_map_d67, Geometry.zone. repeat case_match; lia. }
  assert (forall t, 23 <= Geometry.disk_image_sector_per_track DISK_IMAGE_TYPE_D80 t <= 29) as H80.
  { intros u. change (23 <= Geometry.sector_map_d80 (Geometry.disk_image_speed_map DISK_IMAGE_TYPE_D80 u) <= 29).
    unfold Geometry.sector_map_d80, Geometry.zone. repeat case_match; lia. }
  format_cases Hf; eval_tests; unfold map_bytes; eval_tests; cbn [default];
    repeat match goal with |- context [if ?c then Some _ else Some _] => destruct c end; cbn [default];
    (split; [done|split; [done|]]); unfold id;
    first [specialize (H64 t); lia | specialize (H71 t); lia | specialize (H67 t); lia
          |specialize (H80 t); lia | specialize (H80 (t - NUM_TRACKS_8250 / 2)); lia].
Qed.

(** ** Scanning a track *)

(** The sector tried at step [j] of a scan that starts at [s]. *)
Definition nth_sector (m s j : Z) : Z := (s + j) mod m.

Lemma nth_sector_next m s j : 0 < m -> 0 <= s < m ->
  nth_sector m (if m <=? s + 1 then 0 else s + 1) j = nth_sector m s (j + 1).
Proof.
  intros Hm Hs. unfold nth_sector. destruct (Z.leb_spec m (s + 1)).
  - replace (s + (j + 1)) with (j + 1 * m) by lia. by rewrite Z_mod_plus_full.
  - f_equal. lia.
Qed.

(** The outcome of a scan of [n] sectors: the first free one is taken. *)
Definition scanned (v : vdrive_t) (t m s : Z) (n : Z) (r : option Z) (v' : vdrive_t) : Prop :=
  fm_inv v' /\ fm_frame v v' /\
  match r with
  | Some x => exists k, 0 <= k < n /\ x = nth_sector m s k /\ (t, x) ∈ fm_free v /\
      (forall j, 0 <= j < k -> (t, nth_sector m s j) ∉ fm_free v) /\
      fm_free v' = fm_free v ∖ {[(t, x)]}
  | None => fm_free v' = fm_free v /\ forall j, 0 <= j < n -> (t, nth_sector m s j) ∉ fm_free v
  end.

Definition found (r : Z + Z) : option Z := match r with inr x => Some x | inl _ => None end.

Lemma difference_not_in (F : gset (Z * Z)) x : x ∉ F -> F ∖ {[x]} = F.
Proof. set_solver. Qed.

Lemma worker_scan_run n v t m s : fm_inv v -> 0 <= s < m -> m <= 256 ->
  (forall x, 0 <= x < m -> fm_valid v t x) ->
  wp (worker_scan n t m s 0) (fun r v' => scanned v t m s (Z.of_nat n) (found r) v') v.
Proof.
  revert v s. induction n as [|n IH]; intros v s Hinv Hs Hm Hval; cbn [worker_scan].
  { apply wp_ret. split; [done|]. split; [reflexivity|]. split; [done|]. intros; lia. }
  apply wp_bindST. rewrite Z.add_0_r, u32_small by lia.
  eapply wp_mono; [apply alloc_law; [done|by apply Hval]|].
  intros r v1 (-> & Hinv1 & Hfr1 & Hfree1). cbn beta.
  assert (nth_sector m s 0 = s) as H0 by (unfold nth_sector; rewrite Z.add_0_r, Z.mod_small; lia).
  destruct (bool_decide ((t, s) ∈ fm_free v)) eqn:Hb.
  - apply bool_decide_eq_true_1 in Hb. apply wp_ret. split; [done|]. split; [done|].
    exists 0. split; [lia|]. rewrite H0. split; [done|]. split; [done|]. split; [intros; lia|done].
  - apply bool_decide_eq_false_1 in Hb. rewrite difference_not_in in Hfree1 by done. cbn [b2z Z.eqb negb].
    eapply wp_mono; [apply IH; [done|case_bool; lia|done|by intros x Hx; rewrite <- Hfr1; apply Hval]|].
    intros r v' (Hinv' & Hfr' & Hr). split; [done|]. split; [by etrans|].
    assert (forall j, nth_sector m (if m <=? s + 1 then 0 else s + 1) j = nth_sector m s (j + 1)) as Hnext
      by (intros j; apply nth_sector_next; lia).
    assert (forall (P : Z -> Prop) k, P s -> (forall j, 0 <= j < k -> P (nth_sector m s (j + 1))) ->
      forall j, 0 <= j < k + 1 -> P (nth_sector m s j)) as Hshift.
    { intros P k HP Hk j Hj. destruct (decide (j = 0)) as [->|]; [by rewrite H0|].
      replace j with ((j - 1) + 1) by lia. apply Hk. lia. }
    destruct (found r) as [x|].
    + destruct Hr as (k & Hk & -> & Hin & Hmin & Hf'). rewrite Hfree1 in *. exists (k + 1).
      rewrite Hnext in *. split; [lia|]. split; [done|]. split; [done|]. split; [|done].
      apply (Hshift (fun x => (t, x) ∉ fm_free v)); [done|]. intros j Hj. rewrite <- Hnext. by apply Hmin.
    + destruct Hr as [Hf' Hnone]. rewrite Hfree1 in *. split; [done|].
      replace (Z.of_nat (S n)) with (Z.of_nat n + 1) by lia.
      apply (Hshift (fun x => (t, x) ∉ fm_free v)); [done|]. intros j Hj. rewrite <- Hnext. by apply Hnone.
Qed.

(** A scan from a sector of the track takes the first free sector in cyclic
    order, and fails only if the track is full. *)
Lemma worker_run v t s : inv v -> 1 <= t <= last_track (image_format (geom v)) -> 0 <= s < spt v t ->
  wp (vdrive_bam_alloc_worker t s) (scanned v t (spt v t) s (spt v t)) v.
Proof.
  intros Hinv Ht Hs. destruct (spt_run v t Hinv) as (Hmax & Hhead & Hb & Hbits).
  unfold vdrive_bam_alloc_worker. apply wp_bindST, wp_eq with v v; [done|].
  apply wp_bindST, wp_eq with (spt v t) v; [by cbn; rewrite Hhead; cbn; rewrite u32_small by lia|].
  apply wp_bindST, wp_eq with (spt v t) v; [by cbn; rewrite Hmax; cbn; rewrite u32_small by lia|].
  destruct (Z.eqb_spec (spt v t) 0); [lia|].
  assert ((spt v t + spt v t - 1) / spt v t = 1) as -> by (symmetry; apply (Z.div_unique _ _ _ (spt v t - 1)); lia).
  rewrite Z.mod_small, Z.div_small by lia. change (0 * spt v t) with 0. change (Z.to_nat 1) with 1%nat.
  cbn [worker_heads]. apply wp_bindST.
  eapply wp_mono; [apply worker_scan_run; [exact Hinv|done|lia|]|].
  { intros x Hx. split; [done|lia]. }
  intros r v'. rewrite Z2Nat.id by lia. intros Hr. destruct r as [x|x]; apply wp_ret; exact Hr.
Qed.

(** ** Searching tracks *)

(** The outcome of a search of the tracks [T]: a free sector of one of them is
    taken, or none of them has a free sector. *)
Definition finds (v : vdrive_t) (T : Z -> Prop) (r : option (Z * Z)) (v' : vdrive_t) : Prop :=
  inv v' /\ frame v v' /\
  match r with
  | Some (t, s) => T t /\ 0 <= s < spt v t /\ (t, s) ∈ free v /\ free v' = free v ∖ {[(t, s)]}
  | None => free v' = free v /\ forall t s, T t -> 0 <= s < spt v t -> (t, s) ∉ free v
  end.

Lemma finds_mono v (T T' : Z -> Prop) r v' : (forall t, T t <-> T' t) -> finds v T r v' -> finds v T' r v'.
Proof.
  intros HT (Hinv & Hfr & Hr). split; [done|]. split; [done|]. destruct r as [[t s]|].
  - by rewrite <- HT.
  - destruct Hr as [Hf Hn]. split; [done|]. intros t s Ht. apply Hn. by apply HT.
Qed.

Lemma finds_none v v' : inv v -> frame v v' -> free v' = free v -> inv v' -> finds v (fun _ => False) None v'.
Proof. intros. split; [done|]. split; [done|]. by split. Qed.

(** A search that failed, followed by another one. *)
Lemma finds_seq v T v1 T' r v2 : finds v T None v1 -> finds v1 T' r v2 -> finds v (fun t => T t \/ T' t) r v2.
Proof.
  intros (_ & Hfr1 & Hf1 & Hn1) (Hinv2 & Hfr2 & Hr). split; [done|]. split; [by etrans|].
  assert (forall t, spt v1 t = spt v t) as Hspt by (intros t; symmetry; by apply spt_frame).
  destruct r as [[t s]|].
  - rewrite Hf1, Hspt in Hr. naive_solver.
  - destruct Hr as [Hf2 Hn2]. rewrite Hf1 in *. split; [done|]. intros t s [Ht|Ht] Hs; [by apply Hn1|].
    apply Hn2; [done|by rewrite Hspt].
Qed.

Lemma finds_some v T T' a v' : finds v T (Some a) v' -> finds v (fun t => T t \/ T' t) (Some a) v'.
Proof. intros (Hinv & Hfr & Hr). split; [done|]. split; [done|]. destruct a. naive_solver. Qed.

Lemma for_finds n lo (body : Z -> ST vdrive_t (option (Z * Z))) v0 (T : Z -> Z -> Prop) :
  inv v0 ->
  (forall i v, lo <= i < lo + Z.of_nat n -> inv v -> frame v0 v -> wp (body i) (finds v (T i)) v) ->
  wp (for_ n lo body) (finds v0 (fun t => exists i, lo <= i < lo + Z.of_nat n /\ T i t)) v0.
Proof.
  revert lo v0. induction n as [|n IH]; intros lo v0 Hinv Hb; cbn [for_].
  - apply wp_ret. apply (finds_mono v0 (fun _ => False)); [|by apply finds_none].
    intros t. split; [done|]. intros (i & Hi & _). lia.
  - apply wp_bindST. eapply wp_mono; [apply (Hb lo v0); [lia|done|reflexivity]|].
    intros r v1 Hf1. destruct r as [a|]; cbn beta iota.
    + apply wp_ret.
      apply (finds_mono v0 (fun t => T lo t \/ exists i, lo + 1 <= i < lo + 1 + Z.of_nat n /\ T i t)).
      * intros t. split.
        -- intros [?|(i & Hi & ?)]; [exists lo|exists i]; (split; [lia|done]).
        -- intros (i & Hi & ?). destruct (decide (i = lo)) as [->|]; [by left|].
           right. exists i. split; [lia|done].
      * by apply finds_some.
    + eapply wp_mono; [apply IH; [apply Hf1|]|].
      { intros i v Hi Hinv' Hfr. apply Hb; [lia|done|]. etrans; [apply Hf1|done]. }
      intros r v2 Hf2. eapply finds_mono; [|by eapply finds_seq]. cbn beta. intros t. split.
      * intros [?|(i & Hi & ?)]; [exists lo|exists i]; (split; [lia|done]).
      * intros (i & Hi & ?). destruct (decide (i = lo)) as [->|]; [by left|].
        right. exists i. split; [lia|done].
Qed.

Lemma nth_sector_surj m s x : 0 <= s < m -> 0 <= x < m ->
  exists j, 0 <= j < m /\ nth_sector m s j = x.
Proof.
  intros Hs Hx. exists ((x - s) mod m). split; [apply Z.mod_pos_bound; lia|].
  unfold nth_sector. rewrite Zplus_mod_idemp_r. replace (s + (x - s)) with x by lia.
  by rewrite Z.mod_small.
Qed.

Lemma scanned_finds v t s r v' : 0 <= s < spt v t -> scanned v t (spt v t) s (spt v t) r v' ->
  finds v (eq t) (match r with Some x => Some (t, x) | None => None end) v'.
Proof.
  intros Hs (Hinv & Hfr & Hr). split; [done|]. split; [done|]. destruct r as [x|].
  - destruct Hr as (k & Hk & -> & Hin & _ & Hf). split; [done|]. split; [|done].
    apply Z.mod_pos_bound. lia.
  - destruct Hr as [Hf Hn]. split; [done|]. intros ? x <- Hx.
    destruct (nth_sector_surj (spt v t) s x Hs Hx) as (j & Hj & <-). by apply Hn.
Qed.

Lemma worker_finds v t s : inv v -> 1 <= t <= last_track (image_format (geom v)) -> 0 <= s < spt v t ->
  wp (let! r := vdrive_bam_alloc_worker t s in
      mret (match r with Some s => Some (t, s) | None => None end)) (finds v (eq t)) v.
Proof.
  intros Hinv Ht Hs. apply wp_bindST. eapply wp_mono; [by apply worker_run|].
  intros r v' Hr. apply wp_ret. by eapply scanned_finds.
Qed.

(** ** Interleave *)

(** With a start and an interleave that are less than twice the sectors of a
    track away from its end, the next start is a sector of the track. *)
Definition fits (v : vdrive_t) (sector interleave : Z) : Prop :=
  0 <= sector /\ 0 <= interleave /\ forall t, sector + interleave < 2 * spt v t.

Lemma fits_frame v v' s il : frame v v' -> fits v s il -> fits v' s il.
Proof.
  intros Hfr (? & ? & Hf). split; [done|]. split; [done|]. intros t. by rewrite <- (spt_frame v v' Hfr t t eq_refl).
Qed.

Lemma fits_zero v s il : inv v -> fits v s il -> fits v 0 il.
Proof. intros Hinv (? & ? & Hf). split; [done|]. split; [done|]. intros t. specialize (Hf t). lia. Qed.

Lemma add_interleave_run v t s il : inv v -> fits v s il ->
  exists x, vdrive_bam_alloc_add_interleave v t s il = Some x /\ 0 <= x < spt v t.
Proof.
  intros Hinv (Hs & Hil & Hfit). specialize (Hfit t). destruct (spt_run v t Hinv) as (Hmax & Hhead & Hb & _).
  unfold vdrive_bam_alloc_add_interleave. rewrite Hmax, Hhead. cbn. rewrite u32_small by lia.
  destruct (Z.eqb_spec (spt v t) 0); [lia|]. rewrite andb_false_r.
  destruct (Z.leb_spec (spt v t) s); [|rewrite Z.mod_small, Z.div_small by lia];
    (eexists; split; [reflexivity|]); rewrite (u32_small (s + il)) by lia;
    case_bool; cbn [negb]; rewrite u32_small; lia.
Qed.

Lemma reset_run v t s il : inv v -> fits v s il ->
  vdrive_bam_alloc_next_free_sector_reset v t s il = Some 0.
Proof.
  intros Hinv Hfit. destruct (add_interleave_run v t s il Hinv Hfit) as (x & Hx & Hb).
  destruct (spt_run v t Hinv) as (_ & Hhead & ? & _).
  unfold vdrive_bam_alloc_next_free_sector_reset. rewrite Hx, Hhead. cbn. rewrite u32_small by lia.
  destruct (Z.eqb_spec (spt v t) 0); [lia|]. by rewrite Z.div_small.
Qed.

Lemma on_track_finds v t s il : inv v -> fits v s il -> 1 <= t <= last_track (image_format (geom v)) ->
  wp (alloc_on_track t s il) (finds v (eq t)) v.
Proof.
  intros Hinv Hfit Ht. destruct (add_interleave_run v t s il Hinv Hfit) as (x & Hx & Hb).
  unfold alloc_on_track. apply wp_bindST, wp_eq with v v; [done|].
  apply wp_bindST, wp_eq with x v; [by cbn; rewrite Hx|]. by apply worker_finds.
Qed.

Lemma down_finds v t s il : inv v -> fits v s il -> 0 <= t <= last_track (image_format (geom v)) ->
  wp (vdrive_bam_alloc_down t s il) (finds v (fun u => 1 <= u <= t)) v.
Proof.
  intros Hinv Hfit Ht. unfold vdrive_bam_alloc_down. eapply wp_mono; [apply (for_finds _ _ _ _ (fun i => eq (t - i)))|].
  - done.
  - intros i v' Hi Hinv' Hfr. apply on_track_finds; [done|by eapply fits_frame|].
    rewrite (frame_geom _ _ Hfr). lia.
  - intros r v' Hf. eapply finds_mono; [|exact Hf]. intros u. cbn. split.
    + intros (i & Hi & <-). lia.
    + intros Hu. exists (t - u). lia.
Qed.

Lemma up_finds v t s il : inv v -> fits v s il -> 1 <= t -> num_tracks (geom v) <= last_track (image_format (geom v)) ->
  wp (vdrive_bam_alloc_up t s il) (finds v (fun u => t <= u <= num_tracks (geom v))) v.
Proof.
  intros Hinv Hfit Ht Hn. unfold vdrive_bam_alloc_up. apply wp_bindST, wp_eq with v v; [done|].
  eapply wp_mono; [apply (for_finds _ _ _ _ (fun i => eq i))|].
  - done.
  - intros i v' Hi Hinv' Hfr. apply on_track_finds; [done|by eapply fits_frame|].
    rewrite (frame_geom _ _ Hfr). lia.
  - intros r v' Hf. eapply finds_mono; [|exact Hf]. intros u. cbn. split.
    + intros (i & Hi & <-). lia.
    + intros Hu. exists u. lia.
Qed.

(** ** The passes *)

(** What a pass that starts on track [t] searches, and where it goes next. *)
Definition pass_tracks (split n t : Z) : Z -> Prop := fun u =>
  if (0 <? t) && (t <? split) then 1 <= u <= t else if split <=? t then t <= u <= n else False.

Definition pass_next (split t : Z) : Z :=
  if (0 <? t) && (t <? split) then split + 1 else if split <=? t then split - 1 else t.

Lemma pass_finds v split t s il : inv v -> fits v s il ->
  num_tracks (geom v) <= last_track (image_format (geom v)) ->
  1 <= split <= last_track (image_format (geom v)) + 1 -> 0 <= t ->
  wp (alloc_pass split t s il) (fun r v' =>
    match r with
    | inr a => finds v (pass_tracks split (num_tracks (geom v)) t) (Some a) v'
    | inl (t', s') => finds v (pass_tracks split (num_tracks (geom v)) t) None v' /\
        t' = pass_next split t /\ fits v' s' il
    end) v.
Proof.
  intros Hinv Hfit Hn Hsplit Ht.
  assert (last_track (image_format (geom v)) <= 255) as Hlt.
  { destruct Hinv as (b & Hok). pose proof (bo_format _ _ Hok) as Hf. format_cases Hf; vm_compute; congruence. }
  assert (forall T r v1 t', finds v T r v1 ->
    wp (match r with
        | Some a => mret (inr a)
        | None => let! w := state in
            let! s' := lift (vdrive_bam_alloc_next_free_sector_reset w t' s il) in mret (inl (t', s'))
        end)
      (fun r v' => match r with
        | inr a => finds v T (Some a) v'
        | inl (t1, s') => finds v T None v' /\ t1 = t' /\ fits v' s' il
        end) v1) as Hnext.
  { intros T r v1 t' Hf. destruct r as [a|]; [by apply wp_ret|].
    assert (fits v1 s il) as Hfit1 by (eapply fits_frame; [apply Hf|done]).
    apply wp_bindST, wp_eq with v1 v1; [done|].
    apply wp_bindST, wp_eq with 0 v1; [by cbn; rewrite reset_run by (done || apply Hf)|].
    apply wp_ret. split; [done|]. split; [done|]. by apply (fits_zero v1 s); [apply Hf|]. }
  unfold alloc_pass, pass_tracks, pass_next.
  destruct ((0 <? t) && (t <? split)) eqn:Hc.
  - apply andb_true_iff in Hc as [H0%Z.ltb_lt H1%Z.ltb_lt]. apply wp_bindST.
    eapply wp_mono; [apply down_finds; [done|done|lia]|]. intros r v1 Hf.
    rewrite u32_small by lia. by apply Hnext.
  - destruct (Z.leb_spec split t); [|by apply wp_ret; split; [apply finds_none|]].
    apply wp_bindST. eapply wp_mono; [apply up_finds; [done|done|lia|done]|]. intros r v1 Hf.
    rewrite u32_small by lia. by apply Hnext.
Qed.

Lemma passes_finds v split t s il : inv v -> fits v s il ->
  num_tracks (geom v) <= last_track (image_format (geom v)) ->
  2 <= split <= num_tracks (geom v) -> 1 <= t <= num_tracks (geom v) -> t <> split ->
  wp (alloc_passes 3 split t s il)
    (finds v (fun u => 1 <= u <= num_tracks (geom v) /\ u <> split)) v.
Proof.
  intros Hinv Hfit Hn Hsplit Ht Hne. set (n := num_tracks (geom v)) in *.
  assert (forall k v0 T t0 s0, finds v T None v0 -> fits v0 s0 il -> 0 <= t0 ->
    (forall r v', finds v (fun u => T u \/ pass_tracks split n t0 u) r v' -> 
       match r with
       | Some a => finds v (fun u => 1 <= u <= n /\ u <> split) r v'
       | None => forall s', fits v' s' il ->
           wp (alloc_passes k split (pass_next split t0) s' il)
             (finds v (fun u => 1 <= u <= n /\ u <> split)) v'
       end) ->
    wp (alloc_passes (S k) split t0 s0 il) (finds v (fun u => 1 <= u <= n /\ u <> split)) v0) as Hstep.
  { intros k v0 T t0 s0 Hf0 Hfit0 Ht0 Hk. cbn [alloc_passes]. apply wp_bindST.
    assert (geom v0 = geom v) as Hg by (apply frame_geom; apply Hf0).
    eapply wp_mono; [apply pass_finds; [apply Hf0|done|rewrite Hg; done|rewrite Hg; lia|done]|].
    rewrite Hg. fold n. intros [[t1 s1]|a] v1.
    - intros (Hf1 & -> & Hfit1). pose proof (finds_seq _ _ _ _ _ _ Hf0 Hf1) as Hf.
      exact (Hk None v1 Hf s1 Hfit1).
    - intros Hf1. pose proof (finds_seq _ _ _ _ _ _ Hf0 Hf1) as Hf. apply wp_ret. exact (Hk (Some a) v1 Hf). }
  assert (forall T a v', (forall u, T u -> 1 <= u <= n /\ u <> split) -> finds v T (Some a) v' ->
    finds v (fun u => 1 <= u <= n /\ u <> split) (Some a) v') as Hsub.
  { intros T [u x] v' HT (H1 & H2 & H3). split; [done|]. split; [done|]. naive_solver. }
  assert (finds v (fun _ => False) None v) as Hstart by (apply finds_none; done || reflexivity).
  assert (forall t0, 0 < t0 < split -> pass_next split t0 = split + 1 /\
    forall u, pass_tracks split n t0 u <-> 1 <= u <= t0) as Hlow.
  { intros t0 H0. unfold pass_next, pass_tracks. case_bool; cbn [andb]; split; (lia || done). }
  assert (forall t0, split <= t0 -> pass_next split t0 = split - 1 /\
    forall u, pass_tracks split n t0 u <-> t0 <= u <= n) as Hhigh.
  { intros t0 H0. unfold pass_next, pass_tracks. case_bool; cbn [andb]; split; (lia || done). }
  destruct (Hlow (split - 1) ltac:(lia)) as [El Tl], (Hhigh (split + 1) ltac:(lia)) as [Eh Th].
  destruct (Z.lt_ge_cases t split) as [Hlt|Hge].
  - destruct (Hlow t ltac:(lia)) as [E0 T0].
    apply (Hstep 2%nat v _ t s Hstart Hfit); [lia|]. rewrite E0.
    intros [a|] v1 Hf1; [eapply Hsub; [|exact Hf1]; cbn; intros u; rewrite T0; lia|intros s1 Hfit1].
    eapply (Hstep 1%nat v1 _ _ s1 Hf1 Hfit1); [lia|]. rewrite Eh.
    intros [a|] v2 Hf2; [eapply Hsub; [|exact Hf2]; cbn; intros u; rewrite T0, Th; lia|intros s2 Hfit2].
    eapply (Hstep 0%nat v2 _ _ s2 Hf2 Hfit2); [lia|]. rewrite El.
    intros [a|] v3 Hf3; [eapply Hsub; [|exact Hf3]; cbn; intros u; rewrite T0, Th, Tl; lia|intros s3 Hfit3].
    apply wp_ret. eapply finds_mono; [|exact Hf3]. cbn. intros u. rewrite T0, Th, Tl. lia.
  - destruct (Hhigh t Hge) as [E0 T0].
    apply (Hstep 2%nat v _ t s Hstart Hfit); [lia|]. rewrite E0.
    intros [a|] v1 Hf1; [eapply Hsub; [|exact Hf1]; cbn; intros u; rewrite T0; lia|intros s1 Hfit1].
    eapply (Hstep 1%nat v1 _ _ s1 Hf1 Hfit1); [lia|]. rewrite El.
    intros [a|] v2 Hf2; [eapply Hsub; [|exact Hf2]; cbn; intros u; rewrite T0, Tl; lia|intros s2 Hfit2].
    eapply (Hstep 0%nat v2 _ _ s2 Hf2 Hfit2); [lia|]. rewrite Eh.
    intros [a|] v3 Hf3; [eapply Hsub; [|exact Hf3]; cbn; intros u; rewrite T0, Th, Tl; lia|intros s3 Hfit3].
    apply wp_ret. eapply finds_mono; [|exact Hf3]. cbn. intros u. rewrite T0, Th, Tl. lia.
Qed.

(** ** The butterfly *)

Definition butterfly_tracks (g : geom_t) (d u : Z) : Prop :=
  d <> 0 /\ (u = Dir_Track g - d /\ 1 <= u \/ u = Dir_Track g + d /\ u <= num_tracks g).

Lemma butterfly_finds v d : let g := geom v in
  inv v -> num_tracks g <= last_track (image_format g) -> 1 <= Dir_Track g <= num_tracks g -> 0 <= d ->
  wp (butterfly d) (finds v (butterfly_tracks g d)) v.
Proof.
  intros g Hinv Hn Hdir Hd. unfold butterfly. apply wp_bindST, wp_eq with v v; [done|]. fold g.
  assert (forall w t, inv w -> frame v w -> 1 <= t <= num_tracks g ->
    wp (let! r := vdrive_bam_alloc_worker t 0 in
        mret (match r with Some s => Some (t, s) | None => None end)) (finds w (eq t)) w) as Htry.
  { intros w t Hinvw Hfr Ht. apply worker_finds; [done|rewrite (frame_geom _ _ Hfr); fold g; lia|].
    pose proof (spt_run w t Hinvw). lia. }
  apply wp_bindST. eapply wp_mono with (Q := finds v (fun u => d <> 0 /\ u = Dir_Track g - d /\ 1 <= u)).
  - destruct (negb (d =? 0) && (1 <=? Dir_Track g - d)) eqn:Hc.
    + apply andb_true_iff in Hc as [H0 H1%Z.leb_le]. apply negb_true_iff, Z.eqb_neq in H0.
      eapply wp_mono; [apply Htry; [done|reflexivity|lia]|]. intros r w Hf.
      eapply finds_mono; [|exact Hf]. cbn. intros u. lia.
    + apply wp_ret. apply (finds_mono v (fun _ => False)); [|by apply finds_none].
      intros u. apply andb_false_iff in Hc as [H0%negb_false_iff%Z.eqb_eq|H1%Z.leb_gt]; lia.
  - intros [a|] w Hf1; cbn beta iota.
    + apply wp_ret. eapply finds_mono; [|exact (finds_some v _ (fun u => d <> 0 /\ u = Dir_Track g + d /\ u <= num_tracks g) _ _ Hf1)].
      cbn. unfold butterfly_tracks. intros u. tauto.
    + assert (wp (if (Dir_Track g + d <=? num_tracks g) && negb (d =? 0)
                  then let! r := vdrive_bam_alloc_worker (Dir_Track g + d) 0 in
                       mret (match r with Some s => Some (Dir_Track g + d, s) | None => None end)
                  else mret None)
              (finds w (fun u => d <> 0 /\ u = Dir_Track g + d /\ u <= num_tracks g)) w) as Hw.
      { destruct ((Dir_Track g + d <=? num_tracks g) && negb (d =? 0)) eqn:Hc.
        - apply andb_true_iff in Hc as [H1%Z.leb_le H0]. apply negb_true_iff, Z.eqb_neq in H0.
          eapply wp_mono; [apply Htry; [apply Hf1|apply Hf1|lia]|]. intros r w' Hf.
          eapply finds_mono; [|exact Hf]. cbn. intros u. lia.
        - apply wp_ret. apply (finds_mono w (fun _ => False)); [|apply finds_none; [apply Hf1|reflexivity|done|apply Hf1]].
          intros u. apply andb_false_iff in Hc as [H1%Z.leb_gt|H0%negb_false_iff%Z.eqb_eq]; lia. }
      eapply wp_mono; [exact Hw|]. intros r w' Hf2. eapply finds_mono; [|by eapply finds_seq].
      cbn. unfold butterfly_tracks. intros u. tauto.
Qed.

(** ** Whole searches *)

Lemma not_9000 v : inv v -> image_format (geom v) <> VDRIVE_IMAGE_FORMAT_9000.
Proof. intros (b & Hok). pose proof (bo_format _ _ Hok) as Hf. by format_cases Hf. Qed.

(** The tracks that a file may use *)
Definition file_track (g : geom_t) (u : Z) : Prop := 1 <= u <= num_tracks g /\ u <> Dir_Track g.

Lemma next_free_finds v t s il : let g := geom v in
  inv v -> image_format g <> VDRIVE_IMAGE_FORMAT_NP -> fits v s il ->
  num_tracks g <= last_track (image_format g) -> 1 <= t <= num_tracks g ->
  2 <= Dir_Track g <= num_tracks g -> t <> Dir_Track g ->
  wp (vdrive_bam_alloc_next_free_sector_interleave t s il) (finds v (file_track g)) v.
Proof.
  intros g Hinv Hnp Hfit Hn Ht Hdir Hne. pose proof (not_9000 v Hinv) as H9. fold g in H9.
  unfold vdrive_bam_alloc_next_free_sector_interleave. apply wp_bindST, wp_eq with v v; [done|]. fold g.
  rewrite (proj2 (Z.eqb_neq _ _) Hne), (proj2 (Z.eqb_neq _ _) H9), (proj2 (Z.eqb_neq _ _) Hnp). cbn [andb negb].
  destruct (add_interleave_run v t s il Hinv Hfit) as (x & Hx & Hb).
  apply wp_bindST, wp_eq with x v; [by cbn; rewrite Hx|].
  apply wp_bindST. eapply wp_mono; [apply worker_run; [done|fold g; lia|done]|]. intros r v1 Hr.
  pose proof (scanned_finds v t x r v1 Hb Hr) as Hf1. destruct r as [y|]; cbn beta iota in *.
  - apply wp_ret. destruct Hf1 as (Hi & Hfr & _ & ?). split; [done|]. split; [done|]. done.
  - apply wp_bindST. assert (geom v1 = g) as Hg by (apply frame_geom; apply Hf1).
    eapply wp_mono; [apply passes_finds; [apply Hf1|eapply fits_frame; [apply Hf1|done]|rewrite Hg; done|rewrite Hg; done|rewrite Hg; done|done]|].
    intros r v2 Hf2. rewrite Hg in Hf2. pose proof (finds_seq _ _ _ _ _ _ Hf1 Hf2) as Hf.
    assert (finds v (file_track g) r v2) as Hf3
      by (eapply finds_mono; [|exact Hf]; intros u; cbn; split; [intros [<-|?]; done|by right]).
    destruct r as [a|]; apply wp_ret; done.
Qed.

Lemma first_free_finds v : let g := geom v in
  inv v -> image_format g <> VDRIVE_IMAGE_FORMAT_NP ->
  num_tracks g <= last_track (image_format g) -> 1 <= Dir_Track g ->
  Dir_Track g - 1 <= vdrive_calculate_disk_half v ->
  num_tracks g - Dir_Track g <= vdrive_calculate_disk_half v -> Dir_Track g <= num_tracks g ->
  wp vdrive_bam_alloc_first_free_sector (finds v (file_track g)) v.
Proof.
  intros g Hinv Hnp Hn Hd0 Hhalf1 Hhalf2 Hd1. pose proof (not_9000 v Hinv) as H9. fold g in H9.
  set (half := vdrive_calculate_disk_half v) in *.
  unfold vdrive_bam_alloc_first_free_sector. apply wp_bindST, wp_eq with v v; [done|]. fold g.
  rewrite (proj2 (Z.eqb_neq _ _) H9), (proj2 (Z.eqb_neq _ _) Hnp). fold half.
  destruct (Z.ltb_spec half 0); [lia|].
  eapply wp_mono; [apply (for_finds _ _ _ _ (butterfly_tracks g)); [done|]|].
  - intros d w Hd Hinvw Hfr. pose proof (frame_geom _ _ Hfr) as Hg. fold g in Hg.
    pose proof (butterfly_finds w d Hinvw) as Hb. cbn zeta in Hb. rewrite Hg in Hb. apply Hb; (done || lia).
  - intros r w Hf. eapply finds_mono; [|exact Hf]. cbn. unfold butterfly_tracks, file_track. intros u. split.
    + intros (d & Hd & Hne & Hu). lia.
    + intros Hu. exists (Z.abs (u - Dir_Track g)). lia.
Qed.

(** ** The number of sectors *)

(** A set of sectors is not larger than the BAM. *)
Lemma bam_size_bound (f : Z) (X : gset (Z * Z)) : f ∈ bam_formats -> (forall a, a ∈ X -> bam_addr f a.1 a.2) ->
  Z.of_nat (size X) <= last_track f * (8 * map_bytes f).
Proof.
  intros Hf HX. set (code := fun a : Z * Z => (a.1 - 1) * (8 * map_bytes f) + a.2).
  assert (0 < map_bytes f /\ 0 <= last_track f) as [Hm Hl] by (by format_cases Hf).
  assert (length (code <$> elements X) <= length (seqZ 0 (last_track f * (8 * map_bytes f))))%nat as Hlen.
  { apply NoDup_incl_length.
    - apply NoDup_ListNoDup, NoDup_fmap_2_strong; [|apply NoDup_elements]. intros [t s] [t' s'] Ha%elem_of_elements Ha'%elem_of_elements.
      apply HX in Ha as [_ Hs], Ha' as [_ Hs']. unfold code. cbn in *. intros Heq. assert (t = t') by nia. subst t'. f_equal. lia.
    - intros x Hx. apply list_elem_of_In, list_elem_of_fmap in Hx as ([t s] & -> & Ha%elem_of_elements).
      apply HX in Ha as [Ht Hs]. cbn in Ht, Hs. apply list_elem_of_In, elem_of_seqZ. unfold code. cbn. nia. }
  rewrite length_fmap, length_seqZ in Hlen. change (length (elements X)) with (size X) in Hlen. nia.
Qed.

(** ** Reading a drive *)

(** A drive with an attached linear image of bytes, with or without partitions *)
Record chain_drive (v : vdrive_t) (image : disk_image_t) : Prop := {
  cd_set : image_set v = true;
  cd_image : images0 v = Some image;
  cd_wf : Image.image_wf image;
  cd_bytes : forall f i, fd_ image = Some f -> 0 <= f_data f i < 256
}.

Lemma frame_parts v v' : frame v v' -> image_set v' = image_set v /\ images0 v' = images0 v /\ part v' = part v /\ geom v' = geom v.
Proof.
  intros Hfr. split_and!; [apply (f_equal image_set) in Hfr|apply (f_equal images0) in Hfr
    |apply (f_equal part) in Hfr|apply (f_equal geom) in Hfr]; done.
Qed.

Lemma chain_drive_frame v v' image : frame v v' -> chain_drive v image -> chain_drive v' image.
Proof.
  intros Hfr [H1 H2 H3 H4]. destruct (frame_parts _ _ Hfr) as (E1 & E2 & E3 & E4). split; rewrite ?E1, ?E2; done.
Qed.

Lemma bam_ok_mode v b m : bam_ok v b -> bam_ok (set_image_mode m v) b.
Proof. intros Hok. split; apply Hok. Qed.

Lemma bam_ok_error v b c t s : bam_ok v b ->
  bam_ok (set_last_code c (set_err_track t (set_err_sector s v))) b.
Proof. intros Hok. split; apply Hok. Qed.

(** The error map of the image has an entry for the sector, if there is such a sector. *)
Definition in_map (image : disk_image_t) (t s : Z) : Prop :=
  forall m, map_ image = Some m -> Geometry.disk_image_check_sector image t s < mlen m.

(** Reading at any address of a linear image *)
Lemma read_image_total image tmp t s : Image.image_wf image -> (forall f i, fd_ image = Some f -> 0 <= f_data f i < 256) ->
  in_map image t s -> 0 <= t -> 0 <= s -> mlen tmp = 256 -> bytes_ok tmp ->
  exists rc tmp', Image.disk_image_read_sector image tmp t s = Some (rc, tmp') /\ mlen tmp' = 256 /\ bytes_ok tmp'.
Proof.
  intros Hwf Hdata Hmap Ht Hs Htmp Hbytes.
  destruct (Geometry.check_sector_range image t s (Image.wf_device _ Hwf) (Image.wf_type _ Hwf) Ht Hs) as [Hvalid _].
  destruct (Z.leb_spec 0 (Geometry.disk_image_check_sector image t s)) as [Hpos|Hneg].
  - destruct (Image.read_sector_total image tmp t s Hwf (conj (proj1 Hvalid Hpos) Hmap) Htmp) as (f & rc & n & Hfd & Hn & Hrd).
    exists rc. eexists. split; [exact Hrd|]. split.
    + unfold mlen in *. rewrite length_app, Image.length_f_bytes, length_drop. lia.
    + apply Forall_app. split; [|by apply Forall_drop]. apply Forall_fmap, Forall_forall. intros i _. by apply Hdata.
  - exists CBMDOS_IPE_ILLEGAL_TRACK_OR_SECTOR, tmp. split; [|done]. destruct (Image.wf_fd _ Hwf) as (f & Hfd & _).
    unfold Image.disk_image_read_sector, Image.fsimage_read_sector.
    rewrite (Image.wf_device _ Hwf), Hfd, (Image.linear_is_dxx _ (Image.wf_type _ Hwf)). cbn [Z.eqb DISK_IMAGE_DEVICE_FS].
    unfold Image.fsimage_dxx_read_sector. by rewrite (proj2 (Z.ltb_lt _ 0)) by lia.
Qed.

(** What the drive reads at a logical address: the status, and the buffer *)
Definition read_logical (v : vdrive_t) (image : disk_image_t) (tmp : mem) (t s : Z) : option (Z * mem) :=
  d ← VDrive.vdrive_log_to_phy v t s;
  match d with
  | None => Some (CBMDOS_IPE_NOT_READY, tmp)
  | Some (t, s) => Image.disk_image_read_sector image tmp t s
  end.

Lemma read_logical_frame v v' image tmp t s : frame v v' -> read_logical v' image tmp t s = read_logical v image tmp t s.
Proof.
  intros Hfr. unfold read_logical. assert (VDrive.vdrive_log_to_phy v' t s = VDrive.vdrive_log_to_phy v t s) as ->; [|done].
  exact (eq_sym (f_equal (fun w => VDrive.vdrive_log_to_phy w t s) Hfr)).
Qed.

(** The drive finds the entry of the error map for the logical address. *)
Definition mapped (v : vdrive_t) (image : disk_image_t) (t s : Z) : Prop :=
  forall t' s', VDrive.vdrive_log_to_phy v t s = Some (Some (t', s')) -> in_map image t' s'.

Lemma not_hard_disk image : Image.image_wf image ->
  (di_type image =? DISK_IMAGE_TYPE_DHD) = false /\ (di_type image =? DISK_IMAGE_TYPE_G71) = false.
Proof.
  intros Hwf. pose proof (Image.wf_type _ Hwf) as Hty. unfold Geometry.linear_types in Hty.
  repeat (apply elem_of_cons in Hty as [->|Hty]; [done|]). by apply not_elem_of_nil in Hty.
Qed.

Lemma log_offset_total v image t s : image_set v = true -> images0 v = Some image -> 0 <= t -> 0 <= s ->
  image_format (geom v) = VDRIVE_IMAGE_FORMAT_SYS \/ 1 <= t ->
  is_Some (VDrive.log_offset v t s).
Proof.
  intros Hset Himg Ht Hs H1. unfold VDrive.log_offset, deref_image. rewrite Hset, Himg. cbn [mbind option_bind].
  assert (forall last, last <= 70 -> 1 <= t -> is_Some (if last <? t then Some None else
    m ← getb VDrive.max4171 t; if m <=? s then Some None else o ← getb VDrive.tosec4171 t; Some (Some (u32 (o + s))))) as Hcbm.
  { intros last Hl H. destruct (Z.ltb_spec last t); [done|]. destruct (VDrive.tables_eq t ltac:(lia)) as [-> ->].
    cbn [mbind option_bind]. by case_match. }
  destruct (Z.eqb_spec (image_format (geom v)) VDRIVE_IMAGE_FORMAT_1541) as [E|];
    [apply Hcbm; [lia|by destruct H1 as [H1|]; [rewrite E in H1|]]|].
  destruct (Z.eqb_spec (image_format (geom v)) VDRIVE_IMAGE_FORMAT_1571) as [E|];
    [apply Hcbm; [lia|by destruct H1 as [H1|]; [rewrite E in H1|]]|].
  repeat (case_match; [done|..]). all: repeat case_match; done.
Qed.

(** Every address is mapped to an address in the image or refused. *)
Lemma log_to_phy_total v image t s : chain_drive v image -> 0 <= t -> 0 <= s ->
  exists d, VDrive.vdrive_log_to_phy v t s = Some d /\ forall t' s', d = Some (t', s') -> 0 <= t' /\ 0 <= s'.
Proof.
  intros Hcd Ht Hs. destruct (not_hard_disk _ (cd_wf _ _ Hcd)) as [Hhd H71]. unfold VDrive.vdrive_log_to_phy, VDrive.VDRIVE_IS_HD, deref_image.
  rewrite (cd_set _ _ Hcd), (cd_image _ _ Hcd). cbn [negb mbind option_bind]. rewrite Hhd, H71.
  destruct (current_offset (part v) =? UINT32_MAX); [by exists None|]. cbn [orb].
  destruct (haspt (part v)); [|exists (Some (t, s)); split; [done|by intros ? ? [= <- <-]]].
  destruct (negb (image_format (geom v) =? VDRIVE_IMAGE_FORMAT_SYS) && (t <? 1)) eqn:Hlow; [by exists None|].
  destruct (log_offset_total v image t s (cd_set _ _ Hcd) (cd_image _ _ Hcd) Ht Hs) as [o ->].
  { destruct (Z.eqb_spec (image_format (geom v)) VDRIVE_IMAGE_FORMAT_SYS); [by left|]. right. cbn in Hlow. lia. }
  cbn [mbind option_bind]. destruct o as [o|]; [|by exists None]. eexists. split; [reflexivity|]. intros ? ? [= <- <-].
  assert (0 <= u32 (o + current_offset (part v) * 2)) by (unfold u32; apply Z.mod_pos_bound; lia).
  rewrite Z.shiftr_div_pow2 by lia. split; [|by apply Z.land_nonneg; lia].
  assert (0 <= u32 (o + current_offset (part v) * 2) / 2 ^ 8) by (apply Z.div_pos; lia). lia.
Qed.

(** Reading a sector of such a drive: a status and a buffer of bytes, and no
    change but to the image mode. *)
Lemma read_total v image tmp t s : chain_drive v image -> mapped v image t s -> 0 <= t -> 0 <= s ->
  mlen tmp = 256 -> bytes_ok tmp ->
  exists rc tmp', read_logical v image tmp t s = Some (rc, tmp') /\
    VDrive.vdrive_read_sector tmp t s v = Some ((rc, tmp'), set_image_mode 0 v) /\
    mlen tmp' = 256 /\ bytes_ok tmp'.
Proof.
  intros Hcd Hmap Ht Hs Htmp Hbytes. destruct (log_to_phy_total v image t s Hcd Ht Hs) as (d & Hd & Hpos).
  assert (exists rc tmp', read_logical v image tmp t s = Some (rc, tmp') /\
    mlen tmp' = 256 /\ bytes_ok tmp') as (rc & tmp' & Hrd & Hl & Hb).
  { unfold read_logical. rewrite Hd. cbn [mbind option_bind]. destruct d as [[t' s']|]; [|by eexists _, _].
    destruct (Hpos t' s' eq_refl) as [Ht' Hs']. specialize (Hmap t' s' Hd).
    by apply read_image_total; [apply Hcd|apply Hcd|..]. }
  exists rc, tmp'. split; [done|]. split; [|done].
  unfold VDrive.vdrive_read_sector, VDrive.update_image_mode, mbind, ST_bind, bindST. cbn.
  rewrite (cd_set _ _ Hcd), (cd_image _ _ Hcd). cbn. rewrite (Image.wf_rw _ (cd_wf _ _ Hcd)). cbn.
  change (VDrive.vdrive_log_to_phy (set_image_mode 0 v) t s) with (VDrive.vdrive_log_to_phy v t s).
  unfold read_logical in Hrd. rewrite Hd in *. cbn [mbind option_bind] in Hrd. destruct d as [[t' s']|]; [|by injection Hrd as <- <-].
  unfold deref_image. cbn. rewrite (cd_set _ _ Hcd), (cd_image _ _ Hcd). cbn. by rewrite Hrd.
Qed.

(** ** Chains *)

(** The sectors that are met on the links from [(t, s)]: behind the sector [(t, s)] the program goes
    on to a track other than 0 if [goes t s rc] holds for the status of the sector. *)
Inductive reached (goes : Z -> Z -> Z -> Prop) (v : vdrive_t) (image : disk_image_t) : mem -> Z -> Z -> Z * Z -> Prop :=
  | reached_here tmp t s : reached goes v image tmp t s (t, s)
  | reached_next tmp t s rc tmp' t' s' a :
      read_logical v image tmp t s = Some (rc, tmp') -> goes t s rc ->
      getb tmp' 0 = Some t' -> getb tmp' 1 = Some s' -> t' <> 0 ->
      reached goes v image tmp' t' s' a -> reached goes v image tmp t s a.

(** An invariant of the links *)
Lemma reached_inv (I : mem -> Z -> Z -> Prop) goes v image :
  (forall tmp t s rc tmp' t' s', I tmp t s -> read_logical v image tmp t s = Some (rc, tmp') -> goes t s rc ->
     getb tmp' 0 = Some t' -> getb tmp' 1 = Some s' -> t' <> 0 -> I tmp' t' s') ->
  forall tmp t s a, reached goes v image tmp t s a -> I tmp t s -> exists tmp', I tmp' a.1 a.2.
Proof. intros Hstep tmp t s a. induction 1 as [tmp t s|tmp t s rc tmp' t' s' a Hrd Hg H0 H1 Hne Hr IH]; eauto. Qed.

(** What a read leaves in the buffer: the buffer, or the beginning of a block *)
Lemma read_contents v image tmp t s rc tmp' : chain_drive v image -> read_logical v image tmp t s = Some (rc, tmp') ->
  tmp' = tmp \/ exists f k n, fd_ image = Some f /\ 0 <= n /\ tmp' = (f_data f <$> seqZ (256 * k) n) ++ drop (Z.to_nat n) tmp.
Proof.
  intros Hcd. unfold read_logical. destruct (VDrive.vdrive_log_to_phy v t s) as [[[t' s']|]|]; cbn [mbind option_bind]; [|by intros [= <- <-]; left|done].
  destruct (Image.wf_fd _ (cd_wf _ _ Hcd)) as (f & Hfd & _). unfold Image.disk_image_read_sector, Image.fsimage_read_sector.
  rewrite (Image.wf_device _ (cd_wf _ _ Hcd)), Hfd, (Image.linear_is_dxx _ (Image.wf_type _ (cd_wf _ _ Hcd))).
  cbn [Z.eqb DISK_IMAGE_DEVICE_FS]. unfold Image.fsimage_dxx_read_sector. rewrite Hfd.
  set (k := Geometry.disk_image_check_sector image t' s'). destruct (Z.ltb_spec k 0); [by intros [= <- <-]; left|].
  unfold int_mul. destruct (_ && _); cbn [mbind option_bind]; [|done].
  assert (forall c : Z, (let '(rc, buf) := Image.util_fpread f tmp 256 (k * 256) in if rc <? 0 then Some (-1, buf) else Some (c, buf)) = Some (rc, tmp') ->
    exists f' k n, Some f = Some f' /\ 0 <= n /\ tmp' = (f_data f' <$> seqZ (256 * k) n) ++ drop (Z.to_nat n) tmp) as Hread.
  { intros c. unfold Image.util_fpread. destruct (Z.ltb_spec (k * 256) 0); [lia|]. intros Hrd.
    exists f, k, (Z.max 0 (Z.min 256 (f_size f - k * 256))). split; [done|]. split; [lia|].
    rewrite (Z.mul_comm 256). by case_match; simplify_eq. }
  destruct (map_ image) as [m|]; cbn [mbind option_bind]; [|intros Hr; right; by eapply Hread].
  destruct (getb m k) as [rf|]; cbn [mbind option_bind]; [|done]. destruct (negb (Image.soft_error rf)); [by intros [= <- <-]; left|].
  intros Hr. right. by eapply Hread.
Qed.

(** On a disk where no link leads beyond a track, none beyond it is reached. *)
Lemma links_below last goes v image : chain_drive v image ->
  (forall f k, fd_ image = Some f -> f_data f (256 * k) <= last) ->
  forall tmp t s a, reached goes v image tmp t s a -> t <= last -> default 0 (getb tmp 0) <= last -> 0 < mlen tmp -> a.1 <= last.
Proof.
  intros Hcd Hdata tmp t s a Ha Ht Htmp Hl.
  destruct (reached_inv (fun tmp t s => t <= last /\ default 0 (getb tmp 0) <= last /\ 0 < mlen tmp) goes v image)
    with (tmp := tmp) (t := t) (s := s) (a := a) as (? & ? & _); [|done..]. clear -Hcd Hdata.
  intros tmp t s rc tmp' t' s' (_ & Htmp & Hl) Hrd _ H0 _ _. rewrite H0. cbn [default from_option id].
  enough (t' <= last /\ 0 < mlen tmp') by tauto. split; [|apply getb_lt in H0; lia].
  destruct (read_contents _ _ _ _ _ _ _ Hcd Hrd) as [->|(f & k & n & Hf & Hn & ->)]; [by rewrite H0 in Htmp|].
  destruct (decide (n = 0)) as [->|Hne].
  { rewrite seqZ_nil in H0 by lia. change (getb tmp 0 = Some t') in H0. by rewrite H0 in Htmp. }
  rewrite (seqZ_cons _ n) in H0 by lia. cbn in H0. injection H0 as <-. by apply Hdata.
Qed.

(** Following a chain goes on behind a sector of the image that was read without an error. *)
Definition follows (image : disk_image_t) (t s rc : Z) : Prop :=
  Geometry.valid_address (di_type image) t s /\ rc = 0.

(** A sector that the image has is one of the BAM, and its status is known. *)
Definition known (v : vdrive_t) (image : disk_image_t) (t s : Z) : Prop :=
  Geometry.valid_address (di_type image) t s -> bam_addr (image_format (geom v)) t s /\ mapped v image t s.

(** The chain of sectors from [(t, s)], followed with buffer [tmp]. *)
Inductive linked (v : vdrive_t) (image : disk_image_t) : mem -> Z -> Z -> list (Z * Z) -> Prop :=
  | linked_end tmp s : linked v image tmp 0 s []
  | linked_next tmp t s tmp' t' s' l :
      t <> 0 -> read_logical v image tmp t s = Some (0, tmp') ->
      getb tmp' 0 = Some t' -> getb tmp' 1 = Some s' -> linked v image tmp' t' s' l ->
      linked v image tmp t s ((t, s) :: l).

(** Reading with a drive that differs from [v0] in its BAM *)
Lemma read_framed v0 v image tmp t s : chain_drive v0 image -> frame v0 v -> mapped v0 image t s -> 0 <= t -> 0 <= s ->
  mlen tmp = 256 -> bytes_ok tmp ->
  exists rc tmp' t' s', read_logical v0 image tmp t s = Some (rc, tmp') /\
    VDrive.vdrive_read_sector tmp t s v = Some ((rc, tmp'), set_image_mode 0 v) /\
    mlen tmp' = 256 /\ bytes_ok tmp' /\ getb tmp' 0 = Some t' /\ getb tmp' 1 = Some s' /\ 0 <= t' /\ 0 <= s'.
Proof.
  intros Hcd Hfr Hmap Ht Hs Htmp Hbytes.
  destruct (read_total v image tmp t s) as (rc & tmp' & Hrd & Hrun & Hl & Hb); try done.
  { by eapply chain_drive_frame. }
  { intros t' s' H. apply Hmap. by rewrite (f_equal (fun w => VDrive.vdrive_log_to_phy w t s) Hfr : VDrive.vdrive_log_to_phy v0 t s = _). }
  rewrite (read_logical_frame _ _ _ _ _ _ Hfr) in Hrd.
  destruct (getb_is_Some tmp' 0) as [t' Ht']; [lia|]. destruct (getb_is_Some tmp' 1) as [s' Hs']; [lia|].
  assert (forall i x, getb tmp' i = Some x -> 0 <= x) as Hpos.
  { intros i x [_ Hx]%getb_Some. apply (Forall_lookup_1 _ _ _ _ Hb Hx). }
  exists rc, tmp', t', s'. split_and!; eauto.
Qed.

(** Checking an address *)
Lemma deref_framed v0 v image : chain_drive v0 image -> frame v0 v -> deref_image v = Some image.
Proof.
  intros Hcd Hfr. destruct (frame_parts _ _ Hfr) as (E1 & E2 & _). unfold deref_image.
  by rewrite E1, E2, (cd_set _ _ Hcd), (cd_image _ _ Hcd).
Qed.

Lemma address_valid v image t s : chain_drive v image -> 0 <= t -> 0 <= s ->
  0 <= Geometry.disk_image_check_sector image t s <-> Geometry.valid_address (di_type image) t s.
Proof. intros Hcd Ht Hs. by apply Geometry.check_sector_range; [apply (cd_wf _ _ Hcd)|apply (cd_wf _ _ Hcd)|..]. Qed.

Definition chain_result (v0 v : vdrive_t) (image : disk_image_t) (tmp : mem) (t s rc : Z) (v' : vdrive_t) : Prop :=
  inv v' /\ frame v v' /\ exists l, NoDup l /\ list_to_set l ⊆ free v /\
    free v' = free v ∖ list_to_set l /\ (rc = CBMDOS_IPE_OK -> linked v0 image tmp t s l).

(** A chain that ends in front of its first sector, or behind it *)
Lemma chain_stop v0 v v' image tmp t s rc : inv v' -> frame v v' -> free v' = free v ->
  (rc = CBMDOS_IPE_OK -> t = 0) -> chain_result v0 v image tmp t s rc v'.
Proof.
  intros Hi Hf Hfr Hrc. split; [done|]. split; [done|]. exists []. split; [constructor|].
  split; [set_solver|]. split; [set_solver|]. intros H0. rewrite (Hrc H0). constructor.
Qed.

Lemma chain_one v0 v v' image tmp t s rc : inv v' -> frame v v' -> (t, s) ∈ free v -> free v' = free v ∖ {[(t, s)]} ->
  rc <> CBMDOS_IPE_OK -> chain_result v0 v image tmp t s rc v'.
Proof.
  intros Hi Hf Hin Hfr Hrc. split; [done|]. split; [done|]. exists [(t, s)].
  split; [apply NoDup_singleton|]. split; [set_solver|]. split; [set_solver|]. done.
Qed.

Lemma chain_error v0 v w image tmp t s c : inv w -> frame v w -> free w = free v -> c <> CBMDOS_IPE_OK ->
  wp (VDrive.vdrive_command_set_error c t s) (chain_result v0 v image tmp t s) w.
Proof.
  intros (b & Hok) Hfr Hf Hc. eapply wp_eq; [reflexivity|]. apply chain_stop; [exists b; by apply bam_ok_error|done|done|done].
Qed.

Lemma chain_cons v0 v v1 image tmp t s tmp' t' s' rc v' : t <> 0 -> (t, s) ∈ free v ->
  frame v v1 -> free v1 = free v ∖ {[(t, s)]} -> read_logical v0 image tmp t s = Some (0, tmp') ->
  getb tmp' 0 = Some t' -> getb tmp' 1 = Some s' ->
  chain_result v0 v1 image tmp' t' s' rc v' -> chain_result v0 v image tmp t s rc v'.
Proof.
  intros Hnz Hb Hfr2 Hf2 Hrd Ht' Hs' (Hinv' & Hfr' & l & Hnd & Hsub & Hf' & Hl). rewrite Hf2 in Hsub, Hf'.
  split; [done|]. split; [by etrans|]. exists ((t, s) :: l).
  split; [constructor; [|done]; intros Hin; apply (elem_of_list_to_set (C := gset (Z * Z))) in Hin; set_solver|].
  split; [set_solver|]. split; [rewrite Hf'; set_solver|].
  intros Hrc. econstructor; eauto.
Qed.

(** A link to track 0 leads to no sector. *)
Lemma reached_zero goes v image tmp s a : (forall t s rc, goes t s rc -> Geometry.valid_address (di_type image) t s) ->
  reached goes v image tmp 0 s a -> ~ Geometry.valid_address (di_type image) a.1 a.2.
Proof.
  intros Hgoes Ha Hv. inversion Ha as [? ? ? E1 E2 E3|? ? ? ? ? ? ? ? ? H0%Hgoes ? ? ? ?]; subst.
  - by destruct (Geometry.valid_address_pos _ _ _ Hv).
  - by destruct (Geometry.valid_address_pos _ _ _ H0).
Qed.

Lemma chain_run v0 image fuel : chain_drive v0 image -> forall v tmp t s, inv v -> frame v0 v ->
  (forall a, reached (follows image) v0 image tmp t s a -> known v0 image a.1 a.2) ->
  mlen tmp = 256 -> bytes_ok tmp -> 0 <= t -> 0 <= s -> (size (free v) < fuel)%nat ->
  wp (allocate_chain fuel 0 t s tmp) (chain_result v0 v image tmp t s) v.
Proof.
  intros Hcd. induction fuel as [|fuel IH]; intros v tmp t s Hinv Hfr0 Hknown Htmp Hbytes Ht Hs Hfuel; [lia|].
  cbn [allocate_chain]. destruct (Z.eqb_spec t 0) as [->|Hnz]; [by apply wp_ret, chain_stop|].
  apply wp_bindST, wp_eq with v v; [done|].
  apply wp_bindST, wp_eq with image v; [cbn; by rewrite (deref_framed v0 v image Hcd Hfr0)|].
  pose proof (address_valid v0 image t s Hcd Ht Hs) as Hvalid.
  destruct (Z.ltb_spec (Geometry.disk_image_check_sector image t s) 0) as [|H]; [by apply chain_error|].
  apply Hvalid in H. destruct (Hknown (t, s) (reached_here _ _ _ _ _ _) H) as [Ha Hmap]. cbn in Ha, Hmap.
  assert (valid v t s) as Hav by (unfold valid; by rewrite (frame_geom _ _ Hfr0)).
  apply wp_bindST. eapply wp_mono; [by apply (alloc_law (H := bam_map))|].
  intros r v1 (-> & Hinv1 & Hfr1 & Hfree1). cbn beta.
  destruct (bool_decide ((t, s) ∈ fm_free v)) eqn:Hb; cbn [b2z Z.eqb].
  2: { apply bool_decide_eq_false_1 in Hb. rewrite difference_not_in in Hfree1 by done. by apply chain_error. }
  apply bool_decide_eq_true_1 in Hb. cbn in Hb, Hfree1, Hfr1, Hinv1.
  destruct (read_framed v0 v1 image tmp t s) as (rc & tmp' & t' & s' & Hrd & Hrun & Htmp' & Hbytes' & Ht' & Hs' & Hp1 & Hp2); try done.
  { by etrans. }
  apply wp_bindST, wp_eq with (rc, tmp') (set_image_mode 0 v1); [done|]. cbn beta iota.
  assert (inv (set_image_mode 0 v1)) as Hinv2 by (destruct Hinv1 as (b & Hok); exists b; by apply bam_ok_mode).
  assert (frame v (set_image_mode 0 v1)) as Hfr2 by exact Hfr1.
  assert (free (set_image_mode 0 v1) = free v ∖ {[(t, s)]}) as Hf2 by exact Hfree1.
  destruct (Z.ltb_spec 0 rc); [apply wp_ret, chain_one; try done; unfold CBMDOS_IPE_OK; lia|].
  destruct (Z.ltb_spec rc 0); [by apply wp_ret, chain_one|]. assert (rc = 0) as -> by lia.
  apply wp_bindST, wp_eq with t' (set_image_mode 0 v1); [by cbn; rewrite Ht'|].
  apply wp_bindST, wp_eq with s' (set_image_mode 0 v1); [by cbn; rewrite Hs'|].
  eapply wp_mono; [apply IH; [done|by etrans| |done..|]|].
  - intros a Ha'. destruct (decide (t' = 0)) as [->|Hne].
    + intros Hv. by destruct (reached_zero (follows image) v0 image tmp' s' a (fun _ _ _ H => proj1 H) Ha').
    + apply Hknown. eapply reached_next; [done|by split|done|done|done|done].
  - rewrite Hf2, size_difference by set_solver. rewrite size_singleton.
    assert (size (free v) <> 0%nat) by (apply size_non_empty_iff; set_solver). lia.
  - intros rc v'. by eapply chain_cons.
Qed.

(** ** Properties *)

(** The scan of a track takes the first free sector in cyclic order from
    the start sector, and fails exactly when the track has no free sector;
    nothing but that sector's entry changes. *)
Theorem alloc_worker_first_free v t s :
  inv v -> 1 <= t <= last_track (image_format (geom v)) -> 0 <= s < spt v t ->
  exists r v', vdrive_bam_alloc_worker t s v = Some (r, v') /\ frame v v' /\ inv v' /\
    match r with
    | Some x => exists k, 0 <= k < spt v t /\ x = nth_sector (spt v t) s k /\ (t, x) ∈ free v /\
        (forall j, 0 <= j < k -> (t, nth_sector (spt v t) s j) ∉ free v) /\
        free v' = free v ∖ {[(t, x)]}
    | None => free v' = free v /\ forall x, 0 <= x < spt v t -> (t, x) ∉ free v
    end.
Proof.
  intros Hinv Ht Hs. pose proof (worker_run v t s Hinv Ht Hs) as Hw.
  apply wp_run in Hw as (r & v' & Hrun & Hinv' & Hfr & Hr). exists r, v'. split_and!; try done.
  destruct r; [done|]. destruct Hr as [Hf Hn]. split; [done|]. intros x Hx.
  destruct (nth_sector_surj (spt v t) s x Hs Hx) as (j & Hj & <-). by apply Hn.
Qed.


(** The search for the first sector of a file, on the same formats, is
    complete when the directory track is within the disk half of both ends:
    it fails only if no track but the directory track has a free sector. *)
Theorem first_free_complete v : let g := geom v in
  inv v -> image_format g <> VDRIVE_IMAGE_FORMAT_NP ->
  num_tracks g <= last_track (image_format g) -> 1 <= Dir_Track g ->
  Dir_Track g - 1 <= vdrive_calculate_disk_half v ->
  num_tracks g - Dir_Track g <= vdrive_calculate_disk_half v -> Dir_Track g <= num_tracks g ->
  exists r v', vdrive_bam_alloc_first_free_sector v = Some (r, v') /\ frame v v' /\ inv v' /\
    match r with
    | Some (t', s') => 1 <= t' <= num_tracks g /\ t' <> Dir_Track g /\ 0 <= s' < spt v t' /\
        (t', s') ∈ free v /\ free v' = free v ∖ {[(t', s')]}
    | None => free v' = free v /\
        forall t' s', 1 <= t' <= num_tracks g -> t' <> Dir_Track g -> 0 <= s' < spt v t' ->
          (t', s') ∉ free v
    end.
Proof.
  intros g Hinv Hnp Hn Hd0 Hhalf1 Hhalf2 Hd1.
  pose proof (first_free_finds v Hinv Hnp Hn Hd0 Hhalf1 Hhalf2 Hd1) as Hw.
  apply wp_run in Hw as (r & v' & Hrun & Hinv' & Hfr & Hr). exists r, v'. split_and!; try done.
  unfold file_track in Hr. destruct r as [[t' s']|]; [naive_solver|]. destruct Hr as [Hf Hno]. split; [done|]. naive_solver.
Qed.

(** C13: following a chain for validation, on a drive with a writable linear image, with or without partitions, and a loaded
    BAM of any format but that of the D9090. It ends also when the links form a circle, lead to
    addresses that the image does not have or to sectors that cannot be read, as long as the BAM and the error map have
    the sectors of the image that it meets: fuel above the number of free sectors is enough. (The links
    that leave them make the program access other memory: tracks 81 to 83 of a D81, tracks above 35 of a D64 with an
    error map of 35 tracks.) The sectors it allocates were free, each is allocated once, no other
    sector changes, and on success they are the sectors of the chain. *)
Theorem allocate_chain_ends fuel v image t s :
  inv v -> chain_drive v image -> (forall i, 0 <= malloc_fill i < 256) -> 0 <= t -> 0 <= s ->
  (forall a, reached (follows image) v image (lib_malloc 256) t s a -> known v image a.1 a.2) ->
  (size (free v) < fuel)%nat ->
  exists rc v', vdrive_bam_allocate_chain fuel t s v = Some (rc, v') /\ inv v' /\ frame v v' /\
    exists l, NoDup l /\ list_to_set l ⊆ free v /\ free v' = free v ∖ list_to_set l /\
      (rc = CBMDOS_IPE_OK -> linked v image (lib_malloc 256) t s l).
Proof.
  intros Hinv Hcd Hm Ht Hs Hknown Hfuel.
  apply wp_run, (chain_run v image fuel Hcd v (lib_malloc 256) t s Hinv (reflexivity v) Hknown);
    [|apply Forall_fmap, Forall_forall; intros i _; apply Hm|exact Ht|exact Hs|exact Hfuel].
  unfold lib_malloc, mlen. by rewrite length_fmap, length_seqZ.
Qed.

End alloc_proofs.
End AllocSpec.

(** ** Concrete drives *)

Lemma inv_1541 : AllocSpec.inv drive_1541.
Proof. exists bam_1541. apply bam_ok_1541. Qed.

Lemma fits_1541 : AllocSpec.fits drive_1541 0 10.
Proof.
  split; [lia|]. split; [lia|]. intros t. destruct (AllocSpec.spt_run drive_1541 t inv_1541) as (_ & _ & H & _).
  lia.
Qed.

(** All sectors of a D64 are in the BAM of the 1541. *)
Lemma bam_addr_1541 t s : Geometry.valid_address DISK_IMAGE_TYPE_D64 t s -> BamSpec.bam_addr VDRIVE_IMAGE_FORMAT_1541 t s.
Proof.
  intros Hv. change (1 <= t <= MAX_TRACKS_1541 /\
    0 <= s < Geometry.disk_image_sector_per_track DISK_IMAGE_TYPE_D64 t) in Hv.
  destruct (AllocSpec.spt_run drive_1541 t inv_1541) as (_ & _ & _ & Hspt).
  change (AllocSpec.spt drive_1541 t) with (Geometry.disk_image_sector_per_track DISK_IMAGE_TYPE_D64 t) in Hspt.
  change (8 * BamSpec.map_bytes _) with 24 in Hspt.
  change (1 <= t <= 42 /\ 0 <= s < 24). unfold MAX_TRACKS_1541 in Hv. lia.
Qed.

(** All sectors of a D81 up to track 80 are in the BAM of the 1581. *)
Lemma bam_addr_1581 t s : Geometry.valid_address DISK_IMAGE_TYPE_D81 t s -> t <= 80 -> BamSpec.bam_addr VDRIVE_IMAGE_FORMAT_1581 t s.
Proof. intros Hv Ht. change (1 <= t <= 83 /\ 0 <= s < 40) in Hv. change (1 <= t <= 80 /\ 0 <= s < 40). lia. Qed.

(** Images without an error map have no sector outside of it. *)
Lemma known_plain v image t s : map_ image = None ->
  (Geometry.valid_address (di_type image) t s -> BamSpec.bam_addr (image_format (geom v)) t s) -> AllocSpec.known v image t s.
Proof. intros Hm Ha Hv. split; [by apply Ha|]. intros t' s' _ m Hmap. congruence. Qed.

(** A D81 with two sectors linked in a circle, all sectors of which are free *)
Definition circle_d81 : disk_image_t :=
  DiskImage 0 DISK_IMAGE_DEVICE_FS DISK_IMAGE_TYPE_D81 80 0 0
    (Some (File 819200 (fun i => if i <? 2 then 1 else if i =? 256 then 1 else 0) true)) None 0.

Definition circle_bam : mem := zeros 0x100 ++ concat (replicate 2 (zeros 0x10 ++ concat (replicate 40 [40; 255; 255; 255; 255; 255]))).

Definition circle_drive : vdrive_t :=
  VDrive 8 (Some circle_d81) true 0 (geom drive_1581)
    (Bamc (Some circle_bam) 768 ([0; 0; 0] ++ replicate 30 (-1)) (replicate 33 (-1)) (replicate 33 (-1)))
    (part1 0 false) 0 (zeros 2048) 0 0 0.

Lemma bam_ok_circle : BamSpec.bam_ok circle_drive circle_bam.
Proof.
  destruct bam_ok_1581 as [H1 _ _ _ _ _ _ H8].
  split; [exact H1|reflexivity|reflexivity|vm_compute; reflexivity|apply (bool_decide_eq_true_1 _); vm_compute; reflexivity
    | |reflexivity|exact H8].
  intros i lo hi Hin. apply not_elem_of_nil in Hin. destruct Hin.
Qed.

Lemma inv_circle : AllocSpec.inv circle_drive.
Proof. exists circle_bam. apply bam_ok_circle. Qed.

Lemma chain_drive_circle : AllocSpec.chain_drive circle_drive circle_d81.
Proof.
  split; [reflexivity|reflexivity| |].
  - split; [reflexivity|apply (bool_decide_eq_true_1 _); vm_compute; reflexivity|reflexivity| |].
    + eexists. split; reflexivity.
    + intros m Hm. discriminate Hm.
  - intros f i [= <-]. cbn. repeat case_match; lia.
Qed.

Lemma known_circle a : AllocSpec.reached (AllocSpec.follows circle_d81) circle_drive circle_d81 (@lib_malloc zero_platform 256) 1 0 a ->
  AllocSpec.known circle_drive circle_d81 a.1 a.2.
Proof.
  intros Ha. apply known_plain; [reflexivity|]. intros Hv. apply bam_addr_1581; [exact Hv|].
  eapply (AllocSpec.links_below 80); [apply chain_drive_circle| |exact Ha|lia|vm_compute; congruence|vm_compute; reflexivity].
  intros f k [= <-]. cbn. repeat case_match; lia.
Qed.

Lemma alloc_worker_witness :
  exists r v', BamAlloc.vdrive_bam_alloc_worker 1 5 drive_1541 = Some (r, v') /\
    AllocSpec.frame drive_1541 v' /\ AllocSpec.inv v'.
Proof.
  destruct (AllocSpec.alloc_worker_first_free drive_1541 1 5 inv_1541 ltac:(vm_compute; split; congruence)
    ltac:(vm_compute; split; congruence)) as (r & v' & Hrun & Hfr & Hinv & _).
  exists r, v'. split; [exact Hrun|]. split; [exact Hfr|exact Hinv].
Defined.


Lemma first_free_witness :
  exists r v', BamAlloc.vdrive_bam_alloc_first_free_sector drive_1541 = Some (r, v') /\
    AllocSpec.inv v'.
Proof.
  destruct (AllocSpec.first_free_complete drive_1541 inv_1541 ltac:(vm_compute; congruence)
    ltac:(vm_compute; congruence) ltac:(vm_compute; congruence) ltac:(vm_compute; congruence)
    ltac:(vm_compute; congruence) ltac:(vm_compute; congruence))
    as (r & v' & Hrun & _ & Hinv & _).
  exists r, v'. split; [exact Hrun|exact Hinv].
Defined.

Lemma free_size_circle : (size (AllocSpec.free circle_drive) < 3300)%nat.
Proof.
  rewrite (AllocSpec.free_ok _ _ bam_ok_circle). change (image_format (geom circle_drive)) with VDRIVE_IMAGE_FORMAT_1581.
  assert (Z.of_nat (size (BamSpec.free_set VDRIVE_IMAGE_FORMAT_1581 circle_bam)) <= 3200) as Hle; [|lia].
  apply (AllocSpec.bam_size_bound VDRIVE_IMAGE_FORMAT_1581); [apply bam_ok_1581|]. intros a Ha. destruct a as [t s].
  by apply BamSpec.elem_of_free_set in Ha as [Ha _].
Qed.

(** The circle is noticed at its first sector, which is no longer free. *)
Lemma allocate_chain_witness :
  exists v', BamAlloc.vdrive_bam_allocate_chain 3300 1 0 circle_drive = Some (CBMDOS_IPE_NO_BLOCK, v') /\
    AllocSpec.inv v'.
Proof.
  destruct (@AllocSpec.allocate_chain_ends zero_platform 3300 circle_drive circle_d81 1 0 inv_circle chain_drive_circle
    ltac:(intros i; change (0 <= 0 < 256); lia) ltac:(lia) ltac:(lia) known_circle free_size_circle) as (rc & v' & Hrun & Hinv & _).
  exists v'. split; [|exact Hinv]. rewrite Hrun. do 2 f_equal.
  assert (E : fst <$> BamAlloc.vdrive_bam_allocate_chain 3300 1 0 circle_drive = Some CBMDOS_IPE_NO_BLOCK) by (vm_compute; reflexivity).
  rewrite Hrun in E. cbn in E. congruence.
Defined.
