(* ===== verification/Cbmdos.v ===== *)
(** * CBM DOS names, commands and error codes

    Models [src/lib/vdrive/cbmdos.c]: the error texts, the file types, the
    pattern matching of directory entries, the two command parsers and the
    conversion of error codes between the drive's job queue and the DOS.

    A C string the code gets with its length is a block of memory that holds
    the length's bytes and, behind them, whatever the caller's buffer holds (a
    NUL for a C string); a pointer into it is an index. A pointer that may be
    null is an [option]. *)

From Stdlib Require Import Ascii String.
From S2P Require Import Prelude Geometry Image.

(** The bytes of a string constant, and a character constant. *)
Fixpoint str (s : string) : mem :=
  match s with
  | EmptyString => []
  | String a s' => Z.of_N (N_of_ascii a) :: str s'
  end.
Notation "'ch' c" := (ltac:(let z := eval vm_compute in (Z.of_N (N_of_ascii c%char)) in exact z))
  (at level 9, c at level 0, only parsing).

Definition CBMDOS_FT_DEL : Z := 0.
Definition CBMDOS_FT_SEQ : Z := 1.
Definition CBMDOS_FT_PRG : Z := 2.
Definition CBMDOS_FT_USR : Z := 3.
Definition CBMDOS_FT_REL : Z := 4.
Definition CBMDOS_FT_CBM : Z := 5.
Definition CBMDOS_FT_DIR : Z := 6.
Definition CBMDOS_FT_REPLACEMENT : Z := 32.
Definition CBMDOS_FT_LOCKED : Z := 64.
Definition CBMDOS_FT_CLOSED : Z := 128.
Definition CBMDOS_FAM_READ : Z := 0.
Definition CBMDOS_FAM_WRITE : Z := 1.
Definition CBMDOS_FAM_APPEND : Z := 2.
Definition CBMDOS_FAM_EOF : Z := 4.
Definition CBMDOS_SLOT_NAME_LENGTH : Z := 16.

(** [struct cbmdos_cmd_parse_s] *)
Record cbmdos_cmd_parse_t := CmdParse {
  cmd : option mem;
  cmdlength : Z;
  parsecmd : option mem;
  secondary : Z;
  parselength : Z;
  readmode : Z;
  filetype : Z;
  recordlength : Z;
  drive : Z;
  atsign : Z
}.

Definition set_cmd (x : option mem) (r : cbmdos_cmd_parse_t) : cbmdos_cmd_parse_t :=
    CmdParse x (cmdlength r) (parsecmd r) (secondary r) (parselength r) (readmode r)
    (filetype r) (recordlength r) (drive r) (atsign r).
Definition set_cmdlength (x : Z) (r : cbmdos_cmd_parse_t) : cbmdos_cmd_parse_t :=
    CmdParse (cmd r) x (parsecmd r) (secondary r) (parselength r) (readmode r) (filetype
    r) (recordlength r) (drive r) (atsign r).
Definition set_parsecmd (x : option mem) (r : cbmdos_cmd_parse_t) : cbmdos_cmd_parse_t :=
    CmdParse (cmd r) (cmdlength r) x (secondary r) (parselength r) (readmode r) (filetype
    r) (recordlength r) (drive r) (atsign r).
Definition set_secondary (x : Z) (r : cbmdos_cmd_parse_t) : cbmdos_cmd_parse_t :=
    CmdParse (cmd r) (cmdlength r) (parsecmd r) x (parselength r) (readmode r) (filetype
    r) (recordlength r) (drive r) (atsign r).
Definition set_parselength (x : Z) (r : cbmdos_cmd_parse_t) : cbmdos_cmd_parse_t :=
    CmdParse (cmd r) (cmdlength r) (parsecmd r) (secondary r) x (readmode r) (filetype r)
    (recordlength r) (drive r) (atsign r).
Definition set_readmode (x : Z) (r : cbmdos_cmd_parse_t) : cbmdos_cmd_parse_t :=
    CmdParse (cmd r) (cmdlength r) (parsecmd r) (secondary r) (parselength r) x (filetype
    r) (recordlength r) (drive r) (atsign r).
Definition set_filetype (x : Z) (r : cbmdos_cmd_parse_t) : cbmdos_cmd_parse_t :=
    CmdParse (cmd r) (cmdlength r) (parsecmd r) (secondary r) (parselength r) (readmode r)
    x (recordlength r) (drive r) (atsign r).
Definition set_recordlength (x : Z) (r : cbmdos_cmd_parse_t) : cbmdos_cmd_parse_t :=
    CmdParse (cmd r) (cmdlength r) (parsecmd r) (secondary r) (parselength r) (readmode r)
    (filetype r) x (drive r) (atsign r).
Definition set_drive (x : Z) (r : cbmdos_cmd_parse_t) : cbmdos_cmd_parse_t :=
    CmdParse (cmd r) (cmdlength r) (parsecmd r) (secondary r) (parselength r) (readmode r)
    (filetype r) (recordlength r) x (atsign r).
Definition set_atsign (x : Z) (r : cbmdos_cmd_parse_t) : cbmdos_cmd_parse_t :=
    CmdParse (cmd r) (cmdlength r) (parsecmd r) (secondary r) (parselength r) (readmode r)
    (filetype r) (recordlength r) (drive r) x.

(** [struct cbmdos_cmd_parse_plus_s]; a [p] is put before the fields that
    [cbmdos_cmd_parse_s] has under the same name *)
Record cbmdos_cmd_parse_plus_t := CmdParsePlus {
  full : option mem;
  fulllength : Z;
  psecondary : Z;
  mode : Z;
  pdrive : Z;
  command : option mem;
  commandlength : Z;
  abbrv : option mem;
  abbrvlength : Z;
  path : option mem;
  pathlength : Z;
  file : option mem;
  filelength : Z;
  more : option mem;
  morelength : Z;
  preadmode : Z;
  pfiletype : Z;
  precordlength : Z;
  colon : Z
}.

Definition set_full (x : option mem) (r : cbmdos_cmd_parse_plus_t) : cbmdos_cmd_parse_plus_t :=
    CmdParsePlus x (fulllength r) (psecondary r) (mode r) (pdrive r) (command r)
    (commandlength r) (abbrv r) (abbrvlength r) (path r) (pathlength r) (file r)
    (filelength r) (more r) (morelength r) (preadmode r) (pfiletype r) (precordlength r)
    (colon r).
Definition set_fulllength (x : Z) (r : cbmdos_cmd_parse_plus_t) : cbmdos_cmd_parse_plus_t :=
    CmdParsePlus (full r) x (psecondary r) (mode r) (pdrive r) (command r) (commandlength
    r) (abbrv r) (abbrvlength r) (path r) (pathlength r) (file r) (filelength r) (more r)
    (morelength r) (preadmode r) (pfiletype r) (precordlength r) (colon r).
Definition set_psecondary (x : Z) (r : cbmdos_cmd_parse_plus_t) : cbmdos_cmd_parse_plus_t :=
    CmdParsePlus (full r) (fulllength r) x (mode r) (pdrive r) (command r) (commandlength
    r) (abbrv r) (abbrvlength r) (path r) (pathlength r) (file r) (filelength r) (more r)
    (morelength r) (preadmode r) (pfiletype r) (precordlength r) (colon r).
Definition set_mode (x : Z) (r : cbmdos_cmd_parse_plus_t) : cbmdos_cmd_parse_plus_t :=
    CmdParsePlus (full r) (fulllength r) (psecondary r) x (pdrive r) (command r)
    (commandlength r) (abbrv r) (abbrvlength r) (path r) (pathlength r) (file r)
    (filelength r) (more r) (morelength r) (preadmode r) (pfiletype r) (precordlength r)
    (colon r).
Definition set_pdrive (x : Z) (r : cbmdos_cmd_parse_plus_t) : cbmdos_cmd_parse_plus_t :=
    CmdParsePlus (full r) (fulllength r) (psecondary r) (mode r) x (command r)
    (commandlength r) (abbrv r) (abbrvlength r) (path r) (pathlength r) (file r)
    (filelength r) (more r) (morelength r) (preadmode r) (pfiletype r) (precordlength r)
    (colon r).
Definition set_command (x : option mem) (r : cbmdos_cmd_parse_plus_t) : cbmdos_cmd_parse_plus_t :=
    CmdParsePlus (full r) (fulllength r) (psecondary r) (mode r) (pdrive r) x
    (commandlength r) (abbrv r) (abbrvlength r) (path r) (pathlength r) (file r)
    (filelength r) (more r) (morelength r) (preadmode r) (pfiletype r) (precordlength r)
    (colon r).
Definition set_commandlength (x : Z) (r : cbmdos_cmd_parse_plus_t) : cbmdos_cmd_parse_plus_t :=
    CmdParsePlus (full r) (fulllength r) (psecondary r) (mode r) (pdrive r) (command r) x
    (abbrv r) (abbrvlength r) (path r) (pathlength r) (file r) (filelength r) (more r)
    (morelength r) (preadmode r) (pfiletype r) (precordlength r) (colon r).
Definition set_abbrv (x : option mem) (r : cbmdos_cmd_parse_plus_t) : cbmdos_cmd_parse_plus_t :=
    CmdParsePlus (full r) (fulllength r) (psecondary r) (mode r) (pdrive r) (command r)
    (commandlength r) x (abbrvlength r) (path r) (pathlength r) (file r) (filelength r)
    (more r) (morelength r) (preadmode r) (pfiletype r) (precordlength r) (colon r).
Definition set_abbrvlength (x : Z) (r : cbmdos_cmd_parse_plus_t) : cbmdos_cmd_parse_plus_t :=
    CmdParsePlus (full r) (fulllength r) (psecondary r) (mode r) (pdrive r) (command r)
    (commandlength r) (abbrv r) x (path r) (pathlength r) (file r) (filelength r) (more r)
    (morelength r) (preadmode r) (pfiletype r) (precordlength r) (colon r).
Definition set_path (x : option mem) (r : cbmdos_cmd_parse_plus_t) : cbmdos_cmd_parse_plus_t :=
    CmdParsePlus (full r) (fulllength r) (psecondary r) (mode r) (pdrive r) (command r)
    (commandlength r) (abbrv r) (abbrvlength r) x (pathlength r) (file r) (filelength r)
    (more r) (morelength r) (preadmode r) (pfiletype r) (precordlength r) (colon r).
Definition set_pathlength (x : Z) (r : cbmdos_cmd_parse_plus_t) : cbmdos_cmd_parse_plus_t :=
    CmdParsePlus (full r) (fulllength r) (psecondary r) (mode r) (pdrive r) (command r)
    (commandlength r) (abbrv r) (abbrvlength r) (path r) x (file r) (filelength r) (more
    r) (morelength r) (preadmode r) (pfiletype r) (precordlength r) (colon r).
Definition set_file (x : option mem) (r : cbmdos_cmd_parse_plus_t) : cbmdos_cmd_parse_plus_t :=
    CmdParsePlus (full r) (fulllength r) (psecondary r) (mode r) (pdrive r) (command r)
    (commandlength r) (abbrv r) (abbrvlength r) (path r) (pathlength r) x (filelength r)
    (more r) (morelength r) (preadmode r) (pfiletype r) (precordlength r) (colon r).
Definition set_filelength (x : Z) (r : cbmdos_cmd_parse_plus_t) : cbmdos_cmd_parse_plus_t :=
    CmdParsePlus (full r) (fulllength r) (psecondary r) (mode r) (pdrive r) (command r)
    (commandlength r) (abbrv r) (abbrvlength r) (path r) (pathlength r) (file r) x (more
    r) (morelength r) (preadmode r) (pfiletype r) (precordlength r) (colon r).
Definition set_more (x : option mem) (r : cbmdos_cmd_parse_plus_t) : cbmdos_cmd_parse_plus_t :=
    CmdParsePlus (full r) (fulllength r) (psecondary r) (mode r) (pdrive r) (command r)
    (commandlength r) (abbrv r) (abbrvlength r) (path r) (pathlength r) (file r)
    (filelength r) x (morelength r) (preadmode r) (pfiletype r) (precordlength r) (colon
    r).
Definition set_morelength (x : Z) (r : cbmdos_cmd_parse_plus_t) : cbmdos_cmd_parse_plus_t :=
    CmdParsePlus (full r) (fulllength r) (psecondary r) (mode r) (pdrive r) (command r)
    (commandlength r) (abbrv r) (abbrvlength r) (path r) (pathlength r) (file r)
    (filelength r) (more r) x (preadmode r) (pfiletype r) (precordlength r) (colon r).
Definition set_preadmode (x : Z) (r : cbmdos_cmd_parse_plus_t) : cbmdos_cmd_parse_plus_t :=
    CmdParsePlus (full r) (fulllength r) (psecondary r) (mode r) (pdrive r) (command r)
    (commandlength r) (abbrv r) (abbrvlength r) (path r) (pathlength r) (file r)
    (filelength r) (more r) (morelength r) x (pfiletype r) (precordlength r) (colon r).
Definition set_pfiletype (x : Z) (r : cbmdos_cmd_parse_plus_t) : cbmdos_cmd_parse_plus_t :=
    CmdParsePlus (full r) (fulllength r) (psecondary r) (mode r) (pdrive r) (command r)
    (commandlength r) (abbrv r) (abbrvlength r) (path r) (pathlength r) (file r)
    (filelength r) (more r) (morelength r) (preadmode r) x (precordlength r) (colon r).
Definition set_precordlength (x : Z) (r : cbmdos_cmd_parse_plus_t) : cbmdos_cmd_parse_plus_t :=
    CmdParsePlus (full r) (fulllength r) (psecondary r) (mode r) (pdrive r) (command r)
    (commandlength r) (abbrv r) (abbrvlength r) (path r) (pathlength r) (file r)
    (filelength r) (more r) (morelength r) (preadmode r) (pfiletype r) x (colon r).
Definition set_colon (x : Z) (r : cbmdos_cmd_parse_plus_t) : cbmdos_cmd_parse_plus_t :=
    CmdParsePlus (full r) (fulllength r) (psecondary r) (mode r) (pdrive r) (command r)
    (commandlength r) (abbrv r) (abbrvlength r) (path r) (pathlength r) (file r)
    (filelength r) (more r) (morelength r) (preadmode r) (pfiletype r) (precordlength r)
    x.

Module Cbmdos.

Definition cbmdos_error_messages : list (Z * option mem) :=
  [(0, Some (str " OK"));
   (1, Some (str "FILES SCRATCHED"));
   (2, Some (str "SELECTED PARTITION"));
   (3, Some (str "UNIMPLEMENTED"));
   (20, Some (str "READ ERROR"));
   (21, Some (str "READ ERROR"));
   (22, Some (str "READ ERROR"));
   (23, Some (str "READ ERROR"));
   (24, Some (str "READ ERROR"));
   (25, Some (str "WRITE ERROR"));
   (26, Some (str "WRITE PROTECT ON"));
   (27, Some (str "READ ERROR"));
   (28, Some (str "WRITE ERROR"));
   (29, Some (str "DISK ID MISMATCH"));
   (30, Some (str "SYNTAX ERROR"));
   (31, Some (str "SYNTAX ERROR"));
   (32, Some (str "SYNTAX ERROR"));
   (33, Some (str "SYNTAX ERROR"));
   (34, Some (str "SYNTAX ERROR"));
   (39, Some (str "FILE NOT FOUND"));
   (50, Some (str "RECORD NOT PRESENT"));
   (51, Some (str "OVERFLOW IN RECORD"));
   (52, Some (str "FILE TOO LARGE"));
   (60, Some (str "WRITE FILE OPEN"));
   (61, Some (str "FILE NOT OPEN"));
   (62, Some (str "FILE NOT FOUND"));
   (63, Some (str "FILE EXISTS"));
   (64, Some (str "FILE TYPE MISMATCH"));
   (65, Some (str "NO BLOCK"));
   (66, Some (str "ILLEGAL TRACK OR SECTOR"));
   (67, Some (str "ILLEGAL SYSTEM T OR S"));
   (70, Some (str "NO CHANNEL"));
   (71, Some (str "DIRECTORY ERROR"));
   (72, Some (str "DISK FULL"));
   (73, Some (str "VIRTUAL DRIVE EMULATION V3.5"));
   (74, Some (str "DRIVE NOT READY"));
   (75, Some (str "FORMAT ERROR"));
   (77, Some (str "SELECTED PARTITION ILLEGAL"));
   (80, Some (str "DIRECTORY NOT EMPTY"));
   (81, Some (str "PERMISSION DENIED"));
   (99, Some (str "M-E NOT SUPPORTED"));
   (255, None)].

Fixpoint errortext_from (l : list (Z * option mem)) (code : Z) : option (option mem) :=
  match l with
  | [] => None
  | (nr, text) :: l' =>
      if negb (nr =? 255) && negb (nr =? code) then errortext_from l' code
      else if negb (nr =? 255) then Some text
      else Some (Some (str "UNKNOWN ERROR NUMBER"))
  end.

Definition cbmdos_errortext (code : Z) : option (option mem) :=
  errortext_from cbmdos_error_messages code.

Definition cbmdos_ft : list mem :=
  [str "DEL"; str "SEQ"; str "PRG"; str "USR"; str "REL"; str "CBM"; str "DIR"; str "???"].

Definition cbmdos_filetype_get (filetype : Z) : option mem :=
  if 0 <=? filetype then cbmdos_ft !! Z.to_nat filetype else None.

Fixpoint wildcard_check_from (n : nat) (index : Z) (name : mem) : option Z :=
  match n with
  | O => Some 0
  | S n' => c ← getb name index;
            if (c =? ch "*") || (c =? ch "?") then Some 1
            else wildcard_check_from n' (index + 1) name
  end.

Definition cbmdos_parse_wildcard_check (name : mem) (len : Z) : option Z :=
  wildcard_check_from (Z.to_nat len) 0 name.

(** The comparison of [index] (unsigned) with [pattern_length] (int) is unsigned. *)
Fixpoint wildcard_compare_from (n : nat) (index : Z) (pattern : mem) (pattern_length : Z)
    (dirname : mem) : option Z :=
  match n with
  | O => Some 1
  | S n' =>
      if u32 pattern_length <=? index then
        d ← getb dirname index; Some (b2z (d =? 160))
      else
        c ← getb pattern index;
        if c =? ch "*" then Some 1
        else
          d ← getb dirname index;
          if negb (c =? d) then
            if negb (c =? ch "?") then Some 0
            else if d =? 160 then Some 0
            else wildcard_compare_from n' (index + 1) pattern pattern_length dirname
          else wildcard_compare_from n' (index + 1) pattern pattern_length dirname
  end.

Definition cbmdos_parse_wildcard_compare (pattern : mem) (pattern_length : Z) (dirname : mem)
    : option Z :=
  wildcard_compare_from (Z.to_nat CBMDOS_SLOT_NAME_LENGTH) 0 pattern pattern_length dirname.

Definition cbmdos_dir_slot_create (name : mem) (len : Z) : option mem :=
  let len := if CBMDOS_SLOT_NAME_LENGTH <? len then CBMDOS_SLOT_NAME_LENGTH else len in
  let slot := replicate (Z.to_nat CBMDOS_SLOT_NAME_LENGTH) 160 in
  bs ← slice name 0 len;
  splice slot 0 bs.

(** [memchr(m + p, c, n)]: the scan stops at the first match; the count is a
    [size_t]. *)
Fixpoint memchr_in (l : mem) (p c n : Z) : option (option Z) :=
  if n <=? 0 then Some None
  else match l with
       | [] => None
       | b :: l' => if b =? c then Some (Some p) else memchr_in l' (p + 1) c (n - 1)
       end.

Definition memchr (m : mem) (p c n : Z) : option (option Z) :=
  if (0 <=? p) && (p <=? mlen m) then memchr_in (drop (Z.to_nat p) m) p c (u32 n) else None.

Definition is_digit (b : Z) : bool := (ch "0" <=? b) && (b <=? ch "9").

(** A heap copy of [n] bytes from [p], with a NUL behind them. *)
Definition copy_string (m : mem) (p n : Z) : option mem :=
  bs ← slice m p n; Some (bs ++ [0]).

(** ** cbmdos_command_parse *)

(** The start of the pattern in the command. *)
Definition pattern_start (m : mem) : ST cbmdos_cmd_parse_t Z :=
  let! c := state in
  let! b := lift (getb m 0) in
  if b =? ch "$" then
    if 1 <? cmdlength c then
      let! b := lift (getb m 1) in
      let! p := (if (b =? ch "0") || (b =? ch "1")
                 then modify (set_drive (b - ch "0"));; mret 2 else mret 1) in
      let! b := lift (getb m p) in
      if b =? ch ":" then
        let! b := lift (getb m (p + 1)) in
        (if b =? 0 then modify (fun r => set_cmdlength (u32 (cmdlength r + 1)) r) else mret tt);;
        mret (p + 1)
      else mret p
    else mret 1
  else
    let! p := lift (memchr m 0 (ch ":") (cmdlength c)) in
    match p with
    | Some p =>
        (if p =? 0 then mret tt
         else let! b := lift (getb m (p - 1)) in
              if (b =? ch "0") || (b =? ch "1") then modify (set_drive (b - ch "0"))
              else mret tt);;
        mret (p + 1)
    | None => mret 0
    end.

(** [while ( *p != ',' && cmdlen-- > 0)]: [k] is the offset of [parsecmd] in the
    block. *)
Fixpoint copy_pattern (fuel : nat) (m : mem) (p cmdlen k : Z)
    : ST cbmdos_cmd_parse_t (Z * Z) :=
  match fuel with
  | O => ub
  | S fuel' =>
      let! b := lift (getb m p) in
      if b =? ch "," then mret (p, cmdlen)
      else if negb (0 <? cmdlen) then mret (p, cmdlen - 1)
      else
        modify (fun r => set_parselength (u32 (parselength r + 1)) r);;
        update (fun r => buf ← parsecmd r; buf' ← putb buf k b;
                         Some (set_parsecmd (Some buf') r));;
        copy_pattern fuel' m (p + 1) (cmdlen - 1) (k + 1)
  end.

(** The switch on the letter at [p]; [inl] is a return, [inr] the new [cmdlen]. *)
Definition parse_mode (m : mem) (p cmdlen : Z) : ST cbmdos_cmd_parse_t (Z + Z) :=
  let! b := lift (getb m p) in
  if b =? ch "S" then modify (set_filetype CBMDOS_FT_SEQ);; mret (inr cmdlen)
  else if b =? ch "P" then modify (set_filetype CBMDOS_FT_PRG);; mret (inr cmdlen)
  else if b =? ch "U" then modify (set_filetype CBMDOS_FT_USR);; mret (inr cmdlen)
  else if (b =? 204) || (b =? ch "L") then
    let! comma := lift (memchr m (p + 1) (ch ",") cmdlen) in
    let! r := match comma with
              | Some comma =>
                  if comma + 1 <? p + cmdlen then
                    let! l := lift (getb m (comma + 1)) in
                    modify (set_recordlength l);;
                    mret (if (l <? 2) || (254 <? l) then inl CBMDOS_IPE_OVERFLOW else inr 0)
                  else mret (inr cmdlen)
              | None => mret (inr cmdlen)
              end in
    match r with
    | inl rc => mret (inl rc)
    | inr cmdlen => modify (set_filetype CBMDOS_FT_REL);; mret (inr cmdlen)
    end
  else if b =? ch "R" then modify (set_readmode CBMDOS_FAM_READ);; mret (inr cmdlen)
  else if b =? ch "W" then modify (set_readmode CBMDOS_FAM_WRITE);; mret (inr cmdlen)
  else if b =? ch "A" then modify (set_readmode CBMDOS_FAM_APPEND);; mret (inr cmdlen)
  else
    let! c := state in
    mret (if negb (readmode c =? CBMDOS_FAM_READ) && negb (readmode c =? CBMDOS_FAM_WRITE)
          then inl CBMDOS_IPE_INVAL else inr cmdlen).

Fixpoint parse_modes (fuel : nat) (m : mem) (p cmdlen : Z)
    : ST cbmdos_cmd_parse_t (option Z) :=
  match fuel with
  | O => ub
  | S fuel' =>
      if negb (0 <? cmdlen) then mret None
      else
        let cmdlen := cmdlen - 1 in
        let p := p + 1 in
        if cmdlen =? 0 then mret (Some CBMDOS_IPE_INVAL)
        else
          let! r := parse_mode m p cmdlen in
          match r with
          | inl rc => mret (Some rc)
          | inr cmdlen =>
              let! c := lift (memchr m p (ch ",") cmdlen) in
              match c with
              | Some c => parse_modes fuel' m c (cmdlen - (c - p))
              | None => parse_modes fuel' m p 0
              end
          end
  end.

(** Read mode of the LOAD and SAVE channels *)
Definition load_save_mode (r : cbmdos_cmd_parse_t) : cbmdos_cmd_parse_t :=
  let r := if secondary r =? 0 then set_readmode CBMDOS_FAM_READ r else r in
  if secondary r =? 1 then set_readmode CBMDOS_FAM_WRITE r else r.

Definition cbmdos_command_parse : ST cbmdos_cmd_parse_t Z :=
  modify (fun r => set_readmode (if secondary r =? 1 then CBMDOS_FAM_WRITE else CBMDOS_FAM_READ)
                     (set_recordlength 0 (set_parsecmd None (set_atsign 0 r))));;
  let! c := state in
  match cmd c with
  | None => mret CBMDOS_IPE_NO_NAME
  | Some m =>
      if cmdlength c =? 0 then mret CBMDOS_IPE_NO_NAME
      else
        let! p := pattern_start m in
        let! c := state in
        let cmdlen := s32 (cmdlength c - p) in
        modify (set_parselength 0);;
        modify (set_parsecmd (Some (replicate (Z.to_nat (cmdlen + 2)) 0)));;
        let! (p, cmdlen) := copy_pattern (Z.to_nat (cmdlen + 2)) m p cmdlen 0 in
        modify (fun r => set_filetype (if secondary r <? 2 then CBMDOS_FT_PRG else 0) r);;
        let! r := parse_modes (Z.to_nat (cmdlen + 2)) m p cmdlen in
        match r with
        | Some rc => mret rc
        | None => modify load_save_mode;; mret CBMDOS_IPE_OK
        end
  end.

(** ** cbmdos_command_parse_plus *)

(** [while (p < limit && test( *p)) p++] *)
Fixpoint skip_while (n : nat) (test : Z -> bool) (m : mem) (p : Z) : option Z :=
  match n with
  | O => Some p
  | S n' => b ← getb m p; if test b then skip_while n' test m (p + 1) else Some p
  end.

Definition skip_to (limit : Z) (test : Z -> bool) (m : mem) (p : Z) : option Z :=
  skip_while (Z.to_nat (limit - p)) test m p.

(** A comparison of [p] with a pointer that may be null; the null pointer is below
    every other. *)
Definition before (p : Z) (q : option Z) : bool :=
  match q with Some q => p <? q | None => false end.

(** The digits of a unit or partition number: values of 256 and more are skipped. *)
Fixpoint unit_number (n : nat) (m : mem) (p : Z) : ST cbmdos_cmd_parse_plus_t Z :=
  match n with
  | O => mret p
  | S n' =>
      let! b := lift (getb m p) in
      if is_digit b then
        modify (fun r => let i := pdrive r * 10 + (b - ch "0") in
                         if i <? 256 then set_pdrive i r else r);;
        unit_number n' m (p + 1)
      else mret p
  end.

Definition take_command (m : mem) (p1 p : Z) : ST cbmdos_cmd_parse_plus_t unit :=
  update (fun r => s ← copy_string m p1 (p - p1);
                   Some (set_command (Some s) (set_commandlength (p - p1) r))).

Definition take_path (m : mem) (p1 p : Z) : ST cbmdos_cmd_parse_plus_t unit :=
  update (fun r => s ← copy_string m p1 (p - p1);
                   Some (set_path (Some s) (set_pathlength (p - p1) r))).

Definition take_file (m : mem) (p1 p : Z) : ST cbmdos_cmd_parse_plus_t unit :=
  update (fun r => s ← copy_string m p1 (p - p1);
                   Some (set_file (Some s) (set_filelength (p - p1) r))).

Definition take_more (m : mem) (p1 p : Z) : ST cbmdos_cmd_parse_plus_t unit :=
  update (fun r => s ← copy_string m p1 (p - p1);
                   Some (set_more (Some s) (set_morelength (p - p1) r))).

(** The number before the colon [p2]; the file parser resets the drive first. *)
Definition take_unit (reset : bool) (m : mem) (p : Z) (p2 : option Z)
    : ST cbmdos_cmd_parse_plus_t Z :=
  match p2 with
  | Some q =>
      if p <? q then
        let! b := lift (getb m p) in
        if (ch "0" <=? b) || (b <=? ch "9") then
          (if reset then modify (set_pdrive 0) else mret tt);;
          unit_number (Z.to_nat (q - p)) m p
        else mret p
      else mret p
  | None => mret p
  end.

(** The command characters in front of a name: the end of the command and the
    (possibly moved) colon. *)
Definition special_end (m : mem) (limit : Z) (p : Z) (p2 : option Z)
    : option (Z * option Z) :=
  b ← getb m p;
  if b =? ch "#" then
    if p + 1 <? limit then
      d ← getb m (p + 1); Some (if is_digit d then p + 2 else p + 1, p2)
    else Some (p + 1, p2)
  else if negb (b =? ch "$") then Some (p + 1, p2)
  else
    eq ← (if p + 2 <? limit then
            e ← getb m (p + 1);
            if e =? ch "=" then t ← getb m (p + 2); Some ((t =? ch "P") || (t =? ch "T"))
            else Some false
          else Some false);
    if (eq : bool) then Some (p + 3, p2)
    else if negb (bool_decide (is_Some p2)) && (p + 1 <? limit) then
      d ← getb m (p + 1); Some (p + 1, if is_digit d then Some limit else p2)
    else Some (p + 1, p2).

Definition unit_and_path (m : mem) (limit : Z) (p2 : option Z) (special : bool)
    : ST cbmdos_cmd_parse_plus_t Z :=
  let! b := lift (getb m 0) in
  let! (p, p2) :=
    (if negb (b =? ch "/") && negb (is_digit b) then
       let! (p, p2) :=
         lift (if special then special_end m limit 0 p2
               else match p2 with
                    | Some q => p ← skip_to (q + 1) (fun c => negb (is_digit c)) m 0;
                                Some (p, p2)
                    | None => Some (0, p2)
                    end) in
       take_command m 0 p;;
       mret (p, p2)
     else mret (0, p2)) in
  match p2 with
  | Some q =>
      let! p := lift (skip_to limit (Z.eqb (ch " ")) m p) in
      let! p := take_unit true m p p2 in
      let! p := lift (skip_to limit (Z.eqb (ch " ")) m p) in
      if p <? q then take_path m p q;; mret q else mret p
  | None => mret p
  end.

(** The switch of the type and mode letters: [inl] is a return, [inr] the position. *)
Definition file_mode (m : mem) (p limit : Z) : ST cbmdos_cmd_parse_plus_t (Z + Z) :=
  let! b := lift (getb m p) in
  if b =? ch "S" then modify (set_pfiletype CBMDOS_FT_SEQ);; mret (inr p)
  else if b =? ch "P" then modify (set_pfiletype CBMDOS_FT_PRG);; mret (inr p)
  else if b =? ch "U" then modify (set_pfiletype CBMDOS_FT_USR);; mret (inr p)
  else if (b =? 204) || (b =? ch "L") then
    let! comma := (if p + 2 <? limit then
                     let! d := lift (getb m (p + 1)) in mret (d =? ch ",")
                   else mret false) in
    if (comma : bool) then
      let! l := lift (getb m (p + 2)) in
      modify (set_precordlength l);;
      if (l <? 2) || (254 <? l) then mret (inl CBMDOS_IPE_OVERFLOW)
      else modify (set_pfiletype CBMDOS_FT_REL);; mret (inr (p + 2))
    else mret (inl CBMDOS_IPE_OVERFLOW)
  else if b =? ch "R" then modify (set_preadmode CBMDOS_FAM_READ);; mret (inr p)
  else if b =? ch "W" then modify (set_preadmode CBMDOS_FAM_WRITE);; mret (inr p)
  else if b =? ch "A" then modify (set_preadmode CBMDOS_FAM_APPEND);; mret (inr p)
  else mret (inr p).

Fixpoint file_modes (fuel : nat) (m : mem) (p limit : Z)
    : ST cbmdos_cmd_parse_plus_t (option Z) :=
  match fuel with
  | O => ub
  | S fuel' =>
      if negb (p <? limit) then mret None
      else
        let! r := file_mode m (p + 1) limit in
        match r with
        | inl rc => mret (Some rc)
        | inr p =>
            let! c := lift (memchr m (p + 1) (ch ",") (limit - (p + 1))) in
            match c with
            | Some c => file_modes fuel' m c limit
            | None => mret None
            end
        end
  end.

Definition load_save_mode_plus (r : cbmdos_cmd_parse_plus_t) : cbmdos_cmd_parse_plus_t :=
  let r := if psecondary r =? 0 then set_preadmode CBMDOS_FAM_READ r else r in
  if psecondary r =? 1 then set_preadmode CBMDOS_FAM_WRITE r else r.

(** File mode: [command][unit][path:]file[,type][,mode] *)
Definition parse_file (m : mem) (limit : Z) : ST cbmdos_cmd_parse_plus_t Z :=
  modify (fun r => if mode r =? 0 then set_pdrive 0 r else r);;
  let! p2 := lift (memchr m 0 (ch ":") limit) in
  modify (fun r => if bool_decide (is_Some p2) then set_colon 1 r else r);;
  let! b := lift (getb m 0) in
  let special := (b =? ch "$") || (b =? ch "#")
                 || bool_decide (is_Some p2) && (b =? ch "@") in
  let! p := (if bool_decide (is_Some p2) && negb (bool_decide (p2 = Some 0)) || special
             then unit_and_path m limit p2 special else mret 0) in
  let! b := lift (getb m p) in
  let p1 := if b =? ch ":" then p + 1 else p in
  let! p2 := lift (memchr m p1 (ch ",") (limit - p1)) in
  let! c := state in
  let! listing := lift (match p2, command c with
                        | Some _, Some cm => b ← getb cm 0; Some (b =? ch "$")
                        | _, _ => Some false
                        end) in
  let p := match p2 with Some q => if (listing : bool) then limit else q | None => limit end in
  take_file m p1 p;;
  modify (fun r => set_pfiletype (if psecondary r <? 2 then CBMDOS_FT_PRG else 0) r);;
  match p2 with
  | None => mret CBMDOS_IPE_OK
  | Some _ =>
      let! r := file_modes (Z.to_nat (limit + 1)) m p limit in
      match r with
      | Some rc => mret rc
      | None => modify load_save_mode_plus;; mret CBMDOS_IPE_OK
      end
  end.

(** The commands that are passed on whole: [inl] is a return. *)
Definition whole_command (m : mem) (limit : Z) : option (Z + bool) :=
  b ← getb m 0;
  if (b =? ch "U") || (b =? ch "M") then
    if 1 <? limit then
      d ← getb m 1;
      Some (inr (negb (((b =? ch "U") && ((d =? ch "1") || (d =? 1) || (d =? ch "A")
                                         || (d =? ch "2") || (d =? 2) || (d =? ch "B")))
                       || ((b =? ch "M") && (d =? ch "D")))))
    else Some (inl CBMDOS_IPE_INVAL)
  else Some (inr (b =? ch "P")).

Definition is_letter (b : Z) : bool :=
  ((ch "A" <=? b) && (b <=? ch "Z")) || ((193 <=? b) && (b <=? 218)).

Definition is_delimiter (special : bool) (b : Z) : bool :=
  (b =? ch ":") || (b =? ch " ") || (b =? 29) || special && ((b =? ch ",") || (b =? ch ";")).

Definition ends_command (special : bool) (b : Z) : bool :=
  is_delimiter special b || negb special && ((b =? ch "/") || is_digit b).

(** [temp[templength++] = b] in the array of 256 bytes *)
Definition push_temp (temp : mem) (b : Z) : option mem :=
  if mlen temp <? 256 then Some (temp ++ [b]) else None.

(** The loop that abbreviates the command name: it ends at [p] with the
    abbreviation, or ([None]) at the C-shift-P command, which returns at once. *)
Fixpoint abbreviate (fuel : nat) (m : mem) (limit first : Z) (special : bool)
    (p : Z) (temp : mem) : option (option (Z * mem)) :=
  match fuel with
  | O => None
  | S fuel' =>
      if negb (p <? limit) then Some (Some (p, temp))
      else
        b ← getb m p; temp ← push_temp temp b;
        let p := p + 1 in
        if (limit <=? p) || (first <? ch "A") then Some (Some (p, temp))
        else
          b ← getb m p;
          if (first =? ch "C") && ((b =? ch "P") || (b =? ch "D")) then Some (Some (p + 1, temp))
          else if (first =? ch "C") && (b =? 208) then Some None
          else if negb (first =? ch "C") && (first =? ch "M") && (b =? ch "D")
          then Some (Some (p + 1, temp))
          else
            p ← (if special then Some p else skip_to limit is_letter m p);
            if limit <=? p then Some (Some (p, temp))
            else
              b ← getb m p;
              if ends_command special b then Some (Some (p, temp))
              else
                temp ← push_temp temp b;
                let p := p + 1 in
                if limit <=? p then Some (Some (p, temp))
                else
                  b ← getb m p;
                  if ends_command special b then Some (Some (p, temp))
                  else abbreviate fuel' m limit first special p temp
  end.

(** [U] followed by a control code is [U] with the digit. *)
Definition user_digit (r : cbmdos_cmd_parse_plus_t) : option cbmdos_cmd_parse_plus_t :=
  cm ← command r;
  if 1 <? commandlength r then
    b ← getb cm 0;
    if b =? ch "U" then
      d ← getb cm 1;
      if (1 <=? d) && (d <=? 9) then
        cm ← putb cm 1 (u8 (d + ch "0")); Some (set_command (Some cm) r)
      else Some r
    else Some r
  else Some r.

(** The command name: [None] is the early return, else the position behind it. *)
Definition take_name (m : mem) (limit : Z) (special : bool)
    : ST cbmdos_cmd_parse_plus_t (option Z) :=
  let! first := lift (getb m 0) in
  if negb (is_digit first) then
    let! r := lift (abbreviate (Z.to_nat (limit + 1)) m limit first special 0 []) in
    match r with
    | None =>
        update (fun r => s ← slice m 0 3; Some (set_command (Some s) (set_commandlength 3 r)));;
        mret None
    | Some (p, temp) =>
        take_command m 0 p;;
        modify (fun r => set_abbrv (Some (temp ++ [0])) (set_abbrvlength (mlen temp) r));;
        update user_digit;;
        if special then
          let! b := lift (getb m p) in
          mret (Some (if (b =? ch ",") || (b =? ch ";") then p + 1 else p))
        else mret (Some p)
    end
  else mret (Some 0).

(** The end of the file name: the first of '=' and ',', the comma only for
    commands other than [U] and [B]. *)
Definition name_end (m : mem) (limit : Z) (special : bool) (p1 : Z)
    : ST cbmdos_cmd_parse_plus_t Z :=
  let! e := lift (memchr m p1 (ch "=") (limit - p1)) in
  let! block := (if special then mret true
                 else let! c := state in
                      lift (cm ← command c; b ← getb cm 0; Some (b =? ch "B"))) in
  if (block : bool) then mret (default limit e)
  else
    let! p2 := lift (memchr m p1 (ch ",") (limit - p1)) in
    mret (match e, p2 with
          | Some e, Some q => if q <? e then q else e
          | Some e, None => e
          | None, Some q => q
          | None, None => limit
          end).

(** What follows the command name: the number, the path, the name and the rest. *)
Definition parse_operand (m : mem) (limit : Z) (special : bool) (p : Z) (p2 : option Z)
    : ST cbmdos_cmd_parse_plus_t Z :=
  let! p := lift (skip_to limit (fun c => (c =? ch " ") || (c =? 29)) m p) in
  let! p := take_unit false m p p2 in
  let! p := lift (skip_to limit (Z.eqb (ch " ")) m p) in
  let! p := (match p2 with
             | Some q => if p <? q then take_path m p q;; mret q else mret p
             | None => mret p
             end) in
  let! b := lift (getb m p) in
  let p1 := if b =? ch ":" then p + 1 else p in
  let! p := name_end m limit special p1 in
  take_file m p1 p;;
  (if p <? limit then take_more m p limit else mret tt);;
  mret CBMDOS_IPE_OK.

(** Command mode *)
Definition parse_command (m : mem) (limit : Z) : ST cbmdos_cmd_parse_plus_t Z :=
  modify (set_pdrive 0);;
  let! w := lift (whole_command m limit) in
  match w with
  | inl rc => mret rc
  | inr true =>
      update (fun r => s ← slice m 0 (fulllength r);
                       Some (set_command (Some s) (set_commandlength (fulllength r) r)));;
      mret CBMDOS_IPE_OK
  | inr false =>
      let! p2 := lift (memchr m 0 (ch ":") limit) in
      modify (fun r => if bool_decide (is_Some p2) then set_colon 1 r else r);;
      let! b := lift (getb m 0) in
      let special := b =? ch "U" in
      let! p := take_name m limit special in
      match p with
      | None => mret CBMDOS_IPE_OK
      | Some p =>
          if limit <=? p then mret CBMDOS_IPE_OK
          else parse_operand m limit special p p2
      end
  end.

Definition reset_plus (r : cbmdos_cmd_parse_plus_t) : cbmdos_cmd_parse_plus_t :=
  CmdParsePlus (full r) (fulllength r) (psecondary r) (mode r) (pdrive r)
    None 0 None 0 None 0 None 0 None 0
    (if psecondary r =? 1 then CBMDOS_FAM_WRITE else CBMDOS_FAM_READ) 0 0 0.

Definition cbmdos_command_parse_plus : ST cbmdos_cmd_parse_plus_t Z :=
  modify reset_plus;;
  let! c := state in
  match full c with
  | None => mret CBMDOS_IPE_NO_NAME
  | Some m =>
      if fulllength c =? 0 then mret CBMDOS_IPE_NO_NAME
      else if (mode c =? 0) || (mode c =? 2) then parse_file m (fulllength c)
      else if mode c =? 1 then parse_command m (fulllength c)
      else mret CBMDOS_IPE_OK
  end.

(** ** Error codes of the drive's job queue and of the DOS *)

Definition cbmdos_fdc_error_to_cbmdos_error (rf : Z) : Z :=
  if rf =? CBMDOS_FDC_ERR_OK then CBMDOS_IPE_OK
  else if rf =? CBMDOS_FDC_ERR_HEADER then CBMDOS_IPE_READ_ERROR_BNF
  else if rf =? CBMDOS_FDC_ERR_SYNC then CBMDOS_IPE_READ_ERROR_SYNC
  else if rf =? CBMDOS_FDC_ERR_NOBLOCK then CBMDOS_IPE_READ_ERROR_DATA
  else if rf =? CBMDOS_FDC_ERR_DCHECK then CBMDOS_IPE_READ_ERROR_CHK
  else if rf =? CBMDOS_FDC_ERR_VERIFY then CBMDOS_IPE_WRITE_ERROR_VER
  else if rf =? CBMDOS_FDC_ERR_WPROT then CBMDOS_IPE_WRITE_PROTECT_ON
  else if rf =? CBMDOS_FDC_ERR_HCHECK then CBMDOS_IPE_READ_ERROR_BCHK
  else if rf =? CBMDOS_FDC_ERR_BLENGTH then CBMDOS_IPE_WRITE_ERROR_BIG
  else if rf =? CBMDOS_FDC_ERR_ID then CBMDOS_IPE_DISK_ID_MISMATCH
  else if rf =? CBMDOS_FDC_ERR_DRIVE then CBMDOS_IPE_NOT_READY
  else if rf =? CBMDOS_FDC_ERR_DECODE then CBMDOS_IPE_READ_ERROR_GCR
  else CBMDOS_IPE_NOT_READY.

Definition cbmdos_error_to_fdc_error (rf : Z) : Z :=
  if rf =? CBMDOS_IPE_OK then CBMDOS_FDC_ERR_OK
  else if rf =? CBMDOS_IPE_READ_ERROR_BNF then CBMDOS_FDC_ERR_HEADER
  else if rf =? CBMDOS_IPE_READ_ERROR_SYNC then CBMDOS_FDC_ERR_SYNC
  else if rf =? CBMDOS_IPE_READ_ERROR_DATA then CBMDOS_FDC_ERR_NOBLOCK
  else if rf =? CBMDOS_IPE_READ_ERROR_CHK then CBMDOS_FDC_ERR_DCHECK
  else if rf =? CBMDOS_IPE_WRITE_ERROR_VER then CBMDOS_FDC_ERR_VERIFY
  else if rf =? CBMDOS_IPE_WRITE_PROTECT_ON then CBMDOS_FDC_ERR_WPROT
  else if rf =? CBMDOS_IPE_READ_ERROR_BCHK then CBMDOS_FDC_ERR_HCHECK
  else if rf =? CBMDOS_IPE_WRITE_ERROR_BIG then CBMDOS_FDC_ERR_BLENGTH
  else if rf =? CBMDOS_IPE_DISK_ID_MISMATCH then CBMDOS_FDC_ERR_ID
  else if rf =? CBMDOS_IPE_NOT_READY then CBMDOS_FDC_ERR_DRIVE
  else if rf =? CBMDOS_IPE_READ_ERROR_GCR then CBMDOS_FDC_ERR_DECODE
  else CBMDOS_FDC_ERR_DRIVE.

End Cbmdos.
