(* ===== verification/CbmdosSpec.v ===== *)
(** * Specification of the DOS names and commands

    What [Cbmdos] promises its callers: a directory entry matches a pattern when
    the name does, with the wildcards of the DOS; the two parsers read back a
    printed file name; which command strings they handle without leaving the
    string; the two tables of error codes are inverse. *)

From Stdlib Require Import Ascii String.
From S2P Require Import Prelude Geometry Image Cbmdos.
Import Cbmdos.

Module CbmdosSpec.

(** ** Patterns *)

(** A name matches a pattern: ['?'] stands for any character, ['*'] for any rest. *)
Inductive matches : mem -> mem -> Prop :=
  | matches_end : matches [] []
  | matches_star p n : matches (ch "*" :: p) n
  | matches_any p c n : matches p n -> matches (ch "?" :: p) (c :: n)
  | matches_char c p n : c <> ch "*" -> matches p n -> matches (c :: p) (c :: n).

Lemma getb_drop m i : 0 <= i -> getb m i = head (drop (Z.to_nat i) m).
Proof.
  intros Hi. unfold getb. rewrite (proj2 (Z.leb_le _ _)) by lia.
  rewrite <- (Nat.add_0_r (Z.to_nat i)) at 1. rewrite <- lookup_drop.
  by destruct (drop _ m).
Qed.

Lemma drop_tail (m : mem) i c l :
  0 <= i -> drop (Z.to_nat i) m = c :: l -> drop (Z.to_nat (i + 1)) m = l.
Proof.
  intros Hi Hd. replace (Z.to_nat (i + 1)) with (Z.to_nat i + 1)%nat by lia.
  rewrite <- drop_drop, Hd. done.
Qed.

(** The entry of a directory slot: the name, padded with shifted spaces. *)
Lemma compare_matches pat len slot srest n : forall i p rest name,
  i + Z.of_nat n = 16 -> 0 <= i -> 0 <= len < 4294967296 ->
  drop (Z.to_nat i) pat = p ++ rest -> mlen p = Z.max 0 (Z.min len 16 - i) ->
  drop (Z.to_nat i) slot = name ++ replicate (n - length name) 160 ++ srest ->
  mlen name <= Z.of_nat n -> 160 ∉ p -> 160 ∉ name ->
  exists b : bool, wildcard_compare_from n i pat len slot = Some (b2z b) /\ (b <-> matches p name).
Proof.
  induction n as [|n IH]; intros i p rest name Hi Hi0 Hlen Hp Hpl Hs Hnl Hp160 Hn160;
    cbn [wildcard_compare_from].
  { exists true. split; [done|]. unfold mlen in *. destruct p; [|cbn in *; lia].
    destruct name; [|cbn in *; lia]. split; [constructor|done]. }
  rewrite (getb_drop slot), Hs by lia. unfold u32. rewrite Z.mod_small by lia.
  destruct (Z.leb_spec len i) as [Hle|Hlt].
  { destruct p; [|unfold mlen in *; cbn in *; lia]. destruct name as [|d name].
    - exists true. cbn. split; [done|]. split; [constructor|done].
    - exists false. cbn. apply not_elem_of_cons in Hn160 as [Hd160%not_eq_sym _].
      rewrite (proj2 (Z.eqb_neq d 160)) by done.
      split; [done|]. split; [done|inversion 1]. }
  destruct p as [|c p]; [unfold mlen in *; cbn in *; lia|].
  apply not_elem_of_cons in Hp160 as [Hc160%not_eq_sym Hp160].
  rewrite (getb_drop pat), Hp by lia. cbn [head app].
  assert (mlen p = Z.max 0 (Z.min len 16 - (i + 1))) by (unfold mlen in *; cbn in *; lia).
  assert (drop (Z.to_nat (i + 1)) pat = p ++ rest) by (by eapply drop_tail).
  cbn [option_bind mbind].
  destruct (Z.eqb_spec c 42) as [->|Hstar].
  { exists true. split; [done|]. split; [constructor|done]. }
  destruct name as [|d name]; cbn [app].
  { replace (S n - length [])%nat with (S n) by (cbn; lia). cbn [replicate app head option_bind mbind].
    exists false. rewrite (proj2 (Z.eqb_neq c 160)) by done. cbn [negb].
    destruct (c =? 63); cbn; (split; [done|]; split; [done|inversion 1; congruence]). }
  cbn [head option_bind mbind].
  apply not_elem_of_cons in Hn160 as [Hd160%not_eq_sym Hn160].
  destruct (IH (i + 1) p rest name) as (b & Hb & Hm); [lia..|done|done| |
    unfold mlen in *; cbn in *; lia|done|done|].
  { eapply drop_tail; [lia|]. rewrite Hs. done. }
  destruct (Z.eqb_spec c d) as [->|Hcd]; cbn [negb].
  { exists b. split; [done|]. rewrite Hm. split; [by constructor|inversion 1; congruence]. }
  destruct (Z.eqb_spec c 63) as [->|]; cbn [negb].
  - rewrite (proj2 (Z.eqb_neq d 160)) by done. exists b. split; [done|]. rewrite Hm.
    split; [by constructor|inversion 1; congruence].
  - exists false. split; [done|]. split; [done|inversion 1; congruence].
Qed.

Lemma slot_create_eq name :
  cbmdos_dir_slot_create name (mlen name) =
    Some (take 16 name ++ replicate (16 - length (take 16 name)) 160).
Proof.
  unfold cbmdos_dir_slot_create, CBMDOS_SLOT_NAME_LENGTH.
  set (len := if 16 <? mlen name then 16 else mlen name).
  assert (Hlen : 0 <= len <= mlen name /\ Z.to_nat len = length (take 16 name)).
  { subst len. rewrite length_take. unfold mlen. case_bool; lia. }
  assert (slice name 0 len = Some (take 16 name)) as ->.
  { unfold slice. rewrite !(proj2 (Z.leb_le _ _)) by lia. cbn [andb Z.to_nat]. rewrite drop_0.
    f_equal. rewrite (proj2 Hlen), length_take.
    destruct (Nat.le_ge_cases 16 (length name)); [by rewrite Nat.min_l|].
    by rewrite Nat.min_r, !take_ge by done. }
  cbn [option_bind mbind]. unfold splice, mlen. rewrite length_replicate, length_take.
  rewrite !(proj2 (Z.leb_le _ _)) by lia. cbn [andb Z.to_nat take app].
  rewrite drop_replicate. repeat f_equal; lia.
Qed.

(** C23: A directory entry matches a pattern of the DOS exactly when the name does:
    the entry is the name cut to 16 characters and padded, the pattern counts up
    to 16 characters of its [len]. The comparison never leaves the pattern or
    the entry. *)
Theorem wildcard_compare_matches pat len name slot :
  0 <= len <= INT32_MAX -> Z.min len 16 <= mlen pat ->
  160 ∉ take (Z.to_nat (Z.min len 16)) pat -> 160 ∉ name ->
  cbmdos_dir_slot_create name (mlen name) = Some slot ->
  exists b : bool, cbmdos_parse_wildcard_compare pat len slot = Some (b2z b) /\
    (b <-> matches (take (Z.to_nat (Z.min len 16)) pat) (take 16 name)).
Proof.
  intros Hlen Hpat Hp Hn Hslot. rewrite slot_create_eq in Hslot. injection Hslot as <-.
  assert (length (take 16 name) <= 16)%nat by (rewrite length_take; lia).
  unfold INT32_MAX in Hlen. unfold cbmdos_parse_wildcard_compare.
  apply compare_matches with (rest := drop (Z.to_nat (Z.min len 16)) pat) (srest := []);
    try lia; try done.
  - by rewrite take_drop.
  - unfold mlen in *. rewrite length_take. lia.
  - by rewrite app_nil_r.
  - unfold mlen. change (Z.of_nat (Z.to_nat CBMDOS_SLOT_NAME_LENGTH)) with 16. lia.
  - intros Hin. apply Hn. rewrite <- (take_drop 16 name). apply elem_of_app. by left.
Qed.

(** ** Error codes *)

(** The codes the two tables share, in pairs. *)
Definition code_pairs : list (Z * Z) :=
  [(CBMDOS_FDC_ERR_OK, CBMDOS_IPE_OK);
   (CBMDOS_FDC_ERR_HEADER, CBMDOS_IPE_READ_ERROR_BNF);
   (CBMDOS_FDC_ERR_SYNC, CBMDOS_IPE_READ_ERROR_SYNC);
   (CBMDOS_FDC_ERR_NOBLOCK, CBMDOS_IPE_READ_ERROR_DATA);
   (CBMDOS_FDC_ERR_DCHECK, CBMDOS_IPE_READ_ERROR_CHK);
   (CBMDOS_FDC_ERR_VERIFY, CBMDOS_IPE_WRITE_ERROR_VER);
   (CBMDOS_FDC_ERR_WPROT, CBMDOS_IPE_WRITE_PROTECT_ON);
   (CBMDOS_FDC_ERR_HCHECK, CBMDOS_IPE_READ_ERROR_BCHK);
   (CBMDOS_FDC_ERR_BLENGTH, CBMDOS_IPE_WRITE_ERROR_BIG);
   (CBMDOS_FDC_ERR_ID, CBMDOS_IPE_DISK_ID_MISMATCH);
   (CBMDOS_FDC_ERR_DRIVE, CBMDOS_IPE_NOT_READY);
   (CBMDOS_FDC_ERR_DECODE, CBMDOS_IPE_READ_ERROR_GCR)].

Lemma unknown_ipe ipe :
  ipe ∉ code_pairs.*2 -> cbmdos_error_to_fdc_error ipe = CBMDOS_FDC_ERR_DRIVE.
Proof.
  intros Hn. assert (Hne : forall c, c ∈ code_pairs.*2 -> (ipe =? c) = false)
    by (intros c Hc; apply Z.eqb_neq; intros ->; done).
  unfold cbmdos_error_to_fdc_error. by rewrite !Hne by (by apply (bool_decide_eq_true_1 _)).
Qed.

Lemma unknown_fdc fdc :
  fdc ∉ code_pairs.*1 -> cbmdos_fdc_error_to_cbmdos_error fdc = CBMDOS_IPE_NOT_READY.
Proof.
  intros Hn. assert (Hne : forall c, c ∈ code_pairs.*1 -> (fdc =? c) = false)
    by (intros c Hc; apply Z.eqb_neq; intros ->; done).
  unfold cbmdos_fdc_error_to_cbmdos_error. by rewrite !Hne by (by apply (bool_decide_eq_true_1 _)).
Qed.

(** The two conversions of error codes are inverse on the codes that both
    sides have, agree with the table, and turn every other code into
    "drive not ready". *)
Theorem error_codes_inverse (fdc ipe : Z) :
  cbmdos_fdc_error_to_cbmdos_error (cbmdos_error_to_fdc_error ipe) =
    (if bool_decide (ipe ∈ code_pairs.*2) then ipe else CBMDOS_IPE_NOT_READY) /\
  cbmdos_error_to_fdc_error (cbmdos_fdc_error_to_cbmdos_error fdc) =
    (if bool_decide (fdc ∈ code_pairs.*1) then fdc else CBMDOS_FDC_ERR_DRIVE) /\
  ((fdc, ipe) ∈ code_pairs <->
     cbmdos_fdc_error_to_cbmdos_error fdc = ipe /\ cbmdos_error_to_fdc_error ipe = fdc).
Proof.
  split; [|split].
  - case_bool_decide as Hin.
    + revert ipe Hin. by apply Forall_forall, (bool_decide_eq_true_1 _).
    + by rewrite unknown_ipe.
  - case_bool_decide as Hin.
    + revert fdc Hin. by apply Forall_forall, (bool_decide_eq_true_1 _).
    + by rewrite unknown_fdc.
  - split.
    + intros Hin. change ((fun c : Z * Z => cbmdos_fdc_error_to_cbmdos_error c.1 = c.2 /\
        cbmdos_error_to_fdc_error c.2 = c.1) (fdc, ipe)).
      revert Hin. generalize (fdc, ipe). by apply Forall_forall, (bool_decide_eq_true_1 _).
    + intros [Hi Hf]. destruct (decide (fdc ∈ code_pairs.*1)) as [Hin|Hin].
      * rewrite <- Hi. clear Hi Hf. revert fdc Hin. by apply Forall_forall, (bool_decide_eq_true_1 _).
      * rewrite (unknown_fdc fdc) in Hi by done. subst ipe. by subst fdc; destruct Hin; apply (bool_decide_eq_true_1 _).
Qed.

(** ** Scanning a command string *)

Lemma memchr_in_ok l p c n : n <= mlen l ->
  exists r, memchr_in l p c n = Some r /\
    (forall q, r = Some q -> p <= q < p + n /\ l !! Z.to_nat (q - p) = Some c).
Proof.
  revert p n. induction l as [|b l IH]; intros p n Hn; cbn [memchr_in].
  { unfold mlen in Hn. cbn in Hn. rewrite (proj2 (Z.leb_le n 0)) by lia. by exists None. }
  destruct (Z.leb_spec n 0); [by exists None|]. destruct (Z.eqb_spec b c) as [->|Hne].
  { exists (Some p). split; [done|]. intros q [= ->]. rewrite Z.sub_diag. split; [lia|done]. }
  destruct (IH (p + 1) (n - 1)) as (r & Hr & Hq); [unfold mlen in *; cbn in Hn; lia|].
  exists r. split; [done|]. intros q [? ?]%Hq. split; [lia|].
  by replace (Z.to_nat (q - p)) with (S (Z.to_nat (q - (p + 1)))) by lia.
Qed.

Lemma memchr_ok m p c n : 0 <= p -> 0 <= n -> p + n <= mlen m -> mlen m <= UINT32_MAX ->
  exists r, memchr m p c n = Some r /\
    (forall q, r = Some q -> p <= q < p + n /\ getb m q = Some c).
Proof.
  intros Hp Hn Hpn Hm. unfold memchr, u32, UINT32_MAX in *.
  rewrite !(proj2 (Z.leb_le _ _)), Z.mod_small by lia. cbn [andb].
  destruct (memchr_in_ok (drop (Z.to_nat p) m) p c n) as (r & Hr & Hq).
  { unfold mlen in *. rewrite length_drop. lia. }
  exists r. split; [done|]. intros q [? Hl]%Hq. split; [lia|].
  rewrite lookup_drop in Hl. apply getb_Some. split; [lia|].
  by replace (Z.to_nat q) with (Z.to_nat p + Z.to_nat (q - p))%nat by lia.
Qed.

Lemma skip_to_ok m limit test p : 0 <= p -> limit <= mlen m ->
  exists q, skip_to limit test m p = Some q /\ p <= q <= Z.max p limit.
Proof.
  intros Hp Hlim. unfold skip_to.
  assert (Hn : Z.to_nat (limit - p) = Z.to_nat (Z.max p limit - p)) by lia. rewrite Hn. clear Hn.
  remember (Z.to_nat (Z.max p limit - p)) as n eqn:En.
  revert p Hp En. induction n as [|n IH]; intros p Hp En; cbn [skip_while].
  { exists p. split; [done|lia]. }
  destruct (getb_is_Some m p) as [b ->]; [lia|]. cbn [option_bind mbind].
  destruct (test b); [|exists p; split; [done|lia]].
  destruct (IH (p + 1)) as (q & Hq & Hr); [lia..|]. exists q. split; [done|lia].
Qed.

Lemma copy_string_ok m p n : 0 <= p -> 0 <= n -> p + n <= mlen m ->
  exists bs, copy_string m p n = Some (bs ++ [0]) /\ mlen bs = n /\
    bs = take (Z.to_nat n) (drop (Z.to_nat p) m).
Proof.
  intros Hp Hn Hpn. unfold copy_string, slice. rewrite !(proj2 (Z.leb_le _ _)) by lia.
  cbn [andb option_bind mbind]. eexists. split; [done|]. split; [|done].
  unfold mlen in *. rewrite length_take, length_drop. lia.
Qed.

(** ** Defined behaviour of the parsers *)

(** A returned string: its block is not empty, its length counts bytes of it. *)
Definition string_ok (s : option mem) (len : Z) : Prop :=
  match s with Some b => 0 <= len <= mlen b /\ 0 < mlen b | None => len = 0 end.

Definition strings_ok (r : cbmdos_cmd_parse_plus_t) : Prop :=
  string_ok (command r) (commandlength r) /\ string_ok (abbrv r) (abbrvlength r) /\
  string_ok (path r) (pathlength r) /\ string_ok (file r) (filelength r) /\
  string_ok (more r) (morelength r).

(** The drive stays in a byte, or is the caller's. *)
Definition drive_in (d : Z) (r : cbmdos_cmd_parse_plus_t) : Prop :=
  pdrive r = d \/ 0 <= pdrive r < 256.

Definition parsed (d : Z) (r : cbmdos_cmd_parse_plus_t) : Prop := strings_ok r /\ drive_in d r.

(** A property of the fields that one assignment leaves or sets *)
Ltac by_fields s :=
  destruct s; unfold parsed, strings_ok, drive_in in *; cbn in *; destruct_and?;
  repeat match goal with |- _ /\ _ => split end; first [assumption | reflexivity | lia].

Section defined.
Context (m : mem) (limit d0 : Z).
Context (limit_pos : 0 < limit) (limit_in : limit < mlen m) (m_small : mlen m <= UINT32_MAX)
        (m_bytes : bytes_ok m).

Lemma read_ok p : 0 <= p <= limit -> exists b, getb m p = Some b /\ 0 <= b < 256.
Proof using limit_in m_bytes.
  intros Hp. destruct (getb_is_Some m p) as [b Hb]; [lia|]. exists b. split; [done|].
  apply getb_Some in Hb as [_ Hb]. by apply (Forall_lookup_1 _ _ _ _ m_bytes Hb).
Qed.

Lemma wp_read {S A} (k : Z -> ST S A) Q s p : 0 <= p <= limit ->
  (forall b, getb m p = Some b -> 0 <= b < 256 -> wp (k b) Q s) ->
  wp (bindST (lift (getb m p)) k) Q s.
Proof using limit_in m_bytes.
  intros Hp Hk. destruct (read_ok p Hp) as (b & Hb & ?). apply wp_bindST, wp_lift. eauto.
Qed.

Lemma wp_take (set_s : option mem -> cbmdos_cmd_parse_plus_t -> cbmdos_cmd_parse_plus_t)
    (set_l : Z -> cbmdos_cmd_parse_plus_t -> cbmdos_cmd_parse_plus_t) p1 p Q s :
  0 <= p1 <= p -> p <= mlen m ->
  (forall b, string_ok (Some b) (p - p1) -> Q tt (set_s (Some b) (set_l (p - p1) s))) ->
  wp (update (fun r => s ← copy_string m p1 (p - p1); Some (set_s (Some s) (set_l (p - p1) r))))
     Q s.
Proof.
  intros Hp Hm HQ. apply wp_update.
  destruct (copy_string_ok m p1 (p - p1)) as (bs & -> & Hl & _); [lia..|].
  eexists. split; [done|]. apply HQ. cbn. unfold mlen in *. rewrite length_app. cbn. lia.
Qed.

Lemma unit_number_ok n p s : 0 <= p -> p + Z.of_nat n <= limit ->
  parsed d0 s -> 0 <= pdrive s < 256 ->
  wp (unit_number n m p) (fun q r => p <= q <= p + Z.of_nat n /\ parsed d0 r /\
    command r = command s) s.
Proof using limit_in m_bytes.
  revert p s. induction n as [|n IH]; intros p s Hp Hn Hs Hd; cbn [unit_number].
  { apply wp_ret. split_and!; [lia..|done|done]. }
  apply wp_read; [lia|]. intros b _ Hb. destruct (is_digit b) eqn:Hdig.
  - wp_steps. eapply wp_mono.
    + apply IH; [lia..| |]; (case_bool; [|done]); destruct s as [], Hs as [Hs Hd'];
        unfold is_digit in Hdig; cbn in *; [split; [done|right; cbn; lia]|lia].
    + cbn beta. intros q r (? & ? & Hc). split_and!; [lia..|done|].
      rewrite Hc. by case_bool; destruct s.
  - apply wp_ret. split_and!; [lia..|done|done].
Qed.

Lemma take_unit_ok reset p p2 s : 0 <= p <= limit -> (forall q, p2 = Some q -> q <= limit) ->
  parsed d0 s -> (reset = false -> 0 <= pdrive s < 256) ->
  wp (take_unit reset m p p2) (fun q r => p <= q <= limit /\ parsed d0 r /\
    command r = command s) s.
Proof using limit_in m_bytes.
  intros Hp Hp2 Hs Hd. unfold take_unit.
  assert (wp (mret p) (fun q r => p <= q <= limit /\ parsed d0 r /\ command r = command s) s)
    by (apply wp_ret; split_and!; [lia..|done|done]).
  destruct p2 as [q|]; [|done]. specialize (Hp2 q eq_refl).
  destruct (Z.ltb_spec p q); [|done]. apply wp_read; [lia|]. intros b _ _.
  case_match; [|done]. apply wp_bind.
  apply wp_mono with (Q := fun _ r => parsed d0 r /\ 0 <= pdrive r < 256 /\ command r = command s).
  - destruct reset; [|by apply wp_ret; auto]. apply wp_modify.
    destruct s, Hs. split_and!; [split; [done|by right]|done..].
  - cbn beta. intros _ r (Hr & Hdr & Hc).
    eapply wp_mono; [apply unit_number_ok; (done || lia)|]. cbn beta.
    intros x r' (? & ? & ?). split_and!; [lia..|done|congruence].
Qed.

(** The path between the number and the colon *)
Lemma take_rest_ok p q s : 0 <= p <= limit -> q <= limit -> parsed d0 s ->
  wp (if p <? q then take_path m p q;; mret q else mret p)
     (fun x r => 0 <= x <= limit /\ parsed d0 r /\ command r = command s) s.
Proof using limit_in.
  intros Hp Hq Hs. destruct (Z.ltb_spec p q); [|by apply wp_ret].
  apply wp_bind. apply (wp_take set_path set_pathlength); [lia..|]. intros b Hb.
  apply wp_ret. split; [lia|]. by_fields s.
Qed.

Lemma wp_skip {S A} test (k : Z -> ST S A) Q s p : 0 <= p <= limit ->
  (forall q, p <= q <= limit -> wp (k q) Q s) ->
  wp (bindST (lift (skip_to limit test m p)) k) Q s.
Proof using limit_in.
  intros Hp Hk. destruct (skip_to_ok m limit test p) as (q & Hq & ?); [lia..|].
  apply wp_bindST, wp_lift. exists q. split; [done|]. apply Hk. lia.
Qed.

Lemma wp_memchr {S A} c (k : option Z -> ST S A) Q s p n : 0 <= p -> 0 <= n -> p + n <= limit ->
  (forall r, (forall q, r = Some q -> p <= q < p + n /\ getb m q = Some c) -> wp (k r) Q s) ->
  wp (bindST (lift (memchr m p c n)) k) Q s.
Proof using limit_in m_small.
  intros Hp Hn Hpn Hk. destruct (memchr_ok m p c n) as (r & Hr & ?); [lia..|].
  apply wp_bindST, wp_lift. eauto.
Qed.

Lemma special_end_ok p2 : (forall q, p2 = Some q -> 0 <= q < limit) ->
  exists p p2', special_end m limit 0 p2 = Some (p, p2') /\ 0 <= p <= limit /\
    (forall q, p2' = Some q -> 0 <= q <= limit).
Proof using limit_pos limit_in m_bytes.
  intros Hp2. assert (Hp2' : forall q, p2 = Some q -> 0 <= q <= limit) by (intros ? ?%Hp2; lia).
  unfold special_end. destruct (read_ok 0) as (b & -> & _); [lia|].
  destruct (read_ok 1) as (b1 & Hb1 & _); [lia|].
  change (0 + 1) with 1. change (0 + 2) with 2. change (0 + 3) with 3. cbn [option_bind mbind].
  rewrite Hb1. cbn [option_bind mbind].
  destruct (b =? 35).
  { case_bool; [|eauto with lia]. destruct (is_digit b1); eauto with lia. }
  destruct (negb (b =? 36)); [eauto with lia|].
  assert (exists x, (if 2 <? limit
            then (if b1 =? 61 then t ← getb m 2; Some ((t =? 80) || (t =? 84)) else Some false)
            else Some false) = Some x /\ (x = true -> 2 < limit)) as (x & -> & Hx).
  { destruct (Z.ltb_spec 2 limit); [|by exists false].
    destruct (b1 =? 61); [|by exists false].
    destruct (read_ok 2) as (b2 & -> & _); [lia|]. by eexists. }
  cbn [option_bind mbind]. destruct x; [specialize (Hx eq_refl); eauto with lia|].
  destruct (negb _ && _); [|eauto with lia]. cbn [option_bind mbind].
  exists 1. eexists. split; [done|]. split; [lia|].
  intros q. destruct (is_digit b1); [intros [= <-]; lia|apply Hp2'].
Qed.

Lemma unit_and_path_ok p2 special s : (forall q, p2 = Some q -> 0 <= q < limit) ->
  parsed d0 s -> wp (unit_and_path m limit p2 special)
    (fun p r => 0 <= p <= limit /\ parsed d0 r) s.
Proof using limit_pos limit_in m_bytes.
  intros Hp2 Hs. unfold unit_and_path. apply wp_read; [lia|]. intros b _ _.
  apply wp_bindST. apply wp_mono with (Q := fun x r => 0 <= x.1 <= limit /\ parsed d0 r /\
    forall q, x.2 = Some q -> 0 <= q <= limit).
  - assert (Hp2' : forall q, p2 = Some q -> 0 <= q <= limit) by (intros ? ?%Hp2; lia).
    destruct (_ && _); [|apply wp_ret; cbn; split_and!; (done || lia)].
    apply wp_bindST, wp_lift.
    assert (exists p p2', (if special then special_end m limit 0 p2
      else match p2 with
           | Some q => p ← skip_to (q + 1) (λ c, negb (is_digit c)) m 0; Some (p, p2)
           | None => Some (0, p2)
           end) = Some (p, p2') /\ 0 <= p <= limit /\
        forall q, p2' = Some q -> 0 <= q <= limit) as (p & p2' & -> & Hp & Hq).
    { destruct special; [by apply special_end_ok|]. destruct p2 as [q|]; [|eauto with lia].
      specialize (Hp2 q eq_refl).
      destruct (skip_to_ok m (q + 1) (fun c => negb (is_digit c)) 0) as (p & -> & Hp); [lia..|].
      cbn. exists p, (Some q). split_and!; [done|lia..|done]. }
    eexists. split; [done|]. cbn. apply wp_bind, (wp_take set_command set_commandlength); [lia..|].
    intros bs Hbs. apply wp_ret. split_and!; cbn; [lia..| |done]. by_fields s.
  - cbn beta. intros [p q2] r (Hp & Hr & Hq). cbn [fst snd] in *.
    destruct q2 as [q|]; [|by apply wp_ret]. specialize (Hq q eq_refl).
    apply wp_skip; [lia|]. intros x Hx. apply wp_bindST. eapply wp_mono.
    + apply take_unit_ok; [lia|intros ? [= <-]; lia|done|done].
    + cbn beta. intros y r' (Hy & Hr' & _). apply wp_skip; [lia|]. intros z Hz.
      eapply wp_mono; [apply take_rest_ok; (done || lia)|]. cbn beta.
      by intros ? ? (? & ? & ?).
Qed.

Definition mode_post (p : Z) (s : cbmdos_cmd_parse_plus_t) (r : Z + Z)
    (s' : cbmdos_cmd_parse_plus_t) : Prop :=
  parsed d0 s' /\ match r with inr q => q = p \/ q = p + 2 /\ p + 2 < limit | inl _ => True end.

Lemma file_mode_ok p s : 0 <= p <= limit -> parsed d0 s ->
  wp (file_mode m p limit) (mode_post p s) s.
Proof using limit_in m_bytes.
  intros Hp Hs. unfold file_mode. apply wp_read; [lia|]. intros b _ _.
  assert (Hset : forall f, (parsed d0 s -> parsed d0 (f s)) ->
                           wp (modify f;; mret (inr p)) (mode_post p s) s)
    by (intros f Hf; wp_steps; split; auto).
  do 3 (case_match; [apply Hset; by destruct s|]).
  case_match; [|do 3 (case_match; [apply Hset; by destruct s|]); apply wp_ret; split; auto].
  destruct (Z.ltb_spec (p + 2) limit); [|wp_steps; by split].
  apply wp_bindST. apply wp_read; [lia|]. intros d _ _. apply wp_ret.
  destruct (d =? 44); [|wp_steps; by split].
  apply wp_read; [lia|]. intros l _ _. wp_steps. case_match; wp_steps;
    (split; [by destruct s|auto]).
Qed.

Lemma file_modes_ok n p s : getb m (limit - 1) <> Some (ch ",") ->
  0 <= p <= limit -> (p < limit -> getb m p = Some (ch ",")) -> limit - p < Z.of_nat n ->
  parsed d0 s -> wp (file_modes n m p limit) (fun _ r => parsed d0 r) s.
Proof using limit_in m_bytes m_small.
  intros Hlast. revert p s. induction n as [|n IH]; intros p s Hp Hcomma Hn Hs; [lia|].
  cbn [file_modes]. destruct (Z.ltb_spec p limit) as [Hlt|]; [|by apply wp_ret].
  assert (p <> limit - 1) by (intros ->; auto).
  cbn [negb]. apply wp_bindST. eapply wp_mono; [apply file_mode_ok; [lia|done]|].
  cbn beta. intros [rc|q] r [Hr Hq]; [by apply wp_ret|].
  apply wp_memchr; [lia..|]. intros [c|] Hc; [|by apply wp_ret].
  destruct (Hc c eq_refl) as [? ?]. apply IH; [lia|done|lia|done].
Qed.

Lemma parse_file_ok s : getb m (limit - 1) <> Some (ch ",") -> getb m limit = Some 0 ->
  parsed d0 s -> wp (parse_file m limit) (fun _ r => parsed d0 r) s.
Proof using limit_pos limit_in m_bytes m_small.
  intros Hlast Hend Hs. unfold parse_file. wp_steps.
  apply wp_memchr; [lia..|]. intros p2 Hp2. wp_steps. apply wp_read; [lia|]. intros b _ _.
  set (s1 := if bool_decide _ then _ else _).
  assert (parsed d0 s1).
  { subst s1. destruct (mode s =? 0), (bool_decide _); destruct s, Hs as [? ?]; split; try done;
      right; cbn; lia. }
  apply wp_bindST. apply wp_mono with (Q := fun p r => 0 <= p <= limit /\ parsed d0 r).
  { destruct (_ || _); [|by apply wp_ret; split; [lia|]].
    apply unit_and_path_ok; [|done]. intros q Hq. destruct (Hp2 q Hq). lia. }
  cbn beta. intros p r (Hp & Hr). apply wp_read; [lia|]. intros b' Hb' _.
  set (p1 := if b' =? 58 then p + 1 else p).
  assert (Hp1 : 0 <= p1 <= limit).
  { subst p1. destruct (Z.eqb_spec b' 58) as [->|]; [|lia].
    assert (p <> limit) by (intros ->; congruence). lia. }
  apply wp_memchr; [lia..|]. intros q2 Hq2. wp_steps.
  apply wp_bindST, wp_lift.
  assert (exists l, match q2, command r with
    | Some _, Some cm => b ← getb cm 0; Some (b =? 36) | _, _ => Some false end = Some l)
    as [l ->].
  { destruct q2, (command r) as [cm|] eqn:Hcm; eauto. destruct Hr as [[Hc _] _].
    rewrite Hcm in Hc. destruct (getb_is_Some cm 0) as [x ->]; [cbn in Hc; lia|]. cbn. eauto. }
  eexists. split; [done|]. set (p' := match q2 with Some q => if l then limit else q | None => limit end).
  assert (Hp' : p1 <= p' <= limit /\ (p' < limit -> getb m p' = Some 44)).
  { subst p'. destruct q2 as [q|]; [|lia]. destruct (Hq2 q eq_refl). destruct l; [lia|].
    split; [lia|done]. }
  apply wp_bind. apply (wp_take set_file set_filelength); [lia..|]. intros bs Hbs. wp_steps.
  assert (Hset : forall t, parsed d0 (set_pfiletype t (set_file (Some bs) (set_filelength (p' - p1) r))))
    by (intros t; by_fields r).
  destruct q2; [|by apply wp_ret]. apply wp_bindST. eapply wp_mono.
  { apply file_modes_ok; [done|lia|tauto|lia|apply Hset]. }
  intros [rc|] r' Hr'; [by apply wp_ret|]. wp_steps. unfold load_save_mode_plus.
  assert (Hmode : forall x, parsed d0 (set_preadmode x r')) by (intros; by destruct r').
  destruct (psecondary r' =? 0); cbn zeta; case_match; try done; destruct r'; apply (Hmode CBMDOS_FAM_WRITE).
Qed.

Lemma whole_command_ok : exists w, whole_command m limit = Some w.
Proof using limit_pos limit_in m_bytes.
  unfold whole_command. destruct (read_ok 0) as (b & -> & _); [lia|].
  destruct (read_ok 1) as (d & -> & _); [lia|]. cbn [option_bind mbind]. repeat case_match; eauto.
Qed.

Lemma push_temp_ok temp b : mlen temp < 256 ->
  push_temp temp b = Some (temp ++ [b]) /\ mlen (temp ++ [b]) = mlen temp + 1.
Proof.
  intros Ht. unfold push_temp. rewrite (proj2 (Z.ltb_lt _ _)) by done.
  unfold mlen. rewrite length_app. cbn. split; [done|lia].
Qed.

(** An abbreviation is no longer than the characters read for it. *)
Definition abbreviated (p : Z) (r : option (Z * mem)) : Prop :=
  match r with
  | Some (q, temp) => p <= q <= limit /\ mlen temp <= q
  | None => 2 <= limit
  end.

Lemma abbreviate_ok n first special p temp : limit <= 256 -> 0 <= p -> p <= limit ->
  limit - p < Z.of_nat n -> mlen temp <= p ->
  exists r, abbreviate n m limit first special p temp = Some r /\ abbreviated p r.
Proof using limit_in m_bytes.
  intros Hlim. revert p temp. induction n as [|n IH]; intros p temp Hp0 Hp Hn Ht; [lia|].
  cbn [abbreviate]. pose proof (mlen_nonneg temp).
  destruct (Z.ltb_spec p limit); cbn [negb]; [|by eexists].
  destruct (read_ok p) as (b & -> & _); [lia|]. cbn [option_bind mbind].
  destruct (push_temp_ok temp b) as [-> Hl]; [lia|]. cbn [option_bind mbind].
  assert (Hstop : forall q, p < q <= limit -> exists r, Some (Some (q, temp ++ [b])) = Some r /\
    abbreviated p r) by (intros q Hq; eexists; split; [done|]; cbn; lia).
  destruct (Z.leb_spec limit (p + 1)); cbn [orb]; [apply Hstop; lia|].
  destruct (first <? 65); [apply Hstop; lia|].
  destruct (read_ok (p + 1)) as (b1 & -> & _); [lia|]. cbn [option_bind mbind].
  case_match; [apply Hstop; lia|]. case_match; [eexists; split; [done|]; cbn; lia|].
  case_match; [apply Hstop; lia|].
  assert (exists q, (if special then Some (p + 1) else skip_to limit is_letter m (p + 1)) = Some q /\
    p + 1 <= q <= limit) as (q & -> & Hq).
  { destruct special; [by exists (p + 1); split; [done|lia]|].
    destruct (skip_to_ok m limit is_letter (p + 1)) as (q & -> & ?); [lia..|].
    exists q. split; [done|lia]. }
  cbn [option_bind mbind]. destruct (Z.leb_spec limit q); [apply Hstop; lia|].
  destruct (read_ok q) as (b2 & -> & _); [lia|]. cbn [option_bind mbind].
  destruct (ends_command special b2); [apply Hstop; lia|].
  destruct (push_temp_ok (temp ++ [b]) b2) as [-> Hl2]; [lia|]. cbn [option_bind mbind].
  assert (Hstop2 : exists r, Some (Some (q + 1, (temp ++ [b]) ++ [b2])) = Some r /\
    abbreviated p r) by (eexists; split; [done|]; cbn; lia).
  destruct (Z.leb_spec limit (q + 1)); [done|].
  destruct (read_ok (q + 1)) as (b3 & -> & _); [lia|]. cbn [option_bind mbind].
  destruct (ends_command special b3); [done|].
  destruct (IH (q + 1) ((temp ++ [b]) ++ [b2])) as ([[q' t']|] & Hr & Ha); [lia..| |];
    (eexists; split; [done|]; cbn in *; lia).
Qed.

Lemma user_digit_ok s : parsed d0 s -> command s <> None ->
  exists s', user_digit s = Some s' /\ parsed d0 s' /\ command s' <> None.
Proof.
  intros Hs Hc. unfold user_digit. destruct (command s) as [cm|] eqn:Hcm; [|done]. cbn.
  assert (Hok : string_ok (command s) (commandlength s)) by apply Hs.
  rewrite Hcm in Hok. cbn in Hok.
  assert (Hsame : exists s', Some s = Some s' /\ parsed d0 s' /\ command s' <> None)
    by (eexists; rewrite Hcm; auto).
  destruct (Z.ltb_spec 1 (commandlength s)); [|done].
  destruct (getb_is_Some cm 0) as [b ->]; [lia|]. cbn. destruct (b =? 85); [|done].
  destruct (getb_is_Some cm 1) as [d ->]; [lia|]. cbn. destruct (_ && _); [|done].
  destruct (putb cm 1 (u8 (d + 48))) as [cm'|] eqn:Hput.
  - cbn. eexists. split; [done|]. apply putb_len in Hput. split; [|by destruct s].
    destruct s, Hs as [[? Hs] ?]. split; [|done]. split; [|done]. cbn in *. lia.
  - rewrite putb_eq in Hput by lia. done.
Qed.

Lemma take_name_ok special s : limit <= 256 ->
  (forall b, getb m 0 = Some b -> is_digit b = false) -> getb m limit = Some 0 -> parsed d0 s ->
  wp (take_name m limit special) (fun p r => parsed d0 r /\ (p <> None -> command r <> None) /\
    forall q, p = Some q -> 0 <= q <= limit) s.
Proof using limit_pos limit_in m_bytes.
  intros Hlim Hdig Hend Hs. unfold take_name. apply wp_read; [lia|]. intros first Hf _.
  rewrite (Hdig _ Hf). cbn [negb]. apply wp_bindST, wp_lift.
  destruct (abbreviate_ok (Z.to_nat (limit + 1)) first special 0 []) as (r & -> & Hr);
    [done|lia|lia|lia|done|]. eexists. split; [done|]. destruct r as [[p temp]|]; cbn in Hr.
  - apply wp_bind, (wp_take set_command set_commandlength); [lia..|]. intros bs Hbs. wp_steps.
    set (s1 := set_abbrv _ _).
    assert (Hs1 : parsed d0 s1 /\ command s1 <> None).
    { assert (string_ok (Some (temp ++ [0])) (mlen temp))
        by (cbn; unfold mlen; rewrite length_app; cbn; lia).
      subst s1. split; [by_fields s|by destruct s]. }
    destruct Hs1 as [Hs1 Hc1]. destruct (user_digit_ok s1 Hs1 Hc1) as (s2 & Hu & Hs2 & Hc2).
    apply wp_bind, wp_update. exists s2. split; [done|].
    destruct special; [|apply wp_ret; split_and!; [done..|]; intros q [= <-]; lia].
    apply wp_read; [lia|]. intros b Hb _. apply wp_ret. split_and!; [done..|].
    intros q [= <-]. destruct (Z.eq_dec p limit) as [->|]; [|case_match; lia].
    replace b with 0 by congruence. cbn. lia.
  - apply wp_bind, wp_update. unfold slice. rewrite !(proj2 (Z.leb_le _ _)) by lia.
    cbn [andb option_bind mbind]. eexists. split; [done|]. apply wp_ret.
    assert (string_ok (Some (take (Z.to_nat 3) (drop (Z.to_nat 0) m))) 3)
      by (cbn -[take drop]; unfold mlen in *; rewrite length_take, length_drop; lia).
    split_and!; [by_fields s|done|done].
Qed.

Lemma name_end_ok special p s : 0 <= p <= limit -> parsed d0 s -> command s <> None ->
  wp (name_end m limit special p) (fun q r => p <= q <= limit /\ parsed d0 r) s.
Proof using limit_in m_small.
  intros Hp Hs Hc. unfold name_end. apply wp_memchr; [lia..|]. intros e He.
  assert (He' : p <= default limit e <= limit).
  { destruct e as [q|]; cbn; [|lia]. destruct (He q eq_refl). lia. }
  apply wp_bindST, wp_mono with (Q := fun _ r => r = s).
  { destruct special; [by apply wp_ret|]. wp_steps.
    destruct (command s) as [cm|] eqn:Hcm; [|done]. assert (Hok : string_ok (command s) (commandlength s)) by apply Hs.
    rewrite Hcm in Hok. destruct (getb_is_Some cm 0) as [b Hb]; [cbn in Hok; lia|].
    apply wp_lift. eexists. cbn. rewrite Hb. done. }
  intros block _ ->. destruct block; [by apply wp_ret|].
  apply wp_memchr; [lia..|]. intros q2 Hq2. apply wp_ret. split; [|done].
  destruct e as [q|], q2 as [q'|]; cbn in *;
    try (destruct (He _ eq_refl)); try (destruct (Hq2 _ eq_refl)); try case_match; lia.
Qed.

Lemma parse_operand_ok special p p2 s : 0 <= d0 < 256 -> 0 <= p < limit ->
  (forall q, p2 = Some q -> 0 <= q < limit) -> getb m limit = Some 0 ->
  parsed d0 s -> command s <> None ->
  wp (parse_operand m limit special p p2) (fun _ r => parsed d0 r) s.
Proof using limit_in m_bytes m_small.
  intros Hd Hp Hp2 Hend Hs Hc. unfold parse_operand.
  apply wp_skip; [lia|]. intros p' Hp'. apply wp_bindST. eapply wp_mono.
  { apply take_unit_ok; [lia|intros q Hq; specialize (Hp2 q Hq); lia|done|].
    intros _. destruct Hs as [_ [->|]]; lia. }
  cbn beta. intros x r (Hx & Hr & Hcr). apply wp_skip; [lia|]. intros y Hy.
  apply wp_bindST.
  apply wp_mono with (Q := fun x r => 0 <= x <= limit /\ parsed d0 r /\ command r = command s).
  { destruct p2 as [q|]; [|apply wp_ret; split_and!; (done || lia)]. rewrite <- Hcr.
    specialize (Hp2 q eq_refl). apply take_rest_ok; (done || lia). }
  cbn beta. intros z r' (Hz & Hr' & Hcr'). apply wp_read; [lia|]. intros b Hb _.
  assert (Hz' : 0 <= (if b =? 58 then z + 1 else z) <= limit).
  { destruct (Z.eqb_spec b 58) as [->|]; [|lia]. assert (z <> limit) by (intros ->; congruence). lia. }
  apply wp_bindST. eapply wp_mono; [apply name_end_ok; [done..|congruence]|].
  cbn beta. intros e r2 (He & Hr2). apply wp_bind, (wp_take set_file set_filelength); [lia..|].
  intros bs Hbs. set (s3 := set_file _ _).
  assert (Hs3 : parsed d0 s3) by (subst s3; by_fields r2). clearbody s3.
  apply wp_bind, wp_mono with (Q := fun _ r => parsed d0 r); [|intros; by apply wp_ret].
  destruct (Z.ltb_spec e limit); [|by apply wp_ret].
  apply (wp_take set_more set_morelength); [lia..|].
  intros bs' Hbs'. by_fields s3.
Qed.

Lemma parse_command_ok s : 0 <= d0 < 256 -> limit <= 256 ->
  (forall b, getb m 0 = Some b -> is_digit b = false) -> getb m limit = Some 0 ->
  fulllength s = limit -> strings_ok s -> wp (parse_command m limit) (fun _ r => parsed d0 r) s.
Proof using limit_pos limit_in m_bytes m_small.
  intros Hd Hlim Hdig Hend Hfl Hs. unfold parse_command. wp_steps.
  assert (Hs1 : parsed d0 (set_pdrive 0 s) /\ fulllength (set_pdrive 0 s) = limit)
    by (destruct s, Hs; split; [split; [done|right; cbn; lia]|done]).
  destruct Hs1 as [Hs1 Hfl1]. set (s1 := set_pdrive 0 s) in *. clearbody s1.
  destruct whole_command_ok as [w Hw]. apply wp_bindST, wp_lift. exists w. split; [done|].
  destruct w as [rc|[]]; [by apply wp_ret| |].
  { apply wp_bind, wp_update. unfold slice. rewrite Hfl1, !(proj2 (Z.leb_le _ _)) by lia.
    cbn [andb option_bind mbind]. eexists. split; [done|]. apply wp_ret.
    assert (string_ok (Some (take (Z.to_nat limit) (drop (Z.to_nat 0) m))) limit)
      by (cbn -[take drop]; unfold mlen in *; rewrite length_take, length_drop; lia).
    by_fields s1. }
  apply wp_memchr; [lia..|]. intros p2 Hp2. wp_steps. apply wp_read; [lia|]. intros b _ _.
  set (s2 := if bool_decide _ then _ else _).
  assert (Hs2 : parsed d0 s2) by (subst s2; case_match; [|done]; by destruct s1).
  apply wp_bindST. eapply wp_mono; [by apply take_name_ok|]. cbn beta.
  intros [p|] r (Hr & Hc & Hp); [|by apply wp_ret]. specialize (Hp p eq_refl).
  destruct (Z.leb_spec limit p); [by apply wp_ret|].
  apply parse_operand_ok; [done|lia| |done..|by apply Hc].
  intros q Hq. destruct (Hp2 q Hq). lia.
Qed.
End defined.

(** The strings that the parser handles: a file name that does not end in a comma,
    a command of at most 256 bytes that does not start with a digit. *)
Definition accepted (md : Z) (s : mem) : bool :=
  if (md =? 0) || (md =? 2) then negb (bool_decide (last s = Some (ch ",")))
  else if md =? 1 then
    match s with b :: _ => negb (is_digit b) && (mlen s <=? 256) | [] => true end
  else true.

Lemma getb_app_l (l l' : mem) i : i < mlen l -> getb (l ++ l') i = getb l i.
Proof.
  intros Hi. unfold getb. destruct (Z.leb_spec 0 i); [|done]. apply lookup_app_l.
  unfold mlen in Hi. lia.
Qed.

Lemma getb_app_r (l l' : mem) i : 0 <= i -> getb (l ++ l') (mlen l + i) = getb l' i.
Proof.
  intros Hi. unfold getb, mlen. rewrite !(proj2 (Z.leb_le _ _)) by lia.
  rewrite lookup_app_r by lia. f_equal. lia.
Qed.

Lemma getb_last (s : mem) : s <> [] -> getb s (mlen s - 1) = last s.
Proof.
  intros Hs. rewrite last_lookup. unfold getb, mlen. destruct s as [|x s]; [done|].
  rewrite (proj2 (Z.leb_le _ _)) by (cbn; lia). f_equal. cbn. lia.
Qed.

(** C29: The parser of file names and commands is defined on every accepted string
    that its caller ends with a NUL. The strings it returns lie in their blocks,
    the drive number stays a byte or, for a file name without a number, the
    caller's. *)
Theorem command_parse_plus_defined s (r : cbmdos_cmd_parse_plus_t) :
  full r = Some (s ++ [0]) -> fulllength r = mlen s -> mlen s < UINT32_MAX -> bytes_ok s ->
  accepted (mode r) s = true ->
  exists rc r', cbmdos_command_parse_plus r = Some (rc, r') /\ strings_ok r' /\
    (pdrive r' = pdrive r \/ 0 <= pdrive r' < 256).
Proof.
  intros Hfull Hlen Hsmall Hbytes Hacc.
  cut (wp cbmdos_command_parse_plus (fun _ r' => parsed (pdrive r) r') r).
  { intros (rc & r' & Hrun & ? & ?)%wp_run. by exists rc, r'. }
  unfold cbmdos_command_parse_plus. wp_steps.
  assert (Hr0 : parsed (pdrive r) (reset_plus r)) by (destruct r; by repeat split; left).
  replace (full (reset_plus r)) with (Some (s ++ [0])) by (by destruct r).
  replace (mode (reset_plus r)) with (mode r) by (by destruct r).
  assert (Hlen0 : fulllength (reset_plus r) = mlen s) by (by destruct r).
  rewrite Hlen0. destruct (Z.eqb_spec (mlen s) 0); [by apply wp_ret|].
  pose proof (mlen_nonneg s).
  assert (mlen (s ++ [0]) = mlen s + 1) by (unfold mlen; rewrite length_app; cbn; lia).
  assert (bytes_ok (s ++ [0])) by (apply Forall_app; split; [done|by repeat constructor]).
  assert (Hend : getb (s ++ [0]) (mlen s) = Some 0)
    by (rewrite <- (Z.add_0_r (mlen s)); by rewrite getb_app_r).
  assert (s <> []) by (intros ->; done).
  unfold accepted in Hacc. destruct (_ || _).
  { apply parse_file_ok; try done; try lia. rewrite getb_app_l, getb_last by (done || lia).
    intros Hl. by rewrite bool_decide_true in Hacc. }
  destruct (mode r =? 1); [|by apply wp_ret].
  destruct s as [|b s]; [done|]. apply andb_true_iff in Hacc as [Hdig Hl].
  eapply wp_mono; [eapply (parse_command_ok _ _ 0)|]; try done; try lia.
  - intros b' Hb. cbn in Hb. injection Hb as ->. by apply negb_true_iff.
  - cbn beta. intros _ r' [? [Hz|]]; (split; [done|right; lia]).
Qed.

(** A step that is undefined after a defined one *)
Lemma fails_after {S A B} (m : ST S A) (k : A -> ST S B) s :
  wp m (fun a s' => k a s' = None) s -> bindST m k s = None.
Proof. intros (a & s' & Hm & Hk)%wp_run. unfold bindST. by rewrite Hm. Qed.

Section null_command.
Context (m : mem) (limit : Z).
Context (limit_pos : 0 < limit) (limit_in : limit < mlen m) (m_small : mlen m <= UINT32_MAX)
        (m_bytes : bytes_ok m) (m_end : getb m limit = Some 0).

(** Without a command name the parser reads the name's first character. *)
Lemma parse_operand_null p p2 s : 0 <= p < limit -> (forall q, p2 = Some q -> 0 <= q < limit) ->
  parsed 0 s -> command s = None -> parse_operand m limit false p p2 s = None.
Proof using limit_pos limit_in m_bytes m_small m_end.
  intros Hp Hp2 Hs Hc. unfold parse_operand. apply fails_after.
  destruct (skip_to_ok m limit (fun c => (c =? 32) || (c =? 29)) p) as (p' & Hskip & Hp'); [lia..|].
  apply wp_lift. exists p'. split; [done|]. apply fails_after. eapply wp_mono.
  { apply (take_unit_ok m limit 0); [done..|lia|intros q Hq; specialize (Hp2 q Hq); lia|done|].
    intros _. destruct Hs as [_ [->|]]; lia. }
  cbn beta. intros x r (Hx & Hr & Hcr). apply fails_after.
  destruct (skip_to_ok m limit (Z.eqb 32) x) as (y & Hskip' & Hy); [lia..|].
  apply wp_lift. exists y. split; [done|]. apply fails_after.
  apply wp_mono with (Q := fun x r => 0 <= x <= limit /\ parsed 0 r /\ command r = None).
  { rewrite <- Hc, <- Hcr. destruct p2 as [q|]; [|apply wp_ret; split_and!; (done || lia)].
    specialize (Hp2 q eq_refl). apply take_rest_ok; (done || lia). }
  cbn beta. intros z r' (Hz & Hr' & Hcr'). apply fails_after.
  destruct (read_ok m limit) with (p := z) as (b & Hb & _); [done..|].
  apply wp_lift. exists b. split; [done|]. unfold bindST at 1.
  replace (name_end _ _ _ _ r') with (@None (Z * cbmdos_cmd_parse_plus_t)); [done|].
  symmetry. unfold name_end.
  assert (0 <= (if b =? 58 then z + 1 else z) <= limit).
  { destruct (Z.eqb_spec b 58) as [->|]; [|lia]. assert (z <> limit) by (intros ->; congruence). lia. }
  destruct (memchr_ok m (if b =? 58 then z + 1 else z) 61 (limit - (if b =? 58 then z + 1 else z)))
    as (e & He & _); [lia..|].
  apply fails_after, wp_lift. exists e. split; [done|].
  unfold bindST, state, lift. by rewrite Hcr'.
Qed.

Lemma parse_command_null d s : 48 <= d <= 57 -> getb m 0 = Some d -> strings_ok s ->
  command s = None -> parse_command m limit s = None.
Proof using limit_pos limit_in m_bytes m_small m_end.
  intros Hd H0 Hs Hc. assert (Hdig : is_digit d = true) by (unfold is_digit; lia).
  unfold parse_command. apply fails_after. wp_steps.
  assert (Hw : whole_command m limit = Some (inr false)).
  { unfold whole_command. rewrite H0. cbn [mbind option_bind].
    by rewrite !(proj2 (Z.eqb_neq d _)) by lia. }
  apply fails_after, wp_lift. eexists. split; [done|]. cbn beta iota.
  destruct (memchr_ok m 0 58 limit) as (p2 & Hp2 & Hq); [lia..|].
  apply fails_after, wp_lift. eexists. split; [done|]. apply fails_after. wp_steps.
  apply fails_after, wp_lift. exists d. split; [done|]. rewrite (proj2 (Z.eqb_neq d 85)) by lia.
  set (s2 := if bool_decide _ then _ else _).
  assert (Hs2 : parsed 0 s2 /\ command s2 = None)
    by (subst s2; case_match; (split; [|by destruct s]); (destruct s; split; [done|by left])).
  destruct Hs2 as [Hs2 Hc2]. clearbody s2. apply fails_after.
  unfold take_name. apply (wp_eq _ _ _ (Some 0) s2).
  { unfold bindST, lift. rewrite H0, Hdig. done. }
  rewrite (proj2 (Z.leb_gt _ _)) by lia. apply parse_operand_null; try done; try lia.
  intros q ?%Hq. lia.
Qed.
End null_command.

(** A command that starts with a digit (a lone "0" or "0:X" on the command
    channel) has no command name, and the parser follows the null pointer to its
    first character. *)
Theorem digit_command_null s d (r : cbmdos_cmd_parse_plus_t) :
  full r = Some (d :: s ++ [0]) -> fulllength r = mlen (d :: s) -> mlen (d :: s) < UINT32_MAX ->
  bytes_ok s -> is_digit d = true -> mode r = 1 ->
  cbmdos_command_parse_plus r = None.
Proof.
  intros Hfull Hlen Hsmall Hbytes Hdig Hmode. unfold cbmdos_command_parse_plus.
  assert (Hd : 48 <= d <= 57) by (unfold is_digit in Hdig; lia).
  cbn [mbind ST_bind]. apply fails_after. wp_steps. apply fails_after. wp_steps.
  replace (full (reset_plus r)) with (Some (d :: s ++ [0])) by (by destruct r).
  replace (mode (reset_plus r)) with 1 by (by destruct r).
  assert (Hlen0 : fulllength (reset_plus r) = mlen (d :: s)) by (by destruct r).
  assert (0 < mlen (d :: s)) by (unfold mlen; cbn; lia).
  rewrite Hlen0, (proj2 (Z.eqb_neq _ _)) by lia. cbn [Z.eqb orb Pos.eqb].
  set (m := d :: s ++ [0]) in *. set (limit := mlen (d :: s)) in *.
  assert (limit < mlen m) by (subst limit m; unfold mlen; cbn; rewrite length_app; cbn; lia).
  assert (mlen m <= UINT32_MAX).
  { enough (mlen m = limit + 1) by lia. subst limit m. unfold mlen. cbn. rewrite length_app. cbn. lia. }
  assert (bytes_ok m) by (constructor; [lia|]; apply Forall_app; split; [done|by repeat constructor]).
  assert (Hend : getb m limit = Some 0).
  { change m with ((d :: s) ++ [0]). rewrite <- (Z.add_0_r limit). subst limit. by rewrite getb_app_r. }
  assert (Hfirst : getb m 0 = Some d) by done. clearbody m limit.
  apply (parse_command_null _ _) with (d := d); done.
Qed.

(** ** Printed file names *)

Lemma memchr_in_find l rest p c n : c ∉ l -> mlen l < n ->
  memchr_in (l ++ c :: rest) p c n = Some (Some (p + mlen l)).
Proof.
  unfold mlen. revert p n. induction l as [|b l IH]; intros p n Hc Hn; cbn [memchr_in app].
  - rewrite (proj2 (Z.leb_gt _ _)), Z.eqb_refl by (cbn in Hn; lia). by rewrite Z.add_0_r.
  - apply not_elem_of_cons in Hc as [Hb Hc]. cbn [length] in *.
    rewrite (proj2 (Z.leb_gt _ _)), (proj2 (Z.eqb_neq b c)), IH by (done || lia).
    do 2 f_equal. lia.
Qed.

Lemma memchr_find m p c n l rest : 0 <= p -> drop (Z.to_nat p) m = l ++ c :: rest -> c ∉ l ->
  mlen l < n <= UINT32_MAX -> memchr m p c n = Some (Some (p + mlen l)).
Proof.
  intros Hp Hd Hc Hn. unfold memchr, u32, UINT32_MAX in *. pose proof (mlen_nonneg l).
  assert (p <= mlen m).
  { unfold mlen. pose proof (f_equal length Hd) as Hl. rewrite length_drop, length_app in Hl.
    cbn in Hl. lia. }
  rewrite !(proj2 (Z.leb_le _ _)), Z.mod_small, Hd by lia.
  apply memchr_in_find; (done || lia).
Qed.

(** An absent character is not found while the scan stays in the block. *)
Lemma memchr_in_absent l p c n : c ∉ l -> memchr_in l p c n = if mlen l <? n then None else Some None.
Proof.
  unfold mlen. revert p n. induction l as [|b l IH]; intros p n Hc; cbn [memchr_in].
  - case_bool; cbn in *; (done || lia).
  - apply not_elem_of_cons in Hc as [Hb Hc]. rewrite (proj2 (Z.eqb_neq b c)), IH by done.
    cbn [length]. case_bool; (done || lia).
Qed.

(** The decimal number of a unit or partition *)
Definition unit_digits (u : Z) : mem :=
  if u <? 10 then [ch "0" + u]
  else if u <? 100 then [ch "0" + u / 10; ch "0" + u mod 10]
  else [ch "0" + u / 100; ch "0" + u / 10 mod 10; ch "0" + u mod 10].

Definition letter_of (l : list (Z * Z)) (v : Z) : Z :=
  match list_find (fun x => x.1 = v) l with Some (_, x) => x.2 | None => 0 end.

Definition type_letters : list (Z * Z) :=
  [(CBMDOS_FT_SEQ, ch "S"); (CBMDOS_FT_PRG, ch "P"); (CBMDOS_FT_USR, ch "U")].
Definition mode_letters : list (Z * Z) :=
  [(CBMDOS_FAM_READ, ch "R"); (CBMDOS_FAM_WRITE, ch "W"); (CBMDOS_FAM_APPEND, ch "A")].

(** unit:name,type,mode *)
Definition file_name (u : Z) (name : mem) (t md : Z) : mem :=
  unit_digits u ++ [ch ":"] ++ name ++
  [ch ","; letter_of type_letters t; ch ","; letter_of mode_letters md].

Definition digits_value (ds : mem) (d : Z) : Z :=
  fold_left (fun d b => let i := d * 10 + (b - ch "0") in if i <? 256 then i else d) ds d.

Lemma unit_digits_ok u : 0 <= u < 256 ->
  forallb is_digit (unit_digits u) = true /\ digits_value (unit_digits u) 0 = u /\
  1 <= mlen (unit_digits u) <= 3.
Proof.
  intros Hu.
  assert (Hall : forallb is_digit (unit_digits u) && (digits_value (unit_digits u) 0 =? u) &&
          (1 <=? mlen (unit_digits u)) && (mlen (unit_digits u) <=? 3) = true) by by_zrange 0 256 u.
  apply andb_true_iff in Hall as [[[Hd Hv]%andb_true_iff Hl]%andb_true_iff Hr].
  apply Z.eqb_eq in Hv. apply Z.leb_le in Hl, Hr. auto.
Qed.

Lemma unit_number_digits ds rest m p s : forallb is_digit ds = true -> 0 <= p ->
  drop (Z.to_nat p) m = ds ++ rest ->
  unit_number (length ds) m p s = Some (p + mlen ds, set_pdrive (digits_value ds (pdrive s)) s).
Proof.
  unfold mlen. revert p s. induction ds as [|b ds IH]; intros p s Hds Hp Hd.
  { cbn. rewrite Z.add_0_r. by destruct s. }
  cbn [forallb] in Hds. apply andb_true_iff in Hds as [Hb Hds].
  cbn [length unit_number]. unfold bindST at 1. unfold lift. rewrite getb_drop, Hd by done.
  cbn [head app]. rewrite Hb. unfold mbind, ST_bind, bindST, modify.
  rewrite IH; [|done|lia|by eapply drop_tail].
  f_equal. f_equal; [lia|]. destruct s; cbn. by case_bool.
Qed.

Lemma digits_no_colon ds c : forallb is_digit ds = true -> is_digit c = false -> c ∉ ds.
Proof.
  intros Hds Hc Hin. rewrite forallb_forall in Hds. apply list_elem_of_In, Hds in Hin. congruence.
Qed.

Lemma skip_to_stop m limit test p b : p < limit -> getb m p = Some b -> test b = false ->
  skip_to limit test m p = Some p.
Proof.
  intros Hp Hb Ht. unfold skip_to.
  replace (Z.to_nat (limit - p)) with (S (Z.to_nat (limit - p - 1))) by lia.
  cbn [skip_while]. rewrite Hb. cbn. by rewrite Ht.
Qed.

Lemma wp_lift_eq {S A B} (o : option A) a (k : A -> ST S B) Q s :
  o = Some a -> wp (k a) Q s -> wp (bindST (lift o) k) Q s.
Proof. intros -> Hk. by apply wp_bindST, wp_lift; eauto. Qed.

Lemma take_mode_letters l t md p s : mlen l = p ->
  t ∈ type_letters.*1 -> md ∈ mode_letters.*1 -> mlen l < UINT32_MAX - 5 ->
  wp (file_modes (Z.to_nat (p + 5))
        (l ++ [ch ","; letter_of type_letters t; ch ","; letter_of mode_letters md; 0]) p (p + 4))
     (fun rc r => rc = None /\ r = set_preadmode md (set_pfiletype t s)) s.
Proof.
  intros <- Ht Hmd Hsmall. pose proof (mlen_nonneg l).
  replace (Z.to_nat (mlen l + 5)) with (S (S (Z.to_nat (mlen l + 3)))) by lia.
  set (m := l ++ _).
  assert (Hd : forall i, 0 <= i -> drop (Z.to_nat (mlen l + i)) m =
    drop (Z.to_nat i) [44; letter_of type_letters t; 44; letter_of mode_letters md; 0]).
  { intros i Hi. subst m. rewrite drop_app_ge by (unfold mlen; lia). f_equal. unfold mlen. lia. }
  assert (H1 : getb m (mlen l + 1) = Some (letter_of type_letters t))
    by (subst m; by rewrite getb_app_r).
  assert (H3 : getb m (mlen l + 2 + 1) = Some (letter_of mode_letters md))
    by (rewrite <- Z.add_assoc; subst m; by rewrite getb_app_r).
  assert (Hc1 : memchr m (mlen l + 1 + 1) 44 (mlen l + 4 - (mlen l + 1 + 1)) = Some (Some (mlen l + 2))).
  { rewrite <- Z.add_assoc. rewrite (memchr_find _ _ _ _ [] [letter_of mode_letters md; 0]);
      [do 2 f_equal; change (mlen []) with 0; lia|lia|by rewrite Hd by lia|apply not_elem_of_nil|].
    unfold UINT32_MAX in *. change (mlen []) with 0. lia. }
  assert (Hc3 : memchr m (mlen l + 2 + 1 + 1) 44 (mlen l + 4 - (mlen l + 2 + 1 + 1)) = Some None).
  { replace (mlen l + 4 - (mlen l + 2 + 1 + 1)) with 0 by lia. unfold memchr.
    assert (mlen m = mlen l + 5) by (subst m; unfold mlen; rewrite length_app; cbn; lia).
    rewrite !(proj2 (Z.leb_le _ _)) by lia. cbn [andb].
    by destruct (drop (Z.to_nat (mlen l + 2 + 1 + 1)) m). }
  clearbody m. clear Hd. cbn [file_modes].
  rewrite (proj2 (Z.ltb_lt (mlen l) _)) by lia. cbn [negb].
  apply wp_bindST, (wp_eq _ _ _ (inr (mlen l + 1)) (set_pfiletype t s)).
  { unfold file_mode, bindST at 1. rewrite H1. cbn [lift].
    repeat (apply elem_of_cons in Ht as [->|Ht]; [reflexivity|]). by apply elem_of_nil in Ht. }
  cbn beta iota. apply (wp_lift_eq _ _ _ _ _ Hc1). cbn beta iota.
  rewrite (proj2 (Z.ltb_lt (mlen l + 2) _)) by lia. cbn [negb].
  apply wp_bindST, (wp_eq _ _ _ (inr (mlen l + 2 + 1)) (set_preadmode md (set_pfiletype t s))).
  { unfold file_mode, bindST at 1. rewrite H3. cbn [lift].
    repeat (apply elem_of_cons in Hmd as [->|Hmd]; [reflexivity|]). by apply elem_of_nil in Hmd. }
  cbn beta iota. by apply (wp_lift_eq _ _ _ _ _ Hc3).
Qed.

Section printed.
Context (u t md : Z) (name : mem).
Context (u_byte : 0 <= u < 256) (name_ok : ch "," ∉ name) (name_small : mlen name < UINT32_MAX - 10).

#[local] Abbreviation D := (unit_digits u).
#[local] Abbreviation m := (file_name u name t md ++ [0]).
#[local] Abbreviation limit := (mlen D + 1 + mlen name + 4).

Lemma printed_length : mlen (file_name u name t md) = limit.
Proof using. unfold file_name, mlen. rewrite !length_app. cbn. lia. Qed.

Lemma printed_head : exists d, getb m 0 = Some d /\ is_digit d = true.
Proof using u_byte.
  destruct (unit_digits_ok u u_byte) as (Hds & _ & Hl). unfold file_name.
  destruct D as [|d ds]; [unfold mlen in Hl; cbn in Hl; lia|].
  exists d. split; [done|]. cbn in Hds. by apply andb_true_iff in Hds as [? _].
Qed.

Lemma printed_colon : getb m (mlen D) = Some (ch ":").
Proof using.
  unfold file_name. rewrite <- (Z.add_0_r (mlen D)), <- app_assoc, getb_app_r by lia. done.
Qed.

(** The digits are read back as the number. *)
Lemma printed_unit s : command s = None -> wp (unit_and_path m limit (Some (mlen D)) false)
  (fun p r => p = mlen D /\ r = set_pdrive u s) s.
Proof using u_byte.
  intros Hc. destruct (unit_digits_ok u u_byte) as (Hds & Hv & Hl).
  destruct printed_head as (d & H0 & Hd). pose proof (mlen_nonneg name).
  assert (Hnd : (32 =? d) = false) by (unfold is_digit in Hd; lia).
  unfold unit_and_path. apply (wp_lift_eq _ _ _ _ _ H0). rewrite Hd, andb_false_r.
  wp_steps. cbn iota. assert (Hs1 : skip_to limit (Z.eqb 32) m 0 = Some 0)
    by (apply (skip_to_stop _ _ _ _ d); [lia|done..]).
  apply (wp_lift_eq _ _ _ _ _ Hs1). unfold take_unit. rewrite (proj2 (Z.ltb_lt 0 _)) by lia.
  apply wp_bindST, (wp_lift_eq _ _ _ _ _ H0).
  replace ((48 <=? d) || (d <=? 57)) with true by (unfold is_digit in Hd; lia). wp_steps.
  replace (Z.to_nat (mlen D - 0)) with (length D) by (unfold mlen; lia).
  eapply wp_eq; [by eapply unit_number_digits; [|lia|unfold file_name; by rewrite <- app_assoc]|].
  assert (Hs2 : skip_to limit (Z.eqb 32) m (0 + mlen D) = Some (mlen D)).
  { apply (skip_to_stop _ _ _ _ 58); [lia|apply printed_colon|done]. }
  apply (wp_lift_eq _ _ _ _ _ Hs2). rewrite Z.ltb_irrefl. apply wp_ret. split; [done|].
  destruct s; cbn in *. by rewrite Hv.
Qed.

Lemma printed_scans :
  memchr m 0 (ch ":") limit = Some (Some (mlen D)) /\
  memchr m (mlen D + 1) (ch ",") (limit - (mlen D + 1)) = Some (Some (mlen D + 1 + mlen name)) /\
  copy_string m (mlen D + 1) (mlen name) = Some (name ++ [0]).
Proof using u_byte name_ok name_small.
  destruct (unit_digits_ok u u_byte) as (Hds & _ & Hl). pose proof (mlen_nonneg name).
  assert (Hd : drop (Z.to_nat (mlen D + 1)) m = name ++ ch "," ::
                 [letter_of type_letters t; ch ","; letter_of mode_letters md; 0]).
  { unfold file_name, mlen. rewrite <- !app_assoc, (app_assoc D), drop_app_length'.
    - done.
    - rewrite length_app. cbn. lia. }
  split_and!.
  - rewrite (memchr_find _ _ _ _ D (name ++ [ch ","; letter_of type_letters t; ch ","; letter_of mode_letters md; 0]));
      [done|done| |by apply digits_no_colon|lia].
    unfold file_name. by rewrite drop_0, <- !app_assoc.
  - rewrite (memchr_find _ _ _ _ name [letter_of type_letters t; ch ","; letter_of mode_letters md; 0]);
      (done || lia).
  - destruct (copy_string_ok m (mlen D + 1) (mlen name)) as (bs & -> & _ & ->); [lia..| |].
    + replace (mlen m) with (mlen (file_name u name t md) + 1)
        by (unfold mlen; rewrite !length_app; cbn; lia).
      rewrite printed_length. lia.
    + do 2 f_equal. rewrite Hd. unfold mlen. rewrite Nat2Z.id. by rewrite take_app_length.
Qed.

Definition printed_result (s : cbmdos_cmd_parse_plus_t) : cbmdos_cmd_parse_plus_t :=
  set_preadmode md (set_pfiletype t (set_file (Some (name ++ [0]))
    (set_filelength (mlen name) (set_pdrive u (set_colon 1 s))))).

Lemma printed_letters s : t ∈ type_letters.*1 -> md ∈ mode_letters.*1 ->
  wp (file_modes (Z.to_nat (limit + 1)) m (mlen D + 1 + mlen name) limit)
     (fun rc r => rc = None /\ r = set_preadmode md (set_pfiletype t s)) s.
Proof using u_byte name_small.
  intros Ht Hmd. destruct (unit_digits_ok u u_byte) as (_ & _ & Hl).
  set (l := D ++ [ch ":"] ++ name).
  assert (Hll : mlen l = mlen D + 1 + mlen name)
    by (subst l; unfold mlen; rewrite !length_app; cbn; lia).
  replace m with (l ++ [ch ","; letter_of type_letters t; ch ","; letter_of mode_letters md; 0])
    by (subst l; unfold file_name; by rewrite <- !app_assoc).
  replace (limit + 1) with (mlen D + 1 + mlen name + 5) by lia.
  apply take_mode_letters; (done || lia).
Qed.

Lemma parse_file_printed s : t ∈ type_letters.*1 -> md ∈ mode_letters.*1 ->
  command s = None -> 2 <= psecondary s ->
  wp (parse_file m limit) (fun rc r => rc = CBMDOS_IPE_OK /\ r = printed_result s) s.
Proof using u_byte name_ok name_small.
  intros Ht Hmd Hc Hsec. destruct (unit_digits_ok u u_byte) as (Hds & _ & Hl).
  pose proof (mlen_nonneg name). destruct printed_scans as (Hs1 & Hs2 & Hs3).
  destruct printed_head as (d & H0 & Hd). unfold parse_file. wp_steps.
  apply (wp_lift_eq _ _ _ _ _ Hs1). wp_steps. apply (wp_lift_eq _ _ _ _ _ H0).
  assert (Hnd : d <> 36 /\ d <> 35 /\ d <> 64) by (unfold is_digit in Hd; lia).
  rewrite !(proj2 (Z.eqb_neq d _)), bool_decide_true, bool_decide_false by (done || intros [=]; lia).
  cbn [orb andb negb]. set (s1 := set_colon 1 _).
  assert (Hs1c : command s1 = None) by (subst s1; by case_bool; destruct s).
  apply wp_bindST. eapply wp_mono; [by apply printed_unit|]. cbn beta. intros p r1 [-> ->].
  apply (wp_lift_eq _ _ _ _ _ printed_colon). cbn [Z.eqb Pos.eqb].
  apply (wp_lift_eq _ _ _ _ _ Hs2). wp_steps.
  replace (command (set_pdrive u s1)) with (@None mem) by (by destruct s1).
  apply (wp_lift_eq _ false); [done|]. cbn iota. unfold take_file.
  replace (mlen D + 1 + mlen name - (mlen D + 1)) with (mlen name) by lia.
  rewrite Hs3. apply wp_bind, wp_update. eexists. split; [done|]. wp_steps. cbn iota.
  apply wp_bindST. eapply wp_mono; [by apply printed_letters|]. cbn beta. intros rc r [-> ->].
  assert (Hn0 : (psecondary s =? 0) = false /\ (psecondary s =? 1) = false) by lia.
  wp_steps. split; [done|]. subst s1. destruct Hn0 as [Hn0 Hn1].
  unfold load_save_mode_plus, printed_result.
  destruct (mode s =? 0), s; cbn in *; by rewrite Hn0; cbn; rewrite Hn1.
Qed.
End printed.

(** C10: A file name printed as unit:name,type,mode is read back: the unit or
    partition number (up to 255), the name (any bytes without a comma), the file
    type and the access mode. This holds for a file opened on a secondary address from 2 on; 0 and 1, the
    addresses of LOAD and SAVE, set the access mode themselves. *)
Theorem parse_printed_name u name t md (r : cbmdos_cmd_parse_plus_t) :
  0 <= u < 256 -> ch "," ∉ name -> mlen name < UINT32_MAX - 10 ->
  t ∈ type_letters.*1 -> md ∈ mode_letters.*1 ->
  full r = Some (file_name u name t md ++ [0]) -> fulllength r = mlen (file_name u name t md) ->
  mode r = 0 \/ mode r = 2 -> 2 <= psecondary r ->
  exists r', cbmdos_command_parse_plus r = Some (CBMDOS_IPE_OK, r') /\
    pdrive r' = u /\ colon r' = 1 /\ file r' = Some (name ++ [0]) /\ filelength r' = mlen name /\
    pfiletype r' = t /\ preadmode r' = md /\ command r' = None /\ path r' = None.
Proof.
  intros Hu Hname Hsmall Ht Hmd Hfull Hlen Hmode Hsec.
  cut (wp cbmdos_command_parse_plus (fun rc r' => rc = CBMDOS_IPE_OK /\
    pdrive r' = u /\ colon r' = 1 /\ file r' = Some (name ++ [0]) /\ filelength r' = mlen name /\
    pfiletype r' = t /\ preadmode r' = md /\ command r' = None /\ path r' = None) r).
  { intros (rc & r' & Hrun & -> & ?)%wp_run. by exists r'. }
  rewrite printed_length in Hlen. destruct (unit_digits_ok u Hu) as (_ & _ & Hl).
  pose proof (mlen_nonneg name).
  unfold cbmdos_command_parse_plus. wp_steps.
  replace (full (reset_plus r)) with (full r) by (by destruct r).
  replace (mode (reset_plus r)) with (mode r) by (by destruct r).
  replace (fulllength (reset_plus r)) with (fulllength r) by (by destruct r).
  rewrite Hfull, Hlen, (proj2 (Z.eqb_neq _ 0)) by lia. cbn iota.
  replace ((mode r =? 0) || (mode r =? 2)) with true by lia.
  eapply wp_mono; [by apply parse_file_printed; destruct r|].
  cbn beta. intros rc r' [-> ->]. by destruct r.
Qed.

Lemma memchr_in_none l rest p c n : c ∉ l -> n <= mlen l ->
  memchr_in (l ++ rest) p c n = Some None.
Proof.
  unfold mlen. revert p n. induction l as [|b l IH]; intros p n Hc Hn; cbn [length app] in *.
  - destruct rest; cbn [memchr_in]; by rewrite (proj2 (Z.leb_le _ _)) by lia.
  - apply not_elem_of_cons in Hc as [Hb Hc]. cbn [memchr_in]. case_bool; [done|congruence|].
    apply IH; [done|lia].
Qed.

(** The scan for the next type letter starts behind the terminating NUL. *)
Lemma file_modes_overrun m limit n s : 0 < limit -> mlen m = limit + 1 -> mlen m < UINT32_MAX ->
  getb m limit = Some 0 -> file_modes (S n) m (limit - 1) limit s = None.
Proof.
  intros Hl Hm Hs Hend. unfold UINT32_MAX in Hs. cbn [file_modes].
  rewrite (proj2 (Z.ltb_lt _ _)) by lia. cbn [negb]. rewrite Z.sub_add.
  apply fails_after, (wp_eq _ _ _ (inr limit) s).
  { unfold file_mode, bindST, lift. rewrite Hend. done. }
  cbn beta iota. unfold bindST, lift. replace (memchr _ _ _ _) with (@None (option Z)); [done|].
  unfold memchr. rewrite drop_ge by (unfold mlen in Hm; lia). unfold memchr_in.
  replace (u32 (limit - (limit + 1))) with 4294967295
    by (replace (limit - (limit + 1)) with (-1) by lia; done).
  by destruct (_ && _).
Qed.

Lemma parse_file_overrun m limit d s : 0 < limit -> mlen m = limit + 1 -> mlen m < UINT32_MAX ->
  getb m 0 = Some d -> d <> ch "$" -> d <> ch "#" -> d <> ch ":" -> getb m limit = Some 0 ->
  memchr m 0 (ch ":") limit = Some None -> memchr m 0 (ch ",") limit = Some (Some (limit - 1)) ->
  command s = None -> parse_file m limit s = None.
Proof.
  intros Hl Hm Hsm H0 H1 H2 H3 Hend Hcolon Hcomma Hc. unfold parse_file. cbn [mbind ST_bind].
  apply fails_after. wp_steps. set (s1 := if mode s =? 0 then _ else _).
  assert (Hc1 : command s1 = None) by (subst s1; by case_bool; destruct s). clearbody s1.
  apply fails_after, wp_lift. eexists. split; [exact Hcolon|].
  apply fails_after. wp_steps. rewrite bool_decide_false by (by intros [? ?]).
  apply fails_after, wp_lift. eexists. split; [exact H0|].
  rewrite !(proj2 (Z.eqb_neq d _)) by done. cbn [andb orb].
  apply fails_after. wp_steps. apply fails_after, wp_lift. eexists. split; [exact H0|].
  rewrite !(proj2 (Z.eqb_neq d _)) by done. rewrite Z.sub_0_r.
  apply fails_after, wp_lift. eexists. split; [exact Hcomma|].
  apply fails_after. wp_steps. rewrite Hc1.
  apply fails_after, wp_lift. eexists. split; [done|]. cbn beta iota. unfold take_file.
  apply fails_after, wp_update.
  destruct (copy_string_ok m 0 (limit - 1 - 0)) as (bs & -> & _); [lia..|].
  eexists. split; [done|]. apply fails_after. wp_steps. unfold bindST at 1.
  replace (Z.to_nat (limit + 1)) with (S (Z.to_nat limit)) by lia.
  by rewrite file_modes_overrun.
Qed.

(** A file name that ends in a comma ("NAME,") makes the parser look for the
    next comma from behind the terminating NUL with a length of -1, which is
    4294967295 as a [size_t]: it reads outside the string. *)
Theorem trailing_comma_overrun name (r : cbmdos_cmd_parse_plus_t) :
  ch "," ∉ name -> ch ":" ∉ name -> head name <> Some (ch "$") -> head name <> Some (ch "#") ->
  mlen name < UINT32_MAX - 2 -> mode r = 0 \/ mode r = 2 ->
  full r = Some (name ++ [ch ","; 0]) -> fulllength r = mlen name + 1 ->
  cbmdos_command_parse_plus r = None.
Proof.
  intros Hcomma Hcolon Hdollar Hhash Hsmall Hmode Hfull Hlen. pose proof (mlen_nonneg name).
  set (m := name ++ [44; 0]) in *. set (limit := mlen name + 1) in *.
  assert (Hm : mlen m = limit + 1) by (subst m limit; unfold mlen; rewrite length_app; cbn; lia).
  assert (Hs1 : memchr m 0 58 limit = Some None).
  { unfold memchr, u32. unfold UINT32_MAX in Hsmall. rewrite !(proj2 (Z.leb_le _ _)) by lia.
    rewrite Z.mod_small by lia. cbn [andb Z.to_nat]. rewrite drop_0.
    replace m with ((name ++ [44]) ++ [0]) by (subst m; by rewrite <- app_assoc).
    apply memchr_in_none; [by rewrite elem_of_app, list_elem_of_singleton; intros [? | ?]|]. subst limit. unfold mlen. rewrite length_app. cbn. lia. }
  assert (Hs2 : memchr m 0 44 (limit - 0) = Some (Some (0 + mlen name)))
    by (apply (memchr_find _ _ _ _ name [0]); [done|done|done|lia]).
  assert (exists d, getb m 0 = Some d /\ d <> 36 /\ d <> 35 /\ d <> 58) as (d & H0 & ? & ? & ?).
  { subst m. destruct name as [|d name]; [by exists 44|]. exists d.
    apply not_elem_of_cons in Hcolon as [? _]. split_and!; [done|by intros ->..]. }
  assert (Hend : getb m limit = Some 0) by (subst m limit; by rewrite getb_app_r).
  unfold cbmdos_command_parse_plus. cbn [mbind ST_bind]. apply fails_after. wp_steps.
  apply fails_after. wp_steps.
  replace (full (reset_plus r)) with (full r) by (by destruct r).
  replace (mode (reset_plus r)) with (mode r) by (by destruct r).
  replace (fulllength (reset_plus r)) with (fulllength r) by (by destruct r).
  rewrite Hfull, Hlen, (proj2 (Z.eqb_neq _ 0)) by lia.
  replace ((mode r =? 0) || (mode r =? 2)) with true by lia.
  rewrite Z.sub_0_r in Hs2. replace (0 + mlen name) with (limit - 1) in Hs2 by lia.
  apply (parse_file_overrun _ _ d); (done || lia || by destruct r).
Qed.

(** ** The theorems at concrete inputs *)

Definition file_request (s : string) (md : Z) : cbmdos_cmd_parse_plus_t :=
  CmdParsePlus (Some (str s ++ [0])) (mlen (str s)) 2 md (-1)
    None 0 None 0 None 0 None 0 None 0 0 0 0 0.

Example wildcard_witness : exists b : bool,
  cbmdos_parse_wildcard_compare (str "GA?E*") 5
    (str "GAMES" ++ replicate 11 160) = Some (b2z b) /\ (b <-> matches (str "GA?E*") (str "GAMES")).
Proof.
  apply (wildcard_compare_matches (str "GA?E*") 5 (str "GAMES")).
  - done.
  - done.
  - apply (bool_decide_eq_true_1 _). vm_compute. reflexivity.
  - apply (bool_decide_eq_true_1 _). vm_compute. reflexivity.
  - vm_compute. reflexivity.
Defined.

Example defined_witness : exists rc r',
  cbmdos_command_parse_plus (file_request "RENAME:NEW=OLD" 1) = Some (rc, r') /\ strings_ok r' /\
  (pdrive r' = -1 \/ 0 <= pdrive r' < 256).
Proof.
  apply (command_parse_plus_defined (str "RENAME:NEW=OLD")).
  - reflexivity.
  - reflexivity.
  - done.
  - by repeat constructor.
  - reflexivity.
Defined.

Example digit_command_witness : cbmdos_command_parse_plus (file_request "0:" 1) = None.
Proof.
  apply (digit_command_null (str ":") (ch "0")).
  - reflexivity.
  - reflexivity.
  - done.
  - by repeat constructor.
  - reflexivity.
  - reflexivity.
Defined.

Example parse_printed_witness : exists r',
  cbmdos_command_parse_plus (file_request "12:GAME,P,R" 2) = Some (CBMDOS_IPE_OK, r') /\
  pdrive r' = 12 /\ colon r' = 1 /\ file r' = Some (str "GAME" ++ [0]) /\ filelength r' = 4 /\
  pfiletype r' = CBMDOS_FT_PRG /\ preadmode r' = CBMDOS_FAM_READ /\ command r' = None /\
  path r' = None.
Proof.
  apply (parse_printed_name 12 (str "GAME") CBMDOS_FT_PRG CBMDOS_FAM_READ).
  - done.
  - apply (bool_decide_eq_true_1 _). vm_compute. reflexivity.
  - done.
  - apply (bool_decide_eq_true_1 _). vm_compute. reflexivity.
  - apply (bool_decide_eq_true_1 _). vm_compute. reflexivity.
  - reflexivity.
  - reflexivity.
  - by right.
  - done.
Defined.

Example trailing_comma_witness : cbmdos_command_parse_plus (file_request "NAME," 2) = None.
Proof.
  apply (trailing_comma_overrun (str "NAME")).
  - apply (bool_decide_eq_true_1 _). vm_compute. reflexivity.
  - apply (bool_decide_eq_true_1 _). vm_compute. reflexivity.
  - done.
  - done.
  - done.
  - by right.
  - reflexivity.
  - reflexivity.
Defined.

End CbmdosSpec.
