(* ===== verification/Partition.v ===== *)
(** * CMD partitions and drive selection

    Models the partition table of CMD images and the selection of partitions and
    drives in [src/lib/vdrive/vdrive.c]: [vdrive_find_sys],
    [vdrive_read_partition_table], [vdrive_write_partition_table],
    [vdrive_change_part], [vdrive_ispartvalid], [vdrive_pack_parts],
    [vdrive_switch], [vdrive_realpart] and the two external accessors. A local
    array starts with unspecified contents, like freshly allocated memory. *)

From S2P Require Import Prelude Geometry Image VDrive Bam.

Module Partition.

Section partition.
Context `{Platform}.

Definition hdmagic : mem :=
  [0x43; 0x4d; 0x44; 0x20; 0x48; 0x44; 0x20; 0x20; 0x8d; 0x03; 0x88; 0x8e; 0x02; 0x88; 0xea; 0x60].
Definition fdmagic : mem :=
  [0x43; 0x4d; 0x44; 0x20; 0x46; 0x44; 0x20; 0x53; 0x45; 0x52; 0x49; 0x45; 0x53; 0x20; 0x20; 0x20].

(** [memcmp(&buf[0xf0], magic, 16) == 0] *)
Definition has_magic (buf magic : mem) : option bool :=
  b ← slice buf 0xf0 16; Some (bool_decide (b = magic)).

(** The system partition is at [current_offset]; its sector names the default one. *)
Definition found_sys (buf : mem) : ST vdrive_t unit :=
  upd_part (fun p => set_sys_offset (current_offset p) p);;
  let! d := lift (getb buf 0xe2) in
  upd_part (set_default_part d).

Fixpoint find_sys_hd (n : nat) (i : Z) (buf : mem) : ST vdrive_t Z :=
  match n with
  | O => mret (-1)
  | S n' =>
      upd_part (set_current_offset (Z.shiftl i 7));;
      let! (ret, buf) := VDrive.vdrive_read_sector buf 0 5 in
      if negb (ret =? 0) then mret ret
      else
        let! found := lift (has_magic buf hdmagic) in
        if (found : bool) then found_sys buf;; mret ret
        else find_sys_hd n' (i + 1) buf
  end.

Definition find_sys_fd (co : Z) : ST vdrive_t Z :=
  upd_part (set_current_offset co);;
  let! (ret, buf) := VDrive.vdrive_read_sector (lib_malloc 256) 0 5 in
  if negb (ret =? 0) then mret ret
  else
    let! found := lift (has_magic buf fdmagic) in
    if (found : bool) then found_sys buf;; mret ret else mret (-1).

Definition vdrive_find_sys : ST vdrive_t Z :=
  modify (fun v => set_image_set (bool_decide (is_Some (images0 v))) v);;
  upd_part (set_sys_offset UINT32_MAX);;
  let! v := state in
  upd_part (set_current_offset 0);;
  upd_geom (set_image_format VDRIVE_IMAGE_FORMAT_SYS);;
  let! image := lift (deref_image v) in
  let! ret := (if di_type image =? DISK_IMAGE_TYPE_D1M then find_sys_fd 0x640
               else if di_type image =? DISK_IMAGE_TYPE_D2M then find_sys_fd 0xc80
               else if di_type image =? DISK_IMAGE_TYPE_D4M then find_sys_fd 0x1900
               else if di_type image =? DISK_IMAGE_TYPE_DHD then find_sys_hd 9 0 (lib_malloc 256)
               else mret (-1)) in
  upd_part (set_current_offset (current_offset (part v)));;
  upd_geom (set_image_format (image_format (geom v)));;
  mret ret.

(** 24-bit big-endian numbers *)
Definition vdrive_buf3_to_word (buf : mem) (off : Z) : option Z :=
  b0 ← getb buf off; b1 ← getb buf (off + 1); b2 ← getb buf (off + 2);
  Some (Z.lor (Z.lor (Z.shiftl b0 16) (Z.shiftl b1 8)) b2).

Definition vdrive_word_to_buf3 (buf : mem) (off value : Z) : option mem :=
  buf ← putb buf off (Z.land (Z.shiftr value 16) 255);
  buf ← putb buf (off + 1) (Z.land (Z.shiftr value 8) 255);
  putb buf (off + 2) (Z.land value 255).

(** The last partition of the table: 254 on hard disks, 31 on floppy disks. *)
Definition maxpart : ST vdrive_t Z :=
  let! v := state in
  let! hd := lift (VDrive.VDRIVE_IS_HD v) in
  mret (if (hd : bool) then 254 else 31).

Definition put_entry (k : Z) (buf : mem) (j : Z) : ST vdrive_t unit :=
  let! ty := lift (getb buf (j + 2)) in
  VDrive.put_part ptype set_ptype k ty;;
  let! off := lift (vdrive_buf3_to_word buf (j + 0x15)) in
  VDrive.put_part poffset set_poffset k off;;
  let! size := lift (vdrive_buf3_to_word buf (j + 0x1d)) in
  VDrive.put_part psize set_psize k size;;
  VDrive.put_part cheadertrack set_cheadertrack k 0.

(** The loop over the table: entry [i] is in sector [i / 8] at [i mod 8 * 32]. *)
Fixpoint read_entries (n : nat) (i olds : Z) (buf : mem) : ST vdrive_t Z :=
  match n with
  | O => mret CBMDOS_IPE_OK
  | S n' =>
      let s := Z.shiftr (Z.shiftl i 5) 8 in
      let j := Z.land (Z.shiftl i 5) 255 in
      let! (ret, buf) := (if negb (s =? olds) then VDrive.vdrive_read_sector buf 1 s
                          else mret (CBMDOS_IPE_OK, buf)) in
      if ret =? 0 then
        let k := if i =? 0 then 255 else i in
        put_entry k buf j;;
        (if i =? 0 then let! v := state in
                        VDrive.put_part poffset set_poffset k (sys_offset (part v))
         else mret tt);;
        read_entries n' (i + 1) s buf
      else upd_part (set_sys_offset UINT32_MAX);; mret ret
  end.

Definition clear_partition (i : Z) : ST vdrive_t unit :=
  VDrive.put_part ptype set_ptype i 0;;
  VDrive.put_part poffset set_poffset i 0;;
  VDrive.put_part psize set_psize i 0;;
  VDrive.put_part cheadertrack set_cheadertrack i 0.

(** Runs [m] with the system partition selected. *)
Definition in_system_partition (m : ST vdrive_t Z) : ST vdrive_t Z :=
  let! v := state in
  upd_part (fun p => set_current_offset (sys_offset p) p);;
  upd_geom (set_image_format VDRIVE_IMAGE_FORMAT_SYS);;
  let! ret := m in
  upd_part (set_current_offset (current_offset (part v)));;
  upd_geom (set_image_format (image_format (geom v)));;
  mret ret.

Definition vdrive_read_partition_table : ST vdrive_t Z :=
  let! v := state in
  if negb (haspt (part v)) then upd_part (set_sys_offset UINT32_MAX);; mret (-1)
  else
    let! ret := (if sys_offset (part v) =? UINT32_MAX then vdrive_find_sys
                 else mret CBMDOS_IPE_OK) in
    if negb (ret =? 0) then for_each 255 0 clear_partition;; mret ret
    else
      let! maxpart := maxpart in
      in_system_partition (
        let! ret := read_entries (Z.to_nat (maxpart + 1)) 0 (-1) (lib_malloc 256) in
        VDrive.put_part ptype set_ptype 0 0;;
        VDrive.put_part poffset set_poffset 0 UINT32_MAX;;
        VDrive.put_part psize set_psize 0 UINT32_MAX;;
        mret ret).

Definition take_entry (i : Z) (buf : mem) (j : Z) : ST vdrive_t mem :=
  let! ty := VDrive.get_part ptype i in
  let! buf := lift (putb buf (j + 2) ty) in
  let! off := VDrive.get_part poffset i in
  let! buf := lift (vdrive_word_to_buf3 buf (j + 0x15) off) in
  let! size := VDrive.get_part psize i in
  lift (vdrive_word_to_buf3 buf (j + 0x1d) size).

(** Status, the sector in the buffer and the buffer. *)
Fixpoint write_entries (n : nat) (i olds : Z) (buf : mem) : ST vdrive_t (Z * Z * mem) :=
  match n with
  | O => mret (CBMDOS_IPE_OK, olds, buf)
  | S n' =>
      let s := Z.shiftr (Z.shiftl i 5) 8 in
      let j := Z.land (Z.shiftl i 5) 255 in
      let! (ret, buf) :=
        (if negb (s =? olds) then
           let! ret := (if 0 <=? olds then VDrive.vdrive_write_sector buf 1 olds
                        else mret CBMDOS_IPE_OK) in
           if ret =? 0 then VDrive.vdrive_read_sector buf 1 s else mret (ret, buf)
         else mret (CBMDOS_IPE_OK, buf)) in
      if ret =? 0 then
        let! buf := (if i =? 0 then mret buf else take_entry i buf j) in
        write_entries n' (i + 1) s buf
      else upd_part (set_sys_offset UINT32_MAX);; mret (ret, olds, buf)
  end.

Definition vdrive_write_partition_table : ST vdrive_t Z :=
  let! v := state in
  if negb (haspt (part v)) then upd_part (set_sys_offset UINT32_MAX);; mret (-1)
  else if sys_offset (part v) =? UINT32_MAX then mret (-1)
  else
    let! maxpart := maxpart in
    in_system_partition (
      let! (r, buf) := write_entries (Z.to_nat (maxpart + 1)) 0 (-1) (lib_malloc 256) in
      let (ret, olds) := r : Z * Z in
      if (0 <=? olds) && (ret =? 0) then VDrive.vdrive_write_sector buf 1 olds else mret ret).

(** ** Selection *)

(** Format, tracks and BAM size of the partition types 0 to 4 *)
Definition part_formats : mem :=
  [VDRIVE_IMAGE_FORMAT_NONE; VDRIVE_IMAGE_FORMAT_NP; VDRIVE_IMAGE_FORMAT_1541;
   VDRIVE_IMAGE_FORMAT_1571; VDRIVE_IMAGE_FORMAT_1581].
Definition part_tracks : mem := [0; 255; NUM_TRACKS_1541; NUM_TRACKS_1571; NUM_TRACKS_1581].
Definition part_bamsize : mem := [0; 0x2100; 0x100; 0x200; 0x300].

Definition out_of_range (v : vdrive_t) (p : Z) : bool :=
  (p <? 0) || haspt (part v) && (255 <? p) || negb (haspt (part v)) && (NUM_DRIVES <=? p).

(** A partition of a CMD image becomes the current one. *)
Definition select_partition (p : Z) : ST vdrive_t Z :=
  let! ty := VDrive.get_part ptype p in
  if (4 <? ty) && (ty <? 255) || (ty =? 0) then mret CBMDOS_IPE_NOT_READY
  else if ty <=? 4 then
    let! f := lift (getb part_formats ty) in
    let! off := VDrive.get_part poffset p in
    upd_part (set_current_part p);;
    let! bs := lift (getb part_bamsize ty) in
    upd_bamc (set_bam_size bs);;
    let! nt := lift (getb part_tracks ty) in
    upd_geom (set_num_tracks nt);;
    (if ty =? 1 then let! size := VDrive.get_part psize p in
                     upd_geom (set_num_tracks (Z.shiftr size 7))
     else mret tt);;
    update (fun v => image ← deref_image v; Some (set_image_mode (di_read_only image) v));;
    upd_part (set_current_offset off);;
    upd_geom (set_image_format f);;
    mret CBMDOS_IPE_OK
  else if (p =? 255) && (ty =? 255) then
    let! off := VDrive.get_part poffset p in
    upd_part (set_current_part p);;
    upd_bamc (set_bam_size 0);;
    upd_geom (set_num_tracks 1);;
    upd_part (set_current_offset off);;
    upd_geom (set_image_format VDRIVE_IMAGE_FORMAT_SYS);;
    mret CBMDOS_IPE_OK
  else mret CBMDOS_IPE_NOT_READY.

(** Another drive of the unit becomes the current one. *)
Definition select_drive (p : Z) : ST vdrive_t Z :=
  let! v := state in
  match images0 v with
  | Some image =>
      modify (set_image_set true);;
      upd_part (set_current_offset 0);;
      upd_part (set_current_part p);;
      modify (set_image_mode (di_read_only image));;
      mret CBMDOS_IPE_OK
  | None => mret CBMDOS_IPE_NOT_READY
  end.

Definition vdrive_change_part (p : Z) : ST vdrive_t Z :=
  let! v := state in
  if out_of_range v p then mret CBMDOS_IPE_NOT_READY
  else
    let p := if (p =? 0) && haspt (part v) then selected_part (part v) else p in
    let! ret := (if haspt (part v) && (sys_offset (part v) =? UINT32_MAX)
                 then vdrive_read_partition_table else mret CBMDOS_IPE_OK) in
    if negb (ret =? 0) then mret ret
    else if haspt (part v) then select_partition p
    else select_drive p.

Definition vdrive_ispartvalid (p : Z) : ST vdrive_t Z :=
  let! v := state in
  if out_of_range v p then mret 0
  else if negb (haspt (part v)) then mret (b2z (bool_decide (is_Some (images0 v))))
  else
    let! ret := (if sys_offset (part v) =? UINT32_MAX then vdrive_read_partition_table
                 else mret CBMDOS_IPE_OK) in
    if negb (ret =? 0) then mret 0
    else
      let! v := state in
      let! ty := VDrive.get_part ptype (if p =? 0 then selected_part (part v) else p) in
      mret (if (4 <? ty) && (ty <? 255) || (ty =? 0) then 0
            else if ty <=? 4 then 1
            else if ty =? 255 then 1 else 0).

Definition vdrive_realpart (v : vdrive_t) (p : Z) : Z :=
  if negb (haspt (part v)) then if NUM_DRIVES <=? p then 0 else p
  else if negb (p =? 0) then p
  else selected_part (part v).

(** The switch did not work: the partition is not accessible. *)
Definition no_partition : ST vdrive_t unit :=
  let! v := state in
  (if haspt (part v) then
     upd_geom (set_image_format VDRIVE_IMAGE_FORMAT_NONE);;
     upd_geom (set_num_tracks 0);;
     upd_bamc (set_bam_size 0)
   else mret tt);;
  upd_part (set_current_offset UINT32_MAX);;
  upd_part (set_current_part (-1)).

(** Geometry and BAM of the selected partition *)
Definition setup_partition : ST vdrive_t unit :=
  VDrive.vdrive_set_disk_geometry;;
  Bam.vdrive_bam_setup_bam.

(** Back to the selected 1581 sub-partition *)
Definition restore_sub_partition : ST vdrive_t unit :=
  let! v := state in
  if image_format (geom v) =? VDRIVE_IMAGE_FORMAT_1581 then
    let! ps := VDrive.get_part cpartstart (current_part (part v)) in
    let! moved := (if negb (Part_Start (geom v) =? ps) then mret true
                   else let! pe := VDrive.get_part cpartend (current_part (part v)) in
                        mret (negb (Part_End (geom v) =? pe))) in
    if (moved : bool) then Bam.vdrive_bam_write_bam;; setup_partition else mret tt
  else mret tt.

Definition vdrive_switch (p : Z) : ST vdrive_t Z :=
  if p <? 0 then mret CBMDOS_IPE_NOT_READY
  else
    let! v := state in
    let p := vdrive_realpart v p in
    let! ret := (if negb (p =? current_part (part v)) then
                   Bam.vdrive_bam_write_bam;;
                   let! ret := vdrive_change_part p in
                   (if ret =? 0 then setup_partition else no_partition);;
                   mret ret
                 else mret CBMDOS_IPE_OK) in
    restore_sub_partition;;
    mret ret.

Definition vdrive_ext_read_sector (drive : Z) (buf : mem) (track sector : Z)
    : ST vdrive_t (Z * mem) :=
  let! r := vdrive_switch drive in
  if negb (r =? 0) then mret (CBMDOS_IPE_NOT_READY, buf)
  else VDrive.vdrive_read_sector buf track sector.

Definition vdrive_ext_write_sector (drive : Z) (buf : mem) (track sector : Z) : ST vdrive_t Z :=
  let! r := vdrive_switch drive in
  if negb (r =? 0) then mret CBMDOS_IPE_NOT_READY
  else VDrive.vdrive_write_sector buf track sector.

(** ** Packing *)

Definition MOVE_LBA_CHUNKS : Z := 32.

(** A foreign partition (type 7) that starts or ends in the area that partition [i]
    would move to; the sums are unsigned. *)
Definition foreign_in (v : vdrive_t) (target i j : Z) : option bool :=
  ty ← getb (ptype (part v)) j;
  if negb (ty =? 7) then Some false
  else
    off ← getb (poffset (part v)) j;
    size ← getb (psize (part v)) i;
    if (u32 target <=? off) && (off <? u32 (target + size)) then Some true
    else
      fsize ← getb (psize (part v)) j;
      Some ((u32 target <=? u32 (off + fsize)) && (u32 (off + fsize) <? u32 (target + size))).

Fixpoint blocking_from (n : nat) (v : vdrive_t) (target i j : Z) : option Z :=
  match n with
  | O => Some 0
  | S n' => b ← foreign_in v target i j;
            if (b : bool) then Some j else blocking_from n' v target i (j + 1)
  end.

(** The partition nearest to [target] from above: [(best, bestpos, block)]. *)
Fixpoint nearest_from (n : nat) (v : vdrive_t) (maxpart target i best bestpos : Z)
    : option (Z * Z * Z) :=
  match n with
  | O => Some (best, bestpos, 0)
  | S n' =>
      ty ← getb (ptype (part v)) i;
      near ← (if (0 <? ty) && (ty <? 7) then
                off ← getb (poffset (part v)) i;
                Some ((u32 target <=? off) && (off <? u32 bestpos))
              else Some false);
      if (near : bool) then
        block ← blocking_from (Z.to_nat maxpart) v target i 1;
        if block =? 0 then
          off ← getb (poffset (part v)) i;
          nearest_from n' v maxpart target (i + 1) i (s32 off)
        else Some (best, bestpos, block)
      else nearest_from n' v maxpart target (i + 1) best bestpos
  end.

Definition nearest (v : vdrive_t) (maxpart target : Z) : option (Z * Z * Z) :=
  nearest_from (Z.to_nat maxpart) v maxpart target 1 0 INT32_MAX.

(** [for (i = 0; i < k * 2; i++)]: reads sectors of a chunk until an error. *)
Fixpoint read_chunk (n : nat) (i ret : Z) (buf : mem) : ST vdrive_t (Z * mem) :=
  match n with
  | O => mret (ret, buf)
  | S n' =>
      let! b := lift (slice buf (Z.shiftl i 8) 256) in
      let! (ret, b) := VDrive.vdrive_read_sector b 1 i in
      let! buf := lift (splice buf (Z.shiftl i 8) b) in
      if negb (ret =? 0) then mret (ret, buf) else read_chunk n' (i + 1) ret buf
  end.

(** [while (j)] over the area at [current_offset]: the status is the one of the
    last chunk. Each chunk is at most 32 blocks of 512 bytes. *)
Fixpoint read_area (fuel : nat) (j ret : Z) (buf : mem) : ST vdrive_t (Z * mem) :=
  if j =? 0 then mret (ret, buf)
  else
    match fuel with
    | O => ub
    | S fuel' =>
        let k := Z.min j MOVE_LBA_CHUNKS in
        let! (ret, buf) := read_chunk (Z.to_nat (k * 2)) 0 ret buf in
        upd_part (fun p => set_current_offset (u32 (current_offset p + k)) p);;
        read_area fuel' (j - k) ret buf
    end.

Fixpoint write_chunk (n : nat) (i : Z) (buf : mem) : ST vdrive_t unit :=
  match n with
  | O => mret tt
  | S n' =>
      let! b := lift (slice buf (Z.shiftl i 8) 256) in
      VDrive.vdrive_write_sector b 1 i;;
      write_chunk n' (i + 1) buf
  end.

(** Reads all sectors of a chunk, errors ignored. *)
Fixpoint load_chunk (n : nat) (i : Z) (buf : mem) : ST vdrive_t mem :=
  match n with
  | O => mret buf
  | S n' =>
      let! b := lift (slice buf (Z.shiftl i 8) 256) in
      let! (_, b) := VDrive.vdrive_read_sector b 1 i in
      let! buf := lift (splice buf (Z.shiftl i 8) b) in
      load_chunk n' (i + 1) buf
  end.

Fixpoint copy_area (fuel : nat) (j src dest : Z) (buf : mem) : ST vdrive_t unit :=
  if j =? 0 then mret tt
  else
    match fuel with
    | O => ub
    | S fuel' =>
        let k := Z.min j MOVE_LBA_CHUNKS in
        upd_part (set_current_offset (u32 src));;
        let! buf := load_chunk (Z.to_nat (k * 2)) 0 buf in
        upd_part (set_current_offset (u32 dest));;
        write_chunk (Z.to_nat (k * 2)) 0 buf;;
        copy_area fuel' (j - k) (src + k) (dest + k) buf
    end.

(** The move of partition [best] to [target]: both areas are read, then the copy
    loop runs on the counter [j] as the second scan leaves it. The result is
    the status of the scans. *)
Definition move_partition (best target : Z) : ST vdrive_t Z :=
  let buf := lib_malloc (MOVE_LBA_CHUNKS * 2 * 256) in
  upd_geom (set_image_format VDRIVE_IMAGE_FORMAT_NP);;
  let! src := VDrive.get_part poffset best in
  upd_part (set_current_offset src);;
  let! size := VDrive.get_part psize best in
  let j := s32 size in
  let fuel := S (Z.to_nat j) in
  let! (ret, buf) := read_area fuel j CBMDOS_IPE_OK buf in
  if negb (ret =? 0) then mret ret
  else
    upd_part (set_current_offset (u32 target));;
    let! size := VDrive.get_part psize best in
    let! (ret, buf) := read_area fuel (s32 size) ret buf in
    if negb (ret =? 0) then mret ret
    else
      let j := 0 in
      copy_area fuel j (s32 src) target buf;;
      VDrive.put_part poffset set_poffset best (u32 target);;
      mret ret.

Fixpoint pack_loop (fuel : nat) (maxpart lowpos length : Z) : ST vdrive_t unit :=
  match fuel with
  | O => ub
  | S fuel' =>
      let! v := state in
      let! (r, block) := lift (nearest v maxpart (lowpos + length)) in
      let (best, bestpos) := r : Z * Z in
      if bestpos =? INT32_MAX then
        if block =? 0 then mret tt
        else
          let! off := VDrive.get_part poffset block in
          let! size := VDrive.get_part psize block in
          pack_loop fuel' maxpart (s32 off) (s32 size)
      else if lowpos + length =? bestpos then
        let! size := VDrive.get_part psize best in
        pack_loop fuel' maxpart bestpos (s32 size)
      else
        let! ret := move_partition best (lowpos + length) in
        if negb (ret =? 0) then mret tt
        else
          let! off := VDrive.get_part poffset best in
          let! size := VDrive.get_part psize best in
          pack_loop fuel' maxpart (s32 off) (s32 size)
  end.

Definition vdrive_pack_parts (fuel : nat) : ST vdrive_t Z :=
  let! maxpart := maxpart in
  let! v := state in
  pack_loop fuel maxpart (-1) 1;;
  let! ret := vdrive_write_partition_table in
  upd_part (set_current_offset (current_offset (part v)));;
  upd_geom (set_image_format (image_format (geom v)));;
  mret ret.

End partition.

End Partition.
