(* ===== verification/PartitionSpec.v ===== *)
(** * Specification of the partition table and of the selection of partitions

    The table of a CMD floppy image survives a write and a read. The relations
    [same_drive] and [same_table_part] say what an operation leaves as it is. *)

From S2P Require Import Prelude Geometry Image VDrive Bam Partition.
Import Partition.

Module PartitionSpec.

(** ** 24-bit numbers *)

Lemma bytes3 w : 0 <= w < 2 ^ 24 ->
  Z.lor (Z.lor (Z.shiftl (Z.land (Z.shiftr w 16) 255) 16) (Z.shiftl (Z.land (Z.shiftr w 8) 255) 8))
    (Z.land w 255) = w.
Proof.
  intros Hw. apply Z.bits_inj'. intros n Hn. change 255 with (Z.ones 8).
  rewrite !Z.lor_spec, !Z.shiftl_spec, !Z.land_spec by lia.
  destruct (Z.lt_ge_cases n 24) as [Hlt|Hge].
  - destruct (Z.lt_ge_cases n 8); [|destruct (Z.lt_ge_cases n 16)].
    all: rewrite ?(Z.testbit_neg_r _ (n - 16)), ?(Z.testbit_neg_r _ (n - 8)) by lia.
    all: rewrite ?Z.testbit_ones_nonneg, ?Z.shiftr_spec by lia.
    all: rewrite ?Z.sub_add; case_bool; try lia; by rewrite ?andb_true_r, ?andb_false_r, ?orb_false_r.
  - rewrite !Z.testbit_ones_nonneg, (proj2 (Z.ltb_ge n 8)) by lia.
    rewrite (proj2 (Z.ltb_ge (n - 16) 8)), (proj2 (Z.ltb_ge (n - 8) 8)) by lia.
    rewrite !andb_false_r. symmetry. apply Z.bits_above_log2; [lia|].
    destruct (Z.eq_dec w 0) as [->|]; [cbn; lia|]. apply Z.log2_lt_pow2; [lia|].
    apply (Z.lt_le_trans _ (2 ^ 24)); [lia|]. apply Z.pow_le_mono_r; lia.
Qed.

(** The bytes outside [off .. off + n) are the same. *)
Definition same_outside (off n : Z) (b b' : mem) : Prop :=
  mlen b' = mlen b /\ forall k, k < off \/ off + n <= k -> getb b' k = getb b k.

Lemma putb_outside b off v b' : putb b off v = Some b' -> same_outside off 1 b b'.
Proof.
  intros Hp. split; [by eapply putb_len|]. intros k Hk. eapply getb_put_other; [done|lia].
Qed.

Lemma same_outside_trans off n off1 n1 off2 n2 b b1 b2 :
  same_outside off1 n1 b b1 -> same_outside off2 n2 b1 b2 ->
  off <= off1 -> off1 + n1 <= off + n -> off <= off2 -> off2 + n2 <= off + n ->
  same_outside off n b b2.
Proof.
  intros [Hl1 H1] [Hl2 H2] ????. split; [congruence|]. intros k Hk.
  rewrite H2, H1 by lia. done.
Qed.

Lemma word_to_buf3_run b off w : 0 <= off -> off + 3 <= mlen b -> 0 <= w < 2 ^ 24 ->
  exists b', vdrive_word_to_buf3 b off w = Some b' /\ same_outside off 3 b b' /\
    vdrive_buf3_to_word b' off = Some w.
Proof.
  intros Hoff Hlen Hw. unfold vdrive_word_to_buf3.
  destruct (putb b off (Z.land (Z.shiftr w 16) 255)) as [b1|] eqn:H1; [|by rewrite putb_eq in H1 by lia].
  cbn [mbind option_bind]. pose proof (putb_len _ _ _ _ H1) as Hl1.
  destruct (putb b1 (off + 1) (Z.land (Z.shiftr w 8) 255)) as [b2|] eqn:H2;
    [|by rewrite putb_eq in H2 by lia].
  cbn [mbind option_bind]. pose proof (putb_len _ _ _ _ H2) as Hl2.
  destruct (putb b2 (off + 2) (Z.land w 255)) as [b3|] eqn:H3; [|by rewrite putb_eq in H3 by lia].
  exists b3. split; [done|]. split.
  - assert (same_outside off 2 b b2) by (eapply same_outside_trans; [by eapply putb_outside..|lia|lia|lia|lia]).
    eapply same_outside_trans; [done|by eapply putb_outside|lia|lia|lia|lia].
  - unfold vdrive_buf3_to_word.
    rewrite (getb_put_other _ _ off _ _ H3), (getb_put_other _ _ off _ _ H2) by lia.
    rewrite (getb_put_same _ _ _ _ H1). cbn [mbind option_bind].
    rewrite (getb_put_other _ _ (off + 1) _ _ H3), (getb_put_same _ _ _ _ H2) by lia.
    cbn [mbind option_bind]. rewrite (getb_put_same _ _ _ _ H3). cbn [mbind option_bind].
    by rewrite bytes3.
Qed.

(** ** Entries of the table *)

(** Type, first block and size of a partition: in memory and in the table. *)
Definition entry_at (b : mem) (j : Z) (e : Z * Z * Z) : Prop :=
  getb b (j + 2) = Some e.1.1 /\ vdrive_buf3_to_word b (j + 0x15) = Some e.1.2 /\
  vdrive_buf3_to_word b (j + 0x1d) = Some e.2.

Definition entry_of (p : part_t) (k : Z) (e : Z * Z * Z) : Prop :=
  getb (ptype p) k = Some e.1.1 /\ getb (poffset p) k = Some e.1.2 /\ getb (psize p) k = Some e.2.

Definition entry_fits (e : Z * Z * Z) : Prop :=
  0 <= e.1.1 < 256 /\ 0 <= e.1.2 < 2 ^ 24 /\ 0 <= e.2 < 2 ^ 24.

Lemma entry_at_outside b b' off n j e : same_outside off n b b' -> j + 32 <= off \/ off + n <= j ->
  entry_at b j e -> entry_at b' j e.
Proof.
  intros [_ Hs] Hj. unfold entry_at, vdrive_buf3_to_word. rewrite !(Hs (_ + _)) by lia. done.
Qed.

Lemma entry_at_total b j : 0 <= j -> j + 32 <= mlen b -> exists e, entry_at b j e.
Proof.
  intros Hj Hl. unfold entry_at, vdrive_buf3_to_word.
  assert (Hg : forall k, 0 <= k < 32 -> exists x, getb b (j + k) = Some x)
    by (intros k Hk; apply getb_is_Some; lia).
  rewrite <- !Z.add_assoc.
  destruct (Hg 2 ltac:(lia)) as [ty Hty], (Hg 0x15 ltac:(lia)) as [o0 H0],
    (Hg (0x15 + 1) ltac:(lia)) as [o1 H1], (Hg (0x15 + 2) ltac:(lia)) as [o2 H2],
    (Hg 0x1d ltac:(lia)) as [s0 H3], (Hg (0x1d + 1) ltac:(lia)) as [s1 H4],
    (Hg (0x1d + 2) ltac:(lia)) as [s2 H5].
  eexists (_, _, _). rewrite Hty, H0, H1, H2, H3, H4, H5. cbn [mbind option_bind fst snd]. done.
Qed.

Section table.
Context `{platform : Platform}.

Lemma take_entry_run k b j e v : entry_of (part v) k e -> entry_fits e -> 0 <= j -> j + 32 <= mlen b ->
  exists b', take_entry k b j v = Some (b', v) /\ same_outside j 32 b b' /\ entry_at b' j e.
Proof.
  intros (Hty & Hoff & Hsize) (? & ? & ?) Hj Hl.
  unfold take_entry, VDrive.get_part, bindST, lift, state.
  rewrite Hty. destruct (putb b (j + 2) e.1.1) as [b1|] eqn:Hp1; [|by rewrite putb_eq in Hp1 by lia].
  pose proof (putb_len _ _ _ _ Hp1). rewrite Hoff.
  destruct (word_to_buf3_run b1 (j + 0x15) e.1.2) as (b2 & -> & Hs2 & Hw2); [lia..|].
  rewrite Hsize. destruct Hs2 as [Hl2 Hs2].
  destruct (word_to_buf3_run b2 (j + 0x1d) e.2) as (b3 & -> & Hs3 & Hw3); [lia..|].
  exists b3. split; [done|]. split.
  - assert (same_outside j 32 b b2) by (eapply same_outside_trans;
      [by eapply putb_outside|by split|lia|lia|lia|lia]).
    eapply same_outside_trans; [done|done|lia|lia|lia|lia].
  - destruct Hs3 as [Hl3 Hs3]. split; [|split; [|done]].
    + rewrite Hs3, Hs2 by lia. by apply getb_put_same in Hp1.
    + unfold vdrive_buf3_to_word in *. by rewrite !Hs3 by lia.
Qed.

(** ** The system partition of a CMD floppy image *)

Definition floppy_types : list Z := [DISK_IMAGE_TYPE_D1M; DISK_IMAGE_TYPE_D2M; DISK_IMAGE_TYPE_D4M].

(** The block of sector [s] of track 1 of the system partition at [so] *)
Definition sys_block (so s : Z) : Z := 2 * so + 8 + s.

Record system_ok (v : vdrive_t) (image : disk_image_t) : Prop := {
  so_drive : VDrive.drive_ok v image;
  so_whole : VDrive.whole image;
  so_type : di_type image ∈ floppy_types;
  so_haspt : haspt (part v) = true;
  so_start : 0 <= sys_offset (part v);
  so_end : sys_block (sys_offset (part v)) 4 <= Geometry.blocks_of (di_type image)
}.

(** The drive while the table is accessed *)
Definition in_sys (v : vdrive_t) (image : disk_image_t) : Prop :=
  system_ok v image /\ current_offset (part v) = sys_offset (part v) /\
  image_format (geom v) = VDRIVE_IMAGE_FORMAT_SYS.

Lemma floppy_facts ty : ty ∈ floppy_types ->
  ty ∈ VDrive.cmd_types /\ ty <> DISK_IMAGE_TYPE_DHD /\ Geometry.blocks_of ty <= 12960.
Proof.
  intros Hty. unfold floppy_types in Hty.
  repeat (apply elem_of_cons in Hty as [->|Hty];
    [split; [by apply (bool_decide_eq_true_1 _)|vm_compute; split; congruence]|]).
  by apply not_elem_of_nil in Hty.
Qed.

(** The physical address of a block of a floppy image *)
Definition phys_track (b : Z) : Z := b / 256 + 1.
Definition phys_sector (b : Z) : Z := b mod 256.

Lemma floppy_valid image b : Image.image_wf image -> VDrive.whole image ->
  di_type image ∈ floppy_types -> 0 <= b < Geometry.blocks_of (di_type image) ->
  Image.covered image (phys_track b) (phys_sector b) /\
  Image.present image (phys_track b) (phys_sector b).
Proof.
  intros Hwf Hwh Hty Hb. destruct (floppy_facts _ Hty) as (Hcmd & Hnd & Hbl).
  apply VDrive.whole_covered; [done|done|].
  pose proof (VDrive.cmd_check_sector image b (Image.wf_device _ Hwf) Hcmd) as Hc.
  unfold VDrive.image_blocks, VDrive.cmd_track_size in Hc.
  rewrite (proj2 (Z.eqb_neq _ _)) in Hc by done. specialize (Hc ltac:(lia)).
  pose proof (Z.mod_pos_bound b 256 eq_refl).
  assert (0 <= b / 256) by (apply Z.div_pos; lia).
  unfold phys_track, phys_sector. apply (Geometry.check_sector_range image); [apply Hwf|apply Hwf|lia|lia|lia].
Qed.

(** A drive with a writable, complete floppy image with partitions *)
Definition floppy_drive (v : vdrive_t) (image : disk_image_t) : Prop :=
  VDrive.drive_ok v image /\ VDrive.whole image /\ di_type image ∈ floppy_types /\
  haspt (part v) = true.

(** Block [o] of the partition at [current_offset] *)
Lemma floppy_mapped v image t s o : floppy_drive v image ->
  image_format (geom v) = VDRIVE_IMAGE_FORMAT_SYS \/ 1 <= t ->
  VDrive.log_offset v t s = Some (Some o) ->
  0 <= current_offset (part v) -> 0 <= o ->
  2 * current_offset (part v) + o < Geometry.blocks_of (di_type image) ->
  let b := 2 * current_offset (part v) + o in
  VDrive.vdrive_log_to_phy v t s = Some (Some (phys_track b, phys_sector b)) /\
  Image.covered image (phys_track b) (phys_sector b) /\
  Image.present image (phys_track b) (phys_sector b).
Proof.
  intros (Hd & Hwh & Hty & Hpt) Hfmt Hlo Hco Ho Hb b.
  destruct (floppy_facts _ Hty) as (Hcmd & Hnd & Hbl).
  split; [|apply floppy_valid; [apply Hd|done|done|lia]].
  unfold VDrive.vdrive_log_to_phy. rewrite (VDrive.dk_set _ _ Hd), Hpt, Hlo.
  destruct (Z.eqb_spec (current_offset (part v)) UINT32_MAX); [unfold UINT32_MAX in *; lia|].
  cbn [orb negb]. assert (Hg : negb (image_format (geom v) =? VDRIVE_IMAGE_FORMAT_SYS) && (t <? 1) = false).
  { destruct Hfmt as [->|Ht]; [done|]. rewrite (proj2 (Z.ltb_ge _ _)) by lia. apply andb_false_r. }
  rewrite Hg. cbn [mbind option_bind]. unfold VDrive.VDRIVE_IS_HD.
  rewrite (VDrive.dk_set _ _ Hd), (VDrive.dk_image _ _ Hd). cbn [mbind option_bind].
  rewrite (proj2 (Z.eqb_neq (di_type image) _)) by done. rewrite u32_small by lia.
  rewrite Z.shiftr_div_pow2 by lia. change 255 with (Z.ones 8). rewrite Z.land_ones by lia.
  change (2 ^ 8) with 256. unfold phys_track, phys_sector. subst b.
  by rewrite (Z.add_comm o), (Z.mul_comm _ 2).
Qed.

(** The physical address of a sector of the table *)
Definition sys_track (so s : Z) : Z := phys_track (sys_block so s).
Definition sys_sector (so s : Z) : Z := phys_sector (sys_block so s).

Lemma sys_mapped v image s : in_sys v image -> 0 <= s < 4 -> let so := sys_offset (part v) in
  VDrive.vdrive_log_to_phy v 1 s = Some (Some (sys_track so s, sys_sector so s)) /\
  Image.covered image (sys_track so s) (sys_sector so s) /\
  Image.present image (sys_track so s) (sys_sector so s).
Proof.
  intros (Hok & Hco & Hfmt) Hs so. pose proof (so_drive _ _ Hok) as Hd.
  pose proof (so_start _ _ Hok). pose proof (so_end _ _ Hok). fold so in H, H0.
  unfold sys_track, sys_sector, sys_block in *. subst so. rewrite <- Hco in *.
  rewrite <- Z.add_assoc. apply floppy_mapped; [| |..|lia|lia|lia].
  - split; [done|]. split; [apply Hok|]. split; apply Hok.
  - by left.
  - unfold VDrive.log_offset, deref_image. rewrite Hfmt, (VDrive.dk_set _ _ Hd), (VDrive.dk_image _ _ Hd).
    eval_tests. cbn [mbind option_bind].
    pose proof (so_type _ _ Hok) as Hty. unfold floppy_types in Hty.
    repeat (apply elem_of_cons in Hty as [->|Hty]; [eval_tests; case_bool; try lia; done|]).
    by apply not_elem_of_nil in Hty.
Qed.

Lemma sys_address_inj so s s' : sys_track so s = sys_track so s' ->
  sys_sector so s = sys_sector so s' -> s = s'.
Proof.
  unfold sys_track, sys_sector, phys_track, phys_sector, sys_block. intros Ht Hs.
  pose proof (Z.div_mod (2 * so + 8 + s) 256 ltac:(lia)).
  pose proof (Z.div_mod (2 * so + 8 + s') 256 ltac:(lia)). lia.
Qed.

(** The table on the disk: [D s] is sector [s]. *)
Definition contents (v : vdrive_t) (D : Z -> mem) : Prop :=
  exists image, in_sys v image /\ forall s, 0 <= s < 4 ->
    Image.sector_data image (sys_track (sys_offset (part v)) s) (sys_sector (sys_offset (part v)) s) = D s.

(** Everything but the image stays. *)
Definition same_drive (v v' : vdrive_t) : Prop :=
  exists i m, v' = set_images0 i (set_image_mode m v).

#[export] Instance same_drive_preorder : PreOrder same_drive.
Proof.
  split.
  - intros v. exists (images0 v), (image_mode v). by destruct v.
  - intros v1 v2 v3 (i & m & ->) (i' & m' & ->). by exists i', m'.
Qed.

Lemma whole_read v image buf t s t' s' : VDrive.drive_ok v image -> VDrive.whole image ->
  VDrive.vdrive_log_to_phy v t s = Some (Some (t', s')) ->
  Image.covered image t' s' -> Image.present image t' s' -> mlen buf = 256 ->
  VDrive.vdrive_read_sector buf t s v
    = Some ((CBMDOS_IPE_OK, Image.sector_data image t' s'), set_image_mode 0 v) /\
  mlen (Image.sector_data image t' s') = 256.
Proof.
  intros Hd [Hnomap _] Hmap Hcov Hpres Hbuf. split.
  - rewrite (VDrive.read_sector_run _ _ _ _ _ _ _ Hd Hmap).
    rewrite Image.read_sector_eq by (done || apply Hd). unfold Image.map_code. rewrite Hnomap.
    cbn [mbind option_bind]. by change (Image.soft_error CBMDOS_FDC_ERR_OK) with true.
  - destruct (Image.wf_fd _ (VDrive.dk_wf _ _ Hd)) as (f & Hf & _).
    unfold Image.sector_data, mlen. by rewrite Hf, Image.length_f_bytes.
Qed.

Lemma sys_read v D buf s : contents v D -> 0 <= s < 4 -> mlen buf = 256 ->
  exists v', VDrive.vdrive_read_sector buf 1 s v = Some ((CBMDOS_IPE_OK, D s), v') /\
    contents v' D /\ same_drive v v' /\ mlen (D s) = 256.
Proof.
  intros (image & Hin & HD) Hs Hbuf. destruct (sys_mapped v image s Hin Hs) as (Hmap & Hcov & Hpres).
  exists (set_image_mode 0 v). rewrite <- HD by done.
  destruct (whole_read v image buf 1 s _ _ (so_drive _ _ (proj1 Hin)) (so_whole _ _ (proj1 Hin))
    Hmap Hcov Hpres Hbuf) as [Hr Hm].
  split; [exact Hr|]. split; [|split; [|exact Hm]].
  - exists image. split; [|done]. destruct Hin as ([[] ? ? ? ? ?] & ? & ?).
    split; [|done]. by split.
  - exists (images0 v), 0. by destruct v.
Qed.

Definition upd (D : Z -> mem) (s : Z) (b : mem) (s' : Z) : mem := if s' =? s then b else D s'.

Lemma sys_write v D b s : contents v D -> 0 <= s < 4 -> mlen b = 256 ->
  exists v', VDrive.vdrive_write_sector b 1 s v = Some (0, v') /\
    contents v' (upd D s b) /\ same_drive v v'.
Proof.
  intros (image & Hin & HD) Hs Hb. destruct (sys_mapped v image s Hin Hs) as (Hmap & Hcov & Hpres).
  pose proof (so_drive _ _ (proj1 Hin)) as Hd. pose proof (VDrive.dk_wf _ _ Hd) as Hwf.
  destruct (Image.write_sector_written image b _ _ Hwf Hcov Hb) as (image' & Hw & Hwr).
  exists (set_images0 (Some image') (set_image_mode 0 v)).
  pose proof (Image.written_wf _ _ _ _ _ Hwf Hwr) as Hwf'.
  destruct Hwr as (Hdev & Hty & Htr & Hse & Hro & Hml & Hp' & Hdata & _ & Hmap' & (f & f' & Hf & Hf' & _ & Hsz) & Hoth).
  split; [by rewrite (VDrive.write_sector_run _ _ _ _ _ _ _ Hd Hmap), Hw|]. split; [|by do 2 eexists].
  exists image'. split.
  - destruct Hin as (Hok & Hco & Hfmt). split; [|done]. split; try apply Hok.
    + by apply (VDrive.drive_ok_written v image).
    + destruct (so_whole _ _ Hok) as [Hn (f0 & Hf0 & Hs0)]. split.
      * destruct (map_ image') as [m'|] eqn:Hm'; [|done].
        destruct (Hmap' m' eq_refl) as (m & Hm & _). congruence.
      * exists f'. split; [done|]. rewrite Hty. simplify_eq. lia.
    + rewrite Hty. apply Hok.
    + cbn. rewrite Hty. apply Hok.
  - intros s' Hs'. unfold upd. destruct (Z.eqb_spec s' s) as [->|Hne]; [exact Hdata|].
    destruct (sys_mapped v image s' Hin Hs') as (_ & Hcov' & Hpres').
    rewrite <- HD by done. cbn. apply Hoth; [done|done|].
    intros [= Ht Hss]. apply Hne. eapply sys_address_inj; [exact Ht|exact Hss].
Qed.

(** ** The loops over the table *)

(** Partition [k] is in sector [k / 8] of the table, at offset [k mod 8 * 32]. *)
Definition slot (k : Z) : Z := k mod 8 * 32.

Lemma entry_index i : 0 <= i < 32 ->
  Z.shiftr (Z.shiftl i 5) 8 = i / 8 /\ Z.land (Z.shiftl i 5) 255 = slot i /\
  0 <= i / 8 < 4 /\ 0 <= slot i /\ slot i + 32 <= 256.
Proof.
  intros Hi. unfold slot. rewrite Z.shiftr_div_pow2, Z.shiftl_mul_pow2 by lia.
  change 255 with (Z.ones 8). rewrite Z.land_ones by lia.
  change (2 ^ 8) with (8 * 2 ^ 5). rewrite Z.div_mul_cancel_r, Z.mul_mod_distr_r by lia.
  split_and!; [done|done|..]; Z.to_euclidean_division_equations; lia.
Qed.

Lemma slots_apart i k : i / 8 = k / 8 -> i <> k -> slot k + 32 <= slot i \/ slot i + 32 <= slot k.
Proof.
  intros Hq Hne. unfold slot. pose proof (Z.div_mod i 8 ltac:(lia)).
  pose proof (Z.div_mod k 8 ltac:(lia)). nia.
Qed.

(** The sector of the entry before [i] is in the buffer (none before entry 0). *)
Definition current_sector (i : Z) : Z := (i - 1) / 8.

Lemma next_sector i : 0 <= i < 32 ->
  (i / 8 = current_sector i /\ 0 < i) \/ (i / 8 = current_sector i + 1 /\ i mod 8 = 0).
Proof.
  intros Hi. unfold current_sector. Z.to_euclidean_division_equations; lia.
Qed.

(** The table in memory: every entry fits its bytes. *)
Definition table_ok (p : part_t) : Prop :=
  forall k, 1 <= k <= 31 -> exists e, entry_of p k e /\ entry_fits e.

(** The entries before [i] are in the buffer or on the disk. *)
Definition stored (p : part_t) (D : Z -> mem) (buf : mem) (i : Z) : Prop :=
  forall k, 1 <= k < i -> exists e, entry_of p k e /\
    entry_at (if k / 8 =? current_sector i then buf else D (k / 8)) (slot k) e.

Lemma contents_same v v' : same_drive v v' -> part v' = part v /\ geom v' = geom v.
Proof. by intros (i & m & ->). Qed.

(** Entry [i]: the sector changes at every eighth entry. *)
Lemma load_sector v D buf i : contents v D -> 0 <= i < 32 -> mlen buf = 256 ->
  stored (part v) D buf i ->
  exists buf' v' D',
    (if negb (i / 8 =? current_sector i) then
       let! ret := (if 0 <=? current_sector i
                    then VDrive.vdrive_write_sector buf 1 (current_sector i)
                    else mret CBMDOS_IPE_OK) in
       if ret =? 0 then VDrive.vdrive_read_sector buf 1 (i / 8) else mret (ret, buf)
     else mret (CBMDOS_IPE_OK, buf)) v = Some ((CBMDOS_IPE_OK, buf'), v') /\
    contents v' D' /\ same_drive v v' /\ mlen buf' = 256 /\
    forall k, 1 <= k < i -> exists e, entry_of (part v) k e /\
      entry_at (if k / 8 =? i / 8 then buf' else D' (k / 8)) (slot k) e.
Proof.
  intros HD Hi Hbuf Hst. destruct (next_sector i Hi) as [[Heq Hpos]|[Heq Hmod]].
  { rewrite Heq, Z.eqb_refl. exists buf, v, D. split; [done|]. split; [done|].
    split; [done|]. split; [done|].
    unfold stored in Hst. exact Hst. }
  destruct (entry_index i Hi) as (_ & _ & Hq & _).
  rewrite (proj2 (Z.eqb_neq _ _)) by lia. cbn [negb].
  assert (exists v1, (if 0 <=? current_sector i then VDrive.vdrive_write_sector buf 1 (current_sector i)
    else mret CBMDOS_IPE_OK) v = Some (0, v1) /\ same_drive v v1 /\
    contents v1 (if 0 <=? current_sector i then upd D (current_sector i) buf else D))
    as (v1 & Hw & Hsame1 & HD1).
  { destruct (Z.leb_spec 0 (current_sector i)).
    - destruct (sys_write v D buf (current_sector i)) as (v1 & ? & ? & ?); [done|lia|done|]. eauto.
    - exists v. by split_and!. }
  destruct (sys_read v1 _ buf (i / 8) HD1 Hq Hbuf) as (v2 & Hr & HD2 & Hsame2 & Hlen).
  set (D1 := if 0 <=? current_sector i then upd D (current_sector i) buf else D) in *.
  exists (D1 (i / 8)), v2, D1. split.
  { unfold bindST. rewrite Hw. cbn [Z.eqb]. by rewrite Hr. }
  split; [done|]. split; [by etrans|]. split; [done|].
  intros k Hk. destruct (Hst k Hk) as (e & He & Ha). exists e. split; [done|].
  pose proof (Z.div_mod i 8 ltac:(lia)). pose proof (Z.div_mod k 8 ltac:(lia)).
  pose proof (Z.mod_pos_bound k 8 eq_refl).
  rewrite (proj2 (Z.eqb_neq (k / 8) (i / 8))) by lia. subst D1. unfold upd.
  rewrite (proj2 (Z.leb_le 0 (current_sector i))) by nia. exact Ha.
Qed.

Lemma write_entries_run n : forall i buf v D,
  contents v D -> table_ok (part v) -> 0 <= i -> i + Z.of_nat n = 32 -> mlen buf = 256 ->
  stored (part v) D buf i ->
  exists buf' v' D', write_entries n i (current_sector i) buf v
      = Some ((CBMDOS_IPE_OK, current_sector 32, buf'), v') /\
    contents v' D' /\ same_drive v v' /\ mlen buf' = 256 /\ stored (part v) D' buf' 32.
Proof.
  induction n as [|n IH]; intros i buf v D HD Htab Hi0 Hi Hbuf Hst; cbn [write_entries].
  { assert (i = 32) as -> by lia. exists buf, v, D. split; [done|]. split; [done|].
    split; [done|]. done. }
  destruct (entry_index i ltac:(lia)) as (-> & -> & Hq & Hj0 & Hj).
  destruct (load_sector v D buf i HD ltac:(lia) Hbuf Hst) as (b1 & v1 & D1 & Hload & HD1 & Hs1 & Hb1 & Hst1).
  unfold bindST at 1. rewrite Hload. cbn [Z.eqb CBMDOS_IPE_OK].
  destruct (contents_same _ _ Hs1) as [Hp1 _].
  assert (exists b2, (if i =? 0 then mret b1 else take_entry i b1 (slot i)) v1 = Some (b2, v1) /\
    mlen b2 = 256 /\ stored (part v) D1 b2 (i + 1)) as (b2 & Htake & Hb2 & Hst2).
  { destruct (Z.eqb_spec i 0) as [->|Hne].
    { exists b1. split; [done|]. split; [done|]. intros k Hk. lia. }
    destruct (Htab i ltac:(lia)) as (e & He & Hfit).
    destruct (take_entry_run i b1 (slot i) e v1) as (b2 & Htake & Hout & Hat);
      [by rewrite Hp1|done|lia|lia|].
    exists b2. split; [done|]. split; [by rewrite (proj1 Hout)|].
    intros k Hk. unfold current_sector. replace (i + 1 - 1) with i by lia.
    destruct (Z.eq_dec k i) as [->|Hki]; [rewrite Z.eqb_refl; eauto|].
    destruct (Hst1 k ltac:(lia)) as (e' & He' & Ha). exists e'. split; [done|].
    destruct (Z.eqb_spec (k / 8) (i / 8)) as [Hqq|]; [|done].
    eapply entry_at_outside; [done|apply slots_apart; lia|done]. }
  unfold bindST at 1. rewrite Htake.
  destruct (IH (i + 1) b2 v1 D1) as (b3 & v3 & D3 & Hrun & HD3 & Hs3 & Hb3 & Hst3);
    [done|by rewrite Hp1|lia|lia|done|by rewrite Hp1|].
  exists b3, v3, D3. replace (current_sector (i + 1)) with (i / 8) in Hrun
    by (unfold current_sector; f_equal; lia).
  split; [done|]. split; [done|]. split; [by etrans|]. by rewrite Hp1 in Hst3.
Qed.

(** ** Reading the table *)

Definition arrays_ok (p : part_t) : Prop :=
  mlen (ptype p) = 256 /\ mlen (poffset p) = 256 /\ mlen (psize p) = 256 /\
  mlen (cheadertrack p) = 256.

(** Only the arrays of the table change. *)
Definition same_table_part (p p' : part_t) : Prop :=
  exists t o z c, p' = set_cheadertrack c (set_psize z (set_poffset o (set_ptype t p))).

#[export] Instance same_table_preorder : PreOrder same_table_part.
Proof.
  split.
  - intros p. exists (ptype p), (poffset p), (psize p), (cheadertrack p). by destruct p.
  - intros p1 p2 p3 (t & o & z & c & ->) (t' & o' & z' & c' & ->). by exists t', o', z', c'.
Qed.

Lemma contents_part v D p' : contents v D -> same_table_part (part v) p' -> contents (set_part p' v) D.
Proof.
  intros (image & ([[Hset Himg Hwf Hver] Hwh Hty Hpt Hs He] & Hco & Hfmt) & HD) (t & o & z & c & ->).
  exists image. split; [|exact HD]. split; [|done]. split; try done.
Qed.

Lemma set_part_part v : set_part (part v) v = v.
Proof. by destruct v. Qed.

(** Reading one entry sets element [k] of the arrays. *)
Definition with_entry (k : Z) (e : Z * Z * Z) (p : part_t) : part_t :=
  let k := Z.to_nat k in
  set_cheadertrack (<[k := 0]> (cheadertrack p)) (set_psize (<[k := e.2]> (psize p))
    (set_poffset (<[k := e.1.2]> (poffset p)) (set_ptype (<[k := e.1.1]> (ptype p)) p))).

Lemma put_entry_run k b j e v : arrays_ok (part v) -> 0 <= k < 256 -> entry_at b j e ->
  put_entry k b j v = Some (tt, set_part (with_entry k e (part v)) v).
Proof.
  intros (? & ? & ? & ?) Hk (Hty & Hoff & Hsz).
  unfold put_entry, mbind, ST_bind. unfold bindST at 1. unfold lift. rewrite Hty.
  unfold bindST at 1. rewrite VDrive.put_part_run by lia. unfold bindST at 1. rewrite Hoff.
  unfold bindST at 1. rewrite VDrive.put_part_run by (cbn; lia). unfold bindST at 1. rewrite Hsz.
  unfold bindST at 1. rewrite VDrive.put_part_run by (cbn; lia). rewrite VDrive.put_part_run by (cbn; lia).
  done.
Qed.

Lemma with_entry_ok k e p : arrays_ok p -> 0 <= k < 256 ->
  arrays_ok (with_entry k e p) /\ same_table_part p (with_entry k e p) /\
  entry_of (with_entry k e p) k e /\
  forall k' e', k' <> k -> entry_of p k' e' -> entry_of (with_entry k e p) k' e'.
Proof.
  intros (? & ? & ? & ?) Hk. split; [|split; [|split]].
  - unfold arrays_ok, with_entry. cbn. by autorewrite with mem.
  - by do 4 eexists.
  - unfold entry_of, with_entry. cbn. rewrite !getb_insert, Z.eqb_refl by lia. done.
  - intros k' e' Hne. unfold entry_of, with_entry. cbn. rewrite !getb_insert by lia.
    by rewrite (proj2 (Z.eqb_neq k' k)).
Qed.

(** The entries before [i] are in memory. *)
Definition loaded (p : part_t) (D : Z -> mem) (i : Z) : Prop :=
  forall k, 1 <= k < i -> exists e, entry_of p k e /\ entry_at (D (k / 8)) (slot k) e.

Lemma fetch_sector v D buf i : contents v D -> 0 <= i < 32 -> mlen buf = 256 ->
  (0 < i -> buf = D (current_sector i)) ->
  exists v', (if negb (i / 8 =? current_sector i) then VDrive.vdrive_read_sector buf 1 (i / 8)
              else mret (CBMDOS_IPE_OK, buf)) v = Some ((CBMDOS_IPE_OK, D (i / 8)), v') /\
    contents v' D /\ same_drive v v' /\ mlen (D (i / 8)) = 256.
Proof.
  intros HD Hi Hbuf Hin. destruct (next_sector i Hi) as [[Heq Hpos]|[Heq Hmod]].
  - rewrite Heq, Z.eqb_refl. exists v. rewrite <- Hin by done. split; [done|]. split; [done|].
    split; [done|done].
  - rewrite (proj2 (Z.eqb_neq _ _)) by lia. destruct (entry_index i Hi) as (_ & _ & Hq & _).
    by apply sys_read.
Qed.

Lemma set_poffset_table x p : same_table_part p (set_poffset x p).
Proof. exists (ptype p), x, (psize p), (cheadertrack p). by destruct p. Qed.

(** One entry; entry 0 is the system partition, kept as number 255. *)
Lemma entry_step i b v e : 0 <= i < 32 -> arrays_ok (part v) -> entry_at b (slot i) e ->
  exists v1 p', put_entry (if i =? 0 then 255 else i) b (slot i) v = Some (tt, v1) /\
    (if i =? 0 then let! v := state in
                    VDrive.put_part poffset set_poffset (if i =? 0 then 255 else i) (sys_offset (part v))
     else mret tt) v1 = Some (tt, set_part p' v) /\
    same_table_part (part v) p' /\ arrays_ok p' /\ (0 < i -> entry_of p' i e) /\
    (forall k e', 1 <= k < i -> entry_of (part v) k e' -> entry_of p' k e').
Proof.
  intros Hi Ha He. set (k := if i =? 0 then 255 else i).
  assert (Hk : 0 <= k < 256 /\ (0 < i -> k = i)) by (subst k; case_bool; lia).
  destruct Hk as [Hk Hki]. destruct (with_entry_ok k e _ Ha Hk) as (Ha1 & Hs1 & He1 & Hoth).
  exists (set_part (with_entry k e (part v)) v).
  destruct (Z.eqb_spec i 0) as [->|Hne].
  - exists (set_poffset (<[Z.to_nat k := sys_offset (part v)]> (poffset (with_entry k e (part v))))
              (with_entry k e (part v))).
    split; [by apply put_entry_run|]. destruct Ha1 as (Ht & Ho & Hz & Hc). split.
    { unfold bindST, state. rewrite VDrive.put_part_run by (cbn [part set_part]; lia). done. }
    split; [etrans; [exact Hs1|apply set_poffset_table]|].
    split; [|split; lia]. split; [exact Ht|]. split; [|by split].
    cbn [poffset set_poffset]. by autorewrite with mem.
  - exists (with_entry k e (part v)). split; [by apply put_entry_run|]. split; [done|].
    split; [done|]. split; [done|]. split; [intros Hpos; by rewrite <- (Hki Hpos) at 1|].
    intros k' e' Hk'. apply Hoth. lia.
Qed.

Lemma same_table_sys p p' : same_table_part p p' ->
  sys_offset p' = sys_offset p /\ current_offset p' = current_offset p /\ haspt p' = haspt p /\
  selected_part p' = selected_part p.
Proof. by intros (t & o & z & c & ->). Qed.

Lemma read_entries_run n : forall i buf v D,
  contents v D -> arrays_ok (part v) -> 0 <= i -> i + Z.of_nat n = 32 -> mlen buf = 256 ->
  (0 < i -> buf = D (current_sector i)) -> loaded (part v) D i ->
  exists v' p', read_entries n i (current_sector i) buf v = Some (CBMDOS_IPE_OK, v') /\
    same_table_part (part v) p' /\ arrays_ok p' /\ same_drive (set_part p' v) v' /\ loaded p' D 32 /\
    contents v' D.
Proof.
  induction n as [|n IH]; intros i buf v D HD Ha Hi0 Hi Hbuf Hin Hl; cbn [read_entries].
  { assert (i = 32) as -> by lia. exists v, (part v). split; [done|]. split; [done|].
    split; [done|]. split; [by rewrite set_part_part|done]. }
  destruct (entry_index i ltac:(lia)) as (-> & -> & Hq & Hj0 & Hj).
  destruct (fetch_sector v D buf i HD ltac:(lia) Hbuf Hin) as (v1 & Hr & HD1 & Hs1 & Hlen).
  destruct (contents_same _ _ Hs1) as [Hp1 _].
  destruct (entry_at_total (D (i / 8)) (slot i)) as [e He]; [lia..|].
  destruct (entry_step i (D (i / 8)) v1 e) as (v2 & p2 & Hput & Hsys & Ht2 & Ha2 & He2 & Hoth2);
    [lia|by rewrite Hp1|done|].
  destruct (IH (i + 1) (D (i / 8)) (set_part p2 v1) D) as (v3 & p3 & Hrun & Ht3 & Ha3 & Hs3 & Hl3 & HD3).
  { by apply contents_part. }
  { done. }
  { lia. }
  { lia. }
  { done. }
  { intros _. unfold current_sector. by replace (i + 1 - 1) with i by lia. }
  { intros k Hk. cbn [part set_part]. destruct (Z.eq_dec k i) as [->|Hki]; [exists e; split; [apply He2; lia|done]|].
    destruct (Hl k ltac:(lia)) as (e' & He' & Hat). exists e'. split; [|done].
    apply Hoth2; [lia|]. by rewrite Hp1. }
  replace (current_sector (i + 1)) with (i / 8) in Hrun by (unfold current_sector; f_equal; lia).
  exists v3, p3. split; [|split; [|split; [done|split; [|done]]]].
  - unfold bindST at 1. rewrite Hr. cbn [Z.eqb CBMDOS_IPE_OK].
    unfold mbind, ST_bind. unfold bindST at 1. rewrite Hput. unfold bindST at 1. rewrite Hsys. exact Hrun.
  - rewrite <- Hp1. by etrans.
  - destruct Hs1 as (i1 & m1 & ->), Hs3 as (i3 & m3 & ->). by exists i3, m3.
Qed.

(** ** The table survives *)

(** Drive [v] with the system partition selected *)
Definition sys_state (v : vdrive_t) : vdrive_t :=
  set_geom (set_image_format VDRIVE_IMAGE_FORMAT_SYS (geom v))
    (set_part (set_current_offset (sys_offset (part v)) (part v)) v).

(** Drive [v'] with the selection of [v] *)
Definition back_to (v v' : vdrive_t) : vdrive_t :=
  set_geom (set_image_format (image_format (geom v)) (geom v'))
    (set_part (set_current_offset (current_offset (part v)) (part v')) v').

Lemma in_system_run (m : ST vdrive_t Z) v r v' : m (sys_state v) = Some (r, v') ->
  in_system_partition m v = Some (r, back_to v v').
Proof.
  intros Hm. transitivity (match m (sys_state v) with
    Some (a, s') => Some (a, back_to v s') | None => None end); [done|by rewrite Hm].
Qed.

(** The table on the disk, whatever partition is selected *)
Definition table_on (v : vdrive_t) (D : Z -> mem) : Prop :=
  exists image, system_ok v image /\ forall s, 0 <= s < 4 ->
    Image.sector_data image (sys_track (sys_offset (part v)) s)
      (sys_sector (sys_offset (part v)) s) = D s.

Lemma table_on_same v v' D : image_set v' = image_set v -> images0 v' = images0 v ->
  haspt (part v') = haspt (part v) -> sys_offset (part v') = sys_offset (part v) ->
  table_on v D -> table_on v' D.
Proof.
  intros Hset Himg Hpt Hso (image & [[Hset0 Himg0 Hwf Hver] Hwh Hty Hpt0 Hs He] & HD).
  exists image. split; [split; try congruence; split; try congruence|by rewrite Hso].
  unfold VDrive.VDRIVE_IS_1541. rewrite Hset, Hset0, Himg, Himg0. cbn [mbind option_bind].
  unfold floppy_types in Hty.
  repeat (apply elem_of_cons in Hty as [->|Hty]; [done|]). by apply not_elem_of_nil in Hty.
Qed.

Lemma contents_iff v D : contents v D <-> table_on v D /\
  current_offset (part v) = sys_offset (part v) /\ image_format (geom v) = VDRIVE_IMAGE_FORMAT_SYS.
Proof.
  unfold contents, table_on, in_sys. split.
  - intros (image & (Hok & Hco & Hfmt) & HD). split; [by exists image|done].
  - intros ((image & Hok & HD) & Hco & Hfmt). by exists image.
Qed.

Lemma sys_maxpart v D : table_on v D -> maxpart v = Some (31, v).
Proof.
  intros (image & [[Hset Himg _ _] _ Hty _ _ _] & _). destruct (floppy_facts _ Hty) as (_ & Hne & _).
  unfold maxpart, bindST, state, lift, VDrive.VDRIVE_IS_HD. rewrite Hset, Himg. cbn [mbind option_bind].
  by rewrite (proj2 (Z.eqb_neq _ _) Hne).
Qed.

Lemma table_on_selected v D : table_on v D ->
  haspt (part v) = true /\ sys_offset (part v) <> UINT32_MAX.
Proof.
  intros (image & [_ _ Hty Hpt Hs He] & _). destruct (floppy_facts _ Hty) as (_ & _ & Hb).
  split; [done|]. unfold sys_block, UINT32_MAX in *. lia.
Qed.

(** Writing leaves the entries of memory on the disk. *)
Lemma write_table_run v D : table_on v D -> table_ok (part v) ->
  exists v1 D1, vdrive_write_partition_table v = Some (0, v1) /\ same_drive v v1 /\ table_on v1 D1 /\
    forall k, 1 <= k <= 31 -> exists e, entry_of (part v) k e /\ entry_at (D1 (k / 8)) (slot k) e.
Proof.
  intros HD Htab. destruct (table_on_selected _ _ HD) as [Hpt Hne].
  assert (HDs : contents (sys_state v) D)
    by (apply contents_iff; split; [by apply (table_on_same v)|done]).
  destruct (write_entries_run 32 0 (lib_malloc 256) (sys_state v) D)
    as (b & v1 & D1 & Hrun & HD1 & Hs1 & Hb & Hst); [done|done|lia|done|done|intros k Hk; lia|].
  destruct (sys_write v1 D1 b 3) as (v2 & Hw & HD2 & Hs2); [done|lia|done|].
  exists (back_to v v2), (upd D1 3 b). split; [|split; [|split]].
  - unfold vdrive_write_partition_table, bindST at 1, state. rewrite Hpt, (proj2 (Z.eqb_neq _ _) Hne).
    cbn [negb]. unfold bindST at 1. rewrite (sys_maxpart _ D HD). apply in_system_run.
    unfold bindST. change (Z.to_nat (31 + 1)) with 32%nat.
    change (current_sector 0) with (-1) in Hrun. rewrite Hrun.
    change (current_sector 32) with 3. exact Hw.
  - destruct Hs1 as (i1 & m1 & ->), Hs2 as (i2 & m2 & ->). exists i2, m2.
    unfold back_to, sys_state. by destruct v as [????[]?[]].
  - apply contents_iff in HD2 as [HD2 _]. by apply (table_on_same v2).
  - intros k Hk. destruct Hs1 as (i1 & m1 & ->). destruct (Hst k ltac:(lia)) as (e & He & Ha).
    exists e. split; [exact He|]. unfold upd. change (current_sector 32) with 3 in Ha. exact Ha.
Qed.

(** Element 0 of the arrays is set last. *)
Definition no_entry0 (p : part_t) : part_t :=
  set_psize (<[0%nat := UINT32_MAX]> (psize p)) (set_poffset (<[0%nat := UINT32_MAX]> (poffset p))
    (set_ptype (<[0%nat := 0]> (ptype p)) p)).

Lemma no_entry0_run v ret : arrays_ok (part v) ->
  (VDrive.put_part ptype set_ptype 0 0;; VDrive.put_part poffset set_poffset 0 UINT32_MAX;;
   VDrive.put_part psize set_psize 0 UINT32_MAX;; mret ret) v
    = Some (ret : Z, set_part (no_entry0 (part v)) v).
Proof.
  intros (? & ? & ? & ?). unfold mbind, ST_bind. unfold bindST at 1. rewrite VDrive.put_part_run by lia.
  unfold bindST at 1. rewrite VDrive.put_part_run by (cbn; lia).
  unfold bindST at 1. by rewrite VDrive.put_part_run by (cbn; lia).
Qed.

Lemma no_entry0_ok p : arrays_ok p -> arrays_ok (no_entry0 p) /\ same_table_part p (no_entry0 p) /\
  forall k e, 1 <= k -> entry_of p k e -> entry_of (no_entry0 p) k e.
Proof.
  intros (? & ? & ? & ?). split; [unfold arrays_ok; cbn; by rewrite !mlen_insert|]. split.
  { unfold same_table_part, no_entry0. exists (<[0%nat := 0]> (ptype p)),
      (<[0%nat := UINT32_MAX]> (poffset p)), (<[0%nat := UINT32_MAX]> (psize p)), (cheadertrack p).
    by destruct p. }
  intros k e Hk. unfold entry_of. cbn [ptype poffset psize no_entry0 set_psize set_poffset set_ptype].
  change 0%nat with (Z.to_nat 0). rewrite !getb_insert, !(proj2 (Z.eqb_neq k 0)) by lia. done.
Qed.

(** Reading leaves the entries of the disk in memory. *)
Lemma read_table_run v D : table_on v D -> arrays_ok (part v) ->
  exists v1, vdrive_read_partition_table v = Some (0, v1) /\
    current_offset (part v1) = current_offset (part v) /\
    image_format (geom v1) = image_format (geom v) /\ table_on v1 D /\ arrays_ok (part v1) /\
    forall k, 1 <= k <= 31 -> exists e, entry_of (part v1) k e /\ entry_at (D (k / 8)) (slot k) e.
Proof.
  intros HD Ha. destruct (table_on_selected _ _ HD) as [Hpt Hne].
  assert (HDs : contents (sys_state v) D)
    by (apply contents_iff; split; [by apply (table_on_same v)|done]).
  destruct (read_entries_run 32 0 (lib_malloc 256) (sys_state v) D)
    as (v1 & p1 & Hrun & Ht & Ha1 & (im & mo & Hs1) & Hl & HD1);
    [done|done|lia|done|done|lia|intros k Hk; lia|].
  destruct (no_entry0_ok p1 Ha1) as (Ha2 & Ht2 & Hent).
  destruct (same_table_sys _ _ (transitivity Ht Ht2)) as (Hso & _ & Hpt2 & _).
  exists (back_to v (set_part (no_entry0 p1) v1)). split; [|split; [done|split; [done|split; [|split]]]].
  - unfold vdrive_read_partition_table, bindST at 1, state. rewrite Hpt. cbn [negb].
    unfold bindST at 1. rewrite (proj2 (Z.eqb_neq _ _) Hne). cbn [mret ST_ret].
    eval_tests. cbn [negb]. unfold bindST at 1. rewrite (sys_maxpart _ D HD). apply in_system_run.
    unfold bindST at 1. change (Z.to_nat (31 + 1)) with 32%nat.
    change (current_sector 0) with (-1) in Hrun. rewrite Hrun. cbv beta iota.
    etransitivity; [apply (no_entry0_run v1 CBMDOS_IPE_OK); by rewrite Hs1|by rewrite Hs1].
  - apply contents_iff in HD1 as [HD1 _]. rewrite Hs1 in HD1 |- *.
    by apply (table_on_same (set_images0 im (set_image_mode mo (set_part p1 (sys_state v))))).
  - done.
  - intros k Hk. destruct (Hl k ltac:(lia)) as (e & He & Hat). exists e. split; [|done].
    apply Hent; [lia|done].
Qed.

Lemma entry_at_unique b j e e' : entry_at b j e -> entry_at b j e' -> e = e'.
Proof.
  intros (H1 & H2 & H3) (H1' & H2' & H3'). destruct e as [[??]?], e' as [[??]?]. cbn in *. congruence.
Qed.

(** C20: the partition table of a CMD floppy image survives a write and a read:
    [vdrive_write_partition_table] succeeds and changes neither the selection nor
    the arrays, and reading the table back into arrays [p] of any contents gives
    the type, the first block and the size of every partition 1 to 31 again. *)
Theorem partition_table_roundtrip v image p : system_ok v image -> table_ok (part v) ->
  arrays_ok p -> haspt p = true -> sys_offset p = sys_offset (part v) ->
  exists v1 v2, vdrive_write_partition_table v = Some (0, v1) /\
    part v1 = part v /\ geom v1 = geom v /\
    vdrive_read_partition_table (set_part p v1) = Some (0, v2) /\
    current_offset (part v2) = current_offset p /\
    forall k, 1 <= k <= 31 -> getb (ptype (part v2)) k = getb (ptype (part v)) k /\
      getb (poffset (part v2)) k = getb (poffset (part v)) k /\
      getb (psize (part v2)) k = getb (psize (part v)) k.
Proof.
  intros Hok Htab Ha Hpt Hso.
  destruct (write_table_run v (fun s => Image.sector_data image (sys_track (sys_offset (part v)) s)
      (sys_sector (sys_offset (part v)) s))) as (v1 & D1 & Hw & Hs1 & HD1 & Hst); [by exists image|done|].
  destruct (contents_same v v1) as [Hp1 Hg1]; [done|].
  destruct (read_table_run (set_part p v1) D1) as (v2 & Hr & Hco & _ & _ & _ & Hld).
  { apply (table_on_same v1); [done|done| |by rewrite Hp1|done]. cbn. rewrite Hp1, Hpt.
    symmetry. apply Hok. }
  { done. }
  exists v1, v2. split; [done|]. split; [done|]. split; [done|]. split; [done|]. split; [done|].
  intros k Hk. destruct (Hst k Hk) as (e & (He1 & He2 & He3) & Hat).
  destruct (Hld k Hk) as (e' & (He1' & He2' & He3') & Hat').
  rewrite (entry_at_unique _ _ _ _ Hat' Hat) in *. split; [congruence|]. split; congruence.
Qed.

End table.

(** ** Witnesses *)

(** A blank D1M image with one 1541 partition in the table *)
Definition d1m_part : part_t := with_entry 1 (4, 0, 0x640) (part1 0 true).

Definition d1m_drive : vdrive_t := set_part d1m_part cmd_drive.

Lemma d1m_system_ok : system_ok d1m_drive blank_d1m.
Proof.
  split; [|split; [reflexivity|]| | | |].
  - split; [reflexivity|reflexivity|exact blank_d1m_wf|]. intros H. vm_compute in H. discriminate H.
  - eexists. split; [reflexivity|]. vm_compute. discriminate.
  - apply (bool_decide_eq_true_1 _). vm_compute. reflexivity.
  - reflexivity.
  - vm_compute. discriminate.
  - vm_compute. discriminate.
Defined.


Lemma entry_of_zeros k : 0 <= k < 256 -> entry_of (part1 0 true) k (0, 0, 0).
Proof.
  intros Hk. assert (Hz : getb (zeros 256) k = Some 0).
  { apply getb_Some. split; [lia|]. apply lookup_replicate. split; [done|lia]. }
  by split; [|split].
Qed.

Lemma zeros_arrays_ok : arrays_ok (part1 0 true).
Proof. by repeat split. Qed.

Lemma d1m_table_ok : table_ok d1m_part.
Proof.
  intros k Hk. destruct (with_entry_ok 1 (4, 0, 0x640) (part1 0 true)) as (_ & _ & H1 & Hoth);
    [apply zeros_arrays_ok|lia|].
  destruct (Z.eq_dec k 1) as [->|Hne].
  - exists (4, 0, 0x640). split; [done|]. unfold entry_fits. cbn. lia.
  - exists (0, 0, 0). split; [|unfold entry_fits; cbn; lia]. apply Hoth; [done|].
    apply entry_of_zeros. lia.
Qed.

Lemma partition_table_witness : exists v1 v2,
  vdrive_write_partition_table d1m_drive = Some (0, v1) /\
  vdrive_read_partition_table (set_part (part1 0 true) v1) = Some (0, v2) /\
  getb (ptype (part v2)) 1 = Some 4 /\ getb (psize (part v2)) 1 = Some 0x640.
Proof.
  destruct (partition_table_roundtrip d1m_drive blank_d1m (part1 0 true) d1m_system_ok d1m_table_ok
    zeros_arrays_ok eq_refl eq_refl) as (v1 & v2 & Hw & _ & _ & Hr & _ & Hk).
  exists v1, v2. destruct (Hk 1 ltac:(lia)) as (Ht & _ & Hz). split; [exact Hw|]. split; [exact Hr|].
  split; [rewrite Ht|rewrite Hz]; reflexivity.
Defined.

End PartitionSpec.
