(* ===== verification/PackSpec.v ===== *)
(** * Specification of packing

    [vdrive_pack_parts] closes the gaps between the partitions of a CMD image. A
    move rewrites the table entry of a partition but copies none of its data; the
    loop ends on tables without foreign partitions, and does not on a table whose
    foreign partition is followed directly by another one. *)

From S2P Require Import Prelude Geometry Image VDrive Bam Partition PartitionSpec.
Import Partition PartitionSpec.

Module PackSpec.

Section packing.
Context `{platform : Platform}.

(** ** Reading an area *)

(** Everything but the selection, the access mode and the format stays. *)
Definition only_moved (v v' : vdrive_t) : Prop :=
  exists co m, v' = set_part (set_current_offset co (part v)) (set_image_mode m v).

#[export] Instance only_moved_preorder : PreOrder only_moved.
Proof.
  split.
  - intros v. exists (current_offset (part v)), (image_mode v). by destruct v as [??????[]].
  - intros v1 v2 v3 (co & m & ->) (co' & m' & ->). by exists co', m'.
Qed.

(** The drive while areas are read: any block can be addressed as a sector of
    track 1 of a native partition. *)
Definition scanning (v : vdrive_t) (image : disk_image_t) : Prop :=
  floppy_drive v image /\ image_format (geom v) = VDRIVE_IMAGE_FORMAT_NP /\ 1 <= num_tracks (geom v).

Lemma scanning_moved v v' image : scanning v image -> only_moved v v' -> scanning v' image.
Proof.
  intros (([Hset Himg Hwf Hver] & Hwh & Hty & Hpt) & Hfmt & Htr) (co & m & ->).
  split; [split; [by split|done]|done].
Qed.

Lemma scan_sector v image buf i : scanning v image -> 0 <= i < 256 -> 0 <= current_offset (part v) ->
  2 * current_offset (part v) + i < Geometry.blocks_of (di_type image) -> mlen buf = 256 ->
  exists b, VDrive.vdrive_read_sector buf 1 i v = Some ((CBMDOS_IPE_OK, b), set_image_mode 0 v) /\
    mlen b = 256.
Proof.
  intros (Hfl & Hfmt & Htr) Hi Hco Hb Hbuf.
  destruct (floppy_mapped v image 1 i i Hfl) as (Hmap & Hcov & Hpres); [by right| |lia|lia|lia|].
  - unfold VDrive.log_offset. rewrite Hfmt. eval_tests.
    rewrite (proj2 (Z.ltb_ge _ _)), (proj2 (Z.ltb_ge 255 _)) by lia.
    change (Z.shiftl (1 - 1) 8 + i) with (0 + i). by rewrite u32_small by lia.
  - destruct (whole_read v image buf 1 i _ _ (proj1 Hfl) (proj1 (proj2 Hfl)) Hmap Hcov Hpres Hbuf).
    by eexists.
Qed.

(** The area of [n] blocks of 512 bytes from block [co] is on the disk. *)
Definition on_disk (image : disk_image_t) (co n : Z) : Prop :=
  0 <= co /\ 0 <= n /\ 2 * (co + n) <= Geometry.blocks_of (di_type image).

Lemma scan_chunk n : forall i buf v image, scanning v image -> 0 <= i -> i + Z.of_nat n <= 64 ->
  0 <= current_offset (part v) ->
  2 * current_offset (part v) + i + Z.of_nat n <= Geometry.blocks_of (di_type image) ->
  mlen buf = 16384 ->
  exists buf' m, read_chunk n i 0 buf v = Some ((0, buf'), set_image_mode m v) /\ mlen buf' = 16384.
Proof.
  induction n as [|n IH]; intros i buf v image Hsc Hi Hn Hco Hb Hbuf; cbn [read_chunk].
  { exists buf, (image_mode v). split; [by destruct v|done]. }
  rewrite Z.shiftl_mul_pow2 by lia. change (2 ^ 8) with 256.
  destruct (slice_run buf (i * 256) 256) as (b & Hsl & Hlb); [lia..|].
  destruct (scan_sector v image b i Hsc) as (b' & Hr & Hlb'); [lia..|].
  destruct (splice_run buf (i * 256) b') as (buf1 & Hsp & Hl1); [lia..|].
  unfold bindST at 1, lift at 1. rewrite Hsl. unfold bindST at 1. rewrite Hr.
  unfold bindST at 1, lift at 1. rewrite Hsp. change (negb (CBMDOS_IPE_OK =? 0)) with false. cbv iota.
  destruct (IH (i + 1) buf1 (set_image_mode 0 v) image) as (buf' & m & Hrun & Hl);
    [|lia|lia|done|cbn; lia|lia|].
  { eapply scanning_moved; [done|]. exists (current_offset (part v)), 0. by destruct v as [??????[]]. }
  by exists buf', m.
Qed.

(** Both scans of a move: the area is read, [current_offset] is behind it and
    the counter is used up. *)
Lemma scan_area fuel : forall j buf v image, scanning v image -> j <= 32 * Z.of_nat fuel ->
  on_disk image (current_offset (part v)) j -> mlen buf = 16384 ->
  exists buf' v', read_area fuel j 0 buf v = Some ((0, buf'), v') /\ only_moved v v' /\
    mlen buf' = 16384.
Proof.
  induction fuel as [|fuel IH]; intros j buf v image Hsc Hj (Hco & Hj0 & Hb) Hbuf; cbn [read_area].
  { replace (j =? 0) with true by lia. exists buf, v. split; [done|]. split; [done|done]. }
  destruct (Z.eqb_spec j 0) as [->|Hne].
  { exists buf, v. split; [done|]. split; [done|done]. }
  unfold MOVE_LBA_CHUNKS. assert (Hk : 1 <= Z.min j 32 <= 32 /\ Z.min j 32 <= j) by lia.
  assert (j - Z.min j 32 <= 32 * Z.of_nat fuel) by lia.
  set (k := Z.min j 32) in *. clearbody k.
  destruct (scan_chunk (Z.to_nat (k * 2)) 0 buf v image Hsc) as (buf1 & m & Hr & Hl1); [lia..|].
  destruct (floppy_facts _ (proj1 (proj2 (proj2 (proj1 Hsc))))) as (_ & _ & Hbl).
  set (v1 := set_part (set_current_offset (current_offset (part v) + k) (part v)) (set_image_mode m v)).
  assert (Hm1 : only_moved v v1) by by exists (current_offset (part v) + k), m.
  destruct (IH (j - k) buf1 v1 image) as (buf2 & v2 & Hrun & Hm & Hl2);
    [by eapply scanning_moved|lia|unfold on_disk; cbn; lia|done|].
  exists buf2, v2. split; [|split; [exact (transitivity Hm1 Hm)|done]].
  unfold bindST at 1. rewrite Hr. unfold upd_part, modify, mbind, ST_bind. unfold bindST at 1.
  cbn [part set_image_mode].
  rewrite u32_small by lia. exact Hrun.
Qed.

(** ** A move *)

(** A drive that packs: the image and the other arrays of [v], the partitions
    start at [o]. *)
Definition repositioned (o : mem) (v v' : vdrive_t) : Prop :=
  exists co m f, v' = set_geom (set_image_format f (geom v))
    (set_part (set_current_offset co (set_poffset o (part v))) (set_image_mode m v)).

Lemma repositioned_refl v : repositioned (poffset (part v)) v v.
Proof.
  exists (current_offset (part v)), (image_mode v), (image_format (geom v)).
  by destruct v as [????[]?[]].
Qed.

Lemma repositioned_trans o o' v1 v2 v3 :
  repositioned o v1 v2 -> repositioned o' v2 v3 -> repositioned o' v1 v3.
Proof. intros (co & m & f & ->) (co' & m' & f' & ->). by exists co', m', f'. Qed.

Lemma repositioned_moved o v v1 v2 : repositioned o v v1 -> only_moved v1 v2 -> repositioned o v v2.
Proof. intros (co & m & f & ->) (co' & m' & ->). by exists co', m', f. Qed.

Definition packing_drive (v : vdrive_t) (image : disk_image_t) : Prop :=
  floppy_drive v image /\ 1 <= num_tracks (geom v).

Lemma packing_repositioned o v v' image : packing_drive v image -> repositioned o v v' ->
  packing_drive v' image.
Proof.
  intros (([Hset Himg Hwf Hver] & Hwh & Hty & Hpt) & Htr) (co & m & f & ->).
  split; [split; [by split|done]|done].
Qed.

(** A move succeeds: the table gets the new start, the image is the same. *)
Lemma move_run v image best off size target : packing_drive v image ->
  getb (poffset (part v)) best = Some off -> getb (psize (part v)) best = Some size ->
  on_disk image off size -> on_disk image target size ->
  exists v', move_partition best target v = Some (0, v') /\
    repositioned (<[Z.to_nat best := target]> (poffset (part v))) v v'.
Proof.
  intros [Hfl Htr] Hoff Hsize Hsrc Hdst. pose proof (getb_lt _ _ _ Hoff) as Hbest.
  destruct (floppy_facts _ (proj1 (proj2 (proj2 Hfl)))) as (_ & _ & Hbl).
  assert (Hs : s32 size = size) by (apply s32_small; unfold on_disk, INT32_MAX in *; lia).
  assert (Ht : u32 target = target) by (apply u32_small; unfold on_disk in *; lia).
  unfold move_partition, upd_geom, upd_part, modify, mbind, ST_bind, VDrive.get_part.
  set (buf := lib_malloc _). assert (Hbuf : mlen buf = 16384) by done. clearbody buf.
  set (v1 := set_part (set_current_offset off (part v))
    (set_geom (set_image_format VDRIVE_IMAGE_FORMAT_NP (geom v)) v)).
  assert (Hsc1 : scanning v1 image).
  { destruct Hfl as ([Hset Himg Hwf Hver] & Hwh & Hty & Hpt).
    split; [split; [by split|done]|done]. }
  destruct (scan_area (S (Z.to_nat size)) size buf v1 image Hsc1) as (b1 & v2 & Hr1 & Hm1 & Hl1);
    [lia|done|done|].
  set (v3 := set_part (set_current_offset target (part v2)) v2).
  assert (Hm2 : only_moved v1 v3).
  { etrans; [exact Hm1|]. exists target, (image_mode v2).
    subst v3. by destruct v2 as [??????[]]. }
  destruct (scan_area (S (Z.to_nat size)) size b1 v3 image) as (b2 & v4 & Hr2 & Hm3 & Hl2);
    [by eapply scanning_moved|lia|done|done|].
  assert (Hm : only_moved v1 v4) by exact (transitivity Hm2 Hm3).
  exists (set_part (set_poffset (<[Z.to_nat best := target]> (poffset (part v))) (part v4)) v4).
  unfold bindST, state, lift. cbn [part geom set_geom set_part poffset psize set_current_offset].
  rewrite Hoff. cbn [part geom set_geom set_part poffset psize set_current_offset].
  rewrite Hsize. fold v1. change CBMDOS_IPE_OK with 0. rewrite Hs, Hr1. cbv beta iota. cbn [negb Z.eqb].
  rewrite Ht. fold v3. assert (psize (part v2) = psize (part v)) as -> by by destruct Hm1 as (? & ? & ->).
  assert (Hpo : poffset (part v4) = poffset (part v)) by by destruct Hm as (? & ? & ->).
  rewrite Hsize, Hs, Hr2. cbv beta iota. cbn [negb Z.eqb copy_area]. cbv beta iota.
  split.
  - cbn [mret ST_ret]. rewrite VDrive.put_part_run by by rewrite Hpo. by rewrite Hpo.
  - destruct Hm as (co & m & ->). by exists co, m, VDRIVE_IMAGE_FORMAT_NP.
Qed.

(** ** Choosing the next partition *)

(** Partition [k] is a CMD partition (types 1 to 6) of [size] blocks from [off]. *)
Definition cmd (v : vdrive_t) (k off size : Z) : Prop :=
  exists ty, 1 <= k <= 31 /\ entry_of (part v) k (ty, off, size) /\ 0 < ty < 7.

(** A table without foreign partitions; every CMD partition has blocks and lies
    on the disk. *)
Definition pack_table (v : vdrive_t) (image : disk_image_t) : Prop :=
  forall k, 1 <= k <= 31 -> exists ty off size, entry_of (part v) k (ty, off, size) /\
    0 <= ty /\ ty <> 7 /\ (ty < 7 -> 0 < ty -> 0 < size /\ on_disk image off size).

Lemma cmd_fun v k off size off' size' : cmd v k off size -> cmd v k off' size' ->
  off' = off /\ size' = size.
Proof.
  intros (ty & _ & (_ & H1 & H2) & _) (ty' & _ & (_ & H1' & H2') & _). cbn in *. split; congruence.
Qed.

Lemma cmd_on_disk v image k off size : pack_table v image -> cmd v k off size ->
  0 < size /\ on_disk image off size.
Proof.
  intros Htab (ty & Hk & (H1 & H2 & H3) & Hty).
  destruct (Htab k Hk) as (ty' & off' & size' & (H1' & H2' & H3') & _ & _ & Hd). cbn in *.
  simplify_eq. apply Hd; lia.
Qed.

(** Partition [i] is considered for [target]. *)
Definition candidate (v : vdrive_t) (target i : Z) : bool :=
  match getb (ptype (part v)) i, getb (poffset (part v)) i with
  | Some ty, Some off => (0 <? ty) && (ty <? 7) && (target <=? off)
  | _, _ => false
  end.

Lemma candidate_cmd v image t i : pack_table v image -> 1 <= i <= 31 ->
  candidate v t i = true <-> exists off size, cmd v i off size /\ t <= off.
Proof.
  intros Htab Hi. destruct (Htab i Hi) as (ty & off & size & He & _). unfold candidate.
  pose proof He as (Ht & Ho & Hz). cbn in Ht, Ho, Hz. rewrite Ht, Ho.
  rewrite !andb_true_iff, !Z.ltb_lt, Z.leb_le. split.
  - intros [[? ?] ?]. exists off, size. split; [by exists ty|done].
  - intros (off' & size' & (ty' & _ & (Ht' & Ho' & _) & Hty) & Hle). cbn in *. simplify_eq. done.
Qed.

Lemma no_foreign n : forall v image t i j, pack_table v image -> 1 <= i <= 31 -> 1 <= j ->
  j + Z.of_nat n <= 32 -> blocking_from n v t i j = Some 0.
Proof.
  induction n as [|n IH]; intros v image t i j Htab Hi Hj Hn; cbn [blocking_from]; [done|].
  destruct (Htab j ltac:(lia)) as (ty & off & size & (Ht & _) & _ & Hne & _).
  unfold foreign_in at 1. cbn in Ht. rewrite Ht. cbn [mbind option_bind].
  rewrite (proj2 (Z.eqb_neq ty 7)) by done. cbn [negb mbind option_bind].
  apply (IH _ image); (done || lia).
Qed.

(** No CMD partition from number [i] on starts between [t] and [p]. *)
Definition none_below (v : vdrive_t) (t i p : Z) : Prop :=
  forall k off size, i <= k <= 31 -> cmd v k off size -> t <= off -> p <= off.

Lemma none_below_extend v t i p : none_below v t (i + 1) p ->
  (forall off size, cmd v i off size -> t <= off -> p <= off) -> none_below v t i p.
Proof.
  intros Hmin Hi k off size Hk. destruct (Z.eq_dec k i) as [->|Hne]; [apply Hi|].
  apply Hmin. lia.
Qed.

(** The scan finds the candidate that starts first. *)
Lemma nearest_from_run n : forall v image t i best bestpos, pack_table v image ->
  0 <= t < 2 ^ 32 -> 1 <= i -> i + Z.of_nat n = 32 -> 0 <= bestpos <= INT32_MAX ->
  Geometry.blocks_of (di_type image) <= INT32_MAX ->
  exists b p, nearest_from n v 31 t i best bestpos = Some (b, p, 0) /\ 0 <= p <= bestpos /\
    none_below v t i p /\
    (b = best /\ p = bestpos \/ i <= b <= 31 /\ p < bestpos /\ t <= p /\ exists size, cmd v b p size).
Proof.
  induction n as [|n IH]; intros v image t i best bestpos Htab Ht Hi Hn Hbp Hbl; cbn [nearest_from].
  { exists best, bestpos. split; [done|]. split; [lia|]. split; [intros k ?? Hk; lia|by left]. }
  destruct (Htab i ltac:(lia)) as (ty & off & size & He & Hty0 & Hne & Hd).
  pose proof He as (Hty & Hoff & _). cbn in Hty, Hoff.
  rewrite Hty. cbn [mbind option_bind]. rewrite Hoff.
  destruct (decide (0 < ty < 7)) as [Hcmd|Hcmd].
  - replace ((0 <? ty) && (ty <? 7)) with true by lia. cbn [mbind option_bind].
    destruct (Hd ltac:(lia) ltac:(lia)) as [Hsz (Ho0 & _ & Hend)].
    rewrite (u32_small t), (u32_small bestpos) by (unfold INT32_MAX in *; lia).
    assert (Hi_cmd : cmd v i off size) by (exists ty; split; [lia|done]).
    destruct ((t <=? off) && (off <? bestpos)) eqn:Hnear.
    + change (Z.to_nat 31) with 31%nat. rewrite (no_foreign 31 v image) by (done || lia).
      cbn [mbind option_bind Z.eqb]. rewrite s32_small by lia.
      destruct (IH v image t (i + 1) i off Htab) as (b & p & Hr & Hp & Hmin & Hres); [lia..|].
      exists b, p. split; [done|]. split; [lia|]. split.
      { apply none_below_extend; [done|]. intros off' size' Hc Hle.
        destruct (cmd_fun _ _ _ _ _ _ Hi_cmd Hc) as [-> _]. lia. }
      right. destruct Hres as [[-> ->]|(? & ? & ? & ?)]; [|split; [lia|split; [lia|done]]].
      split; [lia|]. split; [lia|]. split; [lia|]. by exists size.
    + destruct (IH v image t (i + 1) best bestpos Htab) as (b & p & Hr & Hp & Hmin & Hres); [lia..|].
      exists b, p. split; [done|]. split; [lia|]. split.
      { apply none_below_extend; [done|]. intros off' size' Hc Hle.
        destruct (cmd_fun _ _ _ _ _ _ Hi_cmd Hc) as [-> _]. lia. }
      destruct Hres as [?|(? & ? & ? & ?)]; [by left|right]. split; [lia|done].
  - replace ((0 <? ty) && (ty <? 7)) with false by lia. cbn [mbind option_bind].
    destruct (IH v image t (i + 1) best bestpos Htab) as (b & p & Hr & Hp & Hmin & Hres); [lia..|].
    exists b, p. split; [done|]. split; [lia|]. split.
    { apply none_below_extend; [done|]. intros off' size' Hc Hle.
      destruct Hc as (ty' & _ & (Hty' & _) & ?). cbn in Hty'. simplify_eq. }
    destruct Hres as [?|(? & ? & ? & ?)]; [by left|right]. split; [lia|done].
Qed.

(** ** The loop *)

(** The partition starts at 0 or at the end of another one. *)
Definition follows (v : vdrive_t) (off : Z) : Prop :=
  off = 0 \/ exists j o size, cmd v j o size /\ o + size = off.

Definition disjoint_parts (v : vdrive_t) : Prop :=
  forall k off size k' off' size', cmd v k off size -> cmd v k' off' size' -> k <> k' ->
    off + size <= off' \/ off' + size' <= off.

(** The partitions below [t] are packed, and end at [t]. *)
Record pack_inv (v : vdrive_t) (image : disk_image_t) (t : Z) : Prop := {
  pi_table : pack_table v image;
  pi_pos : 0 <= t;
  pi_disjoint : disjoint_parts v;
  pi_below : forall k off size, cmd v k off size -> off < t -> off + size <= t /\ follows v off;
  pi_here : follows v t
}.

(** In [v1] partition [b] starts at [t], everything else is as in [v]. *)
Definition moved_to (v v1 : vdrive_t) (b t size : Z) : Prop :=
  forall k off s, cmd v1 k off s <-> k = b /\ off = t /\ s = size \/ k <> b /\ cmd v k off s.

Lemma follows_moved v v1 image b p t size off : pack_inv v image t -> cmd v b p size -> t <= p ->
  moved_to v v1 b t size -> off <= t -> follows v off -> follows v1 off.
Proof.
  intros Hinv Hb Hp Hmv Hoff [->|(j & o & s & Hj & <-)]; [by left|right].
  destruct (cmd_on_disk _ _ _ _ _ (pi_table _ _ _ Hinv) Hj) as [Hs _].
  exists j, o, s. split; [|done]. apply Hmv. right. split; [|done]. intros ->.
  destruct (cmd_fun _ _ _ _ _ _ Hb Hj) as [-> _]. lia.
Qed.

(** One partition is put in place. *)
Lemma advance v v1 image b p t size : pack_inv v image t -> cmd v b p size -> t <= p ->
  none_below v t 1 p -> moved_to v v1 b t size -> pack_table v1 image ->
  pack_inv v1 image (t + size).
Proof.
  intros Hinv Hb Hp Hmin Hmv Htab1.
  destruct (cmd_on_disk _ _ _ _ _ (pi_table _ _ _ Hinv) Hb) as [Hs _].
  pose proof (pi_pos _ _ _ Hinv) as Ht.
  assert (Hb1 : cmd v1 b t size) by (apply Hmv; by left).
  assert (Hother : forall k off s, k <> b -> cmd v k off s -> off + s <= t \/ t + size <= off).
  { intros k off s Hk Hc. destruct (Z.lt_ge_cases off t) as [Hlt|Hge].
    - left. by apply (pi_below _ _ _ Hinv k off s).
    - right. destruct (cmd_on_disk _ _ _ _ _ (pi_table _ _ _ Hinv) Hc) as [Hs' _].
      destruct (pi_disjoint _ _ _ Hinv _ _ _ _ _ _ Hb Hc ltac:(done)); [lia|].
      destruct Hc as (ty & Hk1 & Hrest). assert (p <= off); [|lia].
      apply (Hmin k off s); [lia|by exists ty|done]. }
  split; [done|lia| | |].
  - intros k off s k' off' s' [(-> & -> & ->)|[Hk Hc]]%Hmv [(-> & -> & ->)|[Hk' Hc']]%Hmv Hne; [done| | |].
    + destruct (Hother _ _ _ Hk' Hc'); [right|left]; lia.
    + destruct (Hother _ _ _ Hk Hc); [left|right]; lia.
    + by apply (pi_disjoint _ _ _ Hinv k off s k' off' s').
  - intros k off s [(-> & -> & ->)|[Hk Hc]]%Hmv Hlt.
    { split; [lia|]. eapply follows_moved; [exact Hinv|exact Hb|done|done|lia|apply Hinv]. }
    destruct (cmd_on_disk _ _ _ _ _ (pi_table _ _ _ Hinv) Hc) as [Hs' _].
    destruct (Hother _ _ _ Hk Hc); [|lia]. split; [lia|].
    eapply follows_moved; [exact Hinv|exact Hb|done|done|lia|].
    apply (pi_below _ _ _ Hinv k off s); [done|lia].
  - right. by exists b, t, size.
Qed.

Definition candidates (v : vdrive_t) (t : Z) : nat :=
  length (List.filter (candidate v t) (seqZ 1 31)).

Lemma candidates_less v v1 image b p t size : pack_table v image -> pack_table v1 image ->
  cmd v b p size -> t <= p -> 0 < size -> moved_to v v1 b t size ->
  (candidates v1 (t + size) < candidates v t)%nat.
Proof.
  intros Htab Htab1 Hb Hp Hs Hmv. pose proof Hb as (ty & Hk & _).
  apply (filter_length_lt _ _ _ b).
  - intros k Hk'%elem_of_seqZ. rewrite (candidate_cmd v1 image), (candidate_cmd v image) by (done || lia).
    intros (off & s & [(-> & -> & ->)|[_ Hc]]%Hmv & Hle); [lia|]. exists off, s. split; [done|lia].
  - apply elem_of_seqZ. lia.
  - apply (candidate_cmd v image); [done|lia|]. by exists p, size.
  - apply not_true_is_false. rewrite (candidate_cmd v1 image) by done.
    intros (off & s & [(_ & -> & ->)|[Hne _]]%Hmv & Hle); [lia|done].
Qed.

(** What a move does to the table. *)
Lemma moved_entry v v1 b t k e : repositioned (<[Z.to_nat b := t]> (poffset (part v))) v v1 ->
  1 <= b <= 31 -> is_Some (getb (poffset (part v)) b) ->
  entry_of (part v1) k e <->
    (if k =? b then exists off, entry_of (part v) k (e.1.1, off, e.2) /\ e.1.2 = t
     else entry_of (part v) k e).
Proof.
  intros (co & m & f & ->) Hb [off Hoff]. unfold entry_of. cbn.
  pose proof (getb_lt _ _ _ Hoff). rewrite getb_insert by lia.
  destruct (Z.eqb_spec k b) as [->|Hne]; [|done]. split.
  - intros (H1 & [= <-] & H3). by exists off.
  - by intros (off' & (H1 & H2 & H3) & <-).
Qed.

Lemma moved_run_table v v1 image b p t size : pack_table v image -> cmd v b p size ->
  on_disk image t size -> repositioned (<[Z.to_nat b := t]> (poffset (part v))) v v1 ->
  moved_to v v1 b t size /\ pack_table v1 image.
Proof.
  intros Htab Hb Hd Hrep. pose proof Hb as (ty & Hk & He & Hty).
  pose proof (cmd_on_disk _ _ _ _ _ Htab Hb) as [Hs _].
  assert (Hent := moved_entry v v1 b t). destruct He as (He1 & He2 & He3). cbn in He1, He2, He3.
  assert (Hsome : is_Some (getb (poffset (part v)) b)) by by eexists. split.
  - intros k off s. split.
    + intros (ty' & Hk' & He%Hent & Hty'); [|done..]. destruct (Z.eqb_spec k b) as [->|Hne].
      * left. destruct He as (o & (H1 & H2 & H3) & ?). cbn in *. simplify_eq. done.
      * right. split; [done|]. by exists ty'.
    + intros [(-> & -> & ->)|[Hne (ty' & Hk' & He & Hty')]].
      * exists ty. split; [done|]. split; [|done]. apply Hent; [done..|].
        rewrite Z.eqb_refl. by exists p.
      * exists ty'. split; [done|]. split; [|done]. apply Hent; [done..|].
        by rewrite (proj2 (Z.eqb_neq _ _) Hne).
  - intros k Hk'. destruct (Htab k Hk') as (ty' & off & s & He & Hty0 & Hne7 & Hin).
    destruct (Z.eq_dec k b) as [->|Hne].
    + exists ty, t, size. split; [|split; [lia|split; [lia|done]]]. apply Hent; [done..|].
      rewrite Z.eqb_refl. by exists p.
    + exists ty', off, s. split; [|done]. apply Hent; [done..|].
      by rewrite (proj2 (Z.eqb_neq _ _) Hne).
Qed.

Lemma packed_end v image t : pack_inv v image t -> (forall k off size, cmd v k off size -> off < t) ->
  forall k off size, cmd v k off size -> follows v off.
Proof. intros Hinv Hend k off size Hc. by apply (pi_below _ _ _ Hinv k off size); [|eapply Hend]. Qed.

Lemma moved_to_refl v b t size : cmd v b t size -> moved_to v v b t size.
Proof.
  intros Hb k off s. split; [|intros [(-> & -> & ->)|[_ Hc]]; done].
  intros Hc. destruct (Z.eq_dec k b) as [->|Hne]; [left|by right].
  by destruct (cmd_fun _ _ _ _ _ _ Hb Hc) as [-> ->].
Qed.

Lemma pack_loop_run fuel : forall v image lowpos len, packing_drive v image ->
  pack_inv v image (lowpos + len) -> (candidates v (lowpos + len) < fuel)%nat ->
  lowpos + len <= Geometry.blocks_of (di_type image) ->
  exists v' o, pack_loop fuel 31 lowpos len v = Some (tt, v') /\ repositioned o v v' /\
    pack_table v' image /\ disjoint_parts v' /\
    (forall k off size, cmd v' k off size -> follows v' off).
Proof.
  induction fuel as [|fuel IH]; intros v image lowpos len Hdr Hinv Hfuel Ht; [lia|]. cbn [pack_loop].
  destruct (floppy_facts _ (proj1 (proj2 (proj2 (proj1 Hdr))))) as (_ & _ & Hbl).
  pose proof (pi_table _ _ _ Hinv) as Htab. pose proof (pi_pos _ _ _ Hinv) as Hpos.
  set (t := lowpos + len) in *.
  destruct (nearest_from_run 31 v image t 1 0 INT32_MAX Htab) as (b & p & Hnear & Hp & Hmin & Hres);
    [lia|lia|lia|unfold INT32_MAX; lia|unfold INT32_MAX; lia|].
  unfold bindST at 1, state. unfold bindST at 1, lift at 1. unfold nearest. change (Z.to_nat 31) with 31%nat.
  rewrite Hnear. destruct Hres as [[-> ->]|(Hb & Hlt & Htp & size & Hc)].
  { rewrite Z.eqb_refl. cbn [Z.eqb]. exists v, (poffset (part v)). split; [done|].
    split; [apply repositioned_refl|]. split; [done|]. split; [apply Hinv|].
    apply (packed_end _ image t); [done|]. intros k off size Hc.
    destruct (Z.lt_ge_cases off t); [done|]. pose proof Hc as (ty & Hk & _).
    specialize (Hmin k off size Hk Hc ltac:(lia)). pose proof (cmd_on_disk _ _ _ _ _ Htab Hc) as [_ (? & ? & ?)].
    unfold INT32_MAX in Hmin. lia. }
  rewrite (proj2 (Z.eqb_neq p INT32_MAX)) by lia.
  pose proof (cmd_on_disk _ _ _ _ _ Htab Hc) as [Hs Hd].
  assert (Hdt : on_disk image t size) by (unfold on_disk in *; lia).
  assert (Hsz : getb (psize (part v)) b = Some size /\ getb (poffset (part v)) b = Some p)
    by by destruct Hc as (ty & _ & (_ & H2 & H3) & _). destruct Hsz as [Hsz Hoff].
  assert (Hs32 : s32 size = size) by (apply s32_small; unfold on_disk, INT32_MAX in *; lia).
  assert (Hadv : forall v1, moved_to v v1 b t size -> pack_table v1 image ->
    pack_inv v1 image (t + size) /\ (candidates v1 (t + size) < fuel)%nat).
  { intros v1 Hmv Htab1. split; [by eapply advance|].
    pose proof (candidates_less v v1 image b p t size Htab Htab1 Hc Htp Hs Hmv). lia. }
  destruct (Z.eqb_spec t p) as [Heq|Hne].
  - destruct (Hadv v) as [Hinv1 Hf1]; [by apply moved_to_refl; rewrite Heq|done|].
    unfold bindST at 1, VDrive.get_part, bindST, state, lift. rewrite Hsz, Hs32, <- Heq.
    apply (IH v image t size); [done|done|done|unfold on_disk in *; lia].
  - destruct (move_run v image b p size t) as (v1 & Hmove & Hrep); [done..|].
    destruct (moved_run_table v v1 image b p t size) as [Hmv Htab1]; [done..|].
    destruct (Hadv v1) as [Hinv1 Hf1]; [done..|].
    destruct (IH v1 image t size) as (v2 & o & Hrun & Hrep2 & Hrest);
      [by eapply packing_repositioned|done|done|unfold on_disk in *; lia|].
    exists v2, o. split; [|split; [by eapply repositioned_trans|done]].
    unfold bindST at 1. rewrite Hmove. cbn [negb Z.eqb].
    assert (Hc1 : cmd v1 b t size) by (apply Hmv; by left).
    destruct Hc1 as (ty & _ & (_ & H2 & H3) & _). cbn in H2, H3.
    unfold VDrive.get_part, bindST, state, lift. rewrite H2, H3, Hs32, s32_small; [done|].
    unfold on_disk, INT32_MAX in *. lia.
Qed.

(** ** Foreign partitions *)

(** Partition [j] is the only foreign one; it ends at block [t]. *)
Definition foreign_end (v : vdrive_t) (image : disk_image_t) (j t : Z) : Prop :=
  (exists off size, 1 <= j <= 31 /\ entry_of (part v) j (7, off, size) /\ off + size = t /\
     on_disk image off size) /\
  forall k, 1 <= k <= 31 -> k <> j -> exists ty off size, entry_of (part v) k (ty, off, size) /\
    0 <= ty /\ ty <> 7 /\ (ty < 7 -> 0 < ty -> 0 < size /\ on_disk image off size).

Lemma foreign_found n : forall v image j t i k size, foreign_end v image j t ->
  Geometry.blocks_of (di_type image) <= INT32_MAX ->
  getb (psize (part v)) i = Some size -> 0 < size -> t + size <= INT32_MAX -> 1 <= k ->
  k <= j < k + Z.of_nat n -> k + Z.of_nat n <= 32 -> blocking_from n v t i k = Some j.
Proof.
  induction n as [|n IH]; intros v image j t i k size Hfe Hbl Hsz Hs Ht Hk Hjk Hn; [lia|].
  pose proof Hfe as [Hj Hoth].
  cbn [blocking_from]. destruct (Z.eq_dec k j) as [->|Hne].
  - destruct Hj as (off & fsize & Hj & (H1 & H2 & H3) & Hend & (Ho & Hf & Hd)). cbn in H1, H2, H3.
    unfold foreign_in. rewrite H1. cbn [mbind option_bind Z.eqb Pos.eqb negb].
    rewrite H2, Hsz, H3. cbn [mbind option_bind]. unfold INT32_MAX in *.
    rewrite !u32_small by lia.
    destruct ((t <=? off) && (off <? t + size)); cbn [mbind option_bind]; [done|].
    by replace ((t <=? off + fsize) && (off + fsize <? t + size)) with true by lia.
  - destruct (Hoth k) as (ty & off & ksize & (H1 & _) & _ & Hne7 & _); [lia|done|]. cbn in H1.
    unfold foreign_in at 1. rewrite H1. cbn [mbind option_bind].
    rewrite (proj2 (Z.eqb_neq ty 7)) by done. cbn [negb mbind option_bind].
    apply (IH v image j t i (k + 1) size); (done || lia).
Qed.

(** The scan stops at the first partition behind the foreign one. *)
Lemma foreign_blocks n : forall v image j t i, foreign_end v image j t ->
  Geometry.blocks_of (di_type image) <= 2 ^ 20 -> 1 <= i -> i + Z.of_nat n = 32 ->
  (exists k off size, i <= k /\ cmd v k off size /\ t <= off) ->
  nearest_from n v 31 t i 0 INT32_MAX = Some (0, INT32_MAX, j).
Proof.
  induction n as [|n IH]; intros v image j t i Hf Hbl Hi Hn (k & off & size & Hk & Hc & Hle).
  { destruct Hc as (ty & ? & _). lia. }
  pose proof Hf as [(foff & fsize & Hj & (F1 & F2 & F3) & Hend & (Ho & Hfs & Hfd)) Hoth].
  cbn [nearest_from]. destruct (Z.eq_dec i j) as [->|Hne].
  { cbn in F1. rewrite F1. cbn [mbind option_bind Z.ltb Z.compare Pos.compare Pos.compare_cont andb].
    apply (IH v image); [done|done|lia|lia|]. exists k, off, size. split; [|done].
    assert (k <> j); [|lia]. intros ->. destruct Hc as (ty & _ & (H1 & _) & Hty). cbn in H1.
    simplify_eq. lia. }
  destruct (Hoth i) as (ty & ioff & isize & (H1 & H2 & H3) & Hty0 & Hty7 & Hd); [lia|done|].
  cbn in H1, H2, H3. rewrite H1. cbn [mbind option_bind].
  destruct (decide (0 < ty < 7 /\ t <= ioff)) as [[Hty Hti]|Hno].
  - replace ((0 <? ty) && (ty <? 7)) with true by lia. rewrite H2. cbn [mbind option_bind].
    destruct (Hd ltac:(lia) ltac:(lia)) as [His (Hio & _ & Hid)].
    unfold INT32_MAX in *. rewrite (u32_small t), (u32_small 2147483647) by lia.
    replace ((t <=? ioff) && (ioff <? 2147483647)) with true by lia.
    change (Z.to_nat 31) with 31%nat.
    rewrite (foreign_found 31 v image j t i 1 isize); try (done || unfold INT32_MAX; lia).
    cbn [mbind option_bind]. by rewrite (proj2 (Z.eqb_neq j 0)) by lia.
  - assert (Hnext : nearest_from n v 31 t (i + 1) 0 INT32_MAX = Some (0, INT32_MAX, j)).
    { apply (IH v image); [done|done|lia|lia|]. exists k, off, size. split; [|done].
      assert (k <> i); [|lia]. intros ->. destruct Hc as (ty' & _ & (H1' & H2' & _) & Hty').
      cbn in H1', H2'. simplify_eq. by apply Hno. }
    destruct ((0 <? ty) && (ty <? 7)) eqn:Hty; cbn [mbind option_bind]; [|done].
    rewrite H2. cbn [mbind option_bind]. destruct (Hd ltac:(lia) ltac:(lia)) as [_ (Hio & _ & _)].
    rewrite (u32_small t) by lia. by replace (t <=? ioff) with false by lia.
Qed.

(** ** Properties *)

(** C22: packing the partitions of a CMD floppy disk (D1M, D2M, D4M, whose table has 31 entries) ends
    and closes all gaps: for a table without foreign partitions
    whose partitions lie on the disk and do not overlap, 32 rounds are enough, and
    then every partition starts at block 0 or where another one ends, none
    overlap, and no type or size has changed. *)
Theorem pack_closes_gaps v image : packing_drive v image -> pack_table v image ->
  disjoint_parts v ->
  exists v' o, pack_loop 32 31 (-1) 1 v = Some (tt, v') /\ repositioned o v v' /\
    disjoint_parts v' /\ (forall k off size, cmd v' k off size -> follows v' off).
Proof.
  intros Hdr Htab Hdis. destruct (pack_loop_run 32 v image (-1) 1 Hdr) as (v' & o & H & Hr & _ & Hrest).
  - split; [done|lia|done| |by left].
    intros k off size Hc Hlt. destruct (cmd_on_disk _ _ _ _ _ Htab Hc) as [_ [? _]]. lia.
  - pose proof (filter_length_le (candidate v (-1 + 1)) (fun _ => true) (seqZ 1 31) ltac:(done)) as Hl.
    unfold candidates. apply Nat.lt_succ_r. etransitivity; [exact Hl|]. by vm_compute.
  - destruct (floppy_facts _ (proj1 (proj2 (proj2 (proj1 Hdr))))) as (_ & _ & _).
    destruct (proj1 Hdr) as ([_ _ Hwf _] & _ & Hty & _). unfold floppy_types in Hty.
    repeat (apply elem_of_cons in Hty as [->|Hty]; [vm_compute; discriminate|]).
    by apply not_elem_of_nil in Hty.
  - by exists v', o.
Qed.

(** Moving a partition copies nothing: the move succeeds and the table then
    has the new start, but the image is as before, so the partition now shows the
    old contents of its new place. (The copy loop reuses the counter that the scan
    of the target area has counted down to 0.) *)
Theorem move_copies_nothing v image best off size target : packing_drive v image ->
  getb (poffset (part v)) best = Some off -> getb (psize (part v)) best = Some size ->
  on_disk image off size -> on_disk image target size ->
  exists v', move_partition best target v = Some (0, v') /\ images0 v' = images0 v /\
    getb (poffset (part v')) best = Some target.
Proof.
  intros Hdr Hoff Hsz Hd Hdt. pose proof (getb_lt _ _ _ Hoff).
  destruct (move_run v image best off size target) as (v' & Hrun & co & m & f & ->); [done..|].
  eexists. split; [exact Hrun|]. split; [done|]. cbn. by rewrite getb_insert, Z.eqb_refl.
Qed.

(** C40: packing never ends once it has come to the end of a foreign partition
    that has a partition behind it: the foreign partition then blocks the move it
    has just made room for, whatever number of rounds is allowed. *)
Theorem pack_foreign_diverges fuel v image j off size : foreign_end v image j (off + size) ->
  di_type image ∈ floppy_types -> 0 <= off -> 0 <= size ->
  getb (poffset (part v)) j = Some off -> getb (psize (part v)) j = Some size ->
  (exists k o s, cmd v k o s /\ off + size <= o) ->
  pack_loop fuel 31 off size v = None.
Proof.
  intros Hf Hty Ho Hs Hoff Hsz (k & o & s & Hc & Hle). destruct (floppy_facts _ Hty) as (_ & _ & Hbl).
  induction fuel as [|fuel IH]; cbn [pack_loop]; [done|].
  pose proof Hf as [(o' & s' & Hj & _ & Hend & (? & ? & ?)) _].
  unfold bindST at 1, state. unfold bindST at 1, lift at 1, nearest. change (Z.to_nat 31) with 31%nat.
  rewrite (foreign_blocks 31 v image j); [|done|lia|lia|lia|].
  - rewrite Z.eqb_refl, (proj2 (Z.eqb_neq j 0)) by lia.
    unfold bindST, VDrive.get_part, bindST, state, lift. rewrite Hoff, Hsz.
    rewrite !s32_small by (unfold INT32_MAX; lia). exact IH.
  - exists k, o, s. split; [|done]. destruct Hc as (ty & ? & _). lia.
Qed.

End packing.

(** ** Witnesses *)

(** A blank D1M image with two partitions in the table *)
Definition two_parts (e1 e2 : Z * Z * Z) : vdrive_t :=
  set_part (with_entry 2 e2 (with_entry 1 e1 (part1 0 true))) cmd_drive.

Lemma two_parts_entries e1 e2 k : 1 <= k <= 31 -> entry_of (part (two_parts e1 e2)) k
  (if k =? 1 then e1 else if k =? 2 then e2 else (0, 0, 0)).
Proof.
  intros Hk. destruct (with_entry_ok 1 e1 (part1 0 true)) as (Ha & _ & H1 & Hoth1);
    [apply zeros_arrays_ok|lia|].
  destruct (with_entry_ok 2 e2 _ Ha) as (_ & _ & H2 & Hoth2); [lia|].
  destruct (Z.eqb_spec k 2) as [->|Hk2]; [exact H2|]. apply Hoth2; [done|].
  destruct (Z.eqb_spec k 1) as [->|Hk1]; [exact H1|]. apply Hoth1; [done|].
  apply entry_of_zeros. lia.
Qed.

Lemma two_parts_cmd e1 e2 k off size : cmd (two_parts e1 e2) k off size ->
  k = 1 /\ (e1.1.2, e1.2) = (off, size) /\ 0 < e1.1.1 < 7 \/
  k = 2 /\ (e2.1.2, e2.2) = (off, size) /\ 0 < e2.1.1 < 7.
Proof.
  intros (ty & Hk & (H1 & H2 & H3) & Hty). destruct (two_parts_entries e1 e2 k Hk) as (H1' & H2' & H3').
  rewrite H1 in H1'. rewrite H2 in H2'. rewrite H3 in H3'. cbn in H1', H2', H3'.
  destruct (Z.eqb_spec k 1) as [->|]; [left; split; [done|]; split; congruence|].
  destruct (Z.eqb_spec k 2) as [->|]; [right; split; [done|]; split; congruence|].
  cbn in H1'. injection H1' as ->. lia.
Qed.

(** A gap of 100 blocks before two partitions of 400 blocks *)
Definition gap_drive : vdrive_t := two_parts (4, 100, 400) (1, 600, 400).

(** A foreign partition of 20 blocks, and a partition directly behind it *)
Definition foreign_drive : vdrive_t := two_parts (7, 10, 20) (4, 30, 400).

Lemma two_parts_drive e1 e2 : packing_drive (two_parts e1 e2) blank_d1m.
Proof.
  destruct d1m_system_ok as [[? ? ? ?] Hwh Hty ? ? ?]. split; [|discriminate].
  split; [split; [reflexivity|reflexivity|exact blank_d1m_wf|discriminate]|]. by split.
Qed.

Lemma gap_table : pack_table gap_drive blank_d1m.
Proof.
  intros k Hk. pose proof (two_parts_entries (4, 100, 400) (1, 600, 400) k Hk) as He.
  destruct (k =? 1); [|destruct (k =? 2)]; do 3 eexists; (split; [exact He|]).
  all: split; [lia|]; split; [lia|]; unfold on_disk;
    change (Geometry.blocks_of (di_type blank_d1m)) with 3240; lia.
Qed.

Lemma gap_cmd k off size : cmd gap_drive k off size ->
  k = 1 /\ off = 100 /\ size = 400 \/ k = 2 /\ off = 600 /\ size = 400.
Proof.
  unfold gap_drive. intros [(Hk & Heq & _)|(Hk & Heq & _)]%two_parts_cmd; cbn [fst snd] in Heq.
  - injection Heq as <- <-. left. split; [exact Hk|split; reflexivity].
  - injection Heq as <- <-. right. split; [exact Hk|split; reflexivity].
Qed.

Lemma gap_disjoint : disjoint_parts gap_drive.
Proof. intros k off size k' off' size' H1%gap_cmd H2%gap_cmd Hne. lia. Qed.

Lemma foreign_drive_end : foreign_end foreign_drive blank_d1m 1 30.
Proof.
  split.
  - exists 10, 20. split; [lia|]. split; [exact (two_parts_entries (7, 10, 20) (4, 30, 400) 1 ltac:(lia))|].
    split; [done|]. unfold on_disk. vm_compute. split_and!; discriminate.
  - intros k Hk Hne. pose proof (two_parts_entries (7, 10, 20) (4, 30, 400) k Hk) as He.
    rewrite (proj2 (Z.eqb_neq k 1)) in He by done.
    destruct (k =? 2); do 3 eexists; (split; [exact He|]).
    all: split; [lia|]; split; [lia|]; unfold on_disk;
    change (Geometry.blocks_of (di_type blank_d1m)) with 3240; lia.
Qed.

Lemma pack_closes_gaps_witness : exists v' o, pack_loop 32 31 (-1) 1 gap_drive = Some (tt, v') /\
  repositioned o gap_drive v' /\ forall k off size, cmd v' k off size -> follows v' off.
Proof.
  destruct (pack_closes_gaps gap_drive blank_d1m (two_parts_drive _ _) gap_table gap_disjoint)
    as (v' & o & H & Hr & _ & Hf). exists v', o.
  split; [exact H|]. split; [exact Hr|exact Hf].
Defined.

Lemma move_copies_nothing_witness : exists v', move_partition 1 0 gap_drive = Some (0, v') /\
  images0 v' = Some blank_d1m /\ getb (poffset (part v')) 1 = Some 0.
Proof.
  apply (move_copies_nothing gap_drive blank_d1m 1 100 400 0 (two_parts_drive _ _)
    eq_refl eq_refl); unfold on_disk; vm_compute; split_and!; discriminate.
Defined.

Lemma pack_foreign_diverges_witness : pack_loop 1000 31 10 20 foreign_drive = None.
Proof.
  apply (pack_foreign_diverges 1000 foreign_drive blank_d1m 1 10 20 foreign_drive_end);
    [apply d1m_system_ok|lia|lia|reflexivity|reflexivity|].
  exists 2, 30, 400. split; [|lia]. exists 4. split; [lia|]. split; [|lia].
  exact (two_parts_entries (7, 10, 20) (4, 30, 400) 2 ltac:(lia)).
Defined.

End PackSpec.
