(* ===== verification/SelectSpec.v ===== *)
(** * Specification of the selection of partitions

    A partition of the table, once selected, satisfies the conditions under which
    [VDrive] maps its sectors into its own blocks. *)

From S2P Require Import Prelude Geometry Image VDrive Bam Partition PartitionSpec.
Import Partition PartitionSpec.

Module SelectSpec.

Section select.
Context `{platform : Platform}.

(** The blocks of 256 bytes that a partition of type [ty] uses of its [size]
    blocks of 512 bytes. *)
Definition used_blocks (ty size : Z) : Z :=
  if ty =? 1 then size / 128 * 256 else if ty =? 2 then 683 else if ty =? 3 then 1366 else 3200.

(** A partition that can be selected: of type 1 to 4, and inside the image. *)
Definition selectable (v : vdrive_t) (image : disk_image_t) (p ty off size : Z) : Prop :=
  1 <= p <= 254 /\ entry_of (part v) p (ty, off, size) /\ 1 <= ty <= 4 /\ 0 <= off /\
  0 <= size < 2 ^ 15 /\ 2 * off + used_blocks ty size <= Geometry.blocks_of (di_type image).

(** The format, the number of tracks and the size of the BAM that a partition
    type stands for. *)
Definition type_format (ty : Z) : Z :=
  if ty =? 1 then VDRIVE_IMAGE_FORMAT_NP else if ty =? 2 then VDRIVE_IMAGE_FORMAT_1541
  else if ty =? 3 then VDRIVE_IMAGE_FORMAT_1571 else VDRIVE_IMAGE_FORMAT_1581.
Definition type_tracks (ty size : Z) : Z :=
  if ty =? 1 then size / 128 else if ty =? 2 then 35 else if ty =? 3 then 70 else 80.
Definition type_bam (ty : Z) : Z :=
  if ty =? 1 then 0x2100 else if ty =? 2 then 0x100 else if ty =? 3 then 0x200 else 0x300.

(** The drive with the partition selected *)
Definition selected (v : vdrive_t) (p ty off size : Z) : vdrive_t :=
  set_geom (set_image_format (type_format ty) (set_num_tracks (type_tracks ty size) (geom v)))
    (set_part (set_current_offset off (set_current_part p (part v)))
      (set_bamc (set_bam_size (type_bam ty) (bamc v)) (set_image_mode 0 v))).

Lemma type_cases (P : Z -> Prop) ty : 1 <= ty <= 4 -> P 1 -> P 2 -> P 3 -> P 4 -> P ty.
Proof.
  intros Hty ????. assert (ty = 1 \/ ty = 2 \/ ty = 3 \/ ty = 4) as [-> | [-> | [-> | ->]]] by lia; done.
Qed.

Lemma type_tables ty : 1 <= ty <= 4 -> (4 <? ty) && (ty <? 255) || (ty =? 0) = false /\
  (ty <=? 4) = true /\ getb part_formats ty = Some (type_format ty) /\
  getb part_bamsize ty = Some (type_bam ty) /\
  exists nt, getb part_tracks ty = Some nt /\ (ty <> 1 -> forall size, nt = type_tracks ty size).
Proof.
  intros Hty. pattern ty. apply (type_cases _ ty Hty); cbn beta.
  all: do 4 (split; [reflexivity|]); eexists; split; [reflexivity|done].
Qed.

(** Selecting a partition of the table *)
Lemma select_run v image p ty off size : VDrive.drive_ok v image -> selectable v image p ty off size ->
  select_partition p v = Some (CBMDOS_IPE_OK, selected v p ty off size).
Proof.
  intros [Hset Himg Hwf _] (Hp & (H1 & H2 & H3) & Hty & _). cbn in H1, H2, H3.
  destruct (type_tables ty Hty) as (Ht1 & Ht2 & Hf & Hb & nt & Hnt & Htr).
  unfold select_partition, VDrive.get_part, upd_part, upd_geom, upd_bamc, modify, update, mbind, ST_bind.
  unfold bindST, state, lift. rewrite H1, Ht1, Ht2, Hf, H2.
  cbn [part set_part poffset set_current_part]. rewrite Hb, Hnt. cbn [mret ST_ret option_bind].
  unfold deref_image. destruct (Z.eqb_spec ty 1) as [->|Hne].
  - cbn [part set_geom set_bamc set_part psize set_current_part]. rewrite H3.
    cbn [images0 image_set set_geom set_bamc set_part]. rewrite Hset, Himg. cbn [mbind option_bind].
    rewrite (Image.wf_rw _ Hwf), Z.shiftr_div_pow2 by lia. reflexivity.
  - cbn [images0 image_set set_geom set_bamc set_part ST_ret]. rewrite Hset, Himg. cbn [mbind option_bind].
    rewrite (Image.wf_rw _ Hwf), (Htr Hne size). reflexivity.
Qed.

Lemma change_part_run v image p ty off size : floppy_drive v image ->
  sys_offset (part v) <> UINT32_MAX -> selectable v image p ty off size ->
  vdrive_change_part p v = Some (CBMDOS_IPE_OK, selected v p ty off size).
Proof.
  intros (Hd & _ & _ & Hpt) Hso Hsel. destruct (Hsel) as (Hp & _).
  unfold vdrive_change_part, out_of_range. unfold bindST at 1, state. rewrite Hpt.
  replace ((p <? 0) || true && (255 <? p) || negb true && (NUM_DRIVES <=? p)) with false
    by (cbn [negb andb]; lia).
  rewrite (proj2 (Z.eqb_neq p 0)), (proj2 (Z.eqb_neq _ _) Hso) by lia. cbn [andb].
  unfold bindST at 1. cbn [mret ST_ret]. change (negb (CBMDOS_IPE_OK =? 0)) with false. cbv iota.
  by apply (select_run v image).
Qed.

Lemma selected_blocks v p ty off size : 1 <= ty <= 4 -> 0 <= size ->
  VDrive.part_blocks (selected v p ty off size) = used_blocks ty size.
Proof.
  intros Hty Hs. unfold VDrive.part_blocks, VDrive.part_layout.
  change (image_format (geom (selected v p ty off size))) with (type_format ty).
  change (num_tracks (geom (selected v p ty off size))) with (type_tracks ty size).
  pattern ty. apply (type_cases _ ty Hty); cbv beta; try (vm_compute; reflexivity).
  unfold type_format, type_tracks, used_blocks. eval_tests. cbv iota.
  assert (0 <= size / 128) by (apply Z.div_pos; lia). rewrite Geometry.const_rows_base by lia. lia.
Qed.

(** C26: selecting a partition of type 1 to 4 that lies in the image succeeds, takes
    the start, the format and the number of tracks of its table entry, and
    establishes the conditions under which the sectors of the partition are mapped
    into its own blocks and nowhere else. *)
Theorem change_part_establishes v image p ty off size : floppy_drive v image ->
  sys_offset (part v) <> UINT32_MAX -> selectable v image p ty off size ->
  exists v', vdrive_change_part p v = Some (CBMDOS_IPE_OK, v') /\
    current_part (part v') = p /\ VDrive.first_block v' = 2 * off /\
    image_format (geom v') = type_format ty /\
    VDrive.partition_ok v' image /\ VDrive.drive_ok v' image.
Proof.
  intros Hfl Hso Hsel. exists (selected v p ty off size).
  split; [by apply (change_part_run v image)|]. do 3 (split; [done|]).
  destruct Hfl as ([Hset Himg Hwf Hver] & _ & Hty & Hpt).
  destruct Hsel as (Hp & _ & Ht & Hoff & Hsz & Hend). destruct (floppy_facts _ Hty) as (Hcmd & Hnd & _).
  split; split; try done; try apply Hwf.
  - cbn. unfold VDrive.first_block. cbn. lia.
  - rewrite selected_blocks by lia. unfold VDrive.image_blocks. by rewrite (proj2 (Z.eqb_neq _ _) Hnd).
  - change (num_tracks (geom (selected v p ty off size))) with (type_tracks ty size).
    assert (size / 128 <= 255) by (Z.to_euclidean_division_equations; lia).
    unfold type_tracks. case_bool; lia.
  - unfold VDrive.VDRIVE_IS_1541. cbn. rewrite Hset, Himg. cbn. intros [= Ht64].
    unfold floppy_types in Hty.
    repeat (apply elem_of_cons in Hty as [Hty|Hty]; [by rewrite Hty in Ht64|]).
    by apply not_elem_of_nil in Hty.
Qed.

End select.

(** ** Witnesses *)

Lemma d1m_floppy : floppy_drive d1m_drive blank_d1m.
Proof.
  destruct d1m_system_ok as [Hd Hwh Hty Hpt _ _].
  split; [exact Hd|]. split; [exact Hwh|]. split; [exact Hty|exact Hpt].
Qed.

Lemma d1m_selectable : selectable d1m_drive blank_d1m 1 4 0 0x640.
Proof.
  split; [lia|]. split; [split; [reflexivity|split; reflexivity]|].
  split; [lia|]. split; [lia|]. split; [lia|]. vm_compute. discriminate.
Qed.

Lemma change_part_witness :
  exists v', vdrive_change_part 1 d1m_drive = Some (CBMDOS_IPE_OK, v') /\
    image_format (geom v') = VDRIVE_IMAGE_FORMAT_1581 /\ VDrive.partition_ok v' blank_d1m.
Proof.
  destruct (change_part_establishes d1m_drive blank_d1m 1 4 0 0x640 d1m_floppy ltac:(discriminate)
    d1m_selectable) as (v' & H & _ & _ & Hf & Hp & _).
  exists v'. split; [exact H|]. split; [exact Hf|exact Hp].
Defined.

End SelectSpec.
