(* ===== verification/Directory.v ===== *)
(** * Directories

    Models [src/lib/vdrive/vdrive-dir.c]: the search for directory entries, the
    creation and the removal of entries, the listing of a directory and of the
    partitions of a CMD image; with them [vdrive_rel_scratch] of [vdrive-rel.c] and
    [vdrive_iec_switch] of [vdrive-iec.c], which it calls.

    A search keeps its place in a [vdrive_dir_context_t]. An entry that a search
    returns is a copy in a static buffer ([In_slot]) or the first entry of the sector
    it has appended ([In_new_sector], a pointer to the buffer of the context). *)

From Stdlib Require Import Ascii String.
From S2P Require Import Prelude Geometry Image VDrive Bam BamAlloc Cbmdos Partition.

Definition SLOT_TYPE_OFFSET : Z := 2.
Definition SLOT_FIRST_TRACK : Z := 3.
Definition SLOT_FIRST_SECTOR : Z := 4.
Definition SLOT_NAME_OFFSET : Z := 5.
Definition SLOT_SIDE_TRACK : Z := 21.
Definition SLOT_SIDE_SECTOR : Z := 22.
Definition SLOT_NR_BLOCKS : Z := 30.
Definition SLOT_GEOS_YEAR : Z := 25.
Definition SLOT_GEOS_MONTH : Z := 26.
Definition SLOT_GEOS_DATE : Z := 27.
Definition SLOT_GEOS_HOUR : Z := 28.
Definition SLOT_GEOS_MINUTE : Z := 29.
Definition PSLOT_TYPE : Z := 2.
Definition PSLOT_NAME : Z := 5.
Definition BUFFER_DIRECTORY_MORE_READ : Z := 7.

(** [vdrive_dir_context_t], without the pointer to the drive *)
Record dir_t := Dir {
  dbuffer : mem;
  find_length : Z;
  find_nslot : mem;
  find_type : Z;
  dslot : Z;
  dtrack : Z;
  dsector : Z;
  time_low : Z;
  time_high : Z
}.

Definition set_dbuffer (x : mem) (r : dir_t) : dir_t :=
  Dir x (find_length r) (find_nslot r) (find_type r) (dslot r) (dtrack r) (dsector r)
    (time_low r) (time_high r).
Definition set_find_length (x : Z) (r : dir_t) : dir_t :=
  Dir (dbuffer r) x (find_nslot r) (find_type r) (dslot r) (dtrack r) (dsector r)
    (time_low r) (time_high r).
Definition set_find_nslot (x : mem) (r : dir_t) : dir_t :=
  Dir (dbuffer r) (find_length r) x (find_type r) (dslot r) (dtrack r) (dsector r)
    (time_low r) (time_high r).
Definition set_find_type (x : Z) (r : dir_t) : dir_t :=
  Dir (dbuffer r) (find_length r) (find_nslot r) x (dslot r) (dtrack r) (dsector r)
    (time_low r) (time_high r).
Definition set_dslot (x : Z) (r : dir_t) : dir_t :=
  Dir (dbuffer r) (find_length r) (find_nslot r) (find_type r) x (dtrack r) (dsector r)
    (time_low r) (time_high r).
Definition set_dtrack (x : Z) (r : dir_t) : dir_t :=
  Dir (dbuffer r) (find_length r) (find_nslot r) (find_type r) (dslot r) x (dsector r)
    (time_low r) (time_high r).
Definition set_dsector (x : Z) (r : dir_t) : dir_t :=
  Dir (dbuffer r) (find_length r) (find_nslot r) (find_type r) (dslot r) (dtrack r) x
    (time_low r) (time_high r).
Definition set_time_low (x : Z) (r : dir_t) : dir_t :=
  Dir (dbuffer r) (find_length r) (find_nslot r) (find_type r) (dslot r) (dtrack r)
    (dsector r) x (time_high r).
Definition set_time_high (x : Z) (r : dir_t) : dir_t :=
  Dir (dbuffer r) (find_length r) (find_nslot r) (find_type r) (dslot r) (dtrack r)
    (dsector r) (time_low r) x.

(** A search context and its drive *)
Record search_t := Search {
  drv : vdrive_t;
  dctx : dir_t
}.

Definition set_drv (x : vdrive_t) (r : search_t) : search_t :=
  Search x (dctx r).
Definition set_dctx (x : dir_t) (r : search_t) : search_t :=
  Search (drv r) x.

(** The fields of [bufferinfo_t] that a listing uses, its context and drive, and the two
    counters of [vdrive_t] for listings of several drives *)
Record listing_t := Listing {
  search : search_t;
  lbuffer : mem;
  bufptr : Z;
  small : Z;
  timemode : Z;
  lmode : Z;
  partition : Z;
  partstart : Z;
  partend : Z;
  dir_part : Z;
  dir_count : Z
}.

Definition set_search (x : search_t) (r : listing_t) : listing_t :=
  Listing x (lbuffer r) (bufptr r) (small r) (timemode r) (lmode r) (partition r)
    (partstart r) (partend r) (dir_part r) (dir_count r).
Definition set_lbuffer (x : mem) (r : listing_t) : listing_t :=
  Listing (search r) x (bufptr r) (small r) (timemode r) (lmode r) (partition r)
    (partstart r) (partend r) (dir_part r) (dir_count r).
Definition set_bufptr (x : Z) (r : listing_t) : listing_t :=
  Listing (search r) (lbuffer r) x (small r) (timemode r) (lmode r) (partition r)
    (partstart r) (partend r) (dir_part r) (dir_count r).
Definition set_small (x : Z) (r : listing_t) : listing_t :=
  Listing (search r) (lbuffer r) (bufptr r) x (timemode r) (lmode r) (partition r)
    (partstart r) (partend r) (dir_part r) (dir_count r).
Definition set_timemode (x : Z) (r : listing_t) : listing_t :=
  Listing (search r) (lbuffer r) (bufptr r) (small r) x (lmode r) (partition r)
    (partstart r) (partend r) (dir_part r) (dir_count r).
Definition set_lmode (x : Z) (r : listing_t) : listing_t :=
  Listing (search r) (lbuffer r) (bufptr r) (small r) (timemode r) x (partition r)
    (partstart r) (partend r) (dir_part r) (dir_count r).
Definition set_partition (x : Z) (r : listing_t) : listing_t :=
  Listing (search r) (lbuffer r) (bufptr r) (small r) (timemode r) (lmode r) x
    (partstart r) (partend r) (dir_part r) (dir_count r).
Definition set_partstart (x : Z) (r : listing_t) : listing_t :=
  Listing (search r) (lbuffer r) (bufptr r) (small r) (timemode r) (lmode r) (partition
    r) x (partend r) (dir_part r) (dir_count r).
Definition set_partend (x : Z) (r : listing_t) : listing_t :=
  Listing (search r) (lbuffer r) (bufptr r) (small r) (timemode r) (lmode r) (partition
    r) (partstart r) x (dir_part r) (dir_count r).
Definition set_dir_part (x : Z) (r : listing_t) : listing_t :=
  Listing (search r) (lbuffer r) (bufptr r) (small r) (timemode r) (lmode r) (partition
    r) (partstart r) (partend r) x (dir_count r).
Definition set_dir_count (x : Z) (r : listing_t) : listing_t :=
  Listing (search r) (lbuffer r) (bufptr r) (small r) (timemode r) (lmode r) (partition
    r) (partstart r) (partend r) (dir_part r) x.

Inductive found : Type :=
| In_slot (entry : mem)
| In_new_sector.

Module Directory.

(** ** Sub-states *)

Definition on_drive {A} (m : ST vdrive_t A) : ST search_t A := fun s =>
  match m (drv s) with Some (a, v) => Some (a, set_drv v s) | None => None end.
Definition upd_dir (f : dir_t -> dir_t) : ST search_t unit :=
  modify (fun s => set_dctx (f (dctx s)) s).
Definition on_search {A} (m : ST search_t A) : ST listing_t A := fun l =>
  match m (search l) with Some (a, s) => Some (a, set_search s l) | None => None end.
Definition on_ldrive {A} (m : ST vdrive_t A) : ST listing_t A := on_search (on_drive m).

Definition get_dir (i : Z) : ST search_t Z :=
  let! s := state in lift (getb (dbuffer (dctx s)) i).
Definition put_dir (i x : Z) : ST search_t unit :=
  update (fun s => b ← putb (dbuffer (dctx s)) i (u8 x); Some (set_dctx (set_dbuffer b (dctx s)) s)).

Section directory.
Context {platform : Platform}.

Definition vdrive_dir_get_interleave (type : Z) : Z :=
  if (type =? VDRIVE_IMAGE_FORMAT_1541) || (type =? VDRIVE_IMAGE_FORMAT_2040)
     || (type =? VDRIVE_IMAGE_FORMAT_1571) || (type =? VDRIVE_IMAGE_FORMAT_8050)
     || (type =? VDRIVE_IMAGE_FORMAT_8250) || (type =? VDRIVE_IMAGE_FORMAT_9000) then 3
  else if (type =? VDRIVE_IMAGE_FORMAT_1581) || (type =? VDRIVE_IMAGE_FORMAT_NP) then 1
  else 3.

(** A negative length looks for an unused entry. *)
Definition vdrive_dir_name_match (slot nslot : mem) (length type : Z) : option bool :=
  ty ← getb slot SLOT_TYPE_OFFSET;
  if length <? 0 then Some (ty =? 0)
  else if ty =? 0 then Some false
  else if negb (type =? CBMDOS_FT_DEL) && negb (type =? Z.land ty 0x07) then Some false
  else
    r ← Cbmdos.cbmdos_parse_wildcard_compare nslot length (drop (Z.to_nat SLOT_NAME_OFFSET) slot);
    Some (negb (r =? 0)).

(** ** Removing entries *)

(** Every round releases an allocated sector, so that fuel above the number of
    sectors is enough. *)
Fixpoint free_chain (fuel : nat) (t s : Z) (buf : mem) : ST vdrive_t unit :=
  match fuel with
  | O => ub
  | S fuel =>
      if t =? 0 then mret tt
      else
        let! v := state in
        let! image := lift (deref_image v) in
        if Geometry.disk_image_check_sector image t s <? 0 then mret tt
        else
          let! freed := Bam.vdrive_bam_free_sector t s in
          if freed =? 0 then mret tt
          else
            Bam.vdrive_bam_free_sector t s;;
            let! (_, buf) := VDrive.vdrive_read_sector buf t s in
            let! t := lift (getb buf 0) in
            let! s := lift (getb buf 1) in
            free_chain fuel t s buf
  end.

Definition vdrive_dir_free_chain (fuel : nat) (t s : Z) : ST vdrive_t unit :=
  free_chain fuel t s (lib_malloc 256).

(** Formats with a super side sector *)
Definition vdrive_rel_has_super (type : Z) : bool :=
  (type =? VDRIVE_IMAGE_FORMAT_1581) || (type =? VDRIVE_IMAGE_FORMAT_8250)
  || (type =? VDRIVE_IMAGE_FORMAT_9000) || (type =? VDRIVE_IMAGE_FORMAT_NP).

Definition vdrive_rel_scratch (fuel : nat) (t s : Z) : ST vdrive_t unit :=
  let! v := state in
  if vdrive_rel_has_super (image_format (geom v)) then
    let! (ret, tmp) := VDrive.vdrive_read_sector (lib_malloc 256) t s in
    if negb (ret =? 0) then mret tt
    else
      let! mark := lift (getb tmp 2) in
      if negb (mark =? 0xfe) then mret tt
      else
        for_each 126 0 (fun i =>
          let! t := lift (getb tmp (3 + i * 2)) in
          let! s := lift (getb tmp (3 + 1 + i * 2)) in
          vdrive_dir_free_chain fuel t s)
  else vdrive_dir_free_chain fuel t s.

(** [vdrive_write_sector(vdrive, dir->buffer, dir->track, dir->sector)] *)
Definition write_dir : ST search_t Z :=
  let! s := state in
  on_drive (VDrive.vdrive_write_sector (dbuffer (dctx s)) (dtrack (dctx s)) (dsector (dctx s))).

Definition read_dir : ST search_t Z :=
  let! s := state in
  let! (status, b) := on_drive (VDrive.vdrive_read_sector (dbuffer (dctx s)) (dtrack (dctx s))
                                  (dsector (dctx s))) in
  upd_dir (set_dbuffer b);;
  mret status.

(** Byte [i] of the current entry *)
Definition get_entry (i : Z) : ST search_t Z :=
  let! s := state in get_dir (dslot (dctx s) * 32 + i).

Definition vdrive_dir_remove_slot (fuel : nat) : ST search_t unit :=
  let! t := get_entry SLOT_FIRST_TRACK in
  let! s := get_entry SLOT_FIRST_SECTOR in
  on_drive (vdrive_dir_free_chain fuel t s);;
  let! t := get_entry SLOT_SIDE_TRACK in
  let! s := get_entry SLOT_SIDE_SECTOR in
  on_drive (vdrive_rel_scratch fuel t s);;
  on_drive Bam.vdrive_bam_write_bam;;
  let! st := state in
  put_dir (dslot (dctx st) * 32 + SLOT_TYPE_OFFSET) 0;;
  write_dir;;
  mret tt.

(** ** Searching *)

(** The header sector, whose link leads to the first sector of the directory; on
    old formats the link is set. *)
Definition load_header : ST search_t unit :=
  let! s := state in
  upd_dir (fun d => set_dtrack (Header_Track (geom (drv s))) (set_dsector (Header_Sector (geom (drv s)))
                      (set_dslot 7 d)));;
  read_dir;;
  let! s := state in
  if negb (image_format (geom (drv s)) =? VDRIVE_IMAGE_FORMAT_NP) then
    put_dir 0 (Dir_Track (geom (drv s)));; put_dir 1 (Dir_Sector (geom (drv s)))
  else mret tt.

(** The pattern of a search; a name without characters leaves the last one. *)
Definition set_pattern (name : mem) (length type : Z) : ST search_t unit :=
  (if 0 <? length then
     let! nslot := lift (Cbmdos.cbmdos_dir_slot_create name length) in
     upd_dir (set_find_nslot nslot)
   else mret tt);;
  upd_dir (fun d => set_find_length length (set_find_type type d)).

Definition vdrive_dir_find_first_slot (name : mem) (length type : Z) : ST search_t unit :=
  set_pattern name length type;;
  upd_dir (fun d => set_time_low 0 (set_time_high 0xffffffff d));;
  load_header.

Definition date_to_int (year month day hour minute : Z) : Z :=
  let a := Z.lor 0 year in
  let a := Z.lor (u32 (Z.shiftl a 4)) month in
  let a := Z.lor (u32 (Z.shiftl a 5)) day in
  let a := Z.lor (u32 (Z.shiftl a 5)) hour in
  Z.lor (u32 (Z.shiftl a 6)) minute.

Definition slot_date (slot : mem) : option Z :=
  y ← getb slot SLOT_GEOS_YEAR; mo ← getb slot SLOT_GEOS_MONTH; d ← getb slot SLOT_GEOS_DATE;
  h ← getb slot SLOT_GEOS_HOUR; mi ← getb slot SLOT_GEOS_MINUTE;
  Some (date_to_int y mo d h mi).

(** The current entry, if it matches name, type and date. *)
Definition match_slot (d : dir_t) : option (option mem) :=
  slot ← slice (dbuffer d) (dslot d * 32) 32;
  m ← vdrive_dir_name_match slot (find_nslot d) (find_length d) (find_type d);
  if (m : bool) then
    t ← slot_date slot;
    Some (if (time_low d <=? t) && (t <=? time_high d) then Some slot else None)
  else Some None.

(** Step to the next entry: [None] behind the last sector, else the status of the read. *)
Definition next_entry : ST search_t (option Z) :=
  upd_dir (fun d => set_dslot (u32 (dslot d + 1)) d);;
  let! s := state in
  if 8 <=? dslot (dctx s) then
    let! t := get_dir 0 in
    if t =? 0 then mret None
    else
      let! sec := get_dir 1 in
      upd_dir (fun d => set_dslot 0 (set_dtrack t (set_dsector sec d)));;
      let! status := read_dir in
      mret (Some status)
  else mret (Some 0).

(** The search loop: [None] behind the last entry, else what the function returns.
    A directory whose sectors are linked in a circle uses up any fuel. *)
Fixpoint search_loop (fuel : nat) (search_max_slots : Z) : ST search_t (option (option mem)) :=
  match fuel with
  | O => ub
  | S fuel =>
      let! r := next_entry in
      match r with
      | None => mret None
      | Some status =>
          if negb (status =? 0) then mret (Some None)
          else
            let! s := state in
            let! m := lift (match_slot (dctx s)) in
            match m with
            | Some slot => mret (Some (Some slot))
            | None =>
                if 0 <? search_max_slots then
                  if search_max_slots - 1 =? 0 then mret (Some None)
                  else search_loop fuel (search_max_slots - 1)
                else search_loop fuel search_max_slots
            end
      end
  end.

(** ** Extending the directory *)

(** Allocates the sector, links it and clears the buffer for it; false if it is taken. *)
Definition find_next_directory_sector (track sector : Z) : ST search_t bool :=
  let! r := on_drive (Bam.vdrive_bam_allocate_sector track sector) in
  if negb (r =? 0) then
    put_dir 0 track;; put_dir 1 sector;;
    write_dir;;
    upd_dir (fun d => set_dslot 0 (set_dbuffer (replicate 256 0) d));;
    put_dir 1 0xff;;
    upd_dir (fun d => set_dtrack track (set_dsector sector d));;
    mret true
  else mret false.

(** The inner loop over the sectors of a group: the sector after [n] rounds. *)
Fixpoint try_sectors (n : nat) (max_sector sector h : Z) : ST search_t (bool * Z) :=
  match n with
  | O => mret (false, sector)
  | S n =>
      let! s := state in
      let! r := find_next_directory_sector (dtrack (dctx s)) (u32 (sector + h)) in
      if (r : bool) then mret (true, sector)
      else try_sectors n max_sector (if max_sector <=? u32 (sector + 1) then 0 else u32 (sector + 1)) h
  end.

(** All groups of a track, one for most drives. *)
Fixpoint try_groups (n : nat) (max_sector max_all sector h : Z) : ST search_t bool :=
  match n with
  | O => mret false
  | S n =>
      let! (r, sector) := try_sectors (Z.to_nat max_sector) max_sector sector h in
      if (r : bool) then mret true
      else try_groups n max_sector max_all sector (if max_all <=? h + max_sector then 0 else h + max_sector)
  end.

(** The block count of a native sub-directory, in its parent. *)
Definition count_directory_block : ST vdrive_t bool :=
  let! v := state in
  if (Header_Track (geom v) =? BAM_TRACK_NP) && (Header_Sector (geom v) =? BAM_SECTOR_NP)
  then mret true
  else
    let! (ret, tmp) := VDrive.vdrive_read_sector (lib_malloc 256) (Header_Track (geom v))
                         (Header_Sector (geom v)) in
    if negb (ret =? 0) then mret false
    else
      let! t := lift (getb tmp 0x24) in
      let! s := lift (getb tmp 0x25) in
      let! e := lift (getb tmp 0x26) in
      let j := e - 2 + SLOT_NR_BLOCKS in
      let! (ret, tmp) := VDrive.vdrive_read_sector tmp t s in
      if negb (ret =? 0) then mret false
      else
        let! c0 := lift (getb tmp j) in
        let! c1 := lift (getb tmp (j + 1)) in
        let c := Z.lor c0 (Z.shiftl c1 8) + 1 in
        let! tmp := lift (putb tmp j (Z.land c 255)) in
        let! tmp := lift (putb tmp (j + 1) (u8 (Z.shiftr c 8))) in
        let! ret := VDrive.vdrive_write_sector tmp t s in
        mret (ret =? 0).

(** D9090 and native partitions take any free sector. *)
Definition extend_anywhere : ST search_t bool :=
  let! st := state in
  let f := image_format (geom (drv st)) in
  let! r := on_drive (BamAlloc.vdrive_bam_alloc_next_free_sector_interleave (dtrack (dctx st))
                        (dsector (dctx st)) (vdrive_dir_get_interleave f)) in
  match r with
  | None => mret false
  | Some (t, s) =>
      on_drive (Bam.vdrive_bam_free_sector t s);;
      let! r := find_next_directory_sector t s in
      if (r : bool) then
        if f =? VDRIVE_IMAGE_FORMAT_9000 then mret true else on_drive count_directory_block
      else mret false
  end.

Definition extend_directory : ST search_t bool :=
  let! st := state in
  let v := drv st in
  let! max_sector := lift (u32 <$> VDrive.vdrive_get_max_sectors_per_head v (dtrack (dctx st))) in
  let! max_all := lift (u32 <$> VDrive.vdrive_get_max_sectors v (dtrack (dctx st))) in
  if max_sector =? 0 then ub
  else
    let h := dsector (dctx st) / max_sector * max_sector in
    let sector := dsector (dctx st) mod max_sector + vdrive_dir_get_interleave (image_format (geom v)) in
    let sector := if max_sector <=? sector then
                    let sector := sector - max_sector in
                    if negb (sector =? 0) then sector - 1 else sector
                  else sector in
    let! r := try_groups (Z.to_nat ((max_all + max_sector - 1) / max_sector)) max_sector max_all
                sector h in
    if (r : bool) then mret true
    else if (image_format (geom v) =? VDRIVE_IMAGE_FORMAT_NP)
            || (image_format (geom v) =? VDRIVE_IMAGE_FORMAT_9000) then extend_anywhere
    else mret false.

Definition vdrive_dir_find_next_slot_limited (fuel : nat) (search_max_slots : Z)
    : ST search_t (option found) :=
  let! r := search_loop fuel search_max_slots in
  match r with
  | Some r => mret (In_slot <$> r)
  | None =>
      let! s := state in
      if find_length (dctx s) <? 0 then
        let! r := extend_directory in
        mret (if (r : bool) then Some In_new_sector else None)
      else mret None
  end.

Definition vdrive_dir_find_next_slot (fuel : nat) : ST search_t (option found) :=
  vdrive_dir_find_next_slot_limited fuel (-1).

(** ** Names, types and dates *)

(** The [l] cells from a pointer *)
Definition vdrive_dir_no_a0_pads (bs : mem) : mem := (fun b => if b =? 0xa0 then 0x20 else b) <$> bs.

(** The last ['='] behind the first character, else that character. *)
Fixpoint scan_back (n : nat) (name : mem) (p : Z) : option Z :=
  match n with
  | O => None
  | S n => if p =? 0 then Some p
           else b ← getb name p; if b =? ch "=" then Some p else scan_back n name (p - 1)
  end.

Definition letter_type (b def : Z) : Z :=
  if b =? ch "S" then CBMDOS_FT_SEQ else if b =? ch "P" then CBMDOS_FT_PRG
  else if b =? ch "U" then CBMDOS_FT_USR else if b =? ch "R" then CBMDOS_FT_REL
  else if b =? ch "C" then CBMDOS_FT_CBM else if b =? ch "D" then CBMDOS_FT_DIR
  else def.

Definition vdrive_dir_filetype (name : mem) (length : Z) : option Z :=
  p ← scan_back (Z.to_nat length) name (length - 1);
  b ← getb name p;
  if b =? ch "=" then t ← getb name (p + 1); Some (letter_type t CBMDOS_FT_DEL)
  else Some CBMDOS_FT_DEL.

(** ["MM/DD/YY HH:MM xM"] at [p]; both callers check that it is inside the name. *)
Definition asciidate_to_int (name : mem) (p def : Z) : option Z :=
  bs ← slice name p 17;
  let at_ i := nth i bs 0 in
  let digit i := at_ i - ch "0" in
  let number i := digit i * 10 + digit (S i) in
  if negb (at_ 2%nat =? ch "/") || negb (at_ 5%nat =? ch "/") || negb (at_ 8%nat =? ch " ")
     || negb (at_ 14%nat =? ch " ") || negb (at_ 16%nat =? ch "M")
     || negb (at_ 11%nat =? ch ":") && negb (at_ 11%nat =? ch ".")
     || negb (at_ 15%nat =? ch "A") && negb (at_ 15%nat =? ch "P") then Some def
  else if negb (forallb (fun i => Cbmdos.is_digit (at_ i)) [0; 1; 3; 4; 6; 7; 9; 10; 12; 13]%nat)
  then Some def
  else
    let month := number 0%nat in
    let day := number 3%nat in
    let year := number 6%nat in
    let hour := number 9%nat in
    let minute := number 12%nat in
    let pm := at_ 15%nat =? ch "P" in
    if (12 <? month) || (31 <? day) || (12 <? hour) || (59 <? minute) then Some def
    else
      let hour := if (hour =? 12) && negb pm then 0
                  else if (0 <? hour) && pm then hour + 12 else hour in
      Some (date_to_int year month day hour minute).

(** The time stamp of an entry; [ts] is the host's clock (year since 1900, month
    from 0, day, hour, minute). *)
Definition vdrive_dir_updatetime (ts : Z * Z * Z * Z * Z) (slot : mem) : option mem :=
  let '(year, mon, mday, hour, min) := ts in
  slot ← putb slot SLOT_GEOS_YEAR (u8 (Z.rem year 100));
  slot ← putb slot SLOT_GEOS_MONTH (u8 (mon + 1));
  slot ← putb slot SLOT_GEOS_DATE (u8 mday);
  slot ← putb slot SLOT_GEOS_HOUR (u8 hour);
  putb slot SLOT_GEOS_MINUTE (u8 min).

(** ** Listings *)

Definition upd_listing (f : listing_t -> listing_t) : ST listing_t unit := modify f.

(** [*l++ = ...] for all of [bs]: the next position *)
Definition emit (l : Z) (bs : mem) : ST listing_t Z :=
  update (fun s => b ← splice (lbuffer s) l bs; Some (set_lbuffer b s));;
  mret (l + mlen bs).

(** The options behind the ['='] of a pattern; [name] is [None] once the name is
    freed. They set the type, the dates and the form of the listing. *)
Fixpoint parse_options (n : nat) (name : option mem) (c limit filetype : Z) : ST listing_t Z :=
  match n with
  | O => mret filetype
  | S n =>
      if negb (c <? limit) then mret filetype
      else
        let! m := lift name in
        let! b := lift (getb m c) in
        let next filetype := parse_options n name (c + 1) limit filetype in
        let date (low : bool) :=
          (if c + 17 <? limit then
             let! t := lift (asciidate_to_int m (c + 1) (if low then 0 else 0xffffffff)) in
             on_search (upd_dir (if low then set_time_low t else set_time_high t))
           else mret tt);;
          let! p := lift (Cbmdos.memchr m c (ch ",") (limit - c)) in
          parse_options n name (default limit p + 1) limit filetype in
        if b =? ch "L" then upd_listing (set_timemode 2);; next filetype
        else if b =? ch "N" then upd_listing (set_timemode 0);; next filetype
        else if b =? ch ">" then date true
        else if b =? ch "<" then date false
        else next (letter_type b filetype)
  end.

(** [lib_strdup]: the characters and the NUL *)
Definition lib_strdup (m : mem) : option mem :=
  p ← Cbmdos.memchr m 0 0 (mlen m);
  match p with Some n => slice m 0 (n + 1) | None => None end.

(** The name to look for and its length: the file name, nothing for ["$:"], or all files. *)
Definition listing_name (cmd_parse : cbmdos_cmd_parse_plus_t) : option (mem * Z) :=
  match file cmd_parse with
  | Some f => if 0 <? filelength cmd_parse then name ← lib_strdup f; Some (name, filelength cmd_parse)
              else if negb (colon cmd_parse =? 0) then Some ([0], 1) else Some (str "*" ++ [0], 1)
  | None => if negb (colon cmd_parse =? 0) then Some ([0], 1) else Some (str "*" ++ [0], 1)
  end.

(** The name is freed before the options behind it are read. *)
Definition start_search (cmd_parse : cbmdos_cmd_parse_plus_t) : ST listing_t unit :=
  let! (name, length) := lift (listing_name cmd_parse) in
  let! c := lift (Cbmdos.memchr name 0 (ch "=") length) in
  on_search (vdrive_dir_find_first_slot name (default length c) CBMDOS_FT_DEL);;
  let name := None in
  let! filetype := (match c with
                    | Some c => parse_options (Z.to_nat length) name c length CBMDOS_FT_DEL
                    | None => mret CBMDOS_FT_DEL
                    end) in
  on_search (upd_dir (set_find_type filetype)).

Definition QUOTE : Z := 34.

(** Name and id of the disk, in reverse *)
Definition emit_title (l : Z) : ST listing_t Z :=
  let! l := emit l [0x12; QUOTE] in
  let! s := state in
  let d := dbuffer (dctx (search s)) in
  let g := geom (drv (search s)) in
  let! name := lift (slice d (bam_name g) 16) in
  let! l := emit l (vdrive_dir_no_a0_pads name) in
  let! l := emit l [QUOTE; ch " "] in
  let! id := lift (slice d (bam_id g) 5) in
  emit l (vdrive_dir_no_a0_pads id).

Definition vdrive_dir_first_directory (cmd_parse : cbmdos_cmd_parse_plus_t) : ST listing_t Z :=
  let! s := state in
  let! l := (if small s =? 0 then start_search cmd_parse;; emit 0 [1; 8]
             else on_search load_header;; mret 0) in
  let! l := emit l [1; 1] in
  let! s := state in
  let! l := emit l [u8 (current_part (part (drv (search s)))); 0] in
  let! l := emit_title l in
  let! l := (if negb (small s =? 0) then emit l [ch " "; ch " "] else mret l) in
  let! l := emit l [0] in
  upd_listing (fun s => set_bufptr l (set_small 1 s));;
  mret (l - 1).

(** [sprintf("%02d", n)] of a byte *)
Definition digits (n : Z) : mem :=
  (if n <? 100 then [] else [ch "0" + n / 100])
  ++ [ch "0" + n / 10 mod 10; ch "0" + n mod 10].

(** The position of the first 0xa0 among 16 characters, else 16 *)
Fixpoint name_length (n : nat) (name : mem) (i : Z) : option Z :=
  match n with
  | O => Some i
  | S n => b ← getb name i; if b =? 0xa0 then Some i else name_length n name (i + 1)
  end.

(** The line number (the block count), the blanks, and the name in quotes: the
    position of the name. *)
Definition emit_entry (b0 b1 blocks : Z) (name : mem) : ST listing_t Z :=
  let! s := state in
  let! l := emit (bufptr s) [1; 1; b0; b1] in
  emit l (replicate 27 32 ++ [0]);;
  let l := l + (if blocks <? 10 then 1 else 0) + (if blocks <? 100 then 1 else 0) + 1 in
  let! l := emit l [QUOTE] in
  let! i := lift (name_length 16 name 0) in
  emit l (vdrive_dir_no_a0_pads name);;
  emit (l + i) [QUOTE];;
  mret l.

(** Hour on a 12-hour clock, and A or P *)
Definition twelve_hours (hour : Z) : Z * Z :=
  if hour =? 0 then (12, ch "A") else if hour =? 12 then (12, ch "P")
  else if 12 <? hour then (hour - 12, ch "P") else (hour, ch "A").

(** The date of an entry, short ([timemode] 1) or long, and the padding with 1: the
    length of the line. *)
Definition emit_date (p : mem) (l : Z) (type_text : mem) : ST listing_t Z :=
  let! s := state in
  let! hour := lift (getb p SLOT_GEOS_HOUR) in
  let! month := lift (getb p SLOT_GEOS_MONTH) in
  let! date := lift (getb p SLOT_GEOS_DATE) in
  let! minute := lift (getb p SLOT_GEOS_MINUTE) in
  let! ty := lift (getb p SLOT_TYPE_OFFSET) in
  let (hour, ap) := twelve_hours hour in
  upd_listing (set_small 1);;
  let! (l, last) :=
    (if timemode s =? 1 then
       let! c := lift (getb type_text 0) in
       emit (l + 18) [c];;
       emit (l + 19) ([ch " "] ++ digits month ++ [ch "/"] ++ digits date ++ [ch " "]
                      ++ digits hour ++ [ch "."] ++ digits minute ++ [ch " "; ap; 0]);;
       mret (l + 33, bufptr s + 41)
     else
       let! year := lift (getb p SLOT_GEOS_YEAR) in
       let! t := lift (slice type_text 0 3) in
       emit (l + 18) t;;
       emit (l + 21) [if negb (Z.land ty CBMDOS_FT_LOCKED =? 0) then ch "<" else ch " "];;
       emit (l + 22) ([ch " "; ch " "] ++ digits month ++ [ch "/"] ++ digits date ++ [ch "/"]
                      ++ digits (year mod 100) ++ [ch " "; ch " "; ch " "] ++ digits hour ++ [ch "."]
                      ++ digits minute ++ [ch " "; ap; ch "M"; 0]);;
       mret (l + 43, bufptr s + 63)) in
  let! l := emit l (replicate (Z.to_nat (last - l)) 1) in
  emit l [0];;
  mret (l - bufptr s).

(** One line; [None] when the block of 256 bytes is not yet full. *)
Definition list_entry (p : mem) : ST listing_t (option Z) :=
  let! b0 := lift (getb p SLOT_NR_BLOCKS) in
  let! b1 := lift (getb p (SLOT_NR_BLOCKS + 1)) in
  let! name := lift (slice p SLOT_NAME_OFFSET 16) in
  let! l := emit_entry b0 b1 (b0 + b1 * 256) name in
  let! ty := lift (getb p SLOT_TYPE_OFFSET) in
  emit (l + 17) [if negb (Z.land ty CBMDOS_FT_CLOSED =? 0) then ch " " else ch "*"];;
  let! type_text := lift (Cbmdos.cbmdos_filetype_get (Z.land ty 0x07)) in
  let! s := state in
  if negb (timemode s =? 0) then
    let! n := emit_date p l type_text in mret (Some n)
  else
    let! t := lift (slice type_text 0 3) in
    emit (l + 18) t;;
    emit (l + 21) [if negb (Z.land ty CBMDOS_FT_LOCKED =? 0) then ch "<" else ch " "];;
    upd_listing (set_bufptr (Z.land (bufptr s + 32) 255));;
    mret (if Z.land (bufptr s + 32) 255 =? 0 then Some 0 else None).

(** [vdrive_iec_switch]: the partition of a buffer, and its 1581 sub-partition *)
Definition vdrive_iec_switch (partition partstart partend : Z) : ST vdrive_t Z :=
  let! status := Partition.vdrive_switch partition in
  let! v := state in
  let g := geom v in
  (if (status =? 0) && (image_format g =? VDRIVE_IMAGE_FORMAT_1581)
      && (negb (Part_Start g =? partstart) || negb (Part_End g =? partend)) then
     Bam.vdrive_bam_write_bam;;
     upd_geom (fun g =>
       set_Header_Track partstart (set_Header_Sector 0 (set_Bam_Track partstart (set_Bam_Sector 0
         (set_Dir_Track partstart (set_Dir_Sector DIR_SECTOR_1581 (set_Part_Start partstart
           (set_Part_End partend g))))))));;
     Bam.vdrive_bam_setup_bam
   else mret tt);;
  mret status.

Definition switch_listing : ST listing_t Z :=
  let! s := state in on_ldrive (vdrive_iec_switch (partition s) (partstart s) (partend s)).

(** Another drive of the unit is listed next, if there is one. *)
Definition more_drives : ST listing_t unit :=
  let! s := state in
  if dir_count s =? 0 then mret tt
  else
    upd_listing (set_partition (Z.rem (dir_part s + 1) NUM_DRIVES));;
    let! r := switch_listing in
    (if negb (r =? 0) then upd_listing (set_dir_count 0) else mret tt);;
    upd_listing (set_partition (partition s));;
    switch_listing;;
    mret tt.

(** ["BLOCKS FREE."] *)
Definition list_end : ST listing_t Z :=
  upd_listing (fun s => set_dir_count (dir_count s - 1) s);;
  let! blocks := on_ldrive Bam.vdrive_bam_free_block_count in
  let! s := state in
  let! l := emit (bufptr s) [1; 1; u8 blocks; u8 (Z.shiftr blocks 8)] in
  emit l (str "BLOCKS FREE.");;
  emit (l + 12) (replicate 15 (ch " "));;
  more_drives;;
  let! s := state in
  (if negb (dir_count s =? 0) then
     upd_listing (fun s => set_small 1 (set_dir_part (Z.rem (dir_part s + 1) NUM_DRIVES)
                             (set_lmode BUFFER_DIRECTORY_MORE_READ s)))
   else emit (l + 25) [0; 0];; mret tt);;
  emit (l + 27) [0];;
  mret (bufptr s + 31).

(** The lines until the block of 256 bytes is full; without a wildcard the first match
    ends the search. [In_new_sector] does not occur: the length is not negative. *)
Fixpoint list_loop (fuel : nat) (have_wildcard : bool) : ST listing_t Z :=
  match fuel with
  | O => ub
  | S fuel =>
      let! r := on_search (vdrive_dir_find_next_slot fuel) in
      match r with
      | None => list_end
      | Some e =>
          (if negb have_wildcard then
             on_search (upd_dir (set_dslot 8));; on_search (put_dir 0 0)
           else mret tt);;
          let! s := state in
          let! p := (match e with
                     | In_slot p => mret p
                     | In_new_sector => lift (slice (dbuffer (dctx (search s))) 0 32)
                     end) in
          let! ty := lift (getb p SLOT_TYPE_OFFSET) in
          if negb (ty =? 0) then
            let! r := list_entry p in
            match r with Some n => mret n | None => list_loop fuel have_wildcard end
          else list_loop fuel have_wildcard
      end
  end.

(** Whether the pattern has wildcards is looked up over the whole length of the name. *)
Definition vdrive_dir_next_directory (fuel : nat) : ST listing_t Z :=
  let! s := state in
  let d := dctx (search s) in
  let! have_wildcard := lift (Cbmdos.cbmdos_parse_wildcard_check (find_nslot d) (find_length d)) in
  upd_listing (set_small 0);;
  list_loop fuel (negb (have_wildcard =? 0)).

(** ** Listing of the partitions of a CMD image *)

Definition vdrive_dir_part_find_first_slot (name : mem) (length type : Z) : ST search_t unit :=
  set_pattern name length type;;
  upd_dir (fun d => set_dtrack 1 (set_dsector 0 (set_dslot 7 d)));;
  put_dir 0 1;;
  put_dir 1 0.

Definition vdrive_dir_part_name_match (slot nslot : mem) (length type : Z) : option bool :=
  ty ← getb slot PSLOT_TYPE;
  if ty =? 0 then Some false
  else if negb (type =? 0) && negb (type =? ty) then Some false
  else
    r ← Cbmdos.cbmdos_parse_wildcard_compare nslot length (drop (Z.to_nat PSLOT_NAME) slot);
    Some (negb (r =? 0)).

Fixpoint part_search_loop (fuel : nat) : ST search_t (option mem) :=
  match fuel with
  | O => ub
  | S fuel =>
      let! r := next_entry in
      match r with
      | None => mret None
      | Some status =>
          if negb (status =? 0) then mret None
          else
            let! s := state in
            let d := dctx s in
            let! slot := lift (slice (dbuffer d) (dslot d * 32) 32) in
            let! m := lift (vdrive_dir_part_name_match slot (find_nslot d) (find_length d) (find_type d)) in
            if (m : bool) then mret (Some slot) else part_search_loop fuel
      end
  end.

Definition vdrive_dir_part_find_next_slot (fuel : nat) : ST search_t (option mem) := part_search_loop fuel.

Definition ptypes : list mem :=
  [str "SYS"; str "NAT"; str "41 "; str "71 "; str "81 "; str "C81"; str "PRN"; str "FOR"].

(** One line; the types are looked up by the type byte of the entry (255 is 0). *)
Definition list_part (p : mem) : ST listing_t (option Z) :=
  let! s := state in
  let d := dctx (search s) in
  let blocks := Z.lor (Z.shiftl (dsector d) 3) (dslot d) in
  let! name := lift (slice p PSLOT_NAME 16) in
  let! l := emit_entry (Z.land blocks 255) 0 blocks name in
  let! i := lift (getb p SLOT_TYPE_OFFSET) in
  let! t := lift (ptypes !! Z.to_nat (if i =? 255 then 0 else i)) in
  emit (l + 18) t;;
  upd_listing (set_bufptr (Z.land (bufptr s + 32) 255));;
  mret (if Z.land (bufptr s + 32) 255 =? 0 then Some 0 else None).

Fixpoint part_list_loop (fuel : nat) : ST listing_t Z :=
  match fuel with
  | O => ub
  | S fuel =>
      let! r := on_search (vdrive_dir_part_find_next_slot fuel) in
      match r with
      | None =>
          let! s := state in
          emit (bufptr s) [0; 0; 0];;
          mret (bufptr s + 3)
      | Some p =>
          let! ty := lift (getb p PSLOT_TYPE) in
          if negb (ty =? 0) then
            let! r := list_part p in
            match r with Some n => mret n | None => part_list_loop fuel end
          else part_list_loop fuel
      end
  end.

Definition vdrive_dir_part_next_directory (fuel : nat) : ST listing_t Z := part_list_loop fuel.

(** The partition type behind the ['=']. *)
Definition part_letter (b : Z) : Z :=
  if b =? ch "N" then 1 else if b =? ch "4" then 2 else if b =? ch "7" then 3
  else if b =? ch "8" then 4 else if b =? ch "C" then 5 else 0.

Definition vdrive_dir_part_first_directory (fuel : nat) (name : mem) (length : Z) : ST listing_t Z :=
  let (name, length) := if length <? 1 then (str "*" ++ [0], 1) else (name, length) in
  let! c := lift (Cbmdos.memchr name 0 (ch "=") length) in
  let! ptype := (match c with
                 | Some c => if c + 1 <? length
                             then let! b := lift (getb name (c + 1)) in mret (part_letter b)
                             else mret 0
                 | None => mret 0
                 end) in
  on_search (vdrive_dir_part_find_first_slot name (default length c) ptype);;
  let! l := emit 0 [1; 4; 1; 1; 255; 0] in
  emit (l + 25) [0];;
  let! l := emit l [0x12; QUOTE] in
  let! hd := on_ldrive (let! v := state in lift (VDrive.VDRIVE_IS_HD v)) in
  let! l := emit l (if (hd : bool) then str "CMD HD          " else str "CMD FD          ") in
  let! l := emit l [QUOTE; ch " "] in
  emit l (if (hd : bool) then str "HD 1H" else str "FD 1H");;
  upd_listing (set_bufptr 32);;
  vdrive_dir_part_next_directory fuel.

End directory.
End Directory.
