(* ===== verification/DirSpec.v ===== *)
(** * Specification of directories

    A search returns exactly the matching entries of the directory, in order, and
    ends; a directory linked in a circle makes it endless; three places where a
    listing leaves its memory. Concrete disks with a directory and a file are at the
    end. *)

From Stdlib Require Import Ascii String.
From S2P Require Import Prelude Geometry Image VDrive Bam BamSpec Cbmdos CbmdosSpec Partition Directory.
Import Directory.

Module DirSpec.

Section directory.
Context {platform : Platform}.

(** ** The entries of a directory *)

(** Sector [(t, s)] holds [b], and reading it leaves the drive as it is. *)
Definition reads (v : vdrive_t) (t s : Z) (b : mem) : Prop :=
  mlen b = 256 /\ forall buf, mlen buf = 256 ->
    VDrive.vdrive_read_sector buf t s v = Some ((CBMDOS_IPE_OK, b), v).

(** The chain of sectors that starts at [(t, s)] and ends with the link to track 0 *)
Inductive chain (v : vdrive_t) : Z -> Z -> list mem -> Prop :=
| chain_end s : chain v 0 s []
| chain_next t s b t' s' l : t <> 0 -> reads v t s b ->
    getb b 0 = Some t' -> getb b 1 = Some s' -> chain v t' s' l -> chain v t s (b :: l).

(** Entry [i] of a sector, and the entries from number [i] on *)
Definition entry (b : mem) (i : Z) : mem := take 32 (drop (Z.to_nat (i * 32)) b).
Definition entries_from (b : mem) (i : Z) : list mem := entry b <$> seqZ i (8 - i).
Definition entries (bs : list mem) : list mem := bs ≫= fun b => entries_from b 0.

(** What is left to search: the rest of the current sector, and the sectors it leads to. *)
Definition remaining (v : vdrive_t) (d : dir_t) (l : list mem) : Prop :=
  mlen (dbuffer d) = 256 /\ 0 <= dslot d <= 7 /\ mlen (find_nslot d) = 16 /\
  exists t s bs, getb (dbuffer d) 0 = Some t /\ getb (dbuffer d) 1 = Some s /\ chain v t s bs /\
    l = entries_from (dbuffer d) (dslot d + 1) ++ entries bs.

(** The entry matches name, type and date. *)
Definition hit (d : dir_t) (e : mem) : bool :=
  match vdrive_dir_name_match e (find_nslot d) (find_length d) (find_type d), slot_date e with
  | Some m, Some t => m && (time_low d <=? t) && (t <=? time_high d)
  | _, _ => false
  end.

(** The query of a context *)
Definition same_query (d d' : dir_t) : Prop :=
  find_length d' = find_length d /\ find_nslot d' = find_nslot d /\ find_type d' = find_type d /\
  time_low d' = time_low d /\ time_high d' = time_high d.

#[export] Instance same_query_preorder : PreOrder same_query.
Proof. split; [done|]. unfold same_query. intros d1 d2 d3 (-> & -> & -> & -> & ->). done. Qed.

Lemma hit_query d d' e : same_query d d' -> hit d' e = hit d e.
Proof. unfold hit. by intros (-> & -> & -> & -> & ->). Qed.

Lemma entry_slice b i : mlen b = 256 -> 0 <= i <= 7 ->
  slice b (i * 32) 32 = Some (entry b i) /\ mlen (entry b i) = 32.
Proof.
  intros Hb Hi. unfold slice, entry. rewrite !(proj2 (Z.leb_le _ _)) by lia.
  split; [done|]. unfold mlen in *. rewrite length_take, length_drop. lia.
Qed.

Lemma wildcard_total n : forall i pattern plen d, mlen pattern = 16 -> 16 <= mlen d -> 0 <= i ->
  i + Z.of_nat n <= 16 -> exists r, Cbmdos.wildcard_compare_from n i pattern plen d = Some r.
Proof.
  induction n as [|n IH]; intros i pattern plen d Hp Hd Hi Hn; cbn [Cbmdos.wildcard_compare_from].
  { by eexists. }
  destruct (getb_is_Some pattern i) as [c ->]; [lia|]. destruct (getb_is_Some d i) as [x ->]; [lia|].
  cbn [mbind option_bind].
  destruct (u32 plen <=? i); [by eexists|]. destruct (c =? ch "*"); [by eexists|].
  destruct (negb (c =? x)); [|apply IH; lia]. destruct (negb (c =? ch "?")); [by eexists|].
  destruct (x =? 160); [by eexists|]. apply IH; lia.
Qed.

Lemma match_slot_hit d : mlen (dbuffer d) = 256 -> 0 <= dslot d <= 7 -> mlen (find_nslot d) = 16 ->
  let e := entry (dbuffer d) (dslot d) in
  match_slot d = Some (if hit d e then Some e else None).
Proof.
  intros Hb Hs Hn e. unfold match_slot. destruct (entry_slice _ _ Hb Hs) as [-> Hle]. fold e in Hle |- *.
  cbn [mbind option_bind].
  assert (exists t, slot_date e = Some t) as [t Ht].
  { unfold slot_date. destruct (getb_is_Some e SLOT_GEOS_YEAR) as [? ->]; [by rewrite Hle|].
    destruct (getb_is_Some e SLOT_GEOS_MONTH) as [? ->]; [by rewrite Hle|].
    destruct (getb_is_Some e SLOT_GEOS_DATE) as [? ->]; [by rewrite Hle|].
    destruct (getb_is_Some e SLOT_GEOS_HOUR) as [? ->]; [by rewrite Hle|].
    destruct (getb_is_Some e SLOT_GEOS_MINUTE) as [? ->]; [by rewrite Hle|]. by eexists. }
  assert (exists m, vdrive_dir_name_match e (find_nslot d) (find_length d) (find_type d) = Some m)
    as [m Hm].
  { unfold vdrive_dir_name_match. destruct (getb_is_Some e SLOT_TYPE_OFFSET) as [ty ->]; [by rewrite Hle|].
    cbn [mbind option_bind]. destruct (find_length d <? 0); [by eexists|].
    destruct (ty =? 0); [by eexists|].
    destruct (negb (find_type d =? CBMDOS_FT_DEL) && negb (find_type d =? Z.land ty 7)); [by eexists|].
    unfold Cbmdos.cbmdos_parse_wildcard_compare.
    destruct (wildcard_total (Z.to_nat CBMDOS_SLOT_NAME_LENGTH) 0 (find_nslot d) (find_length d)
      (drop (Z.to_nat SLOT_NAME_OFFSET) e)) as [r ->]; [done| |lia|done|by eexists].
    unfold mlen in *. rewrite length_drop. change (Z.to_nat SLOT_NAME_OFFSET) with 5%nat. lia. }
  unfold hit. rewrite Hm, Ht. cbn [mbind option_bind]. by destruct m.
Qed.

Lemma entries_from_next b i : 0 <= i <= 7 -> entries_from b i = entry b i :: entries_from b (i + 1).
Proof.
  intros Hi. unfold entries_from. rewrite seqZ_cons by lia. cbn [fmap list_fmap].
  by replace (Z.pred (8 - i)) with (8 - (i + 1)) by lia.
Qed.

Lemma entries_from_end b : entries_from b 8 = [].
Proof. done. Qed.

Lemma upd_dir_run f v d : upd_dir f (Search v d) = Some (tt, Search v (f d)).
Proof. done. Qed.

Lemma get_dir_run v d i x : getb (dbuffer d) i = Some x -> get_dir i (Search v d) = Some (x, Search v d).
Proof. intros Hx. unfold get_dir, bindST, state, lift. cbn [dctx]. by rewrite Hx. Qed.

(** [next_entry] up to the test of the slot *)
Lemma next_entry_eq v d : dslot d + 1 < 4294967296 -> 0 <= dslot d ->
  next_entry (Search v d) =
    let d1 := set_dslot (dslot d + 1) d in
    (if 8 <=? dslot d + 1 then
       let! t := get_dir 0 in
       if t =? 0 then mret None
       else
         let! sec := get_dir 1 in
         upd_dir (fun d => set_dslot 0 (set_dtrack t (set_dsector sec d)));;
         let! status := read_dir in
         mret (Some status)
     else mret (Some 0)) (Search v d1).
Proof.
  intros H1 H2. unfold next_entry, mbind at 1, ST_bind.
  rewrite (bind_run _ _ _ _ _ (upd_dir_run _ v d)), u32_small by lia. done.
Qed.

Lemma read_dir_run v d t s b : reads v t s b -> dtrack d = t -> dsector d = s -> mlen (dbuffer d) = 256 ->
  read_dir (Search v d) = Some (CBMDOS_IPE_OK, Search v (set_dbuffer b d)).
Proof.
  intros [_ Hr] <- <- Hb. unfold read_dir, bindST, state, on_drive. cbn [drv dctx].
  by rewrite (Hr _ Hb).
Qed.

(** A step to the next entry *)
Lemma next_run v d e l : remaining v d (e :: l) ->
  exists d', next_entry (Search v d) = Some (Some 0, Search v d') /\ same_query d d' /\
    remaining v d' l /\ 0 <= dslot d' <= 7 /\ entry (dbuffer d') (dslot d') = e.
Proof.
  intros (Hb & Hs & Hn & t & sec & bs & Ht & Hsec & Hch & Hl). rewrite next_entry_eq by lia. cbv zeta.
  destruct (Z.eq_dec (dslot d) 7) as [Heq|Hne].
  - rewrite Heq in Hl |- *. change (7 + 1) with 8 in *. rewrite entries_from_end in Hl. cbn [app] in Hl.
    destruct Hch as [s0|t s0 b t' s' bs' Hne Hr Ht' Hs' Hch]; [done|].
    change (entries (b :: bs')) with (entries_from b 0 ++ entries bs') in Hl.
    rewrite (entries_from_next b 0) in Hl by lia. injection Hl as He Hl.
    change (8 <=? 8) with true. cbv iota.
    rewrite (bind_run _ _ _ _ _ (get_dir_run v (set_dslot 8 d) 0 t Ht)), (proj2 (Z.eqb_neq t 0)) by done.
    rewrite (bind_run _ _ _ _ _ (get_dir_run v (set_dslot 8 d) 1 s0 Hsec)).
    set (d1 := set_dslot 0 (set_dtrack t (set_dsector s0 (set_dslot 8 d)))).
    unfold mbind, ST_bind. rewrite (bind_run _ _ _ _ _ (upd_dir_run _ v (set_dslot 8 d))). fold d1.
    rewrite (bind_run _ _ _ _ _ (read_dir_run v d1 t s0 b Hr eq_refl eq_refl Hb)).
    exists (set_dbuffer b d1). split; [done|]. split; [done|].
    split; [|split; [cbn; lia|by rewrite He]].
    split; [apply Hr|]. split; [cbn; lia|]. split; [done|]. by exists t', s', bs'.
  - rewrite (entries_from_next _ (dslot d + 1)) in Hl by lia. injection Hl as He Hl.
    destruct (Z.leb_spec 8 (dslot d + 1)); [lia|].
    exists (set_dslot (dslot d + 1) d). split; [done|]. split; [done|].
    split; [|split; [cbn; lia|done]]. split; [done|]. split; [cbn; lia|]. split; [done|].
    by exists t, sec, bs.
Qed.

Lemma next_end v d : remaining v d [] -> next_entry (Search v d) = Some (None, Search v (set_dslot 8 d)).
Proof.
  intros (Hb & Hs & Hn & t & sec & bs & Ht & Hsec & Hch & Hl). rewrite next_entry_eq by lia. cbv zeta.
  assert (dslot d = 7) as Heq.
  { destruct (Z.eq_dec (dslot d) 7) as [|Hne]; [done|].
    by rewrite (entries_from_next _ (dslot d + 1)) in Hl by lia. }
  rewrite Heq in Hl |- *. destruct Hch as [s0|t s0 b t' s' bs' Hne Hr Ht' Hs' Hch]; [|done].
  change (7 + 1) with 8. change (8 <=? 8) with true. cbv iota.
  by rewrite (bind_run _ _ _ _ _ (get_dir_run v (set_dslot 8 d) 0 0 Ht)).
Qed.

(** The first match, and what is behind it *)
Fixpoint first_hit (h : mem -> bool) (l : list mem) : option (mem * list mem) :=
  match l with [] => None | e :: l => if h e then Some (e, l) else first_hit h l end.

Lemma search_step fuel k v d v1 d1 r : next_entry (Search v d) = Some (Some 0, Search v1 d1) ->
  match_slot d1 = Some r ->
  search_loop (S fuel) k (Search v d) =
    match r with
    | Some slot => Some (Some (Some slot), Search v1 d1)
    | None => if 0 <? k then if k - 1 =? 0 then Some (Some None, Search v1 d1)
                             else search_loop fuel (k - 1) (Search v1 d1)
              else search_loop fuel k (Search v1 d1)
    end.
Proof.
  intros Hn Hm. cbn [search_loop]. rewrite (bind_run _ _ _ _ _ Hn).
  change (negb (0 =? 0)) with false. cbv iota. unfold bindST, state, lift. cbn [dctx]. rewrite Hm.
  destruct r; [done|]. by destruct (0 <? k), (k - 1 =? 0).
Qed.

(** The search loop finds the first match. *)
Lemma search_run fuel : forall v d l, remaining v d l -> (length l < fuel)%nat ->
  exists d', same_query d d' /\
    match first_hit (hit d) l with
    | Some (e, l') => search_loop fuel (-1) (Search v d) = Some (Some (Some e), Search v d') /\
                      remaining v d' l'
    | None => search_loop fuel (-1) (Search v d) = Some (None, Search v d')
    end.
Proof.
  induction fuel as [|fuel IH]; intros v d l Hrem Hlen; [lia|].
  destruct l as [|e l]; cbn [first_hit].
  { exists (set_dslot 8 d). split; [done|]. cbn [search_loop].
    by rewrite (bind_run _ _ _ _ _ (next_end v d Hrem)). }
  destruct (next_run v d e l Hrem) as (d1 & Hnext & Hq & Hrem1 & Hslot & He).
  pose proof Hrem1 as (Hb1 & _ & Hn1 & _). pose proof (match_slot_hit d1 Hb1 Hslot Hn1) as Hm.
  cbv zeta in Hm. rewrite He, (hit_query d d1) in Hm by done.
  rewrite (search_step fuel (-1) v d v d1 _ Hnext Hm). destruct (hit d e); [by exists d1|].
  change (0 <? -1) with false. cbv iota.
  destruct (IH v d1 l Hrem1) as (d2 & Hq2 & Hres); [cbn in Hlen; lia|].
  exists d2. split; [by etrans|].
  assert (first_hit (hit d) l = first_hit (hit d1) l) as ->; [|done].
  clear -Hq. induction l as [|e l IH]; cbn [first_hit]; [done|]. by rewrite (hit_query d d1), IH.
Qed.

(** ** All entries *)

(** The results of a search one after the other, until it answers [NULL] *)
Fixpoint find_all (n fuel : nat) : ST search_t (list mem) :=
  match n with
  | O => mret []
  | S n => let! r := vdrive_dir_find_next_slot fuel in
           match r with
           | Some (In_slot e) => let! l := find_all n fuel in mret (e :: l)
           | _ => mret []
           end
  end.

Lemma first_hit_filter h l : List.filter h l =
  match first_hit h l with Some (e, l') => e :: List.filter h l' | None => [] end.
Proof. induction l as [|e l IH]; cbn [List.filter first_hit]; [done|]. by destruct (h e). Qed.

Lemma first_hit_length h l e l' : first_hit h l = Some (e, l') -> (length l' < length l)%nat.
Proof.
  induction l as [|x l IH]; cbn [first_hit length]; [done|]. destruct (h x); [intros [= _ ->]; lia|].
  intros Hf. specialize (IH Hf). lia.
Qed.

Lemma find_all_run n fuel : forall v d l, remaining v d l -> (length l < n)%nat -> (length l < fuel)%nat ->
  0 <= find_length d ->
  exists d', find_all n fuel (Search v d) = Some (List.filter (hit d) l, Search v d').
Proof.
  induction n as [|n IH]; intros v d l Hrem Hn Hf Hlen; [lia|]. cbn [find_all].
  destruct (search_run fuel v d l Hrem Hf) as (d1 & Hq & Hrun). rewrite first_hit_filter.
  unfold vdrive_dir_find_next_slot, vdrive_dir_find_next_slot_limited.
  destruct (first_hit (hit d) l) as [[e l']|] eqn:Hh.
  - destruct Hrun as [Hrun Hrem1]. unfold bindST at 1. rewrite (bind_run _ _ _ _ _ Hrun).
    pose proof (first_hit_length _ _ _ _ Hh). destruct (IH v d1 l' Hrem1) as (d2 & Hall);
      [lia|lia|by rewrite (proj1 Hq)|].
    exists d2. cbn [fmap option_fmap option_map mret ST_ret]. rewrite (bind_run _ _ _ _ _ Hall).
    cbn [mret ST_ret]. do 3 f_equal. apply List.filter_ext. intros x. by apply hit_query.
  - exists d1. unfold bindST at 1. rewrite (bind_run _ _ _ _ _ Hrun).
    unfold bindST, state. cbn [dctx]. rewrite (proj1 Hq), (proj2 (Z.ltb_ge _ _)) by lia. done.
Qed.

(** The sectors of the directory, and how the search gets to them *)
Definition directory (v : vdrive_t) (bs : list mem) : Prop :=
  exists h, reads v (Header_Track (geom v)) (Header_Sector (geom v)) h /\
    exists t s, chain v t s bs /\
      (t, s) = (if image_format (geom v) =? VDRIVE_IMAGE_FORMAT_NP
                then (default 0 (getb h 0), default 0 (getb h 1))
                else (u8 (Dir_Track (geom v)), u8 (Dir_Sector (geom v)))).

Lemma put_dir_run v d i x : 0 <= i < mlen (dbuffer d) ->
  put_dir i x (Search v d) = Some (tt, Search v (set_dbuffer (<[Z.to_nat i := u8 x]> (dbuffer d)) d)).
Proof. intros Hi. unfold put_dir, update. cbn [dctx]. by rewrite putb_eq. Qed.

Lemma load_header_run v d bs : directory v bs -> mlen (dbuffer d) = 256 -> mlen (find_nslot d) = 16 ->
  exists d', load_header (Search v d) = Some (tt, Search v d') /\ same_query d d' /\
    remaining v d' (entries bs).
Proof.
  intros (h & Hr & t & sec & Hch & Hts) Hb Hn. pose proof (proj1 Hr) as Hh.
  set (d1 := set_dtrack (Header_Track (geom v)) (set_dsector (Header_Sector (geom v)) (set_dslot 7 d))).
  unfold load_header. unfold bindST at 1, state. unfold mbind at 1, ST_bind.
  rewrite (bind_run _ _ _ _ _ (upd_dir_run _ v d)). cbn [drv]. fold d1.
  unfold mbind, ST_bind. rewrite (bind_run _ _ _ _ _ (read_dir_run v d1 _ _ h Hr eq_refl eq_refl Hb)).
  unfold bindST at 1, state. cbn [drv].
  destruct (image_format (geom v) =? VDRIVE_IMAGE_FORMAT_NP); cbn [negb].
  - exists (set_dbuffer h d1). split; [done|]. split; [done|].
    destruct (getb_is_Some h 0) as [x0 H0]; [lia|]. destruct (getb_is_Some h 1) as [x1 H1]; [lia|].
    rewrite H0, H1 in Hts. injection Hts as -> ->. split; [done|]. split; [cbn; lia|]. split; [done|].
    by exists x0, x1, bs.
  - injection Hts as -> ->. rewrite (bind_run _ _ _ _ _ (put_dir_run v (set_dbuffer h d1) 0 (Dir_Track (geom v)) ltac:(cbn; lia))).
    rewrite put_dir_run by (cbn; autorewrite with mem; lia).
    eexists. split; [done|]. split; [done|]. cbn [dbuffer set_dbuffer].
    split; [cbn; by autorewrite with mem|]. split; [cbn; lia|]. split; [done|].
    exists (u8 (Dir_Track (geom v))), (u8 (Dir_Sector (geom v))), bs. cbn [dbuffer set_dbuffer].
    rewrite !getb_insert by (autorewrite with mem; lia). split; [done|]. split; [done|]. by split.
Qed.

(** What a search looks for *)
Definition query (nslot : mem) (len type : Z) : dir_t :=
  Dir [] len nslot type 0 0 0 0 0xffffffff.

(** The entry of a file: its type byte and its name, cut to 16 characters and padded. *)
Definition named (e : mem) (ty : Z) (nm : mem) : Prop :=
  getb e SLOT_TYPE_OFFSET = Some ty /\ (160 ∉ nm) /\ bytes_ok e /\ mlen e = 32 /\
  exists rest, drop (Z.to_nat SLOT_NAME_OFFSET) e =
    take 16 nm ++ replicate (16 - length (take 16 nm)) 160 ++ rest.

Lemma date_range y mo d h mi : 0 <= y < 256 -> 0 <= mo < 256 -> 0 <= d < 256 -> 0 <= h < 256 ->
  0 <= mi < 256 -> 0 <= date_to_int y mo d h mi <= 0xffffffff.
Proof.
  intros ?????. unfold date_to_int. cbv zeta.
  assert (Hb : forall a b, 0 <= b < 256 -> 0 <= Z.lor (u32 a) b < 2 ^ 32).
  { intros a b Hb. apply lor_range; [lia|apply u32_range|lia]. }
  match goal with |- 0 <= Z.lor (u32 ?a) _ <= _ => pose proof (Hb a mi ltac:(done)) end. lia.
Qed.

Lemma getb_byte m i x : bytes_ok m -> getb m i = Some x -> 0 <= x < 256.
Proof. intros Hm [_ Hx]%getb_Some. by apply (Forall_lookup_1 _ _ _ _ Hm Hx). Qed.

Lemma slot_date_range e : bytes_ok e -> mlen e = 32 -> exists t, slot_date e = Some t /\ 0 <= t <= 0xffffffff.
Proof.
  intros He Hl. unfold slot_date.
  destruct (getb_is_Some e SLOT_GEOS_YEAR) as [y Hy]; [by rewrite Hl|].
  destruct (getb_is_Some e SLOT_GEOS_MONTH) as [mo Hmo]; [by rewrite Hl|].
  destruct (getb_is_Some e SLOT_GEOS_DATE) as [d Hd]; [by rewrite Hl|].
  destruct (getb_is_Some e SLOT_GEOS_HOUR) as [h Hh]; [by rewrite Hl|].
  destruct (getb_is_Some e SLOT_GEOS_MINUTE) as [mi Hmi]; [by rewrite Hl|].
  rewrite Hy, Hmo, Hd, Hh, Hmi. eexists. split; [done|]. by apply date_range; eapply getb_byte.
Qed.

(** The pattern of a search, as [cbmdos_dir_slot_create] makes it *)
Definition pattern_of (name : mem) : mem :=
  take 16 name ++ replicate (16 - length (take 16 name)) 160.

Lemma pattern_compare name e ty nm : 1 <= mlen name <= INT32_MAX -> 160 ∉ name -> named e ty nm ->
  exists b : bool, Cbmdos.cbmdos_parse_wildcard_compare (pattern_of name) (mlen name)
      (drop (Z.to_nat SLOT_NAME_OFFSET) e) = Some (b2z b) /\
    (b <-> CbmdosSpec.matches (take 16 name) (take 16 nm)).
Proof.
  intros Hlen Hname (_ & Hnm & _ & _ & rest & Hdrop). unfold INT32_MAX in Hlen.
  assert (Hsub : forall l : mem, 160 ∉ l -> 160 ∉ take 16 l).
  { intros l Hl Hin. apply Hl. rewrite <- (take_drop 16 l). apply elem_of_app. by left. }
  assert (length (take 16 nm) <= 16)%nat by (rewrite length_take; lia).
  apply CbmdosSpec.compare_matches with (rest := replicate (16 - length (take 16 name)) 160)
    (srest := rest); [done|lia|lia|done| |done|
     unfold mlen; change (Z.of_nat (Z.to_nat CBMDOS_SLOT_NAME_LENGTH)) with 16; lia|by apply Hsub|by apply Hsub].
  unfold mlen in *. rewrite length_take. lia.
Qed.

(** A name matches type and pattern. *)
Lemma hit_named name type e ty nm : 1 <= mlen name <= INT32_MAX -> 160 ∉ name -> named e ty nm ->
  hit (query (pattern_of name) (mlen name) type) e = true <->
    ty <> 0 /\ (type = CBMDOS_FT_DEL \/ type = Z.land ty 7) /\
    CbmdosSpec.matches (take 16 name) (take 16 nm).
Proof.
  intros Hlen Hname Hnamed. pose proof Hnamed as (Hty & _ & Hbytes & Hl & _). unfold hit, query.
  cbn [find_nslot find_length find_type time_low time_high].
  destruct (slot_date_range e Hbytes Hl) as (t & -> & Ht).
  destruct (pattern_compare name e ty nm Hlen Hname Hnamed) as (b & Hb & Hmat).
  unfold vdrive_dir_name_match. rewrite Hty, Hb. cbn [mbind option_bind].
  rewrite (proj2 (Z.ltb_ge (mlen name) 0)) by lia.
  rewrite !(proj2 (Z.leb_le _ _)) by lia. rewrite <- Hmat.
  destruct (Z.eqb_spec ty 0) as [->|Hty0]; [by split; [|intros [? _]]|].
  destruct (Z.eqb_spec type CBMDOS_FT_DEL) as [->|Hdel]; cbn [negb andb];
    [|destruct (Z.eqb_spec type (Z.land ty 7)) as [->|Hne]; cbn [negb andb]].
  - destruct b; cbn; split; try done; [intros _|by intros (_ & _ & ?)].
    split; [done|]. split; [by left|done].
  - destruct b; cbn; split; try done; [intros _|by intros (_ & _ & ?)].
    split; [done|]. split; [by right|done].
  - split; [done|]. by intros (_ & [?|?] & _).
Qed.

Lemma find_first_run v d name type bs : directory v bs -> mlen (dbuffer d) = 256 -> 1 <= mlen name ->
  exists d', vdrive_dir_find_first_slot name (mlen name) type (Search v d) = Some (tt, Search v d') /\
    same_query (query (pattern_of name) (mlen name) type) d' /\ remaining v d' (entries bs).
Proof.
  intros Hdir Hb Hlen. unfold vdrive_dir_find_first_slot, set_pattern.
  rewrite (proj2 (Z.ltb_lt 0 (mlen name))) by lia. unfold mbind, ST_bind.
  set (d1 := set_time_low 0 (set_time_high 0xffffffff (set_find_length (mlen name)
    (set_find_type type (set_find_nslot (pattern_of name) d))))).
  assert (Hn : mlen (find_nslot d1) = 16).
  { cbn. unfold pattern_of. autorewrite with mem. unfold mlen. rewrite length_take. lia. }
  destruct (load_header_run v d1 bs Hdir Hb Hn) as (d2 & Hrun & Hq & Hrem).
  exists d2. split; [|split; [by etrans|done]].
  rewrite (bind_run _ _ _ tt (Search v (set_find_length (mlen name) (set_find_type type
    (set_find_nslot (pattern_of name) d))))); [exact Hrun|].
  unfold bindST, lift. by rewrite CbmdosSpec.slot_create_eq.
Qed.

(** C9: a search returns all matching entries of the directory and ends: the results
    of [vdrive_dir_find_next_slot] after [vdrive_dir_find_first_slot] are exactly the
    entries that match, in the order of the directory, followed by [NULL]; the drive
    stays as it is. An entry of a file matches exactly when it is in use, has the type
    asked for ([CBMDOS_FT_DEL] asks for any), and its name matches the pattern. *)
Theorem search_enumerates v d name type bs n fuel : directory v bs -> mlen (dbuffer d) = 256 ->
  1 <= mlen name <= INT32_MAX -> 160 ∉ name ->
  (length (entries bs) < n)%nat -> (length (entries bs) < fuel)%nat ->
  let matching := hit (query (pattern_of name) (mlen name) type) in
  (exists d', (vdrive_dir_find_first_slot name (mlen name) type;; find_all n fuel) (Search v d)
     = Some (List.filter matching (entries bs), Search v d')) /\
  forall e ty nm, named e ty nm -> matching e = true <->
    ty <> 0 /\ (type = CBMDOS_FT_DEL \/ type = Z.land ty 7) /\
    CbmdosSpec.matches (take 16 name) (take 16 nm).
Proof.
  intros Hdir Hb Hlen Hname Hn Hf matching. split.
  - destruct (find_first_run v d name type bs) as (d1 & Hfirst & Hq & Hrem); [done|done|lia|].
    destruct (find_all_run n fuel v d1 (entries bs) Hrem Hn Hf) as (d2 & Hall).
    { rewrite (proj1 Hq). cbn. lia. }
    exists d2. unfold mbind, ST_bind. rewrite (bind_run _ _ _ _ _ Hfirst), Hall.
    assert (List.filter (hit d1) (entries bs) = List.filter matching (entries bs)) as ->; [|done].
    apply List.filter_ext. intros e. by apply hit_query.
  - intros e ty nm Hnamed. by apply hit_named.
Qed.

(** ** Directories linked in a circle *)

(** A set of sectors without a match, closed under the links *)
Definition circle (v : vdrive_t) (d : dir_t) (ring : list (Z * Z)) : Prop :=
  forall t s, (t, s) ∈ ring -> t <> 0 /\ exists b t' s', reads v t s b /\
    getb b 0 = Some t' /\ getb b 1 = Some s' /\ (t', s') ∈ ring /\
    forall i, 0 <= i <= 7 -> hit d (entry b i) = false.

Lemma circle_query v d d' ring : same_query d d' -> circle v d ring -> circle v d' ring.
Proof.
  intros Hq Hc t s Hin. destruct (Hc t s Hin) as (Hne & b & t' & s' & Hr & Ht & Hs & Hin' & Hh).
  split; [done|]. exists b, t', s'. split; [done|]. split; [done|]. split; [done|]. split; [done|].
  intros i Hi. rewrite (hit_query d d') by done. by apply Hh.
Qed.

(** In the middle of a circle, behind entry [dslot] *)
Definition in_circle (v : vdrive_t) (d : dir_t) (ring : list (Z * Z)) : Prop :=
  mlen (dbuffer d) = 256 /\ 0 <= dslot d <= 7 /\ mlen (find_nslot d) = 16 /\
  (exists t s, getb (dbuffer d) 0 = Some t /\ getb (dbuffer d) 1 = Some s /\ (t, s) ∈ ring) /\
  forall i, dslot d < i <= 7 -> hit d (entry (dbuffer d) i) = false.

Lemma circle_step v d ring : circle v d ring -> in_circle v d ring ->
  exists d', next_entry (Search v d) = Some (Some 0, Search v d') /\ same_query d d' /\
    in_circle v d' ring /\ hit d' (entry (dbuffer d') (dslot d')) = false.
Proof.
  intros Hc (Hb & Hs & Hn & (t & s & Ht & Hsec & Hin) & Hh). rewrite next_entry_eq by lia. cbv zeta.
  destruct (Z.eq_dec (dslot d) 7) as [Heq|Hne].
  - rewrite Heq. change (7 + 1) with 8. change (8 <=? 8) with true. cbv iota.
    destruct (Hc t s Hin) as (Hne & b & t' & s' & Hr & Ht' & Hs' & Hin' & Hh').
    rewrite (bind_run _ _ _ _ _ (get_dir_run v (set_dslot 8 d) 0 t Ht)), (proj2 (Z.eqb_neq t 0)) by done.
    rewrite (bind_run _ _ _ _ _ (get_dir_run v (set_dslot 8 d) 1 s Hsec)).
    set (d1 := set_dslot 0 (set_dtrack t (set_dsector s (set_dslot 8 d)))).
    unfold mbind, ST_bind. rewrite (bind_run _ _ _ _ _ (upd_dir_run _ v (set_dslot 8 d))). fold d1.
    rewrite (bind_run _ _ _ _ _ (read_dir_run v d1 t s b Hr eq_refl eq_refl Hb)).
    exists (set_dbuffer b d1). split; [done|]. split; [done|]. split; [|apply Hh'; cbn; lia].
    split; [apply Hr|]. split; [cbn; lia|]. split; [done|]. split; [by exists t', s'|].
    intros i Hi. apply Hh'. cbn in Hi. lia.
  - destruct (Z.leb_spec 8 (dslot d + 1)); [lia|].
    exists (set_dslot (dslot d + 1) d). split; [done|]. split; [done|].
    split; [|apply Hh; cbn; lia]. split; [done|]. split; [cbn; lia|]. split; [done|].
    split; [by exists t, s|]. intros i Hi. apply Hh. cbn in Hi. lia.
Qed.

(** C35: in a directory whose sectors are linked in a circle, a search without a match
    never ends: it uses up any number of steps. *)
Theorem search_circular fuel v d ring : circle v d ring -> in_circle v d ring ->
  vdrive_dir_find_next_slot fuel (Search v d) = None.
Proof.
  intros Hc Hin. unfold vdrive_dir_find_next_slot, vdrive_dir_find_next_slot_limited.
  assert (Hloop : forall d, circle v d ring -> in_circle v d ring -> search_loop fuel (-1) (Search v d) = None).
  { clear d Hc Hin. induction fuel as [|fuel IH]; intros d Hc Hin; [done|].
    destruct (circle_step v d ring Hc Hin) as (d1 & Hnext & Hq & Hin1 & Hh).
    pose proof Hin1 as (Hb & Hs & Hn & _). pose proof (match_slot_hit d1 Hb Hs Hn) as Hm.
    cbv zeta in Hm. rewrite Hh in Hm. rewrite (search_step fuel (-1) v d v d1 None Hnext Hm).
    change (0 <? -1) with false. cbv iota. apply IH; [by eapply circle_query|done]. }
  unfold bindST. by rewrite Hloop.
Qed.

(** ** Listings that leave their memory *)

Lemma memchr_in_bound l p c n q : Cbmdos.memchr_in l p c n = Some (Some q) -> p <= q < p + n.
Proof.
  revert p n. induction l as [|b l IH]; intros p n; cbn [Cbmdos.memchr_in];
    destruct (Z.leb_spec n 0); try done.
  destruct (b =? c); [intros [= <-]; lia|]. intros Hq%IH. lia.
Qed.

Lemma options_freed n c limit filetype l : c < limit -> parse_options (S n) None c limit filetype l = None.
Proof. intros Hc. cbn [parse_options]. by rewrite (proj2 (Z.ltb_lt _ _) Hc). Qed.

(** A directory pattern with options behind an ['='] is read after it has been
    freed: whenever the name holds an ['='], listing the directory accesses freed
    memory. *)
Theorem options_after_free cmd_parse l name length c : small l = 0 ->
  listing_name cmd_parse = Some (name, length) -> 0 <= length < 2 ^ 32 ->
  Cbmdos.memchr name 0 (ch "=") length = Some (Some c) ->
  vdrive_dir_first_directory cmd_parse l = None.
Proof.
  intros Hsmall Hname Hlen Hc.
  assert (Hstart : start_search cmd_parse l = None).
  { unfold start_search. unfold bindST at 1, lift. rewrite Hname. unfold bindST at 1. rewrite Hc.
    assert (0 <= c < length).
    { unfold Cbmdos.memchr in Hc. destruct ((0 <=? 0) && (0 <=? mlen name)); [|done].
      apply memchr_in_bound in Hc. rewrite u32_small in Hc by lia. lia. }
    unfold mbind, ST_bind, bindST at 1. destruct (on_search _ l) as [[? l1]|]; [|done].
    unfold bindST at 1. replace (Z.to_nat length) with (S (Z.to_nat (length - 1))) by lia.
    by rewrite options_freed by lia. }
  unfold vdrive_dir_first_directory. unfold bindST at 1, state. rewrite Hsmall. change (0 =? 0) with true.
  cbv iota. unfold bindST at 1. unfold mbind at 1, ST_bind. unfold bindST at 1. by rewrite Hstart.
Qed.

Definition no_wildcard (l : mem) : Prop := forall x, x ∈ l -> x <> ch "*" /\ x <> ch "?".

Lemma check_overrun n : forall i name, 0 <= i <= mlen name -> mlen name < i + Z.of_nat n ->
  no_wildcard name -> Cbmdos.wildcard_check_from n i name = None.
Proof.
  induction n as [|n IH]; intros i name Hi Hn Hw; [lia|]. cbn [Cbmdos.wildcard_check_from].
  destruct (getb name i) as [c|] eqn:Hc; [|done]. cbn [mbind option_bind].
  pose proof (getb_lt _ _ _ Hc). apply getb_Some in Hc as [_ Hc].
  destruct (Hw c) as [H1 H2]; [by eapply list_elem_of_lookup_2|].
  rewrite (proj2 (Z.eqb_neq c _) H1), (proj2 (Z.eqb_neq c _) H2). cbn [orb]. apply IH; [lia|lia|done].
Qed.

(** A listing whose pattern is longer than 16 characters, without a wildcard among the
    first 16, reads behind the 16 bytes of the name it keeps: the length that is checked
    for wildcards is the length of the pattern as it was given. *)
Theorem pattern_overrun fuel l name type : 16 < mlen name -> no_wildcard (take 16 name) ->
  same_query (query (pattern_of name) (mlen name) type) (dctx (search l)) ->
  vdrive_dir_next_directory fuel l = None.
Proof.
  intros Hlen Hw (Hfl & Hns & _). unfold vdrive_dir_next_directory. unfold bindST at 1, state.
  rewrite Hfl, Hns. cbn [query find_length find_nslot].
  assert (Hpat : pattern_of name = take 16 name).
  { unfold pattern_of, mlen in *. rewrite length_take, Nat.min_l by lia. by rewrite app_nil_r. }
  unfold bindST at 1, lift, Cbmdos.cbmdos_parse_wildcard_check.
  rewrite Hpat, check_overrun; [done| | |done]; unfold mlen in *; rewrite length_take; lia.
Qed.

(** Listing a partition whose type is none of the eight known ones (and not 255) reads
    outside the table of the type names. *)
Theorem part_type_overrun p l ty : getb p PSLOT_TYPE = Some ty -> 8 <= ty < 255 -> list_part p l = None.
Proof.
  intros Hty Hr. unfold list_part. unfold bindST at 1, state. cbv zeta.
  unfold bindST at 1, lift at 1. destruct (slice p PSLOT_NAME 16) as [name|]; [|done].
  unfold bindST at 1. destruct (emit_entry _ _ _ name l) as [[pos l1]|]; [|done].
  unfold bindST at 1, lift at 1. change SLOT_TYPE_OFFSET with PSLOT_TYPE. rewrite Hty.
  rewrite (proj2 (Z.eqb_neq ty 255)) by lia. unfold bindST at 1, lift at 1.
  rewrite (lookup_ge_None_2 ptypes); [done|]. change (length ptypes) with 8%nat. lia.
Qed.

(** Reading a sector of an image without an error map *)
Lemma reads_image v image t s : VDrive.drive_ok v image -> map_ image = None -> image_mode v = 0 ->
  VDrive.vdrive_log_to_phy v t s = Some (Some (t, s)) ->
  Image.covered image t s -> Image.present image t s -> reads v t s (Image.sector_data image t s).
Proof.
  intros Hd Hnomap Hmode Hmap Hcov Hpres. split.
  { destruct (Image.wf_fd _ (VDrive.dk_wf _ _ Hd)) as (f & Hf & _).
    unfold Image.sector_data, mlen. by rewrite Hf, Image.length_f_bytes. }
  intros buf Hbuf. rewrite (VDrive.read_sector_run _ _ _ _ _ _ _ Hd Hmap).
  rewrite Image.read_sector_eq by (done || apply Hd). unfold Image.map_code. rewrite Hnomap.
  cbn [mbind option_bind]. change (Image.soft_error CBMDOS_FDC_ERR_OK) with true. cbv iota.
  do 2 f_equal. destruct v. cbn in Hmode. by subst.
Qed.

End directory.
End DirSpec.

(** ** Concrete disks *)

(** A directory sector with two files and a scratched one, linked to [(t, s)] *)
Definition name_field (l : mem) : mem := l ++ replicate (16 - length l) 160.

Definition dir_sector (t s : Z) : mem :=
  [t; s; 0x82; 1; 0] ++ name_field (str "NOTES") ++ replicate 11 0 ++
  [0; 0; 0x81; 1; 1] ++ name_field (str "LETTER") ++ replicate 11 0 ++
  [0; 0; 0; 1; 2] ++ name_field (str "NEWS") ++ replicate 11 0.

(** A D64 with this sector as directory, and a file of two sectors from [(1, 0)] *)
Definition disk_data (t s i : Z) : Z :=
  if i / 256 =? 358 then nth (Z.to_nat (i mod 256)) (dir_sector t s) 0
  else if i =? 0 then 1 else if i =? 1 then 5 else 0.

Definition files_d64 (t s : Z) : disk_image_t :=
  DiskImage 0 DISK_IMAGE_DEVICE_FS DISK_IMAGE_TYPE_D64 35 0 84
    (Some (File 174848 (disk_data t s) true)) None 0.

(** Its drive: no sector of track 1 is free. *)
Definition bam_files : mem :=
  [18; 1; 65; 0] ++ [0; 0; 0; 0] ++ concat (replicate 34 [21; 255; 255; 31]) ++ replicate 112 0.

Definition drive_files (t s : Z) : vdrive_t :=
  VDrive 8 (Some (files_d64 t s)) true 0
    (Geom VDRIVE_IMAGE_FORMAT_1541 18 0 144 162 18 0 18 1 35 1 35)
    (Bamc (Some bam_files) 256 (0 :: replicate 32 (-1)) (18 :: replicate 32 (-1)) (0 :: replicate 32 (-1)))
    (part1 0 false) 0 (zeros 2048) 0 0 0.

Lemma files_d64_wf t s : Image.image_wf (files_d64 t s).
Proof.
  split; [reflexivity|apply (bool_decide_eq_true_1 _); vm_compute; reflexivity|reflexivity| |].
  - eexists. split; reflexivity.
  - intros m Hm. discriminate Hm.
Qed.

Lemma drive_files_ok t s : VDrive.drive_ok (drive_files t s) (files_d64 t s).
Proof. split; [reflexivity|reflexivity|apply files_d64_wf|reflexivity]. Qed.

Ltac solve_read := apply DirSpec.reads_image;
  [apply drive_files_ok|reflexivity|reflexivity|vm_compute; reflexivity|solve_covered
  |eexists; split; [reflexivity|vm_compute; congruence]].

Definition empty_dir : dir_t := Dir (zeros 256) 0 [] 0 0 0 0 0 0.

Definition dir_data (t s : Z) : mem := Image.sector_data (files_d64 t s) 18 1.

Lemma search_enumerates_witness : exists d',
  (Directory.vdrive_dir_find_first_slot (str "N*") 2 CBMDOS_FT_DEL;; DirSpec.find_all 9 9)
    (Search (drive_files 0 255) empty_dir)
  = Some ([DirSpec.entry (dir_data 0 255) 0], Search (drive_files 0 255) d').
Proof.
  destruct (DirSpec.search_enumerates (drive_files 0 255) empty_dir (str "N*") CBMDOS_FT_DEL
    [dir_data 0 255] 9 9) as [(d' & Hrun) _].
  - exists (Image.sector_data (files_d64 0 255) 18 0). split; [solve_read|]. exists 18, 1.
    split; [|reflexivity].
    apply (DirSpec.chain_next _ 18 1 (dir_data 0 255) 0 255 []);
      [congruence|solve_read|reflexivity|reflexivity|constructor].
  - reflexivity.
  - vm_compute. split; congruence.
  - apply (bool_decide_eq_true_1 _). vm_compute. reflexivity.
  - apply Nat.ltb_lt. vm_compute. reflexivity.
  - apply Nat.ltb_lt. vm_compute. reflexivity.
  - exists d'. exact Hrun.
Defined.

(** The directory context in front of the first entry *)
Definition start_dir (t s : Z) : dir_t :=
  Dir (dir_data t s) 1 (DirSpec.pattern_of (str "X")) CBMDOS_FT_DEL 7 18 1 0 0xffffffff.

Lemma search_circular_witness :
  Directory.vdrive_dir_find_next_slot 1000 (Search (drive_files 18 1) (start_dir 18 1)) = None.
Proof.
  apply (DirSpec.search_circular 1000 (drive_files 18 1) (start_dir 18 1) [(18, 1)]).
  - intros t s Hin. apply list_elem_of_singleton in Hin. injection Hin as -> ->. split; [congruence|].
    exists (dir_data 18 1), 18, 1. split; [solve_read|]. split; [reflexivity|]. split; [reflexivity|].
    split; [constructor|]. intros i Hi. apply negb_true_iff.
    apply (Zrange_forallb (fun i => negb (DirSpec.hit (start_dir 18 1) (DirSpec.entry (dir_data 18 1) i))) 0 8);
      [vm_compute; reflexivity|lia].
  - split; [reflexivity|]. split; [cbn; lia|]. split; [reflexivity|].
    split; [|cbn; intros i Hi; lia]. exists 18, 1. split; [reflexivity|]. split; [reflexivity|constructor].
Defined.

(** Listing ["$:X=P"] *)
Definition listing_of (search : search_t) : listing_t := Listing search (zeros 512) 0 0 0 0 0 0 0 0 0.

Lemma pattern_overrun_witness :
  Directory.vdrive_dir_next_directory 1000
    (listing_of (Search (drive_files 0 255) (DirSpec.query (str "ABCDEFGHIJKLMNOP") 17 0))) = None.
Proof.
  apply (DirSpec.pattern_overrun 1000 _ (str "ABCDEFGHIJKLMNOPQ") 0); [reflexivity| |split_and!; reflexivity].
  refine (proj1 (Forall_forall (fun x => x <> ch "*" /\ x <> ch "?") _) _).
  apply (bool_decide_eq_true_1 _). vm_compute. reflexivity.
Defined.

Definition options_parse : cbmdos_cmd_parse_plus_t :=
  CmdParsePlus None 0 0 0 0 None 0 None 0 None 0 (Some (str "X=P" ++ [0])) 3 None 0 0 0 0 0.

Lemma options_after_free_witness :
  Directory.vdrive_dir_first_directory options_parse (listing_of (Search (drive_files 0 255) empty_dir)) = None.
Proof.
  apply (DirSpec.options_after_free options_parse _ (str "X=P" ++ [0]) 3 1); [reflexivity|reflexivity|lia|reflexivity].
Defined.

Lemma part_type_overrun_witness :
  Directory.list_part (replicate 2 0 ++ [8] ++ replicate 29 65)
    (listing_of (Search (drive_files 0 255) empty_dir)) = None.
Proof. apply (DirSpec.part_type_overrun _ _ 8); [reflexivity|lia]. Defined.
