(* ===== verification/ScratchSpec.v ===== *)
(** * Specification of scratching

    The two calls with which [vdrive_dir_remove_slot] and the command for scratching release
    the sectors of a file and its side sectors end as long as the links stay on sectors that the
    BAM and the error map have, and release the sectors of proper chains. *)

From S2P Require Import Prelude Geometry Image VDrive Bam BamSpec BamAlloc AllocSpec Partition Directory DirSpec.
Import Bam BamSpec Directory.

Module ScratchSpec.
Import AllocSpec.

Section scratch.
Context {platform : Platform}.

(** Releasing a sector: the answer, and the free set *)
Lemma free_law v t s : inv v -> valid v t s ->
  wp (vdrive_bam_free_sector t s)
    (fun r v' => r = b2z (bool_decide ((t, s) ∉ free v)) /\ inv v' /\ frame v v' /\
                 free v' = free v ∪ {[(t, s)]}) v.
Proof.
  intros (b & Hok) Ha. destruct (free_run v b t s Hok Ha) as (v' & b' & Hrun & Hok' & Htr & Hset & _).
  apply wp_run. eexists _, v'. split; [exact Hrun|].
  rewrite (free_ok _ _ Hok), (free_ok _ _ Hok'), (frame_geom _ _ (tracked_frame _ _ _ _ Hok Htr)).
  split; [|split; [by exists b'|split; [by eapply tracked_frame|done]]].
  rewrite free_bit_set by done. by rewrite <- bool_decide_not.
Qed.

(** The sectors that are not free *)
Definition taken (v : vdrive_t) : gset (Z * Z) :=
  list_to_set (addresses (image_format (geom v))) ∖ free v.

Lemma elem_of_taken v t s : (t, s) ∈ taken v <-> valid v t s /\ (t, s) ∉ free v.
Proof. unfold taken. by rewrite elem_of_difference, elem_of_list_to_set, elem_of_addresses. Qed.

(** Releasing goes on behind every sector of the image, whatever its status. *)
Definition walks (image : disk_image_t) (t s rc : Z) : Prop := Geometry.valid_address (di_type image) t s.

(** A proper chain from [(t, s)]: sectors of the image that can be read, up to a link to track 0 *)
Inductive chained (v : vdrive_t) (image : disk_image_t) : Z -> Z -> list (Z * Z) -> Prop :=
  | chained_end s : chained v image 0 s []
  | chained_next t s b t' s' l :
      t <> 0 -> Geometry.valid_address (di_type image) t s ->
      (forall tmp, mlen tmp = 256 -> read_logical v image tmp t s = Some (0, b)) ->
      getb b 0 = Some t' -> getb b 1 = Some s' -> chained v image t' s' l ->
      chained v image t s ((t, s) :: l).

Lemma chained_det v image t s c : chained v image t s c -> forall c', chained v image t s c' -> c = c'.
Proof.
  induction 1 as [s|t s b t' s' l Hnz Hv Hrd H0 H1 Hl IH]; intros c' Hc'; inversion Hc' as [|? ? b2 ? ? ? ? ? Hrd2]; subst; try done.
  specialize (Hrd (replicate 256 0) ltac:(done)). rewrite (Hrd2 (replicate 256 0) ltac:(done)) in Hrd. injection Hrd as ->.
  simplify_eq. f_equal. by apply IH.
Qed.

Lemma chained_suffix v image t s c : chained v image t s c -> forall k a, c !! k = Some a -> chained v image a.1 a.2 (drop k c).
Proof.
  induction 1 as [s|t s b t' s' l Hnz Hv Hrd H0 H1 Hl IH]; intros k a Hk; [done|].
  destruct k as [|k]; [|by apply IH]. injection Hk as <-. by eapply chained_next.
Qed.

Lemma chained_nodup v image t s c : chained v image t s c -> NoDup c.
Proof.
  induction 1 as [s|t s b t' s' l Hnz Hv Hrd H0 H1 Hl IH]; constructor; [|done].
  intros (k & Hk)%list_elem_of_lookup. pose proof (chained_suffix _ _ _ _ _ Hl k _ Hk) as Hsuf. cbn in Hsuf.
  pose proof (chained_det _ _ _ _ _ Hsuf _ (chained_next _ _ _ _ _ _ _ _ Hnz Hv Hrd H0 H1 Hl)) as Heq.
  apply (f_equal length) in Heq. rewrite length_drop in Heq. cbn [length] in Heq. lia.
Qed.

(** A sector that two proper chains share has the same sectors behind it in both. *)
Lemma chained_shared v image t s c t' s' c' k a : chained v image t s c -> chained v image t' s' c' ->
  c !! k = Some a -> a ∈ c' -> forall x, x ∈ drop k c -> x ∈ c'.
Proof.
  intros Hc Hc' Hk (k' & Hk')%list_elem_of_lookup x Hx.
  rewrite (chained_det _ _ _ _ _ (chained_suffix _ _ _ _ _ Hc k a Hk) _ (chained_suffix _ _ _ _ _ Hc' k' a Hk')) in Hx.
  rewrite <- (take_drop k' c'). apply elem_of_app. by right.
Qed.

(** What is released from [v] on: sectors that were allocated and that the links lead to; a proper
    chain up to its first sector that is free *)
Definition released (v0 v : vdrive_t) (image : disk_image_t) (buf : mem) (t s : Z) (v' : vdrive_t) : Prop :=
  inv v' /\ frame v v' /\ exists l, list_to_set l ⊆ taken v /\ free v' = free v ∪ list_to_set l /\
    (forall a, a ∈ l -> reached (walks image) v0 image buf t s a) /\
    (forall c, chained v0 image t s c -> exists k, list_to_set l = (list_to_set (take k c) : gset (Z * Z)) /\
       forall a, c !! k = Some a -> a ∈ free v).

Lemma released_none v0 v image buf t s v' : inv v' -> frame v v' -> free v' = free v ->
  (forall c a, chained v0 image t s c -> c !! 0%nat = Some a -> a ∈ free v) -> released v0 v image buf t s v'.
Proof.
  intros Hi Hf Hfr Hc. split; [done|]. split; [done|]. exists []. split; [set_solver|]. split; [set_solver|].
  split; [set_solver|]. intros c Hch. exists 0%nat. split; [done|]. intros a. by apply Hc.
Qed.

Lemma size_remove (X : gset (Z * Z)) a : a ∈ X -> (size (X ∖ {[a]}) < size X)%nat.
Proof.
  intros Ha. rewrite size_difference by set_solver. rewrite size_singleton.
  assert (size X <> 0%nat) by (apply size_non_empty_iff; set_solver). lia.
Qed.

Lemma released_cons v0 v v3 image buf t s buf' t' s' rc v' : t <> 0 -> Geometry.valid_address (di_type image) t s ->
  (t, s) ∈ taken v -> mlen buf = 256 -> frame v v3 -> free v3 = free v ∪ {[(t, s)]} ->
  read_logical v0 image buf t s = Some (rc, buf') -> getb buf' 0 = Some t' -> getb buf' 1 = Some s' ->
  released v0 v3 image buf' t' s' v' -> released v0 v image buf t s v'.
Proof.
  intros Hnz Hv Hin Hbuf Hfr3 Hf3 Hrd Ht' Hs' (Hinv' & Hfr' & l & Hsub & Hf' & Hreach & Hl).
  assert (Htaken : taken v3 = taken v ∖ {[(t, s)]}) by (unfold taken; rewrite Hf3, (frame_geom _ _ Hfr3); clear; set_solver).
  rewrite Htaken in Hsub. rewrite Hf3 in Hf'. split; [done|]. split; [by etrans|].
  destruct (decide (t' = 0)) as [->|Hne'].
  - (* the chain ends here *)
    assert (list_to_set l = (∅ : gset (Z * Z))) as Hl0.
    { destruct (Hl [] (chained_end _ _ _)) as (k & -> & _). by destruct k. }
    rewrite Hl0 in Hf'. exists [(t, s)]. split; [clear -Hin; set_solver|]. split; [rewrite Hf'; clear; set_solver|].
    split; [intros a ->%list_elem_of_singleton; constructor|]. intros c Hc. exists 1%nat.
    inversion Hc as [|? ? b t1 s1 c' _ _ Hrd' Ht1 Hs1 Hc' E1 E2 E3]; subst; [done|].
    rewrite (Hrd' buf Hbuf) in Hrd. injection Hrd as <- <-. simplify_eq. inversion Hc'; subst; [|done].
    split; [done|]. intros a Ha. discriminate Ha.
  - exists ((t, s) :: l). split; [clear -Hsub Hin; set_solver|]. split; [rewrite Hf'; clear; set_solver|]. split.
    { intros a [->|Ha]%elem_of_cons; [constructor|]. eapply reached_next; [exact Hrd|exact Hv|done..|by apply Hreach]. }
    intros c Hc. pose proof (chained_nodup _ _ _ _ _ Hc) as Hnd.
    inversion Hc as [|? ? b t1 s1 c' _ _ Hrd' Ht1 Hs1 Hc' E1 E2 E3]; subst; [done|].
    rewrite (Hrd' buf Hbuf) in Hrd. injection Hrd as <- <-. simplify_eq.
    destruct (Hl c' Hc') as (k & Hk & Hstop). exists (S k). split; [cbn [take]; clear -Hk; set_solver|].
    intros a Ha. cbn in Ha. specialize (Hstop a Ha). rewrite Hf3 in Hstop. apply NoDup_cons in Hnd as [Hnin _].
    apply elem_of_union in Hstop as [ | ->%elem_of_singleton]; [done|]. destruct Hnin. by eapply list_elem_of_lookup_2.
Qed.

Lemma free_chain_run v0 image fuel : chain_drive v0 image -> forall v buf t s, inv v -> frame v0 v ->
  (forall a, reached (walks image) v0 image buf t s a -> known v0 image a.1 a.2) ->
  mlen buf = 256 -> bytes_ok buf -> 0 <= t -> 0 <= s -> (size (taken v) < fuel)%nat ->
  wp (free_chain fuel t s buf) (fun _ => released v0 v image buf t s) v.
Proof.
  intros Hcd. induction fuel as [|fuel IH]; intros v buf t s Hinv Hfr0 Hknown Hbuf Hbytes Ht Hs Hfuel; [lia|].
  cbn [free_chain]. destruct (Z.eqb_spec t 0) as [->|Hnz].
  { apply wp_ret, released_none; [done..|]. intros c a Hc. by inversion Hc; subst. }
  apply wp_bindST, wp_eq with v v; [done|].
  apply wp_bindST, wp_eq with image v; [cbn; by rewrite (deref_framed v0 v image Hcd Hfr0)|].
  pose proof (address_valid v0 image t s Hcd Ht Hs) as Hvalid.
  destruct (Z.ltb_spec (Geometry.disk_image_check_sector image t s) 0) as [Hneg|Hpos].
  { apply wp_ret, released_none; [done..|]. intros c a Hc _. inversion Hc as [|? ? ? ? ? ? ? Hv]; subst; [done|]. apply Hvalid in Hv. lia. }
  apply Hvalid in Hpos. destruct (Hknown (t, s) (reached_here _ _ _ _ _ _) Hpos) as [Ha Hmap]. cbn in Ha, Hmap.
  assert (Hav : valid v t s) by (unfold valid; by rewrite (frame_geom _ _ Hfr0)).
  apply wp_bindST. eapply wp_mono; [by apply free_law|].
  intros r v1 (-> & Hinv1 & Hfr1 & Hfree1). cbn beta.
  destruct (bool_decide ((t, s) ∉ free v)) eqn:Hb; cbn [b2z Z.eqb].
  2: { apply bool_decide_eq_false_1, dec_stable in Hb.
       apply wp_ret, released_none; [exact Hinv1|exact Hfr1|rewrite Hfree1; clear -Hb; set_solver|].
       intros c a Hc. inversion Hc; subst; [done|]. by intros [= <-]. }
  apply bool_decide_eq_true_1 in Hb.
  assert (Ha1 : valid v1 t s) by (unfold valid; by rewrite (frame_geom _ _ Hfr1)).
  apply wp_bindST. eapply wp_mono; [by apply free_law|].
  intros _ v2 (_ & Hinv2 & Hfr2 & Hfree2). cbn beta. assert (Hfr02 : frame v v2) by (by etrans).
  destruct (read_framed v0 v2 image buf t s) as (rc & buf' & t' & s' & Hrd & Hrun & Hbuf' & Hbytes' & Ht' & Hs' & Hp1 & Hp2); try done.
  { by etrans. }
  apply wp_bindST, wp_eq with (rc, buf') (set_image_mode 0 v2); [done|]. cbn beta iota.
  set (v3 := set_image_mode 0 v2) in *.
  assert (Hinv3 : inv v3) by (destruct Hinv2 as (b & Hok); exists b; by apply bam_ok_mode).
  assert (Hfr3 : frame v v3) by exact Hfr02.
  assert (Hf3 : free v3 = free v ∪ {[(t, s)]}) by (change (free v3) with (free v2); rewrite Hfree2, Hfree1; clear; set_solver).
  assert (Hin : (t, s) ∈ taken v).
  { by apply elem_of_taken. }
  apply wp_bindST, wp_eq with t' v3; [by cbn; rewrite Ht'|].
  apply wp_bindST, wp_eq with s' v3; [by cbn; rewrite Hs'|].
  eapply wp_mono; [apply (IH v3 buf' t' s'); [done|by etrans| |done..|]|].
  - intros a Ha' Hv. destruct (decide (t' = 0)) as [->|Hne]; [by destruct (reached_zero (walks image) v0 image buf' s' a (fun _ _ _ H => H) Ha')|].
    apply Hknown; [|done]. by eapply reached_next.
  - assert (taken v3 = taken v ∖ {[(t, s)]}) as -> by (unfold taken; rewrite Hf3, (frame_geom _ _ Hfr3); clear; set_solver).
    pose proof (size_remove _ _ Hin). lia.
  - intros ? v'. by eapply released_cons.
Qed.

(** ** A file with its side sectors *)

(** The chains that [vdrive_rel_scratch] releases for the side sector [(t, s)] of an entry: this one, or
    those of the groups in a super side sector *)
Definition side_starts (v : vdrive_t) (image : disk_image_t) (t s : Z) : list (Z * Z) :=
  if vdrive_rel_has_super (image_format (geom v)) then
    match read_logical v image (lib_malloc 256) t s with
    | Some (0, b) => if default 0 (getb b 2) =? 0xfe
                     then (fun i => (default 0 (getb b (3 + i * 2)), default 0 (getb b (4 + i * 2)))) <$> seqZ 0 126 else []
    | _ => []
    end
  else [(t, s)].

(** The chains from several sectors, one after the other: [v'] is between them, behind the
    chains from [done]. *)
Record chains_released (v : vdrive_t) (image : disk_image_t) (done : list (Z * Z)) (v' : vdrive_t) : Prop := {
  cr_inv : inv v';
  cr_frame : frame v v';
  cr_keep : free v ⊆ free v';
  cr_reached : forall a, a ∈ free v' -> a ∈ free v \/
    exists p, p ∈ done /\ reached (walks image) v image (lib_malloc 256) p.1 p.2 a;
  cr_exact : forall cs, Forall2 (fun p => chained v image p.1 p.2) done cs ->
    list_to_set (concat cs) ⊆ taken v -> free v' = free v ∪ list_to_set (concat cs)
}.

Lemma chains_released_nil v image : inv v -> chains_released v image [] v.
Proof.
  intros Hinv. split; [done|done|done|by left|]. intros cs Hcs _. inversion Hcs. cbn. set_solver.
Qed.

Lemma elem_of_concat {A} (x : A) ls : x ∈ concat ls <-> exists l, x ∈ l /\ l ∈ ls.
Proof.
  rewrite list_elem_of_In, in_concat. split; intros (l & H1 & H2); exists l; split; by apply list_elem_of_In.
Qed.

(** What is free behind the chains [cs], and one more *)
Lemma exact_snoc v v1 image t s c cs ps l k : Forall2 (fun p => chained v image p.1 p.2) ps cs -> chained v image t s c ->
  list_to_set (concat cs ++ c) ⊆ taken v -> free v1 = free v ∪ list_to_set (concat cs) ->
  list_to_set l = (list_to_set (take k c) : gset (Z * Z)) -> (forall a, c !! k = Some a -> a ∈ free v1) ->
  free v1 ∪ list_to_set l = free v ∪ list_to_set (concat cs ++ c).
Proof.
  intros Hcs Hc Hsub Hf1 Hl Hstop. rewrite Hf1, Hl. destruct (c !! k) as [a|] eqn:Hk.
  - specialize (Hstop a eq_refl). rewrite Hf1 in Hstop.
    assert (a ∈ c) as Hac by (by eapply list_elem_of_lookup_2).
    assert (a ∈ concat cs) as Hin.
    { apply elem_of_union in Hstop as [Hfree|Hin]; [exfalso|by apply elem_of_list_to_set in Hin].
      assert (a ∈ taken v) as Hta by (apply Hsub, elem_of_list_to_set, elem_of_app; by right).
      by apply elem_of_difference in Hta as [_ ?]. }
    assert (forall x, x ∈ drop k c -> x ∈ concat cs) as Hdrop.
    { apply elem_of_concat in Hin as (c' & Hac' & Hc'). intros x Hx. apply elem_of_concat. exists c'. split; [|done].
      apply list_elem_of_lookup in Hc' as (i & Hi). destruct (Forall2_lookup_r _ _ _ _ _ Hcs Hi) as ([t' s'] & _ & Hch).
      by eapply (chained_shared v image t s c t' s' c' k a). }
    rewrite <- (take_drop k c) at 2. rewrite !list_to_set_app_L. apply set_eq. intros x. specialize (Hdrop x).
    rewrite !elem_of_union, !elem_of_list_to_set. clear -Hdrop. tauto.
  - apply lookup_ge_None in Hk. rewrite take_ge by done. rewrite list_to_set_app_L. clear. set_solver.
Qed.

Section starts.
Context (v0 : vdrive_t) (image : disk_image_t) (fuel : nat).
Hypothesis Hcd : chain_drive v0 image.
Hypothesis Hmalloc : forall i, 0 <= malloc_fill i < 256.
Hypothesis Hfuel : (size (taken v0) < fuel)%nat.

Lemma malloc_ok : mlen (lib_malloc 256) = 256 /\ bytes_ok (lib_malloc 256).
Proof.
  split; [unfold lib_malloc, mlen; by rewrite length_fmap, length_seqZ|]. apply Forall_fmap, Forall_forall. intros i _. apply Hmalloc.
Qed.

Definition start_ok (p : Z * Z) : Prop := 0 <= p.1 /\ 0 <= p.2 /\
  forall a, reached (walks image) v0 image (lib_malloc 256) p.1 p.2 a -> known v0 image a.1 a.2.

Lemma released_snoc ps v p v' : chains_released v0 image ps v ->
  released v0 v image (lib_malloc 256) p.1 p.2 v' -> chains_released v0 image (ps ++ [p]) v'.
Proof.
  intros [Hi Hf Hk Hr Hx] (Hi' & Hf' & l & Hsub & Hfr & Hreach & Hl). split; [done|by etrans|rewrite Hfr; set_solver| |].
  - intros a. rewrite Hfr. intros [Ha|Ha%elem_of_list_to_set]%elem_of_union.
    + destruct (Hr a Ha) as [|(q & Hq & Hqa)]; [by left|]. right. exists q. split; [apply elem_of_app; by left|done].
    + right. exists p. split; [apply elem_of_app; right; by apply list_elem_of_singleton|by apply Hreach].
  - intros cs Hcs Hsubc. apply Forall2_app_inv_l in Hcs as (cs1 & cs2 & Hcs1 & Hcs2 & ->).
    apply Forall2_cons_inv_l in Hcs2 as (c & cs3 & Hc & Hnil%Forall2_nil_inv_l & ->). subst cs3.
    rewrite concat_app in *. cbn [concat] in *. rewrite app_nil_r in *. destruct (Hl c Hc) as (k & Hlk & Hstop).
    rewrite Hfr. apply (exact_snoc v0 v image p.1 p.2 c cs1 ps l k); try done. apply Hx; [done|]. clear -Hsubc. set_solver.
Qed.

Lemma start_run ps v p : start_ok p -> chains_released v0 image ps v ->
  wp (vdrive_dir_free_chain fuel p.1 p.2) (fun _ => chains_released v0 image (ps ++ [p])) v.
Proof.
  intros (H1 & H2 & Hknown) Hc. destruct malloc_ok as [Hl Hb].
  eapply wp_mono; [apply (free_chain_run v0 image fuel Hcd v); try done; [apply Hc|apply Hc|]|].
  - assert (taken v ⊆ taken v0) as Hle.
    { unfold taken. rewrite (frame_geom _ _ (cr_frame _ _ _ _ Hc)). pose proof (cr_keep _ _ _ _ Hc). set_solver. }
    pose proof (subseteq_size _ _ Hle). lia.
  - intros ? v'. by apply released_snoc.
Qed.

(** The loop over the groups of a super side sector *)
Lemma groups_run ps v b n : mlen b = 256 -> Forall start_ok ((fun i => (default 0 (getb b (3 + i * 2)), default 0 (getb b (4 + i * 2)))) <$> seqZ 0 (Z.of_nat n)) ->
  (n <= 126)%nat -> chains_released v0 image ps v ->
  wp (for_each n 0 (fun i => let! t := lift (getb b (3 + i * 2)) in let! s := lift (getb b (3 + 1 + i * 2)) in vdrive_dir_free_chain fuel t s))
    (fun _ => chains_released v0 image (ps ++ ((fun i => (default 0 (getb b (3 + i * 2)), default 0 (getb b (4 + i * 2)))) <$> seqZ 0 (Z.of_nat n)))) v.
Proof.
  intros Hb Hok Hn Hc. set (start := fun i : Z => _) in *.
  eapply wp_mono; [apply (wp_for_each n 0 _ (fun i => chains_released v0 image (ps ++ (start <$> seqZ 0 i))))|done].
  - by rewrite seqZ_nil, app_nil_r by lia.
  - intros i w Hi Hw. destruct (getb_is_Some b (3 + i * 2)) as [t Ht]; [lia|]. destruct (getb_is_Some b (4 + i * 2)) as [s Hs]; [lia|].
    apply wp_bindST, wp_lift. exists t. split; [done|]. apply wp_bindST, wp_lift. exists s. split; [by replace (3 + 1 + i * 2) with (4 + i * 2) by lia|].
    assert (start i = (t, s)) as Hst by (unfold start; by rewrite Ht, Hs).
    rewrite seqZ_app, (seqZ_cons (0 + i)), (seqZ_nil (Z.succ (0 + i))), fmap_app, app_assoc by lia. cbn [fmap list_fmap]. rewrite Z.add_0_l, Hst.
    apply (start_run _ w (t, s)); [|done]. rewrite <- Hst. rewrite Forall_fmap, Forall_forall in Hok. apply Hok, elem_of_seqZ. lia.
Qed.

Lemma rel_scratch_run ps v t s : 0 <= t -> 0 <= s -> mapped v0 image t s -> Forall start_ok (side_starts v0 image t s) -> chains_released v0 image ps v ->
  wp (vdrive_rel_scratch fuel t s) (fun _ => chains_released v0 image (ps ++ side_starts v0 image t s)) v.
Proof.
  intros Ht Hs Hmap Hok Hc. unfold vdrive_rel_scratch, side_starts in *. apply wp_bindST, wp_state.
  rewrite (frame_geom _ _ (cr_frame _ _ _ _ Hc)). destruct (vdrive_rel_has_super (image_format (geom v0))).
  2: { apply (start_run ps v (t, s)); [exact (proj1 (proj1 (Forall_cons _ _ _) Hok))|done]. }
  destruct malloc_ok as [Hl Hb].
  destruct (read_framed v0 v image (lib_malloc 256) t s Hcd (cr_frame _ _ _ _ Hc) Hmap Ht Hs Hl Hb)
    as (rc & b & t' & s' & Hrd & Hrun & Hlb & _). rewrite Hrd in *.
  assert (chains_released v0 image ps (set_image_mode 0 v)) as Hc'.
  { destruct Hc as [(b0 & Hi) Hf Hk Hr Hx]. split; [exists b0; by apply bam_ok_mode|exact Hf|exact Hk|exact Hr|exact Hx]. }
  apply wp_bindST, wp_eq with (rc, b) (set_image_mode 0 v); [done|]. cbn beta iota.
  destruct (Z.eqb_spec rc 0) as [->|Hne]; cbn [negb].
  2: { apply wp_ret. destruct rc; [done|..]; by rewrite app_nil_r. }
  destruct (getb_is_Some b 2) as [mark Hmark]; [lia|]. apply wp_bindST, wp_lift. exists mark. split; [done|].
  rewrite Hmark in *. cbn [default from_option id] in *. destruct (mark =? 254); cbn [negb]; [|apply wp_ret; by rewrite app_nil_r].
  by apply (groups_run ps _ b 126).
Qed.

End starts.

(** C12: the two calls that release the sectors of a file, [(t, s)] and [(t', s')] being the first sector and the side sector of its
    entry, on a drive with a writable linear image, with or without partitions, and a loaded BAM of any format but that of
    the D9090. They end, also when the links form circles, lead to addresses that the image does not have or to sectors that
    cannot be read, as long as the BAM and the error map have the sectors of the image that they meet: fuel
    above the number of allocated sectors is enough. (Links that leave them make the program
    access other memory: tracks 81 to 83 of a D81, tracks above 35 of a D64 with an error map of 35 tracks.) No free sector is
    allocated, the sectors released are some that the links lead to, and when the links are proper chains of allocated sectors
    exactly these are released: a super side sector only if one of the chains from its groups contains it. *)
Theorem scratch_exact fuel v image t s t' s' : let starts := (t, s) :: side_starts v image t' s' in
  inv v -> chain_drive v image -> (forall i, 0 <= malloc_fill i < 256) -> 0 <= t' -> 0 <= s' -> mapped v image t' s' ->
  (forall p, p ∈ starts -> 0 <= p.1 /\ 0 <= p.2 /\
     forall a, reached (walks image) v image (lib_malloc 256) p.1 p.2 a -> known v image a.1 a.2) ->
  (size (taken v) < fuel)%nat ->
  exists v', (vdrive_dir_free_chain fuel t s;; vdrive_rel_scratch fuel t' s') v = Some (tt, v') /\ inv v' /\ frame v v' /\
    free v ⊆ free v' /\
    (forall a, a ∈ free v' -> a ∈ free v \/ exists p, p ∈ starts /\ reached (walks image) v image (lib_malloc 256) p.1 p.2 a) /\
    (forall cs, Forall2 (fun p => chained v image p.1 p.2) starts cs -> list_to_set (concat cs) ⊆ taken v ->
       free v' = free v ∪ list_to_set (concat cs)).
Proof.
  intros starts Hinv Hcd Hm Ht' Hs' Hmap Hstarts Hfuel.
  assert (Forall (start_ok v image) starts) as Hok by (apply Forall_forall; intros p; apply Hstarts).
  apply Forall_cons in Hok as [Hfirst Hside].
  assert (wp (vdrive_dir_free_chain fuel t s;; vdrive_rel_scratch fuel t' s') (fun _ => chains_released v image starts) v) as Hw.
  { apply wp_bind. eapply wp_mono; [apply (start_run v image fuel Hcd Hm Hfuel [] v (t, s) Hfirst), chains_released_nil, Hinv|].
    intros ? v1 Hc. by apply (rel_scratch_run v image fuel Hcd Hm Hfuel [(t, s)]). }
  apply wp_run in Hw as ([] & v' & Hrun & [H1 H2 H3 H4 H5]). by exists v'.
Qed.

End scratch.
End ScratchSpec.

(** ** A concrete file *)

Lemma bam_ok_files : BamSpec.bam_ok (drive_files 0 255) bam_files.
Proof.
  split; [apply (bool_decide_eq_true_1 _); vm_compute; reflexivity|reflexivity|reflexivity
         |vm_compute; reflexivity|apply (bool_decide_eq_true_1 _); vm_compute; reflexivity| |reflexivity|].
  - intros i lo hi Hin. apply not_elem_of_nil in Hin. destruct Hin.
  - intros i Hi. change (BamSpec.bam_bytes _ / 256) with 1 in Hi.
    exists 0. split; [|lia]. replace i with 0 by lia. reflexivity.
Qed.

Lemma inv_files : AllocSpec.inv (drive_files 0 255).
Proof. exists bam_files. apply bam_ok_files. Qed.

Lemma disk_data_byte t s i : 0 <= t < 256 -> 0 <= s < 256 -> 0 <= disk_data t s i < 256.
Proof.
  intros Ht Hs. unfold disk_data. destruct (i / 256 =? 358); [|repeat case_bool; lia].
  destruct (nth_in_or_default (Z.to_nat (i mod 256)) (dir_sector t s) 0) as [Hin| ->]; [|lia].
  apply list_elem_of_In in Hin.
  assert (Forall (fun x => 0 <= x < 256) (dir_sector t s)) as Hall.
  { unfold dir_sector. cbn [app]. do 2 (constructor; [done|]).
    apply (bool_decide_eq_true_1 _). vm_compute. reflexivity. }
  exact (proj1 (Forall_forall _ _) Hall _ Hin).
Qed.

(** A D81 with a relative file: its data in sector 0 of track 1, its side sector in sector 1, its super
    side sector in sector 2 *)
Definition rel_d81 : disk_image_t :=
  DiskImage 0 DISK_IMAGE_DEVICE_FS DISK_IMAGE_TYPE_D81 80 0 0
    (Some (File 819200 (fun i => if i =? 1 then 255 else if i =? 257 then 255 else if i =? 514 then 0xfe
                                 else if i =? 515 then 1 else if i =? 516 then 1 else 0) true)) None 0.

Definition rel_bam : mem :=
  zeros 0x110 ++ [37; 248; 255; 255; 255; 255] ++ drop 0x116 circle_bam.

Definition rel_drive : vdrive_t :=
  VDrive 8 (Some rel_d81) true 0 (geom drive_1581)
    (Bamc (Some rel_bam) 768 ([0; 0; 0] ++ replicate 30 (-1)) (replicate 33 (-1)) (replicate 33 (-1)))
    (part1 0 false) 0 (zeros 2048) 0 0 0.

Lemma bam_ok_rel : BamSpec.bam_ok rel_drive rel_bam.
Proof.
  destruct bam_ok_1581 as [H1 _ _ _ _ _ _ H8].
  split; [exact H1|reflexivity|reflexivity|vm_compute; reflexivity|apply (bool_decide_eq_true_1 _); vm_compute; reflexivity
    | |reflexivity|exact H8].
  intros i lo hi Hin. apply not_elem_of_nil in Hin. destruct Hin.
Qed.

Lemma inv_rel : AllocSpec.inv rel_drive.
Proof. exists rel_bam. apply bam_ok_rel. Qed.

Lemma chain_drive_rel : AllocSpec.chain_drive rel_drive rel_d81.
Proof.
  split; [reflexivity|reflexivity| |].
  - split; [reflexivity|apply (bool_decide_eq_true_1 _); vm_compute; reflexivity|reflexivity| |].
    + eexists. split; reflexivity.
    + intros m Hm. discriminate Hm.
  - intros f i [= <-]. cbn. repeat case_match; lia.
Qed.

Lemma known_rel t s a : t <= 80 -> AllocSpec.reached (ScratchSpec.walks rel_d81) rel_drive rel_d81 (@lib_malloc zero_platform 256) t s a ->
  AllocSpec.known rel_drive rel_d81 a.1 a.2.
Proof.
  intros Ht Ha. apply known_plain; [reflexivity|]. intros Hv. apply bam_addr_1581; [exact Hv|].
  eapply (AllocSpec.links_below 80); [apply chain_drive_rel| |exact Ha|exact Ht|vm_compute; congruence|vm_compute; reflexivity].
  intros f k [= <-]. cbn. repeat case_match; lia.
Qed.

Lemma chained_rel s : s ∈ [0; 1] -> @ScratchSpec.chained zero_platform rel_drive rel_d81 1 s [(1, s)].
Proof.
  intros Hs. assert (s = 0 \/ s = 1) as Hs' by set_solver. clear Hs.
  apply (ScratchSpec.chained_next rel_drive rel_d81 1 s (Image.sector_data rel_d81 1 s) 0 255); [congruence| | | | |constructor].
  - destruct Hs' as [-> | ->]; vm_compute; repeat split; congruence.
  - intros tmp Htmp. change (AllocSpec.read_logical rel_drive rel_d81 tmp 1 s) with (Image.disk_image_read_sector rel_d81 tmp 1 s).
    rewrite Image.read_sector_eq; [reflexivity|apply chain_drive_rel| | |exact Htmp].
    + destruct Hs' as [-> | ->]; solve_covered.
    + destruct Hs' as [-> | ->]; eexists; (split; [reflexivity|vm_compute; congruence]).
  - destruct Hs' as [-> | ->]; reflexivity.
  - destruct Hs' as [-> | ->]; reflexivity.
Qed.

Lemma side_starts_rel : @ScratchSpec.side_starts zero_platform rel_drive rel_d81 1 2 = (1, 1) :: replicate 125 (0, 0).
Proof. vm_compute. reflexivity. Qed.

Lemma taken_rel : (size (ScratchSpec.taken rel_drive) < 3300)%nat.
Proof.
  enough (Z.of_nat (size (ScratchSpec.taken rel_drive)) <= 3200) by lia.
  apply (AllocSpec.bam_size_bound VDRIVE_IMAGE_FORMAT_1581); [apply bam_ok_1581|]. intros [t s] [Ha _]%ScratchSpec.elem_of_taken. exact Ha.
Qed.

Lemma taken_at s : 0 <= s < 40 -> BamSpec.free_bit VDRIVE_IMAGE_FORMAT_1581 rel_bam 1 s = false -> (1, s) ∈ ScratchSpec.taken rel_drive.
Proof.
  intros Hs Hb. apply ScratchSpec.elem_of_taken. split.
  - change (1 <= 1 <= 80 /\ 0 <= s < 40). lia.
  - rewrite (AllocSpec.free_ok _ _ bam_ok_rel). intros Hin. apply BamSpec.elem_of_free_set in Hin as [_ Hf].
    change (image_format (geom rel_drive)) with VDRIVE_IMAGE_FORMAT_1581 in Hf. congruence.
Qed.

(** The sectors of the two chains *)
Lemma chains_rel a : a ∈ concat ([[(1, 0)]; [(1, 1)]] ++ replicate 125 ([] : list (Z * Z))) -> a = (1, 0) \/ a = (1, 1).
Proof.
  intros (l & Hal & Hl)%ScratchSpec.elem_of_concat. apply elem_of_app in Hl as [Hl|[-> _]%elem_of_replicate]; [|by apply not_elem_of_nil in Hal].
  apply elem_of_cons in Hl as [->|Hl%list_elem_of_singleton]; [left|subst l; right]; by apply list_elem_of_singleton in Hal.
Qed.

Lemma super_taken : (1, 2) ∉ AllocSpec.free rel_drive.
Proof.
  rewrite (AllocSpec.free_ok _ _ bam_ok_rel). intros Hin. apply BamSpec.elem_of_free_set in Hin as [_ Hb].
  vm_compute in Hb. discriminate Hb.
Qed.

(** The data and the side sector are released, the super side sector stays allocated. *)
Lemma scratch_exact_witness :
  exists v', (Directory.vdrive_dir_free_chain 3300 1 0;; Directory.vdrive_rel_scratch 3300 1 2) rel_drive = Some (tt, v') /\
    AllocSpec.free v' = AllocSpec.free rel_drive ∪ {[(1, 0); (1, 1)]} /\ (1, 2) ∉ AllocSpec.free v'.
Proof.
  destruct (@ScratchSpec.scratch_exact zero_platform 3300 rel_drive rel_d81 1 0 1 2
    inv_rel chain_drive_rel ltac:(intros i; change (0 <= 0 < 256); lia) ltac:(lia) ltac:(lia)) as (v' & Hrun & _ & _ & _ & _ & Hexact).
  - intros t s _ m Hm. discriminate Hm.
  - rewrite side_starts_rel. intros p Hp.
    assert (p = (1, 0) \/ p = (1, 1) \/ p = (0, 0)) as Hcases.
    { apply elem_of_cons in Hp as [Hp|Hp]; [by left|]. apply elem_of_cons in Hp as [Hp|Hp]; [by right; left|].
      apply elem_of_replicate in Hp as [Hp _]. by right; right. }
    destruct Hcases as [-> | [-> | ->]]; (split; [cbn; lia|split; [cbn; lia|]]); intros a; apply known_rel; cbn; lia.
  - exact taken_rel.
  - assert (AllocSpec.free v' = AllocSpec.free rel_drive ∪ {[(1, 0); (1, 1)]}) as Hfree.
    { rewrite (Hexact ([[(1, 0)]; [(1, 1)]] ++ replicate 125 [])).
      - f_equal.
      - rewrite side_starts_rel. apply Forall2_cons_2; [exact (chained_rel 0 ltac:(left))|].
        apply Forall2_cons_2; [exact (chained_rel 1 ltac:(right; left))|]. apply Forall2_replicate, ScratchSpec.chained_end.
      - intros a Ha%elem_of_list_to_set. apply chains_rel in Ha as [-> | ->]; apply taken_at; [lia|vm_compute; reflexivity|lia|vm_compute; reflexivity]. }
    exists v'. split; [exact Hrun|]. split; [exact Hfree|]. rewrite Hfree.
    intros [Hin|Hin]%elem_of_union; [exact (super_taken Hin)|].
    apply elem_of_union in Hin as [Hin%elem_of_singleton|Hin%elem_of_singleton]; discriminate Hin.
Defined.
