(* ===== verification/Channel.v ===== *)
(** * Channels

    Models [src/lib/vdrive/vdrive-iec.c] and the buffers of [src/lib/vdrive/vdrive.c]:
    opening, reading, writing and closing a channel for a file, a directory or a
    memory buffer. The state is the [bufferinfo_t] of one channel with the drive it
    belongs to ([listing_t], the part of it that a listing uses, holds the drive);
    no operation reaches the buffer of another channel, except that an error message
    goes to the command channel, which is modelled as the numbers it shows unless it
    is the channel itself.

    [vdrive_iec_open] and [vdrive_iec_flush], which call the interpreter of commands,
    are in file [Unit]. The handlers of relative files are the class [Relative]; file
    [RelFile] has its instance. *)

From Stdlib Require Import Ascii String.
From S2P Require Import Prelude Geometry Image VDrive Bam BamAlloc Cbmdos Partition Directory.
Import Directory.

Definition BUFFER_NOT_IN_USE : Z := 0.
Definition BUFFER_DIRECTORY_READ : Z := 1.
Definition BUFFER_SEQUENTIAL : Z := 2.
Definition BUFFER_MEMORY_BUFFER : Z := 3.
Definition BUFFER_RELATIVE : Z := 4.
Definition BUFFER_COMMAND_CHANNEL : Z := 5.
Definition BUFFER_PARTITION_READ : Z := 6.
Definition WRITE_BLOCK : Z := 512.
Definition SERIAL_OK : Z := 0.
Definition SERIAL_ERROR : Z := 2.
Definition SERIAL_EOF : Z := 0x40.
Definition SERIAL_DEVICE_NOT_PRESENT : Z := 0x80.
Definition CBMDOS_IPE_NOT_WRITE : Z := 60.
Definition CBMDOS_IPE_NOT_FOUND : Z := 62.
Definition CBMDOS_IPE_FILE_EXISTS : Z := 63.
Definition CBMDOS_IPE_ILLEGAL_SYSTEM_T_OR_S : Z := 67.
Definition CBMDOS_IPE_DISK_FULL : Z := 72.
Definition SLOT_REPLACE_TRACK : Z := 28.
Definition SLOT_REPLACE_SECTOR : Z := 29.

(** Where [buffer] points: nowhere, to a heap block (the buffer of the listing), or
    into the memory of the drive. *)
Inductive place_t : Type :=
| Null
| Heap
| Ram (offset : Z).

(** [slot]: null, a copy of a directory entry, or a block that was freed *)
Inductive slot_t : Type :=
| No_slot
| A_slot (entry : mem)
| Freed_slot.

(** The fields of [bufferinfo_t] for a relative file: the records, the sector behind the one
    in the buffer, and the side sectors, one after the other, with their addresses and what
    is to be written *)
Record rel_t := Rel {
  record_max : Z;
  record_next : Z;
  buffer_next : option mem;
  track_next : Z;
  sector_next : Z;
  super_side_sector : option mem;
  super_side_sector_track : Z;
  super_side_sector_sector : Z;
  super_side_sector_needsupdate : Z;
  side_sector : option mem;
  side_sector_track : option mem;
  side_sector_sector : option mem;
  side_sector_needsupdate : option mem
}.

Definition set_record_max (x : Z) (r : rel_t) : rel_t :=
  Rel x (record_next r) (buffer_next r) (track_next r) (sector_next r) (super_side_sector r)
    (super_side_sector_track r) (super_side_sector_sector r) (super_side_sector_needsupdate r)
    (side_sector r) (side_sector_track r) (side_sector_sector r) (side_sector_needsupdate r).
Definition set_record_next (x : Z) (r : rel_t) : rel_t :=
  Rel (record_max r) x (buffer_next r) (track_next r) (sector_next r) (super_side_sector r)
    (super_side_sector_track r) (super_side_sector_sector r) (super_side_sector_needsupdate r)
    (side_sector r) (side_sector_track r) (side_sector_sector r) (side_sector_needsupdate r).
Definition set_buffer_next (x : option mem) (r : rel_t) : rel_t :=
  Rel (record_max r) (record_next r) x (track_next r) (sector_next r) (super_side_sector r)
    (super_side_sector_track r) (super_side_sector_sector r) (super_side_sector_needsupdate r)
    (side_sector r) (side_sector_track r) (side_sector_sector r) (side_sector_needsupdate r).
Definition set_track_next (x : Z) (r : rel_t) : rel_t :=
  Rel (record_max r) (record_next r) (buffer_next r) x (sector_next r) (super_side_sector r)
    (super_side_sector_track r) (super_side_sector_sector r) (super_side_sector_needsupdate r)
    (side_sector r) (side_sector_track r) (side_sector_sector r) (side_sector_needsupdate r).
Definition set_sector_next (x : Z) (r : rel_t) : rel_t :=
  Rel (record_max r) (record_next r) (buffer_next r) (track_next r) x (super_side_sector r)
    (super_side_sector_track r) (super_side_sector_sector r) (super_side_sector_needsupdate r)
    (side_sector r) (side_sector_track r) (side_sector_sector r) (side_sector_needsupdate r).
Definition set_super_side_sector (x : option mem) (r : rel_t) : rel_t :=
  Rel (record_max r) (record_next r) (buffer_next r) (track_next r) (sector_next r) x
    (super_side_sector_track r) (super_side_sector_sector r) (super_side_sector_needsupdate r)
    (side_sector r) (side_sector_track r) (side_sector_sector r) (side_sector_needsupdate r).
Definition set_super_side_sector_track (x : Z) (r : rel_t) : rel_t :=
  Rel (record_max r) (record_next r) (buffer_next r) (track_next r) (sector_next r)
    (super_side_sector r) x (super_side_sector_sector r) (super_side_sector_needsupdate r)
    (side_sector r) (side_sector_track r) (side_sector_sector r) (side_sector_needsupdate r).
Definition set_super_side_sector_sector (x : Z) (r : rel_t) : rel_t :=
  Rel (record_max r) (record_next r) (buffer_next r) (track_next r) (sector_next r)
    (super_side_sector r) (super_side_sector_track r) x (super_side_sector_needsupdate r)
    (side_sector r) (side_sector_track r) (side_sector_sector r) (side_sector_needsupdate r).
Definition set_super_side_sector_needsupdate (x : Z) (r : rel_t) : rel_t :=
  Rel (record_max r) (record_next r) (buffer_next r) (track_next r) (sector_next r)
    (super_side_sector r) (super_side_sector_track r) (super_side_sector_sector r) x
    (side_sector r) (side_sector_track r) (side_sector_sector r) (side_sector_needsupdate r).
Definition set_side_sector (x : option mem) (r : rel_t) : rel_t :=
  Rel (record_max r) (record_next r) (buffer_next r) (track_next r) (sector_next r)
    (super_side_sector r) (super_side_sector_track r) (super_side_sector_sector r)
    (super_side_sector_needsupdate r) x (side_sector_track r) (side_sector_sector r)
    (side_sector_needsupdate r).
Definition set_side_sector_track (x : option mem) (r : rel_t) : rel_t :=
  Rel (record_max r) (record_next r) (buffer_next r) (track_next r) (sector_next r)
    (super_side_sector r) (super_side_sector_track r) (super_side_sector_sector r)
    (super_side_sector_needsupdate r) (side_sector r) x (side_sector_sector r)
    (side_sector_needsupdate r).
Definition set_side_sector_sector (x : option mem) (r : rel_t) : rel_t :=
  Rel (record_max r) (record_next r) (buffer_next r) (track_next r) (sector_next r)
    (super_side_sector r) (super_side_sector_track r) (super_side_sector_sector r)
    (super_side_sector_needsupdate r) (side_sector r) (side_sector_track r) x
    (side_sector_needsupdate r).
Definition set_side_sector_needsupdate (x : option mem) (r : rel_t) : rel_t :=
  Rel (record_max r) (record_next r) (buffer_next r) (track_next r) (sector_next r)
    (super_side_sector r) (super_side_sector_track r) (super_side_sector_sector r)
    (super_side_sector_needsupdate r) (side_sector r) (side_sector_track r) (side_sector_sector
    r) x.

(** [bufferinfo_t] with its drive; [last_read] are the globals of
    [vdrive_set_last_read], [next_override] is [mem_buf_next_byte_override]. *)
Record channel_t := Channel {
  clist : listing_t;
  creadmode : Z;
  place : place_t;
  bufnum : Z;
  slot : slot_t;
  ctrack : Z;
  csector : Z;
  clength : Z;
  record : Z;
  needsupdate : Z;
  last_read : Z * Z * mem;
  next_override : Z;
  crel : rel_t
}.

Definition set_clist (x : listing_t) (r : channel_t) : channel_t :=
  Channel x (creadmode r) (place r) (bufnum r) (slot r) (ctrack r) (csector r) (clength r)
    (record r) (needsupdate r) (last_read r) (next_override r) (crel r).
Definition set_creadmode (x : Z) (r : channel_t) : channel_t :=
  Channel (clist r) x (place r) (bufnum r) (slot r) (ctrack r) (csector r) (clength r) (record
    r) (needsupdate r) (last_read r) (next_override r) (crel r).
Definition set_place (x : place_t) (r : channel_t) : channel_t :=
  Channel (clist r) (creadmode r) x (bufnum r) (slot r) (ctrack r) (csector r) (clength r)
    (record r) (needsupdate r) (last_read r) (next_override r) (crel r).
Definition set_bufnum (x : Z) (r : channel_t) : channel_t :=
  Channel (clist r) (creadmode r) (place r) x (slot r) (ctrack r) (csector r) (clength r)
    (record r) (needsupdate r) (last_read r) (next_override r) (crel r).
Definition set_slot (x : slot_t) (r : channel_t) : channel_t :=
  Channel (clist r) (creadmode r) (place r) (bufnum r) x (ctrack r) (csector r) (clength r)
    (record r) (needsupdate r) (last_read r) (next_override r) (crel r).
Definition set_ctrack (x : Z) (r : channel_t) : channel_t :=
  Channel (clist r) (creadmode r) (place r) (bufnum r) (slot r) x (csector r) (clength r)
    (record r) (needsupdate r) (last_read r) (next_override r) (crel r).
Definition set_csector (x : Z) (r : channel_t) : channel_t :=
  Channel (clist r) (creadmode r) (place r) (bufnum r) (slot r) (ctrack r) x (clength r)
    (record r) (needsupdate r) (last_read r) (next_override r) (crel r).
Definition set_clength (x : Z) (r : channel_t) : channel_t :=
  Channel (clist r) (creadmode r) (place r) (bufnum r) (slot r) (ctrack r) (csector r) x
    (record r) (needsupdate r) (last_read r) (next_override r) (crel r).
Definition set_record (x : Z) (r : channel_t) : channel_t :=
  Channel (clist r) (creadmode r) (place r) (bufnum r) (slot r) (ctrack r) (csector r) (clength
    r) x (needsupdate r) (last_read r) (next_override r) (crel r).
Definition set_needsupdate (x : Z) (r : channel_t) : channel_t :=
  Channel (clist r) (creadmode r) (place r) (bufnum r) (slot r) (ctrack r) (csector r) (clength
    r) (record r) x (last_read r) (next_override r) (crel r).
Definition set_last_read (x : Z * Z * mem) (r : channel_t) : channel_t :=
  Channel (clist r) (creadmode r) (place r) (bufnum r) (slot r) (ctrack r) (csector r) (clength
    r) (record r) (needsupdate r) x (next_override r) (crel r).
Definition set_next_override (x : Z) (r : channel_t) : channel_t :=
  Channel (clist r) (creadmode r) (place r) (bufnum r) (slot r) (ctrack r) (csector r) (clength
    r) (record r) (needsupdate r) (last_read r) x (crel r).
Definition set_crel (x : rel_t) (r : channel_t) : channel_t :=
  Channel (clist r) (creadmode r) (place r) (bufnum r) (slot r) (ctrack r) (csector r) (clength
    r) (record r) (needsupdate r) (last_read r) (next_override r) x.

(** The handlers of relative files, which file [RelFile] implements *)
Class Relative := {
  rel_close : nat -> ST channel_t Z;
  rel_read : ST channel_t (Z * option Z);
  rel_write : nat -> Z -> ST channel_t Z;
  rel_listen : nat -> ST channel_t unit
}.

(** The clock of the host *)
Class Clock := { host_time : Z * Z * Z * Z * Z }.

Module Channel.

(** ** Parts of the state *)

Definition upd (f : channel_t -> channel_t) : ST channel_t unit := modify f.
Definition on_list {A} (m : ST listing_t A) : ST channel_t A := fun c =>
  match m (clist c) with Some (a, l) => Some (a, set_clist l c) | None => None end.
Definition on_dir {A} (m : ST search_t A) : ST channel_t A := on_list (on_search m).
Definition on_cdrive {A} (m : ST vdrive_t A) : ST channel_t A := on_list (on_ldrive m).
Definition drive (c : channel_t) : vdrive_t := drv (search (clist c)).
Definition dir (c : channel_t) : dir_t := dctx (search (clist c)).
Definition set_bufptr (x : Z) : channel_t -> channel_t := fun c => set_clist (Directory.set_bufptr x (clist c)) c.
Definition set_mode (x : Z) : channel_t -> channel_t := fun c => set_clist (set_lmode x (clist c)) c.
Definition set_buffer (x : mem) : channel_t -> channel_t := fun c => set_clist (set_lbuffer x (clist c)) c.
Definition cbufptr (c : channel_t) : Z := bufptr (clist c).
Definition cmode (c : channel_t) : Z := lmode (clist c).

(** The 256 bytes [buffer] points to *)
Definition load_buffer : ST channel_t mem :=
  let! c := state in
  lift (match place c with
        | Null => None
        | Heap => Some (lbuffer (clist c))
        | Ram off => slice (ram (drive c)) off 256
        end).
Definition store_buffer (b : mem) : ST channel_t unit :=
  update (fun c => match place c with
                   | Null => None
                   | Heap => Some (set_buffer b c)
                   | Ram off => m ← splice (ram (drive c)) off b;
                       Some (set_clist (set_search (set_drv (set_ram m (drive c)) (search (clist c)))
                               (clist c)) c)
                   end).
Definition get_buffer (i : Z) : ST channel_t Z := let! b := load_buffer in lift (getb b i).
Definition put_buffer (i x : Z) : ST channel_t unit :=
  let! b := load_buffer in let! b := lift (putb b i (u8 x)) in store_buffer b.

(** The bytes of [slot] *)
Definition get_slot (i : Z) : ST channel_t Z :=
  let! c := state in lift (match slot c with A_slot e => getb e i | _ => None end).
Definition put_slot (i x : Z) : ST channel_t unit :=
  update (fun c => match slot c with
                   | A_slot e => e ← putb e i (u8 x); Some (set_slot (A_slot e) c)
                   | _ => None
                   end).

Section channel.
Context {platform : Platform} {relative : Relative} {clock : Clock}.

(** ** Buffers *)

(** The buffer is reused once it is allocated; a buffer by number lies in the memory
    of the drive. *)
Definition vdrive_alloc_buffer (num mode : Z) : ST channel_t unit :=
  let! c := state in
  (if (0 <=? num) && (num <? 5) && (0x300 + 256 * num <? DRIVE_RAMSIZE)
   then upd (set_place (Ram (0x300 + 256 * num)))
   else match place c with
        | Heap => mret tt
        | _ => upd (fun c => set_place Heap (set_buffer (replicate 256 0) c))
        end);;
  upd (fun c => set_bufnum num (set_mode mode c)).

Definition vdrive_free_buffer : ST channel_t unit := upd (set_mode BUFFER_NOT_IN_USE).

(** [sprintf("%02u", n)] and, for the code, [sprintf("%02d", n)] *)
Fixpoint decimal (fuel : nat) (n : Z) : mem :=
  match fuel with
  | O => []
  | S fuel => (if n <? 10 then [] else decimal fuel (n / 10)) ++ [ch "0" + n mod 10]
  end.
Definition digits2 (n : Z) : mem := (if n <? 10 then [ch "0"] else []) ++ decimal 10 n.
Definition signed_digits2 (n : Z) : mem := if n <? 0 then ch "-" :: decimal 10 (- n) else digits2 n.

(** [vdrive_command_set_error]: the message goes to the command channel. *)
Definition error_text (code track sector : Z) : option mem :=
  m ← Cbmdos.cbmdos_errortext code; m ← m;
  Some (signed_digits2 code ++ [ch ","] ++ m ++ [ch ","] ++ digits2 track ++ [ch ","] ++ digits2 sector ++ [13]).

(** Of the message in the buffer, [clength] is the place of the last character. *)
Definition put_message (code track sector : Z) : ST channel_t unit :=
  let! t := lift (error_text code track sector) in
  let! b := load_buffer in
  let! b := lift (splice b 0 (t ++ [0])) in
  store_buffer b;;
  upd (fun c => set_creadmode CBMDOS_FAM_READ (set_bufptr 0 (set_clength (mlen t - 1) c))).

Definition set_error (code track sector : Z) : ST channel_t Z :=
  on_cdrive (VDrive.vdrive_command_set_error code track sector);;
  let! c := state in
  (if cmode c =? BUFFER_COMMAND_CHANNEL then put_message code track sector else mret tt);;
  mret code.

Definition switch : ST channel_t Z := on_list switch_listing.

(** [vdrive_read_sector(vdrive, p->buffer, track, sector)] *)
Definition read_buffer (track sector : Z) : ST channel_t Z :=
  let! b := load_buffer in
  let! (status, b) := on_cdrive (VDrive.vdrive_read_sector b track sector) in
  store_buffer b;;
  mret status.

Definition write_buffer (track sector : Z) : ST channel_t Z :=
  let! b := load_buffer in on_cdrive (VDrive.vdrive_write_sector b track sector).

Definition readonly (c : channel_t) : bool := 0 <? image_mode (drive c).

(** ** Writing *)

(** The block count of the entry *)
Definition count_block : ST channel_t unit :=
  let! n := get_slot SLOT_NR_BLOCKS in
  put_slot SLOT_NR_BLOCKS (n + 1);;
  if u8 (n + 1) =? 0 then
    let! m := get_slot (SLOT_NR_BLOCKS + 1) in put_slot (SLOT_NR_BLOCKS + 1) (m + 1)
  else mret tt.

Definition disk_full : ST channel_t Z :=
  let! c := state in
  set_error CBMDOS_IPE_ILLEGAL_SYSTEM_T_OR_S (num_tracks (geom (drive c)) + 1) 1;;
  mret (-1).

(** The first sector of a file: [false] if there is none. *)
Definition first_block : ST channel_t bool :=
  let! c := state in
  if negb (ctrack c =? 0) then mret true
  else
    let! a := on_cdrive BamAlloc.vdrive_bam_alloc_first_free_sector in
    match a with
    | None => mret false
    | Some (t, s) =>
        upd (fun c => set_ctrack t (set_csector s c));;
        (if negb (needsupdate c =? 0) then put_slot SLOT_REPLACE_TRACK t;; put_slot SLOT_REPLACE_SECTOR s
         else put_slot SLOT_FIRST_TRACK t;; put_slot SLOT_FIRST_SECTOR s);;
        put_slot SLOT_NR_BLOCKS 0;;
        put_slot (SLOT_NR_BLOCKS + 1) 0;;
        mret true
    end.

Definition write_failed (status t s : Z) : ST channel_t Z := set_error status t s;; mret (-1).

(** Writes the buffer, and allocates the sector it links to unless it is the last. *)
Definition iec_write_sequential (length : Z) : ST channel_t Z :=
  let! ok := first_block in
  if negb (ok : bool) then disk_full
  else
    let! c := state in
    let (t, s) := (ctrack c, csector c) in
    if length =? WRITE_BLOCK then
      let! a := on_cdrive (BamAlloc.vdrive_bam_alloc_next_free_sector t s) in
      match a with
      | None => disk_full
      | Some (t', s') =>
          put_buffer 0 t';; put_buffer 1 s';;
          let! status := write_buffer t s in
          if negb (status =? CBMDOS_IPE_OK) then write_failed status t s
          else upd (fun c => set_ctrack t' (set_csector s' c));; count_block;; mret 0
      end
    else
      put_buffer 0 0;; put_buffer 1 (length - 1);;
      let! status := write_buffer t s in
      if negb (status =? CBMDOS_IPE_OK) then write_failed status t s
      else count_block;; mret 0.

(** ** Closing *)

(** The entry is read again, replaced and written. *)
Definition copy_slot : ST channel_t unit :=
  update (fun c => match slot c with
    | A_slot e => e ← slice e 2 30; b ← splice (dbuffer (dir c)) (u32 (dslot (dir c) * 32 + 2)) e;
        Some (set_clist (set_search (set_dctx (set_dbuffer b (dir c)) (search (clist c))) (clist c)) c)
    | _ => None
    end).

Definition vdrive_iec_update_dirent : ST channel_t Z :=
  on_dir read_dir;;
  copy_slot;;
  let! status := on_dir write_dir in
  let! c := state in
  (if negb (status =? CBMDOS_IPE_OK) then set_error status (dtrack (dir c)) (dsector (dir c));; mret tt
   else mret tt);;
  mret 0.

(** Puts the replacement in place: the first sector of the old file, 0 if there is none. *)
Definition replace_file : ST channel_t (Z * Z) :=
  let! c := state in
  if negb (needsupdate c =? 0) then
    let! t := get_slot SLOT_FIRST_TRACK in
    let! s := get_slot SLOT_FIRST_SECTOR in
    let! t' := get_slot SLOT_REPLACE_TRACK in
    let! s' := get_slot SLOT_REPLACE_SECTOR in
    put_slot SLOT_FIRST_TRACK t';; put_slot SLOT_FIRST_SECTOR s';;
    put_slot SLOT_REPLACE_TRACK 0;; put_slot SLOT_REPLACE_SECTOR 0;;
    mret (t, s)
  else mret (0, 0).

Definition stamp_slot : ST channel_t unit :=
  update (fun c => match slot c with
    | A_slot e => e ← vdrive_dir_updatetime host_time e; Some (set_slot (A_slot e) c)
    | _ => None
    end).

(** The status of the last block is not looked at. *)
Definition iec_close_sequential (fuel : nat) : ST channel_t Z :=
  let! c := state in
  if negb (Z.land (creadmode c) (Z.lor CBMDOS_FAM_WRITE CBMDOS_FAM_APPEND) =? 0) then
    if readonly c then set_error CBMDOS_IPE_WRITE_PROTECT_ON 0 0;; mret SERIAL_ERROR
    else
      switch;;
      let! c := state in
      iec_write_sequential (cbufptr c);;
      let! type := get_slot SLOT_TYPE_OFFSET in
      put_slot SLOT_TYPE_OFFSET (Z.lor type 0x80);;
      let! (t, s) := replace_file in
      let! c := state in
      (if haspt (part (drive c)) then stamp_slot else mret tt);;
      vdrive_iec_update_dirent;;
      (if negb (t =? 0) then on_cdrive (vdrive_dir_free_chain fuel t s) else mret tt);;
      on_cdrive Bam.vdrive_bam_write_bam;;
      upd (set_slot Freed_slot);;
      vdrive_free_buffer;;
      mret SERIAL_OK
  else vdrive_free_buffer;; mret SERIAL_OK.

Definition vdrive_iec_close (fuel : nat) : ST channel_t Z :=
  let! c := state in
  let m := cmode c in
  if (m =? BUFFER_MEMORY_BUFFER) || (m =? BUFFER_DIRECTORY_READ) || (m =? BUFFER_PARTITION_READ)
     || (m =? BUFFER_DIRECTORY_MORE_READ) then
    vdrive_free_buffer;; upd (set_slot No_slot);; mret SERIAL_OK
  else if m =? BUFFER_SEQUENTIAL then iec_close_sequential fuel
  else if m =? BUFFER_RELATIVE then rel_close fuel
  else if m =? BUFFER_COMMAND_CHANNEL then set_error CBMDOS_IPE_OK 0 0;; mret SERIAL_OK
  else mret SERIAL_OK.

(** ** Opening *)

Definition set_length : ST channel_t unit :=
  let! b0 := get_buffer 0 in
  let! b1 := get_buffer 1 in
  upd (set_clength (if negb (b0 =? 0) then 0 else b1)).

Definition vdrive_set_last_read (track sector : Z) : ST channel_t unit :=
  let! b := load_buffer in upd (set_last_read (track, sector, b)).

Definition iec_open_read_sequential (fuel : nat) (track sector : Z) : ST channel_t Z :=
  vdrive_alloc_buffer (-1) BUFFER_SEQUENTIAL;;
  upd (fun c => set_bufptr 2 (set_record 1 c));;
  let! status := read_buffer track sector in
  set_length;;
  vdrive_set_last_read track sector;;
  if negb (status =? 0) then
    set_error status track sector;; vdrive_iec_close fuel;; mret SERIAL_ERROR
  else mret SERIAL_OK.

(** On a 1541 the first sector is remembered in the memory of the drive. *)
Definition remember_file (track sector : Z) : ST vdrive_t unit :=
  let! v := state in
  let! is1541 := lift (VDrive.VDRIVE_IS_1541 v) in
  if (is1541 : bool) then
    update (fun v => m ← putb (ram v) 0x7E (u8 track); m ← putb m 0x26F (u8 sector); Some (set_ram m v))
  else mret tt.

Definition iec_open_read (fuel : nat) : ST channel_t Z :=
  let! c := state in
  match slot c with
  | No_slot => vdrive_iec_close fuel;; set_error CBMDOS_IPE_NOT_FOUND 0 0;; mret SERIAL_ERROR
  | _ =>
      let! b := get_slot SLOT_TYPE_OFFSET in
      let! track := get_slot SLOT_FIRST_TRACK in
      let! sector := get_slot SLOT_FIRST_SECTOR in
      on_cdrive (remember_file track sector);;
      if negb (Z.land b 0x80 =? 0) && negb (Z.land b 0x07 =? CBMDOS_FT_REL)
      then iec_open_read_sequential fuel track sector
      else mret SERIAL_ERROR
  end.

Definition open_listing (cmd_parse : cbmdos_cmd_parse_plus_t) : ST channel_t Z :=
  let! n := on_list (vdrive_dir_first_directory cmd_parse) in
  upd (fun c => set_bufptr 0 (set_clength (u32 n) c));;
  mret SERIAL_OK.

(** ["$=P"]: the partitions of the system partition *)
Definition open_partitions (fuel : nat) (cmd_parse : cbmdos_cmd_parse_plus_t) : ST channel_t Z :=
  upd (fun c => set_clist (set_partition 255 (clist c)) c);;
  let! r := switch in
  if negb (r =? 0) then set_error CBMDOS_IPE_NOT_READY 0 0;; mret SERIAL_ERROR
  else
    upd (set_mode BUFFER_PARTITION_READ);;
    let! n := on_list (vdrive_dir_part_first_directory fuel (default [] (file cmd_parse))
                         (filelength cmd_parse)) in
    upd (fun c => set_bufptr 0 (set_clength (u32 n) c));;
    mret SERIAL_OK.

Definition iec_open_read_directory (fuel : nat) (secondary : Z) (cmd_parse : cbmdos_cmd_parse_plus_t)
    : ST channel_t Z :=
  let! c := state in
  if 0 <? secondary then
    iec_open_read_sequential fuel (Header_Track (geom (drive c))) (Header_Sector (geom (drive c)))
  else
    vdrive_alloc_buffer (-1) BUFFER_DIRECTORY_READ;;
    upd (fun c => set_clist (set_timemode 0 (clist c)) c);;
    match command cmd_parse with
    | Some cm =>
        if 2 <? commandlength cmd_parse then
          let! b1 := lift (getb cm 1) in
          let! b2 := lift (getb cm 2) in
          if negb (b1 =? ch "=") then open_listing cmd_parse
          else if b2 =? ch "T" then
            upd (fun c => set_clist (set_timemode 1 (clist c)) c);; open_listing cmd_parse
          else if (b2 =? ch "P") && haspt (part (drive c)) then open_partitions fuel cmd_parse
          else open_listing cmd_parse
        else open_listing cmd_parse
    | None => open_listing cmd_parse
    end.

(** A new entry with the name, and a buffer for the file *)
Definition vdrive_dir_create_slot (realname : mem) (reallength filetype : Z) : ST channel_t unit :=
  let! e := lift (m ← splice (replicate 32 0) SLOT_NAME_OFFSET (replicate 16 0xa0);
                  n ← slice realname 0 reallength; m ← splice m SLOT_NAME_OFFSET n;
                  putb m SLOT_TYPE_OFFSET (u8 filetype)) in
  upd (set_slot (A_slot e));;
  vdrive_alloc_buffer (-1) BUFFER_SEQUENTIAL;;
  upd (set_bufptr 2).

(** The end of an existing file: [Some] if a sector cannot be read. Every round reads a
    sector of the chain; a chain that is a circle uses up any fuel. *)
Fixpoint scan_to_end (fuel : nat) (track sector : Z) : ST channel_t (option Z + Z) :=
  match fuel with
  | O => ub
  | S fuel =>
      if track =? 0 then mret (inr sector)
      else
        upd (fun c => set_ctrack track (set_csector sector c));;
        let! status := read_buffer track sector in
        if negb (status =? 0) then
          vdrive_free_buffer;;
          set_error CBMDOS_IPE_ILLEGAL_TRACK_OR_SECTOR track sector;;
          mret (inl (Some SERIAL_ERROR))
        else
          let! t := get_buffer 0 in
          let! s := get_buffer 1 in
          count_block;;
          scan_to_end fuel t s
  end.

(** Appending to an existing file *)
Definition open_append (fuel : nat) : ST channel_t (option Z) :=
  vdrive_alloc_buffer (-1) BUFFER_SEQUENTIAL;;
  let! type := get_slot SLOT_TYPE_OFFSET in
  put_slot SLOT_TYPE_OFFSET (Z.land type 0x7f);;
  let! track := get_slot SLOT_FIRST_TRACK in
  let! sector := get_slot SLOT_FIRST_SECTOR in
  upd (fun c => set_ctrack track (set_csector sector c));;
  put_slot SLOT_NR_BLOCKS 255;;
  put_slot (SLOT_NR_BLOCKS + 1) 255;;
  let! r := scan_to_end fuel track sector in
  match r with
  | inl e => mret e
  | inr sector =>
      let! c := state in
      let! sector := (if ctrack c =? 0 then
                        put_slot SLOT_NR_BLOCKS 0;; put_slot (SLOT_NR_BLOCKS + 1) 0;; mret 1
                      else mret sector) in
      upd (set_bufptr (u32 (sector + 1)));;
      mret None
  end.

(** An existing file: replaced, appended to, or an error. [Some] is a return. *)
Definition open_existing (fuel : nat) (cmd_parse : cbmdos_cmd_parse_plus_t) : ST channel_t (option Z) :=
  let! type := get_slot SLOT_TYPE_OFFSET in
  let! overwrite := lift (match command cmd_parse with
                          | Some cm => if 0 <? commandlength cmd_parse
                                       then b ← getb cm 0; Some (b =? ch "@") else Some false
                          | None => Some false
                          end) in
  let! c := state in
  if (overwrite : bool) || (Z.land type 0x80 =? 0) && negb (Z.land type 7 =? CBMDOS_FT_REL) then
    vdrive_alloc_buffer (-1) BUFFER_SEQUENTIAL;;
    upd (fun c => set_bufptr 2 (set_needsupdate 1 (set_ctrack 0 (set_csector 0 c))));;
    mret None
  else if creadmode c =? CBMDOS_FAM_APPEND then open_append fuel
  else
    vdrive_iec_close fuel;;
    set_error CBMDOS_IPE_FILE_EXISTS 0 0;;
    mret (Some SERIAL_ERROR).

(** On native partitions the first sector is allocated before the entry. *)
Definition first_block_np : ST channel_t (option Z) :=
  let! a := on_cdrive BamAlloc.vdrive_bam_alloc_first_free_sector in
  match a with
  | None =>
      let! c := state in
      set_error CBMDOS_IPE_ILLEGAL_SYSTEM_T_OR_S (num_tracks (geom (drive c)) + 1) 1;;
      mret (Some (-1))
  | Some (t, s) =>
      upd (fun c => set_ctrack t (set_csector s c));;
      put_slot SLOT_FIRST_TRACK t;; put_slot SLOT_FIRST_SECTOR s;;
      put_slot SLOT_NR_BLOCKS 0;; put_slot (SLOT_NR_BLOCKS + 1) 0;;
      mret None
  end.

Definition open_new (fuel : nat) (cmd_parse : cbmdos_cmd_parse_plus_t) : ST channel_t (option Z) :=
  vdrive_dir_create_slot (default [] (file cmd_parse)) (filelength cmd_parse) (pfiletype cmd_parse);;
  let! c := state in
  let np := image_format (geom (drive c)) =? VDRIVE_IMAGE_FORMAT_NP in
  let! r := (if np then first_block_np else mret None) in
  match r with
  | Some rc => mret (Some rc)
  | None =>
      on_dir (vdrive_dir_find_first_slot [] (-1) 0);;
      let! e := on_dir (vdrive_dir_find_next_slot fuel) in
      match e with
      | None =>
          vdrive_free_buffer;;
          set_error CBMDOS_IPE_DISK_FULL 0 0;;
          mret (Some SERIAL_ERROR)
      | Some _ =>
          (if negb np then upd (fun c => set_ctrack 0 (set_csector 0 c)) else mret tt);;
          mret None
      end
  end.

Definition iec_open_write (fuel : nat) (cmd_parse : cbmdos_cmd_parse_plus_t) : ST channel_t Z :=
  let! c := state in
  if readonly c then set_error CBMDOS_IPE_WRITE_PROTECT_ON 0 0;; mret SERIAL_ERROR
  else
    upd (set_needsupdate 0);;
    let! r := (match slot c with
               | No_slot => open_new fuel cmd_parse
               | _ => open_existing fuel cmd_parse
               end) in
    match r with
    | Some rc => mret rc
    | None =>
        let! c := state in
        if needsupdate c =? 0 then
          copy_slot;;
          let! status := on_dir write_dir in
          let! c := state in
          if negb (status =? CBMDOS_IPE_OK) then
            set_error status (dtrack (dir c)) (dsector (dir c));; mret SERIAL_ERROR
          else mret SERIAL_OK
        else mret SERIAL_OK
    end.

(** ** Reading a byte *)

(** The next block of a file *)
Definition next_block : ST channel_t (Z * option Z) :=
  let! track := get_buffer 0 in
  let! sector := get_buffer 1 in
  let! status := read_buffer track sector in
  if negb (status =? CBMDOS_IPE_OK) then set_error status track sector;; mret (SERIAL_ERROR, None)
  else
    set_length;;
    vdrive_set_last_read track sector;;
    upd (set_bufptr 2);;
    mret (SERIAL_OK, None).

Definition next_listing (m : ST listing_t Z) : ST channel_t (Z * option Z) :=
  let! n := on_list m in
  upd (fun c => set_bufptr 0 (set_clength (u32 n) c));;
  mret (SERIAL_OK, None).

(** The listing of the next drive; the flag [small] is set by then, so that the command is
    not looked at. *)
Definition next_drive : ST channel_t (Z * option Z) :=
  upd (fun c => set_clist (set_partition (dir_part (clist c)) (clist c)) (set_mode BUFFER_DIRECTORY_READ c));;
  let! r := switch in
  if r =? 0 then
    let! c := state in
    if small (clist c) =? 0 then ub
    else next_listing (vdrive_dir_first_directory
           (CmdParsePlus None 0 0 0 0 None 0 None 0 None 0 None 0 None 0 0 0 0 0))
  else upd (set_creadmode CBMDOS_FAM_EOF);; mret (SERIAL_EOF, None).

(** Status and byte; without a byte [*data] is as it was. *)
Definition iec_read_sequential (fuel : nat) : ST channel_t (Z * option Z) :=
  let! c := state in
  if negb (creadmode c =? CBMDOS_FAM_READ) then mret (SERIAL_ERROR, Some 0xc7)
  else
    let! data := get_buffer (cbufptr c) in
    let p := if negb (clength c =? 0) && (cbufptr c =? clength c) then 0xff else cbufptr c in
    let p := Z.land (u32 (p + 1)) 0xff in
    upd (set_bufptr p);;
    if negb (p =? 0) then mret (SERIAL_OK, Some data)
    else if (small (clist c) =? 0) && negb (clength c =? 0) then
      upd (set_creadmode CBMDOS_FAM_EOF);; mret (SERIAL_EOF, Some data)
    else
      switch;;
      let! (status, _) :=
        (if cmode c =? BUFFER_SEQUENTIAL then next_block
         else if cmode c =? BUFFER_DIRECTORY_READ then next_listing (vdrive_dir_next_directory fuel)
         else if cmode c =? BUFFER_PARTITION_READ then next_listing (vdrive_dir_part_next_directory fuel)
         else if cmode c =? BUFFER_DIRECTORY_MORE_READ then next_drive
         else mret (SERIAL_OK, None)) in
      mret (status, Some data).

Definition vdrive_iec_read (fuel : nat) : ST channel_t (Z * option Z) :=
  let! c := state in
  let m := cmode c in
  if m =? BUFFER_NOT_IN_USE then mret (Z.lor SERIAL_ERROR SERIAL_EOF, None)
  else if m =? BUFFER_MEMORY_BUFFER then
    let! data := (if next_override c <? 0 then get_buffer (cbufptr c)
                  else upd (set_next_override (-1));; mret (u8 (next_override c))) in
    upd (set_bufptr (u32 (cbufptr c + 1)));;
    if clength c <=? u32 (cbufptr c + 1) then upd (set_bufptr 1);; mret (SERIAL_EOF, Some data)
    else mret (SERIAL_OK, Some data)
  else if (m =? BUFFER_DIRECTORY_READ) || (m =? BUFFER_PARTITION_READ)
          || (m =? BUFFER_DIRECTORY_MORE_READ) || (m =? BUFFER_SEQUENTIAL) then iec_read_sequential fuel
  else if m =? BUFFER_COMMAND_CHANNEL then
    (if clength c <? cbufptr c then set_error CBMDOS_IPE_OK 0 0;; mret tt else mret tt);;
    let! c := state in
    let! data := get_buffer (cbufptr c) in
    upd (set_bufptr (u32 (cbufptr c + 1)));;
    mret (if clength c <? u32 (cbufptr c + 1) then SERIAL_EOF else SERIAL_OK, Some data)
  else if m =? BUFFER_RELATIVE then rel_read
  else mret (SERIAL_OK, None).

(** ** Writing a byte *)

Definition store_byte (data : Z) : ST channel_t unit :=
  let! c := state in
  put_buffer (cbufptr c) data;;
  upd (set_bufptr (u32 (cbufptr c + 1))).

(** Without an image the partition is looked for first: [Some] is a return. *)
Definition find_image : ST channel_t (option Z) :=
  let! c := state in
  if image_set (drive c) then mret None
  else
    let! status := switch in
    let! c := state in
    let status := if (status =? 0) && readonly c && negb (cmode c =? BUFFER_COMMAND_CHANNEL)
                  then CBMDOS_IPE_WRITE_PROTECT_ON else status in
    if negb (status =? 0) then set_error status 0 0;; mret (Some SERIAL_ERROR) else mret None.

Definition write_file_byte (data : Z) : ST channel_t Z :=
  let! c := state in
  if creadmode c =? CBMDOS_FAM_READ then mret SERIAL_ERROR
  else
    let! status := (if 256 <=? cbufptr c then
                      upd (set_bufptr 2);; switch;; iec_write_sequential WRITE_BLOCK
                    else mret 0) in
    if status <? 0 then mret SERIAL_ERROR else store_byte data;; mret SERIAL_OK.

(** A mode that is none of the known ones ends the program. *)
Definition vdrive_iec_write (fuel : nat) (data : Z) : ST channel_t Z :=
  let! r := find_image in
  match r with
  | Some rc => mret rc
  | None =>
      let! c := state in
      let m := cmode c in
      if m =? BUFFER_NOT_IN_USE then mret SERIAL_DEVICE_NOT_PRESENT
      else if (m =? BUFFER_DIRECTORY_READ) || (m =? BUFFER_PARTITION_READ)
              || (m =? BUFFER_DIRECTORY_MORE_READ) then
        set_error CBMDOS_IPE_NOT_WRITE 0 0;; mret SERIAL_ERROR
      else if m =? BUFFER_MEMORY_BUFFER then
        store_byte data;;
        let! c := state in
        (if clength c <=? cbufptr c then upd (set_bufptr 0) else mret tt);;
        mret SERIAL_OK
      else if m =? BUFFER_SEQUENTIAL then write_file_byte data
      else if m =? BUFFER_COMMAND_CHANNEL then
        (if creadmode c =? CBMDOS_FAM_READ
         then upd (fun c => set_bufptr 0 (set_creadmode CBMDOS_FAM_WRITE c)) else mret tt);;
        let! c := state in
        if 256 <=? cbufptr c then mret SERIAL_ERROR else store_byte data;; mret SERIAL_OK
      else if m =? BUFFER_RELATIVE then rel_write fuel data
      else ub
  end.

Definition vdrive_iec_listen (fuel : nat) : ST channel_t unit :=
  let! c := state in if cmode c =? BUFFER_RELATIVE then rel_listen fuel else mret tt.

End channel.
End Channel.
