(* ===== verification/ChannelSpec.v ===== *)
(** * Specification of files on channels

    A file that is written to a channel byte by byte is read back from the disk with
    the same bytes, as long as the disk has free sectors; what a channel does that was
    opened by an operation that failed or after the end of its file. *)

From Stdlib Require Import Ascii String.
From S2P Require Import Prelude Geometry Image VDrive Bam BamSpec BamAlloc AllocSpec Cbmdos Partition Directory DirSpec ScratchSpec Channel.
Import Bam BamSpec BamAlloc Directory Channel.

Module ChannelSpec.
Import AllocSpec.

Section disk.
Context {platform : Platform}.

(** ** Sectors of an image *)

(** Sector [(t, s)] of the image holds [b]. *)
Definition has (image : disk_image_t) (t s : Z) (b : mem) : Prop :=
  Image.covered image t s /\ Image.present image t s /\
  forall buf, mlen buf = 256 -> Image.disk_image_read_sector image buf t s = Some (CBMDOS_IPE_OK, b).

Lemma has_written image image' t s b : Image.image_wf image -> Image.covered image t s ->
  Image.written image b t s image' -> has image' t s b.
Proof.
  intros Hwf Hcov Hw. split; [by eapply Image.written_covered|]. split; [apply Hw|].
  intros buf Hbuf. by eapply (Image.read_written image).
Qed.

Lemma has_other image image' t s b t0 s0 b0 : Image.image_wf image -> has image t s b ->
  (t, s) <> (t0, s0) -> Image.written image b0 t0 s0 image' -> has image' t s b.
Proof.
  intros Hwf (Hcov & Hpres & Hr) Hne Hw. split; [by eapply Image.written_covered|].
  split; [by eapply Image.written_present|]. intros buf Hbuf.
  rewrite (Image.read_written_other image b0 buf t0 s0 image' t s) by done. by apply Hr.
Qed.

Lemma has_data image t s : Image.image_wf image -> map_ image = None -> Image.covered image t s ->
  Image.present image t s -> has image t s (Image.sector_data image t s).
Proof.
  intros Hwf Hmap Hcov Hpres. split; [done|]. split; [done|]. intros buf Hbuf.
  rewrite Image.read_sector_eq by done. unfold Image.map_code. by rewrite Hmap.
Qed.

(** ** Drives that hold files *)

(** A drive without partitions whose free sectors are sectors of the image *)
Record file_drive (v : vdrive_t) (image : disk_image_t) : Prop := {
  fv_drive : VDrive.drive_ok v image;
  fv_part : haspt (part v) = false;
  fv_offset : current_offset (part v) <> UINT32_MAX;
  fv_current : current_part (part v) = 0;
  fv_format : image_format (geom v) <> VDRIVE_IMAGE_FORMAT_NP /\
    image_format (geom v) <> VDRIVE_IMAGE_FORMAT_1581;
  fv_tracks : num_tracks (geom v) <= last_track (image_format (geom v)) /\
    2 <= Dir_Track (geom v) <= num_tracks (geom v);
  fv_half : Dir_Track (geom v) - 1 <= vdrive_calculate_disk_half v /\
    num_tracks (geom v) - Dir_Track (geom v) <= vdrive_calculate_disk_half v;
  fv_covered : forall t s, 1 <= t <= num_tracks (geom v) -> 0 <= s < spt v t -> Image.covered image t s
}.

Lemma file_drive_frame v v' image : frame v v' -> inv v -> inv v' -> file_drive v image -> file_drive v' image.
Proof.
  intros Hfr (b & Hok) (b' & Hok') [H1 H2 H3 H4 H5 H6 H7 H8].
  assert (image_set v' = image_set v /\ images0 v' = images0 v /\ part v' = part v /\ geom v' = geom v)
    as (E1 & E2 & E3 & E4).
  { split_and!; [apply (f_equal image_set) in Hfr|apply (f_equal images0) in Hfr
                |apply (f_equal part) in Hfr|apply (f_equal geom) in Hfr]; done. }
  assert (Hspt : forall t, spt v' t = spt v t) by (intros t; symmetry; by apply spt_frame).
  split; rewrite ?E1, ?E2, ?E3, ?E4; try done.
  - destruct H1 as [D1 D2 D3 D4]. split; [by rewrite E1|by rewrite E2|done|].
    unfold VDrive.VDRIVE_IS_1541, VDrive.foreign_dos_version, deref_image in *. rewrite E1, E2.
    intros Hv. specialize (D4 Hv). apply (f_equal bamc) in Hfr. unfold erase in Hfr. cbn in Hfr.
    rewrite (bo_bam _ _ Hok), (bo_bam _ _ Hok') in *. injection Hfr as Hver Hsize _ _.
    rewrite <- Hsize. destruct (2 <? bam_size (bamc v)) eqn:Hlt; [|done].
    rewrite Hsize in Hlt. apply Z.ltb_lt in Hlt. rewrite (bo_size _ _ Hok') in Hlt.
    destruct (getb_is_Some b 2) as [x Hx]; [rewrite (bo_len _ _ Hok), <- (bo_size _ _ Hok), Hsize, (bo_size _ _ Hok'); lia|].
    destruct (getb_is_Some b' 2) as [y Hy]; [rewrite (bo_len _ _ Hok'); lia|].
    rewrite Hx in *. rewrite Hy in *. cbn in Hver. by subst.
  - unfold vdrive_calculate_disk_half in *. by rewrite E4.
  - intros t s Ht Hs. rewrite Hspt in Hs. by apply H8.
Qed.

Lemma file_mapped v image t s : file_drive v image -> VDrive.vdrive_log_to_phy v t s = Some (Some (t, s)).
Proof.
  intros Hfd. pose proof (fv_drive _ _ Hfd) as Hd. unfold VDrive.vdrive_log_to_phy, deref_image.
  rewrite (VDrive.dk_set _ _ Hd), (fv_part _ _ Hfd), (VDrive.dk_image _ _ Hd).
  rewrite (proj2 (Z.eqb_neq _ _) (fv_offset _ _ Hfd)). cbn.
  pose proof (Image.wf_type _ (VDrive.dk_wf _ _ Hd)) as Hty. unfold Geometry.linear_types in Hty.
  repeat (apply elem_of_cons in Hty as [->|Hty]; [done|]). by apply not_elem_of_nil in Hty.
Qed.

(** The drive after a sector access *)
Definition accessed (v : vdrive_t) (image' : disk_image_t) : vdrive_t :=
  set_images0 (Some image') (set_image_mode 0 v).

Lemma accessed_inv v image' : inv v -> inv (accessed v image').
Proof. intros (b & Hok). exists b. split; apply Hok. Qed.

Lemma spt_geom v v' t : inv v -> geom v' = geom v -> spt v' t = spt v t.
Proof.
  intros (b & Hok) Hg. pose proof (bo_format _ _ Hok) as Hf. unfold spt, VDrive.vdrive_get_max_sectors.
  rewrite Hg. by format_cases Hf.
Qed.

Lemma write_run v image t s b : inv v -> file_drive v image -> Image.covered image t s -> mlen b = 256 ->
  exists image', VDrive.vdrive_write_sector b t s v = Some (0, accessed v image') /\
    Image.written image b t s image' /\ file_drive (accessed v image') image'.
Proof.
  intros Hinv Hfd Hcov Hb. pose proof (fv_drive _ _ Hfd) as Hd.
  destruct (Image.write_sector_written image b t s (VDrive.dk_wf _ _ Hd) Hcov Hb) as (image' & Hw & Hwr).
  exists image'. split; [by rewrite (VDrive.write_sector_run _ _ _ _ _ _ _ Hd (file_mapped _ _ _ _ Hfd)), Hw|].
  split; [done|]. pose proof (Image.written_wf _ _ _ _ _ (VDrive.dk_wf _ _ Hd) Hwr) as Hwf.
  split; [eapply (VDrive.drive_ok_written v image); [exact Hd|exact Hwf|apply Hwr]|apply Hfd..|].
  intros t' s' Ht Hs. rewrite (spt_geom v) in Hs by done. eapply Image.written_covered; [exact Hwr|]. apply (fv_covered _ _ Hfd t' s'); [exact Ht|exact Hs].
Qed.

Lemma read_run v image t s b buf : file_drive v image -> has image t s b -> mlen buf = 256 ->
  VDrive.vdrive_read_sector buf t s v = Some ((CBMDOS_IPE_OK, b), set_image_mode 0 v).
Proof.
  intros Hfd (_ & _ & Hr) Hbuf.
  by rewrite (VDrive.read_sector_run _ _ _ _ _ _ _ (fv_drive _ _ Hfd) (file_mapped _ _ _ _ Hfd)), Hr.
Qed.

(** The interleave of every format fits twice into its tracks. *)
Lemma fits_next v t s : inv v -> image_format (geom v) <> VDRIVE_IMAGE_FORMAT_NP -> 0 <= s < spt v t ->
  fits v s (vdrive_bam_get_interleave v).
Proof.
  intros (b & Hok) Hnp Hs. pose proof (bo_format _ _ Hok) as Hf.
  assert (exists lo hi, (forall u, lo <= spt v u <= hi) /\
    0 <= vdrive_bam_get_interleave v /\ hi + vdrive_bam_get_interleave v <= 2 * lo) as (lo & hi & Hspt & Hi & Hlh).
  { unfold spt, VDrive.vdrive_get_max_sectors, vdrive_bam_get_interleave.
    assert (Hz : forall u, 17 <= Geometry.disk_image_sector_per_track DISK_IMAGE_TYPE_D64 u <= 21 /\
      17 <= Geometry.disk_image_sector_per_track DISK_IMAGE_TYPE_D71 u <= 21 /\
      17 <= Geometry.disk_image_sector_per_track DISK_IMAGE_TYPE_D67 u <= 21 /\
      23 <= Geometry.disk_image_sector_per_track DISK_IMAGE_TYPE_D80 u <= 29).
    { intros u. unfold Geometry.disk_image_sector_per_track. cbn.
      unfold Geometry.sector_map_d64, Geometry.sector_map_d67, Geometry.sector_map_d80,
        Geometry.disk_image_speed_map, Geometry.zone. cbn. repeat case_match; lia. }
    format_cases Hf; eval_tests; cbn [default]; try done;
      [exists 17, 21|exists 17, 21|exists 17, 21|exists 40, 40|exists 23, 29|exists 23, 29];
      (split; [intros u|destruct (haspt (part v)); lia]); pose proof (Hz u);
      pose proof (Hz (u - NUM_TRACKS_8250 / 2)); repeat case_match; cbn [default]; unfold id; lia. }
  split; [lia|]. split; [done|]. intros u. pose proof (Hspt u). pose proof (Hspt t). lia.
Qed.

Lemma next_found v image t s : inv v -> file_drive v image -> file_track (geom v) t -> 0 <= s < spt v t ->
  wp (vdrive_bam_alloc_next_free_sector t s) (finds v (file_track (geom v))) v.
Proof.
  intros Hinv Hfd [Ht Hne] Hs. apply wp_bindST, wp_eq with v v; [done|].
  apply next_free_finds; [done|apply Hfd|by eapply fits_next; [|apply Hfd|]|apply Hfd|done|apply Hfd|done].
Qed.

Lemma first_found v image : inv v -> file_drive v image ->
  wp vdrive_bam_alloc_first_free_sector (finds v (file_track (geom v))) v.
Proof.
  intros Hinv Hfd. pose proof (fv_tracks _ _ Hfd).
  apply first_free_finds; try done; try apply Hfd; lia.
Qed.

(** The switch to the partition of a channel does nothing. *)
Lemma switch_run v image p ps pe : file_drive v image -> 0 <= p ->
  vdrive_iec_switch p ps pe v = Some (CBMDOS_IPE_OK, v).
Proof.
  intros Hfd Hp. destruct (fv_format _ _ Hfd) as [_ H81].
  assert (Hsw : Partition.vdrive_switch p v = Some (CBMDOS_IPE_OK, v)).
  { unfold Partition.vdrive_switch. rewrite (proj2 (Z.ltb_ge p 0)) by lia. unfold bindST at 1, state.
    unfold Partition.vdrive_realpart. rewrite (fv_part _ _ Hfd), (fv_current _ _ Hfd). cbn [negb].
    assert ((if NUM_DRIVES <=? p then 0 else p) = 0) as -> by (unfold NUM_DRIVES; case_bool; lia).
    change (negb (0 =? 0)) with false. cbv iota. unfold bindST at 1. cbn [mret ST_ret].
    unfold mbind, ST_bind, bindST, Partition.restore_sub_partition, bindST, state.
    by rewrite (proj2 (Z.eqb_neq _ _) H81). }
  unfold vdrive_iec_switch. rewrite (bind_run _ _ _ _ _ Hsw). unfold bindST at 1, state.
  rewrite (proj2 (Z.eqb_neq _ _) H81). change (CBMDOS_IPE_OK =? 0) with true. done.
Qed.

(** ** The sectors of a file *)

Definition file_sector (v : vdrive_t) (a : Z * Z) : Prop :=
  file_track (geom v) a.1 /\ 0 <= a.2 < spt v a.1.

(** Full sectors that hold [bytes], linked from [p] to [q] *)
Inductive segment (image : disk_image_t) : Z * Z -> mem -> list (Z * Z) -> Z * Z -> Prop :=
| segment_nil q : segment image q [] [] q
| segment_next t s t' s' data bytes l q : t' <> 0 -> mlen data = 254 ->
    has image t s (t' :: s' :: data) -> segment image (t', s') bytes l q ->
    segment image (t, s) (data ++ bytes) ((t, s) :: l) q.

(** The file of [bytes] that starts at [p]: full sectors and a last one, which holds its
    length *)
Definition file_on (image : disk_image_t) (p : Z * Z) (bytes : mem) (l : list (Z * Z)) : Prop :=
  exists full l' q data pad, segment image p full l' q /\ l = l' ++ [q] /\ bytes = full ++ data /\
    1 <= mlen data <= 254 /\ mlen (data ++ pad) = 254 /\
    has image q.1 q.2 (0 :: mlen data + 1 :: data ++ pad).

Lemma segment_snoc image p bytes l t s t' s' data : segment image p bytes l (t, s) ->
  t' <> 0 -> mlen data = 254 -> has image t s (t' :: s' :: data) ->
  segment image p (bytes ++ data) (l ++ [(t, s)]) (t', s').
Proof.
  remember (t, s) as q eqn:Hq. intros Hseg. revert Hq.
  induction Hseg as [q|t0 s0 t1 s1 data0 bytes l q Hne Hl Hh Hseg IH]; intros -> Ht' Hd Hhas.
  - cbn. rewrite <- (app_nil_r data). by apply (segment_next _ _ _ t' s' data); [..|constructor].
  - rewrite <- app_assoc. apply (segment_next _ _ _ t1 s1 data0); [done|done|done|by apply IH].
Qed.

Lemma segment_no_bytes image p l q : segment image p [] l q -> p = q.
Proof.
  remember [] as bytes eqn:Hb. destruct 1 as [q|t s t' s' data bytes l q Hne Hl Hh Hseg]; [done|].
  apply app_eq_nil in Hb as [-> _]. done.
Qed.

(** Other sectors may change. *)
Lemma segment_other image image' p bytes l q : segment image p bytes l q ->
  (forall t s b, (t, s) ∈ l -> has image t s b -> has image' t s b) -> segment image' p bytes l q.
Proof.
  induction 1 as [q|t s t' s' data bytes l q Hne Hl Hh Hseg IH]; intros Hk; [constructor|].
  econstructor; [done|done|apply Hk; [by left|exact Hh]|]. apply IH. intros t0 s0 b0 Hin. apply Hk. by right.
Qed.

(** A drive whose image is [image], with its BAM *)
Definition good (v : vdrive_t) (image : disk_image_t) : Prop := inv v /\ file_drive v image.

(** [b] was written to [(t, s)], and the free sectors were left as they were. *)
Definition wrote (v : vdrive_t) (image : disk_image_t) (t s : Z) (b : mem) (v' : vdrive_t)
    (image' : disk_image_t) : Prop :=
  good v' image' /\ geom v' = geom v /\ free v' = free v /\ has image' t s b /\
  forall t0 s0 b0, has image t0 s0 b0 -> (t0, s0) <> (t, s) -> has image' t0 s0 b0.

Lemma write_wrote v image t s b : good v image -> file_sector v (t, s) -> mlen b = 256 ->
  exists v' image', VDrive.vdrive_write_sector b t s v = Some (0, v') /\ wrote v image t s b v' image'.
Proof.
  intros [Hinv Hfd] [[Ht _] Hs] Hb. pose proof (fv_covered _ _ Hfd t s Ht Hs) as Hcov.
  destruct (write_run v image t s b Hinv Hfd Hcov Hb) as (image' & Hrun & Hwr & Hfd').
  exists (accessed v image'), image'. split; [done|]. pose proof (VDrive.dk_wf _ _ (fv_drive _ _ Hfd)) as Hwf.
  split; [split; [by apply accessed_inv|done]|]. split; [done|]. split; [done|].
  split; [by eapply has_written|]. intros t0 s0 b0 Hh Hne. by eapply has_other.
Qed.

Lemma file_sector_geom v v' a : inv v -> geom v' = geom v -> file_sector v a -> file_sector v' a.
Proof. intros Hinv Hg [Ht Hs]. split; [by rewrite Hg|by rewrite (spt_geom v)]. Qed.

(** Track and sector of a file fit in bytes. *)
Lemma file_sector_byte v image a : good v image -> file_sector v a -> 1 <= a.1 <= 255 /\ 0 <= a.2 <= 255.
Proof.
  intros [Hinv Hfd] [[Ht _] Hs]. pose proof (spt_run v a.1 Hinv) as (_ & _ & Hspt & _).
  pose proof (fv_tracks _ _ Hfd) as [Hn _]. destruct Hinv as (b & Hok). pose proof (bo_format _ _ Hok) as Hf.
  assert (last_track (image_format (geom v)) <= 255); [|lia].
  by format_cases Hf; vm_compute.
Qed.

End disk.

Section channel.
Context {platform : Platform} {relative : Relative} {clock : Clock}.

(** ** A channel for writing *)

Definition set_drive (v : vdrive_t) (c : channel_t) : channel_t :=
  set_clist (set_search (set_drv v (search (clist c))) (clist c)) c.

(** Channel [c] with another drive, buffer, position, entry and sector *)
Definition chan (c : channel_t) (v : vdrive_t) (b : mem) (p : Z) (e : mem) (t s : Z) : channel_t :=
  set_slot (A_slot e) (set_ctrack t (set_csector s (set_bufptr p (set_buffer b (set_drive v c))))).

(** A channel of a file whose buffer is allocated *)
Definition file_channel (c : channel_t) : Prop :=
  place c = Heap /\ cmode c = BUFFER_SEQUENTIAL /\ 0 <= partition (clist c).

Lemma on_cdrive_run {A} (m : ST vdrive_t A) c a v' : m (drive c) = Some (a, v') ->
  on_cdrive m c = Some (a, set_drive v' c).
Proof.
  intros Hm. unfold on_cdrive, on_list, on_ldrive, on_search, on_drive.
  change (drv (search (clist c))) with (drive c). by rewrite Hm.
Qed.

Lemma on_cdrive_chan {A} (m : ST vdrive_t A) c v b p e t s a v' : m v = Some (a, v') ->
  on_cdrive m (chan c v b p e t s) = Some (a, chan c v' b p e t s).
Proof. intros Hm. by rewrite (on_cdrive_run m _ a v'). Qed.

Lemma get_slot_run c v b p e t s i x : getb e i = Some x ->
  get_slot i (chan c v b p e t s) = Some (x, chan c v b p e t s).
Proof. intros Hx. unfold get_slot, bindST, state, lift. cbn [slot chan set_slot]. by rewrite Hx. Qed.

Lemma put_slot_run c v b p e t s i x : 0 <= i < mlen e ->
  put_slot i x (chan c v b p e t s) = Some (tt, chan c v b p (<[Z.to_nat i := u8 x]> e) t s).
Proof. intros Hi. unfold put_slot, update. cbn [slot chan set_slot]. by rewrite putb_eq. Qed.

Lemma load_buffer_run c v b p e t s : place c = Heap ->
  load_buffer (chan c v b p e t s) = Some (b, chan c v b p e t s).
Proof.
  intros Hh. unfold load_buffer, bindST, state, lift. by change (place (chan c v b p e t s)) with (place c); rewrite Hh.
Qed.

Lemma store_buffer_run c v b b' p e t s : place c = Heap ->
  store_buffer b' (chan c v b p e t s) = Some (tt, chan c v b' p e t s).
Proof.
  intros Hh. unfold store_buffer, update. by change (place (chan c v b p e t s)) with (place c); rewrite Hh.
Qed.

Lemma put_buffer_run c v b p e t s i x : place c = Heap -> 0 <= i < mlen b ->
  put_buffer i x (chan c v b p e t s) = Some (tt, chan c v (<[Z.to_nat i := u8 x]> b) p e t s).
Proof.
  intros Hh Hi. unfold put_buffer. rewrite (bind_run _ _ _ _ _ (load_buffer_run c v b p e t s Hh)).
  unfold bindST, lift. rewrite putb_eq by done. by apply store_buffer_run.
Qed.

Lemma switch_chan c v image b p e t s : file_channel c -> file_drive v image ->
  switch (chan c v b p e t s) = Some (CBMDOS_IPE_OK, chan c v b p e t s).
Proof.
  intros (_ & _ & Hp) Hfd. unfold switch, on_list, switch_listing, bindST, state.
  cbn [clist chan set_slot set_ctrack set_csector].
  unfold on_ldrive, on_search, on_drive.
  pose proof (switch_run v image (partition (clist c)) (partstart (clist c)) (partend (clist c)) Hfd Hp) as Hrun.
  cbn. by rewrite Hrun.
Qed.

(** ** The block count of an entry *)

Definition entry_blocks (e : mem) : Z :=
  default 0 (getb e SLOT_NR_BLOCKS) + 256 * default 0 (getb e (SLOT_NR_BLOCKS + 1)).

Definition entry_ok (e : mem) : Prop := mlen e = 32 /\ bytes_ok e.

(** Only the block count differs. *)
Definition counted (e e' : mem) : Prop :=
  entry_ok e' /\ forall i, i <> SLOT_NR_BLOCKS -> i <> SLOT_NR_BLOCKS + 1 -> getb e' i = getb e i.

Lemma entry_ok_insert e i x : entry_ok e -> entry_ok (<[i := u8 x]> e).
Proof.
  intros [Hl Hb]. split; [by autorewrite with mem|]. apply Forall_insert; [done|]. apply Z.mod_pos_bound. lia.
Qed.

Lemma entry_byte e i : entry_ok e -> 0 <= i < 32 -> exists x, getb e i = Some x /\ 0 <= x < 256.
Proof.
  intros [Hl Hb] Hi. destruct (getb_is_Some e i) as [x Hx]; [lia|]. exists x. split; [done|].
  apply getb_Some in Hx as [_ Hx]. exact (Forall_lookup_1 _ _ _ _ Hb Hx).
Qed.

Lemma entry_blocks_eq e n m : getb e 30 = Some n -> getb e 31 = Some m -> entry_blocks e = n + 256 * m.
Proof. intros Hn Hm. unfold entry_blocks. change SLOT_NR_BLOCKS with 30. change (30 + 1) with 31. by rewrite Hn, Hm. Qed.

Lemma insert_entry e i x k : entry_ok e -> 0 <= i < 32 ->
  getb (<[Z.to_nat i := x]> e) k = if k =? i then Some x else getb e k.
Proof. intros [Hl _] Hi. apply getb_insert. lia. Qed.

Lemma count_block_run c v b p e t s : entry_ok e ->
  exists e', count_block (chan c v b p e t s) = Some (tt, chan c v b p e' t s) /\ counted e e' /\
    entry_blocks e' = (entry_blocks e + 1) mod 65536.
Proof.
  intros He. destruct (entry_byte e 30 He ltac:(lia)) as (n & Hn & Hn256).
  destruct (entry_byte e 31 He ltac:(lia)) as (m & Hm & Hm256). pose proof He as [Hl _].
  unfold count_block, SLOT_NR_BLOCKS. change (30 + 1) with 31.
  rewrite (bind_run _ _ _ _ _ (get_slot_run c v b p e t s 30 n Hn)). unfold mbind, ST_bind.
  rewrite (bind_run _ _ _ _ _ (put_slot_run c v b p e t s 30 (n + 1) ltac:(lia))).
  set (e1 := <[Z.to_nat 30 := u8 (n + 1)]> e).
  assert (He1 : entry_ok e1) by by apply entry_ok_insert. pose proof He1 as [Hl1 _].
  assert (Hg1 : forall k, getb e1 k = if k =? 30 then Some (u8 (n + 1)) else getb e k)
    by (intros k; by apply insert_entry).
  rewrite (entry_blocks_eq e n m Hn Hm).
  destruct (Z.eqb_spec (u8 (n + 1)) 0) as [H0|H0].
  - rewrite (bind_run _ _ _ _ _ (get_slot_run c v b p e1 t s 31 m ltac:(by rewrite Hg1))).
    rewrite put_slot_run by lia. eexists. split; [reflexivity|].
    assert (Hg2 : forall k, getb (<[Z.to_nat 31 := u8 (m + 1)]> e1) k
      = if k =? 31 then Some (u8 (m + 1)) else getb e1 k) by (intros k; by apply insert_entry).
    assert (n = 255) as -> by (unfold u8 in H0; Z.to_euclidean_division_equations; lia).
    split; [split; [by apply entry_ok_insert|]|].
    + intros i Hi Hi'. change (SLOT_NR_BLOCKS + 1) with 31 in Hi'. change SLOT_NR_BLOCKS with 30 in Hi.
      by rewrite Hg2, Hg1, !(proj2 (Z.eqb_neq _ _)) by done.
    + rewrite (entry_blocks_eq _ 0 (u8 (m + 1))); [|by rewrite Hg2, Hg1, H0|by rewrite Hg2].
      unfold u8. Z.to_euclidean_division_equations. lia.
  - eexists. split; [reflexivity|]. split; [split; [done|]|].
    + intros i Hi _. change SLOT_NR_BLOCKS with 30 in Hi. by rewrite Hg1, (proj2 (Z.eqb_neq _ _)) by done.
    + rewrite (entry_blocks_eq _ (u8 (n + 1)) m); [|by rewrite Hg1|by rewrite Hg1].
      unfold u8 in *. Z.to_euclidean_division_equations. lia.
Qed.

(** ** Writing blocks *)

(** The full sectors of a file hold [full]; [(t, s)] is allocated for the next one. *)
Record placed (v : vdrive_t) (image : disk_image_t) (e : mem) (t s : Z) (full : mem)
    (l : list (Z * Z)) : Prop := {
  pl_start : exists t0 s0, getb e SLOT_FIRST_TRACK = Some t0 /\ getb e SLOT_FIRST_SECTOR = Some s0 /\
    segment image (t0, s0) full l (t, s);
  pl_nodup : NoDup ((t, s) :: l);
  pl_sectors : forall a, a ∈ (t, s) :: l -> file_sector v a /\ a ∉ free v;
  pl_blocks : entry_blocks e = Z.of_nat (length l) mod 65536
}.

(** A file with no sector yet, or with some *)
Definition started (v : vdrive_t) (image : disk_image_t) (e : mem) (t s : Z) (full : mem)
    (l : list (Z * Z)) : Prop :=
  t = 0 /\ full = [] /\ l = [] \/ t <> 0 /\ placed v image e t s full l.

(** No track a file may use has a free sector. *)
Definition full_disk (v : vdrive_t) : Prop := forall a, file_sector v a -> a ∉ free v.

Lemma found_good v image r v' : good v image -> finds v (file_track (geom v)) r v' ->
  good v' image /\ geom v' = geom v /\ free v' ⊆ free v.
Proof.
  intros [Hinv Hfd] (Hinv' & Hfr & Hr). split; [split; [done|by eapply file_drive_frame]|].
  split; [by apply frame_geom|]. destruct r as [[t s]|]; [|by destruct Hr as [-> _]].
  destruct Hr as (_ & _ & _ & ->). set_solver.
Qed.

Lemma set_error_chan c v b p e t s code t0 s0 : cmode c = BUFFER_SEQUENTIAL ->
  set_error code t0 s0 (chan c v b p e t s)
    = Some (code, chan c (set_last_code code (set_err_track t0 (set_err_sector s0 v))) b p e t s).
Proof.
  intros Hm. unfold set_error, mbind, ST_bind.
  rewrite (bind_run _ _ _ code (chan c (set_last_code code (set_err_track t0 (set_err_sector s0 v))) b p e t s))
    by (by apply on_cdrive_chan).
  unfold bindST at 1, state. change (cmode (chan c _ b p e t s)) with (cmode c). by rewrite Hm.
Qed.

Lemma good_error v image code t s : good v image ->
  good (set_last_code code (set_err_track t (set_err_sector s v))) image.
Proof.
  intros [[b Hok] Hfd]. split; [exists b; by apply bam_ok_error|]. by destruct Hfd as [[]].
Qed.

(** The first sector of the file, if it has none yet *)
Lemma first_block_run c v image b p e t s full l : file_channel c -> needsupdate c = 0 -> good v image ->
  entry_ok e -> started v image e t s full l ->
  wp first_block (fun ok c' =>
    if (ok : bool) then exists v' e' t' s', c' = chan c v' b p e' t' s' /\ good v' image /\
      geom v' = geom v /\ free v' ⊆ free v /\ entry_ok e' /\ t' <> 0 /\ placed v' image e' t' s' full l
    else t = 0 /\ full_disk v /\ exists v', c' = chan c v' b p e t s /\ good v' image /\ geom v' = geom v /\
      free v' = free v)
    (chan c v b p e t s).
Proof.
  intros Hc Hnu Hgood He Hst. unfold first_block. apply wp_bindST, wp_state.
  change (ctrack (chan c v b p e t s)) with t. change (needsupdate (chan c v b p e t s)) with (needsupdate c).
  destruct (Z.eqb_spec t 0) as [->|Hne]; cbn [negb].
  2: { apply wp_ret. destruct Hst as [(? & _)|[_ Hpl]]; [done|]. by exists v, e, t, s. }
  destruct Hst as [(_ & -> & ->)|[? _]]; [|done]. destruct Hgood as [Hinv Hfd].
  pose proof (first_found v image Hinv Hfd) as Hw. apply wp_run in Hw as (r & v' & Hrun & Hfinds).
  destruct (found_good v image r v' (conj Hinv Hfd) Hfinds) as (Hgood' & Hg & Hsub).
  apply wp_bindST, wp_eq with r (chan c v' b p e 0 s); [by apply on_cdrive_chan|].
  destruct Hfinds as (_ & _ & Hr). destruct r as [[t' s']|].
  2: { apply wp_ret. destruct Hr as [Hfree Hnone]. split; [done|]. split; [|by exists v'].
       intros [t1 s1] [Ht Hs]. by apply Hnone. }
  destruct Hr as (Ht & Hs & Hin & Hfree).
  assert (Hsec : file_sector v (t', s')) by done.
  pose proof (file_sector_byte v image (t', s') (conj Hinv Hfd) Hsec) as [Htb Hsb]. cbn in Htb, Hsb.
  pose proof He as [Hl _]. rewrite Hnu. cbn [Z.eqb negb].
  set (e1 := <[Z.to_nat SLOT_FIRST_TRACK := u8 t']> e). set (e2 := <[Z.to_nat SLOT_FIRST_SECTOR := u8 s']> e1).
  set (e3 := <[Z.to_nat SLOT_NR_BLOCKS := u8 0]> e2). set (e4 := <[Z.to_nat (SLOT_NR_BLOCKS + 1) := u8 0]> e3).
  assert (He4 : entry_ok e4) by (repeat apply entry_ok_insert; done).
  assert (Hput : forall e0 i x, mlen e0 = 32 -> 0 <= i < 32 ->
    put_slot i x (chan c v' b p e0 t' s') = Some (tt, chan c v' b p (<[Z.to_nat i := u8 x]> e0) t' s')).
  { intros e0 i x Hl0 Hi. apply put_slot_run. lia. }
  apply wp_bind, wp_eq with tt (chan c v' b p e t' s'); [done|].
  apply wp_bind, wp_eq with tt (chan c v' b p e2 t' s').
  { unfold mbind, ST_bind. rewrite (bind_run _ _ _ _ _ (Hput e SLOT_FIRST_TRACK t' Hl ltac:(done))).
    apply Hput; [unfold e1; by autorewrite with mem|done]. }
  apply wp_bind, wp_eq with tt (chan c v' b p e3 t' s');
    [apply Hput; [unfold e2, e1; by autorewrite with mem|done]|].
  apply wp_bind, wp_eq with tt (chan c v' b p e4 t' s');
    [apply Hput; [unfold e3, e2, e1; by autorewrite with mem|done]|].
  apply wp_ret. exists v', e4, t', s'. do 5 (split; [done|]). split; [lia|].
  assert (Hg4 : forall k, getb e4 k = if k =? 31 then Some 0 else if k =? 30 then Some 0 else
    if k =? 4 then Some (u8 s') else if k =? 3 then Some (u8 t') else getb e k).
  { intros k. unfold e4, e3, e2, e1. rewrite !insert_entry by (repeat apply entry_ok_insert; done || done).
    done. }
  assert (u8 t' = t' /\ u8 s' = s') as [Hut Hus] by (unfold u8; split; apply Z.mod_small; lia).
  split.
  - exists t', s'. split; [rewrite Hg4; by f_equal|]. split; [rewrite Hg4; by f_equal|]. constructor.
  - repeat constructor. by apply not_elem_of_nil.
  - intros a Ha. apply list_elem_of_singleton in Ha as ->. split; [by apply (file_sector_geom v)|].
    rewrite Hfree. set_solver.
  - by rewrite (entry_blocks_eq e4 0 0) by by rewrite Hg4.
Qed.

Lemma wp_same {S A} (m m' : ST S A) Q s s' : m s = m' s' -> wp m' Q s' -> wp m Q s.
Proof. unfold wp. by intros ->. Qed.

(** The buffer with its first two bytes set *)
Lemma link_buffer (b : mem) x y : mlen b = 256 ->
  <[Z.to_nat 1 := u8 y]> (<[Z.to_nat 0 := u8 x]> b) = u8 x :: u8 y :: drop 2 b.
Proof. intros Hb. destruct b as [|b0 [|b1 b]]; [done|done|]. done. Qed.

Lemma write_link_run c v b p e t s x y (k : ST channel_t Z) : file_channel c -> mlen b = 256 ->
  (put_buffer 0 x;; put_buffer 1 y;; k) (chan c v b p e t s)
    = k (chan c v (u8 x :: u8 y :: drop 2 b) p e t s).
Proof.
  intros (Hh & _) Hb. unfold mbind, ST_bind.
  rewrite (bind_run _ _ _ _ _ (put_buffer_run c v b p e t s 0 x Hh ltac:(lia))).
  rewrite (bind_run _ _ _ _ _ (put_buffer_run c v (<[Z.to_nat 0 := u8 x]> b) p e t s 1 y Hh ltac:(rewrite mlen_insert; lia))).
  by rewrite link_buffer.
Qed.

Lemma write_buffer_run c v b p e t s t0 s0 r v' : place c = Heap ->
  VDrive.vdrive_write_sector b t0 s0 v = Some (r, v') ->
  write_buffer t0 s0 (chan c v b p e t s) = Some (r, chan c v' b p e t s).
Proof.
  intros Hh Hw. unfold write_buffer. rewrite (bind_run _ _ _ _ _ (load_buffer_run c v b p e t s Hh)).
  by apply on_cdrive_chan.
Qed.

(** The rest of a file's sectors are left as they are by a write to another one. *)
Lemma placed_wrote v image e t s full l x y data v' image' e' t' s' :
  good v image -> placed v image e t s full l -> counted e e' ->
  entry_blocks e' = (entry_blocks e + 1) mod 65536 ->
  wrote v image t s (x :: y :: data) v' image' -> mlen data = 254 -> x = t' -> y = s' -> t' <> 0 ->
  file_sector v (t', s') -> (t', s') ∉ free v -> (t', s') ∉ (t, s) :: l ->
  placed v' image' e' t' s' (full ++ data) (l ++ [(t, s)]).
Proof.
  intros Hgood [(t0 & s0 & H0 & H1 & Hseg) Hnd Hsec Hbl] [_ Hc] Hcount (_ & Hg & Hfree & Hhas & Hother)
    Hd -> -> Hne Hs' Hfree' Hnin.
  assert (Hperm : (t, s) :: l ≡ₚ l ++ [(t, s)]) by (by rewrite Permutation_app_comm).
  split.
  - exists t0, s0. rewrite !Hc by done. split; [done|]. split; [done|].
    apply (segment_snoc _ _ _ _ t s t' s' data); [|done|done|done].
    apply (segment_other image); [done|]. intros t1 s1 b1 Hin Hb. apply Hother; [done|].
    intros Heq. rewrite Heq in Hin. by apply NoDup_cons in Hnd as [? _].
  - rewrite <- Hperm. by constructor.
  - intros a. rewrite <- Hperm, Hfree. intros Ha. split.
    + apply (file_sector_geom v); [apply Hgood|done|]. apply elem_of_cons in Ha as [->|Ha]; [done|by apply Hsec].
    + apply elem_of_cons in Ha as [->|Ha]; [done|by apply Hsec].
  - rewrite Hcount, Hbl, length_app. cbn [length]. rewrite Zplus_mod_idemp_l. f_equal. lia.
Qed.

Lemma placed_shrunk v v' image e t s full l : good v image -> geom v' = geom v -> free v' ⊆ free v ->
  placed v image e t s full l -> placed v' image e t s full l.
Proof.
  intros Hgood Hg Hsub [H1 H2 H3 H4]. split; [done|done| |done].
  intros a Ha. destruct (H3 a Ha) as [Hs Hf]. split; [by apply (file_sector_geom v); [apply Hgood|..]|].
  set_solver.
Qed.

Lemma full_disk_geom v v' image : good v image -> geom v' = geom v -> free v' = free v -> full_disk v -> full_disk v'.
Proof.
  intros [Hinv Hfd] Hg Hf Hfull a Ha. rewrite Hf. apply Hfull. destruct Ha as [Ht Hs].
  split; [by rewrite <- Hg|by rewrite <- (spt_geom v v')].
Qed.

(** The channel after a failure: the disk is full, and nothing but the drive changed *)
Definition disk_is_full (c : channel_t) (image : disk_image_t) (c' : channel_t) : Prop :=
  exists v b p e t s, c' = chan c v b p e t s /\ good v image /\ full_disk v.

Lemma disk_full_run c v image b p e t s : file_channel c -> good v image -> full_disk v ->
  wp disk_full (fun r c' => r = -1 /\ disk_is_full c image c') (chan c v b p e t s).
Proof.
  intros (_ & Hm & _) Hgood Hfull. unfold disk_full. apply wp_bindST, wp_state.
  apply wp_bind. eapply wp_eq; [by apply set_error_chan|]. apply wp_ret. split; [done|].
  eexists _, b, p, e, t, s. split; [reflexivity|]. split; [by apply good_error|].
  exact (full_disk_geom v _ image Hgood eq_refl eq_refl Hfull).
Qed.

(** Writing a full buffer *)
Lemma write_block_run c v image b p e t s full l : file_channel c -> needsupdate c = 0 -> good v image ->
  entry_ok e -> mlen b = 256 -> started v image e t s full l ->
  wp (iec_write_sequential WRITE_BLOCK) (fun r c' =>
    (r = 0 /\ exists v' image' b' e' t' s' l', c' = chan c v' b' p e' t' s' /\ good v' image' /\ mlen b' = 256 /\
       entry_ok e' /\ t' <> 0 /\ placed v' image' e' t' s' (full ++ drop 2 b) l') \/
    (r = -1 /\ disk_is_full c image c')) (chan c v b p e t s).
Proof.
  intros Hc Hnu Hgood He Hb Hst. unfold iec_write_sequential. apply wp_bindST.
  eapply wp_mono; [by apply (first_block_run c v image b p e t s full l)|].
  intros ok c1. destruct ok; cbn [negb].
  2: { intros (_ & Hfull & v' & -> & Hgood' & Hg & Hfree).
       eapply wp_mono; [apply (disk_full_run c v' image); [done|done|exact (full_disk_geom v v' image Hgood Hg Hfree Hfull)]|]. intros r c' ?. by right. }
  intros (v1 & e1 & t1 & s1 & -> & Hgood1 & Hg1 & Hsub1 & He1 & Hne1 & Hpl). clear t s e v Hst Hgood He Hg1 Hsub1.
  apply wp_bindST, wp_state. cbv zeta beta iota. change (ctrack (chan c v1 b p e1 t1 s1)) with t1.
  change (csector (chan c v1 b p e1 t1 s1)) with s1. change (WRITE_BLOCK =? WRITE_BLOCK) with true. cbv iota.
  destruct (pl_sectors _ _ _ _ _ _ _ Hpl (t1, s1) (list_elem_of_here _ _)) as [Hsec Hnf].
  destruct Hgood1 as [Hinv1 Hfd1].
  pose proof (next_found v1 image t1 s1 Hinv1 Hfd1 (proj1 Hsec) (proj2 Hsec)) as Hw.
  apply wp_run in Hw as (r & v2 & Hrun & Hfinds).
  destruct (found_good v1 image r v2 (conj Hinv1 Hfd1) Hfinds) as (Hgood2 & Hg2 & Hsub2).
  apply wp_bindST, wp_eq with r (chan c v2 b p e1 t1 s1); [by apply on_cdrive_chan|].
  destruct Hfinds as (_ & _ & Hr). destruct r as [[t2 s2]|].
  2: { destruct Hr as [Hfree Hnone].
       eapply wp_mono; [apply (disk_full_run c v2 image); [done|done|]|intros r c' ?; by right].
       intros [t3 s3] Ha. rewrite Hfree. destruct Ha as [Ht Hs]. apply Hnone; [by rewrite <- Hg2|].
       by rewrite <- (spt_geom v1 v2). }
  destruct Hr as (Ht2 & Hs2 & Hin & Hfree2). assert (Hsec2 : file_sector v1 (t2, s2)) by done.
  pose proof (file_sector_byte v1 image (t2, s2) (conj Hinv1 Hfd1) Hsec2) as [Htb Hsb]. cbn in Htb, Hsb.
  assert (u8 t2 = t2 /\ u8 s2 = s2) as [Hu1 Hu2] by (unfold u8; split; apply Z.mod_small; lia).
  eapply wp_same; [by apply write_link_run|]. rewrite Hu1, Hu2.
  set (b2 := t2 :: s2 :: drop 2 b). assert (Hb2 : mlen b2 = 256).
  { unfold b2, mlen in *. cbn [length]. rewrite length_drop. lia. }
  assert (Hsec1' : file_sector v2 (t1, s1)) by (by apply (file_sector_geom v1)).
  destruct (write_wrote v2 image t1 s1 b2 Hgood2 Hsec1' Hb2) as (v3 & image' & Hwrite & Hwrote).
  apply wp_bindST, wp_eq with 0 (chan c v3 b2 p e1 t1 s1); [by apply write_buffer_run; [apply Hc|]|].
  change (negb (0 =? CBMDOS_IPE_OK)) with false. cbv iota.
  apply wp_bind, wp_eq with tt (chan c v3 b2 p e1 t2 s2); [done|].
  destruct (count_block_run c v3 b2 p e1 t2 s2 He1) as (e2 & Hcount & Hcd & Hbl).
  apply wp_bind, wp_eq with tt (chan c v3 b2 p e2 t2 s2); [done|]. apply wp_ret. left. split; [done|].
  exists v3, image', b2, e2, t2, s2, (l ++ [(t1, s1)]). split; [done|]. split; [apply Hwrote|]. split; [done|].
  split; [apply Hcd|]. split; [lia|].
  apply (placed_wrote v2 image e1 t1 s1 full l t2 s2 (drop 2 b) v3 image' e2 t2 s2); try done.
  - by eapply placed_shrunk; [|exact Hg2|exact Hsub2|].
  - unfold mlen in *. rewrite length_drop. lia.
  - lia.
  - by apply (file_sector_geom v1).
  - rewrite Hfree2. set_solver.
  - intros Hin'. by destruct (pl_sectors _ _ _ _ _ _ _ Hpl _ Hin') as [_ ?].
Qed.

(** A file whose last sector [q] holds [last]: the sectors [l] in front of it, and the
    block count *)
Definition ended (v : vdrive_t) (image : disk_image_t) (e : mem) (full : mem) (l : list (Z * Z))
    (q : Z * Z) (last : mem) : Prop :=
  (exists t0 s0, getb e SLOT_FIRST_TRACK = Some t0 /\ getb e SLOT_FIRST_SECTOR = Some s0 /\
     segment image (t0, s0) full l q) /\
  has image q.1 q.2 last /\ NoDup (l ++ [q]) /\ (forall a, a ∈ l ++ [q] -> file_sector v a /\ a ∉ free v) /\
  entry_blocks e = Z.of_nat (length (l ++ [q])) mod 65536.

(** A file that is complete: its sectors, and its block count *)
Definition complete (v : vdrive_t) (image : disk_image_t) (e : mem) (bytes : mem) (l : list (Z * Z)) : Prop :=
  (exists t0 s0, getb e SLOT_FIRST_TRACK = Some t0 /\ getb e SLOT_FIRST_SECTOR = Some s0 /\
     file_on image (t0, s0) bytes l) /\
  NoDup l /\ (forall a, a ∈ l -> file_sector v a /\ a ∉ free v) /\
  entry_blocks e = Z.of_nat (length l) mod 65536.

Lemma ended_complete v image e full l q n data : ended v image e full l q (0 :: n - 1 :: data) ->
  mlen data = 254 -> 3 <= n <= 256 ->
  complete v image e (full ++ take (Z.to_nat (n - 2)) data) (l ++ [q]).
Proof.
  intros ((t0 & s0 & H0 & H1 & Hseg) & Hhas & Hnd & Hsec & Hbl) Hd Hn.
  split; [|done]. exists t0, s0. split; [done|]. split; [done|].
  exists full, l, q, (take (Z.to_nat (n - 2)) data), (drop (Z.to_nat (n - 2)) data).
  split; [done|]. split; [done|]. split; [done|]. rewrite take_drop.
  assert (Hl : mlen (take (Z.to_nat (n - 2)) data) = n - 2).
  { unfold mlen in *. rewrite length_take. lia. }
  rewrite Hl. split; [lia|]. split; [done|]. by replace (n - 2 + 1) with (n - 1) by lia.
Qed.

(** Writing the last buffer, which is filled up to [n] *)
Lemma write_last_run c v image b p e t s full l n : file_channel c -> needsupdate c = 0 -> good v image ->
  entry_ok e -> mlen b = 256 -> started v image e t s full l -> 2 <= n <= 256 ->
  wp (iec_write_sequential n) (fun r c' =>
    (r = 0 /\ exists v' image' b' e' t' s' l', c' = chan c v' b' p e' t' s' /\ good v' image' /\
       ended v' image' e' full l' (t', s') (0 :: n - 1 :: drop 2 b)) \/
    (r = -1 /\ disk_is_full c image c')) (chan c v b p e t s).
Proof.
  intros Hc Hnu Hgood He Hb Hst Hn. unfold iec_write_sequential. apply wp_bindST.
  eapply wp_mono; [by apply (first_block_run c v image b p e t s full l)|].
  intros ok c1. destruct ok; cbn [negb].
  2: { intros (_ & Hfull & v' & -> & Hgood' & Hg & Hfree).
       eapply wp_mono; [apply (disk_full_run c v' image); [done|done|exact (full_disk_geom v v' image Hgood Hg Hfree Hfull)]|].
       intros r c' ?. by right. }
  intros (v1 & e1 & t1 & s1 & -> & Hgood1 & Hg1 & Hsub1 & He1 & Hne1 & Hpl). clear t s e v Hst Hgood He Hg1 Hsub1.
  apply wp_bindST, wp_state. cbv zeta beta iota. change (ctrack (chan c v1 b p e1 t1 s1)) with t1.
  change (csector (chan c v1 b p e1 t1 s1)) with s1. rewrite (proj2 (Z.eqb_neq n WRITE_BLOCK)) by (unfold WRITE_BLOCK; lia).
  eapply wp_same; [by apply write_link_run|].
  assert (u8 0 = 0 /\ u8 (n - 1) = n - 1) as [-> ->] by (unfold u8; split; [done|apply Z.mod_small; lia]).
  set (b2 := 0 :: n - 1 :: drop 2 b). assert (Hd : length (drop 2 b) = 254%nat).
  { unfold mlen in Hb. rewrite length_drop. lia. }
  assert (Hb2 : mlen b2 = 256) by (unfold b2, mlen; cbn [length]; lia).
  destruct Hpl as [(t0 & s0 & H0 & H1 & Hseg) Hnd Hsec Hbl].
  destruct (write_wrote v1 image t1 s1 b2 Hgood1 (proj1 (Hsec _ (list_elem_of_here _ _))) Hb2)
    as (v3 & image' & Hwrite & Hgood3 & Hg3 & Hfree3 & Hhas & Hother).
  apply wp_bindST, wp_eq with 0 (chan c v3 b2 p e1 t1 s1); [by apply write_buffer_run; [apply Hc|]|].
  change (negb (0 =? CBMDOS_IPE_OK)) with false. cbv iota.
  destruct (count_block_run c v3 b2 p e1 t1 s1 He1) as (e2 & Hcount & [_ Hcd] & Hbl2).
  apply wp_bind, wp_eq with tt (chan c v3 b2 p e2 t1 s1); [done|]. apply wp_ret. left. split; [done|].
  exists v3, image', b2, e2, t1, s1, l. split; [done|]. split; [done|].
  assert (Hperm : (t1, s1) :: l ≡ₚ l ++ [(t1, s1)]) by (by rewrite Permutation_app_comm).
  split; [|split; [exact Hhas|split; [by rewrite <- Hperm|split]]].
  - exists t0, s0. rewrite !Hcd by done. split; [done|]. split; [done|].
    apply (segment_other image); [done|]. intros t2 s2 b0 Hin Hb0. apply Hother; [done|].
    intros Heq. rewrite Heq in Hin. by apply NoDup_cons in Hnd as [? _].
  - intros a. rewrite <- Hperm, Hfree3. intros Ha. destruct (Hsec a Ha) as [Hs Hf].
    split; [by apply (file_sector_geom v1); [apply Hgood1|..]|done].
  - rewrite Hbl2, Hbl, length_app. cbn [length]. rewrite Zplus_mod_idemp_l. f_equal. lia.
Qed.

(** ** Writing bytes *)

Fixpoint write_all (fuel : nat) (bytes : mem) : ST channel_t bool :=
  match bytes with
  | [] => mret true
  | x :: bytes => let! r := vdrive_iec_write fuel x in
                  if r =? SERIAL_OK then write_all fuel bytes else mret false
  end.

(** A channel to which [bytes] were written: full sectors, and the rest in the buffer *)
Definition writing (c : channel_t) (bytes : mem) (c' : channel_t) (image : disk_image_t) : Prop :=
  exists v b p e t s full l, c' = chan c v b p e t s /\ good v image /\ mlen b = 256 /\ 2 <= p <= 256 /\
    entry_ok e /\ started v image e t s full l /\
    bytes = full ++ take (Z.to_nat (p - 2)) (drop 2 b) /\ (bytes <> [] -> 3 <= p).

Definition write_channel (c : channel_t) : Prop :=
  file_channel c /\ needsupdate c = 0 /\ creadmode c <> CBMDOS_FAM_READ.

Lemma store_byte_run c v b p e t s x : file_channel c -> mlen b = 256 -> 2 <= p < 256 ->
  store_byte x (chan c v b p e t s) = Some (tt, chan c v (<[Z.to_nat p := u8 x]> b) (p + 1) e t s).
Proof.
  intros (Hh & _) Hb Hp. unfold store_byte. unfold bindST at 1, state.
  change (cbufptr (chan c v b p e t s)) with p. unfold mbind, ST_bind.
  rewrite (bind_run _ _ _ _ _ (put_buffer_run c v b p e t s p x Hh ltac:(lia))).
  by rewrite u32_small by lia.
Qed.

(** The bytes in the buffer after one more *)
Lemma buffer_snoc (b : mem) p x : mlen b = 256 -> 2 <= p < 256 -> 0 <= x < 256 ->
  take (Z.to_nat (p + 1 - 2)) (drop 2 (<[Z.to_nat p := u8 x]> b))
    = take (Z.to_nat (p - 2)) (drop 2 b) ++ [x].
Proof.
  intros Hb Hp Hx. unfold u8. rewrite Z.mod_small by lia. unfold mlen in Hb.
  replace (Z.to_nat p) with (2 + Z.to_nat (p - 2))%nat by lia.
  rewrite drop_insert_ge by lia. replace (Z.to_nat (p + 1 - 2)) with (S (Z.to_nat (p - 2))) by lia.
  replace (2 + Z.to_nat (p - 2) - 2)%nat with (Z.to_nat (p - 2)) by lia.
  rewrite (take_S_r _ _ x).
  - by rewrite take_insert_ge by lia.
  - rewrite list_lookup_insert_eq; [done|]. rewrite length_drop. lia.
Qed.

Lemma write_mode fuel c x : cmode c = BUFFER_SEQUENTIAL -> image_set (drive c) = true ->
  vdrive_iec_write fuel x c = write_file_byte x c.
Proof.
  intros Hm Hset. unfold vdrive_iec_write. rewrite (bind_run _ _ _ None c).
  - unfold bindST at 1, state. by rewrite Hm.
  - unfold find_image. unfold bindST at 1, state. by rewrite Hset.
Qed.

Lemma write_byte_run fuel c bytes c' image x : write_channel c -> writing c bytes c' image -> 0 <= x < 256 ->
  wp (vdrive_iec_write fuel x) (fun r c'' =>
    (r = SERIAL_OK /\ exists image', writing c (bytes ++ [x]) c'' image') \/
    (r = SERIAL_ERROR /\ exists image', disk_is_full c image' c'')) c'.
Proof.
  intros Hc (v & b & p & e & t & s & full & l & -> & Hgood & Hb & Hp & He & Hst & -> & _) Hx.
  pose proof Hc as (Hf & Hnu & Hr). eapply wp_same; [apply write_mode; [apply Hf|apply (VDrive.dk_set _ image), Hgood]|].
  unfold write_file_byte. apply wp_bindST, wp_state.
  change (creadmode (chan c v b p e t s)) with (creadmode c). change (cbufptr (chan c v b p e t s)) with p.
  rewrite (proj2 (Z.eqb_neq _ _) Hr). destruct (Z.leb_spec 256 p) as [Hfull|Hroom].
  2: { apply wp_bindST, wp_eq with 0 (chan c v b p e t s); [done|]. change (0 <? 0) with false. cbv iota.
       apply wp_bind. eapply wp_eq; [apply store_byte_run; [done|done|lia]|]. apply wp_ret. left. split; [done|].
       exists image, v, (<[Z.to_nat p := u8 x]> b), (p + 1), e, t, s, full, l.
       split; [done|]. split; [done|]. split; [by autorewrite with mem|]. split; [lia|]. split; [done|].
       split; [done|]. split; [|lia]. by rewrite buffer_snoc, app_assoc by (done || lia). }
  assert (p = 256) as -> by lia. apply wp_bindST. apply wp_bind, wp_eq with tt (chan c v b 2 e t s); [done|].
  apply wp_bind. eapply wp_eq; [by apply (switch_chan c v image); [|apply Hgood]|].
  eapply wp_mono; [by apply (write_block_run c v image b 2 e t s full l)|].
  intros r c1 [(-> & v' & image' & b' & e' & t' & s' & l' & -> & Hgood' & Hb' & He' & Hne & Hpl)|[-> Hd]].
  2: { apply wp_ret. right. split; [done|]. by exists image. }
  change (0 <? 0) with false. cbv iota. apply wp_bind.
  eapply wp_eq; [apply store_byte_run; [done|done|lia]|]. apply wp_ret. left. split; [done|].
  exists image', v', (<[Z.to_nat 2 := u8 x]> b'), (2 + 1), e', t', s', (full ++ drop 2 b), l'.
  split; [done|]. split; [done|]. split; [by autorewrite with mem|]. split; [lia|]. split; [done|].
  split; [by right|]. split; [|lia]. rewrite (buffer_snoc b' 2 x) by (done || lia). cbn [take app].
  change (Z.to_nat (256 - 2)) with 254%nat. rewrite take_ge; [done|].
  unfold mlen in Hb. rewrite length_drop. lia.
Qed.

Lemma write_all_run fuel c bytes : forall done c' image, write_channel c -> writing c done c' image ->
  bytes_ok bytes ->
  wp (write_all fuel bytes) (fun ok c'' =>
    if (ok : bool) then exists image', writing c (done ++ bytes) c'' image'
    else exists image', disk_is_full c image' c'') c'.
Proof.
  induction bytes as [|x bytes IH]; intros pre c' image Hc Hw Hbytes; cbn [write_all].
  { apply wp_ret. exists image. by rewrite app_nil_r. }
  apply Forall_cons in Hbytes as [Hx Hbytes]. apply wp_bindST.
  eapply wp_mono; [by apply (write_byte_run fuel c pre c' image x)|].
  intros r c1 [(-> & image' & Hw')|(-> & Hd)].
  - change (SERIAL_OK =? SERIAL_OK) with true. cbv iota.
    eapply wp_mono; [by apply (IH (pre ++ [x]) c1 image')|]. intros [|] c2; [|done].
    by rewrite <- app_assoc.
  - change (SERIAL_ERROR =? SERIAL_OK) with false. cbv iota. by apply wp_ret.
Qed.

(** ** A channel for reading *)

(** Channel [c] with another drive, buffer, position, length and last sector *)
Definition rchan (c : channel_t) (v : vdrive_t) (b : mem) (p n : Z) (lr : Z * Z * mem) : channel_t :=
  set_clength n (set_last_read lr (set_bufptr p (set_buffer b (set_drive v c)))).

Definition read_channel (c : channel_t) : Prop :=
  file_channel c /\ creadmode c = CBMDOS_FAM_READ /\ small (clist c) = 0.

Lemma on_cdrive_rchan {A} (m : ST vdrive_t A) c v b p n lr a v' : m v = Some (a, v') ->
  on_cdrive m (rchan c v b p n lr) = Some (a, rchan c v' b p n lr).
Proof. intros Hm. by rewrite (on_cdrive_run m _ a v'). Qed.

Lemma load_rchan c v b p n lr : place c = Heap ->
  load_buffer (rchan c v b p n lr) = Some (b, rchan c v b p n lr).
Proof.
  intros Hh. unfold load_buffer, bindST, state, lift. by change (place (rchan c v b p n lr)) with (place c); rewrite Hh.
Qed.

Lemma get_rchan c v b p n lr i x : place c = Heap -> getb b i = Some x ->
  get_buffer i (rchan c v b p n lr) = Some (x, rchan c v b p n lr).
Proof.
  intros Hh Hx. unfold get_buffer. rewrite (bind_run _ _ _ _ _ (load_rchan c v b p n lr Hh)).
  unfold lift. by rewrite Hx.
Qed.

Lemma switch_rchan c v image b p n lr : file_channel c -> file_drive v image ->
  switch (rchan c v b p n lr) = Some (CBMDOS_IPE_OK, rchan c v b p n lr).
Proof.
  intros (_ & _ & Hp) Hfd. unfold switch, on_list, switch_listing, bindST, state.
  unfold on_ldrive, on_search, on_drive.
  pose proof (switch_run v image (partition (clist c)) (partstart (clist c)) (partend (clist c)) Hfd Hp) as Hrun.
  cbn. by rewrite Hrun.
Qed.

Lemma read_rchan c v image b p n lr t s b' : place c = Heap -> file_drive v image -> mlen b = 256 ->
  has image t s b' ->
  read_buffer t s (rchan c v b p n lr) = Some (0, rchan c (set_image_mode 0 v) b' p n lr).
Proof.
  intros Hh Hfd Hb Hhas. unfold read_buffer. rewrite (bind_run _ _ _ _ _ (load_rchan c v b p n lr Hh)).
  rewrite (bind_run _ _ _ _ _ (on_cdrive_rchan _ c v b p n lr _ _ (read_run v image t s b' b Hfd Hhas Hb))).
  unfold mbind, ST_bind, bindST, store_buffer, update.
  change (place (rchan c (set_image_mode 0 v) b p n lr)) with (place c). by rewrite Hh.
Qed.

(** The length field of a sector *)
Definition last_of (b : mem) : Z :=
  match b with x :: y :: _ => if negb (x =? 0) then 0 else y | _ => 0 end.

Lemma set_length_rchan c v b p n lr : place c = Heap -> mlen b = 256 ->
  set_length (rchan c v b p n lr) = Some (tt, rchan c v b p (last_of b) lr).
Proof.
  intros Hh Hb. destruct b as [|x [|y b]]; [done|done|]. unfold set_length.
  rewrite (bind_run _ _ _ _ _ (get_rchan c v (x :: y :: b) p n lr 0 x Hh eq_refl)).
  by rewrite (bind_run _ _ _ _ _ (get_rchan c v (x :: y :: b) p n lr 1 y Hh eq_refl)).
Qed.

Lemma last_read_rchan c v b p n lr t s : place c = Heap ->
  vdrive_set_last_read t s (rchan c v b p n lr) = Some (tt, rchan c v b p n (t, s, b)).
Proof.
  intros Hh. unfold vdrive_set_last_read. by rewrite (bind_run _ _ _ _ _ (load_rchan c v b p n lr Hh)).
Qed.

(** What is still to be read: the rest of the buffer up to its last byte, all of the rest
    when the position is behind that, and the file it links to *)
Definition pending (image : disk_image_t) (b : mem) (p n : Z) (bytes : mem) : Prop :=
  mlen b = 256 /\ 2 <= p <= 255 /\
  (n <> 0 /\ p <= n <= 255 /\ bytes = take (Z.to_nat (n - p + 1)) (drop (Z.to_nat p) b) \/
   n <> 0 /\ n < p /\ bytes = drop (Z.to_nat p) b \/
   n = 0 /\ exists t s more l, getb b 0 = Some t /\ getb b 1 = Some s /\ file_on image (t, s) more l /\
     bytes = drop (Z.to_nat p) b ++ more).

Lemma file_on_first image t s bytes l : file_on image (t, s) bytes l ->
  bytes <> [] /\ exists b, has image t s b /\ mlen b = 256 /\ pending image b 2 (last_of b) bytes.
Proof.
  intros (full & l' & q & data & pad & Hseg & -> & -> & Hd & Hpad & Hhas). split.
  { intros [_ ->]%app_nil. change (mlen []) with 0 in Hd. lia. }
  remember (t, s) as a eqn:Ha. destruct Hseg as [q|t0 s0 t' s' data0 bytes l q Hne Hl Hh Hseg]; [subst q|injection Ha as -> ->].
  - exists (0 :: mlen data + 1 :: data ++ pad). split; [done|].
    assert (Hb : mlen (0 :: mlen data + 1 :: data ++ pad) = 256) by (unfold mlen in *; cbn [length]; lia).
    split; [done|]. split; [done|]. split; [lia|]. left. change (last_of _) with (mlen data + 1).
    split; [lia|]. split; [lia|]. cbn [app]. change (drop (Z.to_nat 2) (0 :: mlen data + 1 :: data ++ pad)) with (data ++ pad).
    replace (Z.to_nat (mlen data + 1 - 2 + 1)) with (length data) by (unfold mlen; lia). by rewrite take_app_length.
  - exists (t' :: s' :: data0). split; [done|].
    assert (Hb : mlen (t' :: s' :: data0) = 256) by (unfold mlen in *; cbn [length]; lia).
    split; [done|]. split; [done|]. split; [lia|]. right. right. unfold last_of. rewrite (proj2 (Z.eqb_neq _ _) Hne).
    split; [done|]. exists t', s', (bytes ++ data), (l ++ [q]). split; [done|]. split; [done|].
    split; [by exists bytes, l, q, data, pad|]. by rewrite <- app_assoc.
Qed.

Lemma read_mode fuel c v b p n lr : read_channel c ->
  vdrive_iec_read fuel (rchan c v b p n lr) = iec_read_sequential fuel (rchan c v b p n lr).
Proof.
  intros [(_ & Hm & _) _]. unfold vdrive_iec_read. unfold bindST at 1, state.
  change (cmode (rchan c v b p n lr)) with (cmode c). by rewrite Hm.
Qed.

(** The byte at the position, and the next position *)
Lemma read_sequential_eq fuel c v b p n lr x : read_channel c -> getb b p = Some x -> 2 <= p <= 255 ->
  iec_read_sequential fuel (rchan c v b p n lr) =
    let p' := if negb (n =? 0) && (p =? n) then 0 else if p =? 255 then 0 else p + 1 in
    if negb (p' =? 0) then Some ((SERIAL_OK, Some x), rchan c v b p' n lr)
    else if negb (n =? 0) then
      Some ((SERIAL_EOF, Some x), set_creadmode CBMDOS_FAM_EOF (rchan c v b 0 n lr))
    else
      (let! _ := switch in let! (status, _) := next_block in mret (status, Some x)) (rchan c v b 0 n lr).
Proof.
  intros [(Hh & Hm & _) [Hr Hs]] Hx Hp. unfold iec_read_sequential. unfold bindST at 1, state.
  change (creadmode (rchan c v b p n lr)) with (creadmode c). rewrite Hr.
  change (negb (CBMDOS_FAM_READ =? CBMDOS_FAM_READ)) with false. cbv iota.
  change (cbufptr (rchan c v b p n lr)) with p. change (clength (rchan c v b p n lr)) with n.
  change (small (clist (rchan c v b p n lr))) with (small (clist c)). rewrite Hs.
  change (cmode (rchan c v b p n lr)) with (cmode c). rewrite Hm.
  rewrite (bind_run _ _ _ _ _ (get_rchan c v b p n lr p x Hh Hx)).
  assert (Hnext : Z.land (u32 ((if negb (n =? 0) && (p =? n) then 255 else p) + 1)) 255
    = if negb (n =? 0) && (p =? n) then 0 else if p =? 255 then 0 else p + 1).
  { destruct (negb (n =? 0) && (p =? n)); [done|]. rewrite u32_small by lia.
    change 255 with (Z.ones 8) at 1. rewrite Z.land_ones by lia. destruct (Z.eqb_spec p 255) as [->|]; [done|].
    apply Z.mod_small. lia. }
  change 0xff with 255. rewrite Hnext. cbv zeta. unfold mbind at 1, ST_bind. unfold bindST at 1.
  set (p' := if negb (n =? 0) && (p =? n) then 0 else if p =? 255 then 0 else p + 1).
  cbn [upd modify]. change (set_bufptr p' (rchan c v b p n lr)) with (rchan c v b p' n lr).
  destruct (Z.eqb_spec p' 0) as [->|]; cbn [negb]; [|done]. change (0 =? 0) with true. cbn [andb].
  by destruct (negb (n =? 0)).
Qed.

Lemma next_block_run c v image b n lr t s b' : read_channel c -> file_drive v image -> mlen b = 256 ->
  getb b 0 = Some t -> getb b 1 = Some s -> has image t s b' -> mlen b' = 256 ->
  next_block (rchan c v b 0 n lr)
    = Some ((SERIAL_OK, None), rchan c (set_image_mode 0 v) b' 2 (last_of b') (t, s, b')).
Proof.
  intros [(Hh & _) _] Hfd Hb Ht Hs Hhas Hb'. unfold next_block.
  rewrite (bind_run _ _ _ _ _ (get_rchan c v b 0 n lr 0 t Hh Ht)).
  rewrite (bind_run _ _ _ _ _ (get_rchan c v b 0 n lr 1 s Hh Hs)).
  rewrite (bind_run _ _ _ _ _ (read_rchan c v image b 0 n lr t s b' Hh Hfd Hb Hhas)).
  change (negb (0 =? CBMDOS_IPE_OK)) with false. cbv iota. unfold mbind, ST_bind.
  rewrite (bind_run _ _ _ _ _ (set_length_rchan c (set_image_mode 0 v) b' 0 n lr Hh Hb')).
  by rewrite (bind_run _ _ _ _ _ (last_read_rchan c (set_image_mode 0 v) b' 0 (last_of b') lr t s Hh)).
Qed.

Lemma file_drive_mode v image m : file_drive v image -> file_drive (set_image_mode m v) image.
Proof. intros [[] ? ? ? ? ? ? ?]. by split. Qed.

(** The state of a channel between two reads *)
Definition reading (c : channel_t) (image : disk_image_t) (bytes : mem) (c' : channel_t) : Prop :=
  exists v b p n lr, c' = rchan c v b p n lr /\ file_drive v image /\ pending image b p n bytes.

Lemma pending_first image b p n x bytes : pending image b p n (x :: bytes) -> getb b p = Some x.
Proof.
  intros (Hb & Hp & Hc). destruct (getb_is_Some b p) as [y Hy]; [lia|]. rewrite Hy. f_equal.
  apply getb_Some in Hy as [_ Hy]. apply drop_S in Hy.
  destruct Hc as [(_ & Hn & Hbytes)|[(_ & _ & Hbytes)|(_ & t & s & more & l & _ & _ & _ & Hbytes)]];
    rewrite Hy in Hbytes; [|by injection Hbytes as ->|by injection Hbytes as ->].
  - replace (Z.to_nat (n - p + 1)) with (S (Z.to_nat (n - p))) in Hbytes by lia. by injection Hbytes as ->.
Qed.

(** The state of a channel whose file was read to its end *)
Definition at_end (c : channel_t) (image : disk_image_t) (c' : channel_t) : Prop :=
  exists v b n lr, c' = set_creadmode CBMDOS_FAM_EOF (rchan c v b 0 n lr) /\ file_drive v image /\ mlen b = 256.

Definition read_on (c : channel_t) (image : disk_image_t) (bytes : mem) (c' : channel_t) : Prop :=
  (bytes = [] -> at_end c image c') /\ (bytes <> [] -> reading c image bytes c').

(** The answer to a read when [bytes] are left *)
Definition status_of (bytes : mem) : Z := if bytes is [] then SERIAL_EOF else SERIAL_OK.

Lemma reading_on c image bytes c' : bytes <> [] -> reading c image bytes c' -> read_on c image bytes c'.
Proof. by split. Qed.

Lemma at_end_on c image c' : at_end c image c' -> read_on c image [] c'.
Proof. by split. Qed.

Lemma drop_byte (b : mem) p x : getb b p = Some x -> 0 <= p ->
  drop (Z.to_nat p) b = x :: drop (Z.to_nat (p + 1)) b.
Proof.
  intros Hx Hp. apply getb_Some in Hx as [_ Hx]. replace (Z.to_nat (p + 1)) with (S (Z.to_nat p)) by lia.
  by apply drop_S.
Qed.

Section byte.
Variables (fuel : nat) (c : channel_t) (image : disk_image_t) (v : vdrive_t) (b : mem) (p : Z)
  (lr : Z * Z * mem) (x : Z).
Hypotheses (Hc : read_channel c) (Hfd : file_drive v image) (Hb : mlen b = 256) (Hp : 2 <= p <= 255)
  (Hx : getb b p = Some x).

Lemma rest_length : length (drop (Z.to_nat (p + 1)) b) = Z.to_nat (255 - p).
Proof. unfold mlen in Hb. rewrite length_drop. lia. Qed.

(** In the last buffer, up to its last byte *)
Lemma read_last_run n bytes : n <> 0 -> p <= n <= 255 ->
  x :: bytes = take (Z.to_nat (n - p + 1)) (drop (Z.to_nat p) b) ->
  exists c'', iec_read_sequential fuel (rchan c v b p n lr) = Some ((status_of bytes, Some x), c'') /\
    read_on c image bytes c''.
Proof.
  intros Hn Hpn. rewrite (drop_byte b p x Hx) by lia. intros Hbytes.
  rewrite (read_sequential_eq fuel c v b p n lr x Hc Hx Hp). cbv zeta.
  rewrite (proj2 (Z.eqb_neq n 0) Hn). cbn [negb andb]. destruct (Z.eqb_spec p n) as [->|Hne].
  - replace (Z.to_nat (n - n + 1)) with 1%nat in Hbytes by lia. injection Hbytes as ->.
    change (take 0 (drop (Z.to_nat (n + 1)) b)) with (@nil Z). eexists. split; [done|].
    apply at_end_on. by exists v, b, n, lr.
  - replace (Z.to_nat (n - p + 1)) with (S (Z.to_nat (n - p))) in Hbytes by lia. injection Hbytes as Hbytes.
    rewrite (proj2 (Z.eqb_neq p 255)), (proj2 (Z.eqb_neq (p + 1) 0)) by lia. cbn [negb].
    assert (Hnil : bytes <> []).
    { intros ->. apply (f_equal length) in Hbytes. rewrite length_take, rest_length in Hbytes. cbn in Hbytes. lia. }
    exists (rchan c v b (p + 1) n lr). split; [by destruct bytes|]. apply reading_on; [done|].
    exists v, b, (p + 1), n, lr. split; [done|]. split; [done|]. split; [done|]. split; [lia|]. left.
    split; [done|]. split; [lia|]. by replace (Z.to_nat (n - (p + 1) + 1)) with (Z.to_nat (n - p)) by lia.
Qed.

(** In the last buffer, behind its last byte *)
Lemma read_behind_run n bytes : n <> 0 -> n < p -> x :: bytes = drop (Z.to_nat p) b ->
  exists c'', iec_read_sequential fuel (rchan c v b p n lr) = Some ((status_of bytes, Some x), c'') /\
    read_on c image bytes c''.
Proof.
  intros Hn Hpn. rewrite (drop_byte b p x Hx) by lia. intros [= ->].
  rewrite (read_sequential_eq fuel c v b p n lr x Hc Hx Hp). cbv zeta.
  rewrite (proj2 (Z.eqb_neq n 0) Hn), (proj2 (Z.eqb_neq p n)) by lia. cbn [negb andb].
  pose proof rest_length as Hl. destruct (Z.eqb_spec p 255) as [->|Hne].
  - rewrite drop_ge by (unfold mlen in Hb; lia). eexists. split; [done|]. apply at_end_on. by exists v, b, n, lr.
  - rewrite (proj2 (Z.eqb_neq (p + 1) 0)) by lia. cbn [negb].
    assert (Hnil : drop (Z.to_nat (p + 1)) b <> []) by (intros Hd; rewrite Hd in Hl; cbn in Hl; lia).
    exists (rchan c v b (p + 1) n lr). split; [by destruct (drop _ b)|]. apply reading_on; [done|].
    exists v, b, (p + 1), n, lr. split; [done|]. split; [done|]. split; [done|]. split; [lia|]. right. left.
    split; [done|]. split; [lia|]. done.
Qed.

(** In a buffer that links to another sector *)
Lemma read_full_run t s more l : getb b 0 = Some t -> getb b 1 = Some s -> file_on image (t, s) more l ->
  let bytes := drop (Z.to_nat (p + 1)) b ++ more in
  exists c'', iec_read_sequential fuel (rchan c v b p 0 lr) = Some ((status_of bytes, Some x), c'') /\
    read_on c image bytes c''.
Proof.
  intros Ht Hs Hfile bytes. rewrite (read_sequential_eq fuel c v b p 0 lr x Hc Hx Hp). cbv zeta.
  change (negb (0 =? 0)) with false. cbn [andb].
  destruct (file_on_first _ _ _ _ _ Hfile) as (Hmore & b' & Hhas & Hb' & Hpend').
  assert (Hnil : bytes <> []) by (intros H; by apply app_nil in H as [_ ?]).
  assert (status_of bytes = SERIAL_OK) as -> by by destruct bytes.
  destruct (Z.eqb_spec p 255) as [->|Hne].
  - change (negb (0 =? 0)) with false. cbv iota.
    rewrite (bind_run _ _ _ _ _ (switch_rchan c v image b 0 0 lr (proj1 Hc) Hfd)).
    rewrite (bind_run _ _ _ _ _ (next_block_run c v image b 0 lr t s b' Hc Hfd Hb Ht Hs Hhas Hb')).
    eexists. split; [done|]. apply reading_on; [done|]. exists (set_image_mode 0 v), b', 2, (last_of b'), (t, s, b').
    split; [done|]. split; [by apply file_drive_mode|]. unfold bytes. by rewrite drop_ge by (unfold mlen in Hb; lia).
  - rewrite (proj2 (Z.eqb_neq (p + 1) 0)) by lia. cbn [negb]. eexists. split; [done|]. apply reading_on; [done|].
    exists v, b, (p + 1), 0, lr. split; [done|]. split; [done|]. split; [done|]. split; [lia|]. right. right.
    split; [done|]. by exists t, s, more, l.
Qed.

End byte.

(** Reading a byte: the next byte of the file, and the end of the file at the last *)
Lemma read_byte_run fuel c image x bytes c' : read_channel c -> reading c image (x :: bytes) c' ->
  exists c'', vdrive_iec_read fuel c' = Some ((status_of bytes, Some x), c'') /\ read_on c image bytes c''.
Proof.
  intros Hc (v & b & p & n & lr & -> & Hfd & Hpend).
  pose proof (pending_first _ _ _ _ _ _ Hpend) as Hx. destruct Hpend as (Hb & Hp & Hcase).
  rewrite read_mode by done. destruct Hcase as [(Hn & Hpn & Hbytes)|[(Hn & Hpn & Hbytes)|(-> & t & s & more & l & Ht & Hs & Hfile & Hbytes)]].
  - by apply read_last_run.
  - by apply read_behind_run.
  - rewrite (drop_byte b p x Hx) in Hbytes by lia. injection Hbytes as ->. by apply (read_full_run _ _ _ _ _ _ _ _ Hc Hfd Hb Hp Hx t s more l).
Qed.

(** [n] reads, with their answers *)
Fixpoint read_all (fuel n : nat) : ST channel_t (list (Z * option Z)) :=
  match n with
  | O => mret []
  | S n => let! r := vdrive_iec_read fuel in let! rs := read_all fuel n in mret (r :: rs)
  end.

(** The bytes of a file, the last with the end of the file *)
Fixpoint answers (bytes : mem) : list (Z * option Z) :=
  match bytes with
  | [] => []
  | x :: bytes => (status_of bytes, Some x) :: answers bytes
  end.

Lemma read_all_run fuel c image bytes : forall c', read_channel c -> bytes <> [] -> reading c image bytes c' ->
  exists c'', read_all fuel (length bytes) c' = Some (answers bytes, c'') /\ at_end c image c''.
Proof.
  induction bytes as [|x bytes IH]; intros c' Hc Hne Hr; [done|].
  destruct (read_byte_run fuel c image x bytes c' Hc Hr) as (c1 & Hread & Hend & Hnext). cbn [length read_all].
  rewrite (bind_run _ _ _ _ _ Hread). destruct bytes as [|y bytes]; [exists c1; by split; [|apply Hend]|].
  destruct (IH c1 Hc ltac:(done) (Hnext ltac:(done))) as (c2 & Hall & Hat). exists c2.
  by rewrite (bind_run _ _ _ _ _ Hall).
Qed.

(** ** Opening a file *)

(** A channel that has found the entry [e]: nothing is open on it. *)
Record finder (c : channel_t) (e : mem) : Prop := {
  fd_slot : slot c = A_slot e;
  fd_mode : creadmode c = CBMDOS_FAM_READ;
  fd_small : small (clist c) = 0;
  fd_part : 0 <= partition (clist c);
  fd_buffer : place c = Heap -> mlen (lbuffer (clist c)) = 256;
  fd_ram : 0x26F < mlen (ram (drive c))
}.

(** A closed file that is not a relative one *)
Definition plain_entry (e : mem) : Prop := exists x, getb e SLOT_TYPE_OFFSET = Some x /\
  Z.land x 0x80 <> 0 /\ Z.land x 7 <> CBMDOS_FT_REL.

(** The first sector of what is read from [(t, s)] on *)
Definition first_sector (image : disk_image_t) (t s : Z) (bytes : mem) : Prop :=
  exists b, has image t s b /\ mlen b = 256 /\ pending image b 2 (last_of b) bytes.

Lemma first_sector_bytes image t s bytes : first_sector image t s bytes -> bytes <> [].
Proof.
  intros (b & _ & _ & Hb & _ & Hcase) ->. unfold mlen in Hb.
  destruct Hcase as [(_ & Hn & H)|[(_ & _ & H)|(_ & t' & s' & more & l & _ & _ & _ & H)]];
    apply (f_equal length) in H; rewrite ?length_take, ?length_app, ?length_drop in H; cbn [length] in H; lia.
Qed.

Lemma rchan_self c : place c = Heap ->
  c = rchan c (drive c) (lbuffer (clist c)) (cbufptr c) (clength c) (last_read c).
Proof. by destruct c as [[[]] ?]. Qed.

(** The buffer of a channel that is opened *)
Lemma alloc_reader c : creadmode c = CBMDOS_FAM_READ -> small (clist c) = 0 -> 0 <= partition (clist c) ->
  (place c = Heap -> mlen (lbuffer (clist c)) = 256) ->
  exists base b, vdrive_alloc_buffer (-1) BUFFER_SEQUENTIAL c = Some (tt, base) /\
    place base = Heap /\ lbuffer (clist base) = b /\ mlen b = 256 /\ drive base = drive c /\
    cmode base = BUFFER_SEQUENTIAL /\ partition (clist base) = partition (clist c) /\
    creadmode base = creadmode c /\ small (clist base) = small (clist c).
Proof.
  intros Hr Hs Hp Hb. unfold vdrive_alloc_buffer. unfold bindST at 1, state.
  change ((0 <=? -1) && (-1 <? 5) && (0x300 + 256 * -1 <? DRIVE_RAMSIZE)) with false. cbv iota.
  unfold mbind, ST_bind.
  destruct (place c) eqn:Hpl; (eexists _, _; split; [reflexivity|]; split_and!; [|reflexivity|..]; try reflexivity);
    [exact Hpl|exact (Hb eq_refl)].
Qed.

Lemma open_sequential_run fuel c image t s bytes : creadmode c = CBMDOS_FAM_READ -> small (clist c) = 0 ->
  0 <= partition (clist c) -> (place c = Heap -> mlen (lbuffer (clist c)) = 256) ->
  file_drive (drive c) image -> first_sector image t s bytes ->
  exists base c', iec_open_read_sequential fuel t s c = Some (SERIAL_OK, c') /\ read_channel base /\
    reading base image bytes c'.
Proof.
  intros Hr Hs Hp Hb Hfd Hfile.
  destruct (alloc_reader c Hr Hs Hp Hb) as (c1 & b & Halloc & Hpl & Hbuf & Hlen & Hdr & Hm & Hpart & Hr1 & Hs1).
  destruct Hfile as (b' & Hhas & Hb' & Hpend).
  set (base := set_bufptr 2 (set_record 1 c1)).
  assert (Hbase : base = rchan base (drive c) b 2 (clength base) (last_read base)).
  { rewrite <- Hbuf, <- Hdr. by apply (rchan_self base). }
  exists base, (rchan base (set_image_mode 0 (drive c)) b' 2 (last_of b') (t, s, b')).
  split; [|split].
  - unfold iec_open_read_sequential. unfold mbind, ST_bind. rewrite (bind_run _ _ _ _ _ Halloc).
    rewrite (bind_run (upd _) _ _ tt base) by done. rewrite Hbase at 1.
    rewrite (bind_run _ _ _ _ _ (read_rchan base (drive c) image b 2 _ _ t s b' Hpl Hfd Hlen Hhas)).
    rewrite (bind_run _ _ _ _ _ (set_length_rchan base _ b' 2 _ _ Hpl Hb')).
    by rewrite (bind_run _ _ _ _ _ (last_read_rchan base _ b' 2 _ _ t s Hpl)).
  - split; [split; [exact Hpl|split; [exact Hm|]]|split].
    + change (partition (clist base)) with (partition (clist c1)). by rewrite Hpart.
    + change (creadmode base) with (creadmode c1). by rewrite Hr1.
    + change (small (clist base)) with (small (clist c1)). by rewrite Hs1.
  - exists (set_image_mode 0 (drive c)), b', 2, (last_of b'), (t, s, b'). split; [done|].
    split; [by apply file_drive_mode|done].
Qed.

Lemma remember_run v image t s : file_drive v image -> 0x26F < mlen (ram v) ->
  exists m, remember_file t s v = Some (tt, set_ram m v).
Proof.
  intros Hfd Hlen. destruct (VDrive.drive_ok_1541 _ _ (fv_drive _ _ Hfd)) as (b & His & _).
  unfold remember_file. unfold bindST at 1, state. unfold bindST at 1, lift. rewrite His.
  destruct b; [|exists (ram v); by destruct v]. unfold update.
  rewrite putb_eq by lia. cbn [mbind option_bind]. rewrite putb_eq by (rewrite mlen_insert; lia).
  eexists. reflexivity.
Qed.

Lemma file_drive_ram v image m : file_drive v image -> file_drive (set_ram m v) image.
Proof. intros [[] ? ? ? ? ? ? ?]. by split. Qed.

(** Opening the file of an entry *)
Lemma open_read_run fuel c image e t s bytes : finder c e -> plain_entry e ->
  getb e SLOT_FIRST_TRACK = Some t -> getb e SLOT_FIRST_SECTOR = Some s ->
  file_drive (drive c) image -> first_sector image t s bytes ->
  exists base c', iec_open_read fuel c = Some (SERIAL_OK, c') /\ read_channel base /\ reading base image bytes c'.
Proof.
  intros [Hslot Hr Hs Hp Hb Hram] (x & Hx & Hclosed & Hrel) Ht Hsec Hfd Hfile.
  unfold iec_open_read. unfold bindST at 1, state. rewrite Hslot.
  assert (Hget : forall i y, getb e i = Some y -> get_slot i c = Some (y, c)).
  { intros i y Hy. unfold get_slot, bindST, state, lift. by rewrite Hslot, Hy. }
  rewrite (bind_run _ _ _ _ _ (Hget _ _ Hx)), (bind_run _ _ _ _ _ (Hget _ _ Ht)), (bind_run _ _ _ _ _ (Hget _ _ Hsec)).
  destruct (remember_run (drive c) image t s Hfd Hram) as (m & Hrem). unfold mbind, ST_bind.
  rewrite (bind_run _ _ _ _ _ (on_cdrive_run _ c _ _ Hrem)).
  rewrite (proj2 (Z.eqb_neq _ _) Hclosed), (proj2 (Z.eqb_neq _ _) Hrel). cbn [negb andb].
  apply (open_sequential_run fuel (set_drive (set_ram m (drive c)) c) image t s bytes); try done.
  by apply file_drive_ram.
Qed.

(** ** Files, written and read *)

(** Writing [bytes], and then the last buffer as [vdrive_iec_close] does *)
Definition write_file (fuel : nat) (bytes : mem) : ST channel_t bool :=
  let! ok := write_all fuel bytes in
  if (ok : bool) then
    let! c := state in let! r := iec_write_sequential (cbufptr c) in mret (r =? 0)
  else mret false.

(** Opening the entry, and reading [n] bytes *)
Definition read_file (fuel n : nat) : ST channel_t (list (Z * option Z)) :=
  let! r := iec_open_read fuel in if r =? SERIAL_OK then read_all fuel n else mret [].

(** Another channel that opens the entry [e] of the drive [v] reads [bytes]. *)
Definition readable (v : vdrive_t) (e bytes : mem) : Prop :=
  forall fuel r e', finder r e' -> drive r = v -> plain_entry e' ->
    getb e' SLOT_FIRST_TRACK = getb e SLOT_FIRST_TRACK -> getb e' SLOT_FIRST_SECTOR = getb e SLOT_FIRST_SECTOR ->
    exists r', read_file fuel (length bytes) r = Some (answers bytes, r').

(** The file is on the drive of the channel [c']: it has its own sectors, as many as its
    entry says, and it is read from there. *)
Definition saved (bytes : mem) (c' : channel_t) : Prop :=
  exists image e l, slot c' = A_slot e /\ good (drive c') image /\ complete (drive c') image e bytes l /\
    readable (drive c') e bytes.

Lemma readable_run v image e t0 s0 bytes : file_drive v image -> getb e SLOT_FIRST_TRACK = Some t0 ->
  getb e SLOT_FIRST_SECTOR = Some s0 -> first_sector image t0 s0 bytes -> readable v e bytes.
Proof.
  intros Hfd Ht Hs Hfirst fuel r e' Hfind <- Hplain Ht' Hs'. rewrite Ht in Ht'. rewrite Hs in Hs'.
  destruct (open_read_run fuel r image e' t0 s0 bytes Hfind Hplain Ht' Hs' Hfd Hfirst) as (base & c1 & Hopen & Hbase & Hr).
  assert (Hne : bytes <> []) by by apply (first_sector_bytes image t0 s0).
  destruct (read_all_run fuel base image bytes c1 Hbase Hne Hr) as (c2 & Hall & _). exists c2.
  unfold read_file. rewrite (bind_run _ _ _ _ _ Hopen). exact Hall.
Qed.

Lemma complete_saved c v image b p e t s bytes l : good v image -> complete v image e bytes l ->
  saved bytes (chan c v b p e t s).
Proof.
  intros Hgood Hc. exists image, e, l. split; [done|]. split; [done|]. split; [done|].
  destruct Hc as ((t0 & s0 & Ht & Hs & Hfile) & _).
  apply (readable_run v image e t0 s0); [apply Hgood|done|done|]. by eapply file_on_first.
Qed.

(** C2: A file that is written byte by byte to a new channel and finished as
    [vdrive_iec_close] finishes it is on the disk: its sectors are pairwise different and
    allocated, its entry counts them, and a channel that opens the entry reads the same
    bytes in the same order, with the end of the file at the last one. It fails only when
    no sector that a file may use is free. *)
Theorem file_roundtrip fuel c v image b e s bytes : write_channel c -> good v image -> mlen b = 256 ->
  entry_ok e -> bytes_ok bytes -> bytes <> [] ->
  wp (write_file fuel bytes) (fun ok c' =>
    if (ok : bool) then saved bytes c' else full_disk (drive c')) (chan c v b 2 e 0 s).
Proof.
  intros Hc Hgood Hb He Hbytes Hne. unfold write_file. apply wp_bindST.
  eapply wp_mono; [apply (write_all_run fuel c bytes [] _ image Hc); [|done]|].
  { exists v, b, 2, e, 0, s, [], []. split; [done|]. split; [done|]. split; [done|]. split; [lia|].
    split; [done|]. split; [by left|]. by split. }
  intros [|] c1; cbn [app].
  2: { intros (im & v1 & b1 & p & e1 & t1 & s1 & -> & _ & Hfull). by apply wp_ret. }
  intros (im & v1 & b1 & p & e1 & t1 & s1 & full & l & -> & Hgood1 & Hb1 & Hp & He1 & Hst & Heq & Hp3).
  specialize (Hp3 Hne). apply wp_bindST, wp_state. change (cbufptr (chan c v1 b1 p e1 t1 s1)) with p.
  destruct Hc as (Hfc & Hnu & _). apply wp_bindST.
  eapply wp_mono; [apply (write_last_run c v1 im b1 p e1 t1 s1 full l p); try done; lia|].
  intros r c2 [(-> & v2 & im2 & b2 & e2 & t2 & s2 & l2 & -> & Hgood2 & Hend)|
    [-> (v2 & b2 & p2 & e2 & t2 & s2 & -> & _ & Hfull)]]; apply wp_ret; [|exact Hfull].
  change (0 =? 0) with true. cbv iota. rewrite Heq. apply (complete_saved _ _ im2 _ _ _ _ _ _ (l2 ++ [(t2, s2)])); [done|].
  apply ended_complete; [done| |lia]. unfold mlen in *. rewrite length_drop. lia.
Qed.

(** C32: A file to which no byte was written does not come back empty: the length in its only
    sector is in front of its data, so that a channel that opens it does not stop there and
    reads the rest of the sector, 254 bytes the buffer happened to hold. *)
Theorem empty_file_not_empty fuel c v image b e s : write_channel c -> good v image -> mlen b = 256 ->
  entry_ok e ->
  wp (write_file fuel []) (fun ok c' =>
    if (ok : bool) then exists e', slot c' = A_slot e' /\ readable (drive c') e' (drop 2 b) /\ mlen (drop 2 b) = 254
    else full_disk (drive c')) (chan c v b 2 e 0 s).
Proof.
  intros Hc Hgood Hb He. unfold write_file. cbn [write_all]. apply wp_bindST, wp_ret.
  apply wp_bindST, wp_state. change (cbufptr (chan c v b 2 e 0 s)) with 2.
  destruct Hc as (Hfc & Hnu & _). apply wp_bindST.
  eapply wp_mono; [apply (write_last_run c v image b 2 e 0 s [] [] 2); try done; by left|].
  assert (Hd : length (drop 2 b) = 254%nat) by (unfold mlen in Hb; rewrite length_drop; lia).
  intros r c2 [(-> & v2 & im2 & b2 & e2 & t2 & s2 & l2 & -> & Hgood2 & Hend)|
    [-> (v2 & b2 & p2 & e2 & t2 & s2 & -> & _ & Hfull)]]; apply wp_ret; [|exact Hfull].
  change (0 =? 0) with true. cbv iota. exists e2. split; [done|]. split; [|unfold mlen; lia].
  destruct Hend as ((t0 & s0 & H0 & H1 & Hseg) & Hhas & _). apply (readable_run v2 im2 e2 t0 s0); [apply Hgood2|done|done|].
  apply segment_no_bytes in Hseg as Heq. injection Heq as -> ->.
  exists (0 :: 2 - 1 :: drop 2 b). split; [exact Hhas|]. assert (Hl : mlen (0 :: 2 - 1 :: drop 2 b) = 256) by (unfold mlen; cbn [length]; lia).
  split; [exact Hl|]. split; [exact Hl|]. split; [lia|]. right. left. split; [done|]. split; [done|]. done.
Qed.


End channel.
End ChannelSpec.

(** ** Concrete channels *)

(** No relative files; the clock stands still. *)
#[export] Instance no_relative : Relative := {|
  rel_close := fun _ => mret 0;
  rel_read := mret (0, None);
  rel_write := fun _ _ => mret 0;
  rel_listen := fun _ => mret tt
|}.
#[export] Instance still_clock : Clock := {| host_time := (85, 1, 1, 0, 0) |}.

(** No relative file *)
Definition blank_rel : rel_t := Rel 0 0 None 0 0 None 0 0 0 None None None None.

(** The drive as unit 0 *)
Definition unit_files : vdrive_t :=
  set_part (set_current_part 0 (part (drive_files 0 255))) (drive_files 0 255).

Lemma unit_files_ok : VDrive.drive_ok unit_files (files_d64 0 255).
Proof. split; [reflexivity|reflexivity|apply files_d64_wf|reflexivity]. Qed.

Lemma inv_unit : AllocSpec.inv unit_files.
Proof. exists bam_files. destruct bam_ok_files. split; assumption. Qed.

Lemma file_drive_files : ChannelSpec.file_drive (unit_files) (files_d64 0 255).
Proof.
  split; [apply unit_files_ok|reflexivity|vm_compute; congruence|reflexivity|split; vm_compute; congruence
         |vm_compute; repeat split; congruence|vm_compute; repeat split; congruence|].
  intros t s Ht Hs. change (num_tracks (geom (unit_files))) with 35 in Ht.
  split; [|intros m Hm; discriminate Hm].
  change (di_type (files_d64 0 255)) with DISK_IMAGE_TYPE_D64.
  assert (Hall : forallb (fun t => forallb (fun s => bool_decide (Geometry.valid_address DISK_IMAGE_TYPE_D64 t s))
    (seqZ 0 (AllocSpec.spt (unit_files) t))) (seqZ 1 35) = true) by (vm_compute; reflexivity).
  pose proof (Zrange_forallb _ 1 35 Hall t ltac:(lia)) as Hrow.
  apply (bool_decide_eq_true_1 _), (Zrange_forallb _ 0 _ Hrow s). lia.
Qed.

Lemma good_files : ChannelSpec.good (unit_files) (files_d64 0 255).
Proof. split; [apply inv_unit|apply file_drive_files]. Qed.

(** A channel with the entry [e], for reading or writing *)
Definition channel_of (mode : Z) (pl : place_t) (e : mem) : channel_t :=
  Channel (set_lmode BUFFER_SEQUENTIAL (listing_of (Search (unit_files) empty_dir)))
    mode pl 0 (A_slot e) 0 0 0 0 0 (0, 0, []) (-1) blank_rel.

Definition new_entry : mem := [0; 0; 1] ++ replicate 29 160.

Lemma write_channel_of : ChannelSpec.write_channel (channel_of CBMDOS_FAM_WRITE Heap new_entry).
Proof. split; [split; [reflexivity|split; [reflexivity|vm_compute; congruence]]|split; [reflexivity|vm_compute; congruence]]. Qed.

Lemma new_entry_ok : ChannelSpec.entry_ok new_entry.
Proof. split; [reflexivity|]. apply (bool_decide_eq_true_1 _). vm_compute. reflexivity. Qed.

Lemma file_roundtrip_witness :
  wp (ChannelSpec.write_file 0 (str "HELLO")) (fun ok c' =>
    if (ok : bool) then ChannelSpec.saved (str "HELLO") c' else ChannelSpec.full_disk (Channel.drive c'))
  (ChannelSpec.chan (channel_of CBMDOS_FAM_WRITE Heap new_entry) (unit_files) (zeros 256) 2 new_entry 0 0).
Proof.
  apply (ChannelSpec.file_roundtrip 0 _ _ (files_d64 0 255)); [apply write_channel_of|apply good_files|reflexivity
    |apply new_entry_ok| |discriminate].
  apply (bool_decide_eq_true_1 _). vm_compute. reflexivity.
Defined.

Lemma empty_file_not_empty_witness :
  wp (ChannelSpec.write_file 0 []) (fun ok c' =>
    if (ok : bool) then exists e', slot c' = A_slot e' /\
      ChannelSpec.readable (Channel.drive c') e' (drop 2 (zeros 256)) /\ mlen (drop 2 (zeros 256)) = 254
    else ChannelSpec.full_disk (Channel.drive c'))
  (ChannelSpec.chan (channel_of CBMDOS_FAM_WRITE Heap new_entry) (unit_files) (zeros 256) 2 new_entry 0 0).
Proof.
  apply (ChannelSpec.empty_file_not_empty 0 _ _ (files_d64 0 255)); [apply write_channel_of|apply good_files|reflexivity
    |apply new_entry_ok].
Defined.

(** The entry of a file of one sector, the only one of the directory *)
Definition old_entry : mem := [0; 0; 0x81; 18; 1] ++ replicate 27 160.

Lemma first_sector_files :
  ChannelSpec.first_sector (files_d64 0 255) 18 1 (drop 2 (dir_data 0 255)).
Proof.
  exists (dir_data 0 255). split; [|split; [vm_compute; reflexivity|]].
  - apply ChannelSpec.has_data; [apply files_d64_wf|reflexivity|solve_covered|].
    eexists. split; [reflexivity|vm_compute; congruence].
  - split; [vm_compute; reflexivity|]. split; [lia|]. left.
    assert (ChannelSpec.last_of (dir_data 0 255) = 255) as -> by (vm_compute; reflexivity).
    split; [lia|]. split; [lia|]. vm_compute. reflexivity.
Qed.

