(* ===== verification/RelFile.v ===== *)
(** * Relative files

    Models [src/lib/vdrive/vdrive-rel.c]: relative files, whose data blocks are found through
    groups of side sectors, and these through a super side sector (a made-up one where the
    format has none). The state is the channel of the file ([channel_t] with its [rel_t]).

    Writing a byte, filling a record, positioning and growing the file call each other. The
    functions between take the function that writes a byte as an argument, and the knot is
    tied by [vdrive_rel_write], whose fuel bounds the depth of the recursion and the rounds of
    each loop. The operations are the instance of the class [Relative] of file [Channel]. *)

From Stdlib Require Import Ascii String.
From S2P Require Import Prelude Geometry Image VDrive Bam BamAlloc Cbmdos Directory Channel.
Import Directory Channel.

Definition DIRTY_SECTOR : Z := 1.
Definition DIRTY_RECORD : Z := 2.
Definition WRITTEN_RECORD : Z := 4.
Definition SIDE_SECTORS_MAX : Z := 6.
Definition SIDE_INDEX_MAX : Z := 120.
Definition SIDE_SUPER_MAX : Z := 126.
Definition OFFSET_NEXT_TRACK : Z := 0.
Definition OFFSET_NEXT_SECTOR : Z := 1.
Definition OFFSET_SECTOR_NUM : Z := 2.
Definition OFFSET_RECORD_LEN : Z := 3.
Definition OFFSET_SIDE_SECTOR : Z := 4.
Definition OFFSET_POINTER : Z := 16.
Definition OFFSET_SUPER_254 : Z := 2.
Definition OFFSET_SUPER_POINTER : Z := 3.
Definition CBMDOS_IPE_NO_RECORD : Z := 50.
Definition CBMDOS_IPE_TOOLARGE : Z := 52.
Definition SLOT_RECORD_LENGTH : Z := 23.

Module RelFile.
Section relative.
Context {platform : Platform}.

(** ** The state of a relative file *)

Definition upd_rel (f : rel_t -> rel_t) : ST channel_t unit := upd (fun c => set_crel (f (crel c)) c).
(** Byte [i] of a block of [rel_t] *)
Definition get_block (f : rel_t -> option mem) (i : Z) : ST channel_t Z :=
  let! c := state in lift (m ← f (crel c); getb m i).
Definition put_block (f : rel_t -> option mem) (set : option mem -> rel_t -> rel_t) (i x : Z) : ST channel_t unit :=
  update (fun c => m ← f (crel c); m ← putb m i (u8 x); Some (set_crel (set (Some m) (crel c)) c)).

Definition get_side := get_block side_sector.
Definition put_side := put_block side_sector set_side_sector.
Definition get_super := get_block super_side_sector.
Definition put_super := put_block super_side_sector set_super_side_sector.
Definition put_next := put_block buffer_next set_buffer_next.
Definition put_dirty := put_block side_sector_needsupdate set_side_sector_needsupdate.
(** The address of side sector [i] *)
Definition put_address (i t s : Z) : ST channel_t unit :=
  put_block side_sector_track set_side_sector_track i t;;
  put_block side_sector_sector set_side_sector_sector i s.

(** [buffer] and [buffer_next] are swapped. *)
Definition swap : ST channel_t unit :=
  update (fun c =>
    old ← match place c with Heap => Some (Some (lbuffer (clist c))) | Null => Some None | Ram _ => None end;
    let c' := set_crel (set_buffer_next old (crel c)) c in
    Some (match buffer_next (crel c) with
          | Some b => set_place Heap (set_buffer b c')
          | None => set_place Null c'
          end)).

(** The next sector becomes the current one. *)
Definition swap_to (track sector : Z) : ST channel_t unit :=
  swap;;
  upd (fun c => set_ctrack track (set_csector sector
    (set_crel (set_track_next (ctrack c) (set_sector_next (csector c) (crel c))) c))).

(** [vdrive_read_sector(vdrive, p->buffer_next, track, sector)] *)
Definition read_next (track sector : Z) : ST channel_t Z :=
  let! c := state in
  let! b := lift (buffer_next (crel c)) in
  let! (status, b) := on_cdrive (VDrive.vdrive_read_sector b track sector) in
  upd_rel (set_buffer_next (Some b));;
  mret status.

(** Bits of [needsupdate] *)
Definition dirty (flag : Z) (c : channel_t) : bool := negb (Z.land (needsupdate c) flag =? 0).
Definition set_flag (flag : Z) : ST channel_t unit :=
  upd (fun c => set_needsupdate (Z.lor (needsupdate c) flag) c).
Definition clear_flag (flag : Z) : ST channel_t unit :=
  upd (fun c => set_needsupdate (Z.land (needsupdate c) (Z.lnot flag)) c).

(** ** Sizes *)

Definition vdrive_rel_blocks_max (v : vdrive_t) : option Z :=
  let f := image_format (geom v) in
  if (f =? VDRIVE_IMAGE_FORMAT_2040) || (f =? VDRIVE_IMAGE_FORMAT_1541) || (f =? VDRIVE_IMAGE_FORMAT_1571)
  then Some (700 + 6)
  else if f =? VDRIVE_IMAGE_FORMAT_1581 then Some (3000 + 4 * 6 + 1 + 1)
  else if f =? VDRIVE_IMAGE_FORMAT_8050 then Some (720 + 6)
  else if f =? VDRIVE_IMAGE_FORMAT_8250 then Some (4090 + 5 * 6 + 5 + 1)
  else if f =? VDRIVE_IMAGE_FORMAT_9000 then
    image ← deref_image v;
    Some (u32 (u32 (di_sectors image * di_tracks image - Z.shiftr (bam_size (bamc v)) 8 - 1 - 1) * 720) / 726)
  else if f =? VDRIVE_IMAGE_FORMAT_NP then Some (64672 + 89 * 6 + 5 + 1)
  else Some 0.

(** The entries of the super side sector up to the first without a track; [bound] is the
    test against [SIDE_SUPER_MAX], which two of the four loops have. *)
Fixpoint groups_from (n : nat) (bound : bool) (m : mem) (side : Z) : option Z :=
  match n with
  | O => None
  | S n =>
      if bound && (SIDE_SUPER_MAX <=? side) then Some side
      else
        t ← getb m (OFFSET_SUPER_POINTER + side * 2);
        if t =? 0 then Some side else groups_from n bound m (side + 1)
  end.
Definition groups (bound : bool) : ST channel_t Z :=
  let! c := state in lift (m ← super_side_sector (crel c); groups_from 128 bound m 0).

(** The last side sector of a group, [SIDE_SECTORS_MAX] if none is the last *)
Fixpoint last_side (n : nat) (side i : Z) : ST channel_t Z :=
  match n with
  | O => mret i
  | S n =>
      let! t := get_side (256 * (side * SIDE_SECTORS_MAX) + OFFSET_NEXT_TRACK + i * 256) in
      if t =? 0 then mret i else last_side n side (i + 1)
  end.

(** Number [j] of the last data block within its side sector, counted from 1 *)
Definition last_index (side i : Z) : ST channel_t Z :=
  let! x := get_side (256 * (i + side * SIDE_SECTORS_MAX) + OFFSET_NEXT_SECTOR) in
  mret (u32 (Z.quot (x + 1 - OFFSET_POINTER) 2)).
(** The address of data block [j], counted from 0 *)
Definition block_address (side i j : Z) : ST channel_t (Z * Z) :=
  let o := u32 (256 * (i + side * SIDE_SECTORS_MAX) + OFFSET_POINTER + 2 * j) in
  let! t := get_side o in
  let! s := get_side (u32 (o + 1)) in
  mret (t, s).

(** The number of records, from the last byte in use of the last data block; a record
    length of 0 divides by it. *)
Definition vdrive_rel_record_max : ST channel_t Z :=
  let! n := groups true in
  if n =? 0 then mret 0
  else
    let side := n - 1 in
    let! i := last_side 6 side 0 in
    let! j := last_index side i in
    let j := u32 (j - 1) in
    let! (track, sector) := block_address side i j in
    let! status := read_buffer track sector in
    if negb (status =? 0) then set_error CBMDOS_IPE_ILLEGAL_TRACK_OR_SECTOR track sector;; mret 0
    else
      let! x := get_buffer OFFSET_NEXT_SECTOR in
      let k := u32 (((side * SIDE_SECTORS_MAX + i) * SIDE_INDEX_MAX + j) * 254 + x - 1) in
      let! len := get_slot SLOT_RECORD_LENGTH in
      if len =? 0 then ub else mret (k / len).

(** ** Records *)

Definition vdrive_rel_commit : ST channel_t unit :=
  let! c := state in
  if dirty DIRTY_SECTOR c then write_buffer (ctrack c) (csector c);; clear_flag DIRTY_SECTOR else mret tt.

(** Where the block of a record is noted in the side sectors, and where the record starts in
    the data of the block *)
Definition record_place (record rec_len : Z) : Z * Z :=
  let rec_long := u32 (record * rec_len) in
  let rec_start := rec_long mod 254 in
  let offset := 254 * SIDE_INDEX_MAX * SIDE_SECTORS_MAX in
  let super := rec_long / offset in
  let rec_long := rec_long mod offset in
  let offset := 254 * SIDE_INDEX_MAX in
  let side := rec_long / offset in
  let rec_long := rec_long mod offset in
  let offset := rec_long / 254 * 2 in
  (offset + (super * SIDE_SECTORS_MAX + side) * 256 + OFFSET_POINTER, rec_start).

Definition vdrive_rel_track_sector (record : Z) : ST channel_t (Z * Z * Z) :=
  let! rec_len := get_slot SLOT_RECORD_LENGTH in
  let (offset, rec_start) := record_place record rec_len in
  let! track := get_side offset in
  let! sector := get_side (offset + 1) in
  mret (track, sector, rec_start).

(** [for (; length >= lo && m[length - shift] == 0; length--)] *)
Fixpoint trim (n : nat) (m : mem) (lo shift length : Z) : option Z :=
  match n with
  | O => None
  | S n =>
      if lo <=? length then
        b ← getb m (length - shift);
        if b =? 0 then trim n m lo shift (u32 (length - 1)) else Some length
      else Some length
  end.
Definition trim_end (m : mem) (lo shift : Z) : ST channel_t unit :=
  let! c := state in
  let! l := lift (trim (S (S (Z.to_nat (clength c - lo + 1)))) m lo shift (clength c)) in
  upd (set_clength l).

(** The end of the record within the current sector *)
Definition trim_here : ST channel_t unit :=
  let! b := load_buffer in let! c := state in trim_end b (cbufptr c) 0.
(** The end of the record within the next sector, down to place [lo] *)
Definition trim_next (lo : Z) : ST channel_t unit :=
  let! c := state in let! b := lift (buffer_next (crel c)) in trim_end b lo 254.

(** The sector behind the current one is in [buffer_next]: [false] if there is none or it
    cannot be read. *)
Definition load_next (before : ST channel_t unit) : ST channel_t bool :=
  let! b0 := get_buffer 0 in
  if b0 =? 0 then mret false
  else
    let! b1 := get_buffer 1 in
    let! c := state in
    let! status := (if negb (b0 =? track_next (crel c)) || negb (b1 =? sector_next (crel c))
                    then before;; read_next b0 b1 else mret 0) in
    if status =? 0 then upd_rel (fun r => set_track_next b0 (set_sector_next b1 r));; mret true
    else mret false.

(** The length past which a read of the real drive goes on into the next records *)
Definition overflow_length (position : Z) : ST channel_t unit :=
  upd (fun c => if (clength c <? cbufptr c) && (0 <? position)
                then set_clength (u32 (cbufptr c + 254 - position)) c else c).

(** The end of the record at [position] *)
Definition measure_from (position : Z) : ST channel_t unit :=
  let! c := state in
  if clength c <? 256 then trim_here;; overflow_length position
  else
    let! ok := load_next (mret tt) in
    if (ok : bool) then
      let! c := state in
      trim_next (Z.max 256 (cbufptr c));;
      let! c := state in
      if (clength c <? 256) && (cbufptr c <? 256) then trim_here;; overflow_length position else mret tt
    else mret tt.

(** The end of the record that begins at [bufptr] *)
Definition measure (before : ST channel_t unit) : ST channel_t unit :=
  let! c := state in
  if clength c <? 256 then trim_here
  else
    let! ok := load_next before in
    if (ok : bool) then
      trim_next 256;;
      let! c := state in
      if clength c <? 256 then trim_here else mret tt
    else mret tt.

(** On to the next record *)
Definition next_record : ST channel_t unit :=
  let! len := get_side OFFSET_RECORD_LEN in
  upd (fun c =>
    let next := u32 (record_next (crel c) + len) in
    set_clist (Directory.set_bufptr (record_next (crel c)) (clist c))
      (set_clength (u32 (next - 1)) (set_record (u32 (record c + 1))
        (set_crel (set_record_next next (crel c)) c)))).

(** The places in the buffer behind its end are those in the next sector. *)
Definition advance : ST channel_t unit :=
  upd (fun c => set_bufptr (u32 (cbufptr c - 254)) (set_clength (u32 (clength c - 254))
    (set_crel (set_record_next (u32 (record_next (crel c) - 254)) (crel c)) c))).

(** On to the sector that the current one links to: [false] if it cannot be read. *)
Definition next_sector (before on_read : ST channel_t unit) : ST channel_t bool :=
  let! track := get_buffer 0 in
  let! sector := get_buffer 1 in
  before;;
  vdrive_rel_commit;;
  let! c := state in
  let! status := (if (track_next (crel c) =? track) && (sector_next (crel c) =? sector)
                  then swap_to track sector;; mret 0
                  else if negb (ctrack c =? track) || negb (csector c =? sector)
                  then on_read;; read_buffer track sector else mret 0) in
  if status =? 0 then upd (fun c => set_ctrack track (set_csector sector c));; advance;; mret true
  else mret false.
(** ** Filling, positioning and growing

    [write] writes a byte: [vdrive_rel_write]. *)

Section with_write.
Variable write : Z -> ST channel_t Z.

(** The rest of a record that was begun is filled with zeros. A sector that cannot be read
    uses up any fuel. *)
Fixpoint fill_rest (fuel : nat) : ST channel_t unit :=
  match fuel with
  | O => ub
  | S fuel =>
      let! c := state in
      if cbufptr c <? record_next (crel c) then
        (if cbufptr c <? 256 then
           put_buffer (cbufptr c) 0;; upd (set_bufptr (u32 (cbufptr c + 1)));; set_flag DIRTY_SECTOR
         else write 0;; mret tt);;
        fill_rest fuel
      else mret tt
  end.

Definition fillrecord (fuel : nat) : ST channel_t unit :=
  let! c := state in
  (if dirty DIRTY_RECORD c then fill_rest fuel;; clear_flag DIRTY_RECORD else mret tt);;
  clear_flag WRITTEN_RECORD.

(** The sector of the record comes into the buffer: [false] if it cannot be read. *)
Definition fetch_sector (track sector : Z) : ST channel_t bool :=
  let! c := state in
  if (track_next (crel c) =? track) && (sector_next (crel c) =? sector) then
    vdrive_rel_commit;; swap_to track sector;; mret true
  else if negb (ctrack c =? track) || negb (csector c =? sector) then
    vdrive_rel_commit;;
    let! status := read_buffer track sector in
    if negb (status =? 0) then mret false
    else upd (fun c => set_ctrack track (set_csector sector c));; mret true
  else mret true.

Definition position_internal (fuel : nat) (rec_lo rec_hi position : Z) : ST channel_t Z :=
  let! rec_len := get_slot SLOT_RECORD_LENGTH in
  let position := if position =? 0 then 0 else position - 1 in
  if rec_len <=? position then mret CBMDOS_IPE_OVERFLOW
  else
    let record := u32 (rec_lo + Z.shiftl rec_hi 8) in
    let record := if record =? 0 then 0 else record - 1 in
    upd (set_record record);;
    let! c := state in
    if record_max (crel c) <=? record then
      mret (if 0 <? record then CBMDOS_IPE_NO_RECORD else CBMDOS_IPE_OK)
    else
      fillrecord fuel;;
      let! (addr, rec_start) := vdrive_rel_track_sector record in
      let (track, sector) := addr : Z * Z in
      let! ok := fetch_sector track sector in
      if negb (ok : bool) then mret CBMDOS_IPE_ILLEGAL_TRACK_OR_SECTOR
      else
        let p := rec_start + 2 + position in
        let next := p - position + rec_len in
        upd (fun c => set_bufptr p (set_clength (next - 1) (set_crel (set_record_next next (crel c)) c)));;
        measure_from position;;
        mret CBMDOS_IPE_OK.

(** Empty records, 255 and zeros, from place [o] to the end of a sector: the place in the
    record behind them. Every record that is completed counts. *)
Fixpoint fill_records (n : nat) (put : Z -> Z -> ST channel_t unit) (len o k : Z) : ST channel_t Z :=
  match n with
  | O => mret k
  | S n =>
      put o (if k =? 0 then 255 else 0);;
      if len =? 0 then ub
      else
        let k := (k + 1) mod len in
        (if k =? 0 then upd_rel (fun r => set_record_max (u32 (record_max r + 1)) r) else mret tt);;
        fill_records n put len (o + 1) k
  end.

(** The last data block of the file and where it is noted: group, side sector, number
    (counted from 1, 0 for a new file), address *)
Definition find_last : ST channel_t (Z * Z * Z * option (Z * Z)) :=
  let! n := groups true in
  if n =? 0 then mret (0, 0, 0, None)
  else
    let side := n - 1 in
    let! i := last_side 6 side 0 in
    let! j := last_index side i in
    let! a := block_address side i (u32 (j - 1)) in
    mret (side, i, j, Some a).

(** A sector for the data, and one for a new side sector if it is needed. When there is no
    room for the latter, the former stays allocated. *)
Definition allocate_blocks (j : Z) (last : option (Z * Z)) : ST channel_t (option (Z * Z * (Z * Z))) :=
  let! a := on_cdrive (match last with
                       | Some (t, s) => BamAlloc.vdrive_bam_alloc_next_free_sector t s
                       | None => BamAlloc.vdrive_bam_alloc_first_free_sector
                       end) in
  match a with
  | None => set_error CBMDOS_IPE_DISK_FULL 0 0;; mret None
  | Some (track, sector) =>
      if (j =? SIDE_INDEX_MAX) || (j =? 0) then
        let! b := on_cdrive (BamAlloc.vdrive_bam_alloc_next_free_sector track sector) in
        match b with
        | None => set_error CBMDOS_IPE_DISK_FULL 0 0;; mret None
        | Some side => mret (Some (track, sector, side))
        end
      else mret (Some (track, sector, (0, 0)))
  end.

(** The first block of a new file: [false] if there is no room for the super side sector. *)
Definition begin_file (track sector t_new s_new : Z) : ST channel_t bool :=
  put_slot SLOT_FIRST_TRACK track;; put_slot SLOT_FIRST_SECTOR sector;;
  put_super OFFSET_NEXT_TRACK t_new;; put_super OFFSET_NEXT_SECTOR s_new;;
  put_super OFFSET_SUPER_254 254;;
  put_super OFFSET_SUPER_POINTER t_new;; put_super (OFFSET_SUPER_POINTER + 1) s_new;;
  upd_rel (set_super_side_sector_needsupdate 1);;
  let! c := state in
  let! super := (if vdrive_rel_has_super (image_format (geom (drive c))) then
                   let! a := on_cdrive (BamAlloc.vdrive_bam_alloc_next_free_sector t_new s_new) in
                   mret ((fun a => (a, a)) <$> a)
                 else mret (Some ((0, 0), (t_new, s_new)))) in
  match (super : option ((Z * Z) * (Z * Z))) with
  | None => set_error CBMDOS_IPE_DISK_FULL 0 0;; mret false
  | Some (a, (t, s)) =>
      upd_rel (fun r => set_super_side_sector_track (u8 a.1) (set_super_side_sector_sector (u8 a.2) r));;
      put_slot SLOT_SIDE_TRACK t;; put_slot SLOT_SIDE_SECTOR s;;
      upd_rel (fun r => set_track_next track (set_sector_next sector r));;
      vdrive_iec_update_dirent;;
      mret true
  end.

(** The last sector of the file is linked to the new one and filled up with records. *)
Definition link_last (fuel : nat) (track sector len : Z) : ST channel_t Z :=
  let! c := state in
  let m := record_max (crel c) in
  position_internal fuel (Z.land m 255) (Z.shiftr m 8) 1;;
  let! c := state in
  let! n := get_slot SLOT_RECORD_LENGTH in
  let! o := (if 256 <? cbufptr c + n then
               vdrive_rel_commit;;
               swap;;
               upd (fun c => set_ctrack (track_next (crel c)) (set_csector (sector_next (crel c)) c));;
               mret (u32 (cbufptr c + len - 254))
             else mret (u32 (cbufptr c + len))) in
  put_buffer OFFSET_NEXT_TRACK track;; put_buffer OFFSET_NEXT_SECTOR sector;;
  upd_rel (fun r => set_track_next track (set_sector_next sector r));;
  let! k := fill_records (Z.to_nat (256 - o)) put_buffer len o 0 in
  upd (set_needsupdate DIRTY_SECTOR);;
  mret k.

(** The new sector, in [buffer_next], is filled with records and written. *)
Definition write_new (len k : Z) : ST channel_t unit :=
  let! k := fill_records 254 put_next len 2 k in
  put_next OFFSET_NEXT_TRACK 0;;
  put_next OFFSET_NEXT_SECTOR (255 - k);;
  let! c := state in
  let! b := lift (buffer_next (crel c)) in
  on_cdrive (VDrive.vdrive_write_sector b (track_next (crel c)) (sector_next (crel c)));;
  mret tt.

(** [lib_realloc] and the [memset] of the new part *)
Definition enlarge (m : option mem) (n : Z) : option mem :=
  m ← m; Some (take (Z.to_nat n) m ++ replicate (Z.to_nat n - length m) 0).

(** A new group of side sectors: the number of its first *)
Definition new_group (side t_new s_new : Z) : ST channel_t Z :=
  let n := (side + 1) * SIDE_SECTORS_MAX in
  update (fun c =>
    let r := crel c in
    a ← enlarge (side_sector r) (n * 256); t ← enlarge (side_sector_track r) n;
    s ← enlarge (side_sector_sector r) n; d ← enlarge (side_sector_needsupdate r) n;
    Some (set_crel (set_side_sector (Some a) (set_side_sector_track (Some t)
      (set_side_sector_sector (Some s) (set_side_sector_needsupdate (Some d) r)))) c));;
  let o := side * SIDE_SECTORS_MAX in
  put_side (o * 256 + OFFSET_SIDE_SECTOR) t_new;; put_side (o * 256 + OFFSET_SIDE_SECTOR + 1) s_new;;
  put_side (o * 256 + OFFSET_SECTOR_NUM) 0;;
  put_super (OFFSET_SUPER_POINTER + side * 2) t_new;; put_super (OFFSET_SUPER_POINTER + side * 2 + 1) s_new;;
  upd_rel (set_super_side_sector_needsupdate 1);;
  mret o.

(** A further side sector of a group: its number *)
Definition new_side (side i t_new s_new : Z) : ST channel_t Z :=
  let l := 256 * (side * SIDE_SECTORS_MAX) in
  let o := l + 256 * (i + 1) in
  for_each (Z.to_nat (i + 1)) 0 (fun k =>
    put_side (l + k * 256 + OFFSET_SIDE_SECTOR + (i + 1) * 2) t_new;;
    put_side (l + k * 256 + OFFSET_SIDE_SECTOR + (i + 1) * 2 + 1) s_new);;
  put_side (o + OFFSET_SECTOR_NUM) (i + 1);;
  for_each (Z.to_nat (SIDE_SECTORS_MAX * 2)) 0 (fun k =>
    let! x := get_side (l + OFFSET_SIDE_SECTOR + k) in put_side (o + OFFSET_SIDE_SECTOR + k) x);;
  for_each (Z.to_nat (i + 1)) (side * SIDE_SECTORS_MAX) (fun o => put_dirty o 1);;
  mret (i + 1 + side * SIDE_SECTORS_MAX).

(** The new data block is noted in the side sectors. *)
Definition note_block (side i j track sector t_new s_new len : Z) : ST channel_t unit :=
  (if j =? 0 then
     put_side OFFSET_NEXT_TRACK 0;; put_side OFFSET_RECORD_LEN len;;
     put_side OFFSET_SIDE_SECTOR t_new;; put_side (OFFSET_SIDE_SECTOR + 1) s_new;;
     put_address 0 t_new s_new
   else mret tt);;
  if j =? SIDE_INDEX_MAX then
    let o := i + side * SIDE_SECTORS_MAX in
    put_dirty o 1;;
    put_side (o * 256 + OFFSET_NEXT_TRACK) t_new;; put_side (o * 256 + OFFSET_NEXT_SECTOR) s_new;;
    let! o := (if i =? SIDE_SECTORS_MAX - 1 then new_group (side + 1) t_new s_new
               else new_side side i t_new s_new) in
    put_dirty o 1;;
    put_address o t_new s_new;;
    put_side (o * 256 + OFFSET_NEXT_TRACK) 0;;
    put_side (o * 256 + OFFSET_NEXT_SECTOR) (OFFSET_POINTER + 1);;
    put_side (o * 256 + OFFSET_RECORD_LEN) len;;
    put_side (o * 256 + OFFSET_POINTER) track;; put_side (o * 256 + OFFSET_POINTER + 1) sector
  else
    let o := i + side * SIDE_SECTORS_MAX in
    put_dirty o 1;;
    let o := o * 256 in
    put_side (o + OFFSET_NEXT_SECTOR) (OFFSET_POINTER + 2 * j + 1);;
    put_side (u32 (o + OFFSET_POINTER + 2 * j)) track;; put_side (u32 (o + OFFSET_POINTER + 2 * j + 1)) sector.

(** The file grows by a sector: 1 if it cannot. *)
Definition add_sector (fuel : nat) : ST channel_t Z :=
  let! lo := get_slot SLOT_NR_BLOCKS in
  let! hi := get_slot (SLOT_NR_BLOCKS + 1) in
  let! c := state in
  let! max := lift (vdrive_rel_blocks_max (drive c)) in
  if max <=? lo + Z.shiftl hi 8 then set_error CBMDOS_IPE_TOOLARGE 0 0;; mret 1
  else
    let! (last, a) := find_last in
    let '(side, i, j) := last : Z * Z * Z in
    let! b := allocate_blocks j a in
    match b with
    | None => mret 1
    | Some (track, sector, (t_new, s_new)) =>
        let! len := get_slot SLOT_RECORD_LENGTH in
        let! c := state in
        let current := u32 (record c + 1) in
        let! k := (if j =? 0 then
                     let! ok := begin_file track sector t_new s_new in mret (if (ok : bool) then Some 0 else None)
                   else let! k := link_last fuel track sector len in mret (Some k)) in
        match (k : option Z) with
        | None => mret 1
        | Some k =>
            write_new len k;;
            note_block side i j track sector t_new s_new len;;
            position_internal fuel (Z.land current 255) (Z.shiftr current 8) 1;;
            mret 0
        end
    end.

Definition vdrive_rel_flush_sidesectors : ST channel_t unit :=
  let! c := state in
  let r := crel c in
  (if negb (super_side_sector_needsupdate r =? 0) && negb (super_side_sector_track r =? 0) then
     let! b := lift (super_side_sector r) in
     on_cdrive (VDrive.vdrive_write_sector b (super_side_sector_track r) (super_side_sector_sector r));;
     upd_rel (set_super_side_sector_needsupdate 0)
   else mret tt);;
  let! side := groups false in
  for_each (Z.to_nat (side * SIDE_SECTORS_MAX)) 0 (fun o =>
    let! d := get_block side_sector_needsupdate o in
    let! t := (if d =? 0 then mret 0 else get_block side_sector_track o) in
    if negb (t =? 0) then
      let! s := get_block side_sector_sector o in
      let! c := state in
      let! b := lift (m ← side_sector (crel c); slice m (o * 256) 256) in
      on_cdrive (VDrive.vdrive_write_sector b t s);;
      put_dirty o 0
    else mret tt).

(** Sectors are added until the file has the record; every round takes a free sector. *)
Fixpoint grow_to (fuel : nat) (records : Z) : ST channel_t Z :=
  match fuel with
  | O => ub
  | S fuel =>
      let! c := state in
      if record_max (crel c) <=? records then
        let! l := add_sector fuel in
        if negb (l =? 0) then mret l else grow_to fuel records
      else mret 0
  end.

(** The blocks of the file, by its records *)
Definition count_blocks (records len super : Z) : Z :=
  let i := u32 (records * len) in
  let j := i / 254 + (if i mod 254 =? 0 then 0 else 1) in
  let i := j / SIDE_INDEX_MAX + (if j mod SIDE_INDEX_MAX =? 0 then 0 else 1) in
  (if super =? 0 then i else i + 1) + j.

Definition grow (fuel : nat) (records : Z) : ST channel_t Z :=
  let! l := grow_to fuel records in
  vdrive_rel_flush_sidesectors;;
  on_cdrive Bam.vdrive_bam_write_bam;;
  let! lo := get_slot SLOT_NR_BLOCKS in
  let! hi := get_slot (SLOT_NR_BLOCKS + 1) in
  let! len := get_slot SLOT_RECORD_LENGTH in
  let! c := state in
  let i := count_blocks (record_max (crel c)) len (super_side_sector_track (crel c)) in
  (if negb (i =? lo + Z.shiftl hi 8) then
     put_slot SLOT_NR_BLOCKS (i mod 256);; put_slot (SLOT_NR_BLOCKS + 1) (i / 256);;
     vdrive_iec_update_dirent;; mret tt
   else mret tt);;
  mret l.

(** The status of [grow] is compared as a signed number, so that a failure to grow is not
    noticed: [Some] is a return. *)
Definition grow_for (fuel : nat) : ST channel_t (option Z) :=
  switch;;
  let! c := state in
  let! l := grow fuel (record c) in
  mret (if s32 l <? 0 then Some SERIAL_OK else None).

(** A byte goes into the buffer unless the record ends here. *)
Definition store_data (data : Z) : ST channel_t Z :=
  let! c := state in
  if record_next (crel c) <=? cbufptr c then set_error CBMDOS_IPE_OVERFLOW 0 0;; mret SERIAL_OK
  else
    put_buffer (cbufptr c) data;;
    upd (set_bufptr (u32 (cbufptr c + 1)));;
    set_flag (Z.lor DIRTY_SECTOR WRITTEN_RECORD);;
    let! c := state in
    (if cbufptr c =? record_next (crel c) then clear_flag DIRTY_RECORD else set_flag DIRTY_RECORD);;
    mret SERIAL_OK.

(** Before the write: [Some] is a return. *)
Definition write_ready (fuel : nat) : ST channel_t (option Z) :=
  let! b0 := get_buffer 0 in
  let! c := state in
  if negb (b0 =? 0) then
    if 256 <=? cbufptr c then
      let! ok := next_sector (switch;; mret tt) (mret tt) in
      mret (if (ok : bool) then None else Some SERIAL_EOF)
    else mret None
  else
    let! b1 := get_buffer 1 in
    if b1 + 2 <=? cbufptr c then grow_for fuel else mret None.

Definition write_byte (fuel : nat) (data : Z) : ST channel_t Z :=
  let! r := find_image in
  match r with
  | Some rc => mret rc
  | None =>
      let! c := state in
      let! r := (if record_max (crel c) <=? record c then grow_for fuel else mret None) in
      match r with
      | Some rc => mret rc
      | None =>
          let! r := write_ready fuel in
          match r with
          | Some rc => mret rc
          | None => store_data data
          end
      end
  end.
End with_write.

(** ** Writing *)

Fixpoint vdrive_rel_write (fuel : nat) (data : Z) : ST channel_t Z :=
  match fuel with
  | O => ub
  | S fuel => write_byte (vdrive_rel_write fuel) fuel data
  end.

Definition vdrive_rel_fillrecord (fuel : nat) : ST channel_t unit := fillrecord (vdrive_rel_write fuel) fuel.
Definition vdrive_rel_position_internal (fuel : nat) (rec_lo rec_hi position : Z) : ST channel_t Z :=
  position_internal (vdrive_rel_write fuel) fuel rec_lo rec_hi position.
Definition vdrive_rel_grow (fuel : nat) (records : Z) : ST channel_t Z :=
  grow (vdrive_rel_write fuel) fuel records.
(** ** Opening *)

(** A super side sector is made up when the first side sector is none: [Some] of its
    address. *)
Definition real_super (track sector : Z) : ST channel_t unit :=
  let! mark := get_super OFFSET_SUPER_254 in
  if negb (mark =? 254) then
    upd_rel (set_super_side_sector (Some (replicate 256 0)));;
    put_super OFFSET_NEXT_TRACK track;; put_super OFFSET_NEXT_SECTOR sector;;
    put_super OFFSET_SUPER_254 254;;
    put_super OFFSET_SUPER_POINTER track;; put_super (OFFSET_SUPER_POINTER + 1) sector;;
    upd_rel (fun r => set_super_side_sector_track 0 (set_super_side_sector_sector 0 r))
  else upd_rel (fun r => set_super_side_sector_track (u8 track) (set_super_side_sector_sector (u8 sector) r)).

(** The blocks of [n] side sectors, all clear *)
Definition clear_sides (n : Z) : ST channel_t unit :=
  let z k := Some (replicate (Z.to_nat k) 0) in
  upd_rel (fun r => set_side_sector (z (n * 256)) (set_side_sector_track (z n)
    (set_side_sector_sector (z n) (set_side_sector_needsupdate (z n) r)))).

(** The side sectors of a group, from number [i]: [false] if one cannot be read or has
    another number. *)
Fixpoint read_group (n : nat) (j i track sector : Z) : ST channel_t bool :=
  match n with
  | O => mret true
  | S n =>
      let o := i + j * SIDE_SECTORS_MAX in
      put_address o track sector;;
      let! c := state in
      let! b := lift (m ← side_sector (crel c); slice m (o * 256) 256) in
      let! (status, b) := on_cdrive (VDrive.vdrive_read_sector b track sector) in
      update (fun c => m ← side_sector (crel c); m ← splice m (o * 256) b;
                       Some (set_crel (set_side_sector (Some m) (crel c)) c));;
      if negb (status =? 0) then mret false
      else
        let! number := get_side (o * 256 + OFFSET_SECTOR_NUM) in
        if negb (number =? i) then mret false
        else
          let! track := get_side (o * 256 + OFFSET_NEXT_TRACK) in
          let! sector := get_side (o * 256 + OFFSET_NEXT_SECTOR) in
          if track =? 0 then mret true else read_group n j (i + 1) track sector
  end.
Fixpoint read_groups (n : nat) (j : Z) : ST channel_t bool :=
  match n with
  | O => mret true
  | S n =>
      let! track := get_super (OFFSET_SUPER_POINTER + j * 2) in
      let! sector := get_super (OFFSET_SUPER_POINTER + j * 2 + 1) in
      let! ok := read_group 6 j 0 track sector in
      if (ok : bool) then read_groups n (j + 1) else mret false
  end.

(** The channel has its own copy of the entry already. *)
Definition vdrive_rel_open_existing : ST channel_t Z :=
  let! track := get_slot SLOT_SIDE_TRACK in
  let! sector := get_slot SLOT_SIDE_SECTOR in
  let! (status, b) := on_cdrive (VDrive.vdrive_read_sector (lib_malloc 256) track sector) in
  if negb (status =? 0) then upd_rel (set_super_side_sector None);; mret (-1)
  else
    upd_rel (set_super_side_sector (Some b));;
    real_super track sector;;
    upd_rel (set_super_side_sector_needsupdate 0);;
    let! side := groups false in
    clear_sides (side * SIDE_SECTORS_MAX);;
    let! ok := read_groups (Z.to_nat side) 0 in
    mret (if (ok : bool) then 0 else -1).

Definition vdrive_rel_setup_ss_buffers : ST channel_t Z :=
  upd_rel (fun r => set_super_side_sector (Some (<[Z.to_nat OFFSET_SUPER_254 := 254]> (replicate 256 0)))
    (set_super_side_sector_track 0 (set_super_side_sector_sector 0 (set_super_side_sector_needsupdate 0 r))));;
  clear_sides SIDE_SECTORS_MAX;;
  let! c := state in
  mret (if vdrive_rel_has_super (image_format (geom (drive c))) then 1 else 0).

Definition vdrive_rel_shutdown_ss_buffers : ST channel_t unit :=
  upd_rel (fun r => set_side_sector None (set_side_sector_track None (set_side_sector_sector None
    (set_side_sector_needsupdate None (set_super_side_sector None r))))).

(** The entry of a new file: 1 if the directory is full. *)
Definition vdrive_rel_open_new (fuel : nat) (cmd_parse : cbmdos_cmd_parse_plus_t) : ST channel_t Z :=
  on_dir (vdrive_dir_find_first_slot [] (-1) 0);;
  let! e := on_dir (vdrive_dir_find_next_slot fuel) in
  match e with
  | None => set_error CBMDOS_IPE_DISK_FULL 0 0;; mret 1
  | Some _ =>
      let! e := lift (m ← splice (replicate 32 0) SLOT_NAME_OFFSET (replicate 16 0xa0);
                      n ← slice (default [] (file cmd_parse)) 0 (filelength cmd_parse);
                      m ← splice m SLOT_NAME_OFFSET n;
                      m ← putb m SLOT_TYPE_OFFSET (u8 (Z.lor (pfiletype cmd_parse) 0x80));
                      putb m SLOT_RECORD_LENGTH (u8 (precordlength cmd_parse))) in
      upd (set_slot (A_slot e));;
      copy_slot;;
      on_dir write_dir;;
      vdrive_rel_setup_ss_buffers;;
      mret 0
  end.

(** Two buffers, and the first record; a new file has one *)
Definition begin_relative (fuel : nat) (is_new : bool) : ST channel_t Z :=
  upd (fun c => set_mode BUFFER_RELATIVE (set_place Heap (set_buffer (lib_malloc 256) (set_bufptr 0
    (set_record 0 (set_ctrack 0 (set_csector 0
      (set_crel (set_buffer_next (Some (lib_malloc 256)) (set_track_next 0 (set_sector_next 0 (crel c)))) c))))))));;
  let! max := vdrive_rel_record_max in
  upd_rel (set_record_max max);;
  (if is_new then vdrive_rel_grow fuel 0;; mret tt else mret tt);;
  vdrive_rel_position_internal fuel 1 0 1;;
  mret SERIAL_OK.

Definition vdrive_rel_open (fuel : nat) (cmd_parse : cbmdos_cmd_parse_plus_t) : ST channel_t Z :=
  let! c := state in
  match slot c with
  | No_slot =>
      if 0 <? precordlength cmd_parse then
        if readonly c then set_error CBMDOS_IPE_WRITE_PROTECT_ON 0 0;; mret SERIAL_ERROR
        else
          let! r := vdrive_rel_open_new fuel cmd_parse in
          if negb (r =? 0) then mret SERIAL_ERROR else begin_relative fuel true
      else set_error CBMDOS_IPE_NOT_FOUND 0 0;; mret SERIAL_ERROR
  | _ =>
      let! r := vdrive_rel_open_existing in
      if negb (r =? 0) then mret SERIAL_ERROR else begin_relative fuel false
  end.

(** ** The handlers of the channel *)

Definition vdrive_rel_position (fuel : nat) (rec_lo rec_hi position : Z) : ST channel_t Z :=
  switch;; vdrive_rel_position_internal fuel rec_lo rec_hi position.

(** Before the read: [Some] is a return. *)
Definition read_ready : ST channel_t (option (Z * Z)) :=
  let! b0 := get_buffer 0 in
  let! c := state in
  if negb (b0 =? 0) then
    if 256 <=? cbufptr c then
      let! ok := next_sector (mret tt) (switch;; mret tt) in
      mret (if (ok : bool) then None else Some (SERIAL_EOF, 0xc7))
    else mret None
  else
    let! b1 := get_buffer 1 in
    if b1 + 2 <=? cbufptr c then
      if clength c <? record_next (crel c) then
        set_error CBMDOS_IPE_NO_RECORD 0 0;; mret (Some (SERIAL_EOF, 0x0d))
      else (if 256 <=? cbufptr c then advance else mret tt);; mret None
    else mret None.

(** Behind the last byte of a record the next one begins. *)
Definition vdrive_rel_read : ST channel_t (Z * option Z) :=
  let! c := state in
  if record_max (crel c) <=? record c then
    set_error CBMDOS_IPE_NO_RECORD 0 0;; mret (SERIAL_EOF, Some 0x0d)
  else
    let! r := read_ready in
    match r with
    | Some (status, data) => mret (status, Some data)
    | None =>
        let! c := state in
        let! data := get_buffer (cbufptr c) in
        upd (set_bufptr (u32 (cbufptr c + 1)));;
        let! c := state in
        if clength c <? cbufptr c then
          next_record;;
          let! c := state in
          (if record_max (crel c) <=? record c then mret tt else measure (switch;; mret tt));;
          mret (SERIAL_EOF, Some data)
        else mret (SERIAL_OK, Some data)
    end.

Definition vdrive_rel_listen (fuel : nat) : ST channel_t unit :=
  let! c := state in
  if dirty WRITTEN_RECORD c then
    switch;;
    vdrive_rel_fillrecord fuel;;
    next_record;;
    measure (mret tt)
  else mret tt.

Definition vdrive_rel_close (fuel : nat) : ST channel_t Z :=
  switch;;
  vdrive_rel_fillrecord fuel;;
  vdrive_rel_commit;;
  upd (fun c => set_mode BUFFER_NOT_IN_USE (set_place Null
    (set_crel (set_buffer_next None (crel c)) c)));;
  vdrive_rel_shutdown_ss_buffers;;
  upd (set_slot Freed_slot);;
  mret SERIAL_OK.
End relative.
End RelFile.

(** Relative files as the channels use them *)
#[export] Instance relative_files `{Platform} : Relative := {|
  rel_close := RelFile.vdrive_rel_close;
  rel_read := RelFile.vdrive_rel_read;
  rel_write := RelFile.vdrive_rel_write;
  rel_listen := RelFile.vdrive_rel_listen
|}.
