(* ===== verification/RelSpec.v ===== *)
(** * Specification of relative files

    On an open relative file any sequence of positionings, reads and writes of its records
    behaves as on an array of bytes cut into records of one length, and closing the file
    leaves the array in the data blocks of the disk. What fails: records of more than 127
    bytes, which the search for the end of the next record reads behind the buffer; a sector
    that cannot be read, at which the filling of a record never ends. *)

From S2P Require Import Prelude Geometry Image VDrive Bam BamSpec BamAlloc AllocSpec Cbmdos Partition Directory DirSpec ScratchSpec Channel RelFile ChannelSpec.
Import Bam BamSpec BamAlloc Directory Channel RelFile ChannelSpec.

Module RelSpec.

(** ** The abstract file *)

(** The bytes of the file, the current record and the place in it; [written] from the first
    byte written to a record until the record is left, [beyond] behind the last record. *)
Record session := Session {
  bytes : Z -> Z;
  current : Z;
  pos : Z;
  written : bool;
  beyond : bool
}.

Inductive op :=
| Position (lo hi p : Z)
| Write (x : Z)
| Read
| Listen.

Section abstract.
Variables (len max : Z).

(** The last byte of a record that is not zero, -1 if there is none *)
Fixpoint last_used (f : Z -> Z) (n : nat) : Z :=
  match n with
  | O => -1
  | S m => if f (Z.of_nat m) =? 0 then last_used f m else Z.of_nat m
  end.
Definition record_end (f : Z -> Z) (r : Z) : Z := last_used (fun i => f (r * len + i)) (Z.to_nat len).

(** The rest of a record that was begun is zero. *)
Definition padded (s : session) : Z -> Z := fun i =>
  if written s && (current s * len + pos s <=? i) && (i <? (current s + 1) * len) then 0 else bytes s i.

(** The next record *)
Definition step_record (f : Z -> Z) (r : Z) : session := Session f (r + 1) 0 false (max <=? r + 1).

(** [None]: the file would grow, or the read depends on the bytes of other records *)
Definition step (o : op) (s : session) : option (Z * option Z * session) :=
  match o with
  | Position lo hi p =>
      let p := if p =? 0 then 0 else p - 1 in
      let n := lo + 256 * hi in
      let r := if n =? 0 then 0 else n - 1 in
      if len <=? p then Some (CBMDOS_IPE_OVERFLOW, None, s)
      else if max <=? r then
        if written s then None
        else Some (CBMDOS_IPE_NO_RECORD, None, Session (bytes s) r (pos s) false true)
      else Some (CBMDOS_IPE_OK, None, Session (padded s) r p false false)
  | Write x =>
      if beyond s then None
      else if pos s <? len then
        Some (SERIAL_OK, None, Session (fun i => if i =? current s * len + pos s then x else bytes s i)
                (current s) (pos s + 1) true false)
      else Some (SERIAL_OK, None, s)
  | Read =>
      if beyond s then Some (SERIAL_EOF, Some 0x0d, s)
      else
        let e := Z.max 0 (record_end (bytes s) (current s)) in
        if written s || (e <? pos s) then None
        else
          let x := bytes s (current s * len + pos s) in
          if pos s =? e then Some (SERIAL_EOF, Some x, step_record (bytes s) (current s))
          else Some (SERIAL_OK, Some x, Session (bytes s) (current s) (pos s + 1) false false)
  | Listen =>
      if written s then Some (0, None, step_record (padded s) (current s)) else Some (0, None, s)
  end.

Fixpoint steps (l : list op) (s : session) : option (list (Z * option Z) * session) :=
  match l with
  | [] => Some ([], s)
  | o :: l => '(a, s) ← step o s; '(rest, s) ← steps l s; Some (a :: rest, s)
  end.
End abstract.

(** The arguments are bytes. *)
Definition op_ok (o : op) : Prop :=
  match o with
  | Position lo hi p => 0 <= lo < 256 /\ 0 <= hi < 256 /\ 0 <= p
  | Write x => 0 <= x < 256
  | Read | Listen => True
  end.

(** The same operations on a channel *)
Definition run `{Platform} (fuel : nat) (o : op) : ST channel_t (Z * option Z) :=
  match o with
  | Position lo hi p => let! status := vdrive_rel_position fuel lo hi p in mret (status, None)
  | Write x => let! status := vdrive_rel_write fuel x in mret (status, None)
  | Read => vdrive_rel_read
  | Listen => vdrive_rel_listen fuel;; mret (0, None)
  end.
Fixpoint run_all `{Platform} (fuel : nat) (l : list op) : ST channel_t (list (Z * option Z)) :=
  match l with
  | [] => mret []
  | o :: l => let! a := run fuel o in let! rest := run_all fuel l in mret (a :: rest)
  end.

Section relative.
Context {platform : Platform}.

(** ** Single accesses *)

Definition buf (c : channel_t) : mem := lbuffer (clist c).

Lemma load_run c : place c = Heap -> load_buffer c = Some (buf c, c).
Proof. intros Hh. unfold load_buffer, bindST, state, lift. by rewrite Hh. Qed.

Lemma get_run c i x : place c = Heap -> getb (buf c) i = Some x -> get_buffer i c = Some (x, c).
Proof. intros Hh Hx. unfold get_buffer. rewrite (bind_run _ _ _ _ _ (load_run c Hh)). unfold lift. by rewrite Hx. Qed.

Lemma put_cell_run c i x : place c = Heap -> 0 <= i < mlen (buf c) ->
  put_buffer i x c = Some (tt, set_buffer (<[Z.to_nat i := u8 x]> (buf c)) c).
Proof.
  intros Hh Hi. unfold put_buffer. rewrite (bind_run _ _ _ _ _ (load_run c Hh)).
  unfold bindST, lift. rewrite putb_eq by done. unfold store_buffer, update. by rewrite Hh.
Qed.

Lemma slot_run c e i x : slot c = A_slot e -> getb e i = Some x -> get_slot i c = Some (x, c).
Proof. intros Hs Hx. unfold get_slot, bindST, state, lift. by rewrite Hs, Hx. Qed.

Lemma side_run c m i x : side_sector (crel c) = Some m -> getb m i = Some x -> get_side i c = Some (x, c).
Proof. intros Hs Hx. unfold get_side, get_block, bindST, state, lift. rewrite Hs. cbn. by rewrite Hx. Qed.

Lemma read_buffer_eq c image t s b : place c = Heap -> good (drive c) image -> mlen (buf c) = 256 ->
  has image t s b ->
  read_buffer t s c = Some (0, set_buffer b (set_drive (set_image_mode 0 (drive c)) c)).
Proof.
  intros Hh [_ Hfd] Hb Hhas. unfold read_buffer. rewrite (bind_run _ _ _ _ _ (load_run c Hh)).
  rewrite (bind_run _ _ _ _ _ (on_cdrive_run _ c _ _ (read_run _ _ _ _ _ (buf c) Hfd Hhas Hb))).
  unfold mbind, ST_bind, bindST, store_buffer, update. change (place (set_drive _ c)) with (place c). by rewrite Hh.
Qed.

Lemma read_next_eq c image t s b b' : buffer_next (crel c) = Some b' -> good (drive c) image -> mlen b' = 256 ->
  has image t s b ->
  read_next t s c = Some (0, set_crel (set_buffer_next (Some b) (crel c)) (set_drive (set_image_mode 0 (drive c)) c)).
Proof.
  intros Hn [_ Hfd] Hb Hhas. unfold read_next. unfold bindST at 1, state. cbv beta iota.
  rewrite (bind_run (lift _) _ c b' c) by (unfold lift; by rewrite Hn).
  by rewrite (bind_run _ _ _ _ _ (on_cdrive_run _ c _ _ (read_run _ _ _ _ _ b' Hfd Hhas Hb))).
Qed.

Lemma good_mode v image : good v image -> good (set_image_mode 0 v) image.
Proof.
  intros [[b Hok] Hfd]. split; [exists b; split; apply Hok|by apply file_drive_mode].
Qed.

Lemma switch_eq c image : 0 <= partition (clist c) -> good (drive c) image ->
  switch c = Some (CBMDOS_IPE_OK, c).
Proof.
  intros Hp [_ Hfd]. unfold switch, on_list, switch_listing, bindST, state, on_ldrive, on_search, on_drive.
  change (drv (search (clist c))) with (drive c). rewrite (switch_run _ image _ _ _ Hfd Hp).
  by destruct c as [[[] ? ? ? ? ? ? ? ? ? ?] ? ? ? ? ? ? ? ? ? ? ? ?].
Qed.

(** ** The flags *)

Lemma dirty_bit (i : Z) c : 0 <= i -> dirty (2 ^ i) c = Z.testbit (needsupdate c) i.
Proof.
  intros Hi. unfold dirty. destruct (Z.testbit (needsupdate c) i) eqn:Hb.
  - apply negb_true_iff, Z.eqb_neq. intros Hz. apply (f_equal (fun z => Z.testbit z i)) in Hz.
    rewrite Z.land_spec, Hb, Z.pow2_bits_true, Z.bits_0 in Hz by done. done.
  - apply negb_false_iff, Z.eqb_eq. apply Z.bits_inj'. intros j Hj. rewrite Z.land_spec, Z.bits_0.
    destruct (decide (j = i)) as [->|Hne]; [by rewrite Hb|]. rewrite Z.pow2_bits_false by done. apply andb_false_r.
Qed.

(** The three flags of a channel *)
Definition flags (c : channel_t) : bool * bool * bool :=
  (dirty DIRTY_SECTOR c, dirty DIRTY_RECORD c, dirty WRITTEN_RECORD c).

Lemma flags_bits c : flags c = (Z.testbit (needsupdate c) 0, Z.testbit (needsupdate c) 1, Z.testbit (needsupdate c) 2).
Proof. unfold flags. by rewrite <- !dirty_bit. Qed.

(** A flag of the three *)
Lemma flags_set c n : flags (set_needsupdate (Z.lor (needsupdate c) n) c) =
  (dirty DIRTY_SECTOR c || Z.testbit n 0, dirty DIRTY_RECORD c || Z.testbit n 1,
   dirty WRITTEN_RECORD c || Z.testbit n 2).
Proof.
  rewrite flags_bits. cbn [needsupdate set_needsupdate]. rewrite !Z.lor_spec.
  change DIRTY_SECTOR with (2 ^ 0). change DIRTY_RECORD with (2 ^ 1). change WRITTEN_RECORD with (2 ^ 2).
  by rewrite !dirty_bit.
Qed.

Lemma flags_clear c n : flags (set_needsupdate (Z.land (needsupdate c) (Z.lnot n)) c) =
  (dirty DIRTY_SECTOR c && negb (Z.testbit n 0), dirty DIRTY_RECORD c && negb (Z.testbit n 1),
   dirty WRITTEN_RECORD c && negb (Z.testbit n 2)).
Proof.
  rewrite flags_bits. cbn [needsupdate set_needsupdate]. rewrite !Z.land_spec, !Z.lnot_spec by lia.
  change DIRTY_SECTOR with (2 ^ 0). change DIRTY_RECORD with (2 ^ 1). change WRITTEN_RECORD with (2 ^ 2).
  by rewrite !dirty_bit.
Qed.

(** ** A file on the disk and in a channel

    [n] data blocks at [addr], noted in the side sectors [side]; [max] records of [len]
    bytes; [last] is the last byte in use of the last block. *)

Section file.
Variables (len max n last : Z) (addr : Z -> Z * Z) (side : mem) (disk : disk_image_t).

(** Block [k] of the file of bytes [f] *)
Definition block (f : Z -> Z) (k : Z) : mem :=
  (if k + 1 <? n then (addr (k + 1)).1 else 0) :: (if k + 1 <? n then (addr (k + 1)).2 else last) ::
  map (fun i => f (254 * k + i)) (seqZ 0 254).

Record layout : Prop := {
  ly_len : 1 <= len <= 127;
  ly_max : 1 <= max;
  ly_blocks : 1 <= n <= 90720;
  ly_last : last <= 255;
  ly_end : max * len <= 254 * (n - 1) + last - 1;
  ly_inj : forall j k, 0 <= j < n -> 0 <= k < n -> addr j = addr k -> j = k;
  ly_side : forall k, 0 <= k < n ->
    getb side (OFFSET_POINTER + 256 * (k / SIDE_INDEX_MAX) + 2 * (k mod SIDE_INDEX_MAX)) = Some (addr k).1 /\
    getb side (OFFSET_POINTER + 256 * (k / SIDE_INDEX_MAX) + 2 * (k mod SIDE_INDEX_MAX) + 1) = Some (addr k).2;
  ly_record : getb side OFFSET_RECORD_LEN = Some len
}.

(** Only sectors of the data were changed since the disk was [disk]. *)
Definition holds (v : vdrive_t) (image : disk_image_t) : Prop := good v image /\
  forall t s b, has disk t s b -> (forall k, 0 <= k < n -> addr k <> (t, s)) -> has image t s b.

Lemma holds_mode v image : holds v image -> holds (set_image_mode 0 v) image.
Proof. intros [Hg Ho]. split; [by apply good_mode|done]. Qed.

Lemma holds_error v image code t s : holds v image ->
  holds (set_last_code code (set_err_track t (set_err_sector s v))) image.
Proof. intros [Hg Ho]. split; [by apply good_error|done]. Qed.

(** The state of a channel of the file with bytes [f]: block [cur] is in the buffer, and what
    is not there is on the disk. *)
Record open_file (f : Z -> Z) (cur : option Z) (c : channel_t) : Prop := {
  of_place : place c = Heap;
  of_part : 0 <= partition (clist c);
  of_mode : cmode c = BUFFER_RELATIVE;
  of_slot : exists e, slot c = A_slot e /\ getb e SLOT_RECORD_LENGTH = Some len;
  of_side : side_sector (crel c) = Some side;
  of_max : record_max (crel c) = max;
  of_sectors : forall k, 0 <= k < n -> file_sector (drive c) (addr k);
  of_disk : exists image, holds (drive c) image /\
    forall k, 0 <= k < n -> cur <> Some k \/ dirty DIRTY_SECTOR c = false ->
      has image (addr k).1 (addr k).2 (block f k);
  of_cur : match cur with
           | Some k => 0 <= k < n /\ addr k = (ctrack c, csector c) /\ buf c = block f k
           | None => ctrack c = 0 /\ mlen (buf c) = 256 /\ dirty DIRTY_SECTOR c = false
           end;
  of_next : exists b, buffer_next (crel c) = Some b /\ mlen b = 256 /\
    (track_next (crel c) = 0 \/ exists k, 0 <= k < n /\ cur <> Some k /\
       addr k = (track_next (crel c), sector_next (crel c)) /\ b = block f k)
}.

(** What [open_file] looks at *)
Definition seen (c : channel_t) :=
  (place c, partition (clist c), cmode c, slot c, (side_sector (crel c), record_max (crel c)), drive c,
   dirty DIRTY_SECTOR c, (ctrack c, csector c, buf c),
   (buffer_next (crel c), track_next (crel c), sector_next (crel c))).

Lemma open_frame f cur c c' : open_file f cur c -> seen c' = seen c -> open_file f cur c'.
Proof.
  intros [H1 H2 H3 H4 H5 H6 H7 H8 H9 H10] He. unfold seen in He.
  injection He as E1 E2 E3 E4 E5 E6 E7 E8 E9 E10 E11 E12 E13 E14.
  split; rewrite ?E1, ?E2, ?E3, ?E4, ?E5, ?E6, ?E7, ?E8, ?E9, ?E10, ?E11, ?E12, ?E13, ?E14; done.
Qed.

Lemma open_flags f cur c d : open_file f cur c ->
  dirty DIRTY_SECTOR (set_needsupdate d c) = dirty DIRTY_SECTOR c -> open_file f cur (set_needsupdate d c).
Proof. intros Hf He. eapply open_frame; [exact Hf|]. unfold seen. by rewrite He. Qed.

(** The rest of the state: the place in the buffer and what else no sector access changes *)
Definition kept (c c' : channel_t) : Prop :=
  cbufptr c' = cbufptr c /\ clength c' = clength c /\ record c' = record c /\
  record_next (crel c') = record_next (crel c).

Lemma mlen_block f k : mlen (block f k) = 256.
Proof. unfold mlen, block. cbn [length]. rewrite length_map, length_seqZ. done. Qed.

Lemma block_byte f k i : 2 <= i < 256 -> getb (block f k) i = Some (f (254 * k + i - 2)).
Proof.
  intros Hi. apply getb_Some. split; [lia|]. unfold block.
  replace (Z.to_nat i) with (S (S (Z.to_nat (i - 2)))) by lia. cbn [lookup list_lookup].
  apply list_lookup_fmap_Some. exists (i - 2). split; [f_equal; lia|]. apply lookup_seqZ. lia.
Qed.

Lemma block_link f k : 0 <= k -> k + 1 < n -> getb (block f k) 0 = Some (addr (k + 1)).1 /\
  getb (block f k) 1 = Some (addr (k + 1)).2.
Proof. intros Hk Hn. unfold block. by rewrite (proj2 (Z.ltb_lt _ _)) by lia. Qed.

Lemma block_end f : getb (block f (n - 1)) 0 = Some 0 /\ getb (block f (n - 1)) 1 = Some last.
Proof. unfold block. by rewrite (proj2 (Z.ltb_ge _ _)) by lia. Qed.

Lemma block_ext f g k : (forall i, 254 * k <= i < 254 * (k + 1) -> f i = g i) -> block f k = block g k.
Proof.
  intros He. unfold block. do 2 f_equal. apply list_fmap_ext. intros j i Hj%lookup_seqZ. apply He. lia.
Qed.

Lemma block_put f k i x : 2 <= i < 256 ->
  <[Z.to_nat i := x]> (block f k) = block (fun j => if j =? 254 * k + i - 2 then x else f j) k.
Proof.
  intros Hi. unfold block. replace (Z.to_nat i) with (S (S (Z.to_nat (i - 2)))) by lia.
  change (<[S (S ?j) := x]> (?a :: ?b :: ?l)) with (a :: b :: <[j := x]> l). do 2 f_equal. apply list_eq. intros j. rewrite list_lookup_insert.
  rewrite !list_lookup_fmap. destruct (decide (j < 254)%nat) as [Hj|Hj].
  - rewrite lookup_seqZ_lt by lia. cbn. case_decide as Hd; [destruct Hd as [<- _]; by rewrite (proj2 (Z.eqb_eq _ _)) by lia|].
    rewrite (proj2 (Z.eqb_neq _ _)); [done|]. intros He. apply Hd. rewrite length_map, length_seqZ. lia.
  - rewrite lookup_seqZ_ge by lia. cbn. rewrite decide_False; [done|]. intros [-> Hl]. rewrite length_map, length_seqZ in Hl. lia.
Qed.

Lemma block_other f k j i x : 2 <= i < 256 -> j <> k ->
  block (fun l => if l =? 254 * k + i - 2 then x else f l) j = block f j.
Proof. intros Hi Hj. apply block_ext. intros l Hl. destruct (Z.eqb_spec l (254 * k + i - 2)); [lia|done]. Qed.

Section layout.
Hypothesis (Hly : layout).

Lemma addr_byte f cur c k : open_file f cur c -> 0 <= k < n -> 1 <= (addr k).1 <= 255 /\ 0 <= (addr k).2 <= 255.
Proof. intros Hf Hk. destruct (of_disk _ _ _ Hf) as (image & Hg & _). apply (file_sector_byte (drive c) image); [apply (proj1 Hg)|by apply Hf]. Qed.

Lemma no_switch f cur c : open_file f cur c -> switch c = Some (CBMDOS_IPE_OK, c).
Proof. intros Hf. destruct (of_disk _ _ _ Hf) as (image & Hg & _). by apply (switch_eq c image); [apply Hf|apply (proj1 Hg)]. Qed.

Lemma sector_clean d : Z.testbit (Z.land d (Z.lnot 1)) 0 = false.
Proof. rewrite Z.land_spec, Z.lnot_spec by lia. apply andb_false_r. Qed.

(** Writing back the sector in the buffer *)
Lemma commit_run f cur c : open_file f cur c ->
  exists c', vdrive_rel_commit c = Some (tt, c') /\ open_file f cur c' /\ kept c c' /\ crel c' = crel c /\
    ctrack c' = ctrack c /\ csector c' = csector c /\
    flags c' = (false, dirty DIRTY_RECORD c, dirty WRITTEN_RECORD c).
Proof.
  intros Hf. unfold vdrive_rel_commit, bindST at 1, state. destruct (dirty DIRTY_SECTOR c) eqn:Hd.
  - destruct cur as [k|]; [|destruct (of_cur _ _ _ Hf) as (_ & _ & Hc); by rewrite Hc in Hd].
    destruct (of_cur _ _ _ Hf) as (Hk & Ha & Hb). destruct (of_disk _ _ _ Hf) as (image & Hg & Hdisk).
    pose proof (of_sectors _ _ _ Hf k Hk) as Hs. rewrite Ha in Hs.
    destruct (write_wrote (drive c) image (ctrack c) (csector c) (buf c) (proj1 Hg) Hs) as (v' & image' & Hw & Hg' & Hgeom & _ & Hhas & Hoth).
    { rewrite Hb. apply mlen_block. }
    set (c' := set_needsupdate (Z.land (needsupdate c) (Z.lnot DIRTY_SECTOR)) (set_drive v' c)).
    exists c'. split.
    { unfold write_buffer, mbind, ST_bind. unfold bindST at 1. rewrite (bind_run _ _ _ _ _ (load_run c (of_place _ _ _ Hf))).
      by rewrite (on_cdrive_run _ c _ _ Hw). }
    pose proof (flags_clear c DIRTY_SECTOR) as Hfl. change (flags (set_needsupdate (Z.land (needsupdate c) (Z.lnot DIRTY_SECTOR)) c)) with (flags c') in Hfl.
    rewrite Hd in Hfl. cbn [DIRTY_SECTOR Z.testbit Pos.testbit andb negb] in Hfl. rewrite !andb_true_r in Hfl.
    split_and!; try done. destruct Hf as [H1 H2 H3 H4 H5 H6 H7 H8 H9 H10].
    split; try done.
    + intros j Hj. apply (file_sector_geom (drive c)); [apply (proj1 Hg)|done|by apply H7].
    + exists image'. split.
      { split; [done|]. intros t s b Hb0 Hout. apply Hoth; [by apply Hg|]. intros [= -> ->]. by apply (Hout k). }
      intros j Hj _. destruct (decide (j = k)) as [->|Hne].
      { rewrite Ha, <- Hb. exact Hhas. }
      apply Hoth; [apply Hdisk; [done|left; congruence]|]. intros He. apply Hne, (ly_inj Hly); [done|done|].
      rewrite Ha, <- He. by destruct (addr j).
  - exists c. split; [done|]. split_and!; try done. unfold flags. by rewrite Hd.
Qed.

(** The next block comes into the second buffer. *)
Lemma load_next_run f k c before : open_file f (Some k) c -> before c = Some (tt, c) ->
  exists c', load_next before c = Some (k + 1 <? n, c') /\ open_file f (Some k) c' /\ kept c c' /\
    flags c' = flags c /\ buf c' = buf c /\ record_max (crel c') = record_max (crel c) /\
    (k + 1 < n -> buffer_next (crel c') = Some (block f (k + 1))).
Proof.
  intros Hf Hbefore. destruct (of_cur _ _ _ Hf) as (Hk & Ha & Hb). unfold load_next.
  destruct (Z.ltb_spec (k + 1) n) as [Hn|Hn].
  - destruct (block_link f k) as [H0 H1]; [lia|done|]. rewrite <- Hb in H0, H1.
    pose proof (addr_byte f _ c (k + 1) Hf ltac:(lia)) as [Ht Hs].
    rewrite (bind_run _ _ _ _ _ (get_run c 0 _ (of_place _ _ _ Hf) H0)).
    rewrite (proj2 (Z.eqb_neq _ 0)) by lia.
    rewrite (bind_run _ _ _ _ _ (get_run c 1 _ (of_place _ _ _ Hf) H1)). unfold bindST at 1, state.
    destruct (of_next _ _ _ Hf) as (b & Hbn & Hbl & Hnext). destruct (of_disk _ _ _ Hf) as (image & Hg & Hdisk).
    destruct (negb ((addr (k + 1)).1 =? track_next (crel c)) || negb ((addr (k + 1)).2 =? sector_next (crel c))) eqn:Hne.
    + assert (Hhas : has image (addr (k + 1)).1 (addr (k + 1)).2 (block f (k + 1))).
      { apply Hdisk; [lia|left]. intros [= He]. lia. }
      unfold mbind, ST_bind. rewrite (bind_run _ _ c 0 (set_crel (set_buffer_next (Some (block f (k + 1))) (crel c))
        (set_drive (set_image_mode 0 (drive c)) c))); [|rewrite (bind_run _ _ _ _ _ Hbefore); by apply (read_next_eq c image _ _ _ b), Hhas; [|apply (proj1 Hg)|]].
      eexists. split; [reflexivity|]. split_and!; try done. destruct Hf as [H1' H2 H3 H4 H5 H6 H7 H8 H9 H10].
      split; try done.
      * exists image. split; [by apply holds_mode|done].
      * exists (block f (k + 1)). split; [done|]. split; [apply mlen_block|]. right. exists (k + 1). split; [lia|].
        split; [intros [= He]; lia|]. split; [by destruct (addr (k + 1))|done].
    + apply orb_false_iff in Hne as [Et%negb_false_iff%Z.eqb_eq Es%negb_false_iff%Z.eqb_eq].
      unfold mbind, ST_bind. rewrite (bind_run _ _ c 0 c) by done. change (0 =? 0) with true. cbv iota.
      unfold upd_rel, upd, modify, bindST, mret, ST_ret. eexists. split; [reflexivity|].
      destruct Hnext as [Hz|(j & Hj & Hjk & Haj & ->)]; [lia|].
      assert (j = k + 1) as ->.
      { apply (ly_inj Hly); [done|lia|]. rewrite Haj, <- Et, <- Es. by destruct (addr (k + 1)). }
      split; [eapply open_frame; [exact Hf|]|by split_and!].
      unfold seen. cbn. by rewrite Et, Es.
  - replace k with (n - 1) in Hb by lia. destruct (block_end f) as [H0 _]. rewrite <- Hb in H0.
    rewrite (bind_run _ _ _ _ _ (get_run c 0 _ (of_place _ _ _ Hf) H0)). change (0 =? 0) with true. cbv iota.
    exists c. split_and!; [done..|lia].
Qed.

(** ** The end of a record *)

(** The byte at place [j] of a buffer whose first sector is block [k] *)
Definition byte_at (f : Z -> Z) (k j : Z) : Z := f (254 * k + j - 2).

(** [q] is the place of the last byte that is not zero from [a] to [w]; in front of [a] if
    there is none. *)
Definition ended (f : Z -> Z) (k a w q : Z) : Prop :=
  (a <= q <= w /\ byte_at f k q <> 0 /\ forall j, q < j <= w -> byte_at f k j = 0) \/
  (1 <= q < a /\ (256 <= a -> 255 <= q) /\ forall j, a <= j <= w -> byte_at f k j = 0).

Lemma trim_run (g : Z -> Z) m lo shift fuel : forall w, 1 <= lo -> lo - 1 <= w < 4294967296 -> (Z.to_nat (w - lo + 1) < fuel)%nat ->
  (forall j, lo <= j <= w -> getb m (j - shift) = Some (g j)) ->
  exists q, trim fuel m lo shift w = Some q /\ lo - 1 <= q <= w /\
    (forall j, q < j <= w -> g j = 0) /\ (lo <= q -> g q <> 0).
Proof.
  induction fuel as [|fuel IH]; intros w Hlo Hw Hfuel Hg; [lia|]. cbn [trim].
  destruct (Z.leb_spec lo w) as [Hle|Hlt].
  - rewrite (Hg w) by lia. cbn. destruct (Z.eqb_spec (g w) 0) as [Hz|Hnz].
    + unfold u32. rewrite Z.mod_small by lia.
      destruct (IH (w - 1)) as (q & Hq & Hr & Hzero & Hnz); [lia|lia|lia|intros j Hj; apply Hg; lia|].
      exists q. split; [done|]. split; [lia|]. split; [|done]. intros j Hj.
      destruct (decide (j = w)) as [->|Hne]; [done|]. apply Hzero. lia.
    + exists w. split; [done|]. split; [lia|]. split; [lia|done].
  - exists w. split; [done|]. split; [lia|]. split; lia.
Qed.

Lemma trim_end_run (g : Z -> Z) m lo shift c : 1 <= lo -> lo - 1 <= clength c < 4294967296 ->
  (forall j, lo <= j <= clength c -> getb m (j - shift) = Some (g j)) ->
  exists q, trim_end m lo shift c = Some (tt, set_clength q c) /\ lo - 1 <= q <= clength c /\
    (forall j, q < j <= clength c -> g j = 0) /\ (lo <= q -> g q <> 0).
Proof.
  intros Hlo Hw Hg. unfold trim_end, bindST at 1, state.
  destruct (trim_run g m lo shift (S (S (Z.to_nat (clength c - lo + 1)))) (clength c)) as (q & Hq & H); [done|done|lia|done|].
  exists q. split; [|exact H]. unfold bindST, lift. by rewrite Hq.
Qed.

(** The end of the record, looked for in the sector in the buffer *)
Lemma trim_here_run f k c : open_file f (Some k) c -> 2 <= cbufptr c -> cbufptr c - 1 <= clength c < 256 ->
  exists q, trim_here c = Some (tt, set_clength q c) /\ ended f k (cbufptr c) (clength c) q.
Proof.
  intros Hf Ha Hw. destruct (of_cur _ _ _ Hf) as (_ & _ & Hb). unfold trim_here.
  rewrite (bind_run _ _ _ _ _ (load_run c (of_place _ _ _ Hf))). unfold bindST at 1, state.
  destruct (trim_end_run (byte_at f k) (buf c) (cbufptr c) 0 c) as (q & -> & Hq & Hz & Hnz); [lia|lia|..].
  { intros j Hj. rewrite Hb, Z.sub_0_r. apply block_byte. lia. }
  exists q. split; [done|]. destruct (decide (cbufptr c <= q)) as [Hle|Hgt].
  - left. split; [lia|]. by split; [apply Hnz|].
  - right. split; [lia|]. split; [lia|]. intros j Hj. apply Hz. lia.
Qed.

Lemma trim_next_run f k lo c : buffer_next (crel c) = Some (block f (k + 1)) -> 256 <= lo ->
  lo - 1 <= clength c <= 509 ->
  exists q, trim_next lo c = Some (tt, set_clength q c) /\ lo - 1 <= q <= clength c /\
    (forall j, q < j <= clength c -> byte_at f k j = 0) /\ (lo <= q -> byte_at f k q <> 0).
Proof.
  intros Hb Hlo Hw. unfold trim_next, bindST at 1, state.
  rewrite (bind_run (lift _) _ c (block f (k + 1)) c) by (unfold lift; by rewrite Hb).
  apply trim_end_run; [lia|lia|]. intros j Hj. rewrite block_byte by lia. unfold byte_at. do 2 f_equal. lia.
Qed.

(** Nothing but the length of the record, the second buffer and the drive has changed. *)
Definition measured (c c' : channel_t) : Prop :=
  cbufptr c' = cbufptr c /\ record c' = record c /\ record_next (crel c') = record_next (crel c) /\ flags c' = flags c.

Lemma ended_longer f k a w q q' : ended f k a q q' -> q <= w -> (forall j, q < j <= w -> byte_at f k j = 0) ->
  ended f k a w q'.
Proof.
  intros H Hq Hz. destruct H as [(H1 & H2 & H3)|(H1 & H2 & H3)]; [left|right]; (split; [lia|]); (split; [done|]); intros j Hj;
    (destruct (decide (j <= q)); [apply H3; lia|apply Hz; lia]).
Qed.

Lemma measure_run f k c before : open_file f (Some k) c -> before c = Some (tt, c) ->
  2 <= cbufptr c -> cbufptr c - 1 <= clength c <= 509 ->
  exists c', measure before c = Some (tt, c') /\ open_file f (Some k) c' /\ measured c c' /\
    (k + 1 < n \/ clength c < 256 -> ended f k (cbufptr c) (clength c) (clength c')).
Proof.
  intros Hf Hbefore Ha Hw. unfold measure. unfold bindST at 1, state. destruct (Z.ltb_spec (clength c) 256) as [Hs|Hl].
  - destruct (trim_here_run f k c Hf Ha) as (q & Hrun & He); [lia|]. exists (set_clength q c). split; [done|].
    split; [by eapply open_frame|]. split; [done|]. intros _. exact He.
  - destruct (load_next_run f k c before Hf Hbefore) as (c1 & Hrun & Hf1 & Hk1 & Hfl1 & _ & _ & Hn).
    rewrite (bind_run _ _ _ _ _ Hrun). destruct (Z.ltb_spec (k + 1) n) as [Hkn|Hkn].
    2: { exists c1. split; [done|]. split; [done|]. destruct Hk1 as (H1 & H2 & H3 & H4). split; [done|]. lia. }
    destruct Hk1 as (E1 & E2 & E3 & E4).
    destruct (trim_next_run f k 256 c1) as (q & Hq & Hr & Hz & Hnz); [by apply Hn|lia|lia|].
    unfold mbind, ST_bind. rewrite (bind_run _ _ _ _ _ Hq). unfold bindST at 1, state.
    change (clength (set_clength q c1)) with q. rewrite E2 in *.
    assert (Hf2 : open_file f (Some k) (set_clength q c1)) by (by eapply open_frame).
    destruct (Z.ltb_spec q 256) as [Hq2|Hq2].
    + destruct (decide (cbufptr c <= 255)) as [Ha2|Ha2].
      * destruct (trim_here_run f k (set_clength q c1) Hf2) as (q2 & Hrun2 & He).
        { change (cbufptr (set_clength q c1)) with (cbufptr c1). lia. }
        { change (cbufptr (set_clength q c1)) with (cbufptr c1). change (clength (set_clength q c1)) with q. lia. }
        eexists. split; [exact Hrun2|]. split; [by eapply open_frame|]. split; [done|]. intros _.
        change (cbufptr (set_clength q c1)) with (cbufptr c1) in He. change (clength (set_clength q c1)) with q in He.
        rewrite E1 in He. eapply ended_longer; [exact He|lia|done].
      * exists (set_clength q c1). split.
        { unfold trim_here. rewrite (bind_run _ _ _ _ _ (load_run _ (of_place _ _ _ Hf2))). unfold bindST at 1, state.
          change (cbufptr (set_clength q c1)) with (cbufptr c1). unfold trim_end, bindST at 1, state.
          change (clength (set_clength q c1)) with q. cbn [trim]. rewrite (proj2 (Z.leb_gt _ _)) by lia. done. }
        split; [done|]. split; [done|]. intros _. right. cbn. split; [lia|]. split; [lia|]. intros j Hj. apply Hz. lia.
    + exists (set_clength q c1). split; [done|]. split; [done|]. split; [done|]. intros _. cbn.
      destruct (decide (cbufptr c <= q)); [left; split; [lia|]; split; [apply Hnz; lia|done]|].
      right. split; [lia|]. split; [lia|]. intros j Hj. apply Hz. lia.
Qed.

(** After a positioning the length is that of the record, unless the place lies behind its
    last byte. *)
Lemma overflow_run position c : exists q, overflow_length position c = Some (tt, set_clength q c) /\
  (position = 0 \/ cbufptr c <= clength c -> q = clength c).
Proof.
  unfold overflow_length, upd, modify. destruct (Z.ltb_spec (clength c) (cbufptr c)) as [Hl|Hl], (Z.ltb_spec 0 position) as [Hp|Hp];
    cbn [andb]; eexists; (split; [try reflexivity|try done]); try lia; by destruct c.
Qed.

Lemma ended_found f k a w q : ended f k a w q -> (exists j, a <= j <= w /\ byte_at f k j <> 0) -> a <= q.
Proof. intros [H|(_ & _ & H)] (j & Hj & Hnz); [lia|]. by destruct Hnz; apply H. Qed.

Lemma trimmed_run f k position c : open_file f (Some k) c -> 2 <= cbufptr c -> cbufptr c - 1 <= clength c < 256 ->
  exists q, (trim_here;; overflow_length position) c = Some (tt, set_clength q c) /\
    (position = 0 \/ (exists j, cbufptr c <= j <= clength c /\ byte_at f k j <> 0) ->
     ended f k (cbufptr c) (clength c) q).
Proof.
  intros Hf Ha Hw. destruct (trim_here_run f k c Hf Ha Hw) as (q & Hrun & He).
  unfold mbind, ST_bind. rewrite (bind_run _ _ _ _ _ Hrun).
  destruct (overflow_run position (set_clength q c)) as (q' & -> & Hq'). exists q'. split; [done|].
  intros Hcase. rewrite Hq'; [done|]. destruct Hcase as [->|Hnz]; [by left|right]. by eapply ended_found.
Qed.

Lemma measure_from_run f k position c : open_file f (Some k) c ->
  2 <= cbufptr c -> (position = 0 -> cbufptr c < 256) -> cbufptr c - 1 <= clength c <= 509 ->
  exists c', measure_from position c = Some (tt, c') /\ open_file f (Some k) c' /\ measured c c' /\
    (k + 1 < n \/ clength c < 256 ->
     position = 0 \/ (exists j, cbufptr c <= j <= clength c /\ byte_at f k j <> 0) ->
     ended f k (cbufptr c) (clength c) (clength c')).
Proof.
  intros Hf Ha Ha0 Hw. unfold measure_from. unfold bindST at 1, state. destruct (Z.ltb_spec (clength c) 256) as [Hs|Hl].
  - destruct (trimmed_run f k position c Hf Ha) as (q & Hrun & He); [lia|]. exists (set_clength q c). split; [done|].
    split; [by eapply open_frame|]. split; [done|]. intros _. exact He.
  - destruct (load_next_run f k c (mret tt : ST channel_t unit) Hf eq_refl) as (c1 & Hrun & Hf1 & Hk1 & Hfl1 & _ & _ & Hn).
    rewrite (bind_run _ _ _ _ _ Hrun). destruct Hk1 as (E1 & E2 & E3 & E4).
    destruct (Z.ltb_spec (k + 1) n) as [Hkn|Hkn].
    2: { exists c1. split; [done|]. split; [done|]. split; [done|]. lia. }
    unfold bindST at 1, state. rewrite E1.
    destruct (trim_next_run f k (Z.max 256 (cbufptr c)) c1) as (q & Hq & Hr & Hz & Hnz); [by apply Hn|lia|lia|].
    unfold mbind at 1, ST_bind. rewrite (bind_run _ _ _ _ _ Hq). unfold bindST at 1, state.
    change (clength (set_clength q c1)) with q. change (cbufptr (set_clength q c1)) with (cbufptr c1). rewrite E1, E2 in *.
    assert (Hf2 : open_file f (Some k) (set_clength q c1)) by (by eapply open_frame).
    destruct (Z.ltb_spec q 256) as [Hq2|Hq2], (Z.ltb_spec (cbufptr c) 256) as [Ha2|Ha2]; cbn [andb].
    + destruct (trimmed_run f k position (set_clength q c1) Hf2) as (q2 & Hrun2 & He).
      { change (cbufptr (set_clength q c1)) with (cbufptr c1). lia. }
      { change (cbufptr (set_clength q c1)) with (cbufptr c1). change (clength (set_clength q c1)) with q. lia. }
      eexists. split; [exact Hrun2|]. split; [by eapply open_frame|]. split; [done|]. intros _ Hcase.
      change (cbufptr (set_clength q c1)) with (cbufptr c1) in He. change (clength (set_clength q c1)) with q in He.
      rewrite E1 in He. eapply ended_longer; [apply He|lia|done]. destruct Hcase as [?|(j & Hj & Hb)]; [by left|right].
      exists j. split; [|done]. split; [lia|]. destruct (decide (j <= q)); [done|]. destruct Hb. apply Hz. lia.
    + exists (set_clength q c1). split; [done|]. split; [done|]. split; [done|]. intros _ _. cbn. right.
      split; [lia|]. split; [lia|]. intros j Hj. apply Hz. lia.
    + exists (set_clength q c1). split; [done|]. split; [done|]. split; [done|]. intros _ _. cbn. left.
      split; [lia|]. split; [apply Hnz; lia|done].
    + exists (set_clength q c1). split; [done|]. split; [done|]. split; [done|]. intros _ _. cbn.
      destruct (decide (cbufptr c <= q)); [left; split; [lia|]; split; [apply Hnz; lia|done]|].
      right. split; [lia|]. split; [lia|]. intros j Hj. apply Hz. lia.
Qed.

(** ** Going on to the next block *)

(** Place [p] of record [r], with block [k] in the buffer *)
Record placed (k r p : Z) (c : channel_t) : Prop := {
  pl_record : 0 <= r < max;
  pl_pos : 0 <= p <= len;
  pl_ptr : 254 * k + cbufptr c = r * len + p + 2;
  pl_next : 254 * k + record_next (crel c) = (r + 1) * len + 2;
  pl_range : 2 <= cbufptr c <= 382
}.

Lemma file_length r : 0 <= r < max -> 0 <= r * len /\ (r + 1) * len <= 254 * (n - 1) + last - 1.
Proof. intros Hr. pose proof (ly_len Hly). pose proof (ly_end Hly). nia. Qed.

Lemma swap_eq c b : place c = Heap -> buffer_next (crel c) = Some b ->
  swap c = Some (tt, set_place Heap (set_buffer b (set_crel (set_buffer_next (Some (buf c)) (crel c)) c))).
Proof. intros Hh Hb. unfold swap, update. by rewrite Hh, Hb. Qed.

(** The second buffer holds block [j]: it becomes the current one. *)
Lemma swap_to_run f k j c : open_file f k c -> dirty DIRTY_SECTOR c = false -> 0 <= j < n ->
  addr j = (track_next (crel c), sector_next (crel c)) ->
  exists c', swap_to (addr j).1 (addr j).2 c = Some (tt, c') /\ open_file f (Some j) c' /\ kept c c' /\ flags c' = flags c.
Proof.
  intros Hf Hd Hj Haj. destruct (of_next _ _ _ Hf) as (b & Hb & Hlen & Hnext).
  pose proof (addr_byte f k c j Hf Hj) as [Htj Hsj].
  unfold swap_to. unfold mbind, ST_bind. rewrite (bind_run _ _ _ _ _ (swap_eq c b (of_place _ _ _ Hf) Hb)).
  eexists. split; [reflexivity|]. split; [|done].
  destruct Hnext as [Hz|(j' & Hj' & Hne & Haj' & ->)]; [rewrite Haj in Htj; cbn in Htj; lia|].
  assert (j' = j) as -> by (apply (ly_inj Hly); [done|done|congruence]).
  destruct Hf as [H1 H2 H3 H4 H5 H6 H7 H8 H9 H10]. destruct H8 as (image & Hg & Hdisk).
  split; try done.
  - exists image. split; [done|]. intros i Hi _. apply Hdisk; [done|by right].
  - split; [done|]. split; [by destruct (addr j)|done].
  - exists (buf c). split; [done|]. cbn. destruct k as [k|].
    + destruct H9 as (Hk & Ha & Hbuf). rewrite Hbuf. split; [apply mlen_block|]. right. exists k.
      split; [done|]. split; [intros [= He]; by destruct Hne; subst|]. by rewrite Ha.
    + destruct H9 as (Ht & Hl & _). split; [done|]. by left.
Qed.

(** A sector is read into the first buffer. *)
Lemma read_block_run f k j c : open_file f k c -> dirty DIRTY_SECTOR c = false -> 0 <= j < n ->
  addr j <> (track_next (crel c), sector_next (crel c)) ->
  exists c', read_buffer (addr j).1 (addr j).2 c = Some (0, c') /\ kept c c' /\ flags c' = flags c /\
    open_file f (Some j) (set_ctrack (addr j).1 (set_csector (addr j).2 c')).
Proof.
  intros Hf Hd Hj Hne. destruct (of_disk _ _ _ Hf) as (image & Hg & Hdisk).
  assert (Hl : mlen (buf c) = 256).
  { destruct k as [k|]; [destruct (of_cur _ _ _ Hf) as (_ & _ & ->); apply mlen_block|by apply (of_cur _ _ _ Hf)]. }
  rewrite (read_buffer_eq c image _ _ (block f j) (of_place _ _ _ Hf) (proj1 Hg) Hl) by (apply Hdisk; [done|by right]).
  eexists. split; [reflexivity|]. split; [done|]. split; [done|].
  destruct Hf as [H1 H2 H3 H4 H5 H6 H7 H8 H9 H10]. split; try done.
  - exists image. split; [by apply holds_mode|]. intros i Hi _. apply Hdisk; [done|by right].
  - split; [done|]. split; [by destruct (addr j)|done].
  - destruct H10 as (b & Hb & Hbl & Hnext). exists b. split; [done|]. split; [done|].
    destruct Hnext as [Hz|(i & Hi & Hik & Hai & Hbi)]; [by left|right]. exists i. split; [done|].
    split; [intros [= ->]; by destruct Hne|done].
Qed.

Definition noop (m : ST channel_t unit) : Prop := forall f k c, open_file f k c -> m c = Some (tt, c).

Lemma noop_ret : noop (mret tt : ST channel_t unit).
Proof. done. Qed.
Lemma noop_switch : noop (switch;; mret tt).
Proof. intros f k c Hf. unfold mbind, ST_bind. by rewrite (bind_run _ _ _ _ _ (no_switch f k c Hf)). Qed.

Lemma addr_ne j k : 0 <= j < n -> 0 <= k < n -> j <> k ->
  negb ((addr j).1 =? (addr k).1) || negb ((addr j).2 =? (addr k).2) = true.
Proof.
  intros Hj Hk Hne. apply orb_true_iff. rewrite !negb_true_iff, !Z.eqb_neq.
  destruct (decide ((addr j).1 = (addr k).1)) as [E1|]; [right|by left]. intros E2. apply Hne, (ly_inj Hly); [done..|].
  destruct (addr j), (addr k). cbn in *. congruence.
Qed.

Lemma pair_eqb (a : Z * Z) x y : (x =? a.1) && (y =? a.2) = bool_decide (a = (x, y)).
Proof. destruct a as [a b]. cbn. case_bool_decide as H; [injection H as -> ->; by rewrite !Z.eqb_refl|].
  apply andb_false_iff. rewrite !Z.eqb_neq. destruct (decide (x = a)) as [->|]; [right; congruence|by left]. Qed.

Lemma next_sector_run f k c before on_read : open_file f (Some k) c -> k + 1 < n -> noop before -> noop on_read ->
  exists c', next_sector before on_read c = Some (true, c') /\ open_file f (Some (k + 1)) c' /\
    cbufptr c' = u32 (cbufptr c - 254) /\ clength c' = u32 (clength c - 254) /\ record c' = record c /\
    record_next (crel c') = u32 (record_next (crel c) - 254) /\
    flags c' = (false, dirty DIRTY_RECORD c, dirty WRITTEN_RECORD c).
Proof.
  intros Hf Hkn Hb Hr. destruct (of_cur _ _ _ Hf) as (Hk & Ha & Hbuf).
  destruct (block_link f k) as [H0 H1]; [lia|done|]. rewrite <- Hbuf in H0, H1.
  unfold next_sector. rewrite (bind_run _ _ _ _ _ (get_run c 0 _ (of_place _ _ _ Hf) H0)).
  rewrite (bind_run _ _ _ _ _ (get_run c 1 _ (of_place _ _ _ Hf) H1)).
  unfold mbind at 1, ST_bind. rewrite (bind_run _ _ _ _ _ (Hb _ _ _ Hf)).
  destruct (commit_run _ _ _ Hf) as (c1 & Hrun1 & Hf1 & (K1 & K2 & K3 & K4) & Hrel & Ht1 & Hs1 & Hfl1).
  unfold mbind at 1, ST_bind. rewrite (bind_run _ _ _ _ _ Hrun1). unfold bindST at 1, state. rewrite pair_eqb.
  assert (Hd1 : dirty DIRTY_SECTOR c1 = false) by (apply (f_equal (fun z => z.1.1)) in Hfl1; exact Hfl1).
  assert (Hfin : forall c2, open_file f (Some (k + 1)) (set_ctrack (addr (k + 1)).1 (set_csector (addr (k + 1)).2 c2)) ->
    kept c1 c2 -> flags c2 = flags c1 ->
    exists c', (upd (fun c => set_ctrack (addr (k + 1)).1 (set_csector (addr (k + 1)).2 c));; advance;; mret true) c2
        = Some (true, c') /\ open_file f (Some (k + 1)) c' /\
      cbufptr c' = u32 (cbufptr c - 254) /\ clength c' = u32 (clength c - 254) /\ record c' = record c /\
      record_next (crel c') = u32 (record_next (crel c) - 254) /\
      flags c' = (false, dirty DIRTY_RECORD c, dirty WRITTEN_RECORD c)).
  { intros c2 Hf2 (L1 & L2 & L3 & L4) Hfl2. eexists. split; [reflexivity|]. split; [eapply open_frame; [exact Hf2|reflexivity]|].
    rewrite <- K1, <- K2, <- K3, <- K4, <- L1, <- L2, <- L3, <- L4, <- Hfl1, <- Hfl2. done. }
  case_bool_decide as He.
  - destruct (swap_to_run f (Some k) (k + 1) c1 Hf1 Hd1 ltac:(lia) He) as (c2 & Hrun2 & Hf2 & Hk2 & Hfl2).
    unfold mbind at 1, ST_bind. rewrite (bind_run _ _ c1 0 c2) by (unfold mbind, ST_bind; by rewrite (bind_run _ _ _ _ _ Hrun2)).
    change (0 =? 0) with true. cbv iota. apply Hfin; [|done|done]. eapply open_frame; [exact Hf2|].
    destruct (of_cur _ _ _ Hf2) as (_ & Ha2 & _). unfold seen. cbn. by rewrite Ha2.
  - pose proof (addr_ne k (k + 1) Hk ltac:(lia) ltac:(lia)) as Hne. rewrite Ha in Hne. cbn [fst snd] in Hne.
    rewrite Ht1, Hs1, Hne.
    destruct (read_block_run f (Some k) (k + 1) c1 Hf1 Hd1 ltac:(lia) He) as (c2 & Hrun2 & Hk2 & Hfl2 & Hf2).
    unfold mbind at 1, ST_bind. rewrite (bind_run _ _ c1 0 c2) by (unfold mbind, ST_bind; by rewrite (bind_run _ _ _ _ _ (Hr _ _ _ Hf1))).
    change (0 =? 0) with true. cbv iota. by apply Hfin.
Qed.

(** ** Writing a byte *)

(** The state of a record that was begun *)
Definition begun (dr w : bool) (c : channel_t) : Prop :=
  dirty DIRTY_RECORD c = dr /\ dirty WRITTEN_RECORD c = w.

Lemma begun_flags c d dr w : flags c = (d, dr, w) -> begun dr w c.
Proof. intros H. apply (f_equal (fun z => (z.1.2, z.2))) in H. injection H as ? ?. done. Qed.

(** A byte in front of the end of the record, in the buffer *)
Definition stored (f : Z -> Z) (i x : Z) : Z -> Z := fun j => if j =? i then x else f j.

(** Going on to the next block keeps the place. *)
Lemma placed_next k r p c c' : placed k r p c -> 256 <= cbufptr c -> cbufptr c' = u32 (cbufptr c - 254) ->
  record_next (crel c') = u32 (record_next (crel c) - 254) -> placed (k + 1) r p c'.
Proof.
  intros [H1 H2 H3 H4 H5] Hp Ep En. pose proof (ly_len Hly). rewrite u32_small in Ep, En by lia. split; lia.
Qed.

(** A byte put into the buffer *)
Lemma put_byte_run f k r p c x flag : open_file f (Some k) c -> placed k r p c -> p < len -> cbufptr c < 256 ->
  0 <= x < 256 -> Z.testbit flag 0 = true ->
  exists c', (put_buffer (cbufptr c) x;; upd (set_bufptr (u32 (cbufptr c + 1)));; set_flag flag) c = Some (tt, c') /\
    (forall A (m : ST channel_t A),
      (put_buffer (cbufptr c) x;; upd (set_bufptr (u32 (cbufptr c + 1)));; set_flag flag;; m) c = m c') /\
    open_file (stored f (r * len + p) x) (Some k) c' /\ placed k r (p + 1) c' /\ record c' = record c /\
    flags c' = (true, dirty DIRTY_RECORD c || Z.testbit flag 1, dirty WRITTEN_RECORD c || Z.testbit flag 2).
Proof.
  intros Hf Hpl Hp Hc Hx Hflag. destruct (of_cur _ _ _ Hf) as (Hk & Ha & Hbuf). pose proof (pl_range _ _ _ _ Hpl) as Hrg.
  pose proof (put_cell_run c (cbufptr c) x (of_place _ _ _ Hf) ltac:(rewrite Hbuf, mlen_block; lia)) as Hput.
  rewrite Hbuf in Hput. unfold u8 in Hput. rewrite (Z.mod_small x), block_put in Hput by lia.
  rewrite u32_small by lia. eexists. split; [unfold mbind, ST_bind; rewrite (bind_run _ _ _ _ _ Hput); reflexivity|].
  split; [intros A m; unfold mbind, ST_bind; by rewrite (bind_run _ _ _ _ _ Hput)|].
  replace (254 * k + cbufptr c - 2) with (r * len + p) by (destruct Hpl; lia).
  match goal with |- open_file _ _ ?d /\ _ => set (c' := d) end.
  assert (Hfl : flags c' = (true, dirty DIRTY_RECORD c || Z.testbit flag 1, dirty WRITTEN_RECORD c || Z.testbit flag 2)).
  { unfold c'. rewrite flags_set, Hflag. by rewrite orb_true_r. }
  split; [|split; [destruct Hpl; split; cbn; lia|done]].
  destruct Hf as [H1 H2 H3 H4 H5 H6 H7 H8 H9 H10]. split; try done.
  - destruct H8 as (image & Hg & Hdisk). exists image. split; [done|]. intros j Hj [Hne|Hcl].
    2: { apply (f_equal (fun z => z.1.1)) in Hfl. cbn in Hfl. congruence. }
    unfold stored. replace (r * len + p) with (254 * k + cbufptr c - 2) by (destruct Hpl; lia).
    rewrite block_other; [apply Hdisk; [done|by left]|lia|congruence].
  - destruct H10 as (b & Hb & Hbl & Hnext). exists b. split; [done|]. split; [done|].
    destruct Hnext as [Hz|(j & Hj & Hjk & Haj & ->)]; [by left|right]. exists j. do 3 (split; [done|]).
    unfold stored. replace (r * len + p) with (254 * k + cbufptr c - 2) by (destruct Hpl; lia).
    rewrite block_other; [done|lia|congruence].
Qed.

Lemma image_here f cur c : open_file f cur c -> find_image c = Some (None, c).
Proof.
  intros Hf. destruct (of_disk _ _ _ Hf) as (image & [[_ Hfd] _] & _). unfold find_image, bindST, state.
  by rewrite (VDrive.dk_set _ _ (fv_drive _ _ Hfd)).
Qed.

(** A file of more than one block has a byte of the record in the next one. *)
Lemma in_next k r p c : placed k r p c -> 256 <= cbufptr c -> 0 <= k < n -> p < len \/ k + 1 < n -> k + 1 < n.
Proof.
  intros [H1 H2 H3 H4 H5] Hc Hk [Hp|]; [|done]. pose proof (file_length r H1). pose proof (ly_last Hly). pose proof (ly_len Hly).
  destruct (decide (k + 1 < n)); [done|]. nia.
Qed.

(** The block with the current place comes into the buffer. *)
Definition settle (before on_read : ST channel_t unit) : ST channel_t bool :=
  let! c := state in if 256 <=? cbufptr c then next_sector before on_read else mret true.

Lemma settle_run f k r p c before on_read : open_file f (Some k) c -> placed k r p c -> k + 1 < n ->
  noop before -> noop on_read ->
  exists k' c', settle before on_read c = Some (true, c') /\ open_file f (Some k') c' /\ placed k' r p c' /\
    record c' = record c /\ begun (dirty DIRTY_RECORD c) (dirty WRITTEN_RECORD c) c' /\ cbufptr c' < 256 /\
    (cbufptr c < 256 -> k' = k /\ c' = c) /\
    (256 <= cbufptr c -> k' = k + 1 /\ clength c' = u32 (clength c - 254)).
Proof.
  intros Hf Hpl Hkn Hb Hr. unfold settle, bindST at 1, state. destruct (Z.leb_spec 256 (cbufptr c)) as [Hc|Hc].
  - destruct (next_sector_run f k c before on_read Hf Hkn Hb Hr) as (c' & Hrun & Hf' & Ep & El & Er & En & Efl).
    exists (k + 1), c'. rewrite Hrun. split; [done|]. split; [done|]. split; [by apply (placed_next k r p c)|].
    split; [done|]. split; [by eapply begun_flags|]. split; [destruct Hpl; rewrite u32_small in Ep by lia; lia|]. split; [lia|done].
  - exists k, c. split; [done|]. split; [done|]. split; [done|]. split; [done|]. split; [done|]. split; [done|]. split; [done|lia].
Qed.

Lemma last_link f c : open_file f (Some (n - 1)) c -> get_buffer 0 c = Some (0, c) /\ get_buffer 1 c = Some (last, c).
Proof.
  intros Hf. destruct (of_cur _ _ _ Hf) as (_ & _ & Hbuf). destruct (block_end f) as [H0 H1]. rewrite <- Hbuf in H0, H1.
  split; by apply get_run; [apply Hf|].
Qed.

Lemma has_link f k c : open_file f (Some k) c -> k + 1 < n -> exists t, get_buffer 0 c = Some (t, c) /\ t <> 0.
Proof.
  intros Hf Hkn. destruct (of_cur _ _ _ Hf) as (Hk & _ & Hbuf). destruct (block_link f k) as [H0 _]; [lia|done|].
  rewrite <- Hbuf in H0. pose proof (addr_byte f _ c (k + 1) Hf ltac:(lia)) as [Ht _]. exists (addr (k + 1)).1.
  split; [by apply get_run; [apply Hf|]|lia].
Qed.

(** A byte is stored if the record has room for it. *)
Lemma store_data_run f k r p c x : open_file f (Some k) c -> placed k r p c -> p < len -> cbufptr c < 256 -> 0 <= x < 256 ->
  exists c', store_data x c = Some (SERIAL_OK, c') /\
    open_file (stored f (r * len + p) x) (Some k) c' /\ placed k r (p + 1) c' /\ record c' = record c /\
    begun (p + 1 <? len) true c'.
Proof.
  intros Hf Hpl Hp Hc Hx. unfold store_data, bindST at 1, state.
  rewrite (proj2 (Z.leb_gt _ _)) by (destruct Hpl; lia).
  destruct (put_byte_run f k r p c x (Z.lor DIRTY_SECTOR WRITTEN_RECORD) Hf Hpl Hp Hc Hx eq_refl) as (c1 & _ & Hrun & Hf1 & Hpl1 & Er & Efl).
  rewrite Hrun. unfold bindST at 1, state.
  assert (Heq : (cbufptr c1 =? record_next (crel c1)) = negb (p + 1 <? len)).
  { destruct Hpl1. destruct (Z.ltb_spec (p + 1) len); [apply Z.eqb_neq|apply Z.eqb_eq]; lia. }
  rewrite Heq. pose proof (flags_set c1 DIRTY_RECORD) as Hs. pose proof (flags_clear c1 DIRTY_RECORD) as Hc1.
  pose proof (f_equal (fun z => z.2) Efl) as Hw. pose proof (f_equal (fun z => z.1.1) Efl) as Hd. cbn [flags fst snd] in Hw, Hd.
  rewrite Hw, Hd in Hs, Hc1. cbn in Hs, Hc1. rewrite !orb_true_r in Hs. rewrite !orb_true_r, andb_false_r in Hc1.
  apply (f_equal (fun z => z.1.1)) in Hs as Hs0. apply (f_equal (fun z => z.1.1)) in Hc1 as Hc0. cbn [flags fst snd] in Hs0, Hc0.
  destruct (p + 1 <? len); cbn [negb]; (eexists; split; [reflexivity|]; split;
    [apply open_flags; [exact Hf1|congruence]|]; split; [by destruct Hpl1|]; split; [done|]; eapply begun_flags; eassumption).
Qed.

Lemma report_run f cur c code t s : open_file f cur c ->
  exists c', set_error code t s c = Some (code, c') /\ open_file f cur c' /\ kept c c' /\ flags c' = flags c.
Proof.
  intros Hf. set (v := set_last_code code (set_err_track t (set_err_sector s (drive c)))).
  exists (set_drive v c). split.
  - unfold set_error, mbind, ST_bind. rewrite (bind_run _ _ c code (set_drive v c)) by (by apply on_cdrive_run).
    unfold bindST, state. change (cmode (set_drive v c)) with (cmode c). by rewrite (of_mode _ _ _ Hf).
  - split; [|done]. destruct Hf as [H1 H2 H3 H4 H5 H6 H7 H8 H9 H10]. split; try done.
    destruct H8 as (image & Hg & Hdisk). exists image. split; [by apply holds_error|done].
Qed.

Lemma write_ready_run write fuel f k r p c : open_file f (Some k) c -> placed k r p c ->
  exists k' c', write_ready write fuel c = Some (None, c') /\ open_file f (Some k') c' /\ placed k' r p c' /\
    record c' = record c /\ begun (dirty DIRTY_RECORD c) (dirty WRITTEN_RECORD c) c' /\ (p < len -> cbufptr c' < 256).
Proof.
  intros Hf Hpl. unfold write_ready. destruct (of_cur _ _ _ Hf) as (Hk & _). destruct (decide (k + 1 < n)) as [Hkn|Hkn].
  - destruct (has_link f k c Hf Hkn) as (t & H0 & Ht). rewrite (bind_run _ _ _ _ _ H0). unfold bindST at 1, state.
    rewrite (proj2 (Z.eqb_neq t 0)) by done. cbn [negb].
    destruct (settle_run f k r p c _ _ Hf Hpl Hkn noop_switch noop_ret) as (k' & c' & Hrun & Hf' & Hpl' & Er & Eb & Hc' & _).
    exists k', c'. unfold settle, bindST at 1, state in Hrun. destruct (256 <=? cbufptr c).
    + rewrite (bind_run _ _ _ _ _ Hrun). done.
    + injection Hrun as <-. done.
  - assert (k = n - 1) as -> by lia. destruct (last_link f c Hf) as [H0 H1]. rewrite (bind_run _ _ _ _ _ H0).
    unfold bindST at 1, state. change (negb (0 =? 0)) with false. cbv iota. rewrite (bind_run _ _ _ _ _ H1).
    pose proof (file_length r (pl_record _ _ _ _ Hpl)) as Hlen. pose proof (ly_last Hly).
    rewrite (proj2 (Z.leb_gt _ _)) by (destruct Hpl; nia). exists (n - 1), c. split; [done|]. split; [done|].
    split; [done|]. split; [done|]. split; [done|]. intros Hp. destruct Hpl. nia.
Qed.

Lemma rel_write_byte_run write fuel f k r p c x : open_file f (Some k) c -> placed k r p c -> 0 <= record c < max -> 0 <= x < 256 ->
  exists k' c', write_byte write fuel x c = Some (SERIAL_OK, c') /\ record c' = record c /\
    if p <? len
    then open_file (stored f (r * len + p) x) (Some k') c' /\ placed k' r (p + 1) c' /\ begun (p + 1 <? len) true c'
    else open_file f (Some k') c' /\ placed k' r p c' /\ begun (dirty DIRTY_RECORD c) (dirty WRITTEN_RECORD c) c'.
Proof.
  intros Hf Hpl Hrec Hx. unfold write_byte. rewrite (bind_run _ _ _ _ _ (image_here _ _ _ Hf)).
  unfold bindST at 1, state. rewrite (of_max _ _ _ Hf), (proj2 (Z.leb_gt _ _)) by lia.
  rewrite (bind_run (mret None : ST channel_t (option Z)) _ c None c) by done.
  destruct (write_ready_run write fuel f k r p c Hf Hpl) as (k1 & c1 & Hrun & Hf1 & Hpl1 & Er & Eb & Hc1).
  rewrite (bind_run _ _ _ _ _ Hrun). destruct (Z.ltb_spec p len) as [Hp|Hp].
  - destruct (store_data_run f k1 r p c1 x Hf1 Hpl1 Hp (Hc1 Hp) Hx) as (c2 & -> & Hf2 & Hpl2 & Er2 & Eb2).
    exists k1, c2. split; [done|]. split; [congruence|done].
  - unfold store_data, bindST at 1, state. rewrite (proj2 (Z.leb_le _ _)) by (destruct Hpl1; lia).
    destruct (report_run f (Some k1) c1 CBMDOS_IPE_OVERFLOW 0 0 Hf1) as (c2 & Hrun2 & Hf2 & (K1 & K2 & K3 & K4) & Hfl).
    unfold mbind, ST_bind. rewrite (bind_run _ _ _ _ _ Hrun2). exists k1, c2. split; [done|]. split; [congruence|].
    split; [done|]. split; [destruct Hpl1; split; congruence|]. destruct Eb as [E1 E2].
    apply (f_equal (fun z => (z.1.2, z.2))) in Hfl. injection Hfl as F1 F2. split; congruence.
Qed.

(** ** Filling a record *)

Definition writes (write : Z -> ST channel_t Z) : Prop := forall f k r p c x,
  open_file f (Some k) c -> placed k r p c -> 0 <= record c < max -> 0 <= x < 256 -> p < len ->
  exists k' c', write x c = Some (SERIAL_OK, c') /\ record c' = record c /\
    open_file (stored f (r * len + p) x) (Some k') c' /\ placed k' r (p + 1) c'.

Lemma writes_write fuel : writes (vdrive_rel_write (S fuel)).
Proof.
  intros f k r p c x Hf Hpl Hrec Hx Hp.
  destruct (rel_write_byte_run (vdrive_rel_write fuel) fuel f k r p c x Hf Hpl Hrec Hx) as (k' & c' & Hrun & Er & H).
  rewrite (proj2 (Z.ltb_lt _ _)) in H by lia. exists k', c'. split; [exact Hrun|]. split; [done|]. split; apply H.
Qed.

Lemma open_ext f g cur c : open_file f cur c -> (forall i, f i = g i) -> open_file g cur c.
Proof.
  intros Hf He. assert (Hb : forall k, block f k = block g k) by (intros k; apply block_ext; auto).
  destruct Hf as [H1 H2 H3 H4 H5 H6 H7 H8 H9 H10]. split; try done.
  - destruct H8 as (image & Hg & Hd). exists image. split; [done|]. intros k. rewrite <- Hb. apply Hd.
  - destruct cur; [|done]. by rewrite <- Hb.
  - destruct H10 as (b & ? & ? & H). exists b. do 2 (split; [done|]). destruct H as [|(j & H)]; [by left|right].
    exists j. by rewrite <- Hb.
Qed.

(** [f] with zeros from [lo] to [hi] *)
Definition zeroed (f : Z -> Z) (lo hi : Z) : Z -> Z := fun i => if (lo <=? i) && (i <? hi) then 0 else f i.

Lemma zeroed_step f lo hi i : lo < hi -> zeroed (stored f lo 0) (lo + 1) hi i = zeroed f lo hi i.
Proof. intros Hlt. unfold zeroed, stored. destruct (Z.leb_spec (lo + 1) i), (Z.ltb_spec i hi), (Z.eqb_spec i lo), (Z.leb_spec lo i); cbn; done || lia. Qed.

Lemma zeroed_none f lo i : zeroed f lo lo i = f i.
Proof. unfold zeroed. destruct (Z.leb_spec lo i), (Z.ltb_spec i lo); cbn; done || lia. Qed.

Lemma fill_rest_run write fuel : writes write -> forall f k r p c,
  open_file f (Some k) c -> placed k r p c -> 0 <= record c < max -> (Z.to_nat (len - p) < fuel)%nat ->
  exists k' c', fill_rest write fuel c = Some (tt, c') /\ record c' = record c /\
    open_file (zeroed f (r * len + p) ((r + 1) * len)) (Some k') c' /\ placed k' r len c'.
Proof.
  intros Hw. induction fuel as [|fuel IH]; intros f k r p c Hf Hpl Hrec Hfuel; [lia|].
  cbn [fill_rest]. unfold bindST at 1, state. pose proof (pl_pos _ _ _ _ Hpl) as Hpos.
  destruct (Z.ltb_spec (cbufptr c) (record_next (crel c))) as [Hlt|Hge].
  - assert (Hp : p < len) by (destruct Hpl; lia).
    assert (Hstep : exists k1 c1, (if cbufptr c <? 256 then
        put_buffer (cbufptr c) 0;; upd (set_bufptr (u32 (cbufptr c + 1)));; set_flag DIRTY_SECTOR
        else write 0;; mret tt) c = Some (tt, c1) /\ record c1 = record c /\
        open_file (stored f (r * len + p) 0) (Some k1) c1 /\ placed k1 r (p + 1) c1).
    { destruct (Z.ltb_spec (cbufptr c) 256) as [Hc|Hc].
      - destruct (put_byte_run f k r p c 0 DIRTY_SECTOR Hf Hpl Hp Hc ltac:(lia) eq_refl) as (c1 & Hrun & _ & Hf1 & Hpl1 & Er & _).
        exists k, c1. by rewrite Hrun.
      - destruct (Hw f k r p c 0 Hf Hpl Hrec ltac:(lia) Hp) as (k1 & c1 & Hrun & Er & Hf1 & Hpl1).
        exists k1, c1. unfold mbind, ST_bind. by rewrite (bind_run _ _ _ _ _ Hrun). }
    destruct Hstep as (k1 & c1 & Hrun & Er & Hf1 & Hpl1). unfold mbind at 1, ST_bind at 1. rewrite (bind_run _ _ _ _ _ Hrun).
    destruct (IH _ _ _ _ _ Hf1 Hpl1) as (k' & c' & Hrun' & Er' & Hf' & Hpl'); [lia|lia|].
    exists k', c'. rewrite Hrun'. split; [done|]. split; [congruence|]. split; [|done].
    eapply open_ext; [exact Hf'|]. intros i. rewrite Z.add_assoc. apply zeroed_step. lia.
  - assert (p = len) as -> by (destruct Hpl; lia). exists k, c. split; [done|]. split; [done|]. split; [|done].
    eapply open_ext; [exact Hf|]. intros i. replace ((r + 1) * len) with (r * len + len) by lia. symmetry. apply zeroed_none.
Qed.

Lemma clear_flag_run f cur c flag : open_file f cur c -> Z.testbit flag 0 = false ->
  let c' := set_needsupdate (Z.land (needsupdate c) (Z.lnot flag)) c in
  clear_flag flag c = Some (tt, c') /\ open_file f cur c' /\ kept c c' /\
    flags c' = (dirty DIRTY_SECTOR c, dirty DIRTY_RECORD c && negb (Z.testbit flag 1), dirty WRITTEN_RECORD c && negb (Z.testbit flag 2)).
Proof.
  intros Hf Hflag c'. pose proof (flags_clear c flag) as Hfl. rewrite Hflag, andb_true_r in Hfl.
  split; [done|]. split; [|done]. apply open_flags; [done|]. exact (f_equal (fun z => z.1.1) Hfl).
Qed.

Lemma placed_kept k r p c c' : placed k r p c -> kept c c' -> placed k r p c'.
Proof. intros [H1 H2 H3 H4 H5] (K1 & K2 & K3 & K4). split; rewrite ?K1, ?K4; done. Qed.

Lemma begun_eq dr w c c' : flags c' = flags c -> begun dr w c -> begun dr w c'.
Proof. intros Hfl [E1 E2]. apply (f_equal (fun z => (z.1.2, z.2))) in Hfl. injection Hfl as F1 F2. split; congruence. Qed.

(** A record that was not begun is left alone. *)
Lemma fill_clean_run write fuel f cur c : open_file f cur c -> begun false false c ->
  exists c', fillrecord write fuel c = Some (tt, c') /\ open_file f cur c' /\ kept c c' /\ begun false false c'.
Proof.
  intros Hf [E1 E2]. unfold fillrecord, bindST at 1, state. rewrite E1. unfold mbind, ST_bind.
  rewrite (bind_run (mret tt : ST channel_t unit) _ c tt c) by done.
  destruct (clear_flag_run f cur c WRITTEN_RECORD Hf eq_refl) as (Hrun & Hf' & Hk & Hfl). eexists. split; [exact Hrun|].
  split; [done|]. split; [done|]. rewrite E1, E2 in Hfl. by eapply begun_flags.
Qed.

(** The rest of a record that was begun is filled with zeros. *)
Lemma fill_begun_run write fuel f k r p c : writes write -> open_file f (Some k) c -> placed k r p c ->
  0 <= record c < max -> begun (p <? len) true c -> (Z.to_nat len < fuel)%nat ->
  exists k' c', fillrecord write fuel c = Some (tt, c') /\
    open_file (zeroed f (r * len + p) ((r + 1) * len)) (Some k') c' /\ placed k' r len c' /\
    record c' = record c /\ begun false false c'.
Proof.
  intros Hw Hf Hpl Hrec [E1 E2] Hfuel. unfold fillrecord, bindST at 1, state. rewrite E1.
  pose proof (pl_pos _ _ _ _ Hpl) as Hpos.
  assert (Hstep : exists k1 c1, (if p <? len then fill_rest write fuel;; clear_flag DIRTY_RECORD else mret tt) c = Some (tt, c1) /\
    open_file (zeroed f (r * len + p) ((r + 1) * len)) (Some k1) c1 /\ placed k1 r len c1 /\ record c1 = record c /\
    dirty DIRTY_RECORD c1 = false).
  { destruct (Z.ltb_spec p len) as [Hp|Hp].
    - destruct (fill_rest_run write fuel Hw f k r p c Hf Hpl Hrec) as (k1 & c1 & Hrun & Er & Hf1 & Hpl1); [lia|].
      destruct (clear_flag_run _ _ c1 DIRTY_RECORD Hf1 eq_refl) as (Hrun2 & Hf2 & Hk2 & Hfl2).
      exists k1. eexists. split; [unfold mbind, ST_bind; rewrite (bind_run _ _ _ _ _ Hrun); exact Hrun2|]. split; [exact Hf2|].
      split; [by eapply placed_kept|]. split; [exact Er|]. apply (f_equal (fun z => z.1.2)) in Hfl2. cbn in Hfl2. by rewrite andb_false_r in Hfl2.
    - assert (p = len) as -> by lia. exists k, c. split; [done|]. split; [|done].
      eapply open_ext; [exact Hf|]. intros i. replace ((r + 1) * len) with (r * len + len) by lia. symmetry. apply zeroed_none. }
  destruct Hstep as (k1 & c1 & Hrun & Hf1 & Hpl1 & Er & Hd). unfold mbind, ST_bind. rewrite (bind_run _ _ _ _ _ Hrun).
  destruct (clear_flag_run _ _ c1 WRITTEN_RECORD Hf1 eq_refl) as (Hrun2 & Hf2 & Hk2 & Hfl2). exists k1. eexists.
  split; [exact Hrun2|]. split; [exact Hf2|]. split; [by eapply placed_kept|]. split; [exact Er|].
  rewrite Hd in Hfl2. cbn in Hfl2. rewrite andb_false_r in Hfl2. by eapply begun_flags.
Qed.

(** ** Positioning *)

Lemma kept_trans c1 c2 c3 : kept c1 c2 -> kept c2 c3 -> kept c1 c3.
Proof. intros (A1 & A2 & A3 & A4) (B1 & B2 & B3 & B4). split_and!; etransitivity; eassumption. Qed.

Lemma record_place_eq r : 0 <= r < max ->
  let b := r * len in
  record_place r len = (OFFSET_POINTER + 256 * (b / 254 / SIDE_INDEX_MAX) + 2 * (b / 254 mod SIDE_INDEX_MAX), b mod 254).
Proof.
  intros Hr b. pose proof (file_length r Hr) as [Hb1 Hb2]. pose proof (ly_blocks Hly). pose proof (ly_last Hly).
  pose proof (ly_len Hly). unfold record_place. rewrite u32_small by nia. fold b. f_equal.
  unfold SIDE_INDEX_MAX, SIDE_SECTORS_MAX, OFFSET_POINTER. Z.to_euclidean_division_equations; lia.
Qed.

Lemma record_block r : 0 <= r < max -> 0 <= r * len / 254 < n.
Proof.
  intros Hr. pose proof (file_length r Hr) as [Hb1 Hb2]. pose proof (ly_last Hly). pose proof (ly_len Hly).
  split; [apply Z.div_pos; lia|]. apply Z.div_lt_upper_bound; nia.
Qed.

Lemma track_sector_run f cur c r : open_file f cur c -> 0 <= r < max ->
  vdrive_rel_track_sector r c = Some ((addr (r * len / 254)).1, (addr (r * len / 254)).2, r * len mod 254, c).
Proof.
  intros Hf Hr. destruct (of_slot _ _ _ Hf) as (e & He & Hlen). unfold vdrive_rel_track_sector.
  rewrite (bind_run _ _ _ _ _ (slot_run c e _ _ He Hlen)). rewrite record_place_eq by done.
  destruct (ly_side Hly _ (record_block r Hr)) as [H1 H2].
  rewrite (bind_run _ _ _ _ _ (side_run c side _ _ (of_side _ _ _ Hf) H1)).
  by rewrite (bind_run _ _ _ _ _ (side_run c side _ _ (of_side _ _ _ Hf) H2)).
Qed.

Lemma fetch_run f cur c j : open_file f cur c -> begun false false c -> 0 <= j < n ->
  exists c', fetch_sector (addr j).1 (addr j).2 c = Some (true, c') /\ open_file f (Some j) c' /\ kept c c' /\
    begun false false c'.
Proof.
  intros Hf Hbg Hj. unfold fetch_sector, bindST at 1, state. rewrite !(Z.eqb_sym _ (addr j).1), !(Z.eqb_sym _ (addr j).2).
  rewrite (Z.eqb_sym (addr j).1), (Z.eqb_sym (addr j).2), pair_eqb.
  destruct (commit_run _ _ _ Hf) as (c1 & Hrun1 & Hf1 & Hk1 & Hrel & Ht1 & Hs1 & Hfl1).
  assert (Hd1 : dirty DIRTY_SECTOR c1 = false) by exact (f_equal (fun z => z.1.1) Hfl1).
  assert (Hb1 : begun false false c1).
  { destruct Hbg as [E1 E2]. rewrite E1, E2 in Hfl1. by eapply begun_flags. }
  case_bool_decide as He.
  - unfold mbind, ST_bind. rewrite (bind_run _ _ _ _ _ Hrun1).
    destruct (swap_to_run f cur j c1 Hf1 Hd1 Hj) as (c2 & Hrun2 & Hf2 & Hk2 & Hfl2); [by rewrite Hrel|].
    rewrite (bind_run _ _ _ _ _ Hrun2). exists c2. split; [done|]. split; [done|].
    split; [|by eapply begun_eq]. exact (kept_trans _ _ _ Hk1 Hk2).
  - destruct (negb ((addr j).1 =? ctrack c) || negb ((addr j).2 =? csector c)) eqn:Hne.
    + unfold mbind, ST_bind. rewrite (bind_run _ _ _ _ _ Hrun1).
      destruct (read_block_run f cur j c1 Hf1 Hd1 Hj) as (c2 & Hrun2 & Hk2 & Hfl2 & Hf2); [by rewrite Hrel|].
      rewrite (bind_run _ _ _ _ _ Hrun2). change (negb (0 =? 0)) with false. cbv iota.
      eexists. split; [reflexivity|]. split; [exact Hf2|].
      split; [|eapply begun_eq; [|exact Hb1]; exact Hfl2]. exact (kept_trans _ _ _ Hk1 Hk2).
    + exists c. split; [done|]. split; [|done]. apply orb_false_iff in Hne as [Et%negb_false_iff%Z.eqb_eq Es%negb_false_iff%Z.eqb_eq].
      pose proof (addr_byte f cur c j Hf Hj) as [Hpos _]. destruct cur as [k|]; destruct (of_cur _ _ _ Hf) as [Hk Hc]; [|lia].
      assert (k = j) as ->; [|done]. apply (ly_inj Hly); [done|done|]. destruct Hc as [-> _]. rewrite <- Et, <- Es. by destruct (addr j).
Qed.

Lemma last_used_spec f m : -1 <= last_used f m < Z.of_nat m /\
  (forall j, last_used f m < j < Z.of_nat m -> f j = 0) /\ (0 <= last_used f m -> f (last_used f m) <> 0).
Proof.
  induction m as [|m (IH1 & IH2 & IH3)]; cbn [last_used]; [split; [lia|split; lia]|].
  destruct (Z.eqb_spec (f (Z.of_nat m)) 0) as [Hz|Hnz].
  - split; [lia|]. split; [|done]. intros j Hj. destruct (decide (j = Z.of_nat m)) as [->|]; [done|]. apply IH2. lia.
  - split; [lia|]. split; [lia|done].
Qed.

Lemma record_end_spec f r : let e := record_end len f r in -1 <= e < len /\
  (forall j, e < j < len -> f (r * len + j) = 0) /\ (0 <= e -> f (r * len + e) <> 0).
Proof.
  pose proof (last_used_spec (fun i => f (r * len + i)) (Z.to_nat len)) as H. pose proof (ly_len Hly).
  rewrite Z2Nat.id in H by lia. exact H.
Qed.

(** The length is that of the record: the last byte to be read is the last one that is not
    zero, but at least the first. *)
Definition readable (f : Z -> Z) (k r p : Z) (c : channel_t) : Prop :=
  let e := record_end len f r in
  p <= Z.max 0 e ->
  (p <= e /\ 254 * k + clength c = r * len + e + 2) \/
  (e < p /\ 1 <= clength c < cbufptr c /\ (256 <= cbufptr c -> 255 <= clength c)).

Lemma ended_readable f k r p c : placed k r p c ->
  ended f k (cbufptr c) (record_next (crel c) - 1) (clength c) -> readable f k r p c.
Proof.
  intros Hpl He. pose proof (record_end_spec f r) as (H1 & H2 & H3). unfold readable. set (e := record_end len f r) in *.
  destruct Hpl as [P1 P2 P3 P4 P5]. intros Hp. destruct He as [(Hq & Hnz & Hz)|(Hq & Hlow & Hz)].
  - left. set (i := 254 * k + clength c - 2 - r * len). assert (Hi : p <= i < len) by lia.
    assert (Hfi : f (r * len + i) <> 0).
    { unfold byte_at in Hnz. replace (r * len + i) with (254 * k + clength c - 2) by lia. done. }
    assert (i = e); [|lia]. destruct (decide (i < e)) as [Hlt|Hge]; [|destruct (decide (e < i)); [|lia]].
    + destruct (H3 ltac:(lia)). rewrite <- (Hz (r * len + e + 2 - 254 * k)) by lia. unfold byte_at. f_equal. lia.
    + destruct Hfi. apply H2. lia.
  - right. split; [|split; [lia|done]]. destruct (decide (e < p)) as [|Hge]; [done|exfalso].
    apply (H3 ltac:(lia)). rewrite <- (Hz (r * len + e + 2 - 254 * k)) by lia. unfold byte_at. f_equal. lia.
Qed.

(** ** A channel and the abstract file *)

Definition held (s : session) (c : channel_t) : Prop :=
  begun (written s && (pos s <? len)) (written s) c /\
  if beyond s then written s = false /\ exists cur, open_file (bytes s) cur c
  else exists k, open_file (bytes s) (Some k) c /\ placed k (current s) (pos s) c /\ record c = current s /\
    (written s = false -> readable (bytes s) k (current s) (pos s) c).

Definition represents (s : session) (c : channel_t) : Prop :=
  held s c /\ (beyond s = true -> max <= record c).

Lemma padded_eq s i : padded len s i =
  if written s then zeroed (bytes s) (current s * len + pos s) ((current s + 1) * len) i else bytes s i.
Proof. unfold padded, zeroed. by destruct (written s). Qed.

(** Filling the current record, after [record] was set to another one *)
Lemma fill_run write fuel s c r : writes write -> held s c -> (Z.to_nat len < fuel)%nat ->
  (written s = true -> 0 <= r < max) ->
  exists cur c', fillrecord write fuel (set_record r c) = Some (tt, c') /\ open_file (padded len s) cur c' /\
    begun false false c' /\ record c' = r /\
    (written s = true -> exists k, cur = Some k /\ placed k (current s) len c').
Proof.
  intros Hw [Hb Hs] Hfuel Hr. destruct (written s) eqn:Hwr.
  - destruct (beyond s); [destruct Hs as [Hs _]; congruence|]. destruct Hs as (k & Hf & Hpl & Er & _). cbn [andb] in Hb.
    assert (Hf' : open_file (bytes s) (Some k) (set_record r c)) by (by eapply open_frame).
    assert (Hpl' : placed k (current s) (pos s) (set_record r c)) by (destruct Hpl; by split).
    destruct (fill_begun_run write fuel _ k _ _ _ Hw Hf' Hpl' (Hr eq_refl) Hb Hfuel) as (k' & c' & Hrun & Hf2 & Hpl2 & Er2 & Hb2).
    exists (Some k'), c'. split; [done|]. split; [|split; [done|split; [done|intros _; by exists k']]].
    eapply open_ext; [exact Hf2|]. intros i. by rewrite padded_eq, Hwr.
  - assert (exists cur, open_file (bytes s) cur (set_record r c)) as (cur & Hf).
    { destruct (beyond s); [destruct Hs as (_ & cur & Hf)|destruct Hs as (k & Hf & _); set (cur := Some k) in Hf];
        exists cur; by eapply open_frame. }
    destruct (fill_clean_run write fuel _ cur _ Hf Hb) as (c' & Hrun & Hf2 & (_ & _ & Er & _) & Hb2).
    exists cur, c'. split; [done|]. split; [|done]. eapply open_ext; [exact Hf2|]. intros i. by rewrite padded_eq, Hwr.
Qed.

Lemma held_open s c : held s c -> exists cur, open_file (bytes s) cur c.
Proof.
  intros [_ Hs]. destruct (beyond s); [by destruct Hs as (_ & Hs)|destruct Hs as (k & Hs & _); by exists (Some k)].
Qed.

Lemma position_internal_run fuel s c lo hi p : held s c -> (Z.to_nat len < fuel)%nat ->
  0 <= lo < 256 -> 0 <= hi < 256 -> 0 <= p -> forall a s', step len max (Position lo hi p) s = Some (a, s') -> (p - 1 < len \/ represents s c) ->
  exists c', vdrive_rel_position_internal fuel lo hi p c = Some (a.1, c') /\ represents s' c' /\ a.2 = None.
Proof.
  intros Hs Hfuel Hlo Hhi Hp a s' Hstep Hcase. destruct fuel as [|fuel]; [lia|].
  destruct (held_open _ _ Hs) as (cur & Hf).
  assert (Hrec : lo + Z.shiftl hi 8 = lo + 256 * hi) by (rewrite Z.shiftl_mul_pow2; lia).
  destruct (of_slot _ _ _ Hf) as (en & He & Hlen).
  unfold vdrive_rel_position_internal, position_internal. rewrite (bind_run _ _ _ _ _ (slot_run c en _ _ He Hlen)).
  cbn [step] in Hstep. set (p' := if p =? 0 then 0 else p - 1) in *. rewrite Hrec, u32_small by lia.
  set (r := if lo + 256 * hi =? 0 then 0 else lo + 256 * hi - 1) in *.
  assert (Hp' : 0 <= p') by (unfold p'; case_bool; lia). assert (Hr : 0 <= r) by (unfold r; case_bool; lia).
  destruct (Z.leb_spec len p') as [Hov|Hin]; [injection Hstep as <- <-; exists c; split; [done|]; split; [|done]; destruct Hcase; [pose proof (ly_len Hly); unfold p' in Hov; destruct (Z.eqb_spec p 0); lia|done]|].
  unfold mbind at 1, ST_bind. rewrite (bind_run _ _ _ tt (set_record r c)) by done. unfold bindST at 1, state.
  change (record_max (crel (set_record r c))) with (record_max (crel c)). rewrite (of_max _ _ _ Hf).
  destruct (Z.leb_spec max r) as [Hno|Hyes].
  { destruct (written s) eqn:Hwr; [done|]. injection Hstep as <- <-. pose proof (ly_max Hly). rewrite (proj2 (Z.ltb_lt _ _)) by lia.
    exists (set_record r c). split; [done|]. split; [|done]. destruct Hs as [Hb _]. rewrite Hwr in Hb. split; [split; [done|]|done]. cbn.
    split; [done|]. exists cur. by eapply open_frame. }
  injection Hstep as <- <-.
  destruct (fill_run _ (S fuel) s c r (writes_write fuel) Hs Hfuel ltac:(lia)) as (cur1 & c1 & Hrun1 & Hf1 & Hb1 & Er1 & _).
  unfold mbind at 1, ST_bind. rewrite (bind_run _ _ _ _ _ Hrun1).
  rewrite (bind_run _ _ _ _ _ (track_sector_run _ _ _ r Hf1 ltac:(lia))).
  pose proof (record_block r ltac:(lia)) as Hk. set (k := r * len / 254) in *. pose proof (ly_len Hly).
  destruct (fetch_run _ _ c1 k Hf1 Hb1 Hk) as (c2 & Hrun2 & Hf2 & (K1 & K2 & K3 & K4) & Hb2).
  rewrite (bind_run _ _ _ _ _ Hrun2). cbn [negb]. unfold mbind at 1, ST_bind. set (start := r * len mod 254).
  set (c3 := set_bufptr (start + 2 + p') (set_clength (start + 2 + p' - p' + len - 1)
    (set_crel (set_record_next (start + 2 + p' - p' + len) (crel c2)) c2))).
  rewrite (bind_run _ _ _ tt c3) by done.
  assert (Hst : 0 <= start < 254) by (apply Z.mod_pos_bound; lia).
  assert (Hdiv : r * len = 254 * k + start) by (apply Z.div_mod; lia).
  destruct (measure_from_run (padded len s) k p' c3) as (c4 & Hrun4 & Hf4 & (M1 & M2 & M3 & M4) & Hend).
  { by eapply open_frame. } { cbn. lia. } { cbn. lia. } { cbn. lia. }
  unfold mbind, ST_bind. rewrite (bind_run _ _ _ _ _ Hrun4). exists c4. split; [done|]. split; [|done].
  assert (Hpl : placed k r p' c4) by (split; rewrite ?M1, ?M3; cbn; lia).
  split; [|done]. split; [by apply (begun_eq _ _ c3)|]. cbn. exists k. split; [done|]. split; [done|].
  split; [rewrite M2; change (record c3) with (record c2); congruence|]. intros _ Hread.
  apply ended_readable; [done| |done]. rewrite M1, M3. cbn -[Z.add Z.sub]. apply Hend.
  - cbn. pose proof (file_length r ltac:(lia)). pose proof (ly_last Hly). destruct (decide (k + 1 < n)); [by left|right]. nia.
  - destruct (decide (p' = 0)) as [->|Hne]; [by left|right]. pose proof (record_end_spec (padded len s) r) as (R1 & R2 & R3).
    set (e := record_end len (padded len s) r) in *. exists (start + 2 + e). split; [cbn; lia|].
    unfold byte_at. replace (254 * k + (start + 2 + e) - 2) with (r * len + e) by lia. apply R3. lia.
Qed.

Lemma position_run fuel s c lo hi p : represents s c -> (Z.to_nat len < fuel)%nat ->
  0 <= lo < 256 -> 0 <= hi < 256 -> 0 <= p -> forall a s', step len max (Position lo hi p) s = Some (a, s') ->
  exists c', (let! status := vdrive_rel_position fuel lo hi p in mret (status, None)) c = Some (a, c') /\ represents s' c'.
Proof.
  intros Hs Hfuel Hlo Hhi Hp a s' Hstep. destruct (held_open s c) as (cur & Hf); [apply Hs|].
  destruct (position_internal_run fuel s c lo hi p (proj1 Hs) Hfuel Hlo Hhi Hp a s' Hstep) as (c' & Hrun & Hr & Ha); [by right|].
  exists c'. split; [|done]. unfold vdrive_rel_position, mbind, ST_bind. unfold bindST at 1.
  rewrite (bind_run _ _ _ _ _ (no_switch _ _ _ Hf)), Hrun. destruct a. cbn in *. by subst.
Qed.

(** ** The next record *)

Lemma next_record_run f cur k r p c : open_file f cur c -> placed k r p c -> record c = r ->
  record_next (crel c) <= 382 ->
  exists c', next_record c = Some (tt, c') /\ open_file f cur c' /\ flags c' = flags c /\
    cbufptr c' = record_next (crel c) /\ record_next (crel c') = record_next (crel c) + len /\
    clength c' = record_next (crel c) + len - 1 /\ record c' = r + 1.
Proof.
  intros Hf Hpl Er Hn. unfold next_record. rewrite (bind_run _ _ _ _ _ (side_run c side _ _ (of_side _ _ _ Hf) (ly_record Hly))).
  pose proof (ly_len Hly). pose proof (ly_blocks Hly). pose proof (ly_last Hly). destruct Hpl as [P1 P2 P3 P4 P5].
  pose proof (file_length r P1).
  eexists. split; [reflexivity|]. split; [by eapply open_frame|]. split; [done|]. cbn. rewrite Er, !u32_small; [done|nia|nia..].
Qed.

(** The state at the beginning of the next record: [m] is the end of the search for its
    length. *)
Lemma stepped_run f k r p c before : open_file f (Some k) c -> placed k r p c -> record c = r ->
  record_next (crel c) <= 382 -> begun false false c -> noop before ->
  exists c1 c2, next_record c = Some (tt, c1) /\ record c1 = r + 1 /\ record_max (crel c1) = max /\
    represents (step_record max f r) c2 /\ measure before c1 = Some (tt, c2) /\
    (max <= r + 1 -> represents (step_record max f r) c1).
Proof.
  intros Hf Hpl Er Hn Hb Hbefore.
  destruct (next_record_run f (Some k) k r p c Hf Hpl Er Hn) as (c1 & Hrun & Hf1 & Hfl & E1 & E2 & E3 & E4).
  pose proof (ly_len Hly). pose proof (pl_range _ _ _ _ Hpl). pose proof (pl_pos _ _ _ _ Hpl). pose proof (pl_ptr _ _ _ _ Hpl). pose proof (pl_next _ _ _ _ Hpl).
  destruct (measure_run f k c1 before Hf1 (Hbefore _ _ _ Hf1)) as (c2 & Hrun2 & Hf2 & (M1 & M2 & M3 & M4) & He); [lia|lia|].
  exists c1, c2. split; [done|]. split; [done|]. split; [apply Hf1|].
  assert (Hb1 : begun false false c1) by (by eapply begun_eq).
  assert (Hb2 : begun false false c2) by (by eapply begun_eq).
  split; [|split; [done|]].
  - split; [split; [done|]|cbn; intros Hge%Z.leb_le; lia]. cbn.
    destruct (Z.leb_spec max (r + 1)) as [Hge|Hlt]; [split; [done|by exists (Some k)]|].
    assert (Hpl2 : placed k (r + 1) 0 c2) by (pose proof (pl_record _ _ _ _ Hpl); split; lia).
    exists k. split; [done|]. split; [done|]. split; [lia|]. intros _. apply ended_readable; [done|].
    rewrite M1, M3, E2, <- E3. apply He. pose proof (file_length (r + 1) ltac:(pose proof (pl_record _ _ _ _ Hpl); lia)) as Hlen.
    pose proof (ly_last Hly). destruct (of_cur _ _ _ Hf) as [Hk _]. destruct (decide (k + 1 < n)); [by left|right]. nia.
  - intros Hge. split; [split; [done|]|cbn; lia]. cbn. rewrite (proj2 (Z.leb_le _ _)) by done. split; [done|by exists (Some k)].
Qed.

(** ** Reading *)

Lemma read_ready_run f k r p c : open_file f (Some k) c -> placed k r p c -> p < len -> p <= Z.max 0 (record_end len f r) ->
  readable f k r p c -> begun false false c ->
  exists k' c', read_ready c = Some (None, c') /\ open_file f (Some k') c' /\ placed k' r p c' /\
    record c' = record c /\ begun false false c' /\ cbufptr c' < 256 /\ readable f k' r p c'.
Proof.
  intros Hf Hpl Hp He Hr [B1 B2]. unfold read_ready. destruct (of_cur _ _ _ Hf) as (Hk & _). destruct (decide (k + 1 < n)) as [Hkn|Hkn].
  - destruct (has_link f k c Hf Hkn) as (t & H0 & Ht). rewrite (bind_run _ _ _ _ _ H0). unfold bindST at 1, state.
    rewrite (proj2 (Z.eqb_neq t 0)) by done. cbn [negb].
    destruct (settle_run f k r p c _ _ Hf Hpl Hkn noop_ret noop_switch) as (k' & c' & Hrun & Hf' & Hpl' & Er & Eb & Hc' & Hlo & Hhi).
    rewrite B1, B2 in Eb. exists k', c'. unfold settle, bindST at 1, state in Hrun. destruct (Z.leb_spec 256 (cbufptr c)) as [Hc|Hc].
    + rewrite (bind_run _ _ _ _ _ Hrun). do 6 (split; [done|]). destruct (Hhi Hc) as [-> El]. intros _.
      destruct (Hr He) as [(H1 & H2)|(H1 & H2 & H3)]; pose proof (pl_ptr _ _ _ _ Hpl); pose proof (pl_ptr _ _ _ _ Hpl');
        pose proof (pl_range _ _ _ _ Hpl); pose proof (pl_pos _ _ _ _ Hpl); pose proof (record_end_spec f r) as [Hrange _]; pose proof (ly_len Hly);
        try specialize (H3 Hc); rewrite u32_small in El by lia; [left|right]; lia.
    + injection Hrun as <-. do 6 (split; [done|]). destruct (Hlo Hc) as [-> _]. exact Hr.
  - assert (k = n - 1) as -> by lia. destruct (last_link f c Hf) as [H0 H1]. rewrite (bind_run _ _ _ _ _ H0).
    unfold bindST at 1, state. change (negb (0 =? 0)) with false. cbv iota. rewrite (bind_run _ _ _ _ _ H1).
    pose proof (file_length r (pl_record _ _ _ _ Hpl)) as Hlen. pose proof (ly_last Hly).
    rewrite (proj2 (Z.leb_gt _ _)) by (destruct Hpl; nia). exists (n - 1), c. do 5 (split; [done|]).
    split; [destruct Hpl; nia|done].
Qed.

Lemma read_op_run s c a s' : represents s c -> step len max Read s = Some (a, s') ->
  exists c', vdrive_rel_read c = Some (a, c') /\ represents s' c'.
Proof.
  intros [[Hb Hs] Hrec] Hstep. cbn [step] in Hstep. unfold vdrive_rel_read, bindST at 1, state.
  destruct (beyond s) eqn:Hbey.
  { destruct Hs as (Hwr & cur & Hf). specialize (Hrec eq_refl). injection Hstep as <- <-.
    rewrite (of_max _ _ _ Hf), (proj2 (Z.leb_le _ _)) by done.
    destruct (report_run _ _ c CBMDOS_IPE_NO_RECORD 0 0 Hf) as (c' & Hrun & Hf' & (_ & _ & Er & _) & Hfl).
    unfold mbind, ST_bind. rewrite (bind_run _ _ _ _ _ Hrun). exists c'. split; [done|].
    split; [split; [by eapply begun_eq|]|lia]. rewrite Hbey. split; [done|by exists cur]. }
  destruct Hs as (k & Hf & Hpl & Er & Hread). set (e := record_end len (bytes s) (current s)) in *.
  destruct (written s) eqn:Hwr; [done|]. destruct (Z.ltb_spec (Z.max 0 e) (pos s)) as [Hover|Hpos]; [done|]. cbn [orb] in Hstep.
  pose proof (record_end_spec (bytes s) (current s)) as [Hrange _]. pose proof (ly_len Hly). fold e in Hrange.
  rewrite (of_max _ _ _ Hf), Er, (proj2 (Z.leb_gt _ _)) by (destruct Hpl; lia).
  destruct (read_ready_run _ k _ _ c Hf Hpl ltac:(lia) Hpos (Hread eq_refl) Hb) as (k1 & c1 & Hrun1 & Hf1 & Hpl1 & Er1 & Hb1 & Hc1 & Hr1).
  rewrite (bind_run _ _ _ _ _ Hrun1). unfold bindST at 1, state. destruct (of_cur _ _ _ Hf1) as (Hk1 & _ & Hbuf1).
  pose proof (pl_range _ _ _ _ Hpl1) as Hrg. pose proof (block_byte (bytes s) k1 (cbufptr c1) ltac:(lia)) as Hbyte.
  rewrite <- Hbuf1 in Hbyte. rewrite (bind_run _ _ _ _ _ (get_run c1 _ _ (of_place _ _ _ Hf1) Hbyte)).
  replace (254 * k1 + cbufptr c1 - 2) with (current s * len + pos s) by (destruct Hpl1; lia).
  rewrite u32_small by lia. unfold mbind at 1, ST_bind at 1. set (c2 := set_bufptr (cbufptr c1 + 1) c1).
  rewrite (bind_run _ _ _ tt c2) by done. unfold bindST at 1, state.
  change (clength c2) with (clength c1). change (cbufptr c2) with (cbufptr c1 + 1).
  assert (Hf2 : open_file (bytes s) (Some k1) c2) by (by eapply open_frame).
  assert (Hpl2 : placed k1 (current s) (pos s + 1) c2) by (destruct Hpl1; split; cbn; lia).
  assert (Hend : (clength c1 <? cbufptr c1 + 1) = (pos s =? Z.max 0 e)).
  { destruct (Hr1 Hpos) as [(H1 & H2)|(H1 & H2 & H3)]; pose proof (pl_ptr _ _ _ _ Hpl1); pose proof (pl_pos _ _ _ _ Hpl1);
      fold e in H1; try fold e in H2; destruct (Z.eqb_spec (pos s) (Z.max 0 e)); [apply Z.ltb_lt|apply Z.ltb_ge|apply Z.ltb_lt|apply Z.ltb_ge]; lia. }
  rewrite Hend. destruct (Z.eqb_spec (pos s) (Z.max 0 e)) as [Hlast|Hmore]; injection Hstep as <- <-.
  - destruct (stepped_run _ k1 _ _ c2 (switch;; mret tt : ST channel_t unit) Hf2 Hpl2)
      as (c3 & c4 & Hrun3 & Er3 & Em3 & Hrep & Hrun4 & Hbey3).
    { change (record c2) with (record c1). congruence. } { destruct Hpl2; cbn in *; lia. } { done. } { exact noop_switch. }
    unfold mbind at 1, ST_bind at 1. rewrite (bind_run _ _ _ _ _ Hrun3). unfold bindST at 1, state. rewrite Em3, Er3.
    unfold mbind at 1, ST_bind at 1. destruct (Z.leb_spec max (current s + 1)) as [Hge|Hlt].
    + rewrite (bind_run (mret tt : ST channel_t unit) _ c3 tt c3) by done. exists c3. split; [done|by apply Hbey3].
    + rewrite (bind_run _ _ _ _ _ Hrun4). by exists c4.
  - exists c2. split; [done|]. split; [|done]. split; [done|]. cbn. exists k1. split; [done|]. split; [done|].
    split; [change (record c2) with (record c1); congruence|]. intros _ _. change (clength c2) with (clength c1). fold e.
    destruct (Hr1 Hpos) as [(H1 & H2)|(H1 & H2 & H3)]; fold e in H1; try fold e in H2; pose proof (pl_pos _ _ _ _ Hpl1); [left; lia|lia].
Qed.

(** ** The other operations *)

Lemma write_op_run fuel s c x a s' : represents s c -> 0 <= x < 256 -> step len max (Write x) s = Some (a, s') ->
  exists c', (let! status := vdrive_rel_write (S fuel) x in mret (status, None)) c = Some (a, c') /\ represents s' c'.
Proof.
  intros [[Hb Hs] _] Hx Hstep. cbn [step] in Hstep. destruct (beyond s) eqn:Hbey; [done|].
  destruct Hs as (k & Hf & Hpl & Er & Hread). destruct Hb as [B1 B2].
  destruct (rel_write_byte_run (vdrive_rel_write fuel) fuel _ k _ _ c x Hf Hpl) as (k' & c' & Hrun & Er' & H);
    [rewrite Er; apply Hpl|done|].
  exists c'. split.
  - change (vdrive_rel_write (S fuel) x) with (write_byte (vdrive_rel_write fuel) fuel x). rewrite (bind_run _ _ _ _ _ Hrun).
    destruct (pos s <? len); by injection Hstep as <- <-.
  - destruct (pos s <? len) eqn:Hp; injection Hstep as <- <-; destruct H as (Hf' & Hpl' & Hb').
    + split; [|done]. split; [done|]. cbn. exists k'. split; [done|]. split; [done|]. split; [congruence|done].
    + split; [|congruence]. split; [rewrite Hp; rewrite B1, B2 in Hb'; exact Hb'|]. rewrite Hbey. apply Z.ltb_ge in Hp. exists k'. split; [done|]. split; [done|]. split; [congruence|].
      intros _ Hpos. pose proof (record_end_spec (bytes s) (current s)) as [Hrange _]. pose proof (ly_len Hly). lia.
Qed.

Lemma set_record_self c : set_record (record c) c = c.
Proof. by destruct c. Qed.

Lemma listen_run fuel s c a s' : represents s c -> (Z.to_nat len < S fuel)%nat -> step len max Listen s = Some (a, s') ->
  exists c', (vdrive_rel_listen (S fuel);; mret (0, None)) c = Some (a, c') /\ represents s' c'.
Proof.
  intros Hrep Hfuel Hstep. pose proof Hrep as [[[B1 B2] Hs] _]. cbn [step] in Hstep. unfold vdrive_rel_listen.
  unfold mbind at 1, ST_bind at 1. unfold bindST at 1. unfold bindST at 1, state. rewrite B2.
  destruct (written s) eqn:Hwr; injection Hstep as <- <-; [|by exists c].
  destruct (beyond s); [destruct Hs; congruence|]. destruct Hs as (k & Hf & Hpl & Er & _).
  destruct (fill_run _ (S fuel) s c (record c) (writes_write fuel) (proj1 Hrep) Hfuel) as (cur & c1 & Hrun1 & Hf1 & Hb1 & Er1 & Hpl1).
  { intros _. rewrite Er. apply Hpl. }
  rewrite set_record_self in Hrun1. destruct (Hpl1 Hwr) as (k1 & -> & Hpl2). clear Hpl1.
  destruct (stepped_run _ k1 _ _ c1 (mret tt : ST channel_t unit) Hf1 Hpl2) as (c2 & c3 & Hrun2 & _ & _ & Hrep3 & Hrun3 & _);
    [congruence|destruct Hpl2; lia|done|apply noop_ret|].
  unfold mbind, ST_bind. rewrite (bind_run _ _ _ _ _ (no_switch _ _ _ Hf)).
  unfold vdrive_rel_fillrecord. rewrite (bind_run _ _ _ _ _ Hrun1), (bind_run _ _ _ _ _ Hrun2), Hrun3. by exists c3.
Qed.

Lemma run_ok fuel o s c a s' : represents s c -> (Z.to_nat len < fuel)%nat -> op_ok o -> step len max o s = Some (a, s') ->
  exists c', run fuel o c = Some (a, c') /\ represents s' c'.
Proof.
  intros Hrep Hfuel Hok Hstep. destruct fuel as [|fuel]; [lia|]. destruct o as [lo hi p|x| |]; cbn [run].
  - destruct Hok as (? & ? & ?). eapply position_run; done.
  - by eapply write_op_run.
  - by eapply read_op_run.
  - by eapply listen_run.
Qed.

Lemma run_all_ok fuel l : forall s c a s', represents s c -> (Z.to_nat len < fuel)%nat -> Forall op_ok l ->
  steps len max l s = Some (a, s') -> exists c', run_all fuel l c = Some (a, c') /\ represents s' c'.
Proof.
  induction l as [|o l IH]; intros s c a s' Hrep Hfuel Hok Hsteps; cbn [steps run_all] in *.
  { injection Hsteps as <- <-. by exists c. }
  inversion Hok as [|? ? Hok1 Hok2]; subst. destruct (step len max o s) as [[a1 s1]|] eqn:Hstep; cbn in Hsteps; [|done].
  destruct (run_ok fuel o s c a1 s1 Hrep Hfuel Hok1 Hstep) as (c1 & Hrun1 & Hrep1).
  destruct (steps len max l s1) as [[rest s2]|] eqn:Hrest; cbn in Hsteps; [|done]. injection Hsteps as <- <-.
  destruct (IH _ _ _ _ Hrep1 Hfuel Hok2 Hrest) as (c2 & Hrun2 & Hrep2).
  rewrite (bind_run _ _ _ _ _ Hrun1), (bind_run _ _ _ _ _ Hrun2). by exists c2.
Qed.

(** The bytes [f] are in the data blocks of the disk, and the other sectors are those of
    before. *)
Definition stored_on (f : Z -> Z) (v : vdrive_t) : Prop := exists image, holds v image /\
  forall k, 0 <= k < n -> has image (addr k).1 (addr k).2 (block f k).

Lemma close_run fuel s c : represents s c -> (Z.to_nat len < fuel)%nat ->
  exists c', vdrive_rel_close fuel c = Some (SERIAL_OK, c') /\ stored_on (padded len s) (drive c') /\
    slot c' = Freed_slot /\ cmode c' = BUFFER_NOT_IN_USE.
Proof.
  intros Hrep Hfuel. destruct fuel as [|fuel]; [lia|]. destruct (held_open _ _ (proj1 Hrep)) as (cur & Hf).
  destruct (fill_run _ (S fuel) s c (record c) (writes_write fuel) (proj1 Hrep) Hfuel) as (cur1 & c1 & Hrun1 & Hf1 & Hb1 & _).
  { intros Hwr. destruct Hrep as [[_ Hs] _]. destruct (beyond s); [destruct Hs; congruence|]. destruct Hs as (k & _ & Hpl & Er & _).
    rewrite Er. apply Hpl. }
  rewrite set_record_self in Hrun1. destruct (commit_run _ _ _ Hf1) as (c2 & Hrun2 & Hf2 & _ & _ & _ & _ & Hfl2).
  unfold vdrive_rel_close, vdrive_rel_fillrecord, mbind, ST_bind. rewrite (bind_run _ _ _ _ _ (no_switch _ _ _ Hf)).
  rewrite (bind_run _ _ _ _ _ Hrun1), (bind_run _ _ _ _ _ Hrun2). eexists. split; [reflexivity|]. split; [|done].
  destruct (of_disk _ _ _ Hf2) as (image & Hg & Hd). exists image. split; [exact Hg|]. intros k Hk. apply Hd; [done|right].
  exact (f_equal (fun z => z.1.1) Hfl2).
Qed.

(** ** Opening *)

(** The file on the disk: its entry [e] and its side sectors [sides], a single group *)
Record relative_file (sides : list (Z * Z * mem)) (f : Z -> Z) (e : mem) : Prop := {
  rf_length : getb e SLOT_RECORD_LENGTH = Some len;
  rf_head : exists t s b l, sides = (t, s, b) :: l /\ getb e SLOT_SIDE_TRACK = Some t /\ getb e SLOT_SIDE_SECTOR = Some s;
  rf_count : (length sides <= 6)%nat;
  rf_blocks : SIDE_INDEX_MAX * (Z.of_nat (length sides) - 1) < n <= SIDE_INDEX_MAX * Z.of_nat (length sides);
  rf_chain : forall i t s b, sides !! i = Some (t, s, b) ->
    1 <= t <= 255 /\ 0 <= s <= 255 /\ has disk t s b /\ mlen b = 256 /\ getb b OFFSET_SECTOR_NUM = Some (Z.of_nat i) /\
    match sides !! S i with
    | Some (t', s', _) => getb b OFFSET_NEXT_TRACK = Some t' /\ getb b OFFSET_NEXT_SECTOR = Some s'
    | None => getb b OFFSET_NEXT_TRACK = Some 0 /\
        getb b OFFSET_NEXT_SECTOR = Some (OFFSET_POINTER - 1 + 2 * (n - SIDE_INDEX_MAX * (Z.of_nat (length sides) - 1)))
    end;
  rf_side : side = concat sides.*2 ++ replicate (256 * (6 - length sides)) 0;
  rf_data : forall k, 0 <= k < n -> has disk (addr k).1 (addr k).2 (block f k);
  rf_max : max = ((n - 1) * 254 + last - 1) / len
}.

Section opening.
Context (sides : list (Z * Z * mem)) (f : Z -> Z) (e : mem).
Hypothesis (Hrf : relative_file sides f e).

(** The side sectors that were read: the first [i] *)
Definition filled (i : nat) : mem := concat (take i sides).*2 ++ replicate (256 * (6 - i)) 0.

Lemma filled_length (l : list (Z * Z * mem)) : Forall (fun x => mlen x.2 = 256) l -> length (concat l.*2) = (256 * length l)%nat.
Proof.
  induction 1 as [|[[t s] b] l Hb _ IH]; [done|]. cbn [fmap list_fmap concat length snd] in *. rewrite length_app, IH.
  unfold mlen in Hb. cbn [snd] in Hb. lia.
Qed.

Lemma sides_length : Forall (fun x => mlen x.2 = 256) sides.
Proof. apply Forall_lookup. intros i [[t s] b] Hi. by apply (rf_chain _ _ _ Hrf) in Hi as (_ & _ & _ & Hb & _). Qed.

Lemma filled_pre i : (i <= length sides)%nat -> length (concat (take i sides).*2) = (256 * i)%nat.
Proof. intros Hi. rewrite filled_length by (apply Forall_take, sides_length). rewrite length_take. lia. Qed.

Lemma filled_mlen i : (i <= length sides)%nat -> mlen (filled i) = 1536.
Proof.
  intros Hi. pose proof (rf_count _ _ _ Hrf). unfold filled, mlen. rewrite length_app, filled_pre, length_replicate by done. lia.
Qed.

Lemma filled_next i t s b : sides !! i = Some (t, s, b) -> splice (filled i) (Z.of_nat i * 256) b = Some (filled (S i)).
Proof.
  intros Hi. pose proof (lookup_lt_Some _ _ _ Hi) as Hlt. pose proof (rf_count _ _ _ Hrf).
  destruct (rf_chain _ _ _ Hrf _ _ _ _ Hi) as (_ & _ & _ & Hb & _). unfold splice.
  rewrite Hb, filled_mlen, !(proj2 (Z.leb_le _ _)) by lia. cbn [andb]. f_equal. unfold mlen in Hb.
  unfold filled. rewrite (take_S_r _ _ _ Hi), fmap_app, concat_app. cbn [fmap list_fmap concat snd]. rewrite app_nil_r.
  replace (Z.to_nat (Z.of_nat i * 256)) with (256 * i)%nat by lia.
  rewrite <- (filled_pre i) at 1 by lia. rewrite take_app_length, <- app_assoc. do 2 f_equal.
  rewrite drop_app, filled_pre, drop_ge, drop_replicate by (rewrite ?filled_pre; lia). cbn [app]. f_equal. lia.
Qed.

Record loading (i : nat) (c : channel_t) : Prop := {
  lo_slot : slot c = A_slot e;
  lo_part : 0 <= partition (clist c);
  lo_drive : good (drive c) disk;
  lo_sectors : forall k, 0 <= k < n -> file_sector (drive c) (addr k);
  lo_side : side_sector (crel c) = Some (filled i);
  lo_tracks : exists m, side_sector_track (crel c) = Some m /\ mlen m = 6;
  lo_numbers : exists m, side_sector_sector (crel c) = Some m /\ mlen m = 6
}.

(** What [read_group] leaves alone *)
Definition groups_of (c : channel_t) : option mem * Z := (super_side_sector (crel c), needsupdate c).

Lemma put_address_run i c j t s : loading i c -> 0 <= j < 6 ->
  exists c', put_address j t s c = Some (tt, c') /\ loading i c' /\ groups_of c' = groups_of c.
Proof.
  intros [L1 L2 L3 L4 L5 (m1 & L6 & H6) (m2 & L7 & H7)] Hj.
  unfold put_address, put_block, mbind, ST_bind, bindST, update. rewrite L6. cbn [mbind option_bind]. rewrite putb_eq by lia.
  cbn [mbind option_bind crel set_crel set_side_sector_track side_sector_sector]. rewrite L7. cbn [mbind option_bind].
  rewrite putb_eq by lia. cbn [mbind option_bind]. eexists. split; [reflexivity|]. split; [|done].
  split; try done; cbn; eexists; (split; [reflexivity|]); by rewrite mlen_insert.
Qed.

Lemma filled_byte i j t s b x : sides !! i = Some (t, s, b) -> (i < j <= length sides)%nat ->
  forall o, getb b o = Some x -> getb (filled j) (Z.of_nat i * 256 + o) = Some x.
Proof.
  intros Hi Hj o Ho. pose proof (getb_lt _ _ _ Ho) as Hr. apply getb_Some in Ho as [_ Ho]. apply getb_Some. split; [lia|].
  destruct (rf_chain _ _ _ Hrf _ _ _ _ Hi) as (_ & _ & _ & Hb & _). unfold mlen in *. unfold filled.
  rewrite <- (take_drop_middle (take j sides) i (t, s, b)) by (by rewrite lookup_take_lt by lia).
  rewrite take_take, Nat.min_l, fmap_app, concat_app by lia. cbn [fmap list_fmap concat snd]. rewrite <- !app_assoc.
  rewrite lookup_app_r; rewrite filled_pre by lia; [|lia]. rewrite lookup_app_l by lia. rewrite <- Ho. f_equal. lia.
Qed.

Lemma read_group_run k : forall i t s b c, (i + k = 6)%nat -> sides !! i = Some (t, s, b) -> loading i c ->
  exists c', read_group k 0 (Z.of_nat i) t s c = Some (true, c') /\ loading (length sides) c' /\ groups_of c' = groups_of c.
Proof.
  induction k as [|k IH]; intros i t s b c Hk Hi Hl; pose proof (lookup_lt_Some _ _ _ Hi) as Hlt; pose proof (rf_count _ _ _ Hrf); [lia|].
  cbn [read_group]. rewrite Z.mul_0_l, Z.add_0_r. destruct (put_address_run i c (Z.of_nat i) t s Hl) as (c1 & Hrun1 & [L1 L2 L3 L4 L5 L6 L7] & Hg1); [lia|].
  destruct (rf_chain _ _ _ Hrf _ _ _ _ Hi) as (Ht & Hs & Hhas & Hb & Hnum & Hnext).
  unfold mbind at 1, ST_bind at 1. rewrite (bind_run _ _ _ _ _ Hrun1). unfold bindST at 1, state. rewrite L5. cbn [mbind option_bind].
  destruct (slice_run (filled i) (Z.of_nat i * 256) 256) as (b0 & Hb0 & Hb0l); [lia|lia|rewrite filled_mlen; lia|].
  rewrite (bind_run (lift _) _ c1 b0 c1) by (unfold lift; by rewrite Hb0).
  rewrite (bind_run _ _ _ _ _ (on_cdrive_run _ c1 _ _ (read_run _ _ _ _ _ b0 (proj2 L3) Hhas Hb0l))).
  set (c2 := set_drive (set_image_mode 0 (drive c1)) c1).
  set (c3 := set_crel (set_side_sector (Some (filled (S i))) (crel c2)) c2).
  unfold mbind at 1, ST_bind at 1. rewrite (bind_run _ _ c2 tt c3).
  2: { unfold update. change (side_sector (crel c2)) with (side_sector (crel c1)). rewrite L5. cbn [mbind option_bind].
       rewrite (filled_next _ _ _ _ Hi). done. }
  change (negb (CBMDOS_IPE_OK =? 0)) with false. cbv iota.
  assert (Hl3 : loading (S i) c3).
  { split; try done. by apply good_mode. }
  assert (Hbyte : forall o x, getb b o = Some x -> get_side (Z.of_nat i * 256 + o) c3 = Some (x, c3)).
  { intros o x Hx. apply (side_run c3 (filled (S i))); [done|]. eapply filled_byte; [exact Hi|lia|done]. }
  rewrite (bind_run _ _ _ _ _ (Hbyte _ _ Hnum)), Z.eqb_refl. cbn [negb].
  assert (Hg3 : groups_of c3 = groups_of c) by exact Hg1.
  destruct (sides !! S i) as [[[t' s'] b']|] eqn:Hn; destruct Hnext as [Hn0 Hn1].
  - rewrite (bind_run _ _ _ _ _ (Hbyte _ _ Hn0)), (bind_run _ _ _ _ _ (Hbyte _ _ Hn1)).
    destruct (rf_chain _ _ _ Hrf _ _ _ _ Hn) as (Ht' & _). rewrite (proj2 (Z.eqb_neq t' 0)) by lia.
    replace (Z.of_nat i + 1) with (Z.of_nat (S i)) by lia.
    destruct (IH (S i) t' s' b' c3) as (c4 & Hrun4 & Hl4 & Hg4); [lia|done|done|]. exists c4. split; [done|]. split; [done|congruence].
  - rewrite (bind_run _ _ _ _ _ (Hbyte _ _ Hn0)), (bind_run _ _ _ _ _ (Hbyte _ _ Hn1)). change (0 =? 0) with true. cbv iota.
    exists c3. split; [done|]. apply lookup_ge_None in Hn. replace (length sides) with (S i) by lia. done.
Qed.

Lemma malloc_length k : 0 <= k -> mlen (lib_malloc k) = k.
Proof. intros Hk. unfold lib_malloc, mlen. rewrite length_fmap, length_seqZ. lia. Qed.

(** The super side sector that is made up *)
Definition made_up (t s : Z) : mem := u8 t :: u8 s :: 254 :: u8 t :: u8 s :: replicate 251 0.

Lemma real_super_run c b t s : super_side_sector (crel c) = Some b -> getb b OFFSET_SUPER_254 = Some 0 ->
  real_super t s c = Some (tt, set_crel (set_super_side_sector_track 0 (set_super_side_sector_sector 0
    (set_super_side_sector (Some (made_up t s)) (crel c)))) c).
Proof.
  intros Hb H2. unfold real_super.
  rewrite (bind_run _ _ c 0 c) by (unfold get_super, get_block, bindST, state, lift; rewrite Hb; cbn [mbind option_bind]; by rewrite H2).
  reflexivity.
Qed.

Lemma groups_one bound c t s : super_side_sector (crel c) = Some (made_up t s) -> 1 <= t <= 255 ->
  groups bound c = Some (1, c).
Proof.
  intros Hm Ht. unfold groups, bindST, state, lift. rewrite Hm. cbn [mbind option_bind].
  assert (groups_from 128 bound (made_up t s) 0 = Some 1) as ->; [|done].
  unfold groups_from. change (SIDE_SUPER_MAX <=? 0) with false. rewrite andb_false_r.
  change (getb (made_up t s) (OFFSET_SUPER_POINTER + 0 * 2)) with (Some (u8 t)). cbn [mbind option_bind].
  unfold u8. rewrite Z.mod_small by lia. rewrite (proj2 (Z.eqb_neq t 0)) by lia.
  change (SIDE_SUPER_MAX <=? 0 + 1) with false. rewrite andb_false_r. reflexivity.
Qed.

(** An opened channel before its buffers are allocated *)
Definition opened (c : channel_t) : Prop := loading (length sides) c /\
  exists t s, 1 <= t <= 255 /\ super_side_sector (crel c) = Some (made_up t s).

Lemma open_existing_run c : slot c = A_slot e -> 0 <= partition (clist c) -> good (drive c) disk ->
  (forall k, 0 <= k < n -> file_sector (drive c) (addr k)) ->
  exists c', vdrive_rel_open_existing c = Some (0, c') /\ opened c' /\ needsupdate c' = needsupdate c.
Proof.
  intros Hslot Hpart Hg Hsec. destruct (rf_head _ _ _ Hrf) as (t & s & b & l & Hsides & Ht & Hs).
  assert (Hi : sides !! 0%nat = Some (t, s, b)) by (by rewrite Hsides).
  destruct (rf_chain _ _ _ Hrf _ _ _ _ Hi) as (Htr & Hsr & Hhas & Hb & Hnum & _).
  unfold vdrive_rel_open_existing. rewrite (bind_run _ _ _ _ _ (slot_run c e _ _ Hslot Ht)).
  rewrite (bind_run _ _ _ _ _ (slot_run c e _ _ Hslot Hs)).
  rewrite (bind_run _ _ _ _ _ (on_cdrive_run _ c _ _ (read_run _ _ _ _ _ _ (proj2 Hg) Hhas (malloc_length 256 ltac:(lia))))).
  change (negb (CBMDOS_IPE_OK =? 0)) with false. cbv iota. set (c1 := set_drive (set_image_mode 0 (drive c)) c).
  set (ca := set_crel (set_super_side_sector (Some b) (crel c1)) c1).
  unfold mbind, ST_bind. rewrite (bind_run _ _ c1 tt ca) by done.
  rewrite (bind_run _ _ _ _ _ (real_super_run ca b t s eq_refl Hnum)).
  match goal with |- context [bindST (upd_rel ?g) _ ?d] => set (c2 := set_crel (g (crel d)) d); rewrite (bind_run _ _ d tt c2) by done end.
  rewrite (bind_run _ _ _ _ _ (groups_one false c2 t s eq_refl Htr)).
  match goal with |- context [bindST (clear_sides ?k) _ _] => change k with 6 end.
  match goal with |- context [bindST ?m _ c2] => assert (exists c3, m c2 = Some (tt, c3) /\ loading 0 c3 /\ groups_of c3 = groups_of c2) as (c3 & Hrun3 & Hl3 & Hg3) end.
  { eexists. split; [reflexivity|]. split; [|done]. split; try done; [by apply good_mode| |]; eexists; (split; [reflexivity|done]). }
  rewrite (bind_run _ _ _ _ _ Hrun3). change (Z.to_nat 1) with 1%nat. cbn [read_groups].
  assert (Hsup : forall o x, getb (made_up t s) o = Some x -> get_super o c3 = Some (x, c3)).
  { intros o x Hx. unfold get_super, get_block, bindST, state, lift. change (super_side_sector (crel c3)) with (groups_of c3).1. rewrite Hg3.
    change (groups_of c2).1 with (Some (made_up t s)). cbn [mbind option_bind]. by rewrite Hx. }
  assert (u8 t = t /\ u8 s = s) as [Et Es] by (unfold u8; split; apply Z.mod_small; lia).
  destruct (read_group_run 6 0%nat t s b c3 ltac:(lia) Hi Hl3) as (c4 & Hrun4 & Hl4 & Hg4).
  exists c4. split; [|split; [split; [done|]; exists t, s; split; [done|]; change ((groups_of c4).1 = Some (made_up t s)); by rewrite Hg4, Hg3|
    change ((groups_of c4).2 = needsupdate c); by rewrite Hg4, Hg3]].
  unfold bindST at 1. unfold bindST at 1. rewrite (Hsup (OFFSET_SUPER_POINTER + 0 * 2) (u8 t) eq_refl). unfold bindST at 1. rewrite (Hsup (OFFSET_SUPER_POINTER + 0 * 2 + 1) (u8 s) eq_refl), Et, Es.
  by rewrite (bind_run _ _ _ _ _ Hrun4).
Qed.

(** The last side sector and the last block *)
Lemma side_byte i t s b o x : sides !! i = Some (t, s, b) -> getb b o = Some x -> forall c, side_sector (crel c) = Some side ->
  get_side (Z.of_nat i * 256 + o) c = Some (x, c).
Proof.
  intros Hi Hx c Hc. apply (side_run c side); [done|]. pose proof (lookup_lt_Some _ _ _ Hi).
  rewrite (rf_side _ _ _ Hrf). pose proof (filled_byte i (length sides) t s b x Hi ltac:(lia) o Hx) as Hb. unfold filled in Hb.
  by rewrite firstn_all in Hb.
Qed.

Lemma last_side_run k : forall i c, (i < length sides <= i + k)%nat -> side_sector (crel c) = Some side ->
  last_side k 0 (Z.of_nat i) c = Some (Z.of_nat (length sides) - 1, c).
Proof.
  induction k as [|k IH]; intros i c Hi Hc; [lia|]. cbn [last_side].
  destruct (lookup_lt_is_Some_2 sides i) as [[[t s] b] Hb]; [lia|].
  destruct (rf_chain _ _ _ Hrf _ _ _ _ Hb) as (_ & _ & _ & _ & _ & Hnext).
  replace (256 * (0 * SIDE_SECTORS_MAX) + OFFSET_NEXT_TRACK + Z.of_nat i * 256) with (Z.of_nat i * 256 + OFFSET_NEXT_TRACK) by (unfold SIDE_SECTORS_MAX; lia).
  destruct (sides !! S i) as [[[t' s'] b']|] eqn:Hn; destruct Hnext as [Hn0 _]; rewrite (bind_run _ _ _ _ _ (side_byte _ _ _ _ _ _ Hb Hn0 c Hc)).
  - destruct (rf_chain _ _ _ Hrf _ _ _ _ Hn) as (Ht' & _). rewrite (proj2 (Z.eqb_neq t' 0)) by lia.
    apply lookup_lt_Some in Hn. replace (Z.of_nat i + 1) with (Z.of_nat (S i)) by lia. apply IH; [lia|done].
  - change (0 =? 0) with true. cbv iota. apply lookup_ge_None in Hn. cbn. do 2 f_equal. lia.
Qed.

Lemma record_max_run c : opened c -> place c = Heap -> mlen (buf c) = 256 ->
  exists c', vdrive_rel_record_max c = Some (max, c') /\ c' = set_buffer (block f (n - 1)) (set_drive (set_image_mode 0 (drive c)) c).
Proof.
  intros [[L1 L2 L3 L4 L5 _ _] (t & s & Ht & Hsup)] Hplace Hlen. pose proof (rf_blocks _ _ _ Hrf) as Hbl.
  pose proof (rf_count _ _ _ Hrf) as Hc. pose proof (ly_blocks Hly). pose proof (ly_len Hly). pose proof (ly_last Hly).
  assert (Hside : side_sector (crel c) = Some side).
  { rewrite L5, (rf_side _ _ _ Hrf). unfold filled. by rewrite firstn_all. }
  unfold vdrive_rel_record_max. rewrite (bind_run _ _ _ _ _ (groups_one true c t s Hsup Ht)).
  change (1 =? 0) with false. cbv iota. change (1 - 1) with 0.
  destruct (rf_head _ _ _ Hrf) as (t0 & s0 & b0 & l & Hsides & _). set (m := length sides) in *.
  assert (Hm : (1 <= m)%nat) by (unfold m; rewrite Hsides; cbn; lia).
  rewrite (bind_run _ _ _ _ _ (last_side_run 6 0 c ltac:(unfold m in *; lia) Hside)).
  destruct (lookup_lt_is_Some_2 sides (m - 1)) as [[[t1 s1] b1] Hb1]; [unfold m in *; lia|].
  destruct (rf_chain _ _ _ Hrf _ _ _ _ Hb1) as (_ & _ & _ & _ & _ & Hnext).
  rewrite (lookup_ge_None_2 sides (S (m - 1))) in Hnext by (unfold m in *; lia). destruct Hnext as [_ Hn1]. fold m in Hn1.
  set (j := n - SIDE_INDEX_MAX * (Z.of_nat m - 1)) in *. assert (Hj : 1 <= j <= 120) by (unfold j, SIDE_INDEX_MAX in *; lia).
  unfold last_index. fold m.
  replace (256 * (Z.of_nat m - 1 + 0 * SIDE_SECTORS_MAX) + OFFSET_NEXT_SECTOR) with (Z.of_nat (m - 1) * 256 + OFFSET_NEXT_SECTOR) by (unfold SIDE_SECTORS_MAX; lia).
  rewrite (bind_run _ _ c j c).
  2: { rewrite (bind_run _ _ _ _ _ (side_byte _ _ _ _ _ _ Hb1 Hn1 c Hside)). cbn [mret ST_ret]. do 2 f_equal.
       replace (OFFSET_POINTER - 1 + 2 * j + 1 - OFFSET_POINTER) with (j * 2) by (unfold OFFSET_POINTER; lia).
       rewrite Z.quot_mul by lia. apply u32_small. lia. }
  rewrite (u32_small (j - 1)) by lia.
  assert (Hdiv : (n - 1) / SIDE_INDEX_MAX = Z.of_nat m - 1 /\ (n - 1) mod SIDE_INDEX_MAX = j - 1).
  { unfold j, SIDE_INDEX_MAX in *. Z.to_euclidean_division_equations; lia. }
  destruct (ly_side Hly (n - 1) ltac:(lia)) as [Ha1 Ha2]. destruct Hdiv as [Hd1 Hd2]. rewrite Hd1, Hd2 in Ha1, Ha2.
  unfold block_address. rewrite (u32_small (256 * _ + _ + _)) by (unfold SIDE_SECTORS_MAX, OFFSET_POINTER; lia).
  rewrite u32_small by (unfold SIDE_SECTORS_MAX, OFFSET_POINTER; lia).
  replace (256 * (Z.of_nat m - 1 + 0 * SIDE_SECTORS_MAX) + OFFSET_POINTER + 2 * (j - 1))
    with (OFFSET_POINTER + 256 * (Z.of_nat m - 1) + 2 * (j - 1)) by (unfold SIDE_SECTORS_MAX; lia).
  rewrite (bind_run _ _ c (addr (n - 1)) c).
  2: { rewrite (bind_run _ _ _ _ _ (side_run c side _ _ Hside Ha1)), (bind_run _ _ _ _ _ (side_run c side _ _ Hside Ha2)). by destruct (addr (n - 1)). }
  destruct (addr (n - 1)) as [tl sl] eqn:Haddr. pose proof (rf_data _ _ _ Hrf (n - 1) ltac:(lia)) as Hhas. rewrite Haddr in Hhas.
  rewrite (bind_run _ _ _ _ _ (read_buffer_eq c disk tl sl _ Hplace L3 Hlen Hhas)).
  change (negb (0 =? 0)) with false. cbv iota. set (c' := set_buffer _ _). exists c'. split; [|done].
  destruct (block_end f) as [_ Hl1]. rewrite (bind_run _ _ _ _ _ (get_run c' 1 last Hplace Hl1)).
  rewrite (bind_run _ _ _ _ _ (slot_run c' e _ _ L1 (rf_length _ _ _ Hrf))). rewrite (proj2 (Z.eqb_neq len 0)) by lia.
  cbn [mret ST_ret]. do 2 f_equal. rewrite (rf_max _ _ _ Hrf), u32_small.
  - f_equal. unfold SIDE_SECTORS_MAX, j, SIDE_INDEX_MAX in *. lia.
  - pose proof (ly_end Hly). pose proof (ly_max Hly). unfold SIDE_SECTORS_MAX, j, SIDE_INDEX_MAX in *. nia.
Qed.

(** The first record of the opened file *)
Definition start : session := Session f 0 0 false false.

Lemma begin_run fuel c : opened c -> flags c = (false, false, false) -> (Z.to_nat len < fuel)%nat ->
  exists c', begin_relative fuel false c = Some (SERIAL_OK, c') /\ represents start c'.
Proof.
  intros Hop Hfl Hfuel. unfold begin_relative.
  match goal with |- context [upd ?g] => set (c1 := g c); unfold mbind at 1, ST_bind at 1; rewrite (bind_run (upd g) _ c tt c1) by done end.
  assert (Hop1 : opened c1).
  { destruct Hop as [[L1 L2 L3 L4 L5 L6 L7] Hsup]. by split; [split|]. }
  destruct (record_max_run c1 Hop1 eq_refl (malloc_length 256 ltac:(lia))) as (c2 & Hrun2 & Hc2).
  rewrite (bind_run _ _ _ _ _ Hrun2). set (c3 := set_crel (set_record_max max (crel c2)) c2).
  unfold mbind at 1, ST_bind at 1. rewrite (bind_run (upd_rel _) _ c2 tt c3) by done.
  unfold mbind at 1, ST_bind at 1. rewrite (bind_run (mret tt : ST channel_t unit) _ c3 tt c3) by done.
  assert (Hf3 : open_file f None c3).
  { destruct Hop1 as [[L1 L2 L3 L4 L5 L6 L7] Hsup]. unfold c3. rewrite Hc2. split; try done.
    - exists e. split; [done|apply Hrf].
    - cbn. change (side_sector (crel c)) with (side_sector (crel c1)). rewrite L5, (rf_side _ _ _ Hrf). unfold filled.
      by rewrite firstn_all.
    - exists disk. split; [split; [by apply good_mode|done]|]. intros k Hk _. by apply Hrf.
    - split; [done|]. split; [apply mlen_block|]. exact (f_equal (fun z => z.1.1) Hfl).
    - eexists. split; [reflexivity|]. split; [apply malloc_length; lia|by left]. }
  assert (Hheld : held (Session f 0 0 false true) c3).
  { split; [|by split; [|exists None]]. eapply begun_flags. unfold c3. rewrite Hc2. exact Hfl. }
  pose proof (ly_len Hly). pose proof (ly_max Hly).
  destruct (position_internal_run fuel (Session f 0 0 false true) c3 1 0 1 Hheld Hfuel ltac:(lia) ltac:(lia) ltac:(lia)
    (CBMDOS_IPE_OK, None) start) as (c4 & Hrun4 & Hrep & _); [|left; lia|].
  { cbn [step]. change (if 1 =? 0 then 0 else 1 - 1) with 0. change (if 1 + 256 * 0 =? 0 then 0 else 1 + 256 * 0 - 1) with 0.
    rewrite !(proj2 (Z.leb_gt _ _)) by lia. reflexivity. }
  unfold mbind, ST_bind. rewrite (bind_run _ _ _ _ _ Hrun4). by exists c4.
Qed.

Lemma open_run fuel cmd c : slot c = A_slot e -> 0 <= partition (clist c) -> good (drive c) disk ->
  (forall k, 0 <= k < n -> file_sector (drive c) (addr k)) -> needsupdate c = 0 -> (Z.to_nat len < fuel)%nat ->
  exists c', vdrive_rel_open fuel cmd c = Some (SERIAL_OK, c') /\ represents start c'.
Proof.
  intros Hslot Hpart Hg Hsec Hclean Hfuel.
  destruct (open_existing_run c Hslot Hpart Hg Hsec) as (c1 & Hrun1 & Hop & Hn).
  destruct (begin_run fuel c1 Hop) as (c2 & Hrun2 & Hrep); [unfold flags, dirty; by rewrite Hn, Hclean|done|].
  exists c2. split; [|done]. unfold vdrive_rel_open, bindST at 1, state. rewrite Hslot. by rewrite (bind_run _ _ _ _ _ Hrun1).
Qed.
End opening.

(** Opening the file, the operations, and closing it *)
Definition serve (fuel : nat) (cmd : cbmdos_cmd_parse_plus_t) (l : list op) : ST channel_t (list (Z * option Z)) :=
  vdrive_rel_open fuel cmd;;
  let! answers := run_all fuel l in
  vdrive_rel_close fuel;;
  mret answers.

(** C3: A relative file of records of up to 127 bytes that is opened, positioned, read, written and closed answers every
    operation as the array of its bytes does, for any sequence of operations inside its records; at the end its data
    blocks hold the array, the begun record padded with zeros, and no other sector of the disk has changed. *)
Theorem rel_refines_array sides f e fuel cmd c l a s :
  relative_file sides f e -> slot c = A_slot e -> 0 <= partition (clist c) -> good (drive c) disk ->
  (forall k, 0 <= k < n -> file_sector (drive c) (addr k)) -> needsupdate c = 0 -> (Z.to_nat len < fuel)%nat ->
  Forall op_ok l -> steps len max l (start f) = Some (a, s) ->
  exists c', serve fuel cmd l c = Some (a, c') /\ stored_on (padded len s) (drive c').
Proof.
  intros Hrf Hslot Hpart Hg Hsec Hclean Hfuel Hok Hsteps.
  destruct (open_run sides f e Hrf fuel cmd c Hslot Hpart Hg Hsec Hclean Hfuel) as (c1 & Hrun1 & Hrep1).
  destruct (run_all_ok fuel l _ _ _ _ Hrep1 Hfuel Hok Hsteps) as (c2 & Hrun2 & Hrep2).
  destruct (close_run fuel s c2 Hrep2 Hfuel) as (c3 & Hrun3 & Hstored & _).
  exists c3. split; [|done]. unfold serve, mbind, ST_bind.
  by rewrite (bind_run _ _ _ _ _ Hrun1), (bind_run _ _ _ _ _ Hrun2), (bind_run _ _ _ _ _ Hrun3).
Qed.
End layout.
End file.

(** ** What fails *)

(** The state behind the last byte of a record whose successor begins in the next sector:
    that sector is in the second buffer. *)
Record short_record (len : Z) (c : channel_t) : Prop := {
  sh_place : place c = Heap;
  sh_link : getb (buf c) 0 = Some (track_next (crel c)) /\ getb (buf c) 1 = Some (sector_next (crel c)) /\
    track_next (crel c) <> 0;
  sh_next : exists b, buffer_next (crel c) = Some b /\ mlen b = 256;
  sh_byte : exists x, getb (buf c) (cbufptr c) = Some x;
  sh_end : clength c <= cbufptr c < 256;
  sh_len : exists m, side_sector (crel c) = Some m /\ getb m OFFSET_RECORD_LEN = Some len;
  sh_more : 0 <= record c /\ record c + 1 < record_max (crel c) < 4294967296;
  sh_range : 0 <= record_next (crel c) /\ 0 <= len /\ record_next (crel c) + len < 4294967296
}.

(** C39: When a short record ends in front of a long one that reaches beyond the next sector, the search for the end of
    the long one reads behind the buffer of 256 bytes. *)
Theorem long_record_overrun len c : short_record len c -> 511 <= record_next (crel c) + len ->
  vdrive_rel_read c = None.
Proof.
  intros [H1 (H2 & H3 & H4) (b & H5 & H6) (x & H7) H8 (m & H9 & H10) H11 H12] Hlong.
  pose proof (getb_lt _ _ _ H7) as Hp. unfold vdrive_rel_read, bindST at 1, state. rewrite (proj2 (Z.leb_gt _ _)) by lia.
  rewrite (bind_run _ _ c None c).
  2: { unfold read_ready. rewrite (bind_run _ _ _ _ _ (get_run c 0 _ H1 H2)). unfold bindST at 1, state.
       rewrite (proj2 (Z.eqb_neq _ 0)) by done. cbn [negb]. by rewrite (proj2 (Z.leb_gt _ _)) by lia. }
  unfold bindST at 1, state. rewrite (bind_run _ _ _ _ _ (get_run c _ x H1 H7)). rewrite u32_small by lia.
  unfold mbind at 1, ST_bind at 1. set (c1 := set_bufptr (cbufptr c + 1) c). rewrite (bind_run (upd _) _ c tt c1) by done.
  unfold bindST at 1, state. change (clength c1) with (clength c). change (cbufptr c1) with (cbufptr c + 1).
  rewrite (proj2 (Z.ltb_lt _ _)) by lia. unfold mbind at 1, ST_bind at 1. unfold next_record.
  unfold bindST at 1. rewrite (bind_run _ _ _ _ _ (side_run c1 m _ _ H9 H10)). unfold upd, modify. unfold bindST at 1, state.
  cbn [record_max record_next crel set_clist set_clength set_record set_crel set_record_next record].
  change (record c1) with (record c). change (crel c1) with (crel c).
  rewrite (u32_small (record c + 1)), (u32_small (record_next (crel c) + len)), (u32_small (_ - 1)) by lia.
  rewrite (proj2 (Z.leb_gt _ _)) by lia. unfold mbind at 1, ST_bind at 1. unfold bindST at 1.
  set (c2 := set_clist _ _). unfold measure at 1, bindST at 1, state.
  change (clength c2) with (record_next (crel c) + len - 1). rewrite (proj2 (Z.ltb_ge _ 256)) by lia.
  unfold load_next. unfold bindST at 1. rewrite (bind_run _ _ _ _ _ (get_run c2 0 _ H1 H2)).
  rewrite (proj2 (Z.eqb_neq (track_next (crel c)) 0)) by done. rewrite (bind_run _ _ _ _ _ (get_run c2 1 _ H1 H3)).
  unfold bindST at 1, state. change (track_next (crel c2)) with (track_next (crel c)). change (sector_next (crel c2)) with (sector_next (crel c)).
  rewrite !Z.eqb_refl. cbn [negb orb]. unfold bindST at 1, mret, ST_ret. change (0 =? 0) with true. cbv iota.
  unfold mbind at 1, ST_bind at 1. unfold bindST at 1, upd_rel, upd, modify. unfold mbind at 1, ST_bind at 1. unfold bindST at 1.
  unfold trim_next, bindST at 1, state. cbn [buffer_next crel set_crel set_track_next set_sector_next].
  change (buffer_next (crel c2)) with (buffer_next (crel c)). rewrite H5. unfold lift at 1, bindST at 1.
  unfold trim_end, bindST at 1, state. cbn [clength set_crel]. change (clength c2) with (record_next (crel c) + len - 1).
  cbn [trim]. rewrite (proj2 (Z.leb_le 256 _)) by lia.
  assert (getb b (record_next (crel c) + len - 1 - 254) = None) as ->; [|done].
  unfold getb. rewrite (proj2 (Z.leb_le 0 _)) by lia. apply lookup_ge_None. unfold mlen in H6. lia.
Qed.

(** A record was begun, its rest lies in the next sector, and that cannot be read. *)
Record cut_off (t s rc : Z) (c : channel_t) : Prop := {
  cu_place : place c = Heap;
  cu_image : image_set (drive c) = true;
  cu_link : getb (buf c) 0 = Some t /\ getb (buf c) 1 = Some s /\ t <> 0;
  cu_flags : flags c = (false, true, true);
  cu_switch : switch c = Some (CBMDOS_IPE_OK, c);
  cu_pos : 256 <= cbufptr c < record_next (crel c);
  cu_record : record c < record_max (crel c);
  cu_other : (ctrack c, csector c) <> (t, s) /\ (track_next (crel c), sector_next (crel c)) <> (t, s);
  cu_read : VDrive.vdrive_read_sector (buf c) t s (drive c) = Some ((rc, buf c), drive c);
  cu_code : rc <> 0
}.

Lemma cut_off_write fuel t s rc c x : cut_off t s rc c -> vdrive_rel_write (S fuel) x c = Some (SERIAL_EOF, c).
Proof.
  intros [H1 H2 (H3 & H4 & H5) H6 H7 H8 H9 [H10 H11] H12 H13].
  change (vdrive_rel_write (S fuel) x) with (write_byte (vdrive_rel_write fuel) fuel x). unfold write_byte.
  rewrite (bind_run _ _ c None c) by (unfold find_image, bindST, state; by rewrite H2).
  unfold bindST at 1, state. rewrite (proj2 (Z.leb_gt _ _)) by done.
  rewrite (bind_run (mret None : ST channel_t (option Z)) _ c None c) by done.
  rewrite (bind_run _ _ c (Some SERIAL_EOF) c); [done|]. unfold write_ready.
  rewrite (bind_run _ _ _ _ _ (get_run c 0 _ H1 H3)). unfold bindST at 1, state. rewrite (proj2 (Z.eqb_neq t 0)) by done.
  cbn [negb]. rewrite (proj2 (Z.leb_le _ _)) by lia. rewrite (bind_run _ _ c false c); [done|]. unfold next_sector.
  rewrite (bind_run _ _ _ _ _ (get_run c 0 _ H1 H3)), (bind_run _ _ _ _ _ (get_run c 1 _ H1 H4)).
  unfold mbind at 1, ST_bind at 1. rewrite (bind_run _ _ c tt c) by (unfold mbind, ST_bind; by rewrite (bind_run _ _ _ _ _ H7)).
  unfold mbind at 1, ST_bind at 1. rewrite (bind_run _ _ c tt c).
  2: { unfold vdrive_rel_commit, bindST, state. apply (f_equal (fun z => z.1.1)) in H6. cbn [flags fst] in H6. by rewrite H6. }
  unfold bindST at 1, state.
  assert ((track_next (crel c) =? t) && (sector_next (crel c) =? s) = false) as ->.
  { apply andb_false_iff. rewrite !Z.eqb_neq. destruct (decide (track_next (crel c) = t)) as [E|]; [right|by left]. congruence. }
  assert (negb (ctrack c =? t) || negb (csector c =? s) = true) as ->.
  { apply orb_true_iff. rewrite !negb_true_iff, !Z.eqb_neq. destruct (decide (ctrack c = t)) as [E|]; [right|by left]. congruence. }
  rewrite (bind_run _ _ c rc c); [by rewrite (proj2 (Z.eqb_neq rc 0)) by done|].
  unfold mbind, ST_bind. rewrite (bind_run (mret tt : ST channel_t unit) _ c tt c) by done. unfold read_buffer.
  rewrite (bind_run _ _ _ _ _ (load_run c H1)). rewrite (bind_run _ _ _ _ _ (on_cdrive_run _ c _ _ H12)).
  unfold mbind, ST_bind, bindST, store_buffer, update. change (place (set_drive _ c)) with (place c). rewrite H1.
  by destruct c as [[[] ? ? ? ? ? ? ? ? ? ?] ? ? ? ? ? ? ? ? ? ? ? ?].
Qed.

(** C37: Filling a record whose rest lies in a sector that cannot be read never ends, so that no amount of fuel is
    enough to listen on the channel, to close it or to fill the record. *)
Theorem fill_never_ends fuel t s rc c : cut_off t s rc c ->
  vdrive_rel_fillrecord fuel c = None /\ vdrive_rel_close fuel c = None /\ vdrive_rel_listen fuel c = None.
Proof.
  intros Hc. assert (Hrest : forall k, fill_rest (vdrive_rel_write fuel) k c = None).
  { induction k as [|k IH]; [done|]. cbn [fill_rest]. unfold bindST at 1, state. pose proof (cu_pos _ _ _ _ Hc).
    rewrite (proj2 (Z.ltb_lt _ _)), (proj2 (Z.ltb_ge _ 256)) by lia. unfold mbind, ST_bind.
    destruct fuel as [|g]; [done|]. rewrite (bind_run _ _ c tt c); [exact IH|]. by rewrite (bind_run _ _ _ _ _ (cut_off_write g t s rc c 0 Hc)). }
  assert (Hfill : vdrive_rel_fillrecord fuel c = None).
  { unfold vdrive_rel_fillrecord, fillrecord, bindST at 1, state. pose proof (f_equal (fun z => z.1.2) (cu_flags _ _ _ _ Hc)) as Hd.
    cbn [flags fst snd] in Hd. rewrite Hd. unfold mbind, ST_bind. unfold bindST at 1. unfold bindST at 1. by rewrite Hrest. }
  split; [done|]. split.
  - unfold vdrive_rel_close, mbind, ST_bind. rewrite (bind_run _ _ _ _ _ (cu_switch _ _ _ _ Hc)). unfold bindST at 1. by rewrite Hfill.
  - unfold vdrive_rel_listen, bindST at 1, state. pose proof (f_equal (fun z => z.2) (cu_flags _ _ _ _ Hc)) as Hd.
    cbn [flags fst snd] in Hd. rewrite Hd. unfold mbind, ST_bind. rewrite (bind_run _ _ _ _ _ (cu_switch _ _ _ _ Hc)).
    unfold bindST at 1. by rewrite Hfill.
Qed.
End relative.
End RelSpec.

(** ** A concrete relative file

    Five records of 100 bytes in two blocks, of which the first five bytes are used. *)

Definition rel_bytes (i : Z) : Z := if i mod 100 <? 5 then 65 + i / 100 else 0.
Definition rel_addr (k : Z) : Z * Z := (1, 1 + k).
Definition rel_side : mem := [0; 19; 0; 100; 1; 0] ++ replicate 10 0 ++ [1; 1; 1; 2] ++ replicate 236 0.
Definition rel_sides : mem := rel_side ++ replicate 1280 0.
Definition rel_entry : mem := replicate 21 0 ++ [1; 0; 100] ++ replicate 8 0.
Definition rel_block (k : Z) : mem := RelSpec.block 2 247 rel_addr rel_bytes k.

Definition rel_data (i : Z) : Z :=
  nth (Z.to_nat (i mod 256))
    (if i / 256 =? 0 then rel_side else if i / 256 =? 1 then rel_block 0 else if i / 256 =? 2 then rel_block 1 else []) 0.
Definition rel_d64 : disk_image_t :=
  DiskImage 0 DISK_IMAGE_DEVICE_FS DISK_IMAGE_TYPE_D64 35 0 84 (Some (File 174848 rel_data true)) None 0.
Definition drive_rel : vdrive_t :=
  VDrive 8 (Some rel_d64) true 0 (geom unit_files) (bamc unit_files) (part unit_files) 0 (zeros 2048) 0 0 0.
Definition rel_channel : channel_t :=
  Channel (set_lmode BUFFER_NOT_IN_USE (listing_of (Search drive_rel empty_dir)))
    0 Null 0 (A_slot rel_entry) 0 0 0 0 0 (0, 0, []) (-1) blank_rel.

Lemma rel_d64_wf : Image.image_wf rel_d64.
Proof.
  split; [reflexivity|apply (bool_decide_eq_true_1 _); vm_compute; reflexivity|reflexivity| |].
  - eexists. split; reflexivity.
  - intros m Hm. discriminate Hm.
Qed.

Lemma good_rel : good drive_rel rel_d64.
Proof.
  split; [exists bam_files; destruct bam_ok_files; split; assumption|].
  split; [split; [reflexivity|reflexivity|apply rel_d64_wf|reflexivity]|reflexivity|vm_compute; congruence
         |reflexivity|split; vm_compute; congruence
         |vm_compute; repeat split; congruence|vm_compute; repeat split; congruence|].
  intros t s Ht Hs. exact (fv_covered _ _ file_drive_files t s Ht Hs).
Qed.

Lemma rel_has t s b : Geometry.valid_address DISK_IMAGE_TYPE_D64 t s ->
  (Geometry.disk_image_check_sector rel_d64 t s + 1) * 256 <= 174848 -> Image.sector_data rel_d64 t s = b ->
  has rel_d64 t s b.
Proof.
  intros Hv Hp <-. apply has_data; [apply rel_d64_wf|reflexivity|split; [exact Hv|intros m Hm; discriminate Hm]|].
  eexists. split; [reflexivity|exact Hp].
Qed.

Ltac solve_has := apply rel_has; [vm_compute; repeat split; congruence|vm_compute; congruence|vm_compute; reflexivity].

Lemma two_blocks k : 0 <= k < 2 -> k = 0 \/ k = 1.
Proof. lia. Qed.

Lemma rel_layout : RelSpec.layout 100 5 2 247 rel_addr rel_sides.
Proof.
  split; [lia..| | |reflexivity].
  - intros j k _ _ H. injection H. lia.
  - intros k [-> | ->]%two_blocks; split; reflexivity.
Qed.

Lemma rel_file : RelSpec.relative_file 100 5 2 247 rel_addr rel_sides rel_d64 [(1, 0, rel_side)] rel_bytes rel_entry.
Proof.
  split; [reflexivity| |cbn; lia|vm_compute; split; congruence| | | |reflexivity].
  - by exists 1, 0, rel_side, [].
  - intros [|i] t s b Hi; [|apply lookup_lt_Some in Hi; cbn in Hi; lia]. injection Hi as <- <- <-.
    split; [lia|]. split; [lia|]. split; [solve_has|]. split; [reflexivity|]. split; [reflexivity|]. split; reflexivity.
  - vm_compute. reflexivity.
  - intros k [-> | ->]%two_blocks; solve_has.
Qed.

(** [memset(&cmd_parse, 0, ...)]: opening an existing file does not look at the name. *)
Definition blank_parse : cbmdos_cmd_parse_plus_t :=
  CmdParsePlus None 0 0 0 0 None 0 None 0 None 0 None 0 None 0 0 0 0 0.

(** A record is read, another changed at its third byte and left behind, and the next one read. *)
Definition rel_ops : list RelSpec.op :=
  RelSpec.Position 3 0 1 :: replicate 5 RelSpec.Read ++
  [RelSpec.Position 2 0 3; RelSpec.Write 90; RelSpec.Listen; RelSpec.Read; RelSpec.Position 2 0 3; RelSpec.Read; RelSpec.Position 9 0 0].
Definition rel_answers : list (Z * option Z) :=
  (0, None) :: replicate 4 (0, Some 67) ++
  [(64, Some 67); (0, None); (0, None); (0, None); (0, Some 67); (0, None); (64, Some 90); (50, None)].

Lemma rel_refines_array_witness : exists s c',
  RelSpec.steps 100 5 rel_ops (RelSpec.start rel_bytes) = Some (rel_answers, s) /\
  RelSpec.serve 101 blank_parse rel_ops rel_channel = Some (rel_answers, c') /\
  RelSpec.stored_on 2 247 rel_addr rel_d64 (RelSpec.padded 100 s) (drive c').
Proof.
  assert (exists s, RelSpec.steps 100 5 rel_ops (RelSpec.start rel_bytes) = Some (rel_answers, s)) as [s Hs].
  { eexists. vm_compute. reflexivity. }
  exists s. destruct (RelSpec.rel_refines_array 100 5 2 247 rel_addr rel_sides rel_d64 rel_layout _ _ _ 101 blank_parse rel_channel
    rel_ops rel_answers s rel_file) as (c' & Hrun & Hst).
  - reflexivity.
  - vm_compute. congruence.
  - apply good_rel.
  - intros k [-> | ->]%two_blocks; vm_compute; repeat split; congruence.
  - reflexivity.
  - apply Nat.ltb_lt. reflexivity.
  - repeat constructor; cbn; lia.
  - exact Hs.
  - exists c'. split; [exact Hs|]. split; [exact Hrun|exact Hst].
Defined.

(** A channel with block [b] in the buffer, at place [p] of a record that ends at [next] *)
Definition rel_state (b : mem) (p l next d len : Z) (v : vdrive_t) : channel_t :=
  Channel (set_lbuffer b (Directory.set_bufptr p (set_lmode BUFFER_RELATIVE (listing_of (Search v empty_dir)))))
    0 Heap 0 (A_slot rel_entry) 1 1 l 1 d (0, 0, []) (-1)
    (Rel 5 next (Some (zeros 256)) 1 2 None 0 0 0 (Some [0; 15; 0; len]) None None None).

Lemma long_record_overrun_witness :
  vdrive_rel_read (rel_state (1 :: 2 :: zeros 254) 205 204 402 0 200 drive_rel) = None.
Proof.
  apply (RelSpec.long_record_overrun 200).
  - split; try (vm_compute; repeat split; congruence); [by exists (zeros 256)|by exists 0|].
    by exists [0; 15; 0; 200].
  - vm_compute. congruence.
Defined.

Lemma fill_never_ends_witness :
  let c := rel_state (99 :: 0 :: zeros 254) 260 300 340 6 100 drive_rel in
  vdrive_rel_fillrecord 50 c = None /\ vdrive_rel_close 50 c = None /\ vdrive_rel_listen 50 c = None.
Proof.
  apply (RelSpec.fill_never_ends 50 99 0 CBMDOS_IPE_ILLEGAL_TRACK_OR_SECTOR).
  split; try reflexivity; try (vm_compute; repeat split; congruence).
Defined.

