(* ===== verification/Command.v ===== *)
(** * Commands of the drive

    Models the commands of [src/lib/vdrive/vdrive-command.c] that work on one drive:
    selection of a partition and of a path, scratching, renaming and locking of files,
    directories and partitions, validation. The commands that reach the channels of the
    unit are in file [Unit].

    The commands keep their search of a directory in a local context; a computation of
    [ST search_t] is such a command. *)

From Stdlib Require Import Ascii String.
From S2P Require Import Prelude Geometry Image VDrive Bam BamAlloc Cbmdos Partition Directory Channel.
Import Directory.

Definition CBMDOS_IPE_DELETED : Z := 1.
Definition CBMDOS_IPE_SEL_PARTN : Z := 2.
Definition CBMDOS_IPE_PATH_NOT_FOUND : Z := 39.
Definition CBMDOS_IPE_DIRECTORY_ERROR : Z := 71.
Definition CBMDOS_IPE_BAD_PARTN : Z := 77.
Definition SLOT_GEOS_ITRACK : Z := 21.
Definition SLOT_GEOS_ISECTOR : Z := 22.
Definition SLOT_GEOS_STRUCT : Z := 23.
Definition SLOT_GEOS_TYPE : Z := 24.

Module Command.
Section command.
Context {platform : Platform} {clock : Clock}.

(** ** Parts shared by the commands *)

(** [VDRIVE_IS_READONLY], [VDRIVE_IS_FD] *)
Definition readonly (v : vdrive_t) : bool := 0 <? image_mode v.
Definition VDRIVE_IS_FD (v : vdrive_t) : option bool :=
  if image_set v then
    image ← images0 v;
    Some ((di_type image =? DISK_IMAGE_TYPE_D1M) || (di_type image =? DISK_IMAGE_TYPE_D2M)
          || (di_type image =? DISK_IMAGE_TYPE_D4M))
  else Some false.

(** The local context of a search *)
Definition blank_dir : dir_t := Dir (lib_malloc 256) 0 (lib_malloc 16) 0 0 0 0 0 0.
Definition with_dir {A} (m : ST search_t A) : ST vdrive_t A := fun v =>
  match m (Search v blank_dir) with Some (a, s) => Some (a, drv s) | None => None end.

Definition put_entry (i x : Z) : ST search_t unit :=
  let! s := state in put_dir (dslot (dctx s) * 32 + i) x.
(** [memset], [memcpy] to the current entry *)
Definition store_entry (i : Z) (bs : mem) : ST search_t unit :=
  update (fun s => b ← splice (dbuffer (dctx s)) (dslot (dctx s) * 32 + i) bs;
                   Some (set_dctx (set_dbuffer b (dctx s)) s)).

(** The status of a failed access to a sector *)
Definition access_error (rc : Z) : Z := if 0 <? rc then rc else CBMDOS_IPE_NOT_READY.

(** Nothing is looked at in a name without characters, which may be a null pointer. *)
Definition vdrive_haswildcard (name : option mem) (length : Z) : option bool :=
  if length =? 0 then Some false
  else
    m ← name;
    a ← Cbmdos.memchr m 0 (ch "*") length;
    if bool_decide (is_Some a) then Some true
    else b ← Cbmdos.memchr m 0 (ch "?") length; Some (bool_decide (is_Some b)).

Definition vdrive_command_switch (part : Z) : ST vdrive_t Z :=
  if part =? 255 then mret CBMDOS_IPE_NOT_READY else Partition.vdrive_switch part.

Definition vdrive_command_return (origpart : Z) : ST vdrive_t unit :=
  if origpart <? 0 then mret tt
  else
    let! v := state in
    if origpart =? current_part (part v) then VDrive.vdrive_set_disk_geometry else mret tt.

(** The frame of most commands: the current partition is kept, a disk that is write
    protected is an error, and the geometry is restored. *)
Definition returning {A} (m : ST vdrive_t A) : ST vdrive_t A :=
  let! v := state in
  let! a := m in
  vdrive_command_return (current_part (part v));;
  mret a.
Definition writing (m : ST vdrive_t Z) : ST vdrive_t Z :=
  let! v := state in
  if readonly v then mret CBMDOS_IPE_WRITE_PROTECT_ON else m.

(** [cbmdos_command_parse_plus(cmd)] *)
Definition parse (cmd : cbmdos_cmd_parse_plus_t) : ST vdrive_t (Z * cbmdos_cmd_parse_plus_t) :=
  lift (Cbmdos.cbmdos_command_parse_plus cmd).
(** [cmd->more] becomes the command to parse. *)
Definition parse_more (cmd : cbmdos_cmd_parse_plus_t) : ST vdrive_t (Z * cbmdos_cmd_parse_plus_t) :=
  parse (set_full (more cmd) (set_fulllength (morelength cmd) cmd)).

Definition name_of (cmd : cbmdos_cmd_parse_plus_t) : mem := default [] (file cmd).
(** The first character of [cmd->more], looked at if there is one *)
Definition more_starts (c : Z) (cmd : cbmdos_cmd_parse_plus_t) : option bool :=
  if morelength cmd =? 0 then Some false else m ← more cmd; b ← getb m 0; Some (b =? c).

(** ** Paths *)

Definition is_cd (cmd : cbmdos_cmd_parse_plus_t) : option bool :=
  if commandlength cmd =? 2 then
    m ← command cmd; b0 ← getb m 0;
    if b0 =? ch "C" then b1 ← getb m 1; Some (b1 =? ch "D") else Some false
  else Some false.

Definition set_header (t s : Z) : ST search_t unit :=
  on_drive (upd_geom (fun g => set_Header_Track t (set_Header_Sector s g))).
Definition set_dir (t s : Z) : ST search_t unit :=
  on_drive (upd_geom (fun g => set_Dir_Track t (set_Dir_Sector s g))).
Definition read_local (t s : Z) : ST search_t (Z * mem) :=
  on_drive (VDrive.vdrive_read_sector (lib_malloc 256) t s).

(** ["CD"] with the arrow: the header of the directory leads to its parent. *)
Definition to_parent : ST search_t Z :=
  let! st := state in
  let! (rc, b) := read_local (Header_Track (geom (drv st))) (Header_Sector (geom (drv st))) in
  if negb (rc =? 0) then mret (access_error rc)
  else
    let! t := lift (getb b 34) in
    let! s := lift (getb b 35) in
    set_header t s;;
    let! (rc, b) := read_local t s in
    if negb (rc =? 0) then mret (access_error rc)
    else
      let! t := lift (getb b 0) in
      let! s := lift (getb b 1) in
      set_dir t s;;
      mret CBMDOS_IPE_OK.

(** A part of a path: whether the search restarts at the root, where the name starts and
    ends and whether there is a name to search for. [None]: the path is malformed. *)
Definition path_segment (path : mem) (plen : Z) (cd : bool) (i : Z)
    : option (bool * option (Z * Z * bool)) :=
  plain ← (if cd && (i =? 0) && (i <? plen) then b ← getb path i; Some (negb (b =? ch "/")) else Some false);
  if (plain : bool) then
    next ← Cbmdos.memchr path i (ch "/") (plen - i);
    Some (false, Some (i, default plen next, true))
  else
    slash ← (if i <? plen then b ← getb path i; Some (b =? ch "/") else Some false);
    slash2 ← (if (slash : bool) && (i <? plen - 1) then b ← getb path (i + 1); Some (b =? ch "/")
              else Some false);
    let start := if (slash2 : bool) then i + 2 else if (slash : bool) then i + 1 else i in
    next ← Cbmdos.memchr path start (ch "/") (plen - start);
    let next := match next with None => if cd then Some plen else None | _ => next end in
    Some (slash2 : bool, match next with
                         | Some n => if start =? 0 then None
                                     else Some (start, n, negb (slash2 && (plen =? 2)))
                         | None => None
                         end).

(** The directory of this name becomes the current one. *)
Definition enter_dir (fuel : nat) (name : mem) (length : Z) : ST search_t Z :=
  vdrive_dir_find_first_slot name length CBMDOS_FT_DIR;;
  let! e := vdrive_dir_find_next_slot fuel in
  match e with
  | None => mret CBMDOS_IPE_PATH_NOT_FOUND
  | Some _ =>
      let! t := get_entry SLOT_FIRST_TRACK in
      let! s := get_entry SLOT_FIRST_SECTOR in
      let! (rc, b) := read_local t s in
      if negb (rc =? 0) then mret (access_error rc)
      else
        set_header t s;;
        let! t := lift (getb b 0) in
        let! s := lift (getb b 1) in
        set_dir t s;;
        mret CBMDOS_IPE_OK
  end.

(** Every round starts at or behind a slash and ends further on, so that [n] above the
    length of the path is enough. *)
Fixpoint traverse (n fuel : nat) (path : mem) (plen : Z) (cd : bool) (i : Z) : ST search_t Z :=
  match n with
  | O => ub
  | S n =>
      let! arrow := lift (if cd && (i =? 0) && (plen =? 1) then b ← getb path 0; Some (b =? ch "_")
                          else Some false) in
      if (arrow : bool) then to_parent
      else
        let! (root, seg) := lift (path_segment path plen cd i) in
        (if (root : bool) then set_header BAM_TRACK_NP BAM_SECTOR_NP else mret tt);;
        match (seg : option (Z * Z * bool)) with
        | None => mret CBMDOS_IPE_PATH_NOT_FOUND
        | Some (start, next, search) =>
            let! status :=
              (if (search : bool) then enter_dir fuel (drop (Z.to_nat start) path) (next - start)
               else set_dir DIR_TRACK_NP DIR_SECTOR_NP;; mret CBMDOS_IPE_OK) in
            if negb (status =? CBMDOS_IPE_OK) then mret status
            else if next <? plen - 1 then traverse n fuel path plen cd next
            else mret CBMDOS_IPE_OK
        end
  end.

(** [CD] without a path takes the file name as the path. *)
Definition swap_path (cd : bool) (cmd : cbmdos_cmd_parse_plus_t) : cbmdos_cmd_parse_plus_t :=
  if cd && (pathlength cmd =? 0)
  then set_file None (set_filelength 0 (set_path (file cmd) (set_pathlength (filelength cmd) cmd)))
  else cmd.

Definition vdrive_command_switchtraverse (fuel : nat) (cmd : cbmdos_cmd_parse_plus_t)
    : ST vdrive_t (Z * cbmdos_cmd_parse_plus_t) :=
  let! r := vdrive_command_switch (pdrive cmd) in
  if negb (r =? 0) then mret (CBMDOS_IPE_NOT_READY, cmd)
  else
    let! cd := lift (is_cd cmd) in
    let cmd := swap_path cd cmd in
    let! v := state in
    if image_format (geom v) =? VDRIVE_IMAGE_FORMAT_NP then
      match path cmd with
      | Some p =>
          if pathlength cmd =? 0 then mret (CBMDOS_IPE_OK, cmd)
          else
            let! status := with_dir (traverse (S (Z.to_nat (pathlength cmd))) fuel p (pathlength cmd) cd 0) in
            mret (status, cmd)
      | None => mret (CBMDOS_IPE_OK, cmd)
      end
    else mret (CBMDOS_IPE_OK, cmd).

(** The path is followed, then [m] runs with the command as it is then. *)
Definition traversing (fuel : nat) (cmd : cbmdos_cmd_parse_plus_t)
    (m : cbmdos_cmd_parse_plus_t -> ST vdrive_t Z) : ST vdrive_t Z :=
  let! (status, cmd) := vdrive_command_switchtraverse fuel cmd in
  if negb (status =? 0) then mret status else m cmd.

(** ** Scratching *)

Definition entry_bytes (e : found) : ST search_t mem :=
  match e with
  | In_slot p => mret p
  | In_new_sector => let! s := state in lift (slice (dbuffer (dctx s)) 0 32)
  end.

(** The chains of the records of a VLIR file *)
Fixpoint free_records (n fuel : nat) (tmp : mem) (l : Z) : ST vdrive_t unit :=
  match n with
  | O => mret tt
  | S n =>
      let! t := lift (getb tmp (2 + l * 2)) in
      let! s := lift (getb tmp (2 + l * 2 + 1)) in
      if (t =? 0) && (s =? 255) then free_records n fuel tmp (l + 1)
      else if (t =? 0) && (s =? 0) then mret tt
      else vdrive_dir_free_chain fuel t s;; free_records n fuel tmp (l + 1)
  end.

(** The info block of a GEOS file, and its records *)
Definition scratch_geos (fuel : nat) (slot : mem) : ST search_t unit :=
  let! t := lift (getb slot SLOT_GEOS_ITRACK) in
  let! s := lift (getb slot SLOT_GEOS_ISECTOR) in
  on_drive (vdrive_dir_free_chain fuel t s);;
  let! struct := lift (getb slot SLOT_GEOS_STRUCT) in
  (if struct =? 1 then
     let! t := lift (getb slot SLOT_FIRST_TRACK) in
     let! s := lift (getb slot SLOT_FIRST_SECTOR) in
     let! (_, tmp) := read_local t s in
     on_drive (free_records 127 fuel tmp 0)
   else mret tt);;
  put_entry SLOT_GEOS_TYPE 0;; put_entry SLOT_GEOS_STRUCT 0;;
  put_entry SLOT_GEOS_ITRACK 0;; put_entry SLOT_GEOS_ISECTOR 0.

(** The sector after [(t, s)] on a 1581 *)
Definition next_1581 (t s : Z) : Z * Z := if 39 <? s + 1 then (t + 1, 0) else (t, s + 1).

Fixpoint free_area (n : nat) (t s : Z) : ST vdrive_t unit :=
  match n with
  | O => mret tt
  | S n =>
      if 80 <? t then mret tt
      else
        (if negb (t =? 40) then Bam.vdrive_bam_free_sector t s;; mret tt else mret tt);;
        let (t, s) := next_1581 t s in free_area n t s
  end.

(** The block count of an entry *)
Definition entry_blocks (slot : mem) : option Z :=
  b0 ← getb slot SLOT_NR_BLOCKS; b1 ← getb slot (SLOT_NR_BLOCKS + 1); Some (Z.lor b0 (Z.shiftl b1 8)).

(** The area of a sub-partition of a 1581 *)
Definition scratch_cbm (slot : mem) : ST search_t unit :=
  let! t := lift (getb slot SLOT_FIRST_TRACK) in
  let! s := lift (getb slot SLOT_FIRST_SECTOR) in
  let! l := lift (entry_blocks slot) in
  on_drive (free_area (Z.to_nat l) t s);;
  put_entry SLOT_FIRST_TRACK 0;; put_entry SLOT_FIRST_SECTOR 0;;
  put_entry SLOT_SIDE_TRACK 0;; put_entry SLOT_SIDE_SECTOR 0;;
  put_entry SLOT_NR_BLOCKS 0;; put_entry (SLOT_NR_BLOCKS + 1) 0.

Fixpoint scratch_files (fuel : nat) (geos deleted : Z) : ST search_t Z :=
  match fuel with
  | O => ub
  | S fuel =>
      let! e := vdrive_dir_find_next_slot fuel in
      match e with
      | None => mret deleted
      | Some e =>
          let! slot := entry_bytes e in
          let! ty := lift (getb slot SLOT_TYPE_OFFSET) in
          if (Z.land ty 0x07 =? CBMDOS_FT_DIR) || negb (Z.land ty CBMDOS_FT_LOCKED =? 0)
          then scratch_files fuel geos deleted
          else
            let! gt := lift (getb slot SLOT_GEOS_TYPE) in
            (if negb (gt =? 0) && negb (geos =? 0) then scratch_geos fuel slot else mret tt);;
            (if Z.land ty 0x07 =? CBMDOS_FT_CBM then scratch_cbm slot else mret tt);;
            vdrive_dir_remove_slot fuel;;
            scratch_files fuel geos (deleted + 1)
      end
  end.

(** A type behind ['='], and the names behind it *)
Definition scratch_type (cmd : cbmdos_cmd_parse_plus_t) (filetype : Z)
    : option (Z * cbmdos_cmd_parse_plus_t) :=
  eq ← more_starts (ch "=") cmd;
  if (eq : bool) then
    m ← more cmd;
    filetype ← (if 1 <? morelength cmd then vdrive_dir_filetype m 2 else Some filetype);
    comma ← Cbmdos.memchr m 0 (ch ",") (morelength cmd);
    match comma with
    | None => Some (filetype, set_more None (set_morelength 0 cmd))
    | Some p => m ← Cbmdos.copy_string m p (morelength cmd - p);
                Some (filetype, set_more (Some m) (set_morelength (morelength cmd - p) cmd))
    end
  else Some (filetype, cmd).

(** The names of the command: status and number of the files. What is left of the
    command gets shorter every round. *)
Fixpoint scratch_names (n fuel : nat) (cmd : cbmdos_cmd_parse_plus_t) (deleted filetype : Z)
    : ST search_t (Z * Z) :=
  match n with
  | O => ub
  | S n =>
      let! (status, cmd) := on_drive (vdrive_command_switchtraverse fuel cmd) in
      if negb (status =? 0) then mret (status, deleted)
      else
        let! (filetype, cmd) := lift (scratch_type cmd filetype) in
        let! geos := on_drive Bam.vdrive_bam_isgeos in
        vdrive_dir_find_first_slot (name_of cmd) (filelength cmd) filetype;;
        let! deleted := scratch_files fuel geos deleted in
        if morelength cmd =? 0 then mret (CBMDOS_IPE_DELETED, deleted)
        else
          let! (rc, cmd) := on_drive (parse_more cmd) in
          let! comma := lift (if (rc =? 0) && (commandlength cmd =? 1)
                              then m ← command cmd; b ← getb m 0; Some (b =? ch ",") else Some false) in
          if negb comma || (filelength cmd =? 0) then mret (CBMDOS_IPE_DELETED, deleted)
          else scratch_names n fuel cmd deleted filetype
  end.

Definition vdrive_command_scratch (fuel : nat) (cmd : cbmdos_cmd_parse_plus_t) : ST vdrive_t Z :=
  returning (
    let! v := state in
    let! (status, deleted) :=
      (if readonly v then mret (CBMDOS_IPE_WRITE_PROTECT_ON, 0)
       else with_dir (scratch_names (S (Z.to_nat (morelength cmd))) fuel cmd 0 CBMDOS_FT_DEL)) in
    VDrive.vdrive_command_set_error status deleted 0).

(** ** Renaming and locking *)

(** Looks for one file. *)
Definition lookup_file (fuel : nat) (name : mem) (length type : Z) : ST search_t (option found) :=
  vdrive_dir_find_first_slot name length type;; vdrive_dir_find_next_slot fuel.

Definition write_entry : ST search_t Z :=
  let! rc := write_dir in
  mret (if rc <? 0 then CBMDOS_IPE_WRITE_ERROR_VER else CBMDOS_IPE_OK).

(** The new name is copied as long as it is. *)
Definition rename_entry (off : Z) (dest : mem) : ST search_t Z :=
  store_entry off (replicate 16 0xa0);;
  store_entry off dest;;
  write_entry.

(** ["new=old"] without wildcards *)
Definition rename_names (cmd : cbmdos_cmd_parse_plus_t) : option bool :=
  eq ← more_starts (ch "=") cmd;
  if (eq : bool) then
    w ← vdrive_haswildcard (file cmd) (filelength cmd);
    if (w : bool) then Some false
    else w ← vdrive_haswildcard (more cmd) (morelength cmd); Some (negb w)
  else Some false.

(** An empty name is replaced by ['=']. *)
Definition vdrive_command_rename (fuel : nat) (cmd : cbmdos_cmd_parse_plus_t) : ST vdrive_t Z :=
  returning (writing (traversing fuel cmd (fun cmd =>
    let! ok := lift (rename_names cmd) in
    if negb ok then mret CBMDOS_IPE_SYNTAX
    else with_dir (
      let! e := lookup_file fuel (name_of cmd) (filelength cmd) 0 in
      if bool_decide (is_Some e) then mret CBMDOS_IPE_FILE_EXISTS
      else
        let! dest := lift (if filelength cmd =? 0 then Some [ch "="]
                           else slice (name_of cmd) 0 (filelength cmd)) in
        let! (rc, cmd) := on_drive (parse_more cmd) in
        if negb (rc =? 0) then mret CBMDOS_IPE_SYNTAX
        else
          let! e := lookup_file fuel (name_of cmd) (filelength cmd) 0 in
          if bool_decide (is_Some e) then rename_entry SLOT_NAME_OFFSET dest
          else mret CBMDOS_IPE_NOT_FOUND)))).

(** The header with another name *)
Definition vdrive_command_renameheader (fuel : nat) (cmd : cbmdos_cmd_parse_plus_t) : ST vdrive_t Z :=
  returning (writing (traversing fuel cmd (fun cmd =>
    let! w := lift (vdrive_haswildcard (file cmd) (filelength cmd)) in
    if (w : bool) then mret CBMDOS_IPE_SYNTAX
    else
      Bam.vdrive_bam_write_bam;;
      let! v := state in
      let g := geom v in
      let! (rc, tmp) := VDrive.vdrive_read_sector (lib_malloc 256) (Header_Track g) (Header_Sector g) in
      if negb (rc =? 0) then mret (access_error rc)
      else
        let! name := lift (slice (name_of cmd) 0 (Z.min 16 (filelength cmd))) in
        let! tmp := lift (splice tmp (bam_name g) (name ++ replicate (16 - length name) 0xa0)) in
        let! rc := VDrive.vdrive_write_sector tmp (Header_Track g) (Header_Sector g) in
        if negb (rc =? 0) then mret (access_error rc)
        else Bam.vdrive_bam_setup_bam;; mret CBMDOS_IPE_OK))).

Definition lookup_part (fuel : nat) (name : mem) (length : Z) : ST search_t (option mem) :=
  vdrive_dir_part_find_first_slot name length 0;; vdrive_dir_part_find_next_slot fuel.

Definition vdrive_command_renamepart (fuel : nat) (cmd : cbmdos_cmd_parse_plus_t) : ST vdrive_t Z :=
  let! v := state in
  if negb (haspt (part v)) then mret CBMDOS_IPE_INVAL
  else if readonly v then returning (mret CBMDOS_IPE_WRITE_PROTECT_ON)
  else
    let! r := Partition.vdrive_switch 255 in
    if negb (r =? 0) then mret CBMDOS_IPE_INVAL
    else
      let! status :=
        (let! ok := lift (rename_names cmd) in
         if negb ok then mret CBMDOS_IPE_SYNTAX
         else with_dir (
           let! e := lookup_part fuel (name_of cmd) (filelength cmd) in
           if bool_decide (is_Some e) then mret CBMDOS_IPE_FILE_EXISTS
           else if filelength cmd =? 0 then mret CBMDOS_IPE_SYNTAX
           else
             let! dest := lift (slice (name_of cmd) 0 (filelength cmd)) in
             let! (rc, cmd) := on_drive (parse_more cmd) in
             if negb (rc =? 0) then mret CBMDOS_IPE_SYNTAX
             else
               let! e := lookup_part fuel (name_of cmd) (filelength cmd) in
               if bool_decide (is_Some e) then rename_entry PSLOT_NAME dest
               else mret CBMDOS_IPE_NOT_FOUND)) in
      vdrive_command_return (current_part (part v));;
      mret status.

Definition vdrive_command_lockunlock (fuel : nat) (cmd : cbmdos_cmd_parse_plus_t) : ST vdrive_t Z :=
  returning (writing (traversing fuel cmd (fun cmd =>
    let! w := lift (vdrive_haswildcard (file cmd) (filelength cmd)) in
    if (w : bool) then mret CBMDOS_IPE_SYNTAX
    else with_dir (
      let! e := lookup_file fuel (name_of cmd) (filelength cmd) 0 in
      if bool_decide (is_Some e) then
        let! ty := get_entry SLOT_TYPE_OFFSET in
        put_entry SLOT_TYPE_OFFSET (Z.lxor ty CBMDOS_FT_LOCKED);;
        write_entry
      else mret CBMDOS_IPE_NOT_FOUND)))).

(** ** Partitions and directories *)

(** [vdrive_atoi], without the end of the number *)
Fixpoint atoi_from (n : nat) (m : mem) (j i : Z) : option Z :=
  match n with
  | O => Some i
  | S n => b ← getb m j; if Cbmdos.is_digit b then atoi_from n m (j + 1) (u32 (i * 10 + (b - ch "0"))) else Some i
  end.
Definition vdrive_atoi (m : mem) (length : Z) : option Z := atoi_from (Z.to_nat length) m 0 0.

(** The partition number of ["CP"]: [inl] is an error or the answer to ["CP"] alone. *)
Definition partition_number (v : vdrive_t) (cmd : cbmdos_cmd_parse_plus_t) (floppy hd : bool)
    : option ((Z * Z) + Z) :=
  m ← command cmd; b ← getb m 1;
  if b =? ch "P" then
    if commandlength cmd =? 2 then
      if filelength cmd =? 0 then Some (inl (CBMDOS_IPE_SEL_PARTN, selected_part (part v)))
      else
        np ← vdrive_atoi (name_of cmd) (filelength cmd);
        let np := s32 np in
        Some (if (np <? 1) || (224 <=? np) && floppy || (254 <? np) && hd
              then inl (CBMDOS_IPE_BAD_PARTN, np) else inr np)
    else Some (inr 0)
  else if (commandlength cmd =? 3) && (b =? Z.lor (ch "P") 0x80) then
    np ← getb m 2;
    Some (if (np =? 0) && floppy then inr 255
          else if (224 <=? np) && floppy || (254 <? np) && hd then inl (CBMDOS_IPE_BAD_PARTN, np)
          else inr np)
  else Some (inl (CBMDOS_IPE_BAD_PARTN, 0)).

Definition change_cmd_part (cmd : cbmdos_cmd_parse_plus_t) : ST vdrive_t (Z * Z) :=
  let! v := state in
  if negb (haspt (part v)) then mret (CBMDOS_IPE_INVAL, 0)
  else
    let! floppy := lift (VDRIVE_IS_FD v) in
    let! hd := lift (VDrive.VDRIVE_IS_HD v) in
    let! p := lift (if 1 <? commandlength cmd
                    then m ← command cmd; b ← getb m 1; Some (Z.land b 0x7f =? ch "P") else Some false) in
    if negb p then mret (CBMDOS_IPE_INVAL, 0)
    else
      let! valid := Partition.vdrive_ispartvalid 255 in
      if valid =? 0 then mret (CBMDOS_IPE_NOT_READY, 0)
      else
        let! v := state in
        let! r := lift (partition_number v cmd floppy hd) in
        match r with
        | inl r => mret r
        | inr np =>
            let! r := Partition.vdrive_switch np in
            if r =? 0 then upd_part (set_selected_part np);; mret (CBMDOS_IPE_SEL_PARTN, np)
            else mret (CBMDOS_IPE_BAD_PARTN, np)
        end.

Definition vdrive_command_chcmdpart (cmd : cbmdos_cmd_parse_plus_t) : ST vdrive_t Z :=
  let! (status, np) := change_cmd_part cmd in
  VDrive.vdrive_command_set_error status (u32 np) 0.

(** The persistent place of the directory of partition [p] *)
Definition keep_dir (p : Z) : ST vdrive_t unit :=
  let! v := state in
  let g := geom v in
  VDrive.put_part cheadertrack set_cheadertrack p (Header_Track g);;
  VDrive.put_part cheadersector set_cheadersector p (Header_Sector g);;
  VDrive.put_part cdirtrack set_cdirtrack p (Dir_Track g);;
  VDrive.put_part cdirsector set_cdirsector p (Dir_Sector g).

Definition vdrive_command_chdir (fuel : nat) (cmd : cbmdos_cmd_parse_plus_t) : ST vdrive_t Z :=
  returning (traversing fuel cmd (fun cmd =>
    let! v := state in
    keep_dir (Partition.vdrive_realpart v (pdrive cmd));;
    mret CBMDOS_IPE_OK)).

(** The root partition of a 1581: [vdrive_set_disk_geometry] resets the place of the
    directory when its header track is 0. *)
Definition to_root : ST vdrive_t unit :=
  let! v := state in
  Bam.vdrive_bam_write_bam;;
  VDrive.put_part cheadertrack set_cheadertrack (current_part (part v)) 0;;
  Partition.setup_partition.

(** Whether an area is free: the sectors left at the first that is not, and where. *)
Fixpoint area_scan (n : nat) (ts ss : Z) : ST vdrive_t (nat * Z * Z) :=
  match n with
  | O => mret (O, ts, ss)
  | S n' =>
      if (ts =? 40) || (80 <? ts) then mret (n, ts, ss)
      else
        let! a := Bam.vdrive_bam_is_sector_allocated ts ss in
        if negb (a =? 0) then mret (n, ts, ss)
        else let (ts, ss) := next_1581 ts ss in area_scan n' ts ss
  end.

Fixpoint allocate_area (n : nat) (ts ss : Z) : ST vdrive_t unit :=
  match n with
  | O => mret tt
  | S n => Bam.vdrive_bam_allocate_sector ts ss;;
           let (ts, ss) := next_1581 ts ss in allocate_area n ts ss
  end.

(** A new entry with the name of the last search *)
Definition new_entry (fields : list (Z * Z)) : ST search_t unit :=
  store_entry 2 (replicate 30 0);;
  let! s := state in
  store_entry SLOT_NAME_OFFSET (find_nslot (dctx s));;
  foldr (fun '(i, x) k => put_entry i x;; k) (mret tt) fields.

(** A sub-partition with first track and sector [m1], [m2] and size [m3], [m4]: status
    and the two numbers of the message. *)
Definition create_area (fuel : nat) (cmd : cbmdos_cmd_parse_plus_t) (m1 m2 m3 m4 : Z)
    : ST search_t (Z * Z * Z) :=
  let n := Z.to_nat (Z.lor m3 (Z.shiftl m4 8)) in
  if (n =? 0)%nat then mret (CBMDOS_IPE_BAD_PARTN, m1, 0)
  else
    let! (r, ss) := on_drive (area_scan n m1 m2) in
    let (left, ts) := r : nat * Z in
    if negb (left =? 0)%nat then
      mret (if 80 <? ts then CBMDOS_IPE_ILLEGAL_TRACK_OR_SECTOR else CBMDOS_IPE_ILLEGAL_SYSTEM_T_OR_S, ts, ss)
    else
      vdrive_dir_find_first_slot (name_of cmd) (-1) CBMDOS_FT_DEL;;
      let! e := vdrive_dir_find_next_slot fuel in
      match e with
      | None => mret (CBMDOS_IPE_DISK_FULL, 0, 0)
      | Some _ =>
          new_entry [(SLOT_FIRST_TRACK, m1); (SLOT_FIRST_SECTOR, m2); (SLOT_NR_BLOCKS, m3);
                     (SLOT_NR_BLOCKS + 1, m4); (SLOT_TYPE_OFFSET, Z.lor CBMDOS_FT_CLOSED CBMDOS_FT_CBM)];;
          write_dir;;
          on_drive (allocate_area n m1 m2);;
          on_drive Bam.vdrive_bam_write_bam;;
          mret (CBMDOS_IPE_OK, 0, 0)
      end.

(** An area of whole tracks that does not cross track 40 becomes the current partition. *)
Definition enter_area : ST search_t (Z * Z * Z) :=
  let! ts := get_entry SLOT_FIRST_TRACK in
  let! ss := get_entry SLOT_FIRST_SECTOR in
  let! b0 := get_entry SLOT_NR_BLOCKS in
  let! b1 := get_entry (SLOT_NR_BLOCKS + 1) in
  let len := Z.lor b0 (Z.shiftl b1 8) in
  let! st := state in
  let v := drv st in
  let te := ts * 40 + len in
  if (ss =? 0) && (len mod 40 =? 0) && (120 <=? len) && negb (ts =? 40)
     && negb ((ts * 40 <=? 1600) && (1600 <? te)
              || (ts * 40 <? s32 (Part_Start (geom v)) * 40)
              || ((s32 (Part_End (geom v)) + 1) * 40 <? te)) then
    let te := ts + len / 40 - 1 in
    on_drive (
      upd_geom (fun g =>
        set_Header_Track ts (set_Header_Sector 0 (set_Bam_Track ts (set_Bam_Sector 0 (set_Dir_Track ts
          (set_Dir_Sector DIR_SECTOR_1581 (set_Part_Start ts (set_Part_End te g))))))));;
      keep_dir (current_part (part v));;
      VDrive.put_part cpartstart set_cpartstart (current_part (part v)) ts;;
      VDrive.put_part cpartend set_cpartend (current_part (part v)) te;;
      Bam.vdrive_bam_setup_bam);;
    mret (CBMDOS_IPE_SEL_PARTN, ts, te)
  else mret (CBMDOS_IPE_BAD_PARTN, 0, 0).

(** [",tsnn,C"] behind the name: the four bytes *)
Definition create_mode (cmd : cbmdos_cmd_parse_plus_t) : option (option (Z * Z * Z * Z)) :=
  if 7 <=? morelength cmd then
    m ← more cmd;
    b0 ← getb m 0; b5 ← getb m 5; b6 ← getb m 6;
    if (b0 =? ch ",") && (b5 =? ch ",") && (b6 =? ch "C") then
      m1 ← getb m 1; m2 ← getb m 2; m3 ← getb m 3; m4 ← getb m 4; Some (Some (m1, m2, m3, m4))
    else Some None
  else Some None.

Definition change_area (fuel : nat) (cmd : cbmdos_cmd_parse_plus_t) : ST search_t (Z * Z * Z) :=
  let! e := lookup_file fuel (name_of cmd) (filelength cmd) CBMDOS_FT_CBM in
  let! create := lift (create_mode cmd) in
  match create with
  | Some (m1, m2, m3, m4) =>
      let! st := state in
      if readonly (drv st) then mret (CBMDOS_IPE_WRITE_PROTECT_ON, 0, 0)
      else if bool_decide (is_Some e) then mret (CBMDOS_IPE_FILE_EXISTS, 0, 0)
      else create_area fuel cmd m1 m2 m3 m4
  | None => if bool_decide (is_Some e) then enter_area else mret (CBMDOS_IPE_NOT_FOUND, 0, 0)
  end.

Definition vdrive_command_chpart (fuel : nat) (cmd : cbmdos_cmd_parse_plus_t) : ST vdrive_t Z :=
  let! (r, te) := returning (
    let! r := vdrive_command_switch (pdrive cmd) in
    if negb (r =? 0) then mret (CBMDOS_IPE_NOT_READY, 0, 0)
    else if filelength cmd =? 0 then to_root;; mret (CBMDOS_IPE_SEL_PARTN, 1, 80)
    else with_dir (change_area fuel cmd)) in
  let (status, ts) := r : Z * Z in
  VDrive.vdrive_command_set_error status ts te.

(** The header of a directory at [(ht, hs)] whose entries start at [(dt, ds)] *)
Definition np_header (v : vdrive_t) (d : dir_t) (ht hs dt ds : Z) : option mem :=
  let g := geom v in
  b ← bam (bamc v);
  id0 ← getb b (bam_id g); id1 ← getb b (bam_id g + 1);
  m ← splice (replicate 256 0) 0 [u8 dt; u8 ds];
  m ← splice m (bam_name g) (replicate 25 0xa0);
  m ← splice m (bam_name g) (find_nslot d);
  m ← splice m (bam_id g) [id0; id1];
  m ← putb m 0x02 72;
  m ← splice m BAM_VERSION_NP [49; 72];
  splice m 0x20 [u8 ht; u8 hs; u8 (Header_Track g); u8 (Header_Sector g); u8 (dtrack d); u8 (dsector d);
                 u8 (dslot d * 32 + 2)].

(** Two sectors for a directory, header and entries, near the current directory *)
Definition allocate_dir : ST vdrive_t (option (Z * Z * Z * Z)) :=
  let! v := state in
  let ht := Dir_Track (geom v) in
  let hs := Dir_Sector (geom v) in
  let hs := if (ht =? 1) && (hs <? 63) then 63 else hs in
  let! h := BamAlloc.vdrive_bam_alloc_next_free_sector ht hs in
  match h with
  | None => mret None
  | Some (ht, hs) =>
      let! d := BamAlloc.vdrive_bam_alloc_next_free_sector ht hs in
      match d with
      | None => Bam.vdrive_bam_free_sector ht hs;; mret None
      | Some (dt, ds) => mret (Some (ht, hs, dt, ds))
      end
  end.

(** The two sectors and the entry of a new directory *)
Definition write_new_dir (ht hs dt ds : Z) : ST search_t Z :=
  let release := on_drive (Bam.vdrive_bam_free_sector ht hs;; Bam.vdrive_bam_free_sector dt ds);;
                 mret CBMDOS_IPE_WRITE_ERROR_VER in
  let! s := state in
  let! hb := lift (np_header (drv s) (dctx s) ht hs dt ds) in
  let! rc := on_drive (VDrive.vdrive_write_sector hb ht hs) in
  if rc <? 0 then release
  else
    let! rc := on_drive (VDrive.vdrive_write_sector (0 :: 0xff :: replicate 254 0) dt ds) in
    if rc <? 0 then release
    else
      new_entry [(SLOT_FIRST_TRACK, ht); (SLOT_FIRST_SECTOR, hs); (SLOT_NR_BLOCKS, 2);
                 (SLOT_NR_BLOCKS + 1, 0); (SLOT_TYPE_OFFSET, Z.lor CBMDOS_FT_CLOSED CBMDOS_FT_DIR)];;
      let! s := state in
      let! e := lift (e ← slice (dbuffer (dctx s)) (dslot (dctx s) * 32) 32;
                      vdrive_dir_updatetime host_time e) in
      store_entry 0 e;;
      write_dir;;
      on_drive Bam.vdrive_bam_write_bam;;
      mret CBMDOS_IPE_OK.

Definition vdrive_command_mkdir (fuel : nat) (cmd : cbmdos_cmd_parse_plus_t) : ST vdrive_t Z :=
  returning (writing (
    let! w := lift (vdrive_haswildcard (file cmd) (filelength cmd)) in
    if (w : bool) then mret CBMDOS_IPE_SYNTAX
    else traversing fuel cmd (fun cmd => with_dir (
      let! e := lookup_file fuel (name_of cmd) (filelength cmd) CBMDOS_FT_DIR in
      if bool_decide (is_Some e) then mret CBMDOS_IPE_FILE_EXISTS
      else
        let! blocks := on_drive Bam.vdrive_bam_free_block_count in
        if blocks <? 4 then mret CBMDOS_IPE_DISK_FULL
        else
          let! a := on_drive allocate_dir in
          match a with
          | None => mret CBMDOS_IPE_DISK_FULL
          | Some (ht, hs, dt, ds) =>
              let! e := lookup_file fuel (name_of cmd) (-1) CBMDOS_FT_DEL in
              match e with
              | None => mret CBMDOS_IPE_DISK_FULL
              | Some _ => write_new_dir ht hs dt ds
              end
          end)))).

(** An empty directory is removed; the status is the same when it is not empty. *)
Definition remove_dir (fuel : nat) (name : mem) (length : Z) : ST search_t Z :=
  let! e := lookup_file fuel (str "*") 1 0 in
  if bool_decide (is_Some e) then mret 0
  else
    on_drive VDrive.vdrive_set_disk_geometry;;
    let! e := lookup_file fuel name length CBMDOS_FT_DIR in
    if bool_decide (is_Some e) then vdrive_dir_remove_slot fuel;; mret 1 else mret 0.

Definition vdrive_command_rmdir (fuel : nat) (cmd : cbmdos_cmd_parse_plus_t) : ST vdrive_t Z :=
  let! (status, deleted) := returning (
    let! v := state in
    if readonly v then mret (CBMDOS_IPE_WRITE_PROTECT_ON, 0)
    else
      let! w := lift (vdrive_haswildcard (file cmd) (filelength cmd)) in
      if (w : bool) then mret (CBMDOS_IPE_SYNTAX, 0)
      else
        let cmd := match path cmd with Some _ => set_path None (set_pathlength 0 cmd) | None => cmd end in
        let cmd := set_command (Some (str "CD" ++ [0])) (set_commandlength 2 cmd) in
        let! name := lift (m ← file cmd; lib_strdup m) in
        let length := filelength cmd in
        let! (status, cmd) := vdrive_command_switchtraverse fuel cmd in
        if negb (status =? 0) then mret (CBMDOS_IPE_NOT_FOUND, 0)
        else let! n := with_dir (remove_dir fuel name length) in mret (CBMDOS_IPE_DELETED, n)) in
  VDrive.vdrive_command_set_error status deleted 0.

(** ** Validation *)

(** Follows a chain from [(t, s)]: status and [*c] plus the sectors of the chain. Every
    step allocates a sector, so that fuel above the number of free sectors is enough. *)
Fixpoint allocate_chain (fuel : nat) (t s c : Z) (tmp : mem) : ST vdrive_t (Z * Z) :=
  match fuel with
  | O => ub
  | S fuel =>
      if t =? 0 then mret (CBMDOS_IPE_OK, c)
      else
        let! v := state in
        let! image := lift (deref_image v) in
        if Geometry.disk_image_check_sector image t s <? 0 then
          let! rc := VDrive.vdrive_command_set_error CBMDOS_IPE_ILLEGAL_TRACK_OR_SECTOR t s in mret (rc, c)
        else
          let! r := Bam.vdrive_bam_allocate_sector t s in
          if r =? 0 then let! rc := VDrive.vdrive_command_set_error CBMDOS_IPE_NO_BLOCK t s in mret (rc, c)
          else
            let! (rc, tmp) := VDrive.vdrive_read_sector tmp t s in
            if 0 <? rc then VDrive.vdrive_command_set_error rc t s;; mret (rc, c)
            else if rc <? 0 then mret (CBMDOS_IPE_NOT_READY, c)
            else
              let! t := lift (getb tmp 0) in
              let! s := lift (getb tmp 1) in
              allocate_chain fuel t s (u32 (c + 1)) tmp
  end.

Definition vdrive_command_allocate_chain (fuel : nat) (t s c : Z) : ST vdrive_t (Z * Z) :=
  allocate_chain fuel t s c (lib_malloc 256).

(** What an entry leads to: the status if the validation stops ([goto bad]), the values of
    [t] and [s], the block count of the entry ([sz]) and of the file ([l]). *)
Definition outcome : Type := option Z * (Z * Z) * (Z * Z).
Definition stop (status t s : Z) : outcome := (Some status, (t, s), (0, 0)).

Definition chain_outcome (fuel : nat) (t s sz l : Z) : ST vdrive_t outcome :=
  let! (rc, l) := vdrive_command_allocate_chain fuel t s l in
  mret (if negb (rc =? CBMDOS_IPE_OK) then stop rc t s else (None, (t, s), (sz, l))).

(** The area of a sub-partition: the status where it stops. *)
Fixpoint validate_area (n : nat) (t s : Z) : ST vdrive_t (option Z * (Z * Z)) :=
  match n with
  | O => mret (None, (t, s))
  | S n =>
      let! v := state in
      let! legal := lift (if t =? 40 then Some false
                          else image ← deref_image v;
                               Some (0 <=? Geometry.disk_image_check_sector image t s)) in
      if negb legal then mret (Some CBMDOS_IPE_ILLEGAL_TRACK_OR_SECTOR, (t, s))
      else
        let! r := Bam.vdrive_bam_allocate_sector t s in
        if r =? 0 then mret (Some CBMDOS_IPE_NO_BLOCK, (t, s))
        else let (t, s) := next_1581 t s in validate_area n t s
  end.

Definition validate_cbm (b : mem) : ST vdrive_t outcome :=
  let! t := lift (getb b SLOT_FIRST_TRACK) in
  let! s := lift (getb b SLOT_FIRST_SECTOR) in
  let! l := lift (entry_blocks b) in
  let! (r, ts) := validate_area (Z.to_nat l) t s in
  mret (r, ts, (0, 0)).

(** The records of a VLIR file: all but the empty ones, up to the first that is (0, 0) *)
Fixpoint validate_records (n fuel : nat) (tmp : mem) (i t s sz l : Z) : ST vdrive_t outcome :=
  match n with
  | O => mret (None, (t, s), (sz, l))
  | S n =>
      let! t := lift (getb tmp (2 + i * 2)) in
      let! s := lift (getb tmp (2 + i * 2 + 1)) in
      if (t =? 0) && (s =? 255) then validate_records n fuel tmp (i + 1) t s sz l
      else if (t =? 0) && (s =? 0) then mret (None, (t, s), (sz, l))
      else
        let! (rc, l) := vdrive_command_allocate_chain fuel t s l in
        if negb (rc =? CBMDOS_IPE_OK) then mret (stop rc t s)
        else validate_records n fuel tmp (i + 1) t s sz l
  end.

(** A sector that belongs to a GEOS file: when it is taken, the message says so but the
    status, with which the validation stops, is the one before. *)
Definition take_block (t s : Z) (k : ST vdrive_t outcome) : ST vdrive_t outcome :=
  let! r := Bam.vdrive_bam_allocate_sector t s in
  if r =? 0 then
    VDrive.vdrive_command_set_error CBMDOS_IPE_NO_BLOCK t s;; mret (stop CBMDOS_IPE_OK t s)
  else k.

Definition validate_vlir (fuel : nat) (t s sz l : Z) : ST vdrive_t outcome :=
  let! (rc, tmp) := VDrive.vdrive_read_sector (lib_malloc 256) t s in
  if negb (rc =? 0) then mret (stop (access_error rc) t s)
  else take_block t s (validate_records 127 fuel tmp 0 t s sz (l + 1)).

Definition validate_geos (fuel : nat) (b : mem) (sz : Z) : ST vdrive_t outcome :=
  let! t := lift (getb b SLOT_GEOS_ITRACK) in
  let! s := lift (getb b SLOT_GEOS_ISECTOR) in
  let! struct := lift (getb b SLOT_GEOS_STRUCT) in
  let! t1 := lift (getb b SLOT_FIRST_TRACK) in
  let! s1 := lift (getb b SLOT_FIRST_SECTOR) in
  let rest := if struct =? 0 then chain_outcome fuel t1 s1 sz 1
              else if struct =? 1 then validate_vlir fuel t1 s1 sz 1
              else mret (stop CBMDOS_IPE_DIRECTORY_ERROR t s) in
  if negb (t =? 0) then take_block t s rest else rest.

(** SEQ, PRG, USR and REL files; a REL file has a second chain. *)
Definition validate_file (fuel : nat) (b : mem) (ty sz : Z) : ST vdrive_t outcome :=
  let! t := lift (getb b SLOT_FIRST_TRACK) in
  let! s := lift (getb b SLOT_FIRST_SECTOR) in
  let! (rc, l) := vdrive_command_allocate_chain fuel t s 0 in
  if negb (rc =? CBMDOS_IPE_OK) then mret (stop rc t s)
  else if ty =? CBMDOS_FT_REL then
    let! t := lift (getb b SLOT_SIDE_TRACK) in
    let! s := lift (getb b SLOT_SIDE_SECTOR) in
    chain_outcome fuel t s sz l
  else mret (None, (t, s), (sz, l)).

(** The directory below an entry: [worker] validates it. *)
Definition validate_subdir (worker : Z -> Z -> ST vdrive_t (Z * Z * Z)) (fuel : nat) (b : mem)
    : ST vdrive_t outcome :=
  let! t := lift (getb b SLOT_FIRST_TRACK) in
  let! s := lift (getb b SLOT_FIRST_SECTOR) in
  let! sz := lift (entry_blocks b) in
  let! (rc, l) := vdrive_command_allocate_chain fuel t s 0 in
  if negb (rc =? CBMDOS_IPE_OK) then mret (stop rc t s)
  else
    let! (r, s) := worker t s in
    let (status, t) := r : Z * Z in
    mret (if negb (status =? CBMDOS_IPE_OK) then stop status t s else (None, (t, s), (sz, l))).

(** A closed entry, by its type [ty] *)
Definition validate_entry (worker : Z -> Z -> ST vdrive_t (Z * Z * Z)) (fuel : nat) (geos ty : Z)
    (b : mem) (t s : Z) : ST vdrive_t outcome :=
  let! v := state in
  let f := image_format (geom v) in
  if ty =? CBMDOS_FT_CBM then
    if negb (f =? VDRIVE_IMAGE_FORMAT_1581) then mret (stop CBMDOS_IPE_DIRECTORY_ERROR t s)
    else validate_cbm b
  else if ty =? CBMDOS_FT_DIR then
    if negb (f =? VDRIVE_IMAGE_FORMAT_NP) then mret (stop CBMDOS_IPE_DIRECTORY_ERROR t s)
    else validate_subdir worker fuel b
  else if (CBMDOS_FT_SEQ <=? ty) && (ty <=? CBMDOS_FT_REL) then
    let! sz := lift (entry_blocks b) in
    let! gt := lift (getb b SLOT_GEOS_TYPE) in
    if negb (gt =? 0) && negb (geos =? 0) && negb (ty =? CBMDOS_FT_REL) then validate_geos fuel b sz
    else validate_file fuel b ty sz
  else mret (None, (t, s), (0, 0)).

(** Writes the sector of the entry, [Some] if that fails. *)
Definition rewrite_entry : ST search_t (option Z) :=
  let! rc := write_dir in
  mret (if rc <? 0 then Some CBMDOS_IPE_WRITE_ERROR_VER else None).

(** [m] searches all entries of the directory whose header is [(t, s)]. *)
Definition in_directory {A} (t s : Z) (m : ST search_t A) : ST vdrive_t A :=
  let! v := state in
  let g := geom v in
  upd_geom (fun g => set_Header_Track t (set_Header_Sector s g));;
  let! r := with_dir (vdrive_dir_find_first_slot (str "*" ++ [0]) 1 0;; m) in
  upd_geom (fun g' => set_Header_Track (Header_Track g) (set_Header_Sector (Header_Sector g) g'));;
  mret r.

(** The entries of a directory: status, [t] and [s]. A file that was not closed is
    deleted; a wrong block count is corrected. *)
Fixpoint validate_entries (fuel : nat) (geos t s : Z) : ST search_t (Z * Z * Z) :=
  match fuel with
  | O => ub
  | S fuel =>
      let worker t s := in_directory t s (validate_entries fuel geos 0 0) in
      let! e := vdrive_dir_find_next_slot fuel in
      match e with
      | None => mret (CBMDOS_IPE_OK, t, s)
      | Some e =>
          let! b := entry_bytes e in
          let! filetype := get_entry SLOT_TYPE_OFFSET in
          if negb (Z.land filetype CBMDOS_FT_CLOSED =? 0) then
            let! (r, counts) := on_drive (validate_entry worker fuel geos (Z.land filetype 0x07) b t s) in
            let '(status, (t, s)) := r : option Z * (Z * Z) in
            let '(sz, l) := counts : Z * Z in
            match status with
            | Some status => mret (status, t, s)
            | None =>
                if negb (sz =? l) then
                  put_entry SLOT_NR_BLOCKS (Z.land l 255);;
                  put_entry (SLOT_NR_BLOCKS + 1) (Z.shiftr l 8);;
                  let! st := state in
                  let (t, s) := (dtrack (dctx st), dsector (dctx st)) in
                  let! r := rewrite_entry in
                  match r with
                  | Some status => mret (status, t, s)
                  | None => validate_entries fuel geos t s
                  end
                else validate_entries fuel geos t s
            end
          else
            put_entry SLOT_TYPE_OFFSET CBMDOS_FT_DEL;;
            let! st := state in
            let (t, s) := (dtrack (dctx st), dsector (dctx st)) in
            let! r := rewrite_entry in
            match r with
            | Some status => mret (status, t, s)
            | None => validate_entries fuel geos t s
            end
      end
  end.

Definition vdrive_command_validate_worker (fuel : nat) (geos t s : Z) : ST vdrive_t (Z * Z * Z) :=
  in_directory t s (validate_entries fuel geos 0 0).

(** The backup of the BAM. Of its states, an array of ints, [VDRIVE_BAM_MAX_STATES] bytes
    are copied: eight states and the low byte of the ninth. *)
Definition saved_bam (v : vdrive_t) : option mem :=
  match bam (bamc v) with
  | Some b => slice b 0 (bam_size (bamc v))
  | None => if bam_size (bamc v) =? 0 then Some [] else None
  end.
Definition restored_states (old new : mem) : option mem :=
  o ← getb old 8; n ← getb new 8;
  low ← slice old 0 8; high ← slice new 9 24;
  Some (low ++ [s32 (Z.lor (Z.land (u32 n) 0xffffff00) (Z.land (u32 o) 0xff))] ++ high).
Definition restore_bam (oldbam oldstate : mem) : ST vdrive_t unit :=
  update (fun v =>
    b ← match bam (bamc v) with Some b => Some <$> splice b 0 oldbam | None => Some None end;
    st ← restored_states oldstate (bam_state (bamc v));
    Some (set_bamc (set_bam b (set_bam_state st (bamc v))) v)).

(** All sectors of the partition are free. *)
Definition free_partition : ST vdrive_t unit :=
  let! v := state in
  let g := geom v in
  for_each (Z.to_nat (Part_End g - Part_Start g + 1)) (Part_Start g) (fun t =>
    let! v := state in
    let! max_sector := lift (VDrive.vdrive_get_max_sectors v t) in
    for_each (Z.to_nat (u32 max_sector)) 0 (fun s => Bam.vdrive_bam_free_sector t s;; mret tt)).

(** The sectors a format reserves besides the chain of its header *)
Definition reserve_sectors (fuel : nat) : ST vdrive_t unit :=
  let! v := state in
  let g := geom v in
  let f := image_format g in
  let take t s := Bam.vdrive_bam_allocate_sector t s;; mret tt in
  if f =? VDRIVE_IMAGE_FORMAT_1571 then
    let! max_sector := lift (VDrive.vdrive_get_max_sectors v 53) in
    for_each (Z.to_nat (u32 max_sector)) 0 (take 53)
  else if f =? VDRIVE_IMAGE_FORMAT_1581 then
    take (Bam_Track g) (Bam_Sector g + 1);; take (Bam_Track g) (Bam_Sector g + 2)
  else if (f =? VDRIVE_IMAGE_FORMAT_8050) || (f =? VDRIVE_IMAGE_FORMAT_8250) then
    take (Header_Track g) (Header_Sector g)
  else if f =? VDRIVE_IMAGE_FORMAT_NP then
    take 1 0;; for_each 32 2 (take 1)
  else if f =? VDRIVE_IMAGE_FORMAT_9000 then
    BamAlloc.vdrive_bam_allocate_chain_255 fuel (Bam_Track g) (Bam_Sector g);;
    BamAlloc.vdrive_bam_allocate_chain fuel (Header_Track g) (Header_Sector g);;
    take 0 0;; take 0 1
  else mret tt.

(** The border sector of a GEOS disk: [false] if it is taken. *)
Definition reserve_border (geos : Z) : ST vdrive_t bool :=
  if geos =? 0 then mret true
  else
    let! t := Bam.get_bam 0xab in
    let! s := Bam.get_bam 0xac in
    if t =? 0 then mret true
    else
      let! r := Bam.vdrive_bam_allocate_sector t s in
      if r =? 0 then VDrive.vdrive_command_set_error CBMDOS_IPE_NO_BLOCK t s;; mret false
      else mret true.

(** The validation behind the closing of the channels: the BAM is made anew and kept if
    all is well. When the border sector of a GEOS disk is taken, the function returns
    without putting the backup back. *)
Definition rebuild (fuel : nat) : ST vdrive_t Z :=
  let! v := state in
  let g := geom v in
  let! oldbam := lift (saved_bam v) in
  let bad status := restore_bam oldbam (bam_state (bamc v));; mret status in
  Bam.vdrive_bam_clear_all;;
  free_partition;;
  let! (status, _) := (if negb (image_format g =? VDRIVE_IMAGE_FORMAT_9000)
                       then vdrive_command_allocate_chain fuel (Bam_Track g) (Bam_Sector g) 0
                       else mret (CBMDOS_IPE_OK, 0)) in
  if negb (status =? CBMDOS_IPE_OK) then bad status
  else
    reserve_sectors fuel;;
    let! geos := Bam.vdrive_bam_isgeos in
    let! ok := reserve_border geos in
    if negb ok then mret CBMDOS_IPE_OK
    else
      let (t, s) := if image_format g =? VDRIVE_IMAGE_FORMAT_NP then (BAM_TRACK_NP, BAM_SECTOR_NP)
                    else (Header_Track g, Header_Sector g) in
      let! (r, _) := vdrive_command_validate_worker fuel geos t s in
      let (status, _) := r : Z * Z in
      if status =? CBMDOS_IPE_OK then Bam.vdrive_bam_write_bam;; mret status else bad status.
End command.
End Command.
