(* ===== verification/Copy.v ===== *)
(** * Copying files

    Models [vdrive_command_copy] of [src/lib/vdrive/vdrive-command.c], the command [C]: up to
    six files are concatenated to a new one. The state is the command channel, whose side
    sectors the function uses for a relative file, with the local variables of the function.
    A step that leaves the function ([goto out]) returns [Some] of the status. *)

From Stdlib Require Import Ascii String.
From S2P Require Import Prelude Geometry Image VDrive Bam BamAlloc Cbmdos Partition Directory Channel RelFile Command.
Import Directory Channel Command.

Definition COPYBUFFER : Z := 32.
Definition COPYMAX : nat := 6.

(** The contents of a structure [cbmdos_cmd_parse_plus_t] on the stack: the parts of it that
    the function does not set, the command among them, are looked at when the path is
    followed. *)
Class Stack := { uninit_parse : cbmdos_cmd_parse_plus_t }.

(** The command channel and the local variables; [wt] and [ws] are the sector that is
    filled, [wp] the place in its buffer [wb], [es] the blocks of the new file, [ssn] the
    number of its side sector. *)
Record copy_t := CopyState {
  cc : channel_t;
  cdir : dir_t;
  newtype : Z;
  newlength : Z;
  es : Z;
  wb : mem;
  rb : mem;
  wt : Z;
  ws : Z;
  wp : Z;
  ssn : Z;
  super : Z
}.

Definition set_cc (x : channel_t) (r : copy_t) : copy_t :=
  CopyState x (cdir r) (newtype r) (newlength r) (es r) (wb r) (rb r) (wt r) (ws r) (wp r) (ssn r) (super r).
Definition set_cdir (x : dir_t) (r : copy_t) : copy_t :=
  CopyState (cc r) x (newtype r) (newlength r) (es r) (wb r) (rb r) (wt r) (ws r) (wp r) (ssn r) (super r).
Definition set_new (x y : Z) (r : copy_t) : copy_t :=
  CopyState (cc r) (cdir r) x y (es r) (wb r) (rb r) (wt r) (ws r) (wp r) (ssn r) (super r).
Definition set_es (x : Z) (r : copy_t) : copy_t :=
  CopyState (cc r) (cdir r) (newtype r) (newlength r) x (wb r) (rb r) (wt r) (ws r) (wp r) (ssn r) (super r).
Definition set_wb (x : mem) (r : copy_t) : copy_t :=
  CopyState (cc r) (cdir r) (newtype r) (newlength r) (es r) x (rb r) (wt r) (ws r) (wp r) (ssn r) (super r).
Definition set_rb (x : mem) (r : copy_t) : copy_t :=
  CopyState (cc r) (cdir r) (newtype r) (newlength r) (es r) (wb r) x (wt r) (ws r) (wp r) (ssn r) (super r).
Definition set_w (t s p : Z) (r : copy_t) : copy_t :=
  CopyState (cc r) (cdir r) (newtype r) (newlength r) (es r) (wb r) (rb r) t s p (ssn r) (super r).
Definition set_ssn (x : Z) (r : copy_t) : copy_t :=
  CopyState (cc r) (cdir r) (newtype r) (newlength r) (es r) (wb r) (rb r) (wt r) (ws r) (wp r) x (super r).
Definition set_super (x : Z) (r : copy_t) : copy_t :=
  CopyState (cc r) (cdir r) (newtype r) (newlength r) (es r) (wb r) (rb r) (wt r) (ws r) (wp r) (ssn r) x.

Module Copying.
Section copy.
Context {platform : Platform} {clock : Clock} {stack : Stack}.

(** ** Parts of the state *)

Definition on_command {A} (m : ST channel_t A) : ST copy_t A := fun x =>
  match m (cc x) with Some (a, c) => Some (a, set_cc c x) | None => None end.
Definition on_vdrive {A} (m : ST vdrive_t A) : ST copy_t A := on_command (on_cdrive m).
(** A computation on the local context of the search *)
Definition on_context {A} (m : ST search_t A) : ST copy_t A := fun x =>
  match m (Search (drive (cc x)) (cdir x)) with
  | Some (a, s) =>
      let c := cc x in
      Some (a, set_cdir (dctx s) (set_cc (set_clist (set_search (set_drv (drv s) (search (clist c))) (clist c)) c) x))
  | None => None
  end.
Definition local (f : copy_t -> copy_t) : ST copy_t unit := modify f.
Definition count_es : ST copy_t unit := local (fun x => set_es (es x + 1) x).
Definition put_wb (i b : Z) : ST copy_t unit :=
  update (fun x => m ← putb (wb x) i (u8 b); Some (set_wb m x)).

Notation side i x := (on_command (RelFile.put_side i x)).

(** ** The names of the command *)

(** [dest] and [src[i]]: the names of the command in a structure that is not set otherwise *)
Definition named (v : vdrive_t) (cmd : cbmdos_cmd_parse_plus_t) : cbmdos_cmd_parse_plus_t :=
  set_file (file cmd) (set_filelength (filelength cmd) (set_path (path cmd) (set_pathlength (pathlength cmd)
    (set_pdrive (Partition.vdrive_realpart v (pdrive cmd)) uninit_parse)))).

(** The delimiter behind the names that were parsed *)
Definition delimiter (cmd : cbmdos_cmd_parse_plus_t) : option (option Z) :=
  if morelength cmd =? 0 then Some None
  else match more cmd with
       | None => Some None
       | Some m => b ← getb m 0; Some (if (b =? ch "=") || (b =? ch ",") then Some b else None)
       end.

(** The sources with their delimiters: [None] is a syntax error. *)
Fixpoint sources (n : nat) (cmd : cbmdos_cmd_parse_plus_t) : ST vdrive_t (option (list (Z * cbmdos_cmd_parse_plus_t))) :=
  match n with
  | O => mret (Some [])
  | S n =>
      let! d := lift (delimiter cmd) in
      match d with
      | None => mret (Some [])
      | Some d =>
          let! (rc, cmd) := parse_more cmd in
          if negb (rc =? 0) then mret None
          else
            let! v := state in
            let! rest := sources n cmd in
            mret (cons (d, named v cmd) <$> rest)
      end
  end.

(** ** Where the sources begin *)

Definition copied_types : list Z :=
  (fun ty => Z.lor ty CBMDOS_FT_CLOSED) <$> [CBMDOS_FT_PRG; CBMDOS_FT_SEQ; CBMDOS_FT_USR; CBMDOS_FT_REL].

(** The first sector of the file of entry [e]: [None] if it cannot be copied. The first file
    gives the type and the length of the records. *)
Definition begin_source (first : bool) (e : mem) : ST copy_t (option (Z * Z)) :=
  let! ty := lift (getb e SLOT_TYPE_OFFSET) in
  let! len := lift (getb e SLOT_RECORD_LENGTH) in
  if negb (bool_decide (ty ∈ copied_types)) then mret None
  else
    (if first then local (fun x => set_new ty (if ty =? Z.lor CBMDOS_FT_REL CBMDOS_FT_CLOSED then len else newlength x) x)
     else mret tt);;
    let! x := state in
    if negb (newlength x =? 0) && negb (newlength x =? len) then mret None
    else
      let! t := lift (getb e SLOT_FIRST_TRACK) in
      let! s := lift (getb e SLOT_FIRST_SECTOR) in
      let! lo := lift (getb e SLOT_NR_BLOCKS) in
      let! hi := lift (getb e (SLOT_NR_BLOCKS + 1)) in
      local (fun x => set_es (es x + Z.lor lo (Z.shiftl hi 8)) x);;
      mret (Some (t, s)).

(** The partition and the first sector of every source. An error that is found behind the
    path leaves the function with the status of the path, which is no error. *)
Fixpoint locate_sources (fuel : nat) (first : bool) (status : Z) (srcs : list (Z * cbmdos_cmd_parse_plus_t))
    : ST copy_t (Z + list (Z * (Z * Z))) :=
  match srcs with
  | [] => mret (inr [])
  | (d, src) :: srcs =>
      let! w := lift (vdrive_haswildcard (file src) (filelength src)) in
      if (w : bool) || negb (d =? (if first then ch "=" else ch ",")) then mret (inl status)
      else
        let! (status, src) := on_vdrive (vdrive_command_switchtraverse fuel src) in
        if negb (status =? 0) then mret (inl status)
        else
          let! e := on_context (lookup_file fuel (name_of src) (filelength src) CBMDOS_FT_DEL) in
          match e with
          | None => mret (inl CBMDOS_IPE_NOT_FOUND)
          | Some e =>
              let! e := on_context (entry_bytes e) in
              let! a := begin_source first e in
              match a with
              | None => mret (inl status)
              | Some a =>
                  let! rest := locate_sources fuel false status srcs in
                  mret (match rest with inl r => inl r | inr l => inr ((pdrive src, a) :: l) end)
              end
          end
  end.

(** ** Side sectors *)

(** A full group is written and cleared: [Some] if a sector cannot be written. *)
Definition flush_side (x : Z) : ST copy_t (option Z) :=
  let! t := on_command (RelFile.get_block side_sector_track x) in
  if t =? 0 then mret None
  else
    let! s := on_command (RelFile.get_block side_sector_sector x) in
    let! st := state in
    let! b := lift (m ← side_sector (crel (cc st)); slice m (x * 256) 256) in
    let! rc := on_vdrive (VDrive.vdrive_write_sector b t s) in
    mret (if rc <? 0 then Some CBMDOS_IPE_DISK_FULL else None).
Definition clear_side (x : Z) : ST copy_t unit :=
  on_command (
    update (fun c => m ← side_sector (crel c); m ← fill m (x * 256 + 4) 0 252;
                     Some (set_crel (set_side_sector (Some m) (crel c)) c));;
    RelFile.put_address x 0 0).
Definition flush_group : ST copy_t (option Z) :=
  for_ 6 0 (fun x =>
    let! r := flush_side x in
    match r with Some status => mret (Some status) | None => clear_side x;; mret None end).

(** Side sector [n] in all sectors of the group, and empty *)
Definition enter_side (n t s : Z) : ST copy_t unit :=
  on_command (RelFile.put_address n t s);;
  for_each 6 0 (fun x => side (x * 256 + 4 + n * 2) t;; side (x * 256 + 5 + n * 2) s);;
  side (n * 256) 0;; side (n * 256 + 1) 15.

Definition next_side : ST copy_t (option Z) :=
  let! x := state in
  let! r := (if ssn x =? 5 then
               let! r := flush_group in
               match r with Some status => mret (Some status) | None => local (set_ssn (-1));; mret None end
             else mret None) in
  match (r : option Z) with
  | Some status => mret (Some status)
  | None =>
      let! x := state in
      let! a := on_vdrive (BamAlloc.vdrive_bam_alloc_next_free_sector (wt x) (ws x)) in
      match a with
      | None => mret (Some CBMDOS_IPE_DISK_FULL)
      | Some (t, s) =>
          count_es;;
          (if 0 <=? ssn x then side (ssn x * 256) t;; side (ssn x * 256 + 1) s
           else if negb (super x =? 0) then
             local (set_super (super x + 2));;
             on_command (RelFile.put_super (super x + 2 + 2) t;; RelFile.put_super (super x + 2 + 3) s)
           else mret tt);;
          local (set_ssn (ssn x + 1));;
          enter_side (ssn x + 1) t s;;
          mret None
      end
  end.

(** The block at [wt], [ws] is noted. *)
Definition note_sector : ST copy_t unit :=
  let! x := state in
  let! v := on_command (RelFile.get_side (ssn x * 256 + 1)) in
  side (ssn x * 256 + v + 1) (wt x);;
  let! v := on_command (RelFile.get_side (ssn x * 256 + 1)) in
  side (ssn x * 256 + v + 2) (ws x);;
  let! v := on_command (RelFile.get_side (ssn x * 256 + 1)) in
  side (ssn x * 256 + 1) (v + 2).

Definition note_next : ST copy_t (option Z) :=
  let! x := state in
  let! v := on_command (RelFile.get_side (ssn x * 256 + 1)) in
  let! r := (if v =? 0xff then next_side else mret None) in
  match (r : option Z) with Some status => mret (Some status) | None => note_sector;; mret None end.

(** The first side sector, and the super side sector if the format has one *)
Definition first_side : ST copy_t (option Z) :=
  let! x := state in
  let! a := on_vdrive (BamAlloc.vdrive_bam_alloc_next_free_sector (wt x) (ws x)) in
  match a with
  | None => mret (Some CBMDOS_IPE_DISK_FULL)
  | Some (t, s) =>
      count_es;;
      enter_side (ssn x) t s;;
      side (ssn x * 256 + 0x10) (wt x);; side (ssn x * 256 + 0x11) (ws x);;
      let! v := on_command (RelFile.get_side (ssn x * 256 + 1)) in
      side (ssn x * 256 + 1) (v + 2);;
      on_context (put_entry SLOT_SIDE_TRACK t;; put_entry SLOT_SIDE_SECTOR s);;
      if super x =? 0 then mret None
      else
        let! b := on_vdrive (BamAlloc.vdrive_bam_alloc_next_free_sector t s) in
        match b with
        | None => mret (Some CBMDOS_IPE_DISK_FULL)
        | Some (st, ss) =>
            count_es;;
            on_command (RelFile.upd_rel (fun r => set_super_side_sector_track (u8 st) (set_super_side_sector_sector (u8 ss) r));;
              RelFile.put_super 0 t;; RelFile.put_super 1 s;; RelFile.put_super 2 0xfe;;
              RelFile.put_super 3 t;; RelFile.put_super 4 s);;
            on_context (put_entry SLOT_SIDE_TRACK st;; put_entry SLOT_SIDE_SECTOR ss);;
            mret None
        end
  end.

(** ** The new file *)

(** The last sector that was filled is written; without success it is free again. *)
Definition write_wb : ST copy_t (option Z) :=
  let! x := state in
  let! rc := on_vdrive (VDrive.vdrive_write_sector (wb x) (wt x) (ws x)) in
  if rc <? 0 then
    on_vdrive (Bam.vdrive_bam_free_sector (wt x) (ws x));; mret (Some CBMDOS_IPE_WRITE_ERROR_VER)
  else mret None.

(** The full buffer is linked to a new sector and written. *)
Definition next_write : ST copy_t (option Z) :=
  let! x := state in
  let! a := on_vdrive (BamAlloc.vdrive_bam_alloc_next_free_sector (wt x) (ws x)) in
  match a with
  | None => mret (Some CBMDOS_IPE_DISK_FULL)
  | Some (t, s) =>
      put_wb 0 t;; put_wb 1 s;;
      let! r := write_wb in
      match r with
      | Some status => mret (Some status)
      | None =>
          local (set_w t s 2);;
          put_wb 0 0;;
          count_es;;
          if newlength x =? 0 then mret None else note_next
      end
  end.

(** The first sector, when the first byte is there *)
Definition first_write : ST copy_t (option Z) :=
  let! a := on_vdrive BamAlloc.vdrive_bam_alloc_first_free_sector in
  match a with
  | None => mret (Some CBMDOS_IPE_DISK_FULL)
  | Some (t, s) =>
      local (fun x => set_w t s (wp x) x);;
      on_context (put_entry SLOT_FIRST_TRACK t;; put_entry SLOT_FIRST_SECTOR s);;
      put_wb 0 0;;
      count_es;;
      let! x := state in
      if newlength x =? 0 then mret None else first_side
  end.

Definition copy_byte (b : Z) : ST copy_t (option Z) :=
  let! x := state in
  let! r := (if Z.land (wp x) 256 =? 0 then mret None else next_write) in
  match (r : option Z) with
  | Some status => mret (Some status)
  | None =>
      let! x := state in
      put_wb (wp x) b;; put_wb 1 (wp x);;
      local (fun x => set_w (wt x) (ws x) (wp x + 1) x);;
      let! x := state in
      if wt x =? 0 then first_write else mret None
  end.

(** ** Reading and writing *)

(** Up to [n] sectors of the chain from [(t, s)] to place [rn] of the buffer: where they end
    and the chain goes on. A negative status of a read is not noticed. *)
Fixpoint read_chunk (n : nat) (rn t s : Z) : ST copy_t (Z + Z * Z * Z) :=
  match n with
  | O => mret (inr (rn, t, s))
  | S n =>
      if t =? 0 then mret (inr (rn, t, s))
      else
        let! x := state in
        let! b := lift (slice (rb x) rn 256) in
        let! (rc, b) := on_vdrive (VDrive.vdrive_read_sector b t s) in
        update (fun x => m ← splice (rb x) rn b; Some (set_rb m x));;
        if 0 <? rc then mret (inl rc)
        else
          let! x := state in
          let! t := lift (getb (rb x) rn) in
          let! s := lift (getb (rb x) (rn + 1)) in
          read_chunk n (rn + 256) t s
  end.

(** The bytes of the sector at place [k] of the buffer *)
Definition copy_sector (k : Z) : ST copy_t (option Z) :=
  let! x := state in
  let! t := lift (getb (rb x) k) in
  let! last := (if t =? 0 then lift (getb (rb x) (k + 1)) else mret 255) in
  for_ (Z.to_nat (last - 1)) 2 (fun m =>
    let! x := state in
    let! b := lift (getb (rb x) (k + m)) in
    copy_byte b).

(** A source, 32 sectors at a time; a circular chain uses up any fuel or the free sectors. *)
Fixpoint copy_source (fuel : nat) (src dest t s : Z) : ST copy_t (option Z) :=
  match fuel with
  | O => ub
  | S fuel =>
      on_vdrive (vdrive_command_switch src);;
      let! r := read_chunk (Z.to_nat COPYBUFFER) 0 t s in
      match r with
      | inl rc => mret (Some rc)
      | inr (rn, t, s) =>
          on_vdrive (vdrive_command_switch dest);;
          let! r := for_ (Z.to_nat (rn / 256)) 0 (fun k => copy_sector (k * 256)) in
          match r with
          | Some status => mret (Some status)
          | None => if t =? 0 then mret None else copy_source fuel src dest t s
          end
      end
  end.

Fixpoint copy_sources (fuel : nat) (dest : Z) (l : list (Z * (Z * Z))) : ST copy_t (option Z) :=
  match l with
  | [] => mret None
  | (src, (t, s)) :: l =>
      let! r := copy_source fuel src dest t s in
      match r with Some status => mret (Some status) | None => copy_sources fuel dest l end
  end.

(** The side sectors that are left and the super side sector *)
Definition flush_sides : ST copy_t (option Z) :=
  let! x := state in
  let r := crel (cc x) in
  let! rc := (if super_side_sector_track r =? 0 then mret 0
              else
                let! b := lift (super_side_sector r) in
                on_vdrive (VDrive.vdrive_write_sector b (super_side_sector_track r) (super_side_sector_sector r))) in
  if rc <? 0 then mret (Some CBMDOS_IPE_DISK_FULL) else for_ 6 0 flush_side.

(** The rest of the last sector, the side sectors, the entry and the BAM *)
Definition complete (dest : Z) : ST copy_t Z :=
  on_vdrive (vdrive_command_switch dest);;
  let! x := state in
  let! r := (if wt x =? 0 then mret None else write_wb) in
  match (r : option Z) with
  | Some status => mret status
  | None =>
      let! r := (if newlength x =? 0 then mret None else flush_sides) in
      match (r : option Z) with
      | Some status => mret status
      | None =>
          on_context (
            put_entry SLOT_NR_BLOCKS (Z.land (es x) 255);;
            put_entry (SLOT_NR_BLOCKS + 1) (Z.shiftr (es x) 8);;
            let! s := state in
            (if haspt (part (drv s)) then
               let! e := lift (e ← slice (dbuffer (dctx s)) (dslot (dctx s) * 32) 32; vdrive_dir_updatetime host_time e) in
               store_entry 0 e
             else mret tt);;
            write_dir);;
          on_vdrive Bam.vdrive_bam_write_bam;;
          mret CBMDOS_IPE_OK
      end
  end.

(** The numbers and the record length of the side sectors of a relative file *)
Definition begin_sides : ST copy_t unit :=
  let! super := on_command RelFile.vdrive_rel_setup_ss_buffers in
  local (set_super super);;
  local (set_ssn 0);;
  for_each 6 0 (fun i => let! x := state in side (i * 256 + 2) i;; side (i * 256 + 3) (newlength x)).

(** The file is made in the entry that was found. *)
Definition make_copy (fuel : nat) (dest : Z) (l : list (Z * (Z * Z))) : ST copy_t Z :=
  let! x := state in
  on_context (
    store_entry 2 (replicate 30 0);;
    let! s := state in
    let! name := lift (slice (find_nslot (dctx s)) 0 CBMDOS_SLOT_NAME_LENGTH) in
    store_entry SLOT_NAME_OFFSET name;;
    put_entry SLOT_TYPE_OFFSET (newtype x);;
    put_entry SLOT_RECORD_LENGTH (newlength x));;
  local (fun x => set_w 0 0 2 (set_es 0 (set_wb (lib_malloc 256) (set_rb (lib_malloc (COPYBUFFER * 256)) x))));;
  (if newlength x =? 0 then mret tt else begin_sides);;
  let! r := copy_sources fuel dest l in
  match r with Some status => mret status | None => complete dest end.

(** ** The command *)

Definition copy_files (fuel : nat) (cmd : cbmdos_cmd_parse_plus_t) : ST copy_t Z :=
  let! x := state in
  let v := drive (cc x) in
  if Command.readonly v then mret CBMDOS_IPE_WRITE_PROTECT_ON
  else
    let! w := lift (vdrive_haswildcard (file cmd) (filelength cmd)) in
    if (w : bool) then mret CBMDOS_IPE_SYNTAX
    else
      let! srcs := on_vdrive (sources COPYMAX cmd) in
      match srcs with
      | None | Some [] => mret CBMDOS_IPE_SYNTAX
      | Some srcs =>
          let! r := locate_sources fuel true CBMDOS_IPE_SYNTAX srcs in
          match r with
          | inl status => mret status
          | inr l =>
              let! (status, dest) := on_vdrive (vdrive_command_switchtraverse fuel (named v cmd)) in
              if negb (status =? 0) then mret status
              else
                let! count := on_vdrive Bam.vdrive_bam_free_block_count in
                let! x := state in
                if count <? u32 (es x - Z.of_nat (length l) + 1) then mret CBMDOS_IPE_DISK_FULL
                else
                  let! e := on_context (lookup_file fuel (name_of dest) (filelength dest) CBMDOS_FT_DEL) in
                  if bool_decide (is_Some e) then mret CBMDOS_IPE_FILE_EXISTS
                  else
                    on_command (RelFile.upd_rel (set_side_sector None));;
                    let! e := on_context (lookup_file fuel (name_of dest) (-1) CBMDOS_FT_DEL) in
                    if bool_decide (is_Some e) then make_copy fuel (pdrive dest) l else mret CBMDOS_IPE_DISK_FULL
          end
      end.

(** The side sectors of a relative file are given up. *)
Definition release_sides : ST copy_t unit :=
  let! x := state in
  if negb (newlength x =? 0) && bool_decide (is_Some (side_sector (crel (cc x))))
  then on_command RelFile.vdrive_rel_shutdown_ss_buffers else mret tt.

Definition vdrive_command_copy (fuel : nat) (cmd : cbmdos_cmd_parse_plus_t) : ST channel_t Z := fun c =>
  let origpart := current_part (part (drive c)) in
  match (let! status := copy_files fuel cmd in
         release_sides;;
         on_vdrive (vdrive_command_return origpart);;
         mret status) (CopyState c blank_dir 0 0 0 [] [] 0 0 0 0 0) with
  | Some (status, x) => Some (status, cc x)
  | None => None
  end.
End copy.
End Copying.
