(* ===== verification/Unit.v ===== *)
(** * The unit

    Models the drive with its sixteen channels: the commands of
    [src/lib/vdrive/vdrive-command.c] that reach the buffers of the channels (blocks,
    memory, formatting and validation, which close the channels, the answers of the
    command channel), the interpreter [vdrive_command_execute], and with it
    [vdrive_iec_open] and [vdrive_iec_flush] of [vdrive-iec.c] and the closing of all
    channels of [vdrive.c].

    A channel of [unit_t] is a [channel_t] whose drive is not looked at: [on_channel]
    puts in the drive of the unit, and takes it out again. The message of an error goes to
    the command channel when the computation that reported it ends ([reporting]): of two
    messages of one computation only the last is seen. *)

From Stdlib Require Import Ascii String.
From S2P Require Import Prelude Geometry Image VDrive Bam BamAlloc Cbmdos Partition Directory Channel RelFile Command Copy.
Import Directory Channel Command.

Definition IP_MAX_COMMAND_LEN : Z := 128.
Definition CBMDOS_IPE_MEMORY_READ : Z := 4.
Definition CBMDOS_IPE_LONG_LINE : Z := 32.
Definition CBMDOS_IPE_NO_CHANNEL : Z := 70.
Definition CBMDOS_IPE_FORMAT_ERROR : Z := 75.
Definition CBMDOS_IPE_MEMEXE_NOT_SUPPORTED : Z := 99.
Definition SERIAL_NO_DEVICE : Z := 128.

(** [vdrive_t] with its buffers: the drive, the channels, and the fields that the model
    of a channel holds as its own ([dir_part], [dir_count], the globals of the last
    sector read and [mem_buf_next_byte_override]). *)
Record unit_t := Unit {
  udrive : vdrive_t;
  buffers : list channel_t;
  udir_part : Z;
  udir_count : Z;
  ulast_read : Z * Z * mem;
  unext_override : Z
}.

Definition set_udrive (x : vdrive_t) (r : unit_t) : unit_t :=
  Unit x (buffers r) (udir_part r) (udir_count r) (ulast_read r) (unext_override r).
Definition set_udir_part (x : Z) (r : unit_t) : unit_t :=
  Unit (udrive r) (buffers r) x (udir_count r) (ulast_read r) (unext_override r).
Definition set_udir_count (x : Z) (r : unit_t) : unit_t :=
  Unit (udrive r) (buffers r) (udir_part r) x (ulast_read r) (unext_override r).

(** What the commands use and is not modelled: the id of a sector of a flux-level image, and
    the clock of the host (its day of the week and second; the rest is [host_time]). *)
Class Unit_io := {
  flux_read_id : disk_image_t -> Z -> Z -> Z * (Z * Z);
  host_wday : Z;
  host_sec : Z
}.

Module Units.
Section unit.
Context {platform : Platform} {clock : Clock} {stack : Stack} {io : Unit_io}.

(** ** Channels of the unit *)

(** The channel as its operations see it, and what they leave of it *)
Definition attach (u : unit_t) (c : channel_t) : channel_t :=
  set_last_read (ulast_read u) (set_next_override (unext_override u) (set_clist
    (set_dir_part (udir_part u) (set_dir_count (udir_count u)
      (set_search (set_drv (udrive u) (search (clist c))) (clist c)))) c)).
Definition detach (i : nat) (c : channel_t) (u : unit_t) : unit_t :=
  Unit (Channel.drive c) (<[i := c]> (buffers u)) (dir_part (clist c)) (dir_count (clist c))
    (last_read c) (next_override c).

(** [&vdrive->buffers[i]], undefined outside the array *)
Definition buffer (u : unit_t) (i : Z) : option channel_t :=
  if 0 <=? i then buffers u !! Z.to_nat i else None.
Definition run_channel {A} (i : Z) (m : ST channel_t A) : ST unit_t A := fun u =>
  c ← buffer u i;
  '(a, c) ← m (attach u c);
  Some (a, detach (Z.to_nat i) c u).
Definition run_drive {A} (m : ST vdrive_t A) : ST unit_t A := fun u =>
  '(a, v) ← m (udrive u); Some (a, set_udrive v u).

(** The errors that [m] reports are noticed by a track that is no track. *)
Definition reporting {A} (m : ST unit_t A) : ST unit_t A :=
  let! u := state in
  run_drive (modify (set_err_track (-1)));;
  let! a := m in
  let! u' := state in
  let v := udrive u' in
  (if err_track v =? -1 then run_drive (modify (set_err_track (err_track (udrive u))))
   else run_channel 15 (Channel.put_message (last_code v) (err_track v) (err_sector v)));;
  mret a.

(** An operation of channel [i]; the command channel writes its messages itself. *)
Definition on_channel {A} (i : Z) (m : ST channel_t A) : ST unit_t A :=
  if i =? 15 then run_channel i m else reporting (run_channel i m).
Definition on_unit_drive {A} (m : ST vdrive_t A) : ST unit_t A := reporting (run_drive m).

Definition set_error (code track sector : Z) : ST unit_t Z :=
  on_unit_drive (VDrive.vdrive_command_set_error code track sector).

(** A field of a buffer *)
Definition get_field {A} (i : Z) (f : channel_t -> A) : ST unit_t A :=
  let! u := state in lift (f <$> buffer u i).
Definition put_field (i : Z) (f : channel_t -> channel_t) : ST unit_t unit := run_channel i (modify f).
Definition drive_field {A} (f : vdrive_t -> A) : ST unit_t A := gets (fun u => f (udrive u)).

(** ** Closing all channels *)

Definition close_matching (fuel : nat) (p : channel_t -> bool) : ST unit_t unit :=
  for_each 16 0 (fun i =>
    let! m := get_field i cmode in
    let! sel := get_field i p in
    if negb (m =? BUFFER_NOT_IN_USE) && negb (m =? BUFFER_COMMAND_CHANNEL) && (sel : bool)
    then on_channel i (vdrive_iec_close fuel);; mret tt else mret tt).

Definition vdrive_close_all_channels (fuel : nat) : ST unit_t unit := close_matching fuel (fun _ => true).
Definition vdrive_close_all_channels_partition (fuel : nat) (part : Z) : ST unit_t unit :=
  close_matching fuel (fun c => partition (clist c) =? part).

(** ** Initializing and validating *)

Definition returning {A} (m : ST unit_t A) : ST unit_t A :=
  let! origpart := drive_field (fun v => current_part (part v)) in
  let! a := m in
  on_unit_drive (vdrive_command_return origpart);;
  mret a.

(** Channels of the partition are closed and the BAM is read again; a 1581 goes back to
    its root partition. *)
Definition initialize_current (fuel : nat) : ST unit_t Z :=
  let! p := drive_field (fun v => current_part (part v)) in
  vdrive_close_all_channels_partition fuel p;;
  on_unit_drive (
    let! v := state in
    (if image_format (geom v) =? VDRIVE_IMAGE_FORMAT_1581 then to_root else mret tt);;
    let! v := state in
    (if image_set v then Bam.vdrive_bam_setup_bam else mret tt));;
  mret CBMDOS_IPE_OK.

(** Without a command ([UI]) the current partition is initialized. *)
Definition vdrive_command_initialize (fuel : nat) (drive : option Z) : ST unit_t Z :=
  match drive with
  | None => initialize_current fuel
  | Some p => returning (
      let! r := on_unit_drive (vdrive_command_switch p) in
      if negb (r =? 0) then mret CBMDOS_IPE_NOT_READY else initialize_current fuel)
  end.

Definition vdrive_command_validate (fuel : nat) : ST unit_t Z :=
  set_error CBMDOS_IPE_OK 0 0;;
  let! ro := drive_field readonly in
  if ro then mret CBMDOS_IPE_WRITE_PROTECT_ON
  else
    let! err := on_unit_drive Bam.vdrive_bam_read_bam in
    if negb (err =? 0) then mret CBMDOS_IPE_NOT_READY
    else
      let! p := drive_field (fun v => current_part (part v)) in
      vdrive_close_all_channels_partition fuel p;;
      on_unit_drive (rebuild fuel).

Definition vdrive_command_validate_internal (fuel : nat) (cmd : cbmdos_cmd_parse_plus_t) : ST unit_t Z :=
  let! ro := drive_field readonly in
  if ro then mret CBMDOS_IPE_WRITE_PROTECT_ON
  else returning (
    let! r := on_unit_drive (vdrive_command_switch (pdrive cmd)) in
    if negb (r =? 0) then mret CBMDOS_IPE_NOT_READY else vdrive_command_validate fuel).

(** ** Formatting *)

(** All sectors of the partition are overwritten: [Some] if that fails. *)
Definition erase (tmp : mem) : ST vdrive_t (option Z) :=
  let! v := state in
  let g := geom v in
  for_ (Z.to_nat (Part_End g - Part_Start g + 1)) (Part_Start g) (fun t =>
    let! v := state in
    let! max_sector := lift (VDrive.vdrive_get_max_sectors v t) in
    for_ (Z.to_nat (u32 max_sector)) 0 (fun s =>
      let! rc := VDrive.vdrive_write_sector tmp t s in
      mret (if rc <? 0 then Some CBMDOS_IPE_WRITE_ERROR_VER else None))).

(** The id of the new disk: without one the old id is kept, and a 1581 wants its DOS
    version. [inl] is an error. *)
Definition new_id (disk_id : option mem) : ST vdrive_t (Z + mem) :=
  match disk_id with
  | None =>
      let! id := Bam.vdrive_bam_int_get_disk_id in
      let! v := state in
      if image_format (geom v) =? VDRIVE_IMAGE_FORMAT_1581 then
        let! b := Bam.get_bam 0x02 in
        mret (if negb (b =? 68) then inl CBMDOS_IPE_DOS_VERSION else inr id)
      else mret (inr id)
  | Some id =>
      let! r := erase (replicate 256 0) in
      mret (match r with Some rc => inl rc | None => inr id end)
  end.

(** Header, BAM and an empty directory: [Some] is an error. *)
Definition write_format (disk_name : mem) (disk_id : option mem) : ST vdrive_t (option Z) :=
  let! r := new_id disk_id in
  match r with
  | inl rc => mret (Some rc)
  | inr id =>
      let! v := state in
      (if image_format (geom v) =? VDRIVE_IMAGE_FORMAT_NP then
         VDrive.put_part cheadertrack set_cheadertrack (current_part (part v)) 0;;
         VDrive.vdrive_set_disk_geometry
       else mret tt);;
      let! v := state in
      let! rc := VDrive.vdrive_write_sector (0 :: 255 :: replicate 254 0) (Dir_Track (geom v))
                   (Dir_Sector (geom v)) in
      if rc <? 0 then mret (Some CBMDOS_IPE_WRITE_ERROR_VER)
      else
        Bam.vdrive_bam_create_empty_bam disk_name id;;
        Bam.vdrive_bam_write_bam;;
        mret None
  end.

Definition vdrive_command_format_worker (fuel : nat) (disk_name : mem) (disk_id : option mem) : ST unit_t Z :=
  let! p := drive_field (fun v => current_part (part v)) in
  vdrive_close_all_channels_partition fuel p;;
  let! r := on_unit_drive (write_format disk_name disk_id) in
  match r with
  | Some status => mret status
  | None => vdrive_command_validate fuel
  end.

(** The id behind the name, and what follows it *)
Definition format_options (cmd : cbmdos_cmd_parse_plus_t) : option (option mem * option mem) :=
  comma ← match more cmd with Some m => more_starts (ch ",") cmd | None => Some false end;
  if (comma : bool) then
    m ← more cmd;
    second ← Cbmdos.memchr m 1 (ch ",") (morelength cmd - 1);
    let n := match second with Some p => p - 1 | None => morelength cmd - 1 end in
    id0 ← (if 0 <? n then getb m 1 else Some 32);
    id1 ← (if 1 <? n then getb m 2 else Some 32);
    extra ← match second with
            | Some p => Some <$> slice m (p + 1) (morelength cmd - (p + 1))
            | None => Some None
            end;
    Some (Some [id0; id1; 0], extra)
  else Some (None, None).

(** ["DD8"], ["S8"], ["HDN"] ...: partition type and number of partitions, -1 if unknown *)
Definition fd_layout (type : Z) (m : mem) : Z * Z :=
  let b i := nth i m 0 in
  let parts_of (k : Z) := if k =? DISK_IMAGE_TYPE_D1M then 1 else if k =? DISK_IMAGE_TYPE_D2M then 2
                          else if k =? DISK_IMAGE_TYPE_D4M then 4 else -1 in
  let letter := if b 0%nat =? ch "D" then DISK_IMAGE_TYPE_D1M else if b 0%nat =? ch "H" then DISK_IMAGE_TYPE_D2M
                else if b 0%nat =? ch "E" then DISK_IMAGE_TYPE_D4M else -1 in
  if (mlen m =? 3) && (b 1%nat =? ch "D") then
    if b 2%nat =? ch "8" then (4, if letter =? type then parts_of type else -1)
    else if b 2%nat =? ch "N" then (1, 1) else (-1, -1)
  else if (mlen m =? 2) && (b 0%nat =? ch "S") then
    if b 1%nat =? ch "8" then (4, parts_of type)
    else if b 1%nat =? ch "N" then (1, 1) else (-1, -1)
  else (-1, -1).

(** Blocks of 512 bytes before the system partition, and sectors of its second track *)
Definition fd_size (type : Z) : Z * Z :=
  if type =? DISK_IMAGE_TYPE_D1M then (0x640, 32) else if type =? DISK_IMAGE_TYPE_D2M then (0xc80, 72)
  else if type =? DISK_IMAGE_TYPE_D4M then (0x1900, 152) else (0, 0).

(** A name padded to 16 characters *)
Definition padded (name : mem) : mem := name ++ replicate (16 - length name) 0xa0.

(** An entry of the partition table *)
Definition part_entry (ptype : Z) (name : mem) (off size : Z) : mem :=
  [0; 0; ptype; 0; 0] ++ padded name ++ [0; u8 (Z.shiftr off 8); u8 off] ++ replicate 6 0
  ++ [u8 (Z.shiftr size 8); u8 size].

Definition fd_entries (ptype parts size : Z) : mem :=
  flat_map (fun i => part_entry ptype (str "PARTITION " ++ [ch "1" + i]) (i * size) size) (seqZ 0 parts).

(** The first sector of the table: the system partition and the others *)
Definition fd_table (ptype parts size : Z) : mem :=
  let sys := [1; 1; 0xff; 0; 0] ++ padded (str "SYSTEM") ++ replicate 11 0 in
  let m := sys ++ fd_entries ptype parts size in
  m ++ replicate (256 - length m) 0.

(** The sector that describes the disk *)
Definition fd_system (size : Z) : option mem :=
  let m := replicate 224 255 ++ replicate 32 0 in
  m ← putb m 0 0; m ← splice m 0x38 [0; 0];
  m ← splice m 0x70 [u8 size; u8 (Z.shiftr size 8)];
  m ← splice m 0xa8 [0; 0]; m ← splice m 0xe2 [1; 1];
  splice m 0xf0 (str "CMD FD SERIES   ").

(** Writes sectors until one of them fails. *)
Fixpoint write_all (l : list (mem * Z * Z)) : ST vdrive_t bool :=
  match l with
  | [] => mret true
  | (b, t, s) :: l => let! rc := VDrive.vdrive_write_sector b t s in
                      if negb (rc =? 0) then mret false else write_all l
  end.

Definition fd_sectors (ptype parts : Z) (size ssize : Z) : option (list (mem * Z * Z)) :=
  sys ← fd_system size;
  let zero := replicate 256 0 in
  Some (((fun i => (zero, 0, i)) <$> [0; 1; 2; 3; 4; 6; 7])
        ++ ((fun i => (zero, 1, i)) <$> seqZ 4 (ssize - 4))
        ++ [(0 :: 0xff :: replicate 254 0, 1, 3); (1 :: 2 :: replicate 254 0, 1, 1);
            (1 :: 3 :: replicate 254 0, 1, 2); (fd_table ptype parts (size / parts), 1, 0); (sys, 0, 5)]).

(** The table of an FD image is written and read again: [false] if that fails. *)
Definition fd_partition (ptype parts size ssize : Z) : ST vdrive_t bool :=
  VDrive.vdrive_reset_last_track_sector;;
  upd_part (fun p => set_sys_offset size (set_current_offset size (set_current_part 255 p)));;
  upd_geom (set_image_format VDRIVE_IMAGE_FORMAT_SYS);;
  let! l := lift (fd_sectors ptype parts size ssize) in
  let! ok := write_all l in
  if negb ok then mret false
  else
    upd_part (fun p => set_sys_offset UINT32_MAX (set_current_offset UINT32_MAX p));;
    let! rc := Partition.vdrive_read_partition_table in
    mret (rc =? 0).

(** The name of partition [i]; the copy of a name of more than 17 characters leaves its
    block. *)
Definition long_name (name : mem) (i : Z) : option mem :=
  n ← Cbmdos.memchr name 0 0 (mlen name); n ← n;
  bs ← slice name 0 n;
  m ← splice (replicate 16 32 ++ [0]) 0 bs;
  m ← putb m 14 32; m ← putb m 16 0; putb m 15 (ch "1" + i).

Fixpoint format_parts (n fuel : nat) (i parts : Z) (name : mem) (id : option mem) (status : Z) : ST unit_t Z :=
  match n with
  | O => mret CBMDOS_IPE_OK
  | S n =>
      on_unit_drive (VDrive.put_part cheadertrack set_cheadertrack (i + 1) 0);;
      let! r := on_unit_drive (vdrive_command_switch (i + 1)) in
      if negb (r =? 0) then mret status
      else
        let! nm := lift (if 1 <? parts then long ← long_name name i; Some (if i =? 0 then name else long)
                         else Some name) in
        let! status := vdrive_command_format_worker fuel nm id in
        if negb (status =? 0) then mret status else format_parts n fuel (i + 1) parts name id status
  end.

(** ["NEW"] with a third parameter partitions an FD image. *)
Definition format_fd (fuel : nat) (name : mem) (id : option mem) (extra : mem) : ST unit_t Z :=
  let! type := let! u := state in lift (di_type <$> deref_image (udrive u)) in
  let (ptype, parts) := fd_layout type extra in
  if (ptype <? 0) || (parts <? 0) then mret CBMDOS_IPE_FORMAT_ERROR
  else
    let (size, ssize) := fd_size type in
    vdrive_close_all_channels fuel;;
    let! ok := on_unit_drive (fd_partition ptype parts size ssize) in
    if negb ok then mret CBMDOS_IPE_FORMAT_ERROR
    else
      let! origpart := drive_field (fun v => default_part (part v)) in
      let! status := format_parts (Z.to_nat parts) fuel 0 parts name id CBMDOS_IPE_FORMAT_ERROR in
      on_unit_drive (vdrive_command_return origpart);;
      mret status.

Definition vdrive_command_format_internal (fuel : nat) (cmd : cbmdos_cmd_parse_plus_t) : ST unit_t Z :=
  let! ro := drive_field readonly in
  if ro then mret CBMDOS_IPE_WRITE_PROTECT_ON
  else
    match file cmd with
    | None => mret CBMDOS_IPE_SYNTAX
    | Some f =>
        if filelength cmd =? 0 then mret CBMDOS_IPE_SYNTAX
        else
          let! name := lift (putb f (filelength cmd) 0) in
          let! (id, extra) := lift (format_options cmd) in
          let! fd := let! u := state in lift (VDRIVE_IS_FD (udrive u)) in
          match (extra : option mem), (fd : bool) with
          | Some extra, true => format_fd fuel name id extra
          | _, _ => returning (
              let! r := on_unit_drive (vdrive_command_switch (pdrive cmd)) in
              if negb (r =? 0) then mret CBMDOS_IPE_NOT_READY
              else vdrive_command_format_worker fuel name id)
          end
    end.

Definition blank_cmd : cbmdos_cmd_parse_plus_t :=
  CmdParsePlus None 0 0 0 0 None 0 None 0 None 0 None 0 None 0 0 0 0 0.

(** The command that the host formats a disk with; [disk_name] ends with a NUL. *)
Definition new_command (disk_name : mem) : option mem :=
  n ← Cbmdos.memchr disk_name 0 0 (mlen disk_name); n ← n;
  colon ← Cbmdos.memchr disk_name 0 (ch ":") n;
  first ← getb disk_name 0;
  name ← slice disk_name 0 n;
  Some ([ch "N"] ++ (if bool_decide (is_Some colon) then [] else [ch ":"])
        ++ (if (n =? 0) || (first =? ch ",") then [ch " "] else []) ++ name ++ [0]).

Definition vdrive_command_format (fuel : nat) (disk_name : option mem) : ST unit_t Z :=
  match disk_name with
  | None => mret CBMDOS_IPE_SYNTAX
  | Some disk_name =>
      let! ro := drive_field readonly in
      if ro then mret CBMDOS_IPE_WRITE_PROTECT_ON
      else
        let! image := let! u := state in lift (deref_image (udrive u)) in
        if (di_device image =? DISK_IMAGE_DEVICE_FS) && negb (bool_decide (is_Some (fd_ image)))
        then mret CBMDOS_IPE_NOT_READY
        else
          let! full := lift (new_command disk_name) in
          let! (status, cmd) := lift (Cbmdos.cbmdos_command_parse_plus
            (set_full (Some full) (set_fulllength (mlen full - 1) (Cbmdos.set_mode 1 blank_cmd)))) in
          if negb (status =? CBMDOS_IPE_OK) then mret status
          else
            let cmd := match more cmd with
                       | None => set_more (Some (str ",  " ++ [0])) (set_morelength 3 cmd)
                       | Some _ => cmd
                       end in
            vdrive_command_format_internal fuel cmd
  end.

(** ** Blocks *)

Definition is_space (b : Z) : bool := (b =? 32) || (9 <=? b) && (b <=? 13).
Definition is_alnum (b : Z) : bool :=
  Cbmdos.is_digit b || (ch "A" <=? b) && (b <=? ch "Z") || (ch "a" <=? b) && (b <=? ch "z").
Definition LONG_MAX : Z := 2147483647.

(** The end of the cells that satisfy [test] *)
Fixpoint skip_over (n : nat) (test : Z -> bool) (m : mem) (p : Z) : option Z :=
  match n with
  | O => None
  | S n => b ← getb m p; if test b then skip_over n test m (p + 1) else Some p
  end.
Definition number (digits : mem) : Z := foldl (fun i b => i * 10 + (b - ch "0")) 0 digits.

(** [strtol(m + p, &end, 10)] with a [long] of 32 bits, as on the ESP32: value and end *)
Definition strtol (m : mem) (p : Z) : option (Z * Z) :=
  let n := S (length m) in
  q ← skip_over n is_space m p;
  b ← getb m q;
  let d := if (b =? ch "-") || (b =? ch "+") then q + 1 else q in
  e ← skip_over n Cbmdos.is_digit m d;
  if e =? d then Some (0, p)
  else
    ds ← slice m d (e - d);
    let v := number ds in
    Some (if b =? ch "-" then Z.max (- LONG_MAX - 1) (- v) else Z.min LONG_MAX v, e).

Definition is_separator (b : Z) : bool :=
  (b =? ch " ") || (b =? ch ")") || (b =? ch ",") || (b =? ch "#") || (b =? 0x1d).

(** At most [n] numbers: the values, and where the scan ends *)
Fixpoint block_numbers (n : nat) (m : mem) (p : Z) : option (list Z * Z) :=
  match n with
  | O => Some ([], p)
  | S n =>
      p ← skip_over (S (length m)) is_separator m p;
      b ← getb m p;
      if b =? 0 then Some ([], p)
      else '(v, p) ← strtol m p; '(l, p) ← block_numbers n m p; Some (v :: l, p)
  end.

(** The parameters that are not given are 0. *)
Definition vdrive_command_get_block_parameters (buf : option mem) : option (Z * (Z * Z * Z * Z)) :=
  m ← buf;
  '(l, p) ← block_numbers 4 m 0;
  b ← getb m p;
  let v i := nth i l 0 in
  let ip := Z.of_nat (length l) in
  Some (if is_alnum b && (ip =? 4) then CBMDOS_IPE_SYNTAX else - ip,
        (v 0%nat, v 1%nat, v 2%nat, v 3%nat)).

(** The partition of a block command: on a CMD image the one of the channel, and the drive
    has to be 0. [None] is an error. *)
Definition block_drive (channel drive : Z) : ST unit_t (option Z) :=
  let! pt := drive_field (fun v => haspt (part v)) in
  if pt then
    if negb (drive =? 0) then mret None
    else let! p := get_field channel (fun c => partition (clist c)) in mret (Some p)
  else mret (Some drive).

(** The end of a block command: the geometry is restored if the partition was changed. *)
Definition block_end (origpart status t s : Z) : ST unit_t Z :=
  on_unit_drive (vdrive_command_return origpart);;
  set_error status (u32 t) (u32 s).

(** [k] runs in the partition of the channel; [NOT_READY] if there is no such. *)
Definition in_block_drive (channel drive : Z) (k : Z -> ST unit_t Z) : ST unit_t Z :=
  let! d := block_drive channel drive in
  match d with
  | None => block_end (-1) CBMDOS_IPE_NOT_READY 0 0
  | Some d =>
      let! origpart := drive_field (fun v => current_part (part v)) in
      let! r := on_unit_drive (vdrive_command_switch d) in
      if negb (r =? 0) then block_end origpart CBMDOS_IPE_NOT_READY 0 0 else k origpart
  end.

(** The block is read into the buffer; when an error is reported along with the data the
    buffer starts at 1, and for a checksum error with the number of the buffer. *)
Definition u1_read (channel track sector : Z) : ST unit_t (Z * (Z * Z)) :=
  let! status := on_channel channel (Channel.read_buffer track sector) in
  if status <? 0 then mret (CBMDOS_IPE_NOT_READY, (0, 0))
  else
    put_field channel (fun c => Channel.set_bufptr (if status =? 0 then 0 else 1)
                                  (set_creadmode CBMDOS_FAM_READ (set_clength 256 c)));;
    (if status =? 23 then
       run_channel channel (modify (fun c => set_next_override (if bufnum c <? 0 then 2 else bufnum c) c))
     else mret tt);;
    mret (status, (track, sector)).

Definition u2_write (channel track sector : Z) : ST unit_t (Z * (Z * Z)) :=
  let! status := on_channel channel (Channel.write_buffer track sector) in
  mret (if status <? 0 then CBMDOS_IPE_NOT_READY else status, (track, sector)).

(** ["u-R"], ["u-W"] of the 1581: [None] if it is something else behind ["U-"]. *)
Definition user_command (cmd : cbmdos_cmd_parse_plus_t) : option (option cbmdos_cmd_parse_plus_t) :=
  dash ← (if 2 <? abbrvlength cmd then
            a ← abbrv cmd; b0 ← getb a 0; b1 ← getb a 1; Some ((b0 =? ch "U") && (b1 =? ch "-"))
          else Some false);
  if (dash : bool) then
    a ← abbrv cmd; b2 ← getb a 2; m ← command cmd;
    if b2 =? 0xd2 then m ← putb m 1 (ch "1"); Some (Some (set_command (Some m) cmd))
    else if b2 =? 0xd7 then m ← putb m 1 (ch "2"); Some (Some (set_command (Some m) cmd))
    else Some None
  else Some (Some cmd).

(** The number of the channel is not checked. *)
Definition vdrive_command_u1a2b (cmd : cbmdos_cmd_parse_plus_t) : ST unit_t Z :=
  let! cmd := lift (user_command cmd) in
  match cmd with
  | None => block_end (-1) CBMDOS_IPE_SYNTAX 0 0
  | Some cmd =>
      if (1 <? commandlength cmd) && (5 <? filelength cmd) then
        let! (rc, params) := lift (vdrive_command_get_block_parameters (file cmd)) in
        let '(channel, drive, track, sector) := params : Z * Z * Z * Z in
        if rc <? 0 then
          let! m := get_field channel cmode in
          if negb (m =? BUFFER_MEMORY_BUFFER) then block_end (-1) CBMDOS_IPE_NO_CHANNEL 0 0
          else in_block_drive channel drive (fun origpart =>
            let! c := lift (m ← command cmd; getb m 1) in
            let! (status, addr) :=
              (if (c =? ch "2") || (c =? ch "B") then u2_write channel (u32 track) (u32 sector)
               else u1_read channel (u32 track) (u32 sector)) in
            let (t, s) := if status =? 0 then (0, 0) else addr : Z * Z in
            block_end origpart status t s)
        else block_end (-1) rc 0 0
      else block_end (-1) CBMDOS_IPE_SYNTAX 0 0
  end.

(** The old block write: the first byte is the length by the buffer pointer. *)
Definition b_write (channel track sector : Z) : ST unit_t (Z * (Z * Z)) :=
  let! p := get_field channel cbufptr in
  let l := s32 (p - 1) in
  run_channel channel (Channel.put_buffer 0 (if l <? 1 then 1 else l));;
  let! status := on_channel channel (Channel.write_buffer track sector) in
  if status <? 0 then mret (CBMDOS_IPE_NOT_READY, (0, 0))
  else if 0 <? status then mret (status, (0, 0))
  else put_field channel (Channel.set_bufptr 1);; mret (status, (0, 0)).

(** The old block read: the first byte is the length. *)
Definition b_read (channel track sector : Z) : ST unit_t (Z * (Z * Z)) :=
  let! status := on_channel channel (Channel.read_buffer track sector) in
  if 0 <? status then mret (status, (track, sector))
  else if status <? 0 then mret (CBMDOS_IPE_NOT_READY, (track, sector))
  else
    let! n := run_channel channel (Channel.get_buffer 0) in
    put_field channel (fun c => Channel.set_bufptr 1 (set_clength (n + 1) c));;
    mret (status, (0, 0)).

(** Of a sector that is taken the next free one is suggested. *)
Definition b_allocate (track sector : Z) : ST vdrive_t (Z * (Z * Z)) :=
  let! r := Bam.vdrive_bam_allocate_sector track sector in
  if r =? 0 then
    let! a := BamAlloc.vdrive_bam_alloc_next_free_sector track sector in
    match a with
    | Some (t, s) => Bam.vdrive_bam_free_sector t s;; mret (CBMDOS_IPE_NO_BLOCK, (t, s))
    | None => mret (CBMDOS_IPE_NO_BLOCK, (0, 0))
    end
  else Bam.vdrive_bam_write_bam;; mret (CBMDOS_IPE_OK, (0, 0)).

Definition b_free (track sector : Z) : ST vdrive_t (Z * (Z * Z)) :=
  Bam.vdrive_bam_free_sector track sector;;
  Bam.vdrive_bam_write_bam;;
  mret (CBMDOS_IPE_OK, (0, 0)).

Definition block_access (write : bool) (cmd : cbmdos_cmd_parse_plus_t) : ST unit_t Z :=
  let! (l, params) := lift (vdrive_command_get_block_parameters (file cmd)) in
  let '(channel, drive, track, sector) := params : Z * Z * Z * Z in
  if l <? 0 then
    let! m := get_field channel cmode in
    if negb (m =? BUFFER_MEMORY_BUFFER) then block_end (-1) CBMDOS_IPE_NO_CHANNEL 0 0
    else in_block_drive channel drive (fun origpart =>
      let! (status, addr) := (if write then b_write channel (u32 track) (u32 sector)
                              else b_read channel (u32 track) (u32 sector)) in
      let (t, s) := addr : Z * Z in
      block_end origpart status t s)
  else block_end (-1) l 0 0.

(** The partition of a CMD image is the one of the channel of the fourth parameter. *)
Definition block_map (allocate : bool) (cmd : cbmdos_cmd_parse_plus_t) : ST unit_t Z :=
  let! ro := drive_field readonly in
  if ro then block_end (-1) CBMDOS_IPE_WRITE_PROTECT_ON 0 0
  else
    let! (l, params) := lift (vdrive_command_get_block_parameters (file cmd)) in
    let '(drive, track, sector, channel) := params : Z * Z * Z * Z in
    if 0 <? l then block_end (-1) l 0 0
    else in_block_drive channel drive (fun origpart =>
      let! (status, addr) := on_unit_drive (if allocate then b_allocate (u32 track) (u32 sector)
                                            else b_free (u32 track) (u32 sector)) in
      let (t, s) := addr : Z * Z in
      block_end origpart status t s).

(** The buffer pointer is set to any number. *)
Definition block_pointer (cmd : cbmdos_cmd_parse_plus_t) : ST unit_t Z :=
  let! (l, params) := lift (vdrive_command_get_block_parameters (file cmd)) in
  let '(channel, position, _, _) := params : Z * Z * Z * Z in
  if 0 <? l then block_end (-1) l 0 0
  else
    let! m := get_field channel cmode in
    if negb (m =? BUFFER_MEMORY_BUFFER) then block_end (-1) CBMDOS_IPE_NO_CHANNEL 0 0
    else
      put_field channel (Channel.set_bufptr (u32 position));;
      block_end (-1) CBMDOS_IPE_OK 0 0.

Definition vdrive_command_block (cmd : cbmdos_cmd_parse_plus_t) : ST unit_t Z :=
  let! b := lift (a ← abbrv cmd; getb a 2) in
  if b =? ch "R" then block_access false cmd
  else if b =? ch "W" then block_access true cmd
  else if b =? ch "A" then block_map true cmd
  else if b =? ch "F" then block_map false cmd
  else if b =? ch "P" then block_pointer cmd
  else if b =? ch "E" then block_end (-1) CBMDOS_IPE_MEMEXE_NOT_SUPPORTED 0 0
  else block_end (-1) CBMDOS_IPE_INVAL 0 0.

(** ** Memory *)

Definition image_type (v : vdrive_t) : option Z :=
  if image_set v then di_type <$> images0 v else Some 0.

(** The job queue of an image type: its address, that of the track and sector pairs, and
    the number of jobs *)
Definition job_queue (type : Z) : Z * Z * Z :=
  if (type =? DISK_IMAGE_TYPE_P64) || (type =? DISK_IMAGE_TYPE_G64) || (type =? DISK_IMAGE_TYPE_D64)
     || (type =? DISK_IMAGE_TYPE_D71) || (type =? DISK_IMAGE_TYPE_G71) then (0, 6, 5)
  else if type =? DISK_IMAGE_TYPE_D81 then (2, 0x0b, 9)
  else if (type =? DISK_IMAGE_TYPE_D1M) || (type =? DISK_IMAGE_TYPE_D2M) || (type =? DISK_IMAGE_TYPE_D4M)
  then (0x28, 0x2800, 32)
  else if type =? DISK_IMAGE_TYPE_DHD then (0x20, 0x2800, 32)
  else (0, 0, 0).

Definition get_ram (i : Z) : ST vdrive_t Z := let! v := state in lift (getb (ram v) i).
Definition put_ram (i x : Z) : ST vdrive_t unit :=
  update (fun v => m ← putb (ram v) i (u8 x); Some (set_ram m v)).

(** [disk_image_read_sector_id]: a D64 has one id, in its BAM. *)
Definition disk_image_read_sector_id (image : disk_image_t) (t s : Z) : option (Z * (Z * Z)) :=
  if negb (di_device image =? DISK_IMAGE_DEVICE_FS) then Some (-1, (0, 0))
  else if negb (bool_decide (is_Some (fd_ image))) then Some (CBMDOS_IPE_NOT_READY, (0, 0))
  else if di_type image =? DISK_IMAGE_TYPE_D64 then
    '(rc, b) ← Image.fsimage_dxx_read_sector image (lib_malloc 256) 18 0;
    id0 ← getb b BAM_ID_1541; id1 ← getb b (BAM_ID_1541 + 1);
    Some (rc, (id0, id1))
  else if (di_type image =? DISK_IMAGE_TYPE_G64) || (di_type image =? DISK_IMAGE_TYPE_G71)
  then Some (flux_read_id image t s)
  else Some (CBMDOS_IPE_NOT_READY, (0, 0)).

(** Reads or writes the sector of job [i] in its 256 bytes of the memory of the drive. *)
Definition job_sector (write : bool) (i t s : Z) : ST vdrive_t Z :=
  let! v := state in
  Partition.vdrive_switch (selected_part (part v));;
  let! v := state in
  let! b := lift (slice (ram v) (0x300 + Z.shiftl i 8) 256) in
  if write then VDrive.vdrive_write_sector b t s
  else
    let! (rc, b) := VDrive.vdrive_read_sector b t s in
    update (fun v => m ← splice (ram v) (0x300 + Z.shiftl i 8) b; Some (set_ram m v));;
    mret rc.

Definition job_id (t s : Z) : ST vdrive_t (Z * (Z * Z)) :=
  let! v := state in
  let! image := lift (deref_image v) in
  lift (disk_image_read_sector_id image t s).

(** The id of the disk in the memory of the drive *)
Definition store_id (id : Z * Z) : ST vdrive_t unit :=
  put_ram 0x16 id.1;; put_ram 0x12 id.1;; put_ram 0x17 id.2;; put_ram 0x13 id.2.

(** One job: the code is replaced by the result. *)
Definition run_job (jobs tracksector i : Z) : ST vdrive_t unit :=
  let! job := get_ram (jobs + i) in
  if (job =? 0x80) || (job =? 0x90) || (job =? 0xb0) then
    let! v := state in
    if (job =? 0x90) && readonly v then put_ram (jobs + i) 8
    else
      let! t := get_ram (tracksector + Z.shiftl i 1) in
      let! s := get_ram (tracksector + Z.shiftl i 1 + 1) in
      if job =? 0xb0 then
        let! (rc, id) := job_id t s in
        put_ram (jobs + i) (Cbmdos.cbmdos_error_to_fdc_error rc);;
        if rc =? CBMDOS_IPE_OK then store_id id else mret tt
      else
        let! rc := job_sector (job =? 0x90) i t s in
        put_ram (jobs + i) (Cbmdos.cbmdos_error_to_fdc_error rc)
  else if bool_decide (job ∈ [0xa0; 0xb8; 0x82; 0x86; 0x88; 0x8a; 0x8c]) then put_ram (jobs + i) 0
  else if job =? 0x84 then put_ram (jobs + i) 1
  else mret tt.

(** The bytes that fit into the memory of the drive *)
Fixpoint store_memory (bs : mem) (addr : Z) : ST vdrive_t unit :=
  match bs with
  | [] => mret tt
  | b :: bs => if addr <? DRIVE_RAMSIZE then put_ram (Z.land addr 0x7fff) b;; store_memory bs (addr + 1)
               else mret tt
  end.

(** The jobs are looked at when the bytes written touch the queue. *)
Definition run_jobs (addr len : Z) : ST vdrive_t unit :=
  let! v := state in
  let! fd := lift (VDRIVE_IS_FD v) in
  let! is1541 := lift (VDrive.VDRIVE_IS_1541 v) in
  if negb fd && negb is1541 then mret tt
  else
    let! type := lift (image_type v) in
    let '(jobs, tracksector, maxjobs) := job_queue type in
    let near a := (jobs <=? a) && (a <? jobs + maxjobs) in
    if negb (near addr || near (addr + len)) then mret tt
    else for_each (Z.to_nat maxjobs) 0 (run_job jobs tracksector).

(** [m] is the whole command of [length] bytes. *)
Definition vdrive_command_memory_write (m : mem) (addr length : Z) : ST unit_t Z :=
  let! len := lift (getb m 5) in
  if u32 (length - 5) <? len + 1 then set_error CBMDOS_IPE_SYNTAX 0 0
  else
    (if addr <? 0x8000 then
       let! bs := lift (slice m 6 len) in
       on_unit_drive (store_memory bs addr;; run_jobs addr len)
     else mret tt);;
    set_error CBMDOS_IPE_OK 0 0.

Definition vdrive_command_memory_exec (length : Z) : ST unit_t Z :=
  if length <? 5 then set_error CBMDOS_IPE_SYNTAX 0 0
  else set_error CBMDOS_IPE_MEMEXE_NOT_SUPPORTED 0 0.

(** The bytes of the ROM that software looks at to find out what drive it is *)
Definition dos_name : mem := 0xc3 :: str "BM DOS V2.6 154" ++ [0xb1].
Definition rom_byte (a : Z) : option Z :=
  if (0xE5B7 <=? a) && (a <? 0xE5C8) then getb dos_name (a - 0xE5B7)
  else Some (if a =? 0xFEA0 then 0x0D else if a =? 0xFFFD then 0xEA else if a =? 0xFFFE then 0x67
             else if a =? 0xFFFF then 0xFE else 0xFF).
Definition memory_byte (is1541 : bool) (v : vdrive_t) (a : Z) : option Z :=
  if is1541 then
    let a := u16 a in if a <? DRIVE_RAMSIZE then getb (ram v) a else rom_byte a
  else if a <? DRIVE_RAMSIZE then getb (ram v) a else Some 0xFF.

(** The number of free blocks, put into the memory before it is read *)
Definition count_free (addr len : Z) : ST vdrive_t unit :=
  if (addr <=? 0x02FA) && (0x02FA <=? addr + len) || (addr <=? 0x02FB) && (0x02FB <=? addr + len) then
    let! blocks := Bam.vdrive_bam_free_block_count in
    put_ram 0x02FA (Z.land blocks 255);; put_ram 0x02FC (blocks / 256)
  else mret tt.

(** An answer in the buffer of the command channel *)
Definition answer (bs : mem) (length : Z) : ST unit_t unit :=
  run_channel 15 (
    let! b := Channel.load_buffer in
    let! b := lift (splice b 0 bs) in
    Channel.store_buffer b;;
    Channel.upd (fun c => set_creadmode CBMDOS_FAM_READ (Channel.set_bufptr 0 (set_clength length c)))).

Definition memory_bytes (addr len : Z) : ST vdrive_t mem :=
  let! v := state in
  let! is1541 := lift (VDrive.VDRIVE_IS_1541 v) in
  (if (is1541 : bool) then count_free addr len else mret tt);;
  let! v := state in
  lift (mapM (memory_byte is1541 v) (seqZ addr len)).

(** What an FD says it is: [None] for other addresses *)
Definition fd_memory (v : vdrive_t) (addr len : Z) : option (option mem) :=
  fd ← VDRIVE_IS_FD v;
  if (fd : bool) then
    if (addr =? 0xfea0) && (len =? 6) then Some (Some (str "CMD FD"))
    else if (addr =? 0xfef0) && (len =? 1) then
      type ← image_type v;
      Some (Some [if (type =? DISK_IMAGE_TYPE_D1M) || (type =? DISK_IMAGE_TYPE_D2M) then ch "2" else ch "4"])
    else Some None
  else Some None.

(** [len] 0 stands for 256 bytes; shorter answers end with a CR. *)
Definition vdrive_command_memory_read (m : mem) (addr length : Z) : ST unit_t Z :=
  let! len := lift (if length <? 6 then Some 1 else getb m 5) in
  if length <? 5 then set_error CBMDOS_IPE_SYNTAX 0 0
  else
    let! fd := let! u := state in lift (fd_memory (udrive u) addr len) in
    match (fd : option mem) with
    | Some bs => answer bs (len - 1);; mret CBMDOS_IPE_MEMORY_READ
    | None =>
        let len := if len =? 0 then 256 else len in
        let! bs := on_unit_drive (memory_bytes addr len) in
        (if len <? 256 then answer (bs ++ [13]) len else answer bs (len - 1));;
        mret CBMDOS_IPE_MEMORY_READ
    end.

Definition vdrive_command_memory (m : mem) (length : Z) : ST unit_t Z :=
  if length <? 5 then set_error CBMDOS_IPE_SYNTAX 0 0
  else
    let! lo := lift (getb m 3) in
    let! hi := lift (getb m 4) in
    let addr := Z.lor lo (Z.shiftl hi 8) in
    let! b := lift (getb m 2) in
    if b =? ch "W" then vdrive_command_memory_write m addr length
    else if b =? ch "R" then vdrive_command_memory_read m addr length
    else if b =? ch "E" then vdrive_command_memory_exec length
    else set_error CBMDOS_IPE_INVAL 0 0.

(** ** Answers of the command channel *)

Definition int_to_bcd (dec : Z) : Z := Z.shiftl (dec / 10) 4 + dec mod 10.
Definition days : list mem :=
  [str "SUN."; str "MON."; str "TUES"; str "WED."; str "THUR"; str "FRI."; str "SAT."].

(** The clock as text, as bytes or as BCD; the hour is on a 12-hour clock. *)
Definition time_answer (form : Z) : option (option mem) :=
  let '(year, mon, mday, hour, min) := host_time in
  let mon := mon + 1 in
  let (hour12, ap) := twelve_hours hour in
  let fields := [year; mon; mday; hour12; min; host_sec] in
  let pm := if ap =? ch "A" then 0 else 1 in
  if form =? ch "A" then
    day ← days !! Z.to_nat host_wday;
    Some (Some (day ++ [32] ++ signed_digits2 mon ++ [ch "/"] ++ signed_digits2 mday ++ [ch "/"]
                ++ signed_digits2 year ++ [32] ++ signed_digits2 hour12 ++ [ch ":"] ++ signed_digits2 min
                ++ [ch ":"] ++ signed_digits2 host_sec ++ [32; ap; ch "M"; 13]))
  else if form =? ch "D" then Some (Some (u8 host_wday :: (u8 <$> fields) ++ [pm; 13]))
  else if form =? ch "B" then Some (Some (u8 host_wday :: ((fun x => u8 (int_to_bcd x)) <$> fields) ++ [pm; 13]))
  else Some None.

(** Setting the clock is refused: the test of the form is always true. *)
Definition vdrive_command_time (cmd : mem) (length : Z) : ST unit_t Z :=
  let bad := set_error CBMDOS_IPE_INVAL 0 0 in
  if length <? 4 then bad
  else
    let! c0 := lift (getb cmd 0) in
    let! c1 := lift (getb cmd 1) in
    let! c2 := lift (getb cmd 2) in
    let! form := lift (getb cmd 3) in
    if negb (c0 =? ch "T") || negb (c1 =? ch "-") then bad
    else if c2 =? ch "R" then
      let! t := lift (time_answer form) in
      match t with
      | Some bs => answer (bs ++ (if form =? ch "A" then [0] else [])) (mlen bs - 1);; mret CBMDOS_IPE_OK
      | None => bad
      end
    else if c2 =? ch "W" then
      if negb (form =? ch "A") || negb (form =? ch "D") || negb (form =? ch "B") then bad
      else set_error CBMDOS_IPE_OK 0 0
    else bad.

(** The partition that ["G-P"] asks for: [None] is a malformed command. *)
Definition part_argument (cmd : mem) (length origpart : Z) : option (option Z) :=
  c3 ← getb cmd 3;
  if (length =? 4) && (c3 =? 13) then Some (Some origpart)
  else if length =? 5 then c4 ← getb cmd 4; Some (if c4 =? 13 then Some c3 else None)
  else Some None.
Definition asked_part (v : vdrive_t) (cmd : mem) (length : Z) : option (option Z) :=
  if (length <? 4) || (5 <? length) then Some None
  else
    c1 ← getb cmd 1; c2 ← getb cmd 2;
    if negb (c1 =? ch "-") || negb (c2 =? ch "P") then Some None
    else
      p ← part_argument cmd length (current_part (part v));
      Some (match p with
            | Some p => Some (if p =? 255 then selected_part (part v) else p)
            | None => None
            end).

(** The 30 bytes about a partition, from sector [buf] of the table if it could be read *)
Definition part_info (v : vdrive_t) (ret part : Z) (buf : mem) : option mem :=
  hd ← VDrive.VDRIVE_IS_HD v;
  let maxpart := if (hd : bool) then 254 else 31 in
  let j := Z.land (Z.shiftl part 5) 255 in
  let m := replicate 30 0 in
  m ← (if 0 <=? ret then
         m ← putb m 2 (u8 part);
         if part <=? maxpart then
           ty ← getb buf (j + 2); name ← slice buf (j + 5) 16;
           off ← slice buf (j + 0x15) 3; size ← slice buf (j + 0x1d) 3;
           m ← putb m 0 ty; m ← splice m 3 name; m ← splice m 19 off; splice m 27 size
         else Some m
       else if part =? 1 then
         image ← deref_image v;
         let blocks := Z.shiftl (di_tracks image) 7 in
         m ← splice m 3 (str "NO PARTITIONS" ++ [0]);
         m ← putb m 2 1; m ← putb m 0 1;
         splice m 27 [Z.land (Z.shiftr blocks 16) 255; Z.land (Z.shiftr blocks 8) 255; Z.land blocks 255]
       else Some m);
  fd ← VDRIVE_IS_FD v;
  if (fd : bool) then
    type ← image_type v;
    putb m 1 (Z.lor 0xe0 (if type =? DISK_IMAGE_TYPE_D1M then 1 else if type =? DISK_IMAGE_TYPE_D2M then 2 else 4))
  else Some m.

(** [G-P]: the system partition stays the current one. *)
Definition vdrive_command_getpartinfo (cmd : mem) (length : Z) : ST unit_t Z :=
  let bad := set_error CBMDOS_IPE_INVAL 0 0 in
  let! v := drive_field id in
  if negb (haspt (part v)) then bad
  else
    let! p := lift (asked_part v cmd length) in
    match p with
    | None => bad
    | Some p =>
        let! r := on_unit_drive (Partition.vdrive_switch 255) in
        if negb (r =? 0) then bad
        else
          let! (ret, buf) := on_unit_drive (VDrive.vdrive_read_sector (lib_malloc 256) 1 (u32 (Z.shiftr (Z.shiftl p 5) 8))) in
          let! v := drive_field id in
          let! m := lift (part_info v ret p buf) in
          answer (m ++ [13]) 30;;
          mret CBMDOS_IPE_OK
    end.

Definition deleted_types (v : vdrive_t) (cmd : mem) (length : Z) : option (option mem) :=
  fd ← VDRIVE_IS_FD v;
  if negb fd || (length <? 7) then Some None
  else
    c1 ← getb cmd 1; c2 ← getb cmd 2; n ← getb cmd 3;
    if negb (c1 =? ch "-") || negb (c2 =? ch "P") || negb (n + 6 =? length) then Some None
    else
      l ← slice cmd 4 n;
      Some (if existsb (fun p => (p =? 0) || (p =? 255) || (31 <? p)) l then None else Some l).

(** [D-P]: the partitions are deleted and the others moved together. *)
Definition vdrive_command_deletepart (fuel : nat) (cmd : mem) (length : Z) : ST unit_t Z :=
  let! v := drive_field id in
  let! l := lift (deleted_types v cmd length) in
  match l with
  | None => set_error CBMDOS_IPE_INVAL 0 0
  | Some l =>
      let! r := on_unit_drive (
        foldr (fun p k => VDrive.put_part ptype set_ptype p 0;; k) (mret tt) l;;
        Partition.vdrive_pack_parts fuel) in
      set_error (if negb (r =? 0) then CBMDOS_IPE_INVAL else CBMDOS_IPE_OK) 0 0
  end.

(** ["P"]: the channel, the record and the position in it; what is missing is 1, 0 and 1. *)
Definition vdrive_command_position (fuel : nat) (buf : mem) (length : Z) : ST unit_t Z :=
  if length <? 2 then mret CBMDOS_IPE_NO_CHANNEL
  else
    let param i default := if i <? length then getb buf i else Some default in
    let! c := lift (getb buf 1) in
    let! lo := lift (param 2 1) in
    let! hi := lift (param 3 0) in
    let! position := lift (param 4 1) in
    let channel := Z.land c 0x0f in
    let! m := get_field channel cmode in
    if negb (m =? BUFFER_RELATIVE) then mret CBMDOS_IPE_NO_CHANNEL
    else on_channel channel (RelFile.vdrive_rel_position fuel lo hi position).

(** ** The interpreter of commands *)

(** A command that returns a status, which is then reported *)
Definition report (m : ST unit_t Z) : ST unit_t Z := let! status := m in set_error status 0 0.

(** Back to the partition table of a CMD image *)
Definition reload_partitions : ST vdrive_t Z :=
  upd_part (fun p => set_sys_offset UINT32_MAX (set_current_offset UINT32_MAX p));;
  let! rc := Partition.vdrive_read_partition_table in
  if negb (rc =? 0) then mret CBMDOS_IPE_NOT_READY
  else
    let! v := state in
    let! r := vdrive_command_switch (default_part (part v)) in
    (if negb (r =? 0) then upd_part (fun p => set_selected_part (default_part p) p) else mret tt);;
    mret CBMDOS_IPE_DOS_VERSION.

(** ["U"] with [b] behind it *)
Definition user_reset (fuel : nat) (cmd : cbmdos_cmd_parse_plus_t) (m : mem) (b : Z) : ST unit_t Z :=
  let! b2 := lift (if 2 <? commandlength cmd then getb m 2 else Some 0) in
  if bool_decide (b ∈ [ch "C"; ch "3"; ch "D"; ch "4"; ch "E"; ch "5"; ch "F"; ch "6"; ch "G"; ch "7";
                       ch "H"; ch "8"]) then
    mret (if commandlength cmd =? 2 then CBMDOS_IPE_MEMEXE_NOT_SUPPORTED else CBMDOS_IPE_OK)
  else if bool_decide (b ∈ [ch "I"; ch "9"; ch ";"]) then
    if (commandlength cmd =? 3) && ((b2 =? ch "-") || (b2 =? ch "+")) then mret CBMDOS_IPE_OK
    else
      let! r := vdrive_command_initialize fuel None in
      if r =? 0 then vdrive_close_all_channels fuel;; mret CBMDOS_IPE_DOS_VERSION else mret CBMDOS_IPE_OK
  else if b =? ch "J" then
    vdrive_close_all_channels fuel;;
    on_unit_drive VDrive.vdrive_reset_last_track_sector;;
    let! pt := drive_field (fun v => haspt (part v)) in
    if (2 <? commandlength cmd) && (b2 =? ch "P") && pt then on_unit_drive reload_partitions
    else mret CBMDOS_IPE_DOS_VERSION
  else if b =? ch ":" then vdrive_close_all_channels fuel;; mret CBMDOS_IPE_DOS_VERSION
  else if b =? ch "0" then mret (if commandlength cmd =? 2 then CBMDOS_IPE_OK else CBMDOS_IPE_NOT_READY)
  else mret CBMDOS_IPE_NOT_READY.

(** The commands that are not abbreviated: [None] if it is none of them. *)
Definition long_command (fuel : nat) (cmd : cbmdos_cmd_parse_plus_t) (m : mem) : ST unit_t (option Z) :=
  let some (k : ST unit_t Z) : ST unit_t (option Z) := let! r := k in mret (Some r) in
  let! np := drive_field (fun v => image_format (geom v) =? VDRIVE_IMAGE_FORMAT_NP) in
  let! b0 := lift (getb m 0) in
  let! b1 := lift (if 1 <? commandlength cmd then Some <$> getb m 1 else Some None) in
  let b1 := default 0 b1 in
  if (b0 =? ch "C") && (b1 =? ch "D") && np then
    some (report (on_unit_drive (vdrive_command_chdir fuel cmd)))
  else if (b0 =? ch "C") && (Z.land b1 0x7f =? ch "P") then
    some (on_unit_drive (vdrive_command_chcmdpart cmd))
  else if b0 =? ch "U" then
    if commandlength cmd <=? 1 then some (set_error CBMDOS_IPE_OK 0 0)
    else if bool_decide (b1 ∈ [ch "A"; ch "1"; ch "B"; ch "2"]) then some (vdrive_command_u1a2b cmd)
    else some (report (user_reset fuel cmd m b1))
  else if (b0 =? ch "M") && (b1 =? ch "D") && np then
    some (report (on_unit_drive (vdrive_command_mkdir fuel cmd)))
  else if (b0 =? ch "R") && (b1 =? ch "D") && np then
    some (on_unit_drive (vdrive_command_rmdir fuel cmd))
  else mret None.

Definition rename_command (fuel : nat) (cmd : cbmdos_cmd_parse_plus_t) (a : mem) : ST unit_t Z :=
  let! letter := lift (if 2 <? abbrvlength cmd then
                         b1 ← getb a 1; b2 ← getb a 2; Some (if b1 =? ch "-" then b2 else 0)
                       else Some 0) in
  on_unit_drive (if letter =? ch "H" then vdrive_command_renameheader fuel cmd
                 else if letter =? ch "P" then vdrive_command_renamepart fuel cmd
                 else vdrive_command_rename fuel cmd).

(** The commands by their first letter; the slash is ignored by the formats without
    sub-partitions. Validation leaves the message to what it calls. *)
Definition short_command (fuel : nat) (cmd : cbmdos_cmd_parse_plus_t) : ST unit_t Z :=
  if abbrvlength cmd =? 0 then set_error CBMDOS_IPE_INVAL 0 0
  else
    let! a := lift (abbrv cmd) in
    let! b := lift (getb a 0) in
    let! f := drive_field (fun v => image_format (geom v)) in
    if b =? ch "C" then report (reporting (run_channel 15 (Copying.vdrive_command_copy fuel cmd)))
    else if b =? ch "/" then
      if (f =? VDRIVE_IMAGE_FORMAT_1581) || (f =? VDRIVE_IMAGE_FORMAT_NP)
      then on_unit_drive (vdrive_command_chpart fuel cmd) else set_error CBMDOS_IPE_OK 0 0
    else if b =? ch "R" then report (rename_command fuel cmd a)
    else if b =? ch "L" then report (on_unit_drive (vdrive_command_lockunlock fuel cmd))
    else if b =? ch "S" then on_unit_drive (vdrive_command_scratch fuel cmd)
    else if b =? ch "I" then report (vdrive_command_initialize fuel (Some (pdrive cmd)))
    else if b =? ch "N" then report (vdrive_command_format_internal fuel cmd)
    else if b =? ch "V" then vdrive_command_validate_internal fuel cmd
    else if b =? ch "B" then vdrive_command_block cmd
    else set_error CBMDOS_IPE_INVAL 0 0.

(** A command without its CR *)
Definition text_command (fuel : nat) (p : mem) (length : Z) : ST unit_t Z :=
  let! b := lift (getb p 0) in
  if b =? ch "P" then report (vdrive_command_position fuel p length)
  else if b =? ch "T" then vdrive_command_time p length
  else
    let! (status, cmd) := lift (Cbmdos.cbmdos_command_parse_plus
      (set_full (Some p) (set_fulllength length (Cbmdos.set_mode 1 blank_cmd)))) in
    if (commandlength cmd =? 0) || negb (status =? CBMDOS_IPE_OK) then set_error status 0 0
    else
      let! m := lift (command cmd) in
      let! r := long_command fuel cmd m in
      match r with
      | Some status => mret status
      | None => short_command fuel cmd
      end.

Definition vdrive_command_execute (fuel : nat) (buf : mem) (length : Z) : ST unit_t Z :=
  if length =? 0 then mret CBMDOS_IPE_OK
  else if IP_MAX_COMMAND_LEN <? length then set_error CBMDOS_IPE_LONG_LINE 0 0
  else
    let! b := lift (getb buf 0) in
    let! dash := lift (if 2 <? length then b ← getb buf 1; Some (b =? ch "-") else Some false) in
    if b =? ch "G" then vdrive_command_getpartinfo buf length
    else if b =? ch "D" then vdrive_command_deletepart fuel buf length
    else if (b =? ch "M") && dash then vdrive_command_memory buf length
    else
      let! last := lift (getb buf (length - 1)) in
      let length := if last =? 13 then length - 1 else length in
      let! p := lift (Cbmdos.copy_string buf 0 length) in
      text_command fuel p length.

(** ** Opening and flushing a channel *)

(** The command of the command channel is run. *)
Definition vdrive_iec_flush (fuel : nat) (secondary : Z) : ST unit_t unit :=
  let! m := get_field secondary cmode in
  let! rm := get_field secondary creadmode in
  let! n := get_field secondary clength in
  if negb (m =? BUFFER_COMMAND_CHANNEL) || (rm =? CBMDOS_FAM_READ) || (n =? 0) then mret tt
  else
    let! buf := run_channel secondary Channel.load_buffer in
    let! p := get_field secondary cbufptr in
    vdrive_command_execute fuel buf p;;
    put_field secondary (Channel.set_bufptr 0).

(** The characters of the name go to the command channel: the status of the last. *)
Fixpoint write_name (fuel : nat) (bs : mem) (secondary status : Z) : ST unit_t Z :=
  match bs with
  | [] => mret status
  | b :: bs => let! status := on_channel secondary (vdrive_iec_write fuel b) in write_name fuel bs secondary status
  end.

Definition open_command_channel (fuel : nat) (name : option mem) (length secondary : Z) : ST unit_t Z :=
  let! bs := lift (match name with
                   | Some m => b ← getb m 0; if b =? 0 then Some [] else slice m 0 length
                   | None => Some []
                   end) in
  let! status := write_name fuel bs secondary SERIAL_OK in
  put_field secondary (set_creadmode (match bs with [] => CBMDOS_FAM_READ | _ => CBMDOS_FAM_WRITE end));;
  mret status.

(** The drive of a name: of a listing without a number the last one, of all drives if
    nothing but ["$"] is given; a 1541 has only drive 0. *)
Definition open_drive (cmd_parse : cbmdos_cmd_parse_plus_t) : ST unit_t Z :=
  modify (set_udir_count 1);;
  let! listing := lift (match command cmd_parse with
                        | Some m => b ← getb m 0; Some (b =? ch "$")
                        | None => Some false
                        end) in
  let! pt := drive_field (fun v => haspt (part v)) in
  let! u := state in
  let! d := (if (listing : bool) then
               if pdrive cmd_parse <? 0 then
                 if pt then mret 0
                 else
                   (if (filelength cmd_parse =? 0) && (colon cmd_parse =? 0)
                    then modify (set_udir_count NUM_DRIVES) else mret tt);;
                   mret (udir_part u)
               else modify (set_udir_part (pdrive cmd_parse));; mret (pdrive cmd_parse)
             else mret (Z.max 0 (pdrive cmd_parse))) in
  mret d.

(** The first entry that is not a deleted file *)
Fixpoint find_file (fuel : nat) : ST search_t (option found) :=
  match fuel with
  | O => ub
  | S fuel =>
      let! e := vdrive_dir_find_next_slot fuel in
      match e with
      | None => mret None
      | Some e' =>
          let! slot := entry_bytes e' in
          let! ty := lift (getb slot SLOT_TYPE_OFFSET) in
          if Z.land ty 0x07 =? CBMDOS_FT_DEL then find_file fuel else mret e
      end
  end.

(** ["#"], ["#2"]: a buffer *)
Definition open_buffer (secondary : Z) (m : mem) : ST unit_t Z :=
  let! b := lift (getb m 1) in
  let! num := lift (if b =? 0 then Some (-1) else fst <$> strtol m 1) in
  run_channel secondary (vdrive_alloc_buffer num BUFFER_MEMORY_BUFFER;;
    Channel.upd (fun c => Channel.set_bufptr 1 (set_clength 256 c)));;
  mret SERIAL_OK.

(** A file by its name *)
Definition open_file (fuel : nat) (secondary : Z) (cmd_parse : cbmdos_cmd_parse_plus_t) : ST unit_t Z :=
  let cmd_parse := if 16 <? filelength cmd_parse then set_filelength 16 cmd_parse else cmd_parse in
  let rm := preadmode cmd_parse in
  let opentype := if (rm =? CBMDOS_FAM_READ) || (rm =? CBMDOS_FAM_APPEND) then pfiletype cmd_parse
                  else CBMDOS_FT_DEL in
  let! slot := on_channel secondary (
    Channel.on_dir (vdrive_dir_find_first_slot (name_of cmd_parse) (filelength cmd_parse) opentype);;
    let! e := Channel.on_dir (find_file fuel) in
    let! slot := (match e with
                  | None => mret None
                  | Some e => let! m := Channel.on_dir (entry_bytes e) in mret (Some m)
                  end) in
    Channel.upd (fun c => set_creadmode rm (set_slot (match slot with Some m => A_slot m | None => No_slot end) c));;
    mret slot) in
  let! rel := lift (if pfiletype cmd_parse =? CBMDOS_FT_REL then Some true
                    else match slot with
                         | Some m => ty ← getb m SLOT_TYPE_OFFSET; Some (Z.land ty 0x07 =? CBMDOS_FT_REL)
                         | None => Some false
                         end) in
  if (rel : bool) then
    let! n := lift (match slot with
                    | Some m => getb m SLOT_RECORD_LENGTH
                    | None => Some (precordlength cmd_parse)
                    end) in
    if (0 <? precordlength cmd_parse) && negb (n =? precordlength cmd_parse)
    then set_error CBMDOS_IPE_NO_RECORD 0 0;; mret SERIAL_ERROR
    else on_channel secondary (RelFile.vdrive_rel_open fuel (set_precordlength n cmd_parse))
  else on_channel secondary (if rm =? CBMDOS_FAM_READ then iec_open_read fuel
                             else iec_open_write fuel cmd_parse).

(** The partition is switched to and the path followed, then the kind of name decides. *)
Definition open_in_partition (fuel : nat) (secondary : Z) (m : mem) (length : Z)
    (cmd_parse : cbmdos_cmd_parse_plus_t) : ST unit_t Z :=
  put_field secondary (set_needsupdate 0);;
  let! (status, cmd_parse) := on_unit_drive (vdrive_command_switchtraverse fuel cmd_parse) in
  if negb (status =? 0) then mret SERIAL_ERROR
  else
    let! v := drive_field id in
    (if image_format (geom v) =? VDRIVE_IMAGE_FORMAT_1581 then
       put_field secondary (fun c => set_clist (set_partstart (Part_Start (geom v))
                                       (set_partend (Part_End (geom v)) (clist c))) c)
     else mret tt);;
    let! is1541 := lift (VDrive.VDRIVE_IS_1541 v) in
    let! again := lift (if is1541 && (preadmode cmd_parse =? CBMDOS_FAM_READ) && (length =? 1)
                        then b ← getb m 0; t ← getb (ram v) 0x7E; Some ((b =? ch "*") && (0 <? t))
                        else Some false) in
    if (again : bool) then
      put_field secondary (set_creadmode CBMDOS_FAM_READ);;
      let! t := lift (getb (ram v) 0x7E) in
      let! s := lift (getb (ram v) 0x26F) in
      on_channel secondary (iec_open_read_sequential fuel t s)
    else
      let! listing := lift (match command cmd_parse with
                            | Some m => b ← getb m 0; Some (b =? ch "$")
                            | None => Some false
                            end) in
      if (listing : bool) then
        put_field secondary (set_creadmode CBMDOS_FAM_READ);;
        on_channel secondary (iec_open_read_directory fuel secondary cmd_parse)
      else open_file fuel secondary cmd_parse.

(** A name that was parsed *)
Definition open_parsed (fuel : nat) (secondary : Z) (m : mem) (length : Z)
    (cmd_parse : cbmdos_cmd_parse_plus_t) : ST unit_t Z :=
  let! pt := drive_field (fun v => haspt (part v)) in
  let! parts := lift (if pt && (2 <? commandlength cmd_parse) then
                        match command cmd_parse with
                        | Some m => b1 ← getb m 1; b2 ← getb m 2; Some ((b1 =? ch "=") && (b2 =? ch "P"))
                        | None => Some false
                        end
                      else Some false) in
  if (parts : bool) then
    put_field secondary (set_creadmode CBMDOS_FAM_READ);;
    on_channel secondary (iec_open_read_directory fuel secondary cmd_parse)
  else
    let! d := open_drive cmd_parse in
    if d =? 255 then mret SERIAL_ERROR
    else
      let! is1541 := let! u := state in lift (VDrive.VDRIVE_IS_1541 (udrive u)) in
      let d := if (is1541 : bool) then 0 else d in
      let! valid := on_unit_drive (Partition.vdrive_ispartvalid d) in
      let! v := drive_field id in
      if valid =? 0 then
        set_error CBMDOS_IPE_NOT_READY (Header_Track (geom v)) (Header_Sector (geom v));; mret SERIAL_ERROR
      else
        put_field secondary (fun c => set_clist (set_partition (Partition.vdrive_realpart v d) (clist c)) c);;
        let! hash := lift (match command cmd_parse with
                           | Some m => b ← getb m 0; Some (if b =? ch "#" then Some m else None)
                           | None => Some None
                           end) in
        match (hash : option mem) with
        | Some m => open_buffer secondary m
        | None => open_in_partition fuel secondary m length (set_pdrive d cmd_parse)
        end.

(** [vdrive_iec_open] without a name that was parsed before ([cmd_parse_ext]) *)
Definition vdrive_iec_open (fuel : nat) (name : option mem) (length secondary : Z) : ST unit_t Z :=
  let! is1541 := let! u := state in lift (VDrive.VDRIVE_IS_1541 (udrive u)) in
  let! cr := lift (if is1541 && (1 <? length) then m ← name; b ← getb m (length - 1); Some (b =? 13)
                   else Some false) in
  let length := if (cr : bool) then length - 1 else length in
  let! mode := get_field secondary cmode in
  if negb (bool_decide (is_Some name)) && negb (mode =? BUFFER_COMMAND_CHANNEL) then mret SERIAL_NO_DEVICE
  else
    put_field secondary (fun c => set_clist (set_small 0 (clist c)) c);;
    if mode =? BUFFER_COMMAND_CHANNEL then open_command_channel fuel name length secondary
    else
      set_error CBMDOS_IPE_OK 0 0;;
      if negb (mode =? BUFFER_NOT_IN_USE) then
        set_error CBMDOS_IPE_NO_CHANNEL 0 0;; mret SERIAL_ERROR
      else
        let! m := lift name in
        let! (rc, cmd_parse) := lift (Cbmdos.cbmdos_command_parse_plus
          (set_full name (set_fulllength length (set_psecondary secondary
            (set_pdrive (-1) (Cbmdos.set_mode 2 blank_cmd)))))) in
        if negb (rc =? CBMDOS_IPE_OK) then mret SERIAL_ERROR
        else if (filelength cmd_parse =? 0) && negb (bool_decide (is_Some (command cmd_parse))) then
          set_error CBMDOS_IPE_NO_NAME 0 0;; mret SERIAL_ERROR
        else open_parsed fuel secondary m length cmd_parse.
End unit.
End Units.
