(* ===== verification/ValidateSpec.v ===== *)
(** * Specification of validation

    What [rebuild], the core of the command [V], makes of a disk without partitions and
    sub-directories: the block availability map that the chains of the directory and of
    the files imply, or an error and the map as it was. The contents of the disk are a
    function from addresses to sectors, the map is its set of free sectors. *)

From Stdlib Require Import Ascii String.
From S2P Require Import Prelude Geometry Image VDrive Bam BamSpec BamAlloc AllocSpec Cbmdos.
From S2P Require Import Partition Directory DirSpec ScratchSpec Channel ChannelSpec Command.
Import Bam BamSpec Directory DirSpec.

Module ValidateSpec.
Import AllocSpec ChannelSpec.

(** ** Chains and entries *)

(** A disk: its sectors by address, and the addresses it has *)
Abbreviation disk := (Z * Z -> mem).

Definition link_track (C : disk) (a : Z * Z) : Z := default 0 (getb (C a) 0).
Definition link_sector (C : disk) (a : Z * Z) : Z := default 0 (getb (C a) 1).

Section follow.
Variables (valid : Z * Z -> Prop) (C : disk).

(** Following the links from [(t, s)] through the sectors of [F], each at most once: the
    sectors, and the status where it ends *)
Inductive follow : gset (Z * Z) -> Z -> Z -> list (Z * Z) -> Z -> Prop :=
| follow_end F s : follow F 0 s [] CBMDOS_IPE_OK
| follow_illegal F t s : t <> 0 -> ~ valid (t, s) -> follow F t s [] CBMDOS_IPE_ILLEGAL_TRACK_OR_SECTOR
| follow_taken F t s : t <> 0 -> valid (t, s) -> (t, s) ∉ F -> follow F t s [] CBMDOS_IPE_NO_BLOCK
| follow_next F t s l rc : t <> 0 -> valid (t, s) -> (t, s) ∈ F ->
    follow (F ∖ {[(t, s)]}) (link_track C (t, s)) (link_sector C (t, s)) l rc ->
    follow F t s ((t, s) :: l) rc.

Definition byte_at (e : mem) (i : Z) : Z := default 0 (getb e i).
Definition put_at (e : mem) (i x : Z) : mem := <[Z.to_nat i := u8 x]> e.
(** The entry with the block count [n] *)
Definition recount (e : mem) (n : Z) : mem :=
  put_at (put_at e SLOT_NR_BLOCKS (Z.land n 255)) (SLOT_NR_BLOCKS + 1) (Z.shiftr n 8).
Definition file_type (e : mem) : Z := Z.land (byte_at e SLOT_TYPE_OFFSET) 7.
Definition closed_entry (e : mem) : bool := negb (Z.land (byte_at e SLOT_TYPE_OFFSET) 0x80 =? 0).

(** What validation makes of an entry when the sectors of [F] are not in use: the status,
    the sectors of the file, the entry *)
Inductive checked (F : gset (Z * Z)) (e : mem) : Z -> list (Z * Z) -> mem -> Prop :=
| checked_unused : byte_at e SLOT_TYPE_OFFSET = 0 -> checked F e CBMDOS_IPE_OK [] e
| checked_open : byte_at e SLOT_TYPE_OFFSET <> 0 -> closed_entry e = false ->
    checked F e CBMDOS_IPE_OK [] (put_at e SLOT_TYPE_OFFSET CBMDOS_FT_DEL)
| checked_partition : closed_entry e = true -> 5 <= file_type e <= 6 ->
    checked F e CBMDOS_IPE_DIRECTORY_ERROR [] e
| checked_other : closed_entry e = true -> file_type e = 0 \/ file_type e = 7 -> checked F e CBMDOS_IPE_OK [] e
| checked_file l rc : closed_entry e = true -> 1 <= file_type e <= 4 ->
    follow F (byte_at e SLOT_FIRST_TRACK) (byte_at e SLOT_FIRST_SECTOR) l rc ->
    rc <> CBMDOS_IPE_OK \/ file_type e <> 4 ->
    checked F e rc l (if rc =? CBMDOS_IPE_OK then recount e (Z.of_nat (length l)) else e)
| checked_relative l l' rc : closed_entry e = true -> file_type e = 4 ->
    follow F (byte_at e SLOT_FIRST_TRACK) (byte_at e SLOT_FIRST_SECTOR) l CBMDOS_IPE_OK ->
    follow (F ∖ list_to_set l) (byte_at e SLOT_SIDE_TRACK) (byte_at e SLOT_SIDE_SECTOR) l' rc ->
    checked F e rc (l ++ l') (if rc =? CBMDOS_IPE_OK then recount e (Z.of_nat (length (l ++ l'))) else e).

(** The entries of a directory in order, up to the first with an error *)
Inductive checked_all : gset (Z * Z) -> list mem -> Z -> list (Z * Z) -> list mem -> Prop :=
| checked_nil F : checked_all F [] CBMDOS_IPE_OK [] []
| checked_cons F e es rc l l' e' es' : checked F e CBMDOS_IPE_OK l e' ->
    checked_all (F ∖ list_to_set l) es rc l' es' -> checked_all F (e :: es) rc (l ++ l') (e' :: es')
| checked_stop F e es rc l e' : rc <> CBMDOS_IPE_OK -> checked F e rc l e' ->
    checked_all F (e :: es) rc l (e' :: es).
End follow.

Lemma no_sectors (P : Z * Z -> Prop) : NoDup (@nil (Z * Z)) /\ (forall a, a ∈ [] -> P a).
Proof. split; [constructor|]. by intros a ?%not_elem_of_nil. Qed.

(** A chain uses free sectors only, each once. *)
Lemma follow_sectors valid C F t s l rc : follow valid C F t s l rc ->
  NoDup l /\ (forall a, a ∈ l -> a ∈ F /\ valid a).
Proof.
  induction 1 as [| | |F t s l rc Ht Hv Hin _ [IHn IHl]]; try apply no_sectors.
  split.
  - constructor; [|done]. intros Ha. apply IHl in Ha. set_solver.
  - intros a [->|Ha]%elem_of_cons; [done|]. apply IHl in Ha. set_solver.
Qed.

(** Following a chain depends on the contents of free sectors only. *)
Lemma follow_ext valid C C' F t s l rc : (forall a, a ∈ F -> valid a ->
    getb (C' a) 0 = getb (C a) 0 /\ getb (C' a) 1 = getb (C a) 1) ->
  follow valid C F t s l rc -> follow valid C' F t s l rc.
Proof.
  intros HC Hf. induction Hf as [| | |F t s l rc Ht Hv Hin Hf IH]; try (by constructor).
  constructor; try done. destruct (HC (t, s) Hin Hv) as [E0 E1].
  unfold link_track, link_sector. rewrite E0, E1. apply IH. set_solver.
Qed.

Lemma checked_ext valid C C' F e rc l e' : (forall a, a ∈ F -> valid a ->
    getb (C' a) 0 = getb (C a) 0 /\ getb (C' a) 1 = getb (C a) 1) ->
  checked valid C F e rc l e' -> checked valid C' F e rc l e'.
Proof.
  intros HC []; try (econstructor; by eauto using follow_ext).
  eapply checked_relative; eauto using follow_ext. eapply follow_ext; [|done]. set_solver.
Qed.

Lemma checked_sectors valid C F e rc l e' : checked valid C F e rc l e' ->
  NoDup l /\ (forall a, a ∈ l -> a ∈ F /\ valid a).
Proof.
  intros []; try apply no_sectors; [by eapply follow_sectors|].
  destruct (follow_sectors _ _ _ _ _ _ _ H1) as [Hn Hl], (follow_sectors _ _ _ _ _ _ _ H2) as [Hn' Hl'].
  split.
  - apply NoDup_app. split_and!; [done| |done]. intros a Ha Ha'. apply Hl' in Ha'. set_solver.
  - intros a [Ha|Ha]%elem_of_app; [by apply Hl|]. apply Hl' in Ha. set_solver.
Qed.

Lemma checked_all_sectors valid C F es rc l es' : checked_all valid C F es rc l es' ->
  NoDup l /\ (forall a, a ∈ l -> a ∈ F /\ valid a).
Proof.
  induction 1 as [|F e es rc l l' e' es' Hc _ [IHn IHl]|]; [apply no_sectors| |by eapply checked_sectors].
  destruct (checked_sectors _ _ _ _ _ _ _ Hc) as [Hn Hl]. split.
  - apply NoDup_app. split_and!; [done| |done]. intros a Ha Ha'. apply IHl in Ha'. set_solver.
  - intros a [Ha|Ha]%elem_of_app; [by apply Hl|]. apply IHl in Ha. set_solver.
Qed.

Section validation.
Context {platform : Platform}.
Variables (v0 : vdrive_t) (type : Z) (dirty : bool).

(** ** The state of a validation *)

Definition valid (a : Z * Z) : Prop := Geometry.valid_address type a.1 a.2.
#[local] Instance valid_dec a : Decision (valid a).
Proof. apply Geometry.valid_address_dec. Defined.

Hypothesis valid_bam : forall a, valid a -> bam_addr (image_format (geom v0)) a.1 a.2.

(** The sectors of the partition *)
Definition in_partition (a : Z * Z) : Prop :=
  Part_Start (geom v0) <= a.1 <= Part_End (geom v0) /\ 0 <= a.2 < spt v0 a.1.
Definition partition_sectors : gset (Z * Z) :=
  list_to_set (t ← seqZ (Part_Start (geom v0)) (Part_End (geom v0) - Part_Start (geom v0) + 1);
               s ← seqZ 0 (spt v0 t); [(t, s)]).

Lemma elem_of_partition a : a ∈ partition_sectors <-> in_partition a.
Proof.
  unfold partition_sectors, in_partition. rewrite elem_of_list_to_set, list_elem_of_bind. split.
  - intros (t & Ha & Ht%elem_of_seqZ). apply list_elem_of_bind in Ha as (s & Ha & Hs%elem_of_seqZ).
    apply list_elem_of_singleton in Ha as ->. cbn. lia.
  - intros [Ht Hs]. exists a.1. rewrite elem_of_seqZ. split; [|lia]. apply list_elem_of_bind. exists a.2.
    rewrite elem_of_seqZ. split; [|lia]. destruct a. by apply list_elem_of_singleton.
Qed.

(** The sectors of the disk that a validation may use: the image may have less tracks than the
    address check allows. *)
Definition stored (a : Z * Z) : Prop := valid a /\ a ∈ partition_sectors.

(** The DOS version in the BAM *)
Definition bam_version (v : vdrive_t) : option Z := (fun b => default 0 (getb b 2)) <$> bam (bamc v).

(** The drive, which is [v0] but for its map, its image and its error, with the disk [C] in
    it and the set [F] of free sectors; if [dirty] the map is to be written *)
Record on_disk (v : vdrive_t) (C : disk) (F : gset (Z * Z)) : Prop := {
  od_geom : geom v = geom v0;
  od_size : bam_size (bamc v) = bam_size (bamc v0);
  od_tracks : bam_tracks (bamc v) = bam_tracks (bamc v0);
  od_sectors : bam_sectors (bamc v) = bam_sectors (bamc v0);
  od_bam : exists b, bam_inv v b /\ free_set (image_format (geom v0)) b = F;
  od_image : exists image, file_drive v image /\ di_type image = type /\
    forall a, stored a -> has image a.1 a.2 (C a);
  od_free : F ⊆ partition_sectors;
  od_state : dirty = true -> getb (bam_state (bamc v)) 0 = Some 1;
  od_version : bam_version v = bam_version v0
}.

Definition sectors_ok (C : disk) : Prop := forall a, stored a -> mlen (C a) = 256 /\ bytes_ok (C a).

(** Another drive with the same geometry, image and map is on the same disk. *)
Lemma on_disk_frame v v' C F F' b' : on_disk v C F -> frame v v' -> bam_inv v' b' ->
  free_set (image_format (geom v0)) b' = F' -> bam_sectors (bamc v') = bam_sectors (bamc v) ->
  (dirty = true -> getb (bam_state (bamc v')) 0 = Some 1 \/ getb (bam_state (bamc v')) 0 = getb (bam_state (bamc v)) 0) ->
  F' ⊆ partition_sectors -> on_disk v' C F'.
Proof.
  intros [Hg Hs Ht Hc (b & Hb & Hf) (image & Hfd & Hi) Hsub Hst Hver] Hfr Hb' HF' Hsec Hst' Hsub'.
  assert (geom v' = geom v /\ bam_size (bamc v') = bam_size (bamc v) /\ bam_tracks (bamc v') = bam_tracks (bamc v))
    as (E1 & E2 & E3).
  { split_and!; [apply (f_equal geom) in Hfr|apply (f_equal (fun v => bam_size (bamc v))) in Hfr
      |apply (f_equal (fun v => bam_tracks (bamc v))) in Hfr]; done. }
  assert (bam_version v' = bam_version v) as Ever.
  { apply (f_equal (fun v => bam (bamc v))) in Hfr. unfold erase in Hfr. cbn in Hfr. unfold bam_version.
    destruct (bam (bamc v)), (bam (bamc v')); cbn in *; congruence. }
  split; [congruence..| | |exact Hsub'| |congruence]; [by exists b'| |intros Hdirty; destruct (Hst' Hdirty) as [Hs'|Hs']; [done|rewrite Hs'; auto]].
  exists image. split; [|done]. apply (file_drive_frame v); [done|exists b; apply Hb|exists b'; apply Hb'|done].
Qed.

Lemma bam_inv_mode v b m : bam_inv v b -> bam_inv (set_image_mode m v) b.
Proof. intros [Hok Hc]. split; [by apply bam_ok_mode|done]. Qed.

Lemma on_disk_mode v C F m : on_disk v C F -> on_disk (set_image_mode m v) C F.
Proof.
  intros Hd. destruct (od_bam _ _ _ Hd) as (b & Hb & HF).
  by apply (on_disk_frame v _ C F F b); [|reflexivity|apply bam_inv_mode|..|intros _; right|apply (od_free _ _ _ Hd)].
Qed.

Lemma error_run v C F code t s : on_disk v C F -> exists v',
  VDrive.vdrive_command_set_error code t s v = Some (code, v') /\ on_disk v' C F.
Proof.
  intros Hd. destruct (od_bam _ _ _ Hd) as (b & [Hok Hc] & HF). eexists. split; [reflexivity|].
  apply (on_disk_frame v _ C F F b); [done|reflexivity| |done|reflexivity|intros _; by right|apply (od_free _ _ _ Hd)].
  split; [by apply bam_ok_error|exact Hc].
Qed.

Lemma image_run v C F : on_disk v C F -> exists image, deref_image v = Some image /\ di_type image = type /\
  Image.image_wf image.
Proof.
  intros Hd. destruct (od_image _ _ _ Hd) as (image & Hfd & Hty & _). exists image.
  pose proof (fv_drive _ _ Hfd) as Hdr. unfold deref_image.
  rewrite (VDrive.dk_set _ _ Hdr), (VDrive.dk_image _ _ Hdr). split_and!; [done..|apply Hdr].
Qed.

(** ** The map *)

Lemma op_on_disk v C F op : on_disk v C F -> bam_addr (image_format (geom v0)) (op_address op).1 (op_address op).2 ->
  (spec_op op F).2 ⊆ partition_sectors -> exists v', run_op op v = Some ((spec_op op F).1, v') /\ on_disk v' C (spec_op op F).2.
Proof.
  intros Hd Ha Hsub. destruct (od_bam _ _ _ Hd) as (b & [Hok Hc] & <-).
  pose proof (bo_format _ _ Hok) as Hfmt. pose proof (op_run v b op Hok) as Hop. unfold in_bam in Hop. rewrite (od_geom _ _ _ Hd) in Hop, Hc, Hfmt.
  destruct (Hop Ha) as (v' & b' & Hrun & Hok' & Htr & Hfree & Hcount). exists v'. split; [done|].
  apply (on_disk_frame v _ C _ _ b' Hd); [by eapply tracked_frame| |done| | |exact Hsub].
  - split; [done|]. rewrite (tracked_geom _ _ _ _ Htr), (od_geom _ _ _ Hd). by apply (counts_kept _ b).
  - destruct Htr as (st & -> & _). done.
  - destruct Htr as (st & -> & _ & _ & Hst & _). intros _. apply (Hst 0).
Qed.

Lemma allocate_on_disk v C F a : on_disk v C F -> valid a ->
  exists v', vdrive_bam_allocate_sector a.1 a.2 v = Some (b2z (bool_decide (a ∈ F)), v') /\
    on_disk v' C (F ∖ {[a]}).
Proof. intros Hd Ha. destruct a as [t s]. apply (op_on_disk v C F (Allocate t s)); [done|by apply (valid_bam (t, s))|]. cbn. pose proof (od_free _ _ _ Hd). set_solver. Qed.

Lemma read_on_disk v C F a buf : on_disk v C F -> stored a -> mlen buf = 256 ->
  VDrive.vdrive_read_sector buf a.1 a.2 v = Some ((CBMDOS_IPE_OK, C a), set_image_mode 0 v).
Proof.
  intros Hd Ha Hbuf. destruct (od_image _ _ _ Hd) as (image & Hfd & _ & Hhas).
  apply (read_run v image); auto.
Qed.

(** The disk with sector [a] replaced *)
Definition with_sector (C : disk) (a : Z * Z) (b : mem) : disk := fun a' => if bool_decide (a' = a) then b else C a'.

Lemma write_on_disk v C F a b : on_disk v C F -> stored a -> mlen b = 256 ->
  exists v', VDrive.vdrive_write_sector b a.1 a.2 v = Some (CBMDOS_IPE_OK, v') /\ on_disk v' (with_sector C a b) F.
Proof.
  intros Hd Ha Hb. destruct (od_bam _ _ _ Hd) as (b0 & [Hok Hc] & HF), (od_image _ _ _ Hd) as (image & Hfd & Hty & Hhas).
  destruct (write_run v image a.1 a.2 b) as (image' & Hrun & Hw & Hfd'); [by exists b0|done|apply (Hhas a Ha)|done|].
  eexists. split; [exact Hrun|]. pose proof (VDrive.dk_wf _ _ (fv_drive _ _ Hfd)) as Hwf.
  split; [apply Hd..| | |apply Hd|apply Hd|apply Hd].
  - exists b0. split; [split; [split; apply Hok|exact Hc]|done].
  - exists image'. split; [done|]. split; [rewrite <- Hty; apply Hw|]. intros a' Ha'. unfold with_sector.
    case_bool_decide as Ea; [subst; apply (has_written image); [done|apply (Hhas a Ha)|done]|].
    apply (has_other image _ _ _ _ a.1 a.2 b); [done|auto| |done]. destruct a, a'. cbn. congruence.
Qed.

(** ** Following a chain *)

Lemma check_valid v C F image t s : on_disk v C F -> deref_image v = Some image -> 0 <= t -> 0 <= s ->
  (Geometry.disk_image_check_sector image t s <? 0) = negb (bool_decide (valid (t, s))).
Proof.
  intros Hd Hi Ht Hs. destruct (image_run v C F Hd) as (image' & Hi' & Hty & Hwf). replace image' with image in * by congruence.
  destruct (Geometry.check_sector_range image t s) as [Hv _]; [apply Hwf..|done|done|]. rewrite Hty in Hv.
  apply eq_true_iff_eq. rewrite Z.ltb_lt, negb_true_iff, bool_decide_eq_false. unfold valid. cbn [fst snd].
  rewrite <- Hv. lia.
Qed.

Lemma link_range C a : sectors_ok C -> stored a ->
  getb (C a) 0 = Some (link_track C a) /\ getb (C a) 1 = Some (link_sector C a) /\
  0 <= link_track C a < 256 /\ 0 <= link_sector C a < 256.
Proof.
  intros HC Ha. destruct (HC a Ha) as [Hl Hb]. unfold link_track, link_sector.
  destruct (getb_is_Some (C a) 0) as [x Hx]; [lia|]. destruct (getb_is_Some (C a) 1) as [y Hy]; [lia|].
  rewrite Hx, Hy. split; [done|]. split; [done|]. split; by eapply getb_byte.
Qed.

Lemma size_taken (F : gset (Z * Z)) a : a ∈ F -> (size (F ∖ {[a]}) < size F)%nat.
Proof.
  intros Ha. rewrite size_difference by set_solver. rewrite size_singleton.
  assert (size F <> 0%nat) by (apply size_non_empty_iff; set_solver). lia.
Qed.

Lemma chain_on_disk fuel : forall v C F t s c tmp, on_disk v C F -> sectors_ok C -> mlen tmp = 256 ->
  0 <= t -> 0 <= s -> (size F < fuel)%nat -> 0 <= c -> c + Z.of_nat (size F) < 2 ^ 32 ->
  exists l rc v', Command.allocate_chain fuel t s c tmp v = Some ((rc, c + Z.of_nat (length l)), v') /\
    follow valid C F t s l rc /\ on_disk v' C (F ∖ list_to_set l).
Proof.
  induction fuel as [|fuel IH]; intros v C F t s c tmp Hd HC Htmp Ht Hs Hfuel Hc Hmax; [lia|].
  assert (F ∖ list_to_set [] = F) as E0 by set_solver.
  cbn [Command.allocate_chain]. destruct (Z.eqb_spec t 0) as [->|Hnz].
  { exists [], CBMDOS_IPE_OK, v. rewrite E0, Z.add_0_r. split; [done|]. by split; [constructor|]. }
  destruct (image_run v C F Hd) as (image & Hi & _). rewrite (bind_run state _ v v v) by done.
  rewrite (bind_run (lift _) _ v image v) by (unfold lift; by rewrite Hi).
  rewrite (check_valid v C F image t s) by done.
  destruct (bool_decide (valid (t, s))) eqn:Hv; cbn [negb]; [apply bool_decide_eq_true in Hv|apply bool_decide_eq_false in Hv].
  2: { destruct (error_run v C F CBMDOS_IPE_ILLEGAL_TRACK_OR_SECTOR t s Hd) as (v' & Hrun & Hd').
       exists [], CBMDOS_IPE_ILLEGAL_TRACK_OR_SECTOR, v'. rewrite E0, Z.add_0_r. rewrite (bind_run _ _ _ _ _ Hrun).
       split; [done|]. by split; [constructor|]. }
  destruct (allocate_on_disk v C F (t, s) Hd Hv) as (v1 & Hrun1 & Hd1). cbn [fst snd] in Hrun1.
  rewrite (bind_run _ _ _ _ _ Hrun1). destruct (bool_decide ((t, s) ∈ F)) eqn:Hin; cbn [b2z Z.eqb].
  2: { apply bool_decide_eq_false in Hin. rewrite difference_not_in in Hd1 by done.
       destruct (error_run v1 C F CBMDOS_IPE_NO_BLOCK t s Hd1) as (v' & Hrun & Hd').
       exists [], CBMDOS_IPE_NO_BLOCK, v'. rewrite E0, Z.add_0_r. rewrite (bind_run _ _ _ _ _ Hrun).
       split; [done|]. by split; [constructor|]. }
  apply bool_decide_eq_true in Hin. assert (stored (t, s)) as Hvs by (split; [done|by apply (od_free _ _ _ Hd)]).
  pose proof (read_on_disk _ _ _ (t, s) tmp Hd1 Hvs Htmp) as Hrd. cbn [fst snd] in Hrd.
  rewrite (bind_run _ _ _ _ _ Hrd). change (0 <? CBMDOS_IPE_OK) with false. change (CBMDOS_IPE_OK <? 0) with false. cbv iota.
  destruct (link_range C (t, s) HC Hvs) as (H0 & H1 & Hr0 & Hr1). rewrite (bind_run (lift _) _ _ (link_track C (t, s)) (set_image_mode 0 v1)) by (unfold lift; by rewrite H0).
  rewrite (bind_run (lift _) _ _ (link_sector C (t, s)) (set_image_mode 0 v1)) by (unfold lift; by rewrite H1).
  pose proof (size_taken F (t, s) Hin) as Hsz.
  assert (u32 (c + 1) = c + 1) as -> by (apply Z.mod_small; lia).
  destruct (IH (set_image_mode 0 v1) C (F ∖ {[(t, s)]}) (link_track C (t, s)) (link_sector C (t, s)) (c + 1) (C (t, s)))
    as (l & rc & v' & Hrun & Hf & Hd'); [by apply on_disk_mode|done|by apply HC|lia..|].
  exists ((t, s) :: l), rc, v'. split; [rewrite Hrun; do 3 f_equal; cbn [length]; lia|].
  split; [by constructor|]. replace (F ∖ list_to_set ((t, s) :: l)) with (F ∖ {[(t, s)]} ∖ list_to_set l) by set_solver. done.
Qed.

(** ** An empty map *)

Definition old_dos : Prop :=
  image_format (geom v0) = VDRIVE_IMAGE_FORMAT_1541 \/ image_format (geom v0) = VDRIVE_IMAGE_FORMAT_2040.

Lemma getb_fill m off x n : 0 <= off -> 0 <= n -> off + n <= mlen m ->
  exists m', fill m off x n = Some m' /\ mlen m' = mlen m /\
    forall i, getb m' i = if (off <=? i) && (i <? off + n) then Some x else getb m i.
Proof.
  intros Hoff Hn Hl. unfold fill.
  destruct (splice_run m off (replicate (Z.to_nat n) x)) as (m' & Hs & Hm); [done|rewrite mlen_replicate; lia|].
  exists m'. split; [done|]. split; [done|]. intros i. unfold splice in Hs.
  destruct ((0 <=? off) && _); [|done]. injection Hs as <-. unfold getb, mlen in *.
  destruct (Z.leb_spec 0 i); [|destruct (Z.leb_spec off i); [lia|done]].
  destruct (Z.leb_spec off i); cbn [andb].
  - rewrite lookup_app_r by (rewrite length_take; lia). rewrite length_take, Nat.min_l by lia.
    destruct (Z.ltb_spec i (off + n)).
    + rewrite lookup_app_l by (rewrite length_replicate; lia). apply lookup_replicate_2. lia.
    + rewrite lookup_app_r by (rewrite length_replicate; lia). rewrite lookup_drop, !length_replicate. f_equal. lia.
  - rewrite lookup_app_l by (rewrite length_take; lia). apply lookup_take_lt. lia.
Qed.

Lemma getb_bytes_ok (m : mem) : (forall i x, getb m i = Some x -> 0 <= x < 256) -> bytes_ok m.
Proof.
  intros H. apply Forall_lookup_2. intros i x Hx. apply (H (Z.of_nat i)). apply getb_Some. rewrite Nat2Z.id. split; [lia|done].
Qed.

(** The cleared map of a 1541: the entries of tracks 1 to 40 *)
Definition in_map (i : Z) : bool :=
  (4 <=? i) && (i <? 144)
  || (image_format (geom v0) =? VDRIVE_IMAGE_FORMAT_1541) && ((172 <=? i) && (i <? 192)).

Lemma cleared_free b b' : old_dos -> (forall i, getb b' i = if in_map i then Some 0 else getb b i) ->
  counts_ok (image_format (geom v0)) b ->
  counts_ok (image_format (geom v0)) b' /\
  forall t s, bam_addr (image_format (geom v0)) t s ->
    free_bit (image_format (geom v0)) b' t s = (40 <? t) && free_bit (image_format (geom v0)) b t s.
Proof.
  intros Hold Hb' Hc. set (f := image_format (geom v0)) in *.
  assert (forall t, 1 <= t <= last_track f -> count_of f t = Some (entry_of f t) /\
    forall k, 0 <= k <= 3 -> in_map (entry_of f t + k) = negb (40 <? t)) as Hmap.
  { intros t Ht. split; [by destruct Hold as [E|E]; unfold f; rewrite E|]. intros k Hk.
    destruct Hold as [E|E]; unfold last_track, f in Ht; rewrite E in Ht; eval_tests_in Ht;
      unfold in_map, entry_of, f; rewrite E; eval_tests;
      destruct (Z.leb_spec t 35); case_bool; cbn; try done; exfalso; lia. }
  assert (forall t s, bam_addr f t s -> free_bit f b' t s = (40 <? t) && free_bit f b t s) as Hbit.
  { intros t s Ha. unfold free_bit. rewrite Hb', (byte_of_eq f t s) by done.
    destruct Ha as [Ht Hs]. assert (map_bytes f = 3) as Hm3 by (destruct Hold as [E|E]; unfold f, map_bytes; by rewrite E).
    rewrite Hm3 in Hs. destruct (Hmap t Ht) as [_ Hm].
    replace (entry_of f t + 1 + s / 8) with (entry_of f t + (1 + s / 8)) by lia.
    rewrite Hm by (Z.to_euclidean_division_equations; lia).
    destruct (40 <? t); cbn [negb andb]; [done|]. cbn [default]. by rewrite Z.testbit_0_l. }
  split; [|exact Hbit]. intros t c Ht Hct. destruct (Hmap t Ht) as [Hct' Hm]. rewrite Hct' in Hct. injection Hct as <-.
  rewrite Hb'. specialize (Hm 0 ltac:(lia)). rewrite Z.add_0_r in Hm. rewrite Hm.
  unfold free_in_track. destruct (Z.ltb_spec 40 t) as [H40|H40]; cbn [negb].
  - rewrite (Hc t _ Ht Hct'). unfold free_in_track. do 2 f_equal. apply filter_length_ext. intros s Hs%elem_of_seqZ.
    rewrite Hbit by (split; [done|lia]). by rewrite (proj2 (Z.ltb_lt _ _) H40).
  - f_equal. unfold free_in_track. destruct (filter _ _) as [|s l] eqn:Hfil; [done|].
    assert (s ∈ s :: l) as Hs by constructor. rewrite <- Hfil in Hs.
    apply list_elem_of_filter in Hs as [Hs Hin%elem_of_seqZ]. rewrite Hbit in Hs by (split; [done|lia]).
    rewrite (proj2 (Z.ltb_ge _ _) H40) in Hs. done.
Qed.

Lemma fill_bam_run v b b' off x n : bam (bamc v) = Some b -> fill b off (u8 x) n = Some b' ->
  fill_bam off x n v = Some (tt, with_bam b' (bam_state (bamc v)) v).
Proof. intros Hb Hf. unfold fill_bam, update. rewrite Hb. cbn. by rewrite Hf. Qed.

(** The cells of the map are zero, the first block is to be written. *)
Lemma clear_run v b : old_dos -> bam_ok v b -> geom v = geom v0 -> exists b' st,
  vdrive_bam_clear_all v = Some (tt, with_bam b' st v) /\ mlen b' = mlen b /\
  (forall i, getb b' i = if in_map i then Some 0 else getb b i) /\
  st = <[0%nat := 1]> (bam_state (bamc v)).
Proof.
  intros Hold Hok Hg. pose proof (bo_bam _ _ Hok) as Hb. pose proof (bo_state _ _ Hok) as Hst.
  assert (mlen b = 256) as Hl.
  { rewrite (bo_len _ _ Hok), Hg. by destruct Hold as [E|E]; rewrite E. }
  unfold vdrive_bam_clear_all, mbind, ST_bind. rewrite (bind_run _ _ _ _ _ (read_bam_loaded v b Hok)).
  rewrite (bind_run state _ v v v) by done. rewrite Hg.
  unfold old_dos, in_map in *. destruct Hold as [E|E]; rewrite E; eval_tests.
  - destruct (getb_fill b 172 0 20) as (b1 & Hf1 & Hl1 & Hg1); [lia..|].
    destruct (getb_fill b1 4 0 140) as (b2 & Hf2 & Hl2 & Hg2); [lia..|].
    rewrite (bind_run _ _ _ _ _ (fill_bam_run v b b1 _ 0 _ Hb Hf1)).
    rewrite (bind_run _ _ _ _ _ (fill_bam_run (with_bam b1 (bam_state (bamc v)) v) b1 b2 _ 0 _ eq_refl Hf2)).
    exists b2, (<[0%nat := 1]> (bam_state (bamc v))). split; [|split; [lia|split; [|done]]].
    + rewrite with_bam_with_bam. cbn [bamc with_bam set_bamc bam_state set_bam set_bam_state]. by rewrite (put_state_run (with_bam b2 (bam_state (bamc v)) v) b2 0 1) by (done || (cbn; rewrite Hst; done)).
    + intros i. rewrite Hg2, Hg1. case_bool; cbn; try done; lia.
  - destruct (getb_fill b 4 0 140) as (b2 & Hf2 & Hl2 & Hg2); [lia..|].
    rewrite (bind_run _ _ v tt v) by done.
    rewrite (bind_run _ _ _ _ _ (fill_bam_run v b b2 _ 0 _ Hb Hf2)).
    exists b2, (<[0%nat := 1]> (bam_state (bamc v))). split; [|split; [lia|split; [|done]]].
    + by rewrite (put_state_run (with_bam b2 (bam_state (bamc v)) v) b2 0 1) by (done || (cbn; rewrite Hst; done)).
    + intros i. rewrite Hg2. case_bool; cbn; try done; lia.
Qed.

Lemma clear_on_disk v C F : old_dos -> on_disk v C F -> exists v' F',
  vdrive_bam_clear_all v = Some (tt, v') /\ on_disk v' C F' /\ getb (bam_state (bamc v')) 0 = Some 1 /\
  forall t s, (t, s) ∈ F' <-> 40 < t /\ (t, s) ∈ F.
Proof.
  intros Hold Hd. destruct (od_bam _ _ _ Hd) as (b & [Hok Hc] & <-). pose proof (od_geom _ _ _ Hd) as Hg.
  destruct (clear_run v b Hold Hok Hg) as (b' & st & Hrun & Hl & Hb' & ->). rewrite Hg in Hc.
  destruct (cleared_free b b' Hold Hb' Hc) as [Hc' Hfree].
  assert (mlen b = 256) as Hlen by (rewrite (bo_len _ _ Hok), Hg; by destruct Hold as [E|E]; rewrite E).
  assert (tracked v b (with_bam b' (<[0%nat := 1]> (bam_state (bamc v))) v) b') as Htr.
  { exists (<[0%nat := 1]> (bam_state (bamc v))). split; [done|]. split; [done|].
    split; [by rewrite mlen_insert|]. pose proof (bo_state _ _ Hok) as Hst.
    split; [intros i|split; [intros j|]].
    - change 0%nat with (Z.to_nat 0). rewrite getb_insert by (rewrite Hst; done). case_match; auto.
    - destruct (decide (0 <= j < 256)) as [Hj|Hj].
      + right. replace (j / 256) with 0 by (Z.to_euclidean_division_equations; lia).
        change 0%nat with (Z.to_nat 0). rewrite getb_insert by (rewrite Hst; done). done.
      + left. destruct (getb b' j) eqn:E1; [apply getb_lt in E1; lia|].
        destruct (getb b j) eqn:E2; [apply getb_lt in E2; lia|done].
    - rewrite Hb'. unfold in_map. case_bool; cbn; done || lia. }
  assert (bam_inv (with_bam b' (<[0%nat := 1]> (bam_state (bamc v))) v) b') as Hinv.
  { split; [|cbn; by rewrite Hg]. eapply bam_ok_tracked; [exact Hok|exact Htr| |].
    - apply getb_bytes_ok. intros i x. rewrite Hb'. destruct (in_map i); [intros [= <-]; lia|].
      apply getb_byte, Hok.
    - intros i lo hi k. rewrite Hg. destruct Hold as [E|E]; rewrite E; by intros ?%not_elem_of_nil. }
  exists (with_bam b' (<[0%nat := 1]> (bam_state (bamc v))) v), (free_set (image_format (geom v0)) b').
  split; [done|].
  assert (getb (<[0%nat := 1]> (bam_state (bamc v))) 0 = Some 1) as H1.
  { change 0%nat with (Z.to_nat 0). apply getb_insert_same. by rewrite (bo_state _ _ Hok). }
  assert (forall t s, (t, s) ∈ free_set (image_format (geom v0)) b' <->
    40 < t /\ (t, s) ∈ free_set (image_format (geom v0)) b) as Hchar.
  { intros t s. rewrite !elem_of_free_set. split.
    - intros [Ha Hbit]. rewrite Hfree in Hbit by done. apply andb_prop in Hbit as [H40%Z.ltb_lt ?]. auto.
    - intros (H40 & Ha & Hbit). split; [done|]. rewrite Hfree by done. by rewrite (proj2 (Z.ltb_lt _ _) H40). }
  split; [|by split].
  eapply on_disk_frame; [exact Hd|by eapply tracked_frame|exact Hinv|done|done|intros _; by left|].
  intros [t s] Ha. apply (od_free _ _ _ Hd). by apply Hchar in Ha as [_ ?].
Qed.

Definition freed_up_to (F : gset (Z * Z)) (t s : Z) (F' : gset (Z * Z)) : Prop := forall a,
  a ∈ F' <-> a ∈ F \/ in_partition a /\ (a.1 < t \/ a.1 = t /\ a.2 < s).

Lemma free_on_disk v C F : on_disk v C F -> 1 <= Part_Start (geom v0) <= Part_End (geom v0) ->
  Part_End (geom v0) <= last_track (image_format (geom v0)) -> inv v0 ->
  wp Command.free_partition (fun _ v' => on_disk v' C partition_sectors) v.
Proof.
  intros Hd Hstart Hend Hinv. pose proof (od_free _ _ _ Hd) as HF. unfold Command.free_partition. apply wp_bindST, wp_state.
  rewrite (od_geom _ _ _ Hd). set (lo := Part_Start (geom v0)) in *. set (hi := Part_End (geom v0)) in *.
  eapply wp_mono.
  - apply (wp_for_each _ lo _ (fun t v => exists F', on_disk v C F' /\ freed_up_to F t 0 F')).
    + exists F. split; [done|]. intros a. unfold in_partition. fold lo. split; [auto|]. intros [|]; [done|lia].
    + intros t v1 Ht (F1 & Hd1 & HF1). apply wp_bindST, wp_state.
      assert (inv v1) as Hinv1 by (destruct (od_bam _ _ _ Hd1) as (b & [Hb _] & _); by exists b).
      assert (spt v1 t = spt v0 t) as Hspt by (apply spt_geom; [done|apply Hd1]).
      destruct (spt_run v1 t Hinv1) as (Hm & _ & H17 & H8). rewrite Hspt in Hm, H17, H8. rewrite (od_geom _ _ _ Hd1) in H8.
      apply wp_bindST, wp_lift. exists (spt v0 t). split; [done|]. unfold u32. rewrite Z.mod_small by lia.
      eapply wp_mono.
      * apply (wp_for_each _ 0 _ (fun s v => exists F', on_disk v C F' /\ freed_up_to F t s F')); [by exists F1|].
        intros s v2 Hs (F2 & Hd2 & HF2).
        destruct (op_on_disk v2 C F2 (Release t s)) as (v3 & Hrun & Hd3); [done|cbn; split; lia| |].
        { cbn. pose proof (od_free _ _ _ Hd2) as HF2'. intros a [Ha| ->%elem_of_singleton]%elem_of_union; [by apply HF2'|].
          apply elem_of_partition. split; cbn; lia. }
        cbn [run_op] in Hrun. unfold mbind, ST_bind. apply wp_bindST. eapply wp_eq; [exact Hrun|]. apply wp_ret.
        exists (F2 ∪ {[(t, s)]}). split; [exact Hd3|]. intros a. rewrite elem_of_union, (HF2 a), elem_of_singleton.
        unfold in_partition. fold lo hi. destruct a as [at_ as_]. cbn [fst snd]. split.
        -- intros [[|]|[= -> ->]]; [auto|right; split; lia|]. right. lia.
        -- intros [|[Hp Hlt]]; [auto|]. destruct (decide ((at_, as_) = (t, s))) as [->|Hne]; [auto|].
           left. right. split; [done|]. destruct Hlt as [|[-> Hlt]]; [auto|]. right. split; [done|].
           assert (as_ <> s) by congruence. lia.
      * intros _ v2 (F2 & Hd2 & HF2). exists F2. split; [done|]. intros a. rewrite (HF2 a). unfold in_partition. cbn. 
        split; (intros [|[Hp Hlt]]; [auto|right; split; [done|]]); [lia|].
        destruct Hlt as [Hlt|[_ Hlt]]; [|lia]. destruct (decide (a.1 = t)) as [<-|]; [right|left]; lia.
  - intros _ v' (F' & Hd' & HF'). replace partition_sectors with F'; [done|]. apply set_eq. intros a.
    rewrite (HF' a), elem_of_partition. split.
    + intros [Ha|[Ha _]]; [|done]. apply elem_of_partition. auto.
    + intros Ha. right. split; [done|]. left. unfold in_partition in Ha. fold lo hi in Ha. lia.
Qed.

(** ** GEOS *)

(** The signature of a GEOS disk lies in the counts of tracks 36 to 40: behind a clearing
    of the map no 1541 disk is one. *)
Lemma not_geos v C F : old_dos -> on_disk v C F -> vdrive_bam_isgeos v = Some (0, v).
Proof.
  intros Hold Hd. destruct (od_bam _ _ _ Hd) as (b & [Hok Hc] & _). rewrite (od_geom _ _ _ Hd) in Hc.
  unfold vdrive_bam_isgeos, format. rewrite (bind_run _ _ v (image_format (geom v0)) v) by (unfold gets; by rewrite (od_geom _ _ _ Hd)).
  destruct Hold as [E|E]; rewrite E in *; eval_tests; [|done].
  pose proof (Hc 37 176 ltac:(done) eq_refl) as Hcount.
  assert (free_in_track VDRIVE_IMAGE_FORMAT_1541 b 37 <= 40) as Hle by (apply (count_track_small _ _ 176); [set_solver|done]).
  set (n := free_in_track _ _ _) in *. clearbody n.
  assert (forall i, 0 <= i < 256 -> exists x, getb b i = Some x) as Hget.
  { intros i Hi. apply getb_is_Some. rewrite (bo_len _ _ Hok), (od_geom _ _ _ Hd), E. exact Hi. }
  assert (forall k i body, (body i : ST vdrive_t (option unit)) v = Some (Some tt, v) ->
    for_ (S k) i body v = Some (Some tt, v)) as Hstop.
  { intros k i body Hb. cbn [for_]. by rewrite (bind_run _ _ _ _ _ Hb). }
  assert (forall i m x, getb geosmagic i = Some m -> getb b (0xad + i) = Some x ->
    (let! m := lift (getb geosmagic i) in let! x := get_bam (0xad + i) in
     mret (if negb (m =? x) then Some tt else None)) v = Some (if negb (m =? x) then Some tt else None, v)) as Hbody.
  { intros i m x Hm Hx. rewrite (bind_run (lift _) _ v m v) by (unfold lift; by rewrite Hm).
    by rewrite (bind_run _ _ _ _ _ (get_bam_run v b (0xad + i) x (bo_bam _ _ Hok) Hx)). }
  unfold bindST at 1. match goal with |- context [for_ 15 0 ?B v] => set (body := B) end.
  assert (for_ 15 0 body v = Some (Some tt, v)) as ->; [|done].
  destruct (Hget 173 ltac:(lia)) as [x0 H0]. destruct (Hget 174 ltac:(lia)) as [x1 H1].
  destruct (Hget 175 ltac:(lia)) as [x2 H2].
  change 15%nat with (S (S (S (S 11)))). remember 11%nat as k eqn:Hk. clear Hk. cbn [for_].
  rewrite (bind_run _ _ _ _ _ (Hbody 0 71 x0 eq_refl H0)). destruct (71 =? x0); cbn [negb]; [|done].
  change (0 + 1) with 1. rewrite (bind_run _ _ _ _ _ (Hbody 1 69 x1 eq_refl H1)). destruct (69 =? x1); cbn [negb]; [|done].
  change (1 + 1) with 2. rewrite (bind_run _ _ _ _ _ (Hbody 2 79 x2 eq_refl H2)). destruct (79 =? x2); cbn [negb]; [|done].
  change (2 + 1) with 3. rewrite (bind_run _ _ _ _ _ (Hbody 3 83 n eq_refl Hcount)).
  destruct (Z.eqb_spec 83 n); [lia|done].
Qed.

(** ** Walking through a directory *)

(** The places of the entries behind entry [i] of sector [cur], in this sector and in the
    sectors [rest] *)
Definition places (cur : Z * Z) (i : Z) (rest : list (Z * Z)) : list (Z * Z * Z) :=
  ((fun j => (cur, j)) <$> seqZ (i + 1) (7 - i)) ++ (rest ≫= fun a => (fun j => (a, j)) <$> seqZ 0 8).
Definition entry_at (C : disk) (p : Z * Z * Z) : mem := entry (C p.1) p.2.

Lemma places_same cur i rest : 0 <= i < 7 -> places cur i rest = (cur, i + 1) :: places cur (i + 1) rest.
Proof. intros Hi. unfold places. rewrite seqZ_cons by lia. cbn. do 3 f_equal. f_equal; lia. Qed.
Lemma places_next cur a rest : places cur 7 (a :: rest) = (a, 0) :: places a 0 rest.
Proof. reflexivity. Qed.

(** The sectors [rest] follow [cur] in the directory. *)
Fixpoint path (C : disk) (cur : Z * Z) (rest : list (Z * Z)) : Prop :=
  match rest with
  | [] => link_track C cur = 0
  | a :: rest => a = (link_track C cur, link_sector C cur) /\ a.1 <> 0 /\ path C a rest
  end.

Definition query_all : dir_t := query (pattern_of (str "*")) 1 CBMDOS_FT_DEL.
(** The context of the search of all entries stands at entry [i] of [cur]. *)
Record standing (d : dir_t) (C : disk) (cur : Z * Z) (i : Z) (rest : list (Z * Z)) : Prop := {
  st_buffer : dbuffer d = C cur;
  st_track : dtrack d = cur.1;
  st_sector : dsector d = cur.2;
  st_slot : dslot d = i;
  st_range : 0 <= i <= 7;
  st_path : path C cur rest;
  st_query : same_query query_all d
}.

Definition unused (e : mem) : Prop := byte_at e SLOT_TYPE_OFFSET = 0.

Lemma entry_ok_at C a i : sectors_ok C -> stored a -> 0 <= i <= 7 -> entry_ok (entry (C a) i).
Proof.
  intros HC Ha Hi. destruct (HC a Ha) as [Hl Hb]. split; [by apply entry_slice|].
  unfold entry. by apply Forall_take, Forall_drop.
Qed.

Lemma hit_all d e : same_query query_all d -> entry_ok e -> hit d e = bool_decide (~ unused e).
Proof.
  intros Hq [Hl Hb]. rewrite (hit_query _ _ e Hq). unfold hit, unused, byte_at.
  destruct (slot_date_range e Hb Hl) as (t & -> & Ht).
  unfold vdrive_dir_name_match. cbn [find_length find_type find_nslot time_low time_high query_all query].
  destruct (getb_is_Some e SLOT_TYPE_OFFSET) as [ty Hty]; [by rewrite Hl|]. rewrite Hty. cbn [mbind option_bind default id].
  change (1 <? 0) with false. cbv iota. destruct (Z.eqb_spec ty 0) as [->|Hne].
  - symmetry. rewrite bool_decide_eq_false. intros Hn. by apply Hn.
  - change (CBMDOS_FT_DEL =? CBMDOS_FT_DEL) with true. cbn [negb andb].
    unfold Cbmdos.cbmdos_parse_wildcard_compare.
    change (Cbmdos.wildcard_compare_from _ 0 (pattern_of (str "*")) 1 ?m) with (Some 1). cbn [mbind option_bind].
    rewrite bool_decide_eq_true_2 by done. by rewrite (proj2 (Z.leb_le 0 t)), (proj2 (Z.leb_le t _)) by lia.
Qed.

Lemma read_dir_at v C F d a : on_disk v C F -> stored a -> dtrack d = a.1 -> dsector d = a.2 -> mlen (dbuffer d) = 256 ->
  read_dir (Search v d) = Some (CBMDOS_IPE_OK, Search (set_image_mode 0 v) (set_dbuffer (C a) d)).
Proof.
  intros Hd Ha Ht Hs Hb. unfold read_dir. rewrite (bind_run state _ _ (Search v d) (Search v d)) by done. cbn [dctx].
  rewrite (bind_run _ _ _ (CBMDOS_IPE_OK, C a) (Search (set_image_mode 0 v) d)); [done|].
  unfold on_drive. cbn [drv]. rewrite Ht, Hs. by rewrite (read_on_disk v C F a).
Qed.

(** The step to the next entry; a new sector is read. *)
Lemma next_standing v d C F cur i rest p l : on_disk v C F -> sectors_ok C -> standing d C cur i rest ->
  Forall stored (cur :: rest) -> places cur i rest = p :: l -> exists v' d' rest' pre,
    next_entry (Search v d) = Some (Some 0, Search v' d') /\ on_disk v' C F /\
    standing d' C p.1 p.2 rest' /\ l = places p.1 p.2 rest' /\ cur :: rest = pre ++ p.1 :: rest' /\
    (pre = [] -> i < p.2).
Proof.
  intros Hd HC [Hbuf Htr Hse Hsl Hr Hpath Hq] [Hv Hvr]%Forall_cons Hp. rewrite next_entry_eq by lia. cbv zeta. rewrite Hsl.
  destruct (Z.eq_dec i 7) as [->|Hne].
  - change (8 <=? 7 + 1) with true. cbv iota. change (7 + 1) with 8.
    destruct rest as [|a rest]; [done|]. destruct Hpath as (Ea & Hnz & Hpath).
    rewrite places_next in Hp. injection Hp as <- <-. apply Forall_cons in Hvr as [Hva Hvr].
    destruct (link_range C cur HC Hv) as (H0 & H1 & _).
    assert (a.1 = link_track C cur /\ a.2 = link_sector C cur) as [E1 E2] by (by rewrite Ea).
    rewrite <- E1 in H0. rewrite <- E2 in H1. rewrite <- Hbuf in H0, H1.
    rewrite (bind_run _ _ _ _ _ (get_dir_run v (set_dslot 8 d) 0 _ H0)). rewrite (proj2 (Z.eqb_neq _ 0)) by done.
    rewrite (bind_run _ _ _ _ _ (get_dir_run v (set_dslot 8 d) 1 _ H1)).
    set (d1 := set_dslot 0 (set_dtrack a.1 (set_dsector a.2 (set_dslot 8 d)))).
    unfold mbind, ST_bind. rewrite (bind_run _ _ _ _ _ (upd_dir_run _ v (set_dslot 8 d))). fold d1.
    rewrite (bind_run _ _ _ _ _ (read_dir_at v C F d1 a Hd Hva eq_refl eq_refl ltac:(cbn; rewrite Hbuf; by apply HC))).
    exists (set_image_mode 0 v), (set_dbuffer (C a) d1), rest, [cur]. split; [done|].
    split; [by apply on_disk_mode|]. split; [|split; [done|split; [done|done]]].
    split; [done..|cbn; lia|done|]. etrans; [exact Hq|done].
  - destruct (Z.leb_spec 8 (i + 1)); [lia|]. rewrite places_same in Hp by lia. injection Hp as <- <-.
    exists v, (set_dslot (i + 1) d), rest, []. split; [done|]. split; [done|].
    split; [|split; [done|split; [done|cbn; lia]]].
    split; [done..|cbn; lia|done|]. etrans; [exact Hq|done].
Qed.

Lemma next_none v d C F cur i rest : on_disk v C F -> sectors_ok C -> standing d C cur i rest -> stored cur ->
  places cur i rest = [] -> next_entry (Search v d) = Some (None, Search v (set_dslot 8 d)).
Proof.
  intros Hd HC [Hbuf Htr Hse Hsl Hr Hpath Hq] Hv Hp.
  destruct (Z.eq_dec i 7) as [->|Hne]; [|by rewrite places_same in Hp by lia].
  destruct rest as [|a rest]; [|by rewrite places_next in Hp].
  rewrite next_entry_eq by lia. cbv zeta. rewrite Hsl. change (8 <=? 7 + 1) with true. cbv iota.
  destruct (link_range C cur HC Hv) as (H0 & _). cbn in Hpath. rewrite Hpath, <- Hbuf in H0.
  by rewrite (bind_run _ _ _ _ _ (get_dir_run v (set_dslot 8 d) 0 _ H0)).
Qed.

(** The search stops at the next entry in use. *)
Definition stops_at (v : vdrive_t) (d : dir_t) (C : disk) (F : gset (Z * Z)) (cur : Z * Z) (i : Z)
    (rest : list (Z * Z)) (r : option (option mem)) (s' : search_t) : Prop :=
  on_disk (drv s') C F /\
  match r with
  | Some (Some e) => exists sk cur' i' rest' pre, e = entry_at C (cur', i') /\ ~ unused e /\
      standing (dctx s') C cur' i' rest' /\ places cur i rest = sk ++ (cur', i') :: places cur' i' rest' /\
      cur :: rest = pre ++ cur' :: rest' /\ (pre = [] -> i < i') /\ Forall (fun p => unused (entry_at C p)) sk /\
      forall p, p ∈ sk -> p.1 ∈ pre \/ p.1 = cur' /\ p.2 < i'
  | Some None => False
  | None => same_query query_all (dctx s') /\ Forall (fun p => unused (entry_at C p)) (places cur i rest)
  end.

Lemma search_stops fuel : forall v d C F cur i rest, on_disk v C F -> sectors_ok C -> standing d C cur i rest ->
  Forall stored (cur :: rest) -> (length (places cur i rest) < fuel)%nat ->
  wp (search_loop fuel (-1)) (stops_at v d C F cur i rest) (Search v d).
Proof.
  induction fuel as [|fuel IH]; intros v d C F cur i rest Hd HC Hst Hv Hfuel; [lia|].
  destruct (places cur i rest) as [|p l] eqn:Hp.
  { eapply wp_eq.
    - cbn [search_loop]. rewrite (bind_run _ _ _ _ _ (next_none v d C F cur i rest Hd HC Hst (Forall_inv Hv) Hp)). done.
    - split; [done|]. cbn [dctx]. rewrite Hp. split; [|constructor]. etrans; [apply Hst|done]. }
  destruct (next_standing v d C F cur i rest p l Hd HC Hst Hv Hp) as (v1 & d1 & rest1 & pre & Hn & Hd1 & Hst1 & -> & Hsplit & Hi).
  destruct p as [c1 i1]. cbn [fst snd] in *.
  assert (Forall stored (c1 :: rest1)) as Hv1 by (rewrite Hsplit, Forall_app in Hv; apply Hv).
  assert (entry_ok (entry_at C (c1, i1))) as Hok by (apply entry_ok_at; [done|by apply Forall_inv in Hv1|apply Hst1]).
  assert (match_slot d1 = Some (if bool_decide (~ unused (entry_at C (c1, i1))) then Some (entry_at C (c1, i1)) else None)) as Hm.
  { rewrite <- (hit_all d1 _ (st_query _ _ _ _ _ Hst1) Hok). unfold entry_at. cbn [fst snd].
    rewrite <- (st_buffer _ _ _ _ _ Hst1), <- (st_slot _ _ _ _ _ Hst1).
    apply match_slot_hit; [rewrite (st_buffer _ _ _ _ _ Hst1); apply HC; by apply Forall_inv in Hv1
      |rewrite (st_slot _ _ _ _ _ Hst1); apply Hst1|].
    destruct (st_query _ _ _ _ _ Hst1) as (_ & -> & _). done. }
  unfold wp. rewrite (search_step fuel (-1) v d v1 d1 _ Hn Hm). case_bool_decide as Hun.
  - split; [done|]. exists [], c1, i1, rest1, pre. cbn [dctx app]. rewrite Hp.
    split_and!; try done. by intros q ?%not_elem_of_nil.
  - change (0 <? -1) with false. cbv iota. cbn [length] in Hfuel.
    eapply wp_mono; [apply (IH v1 d1 C F c1 i1 rest1); [done..|lia]|].
    intros r s' [Hd' Hr]. split; [done|]. rewrite Hp.
    destruct r as [[e|]|]; [|done|].
    + destruct Hr as (sk & c2 & i2 & rest2 & pre2 & He & Hu & Hst2 & Hpl & Hsp & Hlt & Hsk & Hin).
      exists ((c1, i1) :: sk), c2, i2, rest2, (pre ++ pre2). rewrite Hpl.
      split_and!; [done..|by rewrite Hsplit, Hsp, app_assoc| |by constructor|].
      * intros [-> ->]%app_eq_nil. specialize (Hi eq_refl). specialize (Hlt eq_refl). lia.
      * intros q [->|Hq]%elem_of_cons.
        -- cbn [fst snd]. destruct pre2 as [|x pre2]; [right|left].
           ++ injection Hsp as -> ->. split; [done|]. by apply Hlt.
           ++ injection Hsp as -> _. apply elem_of_app. right. by constructor.
        -- destruct (Hin q Hq) as [?|?]; [left; apply elem_of_app; by right|by right].
    + destruct Hr as [Hq Hall]. split; [done|]. by constructor.
Qed.

(** ** Checking an entry *)

Definition outcome_of (C : disk) (F : gset (Z * Z)) (e : mem) (r : Command.outcome) (l : list (Z * Z)) : Prop :=
  let '(status, _, (sz, n)) := r in
  match status with
  | Some rc => rc <> CBMDOS_IPE_OK /\ checked valid C F e rc l e
  | None => checked valid C F e CBMDOS_IPE_OK l (if sz =? n then e else recount e n)
  end.

Lemma entry_byte_at e i : entry_ok e -> 0 <= i < 32 -> getb e i = Some (byte_at e i) /\ 0 <= byte_at e i < 256.
Proof. intros He Hi. destruct (entry_byte e i He Hi) as (x & Hx & Hr). unfold byte_at. rewrite Hx. by split. Qed.

Lemma blocks_run e : entry_ok e -> Command.entry_blocks e = Some (entry_blocks e) /\ 0 <= entry_blocks e < 65536.
Proof.
  intros He. destruct (entry_byte_at e SLOT_NR_BLOCKS He) as [H0 R0]; [done|].
  destruct (entry_byte_at e (SLOT_NR_BLOCKS + 1) He) as [H1 R1]; [done|].
  unfold Command.entry_blocks, entry_blocks. rewrite H0, H1. cbn [mbind option_bind default id].
  rewrite lor_bytes by done. split; [done|lia].
Qed.

(** The right count is no change. *)
Lemma recount_same e : entry_ok e -> recount e (entry_blocks e) = e.
Proof.
  intros He. destruct (entry_byte_at e SLOT_NR_BLOCKS He) as [H0 R0]; [done|].
  destruct (entry_byte_at e (SLOT_NR_BLOCKS + 1) He) as [H1 R1]; [done|].
  unfold entry_blocks, recount, put_at. rewrite H0, H1. cbn [default id].
  set (x := byte_at e SLOT_NR_BLOCKS) in *. set (y := byte_at e (SLOT_NR_BLOCKS + 1)) in *.
  change 255 with (Z.ones 8). rewrite Z.land_ones, Z.shiftr_div_pow2 by lia. change (2 ^ 8) with 256.
  replace ((x + 256 * y) mod 256) with x by (Z.to_euclidean_division_equations; lia).
  replace ((x + 256 * y) / 256) with y by (Z.to_euclidean_division_equations; lia).
  unfold u8. rewrite !Z.mod_small by lia. apply mem_ext; [by autorewrite with mem|]. intros i.
  destruct He as [Hl _]. rewrite getb_insert by (autorewrite with mem; rewrite Hl; done).
  rewrite getb_insert by (rewrite Hl; done).
  case_bool; [congruence|congruence|done].
Qed.

Lemma file_count_run fuel v C F t s c : on_disk v C F -> sectors_ok C -> 0 <= t -> 0 <= s -> (size F < fuel)%nat ->
  0 <= c -> c + Z.of_nat (size F) < 2 ^ 32 -> exists l rc v',
  Command.vdrive_command_allocate_chain fuel t s c v = Some ((rc, c + Z.of_nat (length l)), v') /\
  follow valid C F t s l rc /\ on_disk v' C (F ∖ list_to_set l).
Proof.
  intros Hd HC Ht Hs Hfuel Hc Hm. by apply chain_on_disk.
Qed.

Lemma size_follow C F t s l rc : follow valid C F t s l rc ->
  (length l + size (F ∖ list_to_set l) = size F)%nat.
Proof.
  intros [Hn Hin]%follow_sectors. assert (list_to_set l ⊆ F) as Hsub.
  { intros a Ha%elem_of_list_to_set. by apply Hin. }
  rewrite size_difference by done. rewrite size_list_to_set by done.
  assert (size (list_to_set l : gset (Z * Z)) <= size F)%nat by (by apply subseteq_size).
  rewrite size_list_to_set in H by done. lia.
Qed.

Lemma file_run fuel v C F e : on_disk v C F -> sectors_ok C -> entry_ok e -> closed_entry e = true ->
  1 <= file_type e <= 4 -> (size F < fuel)%nat -> Z.of_nat (size F) < 2 ^ 32 -> exists r l v',
  Command.validate_file fuel e (file_type e) (entry_blocks e) v = Some (r, v') /\ outcome_of C F e r l /\
  on_disk v' C (F ∖ list_to_set l).
Proof.
  intros Hd HC He Hcl Hty Hfuel Hm.
  assert (forall i, 0 <= i < 32 -> getb e i = Some (byte_at e i) /\ 0 <= byte_at e i < 256) as Hbyte
    by (intros; by apply entry_byte_at).
  assert (forall n, (if entry_blocks e =? n then e else recount e n) = recount e n) as Hsame.
  { intros n. destruct (Z.eqb_spec (entry_blocks e) n) as [<-|]; [|done]. by rewrite recount_same. }
  unfold Command.validate_file.
  destruct (Hbyte SLOT_FIRST_TRACK ltac:(done)) as [H1 R1]. destruct (Hbyte SLOT_FIRST_SECTOR ltac:(done)) as [H2 R2].
  rewrite (bind_run (lift _) _ v _ v) by (unfold lift; by rewrite H1).
  rewrite (bind_run (lift _) _ v _ v) by (unfold lift; by rewrite H2).
  destruct (file_count_run fuel v C F (byte_at e SLOT_FIRST_TRACK) (byte_at e SLOT_FIRST_SECTOR) 0)
    as (l & rc & v1 & Hrun & Hf & Hd1); [done..|lia|lia|done|lia|lia|].
  rewrite (bind_run _ _ _ _ _ Hrun). change (0 + Z.of_nat (length l)) with (Z.of_nat (length l)).
  destruct (Z.eqb_spec rc CBMDOS_IPE_OK) as [->|Hrc]; cbn [negb].
  2: { eexists (Some rc, _, (0, 0)), l, v1. split; [done|]. split; [|done]. split; [done|].
       pose proof (checked_file valid C F e l rc Hcl Hty Hf (or_introl Hrc)) as Hch.
       by rewrite (proj2 (Z.eqb_neq _ _) Hrc) in Hch. }
  destruct (Z.eqb_spec (file_type e) CBMDOS_FT_REL) as [Hrel|Hrel].
  2: { eexists (None, _, _), l, v1. split; [done|]. split; [|done]. cbn [outcome_of]. rewrite Hsame.
       exact (checked_file valid C F e l CBMDOS_IPE_OK Hcl Hty Hf (or_intror Hrel)). }
  destruct (Hbyte SLOT_SIDE_TRACK ltac:(done)) as [H3 R3]. destruct (Hbyte SLOT_SIDE_SECTOR ltac:(done)) as [H4 R4].
  rewrite (bind_run (lift _) _ v1 _ v1) by (unfold lift; by rewrite H3).
  rewrite (bind_run (lift _) _ v1 _ v1) by (unfold lift; by rewrite H4).
  pose proof (size_follow C F _ _ l _ Hf) as Hsz.
  destruct (file_count_run fuel v1 C (F ∖ list_to_set l) (byte_at e SLOT_SIDE_TRACK) (byte_at e SLOT_SIDE_SECTOR)
    (Z.of_nat (length l))) as (l' & rc' & v2 & Hrun' & Hf' & Hd2); [done..|lia|lia|lia|lia|lia|].
  unfold Command.chain_outcome. rewrite (bind_run _ _ _ _ _ Hrun').
  assert (F ∖ list_to_set (l ++ l') = F ∖ list_to_set l ∖ list_to_set l') as HF by set_solver.
  pose proof (checked_relative valid C F e l l' rc' Hcl Hrel Hf Hf') as Hch.
  destruct (Z.eqb_spec rc' CBMDOS_IPE_OK) as [->|Hrc]; cbn [negb]; eexists (_, _, (_, _)), (l ++ l'), v2; rewrite HF;
    (split; [done|]); (split; [|done]); cbn [outcome_of Command.stop]; [|by split].
  rewrite Hsame. by rewrite length_app, Nat2Z.inj_add in Hch.
Qed.

Lemma check_run worker fuel v C F e t s : old_dos -> on_disk v C F -> sectors_ok C -> entry_ok e ->
  closed_entry e = true -> (size F < fuel)%nat -> Z.of_nat (size F) < 2 ^ 32 -> exists r l v',
  Command.validate_entry worker fuel 0 (file_type e) e t s v = Some (r, v') /\ outcome_of C F e r l /\
  on_disk v' C (F ∖ list_to_set l).
Proof.
  intros Hold Hd HC He Hcl Hfuel Hm. unfold Command.validate_entry.
  rewrite (bind_run state _ v v v) by done. rewrite (od_geom _ _ _ Hd).
  assert (F ∖ list_to_set [] = F) as E0 by set_solver.
  assert (0 <= file_type e < 8) as Hr by (apply (Z.mod_pos_bound _ 8) || (unfold file_type; change 7 with (Z.ones 3); rewrite Z.land_ones by lia; by apply Z.mod_pos_bound)).
  assert (forall x, ((image_format (geom v0) =? x) = false) -> negb (image_format (geom v0) =? x) = true) as Hneg by (by intros x ->).
  destruct (Z.eqb_spec (file_type e) CBMDOS_FT_CBM) as [H5|H5].
  { rewrite Hneg by (by destruct Hold as [-> | ->]). eexists (_, _, (_, _)), [], v. rewrite E0.
    split; [done|]. split; [|done]. split; [done|]. apply checked_partition; [done|]. unfold CBMDOS_FT_CBM in H5. lia. }
  destruct (Z.eqb_spec (file_type e) CBMDOS_FT_DIR) as [H6|H6].
  { rewrite Hneg by (by destruct Hold as [-> | ->]). eexists (_, _, (_, _)), [], v. rewrite E0.
    split; [done|]. split; [|done]. split; [done|]. apply checked_partition; [done|]. unfold CBMDOS_FT_DIR in H6. lia. }
  destruct ((CBMDOS_FT_SEQ <=? file_type e) && (file_type e <=? CBMDOS_FT_REL)) eqn:H14.
  - apply andb_prop in H14 as [?%Z.leb_le ?%Z.leb_le].
    destruct (blocks_run e He) as [Hb _]. rewrite (bind_run (lift _) _ v _ v) by (unfold lift; by rewrite Hb).
    destruct (entry_byte_at e SLOT_GEOS_TYPE He) as [Hg _]; [done|].
    rewrite (bind_run (lift _) _ v _ v) by (unfold lift; by rewrite Hg).
    change (negb (0 =? 0)) with false. rewrite andb_false_r. cbn [andb].
    apply file_run; try done. 
  - eexists (_, _, (_, _)), [], v. rewrite E0. split; [done|]. split; [|done]. cbn [outcome_of]. rewrite Z.eqb_refl.
    apply checked_other; [done|]. unfold CBMDOS_FT_SEQ, CBMDOS_FT_REL, CBMDOS_FT_CBM, CBMDOS_FT_DIR in *.
    apply andb_false_iff in H14 as [?%Z.leb_gt|?%Z.leb_gt]; lia.
Qed.
(** ** Rewriting an entry *)

Lemma slice_all (m : mem) n : mlen m = n -> slice m 0 n = Some m.
Proof.
  unfold mlen. intros <-. unfold slice, mlen. rewrite !(proj2 (Z.leb_le _ _)) by lia. cbn [andb].
  rewrite Nat2Z.id. change (Z.to_nat 0) with 0%nat. by rewrite drop_0, take_ge.
Qed.


Lemma getb_entry b i k : 0 <= i -> getb (entry b i) k = if (0 <=? k) && (k <? 32) then getb b (i * 32 + k) else None.
Proof.
  intros Hi. unfold getb, entry. destruct (Z.leb_spec 0 k); cbn [andb]; [|done].
  rewrite (proj2 (Z.leb_le 0 (i * 32 + k))) by lia. destruct (Z.ltb_spec k 32).
  - rewrite lookup_take_lt by lia. rewrite lookup_drop. f_equal. lia.
  - apply lookup_ge_None_2. rewrite length_take. lia.
Qed.

Lemma entry_insert b i k x j : mlen b = 256 -> 0 <= i <= 7 -> 0 <= j <= 7 -> 0 <= k < 32 ->
  entry (<[Z.to_nat (i * 32 + k) := x]> b) j = if decide (j = i) then <[Z.to_nat k := x]> (entry b i) else entry b j.
Proof.
  intros Hb Hi Hj Hk. pose proof (proj2 (entry_slice b i Hb Hi)) as Hli. pose proof (proj2 (entry_slice b j Hb Hj)) as Hlj.
  pose proof (proj2 (entry_slice (<[Z.to_nat (i * 32 + k):=x]> b) j ltac:(by rewrite mlen_insert) Hj)) as Hl.
  apply mem_ext; [rewrite Hl; case_decide; by autorewrite with mem|]. intros n.
  rewrite getb_entry, getb_insert by lia. case_decide as E.
  - subst j. rewrite getb_insert, getb_entry by lia. case_bool; cbn; try done; lia.
  - rewrite getb_entry by lia. case_bool; cbn; try done; lia.
Qed.

(** [C'] differs from [C] only in the entries [ps], not in the links. *)
Record rewritten (C C' : disk) (ps : list (Z * Z * Z)) : Prop := {
  rw_other : forall a, (forall j, (a, j) ∉ ps) -> C' a = C a;
  rw_links : forall a, getb (C' a) 0 = getb (C a) 0 /\ getb (C' a) 1 = getb (C a) 1;
  rw_entries : forall p, 0 <= p.2 <= 7 -> p ∉ ps -> entry_at C' p = entry_at C p
}.

Lemma rewritten_refl C ps : rewritten C C ps.
Proof. by split. Qed.

Lemma rewritten_trans C1 C2 C3 ps ps1 ps2 : rewritten C1 C2 ps1 -> rewritten C2 C3 ps2 -> ps1 ⊆ ps -> ps2 ⊆ ps ->
  rewritten C1 C3 ps.
Proof.
  intros [O1 L1 E1] [O2 L2 E2] H1 H2. split.
  - intros a Ha. rewrite O2, O1; [done|intros j Hj; by eapply Ha, H1|intros j Hj; by eapply Ha, H2].
  - intros a. by rewrite !(proj1 (L2 a)), !(proj2 (L2 a)).
  - intros p Hr Hp. rewrite E2, E1; auto.
Qed.

Lemma rewritten_link C C' ps a : rewritten C C' ps ->
  link_track C' a = link_track C a /\ link_sector C' a = link_sector C a.
Proof. intros H. unfold link_track, link_sector. by rewrite !(proj1 (rw_links _ _ _ H a)), !(proj2 (rw_links _ _ _ H a)). Qed.

Lemma path_rewritten C C' ps cur rest : rewritten C C' ps -> path C cur rest -> path C' cur rest.
Proof.
  intros H. revert cur. induction rest as [|a rest IH]; intros cur; cbn; destruct (rewritten_link _ _ _ cur H) as [E1 E2];
    rewrite E1; [done|]. rewrite E2. intros (? & ? & ?). auto.
Qed.

Definition changed (C : disk) (cur : Z * Z) (i : Z) (e' : mem) (C' : disk) : Prop :=
  sectors_ok C' /\ rewritten C C' [(cur, i)] /\ entry_at C' (cur, i) = e'.

Lemma put_changed C C1 cur i e k x : changed C cur i e C1 -> stored cur -> 0 <= i <= 7 -> 2 <= k < 32 -> 
  changed C cur i (put_at e k x) (with_sector C1 cur (<[Z.to_nat (i * 32 + k) := u8 x]> (C1 cur))).
Proof.
  intros (HC & Hrw & He) Hv Hi Hk. destruct (HC cur Hv) as [Hl Hb].
  assert (0 <= u8 x < 256) as Hx by (by apply Z.mod_pos_bound).
  split; [|split].
  - intros a Ha. unfold with_sector. case_bool_decide; [|by apply HC]. split; [by autorewrite with mem|].
    by apply Forall_insert.
  - apply (rewritten_trans C C1 _ _ [(cur, i)] [(cur, i)]); [done| |done..]. split.
    + intros a Ha. unfold with_sector. case_bool_decide; [subst|done]. exfalso. apply (Ha i). by constructor.
    + intros a. unfold with_sector. case_bool_decide; [subst|done]. rewrite !getb_insert by lia. split; by case_bool; try lia.
    + intros [a j] Hj Ha. cbn in Hj. unfold with_sector, entry_at. cbn [fst snd]. case_bool_decide; [subst|done].
      rewrite entry_insert by (done || lia). case_decide; [subst|done]. exfalso. apply Ha. by constructor.
  - unfold entry_at, with_sector. cbn [fst snd]. rewrite bool_decide_eq_true_2 by done.
    rewrite entry_insert by (done || lia). rewrite decide_True by done. unfold put_at. f_equal. exact He.
Qed.

(** Two writes to the same sector *)
Lemma on_disk_ext v C C' F : (forall a, C' a = C a) -> on_disk v C F -> on_disk v C' F.
Proof.
  intros HC [? ? ? ? ? (image & ? & ? & Hh) ? ? ?]. split; [done..| |done|done|done]. exists image. split; [done|]. split; [done|].
  intros a Ha. rewrite HC. auto.
Qed.

Lemma changed_refl C cur i : sectors_ok C -> changed C cur i (entry_at C (cur, i)) C.
Proof. intros HC. split; [done|]. split; [apply rewritten_refl|done]. Qed.

Lemma entry_run v d C cur i rest k : sectors_ok C -> standing d C cur i rest -> stored cur -> 0 <= k < 32 ->
  get_entry k (Search v d) = Some (byte_at (entry_at C (cur, i)) k, Search v d).
Proof.
  intros HC [Hbuf _ _ Hsl Hr _ _] Hv Hk. unfold get_entry. rewrite (bind_run state _ _ (Search v d) (Search v d)) by done.
  cbn [dctx]. rewrite Hsl. apply get_dir_run. rewrite Hbuf.
  destruct (entry_byte_at (entry_at C (cur, i)) k) as [<- _]; [by apply entry_ok_at|done|].
  unfold entry_at. cbn [fst snd]. rewrite getb_entry by lia. case_bool; [done|lia..].
Qed.

Lemma set_entry_run v d k x : mlen (dbuffer d) = 256 -> 0 <= dslot d <= 7 -> 0 <= k < 32 ->
  Command.put_entry k x (Search v d) =
  Some (tt, Search v (set_dbuffer (<[Z.to_nat (dslot d * 32 + k) := u8 x]> (dbuffer d)) d)).
Proof.
  intros Hl Hs Hk. unfold Command.put_entry. rewrite (bind_run state _ _ (Search v d) (Search v d)) by done.
  apply put_dir_run. cbn [dctx]. lia.
Qed.

(** The sector of the entry is written back. *)
Lemma rewrite_run v d C F cur i e C1 : on_disk v C F -> stored cur -> changed C cur i e C1 ->
  (forall a, a <> cur -> C1 a = C a) -> dtrack d = cur.1 -> dsector d = cur.2 -> dbuffer d = C1 cur ->
  exists v', Command.rewrite_entry (Search v d) = Some (None, Search v' d) /\ on_disk v' C1 F.
Proof.
  intros Hd Hv (HC1 & _ & _) Hoth Ht Hs Hbuf.
  destruct (write_on_disk v C F cur (C1 cur) Hd Hv) as (v' & Hrun & Hd'); [by apply HC1|].
  exists v'. split.
  - unfold Command.rewrite_entry, write_dir. rewrite (bind_run _ _ _ CBMDOS_IPE_OK (Search v' d)); [done|].
    rewrite (bind_run state _ _ (Search v d) (Search v d)) by done. unfold on_drive. cbn [drv dctx].
    by rewrite Ht, Hs, Hbuf, Hrun.
  - eapply on_disk_ext; [|exact Hd']. intros a. unfold with_sector. case_bool_decide; [by subst|auto].
Qed.

Lemma changed_other C cur i e C1 a : changed C cur i e C1 -> a <> cur -> C1 a = C a.
Proof. intros (_ & H & _) Ha. apply (rw_other _ _ _ H). intros j Hj%list_elem_of_singleton. congruence. Qed.

Lemma standing_changed d C cur i rest e C1 : standing d C cur i rest -> changed C cur i e C1 ->
  standing (set_dbuffer (C1 cur) d) C1 cur i rest.
Proof.
  intros [? ? ? ? ? ? Hq] (_ & Hrw & _). split; try done. by eapply path_rewritten.
Qed.
(** ** One entry after the other *)

Lemma find_stops fuel v d C F cur i rest : on_disk v C F -> sectors_ok C -> standing d C cur i rest ->
  Forall stored (cur :: rest) -> (length (places cur i rest) < fuel)%nat ->
  wp (vdrive_dir_find_next_slot fuel) (fun r s' => exists r',
    r = match r' with Some r' => In_slot <$> r' | None => None end /\ stops_at v d C F cur i rest r' s') (Search v d).
Proof.
  intros Hd HC Hst Hv Hfuel. unfold vdrive_dir_find_next_slot, vdrive_dir_find_next_slot_limited.
  apply wp_bindST. eapply wp_mono; [by apply search_stops|]. intros r [v' d'] Hr.
  destruct r as [r|]; [apply wp_ret; by exists (Some r)|]. apply wp_bindST, wp_state.
  destruct Hr as (Hd' & (Hlen & Hq) & Hun). cbn [dctx] in *. rewrite Hlen. change (find_length query_all <? 0) with false.
  cbv iota. apply wp_ret. exists None. done.
Qed.

Lemma flag_bits x y : 0 <= x -> Z.land x 7 = y -> 0 <= y < 8.
Proof. intros Hx <-. change 7 with (Z.ones 3). rewrite Z.land_ones by lia. by apply Z.mod_pos_bound. Qed.

(** The rounds of the loop that go on to the next entry, and those that do not *)
Definition round (fuel : nat) (t s : Z) (v : vdrive_t) (d : dir_t) (C : disk) (F : gset (Z * Z)) (cur : Z * Z) (i : Z)
    (rest : list (Z * Z)) (m : option (Z * Z * Z * search_t)) : Prop :=
  (exists l e' C' v' d' t' s', m = Command.validate_entries fuel 0 t' s' (Search v' d') /\
     checked valid C F (entry_at C (cur, i)) CBMDOS_IPE_OK l e' /\ on_disk v' C' (F ∖ list_to_set l) /\
     changed C cur i e' C' /\ standing d' C' cur i rest) \/
  (exists l rc t' s' st, m = Some ((rc, t', s'), st) /\ rc <> CBMDOS_IPE_OK /\
     checked valid C F (entry_at C (cur, i)) rc l (entry_at C (cur, i)) /\ on_disk (drv st) C (F ∖ list_to_set l)).

Lemma open_round fuel t s v d C F cur i rest : on_disk v C F -> sectors_ok C -> standing d C cur i rest -> stored cur ->
  ~ unused (entry_at C (cur, i)) -> closed_entry (entry_at C (cur, i)) = false ->
  round fuel t s v d C F cur i rest
    ((Command.put_entry SLOT_TYPE_OFFSET CBMDOS_FT_DEL;;
      let! st := state in
      let (t, s) := (dtrack (dctx st), dsector (dctx st)) in
      let! r := Command.rewrite_entry in
      match r with
      | Some status => mret (status, t, s)
      | None => Command.validate_entries fuel 0 t s
      end) (Search v d)).
Proof.
  intros Hd HC Hst Hv Hun Hcl. left. pose proof Hst as [Hbuf Htr Hse Hsl Hr _ _].
  pose proof (put_changed C C cur i _ SLOT_TYPE_OFFSET CBMDOS_FT_DEL (changed_refl C cur i HC) Hv Hr ltac:(done)) as Hch.
  set (C1 := with_sector _ _ _) in Hch.
  assert (C1 cur = <[Z.to_nat (i * 32 + SLOT_TYPE_OFFSET) := u8 CBMDOS_FT_DEL]> (C cur)) as HC1
    by (unfold C1, with_sector; by rewrite bool_decide_eq_true_2).
  unfold mbind, ST_bind. rewrite (bind_run _ _ _ _ _ (set_entry_run v d SLOT_TYPE_OFFSET _ ltac:(rewrite Hbuf; by apply HC) ltac:(lia) ltac:(done))).
  rewrite Hsl, Hbuf, <- HC1. set (d1 := set_dbuffer _ d).
  rewrite (bind_run state _ _ (Search v d1) (Search v d1)) by done. cbv beta iota zeta. cbn [dctx].
  destruct (rewrite_run v d1 C F cur i _ C1 Hd Hv Hch) as (v1 & Hrun & Hd1); [|done..|].
  { intros a. by eapply changed_other. }
  rewrite (bind_run _ _ _ _ _ Hrun).
  exists [], (put_at (entry_at C (cur, i)) SLOT_TYPE_OFFSET CBMDOS_FT_DEL), C1, v1, d1, (dtrack d1), (dsector d1).
  split; [done|]. split; [by apply checked_open|]. split; [by replace (F ∖ list_to_set []) with F by set_solver|].
  split; [done|]. by eapply standing_changed.
Qed.

Lemma closed_round worker fuel t s v d C F cur i rest : old_dos -> on_disk v C F -> sectors_ok C ->
  standing d C cur i rest -> stored cur -> closed_entry (entry_at C (cur, i)) = true ->
  (size F < fuel)%nat -> Z.of_nat (size F) < 2 ^ 32 ->
  round fuel t s v d C F cur i rest
    ((let! (r, counts) := on_drive (Command.validate_entry worker fuel 0 (file_type (entry_at C (cur, i)))
                                      (entry_at C (cur, i)) t s) in
      let '(status, (t, s)) := r : option Z * (Z * Z) in
      let '(sz, l) := counts : Z * Z in
      match status with
      | Some status => mret (status, t, s)
      | None =>
          if negb (sz =? l) then
            Command.put_entry SLOT_NR_BLOCKS (Z.land l 255);;
            Command.put_entry (SLOT_NR_BLOCKS + 1) (Z.shiftr l 8);;
            let! st := state in
            let (t, s) := (dtrack (dctx st), dsector (dctx st)) in
            let! r := Command.rewrite_entry in
            match r with
            | Some status => mret (status, t, s)
            | None => Command.validate_entries fuel 0 t s
            end
          else Command.validate_entries fuel 0 t s
      end) (Search v d)).
Proof.
  intros Hold Hd HC Hst Hv Hcl Hfuel Hm. pose proof Hst as [Hbuf Htr Hse Hsl Hr _ _].
  assert (entry_ok (entry_at C (cur, i))) as He by (by apply entry_ok_at).
  destruct (check_run worker fuel v C F _ t s Hold Hd HC He Hcl Hfuel Hm) as ([[status [t' s']] [sz n]] & l & v1 & Hrun & Hout & Hd1).
  rewrite (bind_run (on_drive _) _ (Search v d) (status, (t', s'), (sz, n)) (Search v1 d)) by (unfold on_drive; cbn [drv]; by rewrite Hrun).
  cbn [outcome_of] in Hout. destruct status as [rc|].
  { right. destruct Hout as [Hrc Hout]. by exists l, rc, t', s', (Search v1 d). }
  left. destruct (sz =? n); cbn [negb].
  { exists l, (entry_at C (cur, i)), C, v1, d, t', s'. split; [done|]. split; [done|]. split; [done|]. split; [by apply changed_refl|done]. }
  pose proof (put_changed C C cur i _ SLOT_NR_BLOCKS (Z.land n 255) (changed_refl C cur i HC) Hv Hr ltac:(done)) as Hch.
  set (C1 := with_sector _ _ _) in Hch.
  pose proof (put_changed C C1 cur i _ (SLOT_NR_BLOCKS + 1) (Z.shiftr n 8) Hch Hv Hr ltac:(done)) as Hch2.
  set (C2 := with_sector C1 _ _) in Hch2.
  assert (C1 cur = <[Z.to_nat (i * 32 + SLOT_NR_BLOCKS) := u8 (Z.land n 255)]> (C cur)) as HC1
    by (unfold C1, with_sector; by rewrite bool_decide_eq_true_2).
  assert (C2 cur = <[Z.to_nat (i * 32 + (SLOT_NR_BLOCKS + 1)) := u8 (Z.shiftr n 8)]> (C1 cur)) as HC2
    by (unfold C2, with_sector; by rewrite bool_decide_eq_true_2).
  unfold mbind, ST_bind. rewrite (bind_run _ _ _ _ _ (set_entry_run v1 d SLOT_NR_BLOCKS _ ltac:(rewrite Hbuf; by apply HC) ltac:(lia) ltac:(done))).
  rewrite Hsl, Hbuf, <- HC1. set (d1 := set_dbuffer _ d).
  assert (mlen (dbuffer d1) = 256) as Hl1 by (apply Hch, Hv).
  rewrite (bind_run _ _ _ _ _ (set_entry_run v1 d1 (SLOT_NR_BLOCKS + 1) _ Hl1 ltac:(cbn; lia) ltac:(done))).
  change (dslot d1) with (dslot d). change (dbuffer d1) with (C1 cur). rewrite Hsl, <- HC2.
  change (set_dbuffer (C2 cur) d1) with (set_dbuffer (C2 cur) d). set (d2 := set_dbuffer (C2 cur) d).
  rewrite (bind_run state _ _ (Search v1 d2) (Search v1 d2)) by done. cbv beta iota zeta. cbn [dctx].
  destruct (rewrite_run v1 d2 C (F ∖ list_to_set l) cur i _ C2 Hd1 Hv Hch2) as (v2 & Hrun2 & Hd2); [|done..|].
  { intros a. by eapply changed_other. }
  rewrite (bind_run _ _ _ _ _ Hrun2).
  exists l, (recount (entry_at C (cur, i)) n), C2, v2, d2, (dtrack d2), (dsector d2).
  split; [done|]. split; [done|]. split; [done|]. split; [done|]. by eapply standing_changed.
Qed.
Lemma length_places cur rest : length (places cur 7 rest) = (8 * length rest)%nat.
Proof.
  unfold places. rewrite length_app, length_fmap, length_seqZ. change (Z.to_nat (7 - 7)) with 0%nat. cbn [Nat.add].
  induction rest as [|a rest IH]; [done|].
  rewrite bind_cons, length_app, length_fmap, length_seqZ, IH. cbn [length]. lia.
Qed.

Lemma elem_of_places cur i rest p : 0 <= i <= 7 -> p ∈ places cur i rest ->
  p.1 ∈ cur :: rest /\ 0 <= p.2 <= 7 /\ (p.1 = cur -> i < p.2 \/ cur ∈ rest).
Proof.
  intros Hi. unfold places. rewrite elem_of_app, list_elem_of_fmap, list_elem_of_bind.
  intros [(j & -> & Hj%elem_of_seqZ)|(a & Hp & Ha)].
  - cbn. split; [by constructor|]. split; [lia|]. left. lia.
  - apply list_elem_of_fmap in Hp as (j & -> & Hj%elem_of_seqZ). cbn. split; [by constructor|]. split; [lia|].
    intros ->. by right.
Qed.

Lemma NoDup_places cur i rest : NoDup (cur :: rest) -> 0 <= i <= 7 -> NoDup (places cur i rest).
Proof.
  intros [Hcur Hrest]%NoDup_cons Hi. unfold places. apply NoDup_app. split_and!.
  - apply NoDup_fmap; [by intros ?? [=]|apply NoDup_seqZ].
  - intros p (j & -> & Hj)%list_elem_of_fmap (a & (j' & [= -> ->] & _)%list_elem_of_fmap & Ha)%list_elem_of_bind. done.
  - clear Hcur. induction Hrest as [|a rest Ha Hrest IH]; cbn; [constructor|]. apply NoDup_app. split_and!; [| |done].
    + apply NoDup_fmap; [by intros ?? [=]|apply NoDup_seqZ].
    + intros p (j & -> & Hj)%list_elem_of_fmap (a' & (j' & [= -> ->] & _)%list_elem_of_fmap & Ha')%list_elem_of_bind. done.
Qed.

Lemma checked_all_skip P C F es es1 rc l es1' : Forall unused es -> checked_all P C F es1 rc l es1' ->
  checked_all P C F (es ++ es1) rc l (es ++ es1').
Proof.
  intros Hun Hc. induction Hun as [|e es He _ IH]; cbn; [done|].
  apply (checked_cons P C F e (es ++ es1) rc [] l e (es ++ es1')); [by constructor|].
  by replace (F ∖ list_to_set []) with F by set_solver.
Qed.

Lemma checked_all_ext P C C' F es rc l es' : (forall a, a ∈ F -> P a ->
    getb (C' a) 0 = getb (C a) 0 /\ getb (C' a) 1 = getb (C a) 1) ->
  checked_all P C F es rc l es' -> checked_all P C' F es rc l es'.
Proof.
  intros HC Hc. induction Hc as [| |]; [constructor| |].
  - eapply checked_cons; [by eapply checked_ext|]. apply IHHc. intros a Ha. apply HC. set_solver.
  - eapply checked_stop; [done|]. by eapply checked_ext.
Qed.

(** What the loop makes of the entries behind entry [i] of [cur] *)
Definition validated (C : disk) (F : gset (Z * Z)) (ps : list (Z * Z * Z)) (r : Z * Z * Z) (st : search_t) : Prop :=
  exists l C', checked_all valid C F (entry_at C <$> ps) r.1.1 l (entry_at C' <$> ps) /\
    on_disk (drv st) C' (F ∖ list_to_set l) /\ sectors_ok C' /\ rewritten C C' ps.

Lemma fmap_rewritten C C' (ps ps' : list (Z * Z * Z)) : rewritten C C' ps' -> (forall p, p ∈ ps -> 0 <= p.2 <= 7 /\ p ∉ ps') ->
  entry_at C' <$> ps = entry_at C <$> ps.
Proof.
  intros Hrw Hps. apply list_fmap_ext. intros k p Hp%list_elem_of_lookup_2. destruct (Hps p Hp). by apply (rw_entries _ _ _ Hrw).
Qed.

Lemma validated_next C F sk cur i ps l e' C1 r st : NoDup (sk ++ (cur, i) :: ps) ->
  (forall p, p ∈ sk ++ (cur, i) :: ps -> 0 <= p.2 <= 7) ->
  Forall (fun p => unused (entry_at C p)) sk -> checked valid C F (entry_at C (cur, i)) CBMDOS_IPE_OK l e' ->
  changed C cur i e' C1 -> validated C1 (F ∖ list_to_set l) ps r st ->
  validated C F (sk ++ (cur, i) :: ps) r st.
Proof.
  intros Hnd Hr Hsk Hc (HC1 & Hrw & He') (l2 & C2 & Hall & Hd2 & HC2 & Hrw2).
  apply NoDup_app in Hnd as (_ & Hdis & [Hnin _]%NoDup_cons).
  assert (rewritten C C2 ((cur, i) :: ps)) as Hrw12.
  { eapply rewritten_trans; [exact Hrw|exact Hrw2| |]; intros p; rewrite ?list_elem_of_singleton, elem_of_cons; tauto. }
  assert (entry_at C1 <$> ps = entry_at C <$> ps) as Eps.
  { eapply fmap_rewritten; [exact Hrw|]. intros p Hp. split; [apply Hr; rewrite elem_of_app, elem_of_cons; tauto|].
    intros ->%list_elem_of_singleton. done. }
  assert (entry_at C2 (cur, i) = e') as Ee.
  { rewrite <- He'. apply (rw_entries _ _ _ Hrw2); [|done]. apply Hr. rewrite elem_of_app, elem_of_cons. tauto. }
  assert (entry_at C2 <$> sk = entry_at C <$> sk) as Esk.
  { eapply fmap_rewritten; [exact Hrw12|]. intros p Hp. split; [apply Hr; rewrite elem_of_app; tauto|by apply Hdis]. }
  exists (l ++ l2), C2. split; [|split; [|split; [done|]]].
  - rewrite !fmap_app, !fmap_cons, Esk, Ee. apply checked_all_skip; [by apply Forall_fmap|].
    apply checked_cons; [done|]. rewrite <- Eps.
    eapply checked_all_ext; [|exact Hall]. intros a _ _. destruct (rw_links _ _ _ Hrw a). by split.
  - by replace (F ∖ list_to_set (l ++ l2)) with (F ∖ list_to_set l ∖ list_to_set l2) by set_solver.
  - eapply rewritten_trans; [apply (rewritten_refl C [])|exact Hrw12|intros p ?%not_elem_of_nil; done|].
    intros p Hp. apply elem_of_app. by right.
Qed.

Lemma round_at fuel t s v d C F v' d' cur' i' rest' : old_dos -> on_disk v' C F -> sectors_ok C ->
  standing d' C cur' i' rest' -> stored cur' -> ~ unused (entry_at C (cur', i')) ->
  vdrive_dir_find_next_slot fuel (Search v d) = Some (Some (In_slot (entry_at C (cur', i'))), Search v' d') ->
  (size F < fuel)%nat -> Z.of_nat (size F) < 2 ^ 32 ->
  round fuel t s v' d' C F cur' i' rest' (Command.validate_entries (S fuel) 0 t s (Search v d)).
Proof.
  intros Hold Hd HC Hst Hv Hun Hfind Hfuel Hm. cbn [Command.validate_entries]. rewrite (bind_run _ _ _ _ _ Hfind).
  cbn [Command.entry_bytes]. rewrite (bind_run (mret _) _ _ (entry_at C (cur', i')) (Search v' d')) by done.
  rewrite (bind_run _ _ _ _ _ (entry_run v' d' C cur' i' rest' SLOT_TYPE_OFFSET HC Hst Hv ltac:(done))).
  destruct (negb (Z.land (byte_at (entry_at C (cur', i')) SLOT_TYPE_OFFSET) CBMDOS_FT_CLOSED =? 0)) eqn:Hcl.
  - by apply closed_round.
  - by apply open_round.
Qed.
Lemma validated_end C F ps t s st : on_disk (drv st) C F -> sectors_ok C ->
  Forall (fun p => unused (entry_at C p)) ps -> validated C F ps (CBMDOS_IPE_OK, t, s) st.
Proof.
  intros Hd HC Hun. exists [], C. replace (F ∖ list_to_set []) with F by set_solver.
  split; [|split; [done|split; [done|apply rewritten_refl]]]. cbn [fst snd].
  rewrite <- (app_nil_r (entry_at C <$> ps)). apply checked_all_skip; [by apply Forall_fmap|constructor].
Qed.

Lemma entries_on_disk fuel : forall v d C F cur i rest t s, old_dos -> on_disk v C F -> sectors_ok C ->
  standing d C cur i rest -> Forall stored (cur :: rest) -> NoDup (cur :: rest) ->
  (S (length (places cur i rest) + size F) < fuel)%nat -> Z.of_nat (size F) < 2 ^ 32 ->
  wp (Command.validate_entries fuel 0 t s) (validated C F (places cur i rest)) (Search v d).
Proof.
  induction fuel as [|fuel IH]; intros v d C F cur i rest t s Hold Hd HC Hst Hv Hnd Hfuel Hm; [lia|].
  pose proof (find_stops fuel v d C F cur i rest Hd HC Hst Hv ltac:(lia)) as Hfind.
  apply wp_run in Hfind as (r & [v1 d1] & Hfind & r' & -> & Hd1 & Hr). cbn [drv dctx] in *.
  pose proof (NoDup_places cur i rest Hnd (st_range _ _ _ _ _ Hst)) as Hndp.
  assert (forall p, p ∈ places cur i rest -> 0 <= p.2 <= 7) as Hrange.
  { intros p Hp. apply (elem_of_places cur i rest p (st_range _ _ _ _ _ Hst) Hp). }
  destruct r' as [[e|]|]; [|done|].
  2: { apply wp_eq with (CBMDOS_IPE_OK, t, s) (Search v1 d1); [|apply validated_end; [exact Hd1|exact HC|exact (proj2 Hr)]].
       cbn [Command.validate_entries]. by rewrite (bind_run _ _ _ _ _ Hfind). }
  destruct Hr as (sk & cur' & i' & rest' & pre & -> & Hun & Hst1 & Hpl & Hsp & _ & Hsk & _).
  assert (Forall stored (cur' :: rest') /\ NoDup (cur' :: rest')) as [Hv1 Hnd1].
  { rewrite Hsp in Hv, Hnd. apply Forall_app in Hv as [_ ?]. by apply NoDup_app in Hnd as (_ & _ & ?). }
  rewrite Hpl in Hndp, Hrange, Hfuel |- *. rewrite length_app in Hfuel. cbn [length] in Hfuel.
  destruct (round_at fuel t s v d C F v1 d1 cur' i' rest' Hold Hd1 HC Hst1 (Forall_inv Hv1) Hun Hfind ltac:(lia) Hm)
    as [(l & e' & C1 & v2 & d2 & t2 & s2 & Hrun & Hc & Hd2 & Hch & Hst2)|(l & rc & t2 & s2 & st & Hrun & Hrc & Hc & Hd2)].
  - unfold wp. rewrite Hrun. assert (size (F ∖ list_to_set l) <= size F)%nat by (apply subseteq_size; set_solver).
    apply wp_mono with (validated C1 (F ∖ list_to_set l) (places cur' i' rest')).
    + apply IH; [done|done|apply Hch|done|done|done|lia|lia].
    + intros r st. by apply (validated_next C F sk cur' i' _ l e' C1 r st).
  - eapply wp_eq; [exact Hrun|]. exists l, C. rewrite !fmap_app, !fmap_cons. cbn [fst snd].
    split; [|split; [exact Hd2|split; [done|apply rewritten_refl]]].
    apply checked_all_skip; [by apply Forall_fmap|]. by apply checked_stop.
Qed.
(** ** A whole directory *)

Lemma upd_geom_same f v : f (geom v) = geom v -> upd_geom f v = Some (tt, v).
Proof. intros Hf. unfold upd_geom, modify. rewrite Hf. by destruct v. Qed.

Lemma header_eta g : set_Header_Track (Header_Track g) (set_Header_Sector (Header_Sector g) g) = g.
Proof. by destruct g. Qed.

Definition header : Z * Z := (Header_Track (geom v0), Header_Sector (geom v0)).

(** The link of the header leads to the directory. *)
Definition header_link (C : disk) : Prop :=
  link_track C header = Dir_Track (geom v0) /\ link_sector C header = Dir_Sector (geom v0).

Lemma insert_same (m : mem) i x : getb m i = Some x -> <[Z.to_nat i := x]> m = m.
Proof. intros [_ H]%getb_Some. by apply list_insert_id. Qed.

Lemma first_slot_run v d C F rest : old_dos -> on_disk v C F -> sectors_ok C -> stored header -> header_link C ->
  path C header rest -> mlen (dbuffer d) = 256 -> exists d',
  vdrive_dir_find_first_slot (str "*" ++ [0]) 1 0 (Search v d) = Some (tt, Search (set_image_mode 0 v) d') /\
  standing d' C header 7 rest.
Proof.
  intros Hold Hd HC Hv [Hl1 Hl2] Hpath Hb. pose proof (od_geom _ _ _ Hd) as Hg.
  destruct (link_range C header HC Hv) as (H0 & H1 & Hr0 & Hr1).
  unfold vdrive_dir_find_first_slot, set_pattern. change (0 <? 1) with true. cbv iota. unfold mbind, ST_bind.
  assert (Cbmdos.cbmdos_dir_slot_create (str "*" ++ [0]) 1 = Some (pattern_of (str "*"))) as Hpat by reflexivity.
  set (d1 := set_time_low 0 (set_time_high 0xffffffff (set_find_length 1 (set_find_type 0
    (set_find_nslot (pattern_of (str "*")) d))))).
  rewrite (bind_run _ _ _ tt (Search v (set_find_length 1 (set_find_type 0 (set_find_nslot (pattern_of (str "*")) d))))).
  2: { unfold bindST, lift. by rewrite Hpat. }
  rewrite (bind_run _ _ _ _ _ (upd_dir_run _ v _)). fold d1. unfold load_header, mbind, ST_bind.
  rewrite (bind_run state _ _ (Search v d1) (Search v d1)) by done. cbn [drv].
  rewrite (bind_run _ _ _ _ _ (upd_dir_run _ v d1)). rewrite Hg.
  set (d2 := set_dtrack _ _). 
  rewrite (bind_run _ _ _ _ _ (read_dir_at v C F d2 header Hd Hv eq_refl eq_refl Hb)).
  set (v1 := set_image_mode 0 v). set (d3 := set_dbuffer (C header) d2).
  rewrite (bind_run state _ _ (Search v1 d3) (Search v1 d3)) by done. cbn [drv].
  change (geom v1) with (geom v). rewrite Hg.
  assert ((image_format (geom v0) =? VDRIVE_IMAGE_FORMAT_NP) = false) as -> by (by destruct Hold as [-> | ->]).
  cbn [negb]. rewrite <- Hl1, <- Hl2. destruct (HC header Hv) as [Hlen _].
  rewrite (bind_run _ _ _ _ _ (put_dir_run v1 d3 0 (link_track C header) ltac:(cbn [dbuffer d3 set_dbuffer]; lia))).
  cbn [dbuffer d3 set_dbuffer]. unfold u8. rewrite Z.mod_small by lia. change (Z.to_nat 0) with (Z.to_nat 0).
  rewrite (insert_same _ 0) by done. rewrite put_dir_run by (cbn; lia). cbn [dbuffer set_dbuffer]. unfold u8.
  rewrite Z.mod_small by lia. rewrite (insert_same _ 1) by done.
  eexists. split; [done|]. by split.
Qed.

Lemma worker_on_disk fuel v C F rest : old_dos -> on_disk v C F -> sectors_ok C -> stored header -> header_link C ->
  path C header rest -> Forall stored rest -> NoDup (header :: rest) ->
  (S (8 * length rest + size F) < fuel)%nat -> Z.of_nat (size F) < 2 ^ 32 ->
  wp (Command.vdrive_command_validate_worker fuel 0 header.1 header.2)
    (fun r v' => validated C F (places header 7 rest) r (Search v' Command.blank_dir)) v.
Proof.
  intros Hold Hd HC Hv Hlink Hpath Hvr Hnd Hfuel Hm. pose proof (od_geom _ _ _ Hd) as Hg.
  unfold Command.vdrive_command_validate_worker, Command.in_directory, mbind, ST_bind.
  rewrite (wp_bindST state). apply wp_state. rewrite Hg.
  apply wp_bindST. apply wp_eq with tt v.
  { apply upd_geom_same. rewrite Hg. exact (header_eta (geom v0)). }
  destruct (first_slot_run v Command.blank_dir C F rest Hold Hd HC Hv Hlink Hpath) as (d & Hrun & Hst); [done|].
  pose proof (length_places header rest) as Hlen.
  pose proof (entries_on_disk fuel (set_image_mode 0 v) d C F header 7 rest 0 0 Hold ltac:(by apply on_disk_mode)
    HC Hst ltac:(by constructor) Hnd ltac:(rewrite Hlen; lia) Hm) as Hall.
  apply wp_run in Hall as (r & st & Hent & l & C' & Hch & Hd' & HC' & Hrw). apply wp_bindST.
  apply wp_eq with r (drv st).
  { unfold Command.with_dir. rewrite (bind_run _ _ _ _ _ Hrun). by rewrite Hent. }
  pose proof (od_geom _ _ _ Hd') as Hg'. apply wp_bindST. apply wp_eq with tt (drv st).
  { apply upd_geom_same. rewrite Hg'. exact (header_eta (geom v0)). }
  apply wp_ret. by exists l, C'.
Qed.
End validation.

(** ** The map is made anew *)

Lemma follow_path valid C F t s l : follow valid C F t s l CBMDOS_IPE_OK -> t <> 0 ->
  exists rest, l = (t, s) :: rest /\ path C (t, s) rest.
Proof.
  intros Hf. remember CBMDOS_IPE_OK as rc eqn:Hrc. induction Hf as [| | |F t s l rc Ht Hv Hin Hf IH]; try done.
  intros _. exists l. split; [done|]. destruct (Z.eq_dec (link_track C (t, s)) 0) as [E|E].
  - rewrite E in Hf. inversion Hf; subst; done.
  - destruct (IH Hrc E) as (rest & -> & Hp). by split_and!.
Qed.

Section rebuild.
Context {platform : Platform}.
Variables (v0 : vdrive_t) (type : Z).
Hypothesis valid_bam : forall a, valid type a -> bam_addr (image_format (geom v0)) a.1 a.2.

Abbreviation sectors := (partition_sectors v0).
Abbreviation H := (header v0).

(** A disk of a 1541 or 2040: its map lies in the header *)
Record old_disk : Prop := {
  ol_format : old_dos v0;
  ol_partition : 1 <= Part_Start (geom v0) <= Part_End (geom v0);
  ol_end : Part_End (geom v0) <= last_track (image_format (geom v0));
  ol_inv : inv v0;
  ol_bam : (Bam_Track (geom v0), Bam_Sector (geom v0)) = H;
  ol_header : stored v0 type H;
  ol_place : getb (bam_tracks (bamc v0)) 0 = Some H.1 /\ getb (bam_sectors (bamc v0)) 0 = Some H.2
}.
Hypothesis Hold : old_disk.

Lemma header_range : 1 <= H.1 < 256 /\ 0 <= H.2 < 256.
Proof.
  destruct (valid_bam H (proj1 (ol_header Hold))) as [Ht Hs].
  destruct (ol_format Hold) as [E|E]; rewrite E in Ht, Hs; unfold last_track, map_bytes in *; eval_tests_in Ht; eval_tests_in Hs; lia.
Qed.

Lemma partition_small : (size sectors < 2000)%nat.
Proof.
  apply Nat.le_lt_trans with (size (list_to_set (addresses (image_format (geom v0))) : gset (Z * Z))).
  - apply subseteq_size. intros a Ha%elem_of_partition. apply elem_of_list_to_set. destruct a as [t s].
    apply elem_of_addresses. destruct Ha as [Ht Hs]. cbn in Ht, Hs. pose proof (ol_end Hold). pose proof (ol_partition Hold).
    split; [lia|]. destruct (spt_run v0 t (ol_inv Hold)) as (_ & _ & _ & H8). lia.
  - destruct (ol_format Hold) as [E|E]; rewrite E; apply Nat.ltb_lt; vm_compute; reflexivity.
Qed.

Lemma od_clean v C F : on_disk v0 type true v C F -> on_disk v0 type false v C F.
Proof. intros [? ? ? ? ? ? ? ? ?]. by split. Qed.
Lemma od_dirty v C F : on_disk v0 type false v C F -> getb (bam_state (bamc v)) 0 = Some 1 -> on_disk v0 type true v C F.
Proof. intros [? ? ? ? ? ? ? ? ?] ?. by split. Qed.

Lemma bam_256 v C F d : on_disk v0 type d v C F -> bam_bytes (image_format (geom v)) = 256.
Proof. intros Hd. rewrite (od_geom _ _ _ _ _ _ Hd). by destruct (ol_format Hold) as [E|E]; rewrite E. Qed.

(** A block that is to be written goes to its sector. *)
Lemma dirty_block_run v b v1 t s : bam_ok v b -> mlen b = 256 -> getb (bam_state (bamc v)) 0 = Some 1 ->
  getb (bam_tracks (bamc v)) 0 = Some t -> getb (bam_sectors (bamc v)) 0 = Some s -> 0 <= t < 256 -> 0 <= s < 256 ->
  VDrive.vdrive_write_sector b t s v = Some (CBMDOS_IPE_OK, v1) ->
  bam (bamc v1) = Some b -> bam_state (bamc v1) = bam_state (bamc v) ->
  write_bam_block 0 v = Some (None, with_bam b (<[Z.to_nat 0 := 0]> (bam_state (bamc v))) v1).
Proof.
  intros Hok Hlen Hst Ht Hs Hr1 Hr2 Hrun Hb1 Hs1. unfold write_bam_block, get_state, get_track, get_sector.
  rewrite (bind_run _ _ v 1 v) by (rewrite (bind_run state _ v v v) by done; unfold lift; by rewrite Hst).
  change (0 <? 1) with true. cbv iota. rewrite (bind_run state _ v v v) by done.
  rewrite (bind_run (lift _) _ v b v) by (unfold lift; by rewrite (bo_bam _ _ Hok)).
  rewrite (bind_run (lift _) _ v b v) by (unfold lift; by rewrite slice_all).
  rewrite (bind_run _ _ v t v) by (rewrite (bind_run state _ v v v) by done; unfold lift; by rewrite Ht).
  rewrite (bind_run _ _ v s v) by (rewrite (bind_run state _ v v v) by done; unfold lift; by rewrite Hs).
  unfold u32. rewrite !Z.mod_small by lia. rewrite (bind_run _ _ _ _ _ Hrun). change (negb (CBMDOS_IPE_OK =? 0)) with false.
  cbv iota. unfold mbind, ST_bind. rewrite <- Hs1.
  rewrite (bind_run _ _ v1 tt (with_bam b (<[Z.to_nat 0 := 0]> (bam_state (bamc v1))) v1)); [done|].
  apply (put_state_run v1 b); [exact Hb1|]. by rewrite Hs1, (bo_state _ _ Hok).
Qed.

(** The block of the map goes to the sector of the header. *)
Lemma write_bam_on_disk v C F : on_disk v0 type true v C F -> exists b v',
  bam (bamc v) = Some b /\ free_set (image_format (geom v0)) b = F /\
  vdrive_bam_write_bam v = Some (CBMDOS_IPE_OK, v') /\ bam (bamc v') = Some b /\
  on_disk v0 type false v' (with_sector C H b) F.
Proof.
  intros Hd. destruct (od_bam _ _ _ _ _ _ Hd) as (b & [Hok Hc] & HF). pose proof (bam_256 _ _ _ _ Hd) as H256.
  pose proof (bo_bam _ _ Hok) as Hb. pose proof (od_state _ _ _ _ _ _ Hd eq_refl) as Hst.
  assert (mlen b = 256) as Hlen by (by rewrite (bo_len _ _ Hok)).
  destruct (write_on_disk v0 type false v C F H b (od_clean _ _ _ Hd) (ol_header Hold) Hlen) as (v1 & Hrun & Hd1).
  destruct header_range as [Hr1 Hr2].
  exists b. pose proof (od_bam _ _ _ _ _ _ Hd1) as (b1 & [Hok1 Hc1] & HF1).
  assert (bam (bamc v1) = Some b /\ bam_state (bamc v1) = bam_state (bamc v)) as [Hb1 Hs1].
  { destruct (od_image _ _ _ _ _ _ Hd) as (image & Hfd & _ & Hhas).
    destruct (write_run v image H.1 H.2 b) as (image' & Hrun' & _); [by exists b|done|apply (Hhas H (ol_header Hold))|done|].
    rewrite Hrun in Hrun'. injection Hrun' as ->. done. }
  rewrite (bo_bam _ _ Hok1) in Hb1. injection Hb1 as ->.
  set (st := <[Z.to_nat 0 := 0]> (bam_state (bamc v))).
  exists (with_bam b st v1). split; [done|]. split; [done|].
  pose proof (bo_state _ _ Hok) as Hls.
  destruct (ol_place Hold) as [Hpt Hps].
  assert (bam_tracks (bamc v) = bam_tracks (bamc v0) /\ bam_sectors (bamc v) = bam_sectors (bamc v0)) as [Et Es]
    by (split; apply Hd).
  assert (write_bam_block 0 v = Some (None, with_bam b st v1)) as Hblock.
  { apply (dirty_block_run v b v1 H.1 H.2); try done; rewrite ?Et, ?Es; try done; [lia|apply Hok1]. }
  split.
  - unfold vdrive_bam_write_bam. rewrite (bind_run state _ v v v) by done. rewrite Hb.
    rewrite (od_geom _ _ _ _ _ _ Hd), (bo_size _ _ Hok), H256.
    assert ((image_format (geom v0) =? VDRIVE_IMAGE_FORMAT_1581) = false /\ has_bam (image_format (geom v0)) = true) as [-> ->]
      by (by destruct (ol_format Hold) as [E|E]; rewrite E).
    unfold mbind, ST_bind. rewrite (bind_run (mret tt) _ v tt v) by done.
    rewrite (bind_run _ _ v None (with_bam b st v1)); [done|]. change (Z.to_nat (Z.shiftr 256 8)) with 1%nat.
    cbn [for_]. by rewrite (bind_run _ _ _ _ _ Hblock).
  - split; [done|]. apply (on_disk_frame v0 type false v1 _ _ F F b); [exact Hd1|unfold frame, erase; cbn; by rewrite (bo_bam _ _ Hok1)| |done|done|done|apply (od_free _ _ _ _ _ _ Hd)].
    split; [|exact Hc1].
    destruct Hok1 as [O1 O2 O3 O4 O5 O6 O7 O8]. split; [exact O1|done|exact O3|exact O4|exact O5|exact O6| |].
    + change (mlen st = VDRIVE_BAM_MAX_STATES). unfold st. by autorewrite with mem.
    + intros i Hi. change (exists x, getb st i = Some x /\ 0 <= x).
      unfold st. rewrite getb_insert by (rewrite Hls; done). case_bool; [by eexists|].
      rewrite <- Hs1. apply O8, Hi.
Qed.

Lemma splice_all (m bs : mem) : mlen m = mlen bs -> splice m 0 bs = Some bs.
Proof.
  unfold mlen. intros Hl. unfold splice, mlen. rewrite !(proj2 (Z.leb_le _ _)) by lia. cbn [andb].
  rewrite drop_ge by lia. by rewrite take_0, app_nil_r.
Qed.

Lemma restored_run old new : mlen old = VDRIVE_BAM_MAX_STATES -> mlen new = VDRIVE_BAM_MAX_STATES ->
  exists st, Command.restored_states old new = Some st /\ mlen st = VDRIVE_BAM_MAX_STATES /\ getb st 0 = getb old 0.
Proof.
  intros Ho Hn. unfold Command.restored_states.
  destruct (getb_is_Some old 8) as [o ->]; [by rewrite Ho|]. destruct (getb_is_Some new 8) as [n ->]; [by rewrite Hn|].
  destruct (slice_run old 0 8) as (low & Hlow & Hl1); [done|done|by rewrite Ho|].
  destruct (slice_run new 9 24) as (high & Hhigh & Hl2); [done|done|by rewrite Hn|].
  cbn [mbind option_bind]. rewrite Hlow, Hhigh. eexists. split; [done|]. split.
  - rewrite !mlen_app, Hl1, Hl2. done.
  - unfold slice in Hlow. case_match; [|done]. injection Hlow as <-.
    change (Z.to_nat 0) with 0%nat. rewrite drop_0. unfold getb. cbn [Z.leb]. change (Z.to_nat 0) with 0%nat.
    unfold mlen in Ho. destruct old as [|x old]; [done|]. done.
Qed.

Lemma restore_on_disk v1 C1 F1 d v C F oldbam : on_disk v0 type false v1 C1 F1 -> on_disk v0 type d v C F ->
  Command.saved_bam v1 = Some oldbam -> exists v',
  Command.restore_bam oldbam (bam_state (bamc v1)) v = Some (tt, v') /\ on_disk v0 type false v' C F1.
Proof.
  intros Hd1 Hd Hsave. destruct (od_bam _ _ _ _ _ _ Hd1) as (b1 & [Hok1 Hc1] & HF1).
  destruct (od_bam _ _ _ _ _ _ Hd) as (b & [Hok Hc] & HF).
  pose proof (bam_256 _ _ _ _ Hd1) as H1. pose proof (bam_256 _ _ _ _ Hd) as H2.
  assert (mlen b1 = 256) as Hl1 by (by rewrite (bo_len _ _ Hok1)).
  assert (mlen b = 256) as Hl by (by rewrite (bo_len _ _ Hok)).
  unfold Command.saved_bam in Hsave. rewrite (bo_bam _ _ Hok1), (bo_size _ _ Hok1), H1, slice_all in Hsave by done.
  injection Hsave as <-.
  destruct (restored_run (bam_state (bamc v1)) (bam_state (bamc v))) as (st & Hst & Hlst & H0); [apply Hok1|apply Hok|].
  exists (with_bam b1 st v). split.
  { unfold Command.restore_bam, update. rewrite (bo_bam _ _ Hok), splice_all by lia. cbn. by rewrite Hst. }
  pose proof (od_geom _ _ _ _ _ _ Hd) as Hg. pose proof (od_geom _ _ _ _ _ _ Hd1) as Hg1.
  assert (bam_inv (with_bam b1 st v) b1) as Hinv.
  { destruct Hok1 as [O1 O2 O3 O4 O5 O6 O7 O8], Hok as [P1 P2 P3 P4 P5 P6 P7 P8]. split; [split|].
    - exact P1.
    - done.
    - exact P3.
    - change (mlen b1 = bam_bytes (image_format (geom v))). congruence.
    - exact O5.
    - change (image_format (geom (with_bam b1 st v))) with (image_format (geom v)). intros i lo hi. rewrite Hg.
      destruct (ol_format Hold) as [E|E]; rewrite E; by intros ?%not_elem_of_nil.
    - exact Hlst.
    - change (bam_bytes (image_format (geom (with_bam b1 st v)))) with (bam_bytes (image_format (geom v))).
      rewrite H2. intros i Hi. change (256 / 256) with 1 in Hi. replace i with 0 by lia.
      change (exists x, getb st 0 = Some x /\ 0 <= x). rewrite H0. apply O8. by rewrite H1.
    - change (geom (with_bam b1 st v)) with (geom v). by rewrite Hg, <- Hg1. }
  eapply (on_disk_frame v0 type false v); [|unfold frame, erase; cbn|exact Hinv|done|done|done|apply (od_free _ _ _ _ _ _ Hd1)].
  - destruct d; [by apply od_clean|exact Hd].
  - pose proof (od_version _ _ _ _ _ _ Hd) as E. rewrite <- (od_version _ _ _ _ _ _ Hd1) in E.
    unfold bam_version in E. rewrite (bo_bam _ _ Hok), (bo_bam _ _ Hok1) in E. cbn in E.
    apply (inj Some) in E. rewrite (bo_bam _ _ Hok). cbn. by rewrite E.
Qed.

(** What a validation leaves of the disk [C] with the free sectors [F] *)
Definition rebuilt (C : disk) (F : gset (Z * Z)) (rc : Z) (v' : vdrive_t) : Prop :=
  exists l0 rc0, follow (valid type) C sectors H.1 H.2 l0 rc0 /\
    (rc0 <> CBMDOS_IPE_OK /\ rc = rc0 /\ on_disk v0 type false v' C F \/
     rc0 = CBMDOS_IPE_OK /\ exists rest l C', l0 = H :: rest /\
       checked_all (valid type) C (sectors ∖ list_to_set l0) (entry_at C <$> places H 7 rest) rc l
         (entry_at C' <$> places H 7 rest) /\
       rewritten C C' (places H 7 rest) /\
       (rc <> CBMDOS_IPE_OK /\ on_disk v0 type false v' C' F \/
        rc = CBMDOS_IPE_OK /\ exists b, bam (bamc v') = Some b /\
          on_disk v0 type false v' (with_sector C' H b) (sectors ∖ list_to_set (l0 ++ l)))).

Lemma rest_run fuel v C F l0 : on_disk v0 type true v C F -> sectors_ok v0 type C -> header_link v0 C ->
  follow (valid type) C sectors H.1 H.2 l0 CBMDOS_IPE_OK -> F = sectors ∖ list_to_set l0 ->
  (9 * size sectors + 1 < fuel)%nat ->
  exists rest, l0 = H :: rest /\ wp (Command.vdrive_command_validate_worker fuel 0 H.1 H.2)
    (fun r v' => validated v0 type true C F (places H 7 rest) r (Search v' Command.blank_dir)) v.
Proof.
  intros Hd HC Hlink Hf HF Hfuel. destruct header_range as [Hr _].
  destruct (follow_path _ _ _ _ _ _ Hf ltac:(lia)) as (rest & -> & Hpath). exists rest. split; [done|].
  destruct (follow_sectors _ _ _ _ _ _ _ Hf) as [Hnd Hin]. pose proof (size_follow type _ _ _ _ _ _ Hf) as Hsz.
  pose proof partition_small. rewrite <- HF in Hsz. cbn [length] in Hsz.
  assert (Forall (stored v0 type) rest) as Hvr.
  { apply Forall_forall. intros a Ha. destruct (Hin a) as [Ha1 Ha2]; [apply elem_of_cons; by right|]. by split. }
  apply (worker_on_disk v0 type true valid_bam fuel v C F rest (ol_format Hold) Hd HC (ol_header Hold) Hlink Hpath Hvr Hnd); lia.
Qed.

(** The map is cleared, then all sectors of the partition are free. *)
Lemma fresh_run v C F : on_disk v0 type false v C F -> exists v1 v2, vdrive_bam_clear_all v = Some (tt, v1) /\
  Command.free_partition v1 = Some (tt, v2) /\ on_disk v0 type true v2 C sectors.
Proof.
  intros Hd. destruct (clear_on_disk v0 type false v C F (ol_format Hold) Hd) as (v1 & F1 & Hclear & Hd1 & Hdirty & _).
  pose proof (od_dirty _ _ _ Hd1 Hdirty) as Hd1'.
  assert (wp Command.free_partition (fun _ v' => on_disk v0 type true v' C sectors) v1) as Hfree
    by (apply (free_on_disk v0 type true v1 C F1 Hd1'); apply Hold).
  apply wp_run in Hfree as ([] & v2 & Hfree & Hd2). by exists v1, v2.
Qed.

Lemma rebuild_run fuel v C F : on_disk v0 type false v C F -> sectors_ok v0 type C -> header_link v0 C ->
  (9 * size sectors + 1 < fuel)%nat -> wp (Command.rebuild fuel) (rebuilt C F) v.
Proof.
  intros Hd HC Hlink Hfuel. pose proof (od_geom _ _ _ _ _ _ Hd) as Hg. pose proof (ol_format Hold) as Hfmt.
  destruct header_range as [Hr1 Hr2]. pose proof partition_small as Hsmall.
  assert (Bam_Track (geom v0) = H.1 /\ Bam_Sector (geom v0) = H.2) as [Eb1 Eb2] by (by rewrite <- (ol_bam Hold)).
  assert (exists oldbam, Command.saved_bam v = Some oldbam) as [oldbam Hsave].
  { destruct (od_bam _ _ _ _ _ _ Hd) as (b & [Hok _] & _). exists b. unfold Command.saved_bam.
    rewrite (bo_bam _ _ Hok), (bo_size _ _ Hok). apply slice_all, Hok. }
  unfold Command.rebuild. apply wp_bindST, wp_state. cbv zeta. apply wp_bindST, wp_lift. exists oldbam. split; [done|].
  destruct (fresh_run v C F Hd) as (v1 & v2 & Hclear & Hfree & Hd2).
  unfold mbind, ST_bind. apply wp_bindST. eapply wp_eq; [exact Hclear|]. apply wp_bindST. eapply wp_eq; [exact Hfree|].
  cbv beta. rewrite !Hg.
  assert ((image_format (geom v0) =? VDRIVE_IMAGE_FORMAT_9000) = false) as -> by (by destruct Hfmt as [-> | ->]).
  cbn [negb]. rewrite Eb1, Eb2.
  destruct (file_count_run v0 type true valid_bam fuel v2 C sectors H.1 H.2 0 Hd2 HC) as (l0 & rc0 & v3 & Hrun & Hf & Hd3); [lia..|].
  apply wp_bindST. eapply wp_eq; [exact Hrun|]. cbv beta iota.
  destruct (Z.eqb_spec rc0 CBMDOS_IPE_OK) as [->|Hne]; cbn [negb].
  2: { destruct (restore_on_disk v C F true v3 C _ oldbam Hd Hd3 Hsave) as (v4 & Hres & Hd4).
       apply wp_bindST. eapply wp_eq; [exact Hres|]. apply wp_ret. exists l0, rc0. split; [done|]. by left. }
  unfold Command.reserve_sectors. apply wp_bindST, wp_bindST, wp_state.
  rewrite (od_geom _ _ _ _ _ _ Hd3). cbv zeta.
  set (reserve := if image_format (geom v0) =? VDRIVE_IMAGE_FORMAT_1571 then _ else _).
  assert (reserve = mret tt) as -> by (unfold reserve; by destruct Hfmt as [-> | ->]). apply wp_ret.
  apply wp_bindST. eapply wp_eq; [exact (not_geos v0 type true valid_bam v3 C _ Hfmt Hd3)|].
  unfold Command.reserve_border. change (0 =? 0) with true. cbv iota. apply wp_bindST, wp_ret. cbn [negb].
  assert ((if image_format (geom v0) =? VDRIVE_IMAGE_FORMAT_NP then (BAM_TRACK_NP, BAM_SECTOR_NP)
           else (Header_Track (geom v0), Header_Sector (geom v0))) = (H.1, H.2)) as -> by (by destruct Hfmt as [-> | ->]).
  destruct (rest_run fuel v3 C _ l0 Hd3 HC Hlink Hf eq_refl Hfuel) as (rest & Hl0 & Hw).
  apply wp_bindST. eapply wp_mono; [exact Hw|]. intros [[rc t] s] v4 (l & C' & Hall & Hd4 & HC' & Hrw). cbn [fst snd drv] in *.
  destruct (Z.eqb_spec rc CBMDOS_IPE_OK) as [->|Hne].
  - destruct (write_bam_on_disk v4 C' _ Hd4) as (b & v5 & Hb & _ & Hrun5 & Hb5 & Hd5). apply wp_bindST.
    eapply wp_eq; [exact Hrun5|]. apply wp_ret. exists l0, CBMDOS_IPE_OK. split; [done|]. right. split; [done|].
    exists rest, l, C'. split; [done|]. split; [done|]. split; [done|]. right. split; [done|]. exists b. split; [done|].
    by replace (sectors ∖ list_to_set (l0 ++ l)) with (sectors ∖ list_to_set l0 ∖ list_to_set l) by set_solver.
  - destruct (restore_on_disk v C F true v4 C' _ oldbam Hd Hd4 Hsave) as (v5 & Hres & Hd5).
    apply wp_bindST. eapply wp_eq; [exact Hres|]. apply wp_ret. exists l0, CBMDOS_IPE_OK. split; [done|]. right. split; [done|].
    exists rest, l, C'. split; [done|]. split; [done|]. split; [done|]. by left.
Qed.
End rebuild.

(** C5: validation makes the block availability map that the disk implies, or changes no map.
    For every disk of a 1541 or 2040 whose sectors can be read and whose counts of free sectors are
    correct, whatever its links: the chain of the directory and then
    those of the entries are followed, each sector at most once and only within the partition.
    If a chain leaves the disk or meets a sector already in use, or there is a partition among
    the entries, the status says so and the free sectors are those of before; else the free
    sectors are those of no chain, the new map is written into the header, and of the other
    sectors only entries of the directory have changed: those of files that were not closed are
    deleted, the block counts of the others are the lengths of their chains. *)
Theorem validate_exact {platform : Platform} fuel v type C F :
  (forall a, valid type a -> bam_addr (image_format (geom v)) a.1 a.2) ->
  old_disk v type -> on_disk v type false v C F -> sectors_ok v type C -> header_link v C ->
  (9 * size (partition_sectors v) + 1 < fuel)%nat ->
  exists rc v', Command.rebuild fuel v = Some (rc, v') /\ rebuilt v type C F rc v'.
Proof.
  intros Hvalid Hold Hd HC Hlink Hfuel. apply wp_run, (rebuild_run v type Hvalid Hold fuel v C F); done.
Qed.

(** The map of a 1541 is cleared with the signature of a GEOS disk in it, which lies in the
    entries of tracks 36 to 40: whatever the disk was, behind [vdrive_bam_clear_all], with which
    the validation begins, it is not a GEOS disk any more, and the records of its files are not
    looked for. *)
Theorem clear_forgets_geos {platform : Platform} v b : bam_ok v b -> old_dos v ->
  exists v', vdrive_bam_clear_all v = Some (tt, v') /\ vdrive_bam_isgeos v' = Some (0, v').
Proof.
  intros Hok Hold. destruct (clear_run v v b Hold Hok eq_refl) as (b' & st & Hrun & _ & Hb' & _).
  eexists. split; [exact Hrun|]. set (v' := with_bam b' st v).
  unfold vdrive_bam_isgeos, format. rewrite (bind_run (gets _) _ v' (image_format (geom v)) v') by done.
  unfold in_map in Hb'. destruct Hold as [E|E]; rewrite E in *; eval_tests; [|done].
  specialize (Hb' 0xad). cbn in Hb'. unfold bindST at 1.
  assert (forall k body, (body 0 : ST vdrive_t (option unit)) v' = Some (Some tt, v') ->
    for_ (S k) 0 body v' = Some (Some tt, v')) as Hstop.
  { intros k body Hb. cbn [for_]. by rewrite (bind_run _ _ _ _ _ Hb). }
  rewrite Hstop; [done|]. rewrite (bind_run (lift _) _ v' 71 v') by done.
  by rewrite (bind_run _ _ _ _ _ (get_bam_run v' b' 0xad 0 eq_refl Hb')).
Qed.
End ValidateSpec.

(** ** A concrete disk *)

(** A map in which all sectors are free *)
Definition label_bam : mem :=
  [18; 1; 65; 0] ++
  (seqZ 1 35 ≫= fun t => let n := Geometry.disk_image_sector_per_track DISK_IMAGE_TYPE_D64 t in
     [n; 255; 255; 2 ^ (n - 16) - 1]) ++ replicate 112 0.

(** The disk of the files NOTES and LETTER with this map in its header *)
Definition label_data (i : Z) : Z :=
  if i / 256 =? 357 then nth (Z.to_nat (i mod 256)) label_bam 0 else disk_data 0 255 i.
Definition label_d64 : disk_image_t :=
  DiskImage 0 DISK_IMAGE_DEVICE_FS DISK_IMAGE_TYPE_D64 35 0 84 (Some (File 174848 label_data true)) None 0.
Definition drive_label : vdrive_t :=
  VDrive 8 (Some label_d64) true 0 (geom unit_files)
    (Bamc (Some label_bam) 256 (0 :: replicate 32 (-1)) (18 :: replicate 32 (-1)) (0 :: replicate 32 (-1)))
    (part unit_files) 0 (zeros 2048) 0 0 0.

Lemma label_d64_wf : Image.image_wf label_d64.
Proof.
  split; [reflexivity|apply (bool_decide_eq_true_1 _); vm_compute; reflexivity|reflexivity| |].
  - eexists. split; reflexivity.
  - intros m Hm. discriminate Hm.
Qed.

Lemma bam_ok_label : BamSpec.bam_ok drive_label label_bam.
Proof.
  split; [apply (bool_decide_eq_true_1 _); vm_compute; reflexivity|reflexivity|reflexivity
         |vm_compute; reflexivity|apply (bool_decide_eq_true_1 _); vm_compute; reflexivity| |reflexivity|].
  - intros i lo hi Hin. apply not_elem_of_nil in Hin. destruct Hin.
  - intros i Hi. change (BamSpec.bam_bytes _ / 256) with 1 in Hi.
    exists 0. split; [|lia]. replace i with 0 by lia. reflexivity.
Qed.

Lemma counts_label : BamSpec.counts_ok VDRIVE_IMAGE_FORMAT_1541 label_bam.
Proof.
  intros t c Ht Hc. change (BamSpec.last_track _) with 42 in Ht.
  assert (forallb (fun t => match BamSpec.count_of VDRIVE_IMAGE_FORMAT_1541 t with
    | Some c => bool_decide (getb label_bam c = Some (BamSpec.free_in_track VDRIVE_IMAGE_FORMAT_1541 label_bam t))
    | None => true end) (seqZ 1 42) = true) as Hall by (vm_compute; reflexivity).
  pose proof (Zrange_forallb _ 1 42 Hall t ltac:(lia)) as H. cbv beta in H. rewrite Hc in H. by apply bool_decide_eq_true_1 in H.
Qed.

Lemma covered_label t s : Geometry.valid_address DISK_IMAGE_TYPE_D64 t s -> Image.covered label_d64 t s.
Proof. intros H. split; [exact H|intros m Hm; discriminate Hm]. Qed.

Lemma tracks_label t s : 1 <= t <= 35 -> 0 <= s < AllocSpec.spt drive_label t ->
  Geometry.valid_address DISK_IMAGE_TYPE_D64 t s /\
  (Geometry.disk_image_check_sector label_d64 t s + 1) * 256 <= 174848.
Proof.
  intros Ht Hs.
  assert (forallb (fun t => forallb (fun s => bool_decide (Geometry.valid_address DISK_IMAGE_TYPE_D64 t s /\
      (Geometry.disk_image_check_sector label_d64 t s + 1) * 256 <= 174848))
    (seqZ 0 (AllocSpec.spt drive_label t))) (seqZ 1 35) = true) as Hall by (vm_compute; reflexivity).
  pose proof (Zrange_forallb _ 1 35 Hall t ltac:(lia)) as Hrow.
  apply (bool_decide_eq_true_1 _), (Zrange_forallb _ 0 _ Hrow s). lia.
Qed.

Lemma file_drive_label : ChannelSpec.file_drive drive_label label_d64.
Proof.
  split; [split; [reflexivity|reflexivity|apply label_d64_wf|reflexivity]|reflexivity|vm_compute; congruence
         |reflexivity|split; vm_compute; congruence
         |vm_compute; repeat split; congruence|vm_compute; repeat split; congruence|].
  intros t s Ht Hs. apply covered_label, tracks_label; [exact Ht|exact Hs].
Qed.

Lemma inv_label : AllocSpec.inv drive_label.
Proof. exists label_bam. apply bam_ok_label. Qed.

Lemma valid_bam_label a : ValidateSpec.valid DISK_IMAGE_TYPE_D64 a ->
  BamSpec.bam_addr (image_format (geom drive_label)) a.1 a.2.
Proof. exact (bam_addr_1541 a.1 a.2). Qed.

(** The contents of the disk *)
Definition label_disk (a : Z * Z) : mem := Image.sector_data label_d64 a.1 a.2.

Lemma stored_label a : ValidateSpec.stored drive_label DISK_IMAGE_TYPE_D64 a ->
  ValidateSpec.valid DISK_IMAGE_TYPE_D64 a /\ Image.present label_d64 a.1 a.2.
Proof.
  intros [Hv Hp%ValidateSpec.elem_of_partition]. split; [exact Hv|]. destruct Hp as [Ht Hs].
  eexists. split; [reflexivity|]. apply tracks_label; [exact Ht|exact Hs].
Qed.

Lemma free_label : BamSpec.free_set VDRIVE_IMAGE_FORMAT_1541 label_bam ⊆ ValidateSpec.partition_sectors drive_label.
Proof. apply (bool_decide_eq_true_1 _). vm_compute. reflexivity. Qed.

Lemma on_disk_label : ValidateSpec.on_disk drive_label DISK_IMAGE_TYPE_D64 false drive_label label_disk
  (BamSpec.free_set VDRIVE_IMAGE_FORMAT_1541 label_bam).
Proof.
  split; [reflexivity|reflexivity|reflexivity|reflexivity| | |exact free_label|discriminate|reflexivity].
  - exists label_bam. split; [split; [apply bam_ok_label|apply counts_label]|reflexivity].
  - exists label_d64. split; [apply file_drive_label|]. split; [reflexivity|]. intros a Ha.
    destruct (stored_label a Ha) as [Hv Hp]. apply ChannelSpec.has_data; [apply label_d64_wf|reflexivity| |exact Hp].
    by apply covered_label.
Qed.

Lemma label_data_byte i : 0 <= label_data i < 256.
Proof.
  unfold label_data. destruct (i / 256 =? 357); [|apply disk_data_byte; lia].
  destruct (nth_in_or_default (Z.to_nat (i mod 256)) label_bam 0) as [Hin| ->]; [|lia].
  apply list_elem_of_In in Hin.
  assert (Forall (fun x => 0 <= x < 256) label_bam) as Hall by (apply (bool_decide_eq_true_1 _); vm_compute; reflexivity).
  exact (proj1 (Forall_forall _ _) Hall _ Hin).
Qed.

Lemma sectors_ok_label : ValidateSpec.sectors_ok drive_label DISK_IMAGE_TYPE_D64 label_disk.
Proof.
  intros a _. unfold label_disk, Image.sector_data. change (fd_ label_d64) with (Some (File 174848 label_data true)).
  cbv iota. split; [unfold Image.f_bytes, mlen; by rewrite length_fmap, length_seqZ|].
  apply Forall_fmap, Forall_forall. intros i _. apply label_data_byte.
Qed.

Lemma old_disk_label : ValidateSpec.old_disk drive_label DISK_IMAGE_TYPE_D64.
Proof.
  split; [by left|vm_compute; split; congruence|vm_compute; congruence|apply inv_label|reflexivity| |split; reflexivity].
  split; [vm_compute; repeat split; congruence|]. apply ValidateSpec.elem_of_partition. vm_compute. repeat split; congruence.
Qed.

(** The two files have two sectors and one, the free sectors are the others. *)
Lemma validate_exact_witness : exists v', @Command.rebuild zero_platform 7000 drive_label = Some (0, v') /\
  ValidateSpec.rebuilt drive_label DISK_IMAGE_TYPE_D64 label_disk
    (BamSpec.free_set VDRIVE_IMAGE_FORMAT_1541 label_bam) 0 v'.
Proof.
  destruct (@ValidateSpec.validate_exact zero_platform 7000 drive_label DISK_IMAGE_TYPE_D64 label_disk
    (BamSpec.free_set VDRIVE_IMAGE_FORMAT_1541 label_bam) valid_bam_label old_disk_label on_disk_label sectors_ok_label)
    as (rc & v' & Hrun & Hr); [split; vm_compute; reflexivity|apply Nat.ltb_lt; vm_compute; reflexivity|].
  exists v'. assert (rc = 0) as ->; [|split; [exact Hrun|exact Hr]].
  assert (fst <$> @Command.rebuild zero_platform 7000 drive_label = Some 0) as H0 by (vm_compute; reflexivity).
  rewrite Hrun in H0. injection H0 as ->. reflexivity.
Defined.

(** The same map with the signature of GEOS *)
Definition geos_bam : mem := take 173 label_bam ++ Bam.geosmagic ++ drop (173 + length Bam.geosmagic) label_bam.
Definition drive_geos : vdrive_t := BamSpec.with_bam geos_bam (bam_state (bamc drive_label)) drive_label.

Lemma bam_ok_geos : BamSpec.bam_ok drive_geos geos_bam.
Proof.
  destruct bam_ok_label as [H1 _ H3 _ _ _ H7 H8].
  split; [exact H1|reflexivity|exact H3|vm_compute; reflexivity|apply (bool_decide_eq_true_1 _); vm_compute; reflexivity| |exact H7|exact H8].
  intros i lo hi Hin. apply not_elem_of_nil in Hin. destruct Hin.
Qed.

Lemma clear_forgets_geos_witness : Bam.vdrive_bam_isgeos drive_geos = Some (1, drive_geos) /\
  exists v', @Bam.vdrive_bam_clear_all zero_platform drive_geos = Some (tt, v') /\ Bam.vdrive_bam_isgeos v' = Some (0, v').
Proof.
  split; [vm_compute; reflexivity|]. apply (ValidateSpec.clear_forgets_geos drive_geos geos_bam bam_ok_geos). by left.
Defined.
