(* ===== verification/Gcr.v ===== *)
(** * Group coded recording

    Models [src/lib/vdrive/gcr.c], the encoding of sectors as the flux of a raw track,
    and [fsimage_read_dxx_image] of [src/lib/vdrive/fsimage-dxx.c], which turns the
    sectors of a linear image into raw tracks. The state of the operations that look
    for a sector is the static variable [p] of [gcr_read_sector_header], the position
    in bits where the search left the last track; searches take fuel, one unit for
    every mark on the track. *)

From S2P Require Import Prelude Geometry Image VDrive Bam.

Definition SECTOR_GCR_SIZE_WITH_HEADER : Z := 335.
Definition MAX_GCR_TRACKS : Z := 168.

(** [disk_track_t]: the bytes of a raw track, and how many there are *)
Record disk_track_t := DiskTrack { tdata : option mem; tsize : Z }.

(** [gcr_header_t] *)
Record gcr_header_t := GcrHeader { h_sector : Z; h_track : Z; h_id2 : Z; h_id1 : Z }.

Module Gcr.

(** ** Nibbles and codes *)

Definition GCR_conv_data : mem :=
  [0x0a; 0x0b; 0x12; 0x13; 0x0e; 0x0f; 0x16; 0x17; 0x09; 0x19; 0x1a; 0x1b; 0x0d; 0x1d; 0x1e; 0x15].

Definition From_GCR_conv_data : mem :=
  [0; 0; 0; 0; 0; 0; 0; 0; 0; 8; 0; 1; 0; 12; 4; 5; 0; 0; 2; 3; 0; 15; 6; 7; 0; 9; 10; 11; 0; 13; 14; 0].

Fixpoint to_gcr (n : nat) (i tdest : Z) (source : mem) : option mem :=
  match n with
  | O => Some [u8 tdest]
  | S n =>
      x ← getb source 0;
      hi ← getb GCR_conv_data (Z.shiftr x 4);
      let tdest := Z.lor (u32 (Z.shiftl tdest 5)) hi in
      lo ← getb GCR_conv_data (Z.land x 0x0f);
      let tdest := Z.lor (u32 (Z.shiftl tdest 5)) lo in
      dest ← to_gcr n (i + 2) tdest (drop 1 source);
      Some (u8 (Z.shiftr tdest i) :: dest)
  end.
Definition gcr_convert_4bytes_to_GCR (source : mem) : option mem := to_gcr 4 2 0 source.

Fixpoint from_gcr (n : nat) (i tdest : Z) (source : mem) : option mem :=
  match n with
  | O => Some []
  | S n =>
      x ← getb source 0;
      let tdest := Z.lor tdest (u32 (Z.shiftl x i)) in
      hi ← getb From_GCR_conv_data (Z.land (Z.shiftr tdest 16) 0x1f);
      let tdest := u32 (Z.shiftl tdest 5) in
      lo ← getb From_GCR_conv_data (Z.land (Z.shiftr tdest 16) 0x1f);
      dest ← from_gcr n (i + 2) (u32 (Z.shiftl tdest 5)) (drop 1 source);
      Some (Z.lor (u8 (Z.shiftl hi 4)) lo :: dest)
  end.
Definition gcr_convert_GCR_to_4bytes (source : mem) : option mem :=
  x ← getb source 0; from_gcr 4 5 (u32 (Z.shiftl x 13)) (drop 1 source).

(** ** Writing a formatted sector

    The state is the memory of the raw track, [data] a position in it. *)

Definition memset (data c n : Z) : ST mem unit :=
  update (fun m => splice m data (replicate (Z.to_nat n) c)).

Definition put_4bytes (buf : mem) (data : Z) : ST mem unit :=
  let! g := lift (gcr_convert_4bytes_to_GCR buf) in update (fun m => splice m data g).

(** The checksum and the position behind the [n] groups of four bytes *)
Fixpoint put_groups (n : nat) (buffer : mem) (i chksum data : Z) : ST mem (Z * Z) :=
  match n with
  | O => mret (chksum, data)
  | S n =>
      let! b := lift (slice buffer i 4) in
      put_4bytes b data;;
      put_groups n buffer (i + 4) (foldl Z.lxor chksum b) (data + 5)
  end.

Definition gcr_convert_sector_to_GCR (buffer : mem) (data : Z) (header : gcr_header_t)
    (gap sync error_code : Z) : ST mem unit :=
  let idm := if error_code =? CBMDOS_FDC_ERR_ID then 0xff else 0 in
  let mark := if error_code =? CBMDOS_FDC_ERR_SYNC then 0x55 else 0xff in
  memset data mark 5;;
  let data := data + 5 in
  let chksum := if error_code =? CBMDOS_FDC_ERR_HCHECK then 0xff else 0 in
  let chksum := Z.lxor chksum (Z.lxor (Z.lxor (Z.lxor (Z.lxor (h_sector header) (h_track header))
                  (h_id2 header)) (h_id1 header)) idm) in
  put_4bytes [if error_code =? CBMDOS_FDC_ERR_HEADER then 0xff else 0x08; chksum;
              h_sector header; h_track header] data;;
  put_4bytes [h_id2 header; Z.lxor (h_id1 header) idm; 0x0f; 0x0f] (data + 5);;
  let data := data + 10 + gap in
  memset data mark sync;;
  let data := data + sync in
  let chksum := if error_code =? CBMDOS_FDC_ERR_DCHECK then 0xff else 0 in
  let! b := lift (slice buffer 0 3) in
  put_4bytes ((if error_code =? CBMDOS_FDC_ERR_NOBLOCK then 0 else 7) :: b) data;;
  let! (chksum, data) := put_groups 63 buffer 3 (foldl Z.lxor chksum b) (data + 5) in
  let! last := lift (getb buffer 255) in
  put_4bytes [last; Z.lxor chksum last; 0; 0] data.

(** ** Looking for a mark *)

(** [s] bits from position [p] on; [b] holds the byte of the track with the next bit in
    front, [w] the bits before it. *)
Fixpoint find_loop (d : mem) (size : Z) (s : nat) (p b w : Z) : option Z :=
  match s with
  | O => Some (- CBMDOS_FDC_ERR_SYNC)
  | S s =>
      let step w :=
        let p' := if p + 1 >=? size * 8 then 0 else p + 1 in
        if negb (Z.land (Z.lnot p) 7 =? 0) then find_loop d size s (p + 1) (Z.shiftl b 1) w
        else b ← getb d (Z.shiftr p' 3); find_loop d size s p' b w in
      if negb (Z.land b 0x80 =? 0) then step (Z.lor (u32 (Z.shiftl w 1)) 1)
      else if negb (Z.land (Z.lnot w) 0x3ff =? 0) then step (u32 (Z.shiftl w 1))
      else Some p
  end.

Definition gcr_find_sync (raw : disk_track_t) (p s : Z) : option Z :=
  match tdata raw with
  | None => Some (- CBMDOS_FDC_ERR_SYNC)
  | Some d =>
      if tsize raw =? 0 then Some (- CBMDOS_FDC_ERR_SYNC)
      else b ← getb d (Z.shiftr p 3); find_loop d (tsize raw) (Z.to_nat s) p (Z.shiftl b (Z.land p 7)) 0
  end.

(** The next position: the track is a circle. *)
Definition next_byte (size off : Z) : Z := if size <=? off + 1 then 0 else off + 1.

(** [n] bytes from bit [shift] of byte [off] on; [b] holds the rest of that byte. *)
Fixpoint take_bytes (n : nat) (d : mem) (size shift off b : Z) : option (mem * (Z * Z)) :=
  match n with
  | O => Some ([], (off, b))
  | S n =>
      let off := next_byte size off in
      o ← getb d off;
      let (g, b) := if negb (shift =? 0)
                    then (Z.lor b (u8 (Z.shiftr (Z.shiftl o shift) 8)), u8 (Z.shiftl o shift))
                    else (b, o) in
      '(gs, r) ← take_bytes n d size shift off b;
      Some (g :: gs, r)
  end.

Fixpoint take_groups (n : nat) (d : mem) (size shift off b : Z) : option mem :=
  match n with
  | O => Some []
  | S n =>
      '(gcr, (off, b)) ← take_bytes 5 d size shift off b;
      x ← gcr_convert_GCR_to_4bytes gcr;
      xs ← take_groups n d size shift off b;
      Some (x ++ xs)
  end.

Definition gcr_decode_block (raw : disk_track_t) (p : Z) (num : nat) : option mem :=
  d ← tdata raw;
  let shift := Z.land p 7 in
  let off := Z.shiftr p 3 in
  o ← getb d off;
  take_groups num d (tsize raw) shift off (u8 (Z.shiftl o shift)).

(** ** Looking for a sector *)

(** The position of the header (or the negated error), its bytes and the disk id of the
    last header that was found. [p2] is the first mark that was found. *)
Fixpoint header_loop (fuel : nat) (raw : disk_track_t) (sector p2 : Z) (header : mem) (pid : option Z)
    : ST Z (Z * mem * option Z) :=
  match fuel with
  | O => ub
  | S fuel =>
      let! p := state in
      let! p := lift (gcr_find_sync raw p (tsize raw * 8)) in
      modify (fun _ => p);;
      if p2 =? p then mret (if p2 <? 0 then p2 else - CBMDOS_FDC_ERR_HEADER, header, pid)
      else
        let p2 := if p2 <? 0 then p else p2 in
        let! header := lift (gcr_decode_block raw p 2) in
        let! cs := lift (h0 ← getb header 0; h1 ← getb header 1; h2 ← getb header 2; h3 ← getb header 3;
                         h4 ← getb header 4; h5 ← getb header 5;
                         Some (h0, h2, Z.lxor (Z.lxor (Z.lxor (Z.lxor h1 h2) h3) h4) h5, u16 (h4 * 256 + h5))) in
        let '(h0, h2, cs, id) := cs in
        if h0 =? 0x08 then
          if negb (cs =? 0) then mret (- CBMDOS_FDC_ERR_HCHECK, header, Some id)
          else if (sector <? 0) || (h2 =? sector) then mret (p, header, Some id)
          else header_loop fuel raw sector p2 header (Some id)
        else header_loop fuel raw sector p2 header pid
  end.

Definition gcr_read_sector_header (fuel : nat) (raw : disk_track_t) (sector : Z)
    : ST Z (Z * mem * option Z) :=
  header_loop fuel raw sector (- CBMDOS_FDC_ERR_SYNC) [] None.

Definition gcr_find_sector_header (fuel : nat) (raw : disk_track_t) (sector : Z) : ST Z (Z * option Z) :=
  let! (p, _, pid) := gcr_read_sector_header fuel raw sector in mret (p, pid).

(** Error code and disk id; without an id [*id] is as it was. *)
Definition gcr_read_sector_id (fuel : nat) (raw : disk_track_t) (sector : Z) : ST Z (Z * option Z) :=
  let! (p, pid) := gcr_find_sector_header fuel raw sector in
  mret (if p <? 0 then - p else CBMDOS_FDC_ERR_OK, pid).

Definition gcr_read_track_number (fuel : nat) (raw : disk_track_t) : ST Z (Z * option Z) :=
  let! (p, header, _) := gcr_read_sector_header fuel raw (-1) in
  if p <? 0 then mret (- p, None)
  else let! t := lift (getb header 3) in mret (CBMDOS_FDC_ERR_OK, Some t).

(** The position of the block of the sector, or the error: the mark behind the header *)
Definition find_block (fuel : nat) (raw : disk_track_t) (sector id : Z) : ST Z (Z + Z) :=
  let! (p, sid) := gcr_find_sector_header fuel raw sector in
  if p <? 0 then mret (inr (- p))
  else
    let! sid := lift sid in
    if (0 <=? id) && negb (id =? sid) then mret (inr CBMDOS_FDC_ERR_ID)
    else
      let! p := lift (gcr_find_sync raw p (500 * 8)) in
      if p <? 0 then mret (inr (- p)) else mret (inl p).

Definition gcr_read_sector (fuel : nat) (raw : disk_track_t) (data : mem) (sector id : Z) : ST Z (Z * mem) :=
  let! r := find_block fuel raw sector id in
  match r with
  | inr e => mret (e, data)
  | inl p =>
      let! buffer := lift (gcr_decode_block raw p 65) in
      let! (bs, chk, mark) := lift (bs ← slice buffer 1 256; chk ← getb buffer 257; m ← getb buffer 0;
                                    Some (bs, chk, m)) in
      let! data := lift (splice data 0 bs) in
      mret (if negb (mark =? 0x07) then CBMDOS_FDC_ERR_NOBLOCK
            else if negb (foldl Z.lxor chk bs =? 0) then CBMDOS_FDC_ERR_DCHECK else CBMDOS_FDC_ERR_OK, data)
  end.

(** ** Writing a sector *)

(** [gs] from bit [shift] of byte [off] on; [b] holds the bits in front of it. *)
Fixpoint write_bytes (gs : mem) (d : mem) (size shift off b : Z) : option (mem * (Z * Z)) :=
  match gs with
  | [] => Some (d, (off, b))
  | g :: gs =>
      let (x, b) := if negb (shift =? 0)
                    then (u8 (Z.lor b (Z.shiftr g shift)), u8 (Z.shiftr (Z.shiftl g 8) shift))
                    else (g, b) in
      d ← putb d off x;
      write_bytes gs d size shift (next_byte size off) b
  end.

Fixpoint write_groups (n : nat) (buf : mem) (d : mem) (size shift off b : Z) : option (mem * (Z * Z)) :=
  match n with
  | O => Some (d, (off, b))
  | S n =>
      x ← slice buf 0 4;
      gcr ← gcr_convert_4bytes_to_GCR x;
      '(d, (off, b)) ← write_bytes gcr d size shift off b;
      write_groups n (drop 4 buf) d size shift off b
  end.

Definition write_block (d : mem) (size p : Z) (buffer : mem) : option mem :=
  let shift := Z.land p 7 in
  let off := Z.shiftr p 3 in
  o ← getb d off;
  '(d, (off, b)) ← write_groups 65 buffer d size shift off (u8 (Z.land o (Z.shiftr 0xff00 shift)));
  o ← getb d off;
  putb d off (u8 (Z.lor b (Z.land o (Z.shiftr 0xff shift)))).

Definition gcr_write_sector (fuel : nat) (raw : disk_track_t) (data : mem) (sector id : Z)
    : ST Z (Z * disk_track_t) :=
  let! r := find_block fuel raw sector id in
  match r with
  | inr e => mret (e, raw)
  | inl p =>
      let! data := lift (slice data 0 256) in
      let buffer := 7 :: data ++ [foldl Z.lxor 0 data; 0; 0] in
      let! d := lift (d ← tdata raw; write_block d (tsize raw) p buffer) in
      mret (CBMDOS_FDC_ERR_OK, DiskTrack (Some d) (tsize raw))
  end.

(** ** The tracks of a linear image *)

(** What [fsimage_read_dxx_image] carries from track to track: the sector buffer, the
    disk id and the track of the headers, the skew, and [image->gcr] *)
Record flux_t := Flux {
  fx_buffer : mem;
  fx_id1 : Z;
  fx_id2 : Z;
  fx_track : Z;
  fx_offset : Z;
  fx_tracks : list disk_track_t
}.

(** The sectors of a track from [sector] on, one behind the other from [ptr] on; the
    buffer keeps the last sector that was read. *)
Fixpoint put_sectors (n : nat) (image : disk_image_t) (track sector id1 id2 htrack : Z)
    (gap headergap synclen ptr : Z) (buffer : mem) : ST mem (mem * Z) :=
  match n with
  | O => mret (buffer, ptr)
  | S n =>
      let sectors := Geometry.disk_image_check_sector image track sector in
      let! buffer :=
        (if 0 <=? sectors then
           let! (rc, buffer) := lift (f ← fd_ image; Some (Image.util_fpread f buffer 256 (sectors * 256))) in
           let! rf := lift (if rc <? 0 then Some CBMDOS_FDC_ERR_DRIVE
                            else match map_ image with
                                 | Some m => getb m sectors
                                 | None => Some CBMDOS_FDC_ERR_DRIVE
                                 end) in
           gcr_convert_sector_to_GCR buffer ptr (GcrHeader (u8 sector) htrack id2 id1) headergap synclen rf;;
           mret buffer
         else mret buffer) in
      put_sectors n image track (sector + 1) id1 id2 htrack gap headergap synclen
        (ptr + SECTOR_GCR_SIZE_WITH_HEADER + headergap + gap + synclen * 2) buffer
  end.

Definition put_track (half_track : Z) (t : disk_track_t) (fx : flux_t) : option flux_t :=
  if half_track <? MAX_GCR_TRACKS
  then Some (Flux (fx_buffer fx) (fx_id1 fx) (fx_id2 fx) (fx_track fx) (fx_offset fx)
               (<[Z.to_nat half_track := t]> (fx_tracks fx)))
  else None.

(** The second side of a disk whose sides were formatted one by one has its own id, and
    its tracks count from 1. *)
Definition second_side (image : disk_image_t) (fx : flux_t) : option flux_t :=
  let sectors := Geometry.disk_image_check_sector image (BAM_TRACK_1571 + 35) BAM_SECTOR_1571 in
  b ← splice (fx_buffer fx) BAM_ID_1571 [0xa0; 0xa0];
  b ← (if 0 <=? sectors then f ← fd_ image; Some (Image.util_fpread f b 256 (Z.shiftl sectors 8)).2 else Some b);
  id1 ← getb b BAM_ID_1571; id2 ← getb b (BAM_ID_1571 + 1);
  Some (Flux b id1 id2 1 (fx_offset fx) (fx_tracks fx)).

(** The sectors are written to a buffer, which is turned by the skew of the track. *)
Definition format_track (image : disk_image_t) (track : Z) (fx : flux_t) : option (mem * flux_t) :=
  let type := di_type image in
  let track_size := Geometry.disk_image_raw_track_size type track in
  let gap := Geometry.disk_image_gap_size type track in
  '(buffer, ptr, temp) ←
    put_sectors (Z.to_nat (Geometry.disk_image_sector_per_track type track)) image track 0
      (fx_id1 fx) (fx_id2 fx) (fx_track fx) gap (Geometry.disk_image_header_gap_size type track)
      (Geometry.disk_image_sync_size type track) 0 (fx_buffer fx) (replicate (Z.to_nat track_size) 0x55);
  let offset := (fx_offset fx + (ptr - gap) + track_size * 100 / 270) mod track_size in
  Some (drop (Z.to_nat (track_size - offset)) temp ++ take (Z.to_nat (track_size - offset)) temp,
        Flux buffer (fx_id1 fx) (fx_id2 fx) (fx_track fx) offset (fx_tracks fx)).

Fixpoint format_tracks (n : nat) (image : disk_image_t) (two_sides : bool) (track : Z) (fx : flux_t)
    : option flux_t :=
  match n with
  | O => Some fx
  | S n =>
      let half_track := track * 2 - 2 in
      let track_size := Geometry.disk_image_raw_track_size (di_type image) track in
      '(data, fx) ←
        (if track <=? di_tracks image then
           fx ← (if two_sides && (track =? 36) then second_side image fx else Some fx);
           format_track image track fx
         else Some (replicate (Z.to_nat track_size) 0x55, fx));
      fx ← put_track half_track (DiskTrack (Some data) track_size) fx;
      fx ← put_track (half_track + 1) (DiskTrack (Some (replicate (Z.to_nat track_size) 0)) track_size) fx;
      format_tracks n image two_sides (track + 1)
        (Flux (fx_buffer fx) (fx_id1 fx) (fx_id2 fx) (u8 (fx_track fx + 1)) (fx_offset fx) (fx_tracks fx))
  end.

(** [buffer] is the uninitialised sector buffer, [gcr] the tracks so far. *)
Definition fsimage_read_dxx_image (image : disk_image_t) (buffer : mem) (gcr : list disk_track_t)
    : option (Z * list disk_track_t) :=
  let is_8050 := (di_type image =? DISK_IMAGE_TYPE_D80) || (di_type image =? DISK_IMAGE_TYPE_D82) in
  let sectors := if is_8050 then Geometry.disk_image_check_sector image BAM_TRACK_8050 BAM_SECTOR_8050
                 else Geometry.disk_image_check_sector image BAM_TRACK_1541 BAM_SECTOR_1541 in
  let id := if is_8050 then BAM_ID_8050 else BAM_ID_1541 in
  b ← splice buffer id [0xa0; 0xa0];
  if sectors <? 0 then Some (-1, gcr)
  else
    f ← fd_ image;
    let b := (Image.util_fpread f b 256 (Z.shiftl sectors 8)).2 in
    id1 ← getb b id; id2 ← getb b (id + 1); x ← getb b 3;
    let two_sides := (di_type image =? DISK_IMAGE_TYPE_D71) && (Z.land x 0x80 =? 0) in
    fx ← format_tracks (Z.to_nat (di_max_half_tracks image / 2)) image two_sides 1 (Flux b id1 id2 1 0 gcr);
    Some (0, fx_tracks fx).

End Gcr.
