(* ===== verification/GcrSpec.v ===== *)
(** * Specification of group coded recording

    The five bits a nibble is encoded with are decoded to the nibble; what is written to
    a raw track at any bit position is read from there; a formatted track gives every
    sector back, and stays formatted when a sector is written. *)

From S2P Require Import Prelude Geometry Image VDrive Bam Gcr.
Import Gcr.

Module GcrSpec.

(** ** Bits *)

(** The [n] low bits of [x], the highest first *)
Fixpoint low (n : nat) (x : Z) : list bool :=
  match n with O => [] | S n => Z.testbit x (Z.of_nat n) :: low n x end.

(** The bits of a block of memory, and of the codes of some bytes *)
Definition tbits (d : mem) : list bool := d ≫= low 8.
Definition code5 (n : Z) : list bool := low 5 (default 0 (getb GCR_conv_data n)).
Definition code1 (x : Z) : list bool := code5 (x / 16) ++ code5 (x mod 16).
Definition code (bs : mem) : list bool := bs ≫= code1.

Lemma length_low n x : length (low n x) = n.
Proof. induction n as [|n IH]; cbn; [done|by rewrite IH]. Qed.

Lemma low_lookup n x i : (i < n)%nat -> low n x !! i = Some (Z.testbit x (Z.of_nat (n - 1 - i))).
Proof.
  revert i. induction n as [|n IH]; intros i Hi; [lia|]. destruct i as [|i]; cbn; [do 3 f_equal; lia|].
  rewrite IH by lia. do 3 f_equal. lia.
Qed.

Lemma length_code bs : length (code bs) = (10 * length bs)%nat.
Proof.
  induction bs as [|x bs IH]; [done|]. unfold code in *. cbn [mbind list_bind]. rewrite length_app, IH.
  unfold code1, code5. rewrite length_app, !length_low. cbn [length]. lia.
Qed.

Lemma length_tbits d : length (tbits d) = (8 * length d)%nat.
Proof.
  induction d as [|x d IH]; [done|]. unfold tbits in *. cbn [mbind list_bind]. rewrite length_app, IH, length_low.
  cbn [length]. lia.
Qed.

Lemma code_app a b : code (a ++ b) = code a ++ code b.
Proof. apply bind_app. Qed.

Lemma tbits_app a b : tbits (a ++ b) = tbits a ++ tbits b.
Proof. apply bind_app. Qed.

Lemma testbit_mod x n i : 0 <= n -> Z.testbit (x mod 2 ^ n) i = (i <? n) && Z.testbit x i.
Proof.
  intros Hn. destruct (Z.ltb_spec i n) as [Hi|Hi]; cbn [andb].
  - destruct (Z.lt_ge_cases i 0) as [?|?]; [by rewrite !Z.testbit_neg_r|]. by apply Z.mod_pow2_bits_low.
  - by apply Z.mod_pow2_bits_high.
Qed.

Lemma testbit_u8 x i : Z.testbit (u8 x) i = (i <? 8) && Z.testbit x i.
Proof. exact (testbit_mod x 8 i ltac:(lia)). Qed.

Lemma testbit_u32 x i : Z.testbit (u32 x) i = (i <? 32) && Z.testbit x i.
Proof. exact (testbit_mod x 32 i ltac:(lia)). Qed.

Lemma testbit_small x n i : 0 <= x < 2 ^ n -> 0 <= n <= i -> Z.testbit x i = false.
Proof. intros Hx Hn. rewrite <- (Z.mod_small x (2 ^ n)) by done. apply Z.mod_pow2_bits_high. lia. Qed.

(** Bits of shifted, masked and combined words at closed positions *)
Ltac eval_index :=
  repeat match goal with
  | |- context [Z.testbit ?x ?e] =>
      lazymatch e with
      | Z.sub _ _ => idtac | Z.add _ _ => idtac | Z.of_nat _ => idtac
      end;
      let e' := eval vm_compute in e in change (Z.testbit x e) with (Z.testbit x e')
  end.
Ltac bits :=
  repeat (first [match goal with |- context [Z.testbit ?x (Z.neg ?p)] =>
                   rewrite (Z.testbit_neg_r x (Z.neg p)) by lia end
                |rewrite Z.land_spec | rewrite Z.lor_spec | rewrite testbit_u8 | rewrite testbit_u32
                |rewrite Z.shiftl_spec by lia | rewrite Z.shiftr_spec by lia];
          eval_index);
  repeat match goal with |- context [(?a <? ?b)] =>
    let v := eval vm_compute in (a <? b) in change (a <? b) with v end;
  cbn [andb orb]; rewrite ?orb_false_r, ?andb_true_r.

(** Bits of [x] that are zero by [H] *)
Ltac clear_bits x H :=
  repeat match goal with |- context [Z.testbit x ?k] => rewrite (H k) by lia end.

(** Both sides as lists of bits *)
Ltac to_bits :=
  match goal with |- ?l = ?r =>
    let l' := eval cbv -[Z.testbit u8 u32 Z.lor Z.land Z.shiftl Z.shiftr] in l in
    let r' := eval cbv -[Z.testbit u8 u32 Z.lor Z.land Z.shiftl Z.shiftr] in r in change (l' = r') end.

(** ** Four bytes *)

Lemma conv_code n : 0 <= n < 16 -> exists g, getb GCR_conv_data n = Some g /\ 0 <= g < 32 /\ code5 n = low 5 g /\
  getb From_GCR_conv_data g = Some n.
Proof.
  intros Hn. unfold code5. destruct (getb_is_Some GCR_conv_data n) as [g Hg]; [done|]. exists g. rewrite Hg.
  assert (Hall : forallb (fun n => match getb GCR_conv_data n with
    | Some g => (0 <=? g) && (g <? 32) && bool_decide (getb From_GCR_conv_data g = Some n) | None => false end)
    (seqZ 0 16) = true) by (vm_compute; reflexivity).
  pose proof (Zrange_forallb _ 0 16 Hall n ltac:(lia)) as H. cbv beta in H. rewrite Hg in H.
  apply andb_prop in H as [H H3]. apply andb_prop in H as [H1 H2].
  split; [done|]. split; [lia|]. split; [done|]. by apply bool_decide_eq_true in H3.
Qed.

Lemma nibbles x : 0 <= x < 256 -> Z.shiftr x 4 = x / 16 /\ Z.land x 15 = x mod 16 /\
  0 <= x / 16 < 16 /\ 0 <= x mod 16 < 16 /\ Z.lor (u8 (Z.shiftl (x / 16) 4)) (x mod 16) = x.
Proof.
  intros Hx. assert (Hall : forallb (fun x => Z.lor (u8 (Z.shiftl (x / 16) 4)) (x mod 16) =? x) (seqZ 0 256) = true)
    by (vm_compute; reflexivity).
  pose proof (Zrange_forallb _ 0 256 Hall x ltac:(lia)) as Hor. apply Z.eqb_eq in Hor. split; [by rewrite Z.shiftr_div_pow2 by lia|]. split; [exact (Z.land_ones x 4 ltac:(lia))|].
  rewrite Hor. Z.to_euclidean_division_equations. lia.
Qed.

Lemma to_gcr_code n i t src : bytes_ok src -> length src = n -> i = 10 - 2 * Z.of_nat n -> (n <= 4)%nat ->
  exists g, to_gcr n i t src = Some g /\ length g = S n /\ bytes_ok g /\
    tbits g = low (Z.to_nat (i - 2)) t ++ code src.
Proof.
  revert i t src. induction n as [|n IH]; intros i t src Hok Hl Hi Hn.
  { destruct src; [|done]. exists [u8 t]. split; [done|]. split; [done|].
    split; [constructor; [apply Z.mod_pos_bound; lia|constructor]|]. rewrite Hi. cbn. eval_index. bits. done. }
  destruct src as [|x src]; [done|]. injection Hl as Hl. apply Forall_cons in Hok as [Hx Hok].
  destruct (nibbles x Hx) as (Hhi & Hlo & Hhi16 & Hlo16 & _).
  destruct (conv_code _ Hhi16) as (a & Ha & Ha32 & Hac & _). destruct (conv_code _ Hlo16) as (b & Hb & Hb32 & Hbc & _).
  cbn [to_gcr]. change (getb (x :: src) 0) with (Some x). cbn [mbind option_bind]. rewrite Hhi, Ha. cbn [mbind option_bind].
  rewrite Hlo, Hb. cbn [mbind option_bind]. change (drop 1 (x :: src)) with src.
  set (t' := Z.lor (u32 (Z.shiftl (Z.lor (u32 (Z.shiftl t 5)) a) 5)) b).
  destruct (IH (i + 2) t' src Hok Hl ltac:(lia) ltac:(lia)) as (g & -> & Hlg & Hg & Hbits).
  exists (u8 (Z.shiftr t' i) :: g). split; [done|]. split; [by cbn; rewrite Hlg|].
  split; [constructor; [apply Z.mod_pos_bound; lia|done]|].
  unfold tbits, code in *. cbn [mbind list_bind]. rewrite Hbits. unfold code1 at 2. rewrite Hac, Hbc.
  rewrite !app_assoc. f_equal. clear -Ha32 Hb32 Hn Hi.
  assert (Hsa : forall k, 5 <= k -> Z.testbit a k = false) by (intros k Hk; apply (testbit_small a 5); lia).
  assert (Hsb : forall k, 5 <= k -> Z.testbit b k = false) by (intros k Hk; apply (testbit_small b 5); lia).
  assert (n = 0 \/ n = 1 \/ n = 2 \/ n = 3)%nat as Hcases by lia. unfold t'.
  destruct Hcases as [->|[->|[->| ->]]]; subst i; to_bits; bits; clear_bits a Hsa; clear_bits b Hsb;
    rewrite ?orb_false_r; reflexivity.
Qed.

(** Four bytes are encoded with their codes. *)
Lemma convert_4bytes bs : bytes_ok bs -> length bs = 4%nat ->
  exists g, gcr_convert_4bytes_to_GCR bs = Some g /\ length g = 5%nat /\ bytes_ok g /\ tbits g = code bs.
Proof. intros Hok Hl. by apply (to_gcr_code 4 2 0 bs). Qed.

Lemma low_inj n x y k : low n x = low n y -> 0 <= k < Z.of_nat n -> Z.testbit x k = Z.testbit y k.
Proof.
  intros Heq Hk. apply (f_equal (.!! (n - 1 - Z.to_nat k)%nat)) in Heq. rewrite !low_lookup in Heq by lia.
  injection Heq as Heq. by replace (Z.of_nat (n - 1 - (n - 1 - Z.to_nat k))) with k in Heq by lia.
Qed.

(** The code of a nibble in front of the bits of a word *)
Lemma from_code t n : 0 <= n < 16 -> low 5 (Z.shiftr t 16) = code5 n ->
  getb From_GCR_conv_data (Z.land (Z.shiftr t 16) 0x1f) = Some n.
Proof.
  intros Hn. destruct (conv_code n Hn) as (g & _ & Hg & -> & Hfrom). intros Heq.
  assert (Z.land (Z.shiftr t 16) 0x1f = g) as ->; [|done].
  apply Z.bits_inj'. intros k Hk. rewrite Z.land_spec.
  destruct (Z.lt_ge_cases k 5) as [Hlt|Hge].
  - rewrite (low_inj 5 _ _ k Heq) by lia.
    assert (k = 0 \/ k = 1 \/ k = 2 \/ k = 3 \/ k = 4) as [->|[->|[->|[->| ->]]]] by lia; apply andb_true_r.
  - rewrite (testbit_small 31 5 k), (testbit_small g 5 k) by lia. apply andb_false_r.
Qed.

Lemma from_gcr_code n i t src bs : length bs = n -> length src = n -> bytes_ok bs -> bytes_ok src ->
  i = 13 - 2 * Z.of_nat n -> (n <= 4)%nat ->
  (forall k, k < i + 8 -> Z.testbit t k = false) ->
  low (Z.to_nat (13 - i)) (Z.shiftr t (i + 8)) ++ tbits src = code bs -> from_gcr n i t src = Some bs.
Proof.
  revert i t src bs. induction n as [|n IH]; intros i t src bs Hlb Hls Hb Hs Hi Hn Hlow Hbits.
  { by destruct bs. }
  destruct bs as [|y bs]; [done|]. destruct src as [|x src]; [done|]. injection Hlb as Hlb. injection Hls as Hls.
  apply Forall_cons in Hb as [Hy Hb]. apply Forall_cons in Hs as [Hx Hs].
  destruct (nibbles y Hy) as (_ & _ & Hhi16 & Hlo16 & Hor).
  cbn [from_gcr]. change (getb (x :: src) 0) with (Some x). cbn [mbind option_bind].
  change (drop 1 (x :: src)) with src. set (t1 := Z.lor t (u32 (Z.shiftl x i))).
  assert (Hx8 : forall k, 8 <= k -> Z.testbit x k = false) by (intros k Hk; apply (testbit_small x 8); lia).
  assert (n = 0 \/ n = 1 \/ n = 2 \/ n = 3)%nat as Hcases by lia.
  assert (Hall : low 5 (Z.shiftr t1 16) ++ low 5 (Z.shiftr (u32 (Z.shiftl t1 5)) 16)
      ++ low (Z.to_nat (11 - i)) (Z.shiftr (u32 (Z.shiftl (u32 (Z.shiftl t1 5)) 5)) (i + 10)) =
    low (Z.to_nat (13 - i)) (Z.shiftr t (i + 8)) ++ low 8 x).
  { unfold t1. destruct Hcases as [->|[->|[->| ->]]]; subst i; to_bits; bits; clear_bits x Hx8; clear_bits t Hlow;
      rewrite ?orb_false_r; cbn [orb]; reflexivity. }
  unfold code, tbits in Hbits. cbn [mbind list_bind] in Hbits. fold (tbits src) (code bs) in Hbits.
  rewrite app_assoc, <- Hall in Hbits. unfold code1 in Hbits. rewrite <- !app_assoc in Hbits.
  apply app_inj_1 in Hbits as [Hhi Hbits]; [|by rewrite length_low; unfold code5; rewrite length_low].
  apply app_inj_1 in Hbits as [Hlo Hbits]; [|by rewrite length_low; unfold code5; rewrite length_low].
  rewrite (from_code _ _ Hhi16 Hhi). cbn [mbind option_bind]. rewrite (from_code _ _ Hlo16 Hlo). cbn [mbind option_bind].
  rewrite (IH (i + 2) _ src bs); try done; [|lia|lia| |].
  - cbn [mbind option_bind]. by rewrite Hor.
  - intros k Hk. rewrite testbit_u32. destruct (Z.lt_ge_cases k 5) as [Hk5|Hk5].
    { rewrite Z.shiftl_spec_low by lia. apply andb_false_r. }
    rewrite Z.shiftl_spec, testbit_u32 by lia. destruct (Z.lt_ge_cases (k - 5) 5) as [Hk10|Hk10].
    { rewrite (Z.shiftl_spec_low t1) by lia. by rewrite !andb_false_r. }
    rewrite Z.shiftl_spec by lia. unfold t1. rewrite Z.lor_spec, Hlow, testbit_u32, Z.shiftl_spec_low by lia.
    by rewrite !andb_false_r.
  - rewrite <- Hbits. do 2 f_equal; [lia|f_equal; lia].
Qed.

(** What the codes of four bytes decode to *)
Lemma convert_code g bs : bytes_ok g -> length g = 5%nat -> bytes_ok bs -> length bs = 4%nat ->
  tbits g = code bs -> gcr_convert_GCR_to_4bytes g = Some bs.
Proof.
  intros Hg Hlg Hb Hlb Hbits. destruct g as [|x g]; [done|]. injection Hlg as Hlg. apply Forall_cons in Hg as [Hx Hg].
  unfold gcr_convert_GCR_to_4bytes. change (getb (x :: g) 0) with (Some x). cbn [mbind option_bind].
  change (drop 1 (x :: g)) with g. apply (from_gcr_code 4); try done.
  - intros k Hk. rewrite testbit_u32, Z.shiftl_spec_low by lia. apply andb_false_r.
  - rewrite <- Hbits. unfold tbits at 2. cbn [mbind list_bind]. fold (tbits g). f_equal.
    assert (Hx8 : forall k, 8 <= k -> Z.testbit x k = false) by (intros k Hk; apply (testbit_small x 8); lia).
    to_bits. bits. reflexivity.
Qed.

(** ** The circle of bits

    Byte [a] and bit [i] of a track, counted on over its end *)

Definition byte (d : mem) (a : Z) : Z := default 0 (d !! Z.to_nat (a mod mlen d)).
Definition cbit (d : mem) (i : Z) : bool := Z.testbit (byte d (i / 8)) (7 - i mod 8).

Fixpoint cbits (d : mem) (p : Z) (n : nat) : list bool :=
  match n with O => [] | S n => cbit d p :: cbits d (p + 1) n end.

(** The bits from [p] on are [l]. *)
Definition holds (d : mem) (p : Z) (l : list bool) : Prop := cbits d p (length l) = l.

Lemma length_cbits d p n : length (cbits d p n) = n.
Proof. revert p. induction n as [|n IH]; intros p; cbn; [done|by rewrite IH]. Qed.

Lemma cbits_app d p n m : cbits d p (n + m) = cbits d p n ++ cbits d (p + Z.of_nat n) m.
Proof.
  revert p. induction n as [|n IH]; intros p; cbn; [by rewrite Z.add_0_r|]. rewrite IH.
  by replace (p + 1 + Z.of_nat n) with (p + Z.of_nat (S n)) by lia.
Qed.

Lemma cbits_ext d d' p p' n : (forall i, 0 <= i < Z.of_nat n -> cbit d (p + i) = cbit d' (p' + i)) ->
  cbits d p n = cbits d' p' n.
Proof.
  revert p p'. induction n as [|n IH]; intros p p' Heq; cbn; [done|]. f_equal.
  - specialize (Heq 0 ltac:(lia)). by rewrite !Z.add_0_r in Heq.
  - apply IH. intros i Hi. specialize (Heq (i + 1) ltac:(lia)).
    replace (p + 1 + i) with (p + (i + 1)) by lia. by replace (p' + 1 + i) with (p' + (i + 1)) by lia.
Qed.

Lemma cbits_lookup d p n i : (i < n)%nat -> cbits d p n !! i = Some (cbit d (p + Z.of_nat i)).
Proof.
  revert p i. induction n as [|n IH]; intros p i Hi; [lia|]. destruct i as [|i]; cbn; [by rewrite Z.add_0_r|].
  rewrite IH by lia. do 2 f_equal. lia.
Qed.

Lemma holds_app d p a b : holds d p (a ++ b) <-> holds d p a /\ holds d (p + Z.of_nat (length a)) b.
Proof.
  unfold holds. rewrite length_app, cbits_app. split; [|by intros [-> ->]].
  intros Heq. by apply app_inj_1 in Heq; [|apply length_cbits].
Qed.

Lemma holds_bit d p l i b : holds d p l -> l !! i = Some b -> cbit d (p + Z.of_nat i) = b.
Proof.
  intros Hh Hl. pose proof (lookup_lt_Some _ _ _ Hl) as Hlt. rewrite <- Hh in Hl.
  rewrite cbits_lookup in Hl by done. by injection Hl.
Qed.

Section circle.
Variables (d : mem).
Hypotheses (Hsize : 0 < mlen d) (Hok : bytes_ok d).

Lemma byte_lookup a : d !! Z.to_nat (a mod mlen d) = Some (byte d a).
Proof.
  unfold byte. destruct (lookup_lt_is_Some_2 d (Z.to_nat (a mod mlen d))) as [x Hx]; [|by rewrite Hx].
  pose proof (Z.mod_pos_bound a (mlen d) Hsize). unfold mlen in *. lia.
Qed.

Lemma byte_getb a : getb d (a mod mlen d) = Some (byte d a).
Proof. apply getb_Some. split; [by apply Z.mod_pos_bound|apply byte_lookup]. Qed.

Lemma byte_ok a : 0 <= byte d a < 256.
Proof. exact (Forall_lookup_1 _ _ _ _ Hok (byte_lookup a)). Qed.

Lemma byte_turn a k : byte d (a + k * mlen d) = byte d a.
Proof. unfold byte. by rewrite Z.mod_add by lia. Qed.

Lemma cbit_byte a j : 0 <= j < 8 -> cbit d (8 * a + j) = Z.testbit (byte d a) (7 - j).
Proof.
  intros Hj. unfold cbit. replace ((8 * a + j) / 8) with a by (Z.to_euclidean_division_equations; lia).
  by replace ((8 * a + j) mod 8) with j by (Z.to_euclidean_division_equations; lia).
Qed.

Lemma cbit_turn i k : cbit d (i + k * (8 * mlen d)) = cbit d i.
Proof.
  unfold cbit. replace (i + k * (8 * mlen d)) with (i + k * mlen d * 8) by lia.
  by rewrite Z.mod_add, Z.div_add, byte_turn by lia.
Qed.

Lemma cbit_mod i : cbit d (i mod (8 * mlen d)) = cbit d i.
Proof.
  rewrite <- (cbit_turn (i mod (8 * mlen d)) (i / (8 * mlen d))). f_equal.
  Z.to_euclidean_division_equations. lia.
Qed.

Lemma cbits_byte a : cbits d (8 * a) 8 = low 8 (byte d a).
Proof.
  assert (Hb : forall j, 0 <= j < 8 -> cbit d (8 * a + j) = Z.testbit (byte d a) (7 - j)) by apply cbit_byte.
  cbn [cbits low]. rewrite <- !Z.add_assoc. cbn [Z.add Pos.add Pos.succ].
  rewrite <- (Z.add_0_r (8 * a)) at 1. rewrite !Hb by lia. done.
Qed.

(** ** Marks *)

(** A zero behind ten ones *)
Definition mark (q : Z) : Prop := cbit d q = false /\ forall j, 1 <= j <= 10 -> cbit d (q - j) = true.

Lemma mark_turn q k : mark (q + k * (8 * mlen d)) <-> mark q.
Proof.
  unfold mark. rewrite cbit_turn. split; intros [H1 H2]; (split; [done|]); intros j Hj;
    specialize (H2 j Hj); [|]; replace (q + k * (8 * mlen d) - j) with (q - j + k * (8 * mlen d)) in * by lia;
    by rewrite cbit_turn in *.
Qed.

Lemma mark_mod q : mark (q mod (8 * mlen d)) <-> mark q.
Proof.
  rewrite <- (mark_turn (q mod (8 * mlen d)) (q / (8 * mlen d))).
  replace (q mod (8 * mlen d) + q / (8 * mlen d) * (8 * mlen d)) with q; [done|].
  Z.to_euclidean_division_equations. lia.
Qed.

(** Marks are more than ten bits apart. *)
Lemma marks_apart q k : mark q -> mark (q + k) -> 0 < k -> 10 < k.
Proof.
  intros [Hq _] [_ Hk] Hk0. destruct (Z.lt_ge_cases 10 k) as [?|Hle]; [done|].
  specialize (Hk k ltac:(lia)). replace (q + k - k) with q in Hk by lia. congruence.
Qed.

(** A mark that the search from [p] on sees after [k] bits *)
Definition seen (p k : Z) : Prop := 10 <= k /\ mark (p + k).

Lemma ten_ones w : Z.land (Z.lnot w) 0x3ff = 0 <-> forall j, 0 <= j < 10 -> Z.testbit w j = true.
Proof.
  split.
  - intros H j Hj. apply (f_equal (fun x => Z.testbit x j)) in H.
    rewrite Z.land_spec, Z.lnot_spec, Z.bits_0 in H by lia. change 0x3ff with (Z.ones 10) in H.
    rewrite Z.ones_spec_low in H by lia. by destruct (Z.testbit w j).
  - intros H. apply Z.bits_inj'. intros j Hj. rewrite Z.land_spec, Z.lnot_spec, Z.bits_0 by lia.
    change 0x3ff with (Z.ones 10). destruct (Z.lt_ge_cases j 10) as [Hlt|Hge].
    + by rewrite H by lia.
    + rewrite Z.ones_spec_high by lia. apply andb_false_r.
Qed.

Lemma top_bit b : negb (Z.land b 0x80 =? 0) = Z.testbit b 7.
Proof.
  destruct (Z.testbit b 7) eqn:Hb.
  - destruct (Z.eqb_spec (Z.land b 0x80) 0) as [H|]; [|done].
    apply (f_equal (fun x => Z.testbit x 7)) in H. rewrite Z.land_spec, Hb in H. done.
  - assert (Z.land b 0x80 = 0) as ->; [|done]. apply Z.bits_inj'. intros j Hj. rewrite Z.land_spec, Z.bits_0.
    destruct (Z.eq_dec j 7) as [->|Hne]; [by rewrite Hb|]. change 0x80 with (2 ^ 7).
    rewrite Z.pow2_bits_false by lia. apply andb_false_r.
Qed.

(** What the search returns *)
Inductive search_result (p s : Z) : Z -> Prop :=
| result_found k : 0 <= k < s -> seen p k -> (forall i, 0 <= i < k -> ~ seen p i) ->
    search_result p s ((p + k) mod (8 * mlen d))
| result_none : (forall i, 0 <= i < s -> ~ seen p i) -> search_result p s (- CBMDOS_FDC_ERR_SYNC).

Lemma lnot_low p : Z.land (Z.lnot p) 7 = 7 - p mod 8.
Proof.
  change 7 with (Z.ones 3) at 1. rewrite Z.land_ones by lia. unfold Z.lnot. change (2 ^ 3) with 8.
  Z.to_euclidean_division_equations. lia.
Qed.

Lemma mod_turn8 p : p mod (8 * mlen d) mod 8 = p mod 8.
Proof.
  rewrite (Z.mod_eq p (8 * mlen d)) by lia.
  replace (p - 8 * mlen d * (p / (8 * mlen d))) with (p + - (mlen d * (p / (8 * mlen d))) * 8) by lia.
  by rewrite Z.mod_add by lia.
Qed.

Lemma div_turn8 p : p mod (8 * mlen d) / 8 = (p / 8) mod mlen d.
Proof.
  rewrite (Z.mod_eq p (8 * mlen d)), (Z.mod_eq (p / 8)), Z.div_div by lia.
  replace (p - 8 * mlen d * (p / (8 * mlen d))) with (p + - (mlen d * (p / (8 * mlen d))) * 8) by lia.
  rewrite Z.div_add by lia. lia.
Qed.

(** The next position *)
Lemma next_turn n p : 0 < n -> (if p mod n + 1 >=? n then 0 else p mod n + 1) = (p + 1) mod n.
Proof.
  intros Hn. pose proof (Z.mod_pos_bound p n Hn). rewrite Z.geb_leb.
  destruct (Z.leb_spec n (p mod n + 1)) as [Hle|Hlt].
  - rewrite <- Zplus_mod_idemp_l. replace (p mod n + 1) with n by lia. by rewrite Z.mod_same by lia.
  - rewrite <- Zplus_mod_idemp_l. by rewrite (Z.mod_small (p mod n + 1)) by lia.
Qed.

(** The bits of the byte at [p] that are still in front of [b] *)
Definition in_front (b p : Z) : Prop :=
  forall j, 0 <= j < 8 - p mod 8 -> Z.testbit b (7 - j) = cbit d (p + j).

Lemma in_front_shift p : in_front (Z.shiftl (byte d (p / 8)) (p mod 8)) p.
Proof.
  intros j Hj. pose proof (Z.mod_pos_bound p 8 ltac:(lia)). rewrite Z.shiftl_spec by lia.
  replace (p + j) with (8 * (p / 8) + (p mod 8 + j)) by (pose proof (Z_div_mod_eq_full p 8); lia).
  rewrite cbit_byte by lia. f_equal. lia.
Qed.

Lemma in_front_next b p : in_front b p -> p mod 8 < 7 -> in_front (Z.shiftl b 1) (p + 1).
Proof.
  intros Hb Hp j Hj. assert ((p + 1) mod 8 = p mod 8 + 1) as Hm by (Z.to_euclidean_division_equations; lia).
  pose proof (Z.mod_pos_bound p 8 ltac:(lia)). rewrite Hm in Hj. rewrite Z.shiftl_spec by lia. replace (7 - j - 1) with (7 - (j + 1)) by lia.
  rewrite Hb by lia. f_equal. lia.
Qed.

(** The ten bits in front of [p], of those that were read *)
Definition behind (w p k : Z) : Prop :=
  forall j, 0 <= j < 10 -> Z.testbit w j = (j <? k) && cbit d (p - 1 - j).

Lemma behind_next w p k b : behind w p k -> 0 <= k ->
  (forall j, 0 <= j < 10 -> Z.testbit b j = (j =? 0) && cbit d p) ->
  behind (Z.lor (u32 (Z.shiftl w 1)) b) (p + 1) (k + 1).
Proof.
  intros Hw Hk Hb j Hj. rewrite Z.lor_spec, testbit_u32, Hb by lia. rewrite (proj2 (Z.ltb_lt j 32)) by lia.
  destruct (Z.eqb_spec j 0) as [->|Hne].
  - rewrite Z.shiftl_spec_low by lia. rewrite (proj2 (Z.ltb_lt 0 (k + 1))) by lia. cbn [andb orb].
    f_equal. lia.
  - rewrite Z.shiftl_spec, Hw by lia. cbn [andb]. rewrite orb_false_r. f_equal.
    + apply eq_true_iff_eq. rewrite !Z.ltb_lt. lia.
    + f_equal. lia.
Qed.

Lemma find_loop_run p0 s : forall k b w, 0 <= k -> in_front b (p0 + k) -> behind w (p0 + k) k ->
  (forall i, 0 <= i < k -> ~ seen p0 i) ->
  exists r, find_loop d (mlen d) s ((p0 + k) mod (8 * mlen d)) b w = Some r /\
    search_result p0 (k + Z.of_nat s) r.
Proof.
  induction s as [|s IH]; intros k b w Hk Hb Hw Hnone; cbn [find_loop].
  { eexists. split; [done|]. constructor. intros i Hi. apply Hnone. lia. }
  rewrite (Z.mul_comm (mlen d)), next_turn, !Z.shiftr_div_pow2, lnot_low, mod_turn8 by lia. change (2 ^ 3) with 8.
  rewrite div_turn8. pose proof (Z.mod_pos_bound (p0 + k) 8 ltac:(lia)) as Hm.
  pose proof (Hb 0 ltac:(lia)) as Hbit. rewrite Z.add_0_r in Hbit. change (7 - 0) with 7 in Hbit.
  rewrite top_bit, Hbit.
  (* the rest of the walk *)
  assert (Hstep : forall w', behind w' (p0 + k + 1) (k + 1) -> ~ seen p0 k -> exists r,
    (if negb (7 - (p0 + k) mod 8 =? 0)
     then find_loop d (mlen d) s ((p0 + k) mod (8 * mlen d) + 1) (Z.shiftl b 1) w'
     else b ← getb d (((p0 + k + 1) / 8) mod mlen d);
          find_loop d (mlen d) s ((p0 + k + 1) mod (8 * mlen d)) b w') = Some r /\
    search_result p0 (k + Z.of_nat (S s)) r).
  { intros w' Hw' Hns. replace (k + Z.of_nat (S s)) with (k + 1 + Z.of_nat s) by lia.
    assert (Hnone' : forall i, 0 <= i < k + 1 -> ~ seen p0 i).
    { intros i Hi. destruct (Z.eq_dec i k) as [->|]; [done|apply Hnone; lia]. }
    rewrite <- Z.add_assoc in Hw' |- *. destruct (Z.eqb_spec (7 - (p0 + k) mod 8) 0) as [H7|H7]; cbn [negb].
    - rewrite byte_getb by done. cbn [mbind option_bind]. apply IH; [lia| |done|done].
      assert ((p0 + (k + 1)) mod 8 = 0) as Hz by (Z.to_euclidean_division_equations; lia).
      pose proof (in_front_shift (p0 + (k + 1))) as Hf. by rewrite Hz, Z.shiftl_0_r in Hf.
    - replace ((p0 + k) mod (8 * mlen d) + 1) with ((p0 + (k + 1)) mod (8 * mlen d)).
      { apply IH; [lia| |done|done]. rewrite Z.add_assoc. apply in_front_next; [done|lia]. }
      rewrite Z.add_assoc, <- next_turn by lia. rewrite Z.geb_leb, (proj2 (Z.leb_gt _ _)); [done|].
      pose proof (mod_turn8 (p0 + k)). pose proof (Z.mod_pos_bound (p0 + k) (8 * mlen d) ltac:(lia)).
      Z.to_euclidean_division_equations. lia. }
  destruct (cbit d (p0 + k)) eqn:Hc.
  - apply Hstep; [|intros [_ [H _]]; congruence]. apply behind_next; [done|done|].
    intros j Hj. rewrite Hc, andb_true_r. destruct (Z.eqb_spec j 0) as [->|]; [done|].
    by apply (testbit_small 1 1); lia.
  - destruct (Z.eqb_spec (Z.land (Z.lnot w) 0x3ff) 0) as [Hten|Hten]; cbn [negb].
    + pose proof (proj1 (ten_ones w) Hten) as Hall. eexists. split; [done|].
      apply result_found; [lia| |done].
      assert (H9 : 9 <? k = true) by (pose proof (Hall 9 ltac:(lia)) as H; rewrite Hw in H by lia; by apply andb_prop in H as [? _]).
      split; [lia|]. split; [done|]. intros j Hj. pose proof (Hall (j - 1) ltac:(lia)) as H.
      rewrite Hw in H by lia. apply andb_prop in H as [_ H]. rewrite <- H. f_equal. lia.
    + rewrite <- (Z.lor_0_r (u32 (Z.shiftl w 1))). apply Hstep.
      * apply behind_next; [done|done|]. intros j Hj. by rewrite Hc, Z.bits_0, andb_false_r.
      * intros [Hk10 [_ Hones]]. apply Hten, ten_ones. intros j Hj. rewrite Hw by lia.
        rewrite (proj2 (Z.ltb_lt j k)) by lia. cbn [andb]. rewrite <- (Hones (j + 1)) by lia. f_equal. lia.
Qed.

(** The search from any position of the track *)
Lemma find_sync_run p s : 0 <= p < 8 * mlen d -> 0 <= s ->
  exists r, gcr_find_sync (DiskTrack (Some d) (mlen d)) p s = Some r /\ search_result p s r.
Proof.
  intros Hp Hs. unfold gcr_find_sync. cbn [tdata tsize]. rewrite (proj2 (Z.eqb_neq (mlen d) 0)) by lia.
  rewrite Z.shiftr_div_pow2 by lia. change (2 ^ 3) with 8.
  assert (p / 8 = (p / 8) mod mlen d) as Hdiv.
  { rewrite Z.mod_small; [done|]. Z.to_euclidean_division_equations. lia. }
  rewrite Hdiv, byte_getb by done. cbn [mbind option_bind].
  destruct (find_loop_run p (Z.to_nat s) 0 (Z.shiftl (byte d (p / 8)) (Z.land p 7)) 0) as (r & Hr & Hres).
  - done.
  - rewrite Z.add_0_r. change 7 with (Z.ones 3). rewrite Z.land_ones by lia. apply in_front_shift.
  - intros j Hj. rewrite Z.bits_0. destruct (Z.ltb_spec j 0); [lia|done].
  - intros i Hi. lia.
  - exists r. rewrite Z.add_0_r, (Z.mod_small p) in Hr by done. rewrite Z2Nat.id in Hres by done. by rewrite Z.add_0_l in Hres.
Qed.

(** ** Decoding *)

Lemma next_byte_turn a : next_byte (mlen d) (a mod mlen d) = (a + 1) mod mlen d.
Proof. unfold next_byte. rewrite <- next_turn by done. by rewrite Z.geb_leb. Qed.

Lemma u8_ok x : 0 <= u8 x < 256.
Proof. apply Z.mod_pos_bound. lia. Qed.

Lemma cbits_shift a n p : cbits d (a + Z.of_nat n) p = drop n (cbits d a (n + p)).
Proof. rewrite cbits_app, drop_app_length'; [done|by rewrite length_cbits]. Qed.

(** A byte at any bit: the rest of one byte, and the front of the next one *)
Lemma low_shift x y s : 0 <= x < 256 -> 0 <= y < 256 -> 0 <= s < 8 ->
  low 8 (Z.lor (u8 (Z.shiftl x s)) (u8 (Z.shiftr (Z.shiftl y s) 8)))
    = take 8 (drop (Z.to_nat s) (low 8 x ++ low 8 y)).
Proof.
  intros Hx Hy Hs. assert (Hy8 : forall k, 8 <= k -> Z.testbit y k = false) by (intros k Hk; apply (testbit_small y 8); lia).
  assert (s = 0 \/ s = 1 \/ s = 2 \/ s = 3 \/ s = 4 \/ s = 5 \/ s = 6 \/ s = 7) as Hc by lia.
  destruct Hc as [->|[->|[->|[->|[->|[->|[->| ->]]]]]]]; to_bits; bits; clear_bits y Hy8;
    rewrite ?orb_false_r; reflexivity.
Qed.

Lemma lor_byte x y : 0 <= x < 256 -> 0 <= y < 256 -> 0 <= Z.lor x y < 256.
Proof.
  intros Hx Hy. assert (Z.lor x y = u8 (Z.lor x y)) as ->; [|apply u8_ok].
  apply Z.bits_inj'. intros k Hk. rewrite testbit_u8. destruct (Z.ltb_spec k 8); [done|].
  cbn [andb]. rewrite Z.lor_spec. by rewrite (testbit_small x 8), (testbit_small y 8) by lia.
Qed.

Lemma take_bytes_run s n : forall a, 0 <= s < 8 -> exists gs,
  take_bytes n d (mlen d) s (a mod mlen d) (u8 (Z.shiftl (byte d a) s))
    = Some (gs, ((a + Z.of_nat n) mod mlen d, u8 (Z.shiftl (byte d (a + Z.of_nat n)) s))) /\
  length gs = n /\ bytes_ok gs /\ tbits gs = cbits d (8 * a + s) (8 * n).
Proof.
  induction n as [|n IH]; intros a Hs; cbn [take_bytes].
  { exists []. by rewrite Z.add_0_r. }
  rewrite next_byte_turn, byte_getb by done. cbn [mbind option_bind].
  set (g := Z.lor (u8 (Z.shiftl (byte d a) s)) (u8 (Z.shiftr (Z.shiftl (byte d (a + 1)) s) 8))).
  pose proof (byte_ok a) as Ha. pose proof (byte_ok (a + 1)) as Ha1.
  assert ((if negb (s =? 0) then (g, u8 (Z.shiftl (byte d (a + 1)) s)) else (u8 (Z.shiftl (byte d a) s), byte d (a + 1)))
    = (g, u8 (Z.shiftl (byte d (a + 1)) s))) as ->.
  { destruct (Z.eqb_spec s 0) as [->|]; [|done]. cbn [negb]. unfold g. rewrite !Z.shiftl_0_r.
    assert (u8 (Z.shiftr (byte d (a + 1)) 8) = 0) as ->.
    { apply Z.bits_inj'. intros k Hk. rewrite testbit_u8, Z.shiftr_spec, Z.bits_0 by done.
      rewrite (testbit_small (byte d (a + 1)) 8) by lia. apply andb_false_r. }
    rewrite Z.lor_0_r. f_equal. unfold u8. by rewrite Z.mod_small by lia. }
  destruct (IH (a + 1) Hs) as (gs & -> & Hl & Hg & Hbits). cbn [mbind option_bind]. exists (g :: gs).
  replace (a + 1 + Z.of_nat n) with (a + Z.of_nat (S n)) by lia. split; [done|]. split; [by cbn; rewrite Hl|].
  split; [constructor; [apply lor_byte; apply u8_ok|done]|].
  replace (8 * S n)%nat with (8 + 8 * n)%nat by lia. rewrite cbits_app. unfold tbits in *. cbn [mbind list_bind].
  rewrite Hbits. f_equal; [|f_equal; lia]. unfold g. rewrite low_shift by done.
  rewrite <- !cbits_byte. replace (8 * (a + 1)) with (8 * a + Z.of_nat 8) by lia.
  rewrite <- cbits_app. rewrite <- (Z2Nat.id s) at 2 by lia. rewrite cbits_shift.
  replace (8 + 8)%nat with (Z.to_nat s + 8 + (8 - Z.to_nat s))%nat by lia.
  rewrite (cbits_app _ _ (Z.to_nat s + 8)), drop_app_le, take_app_length'; [done| |].
  - rewrite length_drop, length_cbits. lia.
  - rewrite length_cbits. lia.
Qed.

Lemma take_groups_run s n : forall a bs, 0 <= s < 8 -> length bs = (4 * n)%nat -> bytes_ok bs ->
  holds d (8 * a + s) (code bs) ->
  take_groups n d (mlen d) s (a mod mlen d) (u8 (Z.shiftl (byte d a) s)) = Some bs.
Proof.
  induction n as [|n IH]; intros a bs Hs Hl Hb Hh; cbn [take_groups]; [by destruct bs|].
  destruct (take_bytes_run s 5 a Hs) as (gs & -> & Hlg & Hg & Hbits). cbn [mbind option_bind].
  rewrite <- (take_drop 4 bs), code_app in Hh. apply holds_app in Hh as [Hh1 Hh2].
  assert (Hl4 : length (take 4 bs) = 4%nat) by (rewrite length_take; lia).
  rewrite length_code, Hl4 in Hh2. unfold holds in Hh1. rewrite length_code, Hl4 in Hh1.
  rewrite (convert_code gs (take 4 bs)); [|done|done|by apply Forall_take|done|by rewrite Hbits].
  cbn [mbind option_bind]. rewrite (IH (a + Z.of_nat 5) (drop 4 bs)).
  - cbn [mbind option_bind]. by rewrite take_drop.
  - done.
  - rewrite length_drop. lia.
  - by apply Forall_drop.
  - by replace (8 * (a + Z.of_nat 5) + s) with (8 * a + s + Z.of_nat (10 * 4)) by lia.
Qed.

(** A block that holds the codes of bytes is decoded to them. *)
Lemma decode_run p n bs : 0 <= p < 8 * mlen d -> length bs = (4 * n)%nat -> bytes_ok bs ->
  holds d p (code bs) -> gcr_decode_block (DiskTrack (Some d) (mlen d)) p n = Some bs.
Proof.
  intros Hp Hl Hb Hh. unfold gcr_decode_block. cbn [tdata tsize mbind option_bind].
  rewrite Z.shiftr_div_pow2 by lia. change 7 with (Z.ones 3). rewrite Z.land_ones by lia. change (2 ^ 3) with 8.
  assert (p / 8 = (p / 8) mod mlen d) as Hdiv.
  { rewrite Z.mod_small; [done|]. Z.to_euclidean_division_equations. lia. }
  rewrite Hdiv, byte_getb by done. cbn [mbind option_bind]. apply take_groups_run; [|done|done|].
  - apply Z.mod_pos_bound. lia.
  - by rewrite <- Z_div_mod_eq_full.
Qed.

End circle.

(** ** Writing *)

Lemma byte_insert d a x i : 0 < mlen d -> 0 <= i < mlen d ->
  byte (<[Z.to_nat (a mod mlen d) := x]> d) (a + i) = if i =? 0 then x else byte d (a + i).
Proof.
  intros Hsize Hi. unfold byte. rewrite mlen_insert. pose proof (Z.mod_pos_bound a (mlen d) Hsize) as Ha.
  destruct (Z.eqb_spec i 0) as [->|Hne].
  - rewrite Z.add_0_r, list_lookup_insert_eq; [done|]. unfold mlen in *. lia.
  - rewrite list_lookup_insert_ne; [done|]. intros Heq. apply Hne.
    pose proof (Z.mod_pos_bound (a + i) (mlen d) Hsize) as Hai. assert (a mod mlen d = (a + i) mod mlen d) as Hm by lia.
    rewrite <- Zplus_mod_idemp_l in Hm. destruct (Z.lt_ge_cases (a mod mlen d + i) (mlen d)) as [?|?].
    + rewrite (Z.mod_small (_ + i)) in Hm by lia. lia.
    + assert ((a mod mlen d + i) mod mlen d = a mod mlen d + i - mlen d) as Hm2; [|lia].
      replace (a mod mlen d + i) with (a mod mlen d + i - mlen d + 1 * mlen d) at 1 by lia.
      rewrite Z.mod_add by lia. apply Z.mod_small. lia.
Qed.

(** [b] holds the [s] bits in front of a byte. *)
Definition carry (b s : Z) : Prop := 0 <= b < 256 /\ forall k, k < 8 - s -> Z.testbit b k = false.

Lemma carry_step b s g : 0 <= s < 8 -> carry b s -> 0 <= g < 256 ->
  carry (u8 (Z.shiftr (Z.shiftl g 8) s)) s /\
  take (Z.to_nat s) (low 8 b) ++ low 8 g
    = low 8 (u8 (Z.lor b (Z.shiftr g s))) ++ take (Z.to_nat s) (low 8 (u8 (Z.shiftr (Z.shiftl g 8) s))).
Proof.
  intros Hs [Hb Hlow] Hg. split.
  - split; [apply u8_ok|]. intros k Hk. rewrite testbit_u8. destruct (Z.lt_ge_cases k 0) as [?|?].
    { rewrite Z.testbit_neg_r by done. apply andb_false_r. }
    rewrite Z.shiftr_spec, Z.shiftl_spec_low by lia. apply andb_false_r.
  - assert (Hg8 : forall k, 8 <= k -> Z.testbit g k = false) by (intros k Hk; apply (testbit_small g 8); lia).
    assert (s = 0 \/ s = 1 \/ s = 2 \/ s = 3 \/ s = 4 \/ s = 5 \/ s = 6 \/ s = 7) as Hc by lia.
    destruct Hc as [->|[->|[->|[->|[->|[->|[->| ->]]]]]]]; to_bits; bits; clear_bits g Hg8; clear_bits b Hlow;
      rewrite ?orb_false_r; cbn [orb]; reflexivity.
Qed.

Lemma carry_zero b g : carry b 0 -> 0 <= g < 256 ->
  u8 (Z.lor b (Z.shiftr g 0)) = g /\ u8 (Z.shiftr (Z.shiftl g 8) 0) = b.
Proof.
  intros [Hb Hlow] Hg. assert (b = 0) as ->.
  { apply Z.bits_inj'. intros k Hk. rewrite Z.bits_0. destruct (Z.lt_ge_cases k 8) as [?|?]; [apply Hlow; lia|].
    apply (testbit_small b 8); lia. }
  rewrite Z.lor_0_l, !Z.shiftr_0_r. split; [by apply Z.mod_small|]. rewrite Z.shiftl_mul_pow2 by lia.
  unfold u8. change (2 ^ 8) with 256. by apply Z.mod_mul.
Qed.

Lemma bytes_ok_insert (d : mem) i x : bytes_ok d -> 0 <= x < 256 -> bytes_ok (<[i := x]> d).
Proof. intros Hd Hx. by apply Forall_insert. Qed.

Lemma write_bytes_run s gs : forall d a b, 0 < mlen d -> bytes_ok d -> bytes_ok gs -> 0 <= s < 8 ->
  Z.of_nat (length gs) <= mlen d -> carry b s ->
  exists d' b', write_bytes gs d (mlen d) s (a mod mlen d) b = Some (d', ((a + Z.of_nat (length gs)) mod mlen d, b')) /\
    mlen d' = mlen d /\ bytes_ok d' /\ carry b' s /\
    take (Z.to_nat s) (low 8 b) ++ tbits gs = cbits d' (8 * a) (8 * length gs) ++ take (Z.to_nat s) (low 8 b') /\
    (forall i, Z.of_nat (length gs) <= i < mlen d -> byte d' (a + i) = byte d (a + i)).
Proof.
  induction gs as [|g gs IH]; intros d a b Hsize Hd Hgs Hs Hlen Hb; cbn [write_bytes].
  { exists d, b. rewrite Z.add_0_r. split; [done|]. split; [done|]. split; [done|]. split; [done|].
    split; [|done]. cbn. by rewrite app_nil_r. }
  apply Forall_cons in Hgs as [Hg Hgs]. cbn [length] in Hlen. destruct (carry_step b s g Hs Hb Hg) as [Hb1 Hbits1].
  set (x := u8 (Z.lor b (Z.shiftr g s))) in *. set (b1 := u8 (Z.shiftr (Z.shiftl g 8) s)) in *.
  assert ((if negb (s =? 0) then (x, b1) else (g, b)) = (x, b1)) as ->.
  { destruct (Z.eqb_spec s 0) as [->|]; [|done]. destruct (carry_zero b g Hb Hg) as [Hx Hb1']. unfold x, b1. by rewrite Hx, Hb1'. }
  pose proof (Z.mod_pos_bound a (mlen d) Hsize) as Ha. rewrite putb_eq by done. cbn [mbind option_bind].
  rewrite next_byte_turn by done. set (d1 := <[Z.to_nat (a mod mlen d) := x]> d).
  assert (Hl1 : mlen d1 = mlen d) by apply mlen_insert.
  assert (Hd1 : bytes_ok d1) by (apply bytes_ok_insert; [done|apply u8_ok]).
  destruct (IH d1 (a + 1) b1 ltac:(lia) Hd1 Hgs Hs ltac:(lia) Hb1) as (d' & b' & Hw & Hl' & Hd' & Hb' & Hbits & Hrest).
  rewrite Hl1 in Hw, Hl', Hrest. rewrite Hw. exists d', b'. replace (a + 1 + Z.of_nat (length gs)) with (a + Z.of_nat (S (length gs))) by lia.
  split; [done|]. split; [done|]. split; [done|]. split; [done|]. split.
  - replace (8 * length (g :: gs))%nat with (8 + 8 * length gs)%nat by (cbn [length]; lia).
    rewrite cbits_app. unfold tbits in *. cbn [mbind list_bind]. rewrite app_assoc, Hbits1, <- !app_assoc, Hbits.
    replace (8 * (a + 1)) with (8 * a + Z.of_nat 8) by lia. rewrite !app_assoc. do 2 f_equal.
    rewrite cbits_byte by lia. f_equal. rewrite <- (byte_turn d') with (k := 1) by lia.
    replace (a + 1 * mlen d') with (a + 1 + (mlen d - 1)) by lia. rewrite Hrest by lia.
    replace (a + 1 + (mlen d - 1)) with (a + 0 + 1 * mlen d1) by lia. rewrite byte_turn by lia.
    unfold d1. by rewrite byte_insert by lia.
  - intros i Hi. cbn [length] in Hi. replace (a + i) with (a + 1 + (i - 1)) by lia. rewrite Hrest by lia.
    replace (a + 1 + (i - 1)) with (a + i) by lia. unfold d1. rewrite byte_insert by lia.
    by rewrite (proj2 (Z.eqb_neq i 0)) by lia.
Qed.

Lemma write_bytes_app g1 g2 size s : forall d off b, write_bytes (g1 ++ g2) d size s off b =
  ('(d, (off, b)) ← write_bytes g1 d size s off b; write_bytes g2 d size s off b).
Proof.
  induction g1 as [|g g1 IH]; intros d off b; [done|]. cbn [app write_bytes].
  destruct (if negb (s =? 0) then _ else _) as [x b1]. destruct (putb d off x) as [d1|]; [|done].
  cbn [mbind option_bind]. apply IH.
Qed.

Lemma write_groups_run n : forall buf, length buf = (4 * n)%nat -> bytes_ok buf ->
  exists gs, length gs = (5 * n)%nat /\ bytes_ok gs /\ tbits gs = code buf /\
    forall d size s off b, write_groups n buf d size s off b = write_bytes gs d size s off b.
Proof.
  induction n as [|n IH]; intros buf Hl Hb; [exists []; by destruct buf|].
  assert (Hl4 : length (take 4 buf) = 4%nat) by (rewrite length_take; lia).
  destruct (convert_4bytes (take 4 buf)) as (g & Hg & Hlg & Hgb & Hbits); [by apply Forall_take|done|].
  destruct (IH (drop 4 buf)) as (gs & Hlgs & Hgs & Hbits' & Hw); [rewrite length_drop; lia|by apply Forall_drop|].
  exists (g ++ gs). split; [rewrite length_app; lia|]. split; [by apply Forall_app|].
  split; [by rewrite tbits_app, Hbits, Hbits', <- code_app, take_drop|].
  intros d size s off b. cbn [write_groups].
  assert (slice buf 0 4 = Some (take 4 buf)) as ->.
  { unfold slice. change ((0 <=? 0) && (0 <=? 4)) with true. cbn [andb].
    by rewrite (proj2 (Z.leb_le (0 + 4) (mlen buf))) by (unfold mlen; lia). }
  cbn [mbind option_bind]. rewrite Hg. cbn [mbind option_bind]. rewrite write_bytes_app.
  destruct (write_bytes g d size s off b) as [[d1 [o1 b1]]|]; [|done]. cbn [mbind option_bind]. apply Hw.
Qed.

Lemma last_byte b o s : 0 <= s < 8 -> carry b s -> 0 <= o < 256 ->
  low 8 (u8 (Z.lor b (Z.land o (Z.shiftr 0xff s)))) = take (Z.to_nat s) (low 8 b) ++ drop (Z.to_nat s) (low 8 o).
Proof.
  intros Hs [Hb Hlow] Ho. assert (Hb8 : forall k, 8 <= k -> Z.testbit b k = false) by (intros k Hk; apply (testbit_small b 8); lia).
  assert (s = 0 \/ s = 1 \/ s = 2 \/ s = 3 \/ s = 4 \/ s = 5 \/ s = 6 \/ s = 7) as Hc by lia.
  destruct Hc as [->|[->|[->|[->|[->|[->|[->| ->]]]]]]]; to_bits; bits;
    repeat match goal with |- context [Z.testbit 255 ?k] => let v := eval vm_compute in (Z.testbit 255 k) in
      change (Z.testbit 255 k) with v end;
    clear_bits b Hlow; cbn [andb orb]; rewrite ?andb_true_r, ?andb_false_r, ?orb_false_r; reflexivity.
Qed.

Lemma first_carry o s : 0 <= o < 256 -> 0 <= s < 8 -> carry (u8 (Z.land o (Z.shiftr 0xff00 s))) s /\
  take (Z.to_nat s) (low 8 (u8 (Z.land o (Z.shiftr 0xff00 s)))) = take (Z.to_nat s) (low 8 o).
Proof.
  intros Ho Hs. assert (s = 0 \/ s = 1 \/ s = 2 \/ s = 3 \/ s = 4 \/ s = 5 \/ s = 6 \/ s = 7) as Hc by lia. split.
  - split; [apply u8_ok|]. intros k Hk. rewrite testbit_u8, Z.land_spec. destruct (Z.lt_ge_cases k 0) as [?|?].
    { rewrite (Z.testbit_neg_r o) by done. by rewrite andb_false_r. }
    rewrite (Z.shiftr_spec 0xff00) by done. change 0xff00 with (Z.shiftl 0xff 8).
    rewrite Z.shiftl_spec_low by lia. by rewrite !andb_false_r.
  - destruct Hc as [->|[->|[->|[->|[->|[->|[->| ->]]]]]]]; to_bits; bits;
      repeat match goal with |- context [Z.testbit 0xff00 ?k] => let v := eval vm_compute in (Z.testbit 0xff00 k) in
        change (Z.testbit 0xff00 k) with v end;
      rewrite ?andb_true_r; reflexivity.
Qed.

(** Equal bytes have equal bits. *)
Lemma cbit_bytes d d' a j : 0 < mlen d -> 0 < mlen d' -> byte d' (a + j / 8) = byte d (a + j / 8) ->
  cbit d' (8 * a + j) = cbit d (8 * a + j).
Proof.
  intros Hd Hd' Heq. unfold cbit.
  replace ((8 * a + j) / 8) with (a + j / 8) by (Z.to_euclidean_division_equations; lia). by rewrite Heq.
Qed.

(** The block at [p] holds the codes of [buf]; the other bits are as they were. *)
Definition rewritten (d : mem) (p : Z) (buf : mem) (d' : mem) : Prop :=
  mlen d' = mlen d /\ bytes_ok d' /\ holds d' p (code buf) /\
  forall j, Z.of_nat (length (code buf)) <= j < 8 * mlen d -> cbit d' (p + j) = cbit d (p + j).

(** A track whose bytes from [a] to [a + n] hold [l] behind the first [s] bits *)
Lemma rewritten_intro d d' a s n l buf : 0 < mlen d -> bytes_ok d -> mlen d' = mlen d -> bytes_ok d' ->
  0 <= s < 8 -> length l = (8 * n)%nat -> Z.of_nat n < mlen d -> l = code buf ->
  cbits d' (8 * a) (8 * n + 8) = take (Z.to_nat s) (low 8 (byte d a)) ++ l
    ++ drop (Z.to_nat s) (low 8 (byte d (a + Z.of_nat n))) ->
  (forall i, Z.of_nat n < i < mlen d -> byte d' (a + i) = byte d (a + i)) ->
  rewritten d (8 * a + s) buf d'.
Proof.
  intros Hsize Hd Hl' Hd' Hs Hl Hn -> Hbits Hrest.
  replace (8 * n + 8)%nat with (Z.to_nat s + (8 * n + (8 - Z.to_nat s)))%nat in Hbits by lia.
  rewrite !cbits_app in Hbits. apply app_inj_1 in Hbits as [E1 Hbits];
    [|rewrite length_cbits, length_take, length_low; lia].
  apply app_inj_1 in Hbits as [E2 E3]; [|by rewrite length_cbits]. rewrite !Z2Nat.id in E2, E3 by lia.
  rewrite <- (cbits_byte d) in E1, E3 by done.
  split; [done|]. split; [done|]. split; [unfold holds; by rewrite Hl|]. rewrite Hl. intros j Hj.
  destruct (Z.lt_ge_cases (s + j) (8 * Z.of_nat n + 8)) as [Hlast|Hlast].
  { apply (f_equal (.!! Z.to_nat (j - 8 * Z.of_nat n))) in E3.
    rewrite lookup_drop, !cbits_lookup in E3 by lia. apply (inj Some) in E3.
    replace (8 * a + s + Z.of_nat (8 * n) + Z.of_nat (Z.to_nat (j - 8 * Z.of_nat n))) with (8 * a + s + j) in E3 by lia.
    rewrite E3. f_equal. lia. }
  destruct (Z.lt_ge_cases (s + j) (8 * mlen d)) as [Hin|Hover].
  - rewrite <- Z.add_assoc. apply cbit_bytes; [done|lia|]. apply Hrest. Z.to_euclidean_division_equations. lia.
  - apply (f_equal (.!! Z.to_nat (s + j - 8 * mlen d))) in E1.
    rewrite lookup_take_lt, !cbits_lookup in E1 by lia. apply (inj Some) in E1. rewrite Z2Nat.id in E1 by lia.
    rewrite <- (cbit_turn d' ltac:(lia) _ 1), <- (cbit_turn d Hsize (_ + (s + j - 8 * mlen d)) 1) in E1.
    rewrite Hl' in E1. by replace (8 * a + (s + j - 8 * mlen d) + 1 * (8 * mlen d)) with (8 * a + s + j) in E1 by lia.
Qed.

Lemma block_write_run d p buf : bytes_ok d -> 326 <= mlen d -> 0 <= p < 8 * mlen d -> length buf = 260%nat ->
  bytes_ok buf -> exists d', write_block d (mlen d) p buf = Some d' /\ rewritten d p buf d'.
Proof.
  intros Hd Hsize Hp Hl Hb. unfold write_block. rewrite (Z.shiftr_div_pow2 p 3) by lia. change 7 with (Z.ones 3).
  rewrite Z.land_ones by lia. change (2 ^ 3) with 8. set (s := p mod 8). set (a := p / 8).
  assert (Hs : 0 <= s < 8) by (apply Z.mod_pos_bound; lia). assert (Hpa : p = 8 * a + s) by apply Z_div_mod_eq_full.
  assert (Ha : a = a mod mlen d) by (symmetry; apply Z.mod_small; lia). rewrite Ha, byte_getb by lia.
  cbn [mbind option_bind]. destruct (write_groups_run 65 buf Hl Hb) as (gs & Hlg & Hgs & Hgbits & ->).
  pose proof (byte_ok d ltac:(lia) Hd a) as Ho. destruct (first_carry (byte d a) s Ho Hs) as [Hc Hc0].
  destruct (write_bytes_run s gs d a _ ltac:(lia) Hd Hgs Hs ltac:(lia) Hc) as (d1 & b1 & -> & Hl1 & Hd1 & Hb1 & Hbits & Hrest).
  cbn [mbind option_bind]. set (e := a + Z.of_nat (length gs)) in *. rewrite <- Hl1, byte_getb by lia. cbn [mbind option_bind].
  pose proof (Z.mod_pos_bound e (mlen d1) ltac:(lia)) as He. rewrite putb_eq by done.
  set (x := u8 (Z.lor b1 (Z.land (byte d1 e) (Z.shiftr 0xff s)))).
  set (d2 := <[Z.to_nat (e mod mlen d1) := x]> d1). exists d2. split; [done|].
  assert (Hl2 : mlen d2 = mlen d) by (unfold d2; by rewrite mlen_insert).
  assert (Hd2 : bytes_ok d2) by (apply bytes_ok_insert; [done|apply u8_ok]).
  assert (Hother : forall i, 0 < i < mlen d -> byte d2 (e + i) = byte d1 (e + i)).
  { intros i Hi. unfold d2. rewrite byte_insert by lia. by rewrite (proj2 (Z.eqb_neq i 0)) by lia. }
  assert (He2 : byte d2 e = x).
  { rewrite <- (Z.add_0_r e). unfold d2. by rewrite byte_insert by lia. }
  assert (Ho2 : byte d1 e = byte d e) by (unfold e; apply Hrest; lia).
  rewrite Hpa. apply (rewritten_intro d d2 a s (length gs) (tbits gs)); try done; [lia|apply length_tbits|lia| |].
  - rewrite cbits_app. rewrite (cbits_ext d2 d1 _ (8 * a)).
    + replace (8 * a + Z.of_nat (8 * length gs)) with (8 * e) by (unfold e; lia).
      rewrite cbits_byte, He2 by lia. unfold x. rewrite last_byte; [|exact Hs|exact Hb1|apply byte_ok; [lia|done]].
      rewrite Ho2, !app_assoc. f_equal. by rewrite <- Hbits, Hc0.
    + intros i Hi. apply cbit_bytes; [lia|lia|].
      rewrite <- (byte_turn d2 ltac:(lia) _ 1), <- (byte_turn d1 ltac:(lia) (a + i / 8) 1), Hl2, Hl1.
      replace (a + i / 8 + 1 * mlen d) with (e + (mlen d - Z.of_nat (length gs) + i / 8)) by (unfold e; lia).
      apply Hother. Z.to_euclidean_division_equations. lia.
  - intros i Hi. rewrite <- Hrest by lia. replace (a + i) with (e + (i - Z.of_nat (length gs))) by (unfold e; lia).
    apply Hother. lia.
Qed.

End GcrSpec.
