(* ===== verification/FluxSpec.v ===== *)
(** * Specification of formatted tracks

    A raw track is formatted when its marks are those of its sectors, and behind them are
    the codes of a header and a block. Every sector of such a track is found from any
    position of the head and read back; writing a sector changes its data and nothing
    else. The tracks made from a disk image are formatted. *)

From S2P Require Import Prelude Geometry Image VDrive Bam Gcr GcrSpec.
Import Gcr GcrSpec.

Module FluxSpec.

(** ** Sectors of a track *)

Definition header_check (h : gcr_header_t) : Z :=
  Z.lxor (Z.lxor (Z.lxor (h_sector h) (h_track h)) (h_id2 h)) (h_id1 h).
Definition header_bytes (h : gcr_header_t) : mem :=
  [8; header_check h; h_sector h; h_track h; h_id2 h; h_id1 h; 15; 15].
Definition block_bytes (data : mem) : mem := 7 :: data ++ [foldl Z.lxor 0 data; 0; 0].
Definition disk_id (h : gcr_header_t) : Z := h_id2 h * 256 + h_id1 h.

Definition header_ok (h : gcr_header_t) : Prop :=
  0 <= h_sector h < 256 /\ 0 <= h_track h < 256 /\ 0 <= h_id2 h < 256 /\ 0 <= h_id1 h < 256.

(** A sector: the position of its header, the distance to its block, and what they hold *)
Record sector_t := Sector { sc_pos : Z; sc_gap : Z; sc_header : gcr_header_t; sc_data : mem }.

Definition sc_block (s : sector_t) : Z := sc_pos s + sc_gap s.

Record sector_on (d : mem) (s : sector_t) : Prop := {
  so_header : header_ok (sc_header s);
  so_length : mlen (sc_data s) = 256;
  so_data : bytes_ok (sc_data s);
  so_pos : 0 <= sc_pos s < 8 * mlen d;
  so_gap : 0 < sc_gap s < 4000;
  so_on_header : holds d (sc_pos s) (code (header_bytes (sc_header s)));
  so_on_block : holds d (sc_block s) (code (block_bytes (sc_data s)));
  so_next : forall k, 0 < k < sc_gap s -> ~ mark d (sc_pos s + k)
}.

Definition same (d : mem) (p q : Z) : Prop := p mod (8 * mlen d) = q mod (8 * mlen d).

Record formatted (d : mem) (l : list sector_t) : Prop := {
  fm_size : 335 <= mlen d;
  fm_ok : bytes_ok d;
  fm_sectors : forall s, s ∈ l -> sector_on d s;
  fm_marks : forall q, mark d q <-> exists s, s ∈ l /\ (same d q (sc_pos s) \/ same d q (sc_block s));
  fm_nodup : NoDup ((fun s => h_sector (sc_header s)) <$> l)
}.

Lemma some_element {A} (l : list A) : l <> [] -> exists x, x ∈ l.
Proof. intros Hne. destruct l as [|x l]; [done|]. exists x. by left. Qed.

Lemma xor_fold c l : foldl Z.lxor c l = Z.lxor c (foldl Z.lxor 0 l).
Proof.
  revert c. induction l as [|x l IH]; intros c; cbn; [by rewrite Z.lxor_0_r|].
  rewrite IH, (IH (Z.lxor 0 x)), Z.lxor_0_l, Z.lxor_assoc. done.
Qed.

Lemma xor_bytes l c : 0 <= c < 256 -> bytes_ok l -> 0 <= foldl Z.lxor c l < 256.
Proof.
  revert c. induction l as [|x l IH]; intros c Hc Hl; [done|]. apply Forall_cons in Hl as [Hx Hl]. cbn.
  apply IH; [|done]. assert (Z.lxor c x = u8 (Z.lxor c x)) as ->; [|apply u8_ok].
  apply Z.bits_inj'. intros k Hk. rewrite testbit_u8. destruct (Z.ltb_spec k 8); [done|].
  cbn [andb]. rewrite Z.lxor_spec. by rewrite (testbit_small c 8), (testbit_small x 8) by lia.
Qed.

Lemma header_check_ok h : header_ok h -> 0 <= header_check h < 256.
Proof.
  intros (Hs & Ht & H2 & H1). apply (xor_bytes [h_track h; h_id2 h; h_id1 h]); [done|].
  by rewrite !Forall_cons, Forall_nil.
Qed.

Lemma header_bytes_ok h : header_ok h -> bytes_ok (header_bytes h).
Proof. intros Hh. pose proof (header_check_ok h Hh). destruct Hh as (Hs & Ht & H2 & H1). unfold header_bytes. by rewrite !Forall_cons, Forall_nil. Qed.

Lemma block_bytes_ok data : bytes_ok data -> bytes_ok (block_bytes data).
Proof.
  intros Hd. constructor; [done|]. apply Forall_app. split; [done|].
  constructor; [by apply xor_bytes|]. by rewrite !Forall_cons, Forall_nil.
Qed.

Lemma length_block data : mlen data = 256 -> length (block_bytes data) = 260%nat.
Proof. unfold mlen. intros H. cbn. rewrite length_app. cbn. lia. Qed.

(** ** Positions *)

Section positions.
Variables (d : mem).
Hypothesis (Hsize : 0 < mlen d).

Lemma holds_same p q bs : same d p q -> holds d p bs -> holds d q bs.
Proof.
  unfold holds, same. intros Heq <-. rewrite length_cbits. apply cbits_ext. intros i Hi.
  rewrite <- (cbit_mod d Hsize (q + i)), <- (cbit_mod d Hsize (p + i)).
  rewrite <- (Zplus_mod_idemp_l q), <- Heq. by rewrite Zplus_mod_idemp_l.
Qed.

Lemma mark_same p q : same d p q -> mark d p -> mark d q.
Proof. unfold same. intros Heq. rewrite <- (mark_mod d Hsize p), Heq. by rewrite mark_mod. Qed.

Lemma same_mod p : same d (p mod (8 * mlen d)) p.
Proof. unfold same. apply Zmod_mod. Qed.

Lemma same_small p q : 0 <= p < 8 * mlen d -> 0 <= q < 8 * mlen d -> same d p q -> p = q.
Proof. unfold same. intros Hp Hq. by rewrite !Z.mod_small. Qed.

(** The distance from [p] on to [q] *)
Definition ahead (p q : Z) : Z := (q - p) mod (8 * mlen d).

Lemma ahead_bound p q : 0 <= ahead p q < 8 * mlen d.
Proof. apply Z.mod_pos_bound. lia. Qed.

Lemma ahead_same p q : same d (p + ahead p q) q.
Proof. unfold same, ahead. rewrite Zplus_mod_idemp_r. f_equal. lia. Qed.

Lemma ahead_zero p q : 0 <= p < 8 * mlen d -> 0 <= q < 8 * mlen d -> ahead p q = 0 <-> p = q.
Proof.
  intros Hp Hq. split; [|intros ->; unfold ahead; by rewrite Z.sub_diag].
  intros H. apply same_small; [done|done|]. pose proof (ahead_same p q) as Hs. rewrite H, Z.add_0_r in Hs. done.
Qed.

Lemma ahead_step p q k : 0 <= k <= ahead p q -> ahead ((p + k) mod (8 * mlen d)) q = ahead p q - k.
Proof.
  intros Hk. unfold ahead in *. rewrite Zminus_mod_idemp_r. replace (q - (p + k)) with (q - p - k) by lia.
  rewrite <- Zminus_mod_idemp_l. apply Z.mod_small. pose proof (Z.mod_pos_bound (q - p) (8 * mlen d)). lia.
Qed.

End positions.

Section track.
Variables (d : mem) (l : list sector_t).
Hypothesis (Hf : formatted d l).

Let Hsize : 0 < mlen d.
Proof. pose proof (fm_size _ _ Hf). lia. Qed.
Let Hok : bytes_ok d := fm_ok _ _ Hf.

Lemma header_mark s : s ∈ l -> mark d (sc_pos s).
Proof. intros Hs. apply (fm_marks _ _ Hf). exists s. split; [done|]. by left. Qed.

Lemma block_mark s : s ∈ l -> mark d (sc_block s).
Proof. intros Hs. apply (fm_marks _ _ Hf). exists s. split; [done|]. by right. Qed.

(** A header is not the front of a block. *)
Lemma header_not_block q h data : holds d q (code (header_bytes h)) -> holds d q (code (block_bytes data)) -> False.
Proof.
  intros Hh Hb. change (header_bytes h) with ([8] ++ tail (header_bytes h)) in Hh.
  change (block_bytes data) with ([7] ++ tail (block_bytes data)) in Hb. rewrite code_app in Hh, Hb.
  apply holds_app in Hh as [Hh _]. apply holds_app in Hb as [Hb _]. unfold holds in Hh, Hb.
  change (length (code [8])) with 10%nat in Hh. change (length (code [7])) with 10%nat in Hb. rewrite Hh in Hb. vm_compute in Hb. discriminate Hb.
Qed.

(** What is decoded at a mark: the header of a sector or the front of a block *)
Definition read_at (q : Z) (bs : mem) : Prop :=
  (exists s, s ∈ l /\ q = sc_pos s /\ bs = header_bytes (sc_header s)) \/
  (getb bs 0 = Some 7 /\ length bs = 8%nat /\ forall s, s ∈ l -> q <> sc_pos s).

Lemma decode_mark q : 0 <= q < 8 * mlen d -> mark d q -> exists bs,
  gcr_decode_block (DiskTrack (Some d) (mlen d)) q 2 = Some bs /\ read_at q bs.
Proof.
  intros Hq Hm. apply (fm_marks _ _ Hf) in Hm as (s & Hs & Hcase). pose proof (fm_sectors _ _ Hf s Hs) as Hon.
  destruct Hcase as [Heq|Heq].
  - apply (same_small d) in Heq as ->; [|done|apply Hon]. exists (header_bytes (sc_header s)). split.
    + apply decode_run; [done|done|done|done|apply header_bytes_ok, Hon|apply Hon].
    + left. by exists s.
  - assert (Hb : holds d q (code (block_bytes (sc_data s)))) by (eapply (holds_same d Hsize); [symmetry; exact Heq|apply Hon]).
    pose proof (length_block _ (so_length _ _ Hon)) as Hl. pose proof (block_bytes_ok _ (so_data _ _ Hon)) as Hbok.
    exists (take 8 (block_bytes (sc_data s))). split.
    + apply decode_run; [done|done|done|rewrite length_take; lia|by apply Forall_take|].
      rewrite <- (take_drop 8 (block_bytes _)), code_app in Hb. by apply holds_app in Hb as [Hb _].
    + right. split; [done|]. split; [rewrite length_take; lia|]. intros s' Hs' ->.
      eapply header_not_block; [apply (fm_sectors _ _ Hf s' Hs')|exact Hb].
Qed.

(** ** The search *)

(** From a mark, the search finds the next one: it comes at most to [q]. *)
Lemma next_mark p q : 0 <= p < 8 * mlen d -> mark d p -> mark d q -> 0 < ahead d p q -> exists k,
  0 < k <= ahead d p q /\ mark d (p + k) /\
  gcr_find_sync (DiskTrack (Some d) (mlen d)) p (8 * mlen d) = Some ((p + k) mod (8 * mlen d)).
Proof.
  intros Hp Hmp Hmq Ha. destruct (find_sync_run d Hsize p (8 * mlen d) Hp ltac:(lia)) as (r & Hr & Hres).
  assert (Hmk : mark d (p + ahead d p q)) by (eapply (mark_same d Hsize); [symmetry; apply ahead_same|exact Hmq]).
  pose proof (marks_apart d p (ahead d p q) Hmp Hmk Ha) as Hfar. pose proof (ahead_bound d Hsize p q).
  destruct Hres as [k Hk [Hk10 Hmark] Hfirst|Hnone].
  - exists k. split; [|by rewrite Hr]. split; [lia|]. destruct (Z.lt_ge_cases (ahead d p q) k) as [Hlt|?]; [|done].
    exfalso. apply (Hfirst (ahead d p q)); [lia|]. split; [lia|done].
  - exfalso. apply (Hnone (ahead d p q)); [lia|]. split; [lia|done].
Qed.

(** From any position, the search finds a mark. *)
Lemma first_mark p s : s ∈ l -> 0 <= p < 8 * mlen d -> exists q, 0 <= q < 8 * mlen d /\ mark d q /\
  gcr_find_sync (DiskTrack (Some d) (mlen d)) p (8 * mlen d) = Some q.
Proof.
  intros Hs Hp. destruct (find_sync_run d Hsize p (8 * mlen d) Hp ltac:(lia)) as (r & Hr & Hres).
  destruct Hres as [k Hk [Hk10 Hmark] Hfirst|Hnone].
  { exists ((p + k) mod (8 * mlen d)). split; [apply Z.mod_pos_bound; lia|]. split; [by apply mark_mod|done]. }
  exfalso. set (a := ahead d p (sc_pos s)). set (b := ahead d p (sc_block s)).
  assert (Ha : mark d (p + a)) by (eapply (mark_same d Hsize); [symmetry; apply ahead_same|by apply header_mark]).
  assert (Hb : mark d (p + b)) by (eapply (mark_same d Hsize); [symmetry; apply ahead_same|by apply block_mark]).
  pose proof (ahead_bound d Hsize p (sc_pos s)) as Hab. pose proof (ahead_bound d Hsize p (sc_block s)) as Hbb. fold a in Hab. fold b in Hbb.
  assert (Ha10 : a < 10). { destruct (Z.lt_ge_cases a 10); [done|]. exfalso. by apply (Hnone a). }
  assert (Hb10 : b < 10). { destruct (Z.lt_ge_cases b 10); [done|]. exfalso. by apply (Hnone b). }
  destruct (Z.lt_trichotomy a b) as [Hlt|[Heq|Hlt]].
  - replace (p + b) with (p + a + (b - a)) in Hb by lia. pose proof (marks_apart _ _ _ Ha Hb). lia.
  - pose proof (fm_sectors _ _ Hf s Hs) as Hon.
    eapply (header_not_block (p + a)); eapply (holds_same d Hsize); [symmetry; apply ahead_same|apply Hon| |apply Hon].
    rewrite Heq. symmetry. apply ahead_same.
  - replace (p + a) with (p + b + (a - b)) in Ha by lia. pose proof (marks_apart _ _ _ Hb Ha). lia.
Qed.

Let raw : disk_track_t := DiskTrack (Some d) (mlen d).

Lemma header_sum h : Z.lxor (Z.lxor (Z.lxor (Z.lxor (header_check h) (h_sector h)) (h_track h)) (h_id2 h)) (h_id1 h) = 0.
Proof.
  unfold header_check. apply Z.bits_inj'. intros k Hk. rewrite !Z.lxor_spec, Z.bits_0.
  by destruct (Z.testbit (h_sector h) k), (Z.testbit (h_track h) k), (Z.testbit (h_id2 h) k), (Z.testbit (h_id1 h) k).
Qed.

Lemma same_number s s' : s ∈ l -> s' ∈ l -> h_sector (sc_header s) = h_sector (sc_header s') -> s = s'.
Proof.
  intros (i & Hi)%list_elem_of_lookup (j & Hj)%list_elem_of_lookup Heq.
  assert (i = j) as ->; [|congruence].
  eapply (NoDup_lookup _ i j (h_sector (sc_header s)) (fm_nodup _ _ Hf)); rewrite list_lookup_fmap;
    [by rewrite Hi|by rewrite Hj, Heq].
Qed.

(** One round of the search *)
Lemma round_run fuel n p2 hd pid p r bs h0 h1 h2 h3 h4 h5 :
  gcr_find_sync raw p (8 * mlen d) = Some r -> p2 <> r -> gcr_decode_block raw r 2 = Some bs ->
  getb bs 0 = Some h0 -> getb bs 1 = Some h1 -> getb bs 2 = Some h2 -> getb bs 3 = Some h3 ->
  getb bs 4 = Some h4 -> getb bs 5 = Some h5 ->
  header_loop (S fuel) raw n p2 hd pid p =
    let p2 := if p2 <? 0 then r else p2 in
    let id := Some (u16 (h4 * 256 + h5)) in
    if h0 =? 0x08 then
      if negb (Z.lxor (Z.lxor (Z.lxor (Z.lxor h1 h2) h3) h4) h5 =? 0)
      then Some (- CBMDOS_FDC_ERR_HCHECK, bs, id, r)
      else if (n <? 0) || (h2 =? n) then Some (r, bs, id, r)
      else header_loop fuel raw n p2 bs id r
    else header_loop fuel raw n p2 bs pid r.
Proof.
  intros Hfind Hne Hdec H0 H1 H2 H3 H4 H5. cbn [header_loop]. unfold bindST at 1, state.
  change (tsize raw) with (mlen d). rewrite Z.mul_comm in Hfind.
  rewrite (bind_run (lift _) _ _ r p) by (unfold lift; by rewrite Hfind). unfold mbind at 1, ST_bind.
  rewrite (bind_run (modify _) _ _ tt r) by done. rewrite (proj2 (Z.eqb_neq p2 r) Hne).
  rewrite (bind_run (lift _) _ _ bs r) by (unfold lift; by rewrite Hdec).
  rewrite (bind_run (lift _) _ _ (h0, h2, Z.lxor (Z.lxor (Z.lxor (Z.lxor h1 h2) h3) h4) h5, u16 (h4 * 256 + h5)) r)
    by (unfold lift; by rewrite H0, H1, H2, H3, H4, H5).
  cbv zeta beta iota. destruct (h0 =? 8); [|done]. by repeat match goal with |- context [if ?b then _ else _] => destruct b end.
Qed.

(** One round at a mark: the header of the sector ends the search. *)
Lemma loop_step fuel n p2 hd pid p r : 0 <= n -> 0 <= r < 8 * mlen d -> mark d r -> p2 <> r ->
  gcr_find_sync raw p (8 * mlen d) = Some r ->
  (exists s, s ∈ l /\ h_sector (sc_header s) = n /\
     header_loop (S fuel) raw n p2 hd pid p
       = Some (sc_pos s, header_bytes (sc_header s), Some (disk_id (sc_header s)), sc_pos s)) \/
  ((forall s, s ∈ l -> h_sector (sc_header s) = n -> r <> sc_pos s) /\ exists hd' pid',
     header_loop (S fuel) raw n p2 hd pid p
       = header_loop fuel raw n (if p2 <? 0 then r else p2) hd' pid' r).
Proof.
  intros Hn Hr Hm Hne Hfind. destruct (decode_mark r Hr Hm) as (bs & Hdec & [(s & Hs & -> & ->)|(H7 & Hl & Hno)]).
  - pose proof (fm_sectors _ _ Hf s Hs) as Hon. pose proof (so_header _ _ Hon) as (Hb1 & Hb2 & Hb3 & Hb4).
    rewrite (round_run fuel n p2 hd pid p (sc_pos s) (header_bytes (sc_header s)) 8 (header_check (sc_header s))
      (h_sector (sc_header s)) (h_track (sc_header s)) (h_id2 (sc_header s)) (h_id1 (sc_header s))) by done.
    cbv zeta. rewrite header_sum. change (8 =? 8) with true. change (0 =? 0) with true. cbn [negb].
    rewrite (proj2 (Z.ltb_ge n 0)) by done. cbn [orb]. destruct (Z.eqb_spec (h_sector (sc_header s)) n) as [Heq|Hdiff].
    + left. exists s. split; [done|]. split; [done|]. do 4 f_equal. unfold u16. apply Z.mod_small. unfold disk_id. lia.
    + right. split; [|by eexists _, _]. intros s' Hs' Hn' Hpos. apply Hdiff. rewrite <- Hn'.
      pose proof (fm_sectors _ _ Hf s' Hs') as Hon'.
      assert (Hdec' : gcr_decode_block raw (sc_pos s) 2 = Some (header_bytes (sc_header s'))).
      { apply decode_run; [done|done|done|done|apply header_bytes_ok, Hon'|]. rewrite Hpos. apply Hon'. }
      unfold raw in Hdec'. rewrite Hdec in Hdec'. apply (inj Some), (f_equal (.!! 2%nat)) in Hdec'. cbn in Hdec'. congruence.
  - right. split; [by intros s Hs _; apply Hno|].
    destruct (getb_is_Some bs 1) as [h1 H1]; [unfold mlen; lia|]. destruct (getb_is_Some bs 2) as [h2 H2]; [unfold mlen; lia|].
    destruct (getb_is_Some bs 3) as [h3 H3]; [unfold mlen; lia|]. destruct (getb_is_Some bs 4) as [h4 H4]; [unfold mlen; lia|].
    destruct (getb_is_Some bs 5) as [h5 H5]; [unfold mlen; lia|].
    rewrite (round_run fuel n p2 hd pid p r bs 7 h1 h2 h3 h4 h5) by done. by eexists _, _.
Qed.

(** The search comes to the header of the sector. *)
Lemma loop_to s fuel : s ∈ l -> forall p p2 hd pid, 0 <= p < 8 * mlen d -> mark d p -> 0 <= p2 < 8 * mlen d ->
  0 < ahead d p (sc_pos s) <= ahead d p2 (sc_pos s) -> ahead d p (sc_pos s) < Z.of_nat fuel ->
  header_loop fuel raw (h_sector (sc_header s)) p2 hd pid p
    = Some (sc_pos s, header_bytes (sc_header s), Some (disk_id (sc_header s)), sc_pos s).
Proof.
  intros Hs. pose proof (so_pos _ _ (fm_sectors _ _ Hf s Hs)) as Hpos.
  pose proof (so_header _ _ (fm_sectors _ _ Hf s Hs)) as (Hn & _).
  induction fuel as [|fuel IH]; intros p p2 hd pid Hp Hm Hp2 Ha Hfuel; [lia|].
  destruct (next_mark p (sc_pos s) Hp Hm (header_mark s Hs) (proj1 Ha)) as (k & Hk & Hmk & Hfind).
  set (r := (p + k) mod (8 * mlen d)) in *. assert (Hr : 0 <= r < 8 * mlen d) by (apply Z.mod_pos_bound; lia).
  assert (Har : ahead d r (sc_pos s) = ahead d p (sc_pos s) - k) by (apply (ahead_step d Hsize); lia).
  destruct (loop_step fuel (h_sector (sc_header s)) p2 hd pid p r (proj1 Hn) Hr) as [(s' & Hs' & Hn' & Hrun)|(Hno & hd' & pid' & Hrun)].
  - by apply mark_mod.
  - intros ->. lia.
  - exact Hfind.
  - rewrite Hrun. by rewrite (same_number s' s Hs' Hs Hn').
  - rewrite Hrun, (proj2 (Z.ltb_ge p2 0)) by lia. apply IH; [done|by apply mark_mod|done| |lia].
    assert (ahead d r (sc_pos s) <> 0); [|lia]. rewrite (ahead_zero d) by done. by apply Hno.
Qed.

(** The header is found from any position. *)
Lemma header_run s fuel p : s ∈ l -> 0 <= p < 8 * mlen d -> 8 * mlen d < Z.of_nat fuel ->
  gcr_read_sector_header fuel raw (h_sector (sc_header s)) p
    = Some (sc_pos s, header_bytes (sc_header s), Some (disk_id (sc_header s)), sc_pos s).
Proof.
  intros Hs Hp Hfuel. destruct fuel as [|fuel]; [lia|]. unfold gcr_read_sector_header.
  pose proof (so_pos _ _ (fm_sectors _ _ Hf s Hs)) as Hpos. pose proof (so_header _ _ (fm_sectors _ _ Hf s Hs)) as (Hn & _).
  destruct (first_mark p s Hs Hp) as (r & Hr & Hm & Hfind).
  destruct (loop_step fuel (h_sector (sc_header s)) (- CBMDOS_FDC_ERR_SYNC) [] None p r (proj1 Hn) Hr Hm)
    as [(s' & Hs' & Hn' & Hrun)|(Hno & hd' & pid' & Hrun)].
  - unfold CBMDOS_FDC_ERR_SYNC. lia.
  - exact Hfind.
  - rewrite Hrun. by rewrite (same_number s' s Hs' Hs Hn').
  - rewrite Hrun. change (- CBMDOS_FDC_ERR_SYNC <? 0) with true. cbv iota. pose proof (ahead_bound d Hsize r (sc_pos s)).
    apply loop_to; [done|done|done|done| |lia].
    assert (ahead d r (sc_pos s) <> 0); [|lia]. rewrite (ahead_zero d) by done. by apply Hno.
Qed.

(** ** The search for any header *)

(** Without a wanted sector a round ends at the first header. *)
Lemma number_step fuel p2 hd pid p r : 0 <= r < 8 * mlen d -> mark d r -> p2 <> r ->
  gcr_find_sync raw p (8 * mlen d) = Some r ->
  (exists s, s ∈ l /\ header_loop (S fuel) raw (-1) p2 hd pid p
       = Some (sc_pos s, header_bytes (sc_header s), Some (disk_id (sc_header s)), sc_pos s)) \/
  ((forall s, s ∈ l -> r <> sc_pos s) /\ exists hd' pid',
     header_loop (S fuel) raw (-1) p2 hd pid p = header_loop fuel raw (-1) (if p2 <? 0 then r else p2) hd' pid' r).
Proof.
  intros Hr Hm Hne Hfind. destruct (decode_mark r Hr Hm) as (bs & Hdec & [(s & Hs & -> & ->)|(H7 & Hl & Hno)]).
  - left. exists s. split; [done|]. pose proof (so_header _ _ (fm_sectors _ _ Hf s Hs)) as (Hb1 & Hb2 & Hb3 & Hb4).
    rewrite (round_run fuel (-1) p2 hd pid p (sc_pos s) (header_bytes (sc_header s)) 8 (header_check (sc_header s))
      (h_sector (sc_header s)) (h_track (sc_header s)) (h_id2 (sc_header s)) (h_id1 (sc_header s))) by done.
    cbv zeta. rewrite header_sum. do 4 f_equal. unfold u16. apply Z.mod_small. unfold disk_id. lia.
  - right. split; [done|].
    destruct (getb_is_Some bs 1) as [h1 H1]; [unfold mlen; lia|]. destruct (getb_is_Some bs 2) as [h2 H2]; [unfold mlen; lia|].
    destruct (getb_is_Some bs 3) as [h3 H3]; [unfold mlen; lia|]. destruct (getb_is_Some bs 4) as [h4 H4]; [unfold mlen; lia|].
    destruct (getb_is_Some bs 5) as [h5 H5]; [unfold mlen; lia|].
    rewrite (round_run fuel (-1) p2 hd pid p r bs 7 h1 h2 h3 h4 h5) by done. by eexists _, _.
Qed.

Lemma number_to s fuel : s ∈ l -> forall p p2 hd pid, 0 <= p < 8 * mlen d -> mark d p -> 0 <= p2 < 8 * mlen d ->
  0 < ahead d p (sc_pos s) <= ahead d p2 (sc_pos s) -> ahead d p (sc_pos s) < Z.of_nat fuel ->
  exists s', s' ∈ l /\ header_loop fuel raw (-1) p2 hd pid p
    = Some (sc_pos s', header_bytes (sc_header s'), Some (disk_id (sc_header s')), sc_pos s').
Proof.
  intros Hs. pose proof (so_pos _ _ (fm_sectors _ _ Hf s Hs)) as Hpos.
  induction fuel as [|fuel IH]; intros p p2 hd pid Hp Hm Hp2 Ha Hfuel; [lia|].
  destruct (next_mark p (sc_pos s) Hp Hm (header_mark s Hs) (proj1 Ha)) as (k & Hk & Hmk & Hfind).
  set (r := (p + k) mod (8 * mlen d)) in *. assert (Hr : 0 <= r < 8 * mlen d) by (apply Z.mod_pos_bound; lia).
  assert (Har : ahead d r (sc_pos s) = ahead d p (sc_pos s) - k) by (apply (ahead_step d Hsize); lia).
  destruct (number_step fuel p2 hd pid p r Hr) as [(s' & Hs' & Hrun)|(Hno & hd' & pid' & Hrun)];
    [by apply mark_mod|intros ->; lia|exact Hfind|by exists s'|].
  rewrite Hrun, (proj2 (Z.ltb_ge p2 0)) by lia. apply IH; [done|by apply mark_mod|done| |lia].
  assert (ahead d r (sc_pos s) <> 0); [|lia]. rewrite (ahead_zero d) by done. by apply Hno.
Qed.

Lemma number_run fuel p : l <> [] -> 0 <= p < 8 * mlen d -> 8 * mlen d < Z.of_nat fuel ->
  exists s, s ∈ l /\ gcr_read_track_number fuel raw p = Some (CBMDOS_FDC_ERR_OK, Some (h_track (sc_header s)), sc_pos s).
Proof.
  intros Hne Hp Hfuel. destruct (some_element l Hne) as [s Hs].
  assert (exists s', s' ∈ l /\ gcr_read_sector_header fuel raw (-1) p
    = Some (sc_pos s', header_bytes (sc_header s'), Some (disk_id (sc_header s')), sc_pos s')) as (s' & Hs' & Hrun).
  { destruct fuel as [|fuel]; [lia|]. unfold gcr_read_sector_header. pose proof (so_pos _ _ (fm_sectors _ _ Hf s Hs)) as Hpos.
    destruct (first_mark p s Hs Hp) as (r & Hr & Hm & Hfind).
    destruct (number_step fuel (- CBMDOS_FDC_ERR_SYNC) [] None p r Hr Hm) as [?|(Hno & hd' & pid' & Hrun)];
      [unfold CBMDOS_FDC_ERR_SYNC; lia|exact Hfind|done|].
    rewrite Hrun. change (- CBMDOS_FDC_ERR_SYNC <? 0) with true. cbv iota. pose proof (ahead_bound d Hsize r (sc_pos s)).
    apply (number_to s); [done|done|done|done| |lia].
    assert (ahead d r (sc_pos s) <> 0); [|lia]. rewrite (ahead_zero d) by done. by apply Hno. }
  exists s'. split; [done|]. unfold gcr_read_track_number. rewrite (bind_run _ _ _ _ _ Hrun).
  pose proof (so_pos _ _ (fm_sectors _ _ Hf s' Hs')). cbv beta iota. by rewrite (proj2 (Z.ltb_ge (sc_pos s') 0)) by lia.
Qed.

(** ** Reading *)

(** The mark of the block is the next one behind the header. *)
Lemma block_run s fuel id p : s ∈ l -> 0 <= p < 8 * mlen d -> 8 * mlen d < Z.of_nat fuel ->
  id < 0 \/ id = disk_id (sc_header s) ->
  find_block fuel raw (h_sector (sc_header s)) id p = Some (inl (sc_block s mod (8 * mlen d)), sc_pos s).
Proof.
  intros Hs Hp Hfuel Hid. pose proof (fm_sectors _ _ Hf s Hs) as Hon. pose proof (so_pos _ _ Hon) as Hpos.
  unfold find_block, gcr_find_sector_header.
  rewrite (bind_run _ _ _ (sc_pos s, Some (disk_id (sc_header s))) (sc_pos s))
    by (by rewrite (bind_run _ _ _ _ _ (header_run s fuel p Hs Hp Hfuel))).
  cbv beta iota. rewrite (proj2 (Z.ltb_ge (sc_pos s) 0)) by lia. unfold bindST at 1, lift.
  assert ((0 <=? id) && negb (id =? disk_id (sc_header s)) = false) as ->.
  { destruct Hid as [Hlt| ->]; [by rewrite (proj2 (Z.leb_gt 0 id)) by done|]. by rewrite Z.eqb_refl, andb_false_r. }
  destruct (find_sync_run d Hsize (sc_pos s) (500 * 8) Hpos ltac:(lia)) as (r & Hr & Hres). fold raw in Hr.
  rewrite (bind_run _ _ _ r (sc_pos s)) by (by rewrite Hr).
  pose proof (so_gap _ _ Hon) as Hgap. pose proof (header_mark s Hs) as Hm1. pose proof (block_mark s Hs) as Hm2.
  unfold sc_block in Hm2. pose proof (marks_apart d _ _ Hm1 Hm2 (proj1 Hgap)) as Hfar.
  assert (r = sc_block s mod (8 * mlen d)) as ->.
  { destruct Hres as [k Hk [Hk10 Hmark] Hfirst|Hnone].
    - destruct (Z.lt_trichotomy k (sc_gap s)) as [Hlt|[->|Hlt]]; [|done|].
      + exfalso. apply (so_next _ _ Hon k); [lia|done].
      + exfalso. apply (Hfirst (sc_gap s)); [lia|]. by split; [lia|].
    - exfalso. apply (Hnone (sc_gap s)); [lia|]. by split; [lia|]. }
  pose proof (Z.mod_pos_bound (sc_block s) (8 * mlen d) ltac:(lia)). by rewrite (proj2 (Z.ltb_ge _ 0)) by lia.
Qed.

Lemma sector_read_run s fuel buf id p : s ∈ l -> 0 <= p < 8 * mlen d -> 8 * mlen d < Z.of_nat fuel -> mlen buf = 256 ->
  id < 0 \/ id = disk_id (sc_header s) ->
  gcr_read_sector fuel raw buf (h_sector (sc_header s)) id p = Some (CBMDOS_FDC_ERR_OK, sc_data s, sc_pos s).
Proof.
  intros Hs Hp Hfuel Hbuf Hid. pose proof (fm_sectors _ _ Hf s Hs) as Hon. pose proof (so_length _ _ Hon) as Hl.
  unfold gcr_read_sector. rewrite (bind_run _ _ _ _ _ (block_run s fuel id p Hs Hp Hfuel Hid)). cbv beta iota.
  set (b := block_bytes (sc_data s)).
  rewrite (bind_run (lift _) _ _ b (sc_pos s)).
  2: { unfold lift. unfold raw. rewrite (decode_run d Hsize Hok _ _ b); [done|apply Z.mod_pos_bound; lia
         |by apply length_block|apply block_bytes_ok, Hon|].
       eapply (holds_same d Hsize); [|apply Hon]. symmetry. apply same_mod. }
  assert (Hlen : length (sc_data s) = 256%nat) by (unfold mlen in Hl; lia).
  rewrite (bind_run (lift _) _ _ (sc_data s, foldl Z.lxor 0 (sc_data s), 7) (sc_pos s)).
  2: { unfold lift. assert (slice b 1 256 = Some (sc_data s)) as ->.
       { unfold slice. assert (Hlb : mlen b = 260) by (unfold b, mlen; rewrite (length_block _ Hl); done).
         rewrite Hlb. change ((0 <=? 1) && (0 <=? 256) && (1 + 256 <=? 260)) with true. cbv iota.
         change (drop (Z.to_nat 1) b) with (sc_data s ++ [foldl Z.lxor 0 (sc_data s); 0; 0]).
         by rewrite take_app_length' by (by rewrite Hlen). }
       assert (getb b 257 = Some (foldl Z.lxor 0 (sc_data s))) as ->; [|done].
       change b with ([7] ++ sc_data s ++ [foldl Z.lxor 0 (sc_data s); 0; 0]).
       apply getb_Some. split; [done|]. change (Z.to_nat 257) with (length [7] + 256)%nat.
       rewrite lookup_app_r by (apply Nat.le_add_r). rewrite (Nat.add_comm (length [7])), Nat.add_sub. rewrite <- Hlen.
       by rewrite lookup_app_r, Nat.sub_diag by done. }
  cbv beta iota. assert (splice buf 0 (sc_data s) = Some (sc_data s)) as Hsp.
  { unfold splice. rewrite Hl, Hbuf. change ((0 <=? 0) && (0 + 256 <=? 256)) with true. cbv iota.
    change (Z.to_nat 0) with 0%nat. cbn [take app Nat.add]. rewrite drop_ge, app_nil_r by (unfold mlen in Hbuf; lia). done. }
  rewrite Hsp. unfold bindST, lift. cbn [mret ST_ret]. rewrite xor_fold, Z.lxor_nilpotent. done.
Qed.

(** ** A sector that is not on the track *)

Lemma second_mark s p : s ∈ l -> exists q, mark d q /\ 0 < ahead d p q.
Proof.
  intros Hs. pose proof (ahead_bound d Hsize p (sc_pos s)). pose proof (ahead_bound d Hsize p (sc_block s)).
  destruct (Z.eq_dec (ahead d p (sc_pos s)) 0) as [Ha0|?].
  2: { exists (sc_pos s). split; [by apply header_mark|lia]. }
  exists (sc_block s). split; [by apply block_mark|]. destruct (Z.eq_dec (ahead d p (sc_block s)) 0) as [Hb0|?]; [|lia].
  exfalso. pose proof (fm_sectors _ _ Hf s Hs) as Hon. pose proof (ahead_same d p (sc_pos s)) as Hp.
  pose proof (ahead_same d p (sc_block s)) as Hb. rewrite Ha0 in Hp. rewrite Hb0 in Hb.
  eapply (header_not_block (p + 0)); eapply (holds_same d Hsize); [symmetry; exact Hp|apply Hon|symmetry; exact Hb|apply Hon].
Qed.

(** From the first mark around to it again *)
Lemma loop_around n fuel : 0 <= n -> (forall s, s ∈ l -> h_sector (sc_header s) <> n) ->
  forall p p2 hd pid, 0 <= p < 8 * mlen d -> mark d p -> 0 <= p2 < 8 * mlen d -> mark d p2 ->
  0 < ahead d p p2 < Z.of_nat fuel ->
  exists hd' pid', header_loop fuel raw n p2 hd pid p = Some (- CBMDOS_FDC_ERR_HEADER, hd', pid', p2).
Proof.
  intros Hn Hno. induction fuel as [|fuel IH]; intros p p2 hd pid Hp Hm Hp2 Hm2 Ha; [lia|].
  destruct (next_mark p p2 Hp Hm Hm2 (proj1 Ha)) as (k & Hk & Hmk & Hfind).
  set (r := (p + k) mod (8 * mlen d)) in *. assert (Hr : 0 <= r < 8 * mlen d) by (apply Z.mod_pos_bound; lia).
  assert (Har : ahead d r p2 = ahead d p p2 - k) by (apply (ahead_step d Hsize); lia).
  destruct (Z.eq_dec p2 r) as [->|Hne].
  - exists hd, pid. cbn [header_loop]. unfold bindST at 1, state. change (tsize raw) with (mlen d).
    rewrite Z.mul_comm in Hfind. rewrite (bind_run (lift _) _ _ r p) by (unfold lift, raw; by rewrite Hfind).
    unfold mbind at 1, ST_bind. rewrite (bind_run (modify _) _ _ tt r) by done. rewrite Z.eqb_refl.
    by rewrite (proj2 (Z.ltb_ge r 0)) by lia.
  - destruct (loop_step fuel n p2 hd pid p r Hn Hr (proj2 (mark_mod d Hsize _) Hmk) Hne Hfind)
      as [(s & Hs & Heq & _)|(_ & hd' & pid' & Hrun)]; [by destruct (Hno s Hs)|].
    rewrite Hrun, (proj2 (Z.ltb_ge p2 0)) by lia. apply IH; [done|by apply mark_mod|done|done|].
    assert (ahead d r p2 <> 0); [|lia]. rewrite (ahead_zero d) by done. congruence.
Qed.

(** The search for a sector that is not there ends where it began. *)
Lemma missing_block s n fuel id p : s ∈ l -> 0 <= n -> (forall x, x ∈ l -> h_sector (sc_header x) <> n) ->
  0 <= p < 8 * mlen d -> 8 * mlen d + 1 < Z.of_nat fuel ->
  exists p', 0 <= p' < 8 * mlen d /\ find_block fuel raw n id p = Some (inr CBMDOS_FDC_ERR_HEADER, p').
Proof.
  intros Hs Hn Hno Hp Hfuel. destruct fuel as [|[|fuel]]; [lia|lia|].
  destruct (first_mark p s Hs Hp) as (r & Hr & Hm & Hfind). exists r. split; [done|].
  assert (Hrun : exists hd' pid', gcr_read_sector_header (S (S fuel)) raw n p
    = Some (- CBMDOS_FDC_ERR_HEADER, hd', pid', r)).
  { unfold gcr_read_sector_header.
    destruct (loop_step (S fuel) n (- CBMDOS_FDC_ERR_SYNC) [] None p r Hn Hr Hm) as [(x & Hx & Heq & _)|(_ & hd' & pid' & Hrun)];
      [unfold CBMDOS_FDC_ERR_SYNC; lia|exact Hfind|by destruct (Hno x Hx)|].
    rewrite Hrun. change (- CBMDOS_FDC_ERR_SYNC <? 0) with true. cbv iota. clear Hrun.
    destruct (second_mark s r Hs) as (q & Hmq & Hq). destruct (next_mark r q Hr Hm Hmq Hq) as (k & Hk & Hmk & Hfind2).
    pose proof (ahead_bound d Hsize r q). set (r2 := (r + k) mod (8 * mlen d)) in *.
    assert (Hr2 : 0 <= r2 < 8 * mlen d) by (apply Z.mod_pos_bound; lia).
    assert (Har : ahead d r2 r = 8 * mlen d - k).
    { unfold ahead, r2. rewrite Zminus_mod_idemp_r. replace (r - (r + k)) with (8 * mlen d - k + -1 * (8 * mlen d)) by lia.
      rewrite Z.mod_add by lia. apply Z.mod_small. lia. }
    assert (Hne : r <> r2) by (intros Heq; pose proof (proj2 (ahead_zero d r2 r Hr2 Hr) (eq_sym Heq)); lia).
    destruct (loop_step fuel n r hd' pid' r r2 Hn Hr2 (proj2 (mark_mod d Hsize _) Hmk) Hne Hfind2)
      as [(x & Hx & Heq & _)|(_ & hd2 & pid2 & Hrun)]; [by destruct (Hno x Hx)|].
    rewrite Hrun, (proj2 (Z.ltb_ge r 0)) by lia. apply loop_around; try done; [by apply mark_mod|lia]. }
  destruct Hrun as (hd' & pid' & Hrun). unfold find_block, gcr_find_sector_header.
  rewrite (bind_run _ _ _ (- CBMDOS_FDC_ERR_HEADER, pid') r) by (by rewrite (bind_run _ _ _ _ _ Hrun)). done.
Qed.

(** ** Writing *)

(** Every group of five bits of a code has a zero. *)
Lemma code5_zero n : 0 <= n < 16 -> exists j, (j < 5)%nat /\ code5 n !! j = Some false.
Proof.
  intros Hn. assert (Hall : forallb (fun n => existsb (fun j => bool_decide (code5 n !! j = Some false)) (seq 0 5)) (seqZ 0 16) = true)
    by (vm_compute; reflexivity).
  pose proof (Zrange_forallb _ 0 16 Hall n ltac:(lia)) as H. cbv beta in H.
  apply existsb_exists in H as (j & Hj & Heq). apply in_seq in Hj. exists j. split; [lia|].
  by apply bool_decide_eq_true in Heq.
Qed.

Lemma code_zero bs : bytes_ok bs -> forall i, (i < 2 * length bs)%nat ->
  exists j, (j < 5)%nat /\ code bs !! (5 * i + j)%nat = Some false.
Proof.
  induction bs as [|x bs IH]; intros Hb i Hi; [cbn in Hi; lia|]. apply Forall_cons in Hb as [Hx Hb].
  destruct (nibbles x Hx) as (_ & _ & Hhi & Hlo & _). unfold code. cbn [mbind list_bind]. fold (code bs).
  unfold code1. assert (Hl : forall n, length (code5 n) = 5%nat) by (intros n; apply length_low).
  rewrite <- app_assoc. destruct i as [|[|i]].
  - destruct (code5_zero _ Hhi) as (j & Hj & Hz). exists j. split; [done|].
    by rewrite lookup_app_l by (rewrite Hl; lia).
  - destruct (code5_zero _ Hlo) as (j & Hj & Hz). exists j. split; [done|].
    rewrite lookup_app_r, Hl by (rewrite Hl; lia). rewrite lookup_app_l by (rewrite Hl; lia).
    by replace (5 * 1 + j - 5)%nat with j by lia.
  - cbn [length] in Hi. destruct (IH Hb i ltac:(lia)) as (j & Hj & Hz). exists j. split; [done|].
    rewrite !lookup_app_r; rewrite ?Hl; [|lia|lia]. by replace (5 * S (S i) + j - 5 - 5)%nat with (5 * i + j)%nat by lia.
Qed.

End track.

(** There is no mark in a block of codes. *)
Lemma no_mark d q bs k : mark d q -> bytes_ok bs -> holds d q (code bs) ->
  0 < k <= 10 * Z.of_nat (length bs) -> ~ mark d (q + k).
Proof.
  intros Hq Hb Hh Hk Hm. pose proof (marks_apart d q k Hq Hm ltac:(lia)) as Hfar. destruct Hm as [_ Hones].
  set (i := Z.to_nat ((k - 6) / 5)).
  assert (Hi : Z.of_nat i = (k - 6) / 5) by (unfold i; rewrite Z2Nat.id; [done|Z.to_euclidean_division_equations; lia]).
  destruct (code_zero bs Hb i) as (j & Hj & Hz); [Z.to_euclidean_division_equations; lia|].
  pose proof (holds_bit d q _ _ _ Hh Hz) as Hbit.
  specialize (Hones (k - Z.of_nat (5 * i + j)) ltac:(Z.to_euclidean_division_equations; lia)).
  replace (q + k - (k - Z.of_nat (5 * i + j))) with (q + Z.of_nat (5 * i + j)) in Hones by lia. congruence.
Qed.

Lemma no_mark_behind d q bs k : mark d q -> bytes_ok bs -> holds d q (code bs) ->
  code bs !! (10 * length bs - 1)%nat = Some false -> bs <> [] ->
  0 < k < 10 * Z.of_nat (length bs) + 10 -> ~ mark d (q + k).
Proof.
  intros Hq Hb Hh Hlast Hne Hk Hm. destruct (Z.lt_ge_cases (10 * Z.of_nat (length bs)) k) as [Hlt|Hge].
  2: { exact (no_mark d q bs k Hq Hb Hh ltac:(lia) Hm). }
  assert (length bs <> 0%nat) as Hl by (by destruct bs).
  pose proof (holds_bit d q _ _ _ Hh Hlast) as Hbit. destruct Hm as [_ Hones].
  specialize (Hones (k - Z.of_nat (10 * length bs - 1)) ltac:(lia)).
  replace (q + k - (k - Z.of_nat (10 * length bs - 1))) with (q + Z.of_nat (10 * length bs - 1)) in Hones by lia. congruence.
Qed.

(** The last code of a block ends with a zero. *)
Lemma block_last data : mlen data = 256 ->
  code (block_bytes data) !! (10 * length (block_bytes data) - 1)%nat = Some false.
Proof.
  intros Hl. rewrite (length_block _ Hl).
  assert (block_bytes data = (7 :: data ++ [foldl Z.lxor 0 data; 0]) ++ [0]) as ->.
  { unfold block_bytes. cbn [app]. by rewrite <- app_assoc. }
  assert (Hd : length (7 :: data ++ [foldl Z.lxor 0 data; 0]) = 259%nat).
  { cbn [length]. rewrite length_app. unfold mlen in Hl. cbn [length]. lia. }
  by rewrite code_app, lookup_app_r; rewrite length_code, Hd; [|lia].
Qed.

Lemma code_first x bs : 0 <= x < 16 -> code (x :: bs) !! 0%nat = Some false.
Proof.
  intros Hx. unfold code. cbn [mbind list_bind]. unfold code1. by rewrite Z.div_small by lia.
Qed.

(** The sector with new data *)
Definition set_data (n : Z) (data : mem) (s : sector_t) : sector_t :=
  if h_sector (sc_header s) =? n then Sector (sc_pos s) (sc_gap s) (sc_header s) data else s.

Lemma set_data_eq n data s : sc_pos (set_data n data s) = sc_pos s /\ sc_gap (set_data n data s) = sc_gap s /\
  sc_header (set_data n data s) = sc_header s.
Proof. unfold set_data. by destruct (_ =? _). Qed.

(** Every block has its own mark. *)
Lemma same_block d l s s' : formatted d l -> s ∈ l -> s' ∈ l -> same d (sc_block s) (sc_block s') -> s = s'.
Proof.
  intros Hf Hs Hs' Heq. pose proof (fm_sectors _ _ Hf s Hs) as Hon. pose proof (fm_sectors _ _ Hf s' Hs') as Hon'.
  assert (Hsize : 0 < mlen d) by (pose proof (fm_size _ _ Hf); lia).
  assert (Hpos : sc_pos s = sc_pos s').
  { destruct (Z.lt_trichotomy (sc_gap s) (sc_gap s')) as [Hlt|[Hgap|Hlt]].
    - exfalso. apply (so_next _ _ Hon' (sc_gap s' - sc_gap s)); [pose proof (so_gap _ _ Hon); lia|].
      eapply (mark_same d Hsize); [|by apply (header_mark d l Hf s)].
      unfold same, sc_block in *. replace (sc_pos s) with (sc_pos s + sc_gap s - sc_gap s) by lia.
      rewrite <- Zminus_mod_idemp_l, Heq, Zminus_mod_idemp_l. f_equal. lia.
    - apply (same_small d); [apply Hon|apply Hon'|]. unfold same, sc_block in *. rewrite Hgap in Heq.
      replace (sc_pos s) with (sc_pos s + sc_gap s' - sc_gap s') by lia.
      replace (sc_pos s') with (sc_pos s' + sc_gap s' - sc_gap s') by lia.
      by rewrite <- Zminus_mod_idemp_l, Heq, Zminus_mod_idemp_l.
    - exfalso. apply (so_next _ _ Hon (sc_gap s - sc_gap s')); [pose proof (so_gap _ _ Hon'); lia|].
      eapply (mark_same d Hsize); [|by apply (header_mark d l Hf s')].
      unfold same, sc_block in *. replace (sc_pos s') with (sc_pos s' + sc_gap s' - sc_gap s') by lia.
      rewrite <- Zminus_mod_idemp_l, <- Heq, Zminus_mod_idemp_l. f_equal. lia. }
  apply (same_number d l Hf); [done|done|].
  assert (Hdec : forall x, x ∈ l -> sc_pos s = sc_pos x ->
    gcr_decode_block (DiskTrack (Some d) (mlen d)) (sc_pos s) 2 = Some (header_bytes (sc_header x))).
  { intros x Hx Hp. pose proof (fm_sectors _ _ Hf x Hx) as Hox.
    apply decode_run; [done|apply Hf|apply Hon|done|apply header_bytes_ok, Hox|]. rewrite Hp. apply Hox. }
  pose proof (Hdec s Hs eq_refl) as H1. rewrite (Hdec s' Hs' Hpos) in H1.
  apply (inj Some), (f_equal (.!! 2%nat)) in H1. cbn in H1. congruence.
Qed.

(** Two marks are different when a header and a block are there. *)
Lemma header_block d l s s' : formatted d l -> s ∈ l -> s' ∈ l -> ~ same d (sc_pos s) (sc_block s').
Proof.
  intros Hf Hs Hs' Heq. assert (Hsize : 0 < mlen d) by (pose proof (fm_size _ _ Hf); lia).
  eapply (header_not_block d (sc_pos s)); [apply (fm_sectors _ _ Hf s Hs)|].
  eapply (holds_same d Hsize); [symmetry; exact Heq|apply (fm_sectors _ _ Hf s' Hs')].
Qed.

Section write.
Variables (d : mem) (l : list sector_t) (s : sector_t) (data d' : mem).
Hypotheses (Hf : formatted d l) (Hs : s ∈ l) (Hdata : bytes_ok data) (Hlen : mlen data = 256)
  (Hw : rewritten d (sc_block s mod (8 * mlen d)) (block_bytes data) d').

Let Hsize : 0 < mlen d.
Proof. pose proof (fm_size _ _ Hf). lia. Qed.
Let q : Z := sc_block s mod (8 * mlen d).

Lemma written_size : mlen d' = mlen d.
Proof. apply Hw. Qed.

Lemma written_same p p' : same d' p p' <-> same d p p'.
Proof. unfold same. by rewrite written_size. Qed.

Lemma written_bit o : 2600 <= o < 8 * mlen d -> cbit d' (q + o) = cbit d (q + o).
Proof.
  intros Ho. apply (proj2 (proj2 (proj2 Hw))). by rewrite length_code, (length_block _ Hlen).
Qed.

Lemma start_mark : mark d q.
Proof. apply (mark_mod d Hsize). by apply (block_mark d l Hf). Qed.

Lemma start_block : holds d q (code (block_bytes (sc_data s))).
Proof. eapply (holds_same d Hsize); [|apply (fm_sectors _ _ Hf s Hs)]. symmetry. apply same_mod. Qed.

(** Bits in front of the block, counted backwards *)
Lemma written_before j : 1 <= j <= 10 -> cbit d' (q - j) = cbit d (q - j).
Proof.
  intros Hj. pose proof (fm_size _ _ Hf). pose proof written_size as Hl.
  rewrite <- (cbit_turn d' ltac:(lia) (q - j) 1), <- (cbit_turn d Hsize (q - j) 1), Hl.
  replace (q - j + 1 * (8 * mlen d)) with (q + (8 * mlen d - j)) by lia. apply written_bit. lia.
Qed.

Lemma written_start : mark d' q.
Proof.
  split.
  - pose proof (holds_bit d' q _ 0 false (proj1 (proj2 (proj2 Hw)))) as H. rewrite Z.add_0_r in H. apply H.
    by apply code_first.
  - intros j Hj. rewrite written_before by done. by apply start_mark.
Qed.

(** The marks of the track are where they were. *)
Lemma written_mark p : mark d' p <-> mark d p.
Proof.
  pose proof (fm_size _ _ Hf) as H326. pose proof written_size as Hl. set (o := ahead d q p).
  pose proof (ahead_bound d Hsize q p) as Ho. fold o in Ho. pose proof (ahead_same d q p) as Hso. fold o in Hso.
  pose proof (fm_sectors _ _ Hf s Hs) as Hon.
  transitivity (mark d' (q + o)).
  { split; apply (mark_same d' ltac:(lia)); rewrite written_same; [symmetry|]; exact Hso. }
  transitivity (mark d (q + o)).
  2: { split; apply (mark_same d Hsize); [|symmetry]; exact Hso. }
  destruct (Z.eq_dec o 0) as [->|Hne].
  { rewrite Z.add_0_r. split; intros _; [exact start_mark|exact written_start]. }
  destruct (Z.lt_ge_cases o 2610) as [Hlt|Hge].
  - split; intros Hm; exfalso; revert Hm.
    + apply (no_mark_behind d' q (block_bytes data)); [apply written_start|by apply block_bytes_ok|apply Hw
        |by apply block_last|done|]. rewrite (length_block _ Hlen). lia.
    + apply (no_mark_behind d q (block_bytes (sc_data s))); [apply start_mark|apply block_bytes_ok, Hon|apply start_block
        |apply block_last, Hon|done|]. rewrite (length_block _ (so_length _ _ Hon)). lia.
  - assert (Hb : forall j, 0 <= j <= 10 -> cbit d' (q + o - j) = cbit d (q + o - j)).
    { intros j Hj. replace (q + o - j) with (q + (o - j)) by lia. apply written_bit. lia. }
    unfold mark. pose proof (Hb 0 ltac:(lia)) as H0. rewrite Z.sub_0_r in H0. rewrite H0.
    split; intros [H1 H2]; (split; [done|]); intros j Hj; [rewrite <- Hb|rewrite Hb]; (lia || by apply H2).
Qed.

(** A block of codes at another mark is as it was. *)
Lemma written_holds p bs : mark d p -> ~ same d p q -> bytes_ok bs -> holds d p (code bs) -> holds d' p (code bs).
Proof.
  intros Hm Hne Hb Hh. pose proof (fm_size _ _ Hf) as H326. pose proof written_size as Hl.
  set (o := ahead d q p). pose proof (ahead_bound d Hsize q p) as Ho. fold o in Ho.
  pose proof (ahead_same d q p) as Hso. fold o in Hso. pose proof (fm_sectors _ _ Hf s Hs) as Hon.
  assert (Ho0 : o <> 0). { intros H0. apply Hne. rewrite H0, Z.add_0_r in Hso. by symmetry. }
  assert (Hfar : 2610 <= o).
  { destruct (Z.lt_ge_cases o 2610) as [Hlt|?]; [|done]. exfalso.
    apply (no_mark_behind d q (block_bytes (sc_data s)) o); [apply start_mark|apply block_bytes_ok, Hon|apply start_block
      |apply block_last, Hon|done| |].
    - rewrite (length_block _ (so_length _ _ Hon)). lia.
    - eapply (mark_same d Hsize); [symmetry; exact Hso|exact Hm]. }
  assert (Hroom : o + 10 * Z.of_nat (length bs) < 8 * mlen d).
  { destruct (Z.lt_ge_cases (o + 10 * Z.of_nat (length bs)) (8 * mlen d)) as [?|Hge]; [done|]. exfalso.
    apply (no_mark d p bs (8 * mlen d - o) Hm Hb Hh ltac:(lia)).
    eapply (mark_same d Hsize); [|apply start_mark]. unfold same in *. rewrite <- Zplus_mod_idemp_l, <- Hso, Zplus_mod_idemp_l.
    replace (q + o + (8 * mlen d - o)) with (q + 1 * (8 * mlen d)) by lia. by rewrite Z.mod_add by lia. }
  eapply (holds_same d' ltac:(lia)); [by apply written_same; exact Hso|].
  assert (Hh' : holds d (q + o) (code bs)) by (eapply (holds_same d Hsize); [symmetry; exact Hso|exact Hh]).
  unfold holds in *. rewrite <- Hh' at 2. apply cbits_ext. intros i Hi. rewrite <- Z.add_assoc. apply written_bit.
  rewrite length_code in Hi. lia.
Qed.

Lemma written_sector x : x ∈ l -> sector_on d' (set_data (h_sector (sc_header s)) data x).
Proof.
  intros Hx. destruct (set_data_eq (h_sector (sc_header s)) data x) as (E1 & E2 & E3).
  pose proof (fm_sectors _ _ Hf x Hx) as Hox.
  assert (Hcase : x = s /\ sc_data (set_data (h_sector (sc_header s)) data x) = data \/
    x <> s /\ sc_data (set_data (h_sector (sc_header s)) data x) = sc_data x).
  { unfold set_data. destruct (Z.eqb_spec (h_sector (sc_header x)) (h_sector (sc_header s))) as [Heq|Hne].
    - left. split; [|done]. by apply (same_number d l Hf).
    - right. split; [congruence|done]. }
  split; unfold sc_block; rewrite ?E1, ?E2, ?E3, ?written_size; try apply Hox.
  - destruct Hcase as [[_ ->]|[_ ->]]; [done|apply Hox].
  - destruct Hcase as [[_ ->]|[_ ->]]; [done|apply Hox].
  - apply written_holds; [by apply (header_mark d l Hf)| |apply header_bytes_ok, Hox|apply Hox].
    intros Heq. apply (header_block d l x s Hf Hx Hs). unfold same, q in *. by rewrite Heq, Zmod_mod.
  - fold (sc_block x). pose proof (fm_size _ _ Hf). destruct Hcase as [[-> ->]|[Hne ->]].
    + eapply (holds_same d' ltac:(rewrite written_size; lia)); [|apply Hw].
      unfold same. rewrite written_size. apply Zmod_mod.
    + apply written_holds; [by apply (block_mark d l Hf)| |apply block_bytes_ok, Hox|apply Hox].
      intros Heq. apply Hne, (same_block d l x s Hf Hx Hs). unfold same, q in *. by rewrite Heq, Zmod_mod.
  - intros k Hk. rewrite written_mark. by apply Hox.
Qed.

(** The track stays formatted. *)
Lemma written_formatted : formatted d' (set_data (h_sector (sc_header s)) data <$> l).
Proof.
  pose proof (fm_size _ _ Hf). split; [by rewrite written_size|apply Hw| | |].
  - intros x (y & -> & Hy)%list_elem_of_fmap. by apply written_sector.
  - intros p. rewrite written_mark, (fm_marks _ _ Hf). split.
    + intros (x & Hx & Hcase). exists (set_data (h_sector (sc_header s)) data x).
      destruct (set_data_eq (h_sector (sc_header s)) data x) as (E1 & E2 & _).
      split; [by apply list_elem_of_fmap_2|]. unfold sc_block. by rewrite E1, E2, !written_same.
    + intros (y & (x & -> & Hx)%list_elem_of_fmap & Hcase). exists x. split; [done|].
      destruct (set_data_eq (h_sector (sc_header s)) data x) as (E1 & E2 & _).
      unfold sc_block in Hcase. by rewrite E1, E2, !written_same in Hcase.
  - rewrite <- list_fmap_compose. erewrite list_fmap_ext; [apply (fm_nodup _ _ Hf)|].
    intros i x _. cbn. by destruct (set_data_eq (h_sector (sc_header s)) data x) as (_ & _ & ->).
Qed.

End write.

Lemma sector_write_run d l s fuel data id p : formatted d l -> s ∈ l -> 0 <= p < 8 * mlen d ->
  8 * mlen d < Z.of_nat fuel -> mlen data = 256 -> bytes_ok data -> id < 0 \/ id = disk_id (sc_header s) ->
  exists d', gcr_write_sector fuel (DiskTrack (Some d) (mlen d)) data (h_sector (sc_header s)) id p
      = Some (CBMDOS_FDC_ERR_OK, DiskTrack (Some d') (mlen d'), sc_pos s) /\ mlen d' = mlen d /\
    formatted d' (set_data (h_sector (sc_header s)) data <$> l).
Proof.
  intros Hf Hs Hp Hfuel Hlen Hdata Hid. pose proof (fm_size _ _ Hf) as Hsize.
  destruct (GcrSpec.block_write_run d (sc_block s mod (8 * mlen d)) (block_bytes data)) as (d' & Hrun & Hw);
    [apply Hf|lia|apply Z.mod_pos_bound; lia|by apply length_block|by apply block_bytes_ok|].
  exists d'. split; [|split; [apply Hw|by apply (written_formatted d)]]. unfold gcr_write_sector.
  rewrite (bind_run _ _ _ _ _ (block_run d l Hf s fuel id p Hs Hp Hfuel Hid)). cbv beta iota.
  assert (slice data 0 256 = Some data) as Hsl.
  { unfold slice. rewrite Hlen. change ((0 <=? 0) && (0 <=? 256) && (0 + 256 <=? 256)) with true. cbv iota.
    change (drop (Z.to_nat 0) data) with data. rewrite take_ge; [done|]. unfold mlen in Hlen. lia. }
  rewrite (bind_run (lift _) _ _ data (sc_pos s)) by (unfold lift; by rewrite Hsl).
  rewrite (bind_run (lift _) _ _ d' (sc_pos s)); [by rewrite (proj1 Hw)|].
  unfold lift. cbn [tdata tsize mbind option_bind]. unfold block_bytes in Hrun. by rewrite Hrun.
Qed.

(** ** Any track

    The search on a track of any bytes *)

Lemma decode_groups_defined n d size s : 0 < size <= mlen d -> bytes_ok d -> forall off b, 0 <= off < size ->
  exists bs, take_groups n d size s off b = Some bs /\ length bs = (4 * n)%nat.
Proof.
  intros Hsize Hd. induction n as [|n IH]; intros off b Hoff; [by exists []|]. cbn [take_groups].
  assert (Hbytes : forall k off b, 0 <= off < size -> exists gs off' b', take_bytes k d size s off b = Some (gs, (off', b')) /\
    length gs = k /\ 0 <= off' < size).
  { clear - Hsize. induction k as [|k IH]; intros off b Hoff; [by exists [], off, b|]. cbn [take_bytes].
    assert (Hn : 0 <= next_byte size off < size) by (unfold next_byte; destruct (Z.leb_spec size (off + 1)); lia).
    destruct (getb_is_Some d (next_byte size off)) as [o ->]; [lia|]. cbn [mbind option_bind].
    destruct (if negb (s =? 0) then _ else _) as [g b1]. destruct (IH (next_byte size off) b1 Hn) as (gs & off' & b' & -> & Hl & Hb).
    cbn [mbind option_bind]. eexists _, off', b'. split; [reflexivity|]. cbn [length]. by rewrite Hl. }
  destruct (Hbytes 5%nat off b Hoff) as (gs & off' & b' & -> & Hl & Hb). cbn [mbind option_bind].
  assert (Hconv : forall k i t src, length src = k -> exists bs, from_gcr k i t src = Some bs /\ length bs = k).
  { clear. induction k as [|k IH]; intros i t src Hl; [by exists []|]. destruct src as [|x src]; [done|]. injection Hl as Hl.
    cbn [from_gcr]. change (getb (x :: src) 0) with (Some x). cbn [mbind option_bind].
    assert (Hdec : forall w, exists v, getb From_GCR_conv_data (Z.land w 0x1f) = Some v).
    { intros w. apply getb_is_Some. change 0x1f with (Z.ones 5). rewrite Z.land_ones by lia. exact (Z.mod_pos_bound w 32 ltac:(lia)). }
    destruct (Hdec (Z.shiftr (Z.lor t (u32 (Z.shiftl x i))) 16)) as [v ->]. cbn [mbind option_bind].
    destruct (Hdec (Z.shiftr (u32 (Z.shiftl (Z.lor t (u32 (Z.shiftl x i))) 5)) 16)) as [w ->]. cbn [mbind option_bind].
    change (drop 1 (x :: src)) with src.
    destruct (IH (i + 2) (u32 (Z.shiftl (u32 (Z.shiftl (Z.lor t (u32 (Z.shiftl x i))) 5)) 5)) src Hl) as (bs & -> & Hlb).
    cbn [mbind option_bind]. eexists. split; [reflexivity|]. cbn [length]. by rewrite Hlb. }
  destruct gs as [|g gs]; [done|]. unfold gcr_convert_GCR_to_4bytes. change (getb (g :: gs) 0) with (Some g).
  cbn [mbind option_bind]. change (drop 1 (g :: gs)) with gs. injection Hl as Hl.
  destruct (Hconv 4%nat 5 (u32 (Z.shiftl g 13)) gs Hl) as (x & -> & Hx). cbn [mbind option_bind].
  destruct (IH off' b' Hb) as (xs & -> & Hxs). cbn [mbind option_bind]. eexists. split; [reflexivity|].
  rewrite length_app, Hx, Hxs. lia.
Qed.

Lemma decode_defined d p n : 0 < mlen d -> bytes_ok d -> 0 <= p < 8 * mlen d ->
  exists bs, gcr_decode_block (DiskTrack (Some d) (mlen d)) p n = Some bs /\ length bs = (4 * n)%nat.
Proof.
  intros Hsize Hd Hp. unfold gcr_decode_block. cbn [tdata tsize mbind option_bind]. rewrite (Z.shiftr_div_pow2 p 3) by lia.
  change (2 ^ 3) with 8. assert (0 <= p / 8 < mlen d) by (Z.to_euclidean_division_equations; lia).
  destruct (getb_is_Some d (p / 8)) as [o ->]; [done|]. cbn [mbind option_bind]. by apply decode_groups_defined.
Qed.

Section any_track.
Variables (d : mem).
Hypotheses (Hsize : 0 < mlen d) (Hok : bytes_ok d).

Let raw : disk_track_t := DiskTrack (Some d) (mlen d).

(** What the search returns; a found header is on the track. *)
Definition search_ended (r : Z * mem * option Z) (p : Z) : Prop :=
  let '(q, h, pid) := r in
  q = - CBMDOS_FDC_ERR_HEADER \/ q = - CBMDOS_FDC_ERR_HCHECK \/
  (q = p /\ 0 <= q < 8 * mlen d /\ length h = 8%nat /\ is_Some pid).

(** A round at a mark ends the search or goes on from there. *)
Lemma any_round fuel n p2 hd pid p r : gcr_find_sync raw p (8 * mlen d) = Some r -> 0 <= r < 8 * mlen d -> p2 <> r ->
  (exists x, header_loop (S fuel) raw n p2 hd pid p = Some (x, r) /\ search_ended x r) \/
  exists hd' pid', header_loop (S fuel) raw n p2 hd pid p = header_loop fuel raw n (if p2 <? 0 then r else p2) hd' pid' r.
Proof.
  intros Hfind Hr Hne. destruct (decode_defined d r 2 Hsize Hok Hr) as (bs & Hdec & Hl).
  destruct (getb_is_Some bs 0) as [h0 H0]; [unfold mlen; lia|]. destruct (getb_is_Some bs 1) as [h1 H1]; [unfold mlen; lia|].
  destruct (getb_is_Some bs 2) as [h2 H2]; [unfold mlen; lia|]. destruct (getb_is_Some bs 3) as [h3 H3]; [unfold mlen; lia|].
  destruct (getb_is_Some bs 4) as [h4 H4]; [unfold mlen; lia|]. destruct (getb_is_Some bs 5) as [h5 H5]; [unfold mlen; lia|].
  unfold raw. rewrite (round_run d fuel n p2 hd pid p r bs h0 h1 h2 h3 h4 h5) by done. cbv zeta.
  destruct (h0 =? 8); [|by right; eexists _, _]. destruct (negb _).
  { left. eexists (_, _, _). split; [reflexivity|]. right; left. done. }
  destruct (_ || _); [|by right; eexists _, _]. left. eexists (_, _, _). split; [reflexivity|]. right; right. by eauto.
Qed.

(** From one mark, the search finds the next one. *)
Lemma any_next p q : 0 <= p < 8 * mlen d -> mark d p -> mark d q -> 0 < ahead d p q -> exists k,
  0 < k <= ahead d p q /\ mark d (p + k) /\ gcr_find_sync raw p (8 * mlen d) = Some ((p + k) mod (8 * mlen d)).
Proof.
  intros Hp Hmp Hmq Ha. destruct (find_sync_run d Hsize p (8 * mlen d) Hp ltac:(lia)) as (r & Hr & Hres).
  assert (Hmk : mark d (p + ahead d p q)) by (eapply (mark_same d Hsize); [symmetry; apply ahead_same|exact Hmq]).
  pose proof (marks_apart d p (ahead d p q) Hmp Hmk Ha) as Hfar. pose proof (ahead_bound d Hsize p q).
  destruct Hres as [k Hk [Hk10 Hmark] Hfirst|Hnone].
  - exists k. split; [|exact (conj Hmark Hr)]. split; [lia|]. destruct (Z.lt_ge_cases (ahead d p q) k) as [Hlt|?]; [|done].
    exfalso. apply (Hfirst (ahead d p q)); [lia|]. split; [lia|done].
  - exfalso. apply (Hnone (ahead d p q)); [lia|]. split; [lia|done].
Qed.

Lemma any_around n fuel p p2 hd pid : 0 <= p < 8 * mlen d -> mark d p -> 0 <= p2 < 8 * mlen d -> mark d p2 ->
  0 < ahead d p p2 < Z.of_nat fuel ->
  exists x p', header_loop fuel raw n p2 hd pid p = Some (x, p') /\ search_ended x p'.
Proof.
  intros Hp Hm Hp2 Hm2. revert p hd pid Hp Hm. induction fuel as [|fuel IH]; intros p hd pid Hp Hm Ha; [lia|].
  destruct (any_next p p2 Hp Hm Hm2 (proj1 Ha)) as (k & Hk & Hmk & Hfind).
  set (r := (p + k) mod (8 * mlen d)) in *. assert (Hr : 0 <= r < 8 * mlen d) by (apply Z.mod_pos_bound; lia).
  assert (Har : ahead d r p2 = ahead d p p2 - k) by (apply (ahead_step d Hsize); lia).
  destruct (Z.eq_dec p2 r) as [->|Hne].
  - eexists (_, _, _), r. split; [|left; reflexivity]. cbn [header_loop]. unfold bindST at 1, state. change (tsize raw) with (mlen d).
    rewrite Z.mul_comm in Hfind. rewrite (bind_run (lift _) _ _ r p) by (unfold lift; by rewrite Hfind).
    unfold mbind at 1, ST_bind. rewrite (bind_run (modify _) _ _ tt r) by done. rewrite Z.eqb_refl.
    by rewrite (proj2 (Z.ltb_ge r 0)) by lia.
  - destruct (any_round fuel n p2 hd pid p r Hfind Hr Hne) as [(x & Hrun & Hx)|(hd' & pid' & Hrun)]; [by exists x, r|].
    rewrite Hrun, (proj2 (Z.ltb_ge p2 0)) by lia. apply IH; [done|by apply mark_mod|].
    assert (ahead d r p2 <> 0); [|lia]. rewrite (ahead_zero d) by done. congruence.
Qed.

(** The search ends, unless the track has exactly one mark. *)
Lemma header_search_run n fuel p : (forall q, mark d q -> exists q', mark d q' /\ ~ same d q q') ->
  0 <= p < 8 * mlen d -> 8 * mlen d + 1 < Z.of_nat fuel ->
  exists x p', gcr_read_sector_header fuel raw n p = Some (x, p') /\ (x.1.1 = - CBMDOS_FDC_ERR_SYNC \/ search_ended x p').
Proof.
  intros Hmarks Hp Hfuel. destruct fuel as [|[|fuel]]; [lia|lia|]. unfold gcr_read_sector_header.
  destruct (find_sync_run d Hsize p (8 * mlen d) Hp ltac:(lia)) as (r & Hfind & Hres). fold raw in Hfind.
  destruct Hres as [k Hk [Hk10 Hmk] _|_].
  2: { eexists (_, _, _), _. split; [|left]; [|reflexivity]. cbn [header_loop]. unfold bindST at 1, state. change (tsize raw) with (mlen d).
       rewrite Z.mul_comm in Hfind. rewrite (bind_run (lift _) _ _ (- CBMDOS_FDC_ERR_SYNC) p) by (unfold lift; by rewrite Hfind).
       unfold mbind at 1, ST_bind. by rewrite (bind_run (modify _) _ _ tt (- CBMDOS_FDC_ERR_SYNC)) by done. }
  set (r := (p + k) mod (8 * mlen d)) in *. assert (Hr : 0 <= r < 8 * mlen d) by (apply Z.mod_pos_bound; lia).
  assert (Hm : mark d r) by (by apply mark_mod).
  destruct (any_round (S fuel) n (- CBMDOS_FDC_ERR_SYNC) [] None p r Hfind Hr) as [(x & Hrun & Hx)|(hd' & pid' & Hrun)];
    [unfold CBMDOS_FDC_ERR_SYNC; lia|exists x, r; by auto|].
  rewrite Hrun. change (- CBMDOS_FDC_ERR_SYNC <? 0) with true. cbv iota. clear Hrun Hfind.
  destruct (Hmarks r Hm) as (q & Hmq & Hq). assert (Ha : 0 < ahead d r q).
  { pose proof (ahead_bound d Hsize r q). destruct (Z.eq_dec (ahead d r q) 0) as [H0|]; [|lia]. exfalso. apply Hq.
    pose proof (ahead_same d r q) as Hs. by rewrite H0, Z.add_0_r in Hs. }
  destruct (any_next r q Hr Hm Hmq Ha) as (j & Hj & Hmj & Hfind). pose proof (ahead_bound d Hsize r q).
  set (r2 := (r + j) mod (8 * mlen d)) in *. assert (Hr2 : 0 <= r2 < 8 * mlen d) by (apply Z.mod_pos_bound; lia).
  assert (Har : ahead d r2 r = 8 * mlen d - j).
  { unfold ahead, r2. rewrite Zminus_mod_idemp_r. replace (r - (r + j)) with (8 * mlen d - j + -1 * (8 * mlen d)) by lia.
    rewrite Z.mod_add by lia. apply Z.mod_small. lia. }
  assert (Hne : r <> r2) by (intros Heq; pose proof (proj2 (ahead_zero d r2 r Hr2 Hr) (eq_sym Heq)); lia).
  destruct (any_round fuel n r hd' pid' r r2 Hfind Hr2 Hne) as [(x & Hrun & Hx)|(hd2 & pid2 & Hrun)]; [exists x, r2; by auto|].
  rewrite Hrun, (proj2 (Z.ltb_ge r 0)) by lia.
  destruct (any_around n fuel r2 r hd2 pid2) as (x & p' & Hrun' & Hx); [done|by apply mark_mod|done|done|lia|].
  exists x, p'. by auto.
Qed.

End any_track.

End FluxSpec.
