(* ===== verification/FormatSpec.v ===== *)
(** * Specification of formatting

    The raw tracks that [fsimage_read_dxx_image] makes from a disk image are formatted:
    every sector of the image is read back from them. *)

From S2P Require Import Prelude Geometry Image VDrive Bam Gcr GcrSpec FluxSpec.
Import Gcr GcrSpec FluxSpec.

Module FormatSpec.

(** ** Runs of ones *)

(** Among ten bits there is always a zero, or the end. *)
Definition sparse (l : list bool) : Prop :=
  forall i, exists j, (j < 10)%nat /\ l !! (i + j)%nat <> Some true.

Definition filler (n : nat) : list bool := tbits (replicate n 0x55).

Lemma length_filler n : length (filler n) = (8 * n)%nat.
Proof. unfold filler. by rewrite length_tbits, length_replicate. Qed.

Lemma filler_even n i : (i < 4 * n)%nat -> filler n !! (2 * i)%nat = Some false.
Proof.
  revert i. induction n as [|n IH]; intros i Hi; [lia|]. unfold filler, tbits. cbn [replicate mbind list_bind].
  change (replicate n 85 ≫= low 8) with (filler n). change (low 8 85) with [false; true; false; true; false; true; false; true].
  destruct i as [|[|[|[|i]]]]; [done|done|done|done|]. rewrite lookup_app_r by (cbn; lia).
  replace (2 * S (S (S (S i))) - length [false; true; false; true; false; true; false; true])%nat with (2 * i)%nat by (cbn; lia).
  apply IH. lia.
Qed.

Lemma sparse_code_filler bs n : bytes_ok bs -> sparse (code bs ++ filler n).
Proof.
  intros Hb i. pose proof (length_code bs) as Hl. pose proof (length_filler n) as Hn.
  set (k := Nat.div (i + 4) 5). assert (Hk : (i <= 5 * k <= i + 4)%nat).
  { unfold k. pose proof (Nat.div_mod_eq (i + 4) 5). pose proof (Nat.mod_upper_bound (i + 4) 5). lia. }
  destruct (le_lt_dec (2 * length bs) k) as [Hout|Hin].
  - (* the ten bits reach behind the code *)
    destruct (le_lt_dec (10 * length bs) i) as [Hi|Hi].
    + set (m := Nat.div (i - 10 * length bs + 1) 2). assert (Hm : (i - 10 * length bs <= 2 * m <= i - 10 * length bs + 1)%nat).
      { unfold m. pose proof (Nat.div_mod_eq (i - 10 * length bs + 1) 2). pose proof (Nat.mod_upper_bound (i - 10 * length bs + 1) 2). lia. }
      exists (2 * m + 10 * length bs - i)%nat. split; [lia|].
      replace (i + (2 * m + 10 * length bs - i))%nat with (10 * length bs + 2 * m)%nat by lia.
      rewrite lookup_app_r, Hl by lia. replace (10 * length bs + 2 * m - 10 * length bs)%nat with (2 * m)%nat by lia.
      destruct (le_lt_dec (4 * n) m); [rewrite lookup_ge_None_2 by lia|rewrite filler_even by lia]; done.
    + exists (10 * length bs - i)%nat. split; [lia|]. replace (i + (10 * length bs - i))%nat with (10 * length bs + 2 * 0)%nat by lia.
      rewrite lookup_app_r, Hl by lia. replace (10 * length bs + 2 * 0 - 10 * length bs)%nat with (2 * 0)%nat by lia.
      destruct n as [|n]; [done|]. by rewrite filler_even by lia.
  - destruct (code_zero bs Hb k Hin) as (j & Hj & Hz). exists (5 * k + j - i)%nat. split; [lia|].
    replace (i + (5 * k + j - i))%nat with (5 * k + j)%nat by lia. rewrite lookup_app_l; [by rewrite Hz|].
    by apply lookup_lt_Some in Hz.
Qed.

(** ** Chunks

    A track is a sequence of chunks: ones, and contents that begin with a zero and
    have no ten ones in a row. *)

Definition chunk_bits (c : nat * list bool) : list bool := replicate c.1 true ++ c.2.
Definition chunk_ok (c : nat * list bool) : Prop := (10 <= c.1)%nat /\ c.2 !! 0%nat = Some false /\ sparse c.2.
Definition chunks_bits (cs : list (nat * list bool)) : list bool := cs ≫= chunk_bits.

(** Where the contents start *)
Fixpoint starts (o : Z) (cs : list (nat * list bool)) : list Z :=
  match cs with
  | [] => []
  | c :: cs => o + Z.of_nat c.1 :: starts (o + Z.of_nat (length (chunk_bits c))) cs
  end.

Lemma length_chunk c : length (chunk_bits c) = (c.1 + length c.2)%nat.
Proof. unfold chunk_bits. by rewrite length_app, length_replicate. Qed.

Lemma starts_ge o cs x : x ∈ starts o cs -> o <= x.
Proof.
  revert o. induction cs as [|c cs IH]; intros o Hx; [by apply not_elem_of_nil in Hx|].
  apply elem_of_cons in Hx as [->|Hx]; [lia|]. apply IH in Hx. lia.
Qed.

Lemma starts_lt cs : Forall chunk_ok cs -> forall o x, x ∈ starts o cs ->
  x < o + Z.of_nat (length (chunks_bits cs)).
Proof.
  induction 1 as [|c cs (_ & Hc & _) Hcs IH]; intros o x Hx; [by apply not_elem_of_nil in Hx|].
  unfold chunks_bits. cbn [mbind list_bind]. fold (chunks_bits cs). rewrite length_app, length_chunk.
  apply lookup_lt_Some in Hc. apply elem_of_cons in Hx as [->|Hx]; [lia|].
  apply IH in Hx. rewrite length_chunk in Hx. lia.
Qed.

(** The marks in front of the end of the chunks are the starts of their contents. *)
Lemma chunk_marks d p cs : Forall chunk_ok cs -> forall o0, 0 <= o0 -> holds d (p + o0) (chunks_bits cs) ->
  forall o, o0 <= o < o0 + Z.of_nat (length (chunks_bits cs)) -> mark d (p + o) <-> o ∈ starts o0 cs.
Proof.
  induction cs as [|[k c] cs IH]; intros Hcs o0 Ho0 Hh o Ho; [cbn in Ho; lia|].
  apply Forall_cons in Hcs as [(Hk & Hfirst & Hsparse) Hcs]. cbn [fst snd] in *.
  unfold chunks_bits in Hh, Ho. cbn [mbind list_bind] in Hh, Ho. fold (chunks_bits cs) in Hh, Ho.
  apply holds_app in Hh as [Hc Hh]. rewrite length_app, length_chunk in Ho. rewrite length_chunk in Hh. cbn [fst snd] in *.
  cbn [starts]. rewrite length_chunk. cbn [fst snd]. rewrite elem_of_cons.
  assert (Hones : forall i, 0 <= i < Z.of_nat k -> cbit d (p + o0 + i) = true).
  { intros i Hi. rewrite <- (Z2Nat.id i) by lia. eapply holds_bit; [exact Hc|]. unfold chunk_bits. cbn [fst].
    rewrite lookup_app_l by (rewrite length_replicate; lia). apply lookup_replicate_2. lia. }
  assert (Hcont : forall i b, c !! i = Some b -> cbit d (p + o0 + Z.of_nat k + Z.of_nat i) = b).
  { intros i b Hi. rewrite <- Z.add_assoc, <- Nat2Z.inj_add. eapply holds_bit; [exact Hc|]. unfold chunk_bits. cbn [fst snd].
    rewrite lookup_app_r by (rewrite length_replicate; lia). rewrite length_replicate. by replace (k + i - k)%nat with i by lia. }
  pose proof (lookup_lt_Some _ _ _ Hfirst) as Hlen.
  assert (Hstart : mark d (p + (o0 + Z.of_nat k))).
  { split; [replace (p + (o0 + Z.of_nat k)) with (p + o0 + Z.of_nat k + Z.of_nat 0) by lia; by apply Hcont|].
    intros j Hj. replace (p + (o0 + Z.of_nat k) - j) with (p + o0 + (Z.of_nat k - j)) by lia. apply Hones. lia. }
  destruct (Z.lt_ge_cases o (o0 + Z.of_nat (k + length c))) as [Hin|Hout].
  2: { specialize (IH Hcs (o0 + Z.of_nat (k + length c)) ltac:(lia)).
       rewrite IH; [split; [by right|]|by rewrite Z.add_assoc|lia]. intros [->|?]; [lia|done]. }
  split; [|intros [->|Hx]; [done|apply starts_ge in Hx; lia]]. intros Hm. left.
  destruct (Z.lt_trichotomy o (o0 + Z.of_nat k)) as [Hlt|[Heq|Hgt]]; [|done|].
  - destruct Hm as [Hz _]. replace (p + o) with (p + o0 + (o - o0)) in Hz by lia. rewrite Hones in Hz by lia. done.
  - exfalso. pose proof (marks_apart d _ (o - (o0 + Z.of_nat k)) Hstart) as Hfar.
    replace (p + (o0 + Z.of_nat k) + (o - (o0 + Z.of_nat k))) with (p + o) in Hfar by lia. specialize (Hfar Hm ltac:(lia)).
    set (u := Z.to_nat (o - (o0 + Z.of_nat k) - 10)). destruct (Hsparse u) as (j & Hj & Hno). apply Hno.
    destruct (lookup_lt_is_Some_2 c (u + j)%nat) as [b Hb]; [lia|]. rewrite Hb. f_equal.
    rewrite <- (Hcont _ _ Hb). destruct Hm as [_ Hten].
    rewrite <- (Hten (10 - Z.of_nat j)) by lia. f_equal. lia.
Qed.

(** ** Formatted sectors *)

(** A sector with the number of bytes between it and the next one *)
Definition written_t : Type := gcr_header_t * mem * nat.

Definition sector_chunks (hg : nat) (f : written_t) : list (nat * list bool) :=
  [(40%nat, code (header_bytes f.1.1) ++ filler hg); (40%nat, code (block_bytes f.1.2) ++ filler f.2)].
Definition layout (hg : nat) (fs : list written_t) : list (nat * list bool) := fs ≫= sector_chunks hg.

Definition written_ok (f : written_t) : Prop := header_ok f.1.1 /\ mlen f.1.2 = 256 /\ bytes_ok f.1.2.

Definition header_gap (hg : nat) : Z := 120 + 8 * Z.of_nat hg.
Definition sector_size (hg : nat) (f : written_t) : Z := header_gap hg + 40 + 2600 + 8 * Z.of_nat f.2.

(** The sectors on a track of [n] bits, [o] bits behind [p] *)
Fixpoint sectors_of (n p : Z) (hg : nat) (o : Z) (fs : list written_t) : list sector_t :=
  match fs with
  | [] => []
  | f :: fs => Sector ((p + (o + 40)) mod n) (header_gap hg) f.1.1 f.1.2
               :: sectors_of n p hg (o + sector_size hg f) fs
  end.

Lemma chunks_bits_app a b : chunks_bits (a ++ b) = chunks_bits a ++ chunks_bits b.
Proof. apply bind_app. Qed.

Lemma length_header h : length (code (header_bytes h)) = 80%nat.
Proof. apply length_code. Qed.

Lemma length_block_code data : mlen data = 256 -> length (code (block_bytes data)) = 2600%nat.
Proof. intros Hl. by rewrite length_code, (length_block _ Hl). Qed.

Lemma length_sector hg f : written_ok f -> Z.of_nat (length (chunks_bits (sector_chunks hg f))) = sector_size hg f.
Proof.
  intros (_ & Hl & _). unfold chunks_bits. cbn [sector_chunks mbind list_bind].
  rewrite app_nil_r, length_app, !length_chunk. cbn [fst snd].
  rewrite !length_app, !length_filler, length_header, (length_block_code _ Hl). unfold sector_size, header_gap. lia.
Qed.

Lemma track_layout_ok hg fs : Forall written_ok fs -> Forall chunk_ok (layout hg fs).
Proof.
  induction 1 as [|f fs (Hh & Hl & Hb) Hfs IH]; [constructor|]. unfold layout. cbn [mbind list_bind].
  apply Forall_app. split; [|done]. constructor; [|constructor; [|constructor]]; (split; [cbn; lia|split]).
  - cbn [snd]. rewrite lookup_app_l by (rewrite length_header; lia). by apply code_first.
  - apply sparse_code_filler, header_bytes_ok, Hh.
  - cbn [snd]. rewrite lookup_app_l by (rewrite (length_block_code _ Hl); lia). by apply code_first.
  - apply sparse_code_filler, block_bytes_ok, Hb.
Qed.

Section layout.
Variables (d : mem) (p : Z) (hg : nat).
Hypotheses (Hsize : 335 <= mlen d) (Hok : bytes_ok d) (Hhg : (hg <= 400)%nat).

Let n : Z := 8 * mlen d.

Lemma layout_sector fs : Forall written_ok fs -> forall o, 0 <= o -> holds d (p + o) (chunks_bits (layout hg fs)) ->
  forall s, s ∈ sectors_of n p hg o fs -> sector_on d s /\
    (exists x, x ∈ starts o (layout hg fs) /\ same d (p + x) (sc_pos s)) /\
    (exists x, x ∈ starts o (layout hg fs) /\ same d (p + x) (sc_block s)).
Proof.
  induction 1 as [|f fs Hf Hfs IH]; intros o Ho Hh s Hs; [by apply not_elem_of_nil in Hs|].
  unfold layout in *. cbn [mbind list_bind] in *. fold (layout hg fs) in *.
  pose proof (length_sector hg f Hf) as Hlen.
  assert (Hsplit := Hh). rewrite chunks_bits_app in Hsplit. apply holds_app in Hsplit as [Hhead Htail].
  rewrite Hlen, <- Z.add_assoc in Htail.
  assert (Hstarts : starts o (sector_chunks hg f ++ layout hg fs)
    = o + 40 :: o + 40 + header_gap hg :: starts (o + sector_size hg f) (layout hg fs)).
  { destruct Hf as (_ & Hl & _). cbn [sector_chunks app starts]. rewrite !length_chunk. cbn [fst snd].
    rewrite !length_app, !length_filler, length_header, (length_block_code _ Hl). unfold sector_size, header_gap.
    f_equal. f_equal; [lia|]. f_equal. lia. }
  rewrite Hstarts. apply elem_of_cons in Hs as [->|Hs].
  2: { destruct (IH (o + sector_size hg f) ltac:(unfold sector_size, header_gap; lia) Htail s Hs) as (Hon & (x & Hx & Hsx) & (y & Hy & Hsy)).
       split; [done|]. split; [exists x|exists y]; (split; [by do 2 right|done]). }
  cbn [sc_pos sc_gap sc_header sc_data].
  assert (Hpos : same d (p + (o + 40)) ((p + (o + 40)) mod n)) by (unfold same; fold n; by rewrite Zmod_mod).
  assert (Hblk : same d (p + (o + 40 + header_gap hg)) ((p + (o + 40)) mod n + header_gap hg)).
  { unfold same. fold n. rewrite Zplus_mod_idemp_l. f_equal. lia. }
  split; [|split; [exists (o + 40); split; [by left|done]|exists (o + 40 + header_gap hg); split; [by right; left|exact Hblk]]].
  pose proof Hf as (Hhdr & Hl & Hb). unfold chunks_bits in Hhead. cbn [sector_chunks mbind list_bind] in Hhead.
  rewrite app_nil_r in Hhead. unfold chunk_bits in Hhead. cbn [fst snd] in Hhead.
  apply holds_app in Hhead as [H1 H2]. apply holds_app in H1 as [_ H1]. apply holds_app in H1 as [H1 _].
  apply holds_app in H2 as [_ H2]. apply holds_app in H2 as [H2 _].
  rewrite !length_app, !length_replicate, length_header, length_filler in H2. rewrite length_replicate in H1.
  split; cbn [sc_pos sc_gap sc_header sc_data]; try done.
  - apply Z.mod_pos_bound. lia.
  - unfold header_gap. lia.
  - eapply (holds_same d ltac:(lia)); [exact Hpos|]. by replace (p + (o + 40)) with (p + o + Z.of_nat 40) by lia.
  - eapply (holds_same d ltac:(lia)); [exact Hblk|]. unfold header_gap.
    replace (p + (o + 40 + (120 + 8 * Z.of_nat hg))) with (p + o + Z.of_nat (40 + (80 + 8 * hg)) + Z.of_nat 40) by lia. done.
  - intros k Hk Hm. assert (Hm' : mark d (p + (o + 40 + k))).
    { eapply (mark_same d ltac:(lia)); [|exact Hm]. unfold same. fold n. rewrite Zplus_mod_idemp_l. f_equal. lia. }
    apply (chunk_marks d p (sector_chunks hg f ++ layout hg fs)) with (o0 := o) in Hm'.
    + rewrite Hstarts in Hm'. unfold header_gap in *. apply elem_of_cons in Hm' as [?|Hm']; [lia|].
      apply elem_of_cons in Hm' as [?|Hm']; [lia|]. apply starts_ge in Hm'. unfold sector_size, header_gap in Hm'. lia.
    + apply (track_layout_ok hg (f :: fs)). by constructor.
    + done.
    + exact Hh.
    + rewrite chunks_bits_app, length_app. unfold sector_size, header_gap in *. lia.
Qed.

Lemma starts_sector fs : Forall written_ok fs -> forall o x, x ∈ starts o (layout hg fs) ->
  exists s, s ∈ sectors_of n p hg o fs /\ (same d (p + x) (sc_pos s) \/ same d (p + x) (sc_block s)).
Proof.
  induction 1 as [|f fs Hf Hfs IH]; intros o x Hx; [by apply not_elem_of_nil in Hx|].
  unfold layout in Hx. cbn [mbind list_bind sector_chunks app starts] in Hx. fold (layout hg fs) in Hx.
  rewrite !length_chunk in Hx. cbn [fst snd] in Hx. destruct Hf as (_ & Hl & _).
  rewrite !length_app, !length_filler, length_header, (length_block_code _ Hl) in Hx.
  apply elem_of_cons in Hx as [->|Hx].
  { eexists. split; [left|]. left. unfold same. cbn [sc_pos]. fold n. rewrite Zmod_mod. f_equal; lia. }
  apply elem_of_cons in Hx as [->|Hx].
  { eexists. split; [left|]. right. unfold same, sc_block. cbn [sc_pos sc_gap]. fold n. rewrite Zplus_mod_idemp_l.
    unfold header_gap. f_equal; lia. }
  replace (_ + Z.of_nat (40 + (2600 + 8 * f.2))) with (o + sector_size hg f) in Hx by (unfold sector_size, header_gap; lia).
  destruct (IH _ _ Hx) as (s & Hs & Hcase). exists s. split; [by right|done].
Qed.

Lemma sectors_numbers fs o : (fun s => h_sector (sc_header s)) <$> sectors_of n p hg o fs = (fun f => h_sector f.1.1) <$> fs.
Proof. revert o. induction fs as [|f fs IH]; intros o; [done|]. cbn. f_equal. apply IH. Qed.

(** A track that is full of formatted sectors is formatted. *)
Lemma layout_formatted fs : Forall written_ok fs -> holds d p (chunks_bits (layout hg fs)) ->
  Z.of_nat (length (chunks_bits (layout hg fs))) = n -> NoDup ((fun f => h_sector f.1.1) <$> fs) ->
  formatted d (sectors_of n p hg 0 fs).
Proof.
  intros Hfs Hh Hn Hnd. rewrite <- (Z.add_0_r p) in Hh.
  pose proof (layout_sector fs Hfs 0 ltac:(lia) Hh) as Hsec.
  assert (Hmarks : forall o, 0 <= o < n -> mark d (p + o) <-> o ∈ starts 0 (layout hg fs)).
  { intros o Ho. apply chunk_marks; [by apply track_layout_ok|lia|done|lia]. }
  split; [done|done|intros s Hs; by apply Hsec| |by rewrite sectors_numbers].
  intros q. set (o := (q - p) mod n). assert (Ho : 0 <= o < n) by (apply Z.mod_pos_bound; lia).
  assert (Hso : same d (p + o) q) by (unfold same, o; fold n; rewrite Zplus_mod_idemp_r; f_equal; lia). split.
  - intros Hm. eapply (mark_same d ltac:(lia)) in Hm; [|symmetry; exact Hso]. apply Hmarks in Hm; [|done].
    destruct (starts_sector fs Hfs 0 o Hm) as (s & Hs & Hcase). exists s. split; [done|].
    unfold same in *. by rewrite <- Hso.
  - assert (Hstart : forall x, x ∈ starts 0 (layout hg fs) -> mark d (p + x)).
    {     intros x Hx. apply Hmarks; [|done]. pose proof (starts_ge 0 _ _ Hx).
      pose proof (starts_lt _ (track_layout_ok hg fs Hfs) 0 _ Hx). lia. }
    intros (s & Hs & Hcase). destruct (Hsec s Hs) as (_ & (x & Hx & Hsx) & (y & Hy & Hsy)).
    destruct Hcase as [Heq|Heq].
    + eapply (mark_same d ltac:(lia)); [|exact (Hstart x Hx)]. unfold same in *. by rewrite Heq.
    + eapply (mark_same d ltac:(lia)); [|exact (Hstart y Hy)]. unfold same in *. by rewrite Heq.
Qed.

End layout.

(** ** Writing a track from its start

    The memory of the track: what was written, and the filler behind it *)

Definition room (pre : mem) (n : nat) : mem := pre ++ replicate n 0x55.

Lemma splice_room pre n bs : (length bs <= n)%nat ->
  splice (room pre n) (mlen pre) bs = Some (room (pre ++ bs) (n - length bs)).
Proof.
  intros Hn. unfold splice, room. pose proof (mlen_nonneg pre). rewrite (proj2 (Z.leb_le 0 (mlen pre))) by done. cbn [andb].
  rewrite (proj2 (Z.leb_le _ _)) by (unfold mlen in *; rewrite length_app, length_replicate; lia).
  unfold mlen. rewrite Nat2Z.id, take_app_length, <- app_assoc. do 3 f_equal.
  rewrite drop_app_add'; [|done]. rewrite drop_replicate. done.
Qed.

Lemma memset_room pre n c k : 0 <= k -> (Z.to_nat k <= n)%nat ->
  memset (mlen pre) c k (room pre n) = Some (tt, room (pre ++ replicate (Z.to_nat k) c) (n - Z.to_nat k)).
Proof. intros Hk Hn. unfold memset, update. by rewrite splice_room, length_replicate by (by rewrite length_replicate). Qed.

(** [bits] was written, as bytes. *)
Definition wrote_bits (pre : mem) (n : nat) (bits : list bool) (pre' : mem) (n' : nat) : Prop :=
  exists bs, pre' = pre ++ bs /\ bytes_ok bs /\ tbits bs = bits /\ n = (length bs + n')%nat.

Lemma wrote_app pre n a pre1 n1 b pre2 n2 : wrote_bits pre n a pre1 n1 -> wrote_bits pre1 n1 b pre2 n2 ->
  wrote_bits pre n (a ++ b) pre2 n2.
Proof.
  intros (x & -> & Hx & <- & ->) (y & -> & Hy & <- & ->). exists (x ++ y). rewrite app_assoc, tbits_app, length_app.
  split; [done|]. split; [by apply Forall_app|]. split; [done|lia].
Qed.

Lemma wrote_length pre n bits pre' n' : wrote_bits pre n bits pre' n' ->
  8 * mlen pre' = 8 * mlen pre + Z.of_nat (length bits) /\ (8 * n = length bits + 8 * n')%nat.
Proof.
  intros (x & -> & Hx & <- & ->). rewrite length_tbits, mlen_app. unfold mlen. lia.
Qed.

Lemma put_run pre n bs : bytes_ok bs -> length bs = 4%nat -> (5 <= n)%nat -> exists pre',
  put_4bytes bs (mlen pre) (room pre n) = Some (tt, room pre' (n - 5)) /\ wrote_bits pre n (code bs) pre' (n - 5).
Proof.
  intros Hb Hl Hn. destruct (convert_4bytes bs Hb Hl) as (g & Hg & Hlg & Hgb & Hbits). exists (pre ++ g).
  unfold put_4bytes. rewrite (bind_run (lift _) _ _ g (room pre n)) by (unfold lift; by rewrite Hg).
  unfold update. rewrite splice_room, Hlg by lia. split; [done|]. exists g. split; [done|]. split; [done|]. split; [done|lia].
Qed.

Lemma put_groups_run k : forall pre n buffer i c, length buffer = 256%nat -> bytes_ok buffer -> 0 <= i ->
  i + 4 * Z.of_nat k <= 256 -> (5 * k <= n)%nat -> exists pre',
  put_groups k buffer i c (mlen pre) (room pre n)
    = Some (foldl Z.lxor c (take (4 * k) (drop (Z.to_nat i) buffer)), mlen pre', room pre' (n - 5 * k)) /\
  wrote_bits pre n (code (take (4 * k) (drop (Z.to_nat i) buffer))) pre' (n - 5 * k).
Proof.
  induction k as [|k IH]; intros pre n buffer i c Hl Hb Hi Hk Hn; cbn [put_groups].
  { exists pre. cbn [Nat.mul take]. rewrite Nat.sub_0_r. split; [done|]. exists []. by rewrite app_nil_r. }
  set (b := take 4 (drop (Z.to_nat i) buffer)).
  assert (Hsl : slice buffer i 4 = Some b).
  { unfold slice. rewrite (proj2 (Z.leb_le 0 i)) by done. change (0 <=? 4) with true. cbn [andb].
    by rewrite (proj2 (Z.leb_le (i + 4) (mlen buffer))) by (unfold mlen; lia). }
  rewrite (bind_run (lift _) _ _ b (room pre n)) by (unfold lift; by rewrite Hsl).
  assert (Hlb : length b = 4%nat) by (unfold b; rewrite length_take, length_drop; lia).
  destruct (put_run pre n b) as (pre1 & Hput & Hw1); [by apply Forall_take, Forall_drop|done|lia|].
  unfold mbind, ST_bind. rewrite (bind_run _ _ _ _ _ Hput).
  assert (Hp1 : mlen pre + 5 = mlen pre1).
  { apply wrote_length in Hw1 as [H1 _]. rewrite length_code, Hlb in H1. lia. }
  rewrite Hp1. destruct (IH pre1 (n - 5)%nat buffer (i + 4) (foldl Z.lxor c b)) as (pre2 & Hrun & Hw2); [done|done|lia|lia|lia|].
  exists pre2. assert (Hsplit : take (4 * S k) (drop (Z.to_nat i) buffer) = b ++ take (4 * k) (drop (Z.to_nat (i + 4)) buffer)).
  { replace (4 * S k)%nat with (4 + 4 * k)%nat by lia. rewrite <- take_take_drop. f_equal. f_equal. rewrite drop_drop. f_equal. lia. }
  rewrite Hsplit, foldl_app, code_app. replace (n - 5 * S k)%nat with (n - 5 - 5 * k)%nat by lia.
  split; [exact Hrun|]. by eapply wrote_app.
Qed.

(** The codes that make the controller see an error *)
Definition plain_code (rf : Z) : Prop :=
  rf <> CBMDOS_FDC_ERR_ID /\ rf <> CBMDOS_FDC_ERR_SYNC /\ rf <> CBMDOS_FDC_ERR_HCHECK /\
  rf <> CBMDOS_FDC_ERR_HEADER /\ rf <> CBMDOS_FDC_ERR_DCHECK /\ rf <> CBMDOS_FDC_ERR_NOBLOCK.

Lemma ones_bits k : tbits (replicate k 0xff) = replicate (8 * k) true.
Proof.
  induction k as [|k IH]; [done|]. unfold tbits in *. cbn [replicate mbind list_bind]. rewrite IH.
  replace (8 * S k)%nat with (8 + 8 * k)%nat by lia. done.
Qed.

Lemma memset_run pre n c k : 0 <= c < 256 -> (k <= n)%nat -> exists pre',
  memset (mlen pre) c (Z.of_nat k) (room pre n) = Some (tt, room pre' (n - k)) /\
  wrote_bits pre n (tbits (replicate k c)) pre' (n - k).
Proof.
  intros Hc Hn. exists (pre ++ replicate k c). rewrite memset_room, Nat2Z.id by lia. split; [done|].
  exists (replicate k c). split; [done|]. split; [by apply Forall_replicate|]. rewrite length_replicate. split; [done|lia].
Qed.

Lemma skip_run pre n k : (k <= n)%nat -> exists pre', room pre n = room pre' (n - k) /\
  wrote_bits pre n (filler k) pre' (n - k) /\ mlen pre' = mlen pre + Z.of_nat k.
Proof.
  intros Hn. exists (pre ++ replicate k 0x55). split.
  - unfold room. rewrite <- app_assoc, <- replicate_add. do 2 f_equal. lia.
  - split; [|rewrite mlen_app; unfold mlen; by rewrite length_replicate]. exists (replicate k 0x55). split; [done|].
    split; [by apply Forall_replicate|]. rewrite length_replicate. split; [done|lia].
Qed.

(** A step of a computation on the track, with the position behind it *)
Definition runs (m : Z -> ST mem unit) (bits : list bool) (size : nat) : Prop :=
  forall pre n, (size <= n)%nat -> exists pre', m (mlen pre) (room pre n) = Some (tt, room pre' (n - size)) /\
    wrote_bits pre n bits pre' (n - size) /\ mlen pre' = mlen pre + Z.of_nat size.

Lemma put_runs bs : bytes_ok bs -> length bs = 4%nat -> runs (put_4bytes bs) (code bs) 5.
Proof.
  intros Hb Hl pre n Hn. destruct (put_run pre n bs Hb Hl Hn) as (pre' & Hrun & Hw). exists pre'. split; [done|].
  split; [done|]. apply wrote_length in Hw as [H _]. rewrite length_code, Hl in H. lia.
Qed.

Lemma memset_runs c k : 0 <= c < 256 -> runs (fun p => memset p c (Z.of_nat k)) (tbits (replicate k c)) k.
Proof.
  intros Hc pre n Hn. destruct (memset_run pre n c k Hc Hn) as (pre' & Hrun & Hw). exists pre'. split; [done|].
  split; [done|]. apply wrote_length in Hw as [H _]. rewrite length_tbits, length_replicate in H. lia.
Qed.

(** The block of a sector *)
Definition put_block (buffer : mem) (data : Z) : ST mem unit :=
  let! b := lift (slice buffer 0 3) in
  put_4bytes (7 :: b) data;;
  let! (chksum, data) := put_groups 63 buffer 3 (foldl Z.lxor 0 b) (data + 5) in
  let! last := lift (getb buffer 255) in
  put_4bytes [last; Z.lxor chksum last; 0; 0] data.

Lemma block_runs buffer : length buffer = 256%nat -> bytes_ok buffer ->
  runs (put_block buffer) (code (block_bytes buffer)) 325.
Proof.
  intros Hl Hb pre n Hn. unfold put_block.
  rewrite (bind_run (lift _) _ _ (take 3 buffer) (room pre n)).
  2: { unfold lift, slice. rewrite (proj2 (Z.leb_le (0 + 3) (mlen buffer))) by (unfold mlen; lia). done. }
  destruct (put_runs (7 :: take 3 buffer)) with (pre := pre) (n := n) as (p1 & Hr1 & Hw1 & Hl1);
    [constructor; [done|by apply Forall_take]|cbn [length]; rewrite length_take; lia|lia|].
  unfold mbind, ST_bind. rewrite (bind_run _ _ _ _ _ Hr1). change (Z.of_nat 5) with 5 in Hl1. rewrite <- Hl1.
  destruct (put_groups_run 63 p1 (n - 5) buffer 3 (foldl Z.lxor 0 (take 3 buffer)) Hl Hb) as (p2 & Hr2 & Hw2); [lia|lia|lia|].
  rewrite (bind_run _ _ _ _ _ Hr2). cbv beta iota. change (Z.to_nat 3) with 3%nat in *. change (4 * 63)%nat with 252%nat in *.
  destruct (getb_is_Some buffer 255) as [x Hx]; [unfold mlen; lia|].
  rewrite (bind_run (lift _) _ _ x (room p2 (n - 5 - 5 * 63))) by (unfold lift; by rewrite Hx).
  apply getb_Some in Hx as [_ Hx]. change (Z.to_nat 255) with 255%nat in Hx.
  assert (Hbuf : buffer = take 3 buffer ++ take 252 (drop 3 buffer) ++ [x]).
  { rewrite <- (take_drop 3 buffer) at 1. f_equal. rewrite <- (take_drop 252 (drop 3 buffer)) at 1. f_equal.
    rewrite drop_drop. change (3 + 252)%nat with 255%nat. rewrite (drop_S _ _ _ Hx), drop_ge by lia. done. }
  set (c := foldl Z.lxor (foldl Z.lxor 0 (take 3 buffer)) (take 252 (drop 3 buffer))) in *.
  assert (Hc : Z.lxor c x = foldl Z.lxor 0 buffer).
  { rewrite Hbuf at 1. rewrite !foldl_app. done. }
  assert (Hx8 : 0 <= x < 256) by exact (Forall_lookup_1 _ _ _ _ Hb Hx).
  assert (Hc8 : 0 <= Z.lxor c x < 256) by (rewrite Hc; by apply xor_bytes).
  destruct (put_runs [x; Z.lxor c x; 0; 0]) with (pre := p2) (n := (n - 5 - 5 * 63)%nat) as (p3 & Hr3 & Hw3 & Hl3);
    [by rewrite !Forall_cons, Forall_nil|done|lia|].
  exists p3. replace (n - 325)%nat with (n - 5 - 5 * 63 - 5)%nat by lia. split; [exact Hr3|].
  pose proof (wrote_app _ _ _ _ _ _ _ _ Hw1 (wrote_app _ _ _ _ _ _ _ _ Hw2 Hw3)) as Hw.
  rewrite <- !code_app in Hw. replace (block_bytes buffer) with
    ((7 :: take 3 buffer) ++ take 252 (drop 3 buffer) ++ [x; Z.lxor c x; 0; 0]).
  - split; [done|]. apply wrote_length in Hw2 as [H2 _]. rewrite length_code, length_take, length_drop in H2. lia.
  - unfold block_bytes. rewrite <- Hc. rewrite Hbuf at 3. cbn [app]. f_equal. by rewrite <- !app_assoc.
Qed.

(** A formatted sector *)
Lemma convert_runs buffer h hg rf : length buffer = 256%nat -> bytes_ok buffer -> header_ok h -> plain_code rf ->
  runs (fun p => gcr_convert_sector_to_GCR buffer p h (Z.of_nat hg) 5 rf)
    (replicate 40 true ++ (code (header_bytes h) ++ filler hg) ++ replicate 40 true ++ code (block_bytes buffer))
    (345 + hg).
Proof.
  intros Hl Hb Hh (E1 & E2 & E3 & E4 & E5 & E6) pre n Hn. unfold gcr_convert_sector_to_GCR.
  rewrite (proj2 (Z.eqb_neq _ _) E1), (proj2 (Z.eqb_neq _ _) E2), (proj2 (Z.eqb_neq _ _) E3), (proj2 (Z.eqb_neq _ _) E4),
    (proj2 (Z.eqb_neq _ _) E5), (proj2 (Z.eqb_neq _ _) E6). cbv zeta. rewrite !Z.lxor_0_l, !Z.lxor_0_r.
  fold (header_check h). pose proof (header_check_ok h Hh) as Hchk. pose proof Hh as (Hh1 & Hh2 & Hh3 & Hh4).
  destruct (memset_runs 0xff 5 ltac:(lia) pre n ltac:(lia)) as (p1 & Hr1 & Hw1 & Hl1). change (Z.of_nat 5) with 5 in *.
  unfold mbind, ST_bind. rewrite (bind_run _ _ _ _ _ Hr1), <- Hl1.
  destruct (put_runs [8; header_check h; h_sector h; h_track h]) with (pre := p1) (n := (n - 5)%nat) as (p2 & Hr2 & Hw2 & Hl2);
    [by rewrite !Forall_cons, Forall_nil|done|lia|]. change (Z.of_nat 5) with 5 in *.
  rewrite (bind_run _ _ _ _ _ Hr2), <- Hl2.
  destruct (put_runs [h_id2 h; h_id1 h; 15; 15]) with (pre := p2) (n := (n - 5 - 5)%nat) as (p3 & Hr3 & Hw3 & Hl3);
    [by rewrite !Forall_cons, Forall_nil|done|lia|]. change (Z.of_nat 5) with 5 in *.
  rewrite (bind_run _ _ _ _ _ Hr3).
  destruct (skip_run p3 (n - 5 - 5 - 5)%nat hg ltac:(lia)) as (p4 & Hr4 & Hw4 & Hl4). rewrite Hr4.
  replace (mlen p1 + 10 + Z.of_nat hg) with (mlen p4) by lia.
  destruct (memset_runs 0xff 5 ltac:(lia) p4 (n - 5 - 5 - 5 - hg)%nat ltac:(lia)) as (p5 & Hr5 & Hw5 & Hl5). change (Z.of_nat 5) with 5 in *.
  rewrite (bind_run _ _ _ _ _ Hr5), <- Hl5.
  destruct (block_runs buffer Hl Hb p5 (n - 5 - 5 - 5 - hg - 5)%nat ltac:(lia)) as (p6 & Hr6 & Hw6 & Hl6).
  exists p6. replace (n - (345 + hg))%nat with (n - 5 - 5 - 5 - hg - 5 - 325)%nat by lia. split; [exact Hr6|]. split; [|lia].
  rewrite (ones_bits 5) in Hw1, Hw5.
  pose proof (wrote_app _ _ _ _ _ _ _ _ Hw1 (wrote_app _ _ _ _ _ _ _ _ Hw2 (wrote_app _ _ _ _ _ _ _ _ Hw3
    (wrote_app _ _ _ _ _ _ _ _ Hw4 (wrote_app _ _ _ _ _ _ _ _ Hw5 Hw6))))) as Hw.
  rewrite <- !app_assoc. rewrite (app_assoc (code [_; _; _; _])), <- code_app in Hw. exact Hw.
Qed.

End FormatSpec.
