(* ===== verification/TracksSpec.v ===== *)
(** * Specification of the tracks of a disk image

    [fsimage_read_dxx_image] formats a track for every track of a linear image: each
    sector of the image is read from it by [gcr_read_sector], whatever the position of
    the head. On such tracks, and on every formatted one, writing a sector and reading
    it back gives its data, the other sectors keep theirs, and the search for a sector
    that is not there ends. *)

From S2P Require Import Prelude Geometry Image VDrive Bam Gcr GcrSpec FluxSpec FormatSpec.
Import Gcr GcrSpec FluxSpec FormatSpec.

Module TracksSpec.

(** ** The sectors of a track *)

(** The image file holds bytes. *)
Definition byte_file (f : file_t) : Prop := forall i, 0 <= f_data f i < 256.

(** The sector can be read, and its error code is none that the formatting shows. *)
Record ready (image : disk_image_t) (f : file_t) (t s : Z) : Prop := {
  rd_fd : fd_ image = Some f;
  rd_bytes : byte_file f;
  rd_block : 0 <= Geometry.disk_image_check_sector image t s;
  rd_size : (Geometry.disk_image_check_sector image t s + 1) * 256 <= f_size f;
  rd_code : forall m, map_ image = Some m -> exists rf,
    getb m (Geometry.disk_image_check_sector image t s) = Some rf /\ plain_code rf
}.

Lemma f_bytes_ok f off n : byte_file f -> bytes_ok (Image.f_bytes f off n).
Proof. intros Hf. unfold Image.f_bytes. apply Forall_fmap, Forall_true. intros i. apply Hf. Qed.

Lemma sector_data_ok image f t s : ready image f t s ->
  length (Image.sector_data image t s) = 256%nat /\ bytes_ok (Image.sector_data image t s).
Proof.
  intros [Hfd Hb Hr Hs Hc]. unfold Image.sector_data. rewrite Hfd.
  split; [by rewrite Image.length_f_bytes|by apply f_bytes_ok].
Qed.

(** The sector as it is written to the track *)
Definition wsector (image : disk_image_t) (t htrack id2 id1 : Z) (gap : nat) (s : Z) : written_t :=
  (GcrHeader (u8 s) htrack id2 id1, Image.sector_data image t s, gap).

Definition is_byte (x : Z) : Prop := 0 <= x < 256.

Lemma wsector_ok image f t htrack id2 id1 gap s : ready image f t s -> is_byte htrack -> is_byte id2 -> is_byte id1 ->
  written_ok (wsector image t htrack id2 id1 gap s).
Proof.
  intros Hr Ht H2 H1. destruct (sector_data_ok _ _ _ _ Hr) as [Hl Hb].
  split; [split; [apply u8_ok|done]|]. split; [|done]. cbn [fst snd wsector]. unfold mlen. by rewrite Hl.
Qed.

Lemma sector_bits hg f : chunks_bits (sector_chunks hg f) =
  (replicate 40 true ++ (code (header_bytes f.1.1) ++ filler hg) ++ replicate 40 true ++ code (block_bytes f.1.2)) ++ filler f.2.
Proof.
  unfold chunks_bits. cbn [sector_chunks mbind list_bind]. unfold chunk_bits. cbn [fst snd].
  by rewrite app_nil_r, <- !app_assoc.
Qed.

Lemma put_sectors_run image f t htrack id2 id1 gap hg : is_byte htrack -> is_byte id2 -> is_byte id1 ->
  forall k sector pre n buffer, 0 <= sector -> length buffer = 256%nat -> bytes_ok buffer ->
  (forall s, sector <= s < sector + Z.of_nat k -> ready image f t s) -> (k * (345 + hg + gap) <= n)%nat ->
  exists buffer' pre', put_sectors k image t sector id1 id2 htrack (Z.of_nat gap) (Z.of_nat hg) 5 (mlen pre) buffer (room pre n)
      = Some (buffer', mlen pre', room pre' (n - k * (345 + hg + gap))) /\
    wrote_bits pre n (chunks_bits (layout hg (wsector image t htrack id2 id1 gap <$> seqZ sector (Z.of_nat k))))
      pre' (n - k * (345 + hg + gap)) /\ length buffer' = 256%nat /\ bytes_ok buffer'.
Proof.
  intros Ht H2 H1. induction k as [|k IH]; intros sector pre n buffer Hs Hl Hb Hready Hn.
  { exists buffer, pre. rewrite Nat.mul_0_l, Nat.sub_0_r. split; [done|]. split; [|done]. exists []. by rewrite app_nil_r. }
  pose proof (Hready sector ltac:(lia)) as Hr. pose proof Hr as [Hfd Hfb Hblk Hsz Hcode].
  destruct (sector_data_ok _ _ _ _ Hr) as [Hsl Hsb]. cbn [put_sectors].
  destruct (wsector_ok image f t htrack id2 id1 gap sector Hr Ht H2 H1) as (Hhdr & _).
  set (b := Geometry.disk_image_check_sector image t sector) in *. rewrite (proj2 (Z.leb_le 0 b)) by done.
  assert (Hrd : Image.util_fpread f buffer 256 (b * 256) = (0, Image.sector_data image t sector)).
  { unfold Image.sector_data. rewrite Hfd. apply Image.fpread_full; [lia|lia|fold b; lia|unfold mlen; lia]. }
  assert (Hrf : exists rf, match map_ image with Some m => getb m b | None => Some CBMDOS_FDC_ERR_DRIVE end = Some rf /\
    plain_code rf).
  { destruct (map_ image) as [m|] eqn:Hm; [by apply Hcode|]. by exists CBMDOS_FDC_ERR_DRIVE. }
  destruct Hrf as (rf & Hrf & Hplain).
  destruct (convert_runs (Image.sector_data image t sector) (GcrHeader (u8 sector) htrack id2 id1) hg rf Hsl Hsb Hhdr Hplain
    pre n) as (p1 & Hr1 & Hw1 & Hl1); [lia|].
  rewrite (bind_run _ _ _ (Image.sector_data image t sector) (room p1 (n - (345 + hg)))).
  2: { rewrite (bind_run (lift _) _ _ (0, Image.sector_data image t sector) (room pre n)) by (unfold lift; by rewrite Hfd; cbn; rewrite Hrd).
       cbv beta iota. change (0 <? 0) with false. cbv iota.
       rewrite (bind_run (lift _) _ _ rf (room pre n)) by (unfold lift; by rewrite Hrf).
       unfold mbind, ST_bind. by rewrite (bind_run _ _ _ _ _ Hr1). }
  destruct (skip_run p1 (n - (345 + hg)) gap ltac:(lia)) as (p2 & Hr2 & Hw2 & Hl2). rewrite Hr2.
  replace (mlen pre + SECTOR_GCR_SIZE_WITH_HEADER + Z.of_nat hg + Z.of_nat gap + 5 * 2) with (mlen p2)
    by (unfold SECTOR_GCR_SIZE_WITH_HEADER; lia).
  destruct (IH (sector + 1) p2 (n - (345 + hg) - gap)%nat (Image.sector_data image t sector)) as (b' & p3 & Hr3 & Hw3 & Hb3);
    [lia|done|done|intros s Hs'; apply Hready; lia|lia|].
  exists b', p3. replace (n - S k * (345 + hg + gap))%nat with (n - (345 + hg) - gap - k * (345 + hg + gap))%nat by lia.
  split; [exact Hr3|]. split; [|done].
  rewrite (seqZ_cons sector (Z.of_nat (S k))) by lia. rewrite fmap_cons. unfold layout. cbn [mbind list_bind].
  rewrite chunks_bits_app, sector_bits. cbn [fst snd wsector].
  replace (Z.succ sector) with (sector + 1) by lia. replace (Z.pred (Z.of_nat (S k))) with (Z.of_nat k) by lia.
  eapply wrote_app; [eapply wrote_app; [exact Hw1|exact Hw2]|exact Hw3].
Qed.

(** The filler behind the last sector belongs to it. *)
Lemma layout_last hg fs h data gap k :
  chunks_bits (layout hg (fs ++ [(h, data, gap)])) ++ filler k = chunks_bits (layout hg (fs ++ [(h, data, gap + k)%nat])).
Proof.
  unfold layout. rewrite !bind_app, !chunks_bits_app, <- app_assoc. f_equal. cbn [mbind list_bind]. rewrite !app_nil_r.
  rewrite !sector_bits, <- app_assoc. cbn [fst snd]. f_equal. unfold filler. by rewrite <- tbits_app, <- replicate_add.
Qed.

(** ** Turning a track *)

Lemma holds_bytes d l : 0 < mlen d -> forall a, (forall i x, l !! i = Some x -> byte d (a + Z.of_nat i) = x) ->
  holds d (8 * a) (tbits l).
Proof.
  intros Hd. induction l as [|x l IH]; intros a Hl; [done|]. unfold tbits. cbn [mbind list_bind]. fold (tbits l).
  apply holds_app. split.
  - unfold holds. rewrite length_low, cbits_byte. specialize (Hl 0%nat x eq_refl). by rewrite Z.add_0_r in Hl; rewrite Hl.
  - rewrite length_low. replace (8 * a + Z.of_nat 8) with (8 * (a + 1)) by lia. apply IH. intros i y Hi.
    rewrite <- (Hl (S i) y Hi). f_equal. lia.
Qed.

Lemma holds_rotate a b : 0 < mlen (b ++ a) -> holds (b ++ a) (8 * mlen b) (tbits (a ++ b)).
Proof.
  intros Hlen. apply holds_bytes; [done|]. intros i x Hi. unfold byte. pose proof (lookup_lt_Some _ _ _ Hi) as Hlt.
  unfold mlen in *. rewrite length_app in *. destruct (le_lt_dec (length a) i) as [Hge|Hlt'].
  - rewrite lookup_app_r in Hi by done.
    replace (Z.of_nat (length b) + Z.of_nat i) with (Z.of_nat (i - length a) + 1 * Z.of_nat (length b + length a)) by lia.
    rewrite Z.mod_add, Z.mod_small, Nat2Z.id by lia. rewrite lookup_app_l by lia. by rewrite Hi.
  - rewrite lookup_app_l in Hi by done. rewrite Z.mod_small, lookup_app_r by lia.
    replace (Z.to_nat _ - length b)%nat with i by lia. by rewrite Hi.
Qed.

(** ** A track *)

(** Image types whose sync marks are long enough to be found *)
Definition flux_types : list Z := [DISK_IMAGE_TYPE_D64; DISK_IMAGE_TYPE_D67; DISK_IMAGE_TYPE_D71].

Lemma track_room type t : type ∈ DISK_IMAGE_TYPE_G64 :: flux_types -> exists k gap hg : nat,
  Geometry.disk_image_sector_per_track type t = Z.of_nat k /\ Geometry.disk_image_gap_size type t = Z.of_nat gap /\
  Geometry.disk_image_header_gap_size type t = Z.of_nat hg /\ Geometry.disk_image_sync_size type t = 5 /\
  (0 < k <= 21)%nat /\ (hg <= 400)%nat /\ 335 <= Geometry.disk_image_raw_track_size type t /\
  (k * (345 + hg + gap) <= Z.to_nat (Geometry.disk_image_raw_track_size type t))%nat.
Proof.
  intros Hty. set (z := Geometry.disk_image_speed_map type t).
  exists (Z.to_nat (Geometry.disk_image_sector_per_track type t)), (Z.to_nat (Geometry.disk_image_gap_size type t)),
    (Z.to_nat (Geometry.disk_image_header_gap_size type t)).
  unfold flux_types in Hty. unfold Geometry.disk_image_sector_per_track, Geometry.disk_image_gap_size,
    Geometry.disk_image_header_gap_size, Geometry.disk_image_sync_size, Geometry.disk_image_raw_track_size. fold z.
  repeat (apply elem_of_cons in Hty as [->|Hty]; [cbn -[Z.to_nat Z.of_nat Nat.mul];
    unfold Geometry.sector_map_d64, Geometry.sector_map_d67, Geometry.gap_size_d64, Geometry.gap_size_d67,
      Geometry.raw_track_size_d64, Geometry.raw_track_size_d67, Geometry.zone; repeat case_match; lia|]).
  by apply not_elem_of_nil in Hty.
Qed.

Record fx_ok (fx : flux_t) : Prop := {
  fo_length : length (fx_buffer fx) = 256%nat;
  fo_buffer : bytes_ok (fx_buffer fx);
  fo_id1 : is_byte (fx_id1 fx);
  fo_id2 : is_byte (fx_id2 fx);
  fo_track : is_byte (fx_track fx)
}.

(** The number of a sector and its data *)
Definition entry (x : sector_t) : Z * mem := (h_sector (sc_header x), sc_data x).

(** The sectors of track [t] of the image *)
Definition image_entries (image : disk_image_t) (t k : Z) : list (Z * mem) :=
  (fun s => (s, Image.sector_data image t s)) <$> seqZ 0 k.

(** The track has the sectors of the image. *)
Definition track_of (image : disk_image_t) (t : Z) (d : mem) : Prop :=
  mlen d = Geometry.disk_image_raw_track_size (di_type image) t /\
  exists l, formatted d l /\ l <> [] /\
    entry <$> l = image_entries image t (Geometry.disk_image_sector_per_track (di_type image) t).

Lemma sectors_entries n p hg fs : forall o, entry <$> sectors_of n p hg o fs = (fun f => (h_sector f.1.1, f.1.2)) <$> fs.
Proof. induction fs as [|f fs IH]; intros o; [done|]. cbn. f_equal. apply IH. Qed.

Lemma entries_numbers image t k : (image_entries image t k).*1 = seqZ 0 k.
Proof. unfold image_entries. rewrite <- list_fmap_compose. apply list_fmap_id. Qed.

Lemma u8_entries image t k : (k <= 256)%nat ->
  (fun s => (u8 s, Image.sector_data image t s)) <$> seqZ 0 (Z.of_nat k) = image_entries image t (Z.of_nat k).
Proof.
  intros Hk. apply list_fmap_ext. intros i x Hx. apply lookup_seqZ in Hx as [-> Hi]. unfold u8.
  by rewrite Z.mod_small by lia.
Qed.

Lemma sectors_headers n p hg fs : forall o, sc_header <$> sectors_of n p hg o fs = (fun f => f.1.1) <$> fs.
Proof. induction fs as [|f fs IH]; intros o; [done|]. cbn. f_equal. apply IH. Qed.

(** The [i]-th sector, when those before it have the same gap *)
Lemma sectors_positions n p hg gap fs : forall i o x, sectors_of n p hg o fs !! i = Some x ->
  (forall j f, (j < i)%nat -> fs !! j = Some f -> f.2 = gap) ->
  sc_pos x = (p + (o + Z.of_nat i * (8 * Z.of_nat (345 + hg + gap)) + 40)) mod n.
Proof.
  induction fs as [|f fs IH]; intros [|i] o x Hx Hgap; cbn [sectors_of] in Hx; [done|done| |].
  - injection Hx as <-. cbn [sc_pos]. f_equal. lia.
  - rewrite (IH i _ x Hx).
    + pose proof (Hgap 0%nat f ltac:(lia) eq_refl) as Hf. f_equal. unfold sector_size, header_gap. rewrite Hf. lia.
    + intros j f' Hj Hf'. apply (Hgap (S j) f'); [lia|exact Hf'].
Qed.

(** A track on which sectors were written one behind the other is formatted, wherever it
    starts. *)
Lemma written_sectors (w : Z -> written_t) gap hg k pre n :
  (forall s, 0 <= s < Z.of_nat k -> (w s).2 = gap /\ forall g, written_ok ((w s).1, g)) ->
  NoDup ((fun s => h_sector (w s).1.1) <$> seqZ 0 (Z.of_nat k)) -> (0 < k)%nat -> (hg <= 400)%nat ->
  wrote_bits [] (length (room pre n)) (chunks_bits (layout hg (w <$> seqZ 0 (Z.of_nat k)))) pre n ->
  335 <= mlen (room pre n) -> forall a b, room pre n = a ++ b ->
  exists l, formatted (b ++ a) l /\ l <> [] /\
    entry <$> l = (fun s => (h_sector (w s).1.1, (w s).1.2)) <$> seqZ 0 (Z.of_nat k) /\
    sc_header <$> l = (fun s => (w s).1.1) <$> seqZ 0 (Z.of_nat k) /\
    forall i x, l !! i = Some x ->
      sc_pos x = (8 * mlen b + (Z.of_nat i * (8 * Z.of_nat (345 + hg + gap)) + 40)) mod (8 * mlen (b ++ a)).
Proof.
  intros Hws Hnd Hk Hhg Hw Hsize a b Hab.
  assert (Hba : mlen (b ++ a) = mlen (room pre n)) by (rewrite Hab; unfold mlen; rewrite !length_app; lia).
  destruct k as [|k]; [lia|].
  set (fs := (w <$> seqZ 0 (Z.of_nat k)) ++ [((w (Z.of_nat k)).1, gap + n)%nat]).
  assert (Hseq : seqZ 0 (Z.of_nat (S k)) = seqZ 0 (Z.of_nat k) ++ [Z.of_nat k]).
  { replace (Z.of_nat (S k)) with (Z.of_nat k + 1) by lia. by rewrite seqZ_app by lia. }
  assert (Hbits : tbits (room pre n) = chunks_bits (layout hg fs)).
  { destruct Hw as (bs & -> & _ & Hbs & _). unfold room. rewrite tbits_app. cbn [app]. rewrite Hbs. fold (filler n).
    rewrite Hseq, fmap_app. cbn [fmap list_fmap]. unfold fs. pose proof (Hws (Z.of_nat k) ltac:(lia)) as [Hgap _].
    destruct (w (Z.of_nat k)) as [[h data] g]. cbn [fst snd] in *. subst g. apply layout_last. }
  assert (Hok : bytes_ok (room pre n)).
  { destruct Hw as (bs & -> & Hbs & _). unfold room. apply Forall_app. split; [done|by apply Forall_replicate]. }
  assert (Hfst : forall (A : Type) (e : gcr_header_t * mem -> A), (fun f => e f.1) <$> fs = (fun s => e (w s).1) <$> seqZ 0 (Z.of_nat (S k))).
  { intros A e. unfold fs. by rewrite Hseq, !fmap_app, <- list_fmap_compose. }
  exists (sectors_of (8 * mlen (b ++ a)) (8 * mlen b) hg 0 fs).
  pose proof (Hfst _ (fun f => (h_sector f.1, f.2))) as Hentries. cbn beta in Hentries. split.
  - apply layout_formatted; [by rewrite Hba| |done| | | |].
    + rewrite Hab in Hok. apply Forall_app in Hok as [? ?]. by apply Forall_app.
    + unfold fs. apply Forall_app. split; [|constructor; [apply Hws; lia|constructor]].
      apply Forall_fmap, Forall_forall. intros s Hs%elem_of_seqZ. cbn. destruct (Hws s ltac:(lia)) as [_ Ho].
      specialize (Ho (w s).2). by destruct (w s).
    + rewrite <- Hbits, Hab. apply holds_rotate. lia.
    + rewrite <- Hbits, length_tbits, Hba. unfold mlen. lia.
    + rewrite (Hfst _ (fun f => h_sector f.1)). exact Hnd.
  - rewrite sectors_entries, sectors_headers. split; [|split; [done|split; [apply (Hfst _ fst)|]]].
    2: { intros i x Hx. pose proof (lookup_lt_Some _ _ _ Hx) as Hi. apply (f_equal length) in Hentries.
      rewrite <- (length_fmap entry), sectors_entries, Hentries, length_fmap, length_seqZ in Hi.
      rewrite (sectors_positions _ _ hg gap fs i 0 x Hx); [f_equal; lia|]. intros j f Hj Hf. unfold fs in Hf.
      rewrite lookup_app_l in Hf by (rewrite length_fmap, length_seqZ; lia).
      apply list_lookup_fmap_Some_1 in Hf as (s & -> & Hs). apply lookup_seqZ in Hs as [-> Hs]. apply Hws. lia. }
    intros Hnil. apply (f_equal (fmap entry)) in Hnil.
    rewrite sectors_entries, Hentries in Hnil. apply (f_equal length) in Hnil. rewrite length_fmap, length_seqZ in Hnil. cbn in Hnil. lia.
Qed.

Lemma written_track image f t htrack id2 id1 gap hg k pre n : is_byte htrack -> is_byte id2 -> is_byte id1 ->
  (0 < k <= 21)%nat -> (hg <= 400)%nat -> (forall s, 0 <= s < Z.of_nat k -> ready image f t s) ->
  wrote_bits [] (length (room pre n)) (chunks_bits (layout hg (wsector image t htrack id2 id1 gap <$> seqZ 0 (Z.of_nat k)))) pre n ->
  335 <= mlen (room pre n) -> forall a b, room pre n = a ++ b ->
  exists l, formatted (b ++ a) l /\ l <> [] /\ entry <$> l = image_entries image t (Z.of_nat k).
Proof.
  intros Ht H2 H1 Hk Hhg Hready Hw Hsize a b Hab.
  destruct (written_sectors (wsector image t htrack id2 id1 gap) gap hg k pre n) with (a := a) (b := b)
    as (l & Hf & Hl & He & _); [| |lia|done|done|done|done|].
  - intros s Hs. split; [done|]. intros g. apply (wsector_ok image f t htrack id2 id1 g s); [by apply Hready|done|done|done].
  - pose proof (u8_entries image t k ltac:(lia)) as He. apply (f_equal (fmap fst)) in He.
    rewrite entries_numbers, <- list_fmap_compose in He. cbn [wsector fst h_sector].
    replace ((fun s => u8 s) <$> _) with (seqZ 0 (Z.of_nat k)). apply NoDup_seqZ.
  - exists l. split; [done|]. split; [done|]. by rewrite He, <- u8_entries by lia.
Qed.

(** ** Formatting *)

Lemma format_track_run image f t fx : di_type image ∈ flux_types -> fx_ok fx ->
  (forall s, 0 <= s < Geometry.disk_image_sector_per_track (di_type image) t -> ready image f t s) ->
  exists d fx', format_track image t fx = Some (d, fx') /\ track_of image t d /\ fx_ok fx' /\ fx_tracks fx' = fx_tracks fx.
Proof.
  intros Hty [Hl Hb H1 H2 Ht] Hready.
  destruct (track_room (di_type image) t (list_elem_of_further _ _ _ Hty)) as (k & gap & hg & Hk & Hgap & Hhg & Hsync & Hk21 & Hhg400 & Hsize & Hroom).
  unfold track_of. rewrite Hk in *. unfold format_track. rewrite Hk, Hgap, Hhg, Hsync, Nat2Z.id.
  set (size := Geometry.disk_image_raw_track_size (di_type image) t) in *.
  destruct (put_sectors_run image f t (fx_track fx) (fx_id2 fx) (fx_id1 fx) gap hg Ht H2 H1 k 0 [] (Z.to_nat size) (fx_buffer fx))
    as (b' & pre & Hrun & Hw & Hl' & Hb'); [lia|done|done|intros s Hs; apply Hready; lia|done|].
  change (replicate (Z.to_nat size) 85) with (room [] (Z.to_nat size)). change (mlen []) with 0 in Hrun. rewrite Hrun.
  cbn [mbind option_bind]. set (temp := room pre _) in *. set (off := (_ + size * 100 / 270) mod size).
  assert (Htemp : mlen temp = size).
  { apply wrote_length in Hw as [Ha Hc]. change (mlen []) with 0 in Ha. unfold temp, room. rewrite mlen_app.
    unfold mlen at 2. rewrite length_replicate. lia. }
  eexists _, _. split; [reflexivity|]. cbn [fx_tracks]. split; [|done].
  pose proof (take_drop (Z.to_nat (size - off)) temp) as Hsplit. symmetry in Hsplit.
  split; [unfold mlen in *; rewrite length_app, length_drop, length_take; lia|].
  eapply (written_track image f t (fx_track fx) (fx_id2 fx) (fx_id1 fx) gap hg k pre); [done|done|done|done|done|done| | |exact Hsplit].
  - fold temp. replace (length temp) with (Z.to_nat size) by (unfold mlen in Htemp; lia). exact Hw.
  - fold temp. lia.
Qed.

Lemma fpread_run f buf n off : length buf = Z.to_nat n -> bytes_ok buf -> byte_file f ->
  length (Image.util_fpread f buf n off).2 = Z.to_nat n /\ bytes_ok (Image.util_fpread f buf n off).2.
Proof.
  intros Hl Hb Hf. unfold Image.util_fpread. destruct (off <? 0); [done|]. cbn [snd].
  rewrite length_app, Image.length_f_bytes, length_drop. split; [lia|]. apply Forall_app.
  split; [by apply f_bytes_ok|by apply Forall_drop].
Qed.

Lemma put_id b i : length b = 256%nat -> bytes_ok b -> 0 <= i <= 254 ->
  exists b', splice b i [0xa0; 0xa0] = Some b' /\ length b' = 256%nat /\ bytes_ok b'.
Proof.
  intros Hl Hb Hi. unfold splice. change (mlen [160; 160]) with 2. unfold mlen. rewrite Hl. change (Z.of_nat 256) with 256.
  rewrite (proj2 (Z.leb_le 0 i)), (proj2 (Z.leb_le (i + 2) 256)) by lia. eexists. split; [reflexivity|].
  rewrite !length_app, length_take, length_drop, Hl. split; [cbn [length]; lia|].
  apply Forall_app. split; [by apply Forall_take|]. apply Forall_app. split; [|by apply Forall_drop].
  constructor; [done|]. by constructor.
Qed.

Lemma byte_at b i : length b = 256%nat -> bytes_ok b -> 0 <= i < 256 -> exists x, getb b i = Some x /\ is_byte x.
Proof.
  intros Hl Hb Hi. destruct (getb_is_Some b i) as [x Hx]; [unfold mlen; lia|]. exists x. split; [done|].
  apply getb_Some in Hx as [_ Hx]. exact (Forall_lookup_1 _ _ _ _ Hb Hx).
Qed.

Lemma second_side_run image f fx : fd_ image = Some f -> byte_file f -> fx_ok fx ->
  exists fx', second_side image fx = Some fx' /\ fx_ok fx' /\ fx_tracks fx' = fx_tracks fx.
Proof.
  intros Hfd Hf [Hl Hb H1 H2 Ht]. unfold second_side.
  destruct (put_id (fx_buffer fx) BAM_ID_1571 Hl Hb ltac:(done)) as (b & -> & Hlb & Hbb). cbn [mbind option_bind].
  set (sectors := Geometry.disk_image_check_sector _ _ _).
  assert (Hrd : exists b', (if 0 <=? sectors then f ← fd_ image; Some (Image.util_fpread f b 256 (Z.shiftl sectors 8)).2 else Some b)
    = Some b' /\ length b' = 256%nat /\ bytes_ok b').
  { destruct (0 <=? sectors); [|by exists b]. rewrite Hfd. cbn [mbind option_bind]. eexists. split; [reflexivity|].
    by apply fpread_run. }
  destruct Hrd as (b' & -> & Hl' & Hb'). cbn [mbind option_bind].
  destruct (byte_at b' BAM_ID_1571 Hl' Hb' ltac:(done)) as (x & -> & Hx). cbn [mbind option_bind].
  destruct (byte_at b' (BAM_ID_1571 + 1) Hl' Hb' ltac:(done)) as (y & -> & Hy). cbn [mbind option_bind].
  by eexists.
Qed.

Lemma put_track_run h t fx : 0 <= h < MAX_GCR_TRACKS -> length (fx_tracks fx) = 168%nat ->
  exists fx', put_track h t fx = Some fx' /\ length (fx_tracks fx') = 168%nat /\
    fx_tracks fx' !! Z.to_nat h = Some t /\ (forall i, i <> Z.to_nat h -> fx_tracks fx' !! i = fx_tracks fx !! i) /\
    (fx_ok fx -> fx_ok fx').
Proof.
  intros Hh Hl. unfold put_track. rewrite (proj2 (Z.ltb_lt h _)) by lia. eexists. split; [reflexivity|].
  cbn [fx_tracks]. unfold MAX_GCR_TRACKS in Hh. rewrite length_insert. split; [done|].
  split; [apply list_lookup_insert_eq; lia|]. split; [intros i Hi; by apply list_lookup_insert_ne|].
  intros []. by split.
Qed.

(** The tracks of the image that are made from its sectors *)
Definition made (image : disk_image_t) (t : Z) (tracks : list disk_track_t) : Prop :=
  exists d, tracks !! Z.to_nat (t * 2 - 2) = Some (DiskTrack (Some d) (mlen d)) /\ track_of image t d.

Lemma format_tracks_run image f two : di_type image ∈ flux_types -> fd_ image = Some f -> byte_file f ->
  forall n track fx, 1 <= track -> track + Z.of_nat n <= 85 -> fx_ok fx -> length (fx_tracks fx) = 168%nat ->
  (forall t s, track <= t <= di_tracks image -> t < track + Z.of_nat n ->
     0 <= s < Geometry.disk_image_sector_per_track (di_type image) t -> ready image f t s) ->
  exists fx', format_tracks n image two track fx = Some fx' /\ length (fx_tracks fx') = 168%nat /\
    (forall i, (i < Z.to_nat (track * 2 - 2))%nat -> fx_tracks fx' !! i = fx_tracks fx !! i) /\
    (forall t, track <= t <= di_tracks image -> t < track + Z.of_nat n -> made image t (fx_tracks fx')).
Proof.
  intros Hty Hfd Hf. induction n as [|n IH]; intros track fx Htr Hn Hfx Hlen Hready; cbn [format_tracks].
  { exists fx. split; [done|]. split; [done|]. split; [done|]. intros t ? ?. lia. }
  set (size := Geometry.disk_image_raw_track_size (di_type image) track).
  assert (Hstep : exists data fx1, (if track <=? di_tracks image then
        fx ← (if two && (track =? 36) then second_side image fx else Some fx); format_track image track fx
      else Some (replicate (Z.to_nat size) 0x55, fx)) = Some (data, fx1) /\ fx_ok fx1 /\ fx_tracks fx1 = fx_tracks fx /\
      (track <= di_tracks image -> track_of image track data)).
  { destruct (Z.leb_spec track (di_tracks image)) as [Hin|Hout]; [|eexists _, fx; split; [reflexivity|]; split; [done|]; split; [done|lia]].
    assert (Hsec : exists fx0, (if two && (track =? 36) then second_side image fx else Some fx) = Some fx0 /\ fx_ok fx0 /\
      fx_tracks fx0 = fx_tracks fx).
    { destruct (two && (track =? 36)); [by eapply second_side_run|by exists fx]. }
    destruct Hsec as (fx0 & -> & Hfx0 & Htr0). cbn [mbind option_bind].
    destruct (format_track_run image f track fx0 Hty Hfx0) as (d & fx1 & Hrun & Hd & Hfx1 & Htr1);
      [intros s Hs; apply Hready; [lia|lia|done]|]. exists d, fx1. split; [exact Hrun|]. by rewrite Htr1. }
  destruct Hstep as (data & fx1 & -> & Hfx1 & Htr1 & Hdata). cbn [mbind option_bind].
  destruct (put_track_run (track * 2 - 2) (DiskTrack (Some data) size) fx1) as (fx2 & -> & Hl2 & Hat2 & Hne2 & Hok2);
    [unfold MAX_GCR_TRACKS; lia|by rewrite Htr1|]. cbn [mbind option_bind].
  destruct (put_track_run (track * 2 - 2 + 1) (DiskTrack (Some (replicate (Z.to_nat size) 0)) size) fx2)
    as (fx3 & -> & Hl3 & _ & Hne3 & Hok3); [unfold MAX_GCR_TRACKS; lia|done|]. cbn [mbind option_bind].
  destruct (IH (track + 1) (Flux (fx_buffer fx3) (fx_id1 fx3) (fx_id2 fx3) (u8 (fx_track fx3 + 1)) (fx_offset fx3) (fx_tracks fx3)))
    as (fx' & Hrun & Hl' & Hfront & Hmade); [lia|lia| |done| |].
  - destruct (Hok3 (Hok2 Hfx1)). split; try done. apply u8_ok.
  - intros t s Ht Htn Hs. apply Hready; [lia|lia|done].
  - exists fx'. split; [exact Hrun|]. split; [done|]. cbn [fx_tracks] in Hfront. split.
    + intros i Hi. rewrite Hfront, Hne3, Hne2, Htr1 by lia. done.
    + intros t Ht Htn. destruct (decide (t = track)) as [->|Hne]; [|apply Hmade; lia].
      exists data. rewrite Hfront, Hne3, Hat2 by lia. specialize (Hdata (proj2 Ht)). split; [|done].
      by rewrite (proj1 Hdata).
Qed.

(** ** A track as a map

    A formatted track behaves as the map from the numbers of its sectors to their data. *)

Inductive track_op : Type := ReadSector (n : Z) | WriteSector (n : Z) (data : mem).

Definition op_ok (o : track_op) : Prop :=
  match o with ReadSector n => 0 <= n < 256 | WriteSector n data => 0 <= n < 256 /\ mlen data = 256 /\ bytes_ok data end.

(** The operation on the raw track, for any disk id; [buf] is the buffer of a read. *)
Definition run_op (fuel : nat) (buf : mem) (o : track_op) (raw : disk_track_t) : ST Z (Z * mem * disk_track_t) :=
  match o with
  | ReadSector n => let! r := gcr_read_sector fuel raw buf n (-1) in mret (r, raw)
  | WriteSector n data => let! (rc, raw) := gcr_write_sector fuel raw data n (-1) in mret (rc, [], raw)
  end.

Fixpoint run_ops (fuel : nat) (buf : mem) (ops : list track_op) (raw : disk_track_t) : ST Z (list (Z * mem) * disk_track_t) :=
  match ops with
  | [] => mret ([], raw)
  | o :: ops =>
      let! (r, raw) := run_op fuel buf o raw in
      let! (rs, raw) := run_ops fuel buf ops raw in
      mret (r :: rs, raw)
  end.

(** The operation on the map *)
Definition map_op (buf : mem) (o : track_op) (m : gmap Z mem) : Z * mem * gmap Z mem :=
  match o with
  | ReadSector n => match m !! n with
                    | Some data => (CBMDOS_FDC_ERR_OK, data, m)
                    | None => (CBMDOS_FDC_ERR_HEADER, buf, m)
                    end
  | WriteSector n data => match m !! n with
                          | Some _ => (CBMDOS_FDC_ERR_OK, [], <[n := data]> m)
                          | None => (CBMDOS_FDC_ERR_HEADER, [], m)
                          end
  end.

Fixpoint map_ops (buf : mem) (ops : list track_op) (m : gmap Z mem) : list (Z * mem) :=
  match ops with
  | [] => []
  | o :: ops => let '(r, m) := map_op buf o m in r :: map_ops buf ops m
  end.

Definition track_map (l : list sector_t) : gmap Z mem := list_to_map (entry <$> l).

Lemma entry_numbers l : (entry <$> l).*1 = (fun x => h_sector (sc_header x)) <$> l.
Proof. by rewrite <- list_fmap_compose. Qed.

Lemma track_map_Some d l n data : formatted d l ->
  track_map l !! n = Some data <-> exists x, x ∈ l /\ h_sector (sc_header x) = n /\ sc_data x = data.
Proof.
  intros Hf. unfold track_map. rewrite <- elem_of_list_to_map by (rewrite entry_numbers; apply Hf).
  rewrite list_elem_of_fmap. split.
  - intros (x & [= -> ->] & Hx). by exists x.
  - intros (x & Hx & <- & <-). by exists x.
Qed.

Lemma track_map_None d l n : formatted d l -> track_map l !! n = None -> forall x, x ∈ l -> h_sector (sc_header x) <> n.
Proof.
  intros Hf Hn x Hx Heq. assert (track_map l !! n = Some (sc_data x)) as H; [|congruence].
  apply (track_map_Some d _ _ _ Hf). by exists x.
Qed.

Lemma track_map_set d d' l n data : formatted d l -> formatted d' (set_data n data <$> l) -> is_Some (track_map l !! n) ->
  track_map (set_data n data <$> l) = <[n := data]> (track_map l).
Proof.
  intros Hf Hf' [old Hold]. apply map_eq. intros i. apply option_eq. intros v.
  rewrite (track_map_Some d' _ _ _ Hf'), lookup_insert_Some, (track_map_Some d _ _ _ Hf). split.
  - intros (y & (x & -> & Hx)%list_elem_of_fmap & Hi & Hv). revert Hi Hv. unfold set_data.
    destruct (Z.eqb_spec (h_sector (sc_header x)) n) as [Heq|Hne]; cbn; intros Hi Hv.
    + left. split; [congruence|done].
    + right. split; [congruence|]. by exists x.
  - intros [[<- <-]|[Hne (x & Hx & Hi & Hv)]].
    + apply (track_map_Some d _ _ _ Hf) in Hold as (x & Hx & Hn & _). exists (set_data n data x).
      split; [by apply list_elem_of_fmap_2|]. unfold set_data. by rewrite (proj2 (Z.eqb_eq _ _) Hn).
    + exists (set_data n data x). split; [by apply list_elem_of_fmap_2|].
      unfold set_data. by rewrite (proj2 (Z.eqb_neq _ _)) by congruence.
Qed.

(** One operation: the track simulates the map. *)
Lemma op_refines d l fuel buf o p : formatted d l -> l <> [] -> mlen buf = 256 -> op_ok o ->
  0 <= p < 8 * mlen d -> 8 * mlen d + 1 < Z.of_nat fuel ->
  exists d' l' p', run_op fuel buf o (DiskTrack (Some d) (mlen d)) p
      = Some ((map_op buf o (track_map l)).1, DiskTrack (Some d') (mlen d'), p') /\
    formatted d' l' /\ l' <> [] /\ track_map l' = (map_op buf o (track_map l)).2 /\ mlen d' = mlen d /\ 0 <= p' < 8 * mlen d.
Proof.
  intros Hf Hl Hbuf Ho Hp Hfuel. destruct l as [|s0 l0]; [done|]. set (l := s0 :: l0) in *.
  assert (Hs0 : s0 ∈ l) by (by left). destruct o as [n|n data]; cbn [run_op map_op op_ok] in *.
  - destruct (track_map l !! n) as [data|] eqn:Hn; cbn [fst snd].
    + apply (track_map_Some d l _ _ Hf) in Hn as (x & Hx & <- & <-). pose proof (so_pos _ _ (fm_sectors _ _ Hf x Hx)).
      exists d, l, (sc_pos x). rewrite (bind_run _ _ _ _ _ (sector_read_run d l Hf x fuel buf (-1) p Hx Hp ltac:(lia) Hbuf ltac:(lia))). done.
    + destruct (missing_block d l Hf s0 n fuel (-1) p Hs0 (proj1 Ho) (track_map_None d l n Hf Hn) Hp Hfuel) as (p' & Hp' & Hrun).
      exists d, l, p'. rewrite (bind_run _ _ _ (CBMDOS_FDC_ERR_HEADER, buf) p'); [done|].
      unfold gcr_read_sector. by rewrite (bind_run _ _ _ _ _ Hrun).
  - destruct Ho as (Hn0 & Hdl & Hdb). destruct (track_map l !! n) as [old|] eqn:Hn; cbn [fst snd].
    + pose proof Hn as Hn'. apply (track_map_Some d l _ _ Hf) in Hn as (x & Hx & <- & _). pose proof (so_pos _ _ (fm_sectors _ _ Hf x Hx)).
      destruct (sector_write_run d l x fuel data (-1) p Hf Hx Hp ltac:(lia) Hdl Hdb ltac:(lia)) as (d' & Hrun & Hsize & Hf').
      exists d', (set_data (h_sector (sc_header x)) data <$> l), (sc_pos x). rewrite (bind_run _ _ _ _ _ Hrun). split; [done|].
      split; [done|]. split; [done|]. split; [|done]. apply (track_map_set d d'); [done|done|by eexists].
    + destruct (missing_block d l Hf s0 n fuel (-1) p Hs0 (proj1 Hn0) (track_map_None d l n Hf Hn) Hp Hfuel) as (p' & Hp' & Hrun).
      exists d, l, p'. rewrite (bind_run _ _ _ (CBMDOS_FDC_ERR_HEADER, DiskTrack (Some d) (mlen d)) p'); [done|].
      unfold gcr_write_sector. by rewrite (bind_run _ _ _ _ _ Hrun).
Qed.

(** Any sequence of operations *)
Lemma ops_refine fuel buf ops : mlen buf = 256 -> Forall op_ok ops -> forall d l p, formatted d l -> l <> [] ->
  0 <= p < 8 * mlen d -> 8 * mlen d + 1 < Z.of_nat fuel ->
  exists d' p', run_ops fuel buf ops (DiskTrack (Some d) (mlen d)) p
    = Some (map_ops buf ops (track_map l), DiskTrack (Some d') (mlen d), p').
Proof.
  intros Hbuf. induction 1 as [|o ops Ho Hops IH]; intros d l p Hf Hl Hp Hfuel; cbn [run_ops map_ops]; [by exists d, p|].
  destruct (op_refines d l fuel buf o p Hf Hl Hbuf Ho Hp Hfuel) as (d1 & l1 & p1 & Hrun & Hf1 & Hl1 & Hm1 & Hs1 & Hp1).
  rewrite (bind_run _ _ _ _ _ Hrun). cbv beta iota.
  destruct (map_op buf o (track_map l)) as [r m]. cbn [fst snd] in *. subst m.
  destruct (IH d1 l1 p1 Hf1 Hl1 ltac:(lia) ltac:(lia)) as (d2 & p2 & Hrest).
  exists d2, p2. rewrite (bind_run _ _ _ _ _ Hrest). by rewrite Hs1.
Qed.

(** The sectors of track [t] of the image, by their numbers *)
Definition image_map (image : disk_image_t) (t : Z) : gmap Z mem :=
  list_to_map (image_entries image t (Geometry.disk_image_sector_per_track (di_type image) t)).

(** The image has all sectors of its tracks, and its error map has no code that is
    shown on the flux. *)
Record image_ok (image : disk_image_t) (f : file_t) : Prop := {
  io_device : di_device image = DISK_IMAGE_DEVICE_FS;
  io_type : di_type image ∈ flux_types;
  io_tracks : 1 <= di_tracks image;
  io_half_tracks : di_max_half_tracks image <= MAX_GCR_TRACKS;
  io_file : fd_ image = Some f;
  io_bytes : byte_file f;
  io_sectors : forall t s, 1 <= t <= di_tracks image -> 0 <= s < Geometry.disk_image_sector_per_track (di_type image) t ->
    ready image f t s
}.

Lemma first_block image f : image_ok image f -> 0 <= Geometry.disk_image_check_sector image BAM_TRACK_1541 BAM_SECTOR_1541.
Proof.
  intros Hok. apply (Geometry.check_sector_nonneg image); [apply Hok|]. pose proof (io_type _ _ Hok) as Hty.
  unfold flux_types in Hty. repeat (apply elem_of_cons in Hty as [->|Hty]; [vm_compute; split; split; congruence|]).
  by apply not_elem_of_nil in Hty.
Qed.

Lemma read_image_run image f buffer gcr : image_ok image f -> length buffer = 256%nat -> bytes_ok buffer ->
  length gcr = 168%nat -> exists tracks, fsimage_read_dxx_image image buffer gcr = Some (0, tracks) /\ length tracks = 168%nat /\
    forall t, 1 <= t <= di_tracks image -> t <= di_max_half_tracks image / 2 -> made image t tracks.
Proof.
  intros Hok Hl Hb Hgcr. pose proof (first_block _ _ Hok) as Hblk. destruct Hok as [Hdev Hty Htr Hhalf Hfd Hf Hsec].
  assert (H8050 : (di_type image =? DISK_IMAGE_TYPE_D80) || (di_type image =? DISK_IMAGE_TYPE_D82) = false).
  { unfold flux_types in Hty. repeat (apply elem_of_cons in Hty as [->|Hty]; [done|]). by apply not_elem_of_nil in Hty. }
  unfold fsimage_read_dxx_image. rewrite H8050. cbv zeta.
  destruct (put_id buffer BAM_ID_1541 Hl Hb ltac:(done)) as (b & -> & Hlb & Hbb). cbn [mbind option_bind].
  rewrite (proj2 (Z.ltb_ge _ _) Hblk), Hfd. cbn [mbind option_bind].
  destruct (fpread_run f b 256 (Z.shiftl (Geometry.disk_image_check_sector image BAM_TRACK_1541 BAM_SECTOR_1541) 8) Hlb Hbb Hf) as [Hl1 Hb1].
  set (b1 := (Image.util_fpread f b 256 _).2) in *. change (Z.to_nat 256) with 256%nat in Hl1.
  destruct (byte_at b1 BAM_ID_1541 Hl1 Hb1 ltac:(done)) as (x & -> & Hx). cbn [mbind option_bind].
  destruct (byte_at b1 (BAM_ID_1541 + 1) Hl1 Hb1 ltac:(done)) as (y & -> & Hy). cbn [mbind option_bind].
  destruct (byte_at b1 3 Hl1 Hb1 ltac:(done)) as (z & -> & Hz). cbn [mbind option_bind].
  set (half := di_max_half_tracks image / 2). assert (Hh : half <= 84).
  { unfold half. unfold MAX_GCR_TRACKS in Hhalf. Z.to_euclidean_division_equations. lia. }
  destruct (format_tracks_run image f ((di_type image =? DISK_IMAGE_TYPE_D71) && (Z.land z 0x80 =? 0)) Hty Hfd Hf
    (Z.to_nat half) 1 (Flux b1 x y 1 0 gcr)) as (fx & -> & Hlen & _ & Hmade); [lia|lia|by split|done| |].
  - intros t s Ht _ Hs. by apply Hsec.
  - cbn [mbind option_bind]. exists (fx_tracks fx). split; [done|]. split; [done|]. intros t Ht Hth. apply Hmade; lia.
Qed.

(** ** Properties *)

(** C4: the raw tracks made from a disk image (D64, D67 or D71) behave like the image:
    [fsimage_read_dxx_image] succeeds, and on the track made for each track of the
    image, any sequence of [gcr_read_sector] and [gcr_write_sector] from any position of
    the head returns what the same operations return on the map from sector numbers to
    the sectors of the image: the data that was last written, or that of the image, and
    error code 2 for a sector the track does not have. *)
Theorem dxx_tracks_refine image f buffer gcr :
  image_ok image f -> length buffer = 256%nat -> bytes_ok buffer -> length gcr = 168%nat ->
  exists tracks, fsimage_read_dxx_image image buffer gcr = Some (0, tracks) /\
    forall t, 1 <= t <= di_tracks image -> t <= di_max_half_tracks image / 2 ->
    exists d, tracks !! Z.to_nat (t * 2 - 2) = Some (DiskTrack (Some d) (mlen d)) /\
      mlen d = Geometry.disk_image_raw_track_size (di_type image) t /\
      forall fuel buf ops p, mlen buf = 256 -> Forall op_ok ops -> 0 <= p < 8 * mlen d -> 8 * mlen d + 1 < Z.of_nat fuel ->
      exists d' p', run_ops fuel buf ops (DiskTrack (Some d) (mlen d)) p
        = Some (map_ops buf ops (image_map image t), DiskTrack (Some d') (mlen d), p').
Proof.
  intros Hok Hl Hb Hg. destruct (read_image_run image f buffer gcr Hok Hl Hb Hg) as (tracks & Hrun & _ & Hmade).
  exists tracks. split; [done|]. intros t Ht Hth. destruct (Hmade t Ht Hth) as (d & Hd & Hsize & l & Hf & Hne & Hentries).
  exists d. split; [done|]. split; [done|]. intros fuel buf ops p Hbuf Hops Hp Hfuel.
  unfold image_map. rewrite <- Hentries. by apply ops_refine.
Qed.

(** C15: the search for a header ends on a track of any bytes, whatever the position of
    the head, unless the track has exactly one sync mark: with more fuel than bits it
    reports that there is no mark, no such sector, a wrong checksum, or a header, whose
    position lies on the track. *)
Theorem header_search_ends d sector p fuel : 0 < mlen d -> bytes_ok d ->
  (forall q, mark d q -> exists q', mark d q' /\ ~ same d q q') ->
  0 <= p < 8 * mlen d -> 8 * mlen d + 1 < Z.of_nat fuel ->
  exists q header pid p', gcr_read_sector_header fuel (DiskTrack (Some d) (mlen d)) sector p = Some (q, header, pid, p') /\
    (q ∈ [- CBMDOS_FDC_ERR_SYNC; - CBMDOS_FDC_ERR_HEADER; - CBMDOS_FDC_ERR_HCHECK] \/
     q = p' /\ 0 <= q < 8 * mlen d /\ length header = 8%nat /\ is_Some pid).
Proof.
  intros Hsize Hd Hm Hp Hfuel. destruct (header_search_run d Hsize Hd sector fuel p Hm Hp Hfuel) as ([[q h] pid] & p' & Hrun & Hcase).
  exists q, h, pid, p'. split; [done|]. cbn [fst] in Hcase. destruct Hcase as [->|[->|[->|H]]]; [left..|by right].
  - by left.
  - by right; left.
  - by do 2 right; left.
Qed.

(** C16: a block of 260 bytes that is written to a track at any bit position, over its end
    too, is decoded to the same bytes, and every bit of the track behind it and in front
    of it is as it was. *)
Theorem block_roundtrip d p buf : bytes_ok d -> 326 <= mlen d -> 0 <= p < 8 * mlen d -> length buf = 260%nat ->
  bytes_ok buf -> exists d', write_block d (mlen d) p buf = Some d' /\ mlen d' = mlen d /\
    gcr_decode_block (DiskTrack (Some d') (mlen d')) p 65 = Some buf /\
    forall j, 2600 <= j < 8 * mlen d -> cbit d' (p + j) = cbit d (p + j).
Proof.
  intros Hd Hsize Hp Hl Hb. destruct (block_write_run d p buf Hd Hsize Hp Hl Hb) as (d' & Hrun & Hlen & Hd' & Hh & Hrest).
  exists d'. split; [done|]. split; [done|]. split.
  - apply decode_run; [lia|done|lia|lia|done|done].
  - intros j Hj. apply Hrest. rewrite length_code, Hl. lia.
Qed.

(** A search on a track without a mark leaves its position at -3, and the next search,
    on whatever track, reads in front of the track: the static position of
    [gcr_read_sector_header] is not repaired after an error. *)
Theorem failed_search_breaks_next fuel d n raw m : 0 < mlen d -> (forall q, ~ mark d q) -> bytes_ok d ->
  tsize raw <> 0 -> is_Some (tdata raw) ->
  (let! _ := gcr_read_sector_header (S fuel) (DiskTrack (Some d) (mlen d)) n in
   gcr_read_sector_header fuel raw m) 0 = None.
Proof.
  intros Hsize Hno Hd Hraw [d2 Hd2]. destruct (find_sync_run d Hsize 0 (8 * mlen d) ltac:(lia) ltac:(lia)) as (r & Hfind & Hres).
  destruct Hres as [k _ [_ Hm] _|_]; [by destruct (Hno _ Hm)|]. unfold gcr_read_sector_header at 1.
  rewrite (bind_run _ _ _ (- CBMDOS_FDC_ERR_SYNC, [], None) (- CBMDOS_FDC_ERR_SYNC)).
  - unfold gcr_read_sector_header. destruct fuel as [|fuel]; [done|]. cbn [header_loop]. unfold bindST at 1, state.
    unfold bindST at 1, lift. unfold gcr_find_sync. rewrite Hd2, (proj2 (Z.eqb_neq _ _) Hraw). done.
  - cbn [header_loop]. unfold bindST at 1, state. change (tsize _) with (mlen d). rewrite Z.mul_comm in Hfind.
    by rewrite (bind_run (lift _) _ _ (- CBMDOS_FDC_ERR_SYNC) 0) by (unfold lift; by rewrite Hfind).
Qed.

End TracksSpec.

(** ** Concrete tracks *)

(** A D64 image of 42 tracks, 35 of which are used *)
Definition full_d64 : disk_image_t :=
  DiskImage 0 DISK_IMAGE_DEVICE_FS DISK_IMAGE_TYPE_D64 35 0 84
    (Some (File 205312 (fun i => i mod 256) true)) None 0.

Lemma full_d64_ok : TracksSpec.image_ok full_d64 (File 205312 (fun i => i mod 256) true).
Proof.
  split; [reflexivity|by left|reflexivity || (vm_compute; congruence)..|reflexivity| |].
  - intros i. cbn. apply Z.mod_pos_bound. lia.
  - intros t s Ht Hs. cbn [di_tracks full_d64] in Ht.
    assert (Geometry.valid_address DISK_IMAGE_TYPE_D64 t s) as Hv by (split; [unfold MAX_TRACKS_1541; lia|exact Hs]).
    pose proof (Geometry.check_sector_nonneg full_d64 t s eq_refl Hv) as Hr.
    change (Geometry.blocks_of (di_type full_d64)) with 802 in Hr. split; [reflexivity| |lia| |discriminate].
    + intros i. cbn. apply Z.mod_pos_bound. lia.
    + cbn [f_size]. lia.
Qed.

(** Writing and reading sector 0 of track 18, and a sector that track does not have *)
Lemma dxx_tracks_refine_witness :
  exists tracks d d' p', Gcr.fsimage_read_dxx_image full_d64 (replicate 256 0) (replicate 168 (DiskTrack None 0)) = Some (0, tracks) /\
    tracks !! 34%nat = Some (DiskTrack (Some d) (mlen d)) /\
    TracksSpec.run_ops (Z.to_nat 70000) (replicate 256 0)
      [TracksSpec.WriteSector 0 (replicate 256 7); TracksSpec.ReadSector 0; TracksSpec.ReadSector 19]
      (DiskTrack (Some d) (mlen d)) 12345
    = Some ([(1, []); (1, replicate 256 7); (2, replicate 256 0)], DiskTrack (Some d') (mlen d), p').
Proof.
  assert (H7 : bytes_ok (replicate 256 7)) by (by apply Forall_replicate).
  destruct (TracksSpec.dxx_tracks_refine full_d64 _ (replicate 256 0) (replicate 168 (DiskTrack None 0)) full_d64_ok)
    as (tracks & Hrun & Htracks); [reflexivity|by apply Forall_replicate|reflexivity|].
  destruct (Htracks 18) as (d & Hd & Hsize & Hops); [vm_compute; split; congruence|vm_compute; congruence|].
  change (Geometry.disk_image_raw_track_size (di_type full_d64) 18) with 7142 in Hsize.
  destruct (Hops (Z.to_nat 70000) (replicate 256 0)
    [TracksSpec.WriteSector 0 (replicate 256 7); TracksSpec.ReadSector 0; TracksSpec.ReadSector 19] 12345)
    as (d' & p' & Hres); [reflexivity| |lia|lia|].
  - constructor; [|constructor; [|constructor; [|constructor]]]; cbn [TracksSpec.op_ok]; [|lia|lia].
    split; [lia|]. split; [reflexivity|exact H7].
  - exists tracks, d, d', p'. split; [exact Hrun|]. split; [exact Hd|]. rewrite Hres. vm_compute (TracksSpec.map_ops _ _ _). reflexivity.
Defined.

(** A short track with two marks and no header behind them *)
Definition two_marks : mem := [0xff; 0xff; 0x52; 0x94; 0xa5; 0x29; 0xff; 0xff; 0x52; 0x94; 0xa5; 0x29].

Lemma ten_cases (P : Z -> Prop) : Forall P [1; 2; 3; 4; 5; 6; 7; 8; 9; 10] -> forall j, 1 <= j <= 10 -> P j.
Proof.
  intros Hall j Hj. rewrite Forall_forall in Hall. apply Hall.
  assert (j = 1 \/ j = 2 \/ j = 3 \/ j = 4 \/ j = 5 \/ j = 6 \/ j = 7 \/ j = 8 \/ j = 9 \/ j = 10) as H by lia.
  repeat (destruct H as [->|H]; [set_solver|]). subst. set_solver.
Qed.

Lemma header_search_ends_witness :
  exists q header pid p', Gcr.gcr_read_sector_header 100 (DiskTrack (Some two_marks) (mlen two_marks)) 3 0
    = Some (q, header, pid, p') /\
    (q ∈ [- CBMDOS_FDC_ERR_SYNC; - CBMDOS_FDC_ERR_HEADER; - CBMDOS_FDC_ERR_HCHECK] \/
     q = p' /\ 0 <= q < 8 * mlen two_marks /\ length header = 8%nat /\ is_Some pid).
Proof.
  apply (TracksSpec.header_search_ends two_marks 3 0 100); [reflexivity| | |by vm_compute|by vm_compute].
  - unfold two_marks. by rewrite !Forall_cons, Forall_nil.
  - assert (H16 : GcrSpec.mark two_marks 16) by (split; [reflexivity|apply ten_cases; by repeat constructor]).
    assert (H64 : GcrSpec.mark two_marks 64) by (split; [reflexivity|apply ten_cases; by repeat constructor]).
    intros q Hq. destruct (Z.eq_dec (q mod (8 * mlen two_marks)) (16 mod (8 * mlen two_marks))) as [Heq|Hne].
    + exists 64. split; [exact H64|]. unfold FluxSpec.same. rewrite Heq. vm_compute. congruence.
    + by exists 16.
Defined.

Lemma block_roundtrip_witness :
  exists d', Gcr.write_block (replicate 330 0x55) 330 2633 (replicate 260 7) = Some d' /\ mlen d' = 330 /\
    Gcr.gcr_decode_block (DiskTrack (Some d') (mlen d')) 2633 65 = Some (replicate 260 7) /\
    forall j, 2600 <= j < 2640 -> GcrSpec.cbit d' (2633 + j) = GcrSpec.cbit (replicate 330 0x55) (2633 + j).
Proof.
  apply (TracksSpec.block_roundtrip (replicate 330 0x55) 2633 (replicate 260 7)); try reflexivity.
  - by apply Forall_replicate.
  - vm_compute. congruence.
  - vm_compute. split; congruence.
  - by apply Forall_replicate.
Defined.

Lemma failed_search_breaks_next_witness :
  (let! _ := Gcr.gcr_read_sector_header 6 (DiskTrack (Some [0; 0; 0; 0]) 4) 1 in
   Gcr.gcr_read_sector_header 5 (DiskTrack (Some two_marks) 12) 1) 0 = None.
Proof.
  apply (TracksSpec.failed_search_breaks_next 5 [0; 0; 0; 0] 1 (DiskTrack (Some two_marks) 12) 1).
  - reflexivity.
  - intros q [_ Hones]. specialize (Hones 1 ltac:(lia)). revert Hones. unfold GcrSpec.cbit.
    replace (GcrSpec.byte [0; 0; 0; 0] ((q - 1) / 8)) with 0; [by rewrite Z.testbit_0_l|].
    unfold GcrSpec.byte. by destruct (Z.to_nat _) as [|[|[|[|k]]]].
  - by rewrite !Forall_cons, Forall_nil.
  - discriminate.
  - by eexists.
Defined.
