(* ===== verification/GcrFile.v ===== *)
(** * Image files of raw tracks

    Models [src/lib/vdrive/fsimage-gcr.c], the access to the raw tracks and to the sectors
    of a G64 or G71 image, with the conversions of little endian words of
    [src/lib/vdrive/util.c]. The state is the image with its disk id and the tracks in
    memory ([image->id], [image->gcr]), and the two static variables that outlive a call:
    the position [p] of [gcr_read_sector_header] and [current_half_track] of
    [fsimage_gcr_read_half_track]. A search for a header gets two units of fuel more than the
    track has bits, which [header_search_ends] of file [TracksSpec] shows to be enough. *)

From S2P Require Import Prelude Geometry Image VDrive Bam BamAlloc Cbmdos Gcr.
Import Image Cbmdos Gcr.

Record gcr_file_t := GcrFile {
  gimage : disk_image_t;
  gid : Z;
  gtracks : option (list disk_track_t);
  ghead : Z;
  current_half_track : Z
}.

Definition set_gimage (x : disk_image_t) (g : gcr_file_t) : gcr_file_t :=
  GcrFile x (gid g) (gtracks g) (ghead g) (current_half_track g).
Definition set_gtracks (x : option (list disk_track_t)) (g : gcr_file_t) : gcr_file_t :=
  GcrFile (gimage g) (gid g) x (ghead g) (current_half_track g).
Definition set_ghead (x : Z) (g : gcr_file_t) : gcr_file_t :=
  GcrFile (gimage g) (gid g) (gtracks g) x (current_half_track g).
Definition set_current (x : Z) (g : gcr_file_t) : gcr_file_t :=
  GcrFile (gimage g) (gid g) (gtracks g) (ghead g) x.

Module GcrFiles.

(** ** Words in the file *)

Definition util_le_buf_to_word (buf : mem) : option Z :=
  b0 ← getb buf 0; b1 ← getb buf 1; Some (u16 (Z.lor b0 (Z.shiftl b1 8))).
Definition util_le_buf_to_dword (buf : mem) : option Z :=
  b0 ← getb buf 0; b1 ← getb buf 1; b2 ← getb buf 2; b3 ← getb buf 3;
  Some (u32 (Z.lor (Z.lor (Z.lor b0 (Z.shiftl b1 8)) (Z.shiftl b2 16)) (Z.shiftl b3 24))).
Definition util_word_to_le_buf (data : Z) : mem :=
  [Z.land data 0xff; Z.land (Z.shiftr data 8) 0xff].
Definition util_dword_to_le_buf (data : Z) : mem :=
  [Z.land data 0xff; Z.land (Z.shiftr data 8) 0xff; Z.land (Z.shiftr data 16) 0xff; Z.land (Z.shiftr data 24) 0xff].

Definition gcr_image_header_expected_1541 : mem := [0x47; 0x43; 0x52; 0x2D; 0x31; 0x35; 0x34; 0x31; 0x00].
Definition gcr_image_header_expected_1571 : mem := [0x47; 0x43; 0x52; 0x2D; 0x31; 0x35; 0x37; 0x31; 0x00].

(** ** Finding a half track *)

(** The place of the entry of a half track in the table of the file; the arithmetic is
    unsigned. *)
Definition table_entry (half_track : Z) : Z := u32 (12 + u32 ((half_track - 2) * 4)).

(** The offset of the track (0 without one, negative on an error; a [long] has 32 bits),
    the longest track and the number of half tracks *)
Definition fsimage_gcr_seek_half_track (fd : option file_t) (half_track : Z) : option (Z * Z * Z) :=
  match fd with
  | None => Some (-1, 0, 0)
  | Some f =>
      let '(rc, buf) := util_fpread f (replicate 12 0) 12 0 in
      if rc <? 0 then Some (-1, 0, 0)
      else if negb (bool_decide (take 9 buf = gcr_image_header_expected_1541))
           && negb (bool_decide (take 9 buf = gcr_image_header_expected_1571)) then Some (-1, 0, 0)
      else
        num_half_tracks ← getb buf 9;
        if MAX_GCR_TRACKS <? num_half_tracks then Some (-1, 0, 0)
        else
          max_track_length ← util_le_buf_to_word (drop 10 buf);
          let '(rc, buf) := util_fpread f (replicate 4 0) 4 (table_entry half_track) in
          if rc <? 0 then Some (-1, 0, 0)
          else offset ← util_le_buf_to_dword buf; Some (s32 offset, max_track_length, num_half_tracks)
  end.

(** ** Reading a track *)

Definition blank_track (image : disk_image_t) (half_track fill : Z) : disk_track_t :=
  let size := Geometry.disk_image_raw_track_size (di_type image) (half_track / 2) in
  DiskTrack (Some (replicate (Z.to_nat size) fill)) size.

(** The track at an offset of the file: the status, and what is allocated *)
Definition load_track (fd : option file_t) (max_track_length offset : Z) : option (Z * disk_track_t) :=
  f ← fd;
  let '(rc, buf) := util_fpread f (replicate 2 0) 2 offset in
  if rc <? 0 then Some (-1, DiskTrack None 0)
  else
    track_len ← util_le_buf_to_word buf;
    if (track_len <? 1) || (max_track_length <? track_len) then Some (-1, DiskTrack None 0)
    else
      let '(rc, data) := util_fpread f (replicate (Z.to_nat track_len) 0) track_len (offset + 2) in
      Some (rc, DiskTrack (Some data) track_len).

(** A computation that moves the position of the last search *)
Definition on_head {A} (m : ST Z A) : ST gcr_file_t A := fun g =>
  '(a, p) ← m (ghead g); Some (a, set_ghead p g).

Definition bits (raw : disk_track_t) : nat := S (S (Z.to_nat (tsize raw * 8))).

(** The half track that should hold the track whose header was found *)
Definition next_half_track (half_track rf : Z) (track : option Z) : option Z :=
  if rf =? CBMDOS_FDC_ERR_OK then t ← track; Some (u32 (half_track + (s32 half_track - 2 * t)))
  else Some half_track.

(** The loop follows the track numbers in the headers, without a bound. *)
Fixpoint read_half_track (fuel : nat) (orig_half_track half_track : Z) : ST gcr_file_t (Z * disk_track_t) :=
  match fuel with
  | O => ub
  | S fuel =>
      let! g := state in
      let fd := fd_ (gimage g) in
      let! (offset, max_track_length, _) := lift (fsimage_gcr_seek_half_track fd half_track) in
      if offset <? 0 then mret (-1, DiskTrack None 0)
      else
        let! (rc, raw) := (if offset =? 0 then mret (0, blank_track (gimage g) half_track 0x55)
                           else lift (load_track fd max_track_length offset)) in
        if rc <? 0 then mret (-1, raw)
        else if half_track =? current_half_track g then mret (0, raw)
        else
          let! (rf, track) := on_head (gcr_read_track_number (bits raw) raw) in
          let! next := lift (next_half_track half_track rf track) in
          if negb (next =? half_track) && negb (next =? orig_half_track)
          then read_half_track fuel orig_half_track next
          else modify (set_current half_track);; mret (0, raw)
  end.

Definition fsimage_gcr_read_half_track (fuel : nat) (half_track : Z) : ST gcr_file_t (Z * disk_track_t) :=
  read_half_track fuel half_track half_track.

Definition fsimage_gcr_read_track (fuel : nat) (track : Z) : ST gcr_file_t (Z * disk_track_t) :=
  fsimage_gcr_read_half_track fuel (u32 (track * 2)).

(** Track [half_track] of [image->gcr], undefined without it and outside of its array *)
Definition get_gtrack (half_track : Z) : ST gcr_file_t disk_track_t :=
  let! g := state in
  lift (ts ← gtracks g; if 0 <=? half_track then ts !! Z.to_nat half_track else None).
Definition put_gtrack (half_track : Z) (t : disk_track_t) : ST gcr_file_t unit :=
  update (fun g => ts ← gtracks g;
    if (0 <=? half_track) && (half_track <? MAX_GCR_TRACKS)
    then Some (set_gtracks (Some (<[Z.to_nat half_track := t]> ts)) g) else None).

(** All tracks to memory; a track that cannot be read is left as the error left it. *)
Definition fsimage_read_gcr_image (fuel : nat) : ST gcr_file_t Z :=
  for_each (Z.to_nat MAX_GCR_TRACKS) 0 (fun half_track =>
    let! t := get_gtrack half_track in
    (if bool_decide (is_Some (tdata t)) then put_gtrack half_track (DiskTrack None 0) else mret tt);;
    let! g := state in
    if half_track <? di_max_half_tracks (gimage g) then
      let! (_, t) := fsimage_gcr_read_half_track fuel (half_track + 2) in put_gtrack half_track t
    else put_gtrack half_track (blank_track (gimage g) half_track 0));;
  mret 0.

(** ** Writing a track *)

(** Bytes at a position of the file: [false] if they cannot be written, or there are none *)
Definition put_file (buf : mem) (off : Z) : ST gcr_file_t bool := fun g =>
  f ← fd_ (gimage g);
  let '(rc, f) := util_fpwrite f buf off in
  Some (negb (rc <? 0) && negb (bool_decide (buf = [])), set_gimage (Image.set_fd (Some f) (gimage g)) g).

(** Writes in order, up to the first that fails *)
Fixpoint put_all (l : list (mem * Z)) : ST gcr_file_t bool :=
  match l with
  | [] => mret true
  | (buf, off) :: l => let! ok := put_file buf off in if (ok : bool) then put_all l else mret false
  end.

(** What is written for a track: its length, its bytes, the padding up to the longest track
    and, for one that is appended, its entries in the two tables *)
Definition track_writes (type half_track num_half_tracks max_track_length offset : Z) (extend : bool)
    (data : mem) (size : Z) : list (mem * Z) :=
  (util_word_to_le_buf (u16 size), offset) :: (data, offset + 2) ::
  (if 0 <? max_track_length - size
   then [(replicate (Z.to_nat (max_track_length - size)) 0, offset + 2 + size)] else []) ++
  (if extend
   then [(util_dword_to_le_buf (u32 offset), table_entry half_track);
         (util_dword_to_le_buf (Geometry.disk_image_speed_map type (half_track / 2)),
          table_entry (u32 (half_track + num_half_tracks)))]
   else []).

Definition fsimage_gcr_write_half_track (half_track : Z) (raw : disk_track_t) : ST gcr_file_t Z :=
  let! g := state in
  let image := gimage g in
  let! (offset, max_track_length, num_half_tracks) := lift (fsimage_gcr_seek_half_track (fd_ image) half_track) in
  if offset <? 0 then mret (-1)
  else if negb (di_read_only image =? 0) then mret (-1)
  else if max_track_length <? tsize raw then mret (-1)
  else
    let! f := lift (fd_ image) in
    let extend := offset =? 0 in
    let offset := if extend then f_size f else offset in
    match tdata raw with
    | None => mret 0
    | Some d =>
        let! data := lift (slice d 0 (tsize raw)) in
        let! ok := put_all (track_writes (di_type image) half_track num_half_tracks max_track_length offset
                              extend data (tsize raw)) in
        mret (if (ok : bool) then 0 else -1)
    end.

Definition fsimage_gcr_write_track (track : Z) (raw : disk_track_t) : ST gcr_file_t Z :=
  fsimage_gcr_write_half_track (u32 (track * 2)) raw.

(** ** Sectors *)

Definition fsimage_gcr_read_sector (fuel : nat) (buf : mem) (track sector : Z) : ST gcr_file_t (Z * mem) :=
  let! g := state in
  if di_tracks (gimage g) <? track then mret (-1, buf)
  else
    let! (rc, raw) := (if bool_decide (gtracks g = None) then fsimage_gcr_read_track fuel track
                       else let! t := get_gtrack (u32 (track * 2 - 2)) in mret (0, t)) in
    if rc <? 0 then mret (-1, buf)
    else if bool_decide (gtracks g = None) && bool_decide (tdata raw = None) then mret (CBMDOS_IPE_NOT_READY, buf)
    else
      let! (rf, buf) := on_head (gcr_read_sector (bits raw) raw buf (u8 sector) (s32 (gid g))) in
      mret (if negb (rf =? CBMDOS_FDC_ERR_OK) then cbmdos_fdc_error_to_cbmdos_error rf else CBMDOS_IPE_OK, buf).

Definition fsimage_gcr_write_sector (fuel : nat) (buf : mem) (track sector : Z) : ST gcr_file_t Z :=
  let! g := state in
  if di_tracks (gimage g) <? track then mret (-1)
  else if bool_decide (gtracks g = None) then
    let! (rc, raw) := fsimage_gcr_read_track fuel track in
    if (rc <? 0) || bool_decide (tdata raw = None) then mret (-1)
    else
      let! (rf, raw) := on_head (gcr_write_sector (bits raw) raw buf (u8 sector) (s32 (gid g))) in
      if negb (rf =? CBMDOS_FDC_ERR_OK) then mret (-1)
      else let! rc := fsimage_gcr_write_track track raw in mret (if rc <? 0 then -1 else 0)
  else
    let half_track := u32 (track * 2 - 2) in
    let! raw := get_gtrack half_track in
    let! (rf, raw) := on_head (gcr_write_sector (bits raw) raw buf (u8 sector) (s32 (gid g))) in
    if negb (rf =? CBMDOS_FDC_ERR_OK) then mret (-1)
    else
      put_gtrack half_track raw;;
      let! rc := fsimage_gcr_write_track track raw in mret (if rc <? 0 then -1 else 0).

(** The status, and the disk id if a header was found *)
Definition fsimage_gcr_read_disk_id (fuel : nat) (track sector : Z) : ST gcr_file_t (Z * option Z) :=
  let! g := state in
  let! (rc, raw) := (if bool_decide (gtracks g = None) then fsimage_gcr_read_track fuel track
                     else let! t := get_gtrack (u32 (track * 2 - 2)) in mret (0, t)) in
  if bool_decide (gtracks g = None) && ((rc <? 0) || bool_decide (tdata raw = None)) then mret (CBMDOS_IPE_NOT_READY, None)
  else
    let! (rf, id) := on_head (gcr_read_sector_id (bits raw) raw sector) in
    mret (cbmdos_fdc_error_to_cbmdos_error rf, id).

End GcrFiles.
