(* ===== verification/Probe.v ===== *)
(** * Recognising and opening an image file

    Models [src/lib/vdrive/fsimage-probe.c], which tries the types of disk images one after
    another, with [util_get_extension] of [src/lib/vdrive/util.c], and [fsimage_open] and
    [fsimage_close] of [src/lib/vdrive/fsimage.c]. The state is that of file [GcrFile]; a
    check that fails may have changed the image. *)

From Stdlib Require Import Ascii String.
From S2P Require Import Prelude Geometry Image VDrive Bam BamAlloc Cbmdos Gcr GcrFile.
Import Image Cbmdos Gcr GcrFiles.

(** File sizes *)
Definition D64_FILE_SIZE_35 : Z := 174848.
Definition D67_FILE_SIZE : Z := 176640.
Definition D71_FILE_SIZE : Z := 349696.
Definition D71_FILE_SIZE_E : Z := 349696 + 1366.
Definition D81_FILE_SIZE : Z := 819200.
Definition D81_FILE_SIZE_E : Z := 822400.
Definition D81_FILE_SIZE_81 : Z := 829440.
Definition D81_FILE_SIZE_81E : Z := 832680.
Definition D81_FILE_SIZE_82 : Z := 839680.
Definition D81_FILE_SIZE_82E : Z := 842960.
Definition D81_FILE_SIZE_83 : Z := 849920.
Definition D81_FILE_SIZE_83E : Z := 853240.
Definition D80_FILE_SIZE : Z := 533248.
Definition D82_FILE_SIZE : Z := 1066496.
Definition D1M_FILE_SIZE : Z := 829440.
Definition D1M_FILE_SIZE_E : Z := 832680.
Definition D2M_FILE_SIZE : Z := 1658880.
Definition D2M_FILE_SIZE_E : Z := 1665360.
Definition D4M_FILE_SIZE : Z := 3317760.
Definition D4M_FILE_SIZE_E : Z := 3330720.
Definition D9090_FILE_SIZE : Z := 153 * 6 * 32 * 256.
Definition D9060_FILE_SIZE : Z := 153 * 4 * 32 * 256.

(** Numbers of blocks and tracks *)
Definition MAX_TRACKS_1000 : Z := 13.
Definition MAX_TRACKS_2000 : Z := 26.
Definition MAX_TRACKS_4000 : Z := 51.
Definition NUM_BLOCKS_1000 : Z := 3240.
Definition NUM_BLOCKS_1571 : Z := 1366.
Definition NUM_BLOCKS_1581 : Z := 3200.
Definition NUM_BLOCKS_2000 : Z := 6480.
Definition NUM_BLOCKS_2040 : Z := 690.
Definition NUM_BLOCKS_4000 : Z := 12960.
Definition NUM_BLOCKS_8250 : Z := 4166.
Definition NUM_TRACKS_2040 : Z := 35.

(** What the recognition uses and is not modelled: P64 images ([fsimage_read_p64_image],
    not called when [image->p64] is null), the kind of a file of the host ([archdep_stat]:
    [true] for a directory) and its contents when it can be opened ([zfile_fopen], for
    writing too if the flag is set). *)
Class Host := {
  read_p64_image : option (file_t -> Z);
  archdep_stat : mem -> option bool;
  zfile_fopen : mem -> bool -> option file_t
}.

Module Probing.
Section probe.
Context {host : Host}.

(** ** The image *)

Definition upd_image (h : disk_image_t -> disk_image_t) : ST gcr_file_t unit :=
  modify (fun g => set_gimage (h (gimage g)) g).
Definition set_kind (type tracks max_half_tracks : Z) : ST gcr_file_t unit :=
  upd_image (fun i => DiskImage (di_read_only i) (di_device i) type tracks (di_sectors i) max_half_tracks
                        (fd_ i) (map_ i) (map_len_ i)).
Definition set_tracks (tracks : Z) : ST gcr_file_t unit :=
  upd_image (fun i => DiskImage (di_read_only i) (di_device i) (di_type i) tracks (di_sectors i)
                        (di_max_half_tracks i) (fd_ i) (map_ i) (map_len_ i)).
Definition set_sectors (sectors : Z) : ST gcr_file_t unit :=
  upd_image (fun i => DiskImage (di_read_only i) (di_device i) (di_type i) (di_tracks i) sectors
                        (di_max_half_tracks i) (fd_ i) (map_ i) (map_len_ i)).
Definition set_error_info (m : mem) (len : Z) : ST gcr_file_t unit :=
  upd_image (fun i => DiskImage (di_read_only i) (di_device i) (di_type i) (di_tracks i) (di_sectors i)
                        (di_max_half_tracks i) (fd_ i) (Some m) len).

Definition the_file : ST gcr_file_t file_t := let! g := state in lift (fd_ (gimage g)).

Definition disk_image_check_min_block (blk length : Z) : Z := if blk <? length then -1 else 0.

Definition disk_image_get_size_blocks (f : file_t) (max_blocks : Z) : Z :=
  let blk := u32 (f_size f / 256) in if u32 max_blocks <? blk then u32 (max_blocks + 1) else blk.

(** The error information, behind [blocks] sectors *)
Definition read_error_info (f : file_t) (blocks : Z) : ST gcr_file_t bool :=
  let '(rc, m) := util_fpread f (replicate (Z.to_nat blocks) 0) blocks (256 * blocks) in
  set_error_info m blocks;; mret (negb (rc <? 0)).

(** ** Types with a size *)

(** The tracks and blocks of a D64 with this size, and whether it has error information *)
Fixpoint d64_layout (n : nat) (size tracks blocks : Z) : option (Z * Z * bool) :=
  if size =? blocks * 256 then Some (tracks, blocks, false)
  else if size =? blocks * 256 + blocks then Some (tracks, blocks, true)
  else match n with O => None | S n => d64_layout n size (tracks + 1) (blocks + 17) end.

Definition disk_image_check_for_d64 : ST gcr_file_t bool :=
  let! f := the_file in
  match d64_layout (Z.to_nat (MAX_TRACKS_1541 - NUM_TRACKS_1541)) (f_size f) NUM_TRACKS_1541 (D64_FILE_SIZE_35 / 256) with
  | None => mret false
  | Some (tracks, blocks, errorinfo) =>
      set_kind DISK_IMAGE_TYPE_D64 tracks (MAX_TRACKS_1541 * 2);;
      if (errorinfo : bool) then read_error_info f blocks else mret true
  end.

Definition disk_image_check_for_d67 : ST gcr_file_t bool :=
  let! f := the_file in
  if negb (f_size f =? D67_FILE_SIZE) then mret false
  else
    set_kind DISK_IMAGE_TYPE_D67 NUM_TRACKS_2040 (MAX_TRACKS_2040 * 2);;
    let blk := disk_image_get_size_blocks f NUM_BLOCKS_2040 in
    if disk_image_check_min_block blk NUM_BLOCKS_2040 <? 0 then mret false
    else mret (blk =? NUM_BLOCKS_2040).

Definition IS_D71_LEN (x : Z) : bool := (x =? D71_FILE_SIZE) || (x =? D71_FILE_SIZE_E).

Definition disk_image_check_for_d71 : ST gcr_file_t bool :=
  let! f := the_file in
  if negb (IS_D71_LEN (f_size f)) then mret false
  else
    set_kind DISK_IMAGE_TYPE_D71 NUM_TRACKS_1571 (MAX_TRACKS_1571 * 2);;
    let blk := disk_image_get_size_blocks f NUM_BLOCKS_1571 in
    if disk_image_check_min_block blk NUM_BLOCKS_1571 <? 0 then mret false
    else if f_size f =? D71_FILE_SIZE_E then read_error_info f blk else mret true.

Definition IS_D81_LEN (x : Z) : bool :=
  (x =? D81_FILE_SIZE) || (x =? D81_FILE_SIZE_E) || (x =? D81_FILE_SIZE_81) || (x =? D81_FILE_SIZE_81E)
  || (x =? D81_FILE_SIZE_82) || (x =? D81_FILE_SIZE_82E) || (x =? D81_FILE_SIZE_83) || (x =? D81_FILE_SIZE_83E).

(** The part of the name behind its last point *)
Fixpoint util_get_extension (filename : mem) : option mem :=
  match filename with
  | [] => None
  | c :: s =>
      match util_get_extension s with
      | Some ext => Some ext
      | None => if c =? ch "." then Some s else None
      end
  end.

(** An extension with [1] at its second of three places, as in [d1m] *)
Definition likely_d1m (name : mem) : bool :=
  match util_get_extension name with Some (_ :: c :: _ :: _) => c =? ch "1" | _ => false end.
Definition likely_d81 (name : mem) : bool :=
  match util_get_extension name with Some (_ :: c :: d :: _) => (c =? ch "8") && (d =? ch "1") | _ => false end.

Definition d81_tracks (blk : Z) : option Z :=
  if (blk =? NUM_BLOCKS_1581) || (blk =? NUM_BLOCKS_1581 + 12) then Some NUM_TRACKS_1581
  else if (blk =? NUM_BLOCKS_1581 + 40) || (blk =? NUM_BLOCKS_1581 + 40 + 12) then Some (NUM_TRACKS_1581 + 1)
  else if (blk =? NUM_BLOCKS_1581 + 80) || (blk =? NUM_BLOCKS_1581 + 80 + 12) then Some (NUM_TRACKS_1581 + 2)
  else if (blk =? NUM_BLOCKS_1581 + 120) || (blk =? NUM_BLOCKS_1581 + 120 + 12) then Some (NUM_TRACKS_1581 + 3)
  else None.
Definition d81_errors (blk : Z) : bool :=
  (blk =? NUM_BLOCKS_1581 + 12) || (blk =? NUM_BLOCKS_1581 + 40 + 12)
  || (blk =? NUM_BLOCKS_1581 + 80 + 12) || (blk =? NUM_BLOCKS_1581 + 120 + 12).

Definition disk_image_check_for_d81 (name : mem) : ST gcr_file_t bool :=
  let! f := the_file in
  if negb (IS_D81_LEN (f_size f)) then mret false
  else if likely_d1m name then mret false
  else
    let blk := disk_image_get_size_blocks f (MAX_BLOCKS_1581 + 13) in
    if disk_image_check_min_block blk NUM_BLOCKS_1581 <? 0 then mret false
    else
      match d81_tracks blk with
      | None => mret false
      | Some tracks =>
          set_kind DISK_IMAGE_TYPE_D81 tracks (MAX_TRACKS_1581 * 2);;
          if d81_errors blk then read_error_info f (tracks * 40) else mret true
      end.

(** A type with one size, up to error information that is not looked at *)
Definition check_blocks (size_ok : Z -> bool) (type tracks max_tracks max_blocks num_blocks : Z)
    (blocks_ok : Z -> bool) : ST gcr_file_t bool :=
  let! f := the_file in
  if negb (size_ok (f_size f)) then mret false
  else
    set_kind type tracks (max_tracks * 2);;
    let blk := disk_image_get_size_blocks f max_blocks in
    if disk_image_check_min_block blk num_blocks <? 0 then mret false
    else mret (blocks_ok blk).

Definition disk_image_check_for_d80 : ST gcr_file_t bool :=
  check_blocks (fun x => x =? D80_FILE_SIZE) DISK_IMAGE_TYPE_D80 NUM_TRACKS_8050 MAX_TRACKS_8050
    (NUM_BLOCKS_8050 + 6) NUM_BLOCKS_8050 (fun blk => blk =? NUM_BLOCKS_8050).
Definition disk_image_check_for_d82 : ST gcr_file_t bool :=
  check_blocks (fun x => x =? D82_FILE_SIZE) DISK_IMAGE_TYPE_D82 NUM_TRACKS_8250 MAX_TRACKS_8250
    (NUM_BLOCKS_8250 + 6) NUM_BLOCKS_8250 (fun blk => blk =? NUM_BLOCKS_8250).

Definition IS_D1M_LEN (x : Z) : bool := (x =? D1M_FILE_SIZE) || (x =? D1M_FILE_SIZE_E).
Definition IS_D2M_LEN (x : Z) : bool := (x =? D2M_FILE_SIZE) || (x =? D2M_FILE_SIZE_E).
Definition IS_D4M_LEN (x : Z) : bool := (x =? D4M_FILE_SIZE) || (x =? D4M_FILE_SIZE_E).

Definition disk_image_check_for_d1m (name : mem) : ST gcr_file_t bool :=
  check_blocks (fun x => IS_D1M_LEN x && negb (likely_d81 name)) DISK_IMAGE_TYPE_D1M NUM_TRACKS_1000 MAX_TRACKS_1000
    (NUM_BLOCKS_1000 + 13) NUM_BLOCKS_1000
    (fun blk => (blk =? NUM_BLOCKS_1000) || (blk =? NUM_BLOCKS_1000 + 12)).
Definition disk_image_check_for_d2m : ST gcr_file_t bool :=
  check_blocks IS_D2M_LEN DISK_IMAGE_TYPE_D2M NUM_TRACKS_2000 MAX_TRACKS_2000
    (NUM_BLOCKS_2000 + 26) NUM_BLOCKS_2000
    (fun blk => (blk =? NUM_BLOCKS_2000) || (blk =? NUM_BLOCKS_2000 + 25)).
(** The number of tracks is set before the size is looked at. *)
Definition disk_image_check_for_d4m : ST gcr_file_t bool :=
  set_tracks NUM_TRACKS_2000;;
  check_blocks IS_D4M_LEN DISK_IMAGE_TYPE_D4M NUM_TRACKS_4000 MAX_TRACKS_4000
    (NUM_BLOCKS_4000 + 51) NUM_BLOCKS_4000
    (fun blk => (blk =? NUM_BLOCKS_4000) || (blk =? NUM_BLOCKS_4000 + 50)).

(** ** Types with a signature *)

Definition disk_image_check_for_gcr (fuel : nat) : ST gcr_file_t bool :=
  let! f := the_file in
  let '(rc, header) := util_fpread f (replicate 32 0) 32 0 in
  if rc <? 0 then mret false
  else
    let! h8 := lift (getb header 8) in
    let! h9 := lift (getb header 9) in
    if negb (h8 =? 0) then mret false
    else if h9 <? 1 then mret false
    else
      let type := if bool_decide (take 8 header = take 8 gcr_image_header_expected_1541) then Some DISK_IMAGE_TYPE_G64
                  else if bool_decide (take 8 header = take 8 gcr_image_header_expected_1571) then Some DISK_IMAGE_TYPE_G71
                  else None in
      match type with
      | None => mret false
      | Some type =>
          set_kind type (h9 / 2) h9;;
          let! (rc, id) := fsimage_gcr_read_disk_id fuel 18 0 in
          (if rc =? CBMDOS_IPE_OK then
             let! id := lift id in modify (fun g => GcrFile (gimage g) id (gtracks g) (ghead g) (current_half_track g))
           else mret tt);;
          mret true
      end.

Definition disk_image_check_for_p64 : ST gcr_file_t bool :=
  let! f := the_file in
  let '(rc, header) := util_fpread f (replicate 8 0) 8 0 in
  if rc <? 0 then mret false
  else if negb (bool_decide (header = [0x50; 0x36; 0x34; 0x2D; 0x31; 0x35; 0x34; 0x31])) then mret false
  else
    set_kind DISK_IMAGE_TYPE_P64 MAX_TRACKS_1541 (MAX_TRACKS_1541 * 2);;
    match read_p64_image with
    | Some read => mret (negb (read f <? 0))
    | None => mret true
    end.

Definition hdmagic : mem :=
  [0x43; 0x4d; 0x44; 0x20; 0x48; 0x44; 0x20; 0x20; 0x8d; 0x03; 0x88; 0x8e; 0x02; 0x88; 0xea; 0x60].

(** The signature at the end of the third pair of sectors of every 64 KiB *)
Fixpoint find_signature (n : nat) (f : file_t) (pos : Z) : bool :=
  match n with
  | O => false
  | S n =>
      if pos <? f_size f then
        let '(rc, sector) := util_fpread f (replicate 512 0) 512 pos in
        if rc <? 0 then false
        else if bool_decide (take 16 (drop 496 sector) = hdmagic) then true
        else find_signature n f (pos + 65536)
      else false
  end.

Definition disk_image_check_for_dhd : ST gcr_file_t bool :=
  set_tracks 65535;;
  let! f := the_file in
  let blk := f_size f in
  if blk =? 0 then mret false
  else if negb (blk mod 256 =? 0) || (blk <? 73728) then mret false
  else if find_signature (S (Z.to_nat (blk / 65536))) f 1024 then
    upd_image (fun i => DiskImage (di_read_only i) (di_device i) DISK_IMAGE_TYPE_DHD (di_tracks i) (di_sectors i) 0
                          (fd_ i) (map_ i) (map_len_ i));;
    mret true
  else mret false.

Definition disk_image_check_for_d90 : ST gcr_file_t bool :=
  let! f := the_file in
  let found heads :=
    set_sectors (heads * 32);; set_kind DISK_IMAGE_TYPE_D90 152 0;; mret true in
  if f_size f =? D9060_FILE_SIZE then found 4
  else if f_size f =? D9090_FILE_SIZE then found 6
  else mret false.

(** ** The recognition *)

(** The first check that succeeds *)
Fixpoint first_check (l : list (ST gcr_file_t bool)) : ST gcr_file_t Z :=
  match l with
  | [] => mret (-1)
  | check :: l => let! ok := check in if (ok : bool) then mret 0 else first_check l
  end.

Definition fsimage_probe (fuel : nat) (name : mem) : ST gcr_file_t Z :=
  first_check [disk_image_check_for_d64; disk_image_check_for_d67; disk_image_check_for_d71;
    disk_image_check_for_d81 name; disk_image_check_for_d80; disk_image_check_for_d82;
    disk_image_check_for_p64; disk_image_check_for_gcr fuel; disk_image_check_for_d1m name;
    disk_image_check_for_d2m; disk_image_check_for_d4m; disk_image_check_for_d90; disk_image_check_for_dhd].

(** ** Opening and closing *)

Definition fsimage_close : ST gcr_file_t Z :=
  let! g := state in
  if bool_decide (fd_ (gimage g) = None) then mret (-1)
  else
    upd_image (fun i => Image.set_map None (Image.set_fd None i));; mret 0.

Definition fsimage_open (fuel : nat) (name : mem) : ST gcr_file_t Z :=
  upd_image (Image.set_map None);;
  match archdep_stat name with
  | None | Some true => mret (-1)
  | Some false =>
      let! g := state in
      (if negb (di_read_only (gimage g) =? 0) then upd_image (Image.set_fd (zfile_fopen name false))
       else
         match zfile_fopen name true with
         | Some f => upd_image (Image.set_fd (Some f))
         | None => upd_image (fun i => DiskImage 1 (di_device i) (di_type i) (di_tracks i) (di_sectors i)
                                (di_max_half_tracks i) (zfile_fopen name false) (map_ i) (map_len_ i))
         end);;
      let! g := state in
      if bool_decide (is_Some (fd_ (gimage g))) then
        let! rc := fsimage_probe fuel name in
        if rc =? 0 then mret 0 else fsimage_close;; mret (-1)
      else mret (-1)
  end.

End probe.
End Probing.
