(* ===== verification/Create.v ===== *)
(** * Creating an image file

    Models [src/lib/vdrive/fsimage-create.c]: the files of blank images, of FD2000 and
    FD4000 images with their partition table, and of formatted raw tracks. A file is
    created from the file that was opened for writing, if there is one. *)

From Stdlib Require Import Ascii String.
From S2P Require Import Prelude Geometry Image VDrive Bam BamAlloc Cbmdos Gcr GcrFile Probe.
Import Image Cbmdos Gcr GcrFiles.

Definition NUM_MAX_BYTES_TRACK : Z := 7928.

(** The image of pulses that [fsimage_create_p64] writes, and the reading of one *)
Class P64 := { p64_blank : mem; p64_read : file_t -> Z }.

Module Creating.
Section create.
Context {p64 : P64}.

(** ** Files *)

(** [archdep_fwrite] at the end of the file: [true] if the bytes are written *)
Definition append (buf : mem) (f : file_t) : bool * file_t :=
  let '(rc, f) := util_fpwrite f buf (f_size f) in (negb (rc <? 0), f).

(** The blocks from [i] on, up to the first that cannot be written *)
Fixpoint write_blocks (n : nat) (i : Z) (block : Z -> option mem) (f : file_t) : option (Z * file_t) :=
  match n with
  | O => Some (0, f)
  | S n =>
      b ← block i;
      let '(ok, f) := append b f in
      if (ok : bool) then write_blocks n (i + 1) block f else Some (-1, f)
  end.

(** ** Blank images *)

(** The size of a blank image; 0 for the types of raw tracks *)
Definition blank_size (type : Z) : option Z :=
  if type =? DISK_IMAGE_TYPE_D64 then Some D64_FILE_SIZE_35
  else if type =? DISK_IMAGE_TYPE_D67 then Some D67_FILE_SIZE
  else if type =? DISK_IMAGE_TYPE_D71 then Some D71_FILE_SIZE
  else if type =? DISK_IMAGE_TYPE_D81 then Some D81_FILE_SIZE
  else if type =? DISK_IMAGE_TYPE_D80 then Some D80_FILE_SIZE
  else if type =? DISK_IMAGE_TYPE_D82 then Some D82_FILE_SIZE
  else if type =? DISK_IMAGE_TYPE_D90 then Some D9090_FILE_SIZE
  else if (type =? DISK_IMAGE_TYPE_G64) || (type =? DISK_IMAGE_TYPE_G71) || (type =? DISK_IMAGE_TYPE_P64) then Some 0
  else None.

Definition fsimage_create_dxx (type : Z) (f : file_t) : option (Z * file_t) :=
  match blank_size type with
  | None => Some (-1, f)
  | Some size => write_blocks (Z.to_nat (size / 256)) 0 (fun _ => Some (replicate 256 0)) f
  end.

(** ** Images with partitions *)

(** Cells of a block, from the left *)
Fixpoint set_cells (l : list (Z * Z)) (block : mem) : option mem :=
  match l with [] => Some block | (i, x) :: l => block ← putb block i x; set_cells l block end.

(** The name and the id of a disk name like [name,id] *)
Definition split_name (diskname : mem) : mem * (Z * Z) :=
  match list_find (fun c => c = ch ",") diskname with
  | None => (diskname, (32, 32))
  | Some (k, _) =>
      (if bool_decide (k = 0%nat) then [32] else take k diskname,
       match drop (S k) diskname with [] => (32, 32) | [a] => (a, 32) | a :: b :: _ => (a, b) end)
  end.

(** A value for each of the three types *)
Definition by_size (type d1m d2m d4m : Z) : Z :=
  if type =? DISK_IMAGE_TYPE_D1M then d1m else if type =? DISK_IMAGE_TYPE_D2M then d2m else d4m.

Definition put_name (name : mem) (block : mem) : option mem :=
  block ← splice block 4 name; splice block (4 + mlen name) (replicate (18 - length name) 0xa0).

(** Block [i] of the image: the header, the BAM, the first sector of the directory and the
    sectors of the partition table *)
Definition dxm_block (type partblock : Z) (name : mem) (id : Z * Z) (i : Z) : option mem :=
  let block := replicate 256 0 in
  if i =? 1 then
    block ← set_cells [(0x00, 0x01); (0x01, 0x22); (0x02, 0x48)] block;
    block ← put_name name block;
    set_cells [(0x16, id.1); (0x17, id.2); (0x18, 0xa0); (0x19, 0x31); (0x1a, 0x48); (0x1b, 0xa0); (0x1c, 0xa0);
               (0x20, 0x01); (0x21, 0x01)] block
  else if i =? 2 then
    block ← set_cells [(0x02, 0x48); (0x03, 0xb7); (0x04, id.1); (0x05, id.2); (0x06, 0xc0);
                       (0x08, by_size type 0x0c 0x19 0x32); (0x24, 0x1f)] block;
    fill block 0x25 0xff (256 - 0x25)
  else if (3 <=? i) && (i <? 0x22) then Some (replicate 256 0xff)
  else if i =? 0x22 then putb block 0x01 0xff
  else if i =? partblock then
    block ← fill block 0 0xff 224;
    block ← set_cells [(0x00, 0x00); (0x38, 0x00); (0x39, 0x00); (0x70, 0x00); (0x71, by_size type 0x06 0x0c 0x19);
                       (0xa9, by_size type 0x40 0x80 0x00); (0xa8, 0x00); (0xe2, 0x01); (0xe3, 0x01)] block;
    splice block 0xf0 [0x43; 0x4d; 0x44; 0x20; 0x46; 0x44; 0x20; 0x53; 0x45; 0x52; 0x49; 0x45; 0x53; 0x20; 0x20; 0x20]
  else if i =? partblock + 3 then
    block ← set_cells [(0x00, 0x01); (0x01, 0x01); (0x02, 0xff)] block;
    block ← splice block 0x05 [0x53; 0x59; 0x53; 0x54; 0x45; 0x4d];
    block ← fill block 0x0b 0xa0 10;
    block ← putb block 0x22 0x01;
    block ← splice block 0x25 [0x50; 0x41; 0x52; 0x54; 0x49; 0x54; 0x49; 0x4f; 0x4e; 0x20; 0x31];
    block ← fill block 0x30 0xa0 5;
    set_cells [(0x3e, by_size type 0x06 0x0c 0x19); (0x3f, by_size type 0x00 0x80 0x00)] block
  else if i =? partblock + 4 then set_cells [(0x00, 0x01); (0x01, 0x02)] block
  else if i =? partblock + 5 then set_cells [(0x00, 0x01); (0x01, 0x03)] block
  else if i =? partblock + 6 then putb block 0x01 0xff
  else Some block.

Definition fsimage_create_dxm (fd : option file_t) (diskname : mem) (type : Z) : option (Z * option file_t) :=
  match fd with
  | None => Some (-1, None)
  | Some f =>
      let layout := if type =? DISK_IMAGE_TYPE_D1M then Some (D1M_FILE_SIZE, 0x0c85)
                    else if type =? DISK_IMAGE_TYPE_D2M then Some (D2M_FILE_SIZE, 0x1905)
                    else if type =? DISK_IMAGE_TYPE_D4M then Some (D4M_FILE_SIZE, 0x3205) else None in
      match layout with
      | None => Some (-1, Some f)
      | Some (size, partblock) =>
          let '(name, id) := split_name diskname in
          '(rc, f) ← write_blocks (Z.to_nat (size / 256)) 0 (dxm_block type partblock name id) f;
          Some (rc, Some f)
      end
  end.

(** The image of a hard disk is an empty file. *)
Definition fsimage_create_dhd (fd : option file_t) (type : Z) : Z * option file_t :=
  match fd with
  | None => (-1, None)
  | Some f => if type =? DISK_IMAGE_TYPE_DHD then (0, Some f) else (-1, Some f)
  end.

(** ** Images of raw tracks *)

(** The number in the headers of a track *)
Definition header_track (type track : Z) : Z :=
  u8 (if type =? DISK_IMAGE_TYPE_G71 then
        if 77 <? track then track
        else if 42 <? track then track - 7
        else if 35 <? track then track + 35
        else track
      else track).

(** The sectors of a track from [sector] on, each with 256 bytes 0 *)
Fixpoint blank_sectors (n : nat) (htrack sector gap headergap synclen ptr : Z) : ST mem unit :=
  match n with
  | O => mret tt
  | S n =>
      gcr_convert_sector_to_GCR (replicate 256 0) ptr (GcrHeader sector htrack 0xa0 0xa0) headergap synclen CBMDOS_FDC_ERR_OK;;
      blank_sectors n htrack (sector + 1) gap headergap synclen
        (ptr + SECTOR_GCR_SIZE_WITH_HEADER + headergap + gap + synclen * 2)
  end.

(** A track of the file: its length and the room of the longest track *)
Definition blank_gcr_track (type track : Z) : option mem :=
  '(_, data) ← blank_sectors (Z.to_nat (Geometry.disk_image_sector_per_track type track)) (header_track type track) 0
     (Geometry.disk_image_gap_size type track) (Geometry.disk_image_header_gap_size type track)
     (Geometry.disk_image_sync_size type track) 2
     (util_word_to_le_buf (u16 (Geometry.disk_image_raw_track_size type track))
      ++ replicate (Z.to_nat NUM_MAX_BYTES_TRACK) 0x55);
  Some data.

(** A table with an entry for every half track: [entry] for the tracks, 0 for the half
    tracks between them *)
Definition half_track_table (max_tracks num_tracks : Z) (entry : Z -> Z) : mem :=
  seqZ 0 max_tracks ≫= fun track =>
    (if track <? num_tracks then util_dword_to_le_buf (u32 (entry track)) else replicate 4 0) ++ replicate 4 0.

(** The parts of the file in their order, up to the first that cannot be written *)
Fixpoint append_all (l : list mem) (f : file_t) : Z * file_t :=
  match l with
  | [] => (0, f)
  | buf :: l => let '(ok, f) := append buf f in if (ok : bool) then append_all l f else (-1, f)
  end.

Definition gcr_layout (type : Z) : option (mem * Z * Z) :=
  if type =? DISK_IMAGE_TYPE_G64 then Some (gcr_image_header_expected_1541, NUM_TRACKS_1541, MAX_TRACKS_1541)
  else if type =? DISK_IMAGE_TYPE_G71 then Some (gcr_image_header_expected_1571, 84, 84)
  else None.

Definition fsimage_create_gcr (type : Z) (f : file_t) : option (Z * file_t) :=
  match gcr_layout type with
  | None => Some (-1, f)
  | Some (signature, num_tracks, max_tracks) =>
      let header := signature ++ u8 (max_tracks * 2) :: util_word_to_le_buf NUM_MAX_BYTES_TRACK in
      let offsets := half_track_table max_tracks num_tracks
                       (fun track => 12 + max_tracks * 16 + track * (NUM_MAX_BYTES_TRACK + 2)) in
      let speeds := half_track_table max_tracks num_tracks
                      (fun track => Geometry.disk_image_speed_map type (track + 1)) in
      tracks ← mapM (blank_gcr_track type) (seqZ 1 num_tracks);
      Some (append_all (header :: offsets :: speeds :: tracks) f)
  end.

(** ** All types *)

Definition fsimage_create (fd : option file_t) (type : Z) : option (Z * option file_t) :=
  match fd with
  | None => Some (-1, None)
  | Some f =>
      let blank := (type =? DISK_IMAGE_TYPE_D64) || (type =? DISK_IMAGE_TYPE_D67) || (type =? DISK_IMAGE_TYPE_D71)
                   || (type =? DISK_IMAGE_TYPE_D81) || (type =? DISK_IMAGE_TYPE_D80) || (type =? DISK_IMAGE_TYPE_D82)
                   || (type =? DISK_IMAGE_TYPE_D1M) || (type =? DISK_IMAGE_TYPE_D2M) || (type =? DISK_IMAGE_TYPE_D4M)
                   || (type =? DISK_IMAGE_TYPE_D90) in
      '(rc, f) ← (if blank then fsimage_create_dxx type f
                  else if (type =? DISK_IMAGE_TYPE_G64) || (type =? DISK_IMAGE_TYPE_G71) then fsimage_create_gcr type f
                  else if type =? DISK_IMAGE_TYPE_P64 then
                    let '(ok, f) := append p64_blank f in Some (if (ok : bool) then 0 else -1, f)
                  else Some (-1, f));
      Some (rc, Some f)
  end.

End create.
End Creating.
