(* ===== verification/Attach.v ===== *)
(** * Attaching an image to a drive

    Models [vdrive_device_setup], [vdrive_device_shutdown], [vdrive_attach_image] and
    [vdrive_detach_image] of [src/lib/vdrive/vdrive.c], and [src/lib/vdrive/vdrive-internal.c],
    which creates and formats an image file through a drive of its own. The host's files
    that this goes through are a finite map from names to contents. *)

From Stdlib Require Import Ascii String.
From S2P Require Import Prelude Geometry Image VDrive Bam BamAlloc Cbmdos Partition Directory Channel RelFile Command Copy Unit Gcr GcrFile Probe Create.
Import Directory Channel Command.

Module Attach.

Section attach.
Context {platform : Platform} {clock : Clock} {stack : Stack} {io : Unit_io}.

(** ** The device *)

Definition vdrive_device_setup (unit : Z) : ST unit_t Z :=
  Units.run_drive (modify (fun v => set_unit_no unit (set_image_set false (set_image_mode (-1)
    (set_images0 None (set_geom (set_image_format VDRIVE_IMAGE_FORMAT_NONE (geom v))
      (set_part (set_current_offset 0 (set_sys_offset UINT32_MAX (set_current_part (-1) (part v)))) v)))))));;
  for_each 15 0 (fun i => Units.put_field i (fun c => set_mode BUFFER_NOT_IN_USE (set_place Null c)));;
  Units.run_channel 15 (Channel.vdrive_alloc_buffer (-1) BUFFER_COMMAND_CHANNEL);;
  Units.set_error CBMDOS_IPE_DOS_VERSION 0 0;;
  Units.run_drive (modify (fun v => set_d90toggle 0 (set_last_code CBMDOS_IPE_OK v)));;
  modify (fun u => Unit (udrive u) (buffers u) 0 (udir_count u) (ulast_read u) (-1));;
  mret 0.

(** The buffers are released; one in the memory of the drive is only forgotten. *)
Definition vdrive_device_shutdown : ST unit_t unit :=
  for_each 16 0 (fun i => Units.put_field i (fun c => set_mode BUFFER_NOT_IN_USE (set_place Null c))).

(** ** Attaching *)

(** The format, the number of tracks, the size of the BAM and whether there are partitions;
    the tracks and the size are not set for an image with partitions. *)
Definition attached_format (image : disk_image_t) : option (option (Z * Z * Z)) :=
  let type := di_type image in
  let tracks := di_tracks image in
  let extended := if NUM_TRACKS_1541 <? tracks then EXT_TRACKS_1541 else NUM_TRACKS_1541 in
  if type =? DISK_IMAGE_TYPE_D64 then Some (Some (VDRIVE_IMAGE_FORMAT_1541, extended, 0x100))
  else if type =? DISK_IMAGE_TYPE_D67 then Some (Some (VDRIVE_IMAGE_FORMAT_2040, tracks, 0x100))
  else if type =? DISK_IMAGE_TYPE_D71 then Some (Some (VDRIVE_IMAGE_FORMAT_1571, NUM_TRACKS_1571, 0x200))
  else if type =? DISK_IMAGE_TYPE_D81 then Some (Some (VDRIVE_IMAGE_FORMAT_1581, tracks, 0x300))
  else if type =? DISK_IMAGE_TYPE_D80 then Some (Some (VDRIVE_IMAGE_FORMAT_8050, tracks, 0x300))
  else if type =? DISK_IMAGE_TYPE_D82 then Some (Some (VDRIVE_IMAGE_FORMAT_8250, tracks, 0x500))
  else if type =? DISK_IMAGE_TYPE_G64 then Some (Some (VDRIVE_IMAGE_FORMAT_1541, extended, 0x100))
  else if type =? DISK_IMAGE_TYPE_G71 then Some (Some (VDRIVE_IMAGE_FORMAT_1571, NUM_TRACKS_1571, 0x200))
  else if type =? DISK_IMAGE_TYPE_P64 then
    Some (Some (if 42 <? tracks then (VDRIVE_IMAGE_FORMAT_1571, NUM_TRACKS_1571, 0x200)
                else (VDRIVE_IMAGE_FORMAT_1541, NUM_TRACKS_1541, 0x100)))
  else if (type =? DISK_IMAGE_TYPE_D1M) || (type =? DISK_IMAGE_TYPE_D2M) || (type =? DISK_IMAGE_TYPE_D4M)
          || (type =? DISK_IMAGE_TYPE_DHD) then Some None
  else if type =? DISK_IMAGE_TYPE_D90 then
    let tmp := u32 (u32 ((tracks + 1) * di_sectors image) * 5) in
    let blocks := tmp / (32 * 240) + 1 in
    Some (Some (VDRIVE_IMAGE_FORMAT_9000, tracks,
                u32 ((if tmp mod (32 * 240) =? 0 then blocks else blocks + 1) * 0x100)))
  else None.

(** The partition table; [None] if the image cannot be used *)
Definition attach_partitions : ST vdrive_t (option Z) :=
  upd_part (fun p => set_current_offset UINT32_MAX (set_sys_offset UINT32_MAX p));;
  let! r := Partition.vdrive_read_partition_table in
  if negb (r =? 0) then
    upd_part (set_current_offset UINT32_MAX);;
    let! v := state in
    let! hd := lift (VDrive.VDRIVE_IS_HD v) in
    if (hd : bool) then mret None
    else upd_part (set_default_part 1);; let! v := state in mret (Some (default_part (part v)))
  else let! v := state in mret (Some (default_part (part v))).

(** The directories of the partitions are unknown, and partition [drive] is selected. *)
Definition select_first (drive : Z) : ST vdrive_t unit :=
  let none := replicate 256 0 in
  upd_part (fun p => set_cheadertrack none (set_cheadersector none (set_cdirtrack none (set_cdirsector none
    (set_cpartstart none (set_cpartend none p))))));;
  upd_part (set_current_part (-1));;
  let! r := Partition.vdrive_switch drive in
  (if negb (r =? 0) then upd_part (set_selected_part drive)
   else upd_part (fun p => set_selected_part (current_part p) p));;
  VDrive.vdrive_reset_last_track_sector.

Definition vdrive_attach_image (image : option disk_image_t) (unit drive : Z) : ST vdrive_t Z :=
  match image with
  | None => mret (-1)
  | Some image =>
      let! v := state in
      if NUM_DRIVES <=? drive then mret (-1)
      else if negb (unit_no v =? unit) then mret (-1)
      else
        match attached_format image with
        | None => upd_part (set_current_offset UINT32_MAX);; mret (-1)
        | Some format =>
            match format with
            | Some (fmt, tracks, size) =>
                upd_geom (fun g => set_image_format fmt (set_num_tracks tracks g));;
                upd_bamc (set_bam_size size);;
                upd_part (set_current_offset 0)
            | None => mret tt
            end;;
            Bam.vdrive_bam_write_bam;;
            modify (set_images0 (Some image));;
            upd_part (set_haspt (bool_decide (format = None)));;
            let! d := (if bool_decide (format = None) then attach_partitions else mret (Some drive)) in
            match d with
            | Some d => select_first d;; mret 0
            | None =>
                modify (fun v => set_images0 None (set_image_mode (-1) v));;
                upd_part (fun p => set_haspt false (set_current_part (-1) p));;
                mret (-1)
            end
        end
  end.

(** ** Detaching *)

Definition forget_image : ST vdrive_t unit :=
  upd_bamc (set_bam None);;
  modify (fun v => set_image_set false (set_image_mode (-1) v));;
  upd_part (fun p => set_current_part (-1) (set_selected_part (-1) p)).

(** Everything on the drive is shut down; without partitions, only if it is the current one. *)
Definition shut_drive (fuel : nat) (drive : Z) : ST unit_t unit :=
  let! pt := Units.drive_field (fun v => haspt (part v)) in
  if (pt : bool) then Units.vdrive_close_all_channels fuel;; Units.run_drive forget_image
  else
    Units.vdrive_close_all_channels_partition fuel drive;;
    let! p := Units.drive_field (fun v => current_part (part v)) in
    if p =? drive then Units.run_drive forget_image else mret tt.

Definition vdrive_detach_image (fuel : nat) (image : option disk_image_t) (drive : Z) : ST unit_t unit :=
  if bool_decide (image = None) || (NUM_DRIVES <=? drive) then mret tt
  else shut_drive fuel drive;; Units.run_drive (modify (set_images0 None)).

End attach.

(** ** Image files by their names *)

(** A [vdrive_t] with all bytes zero *)
Definition zero_rel : rel_t := Rel 0 0 None 0 0 None 0 0 0 None None None None.
Definition zero_drive : vdrive_t :=
  let n256 := replicate 256 0 in
  let states := replicate (Z.to_nat VDRIVE_BAM_MAX_STATES) 0 in
  VDrive 0 None false 0 (Geom 0 0 0 0 0 0 0 0 0 0 0 0) (Bamc None 0 states states states)
    (Parts 0 0 0 0 0 false n256 n256 n256 n256 n256 n256 n256 n256 n256) 0
    (replicate (Z.to_nat DRIVE_RAMSIZE) 0) 0 0 0.
Definition zero_dir : dir_t := Dir (replicate 256 0) 0 (replicate 16 0) 0 0 0 0 0 0.
Definition zero_channel : channel_t :=
  Channel (Listing (Search zero_drive zero_dir) [] 0 0 0 0 0 0 0 0 0) 0 Null 0 No_slot 0 0 0 0 0
    (0, 0, replicate 256 0) 0 zero_rel.
Definition zero_unit : unit_t :=
  Unit zero_drive (replicate 16 zero_channel) 0 0 (0, 0, replicate 256 0) 0.

(** The files of the host, all of them writable and none compressed *)
Definition host_files : Type := gmap mem file_t.

(** The unit with its image, the name of the file, and the two static variables of the
    search on raw tracks *)
Record internal_t := Internal { iunit : unit_t; iimage : disk_image_t; iname : mem; ihead : Z; ihalf : Z }.

Section internal.
Context {platform : Platform} {clock : Clock} {stack : Stack} {io : Unit_io} {p64 : P64}.

Definition host_of (fs : host_files) : Host := {|
  read_p64_image := Some p64_read;
  archdep_stat := fun name => (fun _ => false) <$> (fs !! name : option file_t);
  zfile_fopen := fun name writable => (fun f => File (f_size f) (f_data f) writable) <$> (fs !! name : option file_t)
|}.

(** The image is allocated, but its disk id is not set. *)
Definition new_image (read_only head half : Z) : gcr_file_t :=
  GcrFile (DiskImage read_only DISK_IMAGE_DEVICE_FS 0 0 0 0 None None 0) (u32 (malloc_fill 0)) None head half.

(** Without success in opening the file the result is [None]; an image that cannot be
    attached is an error only when it is to be read. *)
Definition vdrive_internal_open_fsimage (fuel : nat) (fs : host_files) (name : mem) (read_only head half : Z)
    : option (option internal_t) :=
  '(rc, g) ← Probing.fsimage_open (host := host_of fs) fuel name (new_image read_only head half);
  if rc <? 0 then Some None
  else
    '(_, u) ← vdrive_device_setup 100 zero_unit;
    '(ret, v) ← vdrive_attach_image (Some (gimage g)) 100 0 (set_image_set true (udrive u));
    if negb (ret =? 0) && negb (read_only =? 0) then Some None
    else Some (Some (Internal (set_udrive v u) (gimage g) name (ghead g) (current_half_track g))).

(** The files of the host have what was written to the open file. *)
Definition vdrive_internal_close_disk_image (fuel : nat) (fs : host_files) (i : internal_t)
    : option (Z * host_files) :=
  if existsb (Z.eqb (unit_no (udrive (iunit i)))) [8; 9; 10; 11] then Some (0, fs)
  else
    '(_, u) ← shut_drive fuel 0 (iunit i);
    match fd_ (default (iimage i) (images0 (udrive u))) with
    | None => Some (-1, fs)
    | Some f => Some (0, <[iname i := f]> fs)
    end.

Definition vdrive_internal_format_disk_image (fuel : nat) (fs : host_files) (filename : mem)
    (disk_name : option mem) (head half : Z) : option (Z * host_files) :=
  i ← vdrive_internal_open_fsimage fuel fs filename 0 head half;
  match i with
  | None => Some (-1, fs)
  | Some i =>
      '(rc, u) ← Units.vdrive_command_format fuel (Some (default [32] disk_name ++ [0])) (iunit i);
      '(closed, fs) ← vdrive_internal_close_disk_image fuel fs (Internal u (iimage i) (iname i) (ihead i) (ihalf i));
      Some (if closed <? 0 then -1 else if rc =? CBMDOS_IPE_OK then 0 else -1, fs)
  end.

(** The file is created anew. *)
Definition new_file : file_t := File 0 (fun _ => 0) true.
Definition created (fs : host_files) (name : mem) (r : option (Z * option file_t)) : option (Z * host_files) :=
  '(rc, f) ← r; Some (rc, match f with Some f => <[name := f]> fs | None => fs end).

Definition vdrive_internal_create_format_disk_image (fuel : nat) (fs : host_files) (filename : mem)
    (diskname : option mem) (type head half : Z) : option (Z * host_files) :=
  if (type =? DISK_IMAGE_TYPE_D1M) || (type =? DISK_IMAGE_TYPE_D2M) || (type =? DISK_IMAGE_TYPE_D4M) then
    diskname ← diskname;
    created fs filename (Creating.fsimage_create_dxm (Some new_file) diskname type)
  else if type =? DISK_IMAGE_TYPE_DHD then
    created fs filename (Some (Creating.fsimage_create_dhd (Some new_file) type))
  else
    '(rc, fs) ← created fs filename (Creating.fsimage_create (Some new_file) type);
    if rc <? 0 then Some (-1, fs)
    else
      '(rc, fs) ← vdrive_internal_format_disk_image fuel fs filename diskname head half;
      Some (if rc <? 0 then -1 else 0, fs).

End internal.
End Attach.
