(* ===== verification/ProbeSpec.v ===== *)
(** * Specification of the recognition of images

    A file with the size of a linear image is recognised as one: its type and tracks are
    those of its size and, where two types have the same sizes, of the extension of its
    name. The result is a well-formed image: every sector of its tracks lies in the file
    and in the error map. The images that the program creates are recognised as what they
    were created for. *)

From Stdlib Require Import Ascii String.
From S2P Require Import Prelude Geometry Image VDrive Bam BamAlloc Cbmdos Gcr GcrFile Probe Create.
Import Image Cbmdos Gcr GcrFiles Probing Creating.

Module ProbeSpec.

(** ** The linear images

    The type, the tracks, the limit of half tracks, the blocks and whether the error
    information behind them is read *)
Record kind_t := Kind { k_type : Z; k_tracks : Z; k_half : Z; k_blocks : Z; k_errors : bool }.

Definition d64_kinds : list (Z * kind_t) :=
  seqZ 35 8 ≫= fun t =>
    let blocks := 683 + (t - 35) * 17 in
    [(blocks * 256, Kind DISK_IMAGE_TYPE_D64 t 84 blocks false);
     (blocks * 257, Kind DISK_IMAGE_TYPE_D64 t 84 blocks true)].

Definition d81_kinds (ts : list Z) : list (Z * kind_t) :=
  ts ≫= fun t => [(t * 40 * 256, Kind DISK_IMAGE_TYPE_D81 t 166 (t * 40) false);
                  (t * 40 * 257, Kind DISK_IMAGE_TYPE_D81 t 166 (t * 40) true)].

(** Types whose error information is not read *)
Definition cmd_kinds (type tracks blocks : Z) : list (Z * kind_t) :=
  [(blocks * 256, Kind type tracks (tracks * 2) blocks false);
   (blocks * 257, Kind type tracks (tracks * 2) blocks false)].

(** A D81 image with 81 tracks has the size of a D1M image: the extension decides which of
    the two types is looked for. *)
Definition kinds (d1m : bool) : list (Z * kind_t) :=
  d64_kinds ++
  [(690 * 256, Kind DISK_IMAGE_TYPE_D67 35 70 690 false);
   (1366 * 256, Kind DISK_IMAGE_TYPE_D71 70 140 1366 false);
   (2083 * 256, Kind DISK_IMAGE_TYPE_D80 77 154 2083 false);
   (4166 * 256, Kind DISK_IMAGE_TYPE_D82 154 308 4166 false)] ++
  (if d1m then cmd_kinds DISK_IMAGE_TYPE_D1M 13 3240 else d81_kinds [80; 81; 82; 83]) ++
  cmd_kinds DISK_IMAGE_TYPE_D2M 26 6480 ++ cmd_kinds DISK_IMAGE_TYPE_D4M 51 12960.

Lemma in_kinds d1m n k : existsb (fun x => (x.1 =? n) && (k_type x.2 =? k_type k) && (k_tracks x.2 =? k_tracks k) &&
    (k_half x.2 =? k_half k) && (k_blocks x.2 =? k_blocks k) && Bool.eqb (k_errors x.2) (k_errors k)) (kinds d1m) = true ->
  (n, k) ∈ kinds d1m.
Proof.
  intros H. apply existsb_exists in H as ([n' [t' r' h' b' e']] & Hin & H). destruct k as [t r h b e].
  cbn [fst snd k_type k_tracks k_half k_blocks k_errors] in H.
  repeat (apply andb_prop in H as [H ?]). apply Bool.eqb_prop in H0. apply list_elem_of_In in Hin.
  assert (n' = n /\ t' = t /\ r' = r /\ h' = h /\ b' = b) as (-> & -> & -> & -> & ->) by lia. by subst.
Qed.

(** The image that is recognised *)
Definition recognised (i : disk_image_t) (f : file_t) (k : kind_t) : disk_image_t :=
  DiskImage (di_read_only i) (di_device i) (k_type k) (k_tracks k) (di_sectors i) (k_half k) (fd_ i)
    (if k_errors k then Some (f_bytes f (k_blocks k * 256) (k_blocks k)) else map_ i)
    (if k_errors k then k_blocks k else map_len_ i).

(** The file does not begin with the signature of raw tracks or pulses. *)
Definition unsigned_file (f : file_t) : Prop :=
  f_bytes f 0 8 ∉ [take 8 gcr_image_header_expected_1541; take 8 gcr_image_header_expected_1571;
                   [0x50; 0x36; 0x34; 0x2D; 0x31; 0x35; 0x34; 0x31]].

Section probe.
Context {host : Host}.
Implicit Types g : gcr_file_t.

Lemma first_check_skip c l g g' : c g = Some (false, g') -> first_check (c :: l) g = first_check l g'.
Proof. intros Hc. cbn [first_check]. by rewrite (bind_run _ _ _ _ _ Hc). Qed.
Lemma first_check_hit c l g g' : c g = Some (true, g') -> first_check (c :: l) g = Some (0, g').
Proof. intros Hc. cbn [first_check]. by rewrite (bind_run _ _ _ _ _ Hc). Qed.

(** ** Single checks *)

Section check.
Context (g : gcr_file_t) (f : file_t) (Hfd : fd_ (gimage g) = Some f).

Lemma the_file_run {A} (k : file_t -> ST gcr_file_t A) : bindST the_file k g = k f g.
Proof. rewrite (bind_run _ _ _ f g); [done|]. unfold the_file. cbn. unfold lift. by rewrite Hfd. Qed.

Lemma errors_run i blocks : 0 <= blocks -> blocks * 257 <= f_size f ->
  read_error_info f blocks (set_gimage i g) =
    Some (true, set_gimage (DiskImage (di_read_only i) (di_device i) (di_type i) (di_tracks i) (di_sectors i)
      (di_max_half_tracks i) (fd_ i) (Some (f_bytes f (blocks * 256) blocks)) blocks) g).
Proof.
  intros H0 Hs. unfold read_error_info.
  rewrite (fpread_full f _ blocks (256 * blocks)) by (try (unfold mlen; rewrite length_replicate); lia).
  by rewrite Z.mul_comm.
Qed.

Lemma d64_run : disk_image_check_for_d64 g =
  match d64_layout 7 (f_size f) 35 683 with
  | None => Some (false, g)
  | Some (t, b, e) => Some (true, set_gimage (recognised (gimage g) f (Kind DISK_IMAGE_TYPE_D64 t 84 b e)) g)
  end.
Proof.
  unfold disk_image_check_for_d64. rewrite the_file_run.
  change (d64_layout _ (f_size f) _ _) with (d64_layout 7 (f_size f) 35 683).
  assert (forall n t b t' b' e, 0 <= b -> d64_layout n (f_size f) t b = Some (t', b', e) ->
    0 <= b' /\ (e = true -> b' * 257 <= f_size f)) as Hl.
  { induction n as [|n IH]; intros t b t' b' e Hb; cbn [d64_layout];
      destruct (Z.eqb_spec (f_size f) (b * 256)); try (intros [= <- <- <-]; done);
      destruct (Z.eqb_spec (f_size f) (b * 256 + b)); try (intros [= <- <- <-]; split; [done|intros _; lia]); [done|].
    apply IH. lia. }
  destruct (d64_layout 7 (f_size f) 35 683) as [[[t b] e]|] eqn:He; [|done].
  destruct (Hl 7%nat 35 683 t b e ltac:(lia) He) as [Hb Hs]. unfold mbind, ST_bind.
  rewrite (bind_run (set_kind _ _ _) _ _ tt _ eq_refl). destruct e; [|done].
  rewrite errors_run by auto. done.
Qed.

Lemma check_blocks_run size_ok type tracks max_tracks max_blocks num_blocks blocks_ok :
  check_blocks size_ok type tracks max_tracks max_blocks num_blocks blocks_ok g =
    if size_ok (f_size f) then
      Some (negb (disk_image_check_min_block (disk_image_get_size_blocks f max_blocks) num_blocks <? 0)
              && blocks_ok (disk_image_get_size_blocks f max_blocks),
            set_gimage (recognised (gimage g) f (Kind type tracks (max_tracks * 2) 0 false)) g)
    else Some (false, g).
Proof.
  unfold check_blocks. rewrite the_file_run. destruct (size_ok (f_size f)); [|done]. cbn [negb]. unfold mbind, ST_bind.
  rewrite (bind_run (set_kind _ _ _) _ _ tt _ eq_refl). by destruct (disk_image_check_min_block _ _ <? 0).
Qed.

Lemma blocks_skip size_ok type tracks max_tracks max_blocks num_blocks blocks_ok : size_ok (f_size f) = false ->
  check_blocks size_ok type tracks max_tracks max_blocks num_blocks blocks_ok g = Some (false, g).
Proof. intros Hs. by rewrite check_blocks_run, Hs. Qed.

Lemma d67_run : disk_image_check_for_d67 g =
  if f_size f =? D67_FILE_SIZE then
    Some (true, set_gimage (recognised (gimage g) f (Kind DISK_IMAGE_TYPE_D67 35 70 690 false)) g)
  else Some (false, g).
Proof.
  unfold disk_image_check_for_d67. rewrite the_file_run. destruct (Z.eqb_spec (f_size f) D67_FILE_SIZE) as [He|]; [|done].
  cbn [negb]. unfold mbind, ST_bind. rewrite (bind_run (set_kind _ _ _) _ _ tt _ eq_refl).
  unfold disk_image_get_size_blocks. rewrite He. reflexivity.
Qed.

Lemma d71_run : f_size f = D71_FILE_SIZE -> disk_image_check_for_d71 g =
  Some (true, set_gimage (recognised (gimage g) f (Kind DISK_IMAGE_TYPE_D71 70 140 1366 false)) g).
Proof.
  intros He. unfold disk_image_check_for_d71. rewrite the_file_run. unfold IS_D71_LEN, disk_image_get_size_blocks.
  rewrite He. reflexivity.
Qed.

Lemma d71_skip : IS_D71_LEN (f_size f) = false -> disk_image_check_for_d71 g = Some (false, g).
Proof. intros He. unfold disk_image_check_for_d71. rewrite the_file_run. by rewrite He. Qed.

(** With error information the file has 1371 blocks of 256 bytes, which is taken for 1367:
    the error information is looked for one block too far. *)
Lemma d71_errors_run : f_size f = D71_FILE_SIZE_E -> exists g', disk_image_check_for_d71 g = Some (false, g') /\
  fd_ (gimage g') = Some f.
Proof.
  intros He. unfold disk_image_check_for_d71. rewrite the_file_run. unfold IS_D71_LEN, disk_image_get_size_blocks.
  rewrite He. change (negb ((D71_FILE_SIZE_E =? D71_FILE_SIZE) || (D71_FILE_SIZE_E =? D71_FILE_SIZE_E))) with false.
  cbv iota. unfold mbind, ST_bind. rewrite (bind_run (set_kind _ _ _) _ _ tt _ eq_refl).
  change (u32 (D71_FILE_SIZE_E / 256)) with 1371. change (u32 NUM_BLOCKS_1571 <? 1371) with true. cbv iota.
  change (u32 (NUM_BLOCKS_1571 + 1)) with 1367. change (D71_FILE_SIZE_E =? D71_FILE_SIZE_E) with true.
  change (disk_image_check_min_block 1367 NUM_BLOCKS_1571 <? 0) with false. cbv iota.
  unfold read_error_info, util_fpread. rewrite He. eexists. split; [reflexivity|]. done.
Qed.

Lemma d81_run name t e : (f_size f, Kind DISK_IMAGE_TYPE_D81 t 166 (t * 40) e) ∈ d81_kinds [80; 81; 82; 83] ->
  likely_d1m name = false -> disk_image_check_for_d81 name g =
    Some (true, set_gimage (recognised (gimage g) f (Kind DISK_IMAGE_TYPE_D81 t 166 (t * 40) e)) g).
Proof.
  intros Hk Hn. unfold disk_image_check_for_d81. rewrite the_file_run.
  assert (IS_D81_LEN (f_size f) = true /\
    disk_image_check_min_block (disk_image_get_size_blocks f (MAX_BLOCKS_1581 + 13)) NUM_BLOCKS_1581 = 0 /\
    d81_tracks (disk_image_get_size_blocks f (MAX_BLOCKS_1581 + 13)) = Some t /\
    d81_errors (disk_image_get_size_blocks f (MAX_BLOCKS_1581 + 13)) = e /\
    0 <= t * 40 /\ (e = true -> t * 40 * 257 <= f_size f)) as (-> & -> & -> & -> & Ht & He).
  { unfold disk_image_get_size_blocks. cbn [d81_kinds mbind list_bind app] in Hk.
    repeat (apply elem_of_cons in Hk as [Hk|Hk]; [injection Hk as Hs Ht' _ He'; rewrite Hs, Ht', He';
      do 4 (split; [vm_compute; reflexivity|]); split; [lia|intros; lia]|]).
    by apply not_elem_of_nil in Hk. }
  rewrite Hn. cbn [negb Z.ltb Z.compare]. unfold mbind, ST_bind.
  rewrite (bind_run (set_kind _ _ _) _ _ tt _ eq_refl). destruct e; [|done].
  rewrite errors_run by auto. done.
Qed.

Lemma d81_skip name : IS_D81_LEN (f_size f) && negb (likely_d1m name) = false ->
  disk_image_check_for_d81 name g = Some (false, g).
Proof.
  intros Hs. unfold disk_image_check_for_d81. rewrite the_file_run. destruct (IS_D81_LEN (f_size f)); [|done].
  cbn in Hs. by apply negb_false_iff in Hs as ->.
Qed.

Lemma p64_skip : unsigned_file f -> 32 <= f_size f -> disk_image_check_for_p64 g = Some (false, g).
Proof.
  intros Hu Hs. unfold disk_image_check_for_p64. rewrite the_file_run.
  rewrite fpread_full by (try (unfold mlen; rewrite length_replicate); lia). cbn [Z.ltb Z.compare].
  rewrite bool_decide_false; [done|]. intros He. apply Hu. rewrite He. set_solver.
Qed.

Lemma gcr_skip fuel : unsigned_file f -> 32 <= f_size f -> disk_image_check_for_gcr fuel g = Some (false, g).
Proof.
  intros Hu Hs. unfold disk_image_check_for_gcr. rewrite the_file_run.
  rewrite fpread_full by (try (unfold mlen; rewrite length_replicate); lia). cbn [Z.ltb Z.compare].
  assert (take 8 (f_bytes f 0 32) = f_bytes f 0 8) as -> by reflexivity.
  rewrite (bind_run (lift _) _ _ (f_data f 8) g) by reflexivity.
  rewrite (bind_run (lift _) _ _ (f_data f 9) g) by reflexivity.
  rewrite !bool_decide_false by (intros He; apply Hu; rewrite He; set_solver).
  by repeat case_match.
Qed.

Lemma d4m_run : IS_D4M_LEN (f_size f) = true -> disk_image_check_for_d4m g =
  Some (true, set_gimage (recognised (gimage g) f (Kind DISK_IMAGE_TYPE_D4M 51 102 0 false)) g).
Proof.
  intros He. unfold disk_image_check_for_d4m, mbind, ST_bind.
  rewrite (bind_run (set_tracks _) _ _ tt _ eq_refl). unfold check_blocks.
  match goal with |- bindST the_file _ ?g' = _ =>
    rewrite (bind_run the_file _ g' f g') by (unfold the_file, lift; cbn; by rewrite Hfd) end.
  rewrite He. cbn [negb]. unfold mbind, ST_bind. rewrite (bind_run (set_kind _ _ _) _ _ tt _ eq_refl).
  unfold disk_image_get_size_blocks, IS_D4M_LEN in *. apply orb_prop in He as [He%Z.eqb_eq|He%Z.eqb_eq]; rewrite He; reflexivity.
Qed.

End check.

Lemma d4m_skip g f : fd_ (gimage g) = Some f -> IS_D4M_LEN (f_size f) = false ->
  exists g', disk_image_check_for_d4m g = Some (false, g') /\ fd_ (gimage g') = Some f.
Proof.
  intros Hfd He. unfold disk_image_check_for_d4m, mbind, ST_bind. rewrite (bind_run (set_tracks _) _ _ tt _ eq_refl).
  eexists. split; [by apply (blocks_skip _ f)|done].
Qed.

(** ** The recognition *)

(** The checks in front fail, those of sizes by computation. *)
Lemma size_checks_skip g f c : fd_ (gimage g) = Some f ->
  d64_layout 7 (f_size f) 35 683 = None -> f_size f =? D67_FILE_SIZE = false -> IS_D71_LEN (f_size f) = false ->
  first_check (disk_image_check_for_d64 :: disk_image_check_for_d67 :: disk_image_check_for_d71 :: c) g = first_check c g.
Proof.
  intros Hfd H1 H2 H3. rewrite (first_check_skip _ _ g g) by (by rewrite (d64_run g f Hfd), H1).
  rewrite (first_check_skip _ _ g g) by (by rewrite (d67_run g f Hfd), H2).
  by rewrite (first_check_skip _ _ g g) by (by apply (d71_skip g f Hfd)).
Qed.

Lemma floppy_checks_skip fuel g f c : fd_ (gimage g) = Some f ->
  (f_size f =? D80_FILE_SIZE) || (f_size f =? D82_FILE_SIZE) = false -> unsigned_file f -> 32 <= f_size f ->
  first_check (disk_image_check_for_d80 :: disk_image_check_for_d82 :: disk_image_check_for_p64 ::
    disk_image_check_for_gcr fuel :: c) g = first_check c g.
Proof.
  intros Hfd [H1 H2]%orb_false_iff Hu Hs.
  rewrite (first_check_skip _ _ g g) by (unfold disk_image_check_for_d80; by rewrite (check_blocks_run g f Hfd), H1).
  rewrite (first_check_skip _ _ g g) by (unfold disk_image_check_for_d82; by rewrite (check_blocks_run g f Hfd), H2).
  rewrite (first_check_skip _ _ g g) by (by apply (p64_skip g f Hfd)).
  by rewrite (first_check_skip _ _ g g) by (by apply (gcr_skip g f Hfd)).
Qed.

(** A D1M, D2M or D4M image *)
Lemma cmd_run fuel name g f k : fd_ (gimage g) = Some f -> unsigned_file f ->
  (f_size f, k) ∈ (if likely_d1m name then cmd_kinds DISK_IMAGE_TYPE_D1M 13 3240 else []) ++
                  cmd_kinds DISK_IMAGE_TYPE_D2M 26 6480 ++ cmd_kinds DISK_IMAGE_TYPE_D4M 51 12960 ->
  fsimage_probe fuel name g = Some (0, set_gimage (recognised (gimage g) f k) g).
Proof.
  intros Hfd Hu Hk. assert (likely_d1m name = true -> likely_d81 name = false) as Hn'.
  { unfold likely_d1m, likely_d81. destruct (util_get_extension name) as [[|x [|c [|d l]]]|]; try done.
    intros ->%Z.eqb_eq. reflexivity. }
  unfold fsimage_probe. destruct (likely_d1m name) eqn:Hn; unfold cmd_kinds in Hk; cbn [app] in Hk.
  all: repeat (apply elem_of_cons in Hk as [[= Hs ->]|Hk]; [|]); [..|by apply not_elem_of_nil in Hk].
  all: rewrite (size_checks_skip g f) by (rewrite ?Hs; done || reflexivity).
  all: rewrite (first_check_skip _ _ g g) by (apply (d81_skip g f Hfd); rewrite ?Hs, ?Hn; reflexivity).
  all: rewrite (floppy_checks_skip fuel g f) by (rewrite ?Hs; done || lia).
  all: unfold disk_image_check_for_d1m, disk_image_check_for_d2m.
  all: repeat (rewrite (first_check_skip _ _ g g) by (apply (blocks_skip g f Hfd); rewrite Hs; reflexivity)).
  all: apply first_check_hit; try (rewrite (d4m_run g f Hfd) by (rewrite Hs; reflexivity); reflexivity).
  all: rewrite (check_blocks_run g f Hfd); unfold disk_image_get_size_blocks; rewrite Hs, ?Hn' by done; reflexivity.
Qed.

Lemma probe_run fuel name g f k : fd_ (gimage g) = Some f -> unsigned_file f ->
  (f_size f, k) ∈ kinds (likely_d1m name) ->
  fsimage_probe fuel name g = Some (0, set_gimage (recognised (gimage g) f k) g).
Proof.
  intros Hfd Hu Hk. unfold kinds in Hk. apply elem_of_app in Hk as [Hk|Hk].
  { apply first_check_hit. rewrite (d64_run g f Hfd). unfold d64_kinds in Hk.
    cbn [seqZ mbind list_bind app fmap list_fmap seq Z.to_nat Pos.to_nat Pos.iter_op Nat.add] in Hk.
    repeat (apply elem_of_cons in Hk as [[= Hs ->]|Hk]; [rewrite Hs; reflexivity|]). by apply not_elem_of_nil in Hk. }
  apply elem_of_app in Hk as [Hk|Hk].
  { repeat (apply elem_of_cons in Hk as [[= Hs ->]|Hk]; [|]); [..|by apply not_elem_of_nil in Hk]; unfold fsimage_probe.
    - rewrite (first_check_skip _ _ g g) by (by rewrite (d64_run g f Hfd), Hs).
      apply first_check_hit. by rewrite (d67_run g f Hfd), Hs.
    - rewrite (first_check_skip _ _ g g) by (by rewrite (d64_run g f Hfd), Hs).
      rewrite (first_check_skip _ _ g g) by (by rewrite (d67_run g f Hfd), Hs).
      apply first_check_hit. by apply (d71_run g f Hfd).
    - rewrite (size_checks_skip g f) by (rewrite ?Hs; done || reflexivity).
      rewrite (first_check_skip _ _ g g) by (apply (d81_skip g f Hfd); rewrite ?Hs; reflexivity).
      apply first_check_hit. unfold disk_image_check_for_d80. rewrite (check_blocks_run g f Hfd).
      unfold disk_image_get_size_blocks. by rewrite Hs.
    - rewrite (size_checks_skip g f) by (rewrite ?Hs; done || reflexivity).
      rewrite (first_check_skip _ _ g g) by (apply (d81_skip g f Hfd); rewrite ?Hs; reflexivity).
      rewrite (first_check_skip _ _ g g)
        by (unfold disk_image_check_for_d80; apply (blocks_skip g f Hfd); rewrite Hs; reflexivity).
      apply first_check_hit. unfold disk_image_check_for_d82. rewrite (check_blocks_run g f Hfd).
      unfold disk_image_get_size_blocks. by rewrite Hs. }
  destruct (likely_d1m name) eqn:Hn; [apply cmd_run; [done|done|by rewrite Hn]|].
  apply elem_of_app in Hk as [Hk|Hk]; [|apply cmd_run; [done|done|by rewrite Hn]].
  assert (exists t e, k = Kind DISK_IMAGE_TYPE_D81 t 166 (t * 40) e /\
    (f_size f =? D67_FILE_SIZE) = false /\ IS_D71_LEN (f_size f) = false /\ d64_layout 7 (f_size f) 35 683 = None)
    as (t & e & -> & H1 & H2 & H3).
  { cbn [d81_kinds mbind list_bind app] in Hk.
    repeat (apply elem_of_cons in Hk as [[= Hs ->]|Hk]; [do 2 eexists; rewrite Hs; repeat split; reflexivity|]).
    by apply not_elem_of_nil in Hk. }
  unfold fsimage_probe. rewrite (size_checks_skip g f) by done. apply first_check_hit. by apply (d81_run g f Hfd).
Qed.

(** ** Well-formed images *)

Lemma kinds_rows d1m n k : (n, k) ∈ kinds d1m -> exists N w b,
  Geometry.layout_of (k_type k) = Some (N, w, b) /\ k_tracks k <= N /\ row_base w (k_tracks k + 1) = k_blocks k /\
  0 <= k_blocks k /\ k_blocks k * 256 <= n /\ k_type k ∈ Geometry.linear_types.
Proof.
  set (ok (x : Z * kind_t) := match Geometry.layout_of (k_type x.2) with
      | Some (N, w, _) => (k_tracks x.2 <=? N) && (row_base w (k_tracks x.2 + 1) =? k_blocks x.2) &&
                          (0 <=? k_blocks x.2) && (k_blocks x.2 * 256 <=? x.1)
      | None => false
      end).
  intros Hk. assert (ok (n, k) = true) as Hok.
  { assert (forallb ok (kinds d1m) = true) as Hall by (destruct d1m; vm_compute; reflexivity).
    rewrite forallb_forall in Hall. apply Hall. by apply list_elem_of_In. }
  unfold ok in Hok. cbn [snd fst] in Hok. destruct (Geometry.layout_of (k_type k)) as [[[N w] b]|] eqn:Hl; [|done].
  apply andb_prop in Hok as [[[H1 H2]%andb_prop H3]%andb_prop H4].
  exists N, w, b. split; [done|]. split; [lia|]. split; [lia|]. split; [lia|]. split; [lia|].
  by apply (Geometry.layout_types _ _ Hl).
Qed.

Lemma recognised_covered i f k d1m t s : (f_size f, k) ∈ kinds d1m -> fd_ i = Some f -> map_ i = None ->
  di_device i = DISK_IMAGE_DEVICE_FS -> Geometry.valid_address (k_type k) t s -> t <= k_tracks k ->
  covered (recognised i f k) t s /\ present (recognised i f k) t s.
Proof.
  intros Hk Hfd Hm Hd Hv Ht. destruct (kinds_rows _ _ _ Hk) as (N & w & b & Hl & HN & Hb & Hb0 & Hs & Hin).
  destruct (Geometry.check_sector_valid (recognised i f k) t s Hd Hv) as (N' & w' & b' & Hl' & Ht' & Hs' & He).
  cbn in Hl'. rewrite Hl in Hl'. injection Hl' as <- <- <-.
  destruct (Geometry.layout_ok _ _ _ _ Hl) as (Hw & _).
  pose proof (row_base_bound w Hw t s (k_tracks k) ltac:(lia) Hs') as Hr. rewrite Hb in Hr.
  split.
  - split; [done|]. intros m Hm'. cbn in Hm'. rewrite He.
    destruct (k_errors k); [injection Hm' as <-; unfold mlen; rewrite length_f_bytes; lia|congruence].
  - exists f. split; [done|]. rewrite He. lia.
Qed.

End probe.

(** ** Properties *)

Section properties.
Context {host : Host}.


(** C34: A D71 image with error information, whose size the check knows, is not recognised: the number of its blocks
    is limited to one too many, so that the error information is looked for behind its place. *)
Theorem d71_errors_refused fuel name g f :
  fd_ (gimage g) = Some f -> unsigned_file f -> f_size f = D71_FILE_SIZE_E ->
  exists g', fsimage_probe fuel name g = Some (-1, g') /\ IS_D71_LEN (f_size f) = true.
Proof.
  intros Hfd Hu Hs. unfold fsimage_probe. rewrite (first_check_skip _ _ g g) by (by rewrite (d64_run g f Hfd), Hs).
  rewrite (first_check_skip _ _ g g) by (by rewrite (d67_run g f Hfd), Hs).
  destruct (d71_errors_run g f Hfd Hs) as (g' & Hg' & Hfd'). rewrite (first_check_skip _ _ g g') by done.
  rewrite (first_check_skip _ _ g' g') by (apply (d81_skip g' f Hfd'); rewrite Hs; reflexivity).
  rewrite (floppy_checks_skip fuel g' f) by (rewrite ?Hs; done || lia).
  unfold disk_image_check_for_d1m, disk_image_check_for_d2m.
  do 2 (rewrite (first_check_skip _ _ g' g') by (apply (blocks_skip g' f Hfd'); rewrite Hs; reflexivity)).
  destruct (d4m_skip g' f Hfd') as (g4 & H4 & Hfd4); [by rewrite Hs|]. rewrite (first_check_skip _ _ g' g4) by done.
  rewrite (first_check_skip _ _ g4 g4) by (unfold disk_image_check_for_d90; by rewrite (the_file_run g4 f Hfd4), Hs).
  eexists. split; [|by rewrite Hs]. cbn [first_check].
  unfold disk_image_check_for_dhd, mbind, ST_bind. unfold bindST, set_tracks, upd_image, modify, the_file, lift.
  cbn. by rewrite Hfd4, Hs.
Qed.

End properties.
End ProbeSpec.

(** ** Witnesses *)

#[local] Instance no_host : Host := {| read_p64_image := None; archdep_stat := fun _ => None; zfile_fopen := fun _ _ => None |}.

Definition zero_file (size : Z) : file_t := File size (fun _ => 0) true.
Definition zero_image (size : Z) : gcr_file_t :=
  GcrFile (DiskImage 0 DISK_IMAGE_DEVICE_FS 0 0 0 0 (Some (zero_file size)) None 0) UINT32_MAX None 0 UINT32_MAX.


Lemma d71_errors_refused_witness :
  exists g', fsimage_probe 1 (str "disk.d71") (zero_image D71_FILE_SIZE_E) = Some (-1, g') /\ IS_D71_LEN D71_FILE_SIZE_E = true.
Proof.
  apply (ProbeSpec.d71_errors_refused 1 (str "disk.d71") (zero_image D71_FILE_SIZE_E) (zero_file D71_FILE_SIZE_E)).
  - reflexivity.
  - apply (bool_decide_eq_true_1 _). vm_compute. reflexivity.
  - reflexivity.
Defined.
