(* ===== verification/CreateSpec.v ===== *)
(** * Specification of created images

    The blocks of a created image are written one behind the other, and the image is
    recognised as what it was created for. *)

From Stdlib Require Import Ascii String.
From S2P Require Import Prelude Geometry Image VDrive Bam BamAlloc Cbmdos Gcr GcrFile Probe Create ProbeSpec.
Import Image Cbmdos Gcr GcrFiles Probing Creating ProbeSpec.

Module CreateSpec.

(** ** Writing blocks *)

(** The computation gives a block. *)
Definition gives_block (m : option mem) : Prop := exists b, m = Some b /\ mlen b = 256.

Lemma append_run buf f : f_writable f = true -> 0 <= f_size f -> exists f', append buf f = (true, f') /\
  f_writable f' = true /\ f_size f' = f_size f + mlen buf /\ f_bytes f' (f_size f) (mlen buf) = buf /\
  (forall i, i < f_size f -> f_data f' i = f_data f i).
Proof.
  intros Hw Hs. destruct (fpwrite_ok f buf (f_size f) Hs Hw) as (f' & Hrun & Hw' & Hs' & Hb & Ho).
  exists f'. unfold append. rewrite Hrun. split; [done|]. split; [done|].
  split; [rewrite Hs'; pose proof (mlen_nonneg buf); lia|]. split; [done|]. intros i Hi. apply Ho; lia.
Qed.

Lemma write_blocks_run block n : forall i f, (forall j, i <= j < i + Z.of_nat n -> gives_block (block j)) ->
  f_writable f = true -> f_size f = i * 256 -> 0 <= i ->
  exists f', write_blocks n i block f = Some (0, f') /\ f_writable f' = true /\ f_size f' = (i + Z.of_nat n) * 256 /\
    (forall j, i <= j < i + Z.of_nat n -> block j = Some (f_bytes f' (j * 256) 256)) /\
    (forall k, k < i * 256 -> f_data f' k = f_data f k).
Proof.
  induction n as [|n IH]; intros i f Hb Hw Hs Hi.
  { exists f. cbn. split; [done|]. split; [done|]. split; [lia|]. split; [lia|done]. }
  destruct (Hb i ltac:(lia)) as (b & Hbi & Hl). cbn [write_blocks]. rewrite Hbi. cbn [mbind option_bind].
  destruct (append_run b f Hw ltac:(lia)) as (f1 & -> & Hw1 & Hs1 & Hd1 & Ho1).
  destruct (IH (i + 1) f1) as (f' & Hrun & Hw' & Hs' & Hd' & Ho'); [intros j Hj; apply Hb; lia|done|lia|lia|].
  exists f'. split; [done|]. split; [done|]. split; [lia|]. split.
  - intros j Hj. destruct (decide (j = i)) as [->|]; [|apply Hd'; lia]. rewrite Hbi, <- Hd1, Hl, Hs. f_equal.
    apply f_bytes_ext. intros k Hk. symmetry. apply Ho'. lia.
  - intros k Hk. rewrite Ho' by lia. apply Ho1. lia.
Qed.

(** ** Blocks of FD images *)

Lemma block_bind m k : gives_block m -> (forall b, mlen b = 256 -> gives_block (k b)) -> gives_block (b ← m; k b).
Proof. intros (b & -> & Hb) Hk. by apply Hk. Qed.

Lemma block_set_byte b i x : mlen b = 256 -> 0 <= i < 256 -> gives_block (putb b i x).
Proof. intros Hb Hi. exists (<[Z.to_nat i := x]> b). rewrite putb_eq by lia. split; [done|]. by rewrite mlen_insert. Qed.

Lemma block_splice b off bs : mlen b = 256 -> 0 <= off -> off + mlen bs <= 256 -> gives_block (splice b off bs).
Proof. intros Hb Ho Hl. destruct (splice_run b off bs) as (m' & Hm & Hl'); [lia|lia|]. exists m'. split; [done|lia]. Qed.

Lemma block_fill b off v n : mlen b = 256 -> 0 <= off -> 0 <= n -> off + n <= 256 -> gives_block (fill b off v n).
Proof. intros Hb Ho Hn Hl. apply block_splice; [done|done|]. autorewrite with mem. lia. Qed.

Lemma block_cells l : forall b, mlen b = 256 -> Forall (fun x => 0 <= x.1 < 256) l -> gives_block (set_cells l b).
Proof.
  induction l as [|[i x] l IH]; intros b Hb Hl; [by exists b|]. apply Forall_cons in Hl as [Hi Hl].
  cbn [set_cells]. apply block_bind; [by apply block_set_byte|]. auto.
Qed.

Lemma block_name b name : mlen b = 256 -> mlen name <= 252 -> gives_block (put_name name b).
Proof.
  intros Hb Hn. unfold put_name. apply block_bind; [apply block_splice; [done|lia|lia]|].
  intros b' Hb'. apply block_splice; [done|pose proof (mlen_nonneg name); lia|]. autorewrite with mem. unfold mlen in *. lia.
Qed.

Ltac block_step :=
  lazymatch goal with
  | |- gives_block (_ ≫= _) => apply block_bind; [|intros ? ?]
  | |- gives_block (put_name _ _) => apply block_name
  | |- gives_block (putb _ _ _) => apply block_set_byte
  | |- gives_block (fill _ _ _ _) => apply block_fill
  | |- gives_block (splice _ _ _) => apply block_splice
  | |- gives_block (set_cells _ _) => apply block_cells
  | |- gives_block (Some _) => eexists; split; [reflexivity|reflexivity]
  end.

(** Every block is made when the name fits into its sector. *)
Lemma dxm_block_gives type partblock name id i : mlen name <= 252 -> gives_block (dxm_block type partblock name id i).
Proof.
  intros Hn. assert (mlen (replicate 256 0) = 256) as Hz by done. unfold dxm_block.
  repeat case_match; repeat block_step; try done; try (repeat constructor; cbn [fst]; lia).
Qed.

(** ** Recognising *)

(** The types of [fsimage_create_dxx] that have tracks and sectors *)
Definition blank_types : list Z :=
  [DISK_IMAGE_TYPE_D64; DISK_IMAGE_TYPE_D67; DISK_IMAGE_TYPE_D71; DISK_IMAGE_TYPE_D81; DISK_IMAGE_TYPE_D80;
   DISK_IMAGE_TYPE_D82].
Definition fd_types : list Z := [DISK_IMAGE_TYPE_D1M; DISK_IMAGE_TYPE_D2M; DISK_IMAGE_TYPE_D4M].

(** A file that was opened for writing *)
Definition fresh (f : file_t) : Prop := f_writable f = true /\ f_size f = 0.

Lemma zero_start f : Some (replicate 256 0) = Some (f_bytes f (0 * 256) 256) -> unsigned_file f.
Proof.
  intros H. assert (replicate 256 0 = f_bytes f 0 256) as H0 by exact (f_equal (default []) H). unfold unsigned_file.
  assert (f_bytes f 0 8 = take 8 (replicate 256 0)) as -> by (by rewrite H0).
  apply (bool_decide_eq_true_1 _). vm_compute. reflexivity.
Qed.

Lemma create_dxx_run {p64 : P64} type f : type ∈ blank_types -> fresh f -> exists f' k,
  fsimage_create (Some f) type = Some (0, Some f') /\ unsigned_file f' /\ k_type k = type /\ k_errors k = false /\
  (f_size f', k) ∈ kinds false /\ (type <> DISK_IMAGE_TYPE_D81 -> (f_size f', k) ∈ kinds true) /\ f_writable f' = true.
Proof.
  intros Hty [Hw Hs].
  assert (exists size k, blank_size type = Some size /\ 256 <= size /\ size mod 256 = 0 /\ k_type k = type /\
    k_errors k = false /\ (size, k) ∈ kinds false /\ (type <> DISK_IMAGE_TYPE_D81 -> (size, k) ∈ kinds true) /\
    fsimage_create (Some f) type = ('(rc, f) ← fsimage_create_dxx type f; Some (rc, Some f)))
    as (size & k & Hsz & Hge & Hmod & Hk & He & Hin & Hin' & Hrun).
  { unfold blank_types in Hty.
    repeat (apply elem_of_cons in Hty as [->|Hty]; [|]); [..|by apply not_elem_of_nil in Hty]; eexists;
      [ exists (Kind DISK_IMAGE_TYPE_D64 35 84 683 false) | exists (Kind DISK_IMAGE_TYPE_D67 35 70 690 false)
      | exists (Kind DISK_IMAGE_TYPE_D71 70 140 1366 false) | exists (Kind DISK_IMAGE_TYPE_D81 80 166 3200 false)
      | exists (Kind DISK_IMAGE_TYPE_D80 77 154 2083 false) | exists (Kind DISK_IMAGE_TYPE_D82 154 308 4166 false) ];
      (split; [reflexivity|]); (split; [by vm_compute|]); do 3 (split; [reflexivity|]);
      (split; [apply in_kinds; vm_compute; reflexivity|]); (split; [|reflexivity]); intros Hne; try done;
      apply in_kinds; vm_compute; reflexivity. }
  exists (default f (snd <$> fsimage_create_dxx type f)), k. unfold fsimage_create_dxx in *. rewrite Hsz in *.
  destruct (write_blocks_run (fun _ => Some (replicate 256 0)) (Z.to_nat (size / 256)) 0 f)
    as (f' & Hwr & Hw' & Hs' & Hd' & _); [intros; by eexists|done|lia|lia|].
  rewrite Hrun, Hwr. cbn. split; [done|]. rewrite Z2Nat.id in * by (apply Z.div_pos; lia).
  assert ((0 + size / 256) * 256 = size) as Hsize by (pose proof (Z_div_mod_eq_full size 256); lia).
  split; [apply zero_start, (Hd' 0)|]; [split; [lia|]; assert (256 / 256 <= size / 256) by (apply Z.div_le_mono; lia); lia|].
  by rewrite Hs', Hsize.
Qed.


Lemma create_dxm_run type diskname f : type ∈ fd_types -> mlen (split_name diskname).1 <= 252 -> fresh f ->
  exists f' k, fsimage_create_dxm (Some f) diskname type = Some (0, Some f') /\ unsigned_file f' /\ k_type k = type /\
    (f_size f', k) ∈ kinds (type =? DISK_IMAGE_TYPE_D1M) /\ (type <> DISK_IMAGE_TYPE_D1M -> (f_size f', k) ∈ kinds true) /\
    f_writable f' = true.
Proof.
  intros Hty Hn [Hw Hs]. destruct (split_name diskname) as [name id] eqn:Hd. cbn [fst] in Hn.
  assert (exists size partblock k, (if type =? DISK_IMAGE_TYPE_D1M then Some (D1M_FILE_SIZE, 0x0c85)
      else if type =? DISK_IMAGE_TYPE_D2M then Some (D2M_FILE_SIZE, 0x1905)
      else if type =? DISK_IMAGE_TYPE_D4M then Some (D4M_FILE_SIZE, 0x3205) else None) = Some (size, partblock) /\
    256 <= size /\ size mod 256 = 0 /\ k_type k = type /\
    (size, k) ∈ kinds (type =? DISK_IMAGE_TYPE_D1M) /\ (type <> DISK_IMAGE_TYPE_D1M -> (size, k) ∈ kinds true) /\
    dxm_block type partblock name id 0 = Some (replicate 256 0)) as (size & partblock & k & Hl & Hge & Hmod & Hk & Hin & Hin' & Hpb).
  { unfold fd_types in Hty.
    repeat (apply elem_of_cons in Hty as [->|Hty]; [|]); [..|by apply not_elem_of_nil in Hty]; do 2 eexists;
      [ exists (Kind DISK_IMAGE_TYPE_D1M 13 26 3240 false) | exists (Kind DISK_IMAGE_TYPE_D2M 26 52 6480 false)
      | exists (Kind DISK_IMAGE_TYPE_D4M 51 102 12960 false) ];
      (split; [reflexivity|]); (split; [by vm_compute|]); do 2 (split; [reflexivity|]);
      (split; [apply in_kinds; vm_compute; reflexivity|]); (split; [|done]); intros Hne; try done;
      apply in_kinds; vm_compute; reflexivity. }
  destruct (write_blocks_run (dxm_block type partblock name id) (Z.to_nat (size / 256)) 0 f)
    as (f' & Hwr & Hw' & Hs' & Hd' & _); [intros; by apply dxm_block_gives|done|lia|lia|].
  exists f', k. unfold fsimage_create_dxm. rewrite Hl, Hd, Hwr. split; [done|].
  rewrite Z2Nat.id in * by (apply Z.div_pos; lia).
  assert ((0 + size / 256) * 256 = size) as Hsize by (pose proof (Z_div_mod_eq_full size 256); lia).
  split; [|by rewrite Hs', Hsize].
  apply zero_start. rewrite <- (Hd' 0) by (pose proof (Z.div_le_mono 256 size 256 ltac:(lia) Hge); lia).
  by rewrite Hpb.
Qed.

(** ** Properties *)

(** C17: An image that is created in a fresh file, one of the six types of blank floppy disks or the three FD types
    with their partition table, is recognised as an image of its type, and all its sectors are there; between D81
    and D1M the extension of the name has to agree. *)
Theorem created_recognised {host : Host} {p64 : P64} fuel type name diskname f :
  type ∈ blank_types ++ fd_types -> fresh f -> mlen (split_name diskname).1 <= 252 ->
  (type = DISK_IMAGE_TYPE_D81 -> likely_d1m name = false) -> (type = DISK_IMAGE_TYPE_D1M -> likely_d1m name = true) ->
  exists f', (if bool_decide (type ∈ fd_types) then fsimage_create_dxm (Some f) diskname type
              else fsimage_create (Some f) type) = Some (0, Some f') /\
    forall g, fd_ (gimage g) = Some f' -> di_device (gimage g) = DISK_IMAGE_DEVICE_FS -> map_ (gimage g) = None ->
      exists i, fsimage_probe fuel name g = Some (0, set_gimage i g) /\ di_type i = type /\ fd_ i = Some f' /\
        forall t s, Geometry.valid_address type t s -> t <= di_tracks i -> covered i t s /\ present i t s.
Proof.
  intros Hty Hf Hn H81 H1m.
  assert (exists f' k, (if bool_decide (type ∈ fd_types) then fsimage_create_dxm (Some f) diskname type
              else fsimage_create (Some f) type) = Some (0, Some f') /\ unsigned_file f' /\ k_type k = type /\
    (f_size f', k) ∈ kinds (likely_d1m name)) as (f' & k & Hrun & Hu & Hk & Hin).
  { apply elem_of_app in Hty as [Hty|Hty].
    - rewrite bool_decide_false by (intros Hty'; unfold blank_types, fd_types in *; set_solver).
      destruct (create_dxx_run type f Hty Hf) as (f' & k & Hrun & Hu & Hk & _ & Hin & Hin' & _).
      exists f', k. split; [done|]. split; [done|]. split; [done|].
      destruct (likely_d1m name) eqn:Hl; [apply Hin'; intros He; specialize (H81 He); congruence|done].
    - rewrite bool_decide_true by done.
      destruct (create_dxm_run type diskname f Hty Hn Hf) as (f' & k & Hrun & Hu & Hk & Hin & Hin' & _).
      exists f', k. split; [done|]. split; [done|]. split; [done|].
      destruct (decide (type = DISK_IMAGE_TYPE_D1M)) as [->|Hne]; [by rewrite H1m|].
      rewrite (proj2 (Z.eqb_neq _ _) Hne) in Hin. destruct (likely_d1m name); auto. }
  exists f'. split; [done|]. intros g Hfd Hd Hm. exists (recognised (gimage g) f' k). split; [by apply probe_run|].
  split; [done|]. split; [done|]. intros t s Hv Ht. rewrite <- Hk in Hv. by apply (recognised_covered _ _ _ (likely_d1m name)).
Qed.


End CreateSpec.

(** ** Witnesses *)

#[local] Instance some_host : Host := {| read_p64_image := None; archdep_stat := fun _ => None; zfile_fopen := fun _ _ => None |}.
#[local] Instance some_p64 : P64 := {| p64_blank := []; p64_read := fun _ => 0 |}.

Definition opened_file (f : file_t) : gcr_file_t :=
  GcrFile (DiskImage 0 DISK_IMAGE_DEVICE_FS 0 0 0 0 (Some f) None 0) UINT32_MAX None 0 UINT32_MAX.

Lemma created_recognised_witness :
  exists f', fsimage_create_dxm (Some (File 0 (fun _ => 0) true)) (str "WORK,01") DISK_IMAGE_TYPE_D1M = Some (0, Some f') /\
    exists i, fsimage_probe 1 (str "work.d1m") (opened_file f') = Some (0, set_gimage i (opened_file f')) /\
      di_type i = DISK_IMAGE_TYPE_D1M.
Proof.
  destruct (CreateSpec.created_recognised 1 DISK_IMAGE_TYPE_D1M (str "work.d1m") (str "WORK,01") (File 0 (fun _ => 0) true))
    as (f' & Hrun & Hg).
  - apply (bool_decide_eq_true_1 _). vm_compute. reflexivity.
  - split; reflexivity.
  - vm_compute. congruence.
  - discriminate.
  - reflexivity.
  - rewrite bool_decide_true in Hrun by (apply (bool_decide_eq_true_1 _); vm_compute; reflexivity).
    exists f'. split; [exact Hrun|]. destruct (Hg (opened_file f') eq_refl eq_refl eq_refl) as (i & Hp & Ht & _).
    exists i. split; [exact Hp|exact Ht].
Defined.
