(* ===== verification/GcrFileSpec.v ===== *)
(** * Specification of the files of raw tracks

    The sectors of a G64 file are read and written through the raw tracks of the file. For
    tracks of one length any sequence of accesses behaves as on the map from track and
    sector to the data, and the file of a created image has all its tracks in that form.
    The position of the last search and the numbers in the headers, which the program
    trusts, break the access on other files. *)

From S2P Require Import Prelude Geometry Image VDrive Bam BamAlloc Cbmdos Gcr GcrSpec FluxSpec FormatSpec TracksSpec GcrFile Probe Create ProbeSpec CreateSpec.
Import Image Cbmdos Gcr GcrSpec FluxSpec FormatSpec TracksSpec GcrFiles Probing Creating ProbeSpec CreateSpec.

Module GcrFileSpec.

(** ** Words *)

Lemma word_roundtrip x : 0 <= x < 65536 -> util_le_buf_to_word (util_word_to_le_buf x) = Some x.
Proof.
  intros Hx. unfold util_le_buf_to_word, util_word_to_le_buf.
  change (getb [Z.land x 255; Z.land (Z.shiftr x 8) 255] 0) with (Some (Z.land x 255)).
  change (getb [Z.land x 255; Z.land (Z.shiftr x 8) 255] 1) with (Some (Z.land (Z.shiftr x 8) 255)).
  cbn [mbind option_bind]. f_equal. change 255 with (Z.ones 8). rewrite !Z.land_ones, Z.shiftr_div_pow2 by lia.
  change (2 ^ 8) with 256. pose proof (Z.mod_pos_bound x 256 ltac:(lia)).
  assert (0 <= x / 256 < 256) by (split; [apply Z.div_pos|apply Z.div_lt_upper_bound]; lia).
  rewrite (Z.mod_small (x / 256)), lor_bytes by lia. unfold u16. rewrite Z.mod_small; [|lia].
  pose proof (Z_div_mod_eq_full x 256). lia.
Qed.

(** ** Parts of a file *)

Lemma f_bytes_app f a n m : 0 <= n -> 0 <= m -> f_bytes f a (n + m) = f_bytes f a n ++ f_bytes f (a + n) m.
Proof. intros Hn Hm. unfold f_bytes. by rewrite seqZ_app, fmap_app by lia. Qed.

Lemma f_bytes_split f a l1 l2 : f_bytes f a (mlen (l1 ++ l2)) = l1 ++ l2 ->
  f_bytes f a (mlen l1) = l1 /\ f_bytes f (a + mlen l1) (mlen l2) = l2.
Proof.
  rewrite mlen_app, f_bytes_app by apply mlen_nonneg. intros H. apply app_inj_1 in H; [done|].
  rewrite length_f_bytes. unfold mlen. lia.
Qed.

(** Buffers at successive positions *)
Fixpoint in_row (off : Z) (l : list mem) : list (mem * Z) :=
  match l with [] => [] | buf :: l => (buf, off) :: in_row (off + mlen buf) l end.

Definition with_file (f : file_t) (g : gcr_file_t) : gcr_file_t := set_gimage (set_fd (Some f) (gimage g)) g.

Lemma put_all_run l : Forall (fun buf => buf <> []) l -> forall off f g, 0 <= off -> f_writable f = true -> fd_ (gimage g) = Some f ->
  exists f', put_all (in_row off l) g = Some (true, with_file f' g) /\ f_writable f' = true /\ f_size f <= f_size f' /\
    f_bytes f' off (mlen (concat l)) = concat l /\
    (forall i, i < off \/ off + mlen (concat l) <= i -> i < f_size f -> f_data f' i = f_data f i).
Proof.
  induction 1 as [|buf l Hbuf _ IH]; intros off f g Hoff Hw Hfd.
  { exists f. cbn. unfold with_file. rewrite <- Hfd. split; [by destruct g as [[]]|]. split; [done|]. split; [lia|]. by split. }
  cbn [in_row put_all]. destruct (fpwrite_ok f buf off Hoff Hw) as (f1 & Hrun & Hw1 & Hs1 & Hd1 & Ho1).
  rewrite (bind_run _ _ _ true (with_file f1 g)).
  2: { unfold put_file. rewrite Hfd. cbn [mbind option_bind]. rewrite Hrun. by rewrite bool_decide_false by done. }
  pose proof (mlen_nonneg buf). destruct (IH (off + mlen buf) f1 (with_file f1 g)) as (f' & Hrun' & Hw' & Hs' & Hd' & Ho');
    [lia|done|done|]. pose proof (mlen_nonneg (concat l)). cbn [concat]. rewrite mlen_app.
  exists f'. split; [exact Hrun'|]. split; [done|]. split; [lia|]. split.
  - rewrite f_bytes_app, Hd' by apply mlen_nonneg. f_equal. rewrite <- Hd1 at 2. apply f_bytes_ext. intros i Hi. apply Ho'; lia.
  - intros i Hi Hsz. rewrite Ho' by lia. apply Ho1; lia.
Qed.

(** ** The tracks of a file *)

(** A track at its place in the file *)
Definition track_at (f : file_t) (off : Z) (d : mem) : Prop :=
  f_bytes f off 2 = util_word_to_le_buf (mlen d) /\ f_bytes f (off + 2) (mlen d) = d.

Lemma load_track_run f mtl off d : track_at f off d -> 1 <= mlen d <= mtl -> mtl < 65536 -> 0 <= off -> off + 2 + mtl <= f_size f ->
  load_track (Some f) mtl off = Some (0, DiskTrack (Some d) (mlen d)).
Proof.
  intros [Hlen Hd] Hm Hmtl Hoff Hsz. unfold load_track. cbn [mbind option_bind].
  rewrite fpread_full by (done || lia). change (0 <? 0) with false. cbv iota. rewrite Hlen, word_roundtrip by lia. cbn [mbind option_bind].
  rewrite (proj2 (Z.ltb_ge (mlen d) 1)), (proj2 (Z.ltb_ge mtl (mlen d))) by lia. cbn [orb].
  rewrite fpread_full, Hd; [done|lia|lia|lia|]. unfold mlen. rewrite length_replicate. lia.
Qed.

Lemma track_at_ext f f' off d : (forall i, off <= i < off + 2 + mlen d -> f_data f' i = f_data f i) -> track_at f off d -> track_at f' off d.
Proof.
  intros Hext [Hlen Hd]. pose proof (mlen_nonneg d). split.
  - rewrite <- Hlen. apply f_bytes_ext. intros i Hi. apply Hext. lia.
  - rewrite <- Hd at 2. apply f_bytes_ext. intros i Hi. apply Hext. lia.
Qed.

(** The tables in front of the tracks decide where a track is. *)
Lemma seek_frame f f' h lim : 12 <= lim -> table_entry h + 4 <= lim -> lim <= f_size f -> lim <= f_size f' ->
  (forall i, 0 <= i < lim -> f_data f' i = f_data f i) ->
  fsimage_gcr_seek_half_track (Some f') h = fsimage_gcr_seek_half_track (Some f) h.
Proof.
  intros Hlim Ht Hs Hs' Hext. pose proof (u32_range (12 + u32 ((h - 2) * 4))) as Hte. fold (table_entry h) in Hte.
  unfold fsimage_gcr_seek_half_track. rewrite !fpread_full by (done || lia).
  by rewrite !(f_bytes_ext f' f) by (intros i Hi; apply Hext; lia).
Qed.

(** The places of the tracks [T] in the file, each with room for the longest track, behind
    the tables *)
Record placed (f : file_t) (T : list Z) (off : Z -> Z) (mtl lim : Z) : Prop := {
  pl_writable : f_writable f = true;
  pl_tables : 12 <= lim <= f_size f;
  pl_seek : forall t, t ∈ T -> exists k, fsimage_gcr_seek_half_track (Some f) (2 * t) = Some (off t, mtl, k);
  pl_entry : forall t, t ∈ T -> table_entry (2 * t) + 4 <= lim;
  pl_room : forall t, t ∈ T -> lim <= off t /\ off t + 2 + mtl <= f_size f;
  pl_apart : forall t t', t ∈ T -> t' ∈ T -> t <> t' -> off t + 2 + mtl <= off t' \/ off t' + 2 + mtl <= off t
}.

(** Track [t] of [T] in the file is formatted, with its number and an accepted disk id in
    its headers. *)
Definition track_ok (id t : Z) (l : list sector_t) : Prop :=
  forall s, s ∈ l -> h_track (sc_header s) = t /\ (s32 id < 0 \/ s32 id = disk_id (sc_header s)).

Record file_track (f : file_t) (id n t off : Z) (m : gmap (Z * Z) mem) (d : mem) (l : list sector_t) : Prop := {
  ft_at : track_at f off d;
  ft_size : mlen d = n;
  ft_formatted : formatted d l;
  ft_some : l <> [];
  ft_headers : track_ok id t l;
  ft_map : forall s, m !! (t, s) = track_map l !! s
}.

(** The file holds the sectors of the map on its tracks [T], all of [n] bytes. *)
Record holds_sectors (T : list Z) (n : Z) (g : gcr_file_t) (m : gmap (Z * Z) mem) (f : file_t) (off : Z -> Z) (mtl lim : Z) : Prop := {
  hs_file : fd_ (gimage g) = Some f;
  hs_placed : placed f T off mtl lim;
  hs_longest : n <= mtl < 65536;
  hs_track : forall t, t ∈ T -> exists d l, file_track f (gid g) n t (off t) m d l;
  hs_memory : gtracks g = None;
  hs_writable : di_read_only (gimage g) = 0;
  hs_numbers : forall t, t ∈ T -> 1 <= t <= 84 /\ t <= di_tracks (gimage g);
  hs_head : 0 <= ghead g < 8 * n
}.

Definition sectors_file (T : list Z) (n : Z) (g : gcr_file_t) (m : gmap (Z * Z) mem) : Prop :=
  exists f off mtl lim, holds_sectors T n g m f off mtl lim.

(** The static variables after a search *)
Definition moved (p c : Z) (g : gcr_file_t) : gcr_file_t := set_current c (set_ghead p g).

Lemma moved_holds T n g m f off mtl lim p c : 0 <= p < 8 * n -> holds_sectors T n g m f off mtl lim ->
  holds_sectors T n (moved p c g) m f off mtl lim.
Proof. intros Hp []. by split. Qed.

(** A round of the reading of a track: the track is loaded; unless it is the one that was
    read before, its number is looked up. *)
Lemma track_round fuel orig f T off mtl lim g t d : fd_ (gimage g) = Some f -> placed f T off mtl lim -> t ∈ T ->
  track_at f (off t) d -> 1 <= mlen d <= mtl -> mtl < 65536 ->
  read_half_track (S fuel) orig (2 * t) g =
    (if 2 * t =? current_half_track g then mret (0, DiskTrack (Some d) (mlen d))
     else
       let! (rf, track) := on_head (gcr_read_track_number (bits (DiskTrack (Some d) (mlen d))) (DiskTrack (Some d) (mlen d))) in
       let! next := lift (next_half_track (2 * t) rf track) in
       if negb (next =? 2 * t) && negb (next =? orig) then read_half_track fuel orig next
       else modify (set_current (2 * t));; mret (0, DiskTrack (Some d) (mlen d))) g.
Proof.
  intros Hfd Hpl Ht Hat Hsize Hmtl.
  destruct (pl_seek _ _ _ _ _ Hpl t Ht) as [k Hseek]. destruct (pl_room _ _ _ _ _ Hpl t Ht) as [Hoff Hend].
  pose proof (pl_tables _ _ _ _ _ Hpl) as Hlim. cbn [read_half_track]. unfold bindST at 1, state. rewrite Hfd.
  rewrite (bind_run (lift _) _ _ (off t, mtl, k) g) by (unfold lift; by rewrite Hseek). cbv beta iota.
  rewrite (proj2 (Z.ltb_ge (off t) 0)), (proj2 (Z.eqb_neq (off t) 0)) by lia.
  rewrite (bind_run (lift _) _ _ (0, DiskTrack (Some d) (mlen d)) g); [done|].
  unfold lift. by rewrite (load_track_run f mtl (off t) d) by (done || lia).
Qed.

(** The number in the headers of a formatted track is found. *)
Lemma number_at d l g : formatted d l -> l <> [] -> 0 <= ghead g < 8 * mlen d -> exists x, x ∈ l /\
  on_head (gcr_read_track_number (bits (DiskTrack (Some d) (mlen d))) (DiskTrack (Some d) (mlen d))) g
    = Some ((CBMDOS_FDC_ERR_OK, Some (h_track (sc_header x))), set_ghead (sc_pos x) g) /\ 0 <= sc_pos x < 8 * mlen d.
Proof.
  intros Hf Hl Hhead. destruct (number_run d l Hf (bits (DiskTrack (Some d) (mlen d))) (ghead g)) as (x & Hx & Hrun);
    [done|done|unfold bits; cbn [tsize]; lia|].
  exists x. split; [done|]. split; [unfold on_head; by rewrite Hrun|exact (so_pos _ _ (fm_sectors _ _ Hf x Hx))].
Qed.

Lemma next_at t x : 1 <= t <= 84 -> 0 <= x < 256 -> 0 <= 4 * t - 2 * x ->
  next_half_track (2 * t) CBMDOS_FDC_ERR_OK (Some x) = Some (4 * t - 2 * x).
Proof.
  intros Ht Hx Hn. unfold next_half_track. cbn [mbind option_bind]. change (CBMDOS_FDC_ERR_OK =? CBMDOS_FDC_ERR_OK) with true. cbv iota.
  rewrite s32_small by (unfold INT32_MAX; lia). f_equal. replace (2 * t + (2 * t - 2 * x)) with (4 * t - 2 * x) by lia.
  by rewrite u32_small by lia.
Qed.

Section tracks.
Variables (T : list Z) (n : Z) (g : gcr_file_t) (m : gmap (Z * Z) mem) (f : file_t) (off : Z -> Z) (mtl lim : Z).
Hypothesis (Hg : holds_sectors T n g m f off mtl lim).

(** A track is read as it is in the file. *)
Lemma read_track_run fuel t d l : t ∈ T -> file_track f (gid g) n t (off t) m d l ->
  exists p c, fsimage_gcr_read_track (S fuel) t g = Some ((0, DiskTrack (Some d) (mlen d)), moved p c g) /\ 0 <= p < 8 * n.
Proof.
  intros Ht Hd. destruct Hg as [Hfd Hpl Hmtl _ Hmem Hrw Hnum Hhead]. destruct (Hnum t Ht) as [Ht84 _].
  pose proof (ft_size _ _ _ _ _ _ _ _ Hd) as Hsize. pose proof (fm_size _ _ (ft_formatted _ _ _ _ _ _ _ _ Hd)).
  unfold fsimage_gcr_read_track, fsimage_gcr_read_half_track. replace (u32 (t * 2)) with (2 * t) by (rewrite u32_small; lia).
  rewrite (track_round fuel (2 * t) f T off mtl lim g t d); [|done|done|done|apply Hd|lia|lia].
  destruct (Z.eqb_spec (2 * t) (current_half_track g)) as [Heq|Hne].
  { exists (ghead g), (current_half_track g). split; [by destruct g|lia]. }
  destruct (number_at d l g) as (x & Hx & Hrun & Hpos); [apply Hd|apply Hd|lia|].
  destruct (ft_headers _ _ _ _ _ _ _ _ Hd x Hx) as [Htr _]. rewrite Htr in Hrun.
  rewrite (bind_run _ _ _ _ _ Hrun). cbv beta iota. rewrite (bind_run (lift _) _ _ (2 * t) (set_ghead (sc_pos x) g)).
  2: { unfold lift. rewrite next_at by lia. do 2 f_equal. lia. }
  rewrite Z.eqb_refl. cbn [negb andb]. exists (sc_pos x), (2 * t). split; [reflexivity|lia].
Qed.

(** A sector of the track is read, and the head stays at its header. *)
Lemma read_found_run fuel t buf d l x : t ∈ T -> file_track f (gid g) n t (off t) m d l -> x ∈ l -> mlen buf = 256 ->
  exists c, fsimage_gcr_read_sector (S fuel) buf t (h_sector (sc_header x)) g
    = Some ((CBMDOS_IPE_OK, sc_data x), moved (sc_pos x) c g) /\ 0 <= sc_pos x < 8 * n.
Proof.
  intros Ht Hd Hx Hbuf. destruct (read_track_run fuel t d l Ht Hd) as (p & c & Hrun & Hp).
  destruct (hs_numbers _ _ _ _ _ _ _ _ Hg t Ht) as [_ Htr].
  pose proof (ft_formatted _ _ _ _ _ _ _ _ Hd) as Hf. pose proof (ft_size _ _ _ _ _ _ _ _ Hd) as Hsize.
  unfold fsimage_gcr_read_sector. unfold bindST at 1, state. rewrite (proj2 (Z.ltb_ge _ t)) by done.
  rewrite (hs_memory _ _ _ _ _ _ _ _ Hg), bool_decide_true by done. rewrite (bind_run _ _ _ _ _ Hrun). cbv beta iota.
  change (0 <? 0) with false. cbv iota. cbn [tdata]. rewrite (bool_decide_false (Some d = None)) by done. cbn [andb].
  pose proof (so_header _ _ (fm_sectors _ _ Hf x Hx)) as (Hxs & _).
  replace (u8 (h_sector (sc_header x))) with (h_sector (sc_header x)) by (unfold u8; by rewrite Z.mod_small by lia).
  set (raw := DiskTrack (Some d) (mlen d)). destruct (ft_headers _ _ _ _ _ _ _ _ Hd x Hx) as [_ Hid].
  exists c. pose proof (so_pos _ _ (fm_sectors _ _ Hf x Hx)).
  rewrite (bind_run (on_head _) _ _ (CBMDOS_FDC_ERR_OK, sc_data x) (moved (sc_pos x) c g)); [split; [done|lia]|].
  pose proof (sector_read_run d l Hf x (bits raw) buf (s32 (gid g)) p Hx ltac:(lia) ltac:(unfold bits; cbn [tsize raw]; lia) Hbuf Hid)
    as Hsec. fold raw in Hsec. unfold on_head. cbn [ghead moved set_current set_ghead gid]. by rewrite Hsec.
Qed.

(** A sector is read as the map has it. *)
Lemma gcr_read_run fuel t s buf : t ∈ T -> 0 <= s < 256 -> mlen buf = 256 ->
  exists p c, fsimage_gcr_read_sector (S fuel) buf t s g = Some (match m !! (t, s) with
      | Some data => (CBMDOS_IPE_OK, data)
      | None => (cbmdos_fdc_error_to_cbmdos_error CBMDOS_FDC_ERR_HEADER, buf)
      end, moved p c g) /\ 0 <= p < 8 * n.
Proof.
  intros Ht Hs Hbuf. destruct (hs_track _ _ _ _ _ _ _ _ Hg t Ht) as (d & l & Hd).
  pose proof (ft_formatted _ _ _ _ _ _ _ _ Hd) as Hf. pose proof (ft_size _ _ _ _ _ _ _ _ Hd) as Hsize.
  rewrite (ft_map _ _ _ _ _ _ _ _ Hd s). destruct (track_map l !! s) as [data|] eqn:Hm.
  { apply (track_map_Some d l _ _ Hf) in Hm as (x & Hx & <- & <-).
    destruct (read_found_run fuel t buf d l x Ht Hd Hx Hbuf) as (c & Hrun & Hpos). by exists (sc_pos x), c. }
  destruct (read_track_run fuel t d l Ht Hd) as (p & c & Hrun & Hp). destruct (hs_numbers _ _ _ _ _ _ _ _ Hg t Ht) as [_ Htr].
  unfold fsimage_gcr_read_sector. unfold bindST at 1, state. rewrite (proj2 (Z.ltb_ge _ t)) by done.
  rewrite (hs_memory _ _ _ _ _ _ _ _ Hg), bool_decide_true by done. rewrite (bind_run _ _ _ _ _ Hrun). cbv beta iota.
  change (0 <? 0) with false. cbv iota. cbn [tdata]. rewrite (bool_decide_false (Some d = None)) by done. cbn [andb].
  replace (u8 s) with s by (unfold u8; by rewrite Z.mod_small by lia). set (raw := DiskTrack (Some d) (mlen d)).
  destruct l as [|s0 l0] eqn:Hl; [by destruct (ft_some _ _ _ _ _ _ _ _ Hd)|]. rewrite <- Hl in *.
  assert (Hs0 : s0 ∈ l) by (rewrite Hl; by left).
  destruct (missing_block d l Hf s0 s (bits raw) (s32 (gid g)) p Hs0 (proj1 Hs) (track_map_None d l s Hf Hm)) as (p' & Hp' & Hrun');
    [lia|unfold bits; cbn [tsize raw]; lia|]. exists p', c.
  rewrite (bind_run (on_head _) _ _ (CBMDOS_FDC_ERR_HEADER, buf) (moved p' c g)); [split; [done|lia]|].
  unfold on_head, gcr_read_sector. cbn [ghead moved set_current set_ghead gid]. by rewrite (bind_run _ _ _ _ _ Hrun').
Qed.

(** The id of the disk is read from a header. *)
Lemma read_id_run fuel t d l x : t ∈ T -> file_track f (gid g) n t (off t) m d l -> x ∈ l ->
  exists c, fsimage_gcr_read_disk_id (S fuel) t (h_sector (sc_header x)) g
    = Some ((CBMDOS_IPE_OK, Some (disk_id (sc_header x))), moved (sc_pos x) c g).
Proof.
  intros Ht Hd Hx. destruct (read_track_run fuel t d l Ht Hd) as (p & c & Hrun & Hp).
  pose proof (ft_formatted _ _ _ _ _ _ _ _ Hd) as Hf. pose proof (ft_size _ _ _ _ _ _ _ _ Hd) as Hsize.
  unfold fsimage_gcr_read_disk_id. unfold bindST at 1, state.
  rewrite (hs_memory _ _ _ _ _ _ _ _ Hg), bool_decide_true by done. rewrite (bind_run _ _ _ _ _ Hrun). cbv beta iota.
  change (0 <? 0) with false. cbn [tdata orb andb]. rewrite (bool_decide_false (Some d = None)) by done. cbv iota.
  set (raw := DiskTrack (Some d) (mlen d)). exists c. pose proof (so_pos _ _ (fm_sectors _ _ Hf x Hx)).
  rewrite (bind_run (on_head _) _ _ (CBMDOS_FDC_ERR_OK, Some (disk_id (sc_header x))) (moved (sc_pos x) c g)); [done|].
  pose proof (header_run d l Hf x (bits raw) p Hx ltac:(lia) ltac:(unfold bits; cbn [tsize raw]; lia)) as Hh. fold raw in Hh.
  unfold on_head, gcr_read_sector_id, gcr_find_sector_header. cbn [ghead moved set_current set_ghead].
  rewrite (bind_run _ _ _ (sc_pos x, Some (disk_id (sc_header x))) (sc_pos x)) by (by rewrite (bind_run _ _ _ _ _ Hh)).
  cbv beta iota. by rewrite (proj2 (Z.ltb_ge (sc_pos x) 0)) by lia.
Qed.

(** A track is written to its place. *)
Lemma write_track_run t d' p c : t ∈ T -> mlen d' = n -> 0 < n ->
  exists f', fsimage_gcr_write_track t (DiskTrack (Some d') (mlen d')) (moved p c g) = Some (0, with_file f' (moved p c g)) /\
    f_writable f' = true /\ f_size f <= f_size f' /\ track_at f' (off t) d' /\
    (forall i, i < off t \/ off t + 2 + mtl <= i -> i < f_size f -> f_data f' i = f_data f i).
Proof.
  intros Ht Hd' Hn. destruct Hg as [Hfd Hpl Hmtl _ Hmem Hrw Hnum Hhead]. destruct (Hnum t Ht) as [Ht84 _].
  destruct (pl_seek _ _ _ _ _ Hpl t Ht) as [k Hseek]. destruct (pl_room _ _ _ _ _ Hpl t Ht) as [Hoff Hend].
  pose proof (pl_tables _ _ _ _ _ Hpl) as Hlim.
  unfold fsimage_gcr_write_track, fsimage_gcr_write_half_track. replace (u32 (t * 2)) with (2 * t) by (rewrite u32_small; lia).
  unfold bindST at 1, state. cbn [gimage moved set_current set_ghead]. rewrite Hfd.
  rewrite (bind_run (lift _) _ _ (off t, mtl, k) (moved p c g)) by (unfold lift; by rewrite Hseek). cbv beta iota. cbn [tsize tdata].
  rewrite (proj2 (Z.ltb_ge (off t) 0)), Hrw, (proj2 (Z.ltb_ge mtl (mlen d'))) by lia. change (negb (0 =? 0)) with false. cbv iota.
  rewrite (bind_run (lift _) _ _ f (moved p c g)) by done. cbv zeta. rewrite (proj2 (Z.eqb_neq (off t) 0)) by lia.
  rewrite (bind_run (lift _) _ _ d' (moved p c g)).
  2: { unfold lift, slice. rewrite Z.add_0_l, (proj2 (Z.leb_le 0 (mlen d'))) by lia. rewrite !Z.leb_refl. cbn [andb].
       unfold mlen. change (drop (Z.to_nat 0) d') with d'. by rewrite Nat2Z.id, firstn_all. }
  set (pad := if 0 <? mtl - mlen d' then [replicate (Z.to_nat (mtl - mlen d')) 0] else []).
  set (row := util_word_to_le_buf (mlen d') :: d' :: pad).
  assert (Hrow : track_writes (di_type (gimage g)) (2 * t) k mtl (off t) false d' (mlen d') = in_row (off t) row).
  { unfold track_writes, row, pad, u16. rewrite Z.mod_small, app_nil_r by lia. cbn [in_row]. change (mlen (util_word_to_le_buf _)) with 2.
    by destruct (0 <? mtl - mlen d'). }
  assert (Hne : Forall (fun buf => buf <> []) row).
  { unfold row. constructor; [done|]. constructor; [intros He; rewrite He in Hd'; change (mlen []) with 0 in Hd'; lia|]. unfold pad. destruct (Z.ltb_spec 0 (mtl - mlen d')); [|done].
    constructor; [|done]. destruct (Z.to_nat (mtl - mlen d')) eqn:He; [lia|done]. }
  assert (Hcat : concat row = (util_word_to_le_buf (mlen d') ++ d') ++ concat pad) by (unfold row; cbn [concat]; by rewrite app_assoc).
  assert (Hlen : mlen (concat row) = 2 + mtl).
  { rewrite Hcat, !mlen_app. change (mlen (util_word_to_le_buf _)) with 2. unfold pad.
    destruct (Z.ltb_spec 0 (mtl - mlen d')); cbn [concat]; rewrite ?app_nil_r; unfold mlen at 2; rewrite ?length_replicate; cbn [length]; lia. }
  destruct (put_all_run row Hne (off t) f (moved p c g)) as (f' & Hrun & Hw' & Hs' & Hd'' & Ho'); [lia|apply Hpl|done|].
  rewrite Hrow, (bind_run _ _ _ _ _ Hrun). exists f'. split; [done|]. split; [done|]. split; [done|]. split.
  - rewrite Hcat in Hd''. apply f_bytes_split in Hd'' as [Hd'' _]. by apply f_bytes_split in Hd''.
  - intros i Hi. apply Ho'. lia.
Qed.

(** Writing the sectors of one track leaves the places and contents of the others. *)
Lemma write_holds t d l d' data s p c f' : t ∈ T -> file_track f (gid g) n t (off t) m d l -> is_Some (m !! (t, s)) ->
  mlen d' = mlen d -> formatted d' (set_data s data <$> l) -> 0 <= p < 8 * n ->
  f_writable f' = true -> f_size f <= f_size f' -> track_at f' (off t) d' ->
  (forall i, i < off t \/ off t + 2 + mtl <= i -> i < f_size f -> f_data f' i = f_data f i) ->
  holds_sectors T n (with_file f' (moved p c g)) (<[(t, s) := data]> m) f' off mtl lim.
Proof.
  intros Ht Hd Hold Hsize Hf' Hp Hw' Hs' Hat Ho. destruct Hg as [Hfd Hpl Hmtl Htracks Hmem Hrw Hnum Hhead].
  pose proof (pl_tables _ _ _ _ _ Hpl) as Hlim. split; [done| |done| |done|done|done|done].
  - split; [done|lia| | | |apply Hpl].
    + intros u Hu. rewrite (seek_frame f f' (2 * u) lim); [by apply Hpl|lia|by apply Hpl|lia|lia|].
      intros i Hi. pose proof (pl_room _ _ _ _ _ Hpl t Ht). apply Ho; lia.
    + apply Hpl.
    + intros u Hu. pose proof (pl_room _ _ _ _ _ Hpl u Hu). lia.
  - intros u Hu. destruct (decide (u = t)) as [->|Hne].
    + exists d', (set_data s data <$> l). destruct Hd as [_ Hn Hf Hl Hh Hm]. split; [done|lia|done| | |].
      * by destruct l.
      * intros y (x & -> & Hx)%list_elem_of_fmap. destruct (set_data_eq s data x) as (_ & _ & ->). by apply Hh.
      * intros s'. rewrite Hm in Hold. rewrite (track_map_set d d') by done.
        destruct (decide (s' = s)) as [->|Hs]; [by rewrite !lookup_insert_eq|].
        rewrite !lookup_insert_ne by congruence. apply Hm.
    + destruct (Htracks u Hu) as (du & lu & Hdu). exists du, lu. destruct Hdu as [Ha Hn Hf Hl Hh Hm]. split; [|done|done|done|done|].
      * apply (track_at_ext f); [|done]. intros i Hi. pose proof (pl_room _ _ _ _ _ Hpl u Hu).
        destruct (pl_apart _ _ _ _ _ Hpl u t Hu Ht Hne); apply Ho; lia.
      * intros s'. rewrite lookup_insert_ne by congruence. apply Hm.
Qed.

(** A sector is written as in the map. *)
Lemma gcr_write_run fuel t s data : t ∈ T -> 0 <= s < 256 -> mlen data = 256 -> bytes_ok data ->
  exists g', fsimage_gcr_write_sector (S fuel) data t s g = Some (if bool_decide (is_Some (m !! (t, s))) then 0 else -1, g') /\
    sectors_file T n g' (if bool_decide (is_Some (m !! (t, s))) then <[(t, s) := data]> m else m).
Proof.
  intros Ht Hs Hlen Hdata. destruct (hs_track _ _ _ _ _ _ _ _ Hg t Ht) as (d & l & Hd).
  destruct (read_track_run fuel t d l Ht Hd) as (p & c & Hrun & Hp). destruct (hs_numbers _ _ _ _ _ _ _ _ Hg t Ht) as [_ Htr].
  pose proof (ft_formatted _ _ _ _ _ _ _ _ Hd) as Hf. pose proof (ft_size _ _ _ _ _ _ _ _ Hd) as Hsize.
  unfold fsimage_gcr_write_sector. unfold bindST at 1, state. rewrite (proj2 (Z.ltb_ge _ t)) by done.
  rewrite (hs_memory _ _ _ _ _ _ _ _ Hg), bool_decide_true by done. rewrite (bind_run _ _ _ _ _ Hrun). cbv beta iota.
  change (0 <? 0) with false. cbn [orb tdata]. rewrite (bool_decide_false (Some d = None)) by done.
  replace (u8 s) with s by (unfold u8; by rewrite Z.mod_small by lia).
  set (raw := DiskTrack (Some d) (mlen d)). destruct (track_map l !! s) as [old|] eqn:Hm.
  - assert (Hold : is_Some (m !! (t, s))) by (rewrite (ft_map _ _ _ _ _ _ _ _ Hd s), Hm; by eexists).
    rewrite !(bool_decide_true (is_Some _)) by done.
    apply (track_map_Some d l _ _ Hf) in Hm as (x & Hx & Hxs & _). destruct (ft_headers _ _ _ _ _ _ _ _ Hd x Hx) as [_ Hid].
    pose proof (so_pos _ _ (fm_sectors _ _ Hf x Hx)) as Hpos.
    destruct (sector_write_run d l x (bits raw) data (s32 (gid g)) p Hf Hx) as (d' & Hrun' & Hsize' & Hf');
      [lia|unfold bits; cbn [tsize raw]; lia|done|done|done|]. rewrite Hxs in Hrun', Hf'. fold raw in Hrun'.
    rewrite (bind_run (on_head _) _ _ (CBMDOS_FDC_ERR_OK, DiskTrack (Some d') (mlen d')) (moved (sc_pos x) c g)).
    2: { unfold on_head. cbn [ghead moved set_current set_ghead gid]. by rewrite Hrun'. }
    cbv beta iota. change (negb (CBMDOS_FDC_ERR_OK =? CBMDOS_FDC_ERR_OK)) with false. cbv iota.
    destruct (write_track_run t d' (sc_pos x) c Ht) as (f' & Hwr & Hw' & Hs' & Hat & Ho); [lia|lia|].
    rewrite (bind_run _ _ _ _ _ Hwr). eexists. split; [reflexivity|]. exists f', off, mtl, lim.
    apply (write_holds t d l d'); try done. lia.
  - rewrite !(bool_decide_false (is_Some _)) by (rewrite (ft_map _ _ _ _ _ _ _ _ Hd s), Hm; by intros [? ?]).
    destruct l as [|s0 l0] eqn:Hl; [by destruct (ft_some _ _ _ _ _ _ _ _ Hd)|]. rewrite <- Hl in *.
    assert (Hs0 : s0 ∈ l) by (rewrite Hl; by left).
    destruct (missing_block d l Hf s0 s (bits raw) (s32 (gid g)) p Hs0 (proj1 Hs) (track_map_None d l s Hf Hm)) as (p' & Hp' & Hrun');
      [lia|unfold bits; cbn [tsize raw]; lia|]. exists (moved p' c g). split; [|exists f, off, mtl, lim; apply moved_holds; [lia|done]].
    rewrite (bind_run (on_head _) _ _ (CBMDOS_FDC_ERR_HEADER, raw) (moved p' c g)); [done|].
    unfold on_head, gcr_write_sector. cbn [ghead moved set_current set_ghead gid]. by rewrite (bind_run _ _ _ _ _ Hrun').
Qed.

End tracks.

(** ** Sequences of accesses *)

Inductive file_op : Type := ReadAt (t s : Z) | WriteAt (t s : Z) (data : mem).

Definition file_op_ok (T : list Z) (o : file_op) : Prop :=
  match o with
  | ReadAt t s => t ∈ T /\ 0 <= s < 256
  | WriteAt t s data => t ∈ T /\ 0 <= s < 256 /\ mlen data = 256 /\ bytes_ok data
  end.

(** The access to the file; [buf] is the buffer of a read. *)
Definition run_file_op (fuel : nat) (buf : mem) (o : file_op) : ST gcr_file_t (Z * mem) :=
  match o with
  | ReadAt t s => fsimage_gcr_read_sector fuel buf t s
  | WriteAt t s data => let! rc := fsimage_gcr_write_sector fuel data t s in mret (rc, [])
  end.

Fixpoint run_file_ops (fuel : nat) (buf : mem) (ops : list file_op) : ST gcr_file_t (list (Z * mem)) :=
  match ops with
  | [] => mret []
  | o :: ops => let! r := run_file_op fuel buf o in let! rs := run_file_ops fuel buf ops in mret (r :: rs)
  end.

(** The access to the map *)
Definition map_file_op (buf : mem) (o : file_op) (m : gmap (Z * Z) mem) : Z * mem * gmap (Z * Z) mem :=
  match o with
  | ReadAt t s => (match m !! (t, s) with
                   | Some data => (CBMDOS_IPE_OK, data)
                   | None => (cbmdos_fdc_error_to_cbmdos_error CBMDOS_FDC_ERR_HEADER, buf)
                   end, m)
  | WriteAt t s data => if bool_decide (is_Some (m !! (t, s))) then (0, [], <[(t, s) := data]> m) else (-1, [], m)
  end.

Fixpoint map_file_ops (buf : mem) (ops : list file_op) (m : gmap (Z * Z) mem) : list (Z * mem) * gmap (Z * Z) mem :=
  match ops with
  | [] => ([], m)
  | o :: ops => let '(r, m) := map_file_op buf o m in let '(rs, m) := map_file_ops buf ops m in (r :: rs, m)
  end.

Lemma file_op_run T n g m fuel buf o : sectors_file T n g m -> mlen buf = 256 -> file_op_ok T o ->
  exists g', run_file_op (S fuel) buf o g = Some ((map_file_op buf o m).1, g') /\ sectors_file T n g' (map_file_op buf o m).2.
Proof.
  intros (f & off & mtl & lim & Hg) Hbuf Ho. destruct o as [t s|t s data]; cbn [run_file_op map_file_op file_op_ok] in *.
  - destruct Ho as [Ht Hs]. destruct (gcr_read_run _ _ _ _ _ _ _ _ Hg fuel t s buf Ht Hs Hbuf) as (p & c & Hrun & Hp).
    eexists. split; [exact Hrun|]. exists f, off, mtl, lim. by apply moved_holds.
  - destruct Ho as (Ht & Hs & Hlen & Hdata).
    destruct (gcr_write_run _ _ _ _ _ _ _ _ Hg fuel t s data Ht Hs Hlen Hdata) as (g' & Hrun & Hg').
    exists g'. rewrite (bind_run _ _ _ _ _ Hrun). by destruct (bool_decide _).
Qed.

Lemma file_ops_run T n fuel buf ops : mlen buf = 256 -> Forall (file_op_ok T) ops -> forall g m, sectors_file T n g m ->
  exists g', run_file_ops (S fuel) buf ops g = Some ((map_file_ops buf ops m).1, g') /\
    sectors_file T n g' (map_file_ops buf ops m).2.
Proof.
  intros Hbuf. induction 1 as [|o ops Ho _ IH]; intros g m Hg; cbn [run_file_ops map_file_ops]; [by exists g|].
  destruct (file_op_run T n g m fuel buf o Hg Hbuf Ho) as (g1 & Hrun & Hg1). rewrite (bind_run _ _ _ _ _ Hrun).
  destruct (map_file_op buf o m) as [r m1]. cbn [fst snd] in *. destruct (IH g1 m1 Hg1) as (g' & Hrun' & Hg').
  exists g'. rewrite (bind_run _ _ _ _ _ Hrun'). by destruct (map_file_ops buf ops m1).
Qed.

(** ** Created files *)

(** A sector of a blank track *)
Definition blank_sector (htrack : Z) (gap : nat) (s : Z) : written_t := (GcrHeader s htrack 0xa0 0xa0, replicate 256 0, gap).

Lemma blank_sector_ok htrack s g gap : is_byte htrack -> is_byte s -> written_ok ((blank_sector htrack gap s).1, g).
Proof. intros Ht Hs. split; [by split|]. split; [done|]. by apply Forall_replicate. Qed.

Lemma blank_sectors_run htrack gap hg : is_byte htrack -> forall k sector pre n, 0 <= sector -> sector + Z.of_nat k <= 256 ->
  (k * (345 + hg + gap) <= n)%nat ->
  exists pre', blank_sectors k htrack sector (Z.of_nat gap) (Z.of_nat hg) 5 (mlen pre) (room pre n)
      = Some (tt, room pre' (n - k * (345 + hg + gap))) /\
    wrote_bits pre n (chunks_bits (layout hg (blank_sector htrack gap <$> seqZ sector (Z.of_nat k))))
      pre' (n - k * (345 + hg + gap)).
Proof.
  intros Ht. induction k as [|k IH]; intros sector pre n Hs Hk Hn.
  { exists pre. rewrite Nat.mul_0_l, Nat.sub_0_r. split; [done|]. exists []. by rewrite app_nil_r. }
  cbn [blank_sectors]. destruct (convert_runs (replicate 256 0) (GcrHeader sector htrack 0xa0 0xa0) hg CBMDOS_FDC_ERR_OK)
    with (pre := pre) (n := n) as (p1 & Hr1 & Hw1 & Hl1);
    [done|by apply Forall_replicate|split; [unfold is_byte; cbn; lia|by split]|by unfold plain_code|lia|].
  unfold mbind, ST_bind. rewrite (bind_run _ _ _ _ _ Hr1).
  destruct (skip_run p1 (n - (345 + hg)) gap ltac:(lia)) as (p2 & Hr2 & Hw2 & Hl2). rewrite Hr2.
  replace (mlen pre + SECTOR_GCR_SIZE_WITH_HEADER + Z.of_nat hg + Z.of_nat gap + 5 * 2) with (mlen p2)
    by (unfold SECTOR_GCR_SIZE_WITH_HEADER; lia).
  destruct (IH (sector + 1) p2 (n - (345 + hg) - gap)%nat) as (p3 & Hr3 & Hw3); [lia|lia|lia|].
  exists p3. replace (n - S k * (345 + hg + gap))%nat with (n - (345 + hg) - gap - k * (345 + hg + gap))%nat by lia.
  split; [exact Hr3|]. rewrite (seqZ_cons sector (Z.of_nat (S k))) by lia. rewrite fmap_cons. unfold layout. cbn [mbind list_bind].
  rewrite chunks_bits_app, sector_bits. cbn [fst snd blank_sector].
  replace (Z.succ sector) with (sector + 1) by lia. replace (Z.pred (Z.of_nat (S k))) with (Z.of_nat k) by lia.
  eapply wrote_app; [eapply wrote_app; [exact Hw1|exact Hw2]|exact Hw3].
Qed.

(** The sectors of a track of [k] sectors, all with 256 bytes 0 *)
Definition blank_entry (k s : Z) : option mem := if (0 <=? s) && (s <? k) then Some (replicate 256 0) else None.

Lemma track_map_blank d l k : formatted d l -> entry <$> l = (fun s => (s, replicate 256 0)) <$> seqZ 0 k ->
  forall s, track_map l !! s = blank_entry k s.
Proof.
  intros Hf He s. unfold blank_entry. destruct (track_map l !! s) as [data|] eqn:Hm.
  - apply (track_map_Some d l _ _ Hf) in Hm as (x & Hx & Hxs & Hxd).
    apply (list_elem_of_fmap_2 entry) in Hx. rewrite He in Hx. apply list_elem_of_fmap in Hx as (s' & Hs' & Hin).
    pose proof (f_equal fst Hs') as H1. pose proof (f_equal snd Hs') as H2. unfold entry in H1, H2. cbn [fst snd] in H1, H2. apply elem_of_seqZ in Hin.
    rewrite (proj2 (Z.leb_le 0 s)), (proj2 (Z.ltb_lt s k)) by lia. cbn [andb]. congruence.
  - destruct (Z.leb_spec 0 s), (Z.ltb_spec s k); cbn [andb]; try done. exfalso.
    assert ((s, replicate 256 0) ∈ entry <$> l) as Hin.
    { rewrite He. apply list_elem_of_fmap. exists s. split; [done|]. apply elem_of_seqZ. lia. }
    apply list_elem_of_fmap in Hin as (x & Hx & Hin). pose proof (f_equal fst Hx) as H1. by apply (track_map_None d l s Hf Hm x).
Qed.

(** The bytes of a created track in the file: its length, its raw data, and the rest of the
    room for the longest track *)
Record blank_track_t (k : nat) (htrack : Z) (size : Z) (gap hg : nat) (data d : mem) (l : list sector_t) : Prop := {
  bt_data : exists pad, data = (util_word_to_le_buf size ++ d) ++ pad /\ mlen pad = NUM_MAX_BYTES_TRACK - size;
  bt_size : mlen d = size;
  bt_formatted : formatted d l;
  bt_some : l <> [];
  bt_entries : entry <$> l = (fun s => (s, replicate 256 0)) <$> seqZ 0 (Z.of_nat k);
  bt_headers : forall x, x ∈ l -> h_track (sc_header x) = htrack /\ disk_id (sc_header x) = 0xa0a0;
  bt_positions : forall i x, l !! i = Some x -> sc_pos x = (Z.of_nat i * (8 * Z.of_nat (345 + hg + gap)) + 40) mod (8 * size)
}.

Lemma blank_slot_run k htrack size gap hg : is_byte htrack -> (0 < k <= 256)%nat -> (hg <= 400)%nat ->
  335 <= size <= NUM_MAX_BYTES_TRACK -> (k * (345 + hg + gap) <= Z.to_nat size)%nat ->
  exists data d l, blank_sectors k htrack 0 (Z.of_nat gap) (Z.of_nat hg) 5 2
      (util_word_to_le_buf size ++ replicate (Z.to_nat NUM_MAX_BYTES_TRACK) 0x55) = Some (tt, data) /\
    blank_track_t k htrack size gap hg data d l.
Proof.
  intros Ht Hk Hhg Hsize Hroom. set (word := util_word_to_le_buf size). set (N := Z.to_nat NUM_MAX_BYTES_TRACK).
  assert (HN : Z.of_nat N = NUM_MAX_BYTES_TRACK) by (unfold N; rewrite Z2Nat.id; lia).
  destruct (blank_sectors_run htrack gap hg Ht k 0 word N) as (pre' & Hrun & Hw); [lia|lia|lia|].
  destruct Hw as (bs & -> & Hbs & Hbits & Hlen). set (n' := (Z.to_nat size - length bs)%nat).
  assert (Hlbs : (length bs <= Z.to_nat size)%nat) by lia.
  assert (Hd : mlen (room bs n') = size) by (unfold room; rewrite mlen_app, mlen_replicate; unfold mlen, n'; lia).
  destruct (written_sectors (blank_sector htrack gap) gap hg k bs n') with (a := room bs n') (b := @nil Z)
    as (l & Hf & Hl & He & Hh & Hpos); [| |lia|done| |lia|by rewrite app_nil_r|].
  - intros s Hs. split; [done|]. intros g. apply (blank_sector_ok htrack s g gap); [done|unfold is_byte; lia].
  - cbn [blank_sector fst h_sector]. rewrite list_fmap_id. apply NoDup_seqZ.
  - exists bs. split; [done|]. split; [done|]. split; [done|]. unfold room. by rewrite length_app, length_replicate.
  - exists (room (word ++ bs) (N - k * (345 + hg + gap))), (room bs n'), l. split; [exact Hrun|]. cbn [app] in *. split.
    + exists (replicate (N - Z.to_nat size) 0x55). split; [|rewrite mlen_replicate; lia].
      unfold room. rewrite <- !app_assoc, <- replicate_add. do 3 f_equal. unfold n'. lia.
    + done.
    + done.
    + done.
    + rewrite He. done.
    + intros x Hx. apply (list_elem_of_fmap_2 sc_header) in Hx. rewrite Hh in Hx.
      apply list_elem_of_fmap in Hx as (s & -> & _). done.
    + intros i x Hx. rewrite (Hpos i x Hx). change (mlen []) with 0. rewrite Hd. done.
Qed.

(** ** The file of tracks *)

Lemma append_all_run l : forall f, f_writable f = true -> 0 <= f_size f -> exists f', append_all l f = (0, f') /\
  f_writable f' = true /\ f_size f' = f_size f + mlen (concat l) /\ f_bytes f' (f_size f) (mlen (concat l)) = concat l /\
  (forall i, i < f_size f -> f_data f' i = f_data f i).
Proof.
  induction l as [|buf l IH]; intros f Hw Hs; cbn [append_all concat].
  { exists f. split; [done|]. split; [done|]. split; [change (mlen []) with 0; lia|]. split; [by unfold f_bytes|done]. }
  destruct (fpwrite_ok f buf (f_size f) Hs Hw) as (f1 & Hrun & Hw1 & Hs1 & Hd1 & Ho1). pose proof (mlen_nonneg buf).
  unfold append. rewrite Hrun. cbn [negb Z.ltb Z.compare]. destruct (IH f1 Hw1) as (f' & Hrun' & Hw' & Hs' & Hd' & Ho'); [lia|].
  rewrite Hrun'. pose proof (mlen_nonneg (concat l)). exists f'. split; [done|]. split; [done|].
  split; [rewrite Hs', mlen_app; lia|]. rewrite mlen_app, f_bytes_app by lia. rewrite Z.max_r in Hs1 by lia. split.
  - rewrite <- Hs1, Hd'. f_equal. rewrite <- Hd1 at 2. apply f_bytes_ext. intros i Hi. apply Ho'. lia.
  - intros i Hi. rewrite Ho' by lia. apply Ho1; lia.
Qed.

(** Parts of the same length *)
Lemma f_bytes_part f w l : Forall (fun b => mlen b = w) l -> forall off i b, f_bytes f off (mlen (concat l)) = concat l ->
  l !! i = Some b -> f_bytes f (off + Z.of_nat i * w) w = b.
Proof.
  induction 1 as [|x l Hx _ IH]; intros off i b Hf Hi; [done|]. cbn [concat] in Hf. apply f_bytes_split in Hf as [Hx' Hl].
  destruct i as [|i]; cbn in Hi.
  - injection Hi as <-. rewrite <- Hx' at 1. f_equal; lia.
  - rewrite <- (IH _ _ _ Hl Hi). f_equal. lia.
Qed.

Lemma f_bytes_byte f off l i x : f_bytes f off (mlen l) = l -> l !! i = Some x -> f_data f (off + Z.of_nat i) = x.
Proof.
  intros Hf Hi. rewrite <- Hf in Hi. unfold f_bytes in Hi. apply list_lookup_fmap_Some_1 in Hi as (k & -> & Hk).
  by apply lookup_seqZ in Hk as [-> _].
Qed.

(** A file that begins with the given bytes *)
Definition file_of (l : mem) : file_t := File (mlen l) (fun i => default 0 (getb l i)) true.

Lemma seek_front f front h : f_bytes f 0 (mlen front) = front -> mlen front <= f_size f -> 12 <= mlen front ->
  table_entry h + 4 <= mlen front ->
  fsimage_gcr_seek_half_track (Some f) h = fsimage_gcr_seek_half_track (Some (file_of front)) h.
Proof.
  intros Hf Hs H12 Ht. apply (seek_frame (file_of front) f h (mlen front)); [done|done|cbn; lia|done|].
  intros i Hi. cbn [file_of f_data]. destruct (getb_is_Some front i Hi) as [x Hx]. rewrite Hx. cbn.
  apply getb_Some in Hx as [_ Hx]. rewrite <- (f_bytes_byte f 0 front (Z.to_nat i) x Hf Hx). f_equal. lia.
Qed.

(** The tables of a created G64 file *)
Definition g64_tables : list mem :=
  [gcr_image_header_expected_1541 ++ u8 (MAX_TRACKS_1541 * 2) :: util_word_to_le_buf NUM_MAX_BYTES_TRACK;
   half_track_table MAX_TRACKS_1541 NUM_TRACKS_1541 (fun track => 12 + MAX_TRACKS_1541 * 16 + track * (NUM_MAX_BYTES_TRACK + 2));
   half_track_table MAX_TRACKS_1541 NUM_TRACKS_1541 (fun track => Geometry.disk_image_speed_map DISK_IMAGE_TYPE_G64 (track + 1))].

Definition g64_slot (t : Z) : Z := 684 + (t - 1) * 7930.
Definition g64_size (t : Z) : Z := Geometry.disk_image_raw_track_size DISK_IMAGE_TYPE_G64 t.
Definition g64_sectors (t : Z) : Z := Geometry.disk_image_sector_per_track DISK_IMAGE_TYPE_G64 t.

Lemma g64_tables_length : mlen (concat g64_tables) = 684.
Proof. vm_compute. reflexivity. Qed.

Lemma g64_seek t : 1 <= t <= 35 ->
  fsimage_gcr_seek_half_track (Some (file_of (concat g64_tables))) (2 * t) = Some (g64_slot t, 7928, 84).
Proof.
  intros Ht. assert (forallb (fun t => bool_decide
    (fsimage_gcr_seek_half_track (Some (file_of (concat g64_tables))) (2 * t) = Some (g64_slot t, 7928, 84))) (seqZ 1 35) = true) as Hall
    by (vm_compute; reflexivity).
  rewrite forallb_forall in Hall. apply (bool_decide_eq_true_1 _), Hall, list_elem_of_In, elem_of_seqZ. lia.
Qed.

Lemma g64_size_bounds t : 6250 <= g64_size t <= 7692.
Proof.
  unfold g64_size, Geometry.disk_image_raw_track_size. cbn [Geometry.is_d64_like orb Z.eqb].
  change (Geometry.is_d64_like DISK_IMAGE_TYPE_G64) with true. cbv iota.
  unfold Geometry.raw_track_size_d64, Geometry.zone. repeat case_match; lia.
Qed.

(** A track of the file *)
Definition g64_track (t : Z) (data d : mem) (l : list sector_t) : Prop := exists (k gap hg : nat),
  g64_sectors t = Z.of_nat k /\ Geometry.disk_image_gap_size DISK_IMAGE_TYPE_G64 t = Z.of_nat gap /\
  Geometry.disk_image_header_gap_size DISK_IMAGE_TYPE_G64 t = Z.of_nat hg /\ blank_track_t k t (g64_size t) gap hg data d l.

Lemma g64_track_run t : 1 <= t <= 35 -> exists data d l, blank_gcr_track DISK_IMAGE_TYPE_G64 t = Some data /\ g64_track t data d l.
Proof.
  intros Ht. destruct (track_room DISK_IMAGE_TYPE_G64 t) as (k & gap & hg & Hk & Hgap & Hhg & Hsync & Hk21 & Hhg400 & Hsize & Hroom);
    [by left|]. fold (g64_size t) in *. fold (g64_sectors t) in *. pose proof (g64_size_bounds t).
  destruct (blank_slot_run k t (g64_size t) gap hg) as (data & d & l & Hrun & Hb);
    [unfold is_byte; lia|lia|done|unfold NUM_MAX_BYTES_TRACK; lia|done|].
  exists data, d, l. split; [|by exists k, gap, hg]. unfold blank_gcr_track. fold (g64_size t) (g64_sectors t).
  rewrite Hk, Hgap, Hhg, Hsync, Nat2Z.id. replace (header_track DISK_IMAGE_TYPE_G64 t) with t.
  2: { unfold header_track, u8. change (DISK_IMAGE_TYPE_G64 =? DISK_IMAGE_TYPE_G71) with false. cbv iota. by rewrite Z.mod_small by lia. }
  replace (u16 (g64_size t)) with (g64_size t) by (unfold u16; rewrite Z.mod_small; lia). by rewrite Hrun.
Qed.

Lemma blank_track_length k htrack size gap hg data d l : blank_track_t k htrack size gap hg data d l ->
  size <= NUM_MAX_BYTES_TRACK -> mlen data = 7930.
Proof.
  intros Hb Hs. destruct (bt_data _ _ _ _ _ _ _ _ Hb) as (pad & -> & Hpad). pose proof (bt_size _ _ _ _ _ _ _ _ Hb).
  rewrite !mlen_app. change (mlen (util_word_to_le_buf size)) with 2. unfold NUM_MAX_BYTES_TRACK in *. lia.
Qed.

(** A file of 35 tracks with these tables *)
Record g64_layout (f : file_t) : Prop := {
  gl_writable : f_writable f = true;
  gl_size : f_size f = 684 + 35 * 7930;
  gl_tables : f_bytes f 0 684 = concat g64_tables
}.

Lemma slots_run f ts : f_writable f = true -> f_size f = 0 -> length ts = 35%nat -> Forall (fun b => mlen b = 7930) ts ->
  exists f', append_all (g64_tables ++ ts) f = (0, f') /\ g64_layout f' /\
    forall t data, 1 <= t <= 35 -> ts !! Z.to_nat (t - 1) = Some data -> f_bytes f' (g64_slot t) 7930 = data.
Proof.
  intros Hw Hs Hlen Hts. destruct (append_all_run (g64_tables ++ ts) f Hw ltac:(lia)) as (f' & Hrun & Hw' & Hs' & Hd' & _).
  exists f'. split; [done|]. rewrite concat_app in Hd', Hs'. rewrite Hs in Hd'. apply f_bytes_split in Hd' as [Htab Htr].
  rewrite mlen_app, g64_tables_length in Hs'. rewrite g64_tables_length in Htab, Htr.
  assert (forall l : list mem, Forall (fun b => mlen b = 7930) l -> mlen (concat l) = Z.of_nat (length l) * 7930) as H.
  { induction 1 as [|x l Hx _ IH]; [done|]. cbn [concat length]. rewrite mlen_app. lia. }
  rewrite (H ts Hts), Hlen in Hs'. split; [split; [done|lia|done]|]. intros t data Ht Hi.
  rewrite <- (f_bytes_part f' 7930 ts Hts _ _ _ Htr Hi). f_equal. unfold g64_slot. lia.
Qed.

Lemma g64_placed f T : g64_layout f -> (forall t, t ∈ T -> 1 <= t <= 35) -> placed f T g64_slot 7928 684.
Proof.
  intros [Hw Hs Htab] HT. assert (forall t, t ∈ T -> table_entry (2 * t) + 4 <= 684) as Hentry.
  { intros t Ht%HT. unfold table_entry. rewrite (u32_small ((2 * t - 2) * 4)) by lia. rewrite u32_small by lia. lia. }
  split; [done|lia| |done| |].
  - intros t Ht. exists 84. rewrite (seek_front f (concat g64_tables)).
    + by apply g64_seek, HT.
    + by rewrite g64_tables_length.
    + rewrite g64_tables_length. lia.
    + rewrite g64_tables_length. lia.
    + rewrite g64_tables_length. by apply Hentry.
  - intros t Ht%HT. rewrite Hs. unfold g64_slot. lia.
  - intros t t' _ _ Hne. unfold g64_slot. lia.
Qed.

(** The file of a created G64 image *)
Record g64_file (f : file_t) : Prop := {
  gf_layout : g64_layout f;
  gf_track : forall t, 1 <= t <= 35 -> exists data d l, f_bytes f (g64_slot t) 7930 = data /\ g64_track t data d l
}.

Lemma create_g64_run {p64 : P64} f : fresh f -> exists f',
  fsimage_create (Some f) DISK_IMAGE_TYPE_G64 = Some (0, Some f') /\ g64_file f'.
Proof.
  intros [Hw Hs]. destruct (mapM_is_Some_2 (blank_gcr_track DISK_IMAGE_TYPE_G64) (seqZ 1 35)) as [ts Hts].
  { apply Forall_forall. intros t Ht%elem_of_seqZ. destruct (g64_track_run t) as (data & d & l & Hdata & _); [lia|]. by exists data. }
  apply mapM_Some_1 in Hts as Hall. destruct (slots_run f ts Hw Hs) as (f' & Hrun & Hlay & Hslot).
  { apply Forall2_length in Hall. by rewrite length_seqZ in Hall. }
  { apply Forall_forall. intros b Hb. apply list_elem_of_lookup in Hb as [i Hi].
    destruct (Forall2_lookup_r _ _ _ _ _ Hall Hi) as (t & Ht & Hb). apply lookup_seqZ in Ht as [-> Ht].
    destruct (g64_track_run (1 + Z.of_nat i)) as (data & d & l & Hdata & k & gap & hg & _ & _ & _ & Hbt); [lia|].
    rewrite Hdata in Hb. injection Hb as <-. pose proof (g64_size_bounds (1 + Z.of_nat i)).
    apply (blank_track_length _ _ _ _ _ _ _ _ Hbt). unfold NUM_MAX_BYTES_TRACK. lia. }
  exists f'. split.
  { assert (fsimage_create_gcr DISK_IMAGE_TYPE_G64 f = Some (0, f')) as Hgcr.
    { unfold fsimage_create_gcr. change (gcr_layout DISK_IMAGE_TYPE_G64)
        with (Some (gcr_image_header_expected_1541, NUM_TRACKS_1541, MAX_TRACKS_1541)). cbv beta iota zeta.
      change (seqZ 1 NUM_TRACKS_1541) with (seqZ 1 35). rewrite Hts. cbn [mbind option_bind]. f_equal. exact Hrun. }
    assert (fsimage_create (Some f) DISK_IMAGE_TYPE_G64
      = ('(rc, f) ← fsimage_create_gcr DISK_IMAGE_TYPE_G64 f; Some (rc, Some f))) as -> by reflexivity. by rewrite Hgcr. }
  split; [done|]. intros t Ht. destruct (g64_track_run t Ht) as (data & d & l & Hdata & Htrack).
  exists data, d, l. split; [|done]. apply Hslot; [done|].
  destruct (Forall2_lookup_l _ _ _ (Z.to_nat (t - 1)) t Hall) as (b & Hb & Hrb); [apply lookup_seqZ; lia|congruence].
Qed.

(** The sectors of the created image *)
Definition blank_g64 : gmap (Z * Z) mem :=
  gset_to_gmap (replicate 256 0) (list_to_set (seqZ 1 35 ≫= fun t => (fun s => (t, s)) <$> seqZ 0 (g64_sectors t))).

Lemma blank_g64_lookup t s : 1 <= t <= 35 -> blank_g64 !! (t, s) = blank_entry (g64_sectors t) s.
Proof.
  intros Ht. apply option_eq. intros v. unfold blank_g64, blank_entry.
  rewrite lookup_gset_to_gmap_Some, elem_of_list_to_set, list_elem_of_bind. split.
  - intros [(u & (x & [= -> ->] & Hx%elem_of_seqZ)%list_elem_of_fmap & Hu) <-].
    by rewrite (proj2 (Z.leb_le 0 x)), (proj2 (Z.ltb_lt x _)) by lia.
  - destruct (Z.leb_spec 0 s), (Z.ltb_spec s (g64_sectors t)); cbn [andb]; try done. intros Hv.
    split; [|congruence]. exists t. split; [|apply elem_of_seqZ; lia].
    apply list_elem_of_fmap. exists s. split; [done|]. apply elem_of_seqZ. lia.
Qed.

(** The tracks of the length of track [t0] *)
Definition g64_zone (t0 : Z) : list Z := filter (fun t => g64_size t = g64_size t0) (seqZ 1 35).

Lemma in_zone t0 t : t ∈ g64_zone t0 <-> g64_size t = g64_size t0 /\ 1 <= t <= 35.
Proof. unfold g64_zone. rewrite list_elem_of_filter, elem_of_seqZ. intuition lia. Qed.

(** The created file is open, and no track in memory. *)
Record g64_open (f : file_t) (g : gcr_file_t) : Prop := {
  go_file : fd_ (gimage g) = Some f;
  go_created : g64_file f;
  go_memory : gtracks g = None;
  go_writable : di_read_only (gimage g) = 0;
  go_tracks : 35 <= di_tracks (gimage g);
  go_id : s32 (gid g) < 0 \/ s32 (gid g) = 0xa0a0
}.

Lemma slot_track_at f off k htrack size gap hg data d l : f_bytes f off 7930 = data ->
  blank_track_t k htrack size gap hg data d l -> size <= NUM_MAX_BYTES_TRACK -> track_at f off d.
Proof.
  intros Hdata Hb Hsize. pose proof (blank_track_length _ _ _ _ _ _ _ _ Hb Hsize) as Hlen.
  destruct Hb as [(pad & -> & Hpad) Hd _ _ _ _ _]. rewrite <- Hlen in Hdata.
  apply f_bytes_split in Hdata as [Hdata _]. apply f_bytes_split in Hdata as [Hword Hd'].
  unfold track_at. rewrite Hd. split; [exact Hword|]. change (mlen (util_word_to_le_buf _)) with 2 in Hd'. by rewrite Hd in Hd'.
Qed.

Lemma g64_track_file f g t data d l : g64_open f g -> 1 <= t <= 35 -> f_bytes f (g64_slot t) 7930 = data ->
  g64_track t data d l -> file_track f (gid g) (g64_size t) t (g64_slot t) blank_g64 d l.
Proof.
  intros Hg Ht Hdata (k & gap & hg & Hk & _ & _ & Hb). pose proof (g64_size_bounds t) as Hsize.
  assert (track_at f (g64_slot t) d) as Hat by (apply (slot_track_at f _ _ _ _ _ _ _ _ _ Hdata Hb); unfold NUM_MAX_BYTES_TRACK; lia).
  destruct Hb as [_ Hd Hf Hl He Hh _]. split; [done|done|done|done| |].
  - intros x Hx. destruct (Hh x Hx) as [Htr Hid]. split; [done|]. rewrite Hid. apply Hg.
  - intros s. rewrite blank_g64_lookup, (track_map_blank d l (Z.of_nat k) Hf He) by done. by rewrite Hk.
Qed.

Lemma g64_holds f g t0 : g64_open f g -> 0 <= ghead g < 8 * g64_size t0 ->
  holds_sectors (g64_zone t0) (g64_size t0) g blank_g64 f g64_slot 7928 684.
Proof.
  intros Hg Hhead. pose proof (g64_size_bounds t0). split; [apply Hg| |lia| |apply Hg|apply Hg| |done].
  - apply g64_placed; [apply (gf_layout _ (go_created _ _ Hg))|]. by intros t [_ Ht]%in_zone.
  - intros t [Hz Ht]%in_zone. destruct (gf_track _ (go_created _ _ Hg) t Ht) as (data & d & l & Hdata & Htr).
    exists d, l. rewrite <- Hz. by apply (g64_track_file f g t data).
  - intros t [_ Ht]%in_zone. pose proof (go_tracks _ _ Hg). lia.
Qed.

(** Sector [s] of a created track, and its place *)
Lemma g64_sector_at t data d l s : g64_track t data d l -> 0 <= s < g64_sectors t -> exists x, x ∈ l /\
  h_sector (sc_header x) = s /\ disk_id (sc_header x) = 0xa0a0 /\
  exists gap hg : nat, Geometry.disk_image_gap_size DISK_IMAGE_TYPE_G64 t = Z.of_nat gap /\
    Geometry.disk_image_header_gap_size DISK_IMAGE_TYPE_G64 t = Z.of_nat hg /\
    sc_pos x = (s * (8 * Z.of_nat (345 + hg + gap)) + 40) mod (8 * g64_size t).
Proof.
  intros (k & gap & hg & Hk & Hgap & Hhg & Hb) Hs. pose proof (bt_entries _ _ _ _ _ _ _ _ Hb) as He.
  assert ((entry <$> l) !! Z.to_nat s = Some (s, replicate 256 0)) as Hi.
  { rewrite He, list_lookup_fmap. rewrite (lookup_seqZ_lt 0 (Z.of_nat k) (Z.to_nat s)) by lia. cbn [fmap option_fmap option_map].
    do 2 f_equal. lia. }
  apply list_lookup_fmap_Some_1 in Hi as (x & Hx & Hi). pose proof (list_elem_of_lookup_2 _ _ _ Hi) as Hin.
  exists x. split; [done|]. split; [exact (eq_sym (f_equal fst Hx))|]. split; [by apply (bt_headers _ _ _ _ _ _ _ _ Hb)|].
  exists gap, hg. split; [done|]. split; [done|]. rewrite (bt_positions _ _ _ _ _ _ _ _ Hb _ _ Hi). f_equal. lia.
Qed.

(** ** Recognition *)

Lemma f_bytes_take f a n l k : f_bytes f a n = l -> 0 <= k <= n -> f_bytes f a k = take (Z.to_nat k) l.
Proof.
  intros <- Hk. replace n with (k + (n - k)) by lia. rewrite f_bytes_app by lia.
  rewrite take_app_length'; [done|by rewrite length_f_bytes].
Qed.

Definition g64_image (i : disk_image_t) : disk_image_t :=
  DiskImage (di_read_only i) (di_device i) DISK_IMAGE_TYPE_G64 42 (di_sectors i) 84 (fd_ i) (map_ i) (map_len_ i).

Lemma set_image_open f g : g64_file f -> fd_ (gimage g) = Some f -> gtracks g = None -> di_read_only (gimage g) = 0 ->
  gid g = UINT32_MAX -> g64_open f (set_gimage (g64_image (gimage g)) g).
Proof. intros Hc Hf Hm Hr Hid. split; [done|done|done|done|cbn; lia|]. left. cbn. rewrite Hid. reflexivity. Qed.

(** A created image is recognised, and its disk id is read; the head is left at the first
    header of track 18. *)
Lemma probe_g64_run {host : Host} fuel name f g : g64_file f -> fd_ (gimage g) = Some f -> gtracks g = None ->
  di_read_only (gimage g) = 0 -> gid g = UINT32_MAX -> 0 <= ghead g < 8 * g64_size 18 ->
  exists c, fsimage_probe (S fuel) name g = Some (0, GcrFile (g64_image (gimage g)) 0xa0a0 None 40 c).
Proof.
  intros Hc Hf Hm Hr Hid Hhead. pose proof (set_image_open f g Hc Hf Hm Hr Hid) as Hopen. pose proof (gl_size _ (gf_layout _ Hc)) as Hs.
  destruct (gf_track _ Hc 18 ltac:(lia)) as (data & d & l & Hdata & Htr).
  destruct (g64_sector_at 18 data d l 0 Htr) as (x & Hx & Hx0 & Hxid & gap & hg & Hgap & Hhg & Hpos);
    [change (g64_sectors 18) with 19; lia|].
  assert (sc_pos x = 40) as H40 by (rewrite Hpos; change (g64_size 18) with 7142; cbn [Z.mul]; by rewrite Z.mod_small).
  destruct (read_id_run (g64_zone 18) (g64_size 18) (set_gimage (g64_image (gimage g)) g) blank_g64 f g64_slot 7928 684)
    with (fuel := fuel) (t := 18) (d := d) (l := l) (x := x) as (c & Hrun); [by apply g64_holds| | |done|].
  { apply in_zone. split; [done|lia]. }
  { by apply (g64_track_file f _ 18 data). }
  rewrite Hx0, Hxid, H40 in Hrun. exists c.
  unfold fsimage_probe. rewrite (size_checks_skip g f) by (rewrite ?Hs; done || reflexivity).
  rewrite (first_check_skip _ _ g g) by (apply (d81_skip g f Hf); rewrite ?Hs; reflexivity).
  rewrite (first_check_skip _ _ g g) by (unfold disk_image_check_for_d80; by rewrite (check_blocks_run g f Hf), Hs).
  rewrite (first_check_skip _ _ g g) by (unfold disk_image_check_for_d82; by rewrite (check_blocks_run g f Hf), Hs).
  pose proof (gl_tables _ (gf_layout _ Hc)) as Htab. rewrite (first_check_skip _ _ g g).
  2: { unfold disk_image_check_for_p64. rewrite (the_file_run g f Hf).
       rewrite fpread_full by (try (unfold mlen; rewrite length_replicate); lia). cbn [Z.ltb Z.compare].
       rewrite (f_bytes_take f 0 684 _ 8 Htab) by lia. by rewrite bool_decide_false by (vm_compute; congruence). }
  apply first_check_hit. unfold disk_image_check_for_gcr. rewrite (the_file_run g f Hf).
  rewrite fpread_full by (try (unfold mlen; rewrite length_replicate); lia). cbn [Z.ltb Z.compare].
  rewrite (f_bytes_take f 0 684 _ 32 Htab) by lia.
  rewrite (bind_run (lift _) _ _ 0 g) by (vm_compute; reflexivity). rewrite (bind_run (lift _) _ _ 84 g) by (vm_compute; reflexivity).
  change (negb (0 =? 0)) with false. change (84 <? 1) with false. cbv iota. rewrite bool_decide_true by (vm_compute; reflexivity).
  unfold mbind at 1, ST_bind. rewrite (bind_run (set_kind _ _ _) _ _ tt (set_gimage (g64_image (gimage g)) g)) by reflexivity.
  rewrite (bind_run _ _ _ _ _ Hrun). rewrite <- Hm. reflexivity.
Qed.

(** ** A head behind the track *)

Lemma sync_behind d p k : 0 < mlen d -> 8 * mlen d <= p -> gcr_find_sync (DiskTrack (Some d) (mlen d)) p k = None.
Proof.
  intros Hd Hp. unfold gcr_find_sync. cbn [tdata tsize]. rewrite (proj2 (Z.eqb_neq (mlen d) 0)) by lia.
  rewrite Z.shiftr_div_pow2 by lia. change (2 ^ 3) with 8. assert (mlen d <= p / 8) by (apply Z.div_le_lower_bound; lia).
  destruct (getb d (p / 8)) as [b|] eqn:Hb; [|done]. apply getb_lt in Hb. lia.
Qed.

Lemma header_behind fuel d sector p2 hd pid p : 0 < mlen d -> 8 * mlen d <= p ->
  header_loop fuel (DiskTrack (Some d) (mlen d)) sector p2 hd pid p = None.
Proof.
  intros Hd Hp. destruct fuel as [|fuel]; [done|]. cbn [header_loop]. unfold bindST at 1, state, bindST at 1, lift.
  by rewrite sync_behind.
Qed.

Lemma read_behind fuel f T off mtl lim id n t m d l g buf s : fd_ (gimage g) = Some f -> placed f T off mtl lim -> t ∈ T ->
  1 <= t <= 84 -> t <= di_tracks (gimage g) -> gtracks g = None -> file_track f id n t (off t) m d l -> n <= mtl < 65536 ->
  8 * n <= ghead g -> fsimage_gcr_read_sector (S fuel) buf t s g = None.
Proof.
  intros Hfd Hpl Ht Ht84 Htr Hmem Hd Hmtl Hhead. pose proof (ft_size _ _ _ _ _ _ _ _ Hd) as Hsize.
  pose proof (fm_size _ _ (ft_formatted _ _ _ _ _ _ _ _ Hd)). unfold fsimage_gcr_read_sector. unfold bindST at 1, state.
  rewrite (proj2 (Z.ltb_ge _ t)), Hmem, bool_decide_true by done. unfold bindST at 1.
  unfold fsimage_gcr_read_track, fsimage_gcr_read_half_track. replace (u32 (t * 2)) with (2 * t) by (rewrite u32_small; lia).
  rewrite (track_round fuel (2 * t) f T off mtl lim g t d); [|done|done|done|apply Hd|lia|lia].
  destruct (2 * t =? current_half_track g).
  - cbn [mret ST_ret]. change (0 <? 0) with false. cbn [tdata andb]. rewrite (bool_decide_false (Some d = None)) by done.
    unfold bindST at 1, on_head, gcr_read_sector, find_block, gcr_find_sector_header, gcr_read_sector_header, bindST at 1, bindST at 1, bindST at 1.
    by rewrite header_behind by lia.
  - unfold bindST at 1, on_head, gcr_read_track_number, gcr_read_sector_header, bindST at 1. by rewrite header_behind by lia.
Qed.

(** ** Tracks with other numbers *)

(** A track at its slot whose headers all have the number [h] *)
Definition numbered (f : file_t) (off n h : Z) : Prop := exists d l, track_at f off d /\ mlen d = n /\ formatted d l /\ l <> [] /\
  forall x, x ∈ l -> h_track (sc_header x) = h.

(** A round goes on to the track where the header says that the wanted one should be. *)
Lemma follow_step orig f T off mtl lim g t n h : fd_ (gimage g) = Some f -> placed f T off mtl lim -> t ∈ T -> 1 <= t <= 84 ->
  numbered f (off t) n h -> 0 <= h < 256 -> n <= mtl < 65536 -> 0 <= ghead g < 8 * n -> 2 * t <> current_half_track g ->
  0 <= 4 * t - 2 * h -> h <> t -> 4 * t - 2 * h <> orig ->
  exists p, 0 <= p < 8 * n /\ forall fuel,
    read_half_track (S fuel) orig (2 * t) g = read_half_track fuel orig (4 * t - 2 * h) (set_ghead p g).
Proof.
  intros Hfd Hpl Ht Ht84 (d & l & Hat & Hn & Hf & Hl & Hnum) Hh Hmtl Hhead Hcur Hnext Hne Horig. pose proof (fm_size _ _ Hf).
  destruct (number_at d l g Hf Hl) as (x & Hx & Hrun & Hpos); [lia|]. rewrite (Hnum x Hx) in Hrun.
  exists (sc_pos x). split; [lia|]. intros fuel. rewrite (track_round fuel orig f T off mtl lim g t d) by (done || lia).
  rewrite (proj2 (Z.eqb_neq _ _) Hcur), (bind_run _ _ _ _ _ Hrun). cbv beta iota.
  rewrite (bind_run (lift _) _ _ (4 * t - 2 * h) (set_ghead (sc_pos x) g)) by (unfold lift; by rewrite next_at by lia).
  rewrite (proj2 (Z.eqb_neq (4 * t - 2 * h) (2 * t))), (proj2 (Z.eqb_neq (4 * t - 2 * h) orig)) by lia. done.
Qed.

(** More fuel gives the same result. *)
Lemma read_more orig fuel : forall h g r, read_half_track fuel orig h g = Some r -> read_half_track (S fuel) orig h g = Some r.
Proof.
  induction fuel as [|fuel IH]; intros h g r; [done|]. remember (S fuel) as k eqn:Hk.
  rewrite Hk at 1. cbn [read_half_track]. unfold bindST, state. 
  repeat lazymatch goal with
  | |- match ?x with _ => _ end = Some _ -> _ => destruct x; try done
  | |- match ?x with _ => _ end _ = Some _ -> _ => destruct x; try done
  end. apply IH.
Qed.

Lemma read_fewer orig h g j k : (j <= k)%nat -> read_half_track k orig h g = None -> read_half_track j orig h g = None.
Proof.
  induction 1 as [|k Hjk IH]; [done|]. intros Hnone. apply IH.
  destruct (read_half_track k orig h g) as [r|] eqn:Hr; [|done]. apply read_more in Hr. congruence.
Qed.

(** A file with any numbers in the headers of its tracks *)
Lemma numbered_file_run h : (forall t, is_byte (h t)) ->
  exists f, g64_layout f /\ forall t, 1 <= t <= 35 -> numbered f (g64_slot t) 7692 (h t).
Proof.
  intros Hh. set (slot := fun t => snd <$> blank_sectors 21 (h t) 0 (Z.of_nat 8) (Z.of_nat 9) 5 2
    (util_word_to_le_buf 7692 ++ replicate (Z.to_nat NUM_MAX_BYTES_TRACK) 0x55)).
  assert (Hslot : forall t, exists data d l, slot t = Some data /\ blank_track_t 21 (h t) 7692 8 9 data d l).
  { intros t. destruct (blank_slot_run 21 (h t) 7692 8 9 (Hh t)) as (data & d & l & Hrun & Hb);
      [lia|lia|unfold NUM_MAX_BYTES_TRACK; lia|lia|]. exists data, d, l. unfold slot. by rewrite Hrun. }
  destruct (mapM_is_Some_2 slot (seqZ 1 35)) as [ts Hts].
  { apply Forall_forall. intros t _. destruct (Hslot t) as (data & _ & _ & Hdata & _). by exists data. }
  apply mapM_Some_1 in Hts. destruct (slots_run (File 0 (fun _ => 0) true) ts eq_refl eq_refl) as (f & _ & Hlay & Hat).
  { apply Forall2_length in Hts. by rewrite length_seqZ in Hts. }
  { apply Forall_forall. intros b Hb. apply list_elem_of_lookup in Hb as [i Hi].
    destruct (Forall2_lookup_r _ _ _ _ _ Hts Hi) as (t & _ & Hb). destruct (Hslot t) as (data & d & l & Hdata & Hbt).
    rewrite Hdata in Hb. injection Hb as <-. apply (blank_track_length _ _ _ _ _ _ _ _ Hbt). unfold NUM_MAX_BYTES_TRACK. lia. }
  exists f. split; [done|]. intros t Ht. destruct (Hslot t) as (data & d & l & Hdata & Hb). exists d, l.
  split; [|destruct Hb as [_ Hd Hf Hl _ Hhd _]; split; [done|]; split; [done|]; split; [done|]; intros x Hx; by apply Hhd].
  apply (slot_track_at f (g64_slot t) 21 (h t) 7692 8 9 data d l); [|exact Hb|unfold NUM_MAX_BYTES_TRACK; lia]. apply Hat; [done|].
  destruct (Forall2_lookup_l _ _ _ (Z.to_nat (t - 1)) t Hts) as (b & Hb' & Hrb); [apply lookup_seqZ; lia|congruence].
Qed.

(** ** Properties *)

(** C6: A G64 image that is created in a fresh file and opened is recognised, and from then on any sequence of reads
    and writes of sectors on tracks of one length returns what it returns on the map from track and sector to 256
    bytes that are 0 at first; the errors of addresses without a sector included. *)
Theorem created_g64_refines {host : Host} {p64 : P64} fuel name f : fresh f ->
  exists f', fsimage_create (Some f) DISK_IMAGE_TYPE_G64 = Some (0, Some f') /\
    forall g, fd_ (gimage g) = Some f' -> gtracks g = None -> di_read_only (gimage g) = 0 -> gid g = UINT32_MAX ->
      0 <= ghead g < 8 * g64_size 18 ->
      exists g', fsimage_probe (S fuel) name g = Some (0, g') /\ di_type (gimage g') = DISK_IMAGE_TYPE_G64 /\
        forall t0 buf ops, 1 <= t0 <= 35 -> mlen buf = 256 -> Forall (file_op_ok (g64_zone t0)) ops ->
          exists g'', run_file_ops (S fuel) buf ops g' = Some ((map_file_ops buf ops blank_g64).1, g'').
Proof.
  intros Hfresh. destruct (create_g64_run f Hfresh) as (f' & Hrun & Hc). exists f'. split; [done|].
  intros g Hf Hm Hr Hid Hhead. destruct (probe_g64_run fuel name f' g Hc Hf Hm Hr Hid Hhead) as (c & Hprobe).
  eexists. split; [exact Hprobe|]. split; [done|]. intros t0 buf ops Ht0 Hbuf Hops.
  set (g' := GcrFile _ _ _ _ _). pose proof (g64_size_bounds t0).
  assert (g64_open f' g') as Hopen by (split; [done|done|done|done|cbn; lia|by right]).
  destruct (file_ops_run (g64_zone t0) (g64_size t0) fuel buf ops Hbuf Hops g' blank_g64) as (g'' & Hops' & _); [|by exists g''].
  exists f', g64_slot, 7928, 684. apply g64_holds; [done|]. change (ghead g') with 40. lia.
Qed.

(** C36: On a created G64 image, after the last sector of one of the tracks 1 to 17 was read, reading any sector of a
    track from 18 on looks for its mark behind the end of the data of that track: the position of the search is kept
    although the track is shorter. *)
Theorem created_g64_overrun {host : Host} {p64 : P64} fuel name f : fresh f ->
  exists f', fsimage_create (Some f) DISK_IMAGE_TYPE_G64 = Some (0, Some f') /\
    forall g, fd_ (gimage g) = Some f' -> gtracks g = None -> di_read_only (gimage g) = 0 -> gid g = UINT32_MAX ->
      0 <= ghead g < 8 * g64_size 18 ->
      exists g', fsimage_probe (S fuel) name g = Some (0, g') /\
        forall t1 t2 s buf, 1 <= t1 <= 17 -> 18 <= t2 <= 35 -> mlen buf = 256 ->
          (exists data g'', fsimage_gcr_read_sector (S fuel) buf t1 20 g' = Some ((CBMDOS_IPE_OK, data), g'')) /\
          run_file_ops (S fuel) buf [ReadAt t1 20; ReadAt t2 s] g' = None.
Proof.
  intros Hfresh. destruct (create_g64_run f Hfresh) as (f' & Hrun & Hc). exists f'. split; [done|].
  intros g Hf Hm Hr Hid Hhead. destruct (probe_g64_run fuel name f' g Hc Hf Hm Hr Hid Hhead) as (c & Hprobe).
  eexists. split; [exact Hprobe|]. intros t1 t2 s buf Ht1 Ht2 Hbuf.
  set (g' := GcrFile _ _ _ _ _). pose proof (g64_size_bounds t1) as Hs1.
  assert (g64_open f' g') as Hopen by (split; [done|done|done|done|cbn; lia|by right]).
  pose proof (g64_holds f' g' t1 Hopen ltac:(change (ghead g') with 40; lia)) as Hg.
  destruct (gf_track _ Hc t1 ltac:(lia)) as (data & d & l & Hdata & Htr).
  assert (g64_sectors t1 = 21 /\ g64_size t1 = 7692 /\ g64_size t2 <= 7142 /\
    Geometry.disk_image_gap_size DISK_IMAGE_TYPE_G64 t1 = 8 /\ Geometry.disk_image_header_gap_size DISK_IMAGE_TYPE_G64 t1 = 9)
    as (Hk & Hs & Hs2 & Hgap & Hhg).
  { assert (forallb (fun t => bool_decide (g64_sectors t = 21 /\ g64_size t = 7692 /\
      Geometry.disk_image_gap_size DISK_IMAGE_TYPE_G64 t = 8 /\ Geometry.disk_image_header_gap_size DISK_IMAGE_TYPE_G64 t = 9))
      (seqZ 1 17) = true) as H1 by (vm_compute; reflexivity).
    assert (forallb (fun t => bool_decide (g64_size t <= 7142)) (seqZ 18 18) = true) as H2 by (vm_compute; reflexivity).
    rewrite forallb_forall in H1, H2.
    assert (In t1 (seqZ 1 17)) as I1 by (apply list_elem_of_In, elem_of_seqZ; lia).
    assert (In t2 (seqZ 18 18)) as I2 by (apply list_elem_of_In, elem_of_seqZ; lia).
    specialize (H1 t1 I1). specialize (H2 t2 I2). apply bool_decide_eq_true_1 in H1 as (A1 & A2 & A3 & A4).
    apply bool_decide_eq_true_1 in H2. exact (conj A1 (conj A2 (conj H2 (conj A3 A4)))). }
  destruct (g64_sector_at t1 data d l 20 Htr ltac:(lia)) as (x & Hx & Hx20 & _ & gap & hg & Hgap' & Hhg' & Hpos).
  destruct (read_found_run _ _ _ _ _ _ _ _ Hg fuel t1 buf d l x) as (c' & Hread & _);
    [apply in_zone; split; [done|lia]|by apply (g64_track_file f' g' t1 data); [|lia| |]|done|done|].
  rewrite Hx20 in Hread. split; [eexists _, _; exact Hread|]. cbn [run_file_ops run_file_op]. rewrite (bind_run _ _ _ _ _ Hread).
  unfold bindST at 1, bindST at 1. destruct (gf_track _ Hc t2 ltac:(lia)) as (data2 & d2 & l2 & Hdata2 & Htr2).
  rewrite (read_behind fuel f' (g64_zone t2) g64_slot 7928 684 (gid g') (g64_size t2) t2 blank_g64 d2 l2); [done|done| | | | |done| | |].
  - apply g64_placed; [apply (gf_layout _ Hc)|]. by intros t [_ Ht]%in_zone.
  - apply in_zone. split; [done|lia].
  - lia.
  - cbn. lia.
  - by apply (g64_track_file f' g' t2 data2); [|lia| |].
  - lia.
  - cbn [moved set_current set_ghead ghead]. rewrite Hpos, Hs. rewrite Hgap in Hgap'. rewrite Hhg in Hhg'.
    replace (345 + hg + gap)%nat with 362%nat by lia. change ((20 * (8 * Z.of_nat 362) + 40) mod (8 * 7692)) with 57960. lia.
Qed.

(** C38: Reading a track whose headers have a wrong number never ends when the number leads to two other tracks whose
    numbers lead from one to the other: after any number of rounds the program is at one of them. *)
Theorem follow_never_ends f T off mtl lim g n o a b : fd_ (gimage g) = Some f -> placed f T off mtl lim ->
  o ∈ T -> a ∈ T -> b ∈ T -> 1 <= o <= 84 -> 1 <= a <= 84 -> 1 <= b <= 84 -> a <> b -> o <> a -> o <> b ->
  numbered f (off o) n (2 * o - a) -> numbered f (off a) n (2 * a - b) -> numbered f (off b) n (2 * b - a) ->
  0 <= 2 * o - a -> 0 <= 2 * a - b -> 0 <= 2 * b - a -> n <= mtl < 65536 -> 0 <= ghead g < 8 * n ->
  ~ (exists t, t ∈ [o; a; b] /\ current_half_track g = 2 * t) ->
  (forall k, exists p, forall fuel, fsimage_gcr_read_track (S (k * 2) + fuel) o g = read_half_track fuel (2 * o) (2 * a) (set_ghead p g)) /\
  (forall fuel, fsimage_gcr_read_track fuel o g = None).
Proof.
  intros Hfd Hpl Ho Ha Hb Ho84 Ha84 Hb84 Hab Hoa Hob Hno Hna Hnb Hno0 Hna0 Hnb0 Hmtl Hhead Hcur.
  assert (forall t, t ∈ [o; a; b] -> 2 * t <> current_half_track g) as Hc by (intros t Ht Heq; apply Hcur; by exists t).
  assert (Ha' : forall p, 0 <= p < 8 * n -> exists q, 0 <= q < 8 * n /\ forall fuel,
      read_half_track (S fuel) (2 * o) (2 * a) (set_ghead p g) = read_half_track fuel (2 * o) (2 * b) (set_ghead q g)).
  { intros p Hp. destruct (follow_step (2 * o) f T off mtl lim (set_ghead p g) a n (2 * a - b)) as (q & Hq & Hrun);
      [done|done|done|done|done|lia|done|done|apply Hc; set_solver|lia|lia|lia|]. exists q. split; [done|]. intros fuel.
    rewrite Hrun. f_equal. lia. }
  assert (Hb' : forall p, 0 <= p < 8 * n -> exists q, 0 <= q < 8 * n /\ forall fuel,
      read_half_track (S fuel) (2 * o) (2 * b) (set_ghead p g) = read_half_track fuel (2 * o) (2 * a) (set_ghead q g)).
  { intros p Hp. destruct (follow_step (2 * o) f T off mtl lim (set_ghead p g) b n (2 * b - a)) as (q & Hq & Hrun);
      [done|done|done|done|done|lia|done|done|apply Hc; set_solver|lia|lia|lia|]. exists q. split; [done|]. intros fuel.
    rewrite Hrun. f_equal. lia. }
  assert (Hk : forall k, exists p, 0 <= p < 8 * n /\
    forall fuel, fsimage_gcr_read_track (S (k * 2) + fuel) o g = read_half_track fuel (2 * o) (2 * a) (set_ghead p g)).
  { induction k as [|k (p & Hp & IH)].
    - destruct (follow_step (2 * o) f T off mtl lim g o n (2 * o - a)) as (q & Hq & Hrun);
        [done|done|done|done|done|lia|done|done|apply Hc; set_solver|lia|lia|lia|]. exists q. split; [done|]. intros fuel.
      unfold fsimage_gcr_read_track, fsimage_gcr_read_half_track. replace (u32 (o * 2)) with (2 * o) by (rewrite u32_small; lia).
      cbn [Nat.mul Nat.add]. rewrite Hrun. f_equal. lia.
    - destruct (Ha' p Hp) as (q & Hq & Hrun). destruct (Hb' q Hq) as (r & Hr & Hrun'). exists r. split; [done|]. intros fuel.
      rewrite <- Hrun', <- Hrun, <- IH. f_equal. lia. }
  split; [intros k; destruct (Hk k) as (p & _ & Hrun); by exists p|]. intros fuel.
  destruct (Hk fuel) as (p & Hp & Hrun). specialize (Hrun 0%nat).
  unfold fsimage_gcr_read_track, fsimage_gcr_read_half_track in *. apply (read_fewer _ _ _ _ (S (fuel * 2) + 0)%nat); [lia|exact Hrun].
Qed.

End GcrFileSpec.

(** ** Witnesses *)

#[local] Instance plain_host : Host := {| read_p64_image := None; archdep_stat := fun _ => None; zfile_fopen := fun _ _ => None |}.
#[local] Instance plain_p64 : P64 := {| p64_blank := []; p64_read := fun _ => 0 |}.

Definition empty_file : file_t := File 0 (fun _ => 0) true.

(** Writing and reading back a sector, a sector of another track, and one that does not exist *)
Lemma created_g64_refines_witness :
  exists f' g' g'', fsimage_create (Some empty_file) DISK_IMAGE_TYPE_G64 = Some (0, Some f') /\
    fsimage_probe 1 [] (opened_file f') = Some (0, g') /\
    GcrFileSpec.run_file_ops 1 (replicate 256 3) [GcrFileSpec.WriteAt 17 20 (replicate 256 7); GcrFileSpec.ReadAt 17 20;
      GcrFileSpec.ReadAt 1 0; GcrFileSpec.ReadAt 1 21] g'
    = Some ([(0, []); (CBMDOS_IPE_OK, replicate 256 7); (CBMDOS_IPE_OK, replicate 256 0);
             (CBMDOS_IPE_READ_ERROR_BNF, replicate 256 3)], g'').
Proof.
  assert (H7 : bytes_ok (replicate 256 7)) by (by apply Forall_replicate).
  assert (H1 : 1 ∈ GcrFileSpec.g64_zone 1) by (apply GcrFileSpec.in_zone; split; [reflexivity|lia]).
  assert (H17 : 17 ∈ GcrFileSpec.g64_zone 1) by (apply GcrFileSpec.in_zone; split; [reflexivity|lia]).
  destruct (GcrFileSpec.created_g64_refines 0 [] empty_file) as (f' & Hrun & Hg); [split; reflexivity|].
  destruct (Hg (opened_file f')) as (g' & Hprobe & _ & Hops);
    [reflexivity|reflexivity|reflexivity|reflexivity|vm_compute; split; congruence|].
  destruct (Hops 1 (replicate 256 3) [GcrFileSpec.WriteAt 17 20 (replicate 256 7); GcrFileSpec.ReadAt 17 20;
      GcrFileSpec.ReadAt 1 0; GcrFileSpec.ReadAt 1 21]) as (g'' & Hres).
  - lia.
  - reflexivity.
  - constructor; [|constructor; [|constructor; [|constructor; [|constructor]]]].
    + split; [exact H17|]. split; [lia|]. split; [reflexivity|exact H7].
    + split; [exact H17|lia].
    + split; [exact H1|lia].
    + split; [exact H1|lia].
  - exists f', g', g''. split; [exact Hrun|]. split; [exact Hprobe|]. rewrite Hres. reflexivity.
Defined.

Lemma created_g64_overrun_witness :
  exists f' g', fsimage_create (Some empty_file) DISK_IMAGE_TYPE_G64 = Some (0, Some f') /\
    fsimage_probe 1 [] (opened_file f') = Some (0, g') /\
    GcrFileSpec.run_file_ops 1 (replicate 256 0) [GcrFileSpec.ReadAt 17 20; GcrFileSpec.ReadAt 18 1] g' = None.
Proof.
  destruct (GcrFileSpec.created_g64_overrun 0 [] empty_file) as (f' & Hrun & Hg); [split; reflexivity|].
  destruct (Hg (opened_file f')) as (g' & Hprobe & Hops);
    [reflexivity|reflexivity|reflexivity|reflexivity|vm_compute; split; congruence|].
  exists f', g'. split; [exact Hrun|]. split; [exact Hprobe|].
  apply (Hops 17 18 1 (replicate 256 0)); [lia|lia|reflexivity].
Defined.

(** Track 12 with number 13, track 11 with number 12, track 10 with number 9 *)
Definition wrong_number (t : Z) : Z := if t =? 12 then 13 else if t =? 11 then 12 else 9.

Lemma follow_never_ends_witness : exists f, forall fuel, fsimage_gcr_read_track fuel 12 (opened_file f) = None.
Proof.
  destruct (GcrFileSpec.numbered_file_run wrong_number) as (f & Hlay & Hnum).
  { intros t. unfold is_byte, wrong_number. repeat case_match; lia. }
  exists f. apply (GcrFileSpec.follow_never_ends f [12; 11; 10] GcrFileSpec.g64_slot 7928 684 (opened_file f) 7692 12 11 10);
    try lia; try set_solver; try reflexivity.
  - apply GcrFileSpec.g64_placed; [exact Hlay|]. intros t Ht. set_unfold. lia.
  - exact (Hnum 12 ltac:(lia)).
  - exact (Hnum 11 ltac:(lia)).
  - exact (Hnum 10 ltac:(lia)).
Defined.
