(* ===== verification/Charset.v ===== *)
(** * Character sets

    Models [src/lib/vdrive/charset.c]: the conversions between PETSCII, ASCII, screen codes
    and UTF-8. A string is the list of its bytes in front of the terminator; [isprint],
    [isdigit] and [toupper] are those of the C locale, and a [size_t] has 32 bits. *)

From Stdlib Require Import Ascii String.
From S2P Require Import Prelude Geometry Image VDrive Bam BamAlloc Cbmdos.

Definition CONVERT_TO_PETSCII : Z := 0.
Definition CONVERT_TO_ASCII : Z := 1.
Definition CONVERT_TO_ASCII_WITH_CTRLCODES : Z := 2.
Definition CONVERT_TO_UTF8 : Z := 3.
Definition CONVERT_WITHOUT_CTRLCODES : Z := 0.
Definition CONVERT_WITH_CTRLCODES : Z := 1.
Definition ASCII_UNMAPPED : Z := ch ".".
Definition PETSCII_UNMAPPED : Z := 0x3f.

Module Charset.

Definition between (a c b : Z) : bool := (a <=? c) && (c <=? b).
Definition isprint (c : Z) : bool := between 0x20 c 0x7e.
Definition isdigit (c : Z) : bool := between (ch "0") c (ch "9").

Definition util_tolower (c : Z) : Z := if between (ch "A") c (ch "Z") then c + 32 else c.
Definition util_toupper (c : Z) : Z := if between (ch "a") c (ch "z") then c - 32 else c.

(** ** Single characters *)

Definition petcii_fix_dupes (c : Z) : Z :=
  if between 0x60 c 0x7f then c - 0x60 + 0xc0
  else if 0xe0 <=? c then c - 0xe0 + 0xa0
  else c.

Definition charset_p_toascii (c mode : Z) : Z :=
  let c := if negb (mode =? 0) && (c <=? 0x1f) then c + 0x40 else c in
  let c := petcii_fix_dupes c in
  if c =? 0x0d then 0x0a
  else if c =? 0x0a then 0x0d
  else if c <=? 0x1f then ASCII_UNMAPPED
  else if c =? 0xa0 then ch " "
  else if between 0xc1 c 0xda then c - 0xc1 + ch "A"
  else if between 0x41 c 0x5a then c - 0x41 + ch "a"
  else if isprint c then c else ASCII_UNMAPPED.

Definition charset_p_topetscii (c : Z) : Z :=
  if c =? 0x0a then 0x0d
  else if c =? 0x0d then 0x0a
  else if c <=? 0x1f then PETSCII_UNMAPPED
  else if c =? ch "`" then 0x27
  else if between (ch "a") c (ch "z") then c - ch "a" + 0x41
  else if between (ch "A") c (ch "Z") then c - ch "A" + 0xc1
  else if 0x7b <=? c then PETSCII_UNMAPPED
  else petcii_fix_dupes c.

Definition charset_screencode_to_petscii (code : Z) : Z :=
  let code := Z.land code 0x7f in
  if code <=? 0x1f then code + 0x40
  else if between 0x40 code 0x5f then code + 0x20
  else code.

Definition charset_petscii_to_screencode (code reverse_mode : Z) : Z :=
  let rev := if reverse_mode =? 0 then 0 else 0x80 in
  if between 0x40 code 0x5f then Z.lor (code - 0x40) rev
  else if between 0x60 code 0x7f then Z.lor (code - 0x20) rev
  else if between 0xa0 code 0xbf then Z.lor (code - 0x40) rev
  else if between 0xc0 code 0xfe then Z.lor (code - 0x80) rev
  else if code =? 0xff then Z.lor 0x5e rev
  else Z.lor code rev.

(** The screen codes of a line; their number is its length. *)
Definition charset_petscii_to_screencode_line (line : mem) : mem :=
  (fun c => charset_petscii_to_screencode c 0) <$> line.

Definition charset_petscii_to_ucs (c : Z) : Z :=
  if c =? 0x5c then 0xa3
  else if c =? 0x5e then 0x2191
  else if c =? 0x5f then 0x2190
  else if (c =? 0xa0) || (c =? 0xe0) then 0xa0
  else if c =? 0xc0 then 0x2500
  else if (c =? 0xde) || (c =? 0xff) then 0x3c0
  else charset_p_toascii c CONVERT_WITHOUT_CTRLCODES.

(** ** Strings *)

(** The number of bytes of a line ending at the start of the string *)
Definition test_lineend (s : mem) : Z :=
  match s with
  | c :: r => if (c =? 0x0d) && (default 0 (head r) =? 0x0a) then 2
              else if c =? 0x0a then 1
              else if c =? 0x0d then 1
              else 0
  | [] => 0
  end.

(** The conversion to PETSCII; [skip] bytes belong to the line ending in front. *)
Fixpoint petscii_from (skip : nat) (s : mem) : mem :=
  match s with
  | [] => []
  | c :: r =>
      match skip with
      | S skip => petscii_from skip r
      | O => let n := test_lineend s in
             if negb (n =? 0) then 0x0d :: petscii_from (Z.to_nat (n - 1)) r
             else charset_p_topetscii c :: petscii_from 0 r
      end
  end.

Definition to_ascii (mode : Z) (s : mem) : mem := (fun c => charset_p_toascii c mode) <$> s.

(** In place: what the string is afterwards *)
Definition charset_petconvstring (c : mem) (mode : Z) : mem :=
  if mode =? CONVERT_TO_PETSCII then petscii_from 0 c
  else if mode =? CONVERT_TO_ASCII then to_ascii CONVERT_WITHOUT_CTRLCODES c
  else if mode =? CONVERT_TO_ASCII_WITH_CTRLCODES then to_ascii CONVERT_WITH_CTRLCODES c
  else [].

(** The bytes of a code point, and how many they are; they are stored if [len] has room
    for them. *)
Definition utf8_bytes (code : Z) : mem :=
  let tail s := Z.lor 0x80 (u8 (Z.land (Z.shiftr code s) 0x3f)) in
  if between 0 code 0x7f then [u8 code]
  else if between 0x80 code 0x7ff then [Z.lor 0xc0 (u8 (Z.shiftr code 6)); tail 0]
  else if between 0x800 code 0xffff then [Z.lor 0xe0 (u8 (Z.shiftr code 12)); tail 6; tail 0]
  else if between 0x10000 code 0x10ffff then [Z.lor 0xe0 (u8 (Z.shiftr code 18)); tail 12; tail 6; tail 0]
  else [].

Definition charset_ucs_to_utf8 (buf : mem) (out code len : Z) : option (Z * mem) :=
  let bytes := utf8_bytes code in
  if mlen bytes <=? len then buf ← splice buf out bytes; Some (mlen bytes, buf) else Some (mlen bytes, buf).

(** A pass over the string; [len - (d - buf)] is unsigned. *)
Fixpoint utf8_pass (s : mem) (len d : Z) (buf : mem) : option (Z * mem) :=
  match s with
  | [] => Some (d, buf)
  | c :: s =>
      '(n, buf) ← charset_ucs_to_utf8 buf d (charset_petscii_to_ucs c) (u32 (len - d));
      utf8_pass s len (d + n) buf
  end.

Section alloc.
Context {platform : Platform}.

(** The pass is made again with more memory when the result was too long. *)
Fixpoint utf8_loop (fuel : nat) (s : mem) (len : Z) (buf : mem) : option (Z * mem) :=
  match fuel with
  | O => None
  | S fuel =>
      '(d, buf) ← utf8_pass s len 0 buf;
      if len <? d then utf8_loop fuel s d (take (Z.to_nat (d + 1)) (buf ++ lib_malloc (d + 1)))
      else Some (d, buf)
  end.

(** The allocated buffer *)
Definition charset_petconv_stralloc (fuel : nat) (s : mem) (mode : Z) : option mem :=
  let len := mlen s in
  let buf := lib_malloc (len + 1) in
  '(d, buf) ← (if mode =? CONVERT_TO_PETSCII then
                 let r := petscii_from 0 s in buf ← splice buf 0 r; Some (mlen r, buf)
               else if mode =? CONVERT_TO_ASCII then
                 let r := to_ascii CONVERT_WITHOUT_CTRLCODES s in buf ← splice buf 0 r; Some (mlen r, buf)
               else if mode =? CONVERT_TO_UTF8 then utf8_loop fuel s len buf
               else Some (0, buf));
  putb buf d 0.

End alloc.

(** ** Hexadecimal codes *)

(** The digits behind a dollar sign: the position behind them, their count and value. A
    letter adds its distance from A. *)
Fixpoint hex_digits (s : mem) (next digit value : Z) : Z * Z * Z :=
  match s with
  | [] => (next, digit, value)
  | x :: s =>
      if digit <? 2 then
        let value := u8 (Z.shiftl value 4) in
        let c := util_toupper x in
        if between (ch "A") c (ch "F") then hex_digits s (next + 1) (digit + 1) (u8 (value + (c - ch "A")))
        else if isdigit c then hex_digits s (next + 1) (digit + 1) (u8 (value + (c - ch "0")))
        else (next + 1, digit + 1, value)
      else (next, digit + 1, value)
  end.

(** The byte that is stored, and the number of bytes that are read *)
Definition charset_hexstring_to_byte (source : mem) : option (Z * Z) :=
  c ← head source;
  let '(next, digit, value) := hex_digits (tail source) 1 0 0 in
  Some (if digit <? 2 then (c, 1) else (value, next)).

Fixpoint replace_hexcodes (skip : nat) (s : mem) : option mem :=
  match s with
  | [] => Some []
  | c :: r =>
      match skip with
      | S skip => replace_hexcodes skip r
      | O => if c =? ch "$" then
               '(x, n) ← charset_hexstring_to_byte s; rest ← replace_hexcodes (Z.to_nat (n - 1)) r; Some (x :: rest)
             else rest ← replace_hexcodes 0 r; Some (c :: rest)
      end
  end.

(** A stored byte 0 ends the string only for its readers. *)
Definition charset_replace_hexcodes (source : option mem) : option mem := replace_hexcodes 0 (default [] source).

End Charset.
