(* ===== verification/CharsetSpec.v ===== *)
(** * Specification of the character sets

    Text survives the way to PETSCII and back; the conversion of a string to UTF-8 is right
    as long as it does not outgrow its buffer in front of its last character, where it
    writes behind the buffer. *)

From Stdlib Require Import Ascii String.
From S2P Require Import Prelude Geometry Image VDrive Bam BamAlloc Cbmdos Charset.
Import Charset.

Module CharsetSpec.

(** ** ASCII and PETSCII *)

(** The text that both character sets have: line feeds and the printable characters up to z
    but the accent *)
Definition shared_char (c : Z) : bool := (c =? 0x0a) || (between 0x20 c 0x7a && negb (c =? ch "`")).

Lemma byte_cases (P : Z -> bool) : forallb P (seqZ 0 256) = true -> forall c, 0 <= c < 256 -> P c = true.
Proof. intros H c Hc. rewrite forallb_forall in H. apply H, list_elem_of_In, elem_of_seqZ. lia. Qed.

Lemma shared_back c : 0 <= c < 256 -> shared_char c = true ->
  charset_p_toascii (charset_p_topetscii c) CONVERT_WITHOUT_CTRLCODES = c /\ c <> 0x0d /\
  (c =? 0x0a = true -> charset_p_toascii 0x0d CONVERT_WITHOUT_CTRLCODES = c).
Proof.
  intros Hc Hs. assert (forallb (fun c => negb (shared_char c) ||
    ((charset_p_toascii (charset_p_topetscii c) CONVERT_WITHOUT_CTRLCODES =? c) && negb (c =? 0x0d))) (seqZ 0 256) = true) as Hall
    by (vm_compute; reflexivity).
  pose proof (byte_cases _ Hall c Hc) as H. cbn beta in H. rewrite Hs in H. cbn [negb orb] in H.
  apply andb_true_iff in H as [H1 H2]. apply Z.eqb_eq in H1. apply negb_true_iff, Z.eqb_neq in H2.
  split; [done|]. split; [done|]. intros ->%Z.eqb_eq. reflexivity.
Qed.

(** A text in front of a string is converted and comes back. *)
Lemma text_back s r : Forall (fun c => 0 <= c < 256 /\ shared_char c = true) s ->
  to_ascii CONVERT_WITHOUT_CTRLCODES (petscii_from 0 (s ++ r)) = s ++ to_ascii CONVERT_WITHOUT_CTRLCODES (petscii_from 0 r).
Proof.
  induction 1 as [|c s [Hc Hsh] _ IH]; [done|]. destruct (shared_back c Hc Hsh) as (Hback & Hcr & Hlf).
  cbn [app petscii_from test_lineend]. rewrite (proj2 (Z.eqb_neq c 0x0d)) by done. cbn [andb].
  destruct (c =? 0x0a) eqn:He; cbn [negb Z.eqb]; unfold to_ascii at 1; rewrite fmap_cons;
    fold (to_ascii CONVERT_WITHOUT_CTRLCODES (petscii_from 0 (s ++ r))).
  - rewrite <- IH. change (Z.to_nat (1 - 1)) with 0%nat. f_equal. by apply Hlf.
  - by rewrite Hback, IH.
Qed.

(** ** UTF-8 *)

Lemma mlen_cons c (s : mem) : mlen (c :: s) = 1 + mlen s.
Proof. unfold mlen. cbn [length]. lia. Qed.

(** The bytes of the converted string *)
Definition utf8 (s : mem) : mem := s ≫= fun c => utf8_bytes (charset_petscii_to_ucs c).

Lemma utf8_char c : 0 <= c < 256 -> 1 <= mlen (utf8_bytes (charset_petscii_to_ucs c)) <= 3.
Proof.
  intros Hc. assert (forallb (fun c => (1 <=? mlen (utf8_bytes (charset_petscii_to_ucs c)))
    && (mlen (utf8_bytes (charset_petscii_to_ucs c)) <=? 3)) (seqZ 0 256) = true) as Hall by (vm_compute; reflexivity).
  pose proof (byte_cases _ Hall c Hc) as H. cbn beta in H. lia.
Qed.

Lemma utf8_cons c s : mlen (utf8 (c :: s)) = mlen (utf8_bytes (charset_petscii_to_ucs c)) + mlen (utf8 s).
Proof. unfold utf8. cbn [mbind list_bind]. apply mlen_app. Qed.

(** The text in front of one of the characters is too long. *)
Fixpoint outgrows (s : mem) (len d : Z) : bool :=
  match s with
  | [] => false
  | c :: s => (len <? d) || outgrows s len (d + mlen (utf8_bytes (charset_petscii_to_ucs c)))
  end.

Lemma outgrows_spec s len : forall d, outgrows s len d = true <->
  exists k, (k < length s)%nat /\ len < d + mlen (utf8 (take k s)).
Proof.
  induction s as [|c s IH]; intros d; cbn [outgrows length].
  - split; [done|]. intros (k & Hk & _). lia.
  - rewrite orb_true_iff, IH. split.
    + intros [Hd%Z.ltb_lt|(k & Hk & Hlen)].
      * exists 0%nat. split; [lia|]. cbn. change (mlen []) with 0. lia.
      * exists (S k). split; [lia|]. cbn [take]. rewrite utf8_cons. lia.
    + intros ([|k] & Hk & Hlen).
      * left. apply Z.ltb_lt. cbn in Hlen. change (mlen []) with 0 in Hlen. lia.
      * right. exists k. split; [lia|]. cbn [take] in Hlen. rewrite utf8_cons in Hlen. lia.
Qed.

(** A pass over the string *)
Lemma pass_run s len : bytes_ok s -> 0 <= len < 2 ^ 31 -> forall d pre buf, mlen buf = len + 1 -> 0 <= d -> d + 3 * mlen s < 2 ^ 31 ->
  (d <= len -> mlen pre = d /\ exists rest, buf = pre ++ rest) ->
  if outgrows s len d then utf8_pass s len d buf = None
  else exists buf', utf8_pass s len d buf = Some (d + mlen (utf8 s), buf') /\ mlen buf' = len + 1 /\
    (d + mlen (utf8 s) <= len -> exists rest, buf' = (pre ++ utf8 s) ++ rest).
Proof.
  intros Hs Hlen. induction Hs as [|c s Hc Hs IH]; intros d pre buf Hbuf Hd Hsz Hpre; cbn [outgrows utf8_pass].
  { exists buf. change (mlen (utf8 [])) with 0. rewrite Z.add_0_r. split; [done|]. split; [done|]. intros Hle.
    destruct (Hpre Hle) as (_ & rest & Hr). exists rest. by rewrite app_nil_r. }
  pose proof (utf8_char c Hc) as Hn. set (bytes := utf8_bytes (charset_petscii_to_ucs c)) in *.
  rewrite mlen_cons in Hsz. pose proof (mlen_nonneg s).
  assert (Hcons : utf8 (c :: s) = bytes ++ utf8 s) by done.
  destruct (Z.ltb_spec len d) as [Hover|Hfit]; cbn [orb].
  - unfold charset_ucs_to_utf8. fold bytes. assert (u32 (len - d) = len - d + 2 ^ 32) as ->.
    { unfold u32. replace (len - d) with (len - d + 2 ^ 32 + (-1) * 4294967296) at 1 by lia. rewrite Z.mod_add by lia.
      apply Z.mod_small. unfold mlen in *. lia. }
    rewrite (proj2 (Z.leb_le _ _)) by lia. destruct (splice buf d bytes) as [b|] eqn:Hsp; [|done].
    unfold splice in Hsp. rewrite (proj2 (Z.leb_le 0 d)), (proj2 (Z.leb_gt (d + mlen bytes) (mlen buf))) in Hsp by lia. done.
  - unfold charset_ucs_to_utf8. fold bytes. rewrite u32_small by lia.
    destruct (Hpre Hfit) as (Hpl & rest & Hr). destruct (Z.leb_spec (mlen bytes) (len - d)) as [Hroom|Hno].
    + assert (exists b, splice buf d bytes = Some b /\ mlen b = len + 1 /\ exists rest', b = (pre ++ bytes) ++ rest')
        as (b & Hsp & Hb & rest' & Hb').
      { unfold splice. rewrite (proj2 (Z.leb_le 0 d)), (proj2 (Z.leb_le (d + mlen bytes) (mlen buf))) by lia. cbn [andb].
        eexists. split; [reflexivity|]. rewrite <- Hpl in *. unfold mlen in *. rewrite Nat2Z.id. split.
        - rewrite !length_app, length_take, length_drop. lia.
        - rewrite Hr, take_app_length. exists (drop (length pre + length bytes) (pre ++ rest)). by rewrite <- app_assoc. }
      rewrite Hsp. cbn [mbind option_bind].
      specialize (IH (d + mlen bytes) (pre ++ bytes) b Hb ltac:(lia) ltac:(lia)). destruct (outgrows s len (d + mlen bytes)).
      * apply IH. intros _. rewrite mlen_app. split; [lia|by exists rest'].
      * destruct IH as (buf' & Hrun & Hl' & Hc'); [intros _; rewrite mlen_app; split; [lia|by exists rest']|].
        exists buf'. rewrite Hrun, Hcons, mlen_app. split; [do 2 f_equal; lia|]. split; [done|]. intros Hle.
        destruct Hc' as (r & ->); [lia|]. exists r. by rewrite !app_assoc.
    + cbn [mbind option_bind]. specialize (IH (d + mlen bytes) pre buf Hbuf ltac:(lia) ltac:(lia)).
      destruct (outgrows s len (d + mlen bytes)).
      * apply IH. lia.
      * destruct IH as (buf' & Hrun & Hl' & _); [lia|]. exists buf'. rewrite Hrun, Hcons, mlen_app.
        split; [do 2 f_equal; lia|]. split; [done|]. pose proof (mlen_nonneg (utf8 s)). lia.
Qed.

Lemma utf8_length s : bytes_ok s -> mlen s <= mlen (utf8 s) <= 3 * mlen s.
Proof.
  induction 1 as [|c s Hc Hs IH]; [done|]. rewrite utf8_cons. pose proof (utf8_char c Hc). rewrite mlen_cons. lia.
Qed.

Lemma length_malloc {platform : Platform} n : 0 <= n -> mlen (lib_malloc n) = n.
Proof. intros Hn. unfold lib_malloc, mlen. rewrite length_fmap, length_seqZ. lia. Qed.

(** With the length of the result nothing outgrows the buffer. *)
Lemma outgrows_total s len : forall d, d + mlen (utf8 s) <= len -> outgrows s len d = false.
Proof.
  induction s as [|c s IH]; intros d Hd; [done|]. cbn [outgrows]. rewrite utf8_cons in Hd.
  pose proof (mlen_nonneg (utf8 s)). pose proof (mlen_nonneg (utf8_bytes (charset_petscii_to_ucs c))).
  rewrite (proj2 (Z.ltb_ge len d)) by lia. apply IH. lia.
Qed.

(** The terminator behind the text *)
Lemma terminated s len buf rest : mlen buf = len + 1 -> mlen (utf8 s) <= len -> buf = utf8 s ++ rest ->
  exists b, putb buf (mlen (utf8 s)) 0 = Some b /\ take (length (utf8 s) + 1) b = utf8 s ++ [0].
Proof.
  intros Hl Hle ->. pose proof (mlen_nonneg (utf8 s)). rewrite putb_eq by (rewrite mlen_app in *; lia).
  eexists. split; [reflexivity|]. unfold mlen. rewrite Nat2Z.id. destruct rest as [|x rest].
  { rewrite app_nil_r in Hl. lia. }
  rewrite insert_app_r_alt, Nat.sub_diag by lia. cbn. by rewrite take_app_add.
Qed.

(** ** Properties *)

(** C30: Text of the characters that both sets have, converted in place to PETSCII and back to ASCII, is the same
    text; the line endings of DOS become line feeds on the way. *)
Theorem text_roundtrip ls : Forall (Forall (fun c => 0 <= c < 256 /\ shared_char c = true)) ls.*1 ->
  Forall (fun e => e ∈ [[0x0a]; [0x0d; 0x0a]; []]) ls.*2 ->
  charset_petconvstring (charset_petconvstring (ls ≫= fun x => x.1 ++ x.2) CONVERT_TO_PETSCII) CONVERT_TO_ASCII
    = ls ≫= fun x => x.1 ++ (if bool_decide (x.2 = []) then [] else [0x0a]).
Proof.
  intros H1 H2. unfold charset_petconvstring. change (CONVERT_TO_PETSCII =? CONVERT_TO_PETSCII) with true.
  change (CONVERT_TO_ASCII =? CONVERT_TO_PETSCII) with false. change (CONVERT_TO_ASCII =? CONVERT_TO_ASCII) with true. cbv iota.
  induction ls as [|[s e] ls IH]; [done|]. cbn in H1, H2. apply Forall_cons in H1 as [Hs H1], H2 as [He H2].
  specialize (IH H1 H2). cbn [mbind list_bind fst snd]. rewrite <- !app_assoc, text_back by done. f_equal.
  apply elem_of_cons in He as [->|[->|[->|[]%not_elem_of_nil]%elem_of_cons]%elem_of_cons]; cbn [app petscii_from test_lineend].
  - change (bool_decide ([10] = @nil Z)) with false. cbv iota. rewrite <- IH. reflexivity.
  - change (bool_decide ([13; 10] = @nil Z)) with false. cbv iota. rewrite <- IH. reflexivity.
  - exact IH.
Qed.

(** C28: The conversion of a PETSCII string to UTF-8 allocates a buffer with exactly the bytes of its characters, unless
    the text in front of one of the characters is already longer than the whole string: then the remaining length
    is taken for a huge number, and that character is stored behind the buffer. *)
Theorem utf8_conversion_exact {platform : Platform} fuel s : bytes_ok s -> mlen s < 2 ^ 28 ->
  match charset_petconv_stralloc (S (S fuel)) s CONVERT_TO_UTF8 with
  | Some buf => take (length (utf8 s) + 1) buf = utf8 s ++ [0] /\
      forall k, (k < length s)%nat -> mlen (utf8 (take k s)) <= mlen s
  | None => exists k, (k < length s)%nat /\ mlen s < mlen (utf8 (take k s))
  end.
Proof.
  intros Hs Hsmall. pose proof (mlen_nonneg s). pose proof (utf8_length s Hs) as Hul. unfold charset_petconv_stralloc.
  change (CONVERT_TO_UTF8 =? CONVERT_TO_PETSCII) with false. change (CONVERT_TO_UTF8 =? CONVERT_TO_ASCII) with false.
  change (CONVERT_TO_UTF8 =? CONVERT_TO_UTF8) with true. cbv iota zeta.
  pose proof (pass_run s (mlen s) Hs ltac:(lia) 0 [] (lib_malloc (mlen s + 1))) as Hfirst.
  specialize (Hfirst ltac:(apply length_malloc; lia) ltac:(lia) ltac:(lia) ltac:(intros _; split; [done|by eexists])).
  destruct (outgrows s (mlen s) 0) eqn:Hout.
  { cbn [utf8_loop]. rewrite Hfirst. cbn [mbind option_bind]. by apply (outgrows_spec s (mlen s) 0) in Hout. }
  assert (Hnever : forall k, (k < length s)%nat -> mlen (utf8 (take k s)) <= mlen s).
  { intros k Hk. destruct (Z.le_gt_cases (mlen (utf8 (take k s))) (mlen s)) as [|Hgt]; [done|]. exfalso.
    assert (outgrows s (mlen s) 0 = true) as Ho; [|congruence]. apply outgrows_spec. exists k. split; [done|lia]. }
  destruct Hfirst as (buf & Hrun & Hbl & Hbc). cbn [utf8_loop]. rewrite Hrun. cbn [mbind option_bind]. rewrite Z.add_0_l in *.
  destruct (Z.ltb_spec (mlen s) (mlen (utf8 s))) as [Hlong|Hfits].
  - set (len := mlen (utf8 s)) in *. set (buf2 := take _ _).
    assert (Hb2 : mlen buf2 = len + 1).
    { unfold buf2. pose proof (length_malloc (len + 1) ltac:(lia)) as Hm. unfold mlen in *. rewrite length_take, length_app. lia. }
    pose proof (pass_run s len Hs ltac:(lia) 0 [] buf2 Hb2 ltac:(lia) ltac:(lia) ltac:(intros _; split; [done|by eexists])) as Hsecond.
    rewrite outgrows_total in Hsecond by lia. destruct Hsecond as (buf' & Hrun' & Hl' & Hc'). rewrite Hrun'. cbn [mbind option_bind].
    rewrite Z.add_0_l in *. fold len. rewrite Z.ltb_irrefl. destruct Hc' as (rest & Hrest); [unfold len; lia|].
    destruct (terminated s len buf' rest Hl' ltac:(unfold len; lia) Hrest) as (b & Hb & Ht). fold len in Hb. cbn [mbind option_bind]. rewrite Hb. done.
  - destruct Hbc as (rest & Hrest); [lia|]. destruct (terminated s (mlen s) buf rest Hbl Hfits Hrest) as (b & Hb & Ht). cbn [mbind option_bind]. rewrite Hb. done.
Qed.

End CharsetSpec.

(** ** Witnesses *)

Lemma text_roundtrip_witness :
  charset_petconvstring (charset_petconvstring (str "Hello, World" ++ [0x0d; 0x0a] ++ str "10 PRINT") CONVERT_TO_PETSCII) CONVERT_TO_ASCII
    = str "Hello, World" ++ [0x0a] ++ str "10 PRINT".
Proof.
  apply (CharsetSpec.text_roundtrip [(str "Hello, World", [0x0d; 0x0a]); (str "10 PRINT", [])]).
  - apply (bool_decide_eq_true_1 _). vm_compute. reflexivity.
  - apply (bool_decide_eq_true_1 _). vm_compute. reflexivity.
Defined.

#[local] Instance blank_memory : Platform :=
  {| malloc_fill := fun _ => 0; flux_read := fun _ buf _ _ => (0, buf); flux_write := fun image _ _ _ => (0, image) |}.

(** Two upward arrows take six bytes: the second is stored behind the three bytes of the buffer. *)
Lemma utf8_conversion_exact_witness :
  charset_petconv_stralloc 2 [0x5e; 0x5e] CONVERT_TO_UTF8 = None /\
  exists k, (k < 2)%nat /\ 2 < mlen (CharsetSpec.utf8 (take k [0x5e; 0x5e])).
Proof.
  assert (B : bytes_ok [0x5e; 0x5e]) by (by rewrite !Forall_cons, Forall_nil).
  pose proof (CharsetSpec.utf8_conversion_exact 0 [0x5e; 0x5e] B ltac:(vm_compute; reflexivity)) as H.
  assert (E : charset_petconv_stralloc 2 [0x5e; 0x5e] CONVERT_TO_UTF8 = None) by (vm_compute; reflexivity).
  rewrite E in H. split; [exact E|exact H].
Defined.
