(* ===== verification/Contents.v ===== *)
(** * Listings of an image for the host

    Models [src/lib/vdrive/diskcontents-block.c], which reads the directory of an attached
    image, [src/lib/vdrive/diskcontents.c], which does so for an image file, and
    [src/lib/vdrive/imagecontents.c], which formats its lines. The linked list of files is
    a list, and the list of visited sectors is local to the reading, where it begins empty. *)

From Stdlib Require Import Ascii String.
From S2P Require Import Prelude Geometry Image VDrive Bam BamAlloc Cbmdos Partition Directory Channel RelFile Command Copy Unit Gcr GcrFile Probe Create Attach Charset.
Import Directory.

Definition IMAGE_CONTENTS_NAME_LEN : Z := 16.
Definition IMAGE_CONTENTS_ID_LEN : Z := 5.
Definition IMAGE_CONTENTS_FILE_NAME_LEN : Z := 16.

(** A file; its name has 16 bytes *)
Record image_file_t := ImageFile { if_name : mem; if_type : mem; if_size : Z }.
Record image_contents_t := ImageContents {
  ic_name : mem;
  ic_id : mem;
  ic_blocks_free : Z;
  ic_partition : Z;
  ic_files : list image_file_t
}.

Module Contents.

(** What a reader of a string sees *)
Definition c_string (m : mem) : mem :=
  match list_find (fun c => c = 0) m with Some (k, _) => take k m | None => m end.

(** ** Formatting *)

Definition percent_d (n : Z) : mem := if n <? 0 then ch "-" :: Channel.decimal 10 (- n) else Channel.decimal 10 n.
(** [%-4u] *)
Definition percent_4u (n : Z) : mem := let d := Channel.decimal 10 n in d ++ replicate (4 - length d) 32.

Section format.
Context {platform : Platform}.

Definition convert (fuel : nat) (s : mem) (out_charset : Z) : option mem :=
  if out_charset =? CONVERT_TO_PETSCII then Some (s ++ [0]) else Charset.charset_petconv_stralloc fuel s out_charset.

Definition image_contents_to_string (fuel : nat) (contents : image_contents_t) (out_charset : Z) : option mem :=
  convert fuel (percent_d (ic_partition contents) ++ [ch " "; 34] ++ c_string (ic_name contents) ++ [34; ch " "]
                ++ c_string (ic_id contents)) out_charset.

(** The characters behind the quotation mark; [a0] tells whether a shifted space was met. *)
Fixpoint quoted (name : mem) (a0 : bool) : mem * bool :=
  match name with
  | [] => ([], a0)
  | c :: name =>
      if c =? 0 then let (r, a) := quoted name a0 in (ch "?" :: r, a)
      else if c =? 0xa0 then let (r, a) := quoted name true in ((if a0 then 0x20 else 34) :: r, a)
      else let (r, a) := quoted name a0 in (c :: r, a)
  end.

Definition image_contents_get_filename (p : image_file_t) : mem :=
  let (r, a0) := quoted (if_name p) false in 34 :: r ++ [if a0 then 0x20 else 34].

Definition image_contents_filename_to_string (fuel : nat) (p : image_file_t) (out_charset : Z) : option mem :=
  convert fuel (image_contents_get_filename p) out_charset.
Definition image_contents_filetype_to_string (fuel : nat) (p : image_file_t) (out_charset : Z) : option mem :=
  convert fuel (if_type p) out_charset.
Definition image_contents_file_to_string (fuel : nat) (p : image_file_t) (out_charset : Z) : option mem :=
  convert fuel (percent_4u (if_size p) ++ [ch " "] ++ image_contents_get_filename p ++ if_type p) out_charset.

Definition image_contents_filename_by_number (contents : option image_contents_t) (file_index : Z) : option mem :=
  c ← contents;
  if negb (file_index =? 0) then p ← ic_files c !! Z.to_nat (file_index - 1); Some (c_string (if_name p)) else None.

(** ** Reading *)

(** The file of an entry, if the entry is in use *)
Definition slot_file (p : mem) : option (option image_file_t) :=
  type ← getb p SLOT_TYPE_OFFSET;
  if type =? 0 then Some None
  else
    lo ← getb p SLOT_NR_BLOCKS; hi ← getb p (SLOT_NR_BLOCKS + 1);
    name ← slice p SLOT_NAME_OFFSET IMAGE_CONTENTS_FILE_NAME_LEN;
    text ← Cbmdos.cbmdos_filetype_get (Z.land type 0x07);
    Some (Some (ImageFile name
      ((if Z.land type CBMDOS_FT_CLOSED =? 0 then ch "*" else ch " ") :: text
       ++ [if Z.land type CBMDOS_FT_LOCKED =? 0 then ch " " else ch "<"])
      (lo + Z.shiftl hi 8))).

(** The files of the entries from number [j] on *)
Fixpoint sector_files (n : nat) (j : Z) (buffer : mem) : option (list image_file_t) :=
  match n with
  | O => Some []
  | S n =>
      p ← slice buffer (j * 32) 32; x ← slot_file p; rest ← sector_files n (j + 1) buffer;
      Some (match x with Some x => x :: rest | None => rest end)
  end.

(** The sector was visited before, or is added to those. *)
Definition circular_check (track sector : Z) (block_list : list (Z * Z)) : bool * list (Z * Z) :=
  if bool_decide ((track, sector) ∈ block_list) then (true, block_list) else (false, block_list ++ [(track, sector)]).

(** The sectors of the directory from [(curr_track, curr_sector)] on *)
Fixpoint read_blocks (fuel : nat) (block_list : list (Z * Z)) (curr_track curr_sector : Z) (buffer : mem)
    : ST vdrive_t (list image_file_t) :=
  match fuel with
  | O => ub
  | S fuel =>
      let! (retval, buffer) := VDrive.vdrive_read_sector buffer curr_track curr_sector in
      if negb (retval =? 0) then mret []
      else
        let (circular, block_list) := circular_check curr_track curr_sector block_list in
        if circular then mret []
        else
          let! files := lift (sector_files 8 0 buffer) in
          let! b0 := lift (getb buffer 0) in
          if b0 =? 0 then mret files
          else
            let! b1 := lift (getb buffer 1) in
            let! rest := read_blocks fuel block_list b0 b1 buffer in
            mret (files ++ rest)
  end.

Definition diskcontents_block_read (fuel : nat) : ST vdrive_t (option image_contents_t) :=
  let! retval := Bam.vdrive_bam_read_bam in
  let! v := state in
  if negb (retval =? 0) || (bam_size (bamc v) =? 0) then mret None
  else
    let! name := lift (b ← bam (bamc v); slice b (bam_name (geom v)) IMAGE_CONTENTS_NAME_LEN) in
    let! id := lift (b ← bam (bamc v); slice b (bam_id (geom v)) IMAGE_CONTENTS_ID_LEN) in
    let! blocks_free := Bam.vdrive_bam_free_block_count in
    let! v := state in
    let partition := selected_part (part v) in
    let! files := read_blocks fuel [] (Dir_Track (geom v)) (Dir_Sector (geom v)) (lib_malloc 256) in
    mret (Some (ImageContents name id blocks_free partition files)).

End format.

(** ** The listing of an image file *)

Section file.
Context {platform : Platform} {clock : Clock} {stack : Stack} {io : Unit_io} {p64 : P64}.

(** The image is opened for reading; [None] if that fails or there is no directory. *)
Definition diskcontents_filesystem_read (fuel : nat) (fs : Attach.host_files) (file_name : mem) (head half : Z)
    : option (option image_contents_t * Attach.host_files) :=
  i ← Attach.vdrive_internal_open_fsimage fuel fs file_name 1 head half;
  match i with
  | None => Some (None, fs)
  | Some i =>
      '(contents, v) ← diskcontents_block_read fuel (udrive (Attach.iunit i));
      '(_, fs) ← Attach.vdrive_internal_close_disk_image fuel fs
        (Attach.Internal (set_udrive v (Attach.iunit i)) (Attach.iimage i) (Attach.iname i) (Attach.ihead i) (Attach.ihalf i));
      Some (contents, fs)
  end.

End file.
End Contents.
