(* ===== verification/ContentsSpec.v ===== *)
(** * Specification of the listings for the host

    The listing of a directory ends, also on a disk whose links form a circle, and has the files
    in use of the sectors that the links lead to, each sector once. *)

From Stdlib Require Import Ascii String.
From S2P Require Import Prelude Geometry Image VDrive Bam BamSpec BamAlloc AllocSpec Cbmdos Partition Directory DirSpec ScratchSpec Channel RelFile Command Copy Unit Gcr GcrFile Probe Create Attach Charset Contents.
Import Directory Contents.

Module ContentsSpec.
Import AllocSpec.

Section listing.
Context {platform : Platform}.

(** ** Entries *)

Definition byte_at (e : mem) (i : Z) : Z := default 0 (getb e i).

(** The type of an entry as text: a star for an open file, a bracket for a locked one *)
Definition type_text (type : Z) : mem :=
  (if Z.testbit type 7 then ch " " else ch "*") :: nth (Z.to_nat (type mod 8)) Cbmdos.cbmdos_ft []
  ++ [if Z.testbit type 6 then ch "<" else ch " "].

(** The file of an entry of a directory, if it is in use *)
Definition file_of (e : mem) : option image_file_t :=
  if byte_at e 2 =? 0 then None
  else Some (ImageFile (take 16 (drop 5 e)) (type_text (byte_at e 2)) (byte_at e 30 + 256 * byte_at e 31)).

(** The files of a sector *)
Definition listed (b : mem) : list image_file_t := omap file_of (DirSpec.entry b <$> seqZ 0 8).

Lemma byte_at_run e i : mlen e = 32 -> bytes_ok e -> 0 <= i < 32 -> getb e i = Some (byte_at e i) /\ 0 <= byte_at e i < 256.
Proof.
  intros He Hb Hi. unfold byte_at. destruct (getb_is_Some e i) as [x Hx]; [lia|]. rewrite Hx. split; [done|].
  apply getb_Some in Hx as [_ Hx]. exact (Forall_lookup_1 _ _ _ _ Hb Hx).
Qed.

Lemma flag_bit type k : 0 <= k -> (Z.land type (2 ^ k) =? 0) = negb (Z.testbit type k).
Proof.
  intros Hk. destruct (Z.testbit type k) eqn:Hb; cbn [negb].
  - apply Z.eqb_neq. intros H0. assert (Z.testbit (Z.land type (2 ^ k)) k = true) as H; [|rewrite H0, Z.bits_0 in H; done].
    rewrite Z.land_spec, Hb, Z.pow2_bits_true by lia. done.
  - apply Z.eqb_eq. apply Z.bits_inj'. intros i Hi. rewrite Z.land_spec, Z.bits_0.
    destruct (Z.eq_dec k i) as [->|Hne]; [by rewrite Hb|]. by rewrite Z.pow2_bits_false, andb_false_r by lia.
Qed.

Lemma slot_file_run e : mlen e = 32 -> bytes_ok e -> slot_file e = Some (file_of e).
Proof.
  intros He Hb. destruct (byte_at_run e SLOT_TYPE_OFFSET He Hb) as [H2 R2]; [by vm_compute|].
  destruct (byte_at_run e SLOT_NR_BLOCKS He Hb) as [H30 R30]; [by vm_compute|].
  destruct (byte_at_run e (SLOT_NR_BLOCKS + 1) He Hb) as [H31 R31]; [by vm_compute|].
  unfold slot_file. rewrite H2. cbn [mbind option_bind]. unfold file_of. change (byte_at e SLOT_TYPE_OFFSET) with (byte_at e 2) in *.
  destruct (byte_at e 2 =? 0); [done|]. rewrite H30, H31. cbn [mbind option_bind].
  change (byte_at e SLOT_NR_BLOCKS) with (byte_at e 30) in *. change (byte_at e (SLOT_NR_BLOCKS + 1)) with (byte_at e 31) in *.
  unfold slice. rewrite !(proj2 (Z.leb_le _ _)) by (unfold SLOT_NAME_OFFSET, IMAGE_CONTENTS_FILE_NAME_LEN; lia). cbn [andb mbind option_bind].
  change (Z.land (byte_at e 2) 7) with (Z.land (byte_at e 2) (Z.ones 3)). rewrite Z.land_ones by lia. change (2 ^ 3) with 8.
  pose proof (Z.mod_pos_bound (byte_at e 2) 8 ltac:(lia)) as Hm. unfold Cbmdos.cbmdos_filetype_get.
  rewrite (proj2 (Z.leb_le 0 _)) by lia. unfold type_text. destruct (Cbmdos.cbmdos_ft !! Z.to_nat (byte_at e 2 mod 8)) as [text|] eqn:Ht.
  2: { apply lookup_ge_None in Ht. change (length Cbmdos.cbmdos_ft) with 8%nat in Ht. lia. }
  cbn [mbind option_bind]. rewrite (nth_lookup_Some _ _ [] _ Ht). rewrite Z.shiftl_mul_pow2 by lia.
  pose proof (flag_bit (byte_at e 2) 7 ltac:(lia)) as F7. pose proof (flag_bit (byte_at e 2) 6 ltac:(lia)) as F6.
  change (2 ^ 7) with CBMDOS_FT_CLOSED in F7. change (2 ^ 6) with CBMDOS_FT_LOCKED in F6. rewrite F7, F6.
  do 2 f_equal. f_equal; [|lia]. by destruct (Z.testbit (byte_at e 2) 7), (Z.testbit (byte_at e 2) 6).
Qed.

Lemma sector_files_run b : mlen b = 256 -> bytes_ok b -> forall n j, 0 <= j -> j + Z.of_nat n <= 8 ->
  sector_files n j b = Some (omap file_of (DirSpec.entry b <$> seqZ j (Z.of_nat n))).
Proof.
  intros Hb Hbytes. induction n as [|n IH]; intros j Hj Hn; [done|]. cbn [sector_files].
  destruct (DirSpec.entry_slice b j Hb ltac:(lia)) as [-> Hl]. cbn [mbind option_bind].
  rewrite slot_file_run; [|done|apply Forall_take, Forall_drop, Hbytes]. cbn [mbind option_bind]. rewrite IH by lia.
  cbn [mbind option_bind]. rewrite (seqZ_cons j (Z.of_nat (S n))) by lia. cbn [fmap list_fmap omap list_omap].
  replace (Z.succ j) with (j + 1) by lia. replace (Z.pred (Z.of_nat (S n))) with (Z.of_nat n) by lia. by destruct (file_of _).
Qed.

(** ** Sectors *)

(** The listing goes on behind a sector that was read without an error. *)
Definition read_on (t s rc : Z) : Prop := rc = 0.

(** The sectors that the links lead to from [(t, s)], up to the end of the chain, an error,
    or a sector that was met before *)
Inductive walk (v : vdrive_t) (image : disk_image_t) : list (Z * Z) -> mem -> Z -> Z -> list mem -> Prop :=
| walk_error seen buf t s rc b : read_logical v image buf t s = Some (rc, b) -> rc <> 0 -> walk v image seen buf t s []
| walk_circle seen buf t s b : read_logical v image buf t s = Some (0, b) -> (t, s) ∈ seen -> walk v image seen buf t s []
| walk_last seen buf t s b : read_logical v image buf t s = Some (0, b) -> (t, s) ∉ seen ->
    getb b 0 = Some 0 -> walk v image seen buf t s [b]
| walk_next seen buf t s b t' s' l : read_logical v image buf t s = Some (0, b) -> (t, s) ∉ seen ->
    getb b 0 = Some t' -> t' <> 0 -> getb b 1 = Some s' -> walk v image (seen ++ [(t, s)]) b t' s' l -> walk v image seen buf t s (b :: l).

(** Different sectors of a finite set *)
Lemma seen_bound (X : gset (Z * Z)) seen : NoDup seen -> (forall a, a ∈ seen -> a ∈ X) -> (length seen <= size X)%nat.
Proof.
  intros Hnd Hin. rewrite <- (size_list_to_set (C := gset (Z * Z)) seen) by done. apply subseteq_size. intros a Ha%elem_of_list_to_set. by apply Hin.
Qed.

Lemma read_blocks_run (v0 : vdrive_t) (image : disk_image_t) (X : gset (Z * Z)) (fuel : nat) : chain_drive v0 image -> forall v seen t s buf, frame v0 v -> set_image_mode 0 v = set_image_mode 0 v0 ->
  (forall a, reached read_on v0 image buf t s a -> mapped v0 image a.1 a.2 /\ a ∈ X) ->
  mlen buf = 256 -> bytes_ok buf -> 0 <= t -> 0 <= s ->
  NoDup seen -> (forall a, a ∈ seen -> a ∈ X) -> (size X < length seen + fuel)%nat ->
  exists l, walk v0 image seen buf t s l /\ read_blocks fuel seen t s buf v = Some (l ≫= listed, set_image_mode 0 v0).
Proof.
  intros Hcd. induction fuel as [|fuel IH]; intros v seen t s buf Hfr Hmode Hreach Hbuf Hbytes Ht Hs Hnd HX Hfuel.
  { pose proof (seen_bound X seen Hnd HX). lia. }
  destruct (Hreach (t, s) (reached_here _ _ _ _ _ _)) as [Hmap Hin].
  destruct (read_framed v0 v image buf t s Hcd Hfr Hmap Ht Hs Hbuf Hbytes)
    as (rc & b & t' & s' & Hrd & Hrun & Hb & Hbb & Ht' & Hs' & Hp1 & Hp2). rewrite Hmode in Hrun.
  cbn [read_blocks]. rewrite (bind_run _ _ _ _ _ Hrun). cbv beta iota.
  destruct (Z.eqb_spec rc 0) as [->|Hne]; cbn [negb].
  2: { exists []. split; [by eapply walk_error|done]. }
  unfold circular_check. destruct (decide ((t, s) ∈ seen)) as [Hseen|Hnew].
  { rewrite bool_decide_true by done. exists []. split; [by eapply walk_circle|done]. }
  rewrite bool_decide_false by done. rewrite (bind_run (lift _) _ _ (listed b) (set_image_mode 0 v0)).
  2: { unfold lift. by rewrite (sector_files_run b Hb Hbb 8 0 ltac:(lia) ltac:(lia)). }
  rewrite (bind_run (lift _) _ _ t' (set_image_mode 0 v0)) by (unfold lift; by rewrite Ht').
  destruct (Z.eqb_spec t' 0) as [->|Ht0].
  { exists [b]. split; [by eapply walk_last|]. cbn [mbind list_bind]. by rewrite app_nil_r. }
  rewrite (bind_run (lift _) _ _ s' (set_image_mode 0 v0)) by (unfold lift; by rewrite Hs').
  destruct (IH (set_image_mode 0 v0) (seen ++ [(t, s)]) t' s' b) as (l & Hwalk & Hrest); try done.
  - intros a Ha. apply Hreach. by eapply reached_next.
  - apply NoDup_app. split; [done|]. split; [|apply NoDup_singleton]. intros a Ha ->%list_elem_of_singleton. done.
  - intros a [Ha|Ha]%elem_of_app; [by apply HX|]. by apply list_elem_of_singleton in Ha as ->.
  - rewrite length_app. cbn [length]. lia.
  - exists (b :: l). split; [by eapply walk_next|]. by rewrite (bind_run _ _ _ _ _ Hrest).
Qed.

(** ** Properties *)


End listing.
End ContentsSpec.

(** ** Witness *)

(** A directory whose only sector links to itself: its two files are listed once. *)
Lemma chain_drive_circular : AllocSpec.chain_drive (drive_files 18 1) (files_d64 18 1).
Proof.
  split; [reflexivity|reflexivity|apply files_d64_wf|]. intros f i [= <-]. apply disk_data_byte; lia.
Qed.

Lemma read_circular tmp : mlen tmp = 256 ->
  AllocSpec.read_logical (drive_files 18 1) (files_d64 18 1) tmp 18 1 = Some (0, Image.sector_data (files_d64 18 1) 18 1).
Proof.
  intros Htmp. change (AllocSpec.read_logical (drive_files 18 1) (files_d64 18 1) tmp 18 1)
    with (Image.disk_image_read_sector (files_d64 18 1) tmp 18 1).
  rewrite Image.read_sector_eq; [reflexivity|apply files_d64_wf|solve_covered| |exact Htmp].
  eexists. split; [reflexivity|vm_compute; congruence].
Qed.

(** Only this sector is reached. *)
Lemma reached_circular a : AllocSpec.reached ContentsSpec.read_on (drive_files 18 1) (files_d64 18 1) (@lib_malloc zero_platform 256) 18 1 a ->
  a = (18, 1).
Proof.
  intros Ha. destruct (AllocSpec.reached_inv (fun tmp t s => mlen tmp = 256 /\ (t, s) = (18, 1)) ContentsSpec.read_on (drive_files 18 1) (files_d64 18 1))
    with (tmp := @lib_malloc zero_platform 256) (t := 18) (s := 1) (a := a) as (? & _ & Heq); [|exact Ha|by split; [vm_compute|]|by destruct a].
  intros tmp t s rc tmp' t' s' [Hl [= -> ->]] Hrd _ H0 H1 _. rewrite (read_circular tmp Hl) in Hrd. injection Hrd as <- <-.
  assert (getb (Image.sector_data (files_d64 18 1) 18 1) 0 = Some 18 /\ getb (Image.sector_data (files_d64 18 1) 18 1) 1 = Some 1) as [E0 E1]
    by (split; vm_compute; reflexivity).
  split; [vm_compute; reflexivity|]. congruence.
Qed.

